(* ===== verification/_CoqProject ===== *)
-Q . S2P
Prelude.v
Wire.v
PacketParser.v
UpfTypes.v
UpfSim.v
UpfMatch.v
UpfAging.v
UpfAccel.v
UpfFlow.v
FwdPkt.v
FwdTable.v
Pcc.v
Pack.v
Mpool.v
TlpCfg.v
TlpReq.v
Bits.v
BridgeData.v
BridgeCfg.v
BridgeMap.v
BridgeSlot.v
BridgeReq.v
BridgeRun.v
VnetWork.v
VnetDev.v
VnetReg.v
