(* ===== verification/Prelude.v ===== *)
(** * Verification of the C applications of doca-samples

    The repository holds applications and samples for NVIDIA DOCA devices. Most of
    the code sets up DOCA, DPDK and Flow objects; this library models the parts
    that have logic of their own and proves what makes them correct.

    ** Parts of the program and the files that model them

    - Packet parsing shared by applications (applications/common/packet_parser.c):
      PacketParser.v, on the header access of Wire.v.
    - The UPF fast path (applications/upf_accel/upf_accel_flow_processing.c with
      upf_accel.h and upf_accel_flow_processing.h). A core polls its ports; a burst
      of packets is matched, its connections are looked up or created, flows are
      moved to hardware, packets are decapsulated and sent, aged flows are removed.
      UpfTypes.v holds the data, UpfMatch.v classification, UpfAging.v the entry
      states and the aging lists, UpfAccel.v the hardware entries and callbacks,
      UpfFlow.v bursts and the main loop, UpfSim.v concrete libraries for examples.
    - The simple forwarding VNF (applications/simple_fwd_vnf): FwdPkt.v models the
      parser simple_fwd_pkt.c, FwdTable.v the flow table simple_fwd_ft.c and the
      packet handler in simple_fwd.c and simple_fwd_vnf_core.c.
    - The RTT congestion control of the PCC application
      (applications/pcc/device/rp/rtt_template/algo): Pcc.v.
    - Serialisation (applications/common/pack.c): Pack.v.
    - Buffer pools (applications/virtiofs/virtiofs_mpool.c and
      applications/vblk_pci_dev/vblk_mpool.c): Mpool.v.
    - The PCI device emulated by the TLP handler sample (samples/doca_devemu/
      devemu_pci_device_tlp_handler/dpu): TlpCfg.v models the configuration space of
      its functions, TlpReq.v requests: decoding, routing to a function, device
      memory, completions and set-up.
    - The PCI bridge emulated by the TLP bridge handler sample (samples/doca_devemu/
      devemu_pci_device_tlp_bridge_handler): BridgeData.v has its registers, devices
      and context, BridgeCfg.v reads and writes of configuration registers, BridgeMap.v
      the queue of credits, the topology and the map from bus numbers to devices,
      BridgeSlot.v slots, hot plugging, interrupts, set-up and clean-up, BridgeReq.v
      requests from the callback to the completion, BridgeRun.v the runs of the sample.
      Bits.v has the tactic that compares register values.
    - The virtio network device (applications/vnet_pci_dev): VnetWork.v models the queue
      of vnet_pci_device.c that leaves slow work to a thread, with all its submissions
      and the worker; VnetDev.v the registers of a device, the writes of the host, the
      callback of vnet_pci_dev_core.c for its status, and the reset that spans both
      threads; VnetReg.v what the host reads and writes through the registers.

    ** How the code is translated

    A C function becomes a Rocq function of the same name. The state it changes is
    passed in and returned, a structure is a record, an enum an inductive type. Code
    that can abort or leave defined behaviour returns [res A]: [Done] with the
    result, or [Crash] with what happened. Integers are [Z], with the conversion to
    the width of the C type ([u8] to [u64], [s32]) wherever it can matter. Library
    calls are fields of type classes (RteNet, RteHash, RteMbuf, DocaFlow, FwdNet,
    RteBits, PccDev, Qsort, Be32); a class of laws states the documented behaviour that
    proofs use, and an instance shows that the laws can be met. What the environment
    decides (received packets, clocks, outcomes of calls, callbacks) is an argument.
    Loops whose length is not that of a list run with fuel: the theorems on them
    prove that the stated fuel is enough, except the scan inside the UPF main loop,
    whose fuel is an argument of the iteration, because a corrupted list can make
    it run for ever.

    ** What the theorems show

    - Parsers: headers are inside the packet and follow each other (parse_layout),
      nothing behind the packet is used (parse_no_overread), the parsers agree
      (unknown_parse_agrees), and what the VNF's parser accepts (format_parses,
      parse_packet_spec).
    - UPF classification: pkt_match_spec, match_directions_agree, decap_parses,
      pdr_lookup_first, md_calc_injective.
    - UPF aging: the linked lists implement a queue of flows (move_to_head_refines,
      scan_refines), a scan ages exactly what is due (scan_ages_exactly), entries
      follow their state machine (entry_state_machine).
    - UPF offload: when a flow moves to hardware (flow_accel_ipv4), the life of a
      hardware entry (entry_lifecycle, ext_teardown_order), rules are specific to
      their flow (hw_rule_identifies_flow).
    - UPF loop: the connection table stays consistent (loop_table_invariant), every
      packet is sent or freed once, decapsulated if it was tunnelled and marked with the
      PDR of its flow (burst_conserves_packets), connection lookup (conn_lookup_new,
      conn_lookup_existing).
    - Flow table: it implements a finite map (ft_lookup, handle_packet_spec), keeps
      its invariant (create_inv, reachable_inv), ages and frees correctly
      (aging_bucket_spec, aging_round_spec, ft_destroy_frees).
    - Congestion control: the new rate (algorithm_core_spec, congestion_direction),
      its bounds (rate_in_bounds), lost requests and replies (tx_rerequests,
      tx_backoff).
    - Packing: pack_layout, fields_roundtrip.
    - Pools: no leak on any path (create_no_leak, set_no_leak), enough memory
      (memory_covers), the smallest fitting pool (set_get_smallest).
    - PCI device: capability lists can be walked (caps_walk), set-up reports failures
      (setup_success_iff), any sequence of requests is answered, request by request,
      and keeps the invariant (device_invariant), what a
      configuration request does (config_read_request, config_write_request) and
      how its completion names it (completion_header), which function serves a
      memory request (mmio_routing), base addresses (bar_program), and memory
      (memory_write_read).
    - PCI bridge: the ring of credits is a queue (acg_refines), which switch a bridge
      and its endpoint belong to (topology_groups), an interrupt says what the host
      programmed (msi_roundtrip), no run crashes or loses a handle or a credit, as long as
      the library keeps to its contract and memory requests end inside the region
      (bridge_invariant), every request is answered once and how (bridge_request_reply),
      what configuration accesses do to all registers of all devices
      (bridge_register_write, bridge_config_read, bridge_config_write), memory keeps
      what is written (bridge_memory_roundtrip), the cached map finds the device that
      the bus numbers say (find_device_coherent), what a plug or unplug command does
      (hotplug_result), and that clean-up releases everything (cleanup_releases).
    - Virtio network device: the worker takes each item once and in order, but for
      bring-ups of other functions (worker_queue_order), a shutdown ends whatever else
      happens (shutdown_drains), a reset is held and the host sees it as done only after
      a clean-up that succeeded (reset_hold), the window shows and changes one queue (queue_window), features are
      negotiated through two words (features_negotiated) and checked at FEATURES_OK
      (features_ok_checked).

    Further theorems prove behaviours that look unintended; their comments describe
    them.

    ** Not modelled

    Threads inside one operation (the flow table's aging thread runs between
    operations; a submission to the work queue is one step), the handover of a TLP channel between processes, the bridge sample's
    creation of its channel and types and the parsing of its commands, the contents of
    DOCA Flow pipes, GPU kernels, what the engine, the virtqueues and the virtual
    functions of the network device do with DOCA, the C++ applications, and the set-up
    code of the applications and samples. *)

From Stdlib Require Export ZArith Lia.
From stdpp Require Export base numbers list gmap option.

#[global] Open Scope Z_scope.

(** ** Machine integers

    A [w]-bit unsigned value is a [Z] in [0, 2^w); the conversions below are
    the C conversions to the fixed-width types. *)

Definition uwrap (w x : Z) : Z := x mod 2 ^ w.
Definition u8 (x : Z) : Z := uwrap 8 x.
Definition u16 (x : Z) : Z := uwrap 16 x.
Definition u32 (x : Z) : Z := uwrap 32 x.
Definition u64 (x : Z) : Z := uwrap 64 x.

(** Conversion to a two's-complement [w]-bit signed type. *)
Definition swrap (w x : Z) : Z := (x + 2 ^ (w - 1)) mod 2 ^ w - 2 ^ (w - 1).
Definition s32 (x : Z) : Z := swrap 32 x.

Definition in_width (w x : Z) : Prop := 0 <= x < 2 ^ w.

Lemma uwrap_range w x : 0 <= w -> in_width w (uwrap w x).
Proof. intros. apply Z.mod_pos_bound. by apply Z.pow_pos_nonneg. Qed.

Lemma uwrap_small w x : in_width w x -> uwrap w x = x.
Proof. apply Z.mod_small. Qed.

Lemma u8_range x : 0 <= u8 x < 256.
Proof. apply (uwrap_range 8). lia. Qed.
Lemma u16_range x : 0 <= u16 x < 65536.
Proof. apply (uwrap_range 16). lia. Qed.
Lemma u32_range x : 0 <= u32 x < 4294967296.
Proof. apply (uwrap_range 32). lia. Qed.
Lemma u64_range x : 0 <= u64 x < 18446744073709551616.
Proof. apply (uwrap_range 64). lia. Qed.

Lemma u8_small x : 0 <= x < 256 -> u8 x = x.
Proof. apply Z.mod_small. Qed.
Lemma u16_small x : 0 <= x < 65536 -> u16 x = x.
Proof. apply Z.mod_small. Qed.
Lemma u32_small x : 0 <= x < 4294967296 -> u32 x = x.
Proof. apply Z.mod_small. Qed.
Lemma u64_small x : 0 <= x < 18446744073709551616 -> u64 x = x.
Proof. apply Z.mod_small. Qed.

Lemma uwrap_add_l w x y : uwrap w (uwrap w x + y) = uwrap w (x + y).
Proof. apply Zplus_mod_idemp_l. Qed.
Lemma uwrap_sub_l w x y : uwrap w (uwrap w x - y) = uwrap w (x - y).
Proof. apply Zminus_mod_idemp_l. Qed.

Create HintDb width.
Create Rewrite HintDb width.
#[export] Hint Resolve u8_range u16_range u32_range u64_range : width.
#[export] Hint Rewrite uwrap_add_l uwrap_sub_l : width.

(** ** Error codes

    [doca_error_t] with the codes the modelled functions return. *)
Inductive doca_error_t :=
| DOCA_SUCCESS
| DOCA_ERROR_UNKNOWN
| DOCA_ERROR_NOT_SUPPORTED
| DOCA_ERROR_INVALID_VALUE
| DOCA_ERROR_NO_MEMORY
| DOCA_ERROR_AGAIN
| DOCA_ERROR_NOT_FOUND
| DOCA_ERROR_FULL
| DOCA_ERROR_ALREADY_EXIST
| DOCA_ERROR_BAD_STATE
| DOCA_ERROR_DRIVER
| DOCA_ERROR_UNEXPECTED.

#[global] Instance doca_error_t_eq_dec : EqDecision doca_error_t.
Proof. solve_decision. Defined.

Definition is_success (e : doca_error_t) : bool :=
  match e with DOCA_SUCCESS => true | _ => false end.

Lemma is_success_true e : is_success e = true <-> e = DOCA_SUCCESS.
Proof. by destruct e. Qed.

(** ** Computations that can abort

    C code that fires an [assert], reads or writes outside an array, through a
    null pointer or in freed memory, shifts by the width of the type or more or
    otherwise evaluates an undefined expression, or loops for ever has no result;
    [Crash] says which of these happened. *)
Inductive crash := AssertFail | OutOfBounds | NullDeref | UseAfterFree | Undefined | OutOfFuel.

Inductive res (A : Type) := Done (a : A) | Crash (c : crash).
Arguments Done {A} a.
Arguments Crash {A} c.

#[global] Instance res_ret : MRet res := fun A => @Done A.
#[global] Instance res_bind : MBind res := fun A B f m =>
  match m with Done a => f a | Crash c => Crash c end.
#[global] Instance res_fmap : FMap res := fun A B f m =>
  match m with Done a => Done (f a) | Crash c => Crash c end.

(** [assert(b)] *)
Definition assert_ (b : bool) : res unit := if b then Done tt else Crash AssertFail.

Definition is_done {A} (m : res A) : bool :=
  match m with Done _ => true | Crash _ => false end.

Lemma bind_Done {A B} (m : res A) (f : A -> res B) b :
  (m ≫= f) = Done b <-> exists a, m = Done a /\ f a = Done b.
Proof.
  destruct m as [a|c]; cbn; split.
  - eauto.
  - by intros (? & [= ->] & ?).
  - done.
  - by intros (? & ? & ?).
Qed.

(** Case analysis on the outermost monadic step of a hypothesis. *)
Ltac inv_bind H :=
  let x := fresh "x" in let E := fresh "E" in
  apply bind_Done in H as (x & E & H).

(** Case analysis on every [match] and [if] of the goal or of a hypothesis. *)
Ltac case_goal := repeat (case_match; simplify_eq/=; try done).

(** ** Bytes *)

Definition is_byte (b : Z) : Prop := 0 <= b < 256.

(** Little-endian and big-endian values of a byte list. *)
Fixpoint le_combine (l : list Z) : Z :=
  match l with [] => 0 | b :: l => b + 256 * le_combine l end.
Fixpoint le_split (n : nat) (x : Z) : list Z :=
  match n with O => [] | S n => x mod 256 :: le_split n (x / 256) end.
Definition be_combine (l : list Z) : Z := le_combine (rev l).
Definition be_split (n : nat) (x : Z) : list Z := rev (le_split n x).

Lemma length_le_split n x : length (le_split n x) = n.
Proof. revert x. induction n as [|n IH]; intros x; cbn; [done|]. by rewrite IH. Qed.

Lemma le_split_bytes n x : Forall is_byte (le_split n x).
Proof.
  revert x. induction n as [|n IH]; intros x; cbn; constructor; [|done].
  apply Z.mod_pos_bound. lia.
Qed.

Lemma le_combine_split n x : le_combine (le_split n x) = x mod 256 ^ Z.of_nat n.
Proof.
  revert x. induction n as [|n IH]; intros x; cbn [le_split le_combine].
  - by rewrite Z.mod_1_r.
  - rewrite IH, Nat2Z.inj_succ, Z.pow_succ_r by lia.
    rewrite Z.rem_mul_r; [done|lia|]. apply Z.pow_pos_nonneg; lia.
Qed.

Lemma le_combine_range l :
  Forall is_byte l -> 0 <= le_combine l < 256 ^ Z.of_nat (length l).
Proof.
  induction 1 as [|b l Hb _ IH]; cbn [le_combine length].
  - cbn. lia.
  - unfold is_byte in Hb. rewrite Nat2Z.inj_succ, Z.pow_succ_r by lia. lia.
Qed.

Lemma le_split_combine l : Forall is_byte l -> le_split (length l) (le_combine l) = l.
Proof.
  induction 1 as [|b l Hb _ IH]; cbn [le_combine length le_split]; [done|].
  unfold is_byte in Hb.
  rewrite (Z.mul_comm 256), Z_mod_plus_full, Z.mod_small by lia.
  by rewrite Z.div_add, Z.div_small, Z.add_0_l, IH by lia.
Qed.

Lemma le_combine_inj l l' :
  length l = length l' -> Forall is_byte l -> Forall is_byte l' -> le_combine l = le_combine l' -> l = l'.
Proof.
  intros Hlen Hl Hl' E. rewrite <- (le_split_combine l), <- (le_split_combine l') by done. by rewrite Hlen, E.
Qed.

Lemma length_be_split n x : length (be_split n x) = n.
Proof. unfold be_split. by rewrite length_rev, length_le_split. Qed.

Lemma be_split_bytes n x : Forall is_byte (be_split n x).
Proof. unfold be_split. apply List.Forall_rev, le_split_bytes. Qed.

Lemma be_combine_split n x : be_combine (be_split n x) = x mod 256 ^ Z.of_nat n.
Proof. unfold be_combine, be_split. by rewrite rev_involutive, le_combine_split. Qed.

Lemma be_split_inj n x y :
  0 <= x < 256 ^ Z.of_nat n -> 0 <= y < 256 ^ Z.of_nat n -> be_split n x = be_split n y -> x = y.
Proof.
  intros Hx Hy E. apply (f_equal be_combine) in E. rewrite !be_combine_split in E.
  by rewrite !Z.mod_small in E.
Qed.

(** ** Locality: a field accessor that reads only the first [n] bytes *)
Definition local {A} (n : nat) (f : list Z -> A) : Prop :=
  forall a b, take n a = take n b -> f a = f b.

Lemma local_weaken {A} n k (f : list Z -> A) : (n <= k)%nat -> local n f -> local k f.
Proof.
  intros Hle Hf a b Hab. apply Hf.
  assert (forall l : list Z, take n l = take n (take k l)) as Ht.
  { intros l. rewrite take_take. f_equal. lia. }
  by rewrite (Ht a), (Ht b), Hab.
Qed.

Lemma local_nth i n : (i < n)%nat -> local n (fun l => nth i l 0).
Proof.
  intros Hi a b Hab.
  transitivity (nth i (take n a) 0); [|rewrite Hab];
    rewrite nth_firstn; by destruct (Nat.ltb_spec i n); [|lia].
Qed.

Lemma local_comp {A B} n (f : list Z -> A) (g : A -> B) :
  local n f -> local n (fun l => g (f l)).
Proof. intros Hf a b Hab. by rewrite (Hf a b Hab). Qed.

Lemma local_comp2 {A B C} n (f : list Z -> A) (f' : list Z -> B) (g : A -> B -> C) :
  local n f -> local n f' -> local n (fun l => g (f l) (f' l)).
Proof. intros Hf Hf' a b Hab. by rewrite (Hf a b Hab), (Hf' a b Hab). Qed.

Lemma local_sub i k n : (i + k <= n)%nat -> local n (fun l : list Z => take k (drop i l)).
Proof.
  intros Hle a b Hab. rewrite !take_drop_commute. f_equal.
  revert a b Hab. apply (local_weaken (i + k)); [done|]. by intros a b.
Qed.

(** Two buffers that agree up to [dend] agree on a header that ends there. *)
Lemma local_at {A} n (f : list Z -> A) (m1 m2 : list Z) o dend :
  local n f -> (o + n <= dend)%nat -> take dend m1 = take dend m2 ->
  f (drop o m1) = f (drop o m2).
Proof.
  intros Hf Hle Hm. apply Hf. rewrite !take_drop_commute. f_equal.
  revert Hm. apply (local_weaken (o + n)); [done|]. by intros a b.
Qed.
