(* ===== verification/Wire.v ===== *)
(** * Wire: the DPDK header structures the parsers read

    [struct rte_ether_hdr], [rte_ipv4_hdr] and the rest are declared in DPDK,
    which is not part of the repository. They enter the model as the class
    [RteNet]: the size of each structure and one accessor per field, a function
    of the bytes that start at the header (multi-byte fields in host order, as
    [rte_be_to_cpu_*] gives them). [RteNetLaws] states what the parsers rely
    on: an accessor reads the bytes of its own structure only, and
    [rte_ipv6_get_next_ext] behaves as its documentation says. The instance
    [wire_net] is the layout of the RFCs; it is what the witnesses run on. *)

From S2P Require Import Prelude.

(** Protocol numbers assigned by IANA, under the names the code uses. *)
Definition DOCA_FLOW_ETHER_TYPE_IPV4 : Z := 0x0800.
Definition DOCA_FLOW_ETHER_TYPE_IPV6 : Z := 0x86dd.
Definition DOCA_FLOW_PROTO_IPV4 : Z := 4.
Definition DOCA_FLOW_PROTO_TCP : Z := 6.
Definition DOCA_FLOW_PROTO_UDP : Z := 17.
Definition DOCA_FLOW_PROTO_IPV6 : Z := 41.
Definition IPPROTO_FRAGMENT : Z := 44.
Definition DOCA_FLOW_PROTO_GRE : Z := 47.
Definition IPPROTO_ICMP : Z := 1.
Definition IPPROTO_NONE : Z := 59.
Definition DOCA_FLOW_GTPU_DEFAULT_PORT : Z := 2152.

Class RteNet := {
  sizeof_ether_hdr : nat;
  ether_type : list Z -> Z;
  (** the bytes of a header with the given destination, source and type *)
  ether_hdr : list Z -> list Z -> Z -> list Z;
  sizeof_ipv4_hdr : nat;
  rte_ipv4_hdr_len : list Z -> nat;
  ipv4_next_proto_id : list Z -> Z;
  rte_ipv4_frag_pkt_is_fragmented : list Z -> bool;
  ipv4_src_addr : list Z -> Z;
  ipv4_dst_addr : list Z -> Z;
  sizeof_ipv6_hdr : nat;
  ipv6_proto : list Z -> Z;
  ipv6_src_addr : list Z -> list Z;
  ipv6_dst_addr : list Z -> list Z;
  (** [None] is [-EINVAL] (the protocol is no extension header, [*ext_len] is
      left alone); [Some (next, len)] the next protocol and [*ext_len]. *)
  rte_ipv6_get_next_ext : list Z -> Z -> option (Z * nat);
  sizeof_tcp_hdr : nat;
  tcp_data_off : list Z -> Z;
  tcp_src_port : list Z -> Z;
  tcp_dst_port : list Z -> Z;
  sizeof_udp_hdr : nat;
  udp_src_port : list Z -> Z;
  udp_dst_port : list Z -> Z;
  sizeof_gtp_hdr : nat;
  gtp_ver : list Z -> Z;
  gtp_e : list Z -> bool;
  gtp_s : list Z -> bool;
  gtp_pn : list Z -> bool;
  gtp_teid : list Z -> Z;
  sizeof_gtp_hdr_ext_word : nat;
  gtp_next_ext : list Z -> Z;
  sizeof_gtp_psc_type0_hdr : nat;
  psc_ext_hdr_len : list Z -> Z;
  psc_qfi : list Z -> Z;
  (** The flexible array member [data] starts right after the structure. *)
  psc_data0 : list Z -> Z;
}.

Class RteNetLaws `{RteNet} := {
  ether_type_local : local sizeof_ether_hdr ether_type;
  ether_hdr_length : forall d s t, length d = 6%nat -> length s = 6%nat ->
    length (ether_hdr d s t) = sizeof_ether_hdr;
  ether_hdr_type : forall d s t l, length d = 6%nat -> length s = 6%nat -> in_width 16 t ->
    ether_type (ether_hdr d s t ++ l) = t;
  ipv4_hdr_len_local : local sizeof_ipv4_hdr rte_ipv4_hdr_len;
  (** the IHL field has four bits and counts 32-bit words *)
  ipv4_hdr_len_bound : forall h, (rte_ipv4_hdr_len h <= 60)%nat;
  ipv4_next_proto_local : local sizeof_ipv4_hdr ipv4_next_proto_id;
  ipv4_frag_local : local sizeof_ipv4_hdr rte_ipv4_frag_pkt_is_fragmented;
  ipv4_src_width : forall h, in_width 32 (ipv4_src_addr h);
  ipv4_dst_width : forall h, in_width 32 (ipv4_dst_addr h);
  sizeof_ipv4_pos : (0 < sizeof_ipv4_hdr)%nat;
  ipv6_proto_local : local sizeof_ipv6_hdr ipv6_proto;
  sizeof_ipv6_pos : (0 < sizeof_ipv6_hdr)%nat;
  (** an extension header is at least eight bytes long and the two fields read
      from it, next header and length, are its first two bytes *)
  next_ext_local : forall proto, local 2 (fun p => rte_ipv6_get_next_ext p proto);
  next_ext_len : forall p proto next len,
    rte_ipv6_get_next_ext p proto = Some (next, len) -> (8 <= len)%nat;
  (** whether a protocol is an extension header depends on its number only *)
  next_ext_proto : forall p q proto,
    rte_ipv6_get_next_ext p proto = None -> rte_ipv6_get_next_ext q proto = None;
  (** the fragment header is one of the extension headers *)
  next_ext_fragment : forall p, is_Some (rte_ipv6_get_next_ext p IPPROTO_FRAGMENT);
  tcp_data_off_local : local sizeof_tcp_hdr tcp_data_off;
  tcp_data_off_byte : forall h, is_byte (tcp_data_off h);
  udp_dst_port_local : local sizeof_udp_hdr udp_dst_port;
  gtp_ver_local : local sizeof_gtp_hdr gtp_ver;
  gtp_e_local : local sizeof_gtp_hdr gtp_e;
  gtp_s_local : local sizeof_gtp_hdr gtp_s;
  gtp_pn_local : local sizeof_gtp_hdr gtp_pn;
  gtp_next_ext_local : local sizeof_gtp_hdr_ext_word gtp_next_ext;
  psc_ext_hdr_len_local : local sizeof_gtp_psc_type0_hdr psc_ext_hdr_len;
  psc_data0_local : local (sizeof_gtp_psc_type0_hdr + 1) psc_data0;
}.

#[export] Hint Resolve ether_type_local ipv4_hdr_len_local ipv4_next_proto_local
  ipv4_frag_local ipv6_proto_local tcp_data_off_local udp_dst_port_local
  gtp_ver_local gtp_e_local gtp_s_local gtp_pn_local gtp_next_ext_local
  psc_ext_hdr_len_local psc_data0_local : width.

(** ** The layout of the RFCs *)

Definition byte_at (i : nat) (h : list Z) : Z := u8 (nth i h 0).
Definition be16_at (i : nat) (h : list Z) : Z := 256 * byte_at i h + byte_at (i + 1) h.
Definition be32_at (i : nat) (h : list Z) : Z := 65536 * be16_at i h + be16_at (i + 2) h.

Lemma byte_at_local i n : (i < n)%nat -> local n (byte_at i).
Proof. intros Hi. by apply (local_comp n (fun l => nth i l 0) u8), local_nth. Qed.
Lemma be16_at_local i n : (i + 1 < n)%nat -> local n (be16_at i).
Proof.
  intros Hi. apply (local_comp2 n (byte_at i) (byte_at (i + 1)) (fun x y => 256 * x + y));
    apply byte_at_local; lia.
Qed.

Lemma be16_at_width i h : in_width 16 (be16_at i h).
Proof.
  unfold in_width, be16_at. pose proof (u8_range (nth i h 0)). pose proof (u8_range (nth (i + 1) h 0)).
  unfold byte_at. lia.
Qed.
Lemma be32_at_width i h : in_width 32 (be32_at i h).
Proof.
  unfold be32_at. pose proof (be16_at_width i h). pose proof (be16_at_width (i + 2) h).
  unfold in_width in *. lia.
Qed.

Definition wire_next_ext (p : list Z) (proto : Z) : option (Z * nat) :=
  if proto =? 51 then Some (byte_at 0 p, (Z.to_nat (byte_at 1 p) + 2) * 4)%nat
  else if (proto =? 0) || (proto =? 43) || (proto =? 60) then
    Some (byte_at 0 p, (Z.to_nat (byte_at 1 p) + 1) * 8)%nat
  else if proto =? 44 then Some (byte_at 0 p, 8%nat)
  else None.

#[export] Instance wire_net : RteNet := {|
  sizeof_ether_hdr := 14;
  ether_type := be16_at 12;
  ether_hdr d s t := d ++ s ++ be_split 2 t;
  sizeof_ipv4_hdr := 20;
  rte_ipv4_hdr_len h := Z.to_nat (Z.land (byte_at 0 h) 15 * 4);
  ipv4_next_proto_id := byte_at 9;
  rte_ipv4_frag_pkt_is_fragmented h := negb (Z.land (be16_at 6 h) 0x3fff =? 0);
  ipv4_src_addr := be32_at 12;
  ipv4_dst_addr := be32_at 16;
  sizeof_ipv6_hdr := 40;
  ipv6_proto := byte_at 6;
  ipv6_src_addr h := take 16 (drop 8 h);
  ipv6_dst_addr h := take 16 (drop 24 h);
  rte_ipv6_get_next_ext := wire_next_ext;
  sizeof_tcp_hdr := 20;
  tcp_data_off := byte_at 12;
  tcp_src_port := be16_at 0;
  tcp_dst_port := be16_at 2;
  sizeof_udp_hdr := 8;
  udp_src_port := be16_at 0;
  udp_dst_port := be16_at 2;
  sizeof_gtp_hdr := 8;
  gtp_ver h := Z.shiftr (byte_at 0 h) 5;
  gtp_e h := Z.testbit (byte_at 0 h) 2;
  gtp_s h := Z.testbit (byte_at 0 h) 1;
  gtp_pn h := Z.testbit (byte_at 0 h) 0;
  gtp_teid := be32_at 4;
  sizeof_gtp_hdr_ext_word := 4;
  gtp_next_ext := byte_at 3;
  sizeof_gtp_psc_type0_hdr := 3;
  psc_ext_hdr_len := byte_at 0;
  psc_qfi h := Z.land (byte_at 2 h) 63;
  psc_data0 := byte_at 3;
|}.

Ltac local_byte :=
  match goal with
  | |- local ?n (fun h => ?g (byte_at ?i h)) => apply (local_comp n (byte_at i) g), byte_at_local
  | |- local _ (byte_at _) => apply byte_at_local
  | |- local _ (be16_at _) => apply be16_at_local
  end; lia.

#[export] Instance wire_net_laws : RteNetLaws (H := wire_net).
Proof.
  split; cbn -[byte_at be16_at be32_at be_split]; try (intros; lia); auto using be32_at_width.
  all: try local_byte.
  - intros d s t Hd Hs. rewrite !length_app, length_be_split, Hd, Hs. lia.
  - intros d s t l Hd Hs Ht. unfold be16_at, byte_at, be_split. cbn.
    do 6 (destruct d as [|? d]; [done|]). do 6 (destruct s as [|? s]; [done|]).
    destruct d, s; [|done..]. cbn. unfold in_width in Ht.
    rewrite !u8_small by (apply Z.mod_pos_bound; lia). cbn in Ht.
    pose proof (Z.div_mod t 256). rewrite (Z.mod_small (t / 256)); [lia|].
    split; [apply Z.div_pos; lia|apply Z.div_lt_upper_bound; lia].
  - apply (local_comp 20 (byte_at 0) (fun b => Z.to_nat (Z.land b 15 * 4))), byte_at_local. lia.
  - intros h. change 15 with (Z.ones 4). rewrite Z.land_ones by lia.
    pose proof (Z.mod_pos_bound (byte_at 0 h) (2 ^ 4)). lia.
  - apply (local_comp 20 (be16_at 6) (fun v => negb (Z.land v 0x3fff =? 0))), be16_at_local. lia.
  - intros proto. apply (local_comp2 2 (byte_at 0) (byte_at 1) (fun a b =>
      if proto =? 51 then Some (a, (Z.to_nat b + 2) * 4)%nat
      else if (proto =? 0) || (proto =? 43) || (proto =? 60) then Some (a, (Z.to_nat b + 1) * 8)%nat
      else if proto =? 44 then Some (a, 8%nat) else None)); apply byte_at_local; lia.
  - intros p proto next len. unfold wire_next_ext. repeat case_match; intros; simplify_eq; lia.
  - intros p q proto. unfold wire_next_ext. by repeat case_match.
  - intros h. apply u8_range.
  - apply (local_comp 8 (byte_at 0) (fun b => Z.shiftr b 5)), byte_at_local. lia.
  - apply (local_comp 8 (byte_at 0) (fun b => Z.testbit b 2)), byte_at_local. lia.
  - apply (local_comp 8 (byte_at 0) (fun b => Z.testbit b 1)), byte_at_local. lia.
Qed.
