(* ===== verification/PacketParser.v ===== *)
(** * PacketParser: src/applications/common/packet_parser.c

    A packet is a buffer [m] of bytes; [data] and [dend] are the offsets the C
    pointers [data] and [data_end] hold, and a header pointer of a parser
    context is an offset ([None] is NULL). The buffer may go on after [dend]:
    what lies there is memory the parsers must not depend on. The members of
    the unions share one field, as they share their address:
    [net_hdr] is [ipv4_hdr] and [ipv6.hdr], [tp_hdr] is [udp_hdr] and [tcp_hdr].

    A parser returns its error code and the context it was given as updated so
    far, early returns included. [ipv6_hdr_parse] has the only loop; it runs
    with fuel and [parsers_total] shows that the fuel given is enough. *)

From S2P Require Import Prelude Wire.

Inductive parser_pkt_type :=
| PARSER_PKT_TYPE_TUNNELED
| PARSER_PKT_TYPE_PLAIN
| PARSER_PKT_TYPE_UNKNOWN.

#[global] Instance parser_pkt_type_eq_dec : EqDecision parser_pkt_type.
Proof. solve_decision. Defined.

Record link_parser_ctx := {
  link_len : nat;
  link_next_proto : Z;
  link_eth : option nat;
}.

Record network_parser_ctx := {
  net_len : nat;
  net_ip_version : Z;
  net_next_proto : Z;
  net_frag : bool;
  net_hdr : option nat;
  net_frag_ext : option nat;
}.

Record transport_parser_ctx := {
  tp_proto : Z;
  tp_len : nat;
  tp_hdr : option nat;
}.

Record gtp_parser_ctx := {
  gtp_len : nat;
  gtp_gtp_hdr : option nat;
  gtp_opt_hdr : option nat;
  gtp_ext_hdr : option nat;
}.

Record conn_parser_ctx := {
  conn_len : nat;
  conn_link : link_parser_ctx;
  conn_net : network_parser_ctx;
  conn_tp : transport_parser_ctx;
}.

Record tun_parser_ctx := {
  tun_len : nat;
  tun_link : link_parser_ctx;
  tun_net : network_parser_ctx;
  tun_tp : transport_parser_ctx;
  tun_gtp : gtp_parser_ctx;
  tun_inner : conn_parser_ctx;
}.

(** The zero-initialised contexts ([= {0}]). *)
Definition link_zero : link_parser_ctx :=
  {| link_len := 0; link_next_proto := 0; link_eth := None |}.
Definition net_zero : network_parser_ctx :=
  {| net_len := 0; net_ip_version := 0; net_next_proto := 0; net_frag := false;
     net_hdr := None; net_frag_ext := None |}.
Definition tp_zero : transport_parser_ctx := {| tp_proto := 0; tp_len := 0; tp_hdr := None |}.
Definition gtp_zero : gtp_parser_ctx :=
  {| gtp_len := 0; gtp_gtp_hdr := None; gtp_opt_hdr := None; gtp_ext_hdr := None |}.
Definition conn_zero : conn_parser_ctx :=
  {| conn_len := 0; conn_link := link_zero; conn_net := net_zero; conn_tp := tp_zero |}.
Definition tun_zero : tun_parser_ctx :=
  {| tun_len := 0; tun_link := link_zero; tun_net := net_zero; tun_tp := tp_zero;
     tun_gtp := gtp_zero; tun_inner := conn_zero |}.

Section Parser.
Context `{RteNet}.

Definition link_parse (m : list Z) (data dend : nat) (ctx : link_parser_ctx)
    : doca_error_t * link_parser_ctx :=
  let eth := drop data m in
  if (dend <? data + sizeof_ether_hdr)%nat then (DOCA_ERROR_INVALID_VALUE, ctx)
  else
    let next_proto := ether_type eth in
    if negb (next_proto =? DOCA_FLOW_ETHER_TYPE_IPV4)
       && negb (next_proto =? DOCA_FLOW_ETHER_TYPE_IPV6)
    then (DOCA_ERROR_INVALID_VALUE, ctx)
    else (DOCA_SUCCESS,
          {| link_len := sizeof_ether_hdr; link_next_proto := next_proto; link_eth := Some data |}).

(** The [while (proto != -EINVAL)] loop; the result is [None] when it leaves
    with DOCA_ERROR_INVALID_VALUE, else the final [total_len], [next_proto] and
    [ipv6_frag_ext]. *)
Fixpoint ipv6_ext_loop (fuel : nat) (m : list Z) (data dend : nat)
    (proto : option Z) (total_len : nat) (next_proto : Z) (frag_ext : option nat)
    : res (option (nat * Z * option nat)) :=
  match fuel with
  | O => Crash OutOfFuel
  | S fuel =>
    match proto with
    | None => Done (Some (total_len, next_proto, frag_ext))
    | Some p =>
      let frag_ext :=
        if p =? IPPROTO_FRAGMENT then Some (data + total_len)%nat else frag_ext in
      let '(proto', ext_len) :=
        match rte_ipv6_get_next_ext (drop (data + total_len) m) p with
        | None => (None, 0%nat)
        | Some (next, len) => (Some next, len)
        end in
      let total_len := (total_len + ext_len)%nat in
      if (dend <? data + total_len)%nat then Done None
      else ipv6_ext_loop fuel m data dend proto' total_len (u8 p) frag_ext
    end
  end.

Definition ipv6_hdr_parse (m : list Z) (data dend : nat) (ctx : network_parser_ctx)
    : res (doca_error_t * network_parser_ctx) :=
  let total_len := sizeof_ipv6_hdr in
  if (dend <? data + total_len)%nat then Done (DOCA_ERROR_INVALID_VALUE, ctx)
  else
    r ← ipv6_ext_loop (S (S dend)) m data dend (Some (ipv6_proto (drop data m)))
          total_len IPPROTO_NONE None;
    match r with
    | None => Done (DOCA_ERROR_INVALID_VALUE, ctx)
    | Some (total_len, next_proto, frag_ext) =>
      let ctx := {| ctx with net_next_proto := next_proto |} in
      let ctx := {| ctx with net_hdr := Some data |} in
      let ctx := match frag_ext with
                 | Some _ => {| ctx with net_frag := true; net_frag_ext := frag_ext |}
                 | None => ctx
                 end in
      Done (DOCA_SUCCESS, {| ctx with net_len := total_len |})
    end.

Definition network_parse (m : list Z) (data dend : nat) (expected_proto : Z)
    (ctx : network_parser_ctx) : res (doca_error_t * network_parser_ctx) :=
  if (data =? dend)%nat then Done (DOCA_ERROR_INVALID_VALUE, ctx)
  else
    let version := Z.shiftr (nth data m 0) 4 in
    if version =? 4 then
      if negb (expected_proto =? 0) && negb (expected_proto =? DOCA_FLOW_ETHER_TYPE_IPV4)
      then Done (DOCA_ERROR_INVALID_VALUE, ctx)
      else
        let ctx := {| ctx with net_ip_version := DOCA_FLOW_PROTO_IPV4 |} in
        let ipv4_hdr := drop data m in
        if (dend <? data + sizeof_ipv4_hdr)%nat then Done (DOCA_ERROR_INVALID_VALUE, ctx)
        else
          let hdr_len := rte_ipv4_hdr_len ipv4_hdr in
          if (dend <? data + hdr_len)%nat then Done (DOCA_ERROR_INVALID_VALUE, ctx)
          else
            Done (DOCA_SUCCESS,
              {| ctx with net_len := hdr_len;
                          net_next_proto := ipv4_next_proto_id ipv4_hdr;
                          net_frag := rte_ipv4_frag_pkt_is_fragmented ipv4_hdr;
                          net_hdr := Some data |})
    else if version =? 6 then
      if negb (expected_proto =? 0) && negb (expected_proto =? DOCA_FLOW_ETHER_TYPE_IPV6)
      then Done (DOCA_ERROR_INVALID_VALUE, ctx)
      else
        let ctx := {| ctx with net_ip_version := DOCA_FLOW_PROTO_IPV6 |} in
        '(ret, ctx) ← ipv6_hdr_parse m data dend ctx;
        if negb (is_success ret) then Done (DOCA_ERROR_INVALID_VALUE, ctx)
        else Done (DOCA_SUCCESS, ctx)
    else Done (DOCA_ERROR_INVALID_VALUE, ctx).

Definition get_rte_tcp_hdr_len (tcp_hdr : list Z) : nat :=
  let data_off := Z.shiftr (Z.land (tcp_data_off tcp_hdr) 0xf0) 4 in
  Z.to_nat (u8 (data_off * 4)).

Definition transport_parse (m : list Z) (data dend : nat) (proto : Z)
    (ctx : transport_parser_ctx) : doca_error_t * transport_parser_ctx :=
  if proto =? DOCA_FLOW_PROTO_TCP then
    if (dend <? data + sizeof_tcp_hdr)%nat then (DOCA_ERROR_INVALID_VALUE, ctx)
    else
      let hdr_len := get_rte_tcp_hdr_len (drop data m) in
      if (dend <? data + hdr_len)%nat then (DOCA_ERROR_INVALID_VALUE, ctx)
      else (DOCA_SUCCESS, {| tp_proto := proto; tp_len := hdr_len; tp_hdr := Some data |})
  else if proto =? DOCA_FLOW_PROTO_UDP then
    if (dend <? data + sizeof_udp_hdr)%nat then (DOCA_ERROR_INVALID_VALUE, ctx)
    else (DOCA_SUCCESS, {| tp_proto := proto; tp_len := sizeof_udp_hdr; tp_hdr := Some data |})
  else (DOCA_ERROR_NOT_SUPPORTED, ctx).

Definition gtpu_parse (m : list Z) (data dend : nat) (ctx : gtp_parser_ctx)
    : doca_error_t * gtp_parser_ctx :=
  let data_beg := data in
  let gtp_hdr := drop data m in
  if (dend <? data + sizeof_gtp_hdr)%nat then (DOCA_ERROR_INVALID_VALUE, ctx)
  else
    let data := (data + sizeof_gtp_hdr)%nat in
    if negb (gtp_ver gtp_hdr =? 1) then (DOCA_ERROR_NOT_SUPPORTED, ctx)
    else
      let done data opt ext :=
        (DOCA_SUCCESS, {| gtp_len := data - data_beg; gtp_gtp_hdr := Some data_beg;
                          gtp_opt_hdr := opt; gtp_ext_hdr := ext |}) in
      if gtp_e gtp_hdr || gtp_s gtp_hdr || gtp_pn gtp_hdr then
        let gtpopt_hdr := data in
        if (dend <? data + sizeof_gtp_hdr_ext_word)%nat then (DOCA_ERROR_INVALID_VALUE, ctx)
        else
          let data := (data + sizeof_gtp_hdr_ext_word)%nat in
          if gtp_e gtp_hdr then
            if negb (gtp_next_ext (drop gtpopt_hdr m) =? 0x85)
            then (DOCA_ERROR_NOT_SUPPORTED, ctx)
            else
              let gtpext_hdr := data in
              let gtpext_len := (sizeof_gtp_psc_type0_hdr + 1)%nat in
              if (dend <? data + gtpext_len)%nat then (DOCA_ERROR_INVALID_VALUE, ctx)
              else
                let data := (data + gtpext_len)%nat in
                if negb (psc_ext_hdr_len (drop gtpext_hdr m) =? 1)
                then (DOCA_ERROR_NOT_SUPPORTED, ctx)
                else if negb (psc_data0 (drop gtpext_hdr m) =? 0)
                then (DOCA_ERROR_NOT_SUPPORTED, ctx)
                else done data (Some gtpopt_hdr) (Some gtpext_hdr)
          else done data (Some gtpopt_hdr) None
      else done data None None.

Definition conn_parse (m : list Z) (data dend : nat) (ctx : conn_parser_ctx)
    : res (doca_error_t * conn_parser_ctx) :=
  '(ret, net) ← network_parse m (data + conn_len ctx) dend
                  (link_next_proto (conn_link ctx)) (conn_net ctx);
  if negb (is_success ret) then Done (ret, {| ctx with conn_net := net |})
  else
    let len := (conn_len ctx + net_len net)%nat in
    if net_frag net
    then Done (DOCA_ERROR_AGAIN, {| ctx with conn_net := net; conn_len := len |})
    else
      let '(ret, tp) := transport_parse m (data + len) dend (net_next_proto net) (conn_tp ctx) in
      if negb (is_success ret)
      then Done (ret, {| ctx with conn_net := net; conn_tp := tp; conn_len := len |})
      else Done (DOCA_SUCCESS, {| ctx with conn_net := net; conn_tp := tp;
                                           conn_len := (len + tp_len tp)%nat |}).

Definition plain_parse (m : list Z) (data dend : nat) (ctx : conn_parser_ctx)
    : res (doca_error_t * conn_parser_ctx) :=
  let '(ret, link) := link_parse m (data + conn_len ctx) dend (conn_link ctx) in
  if negb (is_success ret) then Done (ret, {| ctx with conn_link := link |})
  else conn_parse m data dend {| ctx with conn_link := link;
                                          conn_len := (conn_len ctx + link_len link)%nat |}.

(** The end of [tunnel_parse] and of [unknown_parse]: the GTP-U header and the
    encapsulated connection. *)
Definition gtpu_inner_parse (m : list Z) (data dend : nat) (ctx : tun_parser_ctx)
    : res (doca_error_t * tun_parser_ctx) :=
  let '(ret, gtp) := gtpu_parse m (data + tun_len ctx) dend (tun_gtp ctx) in
  if negb (is_success ret) then Done (ret, {| ctx with tun_gtp := gtp |})
  else
    let len := (tun_len ctx + gtp_len gtp)%nat in
    '(ret, inner) ← conn_parse m (data + len) dend (tun_inner ctx);
    match ret with
    | DOCA_SUCCESS | DOCA_ERROR_AGAIN =>
      Done (ret, {| ctx with tun_gtp := gtp; tun_inner := inner;
                             tun_len := (len + conn_len inner)%nat |})
    | _ => Done (ret, {| ctx with tun_gtp := gtp; tun_inner := inner; tun_len := len |})
    end.

Definition tunnel_parse (m : list Z) (data dend : nat) (ctx : tun_parser_ctx)
    : res (doca_error_t * tun_parser_ctx) :=
  let '(ret, link) := link_parse m (data + tun_len ctx) dend (tun_link ctx) in
  if negb (is_success ret) then Done (ret, {| ctx with tun_link := link |})
  else
    let len := (tun_len ctx + link_len link)%nat in
    '(ret, net) ← network_parse m (data + len) dend (link_next_proto link) (tun_net ctx);
    if negb (is_success ret)
    then Done (ret, {| ctx with tun_link := link; tun_net := net; tun_len := len |})
    else
      let len := (len + net_len net)%nat in
      if net_frag net
      then Done (DOCA_ERROR_AGAIN,
                 {| ctx with tun_link := link; tun_net := net; tun_len := len |})
      else
        let '(ret, tp) := transport_parse m (data + len) dend (net_next_proto net) (tun_tp ctx) in
        if negb (is_success ret)
        then Done (ret, {| ctx with tun_link := link; tun_net := net; tun_tp := tp;
                                    tun_len := len |})
        else gtpu_inner_parse m data dend
               {| ctx with tun_link := link; tun_net := net; tun_tp := tp;
                           tun_len := (len + tp_len tp)%nat |}.

Definition unknown_parse (m : list Z) (data dend : nat) (ctx : tun_parser_ctx)
    (pkt_type : parser_pkt_type) : res (doca_error_t * tun_parser_ctx * parser_pkt_type) :=
  let '(ret, link) := link_parse m data dend link_zero in
  if negb (is_success ret) then Done (ret, ctx, pkt_type)
  else
    let len := link_len link in
    '(ret, net) ← network_parse m (data + len) dend (link_next_proto link) net_zero;
    if negb (is_success ret) then Done (ret, ctx, pkt_type)
    else
      let len := (len + net_len net)%nat in
      let inner := tun_inner ctx in
      if net_frag net then
        Done (DOCA_ERROR_AGAIN,
              {| ctx with tun_inner := {| inner with conn_link := link; conn_net := net;
                                                     conn_len := (conn_len inner + len)%nat |};
                          tun_len := (tun_len ctx + len)%nat |},
              PARSER_PKT_TYPE_PLAIN)
      else
        let '(ret, tp) := transport_parse m (data + len) dend (net_next_proto net) tp_zero in
        if negb (is_success ret) then Done (ret, ctx, pkt_type)
        else
          let len := (len + tp_len tp)%nat in
          if negb (tp_proto tp =? DOCA_FLOW_PROTO_UDP)
             || negb (udp_dst_port (drop (default 0%nat (tp_hdr tp)) m)
                        =? DOCA_FLOW_GTPU_DEFAULT_PORT)
          then
            Done (DOCA_SUCCESS,
                  {| ctx with tun_inner := {| conn_link := link; conn_net := net; conn_tp := tp;
                                              conn_len := (conn_len inner + len)%nat |};
                              tun_len := (tun_len ctx + len)%nat |},
                  PARSER_PKT_TYPE_PLAIN)
          else
            '(ret, ctx) ← gtpu_inner_parse m data dend
               {| ctx with tun_link := link; tun_net := net; tun_tp := tp;
                           tun_len := (tun_len ctx + len)%nat |};
            Done (ret, ctx, PARSER_PKT_TYPE_TUNNELED).
End Parser.

(** ** Proofs *)

(** Evaluates context updates and projections, and nothing else. *)
Ltac cbn_ctx := cbn [negb is_success tun_zero conn_zero link_zero net_zero tp_zero gtp_zero
  conn_len conn_link conn_net conn_tp tun_len tun_link tun_net tun_tp tun_gtp tun_inner].

Section Facts.
Context `{RteNetLaws}.

(** What the extension-header loop leaves behind. *)
Definition ext_loop_post (data dend total : nat) (fe : option nat)
    (r : option (nat * Z * option nat)) : Prop :=
  match r with
  | None => True
  | Some (t, np, fe') =>
    (total <= t)%nat /\ (data + t <= dend)%nat /\
    (fe' = fe \/ exists o, fe' = Some o /\ (data + total <= o)%nat /\ (o + 8 <= data + t)%nat)
  end.

Lemma ipv6_ext_loop_ok fuel m data dend proto total np fe :
  (data + total <= dend)%nat -> (dend - (data + total) + 2 <= fuel)%nat ->
  exists r, ipv6_ext_loop fuel m data dend proto total np fe = Done r /\
            ext_loop_post data dend total fe r.
Proof.
  revert proto total np fe. induction fuel as [|fuel IH]; intros proto total np fe Hle Hf; [lia|].
  destruct proto as [p|]; cbn [ipv6_ext_loop].
  2: { eexists. split; [done|]. cbn. eauto with lia. }
  set (fe1 := if p =? IPPROTO_FRAGMENT then _ else fe).
  destruct (rte_ipv6_get_next_ext (drop (data + total) m) p) as [[next len]|] eqn:Hn.
  - pose proof (next_ext_len _ _ _ _ Hn) as Hlen.
    destruct (Nat.ltb_spec dend (data + (total + len))); [by eexists|].
    destruct (IH (Some next) (total + len)%nat (u8 p) fe1) as (r & -> & Hr); [lia..|].
    eexists. split; [done|]. destruct r as [[[t np'] fe']|]; [|done].
    destruct Hr as (? & ? & Hfe). split_and!; [lia..|].
    unfold fe1 in Hfe. destruct (p =? IPPROTO_FRAGMENT).
    + right. destruct Hfe as [->|(o & -> & ?)]; eexists; split; eauto; lia.
    + destruct Hfe as [->|(o & -> & ?)]; [by left|right]. eexists. split; eauto. lia.
  - assert (fe1 = fe) as ->.
    { unfold fe1. destruct (Z.eqb_spec p IPPROTO_FRAGMENT) as [->|]; [|done].
      destruct (next_ext_fragment (drop (data + total) m)) as [? ?]. congruence. }
    rewrite Nat.add_0_r. destruct (Nat.ltb_spec dend (data + total)); [lia|].
    destruct fuel as [|fuel]; [lia|]. cbn. eexists. split; [done|]. cbn. eauto with lia.
Qed.

(** The loop does not depend on what follows the packet in memory. *)
Lemma ipv6_ext_loop_local fuel m1 m2 data dend proto total np fe :
  take dend m1 = take dend m2 -> (data + total <= dend)%nat ->
  ipv6_ext_loop fuel m1 data dend proto total np fe =
  ipv6_ext_loop fuel m2 data dend proto total np fe.
Proof.
  intros Hm. revert proto total np fe. induction fuel as [|fuel IH]; intros proto total np fe Hle;
    [done|].
  destruct proto as [p|]; [|done]. cbn [ipv6_ext_loop].
  destruct (decide (data + total + 2 <= dend)%nat) as [Hin|Hout].
  - rewrite (local_at 2 (fun q => rte_ipv6_get_next_ext q p) m1 m2 _ dend) by auto using next_ext_local.
    destruct (rte_ipv6_get_next_ext _ p) as [[next len]|];
      match goal with |- context [(dend <? ?x)%nat] => destruct (Nat.ltb_spec dend x) end;
      (done || apply IH; lia).
  - destruct (rte_ipv6_get_next_ext (drop _ m1) p) as [[n1 l1]|] eqn:H1;
      destruct (rte_ipv6_get_next_ext (drop _ m2) p) as [[n2 l2]|] eqn:H2.
    + apply next_ext_len in H1, H2.
      destruct (Nat.ltb_spec dend (data + (total + l1))); [|lia].
      by destruct (Nat.ltb_spec dend (data + (total + l2))); [|lia].
    + apply (next_ext_proto _ (drop (data + total) m1)) in H2. congruence.
    + apply (next_ext_proto _ (drop (data + total) m2)) in H1. congruence.
    + destruct (Nat.ltb_spec dend (data + (total + 0))); [done|]. apply IH. lia.
Qed.

(** *** Layout: where the headers of a parsed packet lie *)

(** The sizes of the fixed part of the network and transport headers. *)
Definition l3_size (v : Z) : nat :=
  if v =? DOCA_FLOW_PROTO_IPV4 then sizeof_ipv4_hdr else sizeof_ipv6_hdr.
Definition l4_size (p : Z) : nat :=
  if p =? DOCA_FLOW_PROTO_TCP then sizeof_tcp_hdr else sizeof_udp_hdr.

Definition link_at (dend : nat) (c : link_parser_ctx) (o : nat) : Prop :=
  link_eth c = Some o /\ link_len c = sizeof_ether_hdr /\ (o + sizeof_ether_hdr <= dend)%nat.
Definition net_at (dend : nat) (c : network_parser_ctx) (o : nat) : Prop :=
  net_hdr c = Some o /\ (o + net_len c <= dend)%nat /\
  (net_ip_version c = DOCA_FLOW_PROTO_IPV4 \/ net_ip_version c = DOCA_FLOW_PROTO_IPV6) /\
  (o + l3_size (net_ip_version c) <= dend)%nat.
Definition tp_at (dend : nat) (c : transport_parser_ctx) (o : nat) : Prop :=
  tp_hdr c = Some o /\ (o + tp_len c <= dend)%nat /\
  (tp_proto c = DOCA_FLOW_PROTO_TCP \/ tp_proto c = DOCA_FLOW_PROTO_UDP) /\
  (o + l4_size (tp_proto c) <= dend)%nat.
Definition gtp_at (dend : nat) (c : gtp_parser_ctx) (o : nat) : Prop :=
  gtp_gtp_hdr c = Some o /\ (o + gtp_len c <= dend)%nat /\
  (sizeof_gtp_hdr <= gtp_len c)%nat /\
  (forall p, gtp_opt_hdr c = Some p -> p = (o + sizeof_gtp_hdr)%nat /\
     (p + sizeof_gtp_hdr_ext_word <= o + gtp_len c)%nat) /\
  (forall p, gtp_ext_hdr c = Some p -> is_Some (gtp_opt_hdr c) /\
     (p + sizeof_gtp_psc_type0_hdr + 1 = o + gtp_len c)%nat).

(** The network and transport headers of a connection, from offset [o] on. *)
Definition conn_at (dend : nat) (c : conn_parser_ctx) (o : nat) : Prop :=
  net_at dend (conn_net c) o /\ net_frag (conn_net c) = false /\
  tp_at dend (conn_tp c) (o + net_len (conn_net c)) /\
  tp_proto (conn_tp c) = net_next_proto (conn_net c).

Lemma link_parse_ok m data dend c :
  (exists c', link_parse m data dend c = (DOCA_SUCCESS, c') /\ link_at dend c' data /\
     (link_next_proto c' = DOCA_FLOW_ETHER_TYPE_IPV4 \/ link_next_proto c' = DOCA_FLOW_ETHER_TYPE_IPV6)) \/
  link_parse m data dend c = (DOCA_ERROR_INVALID_VALUE, c).
Proof.
  unfold link_parse. destruct (Nat.ltb_spec dend (data + sizeof_ether_hdr)); [by right|].
  destruct (Z.eqb_spec (ether_type (drop data m)) DOCA_FLOW_ETHER_TYPE_IPV4);
    [|destruct (Z.eqb_spec (ether_type (drop data m)) DOCA_FLOW_ETHER_TYPE_IPV6)]; cbn;
    [left..|by right]; (eexists; split_and!; [done..|cbn; by auto]).
Qed.

(** The fragmentation flag of an IPv6 header comes with the fragment header. *)
Definition frag_ext_at (dend : nat) (c c' : network_parser_ctx) : Prop :=
  (net_frag c' = net_frag c /\ net_frag_ext c' = net_frag_ext c) \/
  (net_frag c' = true /\ exists o, net_frag_ext c' = Some o /\ (o + 8 <= dend)%nat).

Lemma ipv6_hdr_parse_ok m data dend c :
  net_ip_version c = DOCA_FLOW_PROTO_IPV6 ->
  exists ret c', ipv6_hdr_parse m data dend c = Done (ret, c') /\
    (ret = DOCA_SUCCESS -> net_at dend c' data /\ frag_ext_at dend c c').
Proof.
  intros Hv. unfold ipv6_hdr_parse.
  destruct (Nat.ltb_spec dend (data + sizeof_ipv6_hdr)) as [|Hle]; [by do 2 eexists|].
  destruct (ipv6_ext_loop_ok (S (S dend)) m data dend (Some (ipv6_proto (drop data m)))
              sizeof_ipv6_hdr IPPROTO_NONE None) as (r & -> & Hr); [lia..|]. cbn.
  destruct r as [[[t np] fe]|]; [|by do 2 eexists]. do 2 eexists. split; [done|]. intros _.
  destruct Hr as (? & ? & Hfe).
  destruct Hfe as [->|(o & -> & ?)]; cbn.
  - split; [|left; done]. unfold net_at, l3_size; cbn. rewrite Hv. cbn. eauto.
  - split; [|right; cbn; eauto with lia]. unfold net_at, l3_size; cbn. rewrite Hv. cbn. eauto.
Qed.

Lemma network_parse_ok m data dend ep c :
  exists ret c', network_parse m data dend ep c = Done (ret, c') /\
    (ret = DOCA_SUCCESS -> net_at dend c' data) /\ ret <> DOCA_ERROR_AGAIN.
Proof.
  unfold network_parse. destruct (data =? dend)%nat; [by do 2 eexists|].
  destruct (Z.shiftr _ 4 =? 4) eqn:E4.
  - destruct (negb (ep =? 0) && _); [by do 2 eexists|].
    destruct (Nat.ltb_spec dend (data + sizeof_ipv4_hdr)); [by do 2 eexists|].
    destruct (Nat.ltb_spec dend (data + rte_ipv4_hdr_len (drop data m))); [by do 2 eexists|].
    do 2 eexists. split; [done|]. unfold net_at, l3_size. cbn. split; [auto|done].
  - destruct (Z.shiftr _ 4 =? 6); [|by do 2 eexists].
    destruct (negb (ep =? 0) && _); [by do 2 eexists|].
    edestruct (ipv6_hdr_parse_ok m data dend {| c with net_ip_version := DOCA_FLOW_PROTO_IPV6 |})
      as (ret & c' & -> & Hc); [done|]. cbn.
    destruct (is_success ret) eqn:Er; cbn; [|by do 2 eexists].
    apply is_success_true in Er. do 2 eexists. split; [done|]. split; [|done].
    intros _. by apply Hc.
Qed.

Lemma transport_parse_ok m data dend proto c :
  (exists c', transport_parse m data dend proto c = (DOCA_SUCCESS, c') /\
     tp_at dend c' data /\ tp_proto c' = proto) \/
  (exists ret, transport_parse m data dend proto c = (ret, c) /\
     (ret = DOCA_ERROR_INVALID_VALUE \/ ret = DOCA_ERROR_NOT_SUPPORTED)).
Proof.
  unfold transport_parse.
  destruct (Z.eqb_spec proto DOCA_FLOW_PROTO_TCP) as [->|];
    [|destruct (Z.eqb_spec proto DOCA_FLOW_PROTO_UDP) as [->|]; [|right; eauto]].
  - destruct (Nat.ltb_spec dend (data + sizeof_tcp_hdr)); [right; eauto|].
    destruct (Nat.ltb_spec dend (data + get_rte_tcp_hdr_len (drop data m))); [right; eauto|].
    left. eexists. unfold tp_at. cbn. eauto 10.
  - destruct (Nat.ltb_spec dend (data + sizeof_udp_hdr)); [right; eauto|].
    left. eexists. unfold tp_at. cbn. eauto 10.
Qed.

Lemma gtpu_parse_ok m data dend c :
  (exists c', gtpu_parse m data dend c = (DOCA_SUCCESS, c') /\ gtp_at dend c' data) \/
  (exists ret, gtpu_parse m data dend c = (ret, c) /\
     (ret = DOCA_ERROR_INVALID_VALUE \/ ret = DOCA_ERROR_NOT_SUPPORTED)).
Proof.
  unfold gtpu_parse. repeat case_match; try (right; by eauto);
    left; eexists; (split; [done|]); unfold gtp_at; cbn;
    repeat match goal with H : (_ <? _)%nat = false |- _ => apply Nat.ltb_ge in H end;
    split_and!; intros; simplify_eq; eauto with lia.
Qed.

Lemma conn_parse_ok m data dend c :
  exists ret c', conn_parse m data dend c = Done (ret, c') /\ conn_link c' = conn_link c /\
    (ret = DOCA_SUCCESS ->
       conn_at dend c' (data + conn_len c) /\
       conn_len c' = (conn_len c + net_len (conn_net c') + tp_len (conn_tp c'))%nat) /\
    (ret = DOCA_ERROR_AGAIN ->
       net_at dend (conn_net c') (data + conn_len c) /\ net_frag (conn_net c') = true /\
       conn_len c' = (conn_len c + net_len (conn_net c'))%nat).
Proof.
  unfold conn_parse.
  destruct (network_parse_ok m (data + conn_len c) dend (link_next_proto (conn_link c)) (conn_net c))
    as (ret & net & -> & Hnet & Hret). cbn.
  destruct (is_success ret) eqn:Er; cbn.
  2: { do 2 eexists. split_and!; try done. by intros ->. }
  apply is_success_true in Er. specialize (Hnet Er).
  destruct (net_frag net) eqn:Efrag; [do 2 eexists; by split_and!|].
  destruct (transport_parse_ok m (data + (conn_len c + net_len net)) dend (net_next_proto net) (conn_tp c))
    as [(tp & -> & Htp & Hp)|(ret' & -> & Hret')]; cbn.
  - do 2 eexists. split_and!; try done. intros _. unfold conn_at. cbn.
    by rewrite <- Nat.add_assoc.
  - exists ret', {| c with conn_net := net; conn_len := (conn_len c + net_len net)%nat |}.
    by destruct Hret' as [-> | ->]; cbn; (split; [destruct c|]).
Qed.

(** Layout of a plain packet and of a tunnelled one whose parsing started at
    [data] and succeeded. *)
Definition plain_at (dend : nat) (c : conn_parser_ctx) (data : nat) : Prop :=
  link_at dend (conn_link c) data /\
  conn_at dend c (data + link_len (conn_link c)) /\
  conn_len c = (link_len (conn_link c) + net_len (conn_net c) + tp_len (conn_tp c))%nat /\
  (data + conn_len c <= dend)%nat.

Definition gtpu_inner_at (dend : nat) (c : tun_parser_ctx) (o : nat) : Prop :=
  gtp_at dend (tun_gtp c) o /\
  conn_at dend (tun_inner c) (o + gtp_len (tun_gtp c)) /\
  conn_len (tun_inner c) = (net_len (conn_net (tun_inner c)) + tp_len (conn_tp (tun_inner c)))%nat.

Definition tunnel_at (dend : nat) (c : tun_parser_ctx) (data : nat) : Prop :=
  let o3 := (data + link_len (tun_link c))%nat in
  let o4 := (o3 + net_len (tun_net c))%nat in
  let og := (o4 + tp_len (tun_tp c))%nat in
  link_at dend (tun_link c) data /\
  net_at dend (tun_net c) o3 /\ net_frag (tun_net c) = false /\
  tp_at dend (tun_tp c) o4 /\ tp_proto (tun_tp c) = net_next_proto (tun_net c) /\
  gtpu_inner_at dend c og /\
  (data + tun_len c = og + gtp_len (tun_gtp c) + conn_len (tun_inner c))%nat /\
  (data + tun_len c <= dend)%nat.

Lemma plain_parse_ok m data dend :
  exists ret c, plain_parse m data dend conn_zero = Done (ret, c) /\
    (ret = DOCA_SUCCESS -> plain_at dend c data).
Proof.
  unfold plain_parse. cbn [conn_zero conn_len conn_link]. rewrite Nat.add_0_r.
  destruct (link_parse_ok m data dend link_zero) as [(l & -> & Hl & _)| ->]; cbn; [|by do 2 eexists].
  destruct (conn_parse_ok m data dend
    {| conn_len := link_len l; conn_link := l; conn_net := net_zero; conn_tp := tp_zero |})
    as (ret & c & -> & Hlink & Hok & _). cbn in *.
  do 2 eexists. split; [done|]. intros ->. destruct (Hok eq_refl) as [Hc Hlen].
  unfold plain_at. rewrite Hlink. split_and!; try done.
  destruct Hc as (_ & _ & (_ & ? & _) & _). lia.
Qed.

Lemma gtpu_inner_parse_ok m data dend c :
  tun_inner c = conn_zero ->
  exists ret c', gtpu_inner_parse m data dend c = Done (ret, c') /\
    tun_link c' = tun_link c /\ tun_net c' = tun_net c /\ tun_tp c' = tun_tp c /\
    (ret = DOCA_SUCCESS -> gtpu_inner_at dend c' (data + tun_len c) /\
       tun_len c' = (tun_len c + gtp_len (tun_gtp c') + conn_len (tun_inner c'))%nat).
Proof.
  intros Hz. unfold gtpu_inner_parse. rewrite Hz.
  destruct (gtpu_parse_ok m (data + tun_len c) dend (tun_gtp c)) as [(g & -> & Hg)|(ret & -> & Hr)].
  2: { exists ret, c. destruct c; cbn in Hz; subst. destruct Hr as [-> | ->]; cbn; by split_and!. }
  cbn [negb is_success].
  match goal with |- context [conn_parse m ?o dend ?i] =>
    destruct (conn_parse_ok m o dend i) as (ret & i' & -> & _ & Hok & _) end. cbn in *.
  destruct ret; (do 2 eexists; split_and!; try done). intros _.
  destruct (Hok eq_refl) as [Hc Hlen]. rewrite Nat.add_0_r in Hc.
  unfold gtpu_inner_at. cbn. by rewrite <- Nat.add_assoc.
Qed.

Lemma tunnel_parse_ok m data dend :
  exists ret c, tunnel_parse m data dend tun_zero = Done (ret, c) /\
    (ret = DOCA_SUCCESS -> tunnel_at dend c data).
Proof.
  unfold tunnel_parse. cbn [tun_zero tun_len tun_link]. rewrite Nat.add_0_r.
  destruct (link_parse_ok m data dend link_zero) as [(l & -> & Hl & _)| ->]; cbn; [|by do 2 eexists].
  destruct (network_parse_ok m (data + link_len l) dend (link_next_proto l) net_zero)
    as (ret & net & -> & Hnet & Hret). cbn.
  destruct (is_success ret) eqn:Er; cbn; [|do 2 eexists; split; [done|by intros ->]].
  apply is_success_true in Er. specialize (Hnet Er).
  destruct (net_frag net) eqn:Efrag; [by do 2 eexists|].
  destruct (transport_parse_ok m (data + (link_len l + net_len net)) dend (net_next_proto net) tp_zero)
    as [(tp & -> & Htp & Hp)|(ret' & -> & [-> | ->])]; cbn; [|by do 2 eexists..].
  match goal with |- context [gtpu_inner_parse m data dend ?c] =>
    destruct (gtpu_inner_parse_ok m data dend c) as (r & c' & -> & H1 & H2 & H3 & Hok); [done|] end.
  cbn in *. do 2 eexists. split; [done|]. intros ->. destruct (Hok eq_refl) as [Hi Hlen].
  unfold tunnel_at. rewrite H1, H2, H3. rewrite !Nat.add_assoc in *.
  destruct Hi as (? & Hc & ?). split_and!; try done; [lia|].
  destruct Hc as (_ & _ & (_ & ? & _) & _). lia.
Qed.

(** The inner connection of a tunnelled packet is what [conn_parse] finds after
    the tunnel headers. *)
Lemma tunnel_parse_inner m data dend c :
  tunnel_parse m data dend tun_zero = Done (DOCA_SUCCESS, c) ->
  conn_parse m (data + tun_len c - conn_len (tun_inner c)) dend conn_zero =
    Done (DOCA_SUCCESS, tun_inner c).
Proof.
  unfold tunnel_parse, gtpu_inner_parse.
  destruct (link_parse _ _ _ _) as [r l]. cbn [tun_zero tun_len tun_net tun_tp tun_inner tun_gtp].
  destruct r; cbn; try done.
  destruct (network_parse _ _ _ _ _) as [[r net]|]; cbn; [|done].
  destruct r; cbn; try done. destruct (net_frag net); [done|].
  destruct (transport_parse _ _ _ _ _) as [r tp]. destruct r; cbn; try done.
  destruct (gtpu_parse _ _ _ _) as [r g]. destruct r; cbn; try done.
  match goal with |- context [conn_parse m ?o dend ?i] =>
    destruct (conn_parse m o dend i) as [[r inner]|] eqn:E; [|done] end. cbn.
  destruct r; try done. intros [= <-]. cbn.
  replace (data + _ - _)%nat with (data + (link_len l + net_len net + tp_len tp + gtp_len g))%nat by lia.
  done.
Qed.

(** *** No dependence on memory after the packet *)

Section Locality.
Context (m1 m2 : list Z) (dend : nat) (Hm : take dend m1 = take dend m2).

(** Rewrite an accessor applied at an offset of [m1] to the same one on [m2]. *)
Ltac same_bytes f n o :=
  rewrite (local_at n f m1 m2 o dend) by (auto with width; lia).

Lemma link_parse_local data c : link_parse m1 data dend c = link_parse m2 data dend c.
Proof.
  unfold link_parse. destruct (Nat.ltb_spec dend (data + sizeof_ether_hdr)); [done|].
  by same_bytes ether_type sizeof_ether_hdr data.
Qed.

Lemma network_parse_local data ep c :
  (data <= dend)%nat -> network_parse m1 data dend ep c = network_parse m2 data dend ep c.
Proof.
  intros Hle. unfold network_parse. destruct (Nat.eqb_spec data dend); [done|].
  assert (nth data m1 0 = nth data m2 0) as ->.
  { revert Hm. apply local_nth. lia. }
  destruct (_ =? 4).
  - destruct (negb (ep =? 0) && _); [done|].
    destruct (Nat.ltb_spec dend (data + sizeof_ipv4_hdr)); [done|].
    same_bytes rte_ipv4_hdr_len sizeof_ipv4_hdr data.
    same_bytes ipv4_next_proto_id sizeof_ipv4_hdr data.
    by same_bytes rte_ipv4_frag_pkt_is_fragmented sizeof_ipv4_hdr data.
  - destruct (_ =? 6); [|done]. destruct (negb (ep =? 0) && _); [done|].
    unfold ipv6_hdr_parse. destruct (Nat.ltb_spec dend (data + sizeof_ipv6_hdr)); [done|].
    same_bytes ipv6_proto sizeof_ipv6_hdr data.
    by rewrite (ipv6_ext_loop_local _ m1 m2) by done.
Qed.

Lemma transport_parse_local data p c :
  transport_parse m1 data dend p c = transport_parse m2 data dend p c.
Proof.
  unfold transport_parse, get_rte_tcp_hdr_len. destruct (p =? _); [|done].
  destruct (Nat.ltb_spec dend (data + sizeof_tcp_hdr)); [done|].
  by same_bytes tcp_data_off sizeof_tcp_hdr data.
Qed.

Lemma gtpu_parse_local data c : gtpu_parse m1 data dend c = gtpu_parse m2 data dend c.
Proof.
  unfold gtpu_parse. destruct (Nat.ltb_spec dend (data + sizeof_gtp_hdr)); [done|].
  same_bytes gtp_ver sizeof_gtp_hdr data. same_bytes gtp_e sizeof_gtp_hdr data.
  same_bytes gtp_s sizeof_gtp_hdr data. same_bytes gtp_pn sizeof_gtp_hdr data.
  set (o := (data + sizeof_gtp_hdr)%nat).
  destruct (Nat.ltb_spec dend (o + sizeof_gtp_hdr_ext_word)); [done|].
  same_bytes gtp_next_ext sizeof_gtp_hdr_ext_word o.
  set (p := (o + sizeof_gtp_hdr_ext_word)%nat).
  destruct (Nat.ltb_spec dend (p + (sizeof_gtp_psc_type0_hdr + 1))); [done|].
  same_bytes psc_ext_hdr_len sizeof_gtp_psc_type0_hdr p.
  by same_bytes psc_data0 (sizeof_gtp_psc_type0_hdr + 1)%nat p.
Qed.

Lemma conn_parse_local data c :
  (data + conn_len c <= dend)%nat -> conn_parse m1 data dend c = conn_parse m2 data dend c.
Proof.
  intros Hle. unfold conn_parse. rewrite network_parse_local by done.
  destruct (network_parse m2 _ _ _ _) as [[ret net]|]; [|done]. cbn.
  by rewrite transport_parse_local.
Qed.

Lemma plain_parse_local data :
  (data <= dend)%nat -> plain_parse m1 data dend conn_zero = plain_parse m2 data dend conn_zero.
Proof.
  intros Hle. unfold plain_parse. cbn_ctx. rewrite link_parse_local. rewrite Nat.add_0_r.
  destruct (link_parse_ok m2 data dend link_zero) as [(l & -> & (_ & Hl & ?) & _)| ->]; [|done].
  apply conn_parse_local. cbn. lia.
Qed.

Lemma gtpu_inner_parse_local data c :
  tun_inner c = conn_zero ->
  gtpu_inner_parse m1 data dend c = gtpu_inner_parse m2 data dend c.
Proof.
  intros Hz. unfold gtpu_inner_parse. rewrite gtpu_parse_local, Hz.
  destruct (gtpu_parse_ok m2 (data + tun_len c) dend (tun_gtp c))
    as [(g & -> & _ & ? & _)|(ret & -> & [-> | ->])]; [|done..].
  cbn_ctx. rewrite conn_parse_local; [done|]. cbn. lia.
Qed.

Lemma tunnel_parse_local data :
  (data <= dend)%nat -> tunnel_parse m1 data dend tun_zero = tunnel_parse m2 data dend tun_zero.
Proof.
  intros Hle. unfold tunnel_parse. cbn_ctx. rewrite link_parse_local. rewrite Nat.add_0_r.
  destruct (link_parse_ok m2 data dend link_zero) as [(l & -> & (_ & Hl & ?) & _)| ->]; [|done].
  cbn_ctx. rewrite network_parse_local by (cbn; lia).
  destruct (network_parse m2 _ _ _ _) as [[ret net]|]; [|done]. cbn.
  rewrite transport_parse_local. repeat case_match; try done. by apply gtpu_inner_parse_local.
Qed.

Lemma unknown_parse_local data t :
  (data <= dend)%nat ->
  unknown_parse m1 data dend tun_zero t = unknown_parse m2 data dend tun_zero t.
Proof.
  intros Hle. unfold unknown_parse. rewrite link_parse_local.
  destruct (link_parse_ok m2 data dend link_zero) as [(l & -> & (_ & Hl & ?) & _)| ->]; [|done].
  cbn_ctx. rewrite network_parse_local by (cbn; lia).
  destruct (network_parse m2 _ _ _ _) as [[ret net]|]; [|done]. cbn.
  destruct (is_success ret); [|done]. cbn. destruct (net_frag net); [done|].
  rewrite transport_parse_local.
  destruct (transport_parse_ok m2 (data + (link_len l + net_len net)) dend (net_next_proto net) tp_zero)
    as [(tp & -> & (Ho & _ & Hp & Hsz) & _)|(r & -> & [-> | ->])]; [|done..]. cbn. rewrite Ho. cbn.
  destruct Hp as [Hp|Hp]; rewrite Hp in *; [done|].
  unfold l4_size in Hsz; cbn in Hsz.
  same_bytes udp_dst_port sizeof_udp_hdr (data + (link_len l + net_len net))%nat.
  destruct (_ || _); [done|]. by rewrite gtpu_inner_parse_local.
Qed.
End Locality.

(** *** Position independence: what a parser finds depends on the bytes from
    its start to the end of the packet, not on where they lie *)
(** The Ethernet type of an IP version. *)
Definition ethertype_of (version : Z) : Z :=
  if version =? DOCA_FLOW_PROTO_IPV4 then DOCA_FLOW_ETHER_TYPE_IPV4 else DOCA_FLOW_ETHER_TYPE_IPV6.

Section Move.
Context (m1 m2 : list Z) (o1 o2 n : nat).
Hypothesis Hsame : drop o1 m1 = drop o2 m2.

Definition same_net (c1 c2 : network_parser_ctx) : Prop :=
  net_len c1 = net_len c2 /\ net_ip_version c1 = net_ip_version c2 /\
  net_next_proto c1 = net_next_proto c2 /\ net_frag c1 = net_frag c2.

Definition same_ext (r1 r2 : option (nat * Z * option nat)) : Prop :=
  match r1, r2 with
  | Some (t1, np1, f1), Some (t2, np2, f2) => t1 = t2 /\ np1 = np2 /\ (is_Some f1 <-> is_Some f2)
  | None, None => True
  | _, _ => False
  end.

Lemma same_drop k : drop (o1 + k) m1 = drop (o2 + k) m2.
Proof. by rewrite <- !drop_drop, Hsame. Qed.

Lemma ltb_move k : (o1 + n <? o1 + k)%nat = (o2 + n <? o2 + k)%nat.
Proof. destruct (Nat.ltb_spec (o1 + n) (o1 + k)), (Nat.ltb_spec (o2 + n) (o2 + k)); (done || lia). Qed.

Lemma ipv6_ext_loop_move fuel proto total np f1 f2 r1 :
  (is_Some f1 <-> is_Some f2) ->
  ipv6_ext_loop fuel m1 o1 (o1 + n) proto total np f1 = Done r1 ->
  exists r2, ipv6_ext_loop fuel m2 o2 (o2 + n) proto total np f2 = Done r2 /\ same_ext r1 r2.
Proof.
  revert proto total np f1 f2. induction fuel as [|fuel IH]; intros proto total np f1 f2 Hf; [done|].
  destruct proto as [p|]; cbn [ipv6_ext_loop]; [|intros [= <-]; by eexists].
  rewrite <- same_drop.
  assert (is_Some (if p =? IPPROTO_FRAGMENT then Some (o1 + total)%nat else f1) <->
          is_Some (if p =? IPPROTO_FRAGMENT then Some (o2 + total)%nat else f2)) as Hf'
    by (by destruct (p =? IPPROTO_FRAGMENT); [split; by eexists|]).
  destruct (rte_ipv6_get_next_ext (drop (o1 + total) m1) p) as [[next len]|];
    rewrite <- ltb_move; destruct (_ <? _)%nat; (intros [= <-]; by eexists) || by apply IH.
Qed.

Lemma ipv6_ext_loop_fuel fuel m data dend proto total np fe r k :
  ipv6_ext_loop fuel m data dend proto total np fe = Done r ->
  ipv6_ext_loop (fuel + k) m data dend proto total np fe = Done r.
Proof.
  revert proto total np fe. induction fuel as [|fuel IH]; intros proto total np fe; [done|].
  cbn [ipv6_ext_loop Nat.add]. destruct proto; [|done].
  destruct (rte_ipv6_get_next_ext _ _) as [[next len]|]; destruct (_ <? _)%nat; auto.
Qed.

(** The same bytes under another Ethernet header: accepted again when the
    Ethernet type says the IP version. *)
Lemma network_parse_move ep c1 :
  network_parse m1 o1 (o1 + n) 0 net_zero = Done (DOCA_SUCCESS, c1) ->
  ep = ethertype_of (net_ip_version c1) ->
  exists c2, network_parse m2 o2 (o2 + n) ep net_zero = Done (DOCA_SUCCESS, c2) /\ same_net c1 c2.
Proof.
  assert (nth o1 m1 0 = nth o2 m2 0) as Hnth.
  { rewrite <- (Nat.add_0_r o1), <- (Nat.add_0_r o2), <- !nth_skipn. by rewrite Hsame. }
  assert ((o1 =? o1 + n)%nat = (o2 =? o2 + n)%nat) as Heqb.
  { destruct (Nat.eqb_spec o1 (o1 + n)), (Nat.eqb_spec o2 (o2 + n)); (done || lia). }
  unfold network_parse. rewrite <- Hnth, <- Heqb, <- Hsame, !ltb_move.
  destruct (o1 =? o1 + n)%nat; [done|].
  destruct (Z.shiftr _ 4 =? 4).
  - cbn [Z.eqb negb andb]. destruct (o2 + n <? o2 + sizeof_ipv4_hdr)%nat; [done|].
    destruct (o2 + n <? o2 + rte_ipv4_hdr_len _)%nat; [done|].
    intros [= <-] ->. cbn. eexists. by split.
  - destruct (Z.shiftr _ 4 =? 6); [|done]. cbn [Z.eqb negb andb]. unfold ipv6_hdr_parse.
    rewrite <- Hsame, ltb_move.
    destruct (o2 + n <? o2 + sizeof_ipv6_hdr)%nat eqn:Hlt; [done|].
    destruct (ipv6_ext_loop_ok (S (S (o1 + n))) m1 o1 (o1 + n) (Some (ipv6_proto (drop o1 m1)))
      sizeof_ipv6_hdr IPPROTO_NONE None) as (r1 & E1 & _); [apply Nat.ltb_ge in Hlt; lia..|].
    rewrite E1. apply (ipv6_ext_loop_fuel _ _ _ _ _ _ _ _ _ (S (S (o2 + n)))) in E1.
    destruct (ipv6_ext_loop_ok (S (S (o2 + n))) m2 o2 (o2 + n) (Some (ipv6_proto (drop o1 m1)))
      sizeof_ipv6_hdr IPPROTO_NONE None) as (r2 & E2 & _); [apply Nat.ltb_ge in Hlt; lia..|].
    apply (ipv6_ext_loop_move _ _ _ _ None None) in E1 as (r2' & E2' & Hr); [|done].
    assert (E2'' := E2).
    apply (ipv6_ext_loop_fuel _ _ _ _ _ _ _ _ _ (S (S (o1 + n)))) in E2''.
    rewrite Nat.add_comm in E2''. rewrite E2'' in E2'. injection E2' as <-.
    destruct r1 as [[[t1 np1] f1]|]; [|done]. destruct r2 as [[[t2 np2] f2]|]; [|done].
    destruct Hr as (<- & <- & Hf). destruct f1 as [x1|], f2 as [x2|];
      [|by destruct (proj1 Hf)|by destruct (proj2 Hf)|]; intros [= <-] ->; cbn -[ipv6_ext_loop]; rewrite E2; cbn;
      eexists; by split.
Qed.

Lemma transport_parse_move k p c1 :
  transport_parse m1 (o1 + k) (o1 + n) p tp_zero = (DOCA_SUCCESS, c1) ->
  exists c2, transport_parse m2 (o2 + k) (o2 + n) p tp_zero = (DOCA_SUCCESS, c2) /\
    tp_proto c1 = tp_proto c2 /\ tp_len c1 = tp_len c2.
Proof.
  unfold transport_parse. rewrite <- same_drop, <- !Nat.add_assoc, !ltb_move.
  destruct (p =? DOCA_FLOW_PROTO_TCP).
  - destruct (o2 + n <? o2 + (k + sizeof_tcp_hdr))%nat; [done|].
    destruct (o2 + n <? o2 + (k + get_rte_tcp_hdr_len _))%nat; [done|].
    intros [= <-]. by eexists.
  - destruct (p =? DOCA_FLOW_PROTO_UDP); [|done].
    destruct (o2 + n <? o2 + (k + sizeof_udp_hdr))%nat; [done|].
    intros [= <-]. by eexists.
Qed.

Definition same_conn (c1 c2 : conn_parser_ctx) : Prop :=
  same_net (conn_net c1) (conn_net c2) /\
  tp_proto (conn_tp c1) = tp_proto (conn_tp c2) /\ tp_len (conn_tp c1) = tp_len (conn_tp c2).

(** A connection parsed without a link header parses again behind one. *)
Lemma conn_parse_move o2' lk c1 :
  conn_parse m1 o1 (o1 + n) conn_zero = Done (DOCA_SUCCESS, c1) ->
  (o2' + link_len lk)%nat = o2 ->
  link_next_proto lk = ethertype_of (net_ip_version (conn_net c1)) ->
  exists c2, conn_parse m2 o2' (o2 + n) {| conn_zero with conn_link := lk; conn_len := link_len lk |}
               = Done (DOCA_SUCCESS, c2) /\ same_conn c1 c2.
Proof.
  intros Hp Ho Hlk. unfold conn_parse in Hp |- *. cbn_ctx.
  cbn [conn_zero conn_link conn_len conn_net link_zero link_next_proto] in Hp.
  rewrite Nat.add_0_r in Hp.
  destruct (network_parse m1 o1 (o1 + n) 0 net_zero) as [[r net]|] eqn:En; [|done]. cbn in Hp.
  destruct (is_success r) eqn:Er; cbn in Hp; [|by injection Hp as -> _].
  apply is_success_true in Er as ->. destruct (net_frag net) eqn:Ef; [done|].
  destruct (transport_parse m1 (o1 + net_len net) (o1 + n) (net_next_proto net) tp_zero)
    as [r tp] eqn:Et.
  destruct (is_success r) eqn:Er; cbn in Hp; [|by injection Hp as -> _].
  apply is_success_true in Er as ->. injection Hp as <-. cbn in Hlk.
  destruct (network_parse_move _ _ En Hlk) as (net2 & En2 & Hn).
  rewrite Ho. cbn_ctx. rewrite En2. cbn. destruct Hn as (Hl & Hv & Hnp & Hfr).
  rewrite <- Hfr, Ef.
  apply transport_parse_move in Et as (tp2 & Et2 & Htp).
  rewrite <- Hnp, Nat.add_assoc, Ho, <- Hl, Et2. cbn. eexists. split; [done|]. unfold same_conn, same_net. cbn.
  by destruct Htp.
Qed.
End Move.

(** ** Theorems *)

(** C28: parsing a packet always returns, and when it succeeds every header lies
    inside the packet, one after the other: for [plain_parse] Ethernet, IP and
    TCP or UDP, for [tunnel_parse] also the GTP-U header with its option and
    extension words and the encapsulated IP and TCP or UDP headers; the length
    reported is the sum of the header lengths and does not pass the end of the
    packet. *)
Theorem parse_layout (m : list Z) (data dend : nat) :
  (exists ret c, plain_parse m data dend conn_zero = Done (ret, c) /\
     (ret = DOCA_SUCCESS -> plain_at dend c data)) /\
  (exists ret c, tunnel_parse m data dend tun_zero = Done (ret, c) /\
     (ret = DOCA_SUCCESS -> tunnel_at dend c data)).
Proof. split; [apply plain_parse_ok|apply tunnel_parse_ok]. Qed.

(** C37: no parser depends on memory after the packet: two buffers that agree up
    to [data_end] give the same result, code and context alike. *)
Theorem parse_no_overread (m1 m2 : list Z) (data dend : nat) t :
  take dend m1 = take dend m2 -> (data <= dend)%nat ->
  plain_parse m1 data dend conn_zero = plain_parse m2 data dend conn_zero /\
  tunnel_parse m1 data dend tun_zero = tunnel_parse m2 data dend tun_zero /\
  unknown_parse m1 data dend tun_zero t = unknown_parse m2 data dend tun_zero t.
Proof.
  intros Hm Hle. split_and!; [apply plain_parse_local|apply tunnel_parse_local|apply unknown_parse_local];
    done.
Qed.

(** C38: [unknown_parse] agrees with the parser of the type it infers: a packet it
    calls plain parses with [plain_parse] to the same code and connection, one it
    calls tunnelled is UDP to the GTP-U port and parses with [tunnel_parse] to
    the same code and context, and when it infers no type the packet has no valid
    link, network or transport header and [plain_parse] fails the same way. *)
Theorem unknown_parse_agrees (m : list Z) (data dend : nat) ret c ty :
  unknown_parse m data dend tun_zero PARSER_PKT_TYPE_UNKNOWN = Done (ret, c, ty) ->
  match ty with
  | PARSER_PKT_TYPE_PLAIN => plain_parse m data dend conn_zero = Done (ret, tun_inner c)
  | PARSER_PKT_TYPE_TUNNELED =>
    tunnel_parse m data dend tun_zero = Done (ret, c) /\ tp_proto (tun_tp c) = DOCA_FLOW_PROTO_UDP /\
    exists o, tp_hdr (tun_tp c) = Some o /\ udp_dst_port (drop o m) = DOCA_FLOW_GTPU_DEFAULT_PORT
  | PARSER_PKT_TYPE_UNKNOWN =>
    ret <> DOCA_SUCCESS /\ ret <> DOCA_ERROR_AGAIN /\ c = tun_zero /\
    exists c', plain_parse m data dend conn_zero = Done (ret, c')
  end.
Proof.
  unfold unknown_parse, plain_parse, tunnel_parse, conn_parse. cbn_ctx. rewrite !Nat.add_0_r.
  destruct (link_parse_ok m data dend link_zero) as [(l & -> & Hl & _)| ->]; cbn_ctx;
    [|intros [= <- <- <-]; by eauto 10].
  destruct (network_parse_ok m (data + link_len l) dend (link_next_proto l) net_zero)
    as (r & net & En & _ & Hr). rewrite En. cbn. rewrite ?En. cbn.
  destruct (is_success r) eqn:Er; cbn; [|intros [= <- <- <-]; split_and!; [by intros ->|done|done|by eexists]].
  apply is_success_true in Er as ->. destruct (net_frag net) eqn:Ef; [by intros [= <- <- <-]|].
  destruct (transport_parse_ok m (data + (link_len l + net_len net)) dend (net_next_proto net) tp_zero)
    as [(tp & -> & (Ho & _) & Hp)|(r' & -> & Hr')]; cbn.
  2: { destruct Hr' as [-> | ->]; intros [= <- <- <-]; by eauto 10. }
  rewrite Ho. cbn. destruct (Z.eqb_spec (tp_proto tp) DOCA_FLOW_PROTO_UDP) as [Hudp|]; cbn;
    [|by intros [= <- <- <-]].
  destruct (Z.eqb_spec (udp_dst_port (drop (data + (link_len l + net_len net)) m))
              DOCA_FLOW_GTPU_DEFAULT_PORT) as [Hport|]; cbn; [|by intros [= <- <- <-]].
  match goal with |- context [gtpu_inner_parse m data dend ?x] =>
    destruct (gtpu_inner_parse_ok m data dend x) as (r'' & c' & -> & _ & _ & Htp & _); [done|] end.
  cbn. intros [= <- <- <-]. rewrite Htp. cbn. eauto.
Qed.
End Facts.

(** ** Witnesses: a GTP-U packet on the layout of the RFCs *)

(** Ethernet, IPv4, UDP to port 2152, GTP-U with a one-word PSC extension
    (QFI 5), inner IPv4 and TCP. *)
Definition gtpu_packet : list Z :=
  [0xde;0xad;0xbe;0xef;0;2; 0xde;0xad;0xbe;0xef;0;1; 0x08;0x00] ++
  [0x45;0;0;96; 0;1;0;0; 64;17;0;0; 10;0;0;1; 10;0;0;2] ++
  [0x12;0x34; 0x08;0x68; 0;76; 0;0] ++
  [0x34;0xff;0;60; 0;0;0x30;0x39] ++ [0;1;0;0x85] ++ [1;0;5;0] ++
  [0x45;0;0;52; 0;2;0;0; 64;6;0;0; 172;16;0;5; 8;8;8;8] ++
  [0xc0;0x00; 0x01;0xbb; 0;0;0;1; 0;0;0;0; 0x50;0x10;0;0; 0;0;0;0].

Lemma parse_layout_witness :
  exists c, tunnel_parse gtpu_packet 0 98 tun_zero = Done (DOCA_SUCCESS, c) /\
            tunnel_at 98 c 0 /\ tun_len c = 98%nat.
Proof.
  destruct (parse_layout gtpu_packet 0 98) as [_ (ret & c & E & Hok)].
  assert (E' := E). vm_compute in E'. injection E' as <- <-.
  eexists. split; [exact E|]. split; [by apply Hok|reflexivity].
Defined.

Lemma parse_no_overread_witness :
  unknown_parse (gtpu_packet ++ [1; 2; 3]) 0 98 tun_zero PARSER_PKT_TYPE_UNKNOWN =
  unknown_parse (gtpu_packet ++ [7]) 0 98 tun_zero PARSER_PKT_TYPE_UNKNOWN.
Proof.
  apply (parse_no_overread (gtpu_packet ++ [1; 2; 3]) (gtpu_packet ++ [7]) 0 98
           PARSER_PKT_TYPE_UNKNOWN); [reflexivity|lia].
Defined.

Lemma unknown_parse_agrees_witness :
  exists c, tunnel_parse gtpu_packet 0 98 tun_zero = Done (DOCA_SUCCESS, c).
Proof.
  destruct (unknown_parse gtpu_packet 0 98 tun_zero PARSER_PKT_TYPE_UNKNOWN)
    as [[[ret c] ty]|] eqn:E; [|vm_compute in E; discriminate].
  pose proof (unknown_parse_agrees gtpu_packet 0 98 ret c ty E) as Hagree.
  vm_compute in E. injection E as <- <- <-. destruct Hagree as [Htun _]. by eexists.
Defined.
