(* ===== verification/UpfTypes.v ===== *)
(** * UpfTypes: the data of src/applications/upf_accel/upf_accel.h and
      upf_accel_flow_processing.h

    Arrays indexed by packet type ([PARSER_PKT_TYPE_NUM] is 2) are [per_dir]
    values. [union upf_accel_ip] is its sixteen bytes, so that the IPv4 and the
    IPv6 member alias as they do in C (little-endian, as on the supported
    targets). Pointers into the connection and extension arrays are indices.

    The DPDK hash table and the DOCA Flow pipes are not part of the repository.
    They are the classes [RteHash], [RteMbuf] and [DocaFlow]; [RteHashLaws] and
    [RteMbufLaws] state the documented behaviour the proofs use. *)

From S2P Require Import Prelude Wire PacketParser.

(** ** Packet directions *)

(** The two packet types that index arrays. *)
Inductive dir := TUNNELED | PLAIN.

#[global] Instance dir_eq_dec : EqDecision dir.
Proof. solve_decision. Defined.

Definition upf_accel_fp_get_opposite_pkt_type (d : dir) : dir :=
  match d with TUNNELED => PLAIN | PLAIN => TUNNELED end.

Record per_dir (A : Type) := PerDir { at_tun : A; at_plain : A }.
Arguments PerDir {A} _ _.
Arguments at_tun {A} _.
Arguments at_plain {A} _.

Definition pget {A} (d : dir) (p : per_dir A) : A :=
  match d with TUNNELED => at_tun p | PLAIN => at_plain p end.
Definition palter {A} (f : A -> A) (d : dir) (p : per_dir A) : per_dir A :=
  match d with
  | TUNNELED => PerDir (f (at_tun p)) (at_plain p)
  | PLAIN => PerDir (at_tun p) (f (at_plain p))
  end.
Definition pset {A} (d : dir) (x : A) (p : per_dir A) : per_dir A := palter (fun _ => x) d p.

Lemma pget_palter {A} (f : A -> A) d (p : per_dir A) : pget d (palter f d p) = f (pget d p).
Proof. by destruct d. Qed.
Lemma pget_palter_ne {A} (f : A -> A) d d' (p : per_dir A) :
  d <> d' -> pget d' (palter f d p) = pget d' p.
Proof. by destruct d, d'. Qed.
Lemma pget_pset {A} d (x : A) (p : per_dir A) : pget d (pset d x p) = x.
Proof. by destruct d. Qed.
Lemma pget_pset_ne {A} d d' (x : A) (p : per_dir A) : d <> d' -> pget d' (pset d x p) = pget d' p.
Proof. by destruct d, d'. Qed.

(** ** Addresses and matches *)

Definition upf_accel_ip := list Z.
Definition ip_zero : upf_accel_ip := replicate 16 0.
Definition ip_v4 (u : upf_accel_ip) : Z := le_combine (take 4 u).
Definition ip_set_v4 (x : Z) (u : upf_accel_ip) : upf_accel_ip := le_split 4 x ++ drop 4 u.
Definition ip_set_v6 (b : list Z) (u : upf_accel_ip) : upf_accel_ip := b.

Lemma ip_v4_set x u : 0 <= x < 2 ^ 32 -> ip_v4 (ip_set_v4 x u) = x.
Proof.
  intros Hx. unfold ip_v4, ip_set_v4.
  rewrite take_app_le by (by rewrite length_le_split).
  rewrite take_ge by (by rewrite length_le_split).
  rewrite le_combine_split. by apply Z.mod_small.
Qed.

Inductive doca_flow_l3_type := L3_NONE | L3_IP4 | L3_IP6.
#[global] Instance l3_type_eq_dec : EqDecision doca_flow_l3_type.
Proof. solve_decision. Defined.

Record upf_accel_ip_addr := {
  ia_addr : upf_accel_ip;
  ia_mask : upf_accel_ip;
  ia_version : doca_flow_l3_type;
}.

Record upf_accel_ip_port_range := { range_from : Z; range_to : Z }.

Inductive upf_accel_pdr_pdi_si := SI_UL | SI_DL.
#[global] Instance pdi_si_eq_dec : EqDecision upf_accel_pdr_pdi_si.
Proof. solve_decision. Defined.

Record upf_accel_pdr := {
  pdr_id : Z;
  pdr_farid : Z;
  pdr_urrids : list Z;
  pdr_qerids : list Z;
  pdi_si : upf_accel_pdr_pdi_si;
  pdi_local_teid_start : Z;
  pdi_local_teid_end : Z;
  pdi_local_teid_ip : upf_accel_ip_addr;
  pdi_ueip : upf_accel_ip_addr;
  pdi_sdf_proto : Z;
  pdi_qfi : Z;
  pdi_sdf_from_ip : upf_accel_ip_addr;
  pdi_sdf_from_port_range : upf_accel_ip_port_range;
  pdi_sdf_to_ip : upf_accel_ip_addr;
  pdi_sdf_to_port_range : upf_accel_ip_port_range;
}.

Record upf_accel_match_tun := {
  te_ip : upf_accel_ip;
  te_id : Z;
  mt_qfi : Z;
  mt_version : doca_flow_l3_type;
}.

Record upf_accel_match_5t := {
  ue_ip : upf_accel_ip;
  extern_ip : upf_accel_ip;
  ue_port : Z;
  extern_port : Z;
  m5_version : doca_flow_l3_type;
  ip_proto : Z;
}.

Record upf_accel_match_8t := {
  m8_inner : upf_accel_match_5t;
  m8_outer : upf_accel_match_tun;
}.

Record upf_accel_match_extension := {
  ext_ue_ip : list Z;
  ext_te_id : Z;
  ext_qfi : Z;
}.

#[global] Instance match_tun_eq_dec : EqDecision upf_accel_match_tun.
Proof. solve_decision. Defined.
#[global] Instance match_5t_eq_dec : EqDecision upf_accel_match_5t.
Proof. solve_decision. Defined.
#[global] Instance match_extension_eq_dec : EqDecision upf_accel_match_extension.
Proof. solve_decision. Defined.

(** [memset(match, 0, sizeof( *match))] *)
Definition match_tun_zero : upf_accel_match_tun :=
  {| te_ip := ip_zero; te_id := 0; mt_qfi := 0; mt_version := L3_NONE |}.
Definition match_5t_zero : upf_accel_match_5t :=
  {| ue_ip := ip_zero; extern_ip := ip_zero; ue_port := 0; extern_port := 0;
     m5_version := L3_NONE; ip_proto := 0 |}.
Definition match_8t_zero : upf_accel_match_8t :=
  {| m8_inner := match_5t_zero; m8_outer := match_tun_zero |}.

(** ** Entries *)

Inductive upf_accel_entry_state :=
| STATE_NONE
| STATE_PENDING
| STATE_UNACCELERATED
| STATE_PENDING_ACCELERATION
| STATE_ACCELERATED
| STATE_PENDING_DEACCELERATION.
#[global] Instance entry_state_eq_dec : EqDecision upf_accel_entry_state.
Proof. solve_decision. Defined.

Record upf_accel_sw_aging_ll := { ll_head : Z; ll_tail : Z }.
Record upf_accel_sw_aging_ll_node := { node_prev : Z; node_next : Z; node_timestamp : Z }.

(** A [struct doca_flow_pipe_entry *] is an opaque handle. *)
Record upf_accel_flow_entry := {
  fe_entry : option Z;
  fe_ext_entry : option Z;
  fe_node : upf_accel_sw_aging_ll_node;
  fe_state : upf_accel_entry_state;
}.

Record upf_accel_dyn_entry_ctx := {
  dc_match : upf_accel_match_8t;
  dc_cnt_pkts : per_dir Z;
  dc_cnt_bytes : per_dir Z;
  dc_entries : per_dir upf_accel_flow_entry;
  dc_pdr_id : per_dir Z;
  dc_conn_idx : Z;
  dc_hash : Z;
  dc_port_id : Z;
}.

Record upf_accel_extension_entry_ctx := {
  xc_match : upf_accel_match_extension;
  xc_entry : option Z;
  xc_del_next : option Z;
  xc_hash : Z;
  xc_md_value : Z;
  xc_ref_cnt : Z;
  xc_state : upf_accel_entry_state;
}.

(** Zeroed memory. *)
Definition node_zero : upf_accel_sw_aging_ll_node :=
  {| node_prev := 0; node_next := 0; node_timestamp := 0 |}.
Definition flow_entry_zero : upf_accel_flow_entry :=
  {| fe_entry := None; fe_ext_entry := None; fe_node := node_zero; fe_state := STATE_NONE |}.
Definition dyn_zero : upf_accel_dyn_entry_ctx :=
  {| dc_match := match_8t_zero; dc_cnt_pkts := PerDir 0 0; dc_cnt_bytes := PerDir 0 0;
     dc_entries := PerDir flow_entry_zero flow_entry_zero; dc_pdr_id := PerDir 0 0;
     dc_conn_idx := 0; dc_hash := 0; dc_port_id := 0 |}.
Definition ext_zero : upf_accel_extension_entry_ctx :=
  {| xc_match := {| ext_ue_ip := ip_zero; ext_te_id := 0; ext_qfi := 0 |};
     xc_entry := None; xc_del_next := None; xc_hash := 0; xc_md_value := 0; xc_ref_cnt := 0;
     xc_state := STATE_NONE |}.

(** The arrays are allocated with [rte_calloc]: an element never written is zero. *)
#[global] Instance dyn_inhabited : Inhabited upf_accel_dyn_entry_ctx := populate dyn_zero.
#[global] Instance ext_inhabited : Inhabited upf_accel_extension_entry_ctx := populate ext_zero.

(** ** Counters *)

Record upf_accel_packet_byte_counter := { pb_pkts : Z; pb_bytes : Z }.
Record upf_accel_fp_sw_counters := {
  sw_new_conn : upf_accel_packet_byte_counter;
  sw_ex_conn : upf_accel_packet_byte_counter;
  sw_err : upf_accel_packet_byte_counter;
}.
Record upf_accel_fp_accel_counters := {
  c_current : Z;
  c_total : Z;
  c_accel_errors : Z;
  c_aging_errors : Z;
  c_del_errors : Z;
}.
Definition counters_zero : upf_accel_fp_accel_counters :=
  {| c_current := 0; c_total := 0; c_accel_errors := 0; c_aging_errors := 0; c_del_errors := 0 |}.

(** The counters are [uint64_t]: [++] and [--] wrap around. *)
Definition inc64 (x : Z) : Z := u64 (x + 1).
Definition dec64 (x : Z) : Z := u64 (x - 1).
Definition inc_current (c : upf_accel_fp_accel_counters) := {| c with c_current := inc64 (c_current c) |}.
Definition dec_current (c : upf_accel_fp_accel_counters) := {| c with c_current := dec64 (c_current c) |}.
Definition inc_total (c : upf_accel_fp_accel_counters) := {| c with c_total := inc64 (c_total c) |}.
Definition inc_accel_errors (c : upf_accel_fp_accel_counters) :=
  {| c with c_accel_errors := inc64 (c_accel_errors c) |}.
Definition inc_aging_errors (c : upf_accel_fp_accel_counters) :=
  {| c with c_aging_errors := inc64 (c_aging_errors c) |}.
Definition inc_del_errors (c : upf_accel_fp_accel_counters) :=
  {| c with c_del_errors := inc64 (c_del_errors c) |}.

(** ** Library interfaces *)

(** [rte_hash]: positions are offsets into the user's arrays, [None] stands for
    a negative return value. *)
Class RteHash (K : Type) := {
  rte_hash : Type;
  rte_hash_hash : K -> Z;
  rte_hash_lookup : rte_hash -> K -> option Z;
  rte_hash_add_key_with_hash : rte_hash -> K -> Z -> rte_hash * option Z;
  rte_hash_del_key_with_hash : rte_hash -> K -> Z -> rte_hash * option Z;
}.
Arguments rte_hash K {_}.

Class RteHashLaws (K : Type) `{RteHash K} := {
  hash_lookup_nonneg : forall (h : rte_hash K) k i, rte_hash_lookup h k = Some i -> 0 <= i;
  (** a position is unique for its key *)
  hash_lookup_inj : forall (h : rte_hash K) k k' i,
    rte_hash_lookup h k = Some i -> rte_hash_lookup h k' = Some i -> k = k';
  (** adding a key that is there gives its position and changes nothing *)
  hash_add_present : forall (h : rte_hash K) k i,
    rte_hash_lookup h k = Some i ->
    rte_hash_add_key_with_hash h k (rte_hash_hash k) = (h, Some i);
  hash_add_lookup : forall (h h' : rte_hash K) k i,
    rte_hash_add_key_with_hash h k (rte_hash_hash k) = (h', Some i) ->
    rte_hash_lookup h' k = Some i;
  hash_add_other : forall (h h' : rte_hash K) k k' i,
    rte_hash_add_key_with_hash h k (rte_hash_hash k) = (h', Some i) -> k <> k' ->
    rte_hash_lookup h' k' = rte_hash_lookup h k';
  hash_add_fail : forall (h h' : rte_hash K) k,
    rte_hash_add_key_with_hash h k (rte_hash_hash k) = (h', None) -> h' = h;
  hash_del_lookup : forall (h h' : rte_hash K) k r,
    rte_hash_del_key_with_hash h k (rte_hash_hash k) = (h', r) ->
    r = rte_hash_lookup h k /\ rte_hash_lookup h' k = None;
  hash_del_other : forall (h h' : rte_hash K) k k' r,
    rte_hash_del_key_with_hash h k (rte_hash_hash k) = (h', r) -> k <> k' ->
    rte_hash_lookup h' k' = rte_hash_lookup h k';
}.

(** [struct rte_mbuf]: its data bytes ([rte_pktmbuf_mtod] up to
    [rte_pktmbuf_data_len]), its packet length and the metadata of the
    [RTE_FLOW_DYNF_METADATA] field; [mb_write] stores bytes at the start of the
    data, [mb_set_metadata] sets the metadata and the TX flag. *)
Class RteMbuf := {
  rte_mbuf : Type;
  mb_data : rte_mbuf -> list Z;
  rte_pktmbuf_pkt_len : rte_mbuf -> Z;
  mb_metadata : rte_mbuf -> Z;
  rte_pktmbuf_adj : rte_mbuf -> nat -> rte_mbuf;
  mb_write : list Z -> rte_mbuf -> rte_mbuf;
  mb_set_metadata : Z -> rte_mbuf -> rte_mbuf;
}.

Class RteMbufLaws `{RteMbuf} := {
  adj_data : forall p n, (n <= length (mb_data p))%nat ->
    mb_data (rte_pktmbuf_adj p n) = drop n (mb_data p);
  write_data : forall p b, (length b <= length (mb_data p))%nat ->
    mb_data (mb_write b p) = b ++ drop (length b) (mb_data p);
  set_metadata_data : forall p md, mb_data (mb_set_metadata md p) = mb_data p;
  set_metadata_get : forall p md, mb_metadata (mb_set_metadata md p) = md;
}.

(** The pipes the fast path adds entries to. *)
Inductive upf_accel_pipe_type :=
| PIPE_8T_IPV4 | PIPE_7T_IPV4 | PIPE_8T_IPV6 | PIPE_7T_IPV6
| PIPE_8T_IPV6_EXT | PIPE_7T_IPV6_EXT
| PIPE_5T_IPV4 | PIPE_5T_IPV6 | PIPE_5T_IPV6_EXT.
#[global] Instance pipe_type_eq_dec : EqDecision upf_accel_pipe_type.
Proof. solve_decision. Defined.

(** The fields of [struct doca_flow_match] the fast path sets; the rest is zero.
    The union members tcp and udp are told apart by the protocol set with them. *)
Record l4_port := { l4_src_port : Z; l4_dst_port : Z }.
Record doca_flow_match := {
  hw_pkt_meta : Z;
  hw_outer_ip4_src : Z;
  hw_outer_ip4_dst : Z;
  hw_outer_ip6_src : list Z;
  hw_outer_ip6_dst : list Z;
  hw_outer_next_proto : Z;
  hw_outer_l4 : l4_port;
  hw_gtp_teid : Z;
  hw_gtp_ext_psc_qfi : Z;
  hw_inner_ip4_src : Z;
  hw_inner_ip4_dst : Z;
  hw_inner_ip6_src : list Z;
  hw_inner_ip6_dst : list Z;
  hw_inner_next_proto : Z;
  hw_inner_l4 : l4_port;
}.
Definition l4_zero : l4_port := {| l4_src_port := 0; l4_dst_port := 0 |}.
Definition hw_match_zero : doca_flow_match :=
  {| hw_pkt_meta := 0; hw_outer_ip4_src := 0; hw_outer_ip4_dst := 0; hw_outer_ip6_src := ip_zero;
     hw_outer_ip6_dst := ip_zero; hw_outer_next_proto := 0; hw_outer_l4 := l4_zero;
     hw_gtp_teid := 0; hw_gtp_ext_psc_qfi := 0; hw_inner_ip4_src := 0; hw_inner_ip4_dst := 0;
     hw_inner_ip6_src := ip_zero; hw_inner_ip6_dst := ip_zero; hw_inner_next_proto := 0;
     hw_inner_l4 := l4_zero |}.

(** The [user_ctx] of an entry: a pointer into the connection table, into the
    extension table, or to the static context of a port; NULL is [CtxNull]. *)
Inductive user_ctx := CtxDyn (i : Z) | CtxExt (i : Z) | CtxStatic (port : Z) | CtxNull.

(** The arguments of [doca_flow_pipe_basic_add_entry]. *)
Record add_request := {
  rq_queue : Z;
  rq_port : Z;
  rq_pipe : upf_accel_pipe_type;
  rq_match : doca_flow_match;
  rq_meta : Z;
  rq_ctx : user_ctx;
}.

(** DOCA Flow: [hw] is the state of the library and the device; adding an entry
    gives its handle when it succeeds. The completion of an addition or removal
    is reported later, through the callback. *)
Class DocaFlow := {
  hw : Type;
  doca_flow_pipe_basic_add_entry : hw -> add_request -> hw * (doca_error_t * Z);
  doca_flow_pipe_remove_entry : hw -> Z -> option Z -> hw * doca_error_t;
}.

(** ** The data of one worker core *)

Record upf_accel_config := {
  cfg_pdrs : list upf_accel_pdr;
  cfg_sw_aging_time_sec : Z;
  cfg_dpi_threshold : Z;
}.

(** [struct entries_status] of samples/doca_flow/flow_common.h *)
Record entries_status := { es_failure : bool; es_nb_processed : Z }.
#[global] Instance entries_status_inhabited : Inhabited entries_status :=
  populate {| es_failure := false; es_nb_processed := 0 |}.

Section FpData.
Context `{!RteHash upf_accel_match_5t, !RteHash upf_accel_match_extension, !DocaFlow}.

(** [fp_cfg] and [fp_static] are reached through the pointer [fp_data->ctx]
    ([upf_accel_cfg] and [static_entry_ctx]); the latter, [last_hw_aging_tsc] and
    [hw_aging_in_progress] are indexed by port. *)
Record upf_accel_fp_data := {
  fp_cfg : upf_accel_config;
  fp_queue_id : Z;
  fp_dyn_tbl : rte_hash upf_accel_match_5t;
  fp_dyn_tbl_data : gmap Z upf_accel_dyn_entry_ctx;
  fp_dyn_ext_tbl : rte_hash upf_accel_match_extension;
  fp_dyn_ext_tbl_data : gmap Z upf_accel_extension_entry_ctx;
  fp_sw_counters : upf_accel_fp_sw_counters;
  fp_accel_counters : per_dir upf_accel_fp_accel_counters;
  fp_unaccel_counters : per_dir upf_accel_fp_accel_counters;
  fp_accel_failed_counters : per_dir upf_accel_fp_accel_counters;
  fp_sw_aging_ll : per_dir upf_accel_sw_aging_ll;
  fp_last_hw_aging_tsc : gmap Z Z;
  fp_hw_aging_in_progress : gmap Z bool;
  fp_static : gmap Z entries_status;
  fp_hw : hw;
}.

(** *** Access to the arrays *)

Definition conn (fp : upf_accel_fp_data) (i : Z) : upf_accel_dyn_entry_ctx :=
  fp_dyn_tbl_data fp !!! i.
Definition ext (fp : upf_accel_fp_data) (i : Z) : upf_accel_extension_entry_ctx :=
  fp_dyn_ext_tbl_data fp !!! i.
Definition entry (fp : upf_accel_fp_data) (i : Z) (d : dir) : upf_accel_flow_entry :=
  pget d (dc_entries (conn fp i)).
Definition node (fp : upf_accel_fp_data) (i : Z) (d : dir) : upf_accel_sw_aging_ll_node :=
  fe_node (entry fp i d).
Definition state (fp : upf_accel_fp_data) (i : Z) (d : dir) : upf_accel_entry_state :=
  fe_state (entry fp i d).

Definition set_conn (i : Z) (c : upf_accel_dyn_entry_ctx) (fp : upf_accel_fp_data) :=
  {| fp with fp_dyn_tbl_data := <[i := c]> (fp_dyn_tbl_data fp) |}.
Definition set_ext (i : Z) (x : upf_accel_extension_entry_ctx) (fp : upf_accel_fp_data) :=
  {| fp with fp_dyn_ext_tbl_data := <[i := x]> (fp_dyn_ext_tbl_data fp) |}.
Definition set_entry (i : Z) (d : dir) (e : upf_accel_flow_entry) (fp : upf_accel_fp_data) :=
  set_conn i (let c := conn fp i in {| c with dc_entries := pset d e (dc_entries c) |}) fp.
Definition set_node (i : Z) (d : dir) (n : upf_accel_sw_aging_ll_node) (fp : upf_accel_fp_data) :=
  set_entry i d (let e := entry fp i d in {| e with fe_node := n |}) fp.
Definition set_state (i : Z) (d : dir) (s : upf_accel_entry_state) (fp : upf_accel_fp_data) :=
  set_entry i d (let e := entry fp i d in {| e with fe_state := s |}) fp.
Definition set_ll (d : dir) (l : upf_accel_sw_aging_ll) (fp : upf_accel_fp_data) :=
  {| fp with fp_sw_aging_ll := pset d l (fp_sw_aging_ll fp) |}.
Definition set_dyn_tbl (t : rte_hash upf_accel_match_5t) (fp : upf_accel_fp_data) :=
  {| fp with fp_dyn_tbl := t |}.
Definition set_ext_tbl (t : rte_hash upf_accel_match_extension) (fp : upf_accel_fp_data) :=
  {| fp with fp_dyn_ext_tbl := t |}.
Definition set_hw (h : hw) (fp : upf_accel_fp_data) := {| fp with fp_hw := h |}.
Definition upd_unaccel f (d : dir) (fp : upf_accel_fp_data) :=
  {| fp with fp_unaccel_counters := palter f d (fp_unaccel_counters fp) |}.
Definition upd_accel f (d : dir) (fp : upf_accel_fp_data) :=
  {| fp with fp_accel_counters := palter f d (fp_accel_counters fp) |}.
Definition upd_failed f (d : dir) (fp : upf_accel_fp_data) :=
  {| fp with fp_accel_failed_counters := palter f d (fp_accel_failed_counters fp) |}.
End FpData.

(** *** Reading back what was written *)
Section FpDataFacts.
Context `{!RteHash upf_accel_match_5t, !RteHash upf_accel_match_extension, !DocaFlow}.
Implicit Types (fp : upf_accel_fp_data) (i j : Z) (d e : dir).

Lemma conn_set_conn i c fp j : conn (set_conn i c fp) j = if decide (i = j) then c else conn fp j.
Proof.
  unfold conn, set_conn. cbn. case_decide as Hij; subst.
  - apply lookup_total_insert_eq.
  - by apply lookup_total_insert_ne.
Qed.

Lemma ext_set_ext i x fp j : ext (set_ext i x fp) j = if decide (i = j) then x else ext fp j.
Proof.
  unfold ext, set_ext. cbn. case_decide as Hij; subst.
  - apply lookup_total_insert_eq.
  - by apply lookup_total_insert_ne.
Qed.

Lemma entry_set_entry i d x fp j e :
  entry (set_entry i d x fp) j e = if decide (i = j /\ d = e) then x else entry fp j e.
Proof.
  unfold entry, set_entry. rewrite conn_set_conn. destruct (decide (i = j)) as [->|Hij]; cbn.
  - destruct (decide (d = e)) as [->|Hde].
    + rewrite pget_pset. by rewrite decide_True.
    + rewrite pget_pset_ne by done. by rewrite decide_False by naive_solver.
  - by rewrite decide_False by naive_solver.
Qed.

Lemma set_conn_twice i c c' fp : set_conn i c (set_conn i c' fp) = set_conn i c fp.
Proof. unfold set_conn. cbn. by rewrite insert_insert_eq. Qed.
Lemma set_entry_set_conn i d x (c : upf_accel_dyn_entry_ctx) fp :
  set_entry i d x (set_conn i c fp) = set_conn i {| c with dc_entries := pset d x (dc_entries c) |} fp.
Proof. unfold set_entry. rewrite conn_set_conn, decide_True by done. apply set_conn_twice. Qed.

(** The part of a connection that is not its two flow entries. *)
Definition conn_rest (c : upf_accel_dyn_entry_ctx) : upf_accel_dyn_entry_ctx :=
  {| c with dc_entries := PerDir flow_entry_zero flow_entry_zero |}.

Lemma conn_rest_set_entry i d x fp j : conn_rest (conn (set_entry i d x fp) j) = conn_rest (conn fp j).
Proof. unfold set_entry. rewrite conn_set_conn. by case_decide as Hij; subst. Qed.

Lemma node_set_node i d n fp j e :
  node (set_node i d n fp) j e = if decide (i = j /\ d = e) then n else node fp j e.
Proof. unfold node, set_node. rewrite entry_set_entry. by case_decide. Qed.
Lemma fe_entry_set_node i d n fp j e :
  fe_entry (entry (set_node i d n fp) j e) = fe_entry (entry fp j e).
Proof. unfold set_node. rewrite entry_set_entry. by case_decide as Hij; [destruct Hij; subst|]. Qed.
Lemma fe_entry_set_state i d s fp j e :
  fe_entry (entry (set_state i d s fp) j e) = fe_entry (entry fp j e).
Proof. unfold set_state. rewrite entry_set_entry. by case_decide as Hij; [destruct Hij; subst|]. Qed.
Lemma state_set_node i d n fp j e : state (set_node i d n fp) j e = state fp j e.
Proof. unfold state, set_node. rewrite entry_set_entry. by case_decide as Hij; [destruct Hij; subst|]. Qed.
Lemma state_set_state i d s fp j e :
  state (set_state i d s fp) j e = if decide (i = j /\ d = e) then s else state fp j e.
Proof. unfold state, set_state. rewrite entry_set_entry. by case_decide. Qed.
Lemma node_set_state i d s fp j e : node (set_state i d s fp) j e = node fp j e.
Proof. unfold node, set_state. rewrite entry_set_entry. by case_decide as Hij; [destruct Hij; subst|]. Qed.
End FpDataFacts.
