(* ===== verification/UpfSim.v ===== *)
(** * UpfSim: concrete instances of the library interfaces of UpfTypes

    A hash table as an array of slots and a device that records what it is asked
    to do. The witnesses and the concrete runs of the UPF files use them;
    [sim_hash_laws] shows that [RteHashLaws] can be met. *)

From S2P Require Import Prelude Wire PacketParser UpfTypes.

Section SimHash.
Context {K : Type} `{EqDecision K}.
Implicit Types (k : K) (s : option K) (l : list (option K)) (i : Z).

(** The first slot that holds [s], counting from [i]. *)
Fixpoint slot_of s l i : option Z :=
  match l with
  | [] => None
  | x :: l => if decide (x = s) then Some i else slot_of s l (i + 1)
  end.
(** Fills the first free slot. *)
Fixpoint fill k l : list (option K) :=
  match l with
  | [] => []
  | None :: l => Some k :: l
  | x :: l => x :: fill k l
  end.
Definition clear k l : list (option K) := map (fun x => if decide (x = Some k) then None else x) l.

Definition sim_add l k : list (option K) * option Z :=
  match slot_of (Some k) l 0 with
  | Some i => (l, Some i)
  | None => match slot_of None l 0 with Some i => (fill k l, Some i) | None => (l, None) end
  end.

Lemma slot_of_ge s l i j : slot_of s l i = Some j -> i <= j.
Proof.
  revert i. induction l as [|x l IH]; intros i; cbn; [done|]. case_decide; [by intros [= ->]|].
  intros Hj%IH. lia.
Qed.
Lemma slot_of_inj s s' l i j : slot_of s l i = Some j -> slot_of s' l i = Some j -> s = s'.
Proof.
  revert i. induction l as [|x l IH]; intros i; cbn; [done|]. do 2 case_decide; subst; try done.
  - intros [= ->] Hj%slot_of_ge. lia.
  - intros Hj%slot_of_ge [= ->]. lia.
  - apply IH.
Qed.
Lemma slot_of_fill k l i j :
  slot_of (Some k) l i = None -> slot_of None l i = Some j -> slot_of (Some k) (fill k l) i = Some j.
Proof.
  revert i. induction l as [|x l IH]; intros i; cbn; [done|]. case_decide; [done|].
  destruct x as [k'|]; cbn.
  - rewrite (decide_False (P := Some k' = Some k)) by done. apply IH.
  - intros _ [= <-]. by rewrite decide_True.
Qed.
Lemma slot_of_fill_ne k k' l i : k <> k' -> slot_of (Some k') (fill k l) i = slot_of (Some k') l i.
Proof.
  intros Hk. revert i. induction l as [|x l IH]; intros i; cbn; [done|]. destruct x as [k0|]; cbn.
  - case_decide; [done|apply IH].
  - by rewrite !decide_False by congruence.
Qed.
Lemma slot_of_clear k l i : slot_of (Some k) (clear k l) i = None.
Proof.
  revert i. induction l as [|x l IH]; intros i; cbn; [done|].
  destruct (decide (x = Some k)); [rewrite decide_False by done|rewrite decide_False by done]; apply IH.
Qed.
Lemma slot_of_clear_ne k k' l i : k <> k' -> slot_of (Some k') (clear k l) i = slot_of (Some k') l i.
Proof.
  intros Hk. revert i. induction l as [|x l IH]; intros i; cbn; [done|].
  destruct (decide (x = Some k)) as [->|]; [|case_decide; [done|apply IH]].
  rewrite !decide_False by congruence. apply IH.
Qed.

#[export] Instance sim_hash : RteHash K := {|
  rte_hash := list (option K);
  rte_hash_hash _ := 0;
  rte_hash_lookup l k := slot_of (Some k) l 0;
  rte_hash_add_key_with_hash l k _ := sim_add l k;
  rte_hash_del_key_with_hash l k _ := (clear k l, slot_of (Some k) l 0);
|}.

#[export] Instance sim_hash_laws : RteHashLaws K.
Proof.
  split; cbn; unfold sim_add.
  - intros h k i. apply slot_of_ge.
  - intros h k k' i H1 H2. by injection (slot_of_inj _ _ _ _ _ H1 H2).
  - by intros h k i ->.
  - intros h h' k i. destruct (slot_of (Some k) h 0) eqn:E; [by intros [= <- <-]|].
    destruct (slot_of None h 0) eqn:E0; [|done]. intros [= <- <-]. by apply slot_of_fill.
  - intros h h' k k' i. destruct (slot_of (Some k) h 0) eqn:E; [by intros [= <- _]|].
    destruct (slot_of None h 0); [|done]. intros [= <- _] Hne. by apply slot_of_fill_ne.
  - intros h h' k. by repeat case_match; intros [= <-].
  - intros h h' k r [= <- <-]. split; [done|apply slot_of_clear].
  - intros h h' k k' r [= <- _] Hne. by apply slot_of_clear_ne.
Qed.
End SimHash.

(** A device that accepts every request ([sim_ok]) or rejects every one, and
    numbers its entries from 100. *)
Record sim_hw := { sim_ok : bool; sim_added : list add_request; sim_removed : list (option Z) }.

#[export] Instance sim_flow : DocaFlow := {|
  hw := sim_hw;
  doca_flow_pipe_basic_add_entry h rq :=
    if sim_ok h
    then ({| h with sim_added := sim_added h ++ [rq] |},
          (DOCA_SUCCESS, 100 + Z.of_nat (length (sim_added h))))
    else (h, (DOCA_ERROR_FULL, 0));
  doca_flow_pipe_remove_entry h q e := ({| h with sim_removed := sim_removed h ++ [e] |}, DOCA_SUCCESS);
|}.

Definition counter_zero : upf_accel_packet_byte_counter := {| pb_pkts := 0; pb_bytes := 0 |}.

(** A core with [slots] connections, no flow yet and an accepting device. *)
Definition sim_fp (cfg : upf_accel_config) (slots : nat) : upf_accel_fp_data :=
  {| fp_cfg := cfg; fp_queue_id := 1; fp_dyn_tbl := replicate slots None; fp_dyn_tbl_data := ∅;
     fp_dyn_ext_tbl := replicate slots None; fp_dyn_ext_tbl_data := ∅;
     fp_sw_counters := {| sw_new_conn := counter_zero; sw_ex_conn := counter_zero; sw_err := counter_zero |};
     fp_accel_counters := PerDir counters_zero counters_zero;
     fp_unaccel_counters := PerDir counters_zero counters_zero;
     fp_accel_failed_counters := PerDir counters_zero counters_zero;
     fp_sw_aging_ll := PerDir {| ll_head := -1; ll_tail := -1 |} {| ll_head := -1; ll_tail := -1 |};
     fp_last_hw_aging_tsc := ∅; fp_hw_aging_in_progress := ∅; fp_static := ∅;
     fp_hw := {| sim_ok := true; sim_added := []; sim_removed := [] |} |}.
