(* ===== verification/UpfMatch.v ===== *)
(** * UpfMatch: packet classification of
      src/applications/upf_accel/upf_accel_flow_processing.c

    The functions that turn a packet into a match, look up the PDR (packet
    detection rule) of a match, and strip the tunnel. They keep no state. A
    switch that ends in [assert(0)] is [Crash AssertFail].

    [pdr_lookup_first] is the contract of the lookup, which never reaches an
    assert on a match the parser produced;
    [match_directions_agree] says that the two directions of a connection give
    one key, [decap_parses] that a decapsulated packet parses as its inner
    connection. [sdf_address_ignored] shows that the SDF address filter has no
    effect on packets of its own IP version. *)

From S2P Require Import Prelude Wire PacketParser UpfTypes.

(** ** Masked addresses *)

Definition ipv4_masked_is_matching (masked : upf_accel_ip_addr) (ipv4 : Z) : bool :=
  ip_v4 (ia_addr masked) =? Z.land ipv4 (ip_v4 (ia_mask masked)).

Definition ipv6_masked_is_matching (masked : upf_accel_ip_addr) (ipv6 : list Z) : bool :=
  bool_decide (zip_with Z.land ipv6 (ia_mask masked) = ia_addr masked).

Definition ip_masked_is_matching (masked : upf_accel_ip_addr) (ip : upf_accel_ip) : res bool :=
  match ia_version masked with
  | L3_IP4 => Done (ipv4_masked_is_matching masked (ip_v4 ip))
  | L3_IP6 => Done (ipv6_masked_is_matching masked ip)
  | L3_NONE => Crash AssertFail
  end.

(** ** PDR lookup *)

Definition upf_accel_pdr_tunnel_is_matching (pdr : upf_accel_pdr) (m : upf_accel_match_tun)
    : res bool :=
  if (te_id m <? pdi_local_teid_start pdr) || (pdi_local_teid_end pdr <? te_id m) then Done false
  else if (negb (mt_qfi m =? 0) || negb (pdi_qfi pdr =? 0)) && negb (pdi_qfi pdr =? mt_qfi m)
  then Done false
  else if bool_decide (ia_version (pdi_local_teid_ip pdr) = mt_version m)
  then ip_masked_is_matching (pdi_local_teid_ip pdr) (te_ip m)
  else Done false.

(** The condition of the two SDF address checks, operand by operand. *)
Definition sdf_ip_mismatch (sdf : upf_accel_ip_addr) (version : doca_flow_l3_type)
    (ip : upf_accel_ip) : res bool :=
  if bool_decide (ia_version sdf <> L3_NONE) then
    if bool_decide (ia_version sdf <> version) then negb <$> ip_masked_is_matching sdf ip
    else Done false
  else Done false.

Definition upf_accel_pdr_tuple_is_matching (pdr : upf_accel_pdr) (m : upf_accel_match_5t)
    : res bool :=
  if negb (pdi_sdf_proto pdr =? 0) && negb (ip_proto m =? pdi_sdf_proto pdr) then Done false
  else if (ue_port m <? range_from (pdi_sdf_from_port_range pdr))
          || (range_to (pdi_sdf_from_port_range pdr) <? ue_port m) then Done false
  else if (extern_port m <? range_from (pdi_sdf_to_port_range pdr))
          || (range_to (pdi_sdf_to_port_range pdr) <? extern_port m) then Done false
  else
    bad ← sdf_ip_mismatch (pdi_sdf_from_ip pdr) (m5_version m) (ue_ip m);
    if bad : bool then Done false
    else
      bad ← sdf_ip_mismatch (pdi_sdf_to_ip pdr) (m5_version m) (extern_ip m);
      if bad : bool then Done false
      else if bool_decide (ia_version (pdi_ueip pdr) = m5_version m)
      then ip_masked_is_matching (pdi_ueip pdr) (ue_ip m)
      else Done false.

Fixpoint upf_accel_ran_pdr_lookup (pdrs : list upf_accel_pdr) (m : upf_accel_match_8t)
    : res (option upf_accel_pdr) :=
  match pdrs with
  | [] => Done None
  | pdr :: rest =>
    if negb (bool_decide (pdi_si pdr = SI_UL)) then upf_accel_ran_pdr_lookup rest m
    else
      ok ← upf_accel_pdr_tunnel_is_matching pdr (m8_outer m);
      if negb ok then upf_accel_ran_pdr_lookup rest m
      else
        ok ← upf_accel_pdr_tuple_is_matching pdr (m8_inner m);
        if negb ok then upf_accel_ran_pdr_lookup rest m else Done (Some pdr)
  end.

Fixpoint upf_accel_wan_pdr_lookup (pdrs : list upf_accel_pdr) (m : upf_accel_match_5t)
    : res (option upf_accel_pdr) :=
  match pdrs with
  | [] => Done None
  | pdr :: rest =>
    if negb (bool_decide (pdi_si pdr = SI_DL)) then upf_accel_wan_pdr_lookup rest m
    else
      ok ← upf_accel_pdr_tuple_is_matching pdr m;
      if negb ok then upf_accel_wan_pdr_lookup rest m else Done (Some pdr)
  end.

(** [None] is DOCA_ERROR_NOT_FOUND. *)
Definition upf_accel_fp_pdr_lookup (pdrs : list upf_accel_pdr) (pkt_type : dir)
    (m : upf_accel_match_8t) : res (option upf_accel_pdr) :=
  match pkt_type with
  | TUNNELED => upf_accel_ran_pdr_lookup pdrs m
  | PLAIN => upf_accel_wan_pdr_lookup pdrs (m8_inner m)
  end.

(** ** Matches *)

Definition UPF_ACCEL_LOG_MAX_NUM_CONNECTIONS : Z := 19.
Definition UPF_ACCEL_MAX_NUM_CONNECTIONS : Z := Z.shiftl 1 UPF_ACCEL_LOG_MAX_NUM_CONNECTIONS.
Definition UPF_ACCEL_MAX_NUM_FAILED_ACCEL_PER_CORE : Z := Z.shiftl 1 15.
Definition UPF_ACCEL_LOG_MAX_NUM_PDR : Z := 5.
Definition UPF_ACCEL_MAX_NUM_PDR : Z := Z.shiftl 1 UPF_ACCEL_LOG_MAX_NUM_PDR.
Definition UPF_ACCEL_META_PKT_DIR_UL : Z := Z.shiftl 1 UPF_ACCEL_LOG_MAX_NUM_PDR.
Definition UPF_ACCEL_META_PKT_DIR_DL : Z := Z.shiftl 2 UPF_ACCEL_LOG_MAX_NUM_PDR.
Definition UPF_ACCEL_META_PKT_DIR_MASK : Z := Z.shiftl 3 UPF_ACCEL_LOG_MAX_NUM_PDR.

(** [entry_idx] is an [int32_t] converted to [uint32_t] by the [|]. *)
Definition upf_accel_match_chain_md_calc (entry_idx queue_id : Z) : Z :=
  Z.lor (u32 (Z.shiftl queue_id UPF_ACCEL_LOG_MAX_NUM_CONNECTIONS)) (u32 entry_idx).

Definition calculate_hash_table_size (num_cores : Z) : Z :=
  let max_conn_per_port := u32 (2 * UPF_ACCEL_MAX_NUM_CONNECTIONS) in
  let num_conn_per_core := u32 (max_conn_per_port + num_cores - 1) / num_cores in
  u32 (num_conn_per_core + UPF_ACCEL_MAX_NUM_FAILED_ACCEL_PER_CORE).

Definition upf_accel_fp_tunnel_eq (t1 t2 : upf_accel_match_tun) : res bool :=
  ip_neq ← match mt_version t1 with
           | L3_IP6 => Done (negb (bool_decide (te_ip t1 = te_ip t2)))
           | L3_IP4 => Done (negb (ip_v4 (te_ip t1) =? ip_v4 (te_ip t2)))
           | L3_NONE => Crash AssertFail
           end;
  Done (negb ip_neq && bool_decide (mt_version t1 = mt_version t2) && (te_id t1 =? te_id t2)
        && (mt_qfi t1 =? mt_qfi t2)).

Definition upf_accel_fp_extension_match_extract (m : upf_accel_match_8t)
    : upf_accel_match_extension :=
  {| ext_ue_ip := ue_ip (m8_inner m); ext_te_id := te_id (m8_outer m);
     ext_qfi := Z.land (mt_qfi (m8_outer m)) 0x3f |}.

(** The direction bits of the metadata the pipeline attached to the packet. *)
Definition upf_accel_fp_fetch_pkt_type (md : Z) : res dir :=
  let d := Z.land md UPF_ACCEL_META_PKT_DIR_MASK in
  _ ← assert_ ((d =? UPF_ACCEL_META_PKT_DIR_UL) || (d =? UPF_ACCEL_META_PKT_DIR_DL));
  Done (if d =? UPF_ACCEL_META_PKT_DIR_UL then TUNNELED else PLAIN).

(** The out-parameters of [upf_accel_5t_match]. *)
Record five_tuple := {
  t_src_ip : upf_accel_ip;
  t_dst_ip : upf_accel_ip;
  t_src_port : Z;
  t_dst_port : Z;
  t_version : doca_flow_l3_type;
  t_proto : Z;
}.

(** The order in which the callers pass the members of the match: the user
    equipment is the source of an uplink packet and the destination of a
    downlink one. *)
Definition to_5t (d : dir) (t : five_tuple) : upf_accel_match_5t :=
  match d with
  | TUNNELED => {| ue_ip := t_src_ip t; extern_ip := t_dst_ip t; ue_port := t_src_port t;
                   extern_port := t_dst_port t; m5_version := t_version t; ip_proto := t_proto t |}
  | PLAIN => {| ue_ip := t_dst_ip t; extern_ip := t_src_ip t; ue_port := t_dst_port t;
                extern_port := t_src_port t; m5_version := t_version t; ip_proto := t_proto t |}
  end.
Definition of_5t (d : dir) (m : upf_accel_match_5t) : five_tuple :=
  match d with
  | TUNNELED => {| t_src_ip := ue_ip m; t_dst_ip := extern_ip m; t_src_port := ue_port m;
                   t_dst_port := extern_port m; t_version := m5_version m; t_proto := ip_proto m |}
  | PLAIN => {| t_src_ip := extern_ip m; t_dst_ip := ue_ip m; t_src_port := extern_port m;
                t_dst_port := ue_port m; t_version := m5_version m; t_proto := ip_proto m |}
  end.

Section Match.
Context `{RteNet}.

(** A header pointer of a parser context. *)
Definition hdr (m : list Z) (o : option nat) : list Z := drop (default 0%nat o) m.

Definition upf_accel_5t_match (m : list Z) (c : conn_parser_ctx) (t : five_tuple)
    : doca_error_t * five_tuple :=
  let l4 := hdr m (tp_hdr (conn_tp c)) in
  let ports :=
    if tp_proto (conn_tp c) =? DOCA_FLOW_PROTO_TCP then Some (tcp_src_port l4, tcp_dst_port l4)
    else if tp_proto (conn_tp c) =? DOCA_FLOW_PROTO_UDP then Some (udp_src_port l4, udp_dst_port l4)
    else None in
  match ports with
  | None => (DOCA_ERROR_NOT_SUPPORTED, t)
  | Some (sport, dport) =>
    let l3 := hdr m (net_hdr (conn_net c)) in
    if net_ip_version (conn_net c) =? DOCA_FLOW_PROTO_IPV4 then
      (DOCA_SUCCESS,
       {| t_src_ip := ip_set_v4 (ipv4_src_addr l3) (t_src_ip t);
          t_dst_ip := ip_set_v4 (ipv4_dst_addr l3) (t_dst_ip t);
          t_src_port := sport; t_dst_port := dport; t_version := L3_IP4;
          t_proto := tp_proto (conn_tp c) |})
    else if net_ip_version (conn_net c) =? DOCA_FLOW_PROTO_IPV6 then
      (DOCA_SUCCESS,
       {| t_src_ip := ip_set_v6 (ipv6_src_addr l3) (t_src_ip t);
          t_dst_ip := ip_set_v6 (ipv6_dst_addr l3) (t_dst_ip t);
          t_src_port := sport; t_dst_port := dport; t_version := L3_IP6;
          t_proto := tp_proto (conn_tp c) |})
    else (DOCA_ERROR_NOT_SUPPORTED, {| t with t_src_port := sport; t_dst_port := dport |})
  end.

Definition upf_accel_gtpu_match (m : list Z) (c : tun_parser_ctx) (mt : upf_accel_match_8t)
    : doca_error_t * upf_accel_match_8t :=
  if negb (net_ip_version (tun_net c) =? DOCA_FLOW_PROTO_IPV4)
     || negb (net_next_proto (tun_net c) =? DOCA_FLOW_PROTO_UDP)
     || negb (tp_proto (tun_tp c) =? DOCA_FLOW_PROTO_UDP)
     || negb (udp_dst_port (hdr m (tp_hdr (tun_tp c))) =? DOCA_FLOW_GTPU_DEFAULT_PORT)
  then (DOCA_ERROR_INVALID_VALUE, mt)
  else
    let '(ret, t) := upf_accel_5t_match m (tun_inner c) (of_5t TUNNELED (m8_inner mt)) in
    let inner := to_5t TUNNELED t in
    if negb (is_success ret) then (ret, {| mt with m8_inner := inner |})
    else
      let outer := m8_outer mt in
      let l3 := hdr m (net_hdr (tun_net c)) in
      let addr :=
        if net_ip_version (tun_net c) =? DOCA_FLOW_PROTO_IPV4 then
          Some (ip_set_v4 (ipv4_src_addr l3) (te_ip outer), L3_IP4)
        else if net_ip_version (tun_net c) =? DOCA_FLOW_PROTO_IPV6 then
          Some (ip_set_v6 (ipv6_src_addr l3) (te_ip outer), L3_IP6)
        else None in
      match addr with
      | None => (DOCA_ERROR_NOT_SUPPORTED, {| mt with m8_inner := inner |})
      | Some (ip, version) =>
        (DOCA_SUCCESS,
         {| m8_inner := inner;
            m8_outer :=
              {| te_ip := ip; te_id := gtp_teid (hdr m (gtp_gtp_hdr (tun_gtp c)));
                 mt_qfi := match gtp_ext_hdr (tun_gtp c) with
                           | Some _ => psc_qfi (hdr m (gtp_ext_hdr (tun_gtp c)))
                           | None => mt_qfi outer
                           end;
                 mt_version := version |} |})
      end.

Definition upf_accel_ran_match (m : list Z) (data dend : nat) (c : tun_parser_ctx)
    (mt : upf_accel_match_8t) : res (doca_error_t * tun_parser_ctx * upf_accel_match_8t) :=
  '(ret, c) ← tunnel_parse m data dend c;
  if negb (is_success ret) then Done (ret, c, mt)
  else let '(ret, mt) := upf_accel_gtpu_match m c mt in Done (ret, c, mt).

Definition upf_accel_wan_match (m : list Z) (data dend : nat) (c : conn_parser_ctx)
    (mt : upf_accel_match_5t) : res (doca_error_t * conn_parser_ctx * upf_accel_match_5t) :=
  '(ret, c) ← plain_parse m data dend c;
  if negb (is_success ret) then Done (ret, c, mt)
  else let '(ret, t) := upf_accel_5t_match m c (of_5t PLAIN mt) in Done (ret, c, to_5t PLAIN t).

Definition upf_accel_fp_pkt_match (pkt_type : dir) (m : list Z) (c : tun_parser_ctx)
    : res (doca_error_t * tun_parser_ctx * upf_accel_match_8t) :=
  let mt := match_8t_zero in
  match pkt_type with
  | TUNNELED => upf_accel_ran_match m 0 (length m) c mt
  | PLAIN =>
    '(ret, inner, m5) ← upf_accel_wan_match m 0 (length m) (tun_inner c) (m8_inner mt);
    Done (ret, {| c with tun_inner := inner |}, {| mt with m8_inner := m5 |})
  end.

(** ** Decapsulation *)

Definition UPF_ACCEL_SRC_MAC : list Z := [0xde; 0xad; 0xbe; 0xef; 0x00; 0x01].
Definition UPF_ACCEL_DST_MAC : list Z := [0xde; 0xad; 0xbe; 0xef; 0x00; 0x02].

(** The length [rte_pktmbuf_adj] is given is a [uint16_t]. *)
Definition upf_accel_decap `{RteMbuf} (pkt : rte_mbuf) (c : tun_parser_ctx) : res rte_mbuf :=
  let cut := u16 (Z.of_nat (tun_len c) - Z.of_nat (conn_len (tun_inner c))
                  - Z.of_nat sizeof_ether_hdr) in
  let pkt := rte_pktmbuf_adj pkt (Z.to_nat cut) in
  ty ← (if net_ip_version (conn_net (tun_inner c)) =? DOCA_FLOW_PROTO_IPV4
        then Done DOCA_FLOW_ETHER_TYPE_IPV4
        else if net_ip_version (conn_net (tun_inner c)) =? DOCA_FLOW_PROTO_IPV6
        then Done DOCA_FLOW_ETHER_TYPE_IPV6
        else Crash AssertFail);
  Done (mb_write (ether_hdr UPF_ACCEL_DST_MAC UPF_ACCEL_SRC_MAC ty) pkt).
End Match.

(** ** The lookup against its specification *)

(** The address, masked, is the configured one. *)
Definition addr_matches (a : upf_accel_ip_addr) (ip : upf_accel_ip) : Prop :=
  match ia_version a with
  | L3_IP4 => ip_v4 (ia_addr a) = Z.land (ip_v4 ip) (ip_v4 (ia_mask a))
  | L3_IP6 => ia_addr a = zip_with Z.land ip (ia_mask a)
  | L3_NONE => False
  end.

(** What the two SDF address conditions amount to. *)
Definition sdf_accepts (sdf : upf_accel_ip_addr) (version : doca_flow_l3_type) (ip : upf_accel_ip)
    : Prop :=
  ia_version sdf = L3_NONE \/ ia_version sdf = version \/ addr_matches sdf ip.

Definition in_range (r : upf_accel_ip_port_range) (port : Z) : Prop :=
  range_from r <= port <= range_to r.

Definition tuple_matches (pdr : upf_accel_pdr) (m : upf_accel_match_5t) : Prop :=
  (pdi_sdf_proto pdr = 0 \/ ip_proto m = pdi_sdf_proto pdr) /\
  in_range (pdi_sdf_from_port_range pdr) (ue_port m) /\
  in_range (pdi_sdf_to_port_range pdr) (extern_port m) /\
  sdf_accepts (pdi_sdf_from_ip pdr) (m5_version m) (ue_ip m) /\
  sdf_accepts (pdi_sdf_to_ip pdr) (m5_version m) (extern_ip m) /\
  ia_version (pdi_ueip pdr) = m5_version m /\ addr_matches (pdi_ueip pdr) (ue_ip m).

Definition tunnel_matches (pdr : upf_accel_pdr) (m : upf_accel_match_tun) : Prop :=
  pdi_local_teid_start pdr <= te_id m <= pdi_local_teid_end pdr /\
  pdi_qfi pdr = mt_qfi m /\
  ia_version (pdi_local_teid_ip pdr) = mt_version m /\ addr_matches (pdi_local_teid_ip pdr) (te_ip m).

Definition pdr_matches (d : dir) (m : upf_accel_match_8t) (pdr : upf_accel_pdr) : Prop :=
  match d with
  | TUNNELED => pdi_si pdr = SI_UL /\ tunnel_matches pdr (m8_outer m) /\ tuple_matches pdr (m8_inner m)
  | PLAIN => pdi_si pdr = SI_DL /\ tuple_matches pdr (m8_inner m)
  end.

(** A match whose IP versions are set, as the parser leaves it. *)
Definition versions_set (d : dir) (m : upf_accel_match_8t) : Prop :=
  m5_version (m8_inner m) <> L3_NONE /\ (d = TUNNELED -> mt_version (m8_outer m) <> L3_NONE).

(** [m] returns a boolean that decides [P]. *)
Definition decides (m : res bool) (P : Prop) : Prop := exists b : bool, m = Done b /\ (b = true <-> P).

Lemma ip_masked_decides a ip :
  ia_version a <> L3_NONE -> decides (ip_masked_is_matching a ip) (addr_matches a ip).
Proof.
  unfold decides, ip_masked_is_matching, addr_matches, ipv4_masked_is_matching,
    ipv6_masked_is_matching.
  destruct (ia_version a); [done|intros _; eexists; split; [done|]..].
  - apply Z.eqb_eq.
  - rewrite bool_decide_eq_true. naive_solver.
Qed.

Lemma sdf_mismatch_decides sdf v ip :
  exists b : bool, sdf_ip_mismatch sdf v ip = Done b /\ (b = false <-> sdf_accepts sdf v ip).
Proof.
  unfold sdf_ip_mismatch, sdf_accepts. case_bool_decide as Hn; [|eexists; split; naive_solver].
  case_bool_decide as Hv; [|eexists; split; [done|naive_solver]].
  destruct (ip_masked_decides sdf ip) as (b & -> & Hb); [done|]. cbn. eexists. split; [done|].
  destruct b; naive_solver.
Qed.

(** The last conjunct of both predicates: equal versions, then the address. *)
Lemma version_addr_decides a v ip :
  v <> L3_NONE ->
  decides (if bool_decide (ia_version a = v) then ip_masked_is_matching a ip else Done false)
          (ia_version a = v /\ addr_matches a ip).
Proof.
  intros Hv. case_bool_decide as Ha; [|exists false; naive_solver].
  destruct (ip_masked_decides a ip) as (b & E & Hb); [congruence|]. exists b. naive_solver.
Qed.

Lemma decides_false (P : Prop) : ~ P -> decides (Done false) P.
Proof. intros HP. exists false. naive_solver. Qed.

Ltac case_cond :=
  match goal with |- decides (if ?b then _ else _) _ => destruct b eqn:?; [apply decides_false|] end.

Lemma tuple_decides pdr m :
  m5_version m <> L3_NONE -> decides (upf_accel_pdr_tuple_is_matching pdr m) (tuple_matches pdr m).
Proof.
  intros Hv. unfold upf_accel_pdr_tuple_is_matching, tuple_matches, in_range.
  case_cond; [lia|]. case_cond; [lia|]. case_cond; [lia|].
  destruct (sdf_mismatch_decides (pdi_sdf_from_ip pdr) (m5_version m) (ue_ip m)) as (b & -> & Hb).
  cbn. destruct b; [apply decides_false; naive_solver|].
  destruct (sdf_mismatch_decides (pdi_sdf_to_ip pdr) (m5_version m) (extern_ip m)) as (b' & -> & Hb').
  cbn. destruct b'; [apply decides_false; naive_solver|].
  destruct (version_addr_decides (pdi_ueip pdr) (m5_version m) (ue_ip m) Hv) as (b & -> & Hu).
  exists b. split; [done|]. rewrite Hu. split; [|naive_solver].
  intros Hueip. split_and!; try done; try lia; naive_solver.
Qed.

Lemma tunnel_decides pdr m :
  mt_version m <> L3_NONE -> decides (upf_accel_pdr_tunnel_is_matching pdr m) (tunnel_matches pdr m).
Proof.
  intros Hv. unfold upf_accel_pdr_tunnel_is_matching, tunnel_matches.
  case_cond; [lia|]. case_cond; [lia|].
  destruct (version_addr_decides (pdi_local_teid_ip pdr) (mt_version m) (te_ip m) Hv) as (b & -> & Hu).
  exists b. split; [done|]. rewrite Hu. split; [|naive_solver].
  intros Hip. split_and!; try lia; naive_solver.
Qed.

(** The result of a search for the first element with property [P]. *)
Definition is_first {A} (P : A -> Prop) (l : list A) (r : option A) : Prop :=
  match r with
  | Some x => exists l1 l2, l = l1 ++ x :: l2 /\ P x /\ Forall (fun y => ~ P y) l1
  | None => Forall (fun y => ~ P y) l
  end.

Lemma is_first_skip {A} (P : A -> Prop) x l r : ~ P x -> is_first P l r -> is_first P (x :: l) r.
Proof.
  intros HP. destruct r as [y|]; cbn; [|by constructor].
  intros (l1 & l2 & -> & Hy & Hl). exists (x :: l1), l2. split_and!; [done..|by constructor].
Qed.
Lemma is_first_hit {A} (P : A -> Prop) x l : P x -> is_first P (x :: l) (Some x).
Proof. intros HP. exists [], l. by split_and!. Qed.

Lemma ran_lookup_first pdrs m :
  versions_set TUNNELED m ->
  exists r, upf_accel_ran_pdr_lookup pdrs m = Done r /\ is_first (pdr_matches TUNNELED m) pdrs r.
Proof.
  intros [Hi Ho]. induction pdrs as [|pdr pdrs (r & Er & Hr)]; cbn; [by exists None; split; [|constructor]|].
  case_bool_decide as Hsi; cbn; [|exists r; split; [done|apply is_first_skip; cbn; naive_solver]].
  destruct (tunnel_decides pdr (m8_outer m)) as (b & -> & Hb); [auto|]. cbn.
  destruct b; cbn; [|exists r; split; [done|apply is_first_skip; cbn; naive_solver]].
  destruct (tuple_decides pdr (m8_inner m)) as (b' & -> & Hb'); [done|]. cbn.
  destruct b'; cbn; [|exists r; split; [done|apply is_first_skip; cbn; naive_solver]].
  eexists. split; [done|]. apply is_first_hit. cbn. naive_solver.
Qed.

Lemma wan_lookup_first pdrs m :
  versions_set PLAIN m ->
  exists r, upf_accel_wan_pdr_lookup pdrs (m8_inner m) = Done r /\ is_first (pdr_matches PLAIN m) pdrs r.
Proof.
  intros [Hi _]. induction pdrs as [|pdr pdrs (r & Er & Hr)]; cbn; [by exists None; split; [|constructor]|].
  case_bool_decide as Hsi; cbn; [|exists r; split; [done|apply is_first_skip; cbn; naive_solver]].
  destruct (tuple_decides pdr (m8_inner m)) as (b' & -> & Hb'); [done|]. cbn.
  destruct b'; cbn; [|exists r; split; [done|apply is_first_skip; cbn; naive_solver]].
  eexists. split; [done|]. apply is_first_hit. cbn. naive_solver.
Qed.

Lemma pdr_lookup_ok (pdrs : list upf_accel_pdr) (d : dir) (m : upf_accel_match_8t) :
  versions_set d m ->
  exists r, upf_accel_fp_pdr_lookup pdrs d m = Done r /\ is_first (pdr_matches d m) pdrs r.
Proof. destruct d; [apply ran_lookup_first|apply wan_lookup_first]. Qed.

(** The PDR lookup of either direction returns on every match with its IP
    versions set, and it returns the first PDR of the configured list whose
    source interface, tunnel (for uplink packets), protocol, port ranges and
    addresses match, or none exactly when no PDR of the list does. *)
Theorem pdr_lookup_first (pdrs : list upf_accel_pdr) (d : dir) (m : upf_accel_match_8t) :
  versions_set d m ->
  exists r, upf_accel_fp_pdr_lookup pdrs d m = Done r /\ is_first (pdr_matches d m) pdrs r.
Proof. apply pdr_lookup_ok. Qed.

(** The SDF source and destination addresses of a PDR never filter a packet
    of the same IP version: replacing them by any other addresses of that version
    leaves the result of the match unchanged. *)
Theorem sdf_address_ignored (pdr : upf_accel_pdr) (m : upf_accel_match_5t) (a b : upf_accel_ip_addr) :
  ia_version (pdi_sdf_from_ip pdr) = m5_version m -> ia_version a = m5_version m ->
  ia_version (pdi_sdf_to_ip pdr) = m5_version m -> ia_version b = m5_version m ->
  upf_accel_pdr_tuple_is_matching {| pdr with pdi_sdf_from_ip := a; pdi_sdf_to_ip := b |} m =
  upf_accel_pdr_tuple_is_matching pdr m.
Proof.
  intros H1 H2 H3 H4. unfold upf_accel_pdr_tuple_is_matching, sdf_ip_mismatch. cbn.
  rewrite H1, H2, H3, H4. by rewrite !(bool_decide_eq_false_2 (m5_version m <> m5_version m)) by naive_solver.
Qed.

(** ** Match-chain metadata *)

Lemma md_calc_bits idx q :
  0 <= q < 2 ^ 13 -> 0 <= idx < UPF_ACCEL_MAX_NUM_CONNECTIONS ->
  upf_accel_match_chain_md_calc idx q = q * 2 ^ 19 + idx.
Proof.
  unfold upf_accel_match_chain_md_calc, UPF_ACCEL_LOG_MAX_NUM_CONNECTIONS.
  change UPF_ACCEL_MAX_NUM_CONNECTIONS with (2 ^ 19). intros Hq Hi.
  rewrite Z.shiftl_mul_pow2, !u32_small by lia.
  symmetry. rewrite <- Z.shiftl_mul_pow2 by lia. apply Z.add_nocarry_lor.
  apply Z.bits_inj'. intros k Hk. rewrite Z.land_spec, Z.bits_0.
  destruct (Z.lt_ge_cases k 19).
  - by rewrite Z.shiftl_spec_low.
  - rewrite andb_comm, Z.bits_above_log2; [done|lia|].
    destruct (Z.eq_dec idx 0) as [->|]; [cbn; lia|]. apply Z.log2_lt_pow2; [lia|].
    pose proof (Z.pow_le_mono_r 2 19 k). lia.
Qed.

(** The metadata that links the two hardware entries of an IPv6 flow
    identifies queue and extension entry, as long as the index of the extension
    entry fits the bits reserved for it. *)
Theorem md_calc_injective (i1 i2 q1 q2 : Z) :
  0 <= q1 < 2 ^ 13 -> 0 <= q2 < 2 ^ 13 ->
  0 <= i1 < UPF_ACCEL_MAX_NUM_CONNECTIONS -> 0 <= i2 < UPF_ACCEL_MAX_NUM_CONNECTIONS ->
  upf_accel_match_chain_md_calc i1 q1 = upf_accel_match_chain_md_calc i2 q2 ->
  i1 = i2 /\ q1 = q2.
Proof.
  intros Hq1 Hq2 Hi1 Hi2. rewrite !md_calc_bits by done.
  change UPF_ACCEL_MAX_NUM_CONNECTIONS with (2 ^ 19) in *. lia.
Qed.

(** The extension table is larger than those bits: with one to four worker
    cores it has room for an entry whose index needs bit 19, and on queue 1 that
    entry has the same metadata as the entry with index 0. *)
Theorem md_calc_collision (num_cores : Z) :
  1 <= num_cores <= 4 ->
  UPF_ACCEL_MAX_NUM_CONNECTIONS < calculate_hash_table_size num_cores * 2 /\
  upf_accel_match_chain_md_calc UPF_ACCEL_MAX_NUM_CONNECTIONS 1 = upf_accel_match_chain_md_calc 0 1.
Proof.
  intros Hn. split; [|reflexivity].
  assert (num_cores = 1 \/ num_cores = 2 \/ num_cores = 3 \/ num_cores = 4) as Hc by lia.
  destruct Hc as [-> | [-> | [-> | ->]]]; reflexivity.
Qed.

(** ** Matches of parsed packets *)

Section MatchFacts.
Context `{RteNetLaws}.

(** The 5-tuple written in the headers of a parsed connection. *)
Definition hdr_tuple (m : list Z) (c : conn_parser_ctx) : five_tuple :=
  let l3 := hdr m (net_hdr (conn_net c)) in
  let l4 := hdr m (tp_hdr (conn_tp c)) in
  let v4 := net_ip_version (conn_net c) =? DOCA_FLOW_PROTO_IPV4 in
  let tcp := tp_proto (conn_tp c) =? DOCA_FLOW_PROTO_TCP in
  {| t_src_ip := if v4 then ip_set_v4 (ipv4_src_addr l3) ip_zero else ipv6_src_addr l3;
     t_dst_ip := if v4 then ip_set_v4 (ipv4_dst_addr l3) ip_zero else ipv6_dst_addr l3;
     t_src_port := if tcp then tcp_src_port l4 else udp_src_port l4;
     t_dst_port := if tcp then tcp_dst_port l4 else udp_dst_port l4;
     t_version := if v4 then L3_IP4 else L3_IP6;
     t_proto := tp_proto (conn_tp c) |}.

Definition swap_tuple (t : five_tuple) : five_tuple :=
  {| t_src_ip := t_dst_ip t; t_dst_ip := t_src_ip t; t_src_port := t_dst_port t;
     t_dst_port := t_src_port t; t_version := t_version t; t_proto := t_proto t |}.

Lemma five_match_ok m c dend o d :
  conn_at dend c o ->
  upf_accel_5t_match m c (of_5t d match_5t_zero) = (DOCA_SUCCESS, hdr_tuple m c).
Proof.
  intros ((_ & _ & Hv & _) & _ & (_ & _ & Hp & _) & _).
  unfold upf_accel_5t_match, hdr_tuple.
  destruct Hv as [-> | ->], Hp as [-> | ->]; by destruct d.
Qed.

(** What a tunnelled packet is matched as. *)
Definition hdr_tunnel (m : list Z) (c : tun_parser_ctx) : upf_accel_match_tun :=
  {| te_ip := ip_set_v4 (ipv4_src_addr (hdr m (net_hdr (tun_net c)))) ip_zero;
     te_id := gtp_teid (hdr m (gtp_gtp_hdr (tun_gtp c)));
     mt_qfi := match gtp_ext_hdr (tun_gtp c) with
               | Some _ => psc_qfi (hdr m (gtp_ext_hdr (tun_gtp c)))
               | None => 0
               end;
     mt_version := L3_IP4 |}.

Definition pkt_matched (d : dir) (m : list Z) (c : tun_parser_ctx) (mt : upf_accel_match_8t) : Prop :=
  m8_inner mt = to_5t d (hdr_tuple m (tun_inner c)) /\
  match d with
  | TUNNELED =>
    tunnel_parse m 0 (length m) tun_zero = Done (DOCA_SUCCESS, c) /\ tunnel_at (length m) c 0 /\
    net_ip_version (tun_net c) = DOCA_FLOW_PROTO_IPV4 /\
    udp_dst_port (hdr m (tp_hdr (tun_tp c))) = DOCA_FLOW_GTPU_DEFAULT_PORT /\
    m8_outer mt = hdr_tunnel m c
  | PLAIN =>
    plain_parse m 0 (length m) conn_zero = Done (DOCA_SUCCESS, tun_inner c) /\
    plain_at (length m) (tun_inner c) 0 /\ m8_outer mt = match_tun_zero
  end.

Lemma ran_match_ok m :
  exists ret c mt, upf_accel_fp_pkt_match TUNNELED m tun_zero = Done (ret, c, mt) /\
    (ret = DOCA_SUCCESS -> pkt_matched TUNNELED m c mt).
Proof.
  unfold upf_accel_fp_pkt_match, upf_accel_ran_match.
  destruct (tunnel_parse_ok m 0 (length m)) as (ret & c & E & Hok). rewrite E. cbn [mbind res_bind].
  destruct (is_success ret) eqn:Er; cbn [negb]; [|do 3 eexists; split; [done|by intros ->]].
  apply is_success_true in Er as ->. specialize (Hok eq_refl). unfold upf_accel_gtpu_match.
  destruct (_ || _) eqn:Hc; [by do 3 eexists|].
  apply orb_false_elim in Hc as [Hc Hport]. apply orb_false_elim in Hc as [Hc Hudp].
  apply orb_false_elim in Hc as [Hv _]. apply negb_false_iff, Z.eqb_eq in Hv, Hport.
  assert (Hi := Hok). destruct Hi as (_ & _ & _ & _ & _ & (_ & Hi & _) & _).
  change (m8_inner match_8t_zero) with match_5t_zero. rewrite (five_match_ok _ _ _ _ _ Hi).
  rewrite Hv. cbn. do 3 eexists. split; [done|]. intros _. by split_and!.
Qed.

Lemma wan_match_ok m :
  exists ret c mt, upf_accel_fp_pkt_match PLAIN m tun_zero = Done (ret, c, mt) /\
    (ret = DOCA_SUCCESS -> pkt_matched PLAIN m c mt).
Proof.
  unfold upf_accel_fp_pkt_match, upf_accel_wan_match.
  cbn [m8_inner match_8t_zero tun_inner tun_zero m8_outer].
  destruct (plain_parse_ok m 0 (length m)) as (ret & c & E & Hok). rewrite E. cbn [mbind res_bind].
  destruct (is_success ret) eqn:Er; cbn [negb]; [|do 3 eexists; split; [done|by intros ->]].
  apply is_success_true in Er as ->. specialize (Hok eq_refl).
  assert (Hi := Hok). destruct Hi as (_ & Hi & _).
  rewrite (five_match_ok _ _ _ _ _ Hi). do 3 eexists. split; [done|]. by intros _.
Qed.

(** C30: matching a packet always returns, and when it succeeds the packet was
    parsed with all its headers in bounds and the match holds exactly what the
    headers say: the 5-tuple oriented so that the user equipment is the source of
    an uplink and the destination of a downlink packet, and for uplink packets
    the tunnel endpoint, TEID and QFI of the outer IPv4, GTP-U and extension
    headers (QFI 0 without an extension header). *)
Theorem pkt_match_spec (d : dir) (m : list Z) :
  exists ret c mt, upf_accel_fp_pkt_match d m tun_zero = Done (ret, c, mt) /\
    (ret = DOCA_SUCCESS -> pkt_matched d m c mt).
Proof. destruct d; [apply ran_match_ok|apply wan_match_ok]. Qed.

Lemma pkt_matched_inv d m c mt :
  upf_accel_fp_pkt_match d m tun_zero = Done (DOCA_SUCCESS, c, mt) -> pkt_matched d m c mt.
Proof.
  intros E. destruct d; [destruct (ran_match_ok m) as (r & c' & mt' & E' & Hok)
                        |destruct (wan_match_ok m) as (r & c' & mt' & E' & Hok)];
    rewrite E in E'; injection E' as <- <- <-; by apply Hok.
Qed.

Lemma pkt_matched_versions d m c mt : pkt_matched d m c mt -> versions_set d mt.
Proof.
  intros [Hi Ho]. split.
  - rewrite Hi. destruct d; cbn; by destruct (_ =? _).
  - intros ->. by destruct Ho as (_ & _ & _ & _ & ->).
Qed.

(** The two directions of a connection share one table key: when the inner
    headers of an uplink packet carry the 5-tuple of a downlink packet with
    source and destination exchanged, both packets are matched to the same
    5-tuple. *)
Theorem match_directions_agree (mu md : list Z) cu cd mtu mtd :
  upf_accel_fp_pkt_match TUNNELED mu tun_zero = Done (DOCA_SUCCESS, cu, mtu) ->
  upf_accel_fp_pkt_match PLAIN md tun_zero = Done (DOCA_SUCCESS, cd, mtd) ->
  hdr_tuple md (tun_inner cd) = swap_tuple (hdr_tuple mu (tun_inner cu)) ->
  m8_inner mtu = m8_inner mtd.
Proof.
  intros [-> _]%pkt_matched_inv [-> _]%pkt_matched_inv ->. done.
Qed.

(** ** Decapsulation *)

Lemma link_parse_hdr ty l dend :
  ty = DOCA_FLOW_ETHER_TYPE_IPV4 \/ ty = DOCA_FLOW_ETHER_TYPE_IPV6 -> (sizeof_ether_hdr <= dend)%nat ->
  link_parse (ether_hdr UPF_ACCEL_DST_MAC UPF_ACCEL_SRC_MAC ty ++ l) 0 dend link_zero =
    (DOCA_SUCCESS, {| link_len := sizeof_ether_hdr; link_next_proto := ty; link_eth := Some 0%nat |}).
Proof.
  intros Hty Hle. unfold link_parse. rewrite drop_0, ether_hdr_type; [|done|done|].
  2: { by destruct Hty as [-> | ->]. }
  destruct (Nat.ltb_spec dend (0 + sizeof_ether_hdr)); [lia|]. by destruct Hty as [-> | ->].
Qed.

(** Two connections parsed from the same bytes have the same 5-tuple. *)
Lemma hdr_tuple_move m1 m2 o1 o2 dend1 dend2 c1 c2 :
  drop o1 m1 = drop o2 m2 -> conn_at dend1 c1 o1 -> conn_at dend2 c2 o2 -> same_conn c1 c2 ->
  hdr_tuple m1 c1 = hdr_tuple m2 c2.
Proof.
  intros Hm ((Hn1 & _) & _ & (Ht1 & _) & _) ((Hn2 & _) & _ & (Ht2 & _) & _)
    ((Hlen & Hv & _ & _) & Hp & _).
  unfold hdr_tuple, hdr. rewrite Hn1, Hn2, Ht1, Ht2, Hv, Hp, Hlen. cbn.
  by rewrite <- !drop_drop, Hm.
Qed.

(** A connection behind new Ethernet bytes parses as a plain packet with the same
    5-tuple and one Ethernet header more. *)
Lemma reheader_parses m o c1
    (m' := ether_hdr UPF_ACCEL_DST_MAC UPF_ACCEL_SRC_MAC (ethertype_of (net_ip_version (conn_net c1)))
             ++ drop o m) :
  (o <= length m)%nat -> conn_parse m o (length m) conn_zero = Done (DOCA_SUCCESS, c1) ->
  exists c', plain_parse m' 0 (length m') conn_zero = Done (DOCA_SUCCESS, c') /\
    hdr_tuple m' c' = hdr_tuple m c1 /\ conn_len c' = (sizeof_ether_hdr + conn_len c1)%nat.
Proof.
  intros Ho Hc. set (ty := ethertype_of _) in m'.
  destruct (conn_parse_ok m o (length m) conn_zero) as (r & c2 & E & _ & Hok & _).
  rewrite Hc in E. injection E as <- <-. destruct (Hok eq_refl) as [Hat1 Hlen1].
  cbn in Hat1, Hlen1. rewrite Nat.add_0_r in Hat1.
  assert (length (ether_hdr UPF_ACCEL_DST_MAC UPF_ACCEL_SRC_MAC ty) = sizeof_ether_hdr) as Heth
    by by apply ether_hdr_length.
  assert (drop sizeof_ether_hdr m' = drop o m) as Hdrop by (unfold m'; by rewrite <- Heth, drop_app_length).
  assert (length m' = sizeof_ether_hdr + (length m - o))%nat as Hlen'
    by (unfold m'; by rewrite length_app, Heth, length_drop).
  replace (length m) with (o + (length m - o))%nat in Hc by lia.
  destruct (conn_parse_move m m' o sizeof_ether_hdr _ (eq_sym Hdrop) 0
    {| link_len := sizeof_ether_hdr; link_next_proto := ty; link_eth := Some 0%nat |} _ Hc)
    as (c' & Ec & Hsame); [done..|].
  exists c'. rewrite <- Hlen' in Ec.
  assert (plain_parse m' 0 (length m') conn_zero = Done (DOCA_SUCCESS, c')) as Hplain.
  { unfold plain_parse. cbn [conn_zero conn_len conn_link]. unfold m' at 1.
    rewrite link_parse_hdr; [|unfold ty, ethertype_of; by destruct (_ =? _); auto|lia]. done. }
  destruct (plain_parse_ok m' 0 (length m')) as (r & c'' & E & Hat).
  rewrite Hplain in E. injection E as <- <-. destruct (Hat eq_refl) as ((_ & Hl & _) & Hat2 & Hlen2 & _).
  rewrite Hl in Hat2, Hlen2. split_and!; [done| |].
  - symmetry. eapply (hdr_tuple_move _ _ o sizeof_ether_hdr); eauto.
  - destruct Hsame as ((Hnl & _) & _ & Htl). lia.
Qed.

Context `{!RteMbuf, !RteMbufLaws}.

Lemma decap_data (p : rte_mbuf) c mt (n := conn_len (tun_inner c)) :
  pkt_matched TUNNELED (mb_data p) c mt -> Z.of_nat (length (mb_data p)) < 65536 ->
  exists p', upf_accel_decap p c = Done p' /\
    mb_data p' = ether_hdr UPF_ACCEL_DST_MAC UPF_ACCEL_SRC_MAC
        (ethertype_of (net_ip_version (conn_net (tun_inner c))))
      ++ drop (tun_len c - n) (mb_data p).
Proof.
  intros (_ & _ & Ht & _) Hlen. destruct Ht as ((_ & Hl & _) & _ & _ & _ & _ & (_ & Hi & _) & Hsum & Hle).
  destruct Hi as ((_ & _ & Hv & _) & _). unfold upf_accel_decap.
  set (ty := ethertype_of (net_ip_version (conn_net (tun_inner c)))).
  assert ((if net_ip_version (conn_net (tun_inner c)) =? DOCA_FLOW_PROTO_IPV4
           then Done DOCA_FLOW_ETHER_TYPE_IPV4
           else if net_ip_version (conn_net (tun_inner c)) =? DOCA_FLOW_PROTO_IPV6
           then Done DOCA_FLOW_ETHER_TYPE_IPV6 else Crash AssertFail) = Done ty) as ->
    by (unfold ty, ethertype_of; by destruct Hv as [-> | ->]).
  cbn. eexists. split; [done|].
  replace (Z.to_nat _) with (tun_len c - n - sizeof_ether_hdr)%nat by (rewrite u16_small; lia).
  assert (length (ether_hdr UPF_ACCEL_DST_MAC UPF_ACCEL_SRC_MAC ty) = sizeof_ether_hdr) as Heth
    by by apply ether_hdr_length.
  rewrite write_data by (rewrite adj_data, length_drop by lia; lia).
  rewrite Heth, adj_data, drop_drop by lia. do 2 f_equal. lia.
Qed.

(** C36: decapsulation strips exactly the tunnel: the packet left is a plain
    packet whose parsing succeeds, it carries the inner 5-tuple of the tunnelled
    packet, and the bytes after its headers are the bytes after the inner headers
    of the tunnelled packet. *)
Theorem decap_parses (p : rte_mbuf) c mt :
  upf_accel_fp_pkt_match TUNNELED (mb_data p) tun_zero = Done (DOCA_SUCCESS, c, mt) ->
  Z.of_nat (length (mb_data p)) < 65536 ->
  exists p' c', upf_accel_decap p c = Done p' /\
    plain_parse (mb_data p') 0 (length (mb_data p')) conn_zero = Done (DOCA_SUCCESS, c') /\
    hdr_tuple (mb_data p') c' = hdr_tuple (mb_data p) (tun_inner c) /\
    drop (conn_len c') (mb_data p') = drop (tun_len c) (mb_data p).
Proof.
  intros Hm%pkt_matched_inv Hlen. destruct (decap_data p c mt Hm Hlen) as (p' & Ep & Hp').
  destruct Hm as (_ & Hparse & Ht & _). apply tunnel_parse_inner in Hparse. cbn in Hparse.
  destruct Ht as (_ & _ & _ & _ & _ & _ & Hsum & Hle).
  destruct (reheader_parses (mb_data p) (tun_len c - conn_len (tun_inner c)) (tun_inner c))
    as (c' & Hc' & Htup & Hclen); [lia|done|].
  rewrite <- Hp' in Hc', Htup. exists p', c'. split_and!; [done..|].
  rewrite Hp', Hclen, <- drop_drop.
  rewrite <- (ether_hdr_length UPF_ACCEL_DST_MAC UPF_ACCEL_SRC_MAC
                (ethertype_of (net_ip_version (conn_net (tun_inner c))))) by done.
  rewrite drop_app_length, drop_drop. f_equal. lia.
Qed.
End MatchFacts.

(** ** Witnesses *)

(** An mbuf as its bytes, length and metadata. *)
Record sim_mbuf := { sm_data : list Z; sm_len : Z; sm_md : Z }.

#[export] Instance sim_mbuf_ops : RteMbuf := {|
  rte_mbuf := sim_mbuf;
  mb_data := sm_data;
  rte_pktmbuf_pkt_len := sm_len;
  mb_metadata := sm_md;
  rte_pktmbuf_adj p n :=
    if (n <=? length (sm_data p))%nat
    then {| sm_data := drop n (sm_data p); sm_len := sm_len p - Z.of_nat n; sm_md := sm_md p |} else p;
  mb_write b p := {| p with sm_data := b ++ drop (length b) (sm_data p) |};
  mb_set_metadata md p := {| p with sm_md := md |};
|}.

#[export] Instance sim_mbuf_laws : RteMbufLaws (H := sim_mbuf_ops).
Proof.
  split; try done. intros p n Hn. cbn in *. by destruct (Nat.leb_spec n (length (sm_data p))); [|lia].
Qed.

(** A host address 172.16.0.5, a tunnel endpoint 10.0.0.1 and any port. *)
Definition addr4 (a mask : Z) : upf_accel_ip_addr :=
  {| ia_addr := ip_set_v4 a ip_zero; ia_mask := ip_set_v4 mask ip_zero; ia_version := L3_IP4 |}.
Definition no_addr : upf_accel_ip_addr :=
  {| ia_addr := ip_zero; ia_mask := ip_zero; ia_version := L3_NONE |}.
Definition any_port : upf_accel_ip_port_range := {| range_from := 0; range_to := 65535 |}.
Definition sample_pdr (id : Z) (si : upf_accel_pdr_pdi_si) (sdf : upf_accel_ip_addr) : upf_accel_pdr :=
  {| pdr_id := id; pdr_farid := 0; pdr_urrids := []; pdr_qerids := []; pdi_si := si;
     pdi_local_teid_start := 12000; pdi_local_teid_end := 13000;
     pdi_local_teid_ip := addr4 0x0a000000 0xff000000; pdi_ueip := addr4 0xac100005 0xffffffff;
     pdi_sdf_proto := 0; pdi_qfi := 5; pdi_sdf_from_ip := sdf; pdi_sdf_from_port_range := any_port;
     pdi_sdf_to_ip := sdf; pdi_sdf_to_port_range := any_port |}.
Definition sample_pdrs : list upf_accel_pdr :=
  [sample_pdr 1 SI_DL no_addr; sample_pdr 2 SI_UL no_addr; sample_pdr 3 SI_UL no_addr].

(** The downlink answer to [gtpu_packet]. *)
Definition plain_packet : list Z :=
  [0xde;0xad;0xbe;0xef;0;2; 0xde;0xad;0xbe;0xef;0;1; 0x08;0x00] ++
  [0x45;0;0;40; 0;2;0;0; 64;6;0;0; 8;8;8;8; 172;16;0;5] ++
  [0x01;0xbb; 0xc0;0x00; 0;0;0;1; 0;0;0;0; 0x50;0x10;0;0; 0;0;0;0].

Definition mbuf_of (m : list Z) : sim_mbuf := {| sm_data := m; sm_len := Z.of_nat (length m); sm_md := 32 |}.
Definition sample_match (d : dir) (m : list Z) : upf_accel_match_8t :=
  match upf_accel_fp_pkt_match d m tun_zero with Done (_, _, mt) => mt | Crash _ => match_8t_zero end.

Lemma pdr_lookup_first_witness :
  exists r, upf_accel_fp_pdr_lookup sample_pdrs TUNNELED (sample_match TUNNELED gtpu_packet) = Done (Some r) /\
    pdr_id r = 2 /\
    is_first (pdr_matches TUNNELED (sample_match TUNNELED gtpu_packet)) sample_pdrs (Some r).
Proof.
  destruct (pdr_lookup_first sample_pdrs TUNNELED (sample_match TUNNELED gtpu_packet)) as (r & E & Hr).
  { split; vm_compute; discriminate. }
  assert (E' := E). vm_compute in E'. injection E' as <-.
  eexists. split; [exact E|]. split; [reflexivity|exact Hr].
Defined.

Lemma sdf_address_ignored_witness :
  upf_accel_pdr_tuple_is_matching (sample_pdr 2 SI_UL (addr4 1 0xffffffff))
    (m8_inner (sample_match TUNNELED gtpu_packet)) =
  upf_accel_pdr_tuple_is_matching (sample_pdr 2 SI_UL (addr4 2 0xffffffff))
    (m8_inner (sample_match TUNNELED gtpu_packet)).
Proof.
  apply (sdf_address_ignored (sample_pdr 2 SI_UL (addr4 2 0xffffffff))
    (m8_inner (sample_match TUNNELED gtpu_packet)) (addr4 1 0xffffffff) (addr4 1 0xffffffff)); reflexivity.
Defined.

Lemma md_calc_injective_witness :
  upf_accel_match_chain_md_calc 7 3 = upf_accel_match_chain_md_calc 7 3 /\ 7 = 7 /\ 3 = 3.
Proof.
  split; [reflexivity|]. apply (md_calc_injective 7 7 3 3); (reflexivity || (split; vm_compute; congruence)).
Defined.

Lemma md_calc_collision_witness :
  UPF_ACCEL_MAX_NUM_CONNECTIONS < calculate_hash_table_size 2 * 2.
Proof. apply (md_calc_collision 2). lia. Defined.

Lemma pkt_match_spec_witness :
  exists c mt, upf_accel_fp_pkt_match TUNNELED gtpu_packet tun_zero = Done (DOCA_SUCCESS, c, mt) /\
    pkt_matched TUNNELED gtpu_packet c mt /\ te_id (m8_outer mt) = 12345 /\ mt_qfi (m8_outer mt) = 5.
Proof.
  destruct (pkt_match_spec TUNNELED gtpu_packet) as (ret & c & mt & E & Hok).
  assert (E' := E). vm_compute in E'. injection E' as <- <- <-.
  do 2 eexists. split; [exact E|]. split; [by apply Hok|]. by split.
Defined.

Lemma match_directions_agree_witness :
  m8_inner (sample_match TUNNELED gtpu_packet) = m8_inner (sample_match PLAIN plain_packet).
Proof.
  destruct (upf_accel_fp_pkt_match TUNNELED gtpu_packet tun_zero) as [[[r1 c1] m1]|] eqn:E1;
    [|vm_compute in E1; discriminate].
  destruct (upf_accel_fp_pkt_match PLAIN plain_packet tun_zero) as [[[r2 c2] m2]|] eqn:E2;
    [|vm_compute in E2; discriminate].
  assert (E1' := E1). assert (E2' := E2). vm_compute in E1', E2'.
  injection E1' as <- <- <-. injection E2' as <- <- <-.
  apply (match_directions_agree _ _ _ _ _ _ E1 E2). reflexivity.
Defined.

Lemma decap_parses_witness :
  exists p' c', upf_accel_decap (mbuf_of gtpu_packet)
      (match tunnel_parse gtpu_packet 0 98 tun_zero with Done (_, c) => c | Crash _ => tun_zero end) = Done p' /\
    plain_parse (mb_data p') 0 (length (mb_data p')) conn_zero = Done (DOCA_SUCCESS, c').
Proof.
  destruct (upf_accel_fp_pkt_match TUNNELED gtpu_packet tun_zero) as [[[r1 c1] m1]|] eqn:E1;
    [|vm_compute in E1; discriminate].
  assert (E1' := E1). vm_compute in E1'. injection E1' as <- <- <-.
  destruct (decap_parses (mbuf_of gtpu_packet : @rte_mbuf sim_mbuf_ops) _ _ E1) as (p' & c' & Hp & Hc & _); [reflexivity|].
  exists p', c'. split; [exact Hp|exact Hc].
Defined.
