(* ===== verification/UpfAging.v ===== *)
(** * UpfAging: entry states and the software aging list of
      src/applications/upf_accel/upf_accel_flow_processing.c

    Flows that are not (yet) in hardware age in software. Per direction they
    form a doubly linked list threaded through the connection table, newest
    first; every packet moves its flow to the head and a scan removes the old
    flows from the tail. A connection is its index in [dyn_tbl_data], a node
    index of -1 is [UPF_ACCEL_SW_AGING_LL_INVALID_NODE], and a call of
    [rte_rdtsc] is an argument [tsc].

    [aging_rep] relates the list in memory to its abstract value, a queue of
    flows with the time of their last packet. [move_to_head_refines] and
    [scan_refines] show that the code implements the operations [touch] and
    [expire] on that queue; [scan_ages_exactly] says that a scan ages the flows
    whose time is over and no other. The loop of the scan runs with fuel and one
    step per flow of the list is enough. *)

From stdpp Require Import sorting.
From S2P Require Import Prelude Wire PacketParser UpfTypes UpfSim.

Definition UPF_ACCEL_SW_AGING_LL_INVALID_NODE : Z := -1.
Abbreviation INVALID := UPF_ACCEL_SW_AGING_LL_INVALID_NODE.

(** ** Entry states *)

Definition upf_accel_fp_entry_state_change (current new : upf_accel_entry_state)
    : res upf_accel_entry_state :=
  let ok := Done new in
  let bad := Crash AssertFail in
  match new with
  | STATE_NONE =>
    match current with
    | STATE_PENDING | STATE_UNACCELERATED | STATE_PENDING_ACCELERATION | STATE_ACCELERATED
    | STATE_PENDING_DEACCELERATION => ok
    | _ => bad
    end
  | STATE_PENDING => match current with STATE_NONE => ok | _ => bad end
  | STATE_UNACCELERATED => match current with STATE_PENDING => ok | _ => bad end
  | STATE_PENDING_ACCELERATION =>
    match current with
    | STATE_NONE | STATE_PENDING | STATE_UNACCELERATED => ok
    | _ => bad
    end
  | STATE_ACCELERATED => match current with STATE_PENDING_ACCELERATION => ok | _ => bad end
  | STATE_PENDING_DEACCELERATION => match current with STATE_ACCELERATED => ok | _ => bad end
  end.

Definition upf_accel_fp_entry_is_alive (s : upf_accel_entry_state) : bool :=
  bool_decide (s <> STATE_NONE).
Definition upf_accel_fp_entry_is_established (s : upf_accel_entry_state) : bool :=
  bool_decide (s = STATE_PENDING_ACCELERATION) || bool_decide (s = STATE_PENDING_DEACCELERATION)
  || bool_decide (s = STATE_ACCELERATED).

Section Aging.
Context `{!RteHash upf_accel_match_5t, !RteHash upf_accel_match_extension, !DocaFlow}.
Implicit Types (fp : upf_accel_fp_data) (i : Z) (d : dir).

(** The key of a connection in [dyn_tbl]. *)
Definition key fp i : upf_accel_match_5t := m8_inner (dc_match (conn fp i)).

Definition upf_accel_fp_delete_flow fp i d : res (upf_accel_fp_data * doca_error_t) :=
  let last_entry :=
    negb (upf_accel_fp_entry_is_alive (state fp i (upf_accel_fp_get_opposite_pkt_type d))) in
  s ← upf_accel_fp_entry_state_change (state fp i d) STATE_NONE;
  let fp := set_state i d s fp in
  if negb last_entry then Done (fp, DOCA_SUCCESS)
  else
    let '(tbl, pos) := rte_hash_del_key_with_hash (fp_dyn_tbl fp) (key fp i) (dc_hash (conn fp i)) in
    Done (set_dyn_tbl tbl fp,
          match pos with None => DOCA_ERROR_INVALID_VALUE | Some _ => DOCA_SUCCESS end).

(** ** The linked list *)

Definition upf_accel_sw_aging_ll_init fp d : upf_accel_fp_data :=
  set_ll d {| ll_head := INVALID; ll_tail := INVALID |} fp.

Definition upf_accel_sw_aging_ll_node_init fp i d : upf_accel_fp_data :=
  let n := node fp i d in
  set_node i d {| n with node_prev := INVALID; node_next := INVALID |} fp.

Definition upf_accel_sw_aging_ll_node_is_valid (idx : Z) : bool := negb (idx =? INVALID).

Definition head_of fp d : Z := ll_head (pget d (fp_sw_aging_ll fp)).
Definition tail_of fp d : Z := ll_tail (pget d (fp_sw_aging_ll fp)).
Definition set_head d (x : Z) fp : upf_accel_fp_data :=
  let ll := pget d (fp_sw_aging_ll fp) in set_ll d {| ll with ll_head := x |} fp.
Definition set_tail d (x : Z) fp : upf_accel_fp_data :=
  let ll := pget d (fp_sw_aging_ll fp) in set_ll d {| ll with ll_tail := x |} fp.

(** [dyn_tbl_data[i].dyn_ctx.entries[d].sw_aging_node.next = x], and [prev] *)
Definition set_next i d (x : Z) fp : upf_accel_fp_data :=
  let n := node fp i d in set_node i d {| n with node_next := x |} fp.
Definition set_prev i d (x : Z) fp : upf_accel_fp_data :=
  let n := node fp i d in set_node i d {| n with node_prev := x |} fp.

Definition upf_accel_sw_aging_ll_node_exist fp i d : bool :=
  let conn_idx := dc_conn_idx (conn fp i) in
  upf_accel_sw_aging_ll_node_is_valid (node_prev (node fp i d))
  || upf_accel_sw_aging_ll_node_is_valid (node_next (node fp i d))
  || (conn_idx =? head_of fp d) || (conn_idx =? tail_of fp d).

Definition upf_accel_sw_aging_ll_node_remove fp i d : upf_accel_fp_data * bool :=
  let prev := node_prev (node fp i d) in
  let next := node_next (node fp i d) in
  let conn_idx := dc_conn_idx (conn fp i) in
  if negb (upf_accel_sw_aging_ll_node_exist fp i d) then (fp, false)
  else
    let fp := if upf_accel_sw_aging_ll_node_is_valid prev then set_next prev d next fp else fp in
    let fp := if upf_accel_sw_aging_ll_node_is_valid next then set_prev next d prev fp else fp in
    let fp := if tail_of fp d =? conn_idx then set_tail d prev fp else fp in
    let fp := if head_of fp d =? conn_idx then set_head d next fp else fp in
    (upd_unaccel dec_current d fp, true).

Definition upf_accel_sw_aging_ll_node_insert fp i d (tsc : Z) : upf_accel_fp_data :=
  let old_head := head_of fp d in
  let conn_idx := dc_conn_idx (conn fp i) in
  let fp := if upf_accel_sw_aging_ll_node_is_valid old_head then set_prev old_head d conn_idx fp
            else fp in
  let fp := set_node i d {| node_prev := INVALID; node_next := old_head; node_timestamp := tsc |} fp in
  let fp := set_head d conn_idx fp in
  let fp := if negb (upf_accel_sw_aging_ll_node_is_valid (tail_of fp d))
            then set_tail d conn_idx fp else fp in
  upd_unaccel inc_current d fp.

Definition upf_accel_sw_aging_ll_node_move_to_head fp i d (tsc : Z) : upf_accel_fp_data :=
  let '(fp, existed) := upf_accel_sw_aging_ll_node_remove fp i d in
  let fp := if negb existed then upd_unaccel inc_total d fp else fp in
  upf_accel_sw_aging_ll_node_insert fp i d tsc.

(** The [while] loop of the scan; the result holds the final [curr]. *)
Fixpoint ll_scan_loop (fuel : nat) fp d (tsc period curr : Z) : res (upf_accel_fp_data * Z) :=
  match fuel with
  | O => Crash OutOfFuel
  | S fuel =>
    if negb (upf_accel_sw_aging_ll_node_is_valid curr) then Done (fp, curr)
    else if u64 (tsc - node_timestamp (node fp curr d)) <? period then Done (fp, curr)
    else
      '(fp, ret) ← upf_accel_fp_delete_flow fp curr d;
      let fp := if negb (is_success ret) then upd_unaccel inc_aging_errors d fp else fp in
      let fp := upd_unaccel dec_current d fp in
      ll_scan_loop fuel fp d tsc period (node_prev (node fp curr d))
  end.

Definition upf_accel_sw_aging_ll_scan (fuel : nat) fp d (tsc tsc_hz : Z) : res upf_accel_fp_data :=
  let aging_period_tsc := u64 (cfg_sw_aging_time_sec (fp_cfg fp) * tsc_hz) in
  '(fp, curr) ← ll_scan_loop fuel fp d tsc aging_period_tsc (tail_of fp d);
  Done (set_tail d curr fp).
End Aging.

(** ** State machine *)

(** The transitions the switch allows. *)
Inductive entry_step : upf_accel_entry_state -> upf_accel_entry_state -> Prop :=
| step_create : entry_step STATE_NONE STATE_PENDING
| step_unaccel : entry_step STATE_PENDING STATE_UNACCELERATED
| step_offload s : s = STATE_NONE \/ s = STATE_PENDING \/ s = STATE_UNACCELERATED ->
    entry_step s STATE_PENDING_ACCELERATION
| step_offloaded : entry_step STATE_PENDING_ACCELERATION STATE_ACCELERATED
| step_age : entry_step STATE_ACCELERATED STATE_PENDING_DEACCELERATION
| step_delete s : s <> STATE_NONE -> entry_step s STATE_NONE.

Lemma state_change_step s s' r :
  upf_accel_fp_entry_state_change s s' = r ->
  (r = Done s' /\ entry_step s s') \/ (r = Crash AssertFail /\ ~ entry_step s s').
Proof.
  intros <-. destruct s, s'; cbn;
    try (left; split; [done|constructor; (done || naive_solver)]);
    right; (split; [done|inversion 1; naive_solver]).
Qed.

Section ListFacts.
Context `{!RteHash upf_accel_match_5t, !RteHash upf_accel_match_extension, !DocaFlow}.
Implicit Types (fp : upf_accel_fp_data) (i j : Z) (d e : dir) (l : list Z).

(** ** What the list operations leave alone *)

(** Everything but the connection table, the counters of software flows and the lists. *)
Definition fp_rest fp : upf_accel_fp_data :=
  {| fp with fp_dyn_tbl_data := ∅; fp_unaccel_counters := PerDir counters_zero counters_zero;
             fp_sw_aging_ll := PerDir {| ll_head := 0; ll_tail := 0 |} {| ll_head := 0; ll_tail := 0 |} |}.

(** [fp'] differs from [fp] at most in the list of direction [d]. *)
Record only_list d fp fp' : Prop := {
  ol_rest : fp_rest fp' = fp_rest fp;
  ol_conn : forall j, conn_rest (conn fp' j) = conn_rest (conn fp j);
  ol_state : forall j e, state fp' j e = state fp j e;
  ol_entry : forall j e, fe_entry (entry fp' j e) = fe_entry (entry fp j e);
  ol_node : forall j e, e <> d -> node fp' j e = node fp j e;
  ol_ll : forall e, e <> d -> pget e (fp_sw_aging_ll fp') = pget e (fp_sw_aging_ll fp);
  ol_unaccel : forall e, e <> d -> pget e (fp_unaccel_counters fp') = pget e (fp_unaccel_counters fp);
}.

#[export] Instance only_list_preorder d : PreOrder (only_list d).
Proof.
  split; [by split|]. intros fp1 fp2 fp3 H1 H2. split; intros.
  - by rewrite (ol_rest _ _ _ H2), (ol_rest _ _ _ H1).
  - by rewrite (ol_conn _ _ _ H2), (ol_conn _ _ _ H1).
  - by rewrite (ol_state _ _ _ H2), (ol_state _ _ _ H1).
  - by rewrite (ol_entry _ _ _ H2), (ol_entry _ _ _ H1).
  - by rewrite (ol_node _ _ _ H2), (ol_node _ _ _ H1).
  - by rewrite (ol_ll _ _ _ H2), (ol_ll _ _ _ H1).
  - by rewrite (ol_unaccel _ _ _ H2), (ol_unaccel _ _ _ H1).
Qed.

Lemma only_list_set_node i d n fp : only_list d fp (set_node i d n fp).
Proof.
  split; intros; try done.
  - apply conn_rest_set_entry.
  - apply state_set_node.
  - apply fe_entry_set_node.
  - rewrite node_set_node. by rewrite decide_False by naive_solver.
Qed.
Lemma only_list_set_ll d x fp : only_list d fp (set_ll d x fp).
Proof. split; intros; try done. cbn. by rewrite pget_pset_ne. Qed.
Lemma only_list_upd_unaccel f d fp : only_list d fp (upd_unaccel f d fp).
Proof. split; intros; try done. cbn. by rewrite pget_palter_ne. Qed.
Lemma only_list_if d fp (b : bool) fp1 fp2 :
  only_list d fp fp1 -> only_list d fp fp2 -> only_list d fp (if b then fp1 else fp2).
Proof. by destruct b. Qed.

(** One guarded assignment after another. *)
Lemma only_list_then d fp fp1 (b : bool) f :
  only_list d fp fp1 -> only_list d fp1 (f fp1) -> only_list d fp (if b then f fp1 else fp1).
Proof. intros H1 H2. destruct b; [by etrans|done]. Qed.

Lemma only_list_remove fp i d : only_list d fp (upf_accel_sw_aging_ll_node_remove fp i d).1.
Proof.
  unfold upf_accel_sw_aging_ll_node_remove. destruct (negb _); cbn [fst]; [done|].
  etrans; [|apply only_list_upd_unaccel].
  apply (only_list_then _ _ _ _ (set_head d _)); [|apply only_list_set_ll].
  apply (only_list_then _ _ _ _ (set_tail d _)); [|apply only_list_set_ll].
  apply (only_list_then _ _ _ _ (set_prev _ d _)); [|apply only_list_set_node].
  apply (only_list_then _ _ _ _ (set_next _ d _)); [done|apply only_list_set_node].
Qed.
Lemma only_list_insert fp i d t : only_list d fp (upf_accel_sw_aging_ll_node_insert fp i d t).
Proof.
  unfold upf_accel_sw_aging_ll_node_insert. etrans; [|apply only_list_upd_unaccel].
  etrans; [|apply only_list_if; [apply only_list_set_ll|done]].
  etrans; [|apply only_list_set_ll]. etrans; [|apply only_list_set_node].
  apply only_list_if; [apply only_list_set_node|done].
Qed.
Lemma only_list_move fp i d t : only_list d fp (upf_accel_sw_aging_ll_node_move_to_head fp i d t).
Proof.
  unfold upf_accel_sw_aging_ll_node_move_to_head.
  destruct (upf_accel_sw_aging_ll_node_remove fp i d) as [fp1 b] eqn:E.
  etrans; [|apply only_list_insert].
  assert (only_list d fp fp1) by (by pose proof (only_list_remove fp i d) as H0; rewrite E in H0).
  apply only_list_if; [|done]. etrans; [done|apply only_list_upd_unaccel].
Qed.

(** ** The list in memory *)

Definition hd_or (x : Z) l : Z := default x (head l).
Definition last_or (x : Z) l : Z := default x (list.last l).

Lemma hd_or_app x l1 l2 : hd_or x (l1 ++ l2) = hd_or (hd_or x l2) l1.
Proof. by destruct l1. Qed.
Lemma last_or_cons x i l : last_or x (i :: l) = last_or i l.
Proof. unfold last_or. rewrite last_cons. by destruct (list.last l). Qed.
Lemma last_or_app x l1 l2 : last_or x (l1 ++ l2) = last_or (last_or x l1) l2.
Proof. unfold last_or. rewrite last_app. by destruct (list.last l2). Qed.
Lemma hd_or_elem x l : l <> [] -> hd_or x l ∈ l.
Proof. destruct l; [done|]. intros _. by apply list_elem_of_here. Qed.
Lemma last_or_elem x l : l <> [] -> last_or x l ∈ l.
Proof.
  destruct l as [|a l _] using rev_ind; [done|]. intros _. rewrite last_or_app. cbn.
  apply elem_of_app. right. by apply list_elem_of_singleton.
Qed.

(** The nodes of [l], linked both ways; [p] precedes the first and [n] follows the last. *)
Fixpoint dseg fp d (p : Z) l (n : Z) : Prop :=
  match l with
  | [] => True
  | i :: l => node_prev (node fp i d) = p /\ node_next (node fp i d) = hd_or n l /\ dseg fp d i l n
  end.

Lemma dseg_app fp d p l1 l2 n :
  dseg fp d p (l1 ++ l2) n <-> dseg fp d p l1 (hd_or n l2) /\ dseg fp d (last_or p l1) l2 n.
Proof.
  revert p. induction l1 as [|i l1 IH]; intros p; cbn; [naive_solver|].
  rewrite IH, hd_or_app, last_or_cons. naive_solver.
Qed.

Lemma dseg_ext fp fp' d p l n :
  (forall j, j ∈ l -> node_prev (node fp' j d) = node_prev (node fp j d) /\
                     node_next (node fp' j d) = node_next (node fp j d)) ->
  dseg fp d p l n -> dseg fp' d p l n.
Proof.
  revert p. induction l as [|i l IH]; intros p Hj; cbn; [done|].
  intros (Hp & Hn & Hl). destruct (Hj i) as [-> ->]; [by apply list_elem_of_here|].
  split_and!; [done..|]. apply IH; [|done]. intros j Hin. apply Hj. by apply list_elem_of_further.
Qed.

Record ll_ok fp d l : Prop := {
  ok_nodup : NoDup l;
  ok_idx : forall i, i ∈ l -> 0 <= i /\ dc_conn_idx (conn fp i) = i;
  ok_head : head_of fp d = hd_or INVALID l;
  ok_tail : tail_of fp d = last_or INVALID l;
  ok_links : dseg fp d INVALID l INVALID;
}.

Lemma conn_idx_only_list d fp fp' i :
  only_list d fp fp' -> dc_conn_idx (conn fp' i) = dc_conn_idx (conn fp i).
Proof. intros Hol. exact (f_equal dc_conn_idx (ol_conn _ _ _ Hol i)). Qed.

(** The list of the other direction is not touched. *)
Lemma ll_ok_other d e fp fp' l : only_list d fp fp' -> e <> d -> ll_ok fp e l -> ll_ok fp' e l.
Proof.
  intros Hol He [Hnd Hidx Hh Ht Hl]. split; [done|..].
  - intros i Hi. rewrite (conn_idx_only_list _ _ _ _ Hol). auto.
  - unfold head_of. by rewrite (ol_ll _ _ _ Hol).
  - unfold tail_of. by rewrite (ol_ll _ _ _ Hol).
  - revert Hl. apply dseg_ext. intros j _. by rewrite (ol_node _ _ _ Hol).
Qed.

Lemma valid_true i : 0 <= i -> upf_accel_sw_aging_ll_node_is_valid i = true.
Proof. intros. unfold upf_accel_sw_aging_ll_node_is_valid, INVALID. lia. Qed.

Section OneList.
Context fp d l (Hok : ll_ok fp d l).

Lemma hd_range l1 : (forall i, i ∈ l1 -> i ∈ l) ->
  (l1 = [] /\ hd_or INVALID l1 = INVALID) \/ (hd_or INVALID l1 ∈ l /\ 0 <= hd_or INVALID l1).
Proof.
  intros Hsub. destruct (decide (l1 = [])) as [->|Hne]; [by left|right].
  pose proof (hd_or_elem INVALID l1 Hne) as Hin. split; [auto|]. by apply (ok_idx _ _ _ Hok), Hsub.
Qed.
Lemma last_range l1 : (forall i, i ∈ l1 -> i ∈ l) ->
  (l1 = [] /\ last_or INVALID l1 = INVALID) \/ (last_or INVALID l1 ∈ l /\ 0 <= last_or INVALID l1).
Proof.
  intros Hsub. destruct (decide (l1 = [])) as [->|Hne]; [by left|right].
  pose proof (last_or_elem INVALID l1 Hne) as Hin. split; [auto|]. by apply (ok_idx _ _ _ Hok), Hsub.
Qed.

Lemma node_exist_in i : i ∈ l -> upf_accel_sw_aging_ll_node_exist fp i d = true.
Proof.
  intros Hin. destruct (ok_idx _ _ _ Hok i Hin) as [Hpos Hci].
  destruct (list_elem_of_split _ _ Hin) as (l1 & l2 & El).
  pose proof (ok_links _ _ _ Hok) as Hl. rewrite El, dseg_app in Hl. cbn in Hl.
  destruct Hl as (_ & Hp & _). unfold upf_accel_sw_aging_ll_node_exist. rewrite Hp, Hci, (ok_head _ _ _ Hok).
  destruct (last_range l1) as [[-> _]|[_ Hv]].
  - intros j Hj. rewrite El. apply elem_of_app. by left.
  - rewrite El. cbn. rewrite Z.eqb_refl. by rewrite !orb_true_r.
  - by rewrite valid_true.
Qed.

(** A connection outside the list whose node is freshly initialised. *)
Definition fresh i : Prop :=
  (i ∉ l) /\ 0 <= i /\ dc_conn_idx (conn fp i) = i /\
  node_prev (node fp i d) = INVALID /\ node_next (node fp i d) = INVALID.

Lemma node_exist_out i : fresh i -> upf_accel_sw_aging_ll_node_exist fp i d = false.
Proof.
  intros (Hni & Hpos & Hci & Hp & Hn). unfold upf_accel_sw_aging_ll_node_exist.
  rewrite Hp, Hn, Hci, (ok_head _ _ _ Hok), (ok_tail _ _ _ Hok). cbn.
  assert (i <> hd_or INVALID l /\ i <> last_or INVALID l) as [Hh Ht].
  { destruct (hd_range l) as [[_ ->]|[Hh _]]; [done|..];
      (destruct (last_range l) as [[_ ->]|[Ht _]]; [done|..]);
      split; try (unfold INVALID; lia); intros ->; done. }
  by apply Z.eqb_neq in Hh as ->, Ht as ->.
Qed.

(** *** Removal *)

Lemma remove_node_links i j (prev := node_prev (node fp i d)) (next := node_next (node fp i d))
    (fp' := (upf_accel_sw_aging_ll_node_remove fp i d).1) :
  i ∈ l ->
  node_prev (node fp' j d) = (if decide (next = j /\ next <> INVALID) then prev else node_prev (node fp j d)) /\
  node_next (node fp' j d) = (if decide (prev = j /\ prev <> INVALID) then next else node_next (node fp j d)) /\
  node_timestamp (node fp' j d) = node_timestamp (node fp j d).
Proof.
  intros Hin. unfold fp', upf_accel_sw_aging_ll_node_remove. rewrite node_exist_in by done. cbn [negb fst].
  fold prev next. unfold upf_accel_sw_aging_ll_node_is_valid.
  set (fp1 := if negb (prev =? INVALID) then set_next prev d next fp else fp).
  set (fp2 := if negb (next =? INVALID) then set_prev next d prev fp1 else fp1).
  assert (forall fp0 (b1 b2 : bool) x y, node (upd_unaccel dec_current d
    (if b1 then set_head d x (if b2 then set_tail d y fp0 else fp0)
     else (if b2 then set_tail d y fp0 else fp0))) j d = node fp0 j d) as -> by (by intros ? [] []).
  assert (node fp1 j d = (let n := node fp j d in
    if decide (prev = j /\ prev <> INVALID) then {| n with node_next := next |} else n)) as E1.
  { unfold fp1, set_next. cbn. destruct (Z.eqb_spec prev INVALID); cbn.
    - by rewrite decide_False by (by intros [_ ?]).
    - rewrite node_set_node. destruct (decide (prev = j)) as [<-|];
        [by rewrite !decide_True|by rewrite !decide_False by (by intros [? _])]. }
  assert (node fp2 j d = (let n := node fp1 j d in
    if decide (next = j /\ next <> INVALID) then {| n with node_prev := prev |} else n)) as ->.
  { unfold fp2, set_prev. cbn. destruct (Z.eqb_spec next INVALID); cbn.
    - by rewrite decide_False by (by intros [_ ?]).
    - rewrite node_set_node. destruct (decide (next = j)) as [<-|];
        [by rewrite !decide_True|by rewrite !decide_False by (by intros [? _])]. }
  rewrite E1. cbn. by repeat case_decide.
Qed.

Lemma remove_ends i (prev := node_prev (node fp i d)) (next := node_next (node fp i d))
    (fp' := (upf_accel_sw_aging_ll_node_remove fp i d).1) :
  i ∈ l ->
  tail_of fp' d = (if tail_of fp d =? i then prev else tail_of fp d) /\
  head_of fp' d = (if head_of fp d =? i then next else head_of fp d).
Proof.
  intros Hin. destruct (ok_idx _ _ _ Hok i Hin) as [_ Hci].
  unfold fp', upf_accel_sw_aging_ll_node_remove. rewrite node_exist_in, Hci by done. cbn [negb fst].
  fold prev next.
  set (fp2 := if upf_accel_sw_aging_ll_node_is_valid next then _ else _).
  assert (head_of fp2 d = head_of fp d /\ tail_of fp2 d = tail_of fp d) as [Hh Ht]
    by (unfold fp2; by repeat case_match).
  unfold head_of, tail_of, upd_unaccel in *. cbn.
  destruct (Z.eqb_spec (ll_tail (pget d (fp_sw_aging_ll fp2))) i) as [Et|Et];
    rewrite Ht in Et; cbn; rewrite ?pget_pset, ?pget_palter; cbn;
    (destruct (Z.eqb_spec (ll_head (pget d (fp_sw_aging_ll fp2))) i) as [Eh|Eh]; rewrite Hh in Eh); cbn;
    rewrite ?pget_pset; cbn; rewrite ?Hh, ?Ht, ?Et, ?Eh, ?Z.eqb_refl; try done;
    repeat match goal with H : ?a <> ?b |- _ => apply Z.eqb_neq in H; rewrite ?H end; done.
Qed.

Lemma invalid_notin : INVALID ∉ l.
Proof. by intros [? _]%(ok_idx _ _ _ Hok). Qed.

(** The neighbours of a node lie on their own side of it. *)
Lemma next_side l1 i l2 : l = l1 ++ i :: l2 -> forall j, j ∈ l1 -> hd_or INVALID l2 <> j.
Proof.
  intros El j Hj <-. pose proof invalid_notin as Hinv. pose proof (ok_nodup _ _ _ Hok) as Hnd.
  rewrite El in Hinv, Hnd. apply list.NoDup_app in Hnd as (_ & Hdisj & _). apply (Hdisj _ Hj).
  destruct l2 as [|b l2]; [|by apply list_elem_of_further, list_elem_of_here].
  destruct Hinv. apply elem_of_app. by left.
Qed.
Lemma prev_side l1 i l2 : l = l1 ++ i :: l2 -> forall j, j ∈ l2 -> last_or INVALID l1 <> j.
Proof.
  intros El j Hj <-. pose proof invalid_notin as Hinv. pose proof (ok_nodup _ _ _ Hok) as Hnd.
  rewrite El in Hinv, Hnd. apply list.NoDup_app in Hnd as (_ & Hdisj & _).
  destruct (decide (l1 = [])) as [->|Hne].
  - destruct Hinv. by apply list_elem_of_further.
  - apply (Hdisj _ (last_or_elem INVALID l1 Hne)). by apply list_elem_of_further.
Qed.

Lemma links_at l1 i l2 :
  l = l1 ++ i :: l2 ->
  dseg fp d INVALID l1 i /\ node_prev (node fp i d) = last_or INVALID l1 /\
  node_next (node fp i d) = hd_or INVALID l2 /\ dseg fp d i l2 INVALID.
Proof.
  intros El. pose proof (ok_links _ _ _ Hok) as Hl. rewrite El, dseg_app in Hl. exact Hl.
Qed.

Lemma remove_links l1 i l2 (fp' := (upf_accel_sw_aging_ll_node_remove fp i d).1) :
  l = l1 ++ i :: l2 -> dseg fp' d INVALID (l1 ++ l2) INVALID.
Proof.
  intros El. destruct (links_at l1 i l2 El) as (Hl1 & Hp & Hn & Hl2).
  pose proof (ok_nodup _ _ _ Hok) as Hnd. rewrite El, list.NoDup_app, list.NoDup_cons in Hnd.
  destruct Hnd as (Hnd1 & Hdisj & Hi2 & Hnd2).
  assert (i ∈ l) as Hin by (rewrite El; apply elem_of_app; right; by apply list_elem_of_here).
  assert (forall j, j ∈ l -> node_prev (node fp i d) <> j -> node_next (node fp i d) <> j ->
    node_prev (node fp' j d) = node_prev (node fp j d) /\
    node_next (node fp' j d) = node_next (node fp j d)) as Hsame.
  { intros j Hj Hjp Hjn. destruct (remove_node_links i j Hin) as (Hprev & Hnext & _).
    fold fp' in Hprev, Hnext. by rewrite Hprev, Hnext, !decide_False by (by intros [? _]). }
  rewrite Hp, Hn in Hsame.
  pose proof (next_side l1 i l2 El) as Hne1. pose proof (prev_side l1 i l2 El) as Hne2.
  pose proof invalid_notin as Hinv.
  apply dseg_app. split.
  - destruct l1 as [|a k _] using rev_ind; [done|]. rewrite dseg_app in Hl1 |- *. cbn in Hl1 |- *.
    rewrite last_or_app in *. cbn in *. destruct Hl1 as (Hk & Ha & _ & _).
    assert (a ∈ k ++ [a]) as Hak by (apply elem_of_app; right; by apply list_elem_of_singleton).
    destruct (remove_node_links i a Hin) as (Hprev & Hnext & _). fold fp' in Hprev, Hnext.
    rewrite Hp, Hn in Hprev, Hnext. split_and!; [|rewrite Hprev|rewrite Hnext|done].
    + revert Hk. apply dseg_ext. intros j Hj. apply Hsame.
      * rewrite El. apply elem_of_app. left. apply elem_of_app. by left.
      * intros <-. apply list.NoDup_app in Hnd1 as (_ & Hd & _). apply (Hd _ Hj). by apply list_elem_of_singleton.
      * apply Hne1, elem_of_app. by left.
    + rewrite decide_False; [done|]. intros [He _]. by apply (Hne1 a Hak).
    + rewrite decide_True; [done|]. split; [done|]. intros ->.
      apply Hinv. rewrite El. apply elem_of_app. by left.
  - destruct l2 as [|b k]; [done|]. cbn in Hl2 |- *. destruct Hl2 as (_ & Hb & Hk). cbn in Hn.
    assert (b ∈ l) as Hbl by (rewrite El; apply elem_of_app; right; by apply list_elem_of_further, list_elem_of_here).
    destruct (remove_node_links i b Hin) as (Hprev & Hnext & _). fold fp' in Hprev, Hnext.
    rewrite Hp, Hn in Hprev, Hnext. split_and!; [rewrite Hprev|rewrite Hnext|].
    + rewrite decide_True; [done|]. split; [done|]. by intros ->.
    + rewrite decide_False; [done|]. intros [He _]. by apply (Hne2 b); [apply list_elem_of_here|].
    + revert Hk. apply dseg_ext. intros j Hj. apply Hsame.
      * rewrite El. apply elem_of_app. right. by do 2 apply list_elem_of_further.
      * apply Hne2. by apply list_elem_of_further.
      * cbn. intros ->. apply list.NoDup_cons in Hnd2. by destruct Hnd2.
Qed.

Lemma remove_ok l1 i l2 (fp' := (upf_accel_sw_aging_ll_node_remove fp i d).1) :
  l = l1 ++ i :: l2 ->
  (upf_accel_sw_aging_ll_node_remove fp i d).2 = true /\ ll_ok fp' d (l1 ++ l2) /\
  pget d (fp_unaccel_counters fp') = dec_current (pget d (fp_unaccel_counters fp)).
Proof.
  intros El. assert (i ∈ l) as Hin by (rewrite El; apply elem_of_app; right; by apply list_elem_of_here).
  split_and!.
  - unfold upf_accel_sw_aging_ll_node_remove. by rewrite node_exist_in.
  - destruct (links_at l1 i l2 El) as (_ & Hp & Hn & _).
    destruct (remove_ends i Hin) as [Ht Hh]. fold fp' in Ht, Hh.
    pose proof (ok_nodup _ _ _ Hok) as Hnd. rewrite El, list.NoDup_app, list.NoDup_cons in Hnd.
    destruct Hnd as (Hnd1 & Hdisj & Hi2 & Hnd2).
    assert (i ∉ l1) as Hi1 by (intros Hi; apply (Hdisj _ Hi); by apply list_elem_of_here).
    split.
    + rewrite list.NoDup_app. split_and!; try done. intros x Hx Hx2. apply (Hdisj _ Hx).
      by apply list_elem_of_further.
    + intros j Hj. rewrite (conn_idx_only_list d fp) by apply only_list_remove.
      apply (ok_idx _ _ _ Hok). rewrite El. set_solver.
    + rewrite Hh, (ok_head _ _ _ Hok), El, Hn, !hd_or_app. cbn. destruct l1 as [|a l1]; cbn.
      * by rewrite Z.eqb_refl.
      * destruct (Z.eqb_spec a i) as [->|]; [|done]. destruct Hi1. by apply list_elem_of_here.
    + rewrite Ht, (ok_tail _ _ _ Hok), El, Hp, !last_or_app, last_or_cons.
      destruct (decide (l2 = [])) as [->|Hne]; cbn; [by rewrite Z.eqb_refl|].
      destruct (Z.eqb_spec (last_or i l2) i) as [Heq|_].
      * destruct Hi2. rewrite <- Heq at 1. by apply last_or_elem.
      * destruct l2; [done|]. by rewrite !last_or_cons.
    + by apply remove_links.
  - unfold fp', upf_accel_sw_aging_ll_node_remove. rewrite node_exist_in by done. cbn [negb fst].
    cbn. rewrite pget_palter. by repeat case_match.
Qed.

(** *** Insertion *)
Section Insert.
Context i (t : Z) (Hpos : 0 <= i) (Hci : dc_conn_idx (conn fp i) = i) (Hni : i ∉ l).
Let fp' : upf_accel_fp_data := upf_accel_sw_aging_ll_node_insert fp i d t.

Lemma insert_node_self : node fp' i d =
  {| node_prev := INVALID; node_next := hd_or INVALID l; node_timestamp := t |}.
Proof.
  unfold fp', upf_accel_sw_aging_ll_node_insert. rewrite (ok_head _ _ _ Hok).
  destruct (negb _); (etrans; [apply node_set_node|by rewrite decide_True]).
Qed.

Lemma insert_node_other j : j <> i ->
  node_timestamp (node fp' j d) = node_timestamp (node fp j d) /\
  node_next (node fp' j d) = node_next (node fp j d) /\
  node_prev (node fp' j d) = if decide (hd_or INVALID l = j /\ l <> []) then i else node_prev (node fp j d).
Proof.
  intros Hj. unfold fp', upf_accel_sw_aging_ll_node_insert. rewrite Hci, (ok_head _ _ _ Hok).
  set (fp1 := if upf_accel_sw_aging_ll_node_is_valid _ then _ else fp).
  assert (forall (b : bool) x y n, node (upd_unaccel inc_current d
    (if b then set_tail d x (set_head d y (set_node i d n fp1)) else set_head d y (set_node i d n fp1))) j d
    = node fp1 j d) as ->.
  { intros b x y n. transitivity (node (set_node i d n fp1) j d); [by destruct b|].
    rewrite node_set_node. by rewrite decide_False by (by intros [? _]). }
  unfold fp1. destruct l as [|a l'] eqn:El; cbn.
  - rewrite decide_False; [done|]. by intros [_ ?].
  - rewrite valid_true by (apply (ok_idx _ _ _ Hok a); by apply list_elem_of_here).
    unfold set_prev. rewrite node_set_node. destruct (decide (a = j)) as [->|].
    + by rewrite !decide_True.
    + by rewrite !decide_False by (by intros [? _]).
Qed.

Lemma insert_ends : head_of fp' d = i /\ tail_of fp' d = last_or INVALID (i :: l).
Proof.
  assert (tail_of fp' d = (if tail_of fp d =? INVALID then i else tail_of fp d) /\ head_of fp' d = i)
    as [Ht Hh].
  { unfold fp', upf_accel_sw_aging_ll_node_insert. rewrite Hci.
    set (fp1 := if upf_accel_sw_aging_ll_node_is_valid _ then _ else fp).
    assert (tail_of fp1 d = tail_of fp d) as Ht1 by (unfold fp1; by case_match).
    unfold upf_accel_sw_aging_ll_node_is_valid. rewrite negb_involutive.
    assert (forall n, tail_of (set_head d i (set_node i d n fp1)) d = tail_of fp d) as Ht2.
    { intros n. rewrite <- Ht1. unfold tail_of, set_head. cbn. by rewrite pget_pset. }
    rewrite Ht2. unfold head_of, tail_of in *.
    destruct (_ =? INVALID); cbn; rewrite !pget_pset; cbn; split; congruence. }
  split; [done|]. rewrite Ht, (ok_tail _ _ _ Hok), last_or_cons.
  destruct (decide (l = [])) as [->|Hne]; [done|].
  pose proof (last_or_elem INVALID l Hne) as Hin. destruct (Z.eqb_spec (last_or INVALID l) INVALID) as [He|].
  - rewrite He in Hin. by apply invalid_notin in Hin.
  - destruct l; [done|]. by rewrite !last_or_cons.
Qed.

Lemma insert_ok :
  ll_ok fp' d (i :: l) /\ node_timestamp (node fp' i d) = t /\
  (forall j, j <> i -> node_timestamp (node fp' j d) = node_timestamp (node fp j d)) /\
  pget d (fp_unaccel_counters fp') = inc_current (pget d (fp_unaccel_counters fp)).
Proof.
  pose proof insert_ends as [Hh Ht]. split_and!; [split| | |].
  - apply list.NoDup_cons. split; [done|apply (ok_nodup _ _ _ Hok)].
  - intros j. unfold fp'. rewrite (conn_idx_only_list d fp) by apply only_list_insert.
    intros [->|Hj]%elem_of_cons; [done|]. by apply (ok_idx _ _ _ Hok).
  - done.
  - done.
  - cbn. rewrite insert_node_self. split_and!; [done..|].
    pose proof (ok_links _ _ _ Hok) as Hl. pose proof (ok_nodup _ _ _ Hok) as Hnd.
    assert (forall j, j ∈ l -> j <> i) as Hij by (by intros j Hj ->).
    pose proof insert_node_other as Hother.
    destruct l as [|a l'] eqn:El; [done|]. cbn in Hl, Hother |- *. destruct Hl as (_ & Ha & Hl').
    destruct (Hother a) as (_ & -> & ->); [apply Hij; by apply list_elem_of_here|].
    rewrite decide_True by done. split_and!; [done..|].
    revert Hl'. apply dseg_ext. intros j Hj.
    destruct (Hother j) as (_ & -> & ->); [apply Hij; by apply list_elem_of_further|].
    rewrite decide_False; [done|]. intros [-> _]. apply list.NoDup_cons in Hnd. by destruct Hnd.
  - by rewrite insert_node_self.
  - intros j Hj. by apply insert_node_other.
  - unfold fp', upf_accel_sw_aging_ll_node_insert. cbn. rewrite pget_palter. by repeat case_match.
Qed.
End Insert.
End OneList.

(** ** The abstract queue *)

(** Flows with the time of their last packet, the newest first. *)
Abbreviation queue := (list (Z * Z)).

Definition touch i (t : Z) (q : queue) : queue := (i, t) :: filter (fun p => p.1 <> i) q.

Definition is_aged (now period : Z) (p : Z * Z) : bool := negb (u64 (now - p.2) <? period).

(** Drops the aged flows at the old end of the queue. *)
Fixpoint expire (now period : Z) (q : queue) : queue :=
  match q with
  | [] => []
  | p :: q =>
    match expire now period q with
    | [] => if is_aged now period p then [] else [p]
    | q' => p :: q'
    end
  end.

(** The flows a scan removes. *)
Definition expired (now period : Z) (q : queue) : queue := drop (length (expire now period q)) q.

Record aging_rep fp d (q : queue) : Prop := {
  ar_ok : ll_ok fp d q.*1;
  ar_time : forall p, p ∈ q -> node_timestamp (node fp p.1 d) = p.2;
  ar_count : c_current (pget d (fp_unaccel_counters fp)) = u64 (Z.of_nat (length q));
}.

Lemma filter_all {A} (P : A -> Prop) `{forall x, Decision (P x)} (q : list A) :
  (forall x, x ∈ q -> P x) -> filter P q = q.
Proof.
  induction q as [|p q IH]; intros HP; [done|].
  rewrite filter_cons_True by (apply HP; by apply list_elem_of_here).
  f_equal. apply IH. intros x Hx. apply HP. by apply list_elem_of_further.
Qed.

Lemma filter_notin (q : queue) i : i ∉ q.*1 -> filter (fun p => p.1 <> i) q = q.
Proof.
  intros Hni. apply filter_all. intros p Hp <-. apply Hni. by apply list_elem_of_fmap_2.
Qed.

Lemma filter_split (q : queue) i : NoDup q.*1 -> i ∈ q.*1 ->
  exists q1 t q2, q = q1 ++ (i, t) :: q2 /\ filter (fun p => p.1 <> i) q = q1 ++ q2.
Proof.
  intros Hnd ([? t] & -> & Hin)%list_elem_of_fmap. apply list_elem_of_split in Hin as (q1 & q2 & ->).
  exists q1, t, q2. split; [done|]. cbn.
  rewrite fmap_app, fmap_cons in Hnd. apply list.NoDup_app in Hnd as (_ & Hd & Hnd2).
  apply list.NoDup_cons in Hnd2 as [Hn2 _]. cbn in *.
  rewrite list.filter_app, filter_cons_False by naive_solver.
  rewrite (filter_notin q1), (filter_notin q2); [done|done|].
  intros Hi. apply (Hd _ Hi). by apply list_elem_of_here.
Qed.

Lemma u64_inc_dec c : 0 <= c < 2 ^ 64 -> inc64 (dec64 c) = c.
Proof. intros Hc. unfold inc64, dec64, u64. rewrite uwrap_add_l. rewrite Z.sub_add. by apply Z.mod_small. Qed.

Lemma move_in fp d q i t :
  aging_rep fp d q -> i ∈ q.*1 ->
  let fp' := upf_accel_sw_aging_ll_node_move_to_head fp i d t in
  aging_rep fp' d (touch i t q) /\
  c_total (pget d (fp_unaccel_counters fp')) = c_total (pget d (fp_unaccel_counters fp)).
Proof.
  intros [Hok Htime Hcnt] Hin fp'. destruct (ok_idx _ _ _ Hok i Hin) as [Hpos Hci].
  destruct (filter_split q i (ok_nodup _ _ _ Hok) Hin) as (q1 & t0 & q2 & Eq & Ef).
  assert (q.*1 = q1.*1 ++ i :: q2.*1) as El by (by rewrite Eq, fmap_app, fmap_cons).
  destruct (remove_ok fp d _ Hok _ _ _ El) as (Hb & Hok1 & Hc1).
  unfold fp', upf_accel_sw_aging_ll_node_move_to_head.
  pose proof (only_list_remove fp i d) as Hol.
  pose proof (fun j => remove_node_links fp d _ Hok i j Hin) as Hlinks.
  destruct (upf_accel_sw_aging_ll_node_remove fp i d) as [fp1 b]. cbn [fst snd] in *. subst b. cbn [negb].
  pose proof (ok_nodup _ _ _ Hok) as Hnd. rewrite El in Hnd.
  apply list.NoDup_app in Hnd as (_ & Hd & [Hn2 _]%list.NoDup_cons).
  assert (i ∉ (q1 ++ q2).*1) as Hni.
  { rewrite fmap_app. intros [Hi|Hi]%elem_of_app; [|done]. apply (Hd _ Hi). by apply list_elem_of_here. }
  rewrite <- fmap_app in Hok1.
  destruct (insert_ok fp1 d _ Hok1 i t Hpos) as (Hok2 & Ht & Hother & Hc2).
  { by rewrite (conn_idx_only_list d fp). }
  { done. }
  unfold touch. rewrite Ef. split; [split|].
  - done.
  - intros p [->|Hp]%elem_of_cons; [done|].
    assert (p.1 <> i) as Hne by (intros Hi; apply Hni; rewrite <- Hi; by apply list_elem_of_fmap_2).
    rewrite Hother by done. destruct (Hlinks p.1) as (_ & _ & ->). apply Htime. rewrite Eq. set_solver.
  - rewrite Hc2, Hc1. cbn. rewrite Hcnt, u64_inc_dec by apply u64_range.
    rewrite Eq. f_equal. cbn. rewrite !length_app. cbn. lia.
  - rewrite Hc2, Hc1. done.
Qed.

Lemma move_out fp d q i t :
  aging_rep fp d q -> fresh fp d q.*1 i ->
  let fp' := upf_accel_sw_aging_ll_node_move_to_head fp i d t in
  aging_rep fp' d (touch i t q) /\
  c_total (pget d (fp_unaccel_counters fp')) = inc64 (c_total (pget d (fp_unaccel_counters fp))).
Proof.
  intros [Hok Htime Hcnt] Hfresh fp'. unfold fp', upf_accel_sw_aging_ll_node_move_to_head.
  unfold upf_accel_sw_aging_ll_node_remove. rewrite (node_exist_out fp d _ Hok) by done. cbn [negb].
  destruct Hfresh as (Hni & Hpos & Hci & _).
  set (fp1 := upd_unaccel inc_total d fp).
  assert (ll_ok fp1 d q.*1) as Hok1.
  { destruct Hok as [? ? ? ? Hl]. split; try done. revert Hl. by apply dseg_ext. }
  destruct (insert_ok fp1 d _ Hok1 i t Hpos Hci Hni) as (Hok2 & Ht & Hother & Hc2).
  unfold touch. rewrite filter_notin by done. split; [split|].
  - done.
  - intros p [->|Hp]%elem_of_cons; [done|]. rewrite Hother; [by apply Htime|].
    intros <-. apply Hni. by apply list_elem_of_fmap_2.
  - rewrite Hc2. cbn. rewrite pget_palter. cbn. rewrite Hcnt. unfold inc64, u64.
    rewrite uwrap_add_l. f_equal. lia.
  - rewrite Hc2. cbn. by rewrite pget_palter.
Qed.

(** *** The scan *)

Lemma expire_app_last now period q p :
  expire now period (q ++ [p]) = if is_aged now period p then expire now period q else q ++ [p].
Proof.
  induction q as [|p' q IH]; cbn; [by destruct (is_aged now period p)|].
  rewrite IH. destruct (is_aged now period p); [done|]. by destruct q.
Qed.

Lemma expire_split now period q : q = expire now period q ++ expired now period q.
Proof.
  unfold expired. induction q as [|p q IH] using rev_ind; [done|].
  rewrite expire_app_last. destruct (is_aged now period p); [|by rewrite drop_all, app_nil_r].
  rewrite drop_app_le, app_assoc, <- IH; [done|]. rewrite IH at 2. rewrite length_app. lia.
Qed.

Lemma expired_app_last now period q p :
  is_aged now period p = true -> expired now period (q ++ [p]) = expired now period q ++ [p].
Proof.
  intros Hp. unfold expired. rewrite expire_app_last, Hp, drop_app_le; [done|].
  rewrite (expire_split now period q) at 2. rewrite length_app. lia.
Qed.

Lemma expired_aged now period q p : p ∈ expired now period q -> is_aged now period p = true.
Proof.
  induction q as [|p' q IH] using rev_ind; [set_solver|].
  destruct (is_aged now period p') eqn:Hp'.
  - rewrite expired_app_last by done. set_solver.
  - unfold expired. rewrite expire_app_last, Hp', drop_all. set_solver.
Qed.

(** The links the scan follows: from the tail back to the head. *)
Fixpoint pchain fp d (p : Z) l : Prop :=
  match l with [] => True | i :: l => node_prev (node fp i d) = p /\ pchain fp d i l end.

Lemma pchain_app_last fp d p l i :
  pchain fp d p (l ++ [i]) <-> pchain fp d p l /\ node_prev (node fp i d) = last_or p l.
Proof.
  revert p. induction l as [|j l IH]; intros p; cbn; [naive_solver|].
  rewrite IH, last_or_cons. naive_solver.
Qed.
Lemma pchain_ext fp fp' d p l :
  (forall j, node fp' j d = node fp j d) -> pchain fp d p l -> pchain fp' d p l.
Proof.
  intros Hn. revert p. induction l as [|i l IH]; intros p; cbn; [done|]. rewrite Hn. naive_solver.
Qed.
Lemma pchain_app_l fp d p l1 l2 : pchain fp d p (l1 ++ l2) -> pchain fp d p l1.
Proof. revert p. induction l1 as [|i l IH]; intros p; cbn; naive_solver. Qed.
Lemma dseg_pchain fp d p l n : dseg fp d p l n -> pchain fp d p l.
Proof. revert p. induction l as [|i l IH]; intros p; cbn; [done|]. intros (? & _ & ?). auto. Qed.

(** What a scan needs of the list: the links from the tail back. *)
Record tail_rep fp d (q : queue) : Prop := {
  tr_nodup : NoDup q.*1;
  tr_idx : forall i, i ∈ q.*1 -> 0 <= i;
  tr_tail : tail_of fp d = last_or INVALID q.*1;
  tr_links : pchain fp d INVALID q.*1;
  tr_time : forall p, p ∈ q -> node_timestamp (node fp p.1 d) = p.2;
  tr_count : c_current (pget d (fp_unaccel_counters fp)) = u64 (Z.of_nat (length q));
}.

Lemma aging_tail_rep fp d q : aging_rep fp d q -> tail_rep fp d q.
Proof.
  intros [[Hnd Hidx _ Ht Hl] Htime Hcnt]. split; try done.
  - intros i Hi. by apply Hidx.
  - by eapply dseg_pchain.
Qed.

Context `{!RteHashLaws upf_accel_match_5t}.

(** The flows of [R] in direction [d] are deleted: their state is NONE, and a
    connection whose other direction is dead as well has left the table. *)
Record flows_deleted d (R : list Z) fp fp' : Prop := {
  fd_state : forall j e, state fp' j e = if decide (j ∈ R /\ e = d) then STATE_NONE else state fp j e;
  fd_node : forall j e, node fp' j e = node fp j e;
  fd_entry : forall j e, fe_entry (entry fp' j e) = fe_entry (entry fp j e);
  fd_conn : forall j, conn_rest (conn fp' j) = conn_rest (conn fp j);
  fd_ll : fp_sw_aging_ll fp' = fp_sw_aging_ll fp;
  fd_tbl : forall k, rte_hash_lookup (fp_dyn_tbl fp') k =
    if decide (Exists (fun j => key fp j = k /\ state fp j (upf_accel_fp_get_opposite_pkt_type d) = STATE_NONE) R)
    then None else rte_hash_lookup (fp_dyn_tbl fp) k;
}.

Lemma key_deleted d R fp fp' j : flows_deleted d R fp fp' -> key fp' j = key fp j.
Proof. intros Hfd. exact (f_equal (fun c => m8_inner (dc_match c)) (fd_conn _ _ _ _ Hfd j)). Qed.

Lemma flows_deleted_nil d fp : flows_deleted d [] fp fp.
Proof. by split. Qed.

Lemma opposite_ne d : upf_accel_fp_get_opposite_pkt_type d <> d.
Proof. by destruct d. Qed.

Lemma flows_deleted_trans d R1 R2 fp1 fp2 fp3 :
  flows_deleted d R1 fp1 fp2 -> flows_deleted d R2 fp2 fp3 -> flows_deleted d (R1 ++ R2) fp1 fp3.
Proof.
  intros H1 H2. split.
  - intros j e. rewrite (fd_state _ _ _ _ H2), (fd_state _ _ _ _ H1).
    repeat case_decide; set_solver.
  - intros j e. by rewrite (fd_node _ _ _ _ H2), (fd_node _ _ _ _ H1).
  - intros j e. by rewrite (fd_entry _ _ _ _ H2), (fd_entry _ _ _ _ H1).
  - intros j. by rewrite (fd_conn _ _ _ _ H2), (fd_conn _ _ _ _ H1).
  - by rewrite (fd_ll _ _ _ _ H2), (fd_ll _ _ _ _ H1).
  - intros k. rewrite (fd_tbl _ _ _ _ H2), (fd_tbl _ _ _ _ H1).
    assert (Exists (fun j => key fp2 j = k /\ state fp2 j (upf_accel_fp_get_opposite_pkt_type d) = STATE_NONE) R2
      <-> Exists (fun j => key fp1 j = k /\ state fp1 j (upf_accel_fp_get_opposite_pkt_type d) = STATE_NONE) R2) as Hiff.
    { rewrite !Exists_exists. setoid_rewrite (key_deleted _ _ _ _ _ H1). setoid_rewrite (fd_state _ _ _ _ H1).
      pose proof (opposite_ne d). split; intros (j & Hj & ?); exists j; case_decide; naive_solver. }
    rewrite (decide_ext _ _ _ _ Hiff).
    destruct (decide (Exists _ R2)) as [He|He]; [|destruct (decide (Exists _ R1)) as [He1|He1]].
    + rewrite decide_True; [done|]. apply Exists_app. by right.
    + rewrite decide_True; [done|]. apply Exists_app. by left.
    + rewrite decide_False; [done|]. intros [?|?]%Exists_app; done.
Qed.

Definition keyed fp i : Prop := dc_hash (conn fp i) = rte_hash_hash (key fp i).

Lemma conn_rest_set_state i d x fp j : conn_rest (conn (set_state i d x fp) j) = conn_rest (conn fp j).
Proof. apply conn_rest_set_entry. Qed.

Lemma delete_flow_ok fp i d :
  state fp i d <> STATE_NONE -> keyed fp i ->
  exists fp' ret, upf_accel_fp_delete_flow fp i d = Done (fp', ret) /\
    flows_deleted d [i] fp fp' /\ fp_unaccel_counters fp' = fp_unaccel_counters fp /\
    fp_accel_counters fp' = fp_accel_counters fp /\ fp_hw fp' = fp_hw fp /\
    (is_Some (rte_hash_lookup (fp_dyn_tbl fp) (key fp i)) -> ret = DOCA_SUCCESS).
Proof.
  intros Hs Hk. unfold upf_accel_fp_delete_flow.
  set (opp := upf_accel_fp_get_opposite_pkt_type d).
  assert (upf_accel_fp_entry_state_change (state fp i d) STATE_NONE = Done STATE_NONE) as ->
    by (by destruct (state fp i d)). cbn [mbind res_bind].
  set (fp1 := set_state i d STATE_NONE fp).
  assert (forall j, conn_rest (conn fp1 j) = conn_rest (conn fp j)) as Hrest by (intros; apply conn_rest_set_state).
  assert (key fp1 i = key fp i /\ dc_hash (conn fp1 i) = dc_hash (conn fp i)) as [Hkey Hhash]
    by (split; [exact (f_equal (fun c => m8_inner (dc_match c)) (Hrest i))|exact (f_equal dc_hash (Hrest i))]).
  assert (forall j e, state fp1 j e = if decide (j ∈ [i] /\ e = d) then STATE_NONE else state fp j e) as Hstate.
  { intros j e. unfold fp1. rewrite state_set_state. do 2 case_decide; set_solver. }
  assert (forall j e, node fp1 j e = node fp j e) as Hnode by (intros; apply node_set_state).
  assert (forall j e, fe_entry (entry fp1 j e) = fe_entry (entry fp j e)) as Hentry
    by (intros; apply fe_entry_set_state).
  unfold upf_accel_fp_entry_is_alive. rewrite negb_involutive. case_bool_decide as Hopp.
  - do 2 eexists. split; [done|]. split; [|done]. split; try done.
    intros k. rewrite decide_False; [done|]. rewrite Exists_cons, Exists_nil. naive_solver.
  - rewrite Hkey, Hhash, Hk.
    destruct (rte_hash_del_key_with_hash (fp_dyn_tbl fp1) (key fp i) (rte_hash_hash (key fp i)))
      as [tbl pos] eqn:Edel.
    do 2 eexists. split; [done|]. split; [split; try done|].
    2: { split_and!; [done..|]. change (fp_dyn_tbl fp1) with (fp_dyn_tbl fp) in Edel.
         destruct (hash_del_lookup _ _ _ _ Edel) as [-> _]. by intros [? ->]. }
    intros k. cbn. destruct (decide (key fp i = k)) as [<-|Hne].
    + rewrite decide_True; [by apply (hash_del_lookup _ _ _ _ Edel)|]. by apply Exists_cons_hd.
    + rewrite (hash_del_other _ _ _ _ _ Edel Hne), decide_False; [done|].
      rewrite Exists_cons, Exists_nil. naive_solver.
Qed.

Lemma u64_dec_sub c k : dec64 (u64 c - k) = u64 (c - (k + 1)).
Proof. unfold dec64, u64. rewrite <- Z.sub_add_distr, uwrap_sub_l. done. Qed.

Lemma scan_loop_ok q fp d now period fuel :
  (length q < fuel)%nat -> NoDup q.*1 -> (forall i, i ∈ q.*1 -> 0 <= i) -> pchain fp d INVALID q.*1 ->
  (forall p, p ∈ q -> node_timestamp (node fp p.1 d) = p.2) ->
  (forall i, i ∈ q.*1 -> state fp i d <> STATE_NONE /\ keyed fp i) ->
  exists fp', ll_scan_loop fuel fp d now period (last_or INVALID q.*1) =
      Done (fp', last_or INVALID (expire now period q).*1) /\
    flows_deleted d (reverse (expired now period q).*1) fp fp' /\
    c_current (pget d (fp_unaccel_counters fp')) =
      (match expired now period q with
       | [] => c_current (pget d (fp_unaccel_counters fp))
       | R => u64 (c_current (pget d (fp_unaccel_counters fp)) - Z.of_nat (length R)) end).
Proof.
  revert fp fuel. induction q as [|p q IH] using rev_ind; intros fp fuel Hf Hnd Hpos Hch Htime Hst.
  { destruct fuel as [|fuel]; [cbn in Hf; lia|]. exists fp. split_and!; [done|apply flows_deleted_nil|done]. }
  destruct fuel as [|fuel]; [lia|]. rewrite length_app in Hf. cbn in Hf.
  rewrite fmap_app in *. change ([p].*1) with [p.1] in *. apply pchain_app_last in Hch as [Hch Hprev].
  assert (p.1 ∈ q.*1 ++ [p.1]) as Hin by set_solver.
  rewrite last_or_app. change (last_or _ [p.1]) with p.1. cbn [ll_scan_loop].
  rewrite valid_true by auto. cbn [negb].
  rewrite (Htime p) by set_solver. rewrite expire_app_last. unfold is_aged in *.
  destruct (u64 (now - p.2) <? period) eqn:Ha; cbn [negb].
  { exists fp. unfold expired. rewrite expire_app_last. unfold is_aged. rewrite Ha. cbn.
    rewrite drop_all, fmap_app, last_or_app. split_and!; [done|apply flows_deleted_nil|done]. }
  destruct (Hst p.1 Hin) as [Hs Hk].
  destruct (delete_flow_ok fp p.1 d Hs Hk) as (fp1 & ret & -> & Hdel & Hcnt & _). cbn [mbind res_bind].
  set (fp2 := upd_unaccel dec_current d _).
  assert (flows_deleted d [p.1] fp fp2) as Hdel2 by (unfold fp2; destruct Hdel; destruct ret; by split).
  assert (c_current (pget d (fp_unaccel_counters fp2)) = dec64 (c_current (pget d (fp_unaccel_counters fp)))) as Hc2.
  { unfold fp2. rewrite <- Hcnt. destruct ret; cbn; by rewrite ?pget_palter. }
  apply list.NoDup_app in Hnd as (Hnd & Hd & _).
  rewrite (fd_node _ _ _ _ Hdel2), Hprev.
  destruct (IH fp2 fuel) as (fp' & -> & Hdel' & Hc').
  - lia.
  - done.
  - intros i Hi. apply Hpos. set_solver.
  - revert Hch. apply pchain_ext. intros j. by rewrite (fd_node _ _ _ _ Hdel2).
  - intros p' Hp'. rewrite (fd_node _ _ _ _ Hdel2). apply Htime. set_solver.
  - intros i Hi. rewrite (fd_state _ _ _ _ Hdel2), decide_False.
    + destruct (Hst i) as [? Hki]; [set_solver|]. split; [done|]. unfold keyed.
      rewrite (key_deleted _ _ _ _ _ Hdel2), <- Hki. exact (f_equal dc_hash (fd_conn _ _ _ _ Hdel2 i)).
    + intros [->%list_elem_of_singleton _]. apply (Hd _ Hi). set_solver.
  - exists fp'. rewrite expired_app_last by (unfold is_aged; by rewrite Ha). split_and!; [done| |].
    + rewrite fmap_app, reverse_app. by apply (flows_deleted_trans d [p.1] _ fp fp2).
    + rewrite Hc', Hc2. destruct (expired now period q) as [|p0 R] eqn:ER; cbn.
      * done.
      * unfold dec64, u64. rewrite uwrap_sub_l. f_equal. rewrite length_app. cbn. lia.
Qed.

(** ** Theorems *)

(** The entry state machine: a change is carried out exactly on the
    transitions of [entry_step] and fires the assert on every other one; an entry
    gets established only through PENDING_ACCELERATION, and an established entry
    leaves that condition only when it is deleted. *)
Theorem entry_state_machine (s s' : upf_accel_entry_state) :
  (upf_accel_fp_entry_state_change s s' = Done s' <-> entry_step s s') /\
  (upf_accel_fp_entry_state_change s s' = Crash AssertFail <-> ~ entry_step s s') /\
  (entry_step s s' -> upf_accel_fp_entry_is_established s' = true ->
     s' = STATE_PENDING_ACCELERATION \/ upf_accel_fp_entry_is_established s = true) /\
  (entry_step s s' -> upf_accel_fp_entry_is_established s = true ->
     s' = STATE_NONE \/ upf_accel_fp_entry_is_established s' = true).
Proof.
  destruct (state_change_step s s' _ eq_refl) as [[-> Hs]|[-> Hs]]; split_and!; try done.
  all: try (split; by auto).
  all: intros Hst; inversion Hst; subst; vm_compute; naive_solver.
Qed.

(** Moving a flow to the head of the aging list implements [touch] on the
    queue the list represents, whether the flow was in the list or is new: the
    links, both ends, the time stamps and the counter of current flows are right
    afterwards, the counter of all flows grows exactly for a new flow, and
    nothing but the list of this direction changes, so that the list of the
    other direction still represents its queue. *)
Theorem move_to_head_refines fp d (q q' : queue) i (t : Z) :
  aging_rep fp d q -> aging_rep fp (upf_accel_fp_get_opposite_pkt_type d) q' ->
  i ∈ q.*1 \/ fresh fp d q.*1 i ->
  let fp' := upf_accel_sw_aging_ll_node_move_to_head fp i d t in
  aging_rep fp' d (touch i t q) /\ aging_rep fp' (upf_accel_fp_get_opposite_pkt_type d) q' /\
  only_list d fp fp' /\
  c_total (pget d (fp_unaccel_counters fp')) =
    (if decide (i ∈ q.*1) then c_total (pget d (fp_unaccel_counters fp))
     else inc64 (c_total (pget d (fp_unaccel_counters fp)))).
Proof.
  intros Hq [Hok' Ht' Hc'] Hi fp'. pose proof (only_list_move fp i d t) as Hol. fold fp' in Hol.
  assert (aging_rep fp' (upf_accel_fp_get_opposite_pkt_type d) q') as Hother.
  { pose proof (opposite_ne d). split; [by eapply ll_ok_other|..].
    - intros p Hp. rewrite (ol_node _ _ _ Hol) by done. by apply Ht'.
    - by rewrite (ol_unaccel _ _ _ Hol). }
  destruct Hi as [Hin|Hfresh].
  - rewrite decide_True by done. by destruct (move_in fp d q i t Hq Hin).
  - rewrite decide_False by apply Hfresh. by destruct (move_out fp d q i t Hq Hfresh).
Qed.

(** The aging period the scan computes. *)
Definition period_of fp (tsc_hz : Z) : Z := u64 (cfg_sw_aging_time_sec (fp_cfg fp) * tsc_hz).

Lemma scan_ok fp d q now hz fuel (R := expired now (period_of fp hz) q) :
  tail_rep fp d q -> (forall i, i ∈ q.*1 -> state fp i d <> STATE_NONE /\ keyed fp i) ->
  (length q < fuel)%nat ->
  exists fp1 fp', upf_accel_sw_aging_ll_scan fuel fp d now hz = Done fp' /\
    flows_deleted d (reverse R.*1) fp fp1 /\
    fp' = set_tail d (last_or INVALID (expire now (period_of fp hz) q).*1) fp1 /\
    tail_rep fp' d (expire now (period_of fp hz) q).
Proof.
  intros [Hnd Hidx Htail Hl Htime Hcnt] Hst Hf. unfold upf_accel_sw_aging_ll_scan. fold (period_of fp hz).
  rewrite Htail.
  destruct (scan_loop_ok q fp d now (period_of fp hz) fuel) as (fp1 & -> & Hdel & Hc); [done..|].
  cbn [mbind res_bind]. do 2 eexists. split_and!; [done..|].
  set (q1 := expire now (period_of fp hz) q) in *. fold R in Hdel, Hc.
  assert (q = q1 ++ R) as Eq by apply expire_split.
  assert (forall p, p ∈ q1 -> p ∈ q) as Hsub by (rewrite Eq; set_solver).
  split.
  - rewrite Eq, fmap_app in Hnd. by apply list.NoDup_app in Hnd as [? _].
  - intros i Hi. apply Hidx. rewrite Eq, fmap_app. set_solver.
  - unfold tail_of, set_tail. cbn. by rewrite pget_pset.
  - rewrite Eq, fmap_app in Hl. apply pchain_app_l in Hl. revert Hl. apply pchain_ext.
    intros j. exact (fd_node _ _ _ _ Hdel j d).
  - intros p Hp. change (node_timestamp (node fp1 p.1 d) = p.2).
    rewrite (fd_node _ _ _ _ Hdel). by apply Htime, Hsub.
  - change (c_current (pget d (fp_unaccel_counters fp1)) = u64 (Z.of_nat (length q1))).
    rewrite Hc, Hcnt. destruct R as [|p0 R0]; [by rewrite Eq, app_nil_r|].
    unfold u64. rewrite uwrap_sub_l. f_equal. rewrite Eq, length_app. lia.
Qed.

(** C19: a scan terminates and implements [expire] on the queue: the aged flows at
    the old end and no others are deleted (state NONE, and the connection leaves
    the table when its other direction is dead too), the counter of current flows
    is right afterwards, and the links from the tail back represent the queue
    that is left. *)
Theorem scan_refines fp d (q : queue) (now hz : Z) (fuel : nat) :
  tail_rep fp d q -> (forall i, i ∈ q.*1 -> state fp i d <> STATE_NONE /\ keyed fp i) ->
  (length q < fuel)%nat ->
  exists fp', upf_accel_sw_aging_ll_scan fuel fp d now hz = Done fp' /\
    tail_rep fp' d (expire now (period_of fp hz) q) /\
    (forall j e, state fp' j e =
       if decide (j ∈ (expired now (period_of fp hz) q).*1 /\ e = d) then STATE_NONE else state fp j e) /\
    (forall k, rte_hash_lookup (fp_dyn_tbl fp') k =
       if decide (Exists (fun j => key fp j = k /\
                    state fp j (upf_accel_fp_get_opposite_pkt_type d) = STATE_NONE)
                    (expired now (period_of fp hz) q).*1)
       then None else rte_hash_lookup (fp_dyn_tbl fp) k).
Proof.
  intros Hrep Hst Hf. destruct (scan_ok fp d q now hz fuel Hrep Hst Hf) as (fp1 & fp' & E & Hdel & -> & Hrep').
  eexists. split_and!; [done..| |].
  - intros j e. etrans; [exact (fd_state _ _ _ _ Hdel j e)|]. apply decide_ext. by rewrite elem_of_reverse.
  - intros k. etrans; [exact (fd_tbl _ _ _ _ Hdel k)|]. apply decide_ext. rewrite !list.Exists_exists.
    split; intros (j & Hj & ?); exists j; by rewrite elem_of_reverse in *.
Qed.

(** Times do not increase towards the old end. *)
Definition newest_first (q : queue) : Prop := StronglySorted (fun p p' => p'.2 <= p.2) q.

Lemma newest_first_filter (P : Z * Z -> Prop) `{forall p, Decision (P p)} q :
  newest_first q -> newest_first (filter P q).
Proof.
  induction 1 as [|p q Hs IH Hp]; [constructor|]. rewrite filter_cons. case_decide; [|done].
  constructor; [done|]. rewrite list.Forall_forall in Hp |- *. intros p' [_ Hp']%list_elem_of_filter. auto.
Qed.

Lemma touch_sorted i t q : newest_first q -> (forall p, p ∈ q -> p.2 <= t) -> newest_first (touch i t q).
Proof.
  intros Hs Ht. constructor; [by apply newest_first_filter|].
  rewrite list.Forall_forall. intros p' [_ Hp']%list_elem_of_filter. cbn. auto.
Qed.

Lemma expire_sorted now period q :
  newest_first q -> (forall p, p ∈ q -> 0 <= p.2 <= now) -> now < 2 ^ 64 ->
  expire now period q = filter (fun p => now - p.2 < period) q.
Proof.
  intros Hs Hr Hn. induction q as [|p q IH] using rev_ind; [done|].
  assert (u64 (now - p.2) = now - p.2) as Hu.
  { apply u64_small. assert (0 <= p.2 <= now) by (apply Hr; set_solver). lia. }
  rewrite expire_app_last, list.filter_app. unfold is_aged. rewrite Hu.
  apply StronglySorted_app in Hs as (Hpq & Hs & _).
  destruct (Z.ltb_spec (now - p.2) period) as [Ha|Ha]; cbn [negb].
  - rewrite filter_cons_True by done. f_equal. symmetry. apply filter_all.
    intros p' Hp'. assert (p.2 <= p'.2) by (apply Hpq; set_solver). lia.
  - rewrite filter_cons_False by lia. rewrite app_nil_r. apply IH; [done|set_solver].
Qed.

(** A scan ages exactly the flows whose time is over: when the list is
    ordered by time, which [move_to_head] keeps, and the clock has not run
    backwards, a flow of the list is deleted if and only if its last packet is at
    least the configured aging time old, and the flows left are the others in
    their order. *)
Theorem scan_ages_exactly fp d (q : queue) (now hz : Z) (fuel : nat) :
  aging_rep fp d q -> (forall i, i ∈ q.*1 -> state fp i d <> STATE_NONE /\ keyed fp i) ->
  newest_first q -> (forall p, p ∈ q -> 0 <= p.2 <= now) -> now < 2 ^ 64 -> (length q < fuel)%nat ->
  exists fp', upf_accel_sw_aging_ll_scan fuel fp d now hz = Done fp' /\
    (forall i t, (i, t) ∈ q ->
       state fp' i d = if period_of fp hz <=? now - t then STATE_NONE else state fp i d) /\
    tail_rep fp' d (filter (fun p => now - p.2 < period_of fp hz) q) /\
    newest_first (filter (fun p => now - p.2 < period_of fp hz) q).
Proof.
  intros Hrep Hst Hs Hr Hn Hf.
  destruct (scan_ok fp d q now hz fuel (aging_tail_rep _ _ _ Hrep) Hst Hf) as (fp1 & fp' & E & Hdel & -> & Hrep').
  rewrite expire_sorted in E, Hrep' by done. eexists. split; [done|]. split; [|split; [done|by apply newest_first_filter]].
  intros i t Hin. etrans; [exact (fd_state _ _ _ _ Hdel i d)|].
  pose proof (expire_split now (period_of fp hz) q) as Eq.
  destruct (Z.leb_spec (period_of fp hz) (now - t)) as [Ha|Ha].
  - rewrite decide_True; [done|]. split; [|done]. rewrite elem_of_reverse.
    rewrite Eq in Hin. apply elem_of_app in Hin as [Hin|Hin]; [|by apply (list_elem_of_fmap_2 fst _ (i, t))].
    rewrite expire_sorted in Hin by done. apply list_elem_of_filter in Hin as [Hlt _]. cbn in Hlt. lia.
  - rewrite decide_False; [done|]. intros [Hrev _]. rewrite elem_of_reverse in Hrev.
    apply list_elem_of_fmap in Hrev as ([i' t'] & -> & Hin'). cbn in *.
    pose proof (expired_aged _ _ _ _ Hin') as Haged. unfold is_aged in Haged. cbn in Haged.
    assert ((i', t') ∈ q) as Hin2 by (rewrite Eq; set_solver).
    assert (t' = t) as ->.
    { pose proof (ar_time _ _ _ Hrep _ Hin). pose proof (ar_time _ _ _ Hrep _ Hin2). cbn in *. congruence. }
    pose proof (Hr _ Hin). cbn in *. rewrite u64_small in Haged by lia. lia.
Qed.

(** A scan that ages every flow of a non-empty list leaves the list broken:
    the tail is reset but the head still names the flow that was newest, so that
    the list does not represent the empty queue. *)
Theorem scan_keeps_stale_head fp d (q : queue) (now hz : Z) (fuel : nat) :
  aging_rep fp d q -> (forall i, i ∈ q.*1 -> state fp i d <> STATE_NONE /\ keyed fp i) ->
  (length q < fuel)%nat -> q <> [] -> expire now (period_of fp hz) q = [] ->
  exists fp', upf_accel_sw_aging_ll_scan fuel fp d now hz = Done fp' /\
    tail_of fp' d = INVALID /\ head_of fp' d = hd_or INVALID q.*1 /\ head_of fp' d <> INVALID /\
    ~ aging_rep fp' d [].
Proof.
  intros Hrep Hst Hf Hne He.
  destruct (scan_ok fp d q now hz fuel (aging_tail_rep _ _ _ Hrep) Hst Hf) as (fp1 & fp' & E & Hdel & -> & Hrep').
  rewrite He in *. eexists. split; [done|].
  assert (head_of (set_tail d (last_or INVALID []) fp1) d = hd_or INVALID q.*1) as Hh.
  { rewrite <- (ok_head _ _ _ (ar_ok _ _ _ Hrep)). unfold head_of, set_tail. cbn. rewrite pget_pset. cbn.
    by rewrite (fd_ll _ _ _ _ Hdel). }
  assert (hd_or INVALID q.*1 <> INVALID) as Hv.
  { destruct (hd_range fp d _ (ar_ok _ _ _ Hrep) q.*1) as [[Hq _]|[_ Hpos]]; [done|by destruct q|].
    unfold INVALID in *. lia. }
  change (last_or INVALID [].*1) with (last_or INVALID []) in *. rewrite Hh.
  split_and!; [apply (tr_tail _ _ _ Hrep')|done..|].
  intros [Hok0 _ _]. by rewrite (ok_head _ _ _ Hok0) in Hh.
Qed.
End ListFacts.

(** ** Witnesses *)

Definition sim_cfg : upf_accel_config :=
  {| cfg_pdrs := []; cfg_sw_aging_time_sec := 15; cfg_dpi_threshold := 2 |}.

(** A connection with both directions handled in software. *)
Definition sim_entry : upf_accel_flow_entry :=
  {| fe_entry := None; fe_ext_entry := None; fe_state := STATE_UNACCELERATED;
     fe_node := {| node_prev := INVALID; node_next := INVALID; node_timestamp := 0 |} |}.
Definition sim_conn (i : Z) : upf_accel_dyn_entry_ctx :=
  {| dyn_zero with dc_entries := PerDir sim_entry sim_entry; dc_conn_idx := i |}.
Definition sim_fp0 : upf_accel_fp_data := set_conn 0 (sim_conn 0) (sim_fp sim_cfg 4).
Definition sim_fp1 : upf_accel_fp_data := upf_accel_sw_aging_ll_node_move_to_head sim_fp0 0 PLAIN 100.

Lemma sim_rep0 d : aging_rep sim_fp0 d [].
Proof. split; [split|..]; try (by destruct d); [constructor|set_solver..]. Qed.
Lemma sim_fresh0 : fresh sim_fp0 PLAIN [] 0.
Proof. split; [set_solver|]. by split_and!. Qed.
Lemma sim_rep1 : aging_rep sim_fp1 PLAIN [(0, 100)].
Proof. apply (move_out sim_fp0 PLAIN [] 0 100 (sim_rep0 PLAIN) sim_fresh0). Qed.
Lemma sim_alive1 i : i ∈ [(0, 100)].*1 -> state sim_fp1 i PLAIN <> STATE_NONE /\ keyed sim_fp1 i.
Proof. intros ->%list_elem_of_singleton. by split. Qed.

Lemma move_to_head_refines_witness : aging_rep sim_fp1 PLAIN [(0, 100)].
Proof.
  exact (proj1 (move_to_head_refines sim_fp0 PLAIN [] [] 0 100 (sim_rep0 PLAIN) (sim_rep0 TUNNELED)
    (or_intror sim_fresh0))).
Defined.

Lemma scan_refines_witness :
  exists fp', upf_accel_sw_aging_ll_scan 2 sim_fp1 PLAIN 114 1 = Done fp' /\
    tail_rep fp' PLAIN [(0, 100)].
Proof.
  destruct (scan_refines sim_fp1 PLAIN [(0, 100)] 114 1 2 (aging_tail_rep _ _ _ sim_rep1) sim_alive1)
    as (fp' & E & Hrep & _); [cbn; lia|]. exists fp'. split; [exact E|exact Hrep].
Defined.

Lemma scan_ages_exactly_witness :
  exists fp', upf_accel_sw_aging_ll_scan 2 sim_fp1 PLAIN 115 1 = Done fp' /\
    state fp' 0 PLAIN = STATE_NONE /\ tail_rep fp' PLAIN [].
Proof.
  destruct (scan_ages_exactly sim_fp1 PLAIN [(0, 100)] 115 1 2 sim_rep1 sim_alive1)
    as (fp' & E & Hst & Hrep & _).
  - repeat constructor.
  - intros p ->%list_elem_of_singleton. cbn. lia.
  - reflexivity.
  - cbn. lia.
  - exists fp'. split; [exact E|]. split; [|exact Hrep].
    rewrite (Hst 0 100) by (by apply list_elem_of_singleton). reflexivity.
Defined.

Lemma scan_keeps_stale_head_witness :
  exists fp', upf_accel_sw_aging_ll_scan 2 sim_fp1 PLAIN 115 1 = Done fp' /\
    tail_of fp' PLAIN = INVALID /\ head_of fp' PLAIN = 0.
Proof.
  destruct (scan_keeps_stale_head sim_fp1 PLAIN [(0, 100)] 115 1 2 sim_rep1 sim_alive1)
    as (fp' & E & Ht & Hh & _); [cbn; lia|done|reflexivity|].
  exists fp'. split; [exact E|]. split; [exact Ht|exact Hh].
Defined.
