(* ===== verification/UpfAccel.v ===== *)
(** * UpfAccel: hardware offload of the UPF fast path,
      src/applications/upf_accel/upf_accel_flow_processing.c

    The functions that build the hardware match of a flow and ask DOCA Flow to
    add it, [upf_accel_fp_flow_accel] that decides when a flow moves to hardware,
    and the callbacks through which DOCA Flow reports additions, aging and
    removals. DOCA Flow itself is the parameter [DocaFlow]; which callbacks
    happen, and in which order, is up to the caller of [upf_accel_callbacks].

    An index of the extension table that [rte_hash_add_key_with_hash] reports as
    negative is used as an array index: [Crash OutOfBounds]. *)

From S2P Require Import Prelude Wire PacketParser UpfTypes UpfSim UpfMatch UpfAging.

(** Host to network order, on the little-endian targets. *)
Definition rte_cpu_to_be_16 (x : Z) : Z := le_combine (be_split 2 x).
Definition rte_cpu_to_be_32 (x : Z) : Z := le_combine (be_split 4 x).

Inductive doca_flow_entry_op := ENTRY_OP_ADD | ENTRY_OP_DEL | ENTRY_OP_UPD | ENTRY_OP_AGED.

(** One call of the entry callback; [cb_ok] is DOCA_FLOW_ENTRY_STATUS_SUCCESS. *)
Record cb_event := {
  cb_entry : Z;
  cb_queue : Z;
  cb_ok : bool;
  cb_op : doca_flow_entry_op;
  cb_ctx : user_ctx;
}.

(** The L4 ports of a hardware match, for the protocols the switches know. *)
Definition hw_l4 (proto src dst : Z) : res l4_port :=
  if (proto =? DOCA_FLOW_PROTO_TCP) || (proto =? DOCA_FLOW_PROTO_UDP)
  then Done {| l4_src_port := rte_cpu_to_be_16 src; l4_dst_port := rte_cpu_to_be_16 dst |}
  else Crash AssertFail.

Section Accel.
Context `{!RteHash upf_accel_match_5t, !RteHash upf_accel_match_extension, !DocaFlow}.
Implicit Types (fp : upf_accel_fp_data) (i x : Z) (d : dir).

(** ** Adding entries: the request each function passes to
    [doca_flow_pipe_basic_add_entry] *)

Definition upf_accel_pipe_8t_ipv4_accel (port queue : Z) (m : upf_accel_match_8t) (pdr_id i : Z)
    : res add_request :=
  let out := m8_outer m in let inn := m8_inner m in
  let qfi := negb (mt_qfi out =? 0) in
  l4 ← hw_l4 (ip_proto inn) (ue_port inn) (extern_port inn);
  Done {| rq_queue := queue; rq_port := port;
          rq_pipe := if qfi then PIPE_8T_IPV4 else PIPE_7T_IPV4;
          rq_match :=
            {| hw_match_zero with
               hw_gtp_ext_psc_qfi := if qfi then mt_qfi out else 0;
               hw_outer_ip4_src := rte_cpu_to_be_32 (ip_v4 (te_ip out));
               hw_gtp_teid := rte_cpu_to_be_32 (te_id out);
               hw_inner_ip4_src := rte_cpu_to_be_32 (ip_v4 (ue_ip inn));
               hw_inner_ip4_dst := rte_cpu_to_be_32 (ip_v4 (extern_ip inn));
               hw_inner_next_proto := ip_proto inn;
               hw_inner_l4 := l4 |};
          rq_meta := rte_cpu_to_be_32 pdr_id; rq_ctx := CtxDyn i |}.

Definition upf_accel_pipe_8t_ipv6_accel (port queue : Z) (m : upf_accel_match_8t)
    (pdr_id metadata_value i : Z) : res add_request :=
  let out := m8_outer m in let inn := m8_inner m in
  l4 ← hw_l4 (ip_proto inn) (ue_port inn) (extern_port inn);
  Done {| rq_queue := queue; rq_port := port;
          rq_pipe := if negb (mt_qfi out =? 0) then PIPE_8T_IPV6 else PIPE_7T_IPV6;
          rq_match :=
            {| hw_match_zero with
               hw_pkt_meta := metadata_value;
               hw_outer_ip4_src := rte_cpu_to_be_32 (ip_v4 (te_ip out));
               hw_inner_ip6_dst := extern_ip inn;
               hw_inner_next_proto := ip_proto inn;
               hw_inner_l4 := l4 |};
          rq_meta := rte_cpu_to_be_32 pdr_id; rq_ctx := CtxDyn i |}.

Definition upf_accel_pipe_8t_ipv6_ext_accel (port queue : Z) (m : upf_accel_match_extension)
    (metadata_value x : Z) : add_request :=
  let qfi := negb (ext_qfi m =? 0) in
  {| rq_queue := queue; rq_port := port;
     rq_pipe := if qfi then PIPE_8T_IPV6_EXT else PIPE_7T_IPV6_EXT;
     rq_match :=
       {| hw_match_zero with
          hw_gtp_ext_psc_qfi := if qfi then Z.land (ext_qfi m) 0x3f else 0;
          hw_gtp_teid := rte_cpu_to_be_32 (ext_te_id m);
          hw_inner_ip6_src := ext_ue_ip m |};
     rq_meta := metadata_value; rq_ctx := CtxExt x |}.

Definition upf_accel_pipe_5t_ipv4_accel (port queue : Z) (m : upf_accel_match_5t) (pdr_id i : Z)
    : res add_request :=
  l4 ← hw_l4 (ip_proto m) (extern_port m) (ue_port m);
  Done {| rq_queue := queue; rq_port := port; rq_pipe := PIPE_5T_IPV4;
          rq_match :=
            {| hw_match_zero with
               hw_outer_ip4_dst := rte_cpu_to_be_32 (ip_v4 (ue_ip m));
               hw_outer_ip4_src := rte_cpu_to_be_32 (ip_v4 (extern_ip m));
               hw_outer_next_proto := ip_proto m;
               hw_outer_l4 := l4 |};
          rq_meta := rte_cpu_to_be_32 pdr_id; rq_ctx := CtxDyn i |}.

Definition upf_accel_pipe_5t_ipv6_accel (port queue : Z) (m : upf_accel_match_5t)
    (pdr_id metadata_value i : Z) : res add_request :=
  l4 ← hw_l4 (ip_proto m) (extern_port m) (ue_port m);
  Done {| rq_queue := queue; rq_port := port; rq_pipe := PIPE_5T_IPV6;
          rq_match :=
            {| hw_match_zero with
               hw_pkt_meta := metadata_value;
               hw_outer_ip6_src := extern_ip m;
               hw_outer_next_proto := ip_proto m;
               hw_outer_l4 := l4 |};
          rq_meta := rte_cpu_to_be_32 pdr_id; rq_ctx := CtxDyn i |}.

Definition upf_accel_pipe_5t_ipv6_ext_accel (port queue : Z) (m : upf_accel_match_extension)
    (metadata_value x : Z) : add_request :=
  {| rq_queue := queue; rq_port := port; rq_pipe := PIPE_5T_IPV6_EXT;
     rq_match := {| hw_match_zero with hw_outer_ip6_dst := ext_ue_ip m |};
     rq_meta := metadata_value; rq_ctx := CtxExt x |}.

(** ** Accelerating a flow *)

(** The extension entry an IPv6 flow needs: found, created, or ([inl]) on its way
    out of the hardware. A new entry keeps the state and reference count its slot has. *)
Definition ext_entry_get fp (m : upf_accel_match_8t) : res (unit + upf_accel_fp_data * Z) :=
  let ext_match := upf_accel_fp_extension_match_extract m in
  match rte_hash_lookup (fp_dyn_ext_tbl fp) ext_match with
  | None =>
    let hash := rte_hash_hash ext_match in
    let '(tbl, pos) := rte_hash_add_key_with_hash (fp_dyn_ext_tbl fp) ext_match hash in
    match pos with
    | None => Crash OutOfBounds
    | Some x =>
      let c := ext fp x in
      let fp := set_ext_tbl tbl fp in
      Done (inr (set_ext x {| c with xc_match := ext_match; xc_hash := hash;
                                     xc_md_value := upf_accel_match_chain_md_calc x (fp_queue_id fp) |} fp, x))
    end
  | Some x =>
    if bool_decide (xc_state (ext fp x) = STATE_PENDING_DEACCELERATION) then Done (inl tt)
    else Done (inr (fp, x))
  end.

(** [upf_accel_fp_entry_state_change(&conn->dyn_ctx.entries[d].state, s)] *)
Definition entry_state_to fp i d (s : upf_accel_entry_state) : res upf_accel_fp_data :=
  s ← upf_accel_fp_entry_state_change (state fp i d) s; Done (set_state i d s fp).

Definition upf_accel_fp_flow_accel fp (port : Z) d (m : upf_accel_match_8t) i
    : res (upf_accel_fp_data * doca_error_t) :=
  if upf_accel_fp_entry_is_established (state fp i d) then Done (fp, DOCA_ERROR_ALREADY_EXIST)
  else if upf_accel_fp_entry_is_alive (state fp i d)
          && (u64 (pget d (dc_cnt_pkts (conn fp i)) + 1) <? cfg_dpi_threshold (fp_cfg fp))
  then fp ← entry_state_to fp i d STATE_UNACCELERATED; Done (fp, DOCA_SUCCESS)
  else
    let pdr := pget d (dc_pdr_id (conn fp i)) in
    let queue := fp_queue_id fp in
    r ← (match m5_version (m8_inner m) with
         | L3_IP6 =>
           g ← ext_entry_get fp m;
           match g with
           | inl _ => Done None
           | inr (fp, x) =>
             let e := entry fp i d in
             let fp := set_entry i d {| e with fe_ext_entry := Some x |} fp in
             let c := ext fp x in
             let fp := set_ext x {| c with xc_ref_cnt := u32 (xc_ref_cnt c + 1) |} fp in
             rq ← (match d with
                   | TUNNELED => upf_accel_pipe_8t_ipv6_accel port queue m pdr (xc_md_value (ext fp x)) i
                   | PLAIN => upf_accel_pipe_5t_ipv6_accel port queue (m8_inner m) pdr
                                (xc_md_value (ext fp x)) i
                   end);
             Done (Some (fp, rq))
           end
         | _ =>
           rq ← (match d with
                 | TUNNELED => upf_accel_pipe_8t_ipv4_accel port queue m pdr i
                 | PLAIN => upf_accel_pipe_5t_ipv4_accel port queue (m8_inner m) pdr i
                 end);
           Done (Some (fp, rq))
         end);
    match r with
    | None => fp ← entry_state_to fp i d STATE_UNACCELERATED; Done (fp, DOCA_SUCCESS)
    | Some (fp, rq) =>
      let '(h, (ret, handle)) := doca_flow_pipe_basic_add_entry (fp_hw fp) rq in
      let fp := set_hw h fp in
      match ret with
      | DOCA_SUCCESS =>
        let e := entry fp i d in
        let fp := set_entry i d {| e with fe_entry := Some handle |} fp in
        fp ← entry_state_to fp i d STATE_PENDING_ACCELERATION;
        Done ((upf_accel_sw_aging_ll_node_remove fp i d).1, DOCA_SUCCESS)
      | _ => Done (upd_failed (fun c => inc_total (inc_current c)) d fp, DOCA_ERROR_FULL)
      end
    end.

(** ** Callbacks *)

Definition upf_accel_fp_delete_extension_entry fp x : res (upf_accel_fp_data * doca_error_t) :=
  s ← upf_accel_fp_entry_state_change (xc_state (ext fp x)) STATE_NONE;
  let c := ext fp x in
  let '(tbl, pos) := rte_hash_del_key_with_hash (fp_dyn_ext_tbl fp) (xc_match c) (xc_hash c) in
  let fp := set_ext_tbl tbl fp in
  Done (set_ext x {| c with xc_state := s |} fp,
        match pos with None => DOCA_ERROR_INVALID_VALUE | Some _ => DOCA_SUCCESS end).

Definition upf_accel_dyn_entry_cb_get_pkt_type fp i (entry_ptr : Z) : option dir :=
  if bool_decide (Some entry_ptr = fe_entry (entry fp i TUNNELED)) then Some TUNNELED
  else if bool_decide (Some entry_ptr = fe_entry (entry fp i PLAIN)) then Some PLAIN
  else None.

Definition upf_accel_dyn_entry_cb_add fp i (ok : bool) d : res upf_accel_fp_data :=
  let fp := if negb ok
            then upd_failed (fun c => inc_total (inc_current c)) d (upd_accel inc_accel_errors d fp)
            else fp in
  fp ← entry_state_to fp i d STATE_ACCELERATED;
  let fp := upd_accel (fun c => inc_total (inc_current c)) d fp in
  match fe_ext_entry (entry fp i d) with
  | None => Done fp
  | Some x =>
    let c := ext fp x in
    if negb (upf_accel_fp_entry_is_alive (xc_state c)) then
      s ← upf_accel_fp_entry_state_change (xc_state c) STATE_PENDING_ACCELERATION;
      let port := dc_port_id (conn fp i) in
      let rq := match d with
                | TUNNELED => upf_accel_pipe_8t_ipv6_ext_accel port (fp_queue_id fp) (xc_match c)
                                (xc_md_value c) x
                | PLAIN => upf_accel_pipe_5t_ipv6_ext_accel port (fp_queue_id fp) (xc_match c)
                             (xc_md_value c) x
                end in
      let '(h, (ret, handle)) := doca_flow_pipe_basic_add_entry (fp_hw fp) rq in
      let fp := set_hw h fp in
      if is_success ret then Done (set_ext x {| c with xc_state := s; xc_entry := Some handle |} fp)
      else Done (upd_accel inc_accel_errors d (set_ext x {| c with xc_state := s |} fp))
    else Done fp
  end.

Definition upf_accel_dyn_entry_cb_age fp i (entry_ptr : Z) (ok : bool) (queue : Z) d
    : res upf_accel_fp_data :=
  let ext_entry := fe_ext_entry (entry fp i d) in
  let fp := if negb ok then upd_accel inc_aging_errors d fp else fp in
  fp ← entry_state_to fp i d STATE_PENDING_DEACCELERATION;
  '(fp, to_delete) ←
    (match ext_entry with
     | None => Done (fp, Some entry_ptr)
     | Some x =>
       let c := ext fp x in
       _ ← assert_ (negb (xc_ref_cnt c =? 0));
       let cnt := u32 (xc_ref_cnt c - 1) in
       if cnt =? 0 then
         s ← upf_accel_fp_entry_state_change (xc_state c) STATE_PENDING_DEACCELERATION;
         Done (set_ext x {| c with xc_ref_cnt := cnt; xc_state := s; xc_del_next := Some entry_ptr |} fp,
               xc_entry c)
       else Done (set_ext x {| c with xc_ref_cnt := cnt |} fp, Some entry_ptr)
     end);
  let '(h, ret) := doca_flow_pipe_remove_entry (fp_hw fp) queue to_delete in
  let fp := set_hw h fp in
  Done (if negb (is_success ret) then upd_accel inc_aging_errors d fp else fp).

Definition upf_accel_dyn_entry_cb_del fp i (ok : bool) d : res upf_accel_fp_data :=
  let fp := if negb ok then upd_accel inc_del_errors d fp else fp in
  let e := entry fp i d in
  let fp := set_entry i d {| e with fe_ext_entry := None |} fp in
  '(fp, ret) ← upf_accel_fp_delete_flow fp i d;
  Done (if negb (is_success ret) then upd_accel inc_del_errors d fp else upd_accel dec_current d fp).

Definition upf_accel_dyn_entry_cb fp i (e : cb_event) : res upf_accel_fp_data :=
  match upf_accel_dyn_entry_cb_get_pkt_type fp i (cb_entry e) with
  | None => Done fp
  | Some d =>
    match cb_op e with
    | ENTRY_OP_ADD => upf_accel_dyn_entry_cb_add fp i (cb_ok e) d
    | ENTRY_OP_AGED => upf_accel_dyn_entry_cb_age fp i (cb_entry e) (cb_ok e) (cb_queue e) d
    | ENTRY_OP_DEL => upf_accel_dyn_entry_cb_del fp i (cb_ok e) d
    | ENTRY_OP_UPD => Done fp
    end
  end.

(** The direction an extension entry belongs to. *)
Definition ext_dir (m : upf_accel_match_extension) : dir :=
  if negb (ext_te_id m =? 0) then TUNNELED else PLAIN.

Definition upf_accel_ext_entry_cb_add fp x (ok : bool) : res upf_accel_fp_data :=
  let fp := if negb ok then upd_accel inc_accel_errors (ext_dir (xc_match (ext fp x))) fp else fp in
  let c := ext fp x in
  s ← upf_accel_fp_entry_state_change (xc_state c) STATE_ACCELERATED;
  Done (set_ext x {| c with xc_state := s |} fp).

Definition upf_accel_ext_entry_cb_del fp x (ok : bool) (queue : Z) : res upf_accel_fp_data :=
  let d := ext_dir (xc_match (ext fp x)) in
  let to_delete := xc_del_next (ext fp x) in
  let fp := if negb ok then upd_accel inc_del_errors d fp else fp in
  '(fp, ret) ← upf_accel_fp_delete_extension_entry fp x;
  if is_success ret then
    let '(h, _) := doca_flow_pipe_remove_entry (fp_hw fp) queue to_delete in
    Done (set_hw h fp)
  else Done (upd_accel inc_del_errors d fp).

Definition upf_accel_ext_entry_cb fp x (e : cb_event) : res upf_accel_fp_data :=
  match cb_op e with
  | ENTRY_OP_ADD => upf_accel_ext_entry_cb_add fp x (cb_ok e)
  | ENTRY_OP_DEL => upf_accel_ext_entry_cb_del fp x (cb_ok e) (cb_queue e)
  | _ => Done fp
  end.

Definition upf_accel_static_entry_cb (st : entries_status) (ok : bool) (op : doca_flow_entry_op)
    : entries_status :=
  match op with
  | ENTRY_OP_ADD | ENTRY_OP_DEL =>
    {| es_failure := if negb ok then true else es_failure st; es_nb_processed := es_nb_processed st + 1 |}
  | _ => st
  end.

Definition upf_accel_check_for_valid_entry_aging fp (e : cb_event) : res upf_accel_fp_data :=
  match cb_ctx e with
  | CtxNull => Done fp
  | CtxDyn i => upf_accel_dyn_entry_cb fp i e
  | CtxExt x => upf_accel_ext_entry_cb fp x e
  | CtxStatic port =>
    Done {| fp with fp_static :=
      <[port := upf_accel_static_entry_cb (fp_static fp !!! port) (cb_ok e) (cb_op e)]> (fp_static fp) |}
  end.

(** The callbacks of one call of [doca_flow_entries_process] or [doca_flow_aging_handle]. *)
Fixpoint upf_accel_callbacks fp (es : list cb_event) : res upf_accel_fp_data :=
  match es with
  | [] => Done fp
  | e :: es => fp ← upf_accel_check_for_valid_entry_aging fp e; upf_accel_callbacks fp es
  end.
End Accel.

(** ** The connection table invariant *)

Section Table.
Context `{!RteHash upf_accel_match_5t, !RteHash upf_accel_match_extension, !DocaFlow}.
Implicit Types (fp : upf_accel_fp_data) (i x : Z) (d : dir).

(** A key of the table leads to a connection that carries this key, knows its own
    position and hash, and is alive in at least one direction. *)
Definition tbl_ok fp : Prop :=
  forall k i, rte_hash_lookup (fp_dyn_tbl fp) k = Some i ->
    key fp i = k /\ dc_conn_idx (conn fp i) = i /\ keyed fp i /\ exists d, state fp i d <> STATE_NONE.

(** Direction [d] of connection [i] is or was in use. *)
Definition in_use fp i d : Prop := fe_entry (entry fp i d) <> None \/ state fp i d <> STATE_NONE.

Record tbl_inv fp : Prop := {
  ti_ok : tbl_ok fp;
  ti_keyed : forall i d, in_use fp i d -> keyed fp i;
}.

(** The table, the identity of every connection, and liveness are kept; a
    direction that comes into use belongs to an initialised connection. *)
Record live_same fp fp' : Prop := {
  ls_tbl : fp_dyn_tbl fp' = fp_dyn_tbl fp;
  ls_key : forall i, key fp' i = key fp i;
  ls_idx : forall i, dc_conn_idx (conn fp' i) = dc_conn_idx (conn fp i);
  ls_hash : forall i, dc_hash (conn fp' i) = dc_hash (conn fp i);
  ls_alive : forall i d, state fp i d <> STATE_NONE -> state fp' i d <> STATE_NONE;
  ls_use : forall i d, in_use fp' i d -> in_use fp i d \/ keyed fp i;
}.

Lemma keyed_live_same fp fp' i : live_same fp fp' -> keyed fp' i <-> keyed fp i.
Proof. intros Hl. unfold keyed. by rewrite (ls_key _ _ Hl), (ls_hash _ _ Hl). Qed.

#[export] Instance live_same_preorder : PreOrder live_same.
Proof.
  split; [split; auto|]. intros fp1 fp2 fp3 H1 H2.
  pose proof (fun i => keyed_live_same _ _ i H1) as Hk. destruct H1, H2. split; intros; [congruence..|auto|].
  naive_solver.
Qed.

Lemma tbl_inv_live_same fp fp' : live_same fp fp' -> tbl_inv fp -> tbl_inv fp'.
Proof.
  intros Hl [Hok Hk]. pose proof (fun i => keyed_live_same _ _ i Hl) as Hki. split.
  - intros k i. rewrite (ls_tbl _ _ Hl). intros (Hkey & Hidx & Hhash & d & Hd)%Hok.
    rewrite Hki, (ls_key _ _ Hl), (ls_idx _ _ Hl). pose proof (ls_alive _ _ Hl i d Hd). eauto 10.
  - intros i d Hu. apply Hki. destruct (ls_use _ _ Hl _ _ Hu); [by eapply Hk|done].
Qed.

Lemma live_same_only_list d fp fp' : only_list d fp fp' -> live_same fp fp'.
Proof.
  intros Hol. split.
  - exact (f_equal fp_dyn_tbl (ol_rest _ _ _ Hol)).
  - intros i. exact (f_equal (fun c => m8_inner (dc_match c)) (ol_conn _ _ _ Hol i)).
  - intros i. exact (f_equal dc_conn_idx (ol_conn _ _ _ Hol i)).
  - intros i. exact (f_equal dc_hash (ol_conn _ _ _ Hol i)).
  - intros i e. by rewrite (ol_state _ _ _ Hol).
  - intros i e. unfold in_use. rewrite (ol_state _ _ _ Hol), (ol_entry _ _ _ Hol). auto.
Qed.

Lemma live_same_set_entry i d e fp :
  (fe_state (entry fp i d) <> STATE_NONE -> fe_state e <> STATE_NONE) ->
  in_use fp i d \/ keyed fp i \/ (fe_entry e = None /\ fe_state e = STATE_NONE) ->
  live_same fp (set_entry i d e fp).
Proof.
  intros Hs Hu. pose proof (conn_rest_set_entry i d e fp) as Hr. split.
  - done.
  - intros j. exact (f_equal (fun c => m8_inner (dc_match c)) (Hr j)).
  - intros j. exact (f_equal dc_conn_idx (Hr j)).
  - intros j. exact (f_equal dc_hash (Hr j)).
  - intros j e'. unfold state. rewrite entry_set_entry. case_decide as Hij; [|done].
    destruct Hij as [<- <-]. done.
  - intros j e'. unfold in_use, state in *. rewrite entry_set_entry. case_decide as Hij; [|auto].
    destruct Hij as [<- <-]. naive_solver.
Qed.
Lemma live_same_set_state i d s fp :
  s <> STATE_NONE -> in_use fp i d \/ keyed fp i -> live_same fp (set_state i d s fp).
Proof. intros Hs Hu. apply live_same_set_entry; [done|naive_solver]. Qed.
Lemma live_same_set_ext x c fp : live_same fp (set_ext x c fp).
Proof. split; auto. Qed.
Lemma live_same_upd_accel f d fp : live_same fp (upd_accel f d fp).
Proof. split; auto. Qed.
Lemma live_same_upd_failed f d fp : live_same fp (upd_failed f d fp).
Proof. split; auto. Qed.
Lemma live_same_hw h fp : live_same fp (set_hw h fp).
Proof. split; auto. Qed.
Lemma live_same_ext_tbl t fp : live_same fp (set_ext_tbl t fp).
Proof. split; auto. Qed.
Lemma live_same_static t fp : live_same fp {| fp with fp_static := t |}.
Proof. split; auto. Qed.

Lemma live_same_if (b : bool) fp0 fp1 fp2 :
  live_same fp0 fp1 -> live_same fp0 fp2 -> live_same fp0 (if b then fp1 else fp2).
Proof. by destruct b. Qed.

Lemma state_change_to s s' r : upf_accel_fp_entry_state_change s s' = Done r -> r = s'.
Proof. destruct s, s'; cbn; congruence. Qed.

Lemma entry_state_to_live fp i d s fp' :
  keyed fp i -> entry_state_to fp i d s = Done fp' -> s <> STATE_NONE -> live_same fp fp'.
Proof.
  intros Hk E Hs. unfold entry_state_to in E. inv_bind E. apply state_change_to in E0 as ->.
  injection E as <-. apply live_same_set_state; auto.
Qed.

Lemma ext_entry_get_live fp m fp' x : ext_entry_get fp m = Done (inr (fp', x)) -> live_same fp fp'.
Proof.
  unfold ext_entry_get. destruct (rte_hash_lookup _ _) as [y|].
  - case_bool_decide; [done|]. by intros [= <- <-].
  - destruct (rte_hash_add_key_with_hash _ _ _) as [tbl [y|]]; [|done]. intros [= <- <-].
    etrans; [apply live_same_ext_tbl|]. apply live_same_set_ext.
Qed.

Lemma flow_accel_live fp port d m i fp' ret :
  keyed fp i -> upf_accel_fp_flow_accel fp port d m i = Done (fp', ret) -> live_same fp fp'.
Proof.
  intros Hk. unfold upf_accel_fp_flow_accel.
  destruct (upf_accel_fp_entry_is_established _); [by intros [= <- _]|].
  destruct (_ && _).
  { intros E. inv_bind E. injection E as <- _. by eapply entry_state_to_live. }
  intros E. inv_bind E. destruct x as [[fp1 rq]|].
  2: { inv_bind E. injection E as <- _. by eapply entry_state_to_live. }
  assert (live_same fp fp1) as H1.
  { destruct (m5_version (m8_inner m)).
    - inv_bind E0. by injection E0 as <- _.
    - inv_bind E0. by injection E0 as <- _.
    - inv_bind E0. destruct x as [|[fp2 x]]; [done|]. inv_bind E0. injection E0 as <- _.
      apply ext_entry_get_live in E1. etrans; [exact E1|].
      etrans; [|apply live_same_set_ext]. apply live_same_set_entry; [done|].
      right; left. by apply (keyed_live_same fp). }
  apply (keyed_live_same _ _ i H1) in Hk.
  destruct (doca_flow_pipe_basic_add_entry _ _) as [h [r handle]].
  etrans; [exact H1|]. etrans; [apply (live_same_hw h)|].
  destruct r; try (injection E as <- _; apply live_same_upd_failed).
  inv_bind E. injection E as <- _.
  etrans; [|eapply live_same_only_list, only_list_remove].
  match type of E1 with entry_state_to ?f _ _ _ = _ => assert (live_same (set_hw h fp1) f) as H2 end.
  { apply live_same_set_entry; [done|]. right; left. by apply (keyed_live_same fp1); [apply live_same_hw|]. }
  etrans; [exact H2|]. eapply entry_state_to_live; [|exact E1|done].
  apply (keyed_live_same _ _ _ H2). by apply (keyed_live_same fp1); [apply live_same_hw|].
Qed.

Lemma cb_add_live fp i ok d fp' :
  keyed fp i -> upf_accel_dyn_entry_cb_add fp i ok d = Done fp' -> live_same fp fp'.
Proof.
  intros Hk. unfold upf_accel_dyn_entry_cb_add. intros E. inv_bind E.
  match type of E0 with entry_state_to ?f _ _ _ = _ => assert (live_same fp f) as H0 end.
  { apply live_same_if; [|done]. etrans; [apply live_same_upd_accel|apply live_same_upd_failed]. }
  apply entry_state_to_live in E0; [|by apply (keyed_live_same _ _ _ H0)|done].
  assert (live_same fp x) as Hx by (by etrans).
  clear E0 H0. etrans; [exact Hx|].
  etrans; [apply (live_same_upd_accel (fun c => inc_total (inc_current c)) d)|].
  destruct (fe_ext_entry _) as [y|]; [|by injection E as <-].
  destruct (negb _); [|by injection E as <-]. inv_bind E.
  destruct (doca_flow_pipe_basic_add_entry _ _) as [h [r handle]].
  etrans; [apply (live_same_hw h)|].
  destruct (is_success r); injection E as <-; [apply live_same_set_ext|].
  etrans; [|apply live_same_upd_accel]. apply live_same_set_ext.
Qed.

Lemma cb_age_live fp i e ok q d fp' :
  keyed fp i -> upf_accel_dyn_entry_cb_age fp i e ok q d = Done fp' -> live_same fp fp'.
Proof.
  intros Hk. unfold upf_accel_dyn_entry_cb_age. intros E. inv_bind E.
  match type of E0 with entry_state_to ?f _ _ _ = _ => assert (live_same fp f) as H0 end.
  { apply live_same_if; [apply live_same_upd_accel|done]. }
  apply entry_state_to_live in E0; [|by apply (keyed_live_same _ _ _ H0)|done].
  inv_bind E. destruct x0 as [fp2 del].
  etrans; [|transitivity fp2].
  - etrans; [exact H0|exact E0].
  - destruct (fe_ext_entry _) as [y|]; [|by injection E1 as <- _]. inv_bind E1.
    destruct (u32 (xc_ref_cnt _ - 1) =? 0); [inv_bind E1|]; injection E1 as <- _; apply live_same_set_ext.
  - destruct (doca_flow_pipe_remove_entry _ _ _) as [h r]. injection E as <-.
    etrans; [apply (live_same_hw h)|]. apply live_same_if; [apply live_same_upd_accel|done].
Qed.

Lemma delete_extension_live fp x fp' r :
  upf_accel_fp_delete_extension_entry fp x = Done (fp', r) -> live_same fp fp'.
Proof.
  unfold upf_accel_fp_delete_extension_entry. intros E. inv_bind E.
  destruct (rte_hash_del_key_with_hash _ _ _) as [tbl pos]. injection E as <- _.
  etrans; [|apply live_same_set_ext]. apply live_same_ext_tbl.
Qed.

Lemma ext_cb_live fp x e fp' : upf_accel_ext_entry_cb fp x e = Done fp' -> live_same fp fp'.
Proof.
  unfold upf_accel_ext_entry_cb. destruct (cb_op e); try (by intros [= <-]).
  - unfold upf_accel_ext_entry_cb_add. intros E. inv_bind E. injection E as <-.
    etrans; [|apply live_same_set_ext]. apply live_same_if; [apply live_same_upd_accel|done].
  - unfold upf_accel_ext_entry_cb_del. intros E. inv_bind E. destruct x0 as [fp1 r].
    apply delete_extension_live in E0. transitivity fp1.
    + etrans; [|exact E0]. apply live_same_if; [apply live_same_upd_accel|done].
    + destruct (is_success r); [|injection E as <-; apply live_same_upd_accel].
      destruct (doca_flow_pipe_remove_entry _ _ _) as [h r']. injection E as <-. apply live_same_hw.
Qed.

Context `{!RteHashLaws upf_accel_match_5t}.

Lemma flows_deleted_keyed d R fp fp' i : flows_deleted d R fp fp' -> keyed fp' i <-> keyed fp i.
Proof.
  intros Hdel. unfold keyed. rewrite (key_deleted _ _ _ _ _ Hdel).
  by rewrite (f_equal dc_hash (fd_conn _ _ _ _ Hdel i) : dc_hash (conn fp' i) = dc_hash (conn fp i)).
Qed.

Lemma delete_flow_inv fp i d fp' ret :
  tbl_inv fp -> upf_accel_fp_delete_flow fp i d = Done (fp', ret) ->
  tbl_inv fp' /\ forall j, keyed fp' j <-> keyed fp j.
Proof.
  intros [Hok Hkey] E.
  assert (state fp i d <> STATE_NONE) as Hs.
  { unfold upf_accel_fp_delete_flow in E. intros Hs. by rewrite Hs in E. }
  destruct (delete_flow_ok fp i d Hs) as (fp1 & r & E1 & Hdel & _); [apply (Hkey i d); by right|].
  rewrite E in E1. injection E1 as <- <-.
  pose proof (fun j => flows_deleted_keyed _ _ _ _ j Hdel) as Hkk. split; [split|done].
  - intros k j Hkj. rewrite (fd_tbl _ _ _ _ Hdel) in Hkj. destruct (decide _) as [|Hne]; [done|].
    destruct (Hok k j Hkj) as (Hkj' & Hidx & Hh & e & He).
    rewrite Hkk, (key_deleted _ _ _ _ _ Hdel).
    split_and!; [done|by rewrite <- Hidx at 2; exact (f_equal dc_conn_idx (fd_conn _ _ _ _ Hdel j))|done|].
    setoid_rewrite (fd_state _ _ _ _ Hdel). destruct (decide (j = i)) as [->|Hji].
    + exists (upf_accel_fp_get_opposite_pkt_type d). rewrite decide_False.
      * intros Hopp. apply Hne. apply Exists_cons_hd. by rewrite Hkj'.
      * intros [_ Ho]. by apply (opposite_ne d).
    + exists e. rewrite decide_False; [done|]. by intros [->%list_elem_of_singleton _].
  - intros j e Hu. apply Hkk, (Hkey j e). unfold in_use in *.
    rewrite (fd_entry _ _ _ _ Hdel), (fd_state _ _ _ _ Hdel) in Hu. case_decide; naive_solver.
Qed.

Lemma callback_inv fp e fp' :
  tbl_inv fp -> upf_accel_check_for_valid_entry_aging fp e = Done fp' -> tbl_inv fp'.
Proof.
  intros Hinv. unfold upf_accel_check_for_valid_entry_aging.
  destruct (cb_ctx e) as [i|x|port|].
  - unfold upf_accel_dyn_entry_cb.
    destruct (upf_accel_dyn_entry_cb_get_pkt_type _ _ _) as [d|] eqn:Ed; [|by intros [= <-]].
    assert (keyed fp i) as Hk.
    { apply (ti_keyed _ Hinv i d). left. unfold upf_accel_dyn_entry_cb_get_pkt_type in Ed.
      repeat case_bool_decide; simplify_eq; congruence. }
    destruct (cb_op e); try (by intros [= <-]).
    + intros E%cb_add_live; [|done]. by eapply tbl_inv_live_same.
    + unfold upf_accel_dyn_entry_cb_del. intros E. inv_bind E. destruct x as [fp1 r].
      apply delete_flow_inv in E0 as [H1 _].
      * injection E as <-. eapply tbl_inv_live_same; [|exact H1].
        apply live_same_if; apply live_same_upd_accel.
      * eapply tbl_inv_live_same; [|exact Hinv]. etrans; [|apply live_same_set_entry; [done|]].
        -- apply live_same_if; [apply live_same_upd_accel|done].
        -- right; left. by destruct (negb _).
    + intros E%cb_age_live; [|done]. by eapply tbl_inv_live_same.
  - intros E%ext_cb_live. by eapply tbl_inv_live_same.
  - intros [= <-]. eapply tbl_inv_live_same; [apply live_same_static|done].
  - by intros [= <-].
Qed.

Lemma callbacks_inv es fp fp' : tbl_inv fp -> upf_accel_callbacks fp es = Done fp' -> tbl_inv fp'.
Proof.
  revert fp. induction es as [|e es IH]; intros fp Hinv; cbn; [by intros [= <-]|].
  intros E. inv_bind E. eapply IH; [|exact E]. by eapply callback_inv.
Qed.
End Table.

(** ** When a flow is accelerated *)

Section AccelFacts.
Context `{!RteHash upf_accel_match_5t, !RteHash upf_accel_match_extension, !DocaFlow}.
Implicit Types (fp : upf_accel_fp_data) (i x : Z) (d : dir).

Definition l4_known (m : upf_accel_match_5t) : Prop :=
  ip_proto m = DOCA_FLOW_PROTO_TCP \/ ip_proto m = DOCA_FLOW_PROTO_UDP.

(** The hardware entry of an IPv4 flow. *)
Definition flow_request (port queue : Z) d (m : upf_accel_match_8t) (pdr i : Z) : res add_request :=
  match d with
  | TUNNELED => upf_accel_pipe_8t_ipv4_accel port queue m pdr i
  | PLAIN => upf_accel_pipe_5t_ipv4_accel port queue (m8_inner m) pdr i
  end.

Lemma flow_request_ok port queue d m pdr i :
  l4_known (m8_inner m) -> exists rq, flow_request port queue d m pdr i = Done rq /\
    rq_ctx rq = CtxDyn i /\ rq_port rq = port /\ rq_queue rq = queue /\ rq_meta rq = rte_cpu_to_be_32 pdr.
Proof.
  intros Hp. unfold flow_request, upf_accel_pipe_8t_ipv4_accel, upf_accel_pipe_5t_ipv4_accel, hw_l4.
  destruct Hp as [-> | ->]; destruct d; cbn; by eexists.
Qed.

(** The packet that is being handled is one of the first [dpi_threshold - 1]. *)
Definition below_threshold fp i d : bool :=
  u64 (pget d (dc_cnt_pkts (conn fp i)) + 1) <? cfg_dpi_threshold (fp_cfg fp).

(** The outcome for a flow that is not in hardware and stays in software. *)
Lemma flow_accel_wait fp port d m i :
  upf_accel_fp_entry_is_established (state fp i d) = false ->
  upf_accel_fp_entry_is_alive (state fp i d) = true -> below_threshold fp i d = true ->
  upf_accel_fp_flow_accel fp port d m i =
    if bool_decide (state fp i d = STATE_PENDING)
    then Done (set_state i d STATE_UNACCELERATED fp, DOCA_SUCCESS) else Crash AssertFail.
Proof.
  intros He Ha Hb. unfold upf_accel_fp_flow_accel. unfold below_threshold in Hb. rewrite He, Ha, Hb. cbn.
  unfold entry_state_to. destruct (state fp i d); done.
Qed.

Lemma accel_allowed s : upf_accel_fp_entry_is_established s = false ->
  upf_accel_fp_entry_state_change s STATE_PENDING_ACCELERATION = Done STATE_PENDING_ACCELERATION.
Proof. by destruct s. Qed.

(** The outcome when the entry is sent to the hardware. *)
Lemma flow_accel_send fp port d m i rq :
  m5_version (m8_inner m) = L3_IP4 ->
  upf_accel_fp_entry_is_established (state fp i d) = false ->
  upf_accel_fp_entry_is_alive (state fp i d) && below_threshold fp i d = false ->
  flow_request port (fp_queue_id fp) d m (pget d (dc_pdr_id (conn fp i))) i = Done rq ->
  upf_accel_fp_flow_accel fp port d m i =
    let '(h, (ret, handle)) := doca_flow_pipe_basic_add_entry (fp_hw fp) rq in
    let fp1 := set_hw h fp in
    if is_success ret then
      let e := entry fp1 i d in
      let fp2 := set_entry i d {| e with fe_entry := Some handle |} fp1 in
      Done ((upf_accel_sw_aging_ll_node_remove (set_state i d STATE_PENDING_ACCELERATION fp2) i d).1,
            DOCA_SUCCESS)
    else Done (upd_failed (fun c => inc_total (inc_current c)) d fp1, DOCA_ERROR_FULL).
Proof.
  intros Hv He Hb Hrq. unfold upf_accel_fp_flow_accel. unfold below_threshold in Hb. rewrite He, Hb, Hv.
  unfold flow_request in Hrq. destruct d; rewrite Hrq; cbn [mbind res_bind];
    destruct (doca_flow_pipe_basic_add_entry (fp_hw fp) rq) as [h [ret handle]];
    (destruct ret; cbn [is_success]; try done); unfold entry_state_to;
    match goal with |- context [upf_accel_fp_entry_state_change (state ?f i ?d) _] =>
      assert (state f i d = state fp i d) as -> by (unfold state; by rewrite entry_set_entry, decide_True)
    end; by rewrite accel_allowed.
Qed.

Lemma ll_ok_same fp fp' d l :
  (forall j, dc_conn_idx (conn fp' j) = dc_conn_idx (conn fp j)) ->
  (forall j, node fp' j d = node fp j d) -> pget d (fp_sw_aging_ll fp') = pget d (fp_sw_aging_ll fp) ->
  ll_ok fp d l -> ll_ok fp' d l.
Proof.
  intros Hc Hn Hl [Hnd Hidx Hh Ht Hd]. split; [done|..].
  - intros j Hj. rewrite Hc. auto.
  - unfold head_of. by rewrite Hl.
  - unfold tail_of. by rewrite Hl.
  - revert Hd. apply dseg_ext. intros j _. by rewrite Hn.
Qed.

(** The state of a flow whose entry was accepted, before it leaves the list. *)
Definition offloaded fp i d (h : hw) (handle : Z) : upf_accel_fp_data :=
  let e := entry (set_hw h fp) i d in
  set_state i d STATE_PENDING_ACCELERATION (set_entry i d {| e with fe_entry := Some handle |} (set_hw h fp)).

Lemma offloaded_facts fp i d h handle (fp1 := offloaded fp i d h handle) :
  fp_hw fp1 = h /\ state fp1 i d = STATE_PENDING_ACCELERATION /\ fe_entry (entry fp1 i d) = Some handle /\
  (forall j, dc_conn_idx (conn fp1 j) = dc_conn_idx (conn fp j)) /\
  (forall j e, node fp1 j e = node fp j e) /\ fp_sw_aging_ll fp1 = fp_sw_aging_ll fp.
Proof.
  unfold fp1, offloaded. split_and!; try done.
  - by rewrite state_set_state, decide_True.
  - rewrite fe_entry_set_state, entry_set_entry. by rewrite decide_True.
  - intros j. etrans; [exact (f_equal dc_conn_idx (conn_rest_set_entry _ _ _ _ j))|].
    exact (f_equal dc_conn_idx (conn_rest_set_entry _ _ _ _ j)).
  - intros j e. rewrite node_set_state. unfold node. rewrite entry_set_entry.
    case_decide as Hij; [by destruct Hij as [<- <-]|done].
Qed.

Lemma offloaded_list fp i d h handle l (fp1 := offloaded fp i d h handle) :
  ll_ok fp d l -> ll_ok fp1 d l /\ (fresh fp d l i -> fresh fp1 d l i).
Proof.
  destruct (offloaded_facts fp i d h handle) as (_ & _ & _ & Hc & Hn & Hl). fold fp1 in Hc, Hn, Hl.
  intros Hok. split; [apply (ll_ok_same fp); [done..|by rewrite Hl|done]|].
  intros (? & ? & ? & ? & ?). unfold fresh. rewrite Hc, Hn. by split_and!.
Qed.

(** With the default threshold of at most two packets, accelerating an IPv4
    flow never fires an assert: a flow that is already in hardware is left alone;
    the first packet of a new flow under threshold 2 leaves it to software; every
    other packet sends exactly one request to the hardware, and either the flow
    waits for its completion with the handle of the new entry stored and is out
    of the aging list, or the flow stays as it was, the error is reported and the
    counters of failed accelerations grow by one. *)
Theorem flow_accel_ipv4 fp port d m i :
  cfg_dpi_threshold (fp_cfg fp) <= 2 ->
  m5_version (m8_inner m) = L3_IP4 -> l4_known (m8_inner m) ->
  (state fp i d = STATE_UNACCELERATED -> 1 <= pget d (dc_cnt_pkts (conn fp i)) < 2 ^ 64 - 1) ->
  0 <= pget d (dc_cnt_pkts (conn fp i)) ->
  exists fp' ret rq, upf_accel_fp_flow_accel fp port d m i = Done (fp', ret) /\
    flow_request port (fp_queue_id fp) d m (pget d (dc_pdr_id (conn fp i))) i = Done rq /\
    let '(h, (r, handle)) := doca_flow_pipe_basic_add_entry (fp_hw fp) rq in
    (fp' = fp /\ ret = DOCA_ERROR_ALREADY_EXIST /\ upf_accel_fp_entry_is_established (state fp i d) = true) \/
    (fp' = set_state i d STATE_UNACCELERATED fp /\ ret = DOCA_SUCCESS /\ state fp i d = STATE_PENDING /\
       below_threshold fp i d = true) \/
    (fp_hw fp' = h /\ r = DOCA_SUCCESS /\ ret = DOCA_SUCCESS /\
       state fp' i d = STATE_PENDING_ACCELERATION /\ fe_entry (entry fp' i d) = Some handle /\
       (forall l1 l2, ll_ok fp d (l1 ++ i :: l2) -> ll_ok fp' d (l1 ++ l2)) /\
       (forall l, ll_ok fp d l -> fresh fp d l i -> ll_ok fp' d l)) \/
    (fp_hw fp' = h /\ r <> DOCA_SUCCESS /\ ret = DOCA_ERROR_FULL /\ (forall j e, entry fp' j e = entry fp j e) /\
       pget d (fp_accel_failed_counters fp') = inc_total (inc_current (pget d (fp_accel_failed_counters fp)))).
Proof.
  intros Hthr Hv Hl4 Hun Hcnt.
  destruct (flow_request_ok port (fp_queue_id fp) d m (pget d (dc_pdr_id (conn fp i))) i Hl4) as (rq & Hrq & _).
  destruct (doca_flow_pipe_basic_add_entry (fp_hw fp) rq) as [h [r handle]] eqn:Eadd.
  destruct (upf_accel_fp_entry_is_established (state fp i d)) eqn:He.
  { exists fp, DOCA_ERROR_ALREADY_EXIST, rq. unfold upf_accel_fp_flow_accel. rewrite He, Eadd.
    split; [done|]. split; [done|]. left. by split_and!. }
  destruct (upf_accel_fp_entry_is_alive (state fp i d) && below_threshold fp i d) eqn:Hb.
  { apply andb_prop in Hb as [Ha Hb]. assert (state fp i d = STATE_PENDING) as Hp.
    { assert (state fp i d <> STATE_UNACCELERATED) as Hnu.
      { intros Hs. specialize (Hun Hs). unfold below_threshold in Hb. rewrite u64_small in Hb; lia. }
      clear Hun. revert Hnu Ha He. by destruct (state fp i d). }
    do 2 eexists. exists rq. rewrite (flow_accel_wait _ _ _ _ _ He Ha Hb), bool_decide_eq_true_2, Eadd by done.
    split; [done|]. split; [done|]. right; left. by split_and!. }
  rewrite (flow_accel_send _ _ _ _ _ _ Hv He Hb Hrq), Eadd.
  destruct (is_success r) eqn:Er.
  - apply is_success_true in Er as ->. do 2 eexists. exists rq. split; [done|]. rewrite Eadd.
    split; [done|]. right; right; left. fold (offloaded fp i d h handle).
    set (fp1 := offloaded fp i d h handle).
    destruct (offloaded_facts fp i d h handle) as (Hhw & Hst & Hfe & _).
    pose proof (only_list_remove fp1 i d) as Hol.
    rewrite (ol_state _ _ _ Hol), (ol_entry _ _ _ Hol).
    split_and!; [exact (eq_trans (f_equal fp_hw (ol_rest _ _ _ Hol)) Hhw)|done..| |].
    + intros l1 l2 Hok. apply (offloaded_list fp i d h handle) in Hok as [Hok _]. by eapply remove_ok.
    + intros l Hok Hf. apply (offloaded_list fp i d h handle) in Hok as [Hok Hf']. apply Hf' in Hf.
      unfold upf_accel_sw_aging_ll_node_remove. by rewrite (node_exist_out _ _ _ Hok).
  - do 2 eexists. exists rq. split; [done|]. rewrite Eadd. split; [done|]. right; right; right.
    split_and!; try done; [by intros ->|]. cbn. by rewrite pget_palter.
Qed.

(** With a threshold of three packets or more the second packet of a flow
    that is still handled in software stops the core: the code asks for the
    transition from UNACCELERATED to UNACCELERATED, which the state machine
    rejects. The command line accepts every threshold from one on. *)
Theorem dpi_threshold_assert fp port d m i :
  3 <= cfg_dpi_threshold (fp_cfg fp) -> state fp i d = STATE_UNACCELERATED ->
  pget d (dc_cnt_pkts (conn fp i)) = 1 ->
  upf_accel_fp_flow_accel fp port d m i = Crash AssertFail.
Proof.
  intros Hthr Hs Hc. rewrite flow_accel_wait; rewrite ?Hs; try done.
  unfold below_threshold. rewrite Hc. change (u64 (1 + 1)) with 2. lia.
Qed.

(** When the extension table is full the index of the failed insertion is
    used all the same: the flow's match is written in front of the array. *)
Theorem ext_table_full_oob fp port d m i :
  m5_version (m8_inner m) = L3_IP6 ->
  upf_accel_fp_entry_is_established (state fp i d) = false ->
  upf_accel_fp_entry_is_alive (state fp i d) && below_threshold fp i d = false ->
  rte_hash_lookup (fp_dyn_ext_tbl fp) (upf_accel_fp_extension_match_extract m) = None ->
  (rte_hash_add_key_with_hash (fp_dyn_ext_tbl fp) (upf_accel_fp_extension_match_extract m)
     (rte_hash_hash (upf_accel_fp_extension_match_extract m))).2 = None ->
  upf_accel_fp_flow_accel fp port d m i = Crash OutOfBounds.
Proof.
  intros Hv He Hb Hl Ha. unfold upf_accel_fp_flow_accel. unfold below_threshold in Hb.
  rewrite He, Hb, Hv. unfold ext_entry_get. rewrite Hl.
  destruct (rte_hash_add_key_with_hash _ _ _) as [tbl pos]. cbn in Ha. by subst pos.
Qed.

(** An IPv6 flow the hardware rejects keeps its reference to the extension
    entry: the reference count has grown although the flow has no hardware entry
    and is in the state it was in, so nothing will ever give the reference back. *)
Theorem ext_reference_leak fp port d m i x h e handle :
  m5_version (m8_inner m) = L3_IP6 -> l4_known (m8_inner m) ->
  upf_accel_fp_entry_is_established (state fp i d) = false ->
  upf_accel_fp_entry_is_alive (state fp i d) && below_threshold fp i d = false ->
  rte_hash_lookup (fp_dyn_ext_tbl fp) (upf_accel_fp_extension_match_extract m) = Some x ->
  xc_state (ext fp x) <> STATE_PENDING_DEACCELERATION ->
  (forall rq, doca_flow_pipe_basic_add_entry (fp_hw fp) rq = (h, (e, handle))) -> e <> DOCA_SUCCESS ->
  exists fp', upf_accel_fp_flow_accel fp port d m i = Done (fp', DOCA_ERROR_FULL) /\
    xc_ref_cnt (ext fp' x) = u32 (xc_ref_cnt (ext fp x) + 1) /\
    state fp' i d = state fp i d /\ fe_entry (entry fp' i d) = fe_entry (entry fp i d).
Proof.
  intros Hv Hp He Hb Hl Hs Hadd Hne. unfold upf_accel_fp_flow_accel. unfold below_threshold in Hb.
  rewrite He, Hb, Hv. unfold ext_entry_get. rewrite Hl, bool_decide_eq_false_2 by done. cbn [mbind res_bind].
  unfold upf_accel_pipe_8t_ipv6_accel, upf_accel_pipe_5t_ipv6_accel, hw_l4.
  assert ((ip_proto (m8_inner m) =? DOCA_FLOW_PROTO_TCP) || (ip_proto (m8_inner m) =? DOCA_FLOW_PROTO_UDP) = true)
    as -> by (by destruct Hp as [-> | ->]).
  match goal with |- context [set_ext x ?c ?f] => set (fp1 := set_ext x c f) end.
  assert (exists rq, (match d with TUNNELED => _ | PLAIN => _ end : res add_request) = Done rq) as [rq ->]
    by (destruct d; by eexists).
  cbn [mbind res_bind]. change (fp_hw fp1) with (fp_hw fp). rewrite Hadd.
  exists (upd_failed (fun c => inc_total (inc_current c)) d (set_hw h fp1)).
  split; [by destruct e|]. split_and!.
  - change (ext (upd_failed _ d (set_hw h fp1)) x) with (ext fp1 x). unfold fp1.
    by rewrite ext_set_ext, decide_True.
  - change (state (set_entry i d (let e0 := entry fp i d in {| e0 with fe_ext_entry := Some x |}) fp) i d
      = state fp i d).
    unfold state. by rewrite entry_set_entry, decide_True.
  - change (fe_entry (entry (set_entry i d (let e0 := entry fp i d in {| e0 with fe_ext_entry := Some x |}) fp) i d)
      = fe_entry (entry fp i d)).
    by rewrite entry_set_entry, decide_True.
Qed.

(** ** Life of a hardware entry *)

Lemma cb_pkt_type fp i d h :
  fe_entry (entry fp i d) = Some h -> (d = PLAIN -> fe_entry (entry fp i TUNNELED) <> Some h) ->
  upf_accel_dyn_entry_cb_get_pkt_type fp i h = Some d.
Proof.
  intros Hh Ht. unfold upf_accel_dyn_entry_cb_get_pkt_type. destruct d.
  - by rewrite bool_decide_eq_true_2.
  - rewrite bool_decide_eq_false_2 by (by intros E; apply Ht). by rewrite bool_decide_eq_true_2.
Qed.

(** The callback events of entry [h] of connection [i]. *)
Definition dyn_event (q h i : Z) (op : doca_flow_entry_op) : cb_event :=
  {| cb_entry := h; cb_queue := q; cb_ok := true; cb_op := op; cb_ctx := CtxDyn i |}.
Definition ext_event (q x : Z) (op : doca_flow_entry_op) : cb_event :=
  {| cb_entry := 0; cb_queue := q; cb_ok := true; cb_op := op; cb_ctx := CtxExt x |}.

Lemma event_add fp i d q h :
  fe_entry (entry fp i d) = Some h -> (d = PLAIN -> fe_entry (entry fp i TUNNELED) <> Some h) ->
  state fp i d = STATE_PENDING_ACCELERATION -> fe_ext_entry (entry fp i d) = None ->
  upf_accel_check_for_valid_entry_aging fp (dyn_event q h i ENTRY_OP_ADD) =
    Done (upd_accel (fun c => inc_total (inc_current c)) d (set_state i d STATE_ACCELERATED fp)).
Proof.
  intros Hh Ht Hs Hx. cbn. unfold upf_accel_dyn_entry_cb. cbn [dyn_event cb_entry cb_op cb_ok].
  rewrite (cb_pkt_type fp i d h) by done. unfold upf_accel_dyn_entry_cb_add, entry_state_to. cbn [negb].
  rewrite Hs. cbn [upf_accel_fp_entry_state_change mbind res_bind].
  assert (fe_ext_entry (entry (upd_accel (fun c => inc_total (inc_current c)) d
    (set_state i d STATE_ACCELERATED fp)) i d) = None) as ->; [|done].
  change (fe_ext_entry (entry (set_state i d STATE_ACCELERATED fp) i d) = None).
  unfold set_state. by rewrite entry_set_entry, decide_True.
Qed.

Lemma event_aged fp i d q h hw' r :
  fe_entry (entry fp i d) = Some h -> (d = PLAIN -> fe_entry (entry fp i TUNNELED) <> Some h) ->
  state fp i d = STATE_ACCELERATED -> fe_ext_entry (entry fp i d) = None ->
  doca_flow_pipe_remove_entry (fp_hw fp) q (Some h) = (hw', r) ->
  upf_accel_check_for_valid_entry_aging fp (dyn_event q h i ENTRY_OP_AGED) =
    Done (let fp := set_hw hw' (set_state i d STATE_PENDING_DEACCELERATION fp) in
          if negb (is_success r) then upd_accel inc_aging_errors d fp else fp).
Proof.
  intros Hh Ht Hs Hx Hr. cbn. unfold upf_accel_dyn_entry_cb. cbn [dyn_event cb_entry cb_op cb_ok cb_queue].
  rewrite (cb_pkt_type fp i d h) by done. unfold upf_accel_dyn_entry_cb_age, entry_state_to. cbn [negb].
  rewrite Hs, Hx. cbn [upf_accel_fp_entry_state_change mbind res_bind].
  change (fp_hw (set_state i d STATE_PENDING_DEACCELERATION fp)) with (fp_hw fp). by rewrite Hr.
Qed.

Context `{!RteHashLaws upf_accel_match_5t}.

(** C33: an IPv4 flow whose hardware entry completes, ages and is removed returns
    to NONE without an assert: the device is asked to remove that entry, the
    counter of accelerated flows is back where it was and the total has grown by
    one, no other flow changes state, and the connection leaves the table exactly
    if its other direction is dead. *)
Theorem entry_lifecycle fp i d q h hw' :
  keyed fp i -> is_Some (rte_hash_lookup (fp_dyn_tbl fp) (key fp i)) ->
  state fp i d = STATE_PENDING_ACCELERATION -> fe_ext_entry (entry fp i d) = None ->
  fe_entry (entry fp i d) = Some h -> (d = PLAIN -> fe_entry (entry fp i TUNNELED) <> Some h) ->
  doca_flow_pipe_remove_entry (fp_hw fp) q (Some h) = (hw', DOCA_SUCCESS) ->
  0 <= c_current (pget d (fp_accel_counters fp)) < 2 ^ 64 ->
  exists fp', upf_accel_callbacks fp (dyn_event q h i <$> [ENTRY_OP_ADD; ENTRY_OP_AGED; ENTRY_OP_DEL]) = Done fp' /\
    fp_hw fp' = hw' /\
    (forall j e, state fp' j e = if decide (j = i /\ e = d) then STATE_NONE else state fp j e) /\
    c_current (pget d (fp_accel_counters fp')) = c_current (pget d (fp_accel_counters fp)) /\
    c_total (pget d (fp_accel_counters fp')) = inc64 (c_total (pget d (fp_accel_counters fp))) /\
    rte_hash_lookup (fp_dyn_tbl fp') (key fp i) =
      if decide (state fp i (upf_accel_fp_get_opposite_pkt_type d) = STATE_NONE) then None
      else rte_hash_lookup (fp_dyn_tbl fp) (key fp i).
Proof.
  intros Hk Hl Hs Hx Hh Ht Hr Hc. cbn [fmap list_fmap upf_accel_callbacks].
  rewrite (event_add fp i d q h) by done. cbn [mbind res_bind].
  set (fp1 := upd_accel _ d (set_state i d STATE_ACCELERATED fp)).
  assert (forall j e, fe_entry (entry fp1 j e) = fe_entry (entry fp j e)) as Hfe1
    by exact (fe_entry_set_state i d STATE_ACCELERATED fp).
  assert (state fp1 i d = STATE_ACCELERATED) as Hs1
    by (etrans; [exact (state_set_state i d STATE_ACCELERATED fp i d)|by rewrite decide_True]).
  assert (fe_ext_entry (entry fp1 i d) = None) as Hx1.
  { change (fe_ext_entry (entry (set_state i d STATE_ACCELERATED fp) i d) = None).
    unfold set_state. by rewrite entry_set_entry, decide_True. }
  rewrite (event_aged fp1 i d q h hw' DOCA_SUCCESS); [|by rewrite ?Hfe1..|done|done|done].
  cbn [is_success negb mbind res_bind].
  set (fp2 := set_hw hw' (set_state i d STATE_PENDING_DEACCELERATION fp1)).
  assert (forall j e, fe_entry (entry fp2 j e) = fe_entry (entry fp j e)) as Hfe2.
  { intros j e. rewrite <- Hfe1. exact (fe_entry_set_state i d STATE_PENDING_DEACCELERATION fp1 j e). }
  unfold upf_accel_check_for_valid_entry_aging, upf_accel_dyn_entry_cb. cbn [dyn_event cb_ctx cb_entry cb_op cb_ok].
  rewrite (cb_pkt_type fp2 i d h) by (by rewrite ?Hfe2). unfold upf_accel_dyn_entry_cb_del. cbn [negb].
  match goal with |- context [upf_accel_fp_delete_flow ?f i d] => set (fp3 := f) end.
  assert (forall j e, state fp3 j e =
    if decide (j = i /\ e = d) then STATE_PENDING_DEACCELERATION else state fp j e) as Hst3.
  { intros j e. unfold fp3, state. rewrite entry_set_entry. destruct (decide (i = j /\ d = e)) as [[<- <-]|Hne].
    - rewrite decide_True by done. cbn. change (state fp2 i d = STATE_PENDING_DEACCELERATION).
      etrans; [exact (state_set_state i d STATE_PENDING_DEACCELERATION fp1 i d)|by rewrite decide_True].
    - rewrite decide_False by naive_solver.
      etrans; [exact (state_set_state i d STATE_PENDING_DEACCELERATION fp1 j e)|].
      rewrite decide_False by done. etrans; [exact (state_set_state i d STATE_ACCELERATED fp j e)|].
      by rewrite decide_False. }
  assert (forall j, conn_rest (conn fp3 j) = conn_rest (conn fp j)) as Hrest.
  { intros j. etrans; [apply conn_rest_set_entry|]. etrans; [exact (conn_rest_set_entry _ _ _ _ j)|].
    exact (conn_rest_set_entry _ _ _ _ j). }
  assert (key fp3 i = key fp i) as Hkey by exact (f_equal (fun c => m8_inner (dc_match c)) (Hrest i)).
  assert (keyed fp3 i) as Hk3 by (unfold keyed in *; rewrite Hkey, <- Hk; exact (f_equal dc_hash (Hrest i))).
  destruct (delete_flow_ok fp3 i d) as (fp4 & ret & -> & Hdel & _ & Hacc & Hhw & Hret);
    [by rewrite Hst3, decide_True|done|]. cbn [mbind res_bind].
  change (fp_dyn_tbl fp3) with (fp_dyn_tbl fp) in Hret. rewrite Hkey in Hret. rewrite (Hret Hl). cbn [is_success negb].
  exists (upd_accel dec_current d fp4). split_and!; [done|exact Hhw| | | |].
  - intros j e. change (state fp4 j e = if decide (j = i /\ e = d) then STATE_NONE else state fp j e).
    rewrite (fd_state _ _ _ _ Hdel), Hst3.
    destruct (decide (j ∈ [i] /\ e = d)) as [[->%list_elem_of_singleton ->]|Hn]; [by rewrite decide_True|].
    by rewrite !decide_False by (intros [-> ->]; apply Hn; by rewrite list_elem_of_singleton).
  - cbn. rewrite pget_palter, Hacc. cbn. rewrite pget_palter. cbn. unfold dec64, inc64, u64.
    rewrite uwrap_sub_l, Z.add_simpl_r. by apply Z.mod_small.
  - cbn. rewrite pget_palter, Hacc. cbn. by rewrite pget_palter.
  - etrans; [exact (fd_tbl _ _ _ _ Hdel (key fp i))|]. apply decide_ext.
    rewrite Exists_cons, Exists_nil, Hkey, Hst3, decide_False by (intros [_ Ho]; by apply (opposite_ne d)).
    naive_solver.
Qed.

(** The aging callback of a flow with an extension entry, on both branches. *)
Lemma event_aged_ext fp i d q h x hw' r :
  fe_entry (entry fp i d) = Some h -> (d = PLAIN -> fe_entry (entry fp i TUNNELED) <> Some h) ->
  state fp i d = STATE_ACCELERATED -> fe_ext_entry (entry fp i d) = Some x ->
  0 < xc_ref_cnt (ext fp x) < 2 ^ 32 ->
  (xc_ref_cnt (ext fp x) = 1 -> xc_state (ext fp x) = STATE_ACCELERATED) ->
  doca_flow_pipe_remove_entry (fp_hw fp) q
    (if xc_ref_cnt (ext fp x) =? 1 then xc_entry (ext fp x) else Some h) = (hw', r) ->
  upf_accel_check_for_valid_entry_aging fp (dyn_event q h i ENTRY_OP_AGED) =
    Done (let c := ext fp x in
          let fp := set_state i d STATE_PENDING_DEACCELERATION fp in
          let fp := set_hw hw' (set_ext x
            (if xc_ref_cnt c =? 1
             then {| c with xc_ref_cnt := 0; xc_state := STATE_PENDING_DEACCELERATION; xc_del_next := Some h |}
             else {| c with xc_ref_cnt := xc_ref_cnt c - 1 |}) fp) in
          if negb (is_success r) then upd_accel inc_aging_errors d fp else fp).
Proof.
  intros Hh Ht Hs Hx Href Hxs Hr. cbn. unfold upf_accel_dyn_entry_cb. cbn [dyn_event cb_entry cb_op cb_ok cb_queue].
  rewrite (cb_pkt_type fp i d h) by done. unfold upf_accel_dyn_entry_cb_age, entry_state_to. cbn [negb].
  rewrite Hs, Hx. cbn [upf_accel_fp_entry_state_change mbind res_bind].
  change (ext (set_state i d STATE_PENDING_DEACCELERATION fp) x) with (ext fp x).
  destruct (Z.eqb_spec (xc_ref_cnt (ext fp x)) 0) as [|_]; [lia|]. cbn [negb assert_ mbind res_bind].
  rewrite u32_small by lia.
  destruct (Z.eqb_spec (xc_ref_cnt (ext fp x)) 1) as [H1|H1].
  - rewrite H1, (Hxs H1). change (1 - 1) with 0. rewrite Z.eqb_refl.
    cbn [upf_accel_fp_entry_state_change mbind res_bind].
    match goal with |- context [doca_flow_pipe_remove_entry ?a] => change a with (fp_hw fp) end.
    by rewrite Hr.
  - destruct (Z.eqb_spec (xc_ref_cnt (ext fp x) - 1) 0) as [|_]; [lia|]. cbn [mbind res_bind].
    match goal with |- context [doca_flow_pipe_remove_entry ?a] => change a with (fp_hw fp) end.
    by rewrite Hr.
Qed.

Context `{!RteHashLaws upf_accel_match_extension}.

Lemma event_ext_del fp x q :
  xc_state (ext fp x) = STATE_PENDING_DEACCELERATION ->
  xc_hash (ext fp x) = rte_hash_hash (xc_match (ext fp x)) ->
  is_Some (rte_hash_lookup (fp_dyn_ext_tbl fp) (xc_match (ext fp x))) ->
  exists fp', upf_accel_check_for_valid_entry_aging fp (ext_event q x ENTRY_OP_DEL) = Done fp' /\
    fp_hw fp' = (doca_flow_pipe_remove_entry (fp_hw fp) q (xc_del_next (ext fp x))).1 /\
    ext fp' x = (let c := ext fp x in {| c with xc_state := STATE_NONE |}) /\
    rte_hash_lookup (fp_dyn_ext_tbl fp') (xc_match (ext fp x)) = None.
Proof.
  intros Hs Hh [p Hp]. cbn. unfold upf_accel_ext_entry_cb, upf_accel_ext_entry_cb_del,
    upf_accel_fp_delete_extension_entry. cbn [ext_event cb_op cb_ok cb_queue negb].
  rewrite Hs, Hh. cbn [upf_accel_fp_entry_state_change mbind res_bind].
  destruct (rte_hash_del_key_with_hash _ _ _) as [tbl pos] eqn:Edel.
  destruct (hash_del_lookup _ _ _ _ Edel) as [Hpos Hgone]. rewrite Hp in Hpos. subst pos.
  cbn [is_success mbind res_bind].
  match goal with |- context [let '(_, _) := doca_flow_pipe_remove_entry ?a _ _ in _] => change a with (fp_hw fp) end.
  destruct (doca_flow_pipe_remove_entry _ _ _) as [h2 r2]. eexists. split_and!; [done|done| |exact Hgone].
  etrans; [exact (ext_set_ext x _ _ x)|]. by rewrite decide_True.
Qed.

(** Teardown of IPv6 flows respects the chain of hardware entries: when a
    flow ages that is not the last user of its extension entry, the device is
    asked to remove the flow's own entry and one reference is given back; when
    the last user ages, the device is asked to remove the extension entry first,
    and only after it has confirmed this to remove the flow's entry, the
    extension entry then being free again and out of its table. *)
Theorem ext_teardown_order fp i d q h x :
  fe_entry (entry fp i d) = Some h -> (d = PLAIN -> fe_entry (entry fp i TUNNELED) <> Some h) ->
  state fp i d = STATE_ACCELERATED -> fe_ext_entry (entry fp i d) = Some x ->
  0 < xc_ref_cnt (ext fp x) < 2 ^ 32 -> xc_state (ext fp x) = STATE_ACCELERATED ->
  xc_hash (ext fp x) = rte_hash_hash (xc_match (ext fp x)) ->
  is_Some (rte_hash_lookup (fp_dyn_ext_tbl fp) (xc_match (ext fp x))) ->
  (xc_ref_cnt (ext fp x) <> 1 ->
   exists fp', upf_accel_callbacks fp [dyn_event q h i ENTRY_OP_AGED] = Done fp' /\
     fp_hw fp' = (doca_flow_pipe_remove_entry (fp_hw fp) q (Some h)).1 /\
     state fp' i d = STATE_PENDING_DEACCELERATION /\
     xc_state (ext fp' x) = STATE_ACCELERATED /\ xc_ref_cnt (ext fp' x) = xc_ref_cnt (ext fp x) - 1) /\
  (xc_ref_cnt (ext fp x) = 1 ->
   exists fp1 fp2, upf_accel_callbacks fp [dyn_event q h i ENTRY_OP_AGED] = Done fp1 /\
     fp_hw fp1 = (doca_flow_pipe_remove_entry (fp_hw fp) q (xc_entry (ext fp x))).1 /\
     state fp1 i d = STATE_PENDING_DEACCELERATION /\ xc_state (ext fp1 x) = STATE_PENDING_DEACCELERATION /\
     upf_accel_callbacks fp1 [ext_event q x ENTRY_OP_DEL] = Done fp2 /\
     fp_hw fp2 = (doca_flow_pipe_remove_entry (fp_hw fp1) q (Some h)).1 /\
     xc_state (ext fp2 x) = STATE_NONE /\ xc_ref_cnt (ext fp2 x) = 0 /\
     rte_hash_lookup (fp_dyn_ext_tbl fp2) (xc_match (ext fp x)) = None).
Proof.
  intros Hh Ht Hs Hx Href Hxs Hhash Hin. cbn [upf_accel_callbacks]. split; intros H1.
  - destruct (doca_flow_pipe_remove_entry (fp_hw fp) q (Some h)) as [hw' r] eqn:Er.
    rewrite (event_aged_ext fp i d q h x hw' r) by
      (done || (intros; lia) || (by destruct (Z.eqb_spec (xc_ref_cnt (ext fp x)) 1))).
    cbn [mbind res_bind]. destruct (Z.eqb_spec (xc_ref_cnt (ext fp x)) 1) as [|_]; [done|].
    match goal with |- context [set_ext x ?c0 ?f] => set (c := c0); set (fp1 := set_hw hw' (set_ext x c f)) end.
    assert (state fp1 i d = STATE_PENDING_DEACCELERATION) as Hst
      by (etrans; [exact (state_set_state i d STATE_PENDING_DEACCELERATION fp i d)|by rewrite decide_True]).
    assert (ext fp1 x = c) as Hc by (etrans; [exact (ext_set_ext x c _ x)|by rewrite decide_True]).
    eexists. split; [done|]. cbn [fst].
    destruct (negb (is_success r)); split_and!; try done; cbn [upd_accel fp_hw];
      change (ext (upd_accel inc_aging_errors d fp1) x) with (ext fp1 x) || idtac; by rewrite Hc.
  - destruct (doca_flow_pipe_remove_entry (fp_hw fp) q (xc_entry (ext fp x))) as [hw' r] eqn:Er.
    rewrite (event_aged_ext fp i d q h x hw' r) by (done || (by rewrite H1)).
    cbn [mbind res_bind]. rewrite H1. cbn [Z.eqb Pos.eqb].
    match goal with |- context [set_ext x ?c0 ?f] => set (c := c0); set (fp0 := set_hw hw' (set_ext x c f)) end.
    assert (exists fp1, (if negb (is_success r) then upd_accel inc_aging_errors d fp0 else fp0) = fp1 /\
      fp_hw fp1 = hw' /\ state fp1 i d = STATE_PENDING_DEACCELERATION /\ ext fp1 x = c /\
      fp_dyn_ext_tbl fp1 = fp_dyn_ext_tbl fp) as (fp1 & E1 & Hhw & Hst & Hc & Htbl).
    { assert (state fp0 i d = STATE_PENDING_DEACCELERATION)
        by (etrans; [exact (state_set_state i d STATE_PENDING_DEACCELERATION fp i d)|by rewrite decide_True]).
      assert (ext fp0 x = c) by (etrans; [exact (ext_set_ext x c _ x)|by rewrite decide_True]).
      eexists. split; [done|]. by destruct (negb (is_success r)). }
    rewrite E1. exists fp1.
    destruct (event_ext_del fp1 x q) as (fp2 & -> & Hhw2 & Hc2 & Hgone).
    { by rewrite Hc. } { by rewrite Hc. } { by rewrite Hc, Htbl. }
    rewrite Hc in Hhw2, Hc2, Hgone. exists fp2. rewrite Hc, Hc2. by split_and!.
Qed.
End AccelFacts.

(** ** Hardware matches identify flows *)

Lemma cpu_to_be_32_inj a b : in_width 32 a -> in_width 32 b -> rte_cpu_to_be_32 a = rte_cpu_to_be_32 b -> a = b.
Proof.
  unfold rte_cpu_to_be_32, in_width. intros Ha Hb E.
  apply le_combine_inj in E; [|by rewrite !length_be_split|apply be_split_bytes..].
  apply be_split_inj in E; cbn; (done || lia).
Qed.
Lemma cpu_to_be_16_inj a b : in_width 16 a -> in_width 16 b -> rte_cpu_to_be_16 a = rte_cpu_to_be_16 b -> a = b.
Proof.
  unfold rte_cpu_to_be_16, in_width. intros Ha Hb E.
  apply le_combine_inj in E; [|by rewrite !length_be_split|apply be_split_bytes..].
  apply be_split_inj in E; cbn; (done || lia).
Qed.

(** An IPv4 address in the union, the other bytes zero as the match was cleared. *)
Definition is_v4 (u : upf_accel_ip) : Prop := exists a, in_width 32 a /\ u = ip_set_v4 a ip_zero.

Lemma is_v4_inj u v : is_v4 u -> is_v4 v -> rte_cpu_to_be_32 (ip_v4 u) = rte_cpu_to_be_32 (ip_v4 v) -> u = v.
Proof.
  intros (a & Ha & ->) (b & Hb & ->). rewrite !ip_v4_set by done. intros E%cpu_to_be_32_inj; [|done..]. by subst.
Qed.

Record ipv4_flow (d : dir) (m : upf_accel_match_8t) : Prop := {
  v4_version : m5_version (m8_inner m) = L3_IP4;
  v4_l4 : l4_known (m8_inner m);
  v4_ue : is_v4 (ue_ip (m8_inner m));
  v4_extern : is_v4 (extern_ip (m8_inner m));
  v4_ue_port : in_width 16 (ue_port (m8_inner m));
  v4_extern_port : in_width 16 (extern_port (m8_inner m));
  v4_tunnel : d = TUNNELED -> mt_version (m8_outer m) = L3_IP4 /\ is_v4 (te_ip (m8_outer m)) /\
                in_width 32 (te_id (m8_outer m));
}.

Lemma match_5t_eq (m m' : upf_accel_match_5t) :
  ue_ip m = ue_ip m' -> extern_ip m = extern_ip m' -> ue_port m = ue_port m' ->
  extern_port m = extern_port m' -> m5_version m = m5_version m' -> ip_proto m = ip_proto m' -> m = m'.
Proof. destruct m, m'; cbn; congruence. Qed.

(** Equality of one field of two records. *)
Tactic Notation "field" ident(H) constr(f) "as" ident(N) :=
  pose proof (f_equal f H) as N; cbn [f] in N.

(** C35: two IPv4 flows are given the same hardware rule, that is the same pipe
    and the same match, only if they have the same direction, the same 5-tuple
    and, in the uplink, the same tunnel endpoint, TEID and QFI: a rule in
    hardware never catches the packets of another flow. *)
Theorem hw_rule_identifies_flow port port' queue queue' d d' m m' pdr pdr' i i' rq rq' :
  ipv4_flow d m -> ipv4_flow d' m' ->
  flow_request port queue d m pdr i = Done rq -> flow_request port' queue' d' m' pdr' i' = Done rq' ->
  rq_pipe rq = rq_pipe rq' -> rq_match rq = rq_match rq' ->
  d = d' /\ m8_inner m = m8_inner m' /\ (d = TUNNELED -> m8_outer m = m8_outer m').
Proof.
  intros F F'. unfold flow_request, upf_accel_pipe_8t_ipv4_accel, upf_accel_pipe_5t_ipv4_accel, hw_l4.
  assert (forall p, l4_known p -> (ip_proto p =? DOCA_FLOW_PROTO_TCP) || (ip_proto p =? DOCA_FLOW_PROTO_UDP) = true)
    as Hl4 by (by intros p [-> | ->]).
  destruct d, d'; rewrite !Hl4 by (apply F || apply F'); cbn [mbind res_bind]; intros [= <-] [= <-]; cbn [rq_pipe rq_match].
  - intros Hpipe Hm. split; [done|].
    field Hm hw_gtp_ext_psc_qfi as Hqfi. field Hm hw_outer_ip4_src as Hte. field Hm hw_gtp_teid as Hid.
    field Hm hw_inner_ip4_src as Hue. field Hm hw_inner_ip4_dst as Hex. field Hm hw_inner_next_proto as Hpr.
    field Hm hw_inner_l4 as Hl. injection Hl as Hup Hep.
    destruct (v4_tunnel _ _ F eq_refl) as (Hv & Hip & Hw), (v4_tunnel _ _ F' eq_refl) as (Hv' & Hip' & Hw').
    split.
    + apply match_5t_eq; try done; [apply is_v4_inj|apply is_v4_inj|apply cpu_to_be_16_inj|apply cpu_to_be_16_inj|];
        try done; (apply F || apply F' || by rewrite (v4_version _ _ F), (v4_version _ _ F')).
    + intros _. apply is_v4_inj in Hte; [|done..]. apply cpu_to_be_32_inj in Hid; [|done..].
      assert (mt_qfi (m8_outer m) = mt_qfi (m8_outer m')) as Hq.
      { destruct (Z.eqb_spec (mt_qfi (m8_outer m)) 0), (Z.eqb_spec (mt_qfi (m8_outer m')) 0);
          cbn in Hqfi, Hpipe; congruence. }
      destruct (m8_outer m), (m8_outer m'); cbn in *; congruence.
  - by destruct (negb _).
  - by destruct (negb _).
  - intros _ Hm. split; [done|]. split; [|done].
    field Hm hw_outer_ip4_src as Hex. field Hm hw_outer_ip4_dst as Hue. field Hm hw_outer_next_proto as Hpr.
    field Hm hw_outer_l4 as Hl. injection Hl as Hep Hup.
    apply match_5t_eq; try done; [apply is_v4_inj|apply is_v4_inj|apply cpu_to_be_16_inj|apply cpu_to_be_16_inj|];
      try done; (apply F || apply F' || by rewrite (v4_version _ _ F), (v4_version _ _ F')).
Qed.

(** ** Witnesses *)

Definition m4 : upf_accel_match_8t := sample_match TUNNELED gtpu_packet.
Definition m6 : upf_accel_match_8t :=
  let i := m8_inner m4 in {| m4 with m8_inner := {| i with m5_version := L3_IP6 |} |}.

Definition acc_cfg (threshold : Z) : upf_accel_config :=
  {| cfg_pdrs := sample_pdrs; cfg_sw_aging_time_sec := 15; cfg_dpi_threshold := threshold |}.

(** A core whose connection 0 has the given uplink entry and packet count. *)
Definition acc_fp (threshold : Z) (e : upf_accel_flow_entry) (cnt : Z) (slots : nat) : upf_accel_fp_data :=
  let fp := set_conn 0 {| dyn_zero with dc_match := m4; dc_entries := PerDir e flow_entry_zero;
                          dc_cnt_pkts := PerDir cnt 0 |} (sim_fp (acc_cfg threshold) slots) in
  set_dyn_tbl [Some (m8_inner m4)] fp.

Definition soft_entry : upf_accel_flow_entry := sim_entry.
Definition hw_entry (s : upf_accel_entry_state) (x : option Z) : upf_accel_flow_entry :=
  {| sim_entry with fe_entry := Some 100; fe_ext_entry := x; fe_state := s |}.

(** Extension entry 0 in hardware with the given number of users. *)
Definition ext_fp (e : upf_accel_flow_entry) (refs : Z) : upf_accel_fp_data :=
  set_ext 0 {| xc_match := upf_accel_fp_extension_match_extract m6; xc_entry := Some 200; xc_del_next := None;
               xc_hash := 0; xc_md_value := 5; xc_ref_cnt := refs; xc_state := STATE_ACCELERATED |}
    (set_ext_tbl [Some (upf_accel_fp_extension_match_extract m6)] (acc_fp 2 e 1 1)).

(** A device that rejects entries, and one that was asked to remove entry 100. *)
Definition sim_reject : @hw sim_flow := {| sim_ok := false; sim_added := []; sim_removed := [] |}.
Definition sim_removed_100 : @hw sim_flow := {| sim_ok := true; sim_added := []; sim_removed := [Some 100] |}.

Lemma flow_accel_ipv4_witness :
  exists fp', upf_accel_fp_flow_accel (acc_fp 2 soft_entry 1 1) 0 TUNNELED m4 0 = Done (fp', DOCA_SUCCESS) /\
    state fp' 0 TUNNELED = STATE_PENDING_ACCELERATION.
Proof.
  destruct (flow_accel_ipv4 (acc_fp 2 soft_entry 1 1) 0 TUNNELED m4 0) as (fp' & ret & rq & E & Hrq & H);
    [vm_compute; congruence|reflexivity|left; reflexivity|intros _; vm_compute; intuition congruence
    |vm_compute; congruence|].
  exists fp'. assert (E' := E). vm_compute in E'. injection E' as <- <-. split; [exact E|reflexivity].
Defined.

Lemma dpi_threshold_assert_witness :
  upf_accel_fp_flow_accel (acc_fp 3 soft_entry 1 1) 0 TUNNELED m4 0 = Crash AssertFail.
Proof. apply (dpi_threshold_assert (acc_fp 3 soft_entry 1 1) 0 TUNNELED m4 0); [vm_compute; congruence|reflexivity..]. Defined.

Lemma ext_table_full_oob_witness :
  upf_accel_fp_flow_accel (acc_fp 2 soft_entry 1 0) 0 TUNNELED m6 0 = Crash OutOfBounds.
Proof. apply (ext_table_full_oob (acc_fp 2 soft_entry 1 0) 0 TUNNELED m6 0); reflexivity. Defined.

Lemma ext_reference_leak_witness :
  exists fp', upf_accel_fp_flow_accel
      (set_hw sim_reject (ext_fp soft_entry 1)) 0 TUNNELED m6 0
      = Done (fp', DOCA_ERROR_FULL) /\ xc_ref_cnt (ext fp' 0) = 2.
Proof.
  destruct (ext_reference_leak
    (set_hw sim_reject (ext_fp soft_entry 1)) 0 TUNNELED m6 0 0
    sim_reject DOCA_ERROR_FULL 0) as (fp' & E & Href & _);
    [reflexivity|left; reflexivity|reflexivity|reflexivity|reflexivity|vm_compute; congruence|reflexivity|congruence|].
  exists fp'. split; [exact E|]. rewrite Href. reflexivity.
Defined.

Lemma entry_lifecycle_witness :
  exists fp', upf_accel_callbacks (acc_fp 2 (hw_entry STATE_PENDING_ACCELERATION None) 2 1)
      (dyn_event 1 100 0 <$> [ENTRY_OP_ADD; ENTRY_OP_AGED; ENTRY_OP_DEL]) = Done fp' /\
    state fp' 0 TUNNELED = STATE_NONE.
Proof.
  destruct (entry_lifecycle (acc_fp 2 (hw_entry STATE_PENDING_ACCELERATION None) 2 1) 0 TUNNELED 1 100
    sim_removed_100) as (fp' & E & _ & Hst & _);
    [reflexivity|by eexists|reflexivity|reflexivity|reflexivity|discriminate|reflexivity
    |vm_compute; intuition congruence|].
  exists fp'. split; [exact E|]. rewrite Hst. reflexivity.
Defined.

Lemma ext_teardown_order_witness :
  exists fp1 fp2, upf_accel_callbacks (ext_fp (hw_entry STATE_ACCELERATED (Some 0)) 1)
      [dyn_event 1 100 0 ENTRY_OP_AGED] = Done fp1 /\
    upf_accel_callbacks fp1 [ext_event 1 0 ENTRY_OP_DEL] = Done fp2 /\
    sim_removed (fp_hw fp2) = [Some 200; Some 100].
Proof.
  destruct (ext_teardown_order (ext_fp (hw_entry STATE_ACCELERATED (Some 0)) 1) 0 TUNNELED 1 100 0) as [_ H];
    [reflexivity|discriminate|reflexivity|reflexivity|vm_compute; intuition congruence|reflexivity|reflexivity
    |by eexists|].
  destruct (H eq_refl) as (fp1 & fp2 & E1 & H1 & _ & _ & E2 & H2 & _).
  exists fp1, fp2. split; [exact E1|]. split; [exact E2|]. rewrite H2, H1. reflexivity.
Defined.

Lemma hw_rule_identifies_flow_witness :
  exists rq, flow_request 0 1 TUNNELED m4 2 0 = Done rq /\ m8_inner m4 = m8_inner m4.
Proof.
  assert (ipv4_flow TUNNELED m4) as F.
  { split; try reflexivity.
    - left. reflexivity.
    - exists 0xac100005. split; [split; vm_compute; congruence|reflexivity].
    - exists 0x08080808. split; [split; vm_compute; congruence|reflexivity].
    - split; vm_compute; congruence.
    - split; vm_compute; congruence.
    - intros _. split; [reflexivity|]. split; [|split; vm_compute; congruence].
      exists 0x0a000001. split; [split; vm_compute; congruence|reflexivity]. }
  eexists. split; [reflexivity|].
  exact (proj1 (proj2 (hw_rule_identifies_flow 0 0 1 1 TUNNELED TUNNELED m4 m4 2 2 0 0 _ _ F F
    eq_refl eq_refl eq_refl eq_refl))).
Defined.
