(* ===== verification/UpfFlow.v ===== *)
(** * UpfFlow: packet bursts and the main loop of the UPF fast path,
      src/applications/upf_accel/upf_accel_flow_processing.c

    [upf_accel_fp_run_port] is one iteration for one port: match the packets,
    find or create their connections, accelerate flows, decapsulate and send,
    then let DOCA Flow report aged and completed entries. What the environment
    decides is an argument, [port_io]: the packets received, clock readings, the
    callbacks DOCA Flow makes, how many packets the NIC takes.

    A burst is a list of [slot]s, the i-th elements of the arrays of
    [struct upf_accel_fp_burst_ctx]. Freed packets are returned in a list of
    their own, so that no packet can get lost unnoticed. *)

From S2P Require Import Prelude Wire PacketParser UpfTypes UpfSim UpfMatch UpfAging UpfAccel.

Definition UPF_ACCEL_HW_AGING_POLL_INTERVAL_SEC : Z := 1.

Section Flow.
Context `{!RteNet, !RteMbuf}.
Context `{!RteHash upf_accel_match_5t, !RteHash upf_accel_match_extension, !DocaFlow}.
Implicit Types (fp : upf_accel_fp_data) (i : Z) (d : dir).

(** ** Connections *)

(** The tunnel of a packet of a known connection; [None] when it is not the one of
    the live connection. *)
Definition conn_tunnel_update fp d (m : upf_accel_match_8t) i : res (option upf_accel_fp_data) :=
  match d with
  | TUNNELED =>
    differs ← (if upf_accel_fp_entry_is_alive (state fp i d)
               then negb <$> upf_accel_fp_tunnel_eq (m8_outer m) (m8_outer (dc_match (conn fp i)))
               else Done false);
    if differs : bool then Done None
    else
      let c := conn fp i in
      let cm := dc_match c in
      Done (Some (set_conn i {| c with dc_match := {| cm with m8_outer := m8_outer m |} |} fp))
  | PLAIN => Done (Some fp)
  end.

(** The result is the position of the connection when the code is DOCA_SUCCESS. *)
Definition upf_accel_fp_conn_lookup fp (rx_port : Z) d (m : upf_accel_match_8t) (conn_idx : option Z)
    : res (upf_accel_fp_data * (doca_error_t * Z)) :=
  match conn_idx with
  | None =>
    pdr ← upf_accel_fp_pdr_lookup (cfg_pdrs (fp_cfg fp)) d m;
    match pdr with
    | None => Done (fp, (DOCA_ERROR_NOT_FOUND, 0))
    | Some pdr =>
      let hash := rte_hash_hash (m8_inner m) in
      let '(tbl, pos) := rte_hash_add_key_with_hash (fp_dyn_tbl fp) (m8_inner m) hash in
      let fp := set_dyn_tbl tbl fp in
      match pos with
      | None => Done (upd_failed inc_accel_errors d fp, (DOCA_ERROR_FULL, 0))
      | Some i =>
        let fp := set_conn i {| dyn_zero with
                                dc_match := m; dc_hash := hash; dc_port_id := rx_port;
                                dc_pdr_id := pset d (pdr_id pdr) (dc_pdr_id dyn_zero);
                                dc_conn_idx := i |} fp in
        fp ← entry_state_to fp i d STATE_PENDING;
        Done (upf_accel_sw_aging_ll_node_init fp i d, (DOCA_SUCCESS, i))
      end
    end
  | Some i =>
    r ← conn_tunnel_update fp d m i;
    match r with
    | None => Done (fp, (DOCA_ERROR_ALREADY_EXIST, 0))
    | Some fp =>
      if negb (upf_accel_fp_entry_is_alive (state fp i d)) then
        pdr ← upf_accel_fp_pdr_lookup (cfg_pdrs (fp_cfg fp)) d m;
        match pdr with
        | None => Done (fp, (DOCA_ERROR_NOT_FOUND, 0))
        | Some pdr =>
          fp ← entry_state_to fp i d STATE_PENDING;
          let c := conn fp i in
          let fp := set_conn i {| c with dc_pdr_id := pset d (pdr_id pdr) (dc_pdr_id c) |} fp in
          Done (upf_accel_sw_aging_ll_node_init fp i d, (DOCA_SUCCESS, i))
        end
      else Done (fp, (DOCA_SUCCESS, i))
    end
  end.

(** ** Bursts *)

(** One packet of a burst; [b_tsc] is the clock when it is post-processed. *)
Record slot := {
  b_pkt : rte_mbuf;
  b_tsc : Z;
  b_type : dir;
  b_match : upf_accel_match_8t;
  b_parse : tun_parser_ctx;
  b_conn : Z;
  b_drop : bool;
}.

Fixpoint upf_accel_fp_pkts_match (rx : list (rte_mbuf * Z)) : res (list slot) :=
  match rx with
  | [] => Done []
  | (pkt, tsc) :: rx =>
    d ← upf_accel_fp_fetch_pkt_type (mb_metadata pkt);
    '(ret, c, m) ← upf_accel_fp_pkt_match d (mb_data pkt) tun_zero;
    rest ← upf_accel_fp_pkts_match rx;
    Done ({| b_pkt := pkt; b_tsc := tsc; b_type := d; b_match := m; b_parse := c; b_conn := 0;
             b_drop := negb (is_success ret) |} :: rest)
  end.

Fixpoint conns_lookup_loop fp (rx_port : Z) (b : list (slot * option Z))
    : res (upf_accel_fp_data * list slot) :=
  match b with
  | [] => Done (fp, [])
  | (s, idx) :: b =>
    if b_drop s then
      '(fp, b) ← conns_lookup_loop fp rx_port b; Done (fp, s :: b)
    else
      '(fp, (ret, i)) ← upf_accel_fp_conn_lookup fp rx_port (b_type s) (b_match s) idx;
      '(fp, b) ← conns_lookup_loop fp rx_port b;
      Done (fp, (if is_success ret then {| s with b_conn := i |} else {| s with b_drop := true |}) :: b)
  end.

(** [rte_hash_lookup_bulk] looks all packets up before any connection is made. *)
Definition upf_accel_fp_conns_lookup fp (rx_port : Z) (b : list slot)
    : res (upf_accel_fp_data * list slot) :=
  conns_lookup_loop fp rx_port
    (map (fun s => (s, rte_hash_lookup (fp_dyn_tbl fp) (m8_inner (b_match s)))) b).

Definition upf_accel_packet_byte_counter_inc (c : upf_accel_packet_byte_counter) (pkt : rte_mbuf)
    : upf_accel_packet_byte_counter :=
  {| pb_pkts := inc64 (pb_pkts c); pb_bytes := u64 (pb_bytes c + rte_pktmbuf_pkt_len pkt) |}.

Definition count_new (pkt : rte_mbuf) fp : upf_accel_fp_data :=
  let s := fp_sw_counters fp in
  {| fp with fp_sw_counters :=
     {| s with sw_new_conn := upf_accel_packet_byte_counter_inc (sw_new_conn s) pkt |} |}.
Definition count_ex (pkt : rte_mbuf) fp : upf_accel_fp_data :=
  let s := fp_sw_counters fp in
  {| fp with fp_sw_counters :=
     {| s with sw_ex_conn := upf_accel_packet_byte_counter_inc (sw_ex_conn s) pkt |} |}.

(** The packet is freed by the caller of this function in the model. *)
Definition upf_accel_fp_pkt_err_drop (pkt : rte_mbuf) fp : upf_accel_fp_data :=
  let s := fp_sw_counters fp in
  {| fp with fp_sw_counters :=
     {| s with sw_err := upf_accel_packet_byte_counter_inc (sw_err s) pkt |} |}.

Definition flow_account fp (s : slot) : upf_accel_fp_data :=
  let i := b_conn s in let d := b_type s in
  let fp := if negb (pget d (dc_cnt_pkts (conn fp i)) =? 0) then count_ex (b_pkt s) fp
            else count_new (b_pkt s) fp in
  let c := conn fp i in
  set_conn i {| c with dc_cnt_pkts := palter inc64 d (dc_cnt_pkts c);
                       dc_cnt_bytes := palter (fun x => u64 (x + rte_pktmbuf_pkt_len (b_pkt s))) d
                                         (dc_cnt_bytes c) |} fp.

Fixpoint upf_accel_fp_flows_accel fp (rx_port : Z) (b : list slot) : res upf_accel_fp_data :=
  match b with
  | [] => Done fp
  | s :: b =>
    if b_drop s then upf_accel_fp_flows_accel fp rx_port b
    else
      '(fp, _) ← upf_accel_fp_flow_accel fp rx_port (b_type s) (b_match s) (b_conn s);
      upf_accel_fp_flows_accel (flow_account fp s) rx_port b
  end.

Definition upf_accel_md_set (pkt : rte_mbuf) (md : Z) : res rte_mbuf :=
  _ ← assert_ (md <? UPF_ACCEL_MAX_NUM_PDR); Done (mb_set_metadata md pkt).

Definition is_flow_unaccelerated fp d i : bool := bool_decide (state fp i d = STATE_UNACCELERATED).

(** The results are the packets to send and the packets freed. *)
Fixpoint upf_accel_fp_burst_postprocess fp (b : list slot)
    : res (upf_accel_fp_data * (list rte_mbuf * list rte_mbuf)) :=
  match b with
  | [] => Done (fp, ([], []))
  | s :: b =>
    if b_drop s then
      let fp := upf_accel_fp_pkt_err_drop (b_pkt s) fp in
      '(fp, (tx, freed)) ← upf_accel_fp_burst_postprocess fp b;
      Done (fp, (tx, b_pkt s :: freed))
    else
      let i := b_conn s in let d := b_type s in
      pkt ← (match d with TUNNELED => upf_accel_decap (b_pkt s) (b_parse s) | PLAIN => Done (b_pkt s) end);
      let fp := if is_flow_unaccelerated fp d i
                then upf_accel_sw_aging_ll_node_move_to_head fp i d (b_tsc s) else fp in
      pkt ← upf_accel_md_set pkt (pget d (dc_pdr_id (conn fp i)));
      '(fp, (tx, freed)) ← upf_accel_fp_burst_postprocess fp b;
      Done (fp, (pkt :: tx, freed))
  end.

(** ** Ports *)

Definition upf_accel_aging_init fp (tscs : list Z) : upf_accel_fp_data :=
  {| fp with fp_last_hw_aging_tsc :=
     foldl (fun m p => <[Z.of_nat p.1 := p.2]> m) (fp_last_hw_aging_tsc fp) (imap pair tscs) |}.

(** [num_aged] and [aged] are the result of [doca_flow_aging_handle] and the
    callbacks it makes; [tsc1], [tsc2] the two clock readings. *)
Definition upf_accel_hw_aging_poll fp (port tsc1 tsc2 hz num_aged : Z) (aged : list cb_event)
    : res upf_accel_fp_data :=
  let aging_interval_tsc := u64 (UPF_ACCEL_HW_AGING_POLL_INTERVAL_SEC * hz) in
  let fp := if aging_interval_tsc <=? u64 (tsc1 - fp_last_hw_aging_tsc fp !!! port)
            then {| fp with fp_hw_aging_in_progress := <[port := true]> (fp_hw_aging_in_progress fp);
                            fp_last_hw_aging_tsc := <[port := tsc2]> (fp_last_hw_aging_tsc fp) |}
            else fp in
  if negb (default false (fp_hw_aging_in_progress fp !! port)) then Done fp
  else
    fp ← upf_accel_callbacks fp aged;
    Done (if num_aged =? -1
          then {| fp with fp_hw_aging_in_progress := <[port := false]> (fp_hw_aging_in_progress fp) |}
          else fp).

Record port_io := {
  io_rx : list (rte_mbuf * Z);
  io_tsc1 : Z;
  io_tsc2 : Z;
  io_hz : Z;
  io_num_aged : Z;
  io_aged : list cb_event;
  io_processed : list cb_event;
  io_sent : nat;
}.

(** The packets handed to the NIC and the packets freed. *)
Definition upf_accel_fp_run_port fp (rx_port : Z) (io : port_io)
    : res (upf_accel_fp_data * (list rte_mbuf * list rte_mbuf)) :=
  b ← upf_accel_fp_pkts_match (io_rx io);
  '(fp, b) ← upf_accel_fp_conns_lookup fp rx_port b;
  fp ← upf_accel_fp_flows_accel fp rx_port b;
  '(fp, (tx, freed)) ← upf_accel_fp_burst_postprocess fp b;
  fp ← upf_accel_hw_aging_poll fp rx_port (io_tsc1 io) (io_tsc2 io) (io_hz io) (io_num_aged io) (io_aged io);
  fp ← upf_accel_callbacks fp (io_processed io);
  let unsent := drop (io_sent io) tx in
  Done (foldl (fun fp pkt => upf_accel_fp_pkt_err_drop pkt fp) fp unsent,
        (take (io_sent io) tx, freed ++ unsent)).

(** One [port_io] per port, in port order. *)
Fixpoint run_ports fp (port : Z) (ios : list port_io) : res upf_accel_fp_data :=
  match ios with
  | [] => Done fp
  | io :: ios => '(fp, _) ← upf_accel_fp_run_port fp port io; run_ports fp (port + 1) ios
  end.
Definition upf_accel_fp_run fp (ios : list port_io) : res upf_accel_fp_data := run_ports fp 0 ios.

(** ** Quotas and the main loop *)

(** Comparing the counter of a PDR with its quotas has no effect so far: the code
    leaves the reaction open. *)
Definition handle_exceeds_quota_for_pdr (quotas : list Z) (total_bytes : Z) : doca_error_t :=
  foldl (fun r quota => if quota <=? total_bytes then r else r) DOCA_SUCCESS quotas.

(** Per port, the answer to the query and, for every counter, the quotas of its PDR
    and the bytes counted. *)
Fixpoint handle_exceeds_quotas (cntrs_num : nat) (ports : list (doca_error_t * list (list Z * Z)))
    : doca_error_t :=
  match cntrs_num, ports with
  | O, _ | _, [] => DOCA_SUCCESS
  | _, (result, cntrs) :: ports =>
    if negb (is_success result) then result
    else if forallb (fun c => is_success (handle_exceeds_quota_for_pdr c.1 c.2)) (take cntrs_num cntrs)
    then handle_exceeds_quotas cntrs_num ports
    else DOCA_ERROR_UNKNOWN
  end.

(** What the environment does during one iteration of the main loop. *)
Record iteration := {
  it_ports : list port_io;
  it_scan_fuel : nat;
  it_tsc_tunneled : Z;
  it_tsc_plain : Z;
  it_hz : Z;
  it_cntrs_num : nat;
  it_quotas : list (doca_error_t * list (list Z * Z));
}.

(** The [while (!force_quit)] loop. *)
Fixpoint fp_iterations fp (its : list iteration) : res upf_accel_fp_data :=
  match its with
  | [] => Done fp
  | it :: its =>
    fp ← upf_accel_fp_run fp (it_ports it);
    fp ← upf_accel_sw_aging_ll_scan (it_scan_fuel it) fp TUNNELED (it_tsc_tunneled it) (it_hz it);
    fp ← upf_accel_sw_aging_ll_scan (it_scan_fuel it) fp PLAIN (it_tsc_plain it) (it_hz it);
    if negb (is_success (handle_exceeds_quotas (it_cntrs_num it) (it_quotas it))) then Done fp
    else fp_iterations fp its
  end.

(** [tscs] are the clock readings of the initialisation, one per port. *)
Definition upf_accel_fp_loop fp (tscs : list Z) (its : list iteration) : res upf_accel_fp_data :=
  fp_iterations (upf_accel_aging_init fp tscs) its.
End Flow.

(** ** The table invariant is kept by everything the main loop does *)

Section FlowInv.
Context `{!RteNet, !RteMbuf}.
Context `{!RteHash upf_accel_match_5t, !RteHash upf_accel_match_extension, !DocaFlow}.
Context `{!RteHashLaws upf_accel_match_5t}.
Implicit Types (fp : upf_accel_fp_data) (i j : Z) (d : dir).

Lemma scan_loop_inv fuel fp d tsc period curr fp' c :
  tbl_inv fp -> ll_scan_loop fuel fp d tsc period curr = Done (fp', c) -> tbl_inv fp'.
Proof.
  revert fp curr. induction fuel as [|fuel IH]; intros fp curr Hinv; cbn [ll_scan_loop]; [done|].
  destruct (negb _); [by intros [= <- _]|]. destruct (_ <? period); [by intros [= <- _]|].
  intros E. inv_bind E. destruct x as [fp1 ret]. eapply IH; [|exact E].
  apply delete_flow_inv in E0 as [Hinv1 _]; [|done].
  eapply tbl_inv_live_same; [|exact Hinv1]. apply (live_same_only_list d).
  etrans; [|apply only_list_upd_unaccel]. apply only_list_if; [apply only_list_upd_unaccel|done].
Qed.

Lemma scan_inv fuel fp d tsc hz fp' :
  tbl_inv fp -> upf_accel_sw_aging_ll_scan fuel fp d tsc hz = Done fp' -> tbl_inv fp'.
Proof.
  unfold upf_accel_sw_aging_ll_scan. intros Hinv E. inv_bind E. destruct x as [fp1 c].
  injection E as <-. apply scan_loop_inv in E0; [|done].
  eapply tbl_inv_live_same; [|exact E0]. apply (live_same_only_list d), only_list_set_ll.
Qed.

(** A new connection at the position the table gave its key. *)
Lemma new_conn_inv fp k i tbl c d :
  tbl_inv fp -> rte_hash_add_key_with_hash (fp_dyn_tbl fp) k (rte_hash_hash k) = (tbl, Some i) ->
  m8_inner (dc_match c) = k -> dc_conn_idx c = i -> dc_hash c = rte_hash_hash k ->
  fe_state (pget d (dc_entries c)) <> STATE_NONE ->
  tbl_inv (set_conn i c (set_dyn_tbl tbl fp)) /\
  forall j, keyed fp j -> keyed (set_conn i c (set_dyn_tbl tbl fp)) j.
Proof.
  intros [Hok Hkey] Eadd Hk Hidx Hhash Hs. set (fp' := set_conn i c (set_dyn_tbl tbl fp)).
  assert (conn fp' i = c) as Hci by (unfold fp'; by rewrite conn_set_conn, decide_True).
  assert (forall j, j <> i -> conn fp' j = conn fp j) as Hcj
    by (intros j Hj; unfold fp'; by rewrite conn_set_conn, decide_False).
  assert (keyed fp' i) as Hki by (unfold keyed, key; by rewrite Hci, Hhash, Hk).
  split; [split|].
  - intros k' j Hkj. change (rte_hash_lookup tbl k' = Some j) in Hkj.
    destruct (decide (k = k')) as [<-|Hne].
    + rewrite (hash_add_lookup _ _ _ _ Eadd) in Hkj. injection Hkj as <-.
      unfold state, entry. unfold key at 1. rewrite Hci. split_and!; [done..|by exists d].
    + assert (j <> i) as Hji.
      { intros ->. apply Hne. exact (hash_lookup_inj _ _ _ _ (hash_add_lookup _ _ _ _ Eadd) Hkj). }
      rewrite (hash_add_other _ _ _ _ _ Eadd Hne) in Hkj. destruct (Hok _ _ Hkj) as (? & ? & ? & e & He).
      unfold state, entry, keyed, key in *. rewrite (Hcj j Hji). eauto 10.
  - intros j e Hu. destruct (decide (j = i)) as [->|Hji]; [done|].
    unfold in_use, state, entry, keyed, key in *. rewrite (Hcj j Hji) in *. by apply (Hkey j e).
  - intros j Hj. destruct (decide (j = i)) as [->|Hji]; [done|].
    unfold keyed, key in *. by rewrite (Hcj j Hji).
Qed.

(** Changing the tunnel match or a PDR id of a connection. *)
Lemma live_same_set_conn i c fp :
  m8_inner (dc_match c) = key fp i -> dc_conn_idx c = dc_conn_idx (conn fp i) ->
  dc_hash c = dc_hash (conn fp i) -> dc_entries c = dc_entries (conn fp i) ->
  live_same fp (set_conn i c fp).
Proof.
  intros Hm Hi Hh He. assert (forall j, key (set_conn i c fp) j = key fp j /\
    dc_conn_idx (conn (set_conn i c fp) j) = dc_conn_idx (conn fp j) /\
    dc_hash (conn (set_conn i c fp) j) = dc_hash (conn fp j) /\
    dc_entries (conn (set_conn i c fp) j) = dc_entries (conn fp j)) as Hall.
  { intros j. unfold key at 1. rewrite conn_set_conn. case_decide as Hij; [by subst j|done]. }
  split; try (intros j; apply Hall); [done|..].
  - intros j e. unfold state, entry. by rewrite (proj2 (proj2 (proj2 (Hall j)))).
  - intros j e. unfold in_use, state, entry. rewrite (proj2 (proj2 (proj2 (Hall j)))). auto.
Qed.

(** What a step of connection lookup may do to the invariant. *)
Definition inv_step fp fp' : Prop := tbl_inv fp' /\ forall j, keyed fp j -> keyed fp' j.

Lemma inv_step_live fp fp' : tbl_inv fp -> live_same fp fp' -> inv_step fp fp'.
Proof.
  intros Hinv Hl. split; [by eapply tbl_inv_live_same|]. intros j. by apply (keyed_live_same _ _ j Hl).
Qed.
Lemma inv_step_trans fp1 fp2 fp3 : inv_step fp1 fp2 -> inv_step fp2 fp3 -> inv_step fp1 fp3.
Proof. intros [_ Ha] [Hb Hc]. split; auto. Qed.

Lemma new_entry_live fp i d fp' :
  keyed fp i -> entry_state_to fp i d STATE_PENDING = Done fp' ->
  live_same fp (upf_accel_sw_aging_ll_node_init fp' i d).
Proof.
  intros Hk E. etrans; [by eapply entry_state_to_live|].
  apply (live_same_only_list d), only_list_set_node.
Qed.

Lemma conn_lookup_new_inv fp port d m fp' ret i :
  tbl_inv fp -> upf_accel_fp_conn_lookup fp port d m None = Done (fp', (ret, i)) ->
  inv_step fp fp' /\ (ret = DOCA_SUCCESS -> keyed fp' i).
Proof.
  intros Hinv. unfold upf_accel_fp_conn_lookup. intros E. inv_bind E.
  destruct x as [pdr|]; [|injection E as <- <- _; split; [by apply inv_step_live|done]].
  destruct (rte_hash_add_key_with_hash _ _ _) as [tbl [pos|]] eqn:Eadd.
  2: { injection E as <- <- _. split; [|done]. apply hash_add_fail in Eadd as ->.
       apply inv_step_live; [done|]. etrans; [|apply live_same_upd_failed]. split; auto. }
  inv_bind E. injection E as <- <- <-. unfold entry_state_to in E1. inv_bind E1. injection E1 as <-.
  apply state_change_to in E as ->.
  unfold upf_accel_sw_aging_ll_node_init, set_node, set_state. rewrite !set_entry_set_conn.
  match goal with |- context [set_conn pos ?c' _] => set (c := c') end.
  destruct (new_conn_inv fp _ pos tbl c d Hinv Eadd) as [Hinv' Hmono]; try done.
  { unfold c. cbn. rewrite pget_pset. cbn. unfold entry. rewrite conn_set_conn, decide_True by done.
    cbn. by rewrite pget_pset. }
  split; [done|]. intros _. unfold keyed, key. by rewrite conn_set_conn, decide_True.
Qed.

Lemma conn_lookup_old_inv fp port d m idx fp' ret i :
  tbl_inv fp -> keyed fp idx ->
  upf_accel_fp_conn_lookup fp port d m (Some idx) = Done (fp', (ret, i)) ->
  inv_step fp fp' /\ (ret = DOCA_SUCCESS -> keyed fp' i).
Proof.
  intros Hinv Hk. unfold upf_accel_fp_conn_lookup. intros E. inv_bind E.
  destruct x as [fp1|]; [|injection E as <- <- _; split; [by apply inv_step_live|done]].
  assert (live_same fp fp1) as Hl1.
  { unfold conn_tunnel_update in E0. destruct d; [|by injection E0 as <-]. inv_bind E0. destruct x; [done|]. injection E0 as <-.
    by apply live_same_set_conn. }
  assert (keyed fp1 idx) as Hk1 by (by apply (keyed_live_same _ _ _ Hl1)).
  destruct (negb _).
  2: { injection E as <- <- <-. split; [by apply inv_step_live|done]. }
  inv_bind E. destruct x as [pdr|]; [|injection E as <- <- _; split; [by apply inv_step_live|done]].
  inv_bind E. injection E as <- <- <-. apply entry_state_to_live in E2 as Hl2; [|done..].
  match goal with |- context [upf_accel_sw_aging_ll_node_init (set_conn idx ?c x) idx d] =>
    assert (live_same x (set_conn idx c x)) as Hl3 by (by apply live_same_set_conn);
    assert (live_same (set_conn idx c x) (upf_accel_sw_aging_ll_node_init (set_conn idx c x) idx d)) as Hl4
      by (apply (live_same_only_list d), only_list_set_node)
  end.
  assert (live_same fp x) as Hlx by (by etrans).
  assert (Hl := transitivity (transitivity Hlx Hl3) Hl4).
  split; [by apply inv_step_live|]. intros _. by apply (keyed_live_same _ _ _ Hl).
Qed.

Lemma conn_lookup_inv fp port d m idx fp' ret i :
  tbl_inv fp -> (forall j, idx = Some j -> keyed fp j) ->
  upf_accel_fp_conn_lookup fp port d m idx = Done (fp', (ret, i)) ->
  inv_step fp fp' /\ (ret = DOCA_SUCCESS -> keyed fp' i).
Proof.
  intros Hinv Hk. destruct idx as [j|]; [apply conn_lookup_old_inv; auto|by apply conn_lookup_new_inv].
Qed.

(** The connection of every packet that is not dropped is initialised. *)
Definition slots_keyed fp (b : list slot) : Prop :=
  forall s, s ∈ b -> b_drop s = false -> keyed fp (b_conn s).

Lemma conns_loop_inv fp port b fp' b' :
  tbl_inv fp -> (forall s j, (s, Some j) ∈ b -> keyed fp j) ->
  conns_lookup_loop fp port b = Done (fp', b') -> inv_step fp fp' /\ slots_keyed fp' b'.
Proof.
  revert fp b'. induction b as [|[s idx] b IH]; intros fp b' Hinv Hk; cbn.
  { intros [= <- <-]. split; [by apply inv_step_live|]. intros s Hs. by apply elem_of_nil in Hs. }
  destruct (b_drop s) eqn:Ed.
  - intros E. inv_bind E. destruct x as [fp1 b1]. injection E as <- <-.
    apply IH in E0 as [Hstep Hsk]; [|done|intros; eapply Hk; by apply list_elem_of_further].
    split; [done|]. intros s' [->|Hs']%elem_of_cons; [congruence|by apply Hsk].
  - intros E. inv_bind E. destruct x as [fp1 [ret i]]. inv_bind E. destruct x as [fp2 b2].
    injection E as <- <-.
    apply conn_lookup_inv in E0 as [Hs1 Hi]; [|done|intros j ->; eapply Hk; by apply list_elem_of_here].
    apply IH in E1 as [Hs2 Hsk]; [|apply Hs1|].
    2: { intros s' j Hin. apply Hs1. eapply Hk. by apply list_elem_of_further. }
    split; [by eapply inv_step_trans|]. intros s' [->|Hs']%elem_of_cons; [|by apply Hsk].
    destruct (is_success ret) eqn:Er; cbn; [|done]. intros _. apply Hs2, Hi. by apply is_success_true.
Qed.

Lemma flows_accel_inv fp port b fp' :
  tbl_inv fp -> slots_keyed fp b -> upf_accel_fp_flows_accel fp port b = Done fp' -> tbl_inv fp'.
Proof.
  revert fp. induction b as [|s b IH]; intros fp Hinv Hk; cbn; [by intros [= <-]|].
  destruct (b_drop s) eqn:Ed.
  { apply IH; [done|]. intros s' Hs'. apply Hk. by apply list_elem_of_further. }
  intros E. inv_bind E. destruct x as [fp1 ret].
  assert (keyed fp (b_conn s)) as Hks by (apply Hk; [by apply list_elem_of_here|done]).
  apply flow_accel_live in E0 as Hl; [|done].
  assert (live_same fp (flow_account fp1 s)) as Hl'.
  { etrans; [exact Hl|]. unfold flow_account.
    match goal with |- context [if ?b then count_ex _ _ else _] =>
      transitivity (if b then count_ex (b_pkt s) fp1 else count_new (b_pkt s) fp1) end.
    - apply live_same_if; split; auto.
    - by apply live_same_set_conn. }
  apply (inv_step_live _ _ Hinv) in Hl' as [Hinv' Hmono]. eapply IH; [exact Hinv'| |exact E].
  intros s' Hs' Hd'. apply Hmono, Hk; [by apply list_elem_of_further|done].
Qed.

Lemma postprocess_live fp b fp' out :
  upf_accel_fp_burst_postprocess fp b = Done (fp', out) -> live_same fp fp'.
Proof.
  revert fp out. induction b as [|s b IH]; intros fp out; cbn; [by intros [= <- _]|].
  destruct (b_drop s).
  - intros E. inv_bind E. destruct x as [fp1 [tx fr]]. injection E as <- _.
    apply IH in E0. etrans; [|exact E0]. split; auto.
  - intros E. inv_bind E. inv_bind E. inv_bind E. destruct x1 as [fp1 [tx fr]]. injection E as <- _.
    apply IH in E2. etrans; [|exact E2]. apply live_same_if; [|done].
    apply (live_same_only_list (b_type s)), only_list_move.
Qed.

Lemma hw_aging_poll_inv fp port t1 t2 hz n aged fp' :
  tbl_inv fp -> upf_accel_hw_aging_poll fp port t1 t2 hz n aged = Done fp' -> tbl_inv fp'.
Proof.
  unfold upf_accel_hw_aging_poll. intros Hinv.
  match goal with |- context [if ?c then {| fp_cfg := _ |} else fp] =>
    set (fp1 := if c then _ else fp) end.
  assert (tbl_inv fp1) as Hinv1.
  { eapply tbl_inv_live_same; [|exact Hinv]. unfold fp1. apply live_same_if; split; auto. }
  destruct (negb _); [by intros [= <-]|]. intros E. inv_bind E. injection E as <-.
  apply callbacks_inv in E0; [|done]. eapply tbl_inv_live_same; [|exact E0].
  apply live_same_if; split; auto.
Qed.

Lemma err_drops_live pkts fp :
  live_same fp (foldl (fun fp pkt => upf_accel_fp_pkt_err_drop pkt fp) fp pkts).
Proof.
  revert fp. induction pkts as [|p pkts IH]; intros fp; cbn; [done|]. etrans; [|apply IH]. split; auto.
Qed.

Lemma run_port_inv fp port io fp' out :
  tbl_inv fp -> upf_accel_fp_run_port fp port io = Done (fp', out) -> tbl_inv fp'.
Proof.
  intros Hinv. unfold upf_accel_fp_run_port. intros E.
  inv_bind E. inv_bind E. destruct x0 as [fp1 b]. inv_bind E. inv_bind E. destruct x1 as [fp2 [tx fr]].
  inv_bind E. inv_bind E. injection E as <- _.
  apply conns_loop_inv in E1 as [[Hinv1 _] Hsk]; [|done|].
  2: { intros s j Hin. apply list_elem_of_fmap in Hin as (s' & [= -> Hj] & _). symmetry in Hj.
       by destruct (ti_ok _ Hinv _ _ Hj) as (_ & _ & ? & _). }
  apply flows_accel_inv in E2; [|done..]. apply postprocess_live in E3.
  apply (tbl_inv_live_same _ _ E3) in E2. apply hw_aging_poll_inv in E4; [|done].
  apply callbacks_inv in E5; [|done]. eapply tbl_inv_live_same; [apply err_drops_live|done].
Qed.

Lemma run_ports_inv ios fp port fp' : tbl_inv fp -> run_ports fp port ios = Done fp' -> tbl_inv fp'.
Proof.
  revert fp port. induction ios as [|io ios IH]; intros fp port Hinv; cbn; [by intros [= <-]|].
  intros E. inv_bind E. destruct x as [fp1 out]. eapply IH; [|exact E]. by eapply run_port_inv.
Qed.

Lemma iterations_inv fp fp' its : tbl_inv fp -> fp_iterations fp its = Done fp' -> tbl_inv fp'.
Proof.
  revert fp. induction its as [|it its IH]; intros fp Hinv; cbn; [by intros [= <-]|].
  intros E. inv_bind E. inv_bind E. inv_bind E.
  assert (tbl_inv x1) as Hx1.
  { eapply scan_inv; [|exact E2]. eapply scan_inv; [|exact E1]. by eapply run_ports_inv. }
  destruct (negb _); [by injection E as <-|]. by eapply IH.
Qed.

(** C1: whatever packets arrive, whatever DOCA Flow reports and however time
    passes, as long as the core keeps running every key of its connection table
    leads to a connection that carries this key, knows its own position and is
    alive in a direction: no packet is ever attributed to a stale or foreign
    connection record. *)
Theorem loop_table_invariant fp fp' (tscs : list Z) (its : list iteration) :
  tbl_inv fp -> upf_accel_fp_loop fp tscs its = Done fp' -> tbl_inv fp'.
Proof.
  unfold upf_accel_fp_loop. intros Hinv. apply iterations_inv.
  eapply tbl_inv_live_same; [|exact Hinv]. split; auto.
Qed.
End FlowInv.

(** ** What finding a connection does *)

Section ConnLookup.
Context `{!RteNet, !RteMbuf}.
Context `{!RteHash upf_accel_match_5t, !RteHash upf_accel_match_extension, !DocaFlow}.
Context `{!RteHashLaws upf_accel_match_5t}.
Implicit Types (fp : upf_accel_fp_data) (i j : Z) (d : dir) (m : upf_accel_match_8t).

(** Two tunnels are the same: address (of the first one's version), id and QFI. *)
Definition same_tunnel (t1 t2 : upf_accel_match_tun) : Prop :=
  mt_version t1 = mt_version t2 /\ te_id t1 = te_id t2 /\ mt_qfi t1 = mt_qfi t2 /\
  if decide (mt_version t1 = L3_IP6) then te_ip t1 = te_ip t2 else ip_v4 (te_ip t1) = ip_v4 (te_ip t2).

Lemma tunnel_eq_decides t1 t2 :
  mt_version t1 <> L3_NONE -> decides (upf_accel_fp_tunnel_eq t1 t2) (same_tunnel t1 t2).
Proof.
  intros Hv. unfold upf_accel_fp_tunnel_eq, same_tunnel.
  destruct (mt_version t1); [done|..]; eexists; (split; [reflexivity|]); cbn [mbind res_bind];
    rewrite !andb_true_iff, negb_involutive, bool_decide_eq_true, !Z.eqb_eq, ?bool_decide_eq_true;
    case_decide; try done; tauto.
Qed.

(** Connection [i] of [fp'] is a new one for a packet with match [m]. *)
Record is_new_conn fp port d m (p : upf_accel_pdr) fp' i : Prop := {
  nc_lookup : rte_hash_lookup (fp_dyn_tbl fp') (m8_inner m) = Some i;
  nc_others : forall k, k <> m8_inner m ->
    rte_hash_lookup (fp_dyn_tbl fp') k = rte_hash_lookup (fp_dyn_tbl fp) k;
  nc_match : dc_match (conn fp' i) = m;
  nc_keyed : keyed fp' i;
  nc_port : dc_port_id (conn fp' i) = port;
  nc_state : state fp' i d = STATE_PENDING;
  nc_opposite : state fp' i (upf_accel_fp_get_opposite_pkt_type d) = STATE_NONE;
  nc_pdr : pget d (dc_pdr_id (conn fp' i)) = pdr_id p;
  nc_opposite_pdr : pget (upf_accel_fp_get_opposite_pkt_type d) (dc_pdr_id (conn fp' i)) = 0;
  nc_node : node_prev (node fp' i d) = INVALID /\ node_next (node fp' i d) = INVALID;
  nc_counters : dc_cnt_pkts (conn fp' i) = PerDir 0 0 /\ dc_cnt_bytes (conn fp' i) = PerDir 0 0;
  nc_rest : forall j, j <> i -> conn fp' j = conn fp j;
  nc_cfg : fp_cfg fp' = fp_cfg fp;
}.

(** The answer of the hash table when it is asked to add the key of the match. *)
Definition added fp m : option Z :=
  (rte_hash_add_key_with_hash (fp_dyn_tbl fp) (m8_inner m) (rte_hash_hash (m8_inner m))).2.

Lemma conn_new_spec fp port d m :
  versions_set d m ->
  exists pdr fp' ret i, upf_accel_fp_conn_lookup fp port d m None = Done (fp', (ret, i)) /\
    is_first (pdr_matches d m) (cfg_pdrs (fp_cfg fp)) pdr /\
    match pdr with
    | None => ret = DOCA_ERROR_NOT_FOUND /\ fp' = fp
    | Some p =>
      match added fp m with
      | None => ret = DOCA_ERROR_FULL /\ fp' = upd_failed inc_accel_errors d fp
      | Some pos => ret = DOCA_SUCCESS /\ i = pos /\ is_new_conn fp port d m p fp' i
      end
    end.
Proof.
  intros Hv. destruct (pdr_lookup_ok (cfg_pdrs (fp_cfg fp)) d m Hv) as (pdr & Epdr & Hfirst).
  exists pdr. unfold upf_accel_fp_conn_lookup. rewrite Epdr. cbn [mbind res_bind].
  destruct pdr as [p|]; [|by do 3 eexists].
  unfold added. destruct (rte_hash_add_key_with_hash _ _ _) as [tbl [pos|]] eqn:Eadd; cbn [snd].
  2: { apply hash_add_fail in Eadd as ->. do 3 eexists. split; [done|]. split; [done|].
       by destruct fp. }
  unfold entry_state_to. unfold state at 1, entry at 1. rewrite conn_set_conn, decide_True by done.
  match goal with |- context [upf_accel_fp_entry_state_change ?s _] =>
    replace s with STATE_NONE by (by destruct d) end.
  cbn [mbind res_bind upf_accel_fp_entry_state_change].
  do 3 eexists. split; [done|]. split; [done|]. split; [done|]. split; [done|].
  unfold upf_accel_sw_aging_ll_node_init, set_node, set_state. rewrite !set_entry_set_conn.
  split; unfold keyed, key, node, state, entry; try (rewrite conn_set_conn, decide_True by done);
    try done; try (by destruct d).
  - exact (hash_add_lookup _ _ _ _ Eadd).
  - intros k Hk. exact (hash_add_other _ _ _ _ _ Eadd (not_eq_sym Hk)).
  - cbn. rewrite pget_pset. cbn. rewrite conn_set_conn, decide_True by done. cbn. by rewrite pget_pset.
  - intros j Hj. rewrite conn_set_conn, decide_False by done. done.
Qed.

(** C34: a packet whose five-tuple was not found in the table gets a connection
    exactly when a PDR matches it and the hash table takes the key. The lookup always
    returns: with no matching PDR it reports NOT_FOUND and changes nothing; when the
    hash table refuses the key it reports FULL and only counts the failure;
    otherwise the connection is at the position that the hash table gave, is found
    under its key from now on, belongs to the first PDR that matches, is PENDING in
    the direction of the packet and unused in the other one, has no neighbours in the
    aging list and its counters are zero, and every other connection and key, and the
    configuration, are unchanged. *)
Theorem conn_lookup_new fp port d m :
  versions_set d m ->
  exists pdr fp' ret i, upf_accel_fp_conn_lookup fp port d m None = Done (fp', (ret, i)) /\
    is_first (pdr_matches d m) (cfg_pdrs (fp_cfg fp)) pdr /\
    match pdr with
    | None => ret = DOCA_ERROR_NOT_FOUND /\ fp' = fp
    | Some p =>
      match added fp m with
      | None => ret = DOCA_ERROR_FULL /\ fp' = upd_failed inc_accel_errors d fp
      | Some pos => ret = DOCA_SUCCESS /\ i = pos /\ is_new_conn fp port d m p fp' i
      end
    end.
Proof. apply conn_new_spec. Qed.

(** A key that is in the table keeps its position. *)
Lemma new_conn_position fp port d m fp' i j :
  rte_hash_lookup (fp_dyn_tbl fp) (m8_inner m) = Some i ->
  upf_accel_fp_conn_lookup fp port d m None = Done (fp', (DOCA_SUCCESS, j)) -> i = j.
Proof.
  intros Hi. unfold upf_accel_fp_conn_lookup. intros E. inv_bind E. destruct x; [|done].
  rewrite (hash_add_present _ _ _ Hi) in E. inv_bind E. by injection E.
Qed.

(** When the first packets of the two directions of a connection arrive in one
    burst and both are accepted, the second one resets the connection the first
    one made: the packets share it, but the direction of the first one is not in
    use and has lost its PDR, although its packet is still to be accelerated and
    sent. *)
Theorem same_burst_resets fp port s1 s2 fp' s1' s2' :
  versions_set (b_type s1) (b_match s1) -> versions_set (b_type s2) (b_match s2) ->
  b_type s2 = upf_accel_fp_get_opposite_pkt_type (b_type s1) ->
  m8_inner (b_match s2) = m8_inner (b_match s1) ->
  rte_hash_lookup (fp_dyn_tbl fp) (m8_inner (b_match s1)) = None ->
  upf_accel_fp_conns_lookup fp port [s1; s2] = Done (fp', [s1'; s2']) ->
  b_drop s1' = false -> b_drop s2' = false ->
  b_conn s1' = b_conn s2' /\ state fp' (b_conn s1') (b_type s1) = STATE_NONE /\
  pget (b_type s1) (dc_pdr_id (conn fp' (b_conn s1'))) = 0.
Proof.
  intros Hv1 Hv2 Ht Hm Hnone. unfold upf_accel_fp_conns_lookup. cbn [map]. rewrite Hm, Hnone.
  cbn [conns_lookup_loop]. destruct (b_drop s1) eqn:Ed1.
  { intros E. inv_bind E. destruct x as [f b]. injection E as _ <- _. congruence. }
  destruct (conn_new_spec fp port _ _ Hv1) as (p1 & fp1 & ret1 & i1 & -> & _ & Hn1). cbn [mbind res_bind].
  destruct (b_drop s2) eqn:Ed2.
  { intros E _ Hd2. injection E as _ _ <-. congruence. }
  destruct (conn_new_spec fp1 port _ _ Hv2) as (p2 & fp2 & ret2 & i2 & E2 & _ & Hn2). rewrite E2.
  cbn [mbind res_bind]. intros E. injection E as <- <- <-.
  destruct (is_success ret1) eqn:Hr1; [|done]. destruct (is_success ret2) eqn:Hr2; [|done]. intros _ _.
  apply is_success_true in Hr1 as ->, Hr2 as ->. cbn [b_conn].
  destruct p1 as [p1|]; [|by destruct Hn1].
  destruct (added fp _); [destruct Hn1 as (_ & _ & Hn1)|by destruct Hn1].
  destruct p2 as [p2|]; [|by destruct Hn2].
  destruct (added fp1 _); [destruct Hn2 as (_ & _ & Hn2)|by destruct Hn2].
  assert (i1 = i2) as <- by (eapply (new_conn_position fp1 _ _ (b_match s2)); [rewrite Hm; apply Hn1|exact E2]).
  assert (b_type s1 = upf_accel_fp_get_opposite_pkt_type (b_type s2)) as -> by (rewrite Ht; by destruct (b_type s1)).
  split; [done|]. split; apply Hn2.
Qed.

(** What a packet of direction [d] leaves of connection [i]: the key and everything
    of the opposite direction, and all other connections. *)
Record keeps_conn d fp i fp' : Prop := {
  kc_tbl : fp_dyn_tbl fp' = fp_dyn_tbl fp;
  kc_keyed : keyed fp i -> keyed fp' i;
  kc_key : key fp' i = key fp i;
  kc_counters : dc_cnt_pkts (conn fp' i) = dc_cnt_pkts (conn fp i);
  kc_opposite : entry fp' i (upf_accel_fp_get_opposite_pkt_type d) =
    entry fp i (upf_accel_fp_get_opposite_pkt_type d);
  kc_opposite_pdr : pget (upf_accel_fp_get_opposite_pkt_type d) (dc_pdr_id (conn fp' i)) =
    pget (upf_accel_fp_get_opposite_pkt_type d) (dc_pdr_id (conn fp i));
  kc_rest : forall j, j <> i -> conn fp' j = conn fp j;
  kc_cfg : fp_cfg fp' = fp_cfg fp;
  kc_outer : d = PLAIN -> dc_match (conn fp' i) = dc_match (conn fp i);
}.

(** The connection with the tunnel of a packet of direction [d]. *)
Definition with_outer d m (c : upf_accel_dyn_entry_ctx) : upf_accel_dyn_entry_ctx :=
  match d with
  | TUNNELED => let cm := dc_match c in {| c with dc_match := {| cm with m8_outer := m8_outer m |} |}
  | PLAIN => c
  end.

Lemma keeps_conn_intro d m fp i fp' e p :
  fp_dyn_tbl fp' = fp_dyn_tbl fp -> fp_cfg fp' = fp_cfg fp ->
  (forall j, j <> i -> conn fp' j = conn fp j) ->
  conn fp' i = (let c := with_outer d m (conn fp i) in
                {| c with dc_entries := pset d e (dc_entries c); dc_pdr_id := pset d p (dc_pdr_id c) |}) ->
  keeps_conn d fp i fp'.
Proof.
  intros Ht Hcfg Hrest Hc. split; unfold keyed, key, entry; try rewrite Hc; try done;
    try (intros ->; done);
    try (rewrite pget_pset_ne by (by destruct d)); by destruct d.
Qed.

(** What the first part of the lookup does with the tunnel of the packet. *)
Lemma outer_update fp d m i :
  versions_set d m ->
  exists r, conn_tunnel_update fp d m i = Done r /\
    match r with
    | None => d = TUNNELED /\ state fp i d <> STATE_NONE /\
        ~ same_tunnel (m8_outer m) (m8_outer (dc_match (conn fp i)))
    | Some fp1 =>
      (d = TUNNELED -> state fp i d <> STATE_NONE ->
        same_tunnel (m8_outer m) (m8_outer (dc_match (conn fp i)))) /\
      conn fp1 i = with_outer d m (conn fp i) /\ fp_cfg fp1 = fp_cfg fp /\
      fp_dyn_tbl fp1 = fp_dyn_tbl fp /\ forall j, j <> i -> conn fp1 j = conn fp j
    end.
Proof.
  intros [_ Hv]. unfold conn_tunnel_update. destruct d; [|by eexists].
  destruct (tunnel_eq_decides (m8_outer m) (m8_outer (dc_match (conn fp i))) (Hv eq_refl)) as (b & -> & Hb).
  unfold upf_accel_fp_entry_is_alive. case_bool_decide as Hal; cbn [mbind res_bind fmap].
  - destruct b; cbn; eexists; (split; [reflexivity|]).
    + split_and!; [intros; by apply Hb|by rewrite conn_set_conn, decide_True|done|done|].
      intros j Hj. by rewrite conn_set_conn, decide_False.
    + split_and!; [done..|]. intros Hs. apply Hb in Hs. done.
  - eexists; (split; [reflexivity|]).
    split_and!; [done|by rewrite conn_set_conn, decide_True|done|done|].
    intros j Hj. by rewrite conn_set_conn, decide_False.
Qed.

(** A direction of a connection that starts. *)
Lemma pending_conn fp i d p :
  let fp1 := set_state i d STATE_PENDING fp in
  let c := conn fp1 i in
  let fp' := upf_accel_sw_aging_ll_node_init
    (set_conn i {| c with dc_pdr_id := pset d p (dc_pdr_id c) |} fp1) i d in
  exists e, conn fp' i = (let c := conn fp i in
      {| c with dc_entries := pset d e (dc_entries c); dc_pdr_id := pset d p (dc_pdr_id c) |}) /\
    fe_state e = STATE_PENDING /\ node_prev (fe_node e) = INVALID /\ node_next (fe_node e) = INVALID /\
    (forall j, j <> i -> conn fp' j = conn fp j) /\ fp_dyn_tbl fp' = fp_dyn_tbl fp /\
    fp_cfg fp' = fp_cfg fp.
Proof.
  intros fp1 c fp'.
  exists {| fe_entry := fe_entry (entry fp i d); fe_state := STATE_PENDING;
            fe_ext_entry := fe_ext_entry (entry fp i d);
            fe_node := let n := node fp i d in {| n with node_prev := INVALID; node_next := INVALID |} |}.
  split_and!; [|done..| |done|done].
  - unfold fp', upf_accel_sw_aging_ll_node_init, set_node, node, entry. rewrite set_entry_set_conn.
    rewrite !conn_set_conn, !decide_True by done. unfold c, fp1, set_state, set_entry, entry.
    rewrite !conn_set_conn, !decide_True by done.
    destruct d, (conn fp i) as [? ? ? [? ?] [? ?] ? ? ?]; reflexivity.
  - intros j Hj. unfold fp', upf_accel_sw_aging_ll_node_init, set_node. rewrite set_entry_set_conn.
    unfold fp1, set_state, set_entry. rewrite set_conn_twice, conn_set_conn. by rewrite decide_False.
Qed.

Lemma conn_old_spec fp port d m i :
  versions_set d m ->
  exists fp' ret i', upf_accel_fp_conn_lookup fp port d m (Some i) = Done (fp', (ret, i')) /\
    keeps_conn d fp i fp' /\
    match ret with
    | DOCA_ERROR_ALREADY_EXIST =>
      fp' = fp /\ d = TUNNELED /\ state fp i d <> STATE_NONE /\
      ~ same_tunnel (m8_outer m) (m8_outer (dc_match (conn fp i)))
    | DOCA_ERROR_NOT_FOUND =>
      state fp i d = STATE_NONE /\ entry fp' i d = entry fp i d /\
      is_first (pdr_matches d m) (cfg_pdrs (fp_cfg fp)) None
    | DOCA_SUCCESS =>
      i' = i /\ (d = TUNNELED -> m8_outer (dc_match (conn fp' i)) = m8_outer m) /\
      if decide (state fp i d = STATE_NONE) then
        state fp' i d = STATE_PENDING /\ node_prev (node fp' i d) = INVALID /\
        node_next (node fp' i d) = INVALID /\
        exists p, is_first (pdr_matches d m) (cfg_pdrs (fp_cfg fp)) (Some p) /\
          pget d (dc_pdr_id (conn fp' i)) = pdr_id p
      else
        entry fp' i d = entry fp i d /\ pget d (dc_pdr_id (conn fp' i)) = pget d (dc_pdr_id (conn fp i)) /\
        (d = TUNNELED -> same_tunnel (m8_outer m) (m8_outer (dc_match (conn fp i))))
    | _ => False
    end.
Proof.
  intros Hv. unfold upf_accel_fp_conn_lookup.
  destruct (outer_update fp d m i Hv) as (r & -> & Hr). cbn [mbind res_bind].
  destruct r as [fp1|]; [|do 3 eexists; split; [reflexivity|]; by split; [split|]].
  destruct Hr as (Hsame & Hc & Hcfg & Htbl & Hrest).
  assert (entry fp1 i d = entry fp i d) as He by (unfold entry; rewrite Hc; by destruct d).
  assert (keeps_conn d fp i fp1) as Hkeep.
  { apply (keeps_conn_intro d m _ _ _ (entry fp i d) (pget d (dc_pdr_id (conn fp i)))); try done.
    rewrite Hc. unfold entry. destruct d, (conn fp i) as [? ? ? [? ?] [? ?] ? ? ?]; reflexivity. }
  assert (state fp1 i d = state fp i d) as -> by (unfold state; by rewrite He).
  unfold upf_accel_fp_entry_is_alive. case_bool_decide as Hal; cbn [negb].
  { do 3 eexists. split; [reflexivity|]. split; [done|]. split; [done|].
    rewrite Hc. split; [by intros ->|]. rewrite decide_False by done. split; [done|]. split; [by destruct d|].
    auto. }
  rewrite Hcfg. destruct (pdr_lookup_ok (cfg_pdrs (fp_cfg fp)) d m Hv) as (pdr & -> & Hfirst).
  cbn [mbind res_bind].
  destruct pdr as [p|]; [|do 3 eexists; split; [reflexivity|]; by split_and!].
  unfold entry_state_to. assert (state fp1 i d = STATE_NONE) as -> by (unfold state; by rewrite He).
  cbn [mbind res_bind upf_accel_fp_entry_state_change].
  do 3 eexists. split; [reflexivity|].
  destruct (pending_conn fp1 i d (pdr_id p)) as (e & Hconn & Hs & Hp & Hn & Ho & Ht & Hg).
  split.
  - apply (keeps_conn_intro d m _ _ _ e (pdr_id p)); [by rewrite Ht|by rewrite Hg|intros j Hj; by rewrite Ho, Hrest|].
    by rewrite Hconn, Hc.
  - split; [done|]. rewrite decide_True by done.
    unfold state, node, entry. rewrite Hconn. cbn [dc_match dc_entries dc_pdr_id].
    rewrite !pget_pset, Hc. split; [by intros ->|]. split_and!; [done..|]. by exists p.
Qed.

End ConnLookup.

(** ** Packets are neither lost nor duplicated, and carry the right PDR *)

Section Conservation.
Context `{!RteNet, !RteNetLaws, !RteMbuf}.
Context `{!RteHash upf_accel_match_5t, !RteHash upf_accel_match_extension, !DocaFlow}.
Context `{!RteHashLaws upf_accel_match_5t}.
Implicit Types (fp : upf_accel_fp_data) (b : list slot) (i : Z) (d : dir) (m : upf_accel_match_8t).

(** What [upf_accel_fp_pkts_match] says of the packet [p]: direction, parse result, match. *)
Definition classified (p : rte_mbuf) d (c : tun_parser_ctx) m : Prop :=
  upf_accel_fp_fetch_pkt_type (mb_metadata p) = Done d /\
  upf_accel_fp_pkt_match d (mb_data p) tun_zero = Done (DOCA_SUCCESS, c, m).

(** [md] is the id of the first PDR that matches [m]. *)
Definition is_pdr_for fp d m (md : Z) : Prop :=
  exists p, is_first (pdr_matches d m) (cfg_pdrs (fp_cfg fp)) (Some p) /\ md = pdr_id p.

(** The PDR of a packet with match [m] in a burst [rx] that starts in [fp]. If its
    connection is known it is the PDR of this direction when the direction is in use,
    and the first that matches when it is not. If the connection is new it is that of
    the last packet of the burst that made it, or none (0) if this was one of the
    other direction. *)
Definition pdr_found fp (rx : list rte_mbuf) d m (md : Z) : Prop :=
  match rte_hash_lookup (fp_dyn_tbl fp) (m8_inner m) with
  | Some i =>
    if decide (state fp i d = STATE_NONE) then is_pdr_for fp d m md
    else md = pget d (dc_pdr_id (conn fp i))
  | None =>
    exists q d' c' m', q ∈ rx /\ classified q d' c' m' /\ m8_inner m' = m8_inner m /\
      if decide (d' = d) then is_pdr_for fp d m' md else md = 0
  end.

(** A received packet and the packet that is sent for it. *)
Definition forwards fp (rx : list rte_mbuf) (p p' : rte_mbuf) : Prop :=
  exists d c m p1 md, classified p d c m /\
    match d with TUNNELED => upf_accel_decap p c = Done p1 | PLAIN => p1 = p end /\
    p' = mb_set_metadata md p1 /\ md < UPF_ACCEL_MAX_NUM_PDR /\ pdr_found fp rx d m md.

(** *** Matches that the PDRs do not tell apart *)

Definition same_match d m1 m2 : Prop :=
  m8_inner m1 = m8_inner m2 /\ (d = TUNNELED -> same_tunnel (m8_outer m1) (m8_outer m2)).

#[local] Instance same_tunnel_equiv : Equivalence same_tunnel.
Proof.
  split.
  - intros t. split_and!; [done..|]. by case_decide.
  - intros t1 t2 (Hv & Hi & Hq & Ha). unfold same_tunnel. rewrite <- Hv. split_and!; [done..|].
    case_decide; done.
  - intros t1 t2 t3 (Hv & Hi & Hq & Ha) (Hv' & Hi' & Hq' & Ha'). unfold same_tunnel.
    rewrite <- Hv in Hv', Ha'. split_and!; [congruence..|]. case_decide; congruence.
Qed.

Lemma same_match_trans d m1 m2 m3 : same_match d m1 m2 -> same_match d m2 m3 -> same_match d m1 m3.
Proof. intros [? Ha] [? Hb]. split; [congruence|]. intros Hd. etrans; [by apply Ha|by apply Hb]. Qed.

Lemma same_match_sym d m1 m2 : same_match d m1 m2 -> same_match d m2 m1.
Proof. intros [? Ha]. split; [done|]. intros Hd. symmetry. by apply Ha. Qed.

Lemma tunnel_matches_same pdr t1 t2 : same_tunnel t1 t2 -> tunnel_matches pdr t1 -> tunnel_matches pdr t2.
Proof.
  intros (Hv & Hi & Hq & Ha) (Ht & Hqfi & Hver & Haddr). unfold tunnel_matches.
  rewrite <- Hi, <- Hq, <- Hv. split_and!; [lia|lia|done..|].
  unfold addr_matches in *. destruct (ia_version (pdi_local_teid_ip pdr)) eqn:E; [done|..];
    rewrite <- Hver in Ha; case_decide; congruence.
Qed.
Lemma pdr_matches_same d m1 m2 pdr : same_match d m1 m2 -> pdr_matches d m1 pdr <-> pdr_matches d m2 pdr.
Proof.
  intros [Hi Ht]. unfold pdr_matches. rewrite Hi. destruct d; [|done]. specialize (Ht eq_refl).
  split; (intros (? & ? & ?); split_and!; [done| |done]); eapply tunnel_matches_same; eauto. by symmetry.
Qed.
Lemma is_pdr_for_same fp d m1 m2 md : same_match d m1 m2 -> is_pdr_for fp d m1 md -> is_pdr_for fp d m2 md.
Proof.
  intros Hs (p & (l1 & l2 & E & Hp & Hl) & Hmd). exists p. split; [|done]. exists l1, l2.
  split_and!; [done|by apply (pdr_matches_same _ _ _ p Hs)|].
  revert Hl. apply Forall_impl. intros y Hy Hm. apply Hy. by apply (pdr_matches_same _ _ _ y Hs).
Qed.

(** *** The connections while the packets of a burst find theirs *)

Abbreviation pdr_of fp i d := (pget d (dc_pdr_id (conn fp i))).

(** The state [fp] after the slots [acc] of a burst that started in [fp0]. *)
Record burst_ok fp0 (acc : list slot) fp : Prop := {
  bo_cfg : fp_cfg fp = fp_cfg fp0;
  bo_tbl : forall k i, rte_hash_lookup (fp_dyn_tbl fp0) k = Some i ->
    rte_hash_lookup (fp_dyn_tbl fp) k = Some i;
  bo_old : forall k i d, rte_hash_lookup (fp_dyn_tbl fp0) k = Some i ->
    if decide (state fp0 i d = STATE_NONE)
    then state fp i d = STATE_NONE \/ is_pdr_for fp0 d (dc_match (conn fp i)) (pdr_of fp i d)
    else state fp i d <> STATE_NONE /\ pdr_of fp i d = pdr_of fp0 i d;
  bo_new : forall k i, rte_hash_lookup (fp_dyn_tbl fp0) k = None ->
    rte_hash_lookup (fp_dyn_tbl fp) k = Some i ->
    exists s, s ∈ acc /\ b_drop s = false /\ m8_inner (b_match s) = k /\
      forall d, if decide (b_type s = d) then is_pdr_for fp0 d (b_match s) (pdr_of fp i d)
                else pdr_of fp i d = 0;
  bo_slot : forall s, s ∈ acc -> b_drop s = false ->
    rte_hash_lookup (fp_dyn_tbl fp) (m8_inner (b_match s)) = Some (b_conn s) /\
    forall j, rte_hash_lookup (fp_dyn_tbl fp0) (m8_inner (b_match s)) = Some j ->
      state fp j (b_type s) <> STATE_NONE /\ same_match (b_type s) (b_match s) (dc_match (conn fp j));
}.

Lemma burst_ok_start fp : burst_ok fp [] fp.
Proof.
  split; try done.
  - intros k i d _. case_decide; auto.
  - intros k i Hn Hs. congruence.
  - intros s Hs. by apply elem_of_nil in Hs.
Qed.
Lemma burst_ok_dropped fp0 acc fp fp' s :
  fp_cfg fp' = fp_cfg fp -> fp_dyn_tbl fp' = fp_dyn_tbl fp -> (forall i, conn fp' i = conn fp i) ->
  b_drop s = true -> burst_ok fp0 acc fp -> burst_ok fp0 (acc ++ [s]) fp'.
Proof.
  intros Hc Ht Hconn Hd [Hb1 Hb2 Hb3 Hb4 Hb5]. split.
  - congruence.
  - by rewrite Ht.
  - intros k i d Hk. unfold state, entry. rewrite Hconn. by apply (Hb3 k).
  - intros k i Hk. rewrite Ht. intros Hi. destruct (Hb4 k i Hk Hi) as (s' & Hs' & Hrest).
    exists s'. rewrite Hconn. split; [apply elem_of_app; by left|done].
  - intros s' [Hs'| ->%list_elem_of_singleton]%elem_of_app; [|congruence].
    unfold state, entry. rewrite Ht. setoid_rewrite Hconn. by apply Hb5.
Qed.

(** A connection is made. *)
Lemma burst_ok_new fp0 acc fp port s p fp' i :
  burst_ok fp0 acc fp -> rte_hash_lookup (fp_dyn_tbl fp0) (m8_inner (b_match s)) = None ->
  is_first (pdr_matches (b_type s) (b_match s)) (cfg_pdrs (fp_cfg fp)) (Some p) ->
  is_new_conn fp port (b_type s) (b_match s) p fp' i -> b_drop s = false ->
  (forall j, rte_hash_lookup (fp_dyn_tbl fp) (m8_inner (b_match s)) = Some j -> i = j) ->
  burst_ok fp0 (acc ++ [{| s with b_conn := i |}]) fp'.
Proof.
  intros [Hb1 Hb2 Hb3 Hb4 Hb5] Hnone Hp Hn Hd Hpos.
  assert (forall k j, rte_hash_lookup (fp_dyn_tbl fp) k = Some j -> k <> m8_inner (b_match s) ->
            rte_hash_lookup (fp_dyn_tbl fp') k = Some j /\ conn fp' j = conn fp j) as Hother.
  { intros k j Hk Hne. rewrite (nc_others _ _ _ _ _ _ _ Hn) by done. split; [done|].
    apply (nc_rest _ _ _ _ _ _ _ Hn). intros ->. apply Hne.
    eapply hash_lookup_inj; [|exact (nc_lookup _ _ _ _ _ _ _ Hn)].
    by rewrite (nc_others _ _ _ _ _ _ _ Hn). }
  assert (forall k j, rte_hash_lookup (fp_dyn_tbl fp0) k = Some j ->
            rte_hash_lookup (fp_dyn_tbl fp') k = Some j /\ conn fp' j = conn fp j) as Hold.
  { intros k j Hk. apply Hother; [auto|congruence]. }
  split.
  - rewrite (nc_cfg _ _ _ _ _ _ _ Hn). done.
  - intros k j Hk. by apply Hold.
  - intros k j d Hk. unfold state, entry. rewrite (proj2 (Hold k j Hk)). by apply (Hb3 k).
  - intros k j Hk Hj. destruct (decide (k = m8_inner (b_match s))) as [->|Hne].
    + rewrite (nc_lookup _ _ _ _ _ _ _ Hn) in Hj. injection Hj as <-.
      eexists. split; [apply elem_of_app; right; by apply list_elem_of_singleton|].
      split_and!; [done..|]. intros d. cbn. case_decide as Hdd.
      * subst d. exists p. rewrite <- Hb1. split; [done|]. apply Hn.
      * replace d with (upf_accel_fp_get_opposite_pkt_type (b_type s)) by (by destruct d, (b_type s)). apply Hn.
    + rewrite (nc_others _ _ _ _ _ _ _ Hn) in Hj by done.
      rewrite (proj2 (Hother k j Hj Hne)).
      destruct (Hb4 k j Hk Hj) as (s' & Hs' & Hrest). exists s'. split; [apply elem_of_app; by left|done].
  - intros s' [Hs'| ->%list_elem_of_singleton]%elem_of_app Hd'; cbn.
    + destruct (Hb5 s' Hs' Hd') as [Hl Hj]. split.
      * destruct (decide (m8_inner (b_match s') = m8_inner (b_match s))) as [E|Hne]; [|by apply Hother].
        rewrite E in Hl |- *. rewrite (nc_lookup _ _ _ _ _ _ _ Hn). f_equal. by apply Hpos.
      * intros j Hjj. unfold state, entry. rewrite (proj2 (Hold _ _ Hjj)). by apply Hj.
    + split; [apply Hn|]. intros j. congruence.
Qed.

(** What a packet of slot [s] does to its known connection [j]. *)
Record known_step fp (s : slot) j fp' ret i : Prop := {
  ks_tbl : fp_dyn_tbl fp' = fp_dyn_tbl fp;
  ks_cfg : fp_cfg fp' = fp_cfg fp;
  ks_rest : forall j', j' <> j -> conn fp' j' = conn fp j';
  ks_opposite : forall d, d <> b_type s ->
    state fp' j d = state fp j d /\ pdr_of fp' j d = pdr_of fp j d /\
    same_match d (dc_match (conn fp j)) (dc_match (conn fp' j));
  ks_refused : ret <> DOCA_SUCCESS ->
    if decide (state fp j (b_type s) = STATE_NONE) then state fp' j (b_type s) = STATE_NONE else fp' = fp;
  ks_accepted : ret = DOCA_SUCCESS -> i = j /\ state fp' j (b_type s) <> STATE_NONE /\
    same_match (b_type s) (b_match s) (dc_match (conn fp' j)) /\
    if decide (state fp j (b_type s) = STATE_NONE)
    then is_pdr_for fp (b_type s) (b_match s) (pdr_of fp' j (b_type s))
    else pdr_of fp' j (b_type s) = pdr_of fp j (b_type s) /\
      same_match (b_type s) (dc_match (conn fp j)) (dc_match (conn fp' j));
}.

Lemma conn_known_step fp port s j :
  versions_set (b_type s) (b_match s) -> key fp j = m8_inner (b_match s) ->
  exists fp' ret i, upf_accel_fp_conn_lookup fp port (b_type s) (b_match s) (Some j) = Done (fp', (ret, i)) /\
    known_step fp s j fp' ret i.
Proof.
  intros Hv Hkey.
  destruct (conn_old_spec fp port (b_type s) (b_match s) j Hv) as (fp' & ret & i & E & Hk & Hret).
  exists fp', ret, i. split; [done|]. pose proof (kc_key _ _ _ _ Hk) as Hkey'. split; try apply Hk.
  - intros d Hdd. replace d with (upf_accel_fp_get_opposite_pkt_type (b_type s)) by (by destruct d, (b_type s)).
    unfold state. rewrite (kc_opposite _ _ _ _ Hk). split; [done|]. split; [apply Hk|]. split; [done|].
    intros Ht. rewrite (kc_outer _ _ _ _ Hk); [done|by destruct (b_type s)].
  - intros Hne. destruct (decide _) as [Hst|Hst].
    + destruct ret; try done; [|by destruct Hret as (? & _ & ? & _)].
      unfold state. by destruct Hret as (_ & -> & _).
    + by destruct ret; try done; destruct Hret.
  - intros ->. destruct Hret as (-> & Ho & Hret). split; [done|].
    assert (same_match (b_type s) (b_match s) (dc_match (conn fp' j))) as Hsm.
    { split; [by rewrite <- Hkey|]. intros Ht. by rewrite (Ho Ht). }
    destruct (decide _) as [Hst|Hst].
    + destruct Hret as (Hst' & _ & _ & p & Hp & Hid). split_and!; [by rewrite Hst'|done|]. by exists p.
    + destruct Hret as (He & Hp & Ht). unfold state at 1. rewrite He. split_and!; [done..|].
      split; [done|]. intros Htt. rewrite (Ho Htt). symmetry. by apply Ht.
Qed.

Lemma burst_ok_known fp0 acc fp s j fp' ret i :
  burst_ok fp0 acc fp -> known_step fp s j fp' ret i ->
  rte_hash_lookup (fp_dyn_tbl fp0) (m8_inner (b_match s)) = Some j ->
  burst_ok fp0 (acc ++ [if is_success ret then {| s with b_conn := i |} else {| s with b_drop := true |}]) fp'.
Proof.
  intros [Hb1 Hb2 Hb3 Hb4 Hb5] [Ht Hc Hrest Hopp Href Hacc] Hj.
  assert (forall k i', rte_hash_lookup (fp_dyn_tbl fp) k = Some i' -> k <> m8_inner (b_match s) ->
            conn fp' i' = conn fp i') as Hother.
  { intros k i' Hki Hne. apply Hrest. intros ->. apply Hne. by eapply hash_lookup_inj; [|apply Hb2]. }
  split.
  - congruence.
  - by rewrite Ht.
  - intros k i' d Hki. destruct (decide (k = m8_inner (b_match s))) as [->|Hne].
    2: { unfold state, entry. rewrite (Hother k) by auto. by apply (Hb3 k). }
    rewrite Hj in Hki. injection Hki as <-. specialize (Hb3 _ _ d Hj).
    destruct (decide (d = b_type s)) as [->|Hdd].
    2: { destruct (Hopp d Hdd) as (-> & -> & Hm).
         destruct (decide _); [|done]. destruct Hb3 as [?|Hb3]; [by left|right]. by eapply is_pdr_for_same. }
    destruct (decide (ret = DOCA_SUCCESS)) as [Er|Er].
    + destruct (Hacc Er) as (-> & Hl & Hsm & Hp).
      destruct (decide (state fp0 j (b_type s) = STATE_NONE)) as [Hst0|Hst0].
      * right. destruct (decide (state fp j (b_type s) = STATE_NONE)) as [Hst|Hst].
        -- eapply is_pdr_for_same; [exact Hsm|]. destruct Hp as (p & Hp & Hid). exists p. by rewrite <- Hb1.
        -- destruct Hb3 as [?|Hb3]; [done|]. destruct Hp as [-> Hm]. by eapply is_pdr_for_same.
      * destruct Hb3 as [Hl0 Hp0]. rewrite decide_False in Hp by done. destruct Hp as [-> _]. done.
    + specialize (Href Er). destruct (decide (state fp j (b_type s) = STATE_NONE)) as [Hst|Hst]; [|by subst fp'].
      rewrite Href. destruct (decide (state fp0 j _ = _)); [by left|]. by destruct Hb3.
  - intros k i' Hk0. rewrite Ht. intros Hki.
    destruct (Hb4 k i' Hk0 Hki) as (s' & Hs' & Hr). exists s'. rewrite (Hother k) by congruence.
    split; [apply elem_of_app; by left|done].
  - intros s' [Hs'| ->%list_elem_of_singleton]%elem_of_app Hd'; rewrite Ht.
    + destruct (Hb5 s' Hs' Hd') as [Hl Hjj]. split; [done|]. intros j' Hj'.
      destruct (Hjj j' Hj') as [Hst Hm].
      destruct (decide (m8_inner (b_match s') = m8_inner (b_match s))) as [Heq|Hne].
      2: { unfold state, entry. rewrite (Hother (m8_inner (b_match s'))) by auto. done. }
      rewrite Heq, Hj in Hj'. injection Hj' as <-.
      destruct (decide (b_type s' = b_type s)) as [Hd|Hdd].
      2: { destruct (Hopp _ Hdd) as (-> & _ & Hmm). split; [done|]. by eapply same_match_trans. }
      rewrite Hd in *. destruct (decide (ret = DOCA_SUCCESS)) as [Er|Er].
      * destruct (Hacc Er) as (_ & Hl' & _ & Hp). rewrite decide_False in Hp by done.
        split; [done|]. eapply same_match_trans; [exact Hm|apply Hp].
      * specialize (Href Er). rewrite decide_False in Href by done. by subst fp'.
    + destruct (is_success ret) eqn:Er; [|done]. apply is_success_true in Er. cbn.
      destruct (Hacc Er) as (-> & Hl & Hsm & _). split; [by apply Hb2|].
      intros j' Hj'. rewrite Hj in Hj'. by injection Hj' as <-.
Qed.

(** *** The whole burst *)

(** What a slot knows of its packet. *)
Definition slot_of_pkt (s : slot) : Prop :=
  b_drop s = false -> classified (b_pkt s) (b_type s) (b_parse s) (b_match s).

Lemma burst_ok_looked_up fp0 acc fp port s fp' ret i :
  tbl_inv fp -> burst_ok fp0 acc fp -> versions_set (b_type s) (b_match s) -> b_drop s = false ->
  upf_accel_fp_conn_lookup fp port (b_type s) (b_match s)
    (rte_hash_lookup (fp_dyn_tbl fp0) (m8_inner (b_match s))) = Done (fp', (ret, i)) ->
  burst_ok fp0 (acc ++ [if is_success ret then {| s with b_conn := i |} else {| s with b_drop := true |}]) fp'.
Proof.
  intros Hinv Hok Hv Hd. destruct (rte_hash_lookup (fp_dyn_tbl fp0) _) as [j|] eqn:Hj.
  - destruct (conn_known_step fp port s j Hv) as (fp1 & r & i1 & -> & Hks).
    { by destruct (ti_ok _ Hinv _ _ (bo_tbl _ _ _ Hok _ _ Hj)) as (? & _). }
    intros [= <- <- <-]. by eapply burst_ok_known.
  - intros E. destruct (conn_new_spec fp port _ _ Hv) as (p & fp1 & r & i1 & E1 & Hp & Hn).
    assert (E2 := E1). rewrite E in E2. injection E2 as <- <- <-.
    destruct p as [p|]; [|destruct Hn as [-> ->]; by apply (burst_ok_dropped _ _ fp)].
    destruct (added fp _); [|destruct Hn as [-> ->]; by apply (burst_ok_dropped _ _ fp)].
    destruct Hn as (-> & _ & Hn). eapply burst_ok_new; [done..|]. intros j' Hj'.
    symmetry. by eapply new_conn_position.
Qed.

Lemma conns_loop_ok fp0 port l acc fp fp' b' :
  tbl_inv fp -> burst_ok fp0 acc fp ->
  Forall (fun x => slot_of_pkt x.1 /\ x.2 = rte_hash_lookup (fp_dyn_tbl fp0) (m8_inner (b_match x.1))) l ->
  conns_lookup_loop fp port l = Done (fp', b') ->
  burst_ok fp0 (acc ++ b') fp' /\ b_pkt <$> b' = b_pkt <$> l.*1 /\ Forall slot_of_pkt b'.
Proof.
  revert acc fp b'. induction l as [|[s idx] l IH]; intros acc fp b' Hinv Hok Hl; cbn.
  { intros [= <- <-]. by rewrite app_nil_r. }
  apply Forall_cons_iff in Hl as [[Hs Hidx] Hl]. cbn in Hs, Hidx. destruct (b_drop s) eqn:Ed.
  - intros E. inv_bind E. destruct x as [fp1 b1]. injection E as <- <-.
    apply (IH (acc ++ [s])) in E0 as (Hok' & Hp & Hsl); [|done| |done].
    + rewrite <- app_assoc in Hok'. cbn. rewrite Hp. split_and!; [done..|by constructor].
    + by apply (burst_ok_dropped _ _ fp).
  - intros E. inv_bind E. destruct x as [fp1 [ret i]]. inv_bind E. destruct x as [fp2 b2].
    injection E as <- <-. destruct (Hs Ed) as [Hty Hm].
    assert (versions_set (b_type s) (b_match s)) as Hv by (by eapply pkt_matched_versions, pkt_matched_inv).
    assert (tbl_inv fp1) as Hinv1.
    { apply conn_lookup_inv in E0 as [[? _] _]; [done|done|]. intros j Hj. subst idx.
      by destruct (ti_ok _ Hinv _ _ (bo_tbl _ _ _ Hok _ _ Hj)) as (_ & _ & ? & _). }
    rewrite Hidx in E0. pose proof (burst_ok_looked_up _ _ _ _ _ _ _ _ Hinv Hok Hv Ed E0) as Hok1.
    rewrite Ed in Hok1. match type of Hok1 with burst_ok _ (_ ++ [?x]) _ => set (s' := x) in * end.
    apply (IH (acc ++ [s'])) in E1 as (Hok' & Hp & Hsl); [|done..].
    rewrite <- app_assoc in Hok'. cbn. rewrite Hp. split_and!; [done|by unfold s'; destruct (is_success ret)|].
    constructor; [|done]. unfold s', slot_of_pkt. by destruct (is_success ret).
Qed.

Lemma pkts_match_ok rx b : upf_accel_fp_pkts_match rx = Done b -> b_pkt <$> b = rx.*1 /\ Forall slot_of_pkt b.
Proof.
  revert b. induction rx as [|[p t] rx IH]; intros b; cbn; [by intros [= <-]|].
  intros E. inv_bind E. inv_bind E. destruct x0 as [[ret c] m]. inv_bind E. injection E as <-.
  destruct (IH _ E2) as [Hp Hs]. cbn. rewrite Hp. split; [done|]. constructor; [|done].
  intros Hd. cbn in Hd. apply negb_false_iff, is_success_true in Hd as ->. done.
Qed.

(** The PDR of every accepted slot after the lookups is the one that the burst found. *)
Lemma burst_ok_pdr fp0 b fp s :
  burst_ok fp0 b fp -> Forall slot_of_pkt b -> s ∈ b -> b_drop s = false ->
  pdr_found fp0 (b_pkt <$> b) (b_type s) (b_match s) (pdr_of fp (b_conn s) (b_type s)).
Proof.
  intros [_ Ht Hold Hnew Hslot] Hb Hs Hd. destruct (Hslot s Hs Hd) as [Hl Hj]. unfold pdr_found.
  destruct (rte_hash_lookup (fp_dyn_tbl fp0) _) as [i|] eqn:E.
  - assert (b_conn s = i) as -> by (specialize (Ht _ _ E); congruence).
    destruct (Hj i eq_refl) as [Hst Hm]. specialize (Hold _ _ (b_type s) E).
    destruct (decide _); [|by destruct Hold]. destruct Hold as [?|Hp]; [done|].
    eapply is_pdr_for_same; [|exact Hp]. by apply same_match_sym.
  - destruct (Hnew _ _ E Hl) as (s' & Hs' & Hd' & Hi & Hp). rewrite list.Forall_forall in Hb.
    exists (b_pkt s'), (b_type s'), (b_parse s'), (b_match s').
    split_and!; [by apply list_elem_of_fmap_2|by apply Hb|done|]. exact (Hp (b_type s)).
Qed.

(** *** Acceleration and sending leave the PDRs alone *)

Definition pdr_kept fp fp' : Prop := forall i, dc_pdr_id (conn fp' i) = dc_pdr_id (conn fp i).

#[local] Instance pdr_kept_preorder : PreOrder pdr_kept.
Proof. split; [by intros fp i|]. intros f1 f2 f3 Ha Hb i. by rewrite (Hb i). Qed.

Lemma pdr_kept_rest fp fp' : (forall j, conn_rest (conn fp' j) = conn_rest (conn fp j)) -> pdr_kept fp fp'.
Proof. intros Hr i. exact (f_equal dc_pdr_id (Hr i)). Qed.
Lemma pdr_kept_set_entry i d e fp : pdr_kept fp (set_entry i d e fp).
Proof. apply pdr_kept_rest. intros j. apply conn_rest_set_entry. Qed.
Lemma pdr_kept_list d fp fp' : only_list d fp fp' -> pdr_kept fp fp'.
Proof. intros Hol. apply pdr_kept_rest, Hol. Qed.
Lemma pdr_kept_state_to fp i d st fp' : entry_state_to fp i d st = Done fp' -> pdr_kept fp fp'.
Proof. unfold entry_state_to. intros E. inv_bind E. injection E as <-. apply pdr_kept_set_entry. Qed.
Lemma pdr_kept_ext_get fp m fp' x : ext_entry_get fp m = Done (inr (fp', x)) -> pdr_kept fp fp'.
Proof.
  unfold ext_entry_get. destruct (rte_hash_lookup _ _) as [y|].
  - case_bool_decide; [done|]. by intros [= <- <-].
  - destruct (rte_hash_add_key_with_hash _ _ _) as [tbl [y|]]; [|done]. by intros [= <- <-] i.
Qed.

Lemma pdr_kept_flow_accel fp port d m i fp' ret :
  upf_accel_fp_flow_accel fp port d m i = Done (fp', ret) -> pdr_kept fp fp'.
Proof.
  unfold upf_accel_fp_flow_accel.
  destruct (upf_accel_fp_entry_is_established _); [by intros [= <- _]|].
  destruct (_ && _).
  { intros E. inv_bind E. injection E as <- _. by eapply pdr_kept_state_to. }
  intros E. inv_bind E. destruct x as [[fp1 rq]|].
  2: { inv_bind E. injection E as <- _. by eapply pdr_kept_state_to. }
  transitivity fp1.
  { destruct (m5_version (m8_inner m)); inv_bind E0; [by injection E0 as <- _..|].
    destruct x as [|[fp2 x]]; [done|]. inv_bind E0. injection E0 as <- _.
    apply pdr_kept_ext_get in E1. etrans; [exact E1|]. apply (pdr_kept_set_entry i d). }
  destruct (doca_flow_pipe_basic_add_entry _ _) as [h [r handle]].
  destruct r; try (by injection E as <- _).
  inv_bind E. injection E as <- _. apply pdr_kept_state_to in E1.
  etrans; [|eapply pdr_kept_list, only_list_remove]. etrans; [|exact E1].
  apply (pdr_kept_set_entry i d _ (set_hw h fp1)).
Qed.

Lemma pdr_kept_account fp s : pdr_kept fp (flow_account fp s).
Proof.
  intros j. unfold flow_account. rewrite conn_set_conn. case_decide as Hij; [subst j; cbn|]; by destruct (negb _).
Qed.

Lemma pdr_kept_flows_accel fp port b fp' : upf_accel_fp_flows_accel fp port b = Done fp' -> pdr_kept fp fp'.
Proof.
  revert fp. induction b as [|s b IH]; intros fp; cbn; [by intros [= <-]|]. destruct (b_drop s); [apply IH|].
  intros E. inv_bind E. destruct x as [fp1 ret]. apply pdr_kept_flow_accel in E0. apply IH in E.
  etrans; [exact E0|]. etrans; [apply pdr_kept_account|exact E].
Qed.

Lemma md_set_done p md p' :
  upf_accel_md_set p md = Done p' -> md < UPF_ACCEL_MAX_NUM_PDR /\ p' = mb_set_metadata md p.
Proof.
  unfold upf_accel_md_set, assert_. destruct (Z.ltb_spec md UPF_ACCEL_MAX_NUM_PDR); [|done].
  by intros [= <-].
Qed.

Lemma postprocess_pkts fp0 rx fp1 fp b fp' tx freed :
  pdr_kept fp1 fp -> Forall slot_of_pkt b ->
  (forall s, s ∈ b -> b_drop s = false ->
     pdr_found fp0 rx (b_type s) (b_match s) (pdr_of fp1 (b_conn s) (b_type s))) ->
  upf_accel_fp_burst_postprocess fp b = Done (fp', (tx, freed)) ->
  exists kept, kept `sublist_of` (b_pkt <$> b) /\ freed `sublist_of` (b_pkt <$> b) /\
    b_pkt <$> b ≡ₚ kept ++ freed /\ Forall2 (forwards fp0 rx) kept tx.
Proof.
  revert fp tx freed. induction b as [|s b IH]; intros fp tx freed Hk Hb Hpdr; cbn.
  { intros [= <- <- <-]. exists []. by split_and!. }
  apply Forall_cons_iff in Hb as [Hs Hb].
  assert (forall s', s' ∈ b -> b_drop s' = false ->
     pdr_found fp0 rx (b_type s') (b_match s') (pdr_of fp1 (b_conn s') (b_type s'))) as Hpdr'
    by (intros s' Hs'; apply Hpdr; by apply list_elem_of_further).
  destruct (b_drop s) eqn:Ed.
  - intros E. inv_bind E. destruct x as [fp2 [tx1 fr1]]. injection E as <- <- <-.
    apply IH in E0 as (kept & Hkp & Hf & Hp & Hfw); [|done..]. exists kept.
    split_and!; [by constructor|by constructor| |done].
    rewrite Hp. by rewrite Permutation_middle.
  - intros E. inv_bind E. inv_bind E. inv_bind E. destruct x1 as [fp2 [tx1 fr1]]. injection E as <- <- <-.
    match type of E2 with upf_accel_fp_burst_postprocess ?f _ = _ => assert (pdr_kept fp1 f) as Hk' end.
    { etrans; [exact Hk|]. destruct (is_flow_unaccelerated _ _ _); [|done].
      apply (pdr_kept_list (b_type s)), only_list_move. }
    apply IH in E2 as (kept & Hkp & Hf & Hp & Hfw); [|done..]. exists (b_pkt s :: kept).
    split_and!; [by constructor|by constructor|by rewrite Hp|]. constructor; [|done].
    apply md_set_done in E1 as [Hmd ->]. rewrite Hk' in *.
    exists (b_type s), (b_parse s), (b_match s), x. eexists. split_and!; [by apply Hs| |done|exact Hmd|].
    + destruct (b_type s); [done|by injection E0].
    + apply Hpdr; [by apply list_elem_of_here|done].
Qed.

End Conservation.

(** ** Concrete runs *)

Definition ul_pkt : sim_mbuf := mbuf_of gtpu_packet.
Definition dl_pkt : sim_mbuf := let p := mbuf_of plain_packet in {| p with sm_md := 64 |}.

Definition quiet (rx : list (sim_mbuf * Z)) : port_io :=
  {| io_rx := (rx : list (@rte_mbuf sim_mbuf_ops * Z)); io_tsc1 := 0; io_tsc2 := 0; io_hz := 1; io_num_aged := 0; io_aged := [];
     io_processed := []; io_sent := length rx |}.
Definition at_time (t : Z) (rx : list sim_mbuf) : iteration :=
  {| it_ports := [quiet ((fun p => (p, t)) <$> rx)]; it_scan_fuel := 8;
     it_tsc_tunneled := t; it_tsc_plain := t; it_hz := 1;
     it_cntrs_num := 0; it_quotas := [] |}.
Definition start : upf_accel_fp_data := sim_fp (acc_cfg 2) 4.

Lemma tbl_inv_start : tbl_inv start.
Proof.
  split.
  - intros k i. vm_compute. discriminate.
  - intros i d [H|H]; destruct d; exfalso; apply H; reflexivity.
Qed.


(** Two flows, downlink only: the second differs in the UE port. *)
Definition dl_pkt2 : sim_mbuf :=
  {| dl_pkt with sm_data := take 36 plain_packet ++ [0xc1; 0x00] ++ drop 38 plain_packet |}.

(** The aging list can be corrupted into an abort by ordinary traffic. Two
    downlink flows are seen, the older one ages out, starts again, and the younger
    one is then accelerated: its node still points to the place the older flow had
    in the list, so removing it makes the older flow's node its own predecessor,
    and the scan that next ages this flow deletes it twice and hits an assert. *)
Theorem stale_aging_link_aborts :
  (exists fp, upf_accel_fp_loop start [0]
     [at_time 0 [dl_pkt2]; at_time 10 [dl_pkt]; at_time 16 []; at_time 17 [dl_pkt2]; at_time 18 [dl_pkt]]
     = Done fp /\ node_prev (node fp 0 PLAIN) = 0 /\ ll_head (pget PLAIN (fp_sw_aging_ll fp)) = 0) /\
  upf_accel_fp_loop start [0]
    [at_time 0 [dl_pkt2]; at_time 10 [dl_pkt]; at_time 16 []; at_time 17 [dl_pkt2]; at_time 18 [dl_pkt];
     at_time 40 []] = Crash AssertFail.
Proof.
  split; [|vm_compute; reflexivity].
  eexists. split; [vm_compute; reflexivity|]. split; vm_compute; reflexivity.
Qed.

Lemma loop_table_invariant_witness :
  exists fp', upf_accel_fp_loop start [0] [at_time 0 [ul_pkt]; at_time 1 [dl_pkt]; at_time 2 [ul_pkt]] = Done fp' /\
    tbl_inv fp'.
Proof.
  destruct (upf_accel_fp_loop start [0] [at_time 0 [ul_pkt]; at_time 1 [dl_pkt]; at_time 2 [ul_pkt]]) as [fp'|] eqn:E.
  - exists fp'. split; [reflexivity|]. exact (loop_table_invariant _ _ _ _ tbl_inv_start E).
  - vm_compute in E. discriminate E.
Defined.


Lemma conn_lookup_new_witness :
  exists fp' i, upf_accel_fp_conn_lookup start 0 TUNNELED m4 None = Done (fp', (DOCA_SUCCESS, i)) /\
    state fp' i TUNNELED = STATE_PENDING.
Proof.
  destruct (conn_lookup_new start 0 TUNNELED m4) as (pdr & fp' & ret & i & E & Hf & H).
  { split; vm_compute; discriminate. }
  exists fp', i. assert (E' := E). vm_compute in E'. injection E' as <- <- <-. split; [exact E|].
  destruct pdr as [p|]; [|destruct H; discriminate].
  destruct (added start m4); [apply H|destruct H; discriminate].
Defined.


Definition slot_for (p : sim_mbuf) (d : dir) (m : upf_accel_match_8t) : slot :=
  {| b_pkt := (p : @rte_mbuf sim_mbuf_ops); b_tsc := 0; b_type := d; b_match := m; b_parse := tun_zero; b_conn := 0; b_drop := false |}.

Lemma same_burst_resets_witness :
  exists fp', upf_accel_fp_conns_lookup start 0
      [slot_for ul_pkt TUNNELED m4; slot_for dl_pkt PLAIN (sample_match PLAIN plain_packet)] =
    Done (fp', [slot_for ul_pkt TUNNELED m4; slot_for dl_pkt PLAIN (sample_match PLAIN plain_packet)]) /\
    state fp' 0 TUNNELED = STATE_NONE.
Proof.
  destruct (upf_accel_fp_conns_lookup start 0
    [slot_for ul_pkt TUNNELED m4; slot_for dl_pkt PLAIN (sample_match PLAIN plain_packet)])
    as [[fp' b]|] eqn:E; [|vm_compute in E; discriminate E].
  assert (b = [slot_for ul_pkt TUNNELED m4; slot_for dl_pkt PLAIN (sample_match PLAIN plain_packet)]) as ->
    by (vm_compute in E; injection E as _ <-; vm_compute; reflexivity).
  exists fp'. split; [reflexivity|].
  refine (proj1 (proj2 (same_burst_resets start 0 (slot_for ul_pkt TUNNELED m4)
    (slot_for dl_pkt PLAIN (sample_match PLAIN plain_packet)) fp' _ _ _ _ _ _ _ E _ _)));
    try reflexivity; split; vm_compute; discriminate.
Defined.
