(* ===== verification/FwdPkt.v ===== *)
(** * FwdPkt: the packet parser of simple_fwd_vnf,
      src/applications/simple_fwd_vnf/simple_fwd_pkt.c

    A packet is the memory [m] that starts at its first byte; [len] is the packet
    length the NIC reported, which may be less than what is mapped. Pointers into
    the packet are offsets, a null pointer is [None] and reading through it is
    [NullDeref]. Addresses, ports and tunnel ids are held in host order: the code
    holds their network-order image and never mixes the two.

    [format_parses] is the contract of the header parser and [parse_packet_spec]
    that of the whole parser; [fwd_reads_past_end] shows that the result can depend
    on bytes behind the packet. *)

From S2P Require Import Prelude Wire.

Definition IPV4 : Z := 4.
Definition IPV6 : Z := 6.
Definition DOCA_FLOW_VXLAN_DEFAULT_PORT : Z := 4789.
Definition RTE_ETHER_TYPE_IPV4 : Z := 0x0800.
Definition RTE_ETHER_TYPE_IPV6 : Z := 0x86dd.
Definition RTE_ETHER_TYPE_ARP : Z := 0x0806.

(** The headers of DPDK that only this application reads. *)
Class FwdNet := {
  ipv4_version_ihl : list Z -> Z;
  sizeof_gre_hdr : nat;
  gre_c : list Z -> bool;
  gre_k : list Z -> bool;
  gre_s : list Z -> bool;
  gre_proto : list Z -> Z;
  (** the 32-bit word at an address *)
  be32_word : list Z -> Z;
  sizeof_vxlan_gpe_hdr : nat;
  vx_flags : list Z -> Z;
  vx_vni : list Z -> Z;
  gtp_msg_type : list Z -> Z;
  gtp_hdr_info : list Z -> Z;
  ether_dst_addr : list Z -> list Z;
  ether_src_addr : list Z -> list Z;
}.

#[export] Instance wire_fwd : FwdNet := {|
  ipv4_version_ihl := byte_at 0;
  sizeof_gre_hdr := 4;
  gre_c h := Z.testbit (byte_at 0 h) 7;
  gre_k h := Z.testbit (byte_at 0 h) 5;
  gre_s h := Z.testbit (byte_at 0 h) 4;
  gre_proto := be16_at 2;
  be32_word := be32_at 0;
  sizeof_vxlan_gpe_hdr := 8;
  vx_flags := byte_at 0;
  vx_vni := be32_at 4;
  gtp_msg_type := byte_at 1;
  gtp_hdr_info := byte_at 0;
  ether_dst_addr h := take 6 h;
  ether_src_addr h := take 6 (drop 6 h);
|}.

Inductive doca_flow_tun_type := TUN_NONE | TUN_VXLAN | TUN_GTPU | TUN_GRE.
#[global] Instance tun_type_eq_dec : EqDecision doca_flow_tun_type.
Proof. solve_decision. Defined.

Record simple_fwd_pkt_format := {
  f_l2 : option nat;
  f_l3 : option nat;
  f_l4 : option nat;
  f_l3_type : Z;
  f_l4_type : Z;
  f_l7 : option nat;
}.

(** The members of the union are fields of their own: the code writes and reads the
    members of one tunnel type per packet. *)
Record simple_fwd_pkt_tun_format := {
  t_l2 : bool;
  t_vni : Z;
  t_gre_key : Z;
  t_proto : Z;
  t_gtp_msg_type : Z;
  t_gtp_flags : Z;
  t_teid : Z;
}.

Record simple_fwd_pkt_info := {
  orig_port_id : Z;
  pipe_queue : Z;
  rss_hash : Z;
  outer : simple_fwd_pkt_format;
  tun_type : doca_flow_tun_type;
  tun : simple_fwd_pkt_tun_format;
  inner : simple_fwd_pkt_format;
  p_len : Z;
}.

Definition format_zero : simple_fwd_pkt_format :=
  {| f_l2 := None; f_l3 := None; f_l4 := None; f_l3_type := 0; f_l4_type := 0; f_l7 := None |}.
Definition pinfo_zero : simple_fwd_pkt_info :=
  {| orig_port_id := 0; pipe_queue := 0; rss_hash := 0; outer := format_zero; tun_type := TUN_NONE;
     tun := {| t_l2 := false; t_vni := 0; t_gre_key := 0; t_proto := 0; t_gtp_msg_type := 0;
               t_gtp_flags := 0; t_teid := 0 |};
     inner := format_zero; p_len := 0 |}.

Definition deref (p : option nat) : res nat :=
  match p with Some o => Done o | None => Crash NullDeref end.

Definition GTP_ESPN_FLAGS_ON (p : Z) : bool := negb (Z.land p 0x7 =? 0).

Section Parser.
Context `{RteNet, FwdNet}.
Implicit Types (m : list Z) (pinfo : simple_fwd_pkt_info) (fmt : simple_fwd_pkt_format).

(** ** Reading fields through the parsed pointers *)

Definition simple_fwd_pinfo_outer_mac_dst m pinfo : res (list Z) :=
  o ← deref (f_l2 (outer pinfo)); Done (ether_dst_addr (drop o m)).
Definition simple_fwd_pinfo_outer_mac_src m pinfo : res (list Z) :=
  o ← deref (f_l2 (outer pinfo)); Done (ether_src_addr (drop o m)).
Definition simple_fwd_pinfo_outer_ipv4_dst m pinfo : res Z :=
  o ← deref (f_l3 (outer pinfo)); Done (ipv4_dst_addr (drop o m)).
Definition simple_fwd_pinfo_outer_ipv4_src m pinfo : res Z :=
  o ← deref (f_l3 (outer pinfo)); Done (ipv4_src_addr (drop o m)).
Definition simple_fwd_pinfo_inner_ipv4_dst m pinfo : res Z :=
  o ← deref (f_l3 (inner pinfo)); Done (ipv4_dst_addr (drop o m)).
Definition simple_fwd_pinfo_inner_ipv4_src m pinfo : res Z :=
  o ← deref (f_l3 (inner pinfo)); Done (ipv4_src_addr (drop o m)).

Definition simple_fwd_pinfo_src_port m fmt : res Z :=
  if f_l4_type fmt =? DOCA_FLOW_PROTO_TCP then o ← deref (f_l4 fmt); Done (tcp_src_port (drop o m))
  else if f_l4_type fmt =? DOCA_FLOW_PROTO_UDP then o ← deref (f_l4 fmt); Done (udp_src_port (drop o m))
  else Done 0.
Definition simple_fwd_pinfo_dst_port m fmt : res Z :=
  if f_l4_type fmt =? DOCA_FLOW_PROTO_TCP then o ← deref (f_l4 fmt); Done (tcp_dst_port (drop o m))
  else if f_l4_type fmt =? DOCA_FLOW_PROTO_UDP then o ← deref (f_l4 fmt); Done (udp_dst_port (drop o m))
  else Done 0.
Definition simple_fwd_pinfo_inner_src_port m pinfo := simple_fwd_pinfo_src_port m (inner pinfo).
Definition simple_fwd_pinfo_inner_dst_port m pinfo := simple_fwd_pinfo_dst_port m (inner pinfo).
Definition simple_fwd_pinfo_outer_src_port m pinfo := simple_fwd_pinfo_src_port m (outer pinfo).
Definition simple_fwd_pinfo_outer_dst_port m pinfo := simple_fwd_pinfo_dst_port m (outer pinfo).

(** ** Parsing *)

(** The transport header at [l4_off]; both offsets are relative to [data]. *)
Definition parse_l4 m (data : nat) (len : Z) (l4_off : nat) (proto : Z) fmt
    : Z * simple_fwd_pkt_format :=
  if proto =? DOCA_FLOW_PROTO_TCP then
    let l7_off := (l4_off + Z.to_nat (Z.shiftr (Z.land (tcp_data_off (drop (data + l4_off) m)) 0xf0) 2))%nat in
    if len <? Z.of_nat l7_off then (-1, fmt)
    else (0, {| fmt with f_l4_type := DOCA_FLOW_PROTO_TCP; f_l7 := Some (data + l7_off)%nat |})
  else if proto =? DOCA_FLOW_PROTO_UDP then
    let l7_off := (l4_off + sizeof_udp_hdr)%nat in
    let fmt := {| fmt with f_l4_type := DOCA_FLOW_PROTO_UDP |} in
    if len <? Z.of_nat l7_off then (-1, fmt) else (0, {| fmt with f_l7 := Some (data + l7_off)%nat |})
  else if proto =? DOCA_FLOW_PROTO_GRE then (0, {| fmt with f_l4_type := DOCA_FLOW_PROTO_GRE |})
  else if proto =? IPPROTO_ICMP then (0, {| fmt with f_l4_type := IPPROTO_ICMP |})
  else (-1, fmt).

(** The IPv4 header at [l3_off]. *)
Definition parse_l3 m (data : nat) (len : Z) (l3_off : nat) fmt : Z * simple_fwd_pkt_format :=
  let iphdr := drop (data + l3_off) m in
  if negb (Z.shiftr (ipv4_version_ihl iphdr) 4 =? 4) then (-1, fmt)
  else if (ipv4_src_addr iphdr =? 0) || (ipv4_dst_addr iphdr =? 0) then (-1, fmt)
  else
    let l4_off := (l3_off + rte_ipv4_hdr_len iphdr)%nat in
    parse_l4 m data len l4_off (ipv4_next_proto_id iphdr)
      {| fmt with f_l3 := Some (data + l3_off)%nat; f_l3_type := IPV4; f_l4 := Some (data + l4_off)%nat |}.

(** [data] is the offset of the first byte in [m]. *)
Definition simple_fwd_parse_pkt_format m (data : nat) (len : Z) (l2 : bool) fmt
    : Z * simple_fwd_pkt_format :=
  let fmt := {| fmt with f_l2 := Some data |} in
  if l2 then
    let t := ether_type (drop data m) in
    if t =? RTE_ETHER_TYPE_IPV4 then parse_l3 m data len sizeof_ether_hdr fmt
    else if t =? RTE_ETHER_TYPE_IPV6 then (-1, {| fmt with f_l3_type := IPV6 |})
    else (-1, fmt)
  else parse_l3 m data len 0%nat fmt.

(** The tunnel header behind the outer headers: its length, 0 for none, -1 for one
    that is not supported. *)
Definition simple_fwd_parse_is_tun m pinfo : res (Z * simple_fwd_pkt_info) :=
  if negb (f_l3_type (outer pinfo) =? IPV4) then Done (0, pinfo)
  else if f_l4_type (outer pinfo) =? DOCA_FLOW_PROTO_GRE then
    l4 ← deref (f_l4 (outer pinfo));
    let gre := drop l4 m in
    if gre_c gre then Done (-1, pinfo)
    else
      let t := tun pinfo in
      let '(off, t) :=
        if gre_k gre
        then (4, {| t with t_gre_key := be32_word (drop (l4 + sizeof_gre_hdr) m); t_l2 := true |})
        else (0, t) in
      let off := if gre_s gre then off + 4 else off in
      Done (Z.of_nat sizeof_gre_hdr + off,
            {| pinfo with tun_type := TUN_GRE; tun := {| t with t_proto := gre_proto gre |} |})
  else if f_l4_type (outer pinfo) =? DOCA_FLOW_PROTO_UDP then
    l4 ← deref (f_l4 (outer pinfo));
    let udp_data := drop (l4 + sizeof_udp_hdr) m in
    let port := udp_dst_port (drop l4 m) in
    let t := tun pinfo in
    if port =? DOCA_FLOW_VXLAN_DEFAULT_PORT then
      Done (Z.of_nat (sizeof_vxlan_gpe_hdr + sizeof_udp_hdr),
            if negb (Z.land (vx_flags udp_data) 0x08 =? 0)
            then {| pinfo with tun_type := TUN_VXLAN;
                               tun := {| t with t_vni := vx_vni udp_data; t_l2 := true |} |}
            else pinfo)
    else if port =? DOCA_FLOW_GTPU_DEFAULT_PORT then
      let flags := gtp_hdr_info udp_data in
      let off := Z.of_nat (sizeof_gtp_hdr + sizeof_udp_hdr) in
      Done (if GTP_ESPN_FLAGS_ON flags then off + 4 else off,
            {| pinfo with tun_type := TUN_GTPU;
                          tun := {| t with t_teid := gtp_teid udp_data; t_gtp_msg_type := gtp_msg_type udp_data;
                                           t_gtp_flags := flags; t_l2 := false |} |})
    else Done (0, pinfo)
  else Done (0, pinfo).

(** The check for a null [pinfo] is left out: its only caller passes a variable. *)
Definition simple_fwd_parse_packet m (len : Z) pinfo : res (Z * simple_fwd_pkt_info) :=
  let pinfo := {| pinfo with p_len := len |} in
  let '(ret, fmt) := simple_fwd_parse_pkt_format m 0 len true (outer pinfo) in
  let pinfo := {| pinfo with outer := fmt |} in
  if negb (ret =? 0) then Done (-1, pinfo)
  else
    '(off, pinfo) ← simple_fwd_parse_is_tun m pinfo;
    if bool_decide (tun_type pinfo = TUN_NONE) || (off <? 0) then Done (0, pinfo)
    else
      l4 ← deref (f_l4 (outer pinfo));
      let inner_off := (l4 + Z.to_nat off)%nat in
      let l2 := match tun_type pinfo with TUN_GRE => false | _ => t_l2 (tun pinfo) end in
      let '(ret, fmt) :=
        simple_fwd_parse_pkt_format m inner_off (len - Z.of_nat inner_off) l2 (inner pinfo) in
      Done (if negb (ret =? 0) then -1 else 0, {| pinfo with inner := fmt |}).

Definition simple_fwd_pinfo_decap pinfo : simple_fwd_pkt_info :=
  match tun_type pinfo with
  | TUN_VXLAN =>
    let o := outer pinfo in let i := inner pinfo in
    {| pinfo with outer := {| o with f_l2 := f_l2 i; f_l3 := f_l3 i; f_l4 := f_l4 i; f_l7 := f_l7 i |};
                  tun_type := TUN_NONE |}
  | _ => pinfo
  end.
End Parser.

(** ** Contracts *)

Section ParserFacts.
Context `{RteNet, FwdNet}.
Implicit Types (m : list Z) (pinfo : simple_fwd_pkt_info) (fmt : simple_fwd_pkt_format).

Definition l3_at (data : nat) (l2 : bool) : nat := (data + if l2 then sizeof_ether_hdr else 0)%nat.
Definition l4_at m (data : nat) (l2 : bool) : nat :=
  (l3_at data l2 + rte_ipv4_hdr_len (drop (l3_at data l2) m))%nat.
Definition proto_at m (data : nat) (l2 : bool) : Z := ipv4_next_proto_id (drop (l3_at data l2) m).

(** Where the payload starts, for the transport protocols that have ports. *)
Definition l7_at m (data : nat) (l2 : bool) : option nat :=
  let l4 := l4_at m data l2 in
  if proto_at m data l2 =? DOCA_FLOW_PROTO_TCP
  then Some (l4 + Z.to_nat (Z.shiftr (Z.land (tcp_data_off (drop l4 m)) 0xf0) 2))%nat
  else if proto_at m data l2 =? DOCA_FLOW_PROTO_UDP then Some (l4 + sizeof_udp_hdr)%nat
  else None.

(** The headers the parser accepts. *)
Record accepts m (data : nat) (len : Z) (l2 : bool) : Prop := {
  ac_type : l2 = true -> ether_type (drop data m) = RTE_ETHER_TYPE_IPV4;
  ac_version : Z.shiftr (ipv4_version_ihl (drop (l3_at data l2) m)) 4 = 4;
  ac_src : ipv4_src_addr (drop (l3_at data l2) m) <> 0;
  ac_dst : ipv4_dst_addr (drop (l3_at data l2) m) <> 0;
  ac_proto : proto_at m data l2 ∈
    [DOCA_FLOW_PROTO_TCP; DOCA_FLOW_PROTO_UDP; DOCA_FLOW_PROTO_GRE; IPPROTO_ICMP];
  ac_l7 : forall o, l7_at m data l2 = Some o -> Z.of_nat o <= Z.of_nat data + len;
}.

(** What the parser records of them. *)
Record recorded m (data : nat) (l2 : bool) fmt : Prop := {
  rc_l2 : f_l2 fmt = Some data;
  rc_l3 : f_l3 fmt = Some (l3_at data l2);
  rc_l3_type : f_l3_type fmt = IPV4;
  rc_l4 : f_l4 fmt = Some (l4_at m data l2);
  rc_l4_type : f_l4_type fmt = proto_at m data l2;
  rc_l7 : forall o, l7_at m data l2 = Some o -> f_l7 fmt = Some o;
}.

Lemma parse_l4_spec m data len l2 fmt :
  f_l2 fmt = Some data -> f_l3 fmt = Some (l3_at data l2) -> f_l3_type fmt = IPV4 ->
  f_l4 fmt = Some (l4_at m data l2) ->
  let r := parse_l4 m data len (l4_at m data l2 - data)%nat (proto_at m data l2) fmt in
  let ok := proto_at m data l2 ∈ [DOCA_FLOW_PROTO_TCP; DOCA_FLOW_PROTO_UDP; DOCA_FLOW_PROTO_GRE; IPPROTO_ICMP] /\
    forall o, l7_at m data l2 = Some o -> Z.of_nat o <= Z.of_nat data + len in
  (r.1 = 0 /\ ok /\ recorded m data l2 r.2) \/ (r.1 = -1 /\ ~ ok).
Proof.
  intros Hl2 Hl3 Ht Hl4. assert (data <= l4_at m data l2)%nat as Hle by (unfold l4_at, l3_at; lia).
  assert (forall f, f_l2 f = f_l2 fmt -> f_l3 f = f_l3 fmt -> f_l3_type f = f_l3_type fmt ->
    f_l4 f = f_l4 fmt -> f_l4_type f = proto_at m data l2 ->
    (forall o, l7_at m data l2 = Some o -> f_l7 f = Some o) -> recorded m data l2 f) as Hrec.
  { intros f E2 E3 Et E4 Ep E7. split; [congruence..|done]. }
  unfold parse_l4. cbn zeta.
  replace (data + (l4_at m data l2 - data))%nat with (l4_at m data l2) by lia.
  unfold l7_at in *. set (p := proto_at m data l2) in *.
  destruct (Z.eqb_spec p DOCA_FLOW_PROTO_TCP) as [Hp|]; [|destruct (Z.eqb_spec p DOCA_FLOW_PROTO_UDP) as [Hp|];
    [|destruct (Z.eqb_spec p DOCA_FLOW_PROTO_GRE) as [Hp|]; [|destruct (Z.eqb_spec p IPPROTO_ICMP) as [Hp|]]]].
  1,2: match goal with |- context [?l <? Z.of_nat ?o] => destruct (Z.ltb_spec l (Z.of_nat o)) as [Hlt|Hlt] end;
    [right; split; [done|]; intros [_ Hb]; specialize (Hb _ eq_refl); lia|].
  1,2: left; split; [done|]; split; [split; [rewrite Hp; set_solver|intros o [= <-]; lia]|];
    apply Hrec; cbn; try done; intros o [= <-]; f_equal; lia.
  1,2: left; split; [done|]; split; [split; [rewrite Hp; set_solver|done]|]; by apply Hrec.
  right. split; [done|]. intros [Hin _]. set_solver.
Qed.

Lemma format_spec m (data : nat) (len : Z) (l2 : bool) fmt :
  let r := simple_fwd_parse_pkt_format m data len l2 fmt in
  (r.1 = 0 /\ accepts m data len l2 /\ recorded m data l2 r.2) \/ (r.1 = -1 /\ ~ accepts m data len l2).
Proof.
  unfold simple_fwd_parse_pkt_format.
  assert (forall l3_off fmt', l3_off = (if l2 then sizeof_ether_hdr else 0)%nat -> f_l2 fmt' = Some data ->
    (l2 = true -> ether_type (drop data m) = RTE_ETHER_TYPE_IPV4) ->
    let r := parse_l3 m data len l3_off fmt' in
    (r.1 = 0 /\ accepts m data len l2 /\ recorded m data l2 r.2) \/ (r.1 = -1 /\ ~ accepts m data len l2)) as Hip.
  { intros l3_off fmt' -> Hl2 Hty. unfold parse_l3.
    change (data + (if l2 then _ else _))%nat with (l3_at data l2). cbn zeta.
    destruct (Z.eqb_spec (Z.shiftr (ipv4_version_ihl (drop (l3_at data l2) m)) 4) 4) as [Hv|Hv]; cbn [negb];
      [|right; split; [done|]; by intros []].
    destruct (Z.eqb_spec (ipv4_src_addr (drop (l3_at data l2) m)) 0) as [Hs|Hs];
      [right; split; [done|]; by intros []|].
    destruct (Z.eqb_spec (ipv4_dst_addr (drop (l3_at data l2) m)) 0) as [Hd|Hd];
      [right; split; [done|]; by intros []|]. cbn [orb].
    match goal with |- context [parse_l4 m data len ?o ?p ?f] =>
      assert (o = l4_at m data l2 - data)%nat as -> by (unfold l4_at, l3_at; destruct l2; lia) end.
    match goal with |- context [parse_l4 m data len _ _ ?f] =>
      destruct (parse_l4_spec m data len l2 f) as [(E & [Hp H7] & Hr)|[E Hno]] end; try done.
    - cbn. f_equal. unfold l4_at, l3_at. destruct l2; lia.
    - left. split; [exact E|]. split; [by split|exact Hr].
    - right. split; [exact E|]. intros []. auto. }
  destruct l2; [|by apply Hip].
  destruct (Z.eqb_spec (ether_type (drop data m)) RTE_ETHER_TYPE_IPV4) as [Ht|Ht]; [by apply Hip|].
  right. split; [by destruct (_ =? _)|]. intros []. auto.
Qed.

(** The header parser accepts exactly IPv4 headers, behind an Ethernet header
    of type IPv4 if one is expected, with version 4, addresses other than 0 and TCP,
    UDP, GRE or ICMP on top, where a TCP or UDP header ends inside the packet; of an
    accepted header it records where each layer starts and the types, anything
    else is refused with -1. *)
Theorem format_parses m (data : nat) (len : Z) (l2 : bool) fmt :
  let r := simple_fwd_parse_pkt_format m data len l2 fmt in
  (r.1 = 0 /\ accepts m data len l2 /\ recorded m data l2 r.2) \/ (r.1 = -1 /\ ~ accepts m data len l2).
Proof. apply format_spec. Qed.

(** The tunnel header at the transport header [l4] of protocol [proto]: its type,
    its length (with the UDP header) and whether an Ethernet header follows. *)
Inductive tunnel_at m (l4 : nat) : Z -> doca_flow_tun_type -> nat -> bool -> Prop :=
| tunnel_gre : gre_c (drop l4 m) = false ->
  tunnel_at m l4 DOCA_FLOW_PROTO_GRE TUN_GRE
    (sizeof_gre_hdr + (if gre_k (drop l4 m) then 4 else 0) + (if gre_s (drop l4 m) then 4 else 0)) false
| tunnel_vxlan : udp_dst_port (drop l4 m) = DOCA_FLOW_VXLAN_DEFAULT_PORT ->
  Z.land (vx_flags (drop (l4 + sizeof_udp_hdr) m)) 0x08 <> 0 ->
  tunnel_at m l4 DOCA_FLOW_PROTO_UDP TUN_VXLAN (sizeof_vxlan_gpe_hdr + sizeof_udp_hdr) true
| tunnel_gtpu : udp_dst_port (drop l4 m) = DOCA_FLOW_GTPU_DEFAULT_PORT ->
  tunnel_at m l4 DOCA_FLOW_PROTO_UDP TUN_GTPU
    (sizeof_gtp_hdr + sizeof_udp_hdr +
     (if GTP_ESPN_FLAGS_ON (gtp_hdr_info (drop (l4 + sizeof_udp_hdr) m)) then 4 else 0)) false.

Lemma ports_differ :
  DOCA_FLOW_VXLAN_DEFAULT_PORT <> DOCA_FLOW_GTPU_DEFAULT_PORT /\ DOCA_FLOW_PROTO_GRE <> DOCA_FLOW_PROTO_UDP.
Proof. done. Qed.

Lemma is_tun_spec m l4 proto pinfo :
  f_l3_type (outer pinfo) = IPV4 -> f_l4_type (outer pinfo) = proto -> f_l4 (outer pinfo) = Some l4 ->
  tun_type pinfo = TUN_NONE ->
  exists off p, simple_fwd_parse_is_tun m pinfo = Done (off, p) /\ outer p = outer pinfo /\
    inner p = inner pinfo /\ p_len p = p_len pinfo /\
    ((tun_type p = TUN_NONE /\ forall t n b, ~ tunnel_at m l4 proto t n b) \/
     (tun_type p <> TUN_NONE /\ tunnel_at m l4 proto (tun_type p) (Z.to_nat off)
        (match tun_type p with TUN_GRE => false | _ => t_l2 (tun p) end) /\ 0 <= off)).
Proof.
  destruct ports_differ as [Hd1 Hd2]. intros H3 H4 Hl4 Hn. unfold simple_fwd_parse_is_tun. rewrite H3, H4, Hl4. cbn [negb Z.eqb IPV4 Pos.eqb].
  cbn [deref mbind res_bind].
  destruct (Z.eqb_spec proto DOCA_FLOW_PROTO_GRE) as [->|Hg].
  { destruct (gre_c (drop l4 m)) eqn:Ec.
    - do 2 eexists. split; [done|]. split_and!; try done. left. split; [done|]. intros t n b Ht.
      inversion Ht; congruence.
    - destruct (gre_k (drop l4 m)) eqn:Ek, (gre_s (drop l4 m)) eqn:Es; do 2 eexists; (split; [done|]);
        (split_and!; [done..|]; right; split; [done|]; split; [|lia]);
        match goal with |- tunnel_at _ _ _ _ ?n _ =>
          replace n with (sizeof_gre_hdr + (if gre_k (drop l4 m) then 4 else 0) +
            (if gre_s (drop l4 m) then 4 else 0))%nat by (rewrite Ek, Es; lia) end;
        by apply tunnel_gre. }
  destruct (Z.eqb_spec proto DOCA_FLOW_PROTO_UDP) as [->|Hu].
  2: { do 2 eexists. split; [done|]. split_and!; try done. left. split; [done|]. intros t n b Ht.
       inversion Ht; congruence. }
  destruct (Z.eqb_spec (udp_dst_port (drop l4 m)) DOCA_FLOW_VXLAN_DEFAULT_PORT) as [Hv|Hv].
  { destruct (Z.eqb_spec (Z.land (vx_flags (drop (l4 + sizeof_udp_hdr) m)) 0x08) 0) as [Hf|Hf]; cbn [negb];
      do 2 eexists; (split; [done|]); (split_and!; [done..|]).
    - left. split; [done|]. intros t n b Ht. inversion Ht; congruence.
    - right. split; [done|]. split; [|lia]. rewrite Nat2Z.id. by apply tunnel_vxlan. }
  destruct (Z.eqb_spec (udp_dst_port (drop l4 m)) DOCA_FLOW_GTPU_DEFAULT_PORT) as [Hgt|Hgt].
  - do 2 eexists. split; [done|]. split_and!; [done..|]. right. split; [done|]. split; [|destruct (GTP_ESPN_FLAGS_ON _); lia].
    match goal with |- tunnel_at _ _ _ _ ?n _ =>
      replace n with (sizeof_gtp_hdr + sizeof_udp_hdr +
        (if GTP_ESPN_FLAGS_ON (gtp_hdr_info (drop (l4 + sizeof_udp_hdr) m)) then 4 else 0))%nat
        by (destruct (GTP_ESPN_FLAGS_ON _); lia) end.
    by apply tunnel_gtpu.
  - do 2 eexists. split; [done|]. split_and!; [done..|]. left. split; [done|]. intros t n b Ht.
    inversion Ht; congruence.
Qed.

(** A parsed packet: accepted outer headers, and either no tunnel behind them or a
    tunnel with accepted headers inside. *)
Record parsed m (len : Z) pinfo : Prop := {
  pd_accepts : accepts m 0 len true;
  pd_outer : recorded m 0 true (outer pinfo);
  pd_tunnel :
    (tun_type pinfo = TUN_NONE /\ forall t n b, ~ tunnel_at m (l4_at m 0 true) (proto_at m 0 true) t n b) \/
    (exists n b, let io := (l4_at m 0 true + n)%nat in
      tunnel_at m (l4_at m 0 true) (proto_at m 0 true) (tun_type pinfo) n b /\
      accepts m io (len - Z.of_nat io) b /\ recorded m io b (inner pinfo));
}.

Lemma tunnel_at_inj m l4 proto t n b t' n' b' :
  tunnel_at m l4 proto t n b -> tunnel_at m l4 proto t' n' b' -> n = n' /\ b = b'.
Proof.
  destruct ports_differ as [Hd1 Hd2]. intros Ht Ht'. inversion Ht; inversion Ht'; subst; try done; congruence.
Qed.

Lemma parse_packet_ok m (len : Z) :
  exists ret pinfo, simple_fwd_parse_packet m len pinfo_zero = Done (ret, pinfo) /\
    ((ret = 0 /\ parsed m len pinfo) \/ (ret = -1 /\ forall p, ~ parsed m len p)).
Proof.
  unfold simple_fwd_parse_packet.
  match goal with |- context [simple_fwd_parse_pkt_format m 0 len true ?f] =>
    pose proof (format_spec m 0 len true f) as Ho;
    destruct (simple_fwd_parse_pkt_format m 0 len true f) as [ret fmt] end.
  cbn [fst snd] in Ho. destruct Ho as [(-> & Hacc & Hrec)|[-> Hno]]; cbn [negb Z.eqb].
  2: { do 2 eexists. split; [done|]. right. split; [done|]. intros p []. auto. }
  match goal with |- context [simple_fwd_parse_is_tun m ?p] =>
    destruct (is_tun_spec m (l4_at m 0 true) (proto_at m 0 true) p) as (off & p1 & -> & Ho & Hi & Hl & Ht) end;
    try apply Hrec; [done|].
  cbn [mbind res_bind]. cbn [outer inner] in Ho, Hi.
  destruct Ht as [[Hn Hno]|(Hn & Ht & Hoff)].
  { rewrite bool_decide_eq_true_2 by done. cbn [orb]. do 2 eexists. split; [done|]. left. split; [done|].
    split; [done|by rewrite Ho|by left]. }
  rewrite bool_decide_eq_false_2 by done. destruct (Z.ltb_spec off 0) as [?|_]; [lia|]. cbn [orb].
  rewrite Ho, (rc_l4 _ _ _ _ Hrec). cbn [deref mbind res_bind].
  match goal with |- context [simple_fwd_parse_pkt_format m ?o ?l ?b ?f] =>
    pose proof (format_spec m o l b f) as Hf;
    destruct (simple_fwd_parse_pkt_format m o l b f) as [ret2 fmt2] end.
  cbn [fst snd] in Hf. destruct Hf as [(-> & Hacc2 & Hrec2)|[-> Hno2]]; cbn [negb Z.eqb].
  - do 2 eexists. split; [done|]. left. split; [done|]. split; [done|done|].
    right. eexists _, _. cbn [tun_type inner]. by split_and!.
  - do 2 eexists. split; [done|]. right. split; [done|]. intros p [_ _ [[_ Hno]|(n & b & Ht' & Hacc2 & _)]].
    + by eapply Hno.
    + destruct (tunnel_at_inj _ _ _ _ _ _ _ _ _ Ht Ht') as [<- <-]. done.
Qed.

(** C39: the packet parser always returns, without reading through a null pointer.
    It answers 0 exactly for a packet whose outer headers are accepted and which
    either has no tunnel header of the three kinds or carries accepted headers
    inside it, and then the recorded pointers and types are those of the outer
    headers, of the tunnel, and of the headers right behind the tunnel header. *)
Theorem parse_packet_spec m (len : Z) :
  exists ret pinfo, simple_fwd_parse_packet m len pinfo_zero = Done (ret, pinfo) /\
    ((ret = 0 /\ parsed m len pinfo) \/ (ret = -1 /\ forall p, ~ parsed m len p)).
Proof. apply parse_packet_ok. Qed.
End ParserFacts.

(** ** Concrete packets *)

Definition eth_ipv4 : list Z := [1;1;1;1;1;1; 2;2;2;2;2;2; 0x08;0x00].
Definition ipv4_of (proto : Z) (src dst : list Z) : list Z := [0x45;0;0;84; 0;0;0;0; 64;proto;0;0] ++ src ++ dst.

(** VXLAN: outer UDP to port 4789, VNI 7, inside Ethernet, IPv4 and TCP. *)
Definition vxlan_packet : list Z :=
  eth_ipv4 ++ ipv4_of 17 [10;0;0;1] [10;0;0;2] ++ [0x12;0x34; 0x12;0xb5; 0;70; 0;0] ++ [8;0;0;0; 0;0;7;0] ++
  eth_ipv4 ++ ipv4_of 6 [192;168;0;1] [192;168;0;2] ++
  [0xc0;0; 0;80; 0;0;0;1; 0;0;0;0; 0x50;0x10;0;0; 0;0;0;0].

Definition parsed_of (m : list Z) : simple_fwd_pkt_info :=
  match simple_fwd_parse_packet m (Z.of_nat (length m)) pinfo_zero with Done (_, p) => p | Crash _ => pinfo_zero end.

Example vxlan_parses :
  tun_type (parsed_of vxlan_packet) = TUN_VXLAN /\ f_l4 (inner (parsed_of vxlan_packet)) = Some 84%nat /\
  t_vni (tun (parsed_of vxlan_packet)) = 0x700.
Proof. vm_compute. auto. Qed.

(** The parser does not respect the length of the packet: for a packet that
    ends right after its Ethernet header the result depends on what follows in
    memory. Stale bytes that look like an ICMP header make the packet accepted,
    with its network and transport headers behind its end. *)
Theorem fwd_reads_past_end :
  exists m1 m2 p1 p2,
    take 14 m1 = take 14 m2 /\
    simple_fwd_parse_packet m1 14 pinfo_zero = Done (0, p1) /\
    f_l3 (outer p1) = Some 14%nat /\ f_l4 (outer p1) = Some 34%nat /\
    simple_fwd_parse_packet m2 14 pinfo_zero = Done (-1, p2).
Proof.
  exists (eth_ipv4 ++ ipv4_of 1 [10;0;0;1] [10;0;0;2]), eth_ipv4. do 2 eexists.
  split_and!; vm_compute; reflexivity.
Qed.
