(* ===== verification/FwdTable.v ===== *)
(** * FwdTable: the flow table and the packet handler of simple_fwd_vnf,
      src/applications/simple_fwd_vnf/simple_fwd_ft.c and simple_fwd.c

    The table is an array of buckets; a bucket lists the addresses of its entries
    in the order of the C list, and [ft_heap] holds the entries that are allocated.
    Using the address of an entry that was freed is [UseAfterFree]. What the
    environment decides is an argument: the address [calloc] returns ([None] for
    no memory), clock readings, the outcome of a hardware request, the counters
    DOCA Flow reports, whether a lock is free.

    [ft_inv] is the invariant of the table; the table implements a finite map from
    keys to entries ([ft_lookup], [handle_packet_spec]); the aging pass terminates
    and removes what is due ([aging_round_spec]). *)

From S2P Require Import Prelude Wire FwdPkt.

Definition SIMPLE_FWD_MAX_FLOWS : Z := 8096.

(** [rte_is_power_of_2] and [rte_align32pow2] of DPDK. *)
Class RteBits := {
  rte_is_power_of_2 : Z -> bool;
  rte_align32pow2 : Z -> Z;
}.
Class RteBitsLaws `{RteBits} := {
  is_power_of_2_spec : forall x, 0 < x -> rte_is_power_of_2 x = true <-> exists k, 0 <= k /\ x = 2 ^ k;
  (** the next power of two, as long as it fits *)
  align32pow2_spec : forall x, 0 < x <= 2 ^ 31 ->
    x <= rte_align32pow2 x < 2 * x /\ exists k, 0 <= k /\ rte_align32pow2 x = 2 ^ k;
}.

Record simple_fwd_ft_key := {
  k_ipv4_1 : Z;
  k_ipv4_2 : Z;
  k_port_1 : Z;
  k_port_2 : Z;
  (** the union of [vni], [teid] and [gre_key] *)
  k_tun_id : Z;
  k_protocol : Z;
  k_tun_type : doca_flow_tun_type;
  k_port_id : Z;
  k_rss_hash : Z;
}.
#[global] Instance ft_key_eq_dec : EqDecision simple_fwd_ft_key.
Proof. solve_decision. Defined.

(** The part of the entry the application keeps in [user_ctx.data]. *)
Record simple_fwd_pipe_entry := {
  is_hw : bool;
  total_pkts : Z;
  pe_queue : Z;
  hw_entry : option Z;
}.

Record simple_fwd_ft_entry := {
  e_key : simple_fwd_ft_key;
  e_expiration : Z;
  e_age_sec : Z;
  e_last_counter : Z;
  e_buckets_index : Z;
  e_fid : Z;
  e_data : simple_fwd_pipe_entry;
}.

Record simple_fwd_ft := {
  ft_size : Z;
  ft_mask : Z;
  ft_add : Z;
  ft_rm : Z;
  ft_fid_ctr : Z;
  ft_buckets : list (list Z);
  ft_heap : gmap Z simple_fwd_ft_entry;
  (** the requests to remove a hardware entry made so far: queue and entry *)
  ft_hw_removed : list (Z * option Z);
}.

Definition key_zero : simple_fwd_ft_key :=
  {| k_ipv4_1 := 0; k_ipv4_2 := 0; k_port_1 := 0; k_port_2 := 0; k_tun_id := 0; k_protocol := 0;
     k_tun_type := TUN_NONE; k_port_id := 0; k_rss_hash := 0 |}.
Definition entry_zero : simple_fwd_ft_entry :=
  {| e_key := key_zero; e_expiration := 0; e_age_sec := 0; e_last_counter := 0; e_buckets_index := 0;
     e_fid := 0; e_data := {| is_hw := false; total_pkts := 0; pe_queue := 0; hw_entry := None |} |}.

Definition set_heap (h : gmap Z simple_fwd_ft_entry) (ft : simple_fwd_ft) := {| ft with ft_heap := h |}.
Definition put (a : Z) (e : simple_fwd_ft_entry) (ft : simple_fwd_ft) : simple_fwd_ft :=
  set_heap (<[a := e]> (ft_heap ft)) ft.
Definition load (ft : simple_fwd_ft) (a : Z) : res simple_fwd_ft_entry :=
  match ft_heap ft !! a with Some e => Done e | None => Crash UseAfterFree end.

(** ** Entries *)

Definition simple_fwd_ft_update_age_sec (e : simple_fwd_ft_entry) (age_sec : Z) : simple_fwd_ft_entry :=
  {| e with e_age_sec := age_sec |}.

Definition simple_fwd_ft_update_expiration (e : simple_fwd_ft_entry) (tsc hz : Z) : simple_fwd_ft_entry :=
  if negb (e_age_sec e =? 0) then {| e with e_expiration := u64 (tsc + hz * e_age_sec e) |} else e.

(** [query] is what [doca_flow_resource_query_entry] reports, [None] if it fails. *)
Definition simple_fwd_ft_update_counter (e : simple_fwd_ft_entry) (query : option Z)
    : bool * simple_fwd_ft_entry :=
  match query with
  | Some pkts => (negb (u64 (pkts - e_last_counter e) =? 0), {| e with e_last_counter := pkts |})
  | None => (false, e)
  end.

(** [simple_fwd_aging_cb] of the table is this function. The entry is freed next. *)
Definition simple_fwd_aged_flow_cb (ft : simple_fwd_ft) (e : simple_fwd_ft_entry) : simple_fwd_ft :=
  if is_hw (e_data e)
  then {| ft with ft_hw_removed := ft_hw_removed ft ++ [(pe_queue (e_data e), hw_entry (e_data e))] |}
  else ft.

Definition LIST_REMOVE (a : Z) (buckets : list (list Z)) : list (list Z) :=
  (fun l => filter (fun b => b <> a) l) <$> buckets.

Definition _ft_destroy_entry (ft : simple_fwd_ft) (a : Z) : res simple_fwd_ft :=
  e ← load ft a;
  let ft := {| ft with ft_buckets := LIST_REMOVE a (ft_buckets ft) |} in
  let ft := simple_fwd_aged_flow_cb ft e in
  let ft := set_heap (delete a (ft_heap ft)) ft in
  Done {| ft with ft_rm := u64 (ft_rm ft + 1) |}.

(** The second component is the bucket whose lock is held. *)
Definition simple_fwd_ft_destroy_entry (ft : simple_fwd_ft) (a : Z) : res (simple_fwd_ft * Z) :=
  e ← load ft a;
  let idx := e_buckets_index e in
  match ft_buckets ft !! Z.to_nat idx with
  | None => Crash OutOfBounds
  | Some _ => ft ← _ft_destroy_entry ft a; Done (ft, idx)
  end.

(** ** Aging *)

(** The environment of one call: the clock, whether the lock is free, and the
    counter DOCA Flow reports for a hardware entry. *)
Record aging_env := {
  av_tsc : Z;
  av_trylock : bool;
  av_query : option Z -> option Z;
}.

Fixpoint aging_loop (ft : simple_fwd_ft) (env : aging_env) (nodes : list Z) : res (simple_fwd_ft * bool) :=
  match nodes with
  | [] => Done (ft, false)
  | node :: nodes =>
    e ← load ft node;
    if negb (e_age_sec e =? 0) && (e_expiration e <? av_tsc env) then
      let '(update, e) := simple_fwd_ft_update_counter e (av_query env (hw_entry (e_data e))) in
      let ft := put node e ft in
      if negb update then ft ← _ft_destroy_entry ft node; Done (ft, true)
      else aging_loop ft env nodes
    else aging_loop ft env nodes
  end.

Definition simple_fwd_ft_aging_ft_entry (ft : simple_fwd_ft) (i : nat) (env : aging_env)
    : res (simple_fwd_ft * bool) :=
  match ft_buckets ft !! i with
  | None => Crash OutOfBounds
  | Some nodes => if av_trylock env then aging_loop ft env nodes else Done (ft, false)
  end.

(** [do ... while (next)]: [env k] is the environment of the call with [k] calls of
    the fuel left. *)
Fixpoint aging_bucket (fuel : nat) (ft : simple_fwd_ft) (i : nat) (env : nat -> aging_env) : res simple_fwd_ft :=
  match fuel with
  | O => Crash OutOfFuel
  | S fuel =>
    '(ft, next) ← simple_fwd_ft_aging_ft_entry ft i (env fuel);
    if next : bool then aging_bucket fuel ft i env else Done ft
  end.

(** One round of the loop over all buckets. *)
Fixpoint aging_round (fuel : nat) (ft : simple_fwd_ft) (idxs : list nat) (env : nat -> nat -> aging_env)
    : res simple_fwd_ft :=
  match idxs with
  | [] => Done ft
  | i :: idxs => ft ← aging_bucket fuel ft i (env i); aging_round fuel ft idxs env
  end.
Definition simple_fwd_ft_aging_main (fuel : nat) (ft : simple_fwd_ft) (env : nat -> nat -> aging_env)
    : res simple_fwd_ft :=
  if bool_decide (s32 (ft_add ft - ft_rm ft) = 0) then Done ft
  else aging_round fuel ft (seq 0 (Z.to_nat (ft_size ft))) env.

(** ** Keys, lookup and insertion *)

Section Table.
Context `{RteNet, FwdNet}.
Implicit Types (m : list Z) (pinfo : simple_fwd_pkt_info) (ft : simple_fwd_ft) (key : simple_fwd_ft_key).

(** [None] is the error; the key starts zeroed. *)
Definition simple_fwd_ft_key_fill m pinfo : res (option simple_fwd_ft_key) :=
  let is_inner := negb (bool_decide (tun_type pinfo = TUN_NONE)) in
  if negb (f_l3_type (outer pinfo) =? IPV4) then Done None
  else
    ip1 ← (if is_inner then simple_fwd_pinfo_inner_ipv4_src m pinfo else simple_fwd_pinfo_outer_ipv4_src m pinfo);
    ip2 ← (if is_inner then simple_fwd_pinfo_inner_ipv4_dst m pinfo else simple_fwd_pinfo_outer_ipv4_dst m pinfo);
    port1 ← (if is_inner then simple_fwd_pinfo_inner_src_port m pinfo else simple_fwd_pinfo_outer_src_port m pinfo);
    port2 ← (if is_inner then simple_fwd_pinfo_inner_dst_port m pinfo else simple_fwd_pinfo_outer_dst_port m pinfo);
    Done (Some {| k_ipv4_1 := ip1; k_ipv4_2 := ip2; k_port_1 := port1; k_port_2 := port2;
                  k_tun_id := match tun_type pinfo with
                              | TUN_VXLAN => t_vni (tun pinfo)
                              | TUN_GTPU => t_teid (tun pinfo)
                              | TUN_GRE => t_gre_key (tun pinfo)
                              | TUN_NONE => 0
                              end;
                  k_protocol := if is_inner then f_l4_type (inner pinfo) else f_l4_type (outer pinfo);
                  k_tun_type := tun_type pinfo; k_port_id := orig_port_id pinfo;
                  k_rss_hash := rss_hash pinfo |}).

(** Every byte of a key is zeroed first, so [memcmp] compares the fields. *)
Definition simple_fwd_ft_key_equal (key1 key2 : simple_fwd_ft_key) : bool := bool_decide (key1 = key2).

Fixpoint find_in ft (nodes : list Z) key (tsc hz : Z) : res (simple_fwd_ft * option Z) :=
  match nodes with
  | [] => Done (ft, None)
  | node :: nodes =>
    e ← load ft node;
    if simple_fwd_ft_key_equal (e_key e) key
    then Done (put node (simple_fwd_ft_update_expiration e tsc hz) ft, Some node)
    else find_in ft nodes key tsc hz
  end.

Definition _simple_fwd_ft_find ft key (tsc hz : Z) : res (simple_fwd_ft * option Z) :=
  let idx := Z.land (k_rss_hash key) (ft_mask ft) in
  match ft_buckets ft !! Z.to_nat idx with
  | None => Crash OutOfBounds
  | Some nodes => find_in ft nodes key tsc hz
  end.

(** The address of the entry stands for the address of its user context. *)
Definition simple_fwd_ft_find ft m pinfo (tsc hz : Z) : res (simple_fwd_ft * (doca_error_t * option Z)) :=
  key ← simple_fwd_ft_key_fill m pinfo;
  match key with
  | None => Done (ft, (DOCA_ERROR_UNEXPECTED, None))
  | Some key =>
    '(ft, fe) ← _simple_fwd_ft_find ft key tsc hz;
    match fe with
    | None => Done (ft, (DOCA_ERROR_NOT_FOUND, None))
    | Some a => Done (ft, (DOCA_SUCCESS, Some a))
    end
  end.

(** [alloc] is the result of [calloc]. The table pointer is never null here. *)
Definition simple_fwd_ft_add_new ft m pinfo (alloc : option Z) (tsc hz : Z)
    : res (simple_fwd_ft * (doca_error_t * option Z)) :=
  key ← simple_fwd_ft_key_fill m pinfo;
  match key with
  | None => Done (ft, (DOCA_ERROR_UNEXPECTED, None))
  | Some key =>
    match alloc with
    | None => Done (ft, (DOCA_ERROR_NO_MEMORY, None))
    | Some a =>
      let idx := Z.land (rss_hash pinfo) (ft_mask ft) in
      match ft_buckets ft !! Z.to_nat idx with
      | None => Crash OutOfBounds
      | Some nodes =>
        let new_e := simple_fwd_ft_update_expiration entry_zero tsc hz in
        let new_e := {| new_e with e_fid := ft_fid_ctr ft; e_key := key; e_buckets_index := u16 idx |} in
        let ft := put a new_e {| ft with ft_fid_ctr := u32 (ft_fid_ctr ft + 1) |} in
        Done ({| ft with ft_buckets := <[Z.to_nat idx := a :: nodes]> (ft_buckets ft);
                         ft_add := u64 (ft_add ft + 1) |}, (DOCA_SUCCESS, Some a))
      end
    end
  end.

(** The entries of a bucket, from the head. *)
Fixpoint destroy_nodes ft (nodes : list Z) : res simple_fwd_ft :=
  match nodes with
  | [] => Done ft
  | node :: nodes => ft ← _ft_destroy_entry ft node; destroy_nodes ft nodes
  end.
Fixpoint destroy_buckets ft (idxs : list nat) : res simple_fwd_ft :=
  match idxs with
  | [] => Done ft
  | i :: idxs =>
    match ft_buckets ft !! i with
    | None => Crash OutOfBounds
    | Some nodes => ft ← destroy_nodes ft nodes; destroy_buckets ft idxs
    end
  end.
(** The table as it is when it is freed itself, the aging thread having stopped. *)
Definition simple_fwd_ft_destroy ft : res simple_fwd_ft :=
  destroy_buckets ft (seq 0 (Z.to_nat (ft_size ft))).
End Table.

Section Create.
Context `{RteBits}.

(** [mem] says whether [calloc] succeeds and [thread] whether the aging thread
    starts. The sizes of the C structures are arguments; the second component is
    the number of bytes that is allocated. *)
Definition simple_fwd_ft_create (nb_flows : Z) (sizeof_ft sizeof_bucket : Z) (age_thread mem thread : bool)
    : option (simple_fwd_ft * Z) :=
  if nb_flows <=? 0 then None
  else
    let nb_flows_aligned := if negb (rte_is_power_of_2 nb_flows) then rte_align32pow2 nb_flows else nb_flows in
    let nb_flows_aligned := u32 (Z.shiftl nb_flows_aligned 1) in
    let alloc_size := u32 (sizeof_ft + sizeof_bucket * nb_flows_aligned) in
    if negb mem then None
    else if age_thread && negb thread then None
    else Some ({| ft_size := nb_flows_aligned; ft_mask := u32 (nb_flows_aligned - 1); ft_add := 0; ft_rm := 0;
                  ft_fid_ctr := 0; ft_buckets := replicate (Z.to_nat nb_flows_aligned) [];
                  ft_heap := ∅; ft_hw_removed := [] |}, alloc_size).
End Create.

(** ** The packet handler *)

(** The match of the hardware entry; MAC addresses and what the pipe does not
    select are included, as in the code. *)
Inductive doca_flow_l4_type_ext := L4_EXT_NONE | L4_EXT_TCP | L4_EXT_UDP.
Record fwd_l3_match := {
  fm_dst_ip : Z;
  fm_src_ip : Z;
  fm_l4_type_ext : doca_flow_l4_type_ext;
  fm_src_port : Z;
  fm_dst_port : Z;
}.
Record fwd_match := {
  fm_dst_mac : list Z;
  fm_src_mac : list Z;
  fm_outer : fwd_l3_match;
  fm_tun : option (doca_flow_tun_type * Z);
  fm_inner : option fwd_l3_match;
}.

Definition simple_fwd_l3_type_transfer (pkt_l4_type : Z) : doca_flow_l4_type_ext :=
  if pkt_l4_type =? DOCA_FLOW_PROTO_TCP then L4_EXT_TCP
  else if pkt_l4_type =? DOCA_FLOW_PROTO_UDP then L4_EXT_UDP
  else L4_EXT_NONE.

(** [SET_L4_PORT]: the port is set for TCP and UDP only. *)
Definition SET_L4_PORT (t : doca_flow_l4_type_ext) (value : Z) : Z :=
  match t with L4_EXT_NONE => 0 | _ => value end.

Definition simple_fwd_match_set_tun (pinfo : simple_fwd_pkt_info) : option (doca_flow_tun_type * Z) :=
  match tun_type pinfo with
  | TUN_NONE => None
  | TUN_VXLAN => Some (TUN_VXLAN, Z.shiftr (t_vni (tun pinfo)) 8)
  | TUN_GRE => Some (TUN_GRE, t_gre_key (tun pinfo))
  | TUN_GTPU => Some (TUN_GTPU, t_teid (tun pinfo))
  end.

(** What the environment answers while a hardware entry is added: memory for its
    status, the result of the request, of processing it, and the status then. *)
Record add_env := {
  ae_status_mem : bool;
  ae_add : doca_error_t * Z;
  ae_process : doca_error_t;
  ae_nb_processed : Z;
  ae_failure : bool;
  ae_rand : Z;
}.

Definition simple_fwd_build_entry_monitor (rand : Z) : Z := u32 rand mod 55 + 5.

(** [true]: the pipe of the tunnel type on the port of the packet exists. *)
Definition simple_fwd_select_pipe (pinfo : simple_fwd_pkt_info) : bool :=
  match tun_type pinfo with TUN_GRE | TUN_VXLAN | TUN_GTPU => true | TUN_NONE => false end.

Section Handler.
Context `{RteNet, FwdNet}.
Implicit Types (m : list Z) (pinfo : simple_fwd_pkt_info) (ft : simple_fwd_ft).

Definition simple_fwd_build_entry_match m pinfo : res fwd_match :=
  dmac ← simple_fwd_pinfo_outer_mac_dst m pinfo;
  smac ← simple_fwd_pinfo_outer_mac_src m pinfo;
  odst ← simple_fwd_pinfo_outer_ipv4_dst m pinfo;
  osrc ← simple_fwd_pinfo_outer_ipv4_src m pinfo;
  let ol4 := simple_fwd_l3_type_transfer (f_l4_type (outer pinfo)) in
  osport ← simple_fwd_pinfo_outer_src_port m pinfo;
  odport ← simple_fwd_pinfo_outer_dst_port m pinfo;
  let o := {| fm_dst_ip := odst; fm_src_ip := osrc; fm_l4_type_ext := ol4;
              fm_src_port := SET_L4_PORT ol4 osport; fm_dst_port := SET_L4_PORT ol4 odport |} in
  if bool_decide (tun_type pinfo = TUN_NONE)
  then Done {| fm_dst_mac := dmac; fm_src_mac := smac; fm_outer := o; fm_tun := None; fm_inner := None |}
  else
    idst ← simple_fwd_pinfo_inner_ipv4_dst m pinfo;
    isrc ← simple_fwd_pinfo_inner_ipv4_src m pinfo;
    let il4 := simple_fwd_l3_type_transfer (f_l4_type (inner pinfo)) in
    isport ← simple_fwd_pinfo_inner_src_port m pinfo;
    idport ← simple_fwd_pinfo_inner_dst_port m pinfo;
    let i := {| fm_dst_ip := idst; fm_src_ip := isrc; fm_l4_type_ext := il4;
                fm_src_port := SET_L4_PORT il4 isport; fm_dst_port := SET_L4_PORT il4 idport |} in
    Done {| fm_dst_mac := dmac; fm_src_mac := smac; fm_outer := o;
            fm_tun := simple_fwd_match_set_tun pinfo; fm_inner := Some i |}.

(** The handle of the new entry with its aging time, the match sent to the device
    if it came to that, and the entry that is removed again after an error. *)
Definition simple_fwd_pipe_add_entry m pinfo (env : add_env)
    : res (option (Z * Z) * option fwd_match * option Z) :=
  if negb (ae_status_mem env) then Done (None, None, None)
  else if negb (simple_fwd_select_pipe pinfo) then Done (None, None, None)
  else
    mt ← simple_fwd_build_entry_match m pinfo;
    let aging_sec := simple_fwd_build_entry_monitor (ae_rand env) in
    let '(result, entry) := ae_add env in
    if negb (is_success result) then Done (None, Some mt, None)
    else if negb (is_success (ae_process env)) then Done (None, Some mt, Some entry)
    else if negb (ae_nb_processed env =? 1) || ae_failure env then Done (None, Some mt, Some entry)
    else Done (Some (entry, aging_sec), Some mt, None).

Definition upd_data (f : simple_fwd_pipe_entry -> simple_fwd_pipe_entry) (a : Z) ft : res simple_fwd_ft :=
  e ← load ft a; Done (put a {| e with e_data := f (e_data e) |} ft).

Definition simple_fwd_handle_new_flow ft m pinfo (alloc : option Z) (tsc hz : Z) (env : add_env)
    : res (simple_fwd_ft * option Z) :=
  '(ft, (result, ctx)) ← simple_fwd_ft_add_new ft m pinfo alloc tsc hz;
  match result, ctx with
  | DOCA_SUCCESS, Some a =>
    ft ← upd_data (fun d => {| d with pe_queue := pipe_queue pinfo |}) a ft;
    '(hw, _, removed) ← simple_fwd_pipe_add_entry m pinfo env;
    let ft := match removed with
              | Some h => {| ft with ft_hw_removed := ft_hw_removed ft ++ [(pipe_queue pinfo, Some h)] |}
              | None => ft
              end in
    match hw with
    | None =>
      ft ← upd_data (fun d => {| d with hw_entry := None |}) a ft;
      '(ft, _) ← simple_fwd_ft_destroy_entry ft a;
      Done (ft, None)
    | Some (h, age_sec) =>
      ft ← upd_data (fun d => {| d with hw_entry := Some h |}) a ft;
      e ← load ft a;
      let e := simple_fwd_ft_update_expiration (simple_fwd_ft_update_age_sec e age_sec) tsc hz in
      let ft := put a e ft in
      ft ← upd_data (fun d => {| d with is_hw := true |}) a ft;
      Done (ft, Some a)
    end
  | _, _ => Done (ft, None)
  end.

Definition simple_fwd_need_new_ft pinfo : bool :=
  if negb (f_l3_type (outer pinfo) =? IPV4) then false
  else if negb (f_l4_type (outer pinfo) =? DOCA_FLOW_PROTO_TCP) &&
          negb (f_l4_type (outer pinfo) =? DOCA_FLOW_PROTO_UDP) &&
          negb (f_l4_type (outer pinfo) =? DOCA_FLOW_PROTO_GRE) then false
  else true.

Definition simple_fwd_handle_packet ft m pinfo (alloc : option Z) (tsc hz : Z) (env : add_env)
    : res (simple_fwd_ft * Z) :=
  if negb (simple_fwd_need_new_ft pinfo) then Done (ft, -1)
  else
    '(ft, (result, ctx)) ← simple_fwd_ft_find ft m pinfo tsc hz;
    '(ft, ctx) ← (match result with
                  | DOCA_SUCCESS => Done (ft, ctx)
                  | _ => simple_fwd_handle_new_flow ft m pinfo alloc tsc hz env
                  end);
    match ctx with
    | None => Done (ft, -1)
    | Some a => ft ← upd_data (fun d => {| d with total_pkts := u64 (total_pkts d + 1) |}) a ft; Done (ft, 0)
    end.

(** [simple_fwd_process_offload] without the mbuf: parse, label, handle. *)
Definition simple_fwd_process_offload ft m (len port queue rss : Z) (alloc : option Z) (tsc hz : Z)
    (env : add_env) : res simple_fwd_ft :=
  '(ret, pinfo) ← simple_fwd_parse_packet m len pinfo_zero;
  if negb (ret =? 0) then Done ft
  else
    let pinfo := {| pinfo with orig_port_id := port; pipe_queue := queue; rss_hash := rss |} in
    if negb (f_l3_type (outer pinfo) =? IPV4) then Done ft
    else '(ft, _) ← simple_fwd_handle_packet ft m pinfo alloc tsc hz env; Done ft.
End Handler.

(** ** The invariant of the table *)

Section TableInv.
Implicit Types (ft : simple_fwd_ft) (a : Z) (e : simple_fwd_ft_entry) (i : nat).

(** The bucket of a key. *)
Definition home ft (key : simple_fwd_ft_key) : nat := Z.to_nat (Z.land (k_rss_hash key) (ft_mask ft)).

Record ft_inv ft : Prop := {
  fi_size : exists k, 0 <= k <= 31 /\ ft_size ft = 2 ^ k;
  fi_mask : ft_mask ft = ft_size ft - 1;
  fi_len : Z.of_nat (length (ft_buckets ft)) = ft_size ft;
  fi_nodup : NoDup (concat (ft_buckets ft));
  fi_home : forall i l a, ft_buckets ft !! i = Some l -> a ∈ l ->
    exists e, ft_heap ft !! a = Some e /\ home ft (e_key e) = i /\ e_buckets_index e = u16 (Z.of_nat i);
  fi_heap : forall a, is_Some (ft_heap ft !! a) -> a ∈ concat (ft_buckets ft);
  fi_keys : forall a b e f, ft_heap ft !! a = Some e -> ft_heap ft !! b = Some f ->
    e_key e = e_key f -> a = b;
  (** the statistics count the entries *)
  fi_count : u64 (ft_add ft - ft_rm ft) = u64 (Z.of_nat (size (ft_heap ft)));
}.

Lemma elem_of_concat {A} (x : A) (ls : list (list A)) :
  x ∈ concat ls <-> exists i l, ls !! i = Some l /\ x ∈ l.
Proof.
  rewrite list_elem_of_In, in_concat. split.
  - intros (l & Hl & Hx). apply list_elem_of_In, list_elem_of_lookup_1 in Hl as [i Hi].
    exists i, l. by rewrite list_elem_of_In.
  - intros (i & l & Hi & Hx). exists l. rewrite <- !list_elem_of_In. split; [|done].
    by eapply list_elem_of_lookup_2.
Qed.

Lemma home_lt ft key : ft_inv ft -> (home ft key < length (ft_buckets ft))%nat.
Proof.
  intros Hinv. unfold home. rewrite (fi_mask _ Hinv). pose proof (fi_len _ Hinv) as Hlen.
  destruct (fi_size _ Hinv) as (k & Hk & Hs). rewrite Hs in *.
  change (2 ^ k - 1) with (Z.pred (2 ^ k)). rewrite <- Z.ones_equiv, Z.land_ones by lia.
  pose proof (Z.mod_pos_bound (k_rss_hash key) (2 ^ k)). lia.
Qed.

Lemma home_bucket ft key : ft_inv ft -> exists l, ft_buckets ft !! home ft key = Some l.
Proof. intros Hinv. apply lookup_lt_is_Some, home_lt, Hinv. Qed.

Lemma entry_in_home ft a e : ft_inv ft -> ft_heap ft !! a = Some e ->
  exists l, ft_buckets ft !! home ft (e_key e) = Some l /\ a ∈ l.
Proof.
  intros Hinv Ha. assert (a ∈ concat (ft_buckets ft)) as Hin by (apply (fi_heap _ Hinv); by eexists).
  apply elem_of_concat in Hin as (i & l & Hi & Hal).
  destruct (fi_home _ Hinv i l a Hi Hal) as (e' & He' & Hh & _). assert (e' = e) as -> by congruence.
  exists l. by rewrite Hh.
Qed.

Lemma bucket_loads ft i l a : ft_inv ft -> ft_buckets ft !! i = Some l -> a ∈ l -> is_Some (ft_heap ft !! a).
Proof. intros Hinv Hi Ha. destruct (fi_home _ Hinv i l a Hi Ha) as (e & He & _). by eexists. Qed.

(** Changes to an entry that leave its identity alone. *)
Lemma put_inv ft a e e' :
  ft_inv ft -> ft_heap ft !! a = Some e -> e_key e' = e_key e -> e_buckets_index e' = e_buckets_index e ->
  ft_inv (put a e' ft).
Proof.
  intros Hinv Ha Hk Hb. destruct Hinv as [Hs Hm Hl Hn Hh Hp Hu Hc]. split; try done; cbn.
  - intros i l b Hi Hbl. destruct (Hh i l b Hi Hbl) as (f & Hf & Hf1 & Hf2).
    destruct (decide (a = b)) as [->|Hab].
    + exists e'. rewrite lookup_insert_eq. assert (f = e) as -> by congruence.
      unfold home in *. cbn in *. by rewrite Hk, Hb.
    + exists f. by rewrite lookup_insert_ne.
  - intros b Hb'. destruct (decide (a = b)) as [->|Hab]; [apply Hp; by eexists|].
    rewrite lookup_insert_ne in Hb' by done. by apply Hp.
  - intros b c f g Hf Hg. apply lookup_insert_Some in Hf as [[-> <-]|[? Hf]];
      apply lookup_insert_Some in Hg as [[-> <-]|[? Hg]]; try done.
    + rewrite Hk. by apply Hu.
    + rewrite Hk. intros E. by apply (Hu b c f e).
    + by apply Hu.
  - rewrite map_size_insert_Some by (by eexists). done.
Qed.

Lemma concat_remove a (ls : list (list Z)) :
  concat (LIST_REMOVE a ls) = filter (fun b => b <> a) (concat ls).
Proof. induction ls as [|l ls IH]; cbn; [done|]. by rewrite list.filter_app, <- IH. Qed.

(** C-side effects of freeing an entry on the device. *)
Definition removed_hw (e : simple_fwd_ft_entry) : list (Z * option Z) :=
  if is_hw (e_data e) then [(pe_queue (e_data e), hw_entry (e_data e))] else [].

Record destroyed ft a e ft' : Prop := {
  ds_inv : ft_inv ft';
  ds_heap : ft_heap ft' = delete a (ft_heap ft);
  ds_buckets : ft_buckets ft' = LIST_REMOVE a (ft_buckets ft);
  ds_cfg : ft_size ft' = ft_size ft /\ ft_mask ft' = ft_mask ft /\ ft_add ft' = ft_add ft /\
    ft_fid_ctr ft' = ft_fid_ctr ft;
  ds_removed : ft_hw_removed ft' = ft_hw_removed ft ++ removed_hw e;
}.

Lemma destroy_ok ft a e :
  ft_inv ft -> ft_heap ft !! a = Some e -> exists ft', _ft_destroy_entry ft a = Done ft' /\ destroyed ft a e ft'.
Proof.
  intros Hinv Ha. unfold _ft_destroy_entry, load. rewrite Ha. cbn [mbind res_bind].
  eexists. split; [reflexivity|].
  set (ft' := {| ft_size := _ |}).
  assert (ft_heap ft' = delete a (ft_heap ft)) as Eh by (cbn; unfold simple_fwd_aged_flow_cb; by destruct (is_hw _)).
  assert (ft_buckets ft' = LIST_REMOVE a (ft_buckets ft)) as Eb
    by (cbn; unfold simple_fwd_aged_flow_cb; by destruct (is_hw _)).
  assert (ft_size ft' = ft_size ft /\ ft_mask ft' = ft_mask ft /\ ft_add ft' = ft_add ft /\
    ft_rm ft' = u64 (ft_rm ft + 1) /\ ft_fid_ctr ft' = ft_fid_ctr ft) as (Es & Em & Ea & Er & Ef)
    by (cbn; unfold simple_fwd_aged_flow_cb; by destruct (is_hw _)).
  assert (ft_hw_removed ft' = ft_hw_removed ft ++ removed_hw e) as Ew.
  { cbn. unfold simple_fwd_aged_flow_cb, removed_hw. destruct (is_hw _); cbn; [done|by rewrite app_nil_r]. }
  clearbody ft'. split; try done. destruct Hinv as [Hs Hm Hl Hn Hh Hp Hu Hc].
  split; rewrite ?Es, ?Em, ?Eb, ?Eh; try done.
  - unfold LIST_REMOVE. by rewrite length_fmap.
  - rewrite concat_remove. by apply list.NoDup_filter.
  - intros i l b Hi Hbl. unfold LIST_REMOVE in Hi. rewrite list_lookup_fmap in Hi.
    apply fmap_Some in Hi as (l0 & Hi & ->). apply list_elem_of_filter in Hbl as [Hne Hbl].
    destruct (Hh i l0 b Hi Hbl) as (f & Hf & Hf1 & Hf2). exists f. rewrite lookup_delete_ne by done.
    unfold home in *. by rewrite Em.
  - intros b Hb. rewrite concat_remove. apply list_elem_of_filter.
    destruct (decide (b = a)) as [->|Hne]; [by rewrite lookup_delete_eq in Hb; destruct Hb|].
    split; [done|]. apply Hp. by rewrite lookup_delete_ne in Hb.
  - intros b c f g Hf Hg. apply lookup_delete_Some in Hf as [_ Hf]. apply lookup_delete_Some in Hg as [_ Hg].
    by apply Hu.
  - rewrite Ea, Er, map_size_delete_Some by (by eexists).
    assert (0 < size (ft_heap ft))%nat as Hpos.
    { apply Nat.neq_0_lt_0. intros Hz. apply map_size_empty_inv in Hz. by rewrite Hz in Ha. }
    unfold u64, uwrap in *. rewrite Zminus_mod_idemp_r.
    replace (ft_add ft - (ft_rm ft + 1)) with (ft_add ft - ft_rm ft - 1) by lia.
    rewrite <- Zminus_mod_idemp_l, Hc, Zminus_mod_idemp_l. f_equal. lia.
Qed.
End TableInv.

(** ** Lookup and insertion *)

Section TableOps.
Context `{RteNet, FwdNet}.
Implicit Types (m : list Z) (pinfo : simple_fwd_pkt_info) (ft : simple_fwd_ft) (key : simple_fwd_ft_key).
Implicit Types (a : Z) (e : simple_fwd_ft_entry).

Lemma find_in_spec ft nodes key tsc hz :
  (forall a, a ∈ nodes -> is_Some (ft_heap ft !! a)) ->
  exists ft' r, find_in ft nodes key tsc hz = Done (ft', r) /\
    match r with
    | Some a => a ∈ nodes /\ exists e, ft_heap ft !! a = Some e /\ e_key e = key /\
        ft' = put a (simple_fwd_ft_update_expiration e tsc hz) ft
    | None => ft' = ft /\ forall a e, a ∈ nodes -> ft_heap ft !! a = Some e -> e_key e <> key
    end.
Proof.
  induction nodes as [|b nodes IH]; intros Hl; cbn [find_in].
  { do 2 eexists. split; [done|]. split; [done|]. intros a e Ha. by apply elem_of_nil in Ha. }
  destruct (Hl b) as [f Hf]; [apply list_elem_of_here|]. unfold load. rewrite Hf. cbn [mbind res_bind].
  unfold simple_fwd_ft_key_equal. case_bool_decide as Hk.
  - do 2 eexists. split; [done|]. split; [apply list_elem_of_here|]. by exists f.
  - destruct IH as (ft' & r & E & Hr); [intros a Ha; apply Hl; by apply list_elem_of_further|].
    exists ft', r. split; [done|]. destruct r as [a|].
    + destruct Hr as [Ha Hr]. split; [by apply list_elem_of_further|done].
    + destruct Hr as [-> Hr]. split; [done|]. intros a e [->|Ha]%elem_of_cons He; [congruence|eauto].
Qed.

Lemma update_expiration_id e tsc hz :
  e_key (simple_fwd_ft_update_expiration e tsc hz) = e_key e /\
  e_buckets_index (simple_fwd_ft_update_expiration e tsc hz) = e_buckets_index e /\
  e_data (simple_fwd_ft_update_expiration e tsc hz) = e_data e /\
  e_age_sec (simple_fwd_ft_update_expiration e tsc hz) = e_age_sec e.
Proof. unfold simple_fwd_ft_update_expiration. by destruct (negb _). Qed.

Lemma aged_entry e age tsc hz :
  age <> 0 ->
  let e' := simple_fwd_ft_update_expiration (simple_fwd_ft_update_age_sec e age) tsc hz in
  e_key e' = e_key e /\ e_buckets_index e' = e_buckets_index e /\ e_data e' = e_data e /\
  e_age_sec e' = age /\ e_expiration e' = u64 (tsc + hz * age).
Proof.
  intros Hage e'. unfold e', simple_fwd_ft_update_expiration. cbn.
  by destruct (Z.eqb_spec age 0).
Qed.

(** What looking a key up gives. *)
Definition lookup_result ft key tsc hz ft' (r : option Z) : Prop :=
  match r with
  | Some a => exists e, ft_heap ft !! a = Some e /\ e_key e = key /\
      ft' = put a (simple_fwd_ft_update_expiration e tsc hz) ft
  | None => ft' = ft /\ forall a e, ft_heap ft !! a = Some e -> e_key e <> key
  end.

Lemma find_ok ft key tsc hz :
  ft_inv ft ->
  exists ft' r, _simple_fwd_ft_find ft key tsc hz = Done (ft', r) /\ ft_inv ft' /\
    lookup_result ft key tsc hz ft' r.
Proof.
  intros Hinv. unfold _simple_fwd_ft_find. fold (home ft key).
  destruct (home_bucket ft key Hinv) as [l Hl]. rewrite Hl.
  destruct (find_in_spec ft l key tsc hz) as (ft' & r & E & Hr); [intros a Ha; by eapply bucket_loads|].
  exists ft', r. split; [done|]. destruct r as [a|].
  - destruct Hr as (_ & e & He & Hk & ->). destruct (update_expiration_id e tsc hz) as (? & ? & _).
    split; [by eapply put_inv|]. by exists e.
  - destruct Hr as [-> Hr]. split; [done|]. split; [done|]. intros a e He Hk. subst key.
    destruct (entry_in_home ft a e Hinv He) as (l' & Hl' & Ha). rewrite Hl in Hl'. injection Hl' as <-.
    by apply (Hr a e).
Qed.

(** Lookup in the flow table is lookup in a finite map. In a table that meets
    its invariant, searching a key always returns, without touching freed memory
    or a bucket out of range: it finds the one entry that has the key, and only
    moves its expiration time, or reports that no entry of the table has it. *)
Theorem ft_lookup ft key tsc hz :
  ft_inv ft ->
  exists ft' r, _simple_fwd_ft_find ft key tsc hz = Done (ft', r) /\ ft_inv ft' /\
    lookup_result ft key tsc hz ft' r.
Proof. apply find_ok. Qed.

Lemma key_fill_rss m pinfo key :
  simple_fwd_ft_key_fill m pinfo = Done (Some key) -> k_rss_hash key = rss_hash pinfo.
Proof.
  unfold simple_fwd_ft_key_fill. destruct (negb (_ =? IPV4)); [done|]. intros E.
  inv_bind E. inv_bind E. inv_bind E. inv_bind E. by injection E as <-.
Qed.

Lemma concat_insert i a l (ls : list (list Z)) :
  ls !! i = Some l -> concat (<[i := a :: l]> ls) ≡ₚ a :: concat ls.
Proof.
  revert i. induction ls as [|x ls IH]; intros [|i]; cbn; try done.
  - by intros [= ->].
  - intros Hi. rewrite (IH i Hi). by rewrite Permutation_middle.
Qed.

(** The table with a new entry. *)
Record added ft key a e ft' : Prop := {
  ad_inv : ft_inv ft';
  ad_size : ft_size ft' = ft_size ft;
  ad_heap : ft_heap ft' = <[a := e]> (ft_heap ft);
  ad_key : e_key e = key;
  ad_fid : e_fid e = ft_fid_ctr ft;
  ad_data : e_data e = e_data entry_zero;
  ad_age : e_age_sec e = 0;
  ad_removed : ft_hw_removed ft' = ft_hw_removed ft;
}.

Lemma add_ok ft m pinfo key a tsc hz :
  ft_inv ft -> simple_fwd_ft_key_fill m pinfo = Done (Some key) -> ft_heap ft !! a = None ->
  (forall b e, ft_heap ft !! b = Some e -> e_key e <> key) ->
  exists ft' e, simple_fwd_ft_add_new ft m pinfo (Some a) tsc hz = Done (ft', (DOCA_SUCCESS, Some a)) /\
    added ft key a e ft'.
Proof.
  intros Hinv Ek Ha Hnew. unfold simple_fwd_ft_add_new. rewrite Ek. cbn [mbind res_bind].
  rewrite <- (key_fill_rss _ _ _ Ek). fold (home ft key).
  destruct (home_bucket ft key Hinv) as [l Hl]. rewrite Hl.
  do 2 eexists. split; [reflexivity|]. split; cbn; try done.
  assert (home ft key < length (ft_buckets ft))%nat as Hlt by (by apply home_lt).
  assert (a ∉ concat (ft_buckets ft)) as Hfresh.
  { intros Hin. apply elem_of_concat in Hin as (i & l' & Hi & Hal).
    destruct (bucket_loads _ _ _ _ Hinv Hi Hal). congruence. }
  destruct Hinv as [Hs Hm Hlen Hn Hh Hp Hu Hc]. split; cbn; try done.
  - by rewrite length_insert.
  - rewrite (concat_insert _ _ _ _ Hl). by apply list.NoDup_cons.
  - intros i l' b Hi Hb. unfold home in *. cbn in *. destruct (decide (a = b)) as [->|Hab].
    + rewrite lookup_insert_eq. eexists. split; [done|]. cbn.
      destruct (decide (i = Z.to_nat (Z.land (k_rss_hash key) (ft_mask ft)))) as [->|Hne].
      * split; [done|]. f_equal. rewrite Z2Nat.id; [done|]. apply Z.land_nonneg. right.
        destruct Hs as (k & Hk & Hs). pose proof (Z.pow_pos_nonneg 2 k). lia.
      * rewrite list_lookup_insert_ne in Hi by done. destruct Hfresh. apply elem_of_concat. eauto.
    + rewrite lookup_insert_ne by done.
      destruct (decide (i = Z.to_nat (Z.land (k_rss_hash key) (ft_mask ft)))) as [->|Hne].
      * rewrite list_lookup_insert_eq in Hi by done. injection Hi as <-.
        apply elem_of_cons in Hb as [->|Hb]; [done|]. by eapply Hh.
      * rewrite list_lookup_insert_ne in Hi by done. by eapply Hh.
  - intros b Hb. rewrite (concat_insert _ _ _ _ Hl). destruct (decide (a = b)) as [->|Hab].
    + apply list_elem_of_here.
    + apply list_elem_of_further, Hp. by rewrite lookup_insert_ne in Hb.
  - intros b c f g Hf Hg. apply lookup_insert_Some in Hf as [[-> <-]|[? Hf]];
      apply lookup_insert_Some in Hg as [[-> <-]|[? Hg]]; try done; cbn; intros E.
    + by destruct (Hnew _ _ Hg).
    + by destruct (Hnew _ _ Hf).
    + by apply (Hu b c f g).
  - rewrite map_size_insert_None by done. unfold u64, uwrap in *. rewrite Zminus_mod_idemp_l.
    replace (ft_add ft + 1 - ft_rm ft) with (ft_add ft - ft_rm ft + 1) by lia.
    rewrite <- Zplus_mod_idemp_l, Hc, Zplus_mod_idemp_l. f_equal. lia.
Qed.
End TableOps.

(** ** The packet handler *)

Section HandlerFacts.
Context `{RteNet, FwdNet}.
Implicit Types (m : list Z) (pinfo : simple_fwd_pkt_info) (ft : simple_fwd_ft) (key : simple_fwd_ft_key).
Implicit Types (a : Z) (e : simple_fwd_ft_entry).

Lemma ports_total m data l2 fmt :
  recorded m data l2 fmt ->
  (exists p, simple_fwd_pinfo_src_port m fmt = Done p) /\ (exists p, simple_fwd_pinfo_dst_port m fmt = Done p).
Proof.
  intros Hr. unfold simple_fwd_pinfo_src_port, simple_fwd_pinfo_dst_port. rewrite (rc_l4 _ _ _ _ Hr). cbn.
  split; repeat case_match; by eexists.
Qed.

(** A parsed packet has a key, and its hardware match can be built. *)
Lemma parsed_total m len pinfo :
  parsed m len pinfo ->
  (exists key, simple_fwd_ft_key_fill m pinfo = Done (Some key) /\ k_tun_type key = tun_type pinfo) /\
  (exists mt, simple_fwd_build_entry_match m pinfo = Done mt).
Proof.
  intros [_ Ho Ht]. destruct (ports_total _ _ _ _ Ho) as [[sp Esp] [dp Edp]].
  assert (tun_type pinfo <> TUN_NONE -> exists data l2, recorded m data l2 (inner pinfo)) as Hi.
  { destruct Ht as [[? _]|(n & b & _ & _ & Hr)]; [done|]. intros _. eauto. }
  unfold simple_fwd_ft_key_fill, simple_fwd_build_entry_match, simple_fwd_pinfo_outer_ipv4_src,
    simple_fwd_pinfo_outer_ipv4_dst, simple_fwd_pinfo_outer_src_port, simple_fwd_pinfo_outer_dst_port,
    simple_fwd_pinfo_outer_mac_dst, simple_fwd_pinfo_outer_mac_src.
  rewrite Esp, Edp, (rc_l2 _ _ _ _ Ho), (rc_l3 _ _ _ _ Ho), (rc_l3_type _ _ _ _ Ho). cbn [deref mbind res_bind].
  case_bool_decide as Hn; cbn [negb]; [split; eexists; by try split|].
  destruct (Hi Hn) as (data & l2 & Hr). destruct (ports_total _ _ _ _ Hr) as [[sp' Esp'] [dp' Edp']].
  unfold simple_fwd_pinfo_inner_ipv4_src, simple_fwd_pinfo_inner_ipv4_dst, simple_fwd_pinfo_inner_src_port,
    simple_fwd_pinfo_inner_dst_port. rewrite Esp', Edp', (rc_l3 _ _ _ _ Hr). cbn [deref mbind res_bind].
  split; eexists; by try split.
Qed.

Lemma upd_data_ok f ft a e :
  ft_inv ft -> ft_heap ft !! a = Some e ->
  let e' := {| e with e_data := f (e_data e) |} in
  upd_data f a ft = Done (put a e' ft) /\ ft_inv (put a e' ft) /\ ft_heap (put a e' ft) !! a = Some e'.
Proof.
  intros Hinv Ha e'. unfold upd_data, load. rewrite Ha. split; [done|]. split; [by eapply put_inv|].
  apply lookup_insert_eq.
Qed.

Lemma destroy_entry_ok ft a e :
  ft_inv ft -> ft_size ft <= 65536 -> ft_heap ft !! a = Some e ->
  exists ft', simple_fwd_ft_destroy_entry ft a = Done (ft', Z.of_nat (home ft (e_key e))) /\ destroyed ft a e ft'.
Proof.
  intros Hinv Hsz Ha. destruct (entry_in_home ft a e Hinv Ha) as (l & Hl & Hal).
  destruct (fi_home _ Hinv _ _ _ Hl Hal) as (e' & He' & _ & Hb). assert (e' = e) as -> by congruence.
  assert (home ft (e_key e) < length (ft_buckets ft))%nat as Hlt by (by apply home_lt).
  pose proof (fi_len _ Hinv).
  unfold simple_fwd_ft_destroy_entry, load. rewrite Ha. cbn [mbind res_bind].
  rewrite Hb, u16_small, Nat2Z.id, Hl by lia.
  destruct (destroy_ok ft a e Hinv Ha) as (ft' & E & Hd). rewrite E. cbn. eauto.
Qed.

Lemma set_removed_inv ft l : ft_inv ft -> ft_inv {| ft with ft_hw_removed := l |}.
Proof. intros []. by split. Qed.

Lemma pipe_add_ok m pinfo env mt :
  simple_fwd_build_entry_match m pinfo = Done mt ->
  exists hw mt' rm, simple_fwd_pipe_add_entry m pinfo env = Done (hw, mt', rm) /\
    forall h age, hw = Some (h, age) -> 5 <= age < 60 /\ tun_type pinfo <> TUN_NONE /\ mt' = Some mt /\ rm = None.
Proof.
  intros Em. unfold simple_fwd_pipe_add_entry. destruct (negb (ae_status_mem env)); [by do 3 eexists|].
  destruct (negb (simple_fwd_select_pipe pinfo)) eqn:Hp; [by do 3 eexists|]. rewrite Em. cbn [mbind res_bind].
  destruct (ae_add env) as [r h]. destruct (negb (is_success r)); [by do 3 eexists|].
  destruct (negb (is_success (ae_process env))); [by do 3 eexists|].
  destruct (negb (ae_nb_processed env =? 1) || ae_failure env); [by do 3 eexists|].
  do 3 eexists. split; [done|]. intros h' age [= <- <-]. split_and!; try done.
  - unfold simple_fwd_build_entry_monitor. pose proof (Z.mod_pos_bound (u32 (ae_rand env)) 55). lia.
  - unfold simple_fwd_build_entry_monitor. pose proof (Z.mod_pos_bound (u32 (ae_rand env)) 55). lia.
  - intros Hn. unfold simple_fwd_select_pipe in Hp. by rewrite Hn in Hp.
Qed.

(** The entry of a new flow in hardware. *)
Record new_flow_entry key (age queue tsc hz : Z) e : Prop := {
  nf_key : e_key e = key;
  nf_hw : is_hw (e_data e) = true /\ is_Some (hw_entry (e_data e));
  nf_queue : pe_queue (e_data e) = queue;
  nf_pkts : total_pkts (e_data e) = 0;
  nf_age : e_age_sec e = age;
  nf_expiration : e_expiration e = u64 (tsc + hz * age);
}.

Lemma new_flow_ok ft m pinfo len alloc key tsc hz env :
  ft_inv ft -> ft_size ft <= 65536 -> parsed m len pinfo -> simple_fwd_ft_key_fill m pinfo = Done (Some key) ->
  (forall a, alloc = Some a -> ft_heap ft !! a = None) ->
  (forall b e, ft_heap ft !! b = Some e -> e_key e <> key) ->
  exists ft' ctx, simple_fwd_handle_new_flow ft m pinfo alloc tsc hz env = Done (ft', ctx) /\ ft_inv ft' /\
    ft_size ft' = ft_size ft /\
    match ctx with
    | None => ft_heap ft' = ft_heap ft
    | Some a => alloc = Some a /\ exists e age, ft_heap ft' = <[a := e]> (ft_heap ft) /\ 5 <= age < 60 /\
        new_flow_entry key age (pipe_queue pinfo) tsc hz e
    end.
Proof.
  intros Hinv Hsz Hp Ek Halloc Hnew. unfold simple_fwd_handle_new_flow.
  destruct alloc as [a|].
  2: { unfold simple_fwd_ft_add_new. rewrite Ek. cbn. by do 2 eexists. }
  destruct (add_ok ft m pinfo key a tsc hz Hinv Ek (Halloc a eq_refl) Hnew) as (ft1 & e1 & E & Had).
  assert (ft_size ft1 = ft_size ft) as Hsz1 by apply Had.
  rewrite E. cbn [mbind res_bind].
  assert (ft_heap ft1 !! a = Some e1) as H1 by (rewrite (ad_heap _ _ _ _ _ Had); apply lookup_insert_eq).
  destruct (upd_data_ok (fun d => {| d with pe_queue := pipe_queue pinfo |}) ft1 a e1 (ad_inv _ _ _ _ _ Had) H1)
    as (-> & Hinv2 & H2).
  match goal with |- context [put a ?e ft1] => set (e2 := e) in * end.
  destruct (proj2 (parsed_total _ _ _ Hp)) as [mt Emt].
  destruct (pipe_add_ok m pinfo env mt Emt) as (hw & mt' & rm & -> & Hhw). cbn [mbind res_bind].
  match goal with |- context [match rm with Some h => @?f h | None => ?d end] =>
    set (ft3 := match rm with Some h => f h | None => d end) end.
  assert (ft_inv ft3 /\ ft_heap ft3 = <[a := e2]> (ft_heap ft1) /\ ft_size ft3 = ft_size ft) as (Hinv3 & Hh3 & Hsz3).
  { unfold ft3. destruct rm; (split_and!; [|done|done]); [by apply set_removed_inv|done]. }
  assert (ft_heap ft3 !! a = Some e2) as H3 by (rewrite Hh3; apply lookup_insert_eq).
  clearbody ft3. rewrite (ad_heap _ _ _ _ _ Had), insert_insert_eq in Hh3.
  destruct hw as [[h age]|].
  - destruct (upd_data_ok (fun d => {| d with hw_entry := Some h |}) ft3 a e2 Hinv3 H3) as (-> & Hinv4 & H4).
    cbn [mbind res_bind]. unfold load at 1. rewrite H4. cbn [mbind res_bind].
    destruct (Hhw _ _ eq_refl) as (Hage & _).
    match goal with |- context [simple_fwd_ft_update_expiration (simple_fwd_ft_update_age_sec ?x age) tsc hz] =>
      destruct (aged_entry x age tsc hz) as (K1 & K2 & K3 & K4 & K5); [lia|];
      generalize dependent (simple_fwd_ft_update_expiration (simple_fwd_ft_update_age_sec x age) tsc hz);
      intros e5 K1 K2 K3 K4 K5 end.
    match goal with |- context [upd_data _ a (put a e5 ?f)] => set (ft4 := f) in * end.
    assert (ft_inv (put a e5 ft4)) as Hinv5 by (eapply put_inv; [exact Hinv4|exact H4|exact K1|exact K2]).
    destruct (upd_data_ok (fun d => {| d with is_hw := true |}) (put a e5 ft4) a e5 Hinv5) as (-> & Hinv6 & H6);
      [apply lookup_insert_eq|]. cbn [mbind res_bind].
    do 2 eexists. split; [done|]. split; [exact Hinv6|]. split; [exact Hsz3|]. split; [done|].
    do 2 eexists. split; [|split; [exact Hage|]].
    + unfold ft4. cbn [put set_heap ft_heap]. rewrite Hh3, !insert_insert_eq. reflexivity.
    + split; cbn; rewrite ?K1, ?K3, ?K4, ?K5; cbn; try done.
      * apply (ad_key _ _ _ _ _ Had).
      * rewrite (ad_data _ _ _ _ _ Had). done.
  - destruct (upd_data_ok (fun d => {| d with hw_entry := None |}) ft3 a e2 Hinv3 H3) as (-> & Hinv4 & H4).
    cbn [mbind res_bind].
    destruct (destroy_entry_ok _ a _ Hinv4 ltac:(cbn; lia) H4) as (ft5 & -> & Hd). cbn [mbind res_bind].
    do 2 eexists. split; [done|]. split; [apply Hd|].
    split; [rewrite (proj1 (ds_cfg _ _ _ _ Hd)); exact Hsz3|].
    rewrite (ds_heap _ _ _ _ Hd). cbn [put set_heap ft_heap]. rewrite Hh3, insert_insert_eq.
    by rewrite delete_insert_id by (by apply Halloc).
Qed.

Lemma handle_packet_ok ft m pinfo len alloc tsc hz env :
  ft_inv ft -> ft_size ft <= 65536 -> parsed m len pinfo ->
  (forall a, alloc = Some a -> ft_heap ft !! a = None) ->
  exists ft' ret, simple_fwd_handle_packet ft m pinfo alloc tsc hz env = Done (ft', ret) /\ ft_inv ft' /\
    ft_size ft' = ft_size ft /\
    ((ret = -1 /\ ft_heap ft' = ft_heap ft) \/
     (ret = 0 /\ exists a e, ft_heap ft' !! a = Some e /\
        simple_fwd_ft_key_fill m pinfo = Done (Some (e_key e)) /\
        (forall b, b <> a -> ft_heap ft' !! b = ft_heap ft !! b) /\
        match ft_heap ft !! a with
        | Some e0 => e_key e0 = e_key e /\ total_pkts (e_data e) = u64 (total_pkts (e_data e0) + 1)
        | None => alloc = Some a /\ total_pkts (e_data e) = 1 /\ is_hw (e_data e) = true /\
            exists age, 5 <= age < 60 /\ e_age_sec e = age /\ e_expiration e = u64 (tsc + hz * age)
        end)).
Proof.
  intros Hinv Hsz Hp Halloc. unfold simple_fwd_handle_packet.
  destruct (simple_fwd_need_new_ft pinfo); cbn [negb]; [|do 2 eexists; split; [done|]; split; [done|]; split; [done|by left]].
  destruct (proj1 (parsed_total _ _ _ Hp)) as (key & Ek & _).
  unfold simple_fwd_ft_find. rewrite Ek. cbn [mbind res_bind].
  destruct (find_ok ft key tsc hz Hinv) as (ft1 & r & -> & Hinv1 & Hr). cbn [mbind res_bind].
  destruct r as [a|]; cbn [mbind res_bind].
  - destruct Hr as (e & Ha & Hk & ->). destruct (update_expiration_id e tsc hz) as (K1 & K2 & K3 & K4).
    match goal with |- context [upd_data ?f a ?t] =>
      destruct (upd_data_ok f t a _ Hinv1 (lookup_insert_eq _ _ _)) as (-> & Hinv2 & H2) end.
    cbn [mbind res_bind]. do 2 eexists. split; [done|]. split; [done|]. split; [done|]. right. split; [done|].
    exists a. eexists. split; [exact H2|]. cbn [e_key e_data total_pkts]. rewrite K1, K3, Hk, Ha.
    split; [done|]. split; [|done]. intros b Hb. cbn. by rewrite !lookup_insert_ne.
  - destruct Hr as [-> Hnew].
    destruct (new_flow_ok ft m pinfo len alloc key tsc hz env Hinv Hsz Hp Ek Halloc Hnew)
      as (ft2 & ctx & -> & Hinv2 & Hsz2 & Hctx). cbn [mbind res_bind].
    destruct ctx as [a|]; [|do 2 eexists; split; [done|]; split; [done|]; split; [done|by left]].
    destruct Hctx as (Eal & e & age & Hh & Hage & Hnf).
    assert (ft_heap ft2 !! a = Some e) as H2 by (rewrite Hh; apply lookup_insert_eq).
    match goal with |- context [upd_data ?f a ft2] =>
      destruct (upd_data_ok f ft2 a e Hinv2 H2) as (-> & Hinv3 & H3) end.
    cbn [mbind res_bind]. do 2 eexists. split; [done|]. split; [done|]. split; [done|]. right. split; [done|].
    exists a. eexists. split; [exact H3|]. destruct Hnf as [Nk [Nh Nh'] Nq Np Na Nx].
    cbn [e_key e_data total_pkts is_hw e_age_sec e_expiration]. rewrite Nk, Np, (Halloc a Eal).
    split; [done|]. split; [intros b Hb; cbn; rewrite lookup_insert_ne by done; by rewrite Hh, lookup_insert_ne|].
    split; [done|]. split; [done|]. split; [done|]. by exists age.
Qed.

(** C18: the packet handler implements a finite map of flows. For a parsed packet and
    an intact table it always returns, keeps the invariant, and either fails and
    leaves the flows as they were (an entry made for a flow the hardware refuses is
    taken back), or counts the packet in exactly one flow, the one whose key is the
    packet's, leaving all other flows alone; if there was no such flow it is made at
    the new address, is in hardware, and expires 5 to 59 seconds from now. *)
Theorem handle_packet_spec ft m pinfo len alloc tsc hz env :
  ft_inv ft -> ft_size ft <= 65536 -> parsed m len pinfo ->
  (forall a, alloc = Some a -> ft_heap ft !! a = None) ->
  exists ft' ret, simple_fwd_handle_packet ft m pinfo alloc tsc hz env = Done (ft', ret) /\ ft_inv ft' /\
    ft_size ft' = ft_size ft /\
    ((ret = -1 /\ ft_heap ft' = ft_heap ft) \/
     (ret = 0 /\ exists a e, ft_heap ft' !! a = Some e /\
        simple_fwd_ft_key_fill m pinfo = Done (Some (e_key e)) /\
        (forall b, b <> a -> ft_heap ft' !! b = ft_heap ft !! b) /\
        match ft_heap ft !! a with
        | Some e0 => e_key e0 = e_key e /\ total_pkts (e_data e) = u64 (total_pkts (e_data e0) + 1)
        | None => alloc = Some a /\ total_pkts (e_data e) = 1 /\ is_hw (e_data e) = true /\
            exists age, 5 <= age < 60 /\ e_age_sec e = age /\ e_expiration e = u64 (tsc + hz * age)
        end)).
Proof. apply handle_packet_ok. Qed.
End HandlerFacts.

(** ** Aging *)

Section AgingFacts.
Implicit Types (ft : simple_fwd_ft) (a b : Z) (e : simple_fwd_ft_entry) (i : nat) (env : aging_env).

Definition expired env e : Prop := e_age_sec e <> 0 /\ e_expiration e < av_tsc env.
(** The same entry, except for the counter it remembers. *)
Definition refreshed e e' : Prop := e' = {| e with e_last_counter := e_last_counter e' |}.

#[global] Instance refreshed_refl : Reflexive refreshed.
Proof. intros []. done. Qed.
#[global] Instance refreshed_trans : Transitive refreshed.
Proof. intros x y z Hxy Hyz. unfold refreshed in *. rewrite Hyz. by rewrite Hxy. Qed.

Lemma refreshed_expired env e e' : refreshed e e' -> expired env e' <-> expired env e.
Proof. intros ->. done. Qed.

(** What one look at [nodes] does: every entry is kept with its counter noted,
    except at most one, which had expired. *)
Record looked env ft (nodes : list Z) ft' (gone : option Z) : Prop := {
  lk_inv : ft_inv ft';
  lk_buckets : ft_buckets ft' =
    match gone with Some a => LIST_REMOVE a (ft_buckets ft) | None => ft_buckets ft end;
  lk_size : ft_size ft' = ft_size ft;
  lk_heap : forall b e', ft_heap ft' !! b = Some e' ->
    gone <> Some b /\ exists e, ft_heap ft !! b = Some e /\ refreshed e e' /\ (b ∉ nodes -> e' = e);
  lk_kept : forall b, gone <> Some b -> is_Some (ft_heap ft !! b) -> is_Some (ft_heap ft' !! b);
  lk_gone : forall a, gone = Some a -> a ∈ nodes /\ exists e, ft_heap ft !! a = Some e /\ expired env e;
  lk_rest : gone = None -> forall b e', b ∈ nodes -> ft_heap ft' !! b = Some e' ->
    expired env e' -> av_query env (hw_entry (e_data e')) = Some (e_last_counter e');
}.

Lemma put_heap ft a e b : ft_heap (put a e ft) !! b = if decide (a = b) then Some e else ft_heap ft !! b.
Proof. cbn. case_decide as Hab; [subst; apply lookup_insert_eq|by apply lookup_insert_ne]. Qed.

Lemma counter_refreshed e q : refreshed e (simple_fwd_ft_update_counter e q).2.
Proof. destruct q; [done|]. cbn. reflexivity. Qed.

Lemma counter_moved e q : (simple_fwd_ft_update_counter e q).1 = true ->
  q = Some (e_last_counter (simple_fwd_ft_update_counter e q).2).
Proof. by destruct q. Qed.

Lemma looked_skip env ft node nodes e :
  ft_inv ft -> ft_heap ft !! node = Some e -> ~ expired env e -> node ∉ nodes ->
  forall ft' gone, looked env ft nodes ft' gone -> looked env ft (node :: nodes) ft' gone.
Proof.
  intros Hinv Hn Hne Hnin ft' gone [Hi Hb Hs Hh Hk Hg Hr]. split; try done.
  - intros b e' Hb'. destruct (Hh b e' Hb') as (? & f & Hf & Hrf & Hsame). split; [done|]. exists f.
    split; [done|]. split; [done|]. intros Hnb. apply Hsame. intros Hin. apply Hnb. by apply list_elem_of_further.
  - intros a Ha. destruct (Hg a Ha) as [? ?]. split; [by apply list_elem_of_further|done].
  - intros Hnone b e' [->|Hbn]%elem_of_cons He'; [|by apply (Hr Hnone b e')].
    destruct (Hh node e' He') as (_ & f & Hf & Hrf & Hsame). rewrite (Hsame Hnin). congruence.
Qed.

Lemma looked_touch env ft node nodes e e1 :
  ft_inv ft -> ft_heap ft !! node = Some e -> refreshed e e1 -> node ∉ nodes ->
  av_query env (hw_entry (e_data e1)) = Some (e_last_counter e1) ->
  forall ft' gone, looked env (put node e1 ft) nodes ft' gone -> looked env ft (node :: nodes) ft' gone.
Proof.
  intros Hinv Hn Href Hnin Hq ft' gone [Hi Hb Hs Hh Hk Hg Hr]. split; try done.
  - intros b e' Hb'. destruct (Hh b e' Hb') as (? & f & Hf & Hrf & Hsame). split; [done|].
    rewrite put_heap in Hf. case_decide as Hnb.
    + injection Hf as <-. subst b. exists e. split; [done|]. split; [by etrans|].
      intros Hnot. destruct Hnot. apply list_elem_of_here.
    + exists f. split; [done|]. split; [done|]. intros Hnot. apply Hsame. intros Hin.
      apply Hnot. by apply list_elem_of_further.
  - intros b Hgb Hb'. apply Hk; [done|]. rewrite put_heap. case_decide; [by eexists|done].
  - intros a Ha. destruct (Hg a Ha) as (Hin & f & Hf & Hx). split; [by apply list_elem_of_further|].
    rewrite put_heap in Hf. case_decide as Hna; [subst; done|]. eauto.
  - intros Hnone b e' [->|Hbn]%elem_of_cons He'; [|by apply (Hr Hnone b e')].
    destruct (Hh node e' He') as (_ & f & Hf & Hrf & Hsame). rewrite put_heap, decide_True in Hf by done.
    injection Hf as <-. rewrite (Hsame Hnin). done.
Qed.

Lemma aging_loop_ok env ft nodes :
  ft_inv ft -> NoDup nodes -> (forall a, a ∈ nodes -> is_Some (ft_heap ft !! a)) ->
  exists ft' gone, aging_loop ft env nodes = Done (ft', bool_decide (gone <> None)) /\
    looked env ft nodes ft' gone.
Proof.
  revert ft. induction nodes as [|node nodes IH]; intros ft Hinv Hnd Hl; cbn [aging_loop].
  { exists ft, None. split; [done|]. split; try done.
    - intros b e' Hb. split; [done|]. by exists e'.
    - intros _ b e' Hb. by apply elem_of_nil in Hb. }
  apply list.NoDup_cons in Hnd as [Hnin Hnd].
  destruct (Hl node) as [e He]; [apply list_elem_of_here|]. unfold load. rewrite He. cbn [mbind res_bind].
  assert (forall a, a ∈ nodes -> is_Some (ft_heap ft !! a)) as Hl' by (intros a Ha; apply Hl; by apply list_elem_of_further).
  destruct (negb (e_age_sec e =? 0) && (e_expiration e <? av_tsc env)) eqn:Ex.
  2: { destruct (IH ft Hinv Hnd Hl') as (ft' & gone & E & Hlk). exists ft', gone. split; [done|].
       eapply looked_skip; [done..| |done|done]. intros [Ha Ht]. apply andb_false_iff in Ex as [Ex|Ex].
       - apply negb_false_iff, Z.eqb_eq in Ex. done.
       - apply Z.ltb_ge in Ex. lia. }
  apply andb_true_iff in Ex as [Ha Ht]. apply negb_true_iff, Z.eqb_neq in Ha. apply Z.ltb_lt in Ht.
  pose proof (counter_refreshed e (av_query env (hw_entry (e_data e)))) as Href.
  pose proof (counter_moved e (av_query env (hw_entry (e_data e)))) as Hmv.
  destruct (simple_fwd_ft_update_counter e (av_query env (hw_entry (e_data e)))) as [upd e1]. cbn [fst snd] in *.
  assert (e_key e1 = e_key e /\ e_buckets_index e1 = e_buckets_index e /\ e_data e1 = e_data e) as (K1 & K2 & K3)
    by (by rewrite Href).
  assert (ft_inv (put node e1 ft)) as Hinv1 by (by eapply put_inv).
  destruct upd; cbn [negb].
  - destruct (IH (put node e1 ft) Hinv1 Hnd) as (ft' & gone & E & Hlk).
    { intros a Ha'. rewrite put_heap. case_decide; [by eexists|by apply Hl']. }
    exists ft', gone. split; [done|]. eapply looked_touch; [exact Hinv|exact He|exact Href|exact Hnin| |exact Hlk].
    rewrite K3. auto.
  - destruct (destroy_ok (put node e1 ft) node e1 Hinv1) as (ft' & -> & Hd); [rewrite put_heap; by rewrite decide_True|].
    cbn [mbind res_bind]. exists ft', (Some node). split; [done|]. destruct Hd as [Di Dh Db Dc _]. split; try done.
    + apply Dc.
    + intros b e' Hb. rewrite Dh in Hb. apply lookup_delete_Some in Hb as [Hne Hb].
      rewrite put_heap, decide_False in Hb by done. split; [congruence|]. by exists e'.
    + intros b Hgb Hb. rewrite Dh, lookup_delete_ne by congruence. rewrite put_heap. case_decide; [by eexists|done].
    + intros a [= <-]. split; [apply list_elem_of_here|]. by exists e.
Qed.

Lemma NoDup_bucket (ls : list (list Z)) i l : NoDup (concat ls) -> ls !! i = Some l -> NoDup l.
Proof.
  revert i. induction ls as [|x ls IH]; intros [|i]; cbn; try done; intros (Hx & _ & Hls)%list.NoDup_app.
  - by intros [= <-].
  - by apply IH.
Qed.

(** Buckets only get shorter. *)
Definition shorter (bs bs' : list (list Z)) : Prop :=
  length bs' = length bs /\
  forall j l', bs' !! j = Some l' -> exists l, bs !! j = Some l /\ (length l' <= length l)%nat.

#[global] Instance shorter_refl : Reflexive shorter.
Proof. intros bs. split; [done|]. eauto. Qed.
#[global] Instance shorter_trans : Transitive shorter.
Proof.
  intros b1 b2 b3 [L12 H12] [L23 H23]. split; [congruence|]. intros j l Hl.
  destruct (H23 j l Hl) as (l2 & Hl2 & ?). destruct (H12 j l2 Hl2) as (l1 & Hl1 & ?).
  exists l1. split; [done|lia].
Qed.
Lemma shorter_remove a bs : shorter bs (LIST_REMOVE a bs).
Proof.
  split; [by unfold LIST_REMOVE; rewrite length_fmap|]. intros j l'. unfold LIST_REMOVE.
  rewrite list_lookup_fmap. intros (l & Hl & ->)%fmap_Some. exists l. split; [done|apply length_filter].
Qed.

(** What the aging of one bucket [l] leaves. *)
Record aged_out (fuel : nat) (env : nat -> aging_env) ft (l : list Z) ft' : Prop := {
  ao_inv : ft_inv ft';
  ao_size : ft_size ft' = ft_size ft;
  ao_shorter : shorter (ft_buckets ft) (ft_buckets ft');
  ao_kept : forall b e', ft_heap ft' !! b = Some e' ->
    exists e, ft_heap ft !! b = Some e /\ refreshed e e' /\ (b ∉ l -> e' = e);
  ao_removed : forall b e, ft_heap ft !! b = Some e -> ft_heap ft' !! b = None ->
    b ∈ l /\ exists k, (k < fuel)%nat /\ expired (env k) e;
  ao_done : exists k, (k < fuel)%nat /\ (av_trylock (env k) = false \/
    forall b e', b ∈ l -> ft_heap ft' !! b = Some e' -> expired (env k) e' ->
      av_query (env k) (hw_entry (e_data e')) = Some (e_last_counter e'));
}.

Lemma aging_step_ok env ft i l :
  ft_inv ft -> ft_buckets ft !! i = Some l -> av_trylock env = true ->
  exists ft' gone, simple_fwd_ft_aging_ft_entry ft i env = Done (ft', bool_decide (gone <> None)) /\
    looked env ft l ft' gone.
Proof.
  intros Hinv Hi Ht. unfold simple_fwd_ft_aging_ft_entry. rewrite Hi, Ht.
  apply aging_loop_ok; [done|by eapply NoDup_bucket; [apply (fi_nodup _ Hinv)|]|].
  intros a Ha. by eapply bucket_loads.
Qed.

Lemma aging_bucket_ok fuel ft i (env : nat -> aging_env) l :
  ft_inv ft -> ft_buckets ft !! i = Some l -> (length l < fuel)%nat ->
  exists ft', aging_bucket fuel ft i env = Done ft' /\ aged_out fuel env ft l ft'.
Proof.
  revert ft l. induction fuel as [|fuel IH]; intros ft l Hinv Hi Hlen; [lia|]. cbn [aging_bucket].
  destruct (av_trylock (env fuel)) eqn:Et.
  2: { unfold simple_fwd_ft_aging_ft_entry. rewrite Hi, Et. cbn [mbind res_bind].
       exists ft. split; [done|]. split; try done.
       - intros b e' Hb. by exists e'.
       - intros b e Hb Hb'. congruence.
       - exists fuel. split; [lia|by left]. }
  destruct (aging_step_ok (env fuel) ft i l Hinv Hi Et) as (ft1 & gone & -> & Hlk). cbn [mbind res_bind].
  destruct Hlk as [Li Lb Ls Lh Lk Lg Lr]. destruct gone as [a|].
  - rewrite bool_decide_eq_true_2 by done. destruct (Lg a eq_refl) as (Hal & ea & Hea & Hxa).
    assert (ft_buckets ft1 !! i = Some (filter (fun b => b <> a) l)) as Hi1.
    { rewrite Lb. unfold LIST_REMOVE. by rewrite list_lookup_fmap, Hi. }
    assert (length (filter (fun b => b <> a) l) < length l)%nat as Hlt.
    { apply length_filter_lt with a; [done|]. intros Hn. by apply Hn. }
    destruct (IH ft1 _ Li Hi1) as (ft2 & -> & [Ai As Ash Ak Ar Ad]); [lia|].
    exists ft2. split; [done|]. split; [done|congruence| | | |].
    + etrans; [|exact Ash]. rewrite Lb. apply shorter_remove.
    + intros b e' Hb. destruct (Ak b e' Hb) as (e1 & He1 & Hr1 & Hs1).
      destruct (Lh b e1 He1) as (_ & e & He & Hr & Hs). exists e. split; [done|]. split; [by etrans|].
      intros Hnl. rewrite Hs1, Hs; [done|done|]. intros Hin. apply Hnl. by apply list_elem_of_filter in Hin as [_ ?].
    + intros b e Hb Hb'. destruct (decide (a = b)) as [<-|Hab].
      * split; [done|]. exists fuel. split; [lia|]. assert (ea = e) as <- by congruence. done.
      * destruct (Lk b) as [e1 He1]; [congruence|by eexists|].
        destruct (Ar b e1 He1 Hb') as (Hin & k & Hk & Hx). split; [by apply list_elem_of_filter in Hin as [_ ?]|].
        exists k. split; [lia|]. destruct (Lh b e1 He1) as (_ & e0 & He0 & Hr & _).
        assert (e0 = e) as <- by congruence. by apply (refreshed_expired _ _ _ Hr).
    + destruct Ad as (k & Hk & Hd). exists k. split; [lia|]. destruct Hd as [?|Hd]; [by left|right].
      intros b e' Hb He'. apply (Hd b e'); [|done]. apply list_elem_of_filter. split; [|done].
      intros ->. destruct (Ak a e' He') as (e1 & He1 & _). by destruct (Lh a e1 He1).
  - rewrite bool_decide_eq_false_2 by (intros Hn; by apply Hn). exists ft1. split; [done|]. split; try done.
    + by rewrite Lb.
    + intros b e' Hb. destruct (Lh b e' Hb) as (_ & e & He). eauto.
    + intros b e Hb Hb'. destruct (Lk b) as [? ?]; [done|by eexists|congruence].
    + exists fuel. split; [lia|]. right. by apply Lr.
Qed.

(** The aging loop of a bucket terminates: it needs at most one call more than
    the bucket has entries. It keeps the invariant and leaves every other bucket's
    entries alone; every entry it removes had expired when it was looked at, the
    ones it keeps only remember a newer hardware counter, and after the last call,
    unless the lock was taken, an expired entry is only left if the hardware
    reported its counter. *)
Theorem aging_bucket_spec fuel ft i (env : nat -> aging_env) l :
  ft_inv ft -> ft_buckets ft !! i = Some l -> (length l < fuel)%nat ->
  exists ft', aging_bucket fuel ft i env = Done ft' /\ aged_out fuel env ft l ft'.
Proof. apply aging_bucket_ok. Qed.

Lemma aging_round_ok fuel ft idxs (env : nat -> nat -> aging_env) :
  ft_inv ft -> (forall i l, ft_buckets ft !! i = Some l -> (length l < fuel)%nat) ->
  Forall (fun i => (i < length (ft_buckets ft))%nat) idxs ->
  exists ft', aging_round fuel ft idxs env = Done ft' /\ ft_inv ft' /\ ft_size ft' = ft_size ft /\
    (forall b e', ft_heap ft' !! b = Some e' -> exists e, ft_heap ft !! b = Some e /\ refreshed e e') /\
    (forall b e, ft_heap ft !! b = Some e -> ft_heap ft' !! b = None ->
      exists i k, (k < fuel)%nat /\ expired (env i k) e).
Proof.
  revert ft. induction idxs as [|i idxs IH]; intros ft Hinv Hf Hall; cbn [aging_round].
  { exists ft. split; [done|]. split; [done|]. split; [done|]. split; [intros b e' Hb; by exists e'|]. intros b e Hb Hb'. congruence. }
  apply list.Forall_cons in Hall as [Hi Hall]. apply lookup_lt_is_Some in Hi as [l Hl].
  destruct (aging_bucket_ok fuel ft i (env i) l Hinv Hl (Hf _ _ Hl)) as (ft1 & -> & [Ai As [Al Ash] Ak Ar _]).
  cbn [mbind res_bind]. destruct (IH ft1 Ai) as (ft2 & -> & I2 & S2 & K2 & R2).
  { intros j l' Hl'. destruct (Ash j l' Hl') as (l0 & Hl0 & ?). specialize (Hf j l0 Hl0). lia. }
  { by rewrite Al. }
  exists ft2. split; [done|]. split; [done|]. split; [congruence|]. split.
  - intros b e' Hb. destruct (K2 b e' Hb) as (e1 & He1 & Hr1). destruct (Ak b e1 He1) as (e & He & Hr & _).
    exists e. split; [done|by etrans].
  - intros b e Hb Hb'. destruct (ft_heap ft1 !! b) as [e1|] eqn:He1.
    + destruct (R2 b e1 He1 Hb') as (j & k & Hk & Hx). exists j, k. split; [done|].
      destruct (Ak b e1 He1) as (e0 & He0 & Hr & _). assert (e0 = e) as <- by congruence.
      by apply (refreshed_expired _ _ _ Hr).
    + destruct (Ar b e Hb He1) as (_ & k & Hk & Hx). by exists i, k.
Qed.

Lemma aging_main_ok fuel ft (env : nat -> nat -> aging_env) :
  ft_inv ft -> (forall i l, ft_buckets ft !! i = Some l -> (length l < fuel)%nat) ->
  exists ft', simple_fwd_ft_aging_main fuel ft env = Done ft' /\ ft_inv ft' /\ ft_size ft' = ft_size ft /\
    (forall b e', ft_heap ft' !! b = Some e' -> exists e, ft_heap ft !! b = Some e /\ refreshed e e') /\
    (forall b e, ft_heap ft !! b = Some e -> ft_heap ft' !! b = None ->
      exists i k, (k < fuel)%nat /\ expired (env i k) e).
Proof.
  intros Hinv Hf. unfold simple_fwd_ft_aging_main. case_bool_decide.
  - exists ft. split; [done|]. split; [done|]. split; [done|]. split; [intros b e' Hb; by exists e'|]. intros b e Hb Hb'. congruence.
  - apply aging_round_ok; [done..|]. apply list.Forall_forall. intros i Hi.
    rewrite list_elem_of_In, in_seq in Hi. pose proof (fi_len _ Hinv). lia.
Qed.

(** A round of the aging thread over the whole table terminates, keeps the
    invariant of the table, and removes expired entries only. *)
Theorem aging_round_spec fuel ft (env : nat -> nat -> aging_env) :
  ft_inv ft -> (forall i l, ft_buckets ft !! i = Some l -> (length l < fuel)%nat) ->
  exists ft', simple_fwd_ft_aging_main fuel ft env = Done ft' /\ ft_inv ft' /\ ft_size ft' = ft_size ft /\
    (forall b e', ft_heap ft' !! b = Some e' -> exists e, ft_heap ft !! b = Some e /\ refreshed e e') /\
    (forall b e, ft_heap ft !! b = Some e -> ft_heap ft' !! b = None ->
      exists i k, (k < fuel)%nat /\ expired (env i k) e).
Proof. apply aging_main_ok. Qed.

(** *** Destroying the table *)

Lemma destroy_nodes_ok ft nodes :
  ft_inv ft -> NoDup nodes -> (forall a, a ∈ nodes -> is_Some (ft_heap ft !! a)) ->
  exists ft', destroy_nodes ft nodes = Done ft' /\ ft_inv ft' /\
    length (ft_buckets ft') = length (ft_buckets ft) /\
    forall b, ft_heap ft' !! b = if decide (b ∈ nodes) then None else ft_heap ft !! b.
Proof.
  revert ft. induction nodes as [|a nodes IH]; intros ft Hinv Hnd Hl; cbn [destroy_nodes].
  { exists ft. split; [done|]. split; [done|]. split; [done|]. intros b. rewrite decide_False; [done|].
    apply not_elem_of_nil. }
  apply list.NoDup_cons in Hnd as [Hnin Hnd]. destruct (Hl a) as [e He]; [apply list_elem_of_here|].
  destruct (destroy_ok ft a e Hinv He) as (ft1 & -> & [Di Dh Db _ _]). cbn [mbind res_bind].
  destruct (IH ft1 Di Hnd) as (ft2 & -> & I2 & L2 & H2).
  { intros b Hb. rewrite Dh, lookup_delete_ne by (by intros ->). apply Hl. by apply list_elem_of_further. }
  exists ft2. split; [done|]. split; [done|]. split; [rewrite L2, Db; unfold LIST_REMOVE; by rewrite length_fmap|].
  intros b. rewrite H2, Dh. destruct (decide (b = a)) as [->|Hba].
  - rewrite lookup_delete_eq, (decide_True (P := a ∈ a :: nodes)) by apply list_elem_of_here. by case_decide.
  - rewrite lookup_delete_ne by done. destruct (decide (b ∈ nodes)) as [Hb|Hb].
    + by rewrite decide_True by (by apply list_elem_of_further).
    + by rewrite decide_False by (intros [?|?]%elem_of_cons; done).
Qed.

Lemma destroy_buckets_ok ft idxs :
  ft_inv ft -> Forall (fun i => (i < length (ft_buckets ft))%nat) idxs ->
  exists ft', destroy_buckets ft idxs = Done ft' /\ ft_inv ft' /\
    forall b e, ft_heap ft' !! b = Some e -> ft_heap ft !! b = Some e /\ home ft (e_key e) ∉ idxs.
Proof.
  revert ft. induction idxs as [|i idxs IH]; intros ft Hinv Hall; cbn [destroy_buckets].
  { exists ft. split; [done|]. split; [done|]. intros b e Hb. split; [done|]. apply not_elem_of_nil. }
  apply list.Forall_cons in Hall as [Hi Hall]. apply lookup_lt_is_Some in Hi as [l Hl]. rewrite Hl.
  destruct (destroy_nodes_ok ft l Hinv) as (ft1 & E1 & I1 & L1 & H1).
  { eapply NoDup_bucket; [apply (fi_nodup _ Hinv)|done]. }
  { intros a Ha. by eapply bucket_loads. }
  rewrite E1. cbn [mbind res_bind]. destruct (IH ft1 I1) as (ft2 & -> & I2 & H2); [by rewrite L1|].
  exists ft2. split; [done|]. split; [done|]. intros b e Hb. destruct (H2 b e Hb) as [Hb1 Hh].
  rewrite H1 in Hb1. case_decide as Hbl; [done|]. split; [done|].
  assert (home ft1 (e_key e) = home ft (e_key e)) as Hhh.
  { unfold home. rewrite (fi_mask _ I1), (fi_mask _ Hinv), <- (fi_len _ I1), <- (fi_len _ Hinv). by rewrite L1. }
  rewrite Hhh in Hh. intros [Ei|?]%elem_of_cons; [|done]. apply Hbl.
  destruct (entry_in_home ft b e Hinv Hb1) as (l' & Hl' & Hbl').
  rewrite Ei, Hl in Hl'. by injection Hl' as <-.
Qed.

(** Destroying the table frees every entry exactly once: it always completes
    without using freed memory, and no entry is left allocated. *)
Theorem ft_destroy_frees ft :
  ft_inv ft -> exists ft', simple_fwd_ft_destroy ft = Done ft' /\ ft_heap ft' = ∅.
Proof.
  intros Hinv. destruct (destroy_buckets_ok ft (seq 0 (Z.to_nat (ft_size ft))) Hinv) as (ft' & E & _ & Hh).
  { apply list.Forall_forall. intros i Hi. rewrite list_elem_of_In, in_seq in Hi.
    pose proof (fi_len _ Hinv). lia. }
  exists ft'. split; [done|]. apply map_empty. intros b. destruct (ft_heap ft' !! b) as [e|] eqn:Hb; [|done].
  destruct (Hh b e Hb) as [_ Hn]. destruct Hn. rewrite list_elem_of_In, in_seq.
  pose proof (home_lt ft (e_key e) Hinv). pose proof (fi_len _ Hinv). lia.
Qed.

(** Removing an entry takes the lock of a bucket whose index went through a
    16-bit field: it is the entry's own bucket in tables of up to 65536 buckets,
    and another bucket's lock for an entry in a bucket from 65536 on. *)
Theorem destroy_lock ft a e ft' lock :
  ft_inv ft -> ft_heap ft !! a = Some e -> simple_fwd_ft_destroy_entry ft a = Done (ft', lock) ->
  (ft_size ft <= 65536 -> lock = Z.of_nat (home ft (e_key e))) /\
  (65536 <= Z.of_nat (home ft (e_key e)) -> lock <> Z.of_nat (home ft (e_key e))).
Proof.
  intros Hinv Ha. destruct (entry_in_home ft a e Hinv Ha) as (l & Hl & Hal).
  destruct (fi_home _ Hinv _ _ _ Hl Hal) as (e' & He' & _ & Hb). assert (e' = e) as -> by congruence.
  unfold simple_fwd_ft_destroy_entry, load. rewrite Ha. cbn [mbind res_bind]. rewrite Hb.
  destruct (ft_buckets ft !! Z.to_nat _); [|done]. intros E. inv_bind E. injection E as _ <-.
  pose proof (home_lt ft (e_key e) Hinv). pose proof (fi_len _ Hinv).
  pose proof (u16_range (Z.of_nat (home ft (e_key e)))).
  split; [intros; apply u16_small; lia|lia].
Qed.
End AgingFacts.

(** ** Creating the table, and everything that happens to it *)

Section Reach.
Context `{RteNet, FwdNet, RteBitsLaws}.
Implicit Types (ft : simple_fwd_ft).

Lemma concat_empty n : concat (replicate n ([] : list Z)) = [].
Proof. induction n; [done|]. cbn. done. Qed.

Lemma create_ok nb_flows sft sb age mem thr ft sz :
  nb_flows <= 2 ^ 30 -> simple_fwd_ft_create nb_flows sft sb age mem thr = Some (ft, sz) ->
  ft_inv ft /\ 0 < nb_flows /\ 2 * nb_flows <= ft_size ft < 4 * nb_flows /\ ft_heap ft = ∅ /\
  sz = u32 (sft + sb * ft_size ft).
Proof.
  intros Hnb. unfold simple_fwd_ft_create. destruct (Z.leb_spec nb_flows 0) as [|Hpos]; [done|].
  set (n := if negb (rte_is_power_of_2 nb_flows) then rte_align32pow2 nb_flows else nb_flows).
  assert (nb_flows <= n < 2 * nb_flows /\ exists k, 0 <= k /\ n = 2 ^ k) as (Hn & k & Hk & Ek).
  { unfold n. destruct (rte_is_power_of_2 nb_flows) eqn:E; cbn [negb].
    - split; [lia|]. by apply is_power_of_2_spec.
    - destruct (align32pow2_spec nb_flows) as [? ?]; [lia|]. done. }
  clearbody n. assert (k <= 30) as Hk30.
  { destruct (Z.le_gt_cases k 30) as [|Hgt]; [done|]. assert (2 ^ 31 <= n); [|lia]. rewrite Ek.
    apply Z.pow_le_mono_r; lia. }
  assert (u32 (Z.shiftl n 1) = 2 ^ (k + 1)) as ->.
  { rewrite Z.shiftl_mul_pow2, Ek, <- Z.pow_add_r by lia. apply u32_small.
    split; [apply Z.pow_nonneg; lia|]. apply Z.le_lt_trans with (2 ^ 31); [|lia]. apply Z.pow_le_mono_r; lia. }
  assert (0 < 2 ^ (k + 1) <= 2 ^ 31) as Hs by (split; [apply Z.pow_pos_nonneg; lia|apply Z.pow_le_mono_r; lia]).
  assert (2 ^ (k + 1) = 2 * n) as E2 by (rewrite Z.pow_add_r, Ek by lia; lia).
  destruct (negb mem); [done|]. destruct (age && negb thr); [done|]. intros [= <- <-].
  split; [|split; [done|split; [cbn; lia|done]]].
  assert (forall i l, replicate (Z.to_nat (2 ^ (k + 1))) ([] : list Z) !! i = Some l -> l = []) as Hrep
    by (by intros i l [-> _]%lookup_replicate).
  split; cbn [ft_size ft_mask ft_buckets ft_heap ft_add ft_rm]; rewrite ?concat_empty; try done.
  - exists (k + 1). split; [lia|done].
  - apply u32_small. lia.
  - rewrite length_replicate. lia.
  - constructor.
  - intros i l a Hi Ha. rewrite (Hrep i l Hi) in Ha. by apply elem_of_nil in Ha.
  - intros a Ha. rewrite lookup_empty in Ha. by destruct Ha.
Qed.

(** Creating a flow table for up to 2^30 flows fails only for a number of flows that
    is not positive, without memory or without the aging thread asked for. Otherwise
    the table has its invariant: the number of buckets is a power of two between two
    and four times the number of flows, so that masking the RSS hash always selects
    an existing bucket, and it is empty. *)
Theorem create_inv nb_flows sft sb age mem thr :
  nb_flows <= 2 ^ 30 ->
  match simple_fwd_ft_create nb_flows sft sb age mem thr with
  | None => nb_flows <= 0 \/ mem = false \/ (age = true /\ thr = false)
  | Some (ft, sz) =>
    ft_inv ft /\ 0 < nb_flows /\ 2 * nb_flows <= ft_size ft < 4 * nb_flows /\ ft_heap ft = ∅ /\
    sz = u32 (sft + sb * ft_size ft)
  end.
Proof.
  intros Hn. destruct (simple_fwd_ft_create nb_flows sft sb age mem thr) as [[ft sz]|] eqn:E; [by eapply create_ok|].
  revert E. unfold simple_fwd_ft_create. destruct (Z.leb_spec nb_flows 0); [by left|].
  destruct mem, age, thr; cbn; tauto || done.
Qed.

(** What happens to the table: a packet is handled, the aging thread makes a round,
    or the hardware reports that a live entry has aged. *)
Inductive fwd_step ft : simple_fwd_ft -> Prop :=
| step_packet m len port queue rss alloc tsc hz env ft' :
  (forall a, alloc = Some a -> ft_heap ft !! a = None) ->
  simple_fwd_process_offload ft m len port queue rss alloc tsc hz env = Done ft' -> fwd_step ft ft'
| step_aging fuel env ft' :
  (forall i l, ft_buckets ft !! i = Some l -> (length l < fuel)%nat) ->
  simple_fwd_ft_aging_main fuel ft env = Done ft' -> fwd_step ft ft'
| step_aged_event a ft' lock :
  is_Some (ft_heap ft !! a) -> simple_fwd_ft_destroy_entry ft a = Done (ft', lock) -> fwd_step ft ft'.

Definition app_inv ft : Prop := ft_inv ft /\ ft_size ft <= 65536.

Lemma relabel_parsed m len pinfo port queue rss :
  parsed m len pinfo ->
  parsed m len {| pinfo with orig_port_id := port; pipe_queue := queue; rss_hash := rss |}.
Proof. by intros []. Qed.

Lemma process_offload_ok ft m len port queue rss alloc tsc hz env :
  app_inv ft -> (forall a, alloc = Some a -> ft_heap ft !! a = None) ->
  exists ft', simple_fwd_process_offload ft m len port queue rss alloc tsc hz env = Done ft' /\ app_inv ft'.
Proof.
  intros [Hinv Hsz] Hal. unfold simple_fwd_process_offload.
  destruct (parse_packet_ok m len) as (ret & pinfo & -> & Hp). cbn [mbind res_bind].
  destruct Hp as [[-> Hp]|[-> _]]; cbn [negb Z.eqb]; [|by exists ft]. destruct (negb _); [by exists ft|].
  apply (relabel_parsed _ _ _ port queue rss) in Hp.
  destruct (handle_packet_ok ft m _ len alloc tsc hz env Hinv Hsz Hp Hal) as (ft2 & ret & -> & Hinv2 & Hsz2 & _).
  exists ft2. split; [done|]. split; [done|lia].
Qed.

Lemma fwd_step_inv ft ft' : app_inv ft -> fwd_step ft ft' -> app_inv ft'.
Proof.
  intros Ha [m len port queue rss alloc tsc hz env ft1 Hal E|fuel env ft1 Hf E|a ft1 lock [e He] E].
  - destruct (process_offload_ok ft m len port queue rss alloc tsc hz env Ha Hal) as (ft2 & E2 & Ha2). congruence.
  - destruct Ha as [Hinv Hsz]. destruct (aging_main_ok fuel ft env Hinv Hf) as (ft2 & E2 & Hinv2 & Hsz2 & _).
    rewrite E2 in E. injection E as <-. split; [done|lia].
  - destruct Ha as [Hinv Hsz]. destruct (destroy_entry_ok ft a e Hinv Hsz He) as (ft2 & E2 & Hd).
    rewrite E2 in E. injection E as <- _. split; [apply Hd|]. rewrite (proj1 (ds_cfg _ _ _ _ Hd)). done.
Qed.

(** C31: the flow table of the application stays intact: from its creation for
    SIMPLE_FWD_MAX_FLOWS flows on, in whatever order packets (of any content) are
    handled, aging rounds are made and aged entries are reported, every entry is in
    the bucket of its key and in no other, no two entries have one key, and the
    statistics count the entries; and the next packet, whatever its bytes, is handled
    without touching freed memory or a bucket out of range. *)
Theorem reachable_inv sft sb age mem thr ft0 sz ft :
  simple_fwd_ft_create SIMPLE_FWD_MAX_FLOWS sft sb age mem thr = Some (ft0, sz) ->
  rtc fwd_step ft0 ft ->
  ft_inv ft /\
  forall m len port queue rss alloc tsc hz env, (forall a, alloc = Some a -> ft_heap ft !! a = None) ->
    exists ft', simple_fwd_process_offload ft m len port queue rss alloc tsc hz env = Done ft'.
Proof.
  intros E Hr. destruct (create_ok SIMPLE_FWD_MAX_FLOWS sft sb age mem thr ft0 sz) as (Hinv & _ & Hsz & _);
    [unfold SIMPLE_FWD_MAX_FLOWS; lia|done|].
  assert (app_inv ft0) as Ha by (split; [done|unfold SIMPLE_FWD_MAX_FLOWS in Hsz; lia]). clear E Hinv Hsz.
  assert (app_inv ft) as Ha' by (induction Hr; eauto using fwd_step_inv). split; [apply Ha'|].
  intros m len port queue rss alloc tsc hz env Hal.
  destruct (process_offload_ok ft m len port queue rss alloc tsc hz env Ha' Hal) as (ft' & E & _). by exists ft'.
Qed.
End Reach.

(** ** Witnesses and concrete runs *)

#[export] Instance sim_bits : RteBits := {|
  rte_is_power_of_2 x := x =? 2 ^ Z.log2 x;
  rte_align32pow2 x := 2 ^ Z.log2_up x;
|}.
#[export] Instance sim_bits_laws : RteBitsLaws (H := sim_bits).
Proof.
  split; cbn.
  - intros x Hx. rewrite Z.eqb_eq. split.
    + intros E. exists (Z.log2 x). split; [apply Z.log2_nonneg|done].
    + intros (k & Hk & ->). by rewrite Z.log2_pow2.
  - intros x Hx. split; [|exists (Z.log2_up x); split; [apply Z.log2_up_nonneg|done]].
    destruct (Z.eq_dec x 1) as [->|]; [cbn; lia|].
    destruct (Z.log2_up_spec x) as [Hlt Hle]; [lia|]. split; [done|].
    assert (1 <= Z.log2_up x) by (apply (Z.le_succ_l 0), Z.log2_up_pos; lia).
    rewrite <- (Z.succ_pred (Z.log2_up x)), Z.pow_succ_r by lia.
    generalize dependent (2 ^ Z.pred (Z.log2_up x)). intros p Hp. lia.
Qed.

(** The answers of a device that accepts the entry with handle [h]. *)
Definition good_env (h : Z) : add_env :=
  {| ae_status_mem := true; ae_add := (DOCA_SUCCESS, h); ae_process := DOCA_SUCCESS; ae_nb_processed := 1;
     ae_failure := false; ae_rand := 3 |}.

(** A table for two flows, so four buckets. *)
Definition small_ft : simple_fwd_ft :=
  match simple_fwd_ft_create 2 64 16 false true true with Some (ft, _) => ft
  | None => {| ft_size := 0; ft_mask := 0; ft_add := 0; ft_rm := 0; ft_fid_ctr := 0; ft_buckets := [];
               ft_heap := ∅; ft_hw_removed := [] |} end.
(** The table after a VXLAN packet at time 100 with the given RSS hash, for which the
    entry is allocated at [a] and gets the hardware handle [h]. *)
Definition after (ft : simple_fwd_ft) (rss a h : Z) : simple_fwd_ft :=
  match simple_fwd_process_offload ft vxlan_packet (Z.of_nat (length vxlan_packet)) 0 0 rss (Some a) 100 1
          (good_env h) with
  | Done ft => ft | Crash _ => ft end.

Lemma small_inv : ft_inv small_ft.
Proof. apply (create_ok 2 64 16 false true true small_ft 128); [lia|reflexivity]. Qed.

Definition one_flow : simple_fwd_ft := after small_ft 5 1000 7.
Definition two_flows : simple_fwd_ft := after one_flow 9 1001 8.

Lemma step_after ft rss a h : app_inv ft -> ft_heap ft !! a = None -> app_inv (after ft rss a h).
Proof.
  intros Hft Ha. unfold after.
  destruct (simple_fwd_process_offload _ _ _ _ _ _ _ _ _ _) as [ft'|] eqn:E; [|done].
  eapply fwd_step_inv; [exact Hft|]. eapply step_packet; [|exact E]. by intros ? [= <-].
Qed.
Lemma one_flow_inv : app_inv one_flow.
Proof. apply step_after; [split; [apply small_inv|by vm_compute]|done]. Qed.
Lemma two_flows_inv : app_inv two_flows.
Proof. apply step_after; [apply one_flow_inv|by vm_compute]. Qed.

(** Time 200; the flow with handle 8 has had 50 packets, the other one none. *)
Definition busy_env : aging_env :=
  {| av_tsc := 200; av_trylock := true;
     av_query h := if bool_decide (h = Some 8) then Some 50 else Some 0 |}.

(** A flow in use can be aged out. Two flows share a bucket and their time has
    passed; the hardware counter of one has moved since it was last read, the other
    is idle. The first look notes the new counter and removes the idle flow, and the
    bucket is then looked at again from its head: the counter is now the one just
    noted, so the busy flow is taken for idle and removed. Alone in the bucket it
    is kept. *)
Theorem busy_flow_aged_out :
  (exists ft, simple_fwd_ft_aging_ft_entry two_flows 1 busy_env = Done (ft, true) /\
     is_Some (ft_heap ft !! 1001) /\ ft_heap ft !! 1000 = None) /\
  (exists ft, aging_bucket 3 two_flows 1 (fun _ => busy_env) = Done ft /\ ft_heap ft !! 1001 = None) /\
  (exists ft, aging_bucket 3 (after small_ft 9 1001 8) 1 (fun _ => busy_env) = Done ft /\
     is_Some (ft_heap ft !! 1001)).
Proof.
  split_and!.
  - eexists. split; [vm_compute; reflexivity|]. vm_compute. split; [by eexists|reflexivity].
  - eexists. split; [vm_compute; reflexivity|]. vm_compute. reflexivity.
  - eexists. split; [vm_compute; reflexivity|]. vm_compute. by eexists.
Qed.

Definition vx_info : simple_fwd_pkt_info := let p := parsed_of vxlan_packet in {| p with rss_hash := 5 |}.

Lemma vx_parsed : parsed vxlan_packet (Z.of_nat (length vxlan_packet)) vx_info.
Proof.
  destruct (parse_packet_ok vxlan_packet (Z.of_nat (length vxlan_packet))) as (ret & p & E & H).
  assert (p = parsed_of vxlan_packet) as -> by (unfold parsed_of; by rewrite E).
  assert (ret = 0) as -> by (vm_compute in E; by injection E).
  destruct H as [[_ H]|[? _]]; [|done]. exact (relabel_parsed _ _ _ 0 0 5 H).
Qed.

Lemma handle_packet_spec_witness :
  exists ft', simple_fwd_handle_packet one_flow vxlan_packet vx_info (Some 2000) 101 1 (good_env 7) = Done (ft', 0) /\
    ft_inv ft' /\ size (ft_heap ft') = 1%nat.
Proof.
  destruct (handle_packet_spec one_flow vxlan_packet vx_info (Z.of_nat (length vxlan_packet)) (Some 2000) 101 1
    (good_env 7)) as (ft' & ret & E & Hinv & _);
    [exact (proj1 one_flow_inv)|exact (proj2 one_flow_inv)|exact vx_parsed|by intros a [= <-]|].
  exists ft'. assert (E' := E). vm_compute in E'. injection E' as <- <-.
  split; [exact E|]. split; [exact Hinv|reflexivity].
Defined.

Lemma ft_lookup_witness :
  exists ft' r, _simple_fwd_ft_find one_flow key_zero 0 1 = Done (ft', r) /\ ft_inv ft' /\ r = None.
Proof.
  destruct (ft_lookup one_flow key_zero 0 1 (proj1 one_flow_inv)) as (ft' & r & E & Hinv & _).
  exists ft', r. split; [exact E|]. split; [exact Hinv|]. vm_compute in E. by injection E.
Defined.

Lemma aging_bucket_spec_witness :
  exists ft', aging_bucket 3 two_flows 1 (fun _ => busy_env) = Done ft' /\
    aged_out 3 (fun _ => busy_env) two_flows [1001; 1000] ft'.
Proof.
  apply (aging_bucket_spec 3 two_flows 1 (fun _ => busy_env) [1001; 1000]);
    [exact (proj1 two_flows_inv)|vm_compute; reflexivity|vm_compute; lia].
Defined.

Lemma two_flows_short : forall i l, ft_buckets two_flows !! i = Some l -> (length l < 3)%nat.
Proof. intros i l Hi. vm_compute in Hi. do 4 (destruct i as [|i]; [injection Hi as <-; cbn; lia|]). done. Qed.

Lemma aging_round_spec_witness :
  exists ft', simple_fwd_ft_aging_main 3 two_flows (fun _ _ => busy_env) = Done ft' /\ ft_inv ft' /\
    ft_heap ft' = ∅.
Proof.
  destruct (aging_round_spec 3 two_flows (fun _ _ => busy_env) (proj1 two_flows_inv) two_flows_short)
    as (ft' & E & Hinv & _).
  exists ft'. split; [exact E|]. split; [exact Hinv|]. vm_compute in E. injection E as <-. reflexivity.
Defined.

Lemma ft_destroy_frees_witness : exists ft', simple_fwd_ft_destroy two_flows = Done ft' /\ ft_heap ft' = ∅.
Proof. apply (ft_destroy_frees two_flows), two_flows_inv. Defined.

Lemma destroy_lock_witness :
  exists ft', simple_fwd_ft_destroy_entry two_flows 1001 = Done (ft', 1) /\ 1 = 1.
Proof.
  destruct (simple_fwd_ft_destroy_entry two_flows 1001) as [[ft' lock]|] eqn:E; [|vm_compute in E; discriminate].
  destruct (ft_heap two_flows !! 1001) as [e|] eqn:He; [|vm_compute in He; discriminate].
  destruct (destroy_lock two_flows 1001 e ft' lock (proj1 two_flows_inv) He E) as [H _].
  assert (lock = 1) as -> by (vm_compute in E; by injection E). exists ft'. by split.
Defined.

Lemma create_inv_witness : ft_inv small_ft /\ ft_size small_ft = 4.
Proof.
  split; [|reflexivity]. exact (proj1 (create_inv 2 64 16 false true true ltac:(lia))).
Defined.

Lemma reachable_inv_witness :
  exists ft0 sz, simple_fwd_ft_create SIMPLE_FWD_MAX_FLOWS 64 16 false true true = Some (ft0, sz) /\ ft_inv ft0.
Proof.
  destruct (simple_fwd_ft_create SIMPLE_FWD_MAX_FLOWS 64 16 false true true) as [[ft0 sz]|] eqn:E.
  - exists ft0, sz. split; [reflexivity|]. exact (proj1 (reachable_inv 64 16 false true true ft0 sz ft0 E (rtc_refl _ _))).
  - vm_compute in E. discriminate E.
Defined.
