(* ===== verification/Pcc.v ===== *)
(** * Pcc: the RTT congestion-control algorithm of the PCC application,
      src/applications/pcc/device/rp/rtt_template/algo/rtt_template.c

    The algorithm is called once per congestion-control event of a flow with the
    context of the flow, the parameters and the result of the previous event. An
    event is the record of what the accessors of the PCC device library return for
    it. Rates are fixed point with 20 fractional bits, factors with 16.

    [algorithm_core_spec] says how a round-trip time changes the rate,
    [rate_in_bounds] that the rate of a flow never leaves the configured range,
    [tx_rerequests] that a lost request is repeated, [lost_reply_undefined_shift] and the
    theorems after it are about corner cases in which the code does not do what it
    means to. *)

From S2P Require Import Prelude.

Definition UPDATE_FACTOR : Z := (Z.shiftl 1 16 * 10) / 100.
Definition AI : Z := (Z.shiftl 1 20 * 5) / 100.
Definition BASE_RELATIVE_RTT : Z := 13000.
Definition NEW_FLOW_RATE : Z := Z.shiftl 1 20.
Definition MIN_RATE : Z := Z.shiftl 1 (20 - 14).
Definition MAX_DELAY : Z := 150000.
Definition INITIAL_MIN_RTT : Z := 200000.
Definition UPDATE_FACTOR_MAX : Z := 10 * Z.shiftl 1 16.
Definition AI_MAX : Z := Z.shiftl 1 20.
Definition RATE_MAX : Z := Z.shiftl 1 20.
Definition ABORT_TIME : Z := 300000.
Definition HIGH_UTIL_THRESHOLD : Z := 55704.
Definition UINT32_MAX : Z := 2 ^ 32 - 1.

(** [doca_pcc_dev.h]: the product of two fixed-point numbers, and the rate of the
    line. *)
Class PccDev := {
  doca_pcc_dev_fxp_mult : Z -> Z -> Z;
  DOCA_PCC_DEV_MAX_RATE : Z;
}.
Class PccDevLaws `{PccDev} := {
  (** 16 fractional bits of the first factor are dropped *)
  fxp_mult_spec : forall a b, 0 <= a -> 0 <= b -> a * b / 2 ^ 16 < 2 ^ 32 ->
    doca_pcc_dev_fxp_mult a b = a * b / 2 ^ 16;
  fxp_mult_width : forall a b, in_width 32 (doca_pcc_dev_fxp_mult a b);
  max_rate_width : 0 < DOCA_PCC_DEV_MAX_RATE < 2 ^ 31;
}.

(** The array of parameters, by the names of its indices. *)
Record rtt_template_params := {
  p_update_factor : Z;
  p_ai : Z;
  p_base_relative_rtt : Z;
  p_new_flow_rate : Z;
  p_min_rate : Z;
  p_max_delay : Z;
}.
Definition RTT_TEMPLATE_PARAM_NUM : Z := 6.
Definition RTT_TEMPLATE_COUNTER_NUM : Z := 2.

(** The parameters [rtt_template_init] registers: default and maximum, in order. *)
Definition rtt_template_init : list (Z * Z) :=
  [(UPDATE_FACTOR, UPDATE_FACTOR_MAX); (AI, AI_MAX); (BASE_RELATIVE_RTT, UINT32_MAX);
   (NEW_FLOW_RATE, RATE_MAX); (MIN_RATE, RATE_MAX); (MAX_DELAY, UINT32_MAX)].

(** The decrease factors are [int]s minus a [uint32_t], so [uint32_t]s. *)
Definition dec_factor (k : Z) (param : rtt_template_params) : Z :=
  u32 (Z.shiftl 1 16 - u32 (k * p_update_factor param)).
Definition DEC_FACTOR := dec_factor 1.
Definition CNP_DEC_FACTOR := dec_factor 2.
Definition NACK_DEC_FACTOR := dec_factor 5.
Definition HIGH_UTIL_DEC_FACTOR := dec_factor 2.
Definition HIGH_UTIL_CNP_DEC_FACTOR := dec_factor 4.
Definition HIGH_UTIL_NACK_DEC_FACTOR := dec_factor 10.

Record cc_ctxt_rtt_template_t := {
  c_cur_rate : Z;
  c_start_delay : Z;
  c_rtt : Z;
  c_was_nack : bool;
  c_was_cnp : bool;
  c_abort_cnt : Z;
  c_rtt_meas_psn : Z;
  c_rtt_req_to_rtt_sent : Z;
  c_min_rtt : Z;
}.

Inductive pcc_ev_type := EVNT_ROCE_TX | EVNT_RTT | EVNT_ROCE_CNP | EVNT_ROCE_NACK | EVNT_OTHER.
Record doca_pcc_dev_event_t := {
  ev_type : pcc_ev_type;
  (** the flag DOCA_PCC_DEV_TX_FLAG_RTT_REQ_SENT *)
  ev_rtt_req_sent : bool;
  ev_timestamp : Z;
  ev_rtt_req_send_timestamp : Z;
  ev_rtt_req_recv_timestamp : Z;
  (** utilization of the port of the event *)
  ev_tx_port_util : Z;
}.

Record doca_pcc_dev_results_t := {
  r_rate : Z;
  r_rtt_req : Z;
}.

(** The macros TIME_SYNC and DOCA_PCC_SAMPLE_TX_BYTES. *)
Record build_cfg := {
  TIME_SYNC : bool;
  DOCA_PCC_SAMPLE_TX_BYTES : bool;
}.

Section Algo.
Context `{PccDev}.
Implicit Types (c : cc_ctxt_rtt_template_t) (param : rtt_template_params) (ev : doca_pcc_dev_event_t).
Implicit Types (results : doca_pcc_dev_results_t).

(** The argument [norm_np_rx_rate] is not used by the code. *)
Definition algorithm_core c (rtt cur_rate : Z) param (is_high_util : bool)
    : cc_ctxt_rtt_template_t * Z :=
  let '(c, cur_rate) :=
    if c_was_nack c && (p_max_delay param <=? rtt) then
      ({| c with c_was_nack := false |},
       doca_pcc_dev_fxp_mult (if is_high_util then HIGH_UTIL_NACK_DEC_FACTOR param else NACK_DEC_FACTOR param)
         cur_rate)
    else if c_was_cnp c || (p_max_delay param <=? rtt) then
      ({| c with c_was_cnp := false |},
       doca_pcc_dev_fxp_mult (if is_high_util then HIGH_UTIL_CNP_DEC_FACTOR param else CNP_DEC_FACTOR param)
         cur_rate)
    else
      let '(c, relative_delay) :=
        if c_min_rtt c <=? rtt then (c, u32 (rtt - c_min_rtt c)) else ({| c with c_min_rtt := rtt |}, rtt) in
      if p_base_relative_rtt param <? relative_delay
      then (c, doca_pcc_dev_fxp_mult (if is_high_util then HIGH_UTIL_DEC_FACTOR param else DEC_FACTOR param)
                 cur_rate)
      else (c, u32 (cur_rate + p_ai param)) in
  let cur_rate := if DOCA_PCC_DEV_MAX_RATE <? cur_rate then DOCA_PCC_DEV_MAX_RATE else cur_rate in
  let cur_rate := if cur_rate <? p_min_rate param then p_min_rate param else cur_rate in
  (c, cur_rate).

(** [(uint32_t)ABORT_TIME << abort_cnt]; the shift is not defined from 32 on. *)
Definition abort_timeout (abort_cnt : Z) : res Z :=
  if abort_cnt <? 32 then Done (u32 (Z.shiftl ABORT_TIME abort_cnt)) else Crash Undefined.

Definition rtt_template_handle_roce_tx ev (cur_rate : Z) c results
    : res (cc_ctxt_rtt_template_t * doca_pcc_dev_results_t) :=
  let rtt_meas_psn := c_rtt_meas_psn c in
  let timestamp := ev_timestamp ev in
  '(c, rtt_req) ←
    (if ev_rtt_req_sent ev && (rtt_meas_psn =? 0) then
       Done ({| c with c_rtt_meas_psn := 1; c_rtt_req_to_rtt_sent := 0; c_start_delay := timestamp |}, 0)
     else
       let rtt_till_now := u32 (timestamp - c_start_delay c) in
       let rtt_till_now :=
         if timestamp <? c_start_delay c then u32 (rtt_till_now + UINT32_MAX) else rtt_till_now in
       let '(c, rtt_till_now) :=
         if rtt_meas_psn =? 0
         then ({| c with c_rtt_req_to_rtt_sent := u8 (c_rtt_req_to_rtt_sent c + 1) |}, 0)
         else (c, rtt_till_now) in
       timeout ← abort_timeout (c_abort_cnt c);
       if (timeout <? rtt_till_now) || (2 <? c_rtt_req_to_rtt_sent c) then
         let c := if timeout <? rtt_till_now then {| c with c_abort_cnt := u8 (c_abort_cnt c + 1) |} else c in
         Done ({| c with c_rtt_req_to_rtt_sent := 1 |}, 1)
       else Done (c, 0));
  Done ({| c with c_cur_rate := cur_rate |}, {| r_rate := cur_rate; r_rtt_req := rtt_req |}).

(** [int32_t rtt = end_rtt - start_rtt], then [rtt += UINT32_MAX] if the clock
    wrapped. The value is used as a [uint32_t]. *)
Definition measured_rtt (end_rtt start_rtt : Z) : Z :=
  let rtt := s32 (end_rtt - start_rtt) in
  u32 (if end_rtt <? start_rtt then s32 (rtt + UINT32_MAX) else rtt).

Definition rtt_template_handle_roce_rtt (cfg : build_cfg) ev (cur_rate : Z) param c results
    : cc_ctxt_rtt_template_t * doca_pcc_dev_results_t :=
  if (c_rtt_meas_psn c =? 0) && (c_rtt_req_to_rtt_sent c =? 0) then
    (c, {| r_rate := cur_rate; r_rtt_req := 0 |})
  else
    let c := {| c with c_rtt_meas_psn := 0; c_abort_cnt := 0 |} in
    let start_rtt := ev_rtt_req_send_timestamp ev in
    let end_rtt := if TIME_SYNC cfg then ev_rtt_req_recv_timestamp ev else ev_timestamp ev in
    let rtt := measured_rtt end_rtt start_rtt in
    let c := {| c with c_rtt := rtt |} in
    let c := if Z.land end_rtt 0xFF =? 0 then {| c with c_min_rtt := INITIAL_MIN_RTT |} else c in
    let is_high_tx_util := DOCA_PCC_SAMPLE_TX_BYTES cfg && (HIGH_UTIL_THRESHOLD <? ev_tx_port_util ev) in
    let '(c, cur_rate) := algorithm_core c rtt cur_rate param is_high_tx_util in
    ({| c with c_rtt_req_to_rtt_sent := 1; c_cur_rate := cur_rate |}, {| r_rate := cur_rate; r_rtt_req := 1 |}).

Definition rtt_template_handle_roce_cnp (cur_rate : Z) c results
    : cc_ctxt_rtt_template_t * doca_pcc_dev_results_t :=
  ({| c with c_was_cnp := true; c_cur_rate := cur_rate |}, {| r_rate := cur_rate; r_rtt_req := 0 |}).

(** The request flag of the results is left as it was. *)
Definition rtt_template_handle_roce_nack (cur_rate : Z) c results
    : cc_ctxt_rtt_template_t * doca_pcc_dev_results_t :=
  ({| c with c_was_nack := true; c_cur_rate := cur_rate |}, {| results with r_rate := cur_rate |}).

Definition rtt_template_handle_new_flow ev param c results
    : cc_ctxt_rtt_template_t * doca_pcc_dev_results_t :=
  ({| c with c_cur_rate := p_new_flow_rate param; c_start_delay := ev_timestamp ev; c_rtt_meas_psn := 0;
             c_rtt_req_to_rtt_sent := 1; c_abort_cnt := 0; c_was_nack := false;
             c_min_rtt := INITIAL_MIN_RTT |},
   {| r_rate := p_new_flow_rate param; r_rtt_req := 1 |}).

(** [counter] is [None] for a null pointer, else the TX and the RTT counter. *)
Definition rtt_template_algo (cfg : build_cfg) ev param (counter : option (Z * Z)) c results
    : res (cc_ctxt_rtt_template_t * doca_pcc_dev_results_t * option (Z * Z)) :=
  let cur_rate := c_cur_rate c in
  if cur_rate =? 0 then
    let '(c, results) := rtt_template_handle_new_flow ev param c results in Done (c, results, counter)
  else
    match ev_type ev with
    | EVNT_ROCE_TX =>
      '(c, results) ← rtt_template_handle_roce_tx ev cur_rate c results;
      Done (c, results, (fun p => (u32 (p.1 + 1), p.2)) <$> counter)
    | EVNT_RTT =>
      let '(c, results) := rtt_template_handle_roce_rtt cfg ev cur_rate param c results in
      Done (c, results, (fun p => (p.1, u32 (p.2 + 1))) <$> counter)
    | EVNT_ROCE_CNP =>
      let '(c, results) := rtt_template_handle_roce_cnp cur_rate c results in Done (c, results, counter)
    | EVNT_ROCE_NACK =>
      let '(c, results) := rtt_template_handle_roce_nack cur_rate c results in Done (c, results, counter)
    | EVNT_OTHER => Done (c, {| r_rate := cur_rate; r_rtt_req := 0 |}, counter)
    end.

(** The null checks are [new_null] and [params_null]; [true] is the status OK. *)
Definition rtt_template_set_algo_params (param_id_base param_num : Z) (new_null params_null : bool) : bool :=
  if (RTT_TEMPLATE_PARAM_NUM <? param_num) || (RTT_TEMPLATE_PARAM_NUM <=? param_id_base) then false
  else if new_null || params_null then false
  else true.
End Algo.

(** ** How a measurement changes the rate *)

Section AlgoFacts.
Context `{PccDevLaws}.
Implicit Types (c : cc_ctxt_rtt_template_t) (param : rtt_template_params) (ev : doca_pcc_dev_event_t).

(** Parameters for which the factors are fractions and the bounds are a range. *)
Record sane param : Prop := {
  sn_update : 0 <= p_update_factor param /\ 10 * p_update_factor param <= 2 ^ 16;
  sn_ai : 0 <= p_ai param <= AI_MAX;
  sn_rate : 0 < p_min_rate param <= DOCA_PCC_DEV_MAX_RATE;
}.

Definition clamp param (r : Z) : Z := Z.max (p_min_rate param) (Z.min DOCA_PCC_DEV_MAX_RATE r).

(** How far the delay is above the smallest one seen; a new smallest delay counts
    in full. *)
Definition relative c (rtt : Z) : Z := if c_min_rtt c <=? rtt then rtt - c_min_rtt c else rtt.

(** The multiple of the update factor by which the rate decreases, if it does. *)
Definition reaction c (rtt : Z) param (high : bool) : option Z :=
  let h := if high then 2 else 1 in
  if c_was_nack c && (p_max_delay param <=? rtt) then Some (5 * h)
  else if c_was_cnp c || (p_max_delay param <=? rtt) then Some (2 * h)
  else if p_base_relative_rtt param <? relative c rtt then Some h
  else None.

Definition new_rate param (rate : Z) (r : option Z) : Z :=
  match r with
  | Some k => clamp param ((2 ^ 16 - k * p_update_factor param) * rate / 2 ^ 16)
  | None => clamp param (rate + p_ai param)
  end.

Lemma dec_mult param k rate :
  sane param -> 0 <= k <= 10 -> 0 <= rate < 2 ^ 32 ->
  doca_pcc_dev_fxp_mult (dec_factor k param) rate = (2 ^ 16 - k * p_update_factor param) * rate / 2 ^ 16.
Proof.
  intros [[Hu Hu'] _ _] Hk Hr. unfold dec_factor. change (Z.shiftl 1 16) with (2 ^ 16).
  assert (0 <= k * p_update_factor param <= 2 ^ 16) as Hm by nia.
  rewrite (u32_small (k * _)), u32_small by lia.
  apply fxp_mult_spec; [lia|lia|]. apply Z.div_lt_upper_bound; [lia|]. nia.
Qed.

Lemma clamp_ifs param r :
  sane param ->
  (let x := if DOCA_PCC_DEV_MAX_RATE <? r then DOCA_PCC_DEV_MAX_RATE else r in
   if x <? p_min_rate param then p_min_rate param else x) = clamp param r.
Proof.
  intros [_ _ Hr]. unfold clamp. cbn zeta. destruct (Z.ltb_spec DOCA_PCC_DEV_MAX_RATE r).
  - destruct (Z.ltb_spec DOCA_PCC_DEV_MAX_RATE (p_min_rate param)); lia.
  - destruct (Z.ltb_spec r (p_min_rate param)); lia.
Qed.

Lemma core_rate c rtt rate param high :
  sane param -> 0 <= rtt < 2 ^ 32 -> 0 <= c_min_rtt c -> 0 <= rate <= DOCA_PCC_DEV_MAX_RATE ->
  (algorithm_core c rtt rate param high).2 = new_rate param rate (reaction c rtt param high).
Proof.
  intros Hs Hrtt Hmin Hrate. pose proof max_rate_width as Hmax. pose proof (sn_ai _ Hs) as Hai.
  change AI_MAX with 1048576 in Hai.
  assert (forall k, 0 <= k <= 10 -> doca_pcc_dev_fxp_mult (dec_factor k param) rate =
    (2 ^ 16 - k * p_update_factor param) * rate / 2 ^ 16) as Hdec by (intros; apply dec_mult; [done|done|lia]).
  unfold algorithm_core, reaction, relative, new_rate, NACK_DEC_FACTOR, HIGH_UTIL_NACK_DEC_FACTOR,
    CNP_DEC_FACTOR, HIGH_UTIL_CNP_DEC_FACTOR, DEC_FACTOR, HIGH_UTIL_DEC_FACTOR.
  destruct (c_was_nack c && _); [destruct high; cbn [snd]; rewrite clamp_ifs by done; by rewrite Hdec by lia|].
  destruct (c_was_cnp c || _); [destruct high; cbn [snd]; rewrite clamp_ifs by done; by rewrite Hdec by lia|].
  destruct (Z.leb_spec (c_min_rtt c) rtt) as [Hle|Hle]; [rewrite u32_small by lia|];
    (destruct (p_base_relative_rtt param <? _); [destruct high; cbn [snd]; rewrite clamp_ifs by done; by rewrite Hdec by lia|]);
    cbn [snd]; rewrite clamp_ifs by done; by rewrite u32_small by lia.
Qed.

(** The rate after a measurement. With sane parameters the new rate is the old
    one times (1 - k * UPDATE_FACTOR), or plus AI, kept between MIN_RATE and the
    line rate: k is 5 after a NACK and a delay above MAX_DELAY, 2 after a CNP or
    such a delay, 1 if the delay exceeds the smallest one by more than
    BASE_RELATIVE_RTT, all doubled on a busy port; otherwise AI is added. The flag
    that was reacted to is cleared, the other one kept, and the smallest delay is
    updated in the last two cases only. *)
Theorem algorithm_core_spec c rtt rate param high :
  sane param -> 0 <= rtt < 2 ^ 32 -> 0 <= c_min_rtt c -> 0 <= rate <= DOCA_PCC_DEV_MAX_RATE ->
  let '(c', rate') := algorithm_core c rtt rate param high in
  rate' = new_rate param rate (reaction c rtt param high) /\
  let late := p_max_delay param <=? rtt in
  c_was_nack c' = c_was_nack c && negb late /\
  c_was_cnp c' = c_was_cnp c && (c_was_nack c && late) /\
  c_min_rtt c' = (if c_was_cnp c || late then c_min_rtt c else Z.min (c_min_rtt c) rtt).
Proof.
  intros Hs Hrtt Hmin Hrate. pose proof (core_rate c rtt rate param high Hs Hrtt Hmin Hrate) as Hr.
  destruct (algorithm_core c rtt rate param high) as [c' rate'] eqn:E. cbn [snd] in Hr. split; [done|]. clear Hr.
  unfold algorithm_core in E. cbn zeta.
  destruct (p_max_delay param <=? rtt) eqn:El, (c_was_nack c) eqn:En, (c_was_cnp c) eqn:Ec; cbn [andb orb negb] in *;
    try (injection E as <- _; cbn; rewrite ?En, ?Ec; done).
  all: destruct (Z.leb_spec (c_min_rtt c) rtt) as [Hle|Hle]; destruct (p_base_relative_rtt param <? _) in E; injection E as <- _;
    cbn; rewrite ?En, ?Ec; (split_and!; [done|done|lia]).
Qed.

(** Congestion slows a flow down and only congestion does: for sane parameters
    and a rate in range, a reaction never raises the rate and, unless the update
    factor is 0, lowers every rate above MIN_RATE; without one the rate does not
    fall, and grows by AI up to the line rate. *)
Theorem congestion_direction c rtt rate param high :
  sane param -> 0 <= rtt < 2 ^ 32 -> 0 <= c_min_rtt c -> p_min_rate param <= rate <= DOCA_PCC_DEV_MAX_RATE ->
  let rate' := (algorithm_core c rtt rate param high).2 in
  match reaction c rtt param high with
  | Some _ => rate' <= rate /\ (0 < p_update_factor param -> p_min_rate param < rate -> rate' < rate)
  | None => rate' = Z.min DOCA_PCC_DEV_MAX_RATE (rate + p_ai param)
  end.
Proof.
  intros Hs Hrtt Hmin Hrate rate'. unfold rate'. pose proof (sn_rate _ Hs) as Hr0. pose proof (sn_ai _ Hs) as Hai.
  destruct (sn_update _ Hs) as [Hu Hu'].
  rewrite core_rate by (done || lia). unfold new_rate, clamp.
  destruct (reaction c rtt param high) as [k|] eqn:Ek; [|lia].
  assert (1 <= k <= 10) as Hk.
  { unfold reaction in Ek. repeat case_match; simplify_eq; lia. }
  assert ((2 ^ 16 - k * p_update_factor param) * rate / 2 ^ 16 <= rate) as Hle.
  { apply Z.div_le_upper_bound; [lia|]. rewrite Z.mul_sub_distr_r.
    assert (0 <= k * p_update_factor param * rate) by (repeat apply Z.mul_nonneg_nonneg; lia). lia. }
  split; [lia|]. intros Hpos Hgt.
  assert ((2 ^ 16 - k * p_update_factor param) * rate / 2 ^ 16 < rate); [|lia].
  apply Z.div_lt_upper_bound; [lia|]. rewrite Z.mul_sub_distr_r.
  assert (0 < k * p_update_factor param * rate) by (repeat apply Z.mul_pos_pos; lia). lia.
Qed.
End AlgoFacts.

(** ** Sequences of events *)

Section Trace.
Context `{PccDev}.
Implicit Types (c : cc_ctxt_rtt_template_t) (param : rtt_template_params) (ev : doca_pcc_dev_event_t).
Implicit Types (cfg : build_cfg).

(** The events of a flow, with the results of each. *)
Fixpoint pcc_run cfg param (evs : list doca_pcc_dev_event_t) (counter : option (Z * Z)) c
    (results : doca_pcc_dev_results_t) : res (cc_ctxt_rtt_template_t * list doca_pcc_dev_results_t) :=
  match evs with
  | [] => Done (c, [])
  | ev :: evs =>
    '(c, results, counter) ← rtt_template_algo cfg ev param counter c results;
    '(c, rs) ← pcc_run cfg param evs counter c results;
    Done (c, results :: rs)
  end.

(** The configured range of rates, with the rate of a new flow in it. *)
Definition rates_ok param : Prop :=
  0 < p_min_rate param <= DOCA_PCC_DEV_MAX_RATE /\
  p_min_rate param <= p_new_flow_rate param <= DOCA_PCC_DEV_MAX_RATE.
Definition in_range param (r : Z) : Prop := p_min_rate param <= r <= DOCA_PCC_DEV_MAX_RATE.

Lemma core_in_range c rtt rate param high :
  rates_ok param -> in_range param (algorithm_core c rtt rate param high).2.
Proof.
  intros [Hr _]. unfold algorithm_core, in_range.
  match goal with |- context [let '(c, cur_rate) := ?x in _] => destruct x as [c' r] end. cbn [snd].
  destruct (Z.ltb_spec DOCA_PCC_DEV_MAX_RATE r).
  - destruct (Z.ltb_spec DOCA_PCC_DEV_MAX_RATE (p_min_rate param)); lia.
  - destruct (Z.ltb_spec r (p_min_rate param)); lia.
Qed.

Lemma handle_tx_rate ev rate c results c' r :
  rtt_template_handle_roce_tx ev rate c results = Done (c', r) -> r_rate r = rate /\ c_cur_rate c' = rate.
Proof. unfold rtt_template_handle_roce_tx. intros E. inv_bind E. destruct x as [c1 q]. by injection E as <- <-. Qed.

Lemma algo_in_range cfg ev param counter c results c' r counter' :
  rates_ok param -> c_cur_rate c = 0 \/ in_range param (c_cur_rate c) ->
  rtt_template_algo cfg ev param counter c results = Done (c', r, counter') ->
  in_range param (c_cur_rate c') /\ r_rate r = c_cur_rate c'.
Proof.
  intros Hp Hc. unfold rtt_template_algo. destruct (Z.eqb_spec (c_cur_rate c) 0) as [_|Hz].
  { intros [= <- <- _]. split; [exact (proj2 Hp)|done]. }
  destruct Hc as [?|Hc]; [done|]. destruct (ev_type ev).
  - intros E. inv_bind E. destruct x as [c1 r1]. injection E as <- <- _.
    apply handle_tx_rate in E0 as [-> ->]. done.
  - unfold rtt_template_handle_roce_rtt. destruct (_ && _); [by intros [= <- <- _]|].
    match goal with |- context [algorithm_core ?a ?b ?r ?p ?h] =>
      pose proof (core_in_range a b r p h Hp) as Hr; destruct (algorithm_core a b r p h) as [c1 r1] end.
    by intros [= <- <- _].
  - by intros [= <- <- _].
  - by intros [= <- <- _].
  - by intros [= <- <- _].
Qed.

(** The only event that can fail is a transmission event after 32 timeouts. *)
Lemma algo_crash cfg ev param counter c results e :
  rtt_template_algo cfg ev param counter c results = Crash e ->
  e = Undefined /\ ev_type ev = EVNT_ROCE_TX /\ 32 <= c_abort_cnt c.
Proof.
  unfold rtt_template_algo. destruct (_ =? 0); [done|].
  destruct (ev_type ev); [|destruct (rtt_template_handle_roce_rtt _ _ _ _ _ _); done|done..].
  unfold rtt_template_handle_roce_tx. destruct (_ && _); [done|].
  destruct (c_rtt_meas_psn c =? 0); unfold abort_timeout; cbn [c_abort_cnt].
  all: destruct (Z.ltb_spec (c_abort_cnt c) 32); cbn; [destruct (_ || _); done|by intros [= <-]].
Qed.

(** The outcome of a run: rates in range, or the failure above. *)
Definition run_ok cfg param evs counter c results : Prop :=
  match pcc_run cfg param evs counter c results with
  | Done (c', rs) => Forall (fun r => in_range param (r_rate r)) rs /\ length rs = length evs /\
      (evs <> [] -> in_range param (c_cur_rate c'))
  | Crash e => e = Undefined /\ exists evs1 ev evs2 c1 rs,
      evs = evs1 ++ ev :: evs2 /\ pcc_run cfg param evs1 counter c results = Done (c1, rs) /\
      Forall (fun r => in_range param (r_rate r)) rs /\ ev_type ev = EVNT_ROCE_TX /\ 32 <= c_abort_cnt c1
  end.

Lemma run_in_range cfg param evs counter c results :
  rates_ok param -> c_cur_rate c = 0 \/ in_range param (c_cur_rate c) -> run_ok cfg param evs counter c results.
Proof.
  intros Hp. revert counter c results. induction evs as [|ev evs IH]; intros counter c results Hc; unfold run_ok.
  { cbn. split_and!; [constructor|done|]. by intros []. }
  cbn [pcc_run]. destruct (rtt_template_algo cfg ev param counter c results) as [[[c1 r1] k1]|e] eqn:E0;
    cbn [mbind res_bind].
  2: { apply algo_crash in E0 as (-> & Ht & Ha). split; [done|].
       exists [], ev, evs, c, []. cbn. split_and!; [done|done|constructor|done|done]. }
  destruct (algo_in_range _ _ _ _ _ _ _ _ _ Hp Hc E0) as [Hr1 Er1].
  specialize (IH k1 c1 r1 (or_intror Hr1)). unfold run_ok in IH.
  assert (in_range param (r_rate r1)) as Hr by (by rewrite Er1).
  destruct (pcc_run cfg param evs k1 c1 r1) as [[c2 rs2]|e] eqn:E1; cbn [mbind res_bind].
  - destruct IH as (Hall & Hlen & Hlast). split_and!; [by constructor|cbn; by rewrite Hlen|].
    intros _. destruct evs as [|ev' evs]; [|by apply Hlast]. by injection E1 as -> _.
  - destruct IH as (-> & evs1 & ev1 & evs2 & c2 & rs & -> & E2 & Hall & Ht & Ha). split; [done|].
    exists (ev :: evs1), ev1, evs2, c2, (r1 :: rs). cbn [pcc_run]. rewrite E0. cbn [mbind res_bind].
    rewrite E2. cbn. split_and!; [done|done|by constructor|done|done].
Qed.

(** C29: the rate of a flow never leaves the configured range. For a new flow, and
    whatever events follow in whatever order and with whatever timestamps, the
    algorithm answers every event with a rate that is at least MIN_RATE and at most
    the line rate, and the rate kept in the context is in this range; the only event
    without an answer is a transmission event that finds 32 or more timeouts in the
    context. *)
Theorem rate_in_bounds cfg param evs counter c results :
  rates_ok param -> c_cur_rate c = 0 ->
  match pcc_run cfg param evs counter c results with
  | Done (c', rs) => Forall (fun r => in_range param (r_rate r)) rs /\ length rs = length evs /\
      (evs <> [] -> in_range param (c_cur_rate c'))
  | Crash e => e = Undefined /\ exists evs1 ev evs2 c1 rs,
      evs = evs1 ++ ev :: evs2 /\ pcc_run cfg param evs1 counter c results = Done (c1, rs) /\
      Forall (fun r => in_range param (r_rate r)) rs /\ ev_type ev = EVNT_ROCE_TX /\ 32 <= c_abort_cnt c1
  end.
Proof. intros Hp Hc. apply (run_in_range cfg param evs counter c results Hp). by left. Qed.

(** ** Requests for measurements *)

(** A request for a measurement that was never sent is repeated: while the
    algorithm waits for it to be sent, at the latest the third transmission event
    in a row asks for a measurement again. *)
Theorem tx_rerequests cfg param counter c results e1 e2 e3 :
  c_cur_rate c <> 0 -> c_rtt_meas_psn c = 0 -> 0 <= c_rtt_req_to_rtt_sent c -> 0 <= c_abort_cnt c < 32 ->
  (forall e, e ∈ [e1; e2; e3] -> ev_type e = EVNT_ROCE_TX /\ ev_rtt_req_sent e = false) ->
  c_rtt_req_to_rtt_sent c <= 2 ->
  exists c' r1 r2 r3, pcc_run cfg param [e1; e2; e3] counter c results = Done (c', [r1; r2; r3]) /\
    (r_rtt_req r1 = 1 \/ r_rtt_req r2 = 1 \/ r_rtt_req r3 = 1).
Proof.
  intros Hr Hp Hs Ha He Hs2.
  assert (forall e k c0 r0, e ∈ [e1; e2; e3] -> c_cur_rate c0 <> 0 -> c_rtt_meas_psn c0 = 0 ->
    0 <= c_rtt_req_to_rtt_sent c0 <= 2 -> 0 <= c_abort_cnt c0 < 32 ->
    exists c' r' k', rtt_template_algo cfg e param k c0 r0 = Done (c', r', k') /\
      c_cur_rate c' <> 0 /\ c_rtt_meas_psn c' = 0 /\ 0 <= c_abort_cnt c' < 32 /\
      if decide (c_rtt_req_to_rtt_sent c0 = 2) then r_rtt_req r' = 1 /\ c_rtt_req_to_rtt_sent c' = 1
      else c_rtt_req_to_rtt_sent c' = c_rtt_req_to_rtt_sent c0 + 1) as Hstep.
  { intros e k c0 r0 Hin Hr0 Hp0 Hs0 Ha0. destruct (He e Hin) as [Ht Hf].
    unfold rtt_template_algo. destruct (Z.eqb_spec (c_cur_rate c0) 0) as [|_]; [done|]. rewrite Ht.
    unfold rtt_template_handle_roce_tx. rewrite Hf, Hp0. cbn [andb Z.eqb].
    unfold abort_timeout. cbn [c_abort_cnt c_rtt_req_to_rtt_sent].
    destruct (Z.ltb_spec (c_abort_cnt c0) 32) as [_|]; [|lia]. cbn [mbind res_bind].
    destruct (Z.ltb_spec (u32 (Z.shiftl ABORT_TIME (c_abort_cnt c0))) 0) as [Hneg|_].
    { pose proof (u32_range (Z.shiftl ABORT_TIME (c_abort_cnt c0))). lia. }
    rewrite u8_small by lia. cbn [orb].
    destruct (Z.ltb_spec 2 (c_rtt_req_to_rtt_sent c0 + 1)); case_decide; try lia;
      cbn [mbind res_bind]; do 3 eexists; (split; [reflexivity|]); by cbn. }
  cbn [pcc_run].
  destruct (Hstep e1 counter c results) as (c1 & r1 & k1 & -> & R1 & P1 & A1 & S1); [set_solver|done|done|lia|done|].
  cbn [mbind res_bind].
  destruct (Hstep e2 k1 c1 r1) as (c2 & r2 & k2 & -> & R2 & P2 & A2 & S2);
    [set_solver|done|done|destruct (decide (c_rtt_req_to_rtt_sent c = 2)); lia|done|].
  cbn [mbind res_bind].
  destruct (Hstep e3 k2 c2 r2) as (c3 & r3 & k3 & -> & R3 & P3 & A3 & S3);
    [set_solver|done|done|destruct (decide (c_rtt_req_to_rtt_sent c = 2)), (decide (c_rtt_req_to_rtt_sent c1 = 2)); lia|done|].
  cbn [mbind res_bind]. do 4 eexists. split; [reflexivity|].
  destruct (decide (c_rtt_req_to_rtt_sent c = 2)) as [|N0]; [left; apply S1|].
  destruct (decide (c_rtt_req_to_rtt_sent c1 = 2)) as [|N1]; [right; left; apply S2|].
  destruct (decide (c_rtt_req_to_rtt_sent c2 = 2)) as [|N2]; [right; right; apply S3|]. lia.
Qed.

(** A measurement that does not come back is given up after a time that doubles
    with every attempt: while a request is out, a transmission event asks again
    exactly if more than ABORT_TIME * 2^n ns have passed since it was sent, n being
    the number of earlier attempts (up to 13, while the product fits 32 bits), and
    then n grows by one; the rate is not touched. *)
Theorem tx_backoff ev c results :
  c_rtt_meas_psn c <> 0 -> c_rtt_req_to_rtt_sent c <= 2 -> 0 <= c_abort_cnt c <= 13 ->
  0 <= c_start_delay c <= ev_timestamp ev -> ev_timestamp ev < 2 ^ 32 ->
  let late := bool_decide (ABORT_TIME * 2 ^ c_abort_cnt c < ev_timestamp ev - c_start_delay c) in
  exists c', rtt_template_handle_roce_tx ev (c_cur_rate c) c results =
      Done (c', {| r_rate := c_cur_rate c; r_rtt_req := if late then 1 else 0 |}) /\
    c_abort_cnt c' = (if late then c_abort_cnt c + 1 else c_abort_cnt c) /\
    c_cur_rate c' = c_cur_rate c /\ c_start_delay c' = c_start_delay c.
Proof.
  intros Hp Hs Ha Hd Ht late. unfold rtt_template_handle_roce_tx.
  destruct (Z.eqb_spec (c_rtt_meas_psn c) 0) as [|_]; [done|]. rewrite andb_false_r.
  destruct (Z.ltb_spec (ev_timestamp ev) (c_start_delay c)) as [|_]; [lia|]. rewrite (u32_small (_ - _)) by lia.
  unfold abort_timeout. destruct (Z.ltb_spec (c_abort_cnt c) 32) as [_|]; [|lia].
  assert (0 <= ABORT_TIME * 2 ^ c_abort_cnt c < 4294967296) as Hb.
  { unfold ABORT_TIME. assert (2 ^ c_abort_cnt c <= 2 ^ 13) by (apply Z.pow_le_mono_r; lia).
    pose proof (Z.pow_nonneg 2 (c_abort_cnt c)). lia. }
  rewrite Z.shiftl_mul_pow2, u32_small by lia. cbn [mbind res_bind].
  destruct (Z.ltb_spec 2 (c_rtt_req_to_rtt_sent c)) as [|_]; [lia|]. rewrite orb_false_r.
  unfold late. destruct (Z.ltb_spec (ABORT_TIME * 2 ^ c_abort_cnt c) (ev_timestamp ev - c_start_delay c)).
  - rewrite bool_decide_eq_true_2 by done. cbn [mbind res_bind]. eexists. split; [reflexivity|].
    cbn. by rewrite u8_small by lia.
  - rewrite bool_decide_eq_false_2 by lia. cbn [mbind res_bind]. eexists. by split; [reflexivity|].
Qed.
End Trace.

(** ** Corner cases *)

(** The measured round-trip time is the elapsed time of the 32-bit clock, except
    that it is one less when the clock wrapped between request and reply: the
    correction adds 2^32 - 1 to a difference that already is modulo 2^32. *)
Theorem measured_rtt_wrap (end_rtt start_rtt : Z) :
  0 <= end_rtt < 2 ^ 32 -> 0 <= start_rtt < 2 ^ 32 ->
  measured_rtt end_rtt start_rtt =
    (end_rtt - start_rtt) mod 2 ^ 32 - (if end_rtt <? start_rtt then 1 else 0).
Proof.
  intros He Hs. unfold measured_rtt, s32, swrap, u32, uwrap, UINT32_MAX.
  destruct (Z.ltb_spec end_rtt start_rtt) as [Hlt|Hge].
  - replace ((end_rtt - start_rtt) mod 2 ^ 32) with (end_rtt - start_rtt + 2 ^ 32)
      by (apply Z.mod_unique with (-1); lia).
    rewrite Zminus_mod_idemp_l.
    replace ((end_rtt - start_rtt + 2 ^ (32 - 1)) mod 2 ^ 32 - 2 ^ (32 - 1) + (2 ^ 32 - 1) + 2 ^ (32 - 1) - 2 ^ (32 - 1))
      with ((end_rtt - start_rtt + 2 ^ (32 - 1)) mod 2 ^ 32 - (2 ^ (32 - 1) - (2 ^ 32 - 1))) by lia.
    rewrite Zminus_mod_idemp_l. symmetry. apply Z.mod_unique with (-1 + 1); lia.
  - rewrite Zminus_mod_idemp_l. rewrite Z.sub_0_r. f_equal. lia.
Qed.

(** The plain instance of the library: the product with truncation to 32 bits, and
    the line rate 1.0. *)
#[export] Instance sim_pcc : PccDev := {|
  doca_pcc_dev_fxp_mult a b := u32 (a * b / 2 ^ 16);
  DOCA_PCC_DEV_MAX_RATE := 2 ^ 20;
|}.
#[export] Instance sim_pcc_laws : PccDevLaws (H := sim_pcc).
Proof.
  split; cbn.
  - intros a b Ha Hb Hlt. apply u32_small. split; [apply Z.div_pos; nia|exact Hlt].
  - intros a b. apply u32_range.
  - lia.
Qed.

(** The parameters as registered. *)
Definition default_params : rtt_template_params :=
  {| p_update_factor := UPDATE_FACTOR; p_ai := AI; p_base_relative_rtt := BASE_RELATIVE_RTT;
     p_new_flow_rate := NEW_FLOW_RATE; p_min_rate := MIN_RATE; p_max_delay := MAX_DELAY |}.
Definition plain_cfg : build_cfg := {| TIME_SYNC := false; DOCA_PCC_SAMPLE_TX_BYTES := false |}.
Definition ctx_zero : cc_ctxt_rtt_template_t :=
  {| c_cur_rate := 0; c_start_delay := 0; c_rtt := 0; c_was_nack := false; c_was_cnp := false; c_abort_cnt := 0;
     c_rtt_meas_psn := 0; c_rtt_req_to_rtt_sent := 0; c_min_rtt := 0 |}.
Definition no_results : doca_pcc_dev_results_t := {| r_rate := 0; r_rtt_req := 0 |}.
Definition tx (t : Z) (sent : bool) : doca_pcc_dev_event_t :=
  {| ev_type := EVNT_ROCE_TX; ev_rtt_req_sent := sent; ev_timestamp := t; ev_rtt_req_send_timestamp := 0;
     ev_rtt_req_recv_timestamp := 0; ev_tx_port_util := 0 |}.
Definition rtt_ev (t_start t_end : Z) : doca_pcc_dev_event_t :=
  {| ev_type := EVNT_RTT; ev_rtt_req_sent := false; ev_timestamp := t_end; ev_rtt_req_send_timestamp := t_start;
     ev_rtt_req_recv_timestamp := 0; ev_tx_port_util := 0 |}.

(** A reply that stays away for four seconds drives the code into an undefined
    shift: every transmission event counts another attempt, from the 14th on the
    timeout no longer fits 32 bits and is smaller than the time that has passed, and
    after 32 attempts ABORT_TIME is shifted by 32. *)
Theorem lost_reply_undefined_shift :
  pcc_run plain_cfg default_params ([tx 1 false; tx 1 true] ++ replicate 32 (tx 4294967295 false)) None
    ctx_zero no_results <> Crash Undefined /\
  pcc_run plain_cfg default_params ([tx 1 false; tx 1 true] ++ replicate 33 (tx 4294967295 false)) None
    ctx_zero no_results = Crash Undefined.
Proof. split; [vm_compute; discriminate|vm_compute; reflexivity]. Qed.

(** The shortest delay of a flow is taken for congestion. When no flag is set, a
    delay below the smallest one seen so far, but above BASE_RELATIVE_RTT, is used
    itself as the delay relative to the minimum, so the rate goes down. *)
Theorem new_minimum_slows `{PccDevLaws} c rtt rate param high :
  sane param -> c_was_nack c = false -> c_was_cnp c = false -> 0 <= rate <= DOCA_PCC_DEV_MAX_RATE ->
  p_base_relative_rtt param < rtt < c_min_rtt c -> rtt < p_max_delay param -> 0 <= rtt < 2 ^ 32 ->
  (algorithm_core c rtt rate param high).2 = new_rate param rate (Some (if high then 2 else 1)).
Proof.
  intros Hs Hn Hc Hr Hb Hm Hrtt. rewrite core_rate by (done || lia). f_equal. unfold reaction, relative.
  rewrite Hn, Hc. destruct (Z.leb_spec (p_max_delay param) rtt) as [|_]; [lia|]. cbn [andb orb].
  destruct (Z.leb_spec (c_min_rtt c) rtt) as [|_]; [lia|].
  by destruct (Z.ltb_spec (p_base_relative_rtt param) rtt); [|lia].
Qed.

(** The update factor may be set so high that congestion raises the rate: at its
    registered maximum the decrease factor 1 - UPDATE_FACTOR is negative, is used
    as an unsigned number, and a congested flow at MIN_RATE is sent to the line
    rate. *)
Theorem update_factor_underflow `{PccDevLaws} c rtt param high :
  p_update_factor param = UPDATE_FACTOR_MAX -> p_min_rate param = MIN_RATE ->
  DOCA_PCC_DEV_MAX_RATE = 2 ^ 20 -> c_was_nack c = false -> c_was_cnp c = false ->
  p_base_relative_rtt param < rtt < c_min_rtt c -> rtt < p_max_delay param ->
  (algorithm_core c rtt MIN_RATE param high).2 = DOCA_PCC_DEV_MAX_RATE.
Proof.
  intros Hu Hm Hmax Hn Hc Hb Hd. unfold algorithm_core. rewrite Hn, Hc, Hm.
  destruct (Z.leb_spec (p_max_delay param) rtt) as [|_]; [lia|]. cbn [andb orb].
  destruct (Z.leb_spec (c_min_rtt c) rtt) as [|_]; [lia|].
  destruct (Z.ltb_spec (p_base_relative_rtt param) rtt) as [_|]; [|lia].
  unfold HIGH_UTIL_DEC_FACTOR, DEC_FACTOR, dec_factor. rewrite Hu.
  destruct high; rewrite fxp_mult_spec, Hmax by (vm_compute; congruence); reflexivity.
Qed.

(** The check of a parameter update lets ranges through that end behind the last
    parameter: a base and a count are each checked on their own. *)
Theorem set_params_overflow :
  exists base num, 0 <= base /\ 0 <= num /\ RTT_TEMPLATE_PARAM_NUM < base + num /\
    rtt_template_set_algo_params base num false false = true.
Proof. exists 5, 6. by vm_compute. Qed.

(** ** Witnesses *)

Lemma default_sane : sane default_params.
Proof. by split. Qed.
Lemma default_rates : rates_ok default_params.
Proof. by vm_compute. Qed.

Definition ctx_running : cc_ctxt_rtt_template_t := {| ctx_zero with c_cur_rate := 1000; c_min_rtt := 20000 |}.

Lemma algorithm_core_spec_witness :
  exists c', algorithm_core ctx_running 40000 1000 default_params false = (c', 900) /\
    900 = new_rate default_params 1000 (reaction ctx_running 40000 default_params false).
Proof.
  pose proof (algorithm_core_spec ctx_running 40000 1000 default_params false default_sane) as H.
  destruct (algorithm_core ctx_running 40000 1000 default_params false) as [c' r] eqn:E.
  assert (r = 900) as -> by (vm_compute in E; by injection E).
  exists c'. split; [reflexivity|]. apply H; cbn; lia.
Defined.

Lemma congestion_direction_witness :
  (algorithm_core ctx_running 40000 1000 default_params false).2 < 1000.
Proof.
  pose proof (congestion_direction ctx_running 40000 1000 default_params false default_sane) as H.
  cbn [reaction] in H. apply H; vm_compute; intuition congruence.
Defined.

Lemma rate_in_bounds_witness :
  exists c' rs, pcc_run plain_cfg default_params [tx 1 false; tx 2 true; rtt_ev 2 40001] None ctx_zero no_results
      = Done (c', rs) /\ Forall (fun r => in_range default_params (r_rate r)) rs.
Proof.
  pose proof (rate_in_bounds plain_cfg default_params [tx 1 false; tx 2 true; rtt_ev 2 40001] None ctx_zero
    no_results default_rates eq_refl) as H.
  destruct (pcc_run plain_cfg default_params [tx 1 false; tx 2 true; rtt_ev 2 40001] None ctx_zero no_results)
    as [[c' rs]|] eqn:E; [|vm_compute in E; discriminate E].
  exists c', rs. split; [reflexivity|]. exact (proj1 H).
Defined.

Lemma tx_rerequests_witness :
  exists c' r1 r2 r3, pcc_run plain_cfg default_params [tx 1 false; tx 2 false; tx 3 false] None ctx_running no_results
      = Done (c', [r1; r2; r3]) /\ (r_rtt_req r1 = 1 \/ r_rtt_req r2 = 1 \/ r_rtt_req r3 = 1).
Proof.
  apply (tx_rerequests plain_cfg default_params None ctx_running no_results (tx 1 false) (tx 2 false) (tx 3 false));
    try (vm_compute; intuition congruence).
  intros e He. repeat (apply elem_of_cons in He as [->|He]; [by split|]). by apply elem_of_nil in He.
Defined.

Lemma tx_backoff_witness :
  exists c', rtt_template_handle_roce_tx (tx 400000 false) 1000 {| ctx_running with c_rtt_meas_psn := 1 |} no_results =
      Done (c', {| r_rate := 1000; r_rtt_req := 1 |}) /\ c_abort_cnt c' = 1.
Proof.
  destruct (tx_backoff (tx 400000 false) {| ctx_running with c_rtt_meas_psn := 1 |} no_results) as (c' & E & Ha & _);
    try (vm_compute; intuition congruence).
  exists c'. split; [exact E|exact Ha].
Defined.

Lemma measured_rtt_wrap_witness : measured_rtt 4 4294967290 = 9.
Proof. rewrite (measured_rtt_wrap 4 4294967290) by lia. reflexivity. Defined.

Lemma new_minimum_slows_witness :
  (algorithm_core {| ctx_running with c_min_rtt := INITIAL_MIN_RTT |} 20000 1000 default_params false).2 = 900.
Proof.
  rewrite (new_minimum_slows {| ctx_running with c_min_rtt := INITIAL_MIN_RTT |} 20000 1000 default_params false default_sane)
    by (vm_compute; intuition congruence).
  reflexivity.
Defined.

Lemma update_factor_underflow_witness :
  (algorithm_core {| ctx_running with c_min_rtt := INITIAL_MIN_RTT |} 20000 MIN_RATE
    {| default_params with p_update_factor := UPDATE_FACTOR_MAX |} false).2 = 2 ^ 20.
Proof.
  rewrite (update_factor_underflow {| ctx_running with c_min_rtt := INITIAL_MIN_RTT |} 20000
    {| default_params with p_update_factor := UPDATE_FACTOR_MAX |} false) by (vm_compute; intuition congruence).
  reflexivity.
Defined.
