(* ===== verification/Pack.v ===== *)
(** * Pack: serialisation of numbers, src/applications/common/pack.c and pack.h

    A work buffer is its bytes with the position of the read or write head; moving
    the head over the end is [OutOfBounds]. [pack_layout] says which bytes are
    written, [fields_roundtrip] that unpacking a sequence of fields gives the values
    that were packed, [ntohq_spec] that [ntohq] reverses the bytes. *)

From S2P Require Import Prelude.

Definition GET_BYTE (v n : Z) : Z := u8 (Z.land (Z.shiftr v (n * 8)) 0xFF).
Definition SET_BYTE (v n : Z) : Z := Z.shiftl (Z.land v 0xFF) (n * 8).

(** [little]: the first byte of the [int] 1 is 1. *)
Definition ntohq (little : bool) (value : Z) : Z :=
  if negb little then value
  else
    Z.lor (Z.lor (Z.lor (Z.lor (Z.lor (Z.lor (Z.lor
      (SET_BYTE (GET_BYTE value 0) 7) (SET_BYTE (GET_BYTE value 1) 6)) (SET_BYTE (GET_BYTE value 2) 5))
      (SET_BYTE (GET_BYTE value 3) 4)) (SET_BYTE (GET_BYTE value 4) 3)) (SET_BYTE (GET_BYTE value 5) 2))
      (SET_BYTE (GET_BYTE value 6) 1)) (SET_BYTE (GET_BYTE value 7) 0).

Record buffer := { buf : list Z; head : nat }.

(** [*head++ = b] and [*head++] *)
Definition put_byte (b : Z) (w : buffer) : res buffer :=
  if (head w <? length (buf w))%nat then Done {| buf := <[head w := b]> (buf w); head := S (head w) |}
  else Crash OutOfBounds.
Definition get_byte (w : buffer) : res (Z * buffer) :=
  match buf w !! head w with
  | Some b => Done (b, {| buf := buf w; head := S (head w) |})
  | None => Crash OutOfBounds
  end.

Definition pack_uint8 (value : Z) (w : buffer) : res buffer := put_byte value w.
Definition pack_uint16 (value : Z) (w : buffer) : res buffer :=
  w ← put_byte (GET_BYTE value 1) w; put_byte (GET_BYTE value 0) w.
Definition pack_uint32 (value : Z) (w : buffer) : res buffer :=
  w ← put_byte (GET_BYTE value 3) w; w ← put_byte (GET_BYTE value 2) w;
  w ← put_byte (GET_BYTE value 1) w; put_byte (GET_BYTE value 0) w.
Definition pack_uint64 (value : Z) (w : buffer) : res buffer :=
  w ← put_byte (GET_BYTE value 7) w; w ← put_byte (GET_BYTE value 6) w;
  w ← put_byte (GET_BYTE value 5) w; w ← put_byte (GET_BYTE value 4) w;
  w ← put_byte (GET_BYTE value 3) w; w ← put_byte (GET_BYTE value 2) w;
  w ← put_byte (GET_BYTE value 1) w; put_byte (GET_BYTE value 0) w.
(** [memcpy] to the head. *)
Fixpoint pack_blob (object : list Z) (w : buffer) : res buffer :=
  match object with
  | [] => Done w
  | b :: object => w ← put_byte b w; pack_blob object w
  end.

Definition unpack_uint8 (w : buffer) : res (Z * buffer) := get_byte w.
Definition unpack_uint16 (w : buffer) : res (Z * buffer) :=
  '(b1, w) ← get_byte w; '(b0, w) ← get_byte w;
  Done (u16 (Z.lor (Z.lor 0 (SET_BYTE b1 1)) (SET_BYTE b0 0)), w).
Definition unpack_uint32 (w : buffer) : res (Z * buffer) :=
  '(b3, w) ← get_byte w; '(b2, w) ← get_byte w; '(b1, w) ← get_byte w; '(b0, w) ← get_byte w;
  Done (u32 (Z.lor (Z.lor (Z.lor (Z.lor 0 (SET_BYTE b3 3)) (SET_BYTE b2 2)) (SET_BYTE b1 1)) (SET_BYTE b0 0)), w).
Definition unpack_uint64 (w : buffer) : res (Z * buffer) :=
  '(b7, w) ← get_byte w; '(b6, w) ← get_byte w; '(b5, w) ← get_byte w; '(b4, w) ← get_byte w;
  '(b3, w) ← get_byte w; '(b2, w) ← get_byte w; '(b1, w) ← get_byte w; '(b0, w) ← get_byte w;
  Done (u64 (Z.lor (Z.lor (Z.lor (Z.lor (Z.lor (Z.lor (Z.lor (Z.lor 0
    (SET_BYTE b7 7)) (SET_BYTE b6 6)) (SET_BYTE b5 5)) (SET_BYTE b4 4)) (SET_BYTE b3 3)) (SET_BYTE b2 2))
    (SET_BYTE b1 1)) (SET_BYTE b0 0)), w).
Fixpoint unpack_blob (length : nat) (w : buffer) : res (list Z * buffer) :=
  match length with
  | O => Done ([], w)
  | S length => '(b, w) ← get_byte w; '(l, w) ← unpack_blob length w; Done (b :: l, w)
  end.

(** ** Bytes of a number *)

Lemma get_byte_split v n : 0 <= n -> GET_BYTE v n = v / 256 ^ n mod 256.
Proof.
  intros Hn. unfold GET_BYTE. change 0xFF with (Z.ones 8). rewrite Z.land_ones, Z.shiftr_div_pow2 by lia.
  replace (2 ^ (n * 8)) with (256 ^ n) by (rewrite Z.mul_comm, Z.pow_mul_r by lia; done).
  apply u8_small. apply Z.mod_pos_bound. lia.
Qed.

Lemma set_byte_mul b n : 0 <= n -> is_byte b -> SET_BYTE b n = b * 256 ^ n.
Proof.
  intros Hn Hb. unfold SET_BYTE, is_byte in *. change 0xFF with (Z.ones 8).
  rewrite Z.land_ones, Z.mod_small, Z.shiftl_mul_pow2 by lia.
  f_equal. rewrite Z.mul_comm, Z.pow_mul_r by lia. done.
Qed.

(** Or-ing a byte under a multiple of the next power of 256. *)
Lemma lor_byte q b n k : k = n + 1 -> 0 <= n -> is_byte b ->
  Z.lor (q * 256 ^ k) (b * 256 ^ n) = (q * 256 + b) * 256 ^ n.
Proof.
  intros -> Hn Hb. unfold is_byte in Hb.
  assert (Z.land (q * 256) b = 0) as Hdis.
  { apply Z.bits_inj'. intros k Hk. rewrite Z.land_spec, Z.bits_0. change 256 with (2 ^ 8).
    destruct (Z.lt_ge_cases k 8).
    - by rewrite Z.mul_pow2_bits_low.
    - rewrite (Z.bits_above_log2 b), andb_false_r; [done|lia|].
      destruct (Z.eq_dec b 0) as [->|]; [cbn; lia|]. apply Z.log2_lt_pow2; [lia|].
      apply Z.lt_le_trans with (2 ^ 8); [lia|]. apply Z.pow_le_mono_r; lia. }
  rewrite Z.pow_add_r, (Z.mul_comm (256 ^ n) (256 ^ 1)), Z.mul_assoc by lia. change (256 ^ 1) with 256.
  replace (256 ^ n) with (2 ^ (n * 8)) by (rewrite Z.mul_comm, Z.pow_mul_r by lia; done).
  rewrite <- !Z.shiftl_mul_pow2, <- Z.shiftl_lor by lia. f_equal.
  rewrite <- Z.lxor_lor by done. symmetry. by apply Z.add_nocarry_lxor.
Qed.

Lemma get_byte_is_byte v n : 0 <= n -> is_byte (GET_BYTE v n).
Proof. intros. rewrite get_byte_split by done. apply Z.mod_pos_bound. lia. Qed.

Lemma get_bytes_2 v : [GET_BYTE v 1; GET_BYTE v 0] = be_split 2 v.
Proof. rewrite !get_byte_split by lia. cbn. by rewrite Z.div_1_r. Qed.
Lemma get_bytes_4 v : [GET_BYTE v 3; GET_BYTE v 2; GET_BYTE v 1; GET_BYTE v 0] = be_split 4 v.
Proof. rewrite !get_byte_split by lia. cbn. rewrite Z.div_1_r, !Z.div_div by lia. done. Qed.
Lemma get_bytes_8 v :
  [GET_BYTE v 7; GET_BYTE v 6; GET_BYTE v 5; GET_BYTE v 4; GET_BYTE v 3; GET_BYTE v 2; GET_BYTE v 1; GET_BYTE v 0]
  = be_split 8 v.
Proof. rewrite !get_byte_split by lia. cbn. rewrite Z.div_1_r, !Z.div_div by lia. done. Qed.

(** ** Moving the heads *)

(** A buffer cut at its head. *)
Definition cut (pre post : list Z) : buffer := {| buf := pre ++ post; head := length pre |}.

Lemma put_byte_cut b pre x post : put_byte b (cut pre (x :: post)) = Done (cut (pre ++ [b]) post).
Proof.
  unfold put_byte, cut. cbn [buf head]. rewrite length_app. cbn [length].
  destruct (Nat.ltb_spec (length pre) (length pre + S (length post))); [|lia].
  rewrite insert_app_r_alt, Nat.sub_diag by lia. cbn. by rewrite <- app_assoc, length_app, Nat.add_1_r.
Qed.
Lemma get_byte_cut b pre post : get_byte (cut pre (b :: post)) = Done (b, cut (pre ++ [b]) post).
Proof.
  unfold get_byte, cut. cbn [buf head]. rewrite lookup_app_r, Nat.sub_diag by lia. cbn.
  by rewrite <- app_assoc, length_app, Nat.add_1_r.
Qed.

Ltac heads :=
  repeat first [rewrite put_byte_cut | rewrite get_byte_cut]; cbn [mbind res_bind];
  repeat (first [rewrite put_byte_cut | rewrite get_byte_cut]; cbn [mbind res_bind]).

Lemma pack_blob_cut object pre old post :
  length old = length object -> pack_blob object (cut pre (old ++ post)) = Done (cut (pre ++ object) post).
Proof.
  revert pre old. induction object as [|b object IH]; intros pre [|x old] Hl; cbn in *; try done.
  - by rewrite app_nil_r.
  - rewrite put_byte_cut. cbn [mbind res_bind]. rewrite IH by lia. by rewrite <- app_assoc.
Qed.
Lemma unpack_blob_cut object pre post :
  unpack_blob (length object) (cut pre (object ++ post)) = Done (object, cut (pre ++ object) post).
Proof.
  revert pre. induction object as [|b object IH]; intros pre; cbn; [by rewrite app_nil_r|].
  rewrite get_byte_cut. cbn [mbind res_bind]. rewrite IH. cbn [mbind res_bind]. by rewrite <- app_assoc.
Qed.

(** ** Fields *)

(** The items of a message, with the C type they are packed as. *)
Inductive field := F8 (v : Z) | F16 (v : Z) | F32 (v : Z) | F64 (v : Z) | Blob (l : list Z).

Definition field_ok (f : field) : Prop :=
  match f with
  | F8 v => in_width 8 v
  | F16 v => in_width 16 v
  | F32 v => in_width 32 v
  | F64 v => in_width 64 v
  | Blob _ => True
  end.

Definition encode (f : field) : list Z :=
  match f with
  | F8 v => [v]
  | F16 v => be_split 2 v
  | F32 v => be_split 4 v
  | F64 v => be_split 8 v
  | Blob l => l
  end.

Definition pack (f : field) (w : buffer) : res buffer :=
  match f with
  | F8 v => pack_uint8 v w
  | F16 v => pack_uint16 v w
  | F32 v => pack_uint32 v w
  | F64 v => pack_uint64 v w
  | Blob l => pack_blob l w
  end.
(** Reads a field of the type of [f]. *)
Definition unpack (f : field) (w : buffer) : res (field * buffer) :=
  match f with
  | F8 _ => '(v, w) ← unpack_uint8 w; Done (F8 v, w)
  | F16 _ => '(v, w) ← unpack_uint16 w; Done (F16 v, w)
  | F32 _ => '(v, w) ← unpack_uint32 w; Done (F32 v, w)
  | F64 _ => '(v, w) ← unpack_uint64 w; Done (F64 v, w)
  | Blob l => '(l, w) ← unpack_blob (length l) w; Done (Blob l, w)
  end.
Fixpoint pack_all (fs : list field) (w : buffer) : res buffer :=
  match fs with [] => Done w | f :: fs => w ← pack f w; pack_all fs w end.
Fixpoint unpack_all (fs : list field) (w : buffer) : res (list field * buffer) :=
  match fs with
  | [] => Done ([], w)
  | f :: fs => '(f, w) ← unpack f w; '(fs, w) ← unpack_all fs w; Done (f :: fs, w)
  end.

Lemma pack_cut f pre old post :
  length old = length (encode f) -> pack f (cut pre (old ++ post)) = Done (cut (pre ++ encode f) post).
Proof.
  destruct f as [v|v|v|v|l]; cbn [encode pack length]; rewrite ?length_be_split; intros Hl.
  - destruct old as [|x [|]]; try done. apply put_byte_cut.
  - destruct old as [|x1 [|x2 [|]]]; try done. cbn [app]. unfold pack_uint16. heads.
    rewrite <- get_bytes_2, <- app_assoc. done.
  - destruct old as [|x1 [|x2 [|x3 [|x4 [|]]]]]; try done. cbn [app]. unfold pack_uint32. heads.
    rewrite <- get_bytes_4, <- !app_assoc. done.
  - destruct old as [|x1 [|x2 [|x3 [|x4 [|x5 [|x6 [|x7 [|x8 [|]]]]]]]]]; try done. cbn [app]. unfold pack_uint64. heads.
    rewrite <- get_bytes_8, <- !app_assoc. done.
  - by apply pack_blob_cut.
Qed.

(** Or-ing bytes from the most significant one down gives the big-endian number. *)
Lemma or_bytes_2 b1 b0 : is_byte b1 -> is_byte b0 ->
  Z.lor (Z.lor 0 (SET_BYTE b1 1)) (SET_BYTE b0 0) = be_combine [b1; b0].
Proof.
  intros H1 H0. rewrite !set_byte_mul, Z.lor_0_l by (done || lia).
  rewrite (lor_byte b1 b0 0 1) by (done || lia). cbn. lia.
Qed.
Lemma or_bytes_4 b3 b2 b1 b0 : is_byte b3 -> is_byte b2 -> is_byte b1 -> is_byte b0 ->
  Z.lor (Z.lor (Z.lor (Z.lor 0 (SET_BYTE b3 3)) (SET_BYTE b2 2)) (SET_BYTE b1 1)) (SET_BYTE b0 0) =
  be_combine [b3; b2; b1; b0].
Proof.
  intros H3 H2 H1 H0. rewrite !set_byte_mul, Z.lor_0_l by (done || lia).
  rewrite (lor_byte b3 b2 2 3) by (done || lia). rewrite (lor_byte _ b1 1 2) by (done || lia).
  rewrite (lor_byte _ b0 0 1) by (done || lia). cbn. lia.
Qed.
Lemma or_bytes_8 b7 b6 b5 b4 b3 b2 b1 b0 :
  Forall is_byte [b7; b6; b5; b4; b3; b2; b1; b0] ->
  Z.lor (Z.lor (Z.lor (Z.lor (Z.lor (Z.lor (Z.lor (Z.lor 0
    (SET_BYTE b7 7)) (SET_BYTE b6 6)) (SET_BYTE b5 5)) (SET_BYTE b4 4)) (SET_BYTE b3 3)) (SET_BYTE b2 2))
    (SET_BYTE b1 1)) (SET_BYTE b0 0) = be_combine [b7; b6; b5; b4; b3; b2; b1; b0].
Proof.
  intros Hb. repeat (apply list.Forall_cons in Hb as [? Hb]).
  rewrite !set_byte_mul, Z.lor_0_l by (done || lia).
  rewrite (lor_byte b7 b6 6 7) by (done || lia). rewrite (lor_byte _ b5 5 6) by (done || lia).
  rewrite (lor_byte _ b4 4 5) by (done || lia). rewrite (lor_byte _ b3 3 4) by (done || lia).
  rewrite (lor_byte _ b2 2 3) by (done || lia). rewrite (lor_byte _ b1 1 2) by (done || lia).
  rewrite (lor_byte _ b0 0 1) by (done || lia). cbn. lia.
Qed.

Lemma unpack_cut f pre post :
  field_ok f -> unpack f (cut pre (encode f ++ post)) = Done (f, cut (pre ++ encode f) post).
Proof.
  destruct f as [v|v|v|v|l]; cbn [encode unpack field_ok]; intros Hv.
  - cbn [app]. unfold unpack_uint8. rewrite get_byte_cut. done.
  - rewrite <- get_bytes_2. cbn [app]. unfold unpack_uint16. heads.
    rewrite or_bytes_2, get_bytes_2, be_combine_split by (apply get_byte_is_byte; lia).
    rewrite Z.mod_small, u16_small by (unfold in_width in Hv; lia).
    rewrite <- get_bytes_2, <- !app_assoc. done.
  - rewrite <- get_bytes_4. cbn [app]. unfold unpack_uint32. heads.
    rewrite or_bytes_4, get_bytes_4, be_combine_split by (apply get_byte_is_byte; lia).
    rewrite Z.mod_small, u32_small by (unfold in_width in Hv; lia).
    rewrite <- get_bytes_4, <- !app_assoc. done.
  - rewrite <- get_bytes_8. cbn [app]. unfold unpack_uint64. heads.
    rewrite or_bytes_8, get_bytes_8, be_combine_split by (repeat constructor; apply get_byte_is_byte; lia).
    rewrite Z.mod_small, u64_small by (unfold in_width in Hv; lia).
    rewrite <- get_bytes_8, <- !app_assoc. done.
  - rewrite unpack_blob_cut. done.
Qed.

Definition encode_all (fs : list field) : list Z := concat (encode <$> fs).

Lemma pack_all_cut fs pre old post :
  length old = length (encode_all fs) -> pack_all fs (cut pre (old ++ post)) = Done (cut (pre ++ encode_all fs) post).
Proof.
  revert pre old. induction fs as [|f fs IH]; intros pre old Hl.
  - destruct old; [|done]. cbn. by rewrite app_nil_r.
  - unfold encode_all in *. cbn in Hl |- *. rewrite length_app in Hl.
    rewrite <- (take_drop (length (encode f)) old), <- app_assoc.
    rewrite pack_cut by (rewrite length_take; lia). cbn [mbind res_bind].
    rewrite IH by (rewrite length_drop; lia). by rewrite <- app_assoc.
Qed.

(** Packing a sequence of fields writes their big-endian encodings one after the
    other at the head, leaves the rest of the buffer alone and never goes past the
    end of a buffer that has room for them. *)
Theorem pack_layout fs pre old post :
  length old = length (encode_all fs) -> pack_all fs (cut pre (old ++ post)) = Done (cut (pre ++ encode_all fs) post).
Proof. apply pack_all_cut. Qed.

Lemma unpack_all_cut fs pre post :
  Forall field_ok fs -> unpack_all fs (cut pre (encode_all fs ++ post)) = Done (fs, cut (pre ++ encode_all fs) post).
Proof.
  intros Hfs. revert pre. unfold encode_all. induction Hfs as [|f fs Hf _ IH]; intros pre; cbn; [by rewrite app_nil_r|].
  rewrite <- app_assoc, unpack_cut by done. cbn [mbind res_bind]. rewrite IH. cbn. by rewrite <- app_assoc.
Qed.

(** C40: numbers and blobs survive the trip through a buffer: packing a sequence of
    fields whose values fit their types and unpacking fields of the same types from
    the same place gives the values back and leaves the read head where the write
    head was. *)
Theorem fields_roundtrip fs pre old post :
  Forall field_ok fs -> length old = length (encode_all fs) ->
  exists w, pack_all fs (cut pre (old ++ post)) = Done w /\
    unpack_all fs {| buf := buf w; head := length pre |} = Done (fs, w).
Proof.
  intros Hfs Hl. eexists. split; [by apply pack_all_cut|].
  replace {| buf := _; head := length pre |} with (cut pre (encode_all fs ++ post))
    by (unfold cut; cbn; by rewrite app_assoc).
  by apply unpack_all_cut.
Qed.

(** On a little-endian machine [ntohq] reverses the eight bytes of a number, so
    it is its own inverse; on a big-endian machine it is the identity. *)
Theorem ntohq_spec v :
  ntohq true v = le_combine (be_split 8 v) /\ ntohq false v = v /\
  (in_width 64 v -> ntohq true (ntohq true v) = v).
Proof.
  assert (forall v, ntohq true v = le_combine (be_split 8 v)) as Hn.
  { intros x. pose proof (or_bytes_8 (GET_BYTE x 0) (GET_BYTE x 1) (GET_BYTE x 2) (GET_BYTE x 3) (GET_BYTE x 4)
      (GET_BYTE x 5) (GET_BYTE x 6) (GET_BYTE x 7)) as Hor.
    rewrite Z.lor_0_l in Hor. unfold ntohq. cbn [negb]. rewrite Hor by (repeat constructor; apply get_byte_is_byte; lia).
    rewrite <- get_bytes_8. reflexivity. }
  split; [done|]. split; [done|]. intros Hv. rewrite !Hn.
  assert (be_split 8 (le_combine (be_split 8 v)) = rev (be_split 8 v)) as ->.
  { unfold be_split at 1. f_equal. pose proof (le_split_combine (be_split 8 v) (be_split_bytes 8 v)) as Hs.
    by rewrite length_be_split in Hs. }
  change (be_combine (be_split 8 v) = v). rewrite be_combine_split. apply Z.mod_small. exact Hv.
Qed.

Definition sample_fields : list field := [F8 7; F16 0x1234; Blob [1; 2; 3]; F64 0xdeadbeef00112233; F32 5].

Lemma pack_layout_witness :
  pack_all sample_fields (cut [9] (replicate 18 0 ++ [8])) = Done (cut ([9] ++ encode_all sample_fields) [8]).
Proof. apply (pack_layout sample_fields [9] (replicate 18 0) [8]). reflexivity. Defined.

Lemma fields_roundtrip_witness :
  exists w, pack_all sample_fields (cut [9] (replicate 18 0 ++ [8])) = Done w /\
    unpack_all sample_fields {| buf := buf w; head := 1 |} = Done (sample_fields, w).
Proof.
  apply (fields_roundtrip sample_fields [9] (replicate 18 0) [8]); [|reflexivity].
  repeat constructor; vm_compute; congruence.
Defined.

Lemma ntohq_spec_witness : ntohq true (ntohq true 0x0102030405060708) = 0x0102030405060708.
Proof. apply (ntohq_spec 0x0102030405060708). split; vm_compute; congruence. Defined.
