(* ===== verification/Mpool.v ===== *)
(** * Mpool: the buffer pools of virtiofs and vblk_pci_dev,
      src/applications/virtiofs/virtiofs_mpool.c and
      src/applications/vblk_pci_dev/vblk_mpool.c

    Creating a pool acquires resources of the C library, the kernel and DOCA one
    after the other and, if a step fails, releases what it has acquired at the labels
    it jumps to. The model records these calls as a trace of events; which calls
    succeed is an argument. A machine on the live resources, [live_step], says which
    events are allowed: what is released must be held, with the same size, and must
    not be in use. [create_no_leak] and [set_no_leak] say that every run is allowed
    and holds exactly what it should at its end; [set_get_smallest] that a request
    is served from the pool with the smallest buffers that are large enough. *)

From Stdlib Require Import Sorting.Sorted.
From stdpp Require Import sorting.
From S2P Require Import Prelude.

(** ** Sizes *)

Definition HUGE_PAGE_SIZE_2MB : Z := 2 * 1024 * 1024.
Definition KB_TO_BYTES : Z := 1024.
Definition SIZE_MAX : Z := 2 ^ 64 - 1.
Definition LOG_MAX_BUF_SIZE : Z := 31.

(** [__builtin_clzll] of a 64-bit number; not defined for 0. *)
Definition clzll (x : Z) : res Z := if x =? 0 then Crash Undefined else Done (63 - Z.log2 x).
Definition LOG2_FLOOR (x : Z) : res Z := c ← clzll x; Done (64 - c - 1).
Definition LOG2_CEIL (x : Z) : res Z := c ← clzll (u64 (x - 1)); Done (64 - c).

Definition virtiofs_mpool_is_power_of_two (x : Z) : bool :=
  if x =? 0 then false else Z.land x (u64 (x - 1)) =? 0.

(** An entry of the huge-page directory whose name has the right form: the size in
    its name and the number of free pages. Other entries are skipped. *)
Record hugepages := { hp_size_kb : Z; hp_free : Z }.

Fixpoint smallest_hugepage (entries : list hugepages) (malloc_size smallest : Z) : Z :=
  match entries with
  | [] => smallest
  | e :: entries =>
    let size := u64 (hp_size_kb e * KB_TO_BYTES) in
    let smallest :=
      if SIZE_MAX / KB_TO_BYTES <? hp_size_kb e then smallest
      else if negb (virtiofs_mpool_is_power_of_two size) then smallest
      else if u64 (hp_free e * size) <? malloc_size then smallest
      else if (smallest =? 0) || (size <? smallest) then size
      else smallest in
    smallest_hugepage entries malloc_size smallest
  end.
(** [None]: the directory cannot be opened. *)
Definition virtiofs_mpool_get_hugepage_size (dir : option (list hugepages)) (malloc_size : Z) : Z :=
  match dir with
  | None => HUGE_PAGE_SIZE_2MB
  | Some entries =>
    let smallest := smallest_hugepage entries malloc_size 0 in
    if 0 <? smallest then smallest else HUGE_PAGE_SIZE_2MB
  end.

Definition virtiofs_mpool_hp_align (size hugepage_size : Z) : Z :=
  if SIZE_MAX - hugepage_size <? size then 0
  else let mask := hugepage_size - 1 in Z.land (u64 (size + mask)) (u64 (Z.lnot mask)).

Definition vblk_mpool_hp_align (size : Z) : Z :=
  Z.land (u64 (size + HUGE_PAGE_SIZE_2MB - 1)) (u64 (Z.lnot (HUGE_PAGE_SIZE_2MB - 1))).

(** ** Pools *)

Record mpool_attr := {
  a_buf_size : Z;
  a_num_bufs : Z;
  a_num_devs : nat;
}.

Inductive mp_event :=
| E_calloc | E_free
| E_mmap_memory (aligned_size : Z) | E_munmap (aligned_size : Z)
| E_mmap_create | E_mmap_destroy
| E_add_dev (i : nat) | E_rm_dev (i : nat)
| E_mmap_start | E_mmap_stop
| E_bpool_create | E_bpool_destroy
| E_bpool_start | E_bpool_stop.

(** Which of the calls succeed. *)
Record mp_env := {
  en_calloc : bool;
  en_hugepages : option (list hugepages);
  en_mmap_memory : bool;
  en_mmap_create : bool;
  en_set_max_num_devices : bool;
  en_set_memrange : bool;
  en_set_permissions : bool;
  en_add_dev : nat -> bool;
  en_mmap_start : bool;
  en_bpool_create : bool;
  en_bpool_start : bool;
}.

(** The loop over the devices: how many were added and whether all were. *)
Fixpoint add_devs (n i : nat) (add : nat -> bool) : nat * bool :=
  match n with
  | O => (i, true)
  | S n => if add i then add_devs n (S i) add else (i, false)
  end.

(** The labels, each falling through to the next one. *)
Section Labels.
Context (size : Z).
Definition lbl_mpool_free (tr : list mp_event) : list mp_event := tr ++ [E_free].
Definition lbl_memory_free (tr : list mp_event) := lbl_mpool_free (tr ++ [E_munmap size]).
Definition lbl_mmap_destroy (tr : list mp_event) := lbl_memory_free (tr ++ [E_mmap_destroy]).
Definition lbl_dev_rm (idx : nat) (tr : list mp_event) := lbl_mmap_destroy (tr ++ (E_rm_dev <$> seq 0 idx)).
Definition lbl_mmap_stop (idx : nat) (tr : list mp_event) := lbl_dev_rm idx (tr ++ [E_mmap_stop]).
Definition lbl_bpool_destroy (idx : nat) (tr : list mp_event) := lbl_mmap_stop idx (tr ++ [E_bpool_destroy]).

(** The part of the two create functions after the memory was allocated, which is
    the same in both; the first component says whether a pool is returned. *)
Definition mpool_create_rest (attr : mpool_attr) (env : mp_env) (tr : list mp_event) : bool * list mp_event :=
  if negb (en_mmap_create env) then (false, lbl_memory_free tr)
  else
    let tr := tr ++ [E_mmap_create] in
    if negb (en_set_max_num_devices env) then (false, lbl_mmap_destroy tr)
    else if negb (en_set_memrange env) then (false, lbl_mmap_destroy tr)
    else if negb (en_set_permissions env) then (false, lbl_mmap_destroy tr)
    else
      let '(idx, all_added) := add_devs (a_num_devs attr) 0 (en_add_dev env) in
      let tr := tr ++ (E_add_dev <$> seq 0 idx) in
      if negb all_added then (false, lbl_dev_rm idx tr)
      else if negb (en_mmap_start env) then (false, lbl_dev_rm idx tr)
      else
        let tr := tr ++ [E_mmap_start] in
        if negb (en_bpool_create env) then (false, lbl_mmap_stop idx tr)
        else
          let tr := tr ++ [E_bpool_create] in
          if negb (en_bpool_start env) then (false, lbl_bpool_destroy idx tr)
          else (true, tr ++ [E_bpool_start]).
End Labels.

(** The bytes of all buffers: an [int] times a [size_t]. *)
Definition pool_bytes (attr : mpool_attr) : Z := u64 (a_num_bufs attr * a_buf_size attr).

Definition virtiofs_mpool_hp_malloc (size : Z) (env : mp_env) : option Z :=
  let hugepage_size := virtiofs_mpool_get_hugepage_size (en_hugepages env) size in
  let aligned_size := virtiofs_mpool_hp_align size hugepage_size in
  if aligned_size =? 0 then None
  else if negb (en_mmap_memory env) then None
  else Some aligned_size.

(** A pool is represented by the size of its memory. *)
Definition virtiofs_mpool_create (attr : mpool_attr) (env : mp_env) : option Z * list mp_event :=
  if negb (en_calloc env) then (None, [])
  else
    let tr := [E_calloc] in
    match virtiofs_mpool_hp_malloc (pool_bytes attr) env with
    | None => (None, lbl_mpool_free tr)
    | Some size =>
      let '(ok, tr) := mpool_create_rest size attr env (tr ++ [E_mmap_memory size]) in
      (if ok : bool then Some size else None, tr)
    end.

Definition virtiofs_mpool_destroy (aligned_size : Z) : list mp_event :=
  [E_bpool_stop; E_bpool_destroy; E_mmap_stop; E_mmap_destroy; E_munmap aligned_size; E_free].

Definition vblk_mpool_hp_malloc (size : Z) (env : mp_env) : option Z :=
  let aligned_size := vblk_mpool_hp_align size in
  if negb (en_mmap_memory env) then None else Some aligned_size.

Definition vblk_mpool_create (attr : mpool_attr) (env : mp_env) : option Z * list mp_event :=
  if negb (en_calloc env) then (None, [])
  else
    let tr := [E_calloc] in
    match vblk_mpool_hp_malloc (pool_bytes attr) env with
    | None => (None, lbl_mpool_free tr)
    | Some size =>
      let '(ok, tr) :=
        mpool_create_rest (vblk_mpool_hp_align (pool_bytes attr)) attr env (tr ++ [E_mmap_memory size]) in
      (if ok : bool then Some size else None, tr)
    end.

Definition vblk_mpool_destroy (attr : mpool_attr) : list mp_event :=
  [E_bpool_stop; E_bpool_destroy; E_mmap_stop; E_mmap_destroy;
   E_munmap (vblk_mpool_hp_align (pool_bytes attr)); E_free].

(** ** What the events do *)

(** The state of a pool: whether the structure is allocated, the mapped memory, and
    the DOCA memory map with its devices and buffer pool. *)
Record live := {
  lv_struct : bool;
  lv_memory : option Z;
  lv_mmap : bool;
  lv_devs : list nat;
  lv_started : bool;
  lv_bpool : bool;
  lv_bpool_started : bool;
}.
#[global] Instance live_eq_dec : EqDecision live.
Proof. solve_decision. Defined.
Definition nothing : live :=
  {| lv_struct := false; lv_memory := None; lv_mmap := false; lv_devs := []; lv_started := false;
     lv_bpool := false; lv_bpool_started := false |}.

Definition when {A} (b : bool) (x : A) : option A := if b then Some x else None.

(** [None]: the event is not allowed. *)
Definition live_step (s : live) (e : mp_event) : option live :=
  match e with
  | E_calloc => when (negb (lv_struct s)) {| s with lv_struct := true |}
  | E_free =>
    when (lv_struct s && bool_decide (lv_memory s = None) && negb (lv_mmap s)) {| s with lv_struct := false |}
  | E_mmap_memory n => when (lv_struct s && bool_decide (lv_memory s = None)) {| s with lv_memory := Some n |}
  | E_munmap n => when (bool_decide (lv_memory s = Some n) && negb (lv_mmap s)) {| s with lv_memory := None |}
  | E_mmap_create => when (bool_decide (lv_memory s <> None) && negb (lv_mmap s)) {| s with lv_mmap := true |}
  | E_mmap_destroy =>
    when (lv_mmap s && negb (lv_started s) && negb (lv_bpool s)) {| s with lv_mmap := false; lv_devs := [] |}
  | E_add_dev i =>
    when (lv_mmap s && negb (lv_started s) && bool_decide (i ∉ lv_devs s)) {| s with lv_devs := i :: lv_devs s |}
  | E_rm_dev i =>
    when (lv_mmap s && negb (lv_started s) && bool_decide (i ∈ lv_devs s))
      {| s with lv_devs := filter (fun j => j <> i) (lv_devs s) |}
  | E_mmap_start => when (lv_mmap s && negb (lv_started s)) {| s with lv_started := true |}
  | E_mmap_stop => when (lv_started s && negb (lv_bpool s)) {| s with lv_started := false |}
  | E_bpool_create => when (lv_started s && negb (lv_bpool s)) {| s with lv_bpool := true |}
  | E_bpool_destroy => when (lv_bpool s && negb (lv_bpool_started s)) {| s with lv_bpool := false |}
  | E_bpool_start => when (lv_bpool s && negb (lv_bpool_started s)) {| s with lv_bpool_started := true |}
  | E_bpool_stop => when (lv_bpool_started s) {| s with lv_bpool_started := false |}
  end.

Fixpoint live_run (s : live) (tr : list mp_event) : option live :=
  match tr with
  | [] => Some s
  | e :: tr => match live_step s e with Some s => live_run s tr | None => None end
  end.

(** ** No run leaks or frees too much *)

Lemma live_run_app s tr1 tr2 :
  live_run s (tr1 ++ tr2) = match live_run s tr1 with Some s' => live_run s' tr2 | None => None end.
Proof. revert s. induction tr1 as [|e tr1 IH]; intros s; cbn; [done|]. destruct (live_step s e); [apply IH|done]. Qed.

(** A memory map that is not started, with the given devices. *)
Definition mapped (n : Z) (devs : list nat) : live :=
  {| lv_struct := true; lv_memory := Some n; lv_mmap := true; lv_devs := devs; lv_started := false;
     lv_bpool := false; lv_bpool_started := false |}.

Lemma run_add_devs n k i d :
  (forall j, j ∈ d -> (j < i)%nat) ->
  exists d', live_run (mapped n d) (E_add_dev <$> seq i k) = Some (mapped n d') /\
    forall j, j ∈ d' <-> j ∈ d \/ (i <= j < i + k)%nat.
Proof.
  revert i d. induction k as [|k IH]; intros i d Hd; cbn [seq fmap list_fmap live_run].
  { exists d. split; [done|]. intros j. split; [by left|]. intros [?|?]; [done|lia]. }
  cbn. rewrite bool_decide_eq_true_2 by (intros Hi; specialize (Hd i Hi); lia). cbn [when].
  destruct (IH (S i) (i :: d)) as (d' & E & Hd').
  { intros j [->|Hj]%elem_of_cons; [lia|]. specialize (Hd j Hj). lia. }
  exists d'. split; [exact E|]. intros j. rewrite Hd', elem_of_cons. split.
  - intros [[->|?]|?]; [right; lia|by left|right; lia].
  - intros [?|Hj]; [by left; right|]. destruct (decide (j = i)); [by left; left|right; lia].
Qed.

Lemma run_rm_devs n k i d :
  (forall j, j ∈ d <-> (i <= j < i + k)%nat) ->
  live_run (mapped n d) (E_rm_dev <$> seq i k) = Some (mapped n []).
Proof.
  revert i d. induction k as [|k IH]; intros i d Hd; cbn [seq fmap list_fmap live_run].
  { f_equal. f_equal. destruct d as [|j d]; [done|]. assert (j ∈ j :: d) as Hj by apply list_elem_of_here.
    apply Hd in Hj. lia. }
  cbn. rewrite bool_decide_eq_true_2 by (apply Hd; lia). cbn [when].
  apply IH. intros j. rewrite list_elem_of_filter, Hd. lia.
Qed.

Lemma add_devs_le n i add : (i <= (add_devs n i add).1 <= i + n)%nat.
Proof. revert i. induction n as [|n IH]; intros i; cbn; [lia|]. destruct (add i); cbn; [specialize (IH (S i))|]; lia. Qed.

(** A started pool. *)
Definition running (n : Z) (s : live) : Prop :=
  exists d, s = {| lv_struct := true; lv_memory := Some n; lv_mmap := true; lv_devs := d; lv_started := true;
                   lv_bpool := true; lv_bpool_started := true |}.

Lemma create_rest_ok n attr env tr :
  live_run nothing tr = Some {| lv_struct := true; lv_memory := Some n; lv_mmap := false; lv_devs := [];
    lv_started := false; lv_bpool := false; lv_bpool_started := false |} ->
  let '(ok, tr') := mpool_create_rest n attr env tr in
  if ok : bool then exists s, live_run nothing tr' = Some s /\ running n s else live_run nothing tr' = Some nothing.
Proof.
  intros Htr. unfold mpool_create_rest.
  unfold lbl_bpool_destroy, lbl_mmap_stop, lbl_dev_rm, lbl_mmap_destroy, lbl_memory_free, lbl_mpool_free.
  assert (live_run nothing (tr ++ [E_mmap_create]) = Some (mapped n [])) as H1.
  { rewrite live_run_app, Htr. cbn. done. }
  assert (forall tr, live_run nothing tr = Some (mapped n []) ->
    live_run nothing (((tr ++ [E_mmap_destroy]) ++ [E_munmap n]) ++ [E_free]) = Some nothing) as Hend.
  { intros t Ht. rewrite <- !app_assoc, live_run_app, Ht. cbn. by rewrite bool_decide_eq_true_2. }
  destruct (en_mmap_create env); cbn [negb].
  2: { rewrite <- app_assoc, live_run_app, Htr. cbn. by rewrite bool_decide_eq_true_2. }
  destruct (en_set_max_num_devices env); cbn [negb]; [|by apply Hend].
  destruct (en_set_memrange env); cbn [negb]; [|by apply Hend].
  destruct (en_set_permissions env); cbn [negb]; [|by apply Hend].
  destruct (add_devs (a_num_devs attr) 0 (en_add_dev env)) as [idx all].
  destruct (run_add_devs n idx 0 []) as (d & Hd & Hel); [intros j Hj; by apply elem_of_nil in Hj|].
  assert (live_run nothing ((tr ++ [E_mmap_create]) ++ (E_add_dev <$> seq 0 idx)) = Some (mapped n d)) as H2.
  { by rewrite live_run_app, H1. }
  assert (live_run (mapped n d) (E_rm_dev <$> seq 0 idx) = Some (mapped n [])) as Hrm.
  { apply run_rm_devs. intros j. rewrite Hel. split; [intros [Hj|?]; [by apply elem_of_nil in Hj|done]|by right]. }
  destruct all; cbn [negb]; [|apply Hend; by rewrite live_run_app, H2].
  destruct (en_mmap_start env); cbn [negb]; [|apply Hend; by rewrite live_run_app, H2].
  set (started b bs := {| lv_struct := true; lv_memory := Some n; lv_mmap := true; lv_devs := d;
    lv_started := true; lv_bpool := b; lv_bpool_started := bs |}).
  assert (live_run nothing (((tr ++ [E_mmap_create]) ++ (E_add_dev <$> seq 0 idx)) ++ [E_mmap_start]) =
    Some (started false false)) as H3 by (by rewrite live_run_app, H2).
  generalize dependent (((tr ++ [E_mmap_create]) ++ (E_add_dev <$> seq 0 idx)) ++ [E_mmap_start]). intros t3 H3.
  destruct (en_bpool_create env); cbn [negb].
  2: { apply Hend. rewrite live_run_app, live_run_app, H3. exact Hrm. }
  assert (live_run nothing (t3 ++ [E_bpool_create]) = Some (started true false)) as H4 by (by rewrite live_run_app, H3).
  destruct (en_bpool_start env); cbn [negb].
  2: { apply Hend. rewrite !live_run_app, H3. exact Hrm. }
  exists (started true true). split; [by rewrite live_run_app, H4|]. by exists d.
Qed.

Lemma destroy_running n s :
  running n s -> live_run s (virtiofs_mpool_destroy n) = Some nothing.
Proof. intros [d ->]. cbn. by rewrite bool_decide_eq_true_2. Qed.

(** The end of a create function: nothing is held, or a running pool that destroying
    it gives back completely. *)
Definition clean (destroy : Z -> list mp_event) (r : option Z * list mp_event) : Prop :=
  match r.1 with
  | None => live_run nothing r.2 = Some nothing
  | Some n => exists s, live_run nothing r.2 = Some s /\ running n s /\ live_run s (destroy n) = Some nothing
  end.

Lemma virtiofs_create_clean attr env : clean virtiofs_mpool_destroy (virtiofs_mpool_create attr env).
Proof.
  unfold clean, virtiofs_mpool_create. destruct (en_calloc env); cbn [negb]; [|done].
  destruct (virtiofs_mpool_hp_malloc (pool_bytes attr) env) as [n|]; [|done].
  pose proof (create_rest_ok n attr env ([E_calloc] ++ [E_mmap_memory n]) eq_refl) as H.
  destruct (mpool_create_rest n attr env _) as [[] tr]; cbn [fst snd]; [|done].
  destruct H as (s & Hs & Hr). exists s. split; [done|]. split; [done|]. by apply destroy_running.
Qed.

Lemma vblk_create_clean attr env : clean (fun _ => vblk_mpool_destroy attr) (vblk_mpool_create attr env).
Proof.
  unfold clean, vblk_mpool_create, vblk_mpool_hp_malloc. destruct (en_calloc env); cbn [negb]; [|done].
  destruct (en_mmap_memory env); cbn [negb]; [|done].
  pose proof (create_rest_ok (vblk_mpool_hp_align (pool_bytes attr)) attr env
    ([E_calloc] ++ [E_mmap_memory (vblk_mpool_hp_align (pool_bytes attr))]) eq_refl) as H.
  destruct (mpool_create_rest _ attr env _) as [[] tr]; cbn [fst snd]; [|done].
  destruct H as (s & Hs & Hr). exists s. split; [done|]. split; [done|]. by apply (destroy_running _ s Hr).
Qed.

(** Creating a pool neither leaks nor over-releases: whichever call fails, every
    resource acquired before is released, in an allowed order and with the size it
    was acquired with, and nothing else; if all succeed the pool is running, and
    destroying it releases everything. This holds for both applications. *)
Theorem create_no_leak attr env :
  clean virtiofs_mpool_destroy (virtiofs_mpool_create attr env) /\
  clean (fun _ => vblk_mpool_destroy attr) (vblk_mpool_create attr env).
Proof. split; [apply virtiofs_create_clean|apply vblk_create_clean]. Qed.

(** ** Sets of pools *)

(** [qsort] with the comparison of the buffer sizes. *)
Class Qsort := { qsort : list mpool_attr -> list mpool_attr }.
Class QsortLaws `{Qsort} := {
  qsort_perm : forall l, qsort l ≡ₚ l;
  qsort_sorted : forall l, Sorted (fun a b => a_buf_size a <= a_buf_size b) (qsort l);
}.

Record mpool_set := {
  s_pool_map : list (option nat);
  s_mpools : list (mpool_attr * Z);
}.

(** [for (j = log_buf_size; j >= 0 && !set->pool_map[j]; j--)] *)
Fixpoint fill_map (j i : nat) (map : list (option nat)) : list (option nat) :=
  match map !! j with
  | Some None =>
    let map := <[j := Some i]> map in
    match j with O => map | S j => fill_map j i map end
  | _ => map
  end.

Definition label (i : nat) (tr : list mp_event) : list (nat * mp_event) := pair i <$> tr.

Section Sets.
Context (power_of_two : Z -> bool) (create : mpool_attr -> mp_env -> option Z * list mp_event).
Context (destroy : mpool_attr -> Z -> list mp_event).

(** The events of all pools, each with the index of its pool. *)
Definition destroy_pools (pools : list (mpool_attr * Z)) : list (nat * mp_event) :=
  concat (imap (fun j p => label j (destroy p.1 p.2)) pools).

(** The loop over the sorted attributes, with the pools made so far. *)
Fixpoint set_loop (attrs : list mpool_attr) (envs : nat -> mp_env) (map : list (option nat))
    (pools : list (mpool_attr * Z)) (tr : list (nat * mp_event))
    : res (option mpool_set * list (nat * mp_event)) :=
  match attrs with
  | [] => Done (Some {| s_pool_map := map; s_mpools := pools |}, tr)
  | attr :: attrs =>
    let i := length pools in
    if negb (power_of_two (a_buf_size attr)) then Done (None, tr ++ destroy_pools pools)
    else
      log_buf_size ← LOG2_FLOOR (a_buf_size attr);
      if LOG_MAX_BUF_SIZE <? log_buf_size then Done (None, tr ++ destroy_pools pools)
      else
        let '(p, ev) := create attr (envs i) in
        let tr := tr ++ label i ev in
        match p with
        | None => Done (None, tr ++ destroy_pools pools)
        | Some n => set_loop attrs envs (fill_map (Z.to_nat log_buf_size) i map) (pools ++ [(attr, n)]) tr
        end
  end.
End Sets.

Definition vblk_is_power_of_two (x : Z) : bool := Z.land x (u64 (x - 1)) =? 0.

Section SetOps.
Context `{Qsort}.

(** The checks for null pointers are left out; [mem] is the outcome of [calloc], in
    vblk_pci_dev also of the initialisation of the lock. *)
Definition virtiofs_mpool_set_create (attrs : list mpool_attr) (mem : bool) (envs : nat -> mp_env)
    : res (option mpool_set * list (nat * mp_event)) :=
  if bool_decide (attrs = []) then Done (None, [])
  else if negb mem then Done (None, [])
  else set_loop virtiofs_mpool_is_power_of_two virtiofs_mpool_create (fun _ => virtiofs_mpool_destroy)
         (qsort attrs) envs (replicate 32 None) [] [].

Definition vblk_mpool_set_create (attrs : list mpool_attr) (mem : bool) (envs : nat -> mp_env)
    : res (option mpool_set * list (nat * mp_event)) :=
  if bool_decide (attrs = []) then Done (None, [])
  else if negb mem then Done (None, [])
  else set_loop vblk_is_power_of_two vblk_mpool_create (fun attr _ => vblk_mpool_destroy attr)
         (qsort attrs) envs (replicate 32 None) [] [].
End SetOps.

Definition virtiofs_mpool_set_destroy (set : mpool_set) : list (nat * mp_event) :=
  destroy_pools (fun _ => virtiofs_mpool_destroy) (s_mpools set).
Definition vblk_mpool_set_destroy (set : mpool_set) : list (nat * mp_event) :=
  destroy_pools (fun attr _ => vblk_mpool_destroy attr) (s_mpools set).

(** The pool the buffer is taken from; [None] is DOCA_ERROR_NO_MEMORY. *)
Definition virtiofs_mpool_set_buf_get (set : mpool_set) (size : Z) : res (option nat) :=
  log_size ← LOG2_CEIL size;
  if LOG_MAX_BUF_SIZE <? log_size then Done None
  else match s_pool_map set !! Z.to_nat log_size with
       | Some p => Done p
       | None => Crash OutOfBounds
       end.
Definition vblk_mpool_set_buf_get (set : mpool_set) (size : Z) : res (option nat) :=
  log_size ← LOG2_CEIL size;
  if LOG_MAX_BUF_SIZE <? log_size then Done None
  else match s_pool_map set !! Z.to_nat log_size with
       | Some None => Done None
       | Some (Some p) => Done (Some p)
       | None => Crash OutOfBounds
       end.

(** ** The map of sizes *)

Section MapFacts.
Implicit Types (pools : list mpool_attr) (map : list (option nat)).

(** The first pool with buffers of at least 2^j bytes. *)
Definition first_fit pools (j : nat) : option nat :=
  fst <$> list_find (fun a => 2 ^ Z.of_nat j <= a_buf_size a) pools.

Definition map_ok pools map : Prop := length map = 32%nat /\ forall j, (j < 32)%nat -> map !! j = Some (first_fit pools j).

Lemma fill_map_length j i map : length (fill_map j i map) = length map.
Proof.
  revert map. induction j as [|j IH]; intros map; cbn; destruct (map !! _) as [[?|]|]; try done.
  - by rewrite length_insert.
  - by rewrite IH, length_insert.
Qed.

Lemma fill_map_lookup log i map j :
  (forall j k x, (j <= k <= log)%nat -> map !! k = Some (Some x) -> exists y, map !! j = Some (Some y)) ->
  (log < length map)%nat ->
  fill_map log i map !! j =
    if decide (j <= log /\ map !! j = Some None)%nat then Some (Some i) else map !! j.
Proof.
  revert map. induction log as [|log IH]; intros map Hdown Hlen; cbn [fill_map].
  - destruct (map !! 0%nat) as [[x|]|] eqn:E.
    + rewrite decide_False; [done|]. intros [? ?]. assert (j = 0%nat) as -> by lia. congruence.
    + destruct (decide (j = 0%nat)) as [->|Hj].
      * rewrite list_lookup_insert_eq by done. by rewrite decide_True.
      * rewrite list_lookup_insert_ne by done. rewrite decide_False; [done|]. lia.
    + apply lookup_ge_None in E. lia.
  - destruct (map !! S log) as [[x|]|] eqn:E.
    + rewrite decide_False; [done|]. intros [Hj Hn]. destruct (Hdown j (S log) x) as [y Hy]; [lia|done|congruence].
    + rewrite IH.
      * destruct (decide (j = S log)) as [->|Hj].
        { rewrite list_lookup_insert_eq by done. rewrite decide_False by lia. by rewrite decide_True. }
        rewrite list_lookup_insert_ne by done.
        destruct (decide (j <= log /\ map !! j = Some None)%nat) as [[? ?]|Hn].
        -- by rewrite decide_True by (split; [lia|done]).
        -- rewrite decide_False; [done|]. intros [? ?]. apply Hn. split; [lia|done].
      * intros j' k' y Hjk Hk. rewrite list_lookup_insert_ne in Hk |- * by lia. apply (Hdown j' k' y); [lia|done].
      * rewrite length_insert. lia.
    + apply lookup_ge_None in E. lia.
Qed.

Lemma first_fit_spec pools j :
  match first_fit pools j with
  | Some i => exists a, pools !! i = Some a /\ 2 ^ Z.of_nat j <= a_buf_size a /\
      forall i' a', pools !! i' = Some a' -> (i' < i)%nat -> a_buf_size a' < 2 ^ Z.of_nat j
  | None => forall a, a ∈ pools -> a_buf_size a < 2 ^ Z.of_nat j
  end.
Proof.
  unfold first_fit. destruct (list_find _ pools) as [[i a]|] eqn:E; cbn.
  - apply list_find_Some in E as (Hi & Hle & Hbefore). exists a. split; [done|]. split; [done|].
    intros i' a' Hi' Hlt. specialize (Hbefore i' a' Hi' Hlt). lia.
  - apply list_find_None in E. intros a Ha. rewrite list.Forall_forall in E. specialize (E a Ha). cbn in E. lia.
Qed.

Lemma first_fit_down pools j k x :
  (j <= k)%nat -> first_fit pools k = Some x -> exists y, first_fit pools j = Some y.
Proof.
  intros Hjk Hx. pose proof (first_fit_spec pools k) as Hk. rewrite Hx in Hk. destruct Hk as (a & Ha & Hle & _).
  pose proof (first_fit_spec pools j) as Hj. destruct (first_fit pools j) as [y|]; [by eexists|].
  specialize (Hj a (list_elem_of_lookup_2 _ _ _ Ha)).
  assert (2 ^ Z.of_nat j <= 2 ^ Z.of_nat k) by (apply Z.pow_le_mono_r; lia). lia.
Qed.

Lemma first_fit_snoc pools a j :
  first_fit (pools ++ [a]) j =
    match first_fit pools j with
    | Some i => Some i
    | None => if decide (2 ^ Z.of_nat j <= a_buf_size a) then Some (length pools) else None
    end.
Proof.
  unfold first_fit. destruct (list_find _ pools) as [[i b]|] eqn:E; cbn.
  - by erewrite list_find_app_l by exact E.
  - rewrite list_find_app_r by done. cbn. case_decide; cbn; [|done]. f_equal; lia.
Qed.

(** Adding a pool with buffers at least as large as those of the others. *)
Lemma fill_map_ok pools map a log :
  map_ok pools map -> (log < 32)%nat -> a_buf_size a = 2 ^ Z.of_nat log ->
  (forall b, b ∈ pools -> a_buf_size b <= a_buf_size a) ->
  map_ok (pools ++ [a]) (fill_map log (length pools) map).
Proof.
  intros [Hlen Hmap] Hlog Ha Hmax. split; [by rewrite fill_map_length|]. intros j Hj.
  rewrite fill_map_lookup; [|intros j' k x Hjk Hk; rewrite Hmap in Hk |- * by lia|lia].
  2: { injection Hk as Hk. destruct (first_fit_down pools j' k x) as [y Hy]; [lia|done|]. rewrite Hy. by eexists. }
  rewrite Hmap, first_fit_snoc by done.
  destruct (first_fit pools j) as [i|] eqn:Ef; [rewrite decide_False by naive_solver; done|].
  rewrite Ha. destruct (decide (j <= log)%nat) as [Hle|Hgt].
  - rewrite decide_True by done. rewrite decide_True by (apply Z.pow_le_mono_r; lia). done.
  - rewrite decide_False by naive_solver. rewrite decide_False; [done|]. apply Z.nle_gt, Z.pow_lt_mono_r; lia.
Qed.
End MapFacts.

Lemma land_pred_power x : 0 < x -> Z.land x (x - 1) = 0 -> x = 2 ^ Z.log2 x.
Proof.
  intros Hx Hl. destruct (Z.log2_spec x Hx) as [Hlo Hhi]. pose proof (Z.log2_nonneg x) as Hn.
  destruct (Z.eq_dec x (2 ^ Z.log2 x)) as [|Hne]; [done|].
  assert (Z.testbit (Z.land x (x - 1)) (Z.log2 x) = true) as Hbit; [|by rewrite Hl, Z.bits_0 in Hbit].
  rewrite Z.land_spec, Z.bit_log2 by done.
  assert (Z.log2 (x - 1) = Z.log2 x) as Hlog by (apply Z.log2_unique; lia).
  rewrite <- Hlog. apply Z.bit_log2. pose proof (Z.pow_pos_nonneg 2 (Z.log2 x)). lia.
Qed.

Lemma log2_floor_ok x : 0 < x -> LOG2_FLOOR x = Done (Z.log2 x).
Proof. intros Hx. unfold LOG2_FLOOR, clzll. destruct (Z.eqb_spec x 0); [lia|]. cbn. f_equal. lia. Qed.

Lemma log2_ceil_ok x : 2 <= x < 2 ^ 64 -> LOG2_CEIL x = Done (Z.log2_up x).
Proof.
  intros Hx. unfold LOG2_CEIL, clzll. rewrite u64_small by lia. destruct (Z.eqb_spec (x - 1) 0); [lia|].
  cbn. f_equal. rewrite Z.log2_up_eqn by lia. change (Z.pred x) with (x - 1). lia.
Qed.

Lemma sorted_before {A} (R : A -> A -> Prop) l1 x l2 :
  StronglySorted R (l1 ++ x :: l2) -> forall b, b ∈ l1 -> R b x.
Proof.
  induction l1 as [|y l1 IH]; cbn; intros Hs b Hb; [by apply elem_of_nil in Hb|].
  inversion Hs as [|? ? Hs' Hall]; subst. apply elem_of_cons in Hb as [->|Hb]; [|by apply IH].
  rewrite list.Forall_forall in Hall. apply Hall. apply elem_of_app. right. apply list_elem_of_here.
Qed.

Lemma sorted_lookup {A} (R : A -> A -> Prop) l i j x y :
  StronglySorted R l -> l !! i = Some x -> l !! j = Some y -> (i < j)%nat -> R x y.
Proof.
  revert i j. induction l as [|z l IH]; intros i j Hs Hx Hy Hij; [done|].
  inversion Hs as [|? ? Hs' Hall]; subst. destruct j as [|j]; [lia|]. cbn in Hy. destruct i as [|i]; cbn in Hx.
  - injection Hx as ->. rewrite list.Forall_forall in Hall. apply Hall. by eapply list_elem_of_lookup_2.
  - by apply (IH i j); [..|lia].
Qed.

(** ** Creating a set *)

Section SetFacts.
Context (power_of_two : Z -> bool) (create : mpool_attr -> mp_env -> option Z * list mp_event).
Context (destroy : mpool_attr -> Z -> list mp_event).
Context (create_clean : forall attr env, clean (destroy attr) (create attr env)).
Implicit Types (attrs : list mpool_attr) (pools : list (mpool_attr * Z)) (tr : list (nat * mp_event)).

(** A size the loop can look at: if it passes the check it is a power of two. *)
Definition size_ok (a : mpool_attr) : Prop :=
  power_of_two (a_buf_size a) = true -> 0 < a_buf_size a /\ a_buf_size a = 2 ^ Z.log2 (a_buf_size a).

(** The events of one pool. *)
Definition of_pool (k : nat) tr : list mp_event := snd <$> filter (fun e => e.1 = k) tr.

Lemma of_pool_app k tr1 tr2 : of_pool k (tr1 ++ tr2) = of_pool k tr1 ++ of_pool k tr2.
Proof. unfold of_pool. by rewrite list.filter_app, fmap_app. Qed.

Lemma of_pool_label k i ev : of_pool k (label i ev) = if decide (i = k) then ev else [].
Proof.
  unfold of_pool, label. induction ev as [|e ev IH]; [by case_decide|]. rewrite fmap_cons, filter_cons. cbn [fst].
  destruct (decide (i = k)); [|exact IH]. by rewrite fmap_cons, IH.
Qed.

Lemma of_pool_destroys k n pools :
  of_pool k (concat (imap (fun j p => label (n + j) (destroy p.1 p.2)) pools)) =
    if decide (n <= k)%nat
    then match pools !! (k - n)%nat with Some p => destroy p.1 p.2 | None => [] end else [].
Proof.
  revert n. induction pools as [|p pools IH]; intros n; cbn [imap concat].
  { by case_decide. }
  rewrite of_pool_app, of_pool_label, Nat.add_0_r.
  replace (concat (imap ((fun j p => label (n + j) (destroy p.1 p.2)) ∘ S) pools))
    with (concat (imap (fun j p => label (S n + j) (destroy p.1 p.2)) pools))
    by (f_equal; apply imap_ext; intros; cbn; by rewrite Nat.add_succ_r).
  rewrite IH. destruct (decide (n = k)) as [->|Hne].
  - rewrite decide_False by lia. rewrite decide_True, Nat.sub_diag by lia. cbn. by rewrite app_nil_r.
  - destruct (decide (S n <= k)%nat).
    + rewrite decide_True by lia. replace (k - n)%nat with (S (k - S n)) by lia. done.
    + by rewrite decide_False by lia.
Qed.

Lemma of_pool_destroy k pools :
  of_pool k (destroy_pools destroy pools) = match pools !! k with Some p => destroy p.1 p.2 | None => [] end.
Proof.
  pose proof (of_pool_destroys k 0 pools) as E. cbn [Nat.add] in E. unfold destroy_pools. rewrite E.
  rewrite decide_True by lia. by rewrite Nat.sub_0_r.
Qed.

(** The pools made so far are running and nothing else happened. *)
Definition traced pools tr : Prop := forall k,
  match pools !! k with
  | Some p => exists s, live_run nothing (of_pool k tr) = Some s /\ running p.2 s /\
      live_run s (destroy p.1 p.2) = Some nothing
  | None => of_pool k tr = []
  end.

Lemma traced_destroy pools tr k :
  traced pools tr -> live_run nothing (of_pool k (tr ++ destroy_pools destroy pools)) = Some nothing.
Proof.
  intros Ht. specialize (Ht k). rewrite of_pool_app, of_pool_destroy, live_run_app.
  destruct (pools !! k) as [p|].
  - destruct Ht as (s & -> & _ & Hd). exact Hd.
  - by rewrite Ht.
Qed.

Lemma traced_add pools tr attr env n ev :
  traced pools tr -> create attr env = (Some n, ev) ->
  traced (pools ++ [(attr, n)]) (tr ++ label (length pools) ev).
Proof.
  intros Ht Ec k. specialize (Ht k). rewrite of_pool_app, of_pool_label.
  pose proof (create_clean attr env) as Hc. rewrite Ec in Hc. destruct Hc as (s & Hs & Hr & Hd). cbn [fst snd] in *.
  destruct (decide (length pools = k)) as [<-|Hne].
  - rewrite lookup_app_r, Nat.sub_diag by lia. cbn. rewrite lookup_ge_None_2 in Ht by lia. rewrite Ht. cbn. eauto.
  - rewrite app_nil_r. destruct (decide (k < length pools)%nat).
    + by rewrite lookup_app_l by lia.
    + rewrite lookup_ge_None_2 in Ht by lia. rewrite lookup_ge_None_2; [done|]. rewrite length_app. cbn. lia.
Qed.

Lemma traced_failed pools tr attr env ev k :
  traced pools tr -> create attr env = (None, ev) ->
  live_run nothing (of_pool k ((tr ++ label (length pools) ev) ++ destroy_pools destroy pools)) = Some nothing.
Proof.
  intros Ht Ec. pose proof (create_clean attr env) as Hc. rewrite Ec in Hc. unfold clean in Hc. cbn [fst snd] in Hc.
  pose proof (traced_destroy pools tr k Ht) as Hd. specialize (Ht k).
  rewrite !of_pool_app, of_pool_label, of_pool_destroy in *.
  destruct (decide (length pools = k)) as [<-|Hne].
  - rewrite lookup_ge_None_2 in Ht |- * by lia. by rewrite Ht, app_nil_r.
  - by rewrite app_nil_r.
Qed.

(** The size of the buffers of a pool of a set. *)
Definition pool_size (a : mpool_attr) : Prop :=
  a_buf_size a = 2 ^ Z.log2 (a_buf_size a) /\ Z.log2 (a_buf_size a) <= LOG_MAX_BUF_SIZE.

Lemma set_loop_ok attrs envs map pools tr :
  traced pools tr -> map_ok pools.*1 map -> Forall size_ok attrs ->
  StronglySorted (fun a b => a_buf_size a <= a_buf_size b) (pools.*1 ++ attrs) ->
  exists r tr', set_loop power_of_two create destroy attrs envs map pools tr = Done (r, tr') /\
    match r with
    | None => forall k, live_run nothing (of_pool k tr') = Some nothing
    | Some set => traced (s_mpools set) tr' /\ (s_mpools set).*1 = pools.*1 ++ attrs /\
        map_ok (s_mpools set).*1 (s_pool_map set) /\
        Forall pool_size attrs
    end.
Proof.
  revert map pools tr. induction attrs as [|a attrs IH]; intros map pools tr Ht Hm Hs Hsort; cbn [set_loop].
  { do 2 eexists. split; [reflexivity|]. cbn. rewrite app_nil_r. by split_and!. }
  apply list.Forall_cons in Hs as [Ha Hs].
  destruct (power_of_two (a_buf_size a)) eqn:Ep; cbn [negb].
  2: { do 2 eexists. split; [reflexivity|]. intros k. by apply traced_destroy. }
  destruct (Ha Ep) as [Hpos Hpow]. rewrite log2_floor_ok by done. cbn [mbind res_bind].
  destruct (Z.ltb_spec LOG_MAX_BUF_SIZE (Z.log2 (a_buf_size a))) as [Hbig|Hsmall].
  { do 2 eexists. split; [reflexivity|]. intros k. by apply traced_destroy. }
  destruct (create a (envs (length pools))) as [[n|] ev] eqn:Ec.
  2: { do 2 eexists. split; [reflexivity|]. intros k. by eapply traced_failed. }
  assert (pool_size a) as Hsize by (by split). unfold LOG_MAX_BUF_SIZE in Hsmall.
  pose proof (Z.log2_nonneg (a_buf_size a)).
  destruct (IH (fill_map (Z.to_nat (Z.log2 (a_buf_size a))) (length pools) map) (pools ++ [(a, n)])
    (tr ++ label (length pools) ev)) as (r & tr' & -> & Hr).
  - by eapply traced_add.
  - rewrite fmap_app. cbn. replace (length pools) with (length pools.*1) by apply length_fmap.
    apply fill_map_ok; [done|lia|by rewrite Z2Nat.id by done|].
    intros b Hb. exact (sorted_before _ _ _ _ Hsort b Hb).
  - done.
  - rewrite fmap_app. cbn. by rewrite <- app_assoc.
  - do 2 eexists. split; [reflexivity|]. destruct r as [set|]; [|done]. destruct Hr as (H1 & H2 & H3 & H4).
    rewrite fmap_app in H2. cbn in H2. rewrite <- app_assoc in H2. split_and!; try done. by constructor.
Qed.
End SetFacts.

(** *** Alignment *)

Lemma land_u64 x y : in_width 64 x -> Z.land x (u64 y) = Z.land x y.
Proof.
  intros Hx. unfold u64, uwrap. rewrite <- (Z.land_ones y 64) by lia.
  rewrite (Z.land_comm y), Z.land_assoc, Z.land_ones, Z.mod_small by (lia || exact Hx). done.
Qed.

Lemma align_mask x k : 0 <= k -> in_width 64 x ->
  Z.land x (u64 (Z.lnot (2 ^ k - 1))) = x / 2 ^ k * 2 ^ k.
Proof.
  intros Hk Hx. rewrite land_u64 by done. change (Z.lnot (2 ^ k - 1)) with (Z.lnot (Z.pred (2 ^ k))).
  rewrite <- Z.ones_equiv, <- Z.ldiff_land, Z.ldiff_ones_r by done.
  by rewrite Z.shiftl_mul_pow2, Z.shiftr_div_pow2.
Qed.

Lemma round_up size h : 0 < h -> 0 <= size ->
  size <= (size + h - 1) / h * h < size + h /\ ((size + h - 1) / h * h) mod h = 0.
Proof.
  intros Hh Hs. split; [|apply Z.mod_mul; lia].
  pose proof (Z.div_mod (size + h - 1) h). pose proof (Z.mod_pos_bound (size + h - 1) h). lia.
Qed.

Lemma power_check x : in_width 64 x -> virtiofs_mpool_is_power_of_two x = true -> 0 < x /\ x = 2 ^ Z.log2 x.
Proof.
  intros Hx. unfold virtiofs_mpool_is_power_of_two, in_width in *. destruct (Z.eqb_spec x 0); [done|].
  rewrite u64_small by lia. intros E%Z.eqb_eq. split; [lia|]. apply land_pred_power; [lia|done].
Qed.

Lemma smallest_power entries size sm :
  sm = 0 \/ (0 < sm /\ sm = 2 ^ Z.log2 sm) ->
  let r := smallest_hugepage entries size sm in r = 0 \/ (0 < r /\ r = 2 ^ Z.log2 r).
Proof.
  revert sm. induction entries as [|e entries IH]; intros sm Hsm; cbn [smallest_hugepage]; [done|].
  apply IH. destruct (_ <? hp_size_kb e); [done|].
  destruct (virtiofs_mpool_is_power_of_two (u64 (hp_size_kb e * KB_TO_BYTES))) eqn:Ep; cbn [negb]; [|done].
  destruct (_ <? size); [done|]. destruct (_ || _); [|done]. right. apply power_check; [|done]. apply u64_range.
Qed.

Lemma hugepage_size_power dir size : exists k, 0 <= k /\ virtiofs_mpool_get_hugepage_size dir size = 2 ^ k.
Proof.
  unfold virtiofs_mpool_get_hugepage_size. destruct dir as [entries|]; [|by exists 21].
  destruct (smallest_power entries size 0 (or_introl eq_refl)) as [->|[Hp E]]; [by exists 21|].
  destruct (Z.ltb_spec 0 (smallest_hugepage entries size 0)); [|lia].
  eexists. split; [apply Z.log2_nonneg|exact E].
Qed.

(** The memory of a pool is large enough: in virtiofs the mapped size is the bytes
    of all buffers rounded up to whole huge pages, or the creation fails; in
    vblk_pci_dev the same holds with 2 MB pages as long as the bytes do not come
    within a page of 2^64, where the rounding wraps to 0. *)
Theorem memory_covers attr env n ev :
  (virtiofs_mpool_create attr env = (Some n, ev) ->
    let h := virtiofs_mpool_get_hugepage_size (en_hugepages env) (pool_bytes attr) in
    pool_bytes attr <= n < pool_bytes attr + h /\ n mod h = 0) /\
  (vblk_mpool_create attr env = (Some n, ev) ->
    if pool_bytes attr <=? 2 ^ 64 - HUGE_PAGE_SIZE_2MB
    then pool_bytes attr <= n < pool_bytes attr + HUGE_PAGE_SIZE_2MB /\ n mod HUGE_PAGE_SIZE_2MB = 0
    else n = 0).
Proof.
  pose proof (u64_range (a_num_bufs attr * a_buf_size attr)) as Hb. fold (pool_bytes attr) in Hb. split.
  - unfold virtiofs_mpool_create. destruct (negb (en_calloc env)); [done|].
    unfold virtiofs_mpool_hp_malloc.
    destruct (hugepage_size_power (en_hugepages env) (pool_bytes attr)) as (k & Hk & ->).
    destruct (Z.eqb_spec (virtiofs_mpool_hp_align (pool_bytes attr) (2 ^ k)) 0) as [|Hnz]; [done|].
    destruct (negb (en_mmap_memory env)); [done|].
    destruct (mpool_create_rest _ attr env _) as [[] tr]; [|done]. intros [= <- _].
    assert (0 < 2 ^ k) as Hh by (by apply Z.pow_pos_nonneg).
    unfold virtiofs_mpool_hp_align in *. destruct (Z.ltb_spec (SIZE_MAX - 2 ^ k) (pool_bytes attr)); [done|].
    unfold SIZE_MAX in *. rewrite align_mask by (done || apply u64_range). rewrite u64_small by lia.
    replace (pool_bytes attr + (2 ^ k - 1)) with (pool_bytes attr + 2 ^ k - 1) by lia. apply round_up; lia.
  - unfold vblk_mpool_create, vblk_mpool_hp_malloc. destruct (negb (en_calloc env)); [done|].
    destruct (negb (en_mmap_memory env)); [done|].
    destruct (mpool_create_rest _ attr env _) as [[] tr]; [|done]. intros [= <- _].
    unfold vblk_mpool_hp_align. change HUGE_PAGE_SIZE_2MB with (2 ^ 21). rewrite align_mask by (lia || apply u64_range).
    destruct (Z.leb_spec (pool_bytes attr) (2 ^ 64 - 2 ^ 21)) as [Hle|Hgt].
    + rewrite u64_small by lia. apply round_up; lia.
    + replace (u64 (pool_bytes attr + 2 ^ 21 - 1)) with (pool_bytes attr + 2 ^ 21 - 1 - 2 ^ 64)
        by (apply Z.mod_unique with 1; lia).
      rewrite Z.div_small by lia. lia.
Qed.

(** *** The theorems on sets *)

Definition set_clean (destroy : mpool_set -> list (nat * mp_event))
    (r : option mpool_set) (tr : list (nat * mp_event)) : Prop :=
  match r with
  | None => forall k, live_run nothing (of_pool k tr) = Some nothing
  | Some set => forall k,
      ((k < length (s_mpools set))%nat -> exists s n, live_run nothing (of_pool k tr) = Some s /\ running n s) /\
      live_run nothing (of_pool k (tr ++ destroy set)) = Some nothing
  end.

Section SetTheorems.
Context `{QsortLaws}.
Implicit Types (attrs : list mpool_attr) (envs : nat -> mp_env).

Lemma traced_nil destroy : traced destroy [] [].
Proof. intros k. by rewrite lookup_nil. Qed.
Lemma map_ok_nil : map_ok [] (replicate 32 None).
Proof. split; [done|]. intros j Hj. by rewrite lookup_replicate_2. Qed.

Lemma qsort_strong attrs : StronglySorted (fun a b => a_buf_size a <= a_buf_size b) (qsort attrs).
Proof. apply Sorted_StronglySorted; [intros a b c; lia|apply qsort_sorted]. Qed.

Lemma traced_clean destroy pools tr k :
  traced destroy pools tr ->
  ((k < length pools)%nat -> exists s n, live_run nothing (of_pool k tr) = Some s /\ running n s) /\
  live_run nothing (of_pool k (tr ++ destroy_pools destroy pools)) = Some nothing.
Proof.
  intros Ht. split; [|by apply traced_destroy]. intros [p Hp]%lookup_lt_is_Some. specialize (Ht k).
  rewrite Hp in Ht. destruct Ht as (s & Hs & Hr & _). eauto.
Qed.

Lemma virtiofs_sizes attrs :
  Forall (fun a => in_width 64 (a_buf_size a)) attrs ->
  Forall (size_ok virtiofs_mpool_is_power_of_two) (qsort attrs).
Proof.
  intros Hw. apply list.Forall_forall. intros a Ha. rewrite qsort_perm in Ha.
  rewrite list.Forall_forall in Hw. intros Hp. apply power_check; [by apply Hw|done].
Qed.
Lemma vblk_sizes attrs :
  Forall (fun a => in_width 64 (a_buf_size a) /\ 0 < a_buf_size a) attrs ->
  Forall (size_ok vblk_is_power_of_two) (qsort attrs).
Proof.
  intros Hw. apply list.Forall_forall. intros a Ha. rewrite qsort_perm in Ha.
  rewrite list.Forall_forall in Hw. destruct (Hw a Ha) as [Hx Hp]. unfold in_width in Hx.
  intros E. unfold vblk_is_power_of_two in E. rewrite u64_small in E by lia. apply Z.eqb_eq in E.
  split; [done|]. by apply land_pred_power.
Qed.

(** What a created set is: its pools run, they are those of the attributes in the
    order of their sizes, and the map leads to the first pool that fits. *)
Definition set_ok (destroy : mpool_attr -> Z -> list mp_event) attrs (r : option mpool_set)
    (tr : list (nat * mp_event)) : Prop :=
  match r with
  | None => forall k, live_run nothing (of_pool k tr) = Some nothing
  | Some set => traced destroy (s_mpools set) tr /\ (s_mpools set).*1 = qsort attrs /\
      map_ok (qsort attrs) (s_pool_map set) /\ Forall pool_size (qsort attrs)
  end.

Lemma loop_set_ok power_of_two create destroy attrs envs :
  (forall attr env, clean (destroy attr) (create attr env)) -> Forall (size_ok power_of_two) (qsort attrs) ->
  exists r tr, set_loop power_of_two create destroy (qsort attrs) envs (replicate 32 None) [] [] = Done (r, tr) /\
    set_ok destroy attrs r tr.
Proof.
  intros Hc Hs.
  destruct (set_loop_ok power_of_two create destroy Hc (qsort attrs) envs (replicate 32 None) [] [])
    as (r & tr & E & Hr); [apply traced_nil|apply map_ok_nil|done|apply qsort_strong|].
  exists r, tr. split; [exact E|]. destruct r as [set|]; [|done]. cbn in *. destruct Hr as (H1 & H2 & H3 & H4).
  rewrite H2 in H3. by split_and!.
Qed.

Lemma virtiofs_set_ok attrs mem envs :
  Forall (fun a => in_width 64 (a_buf_size a)) attrs ->
  exists r tr, virtiofs_mpool_set_create attrs mem envs = Done (r, tr) /\
    set_ok (fun _ => virtiofs_mpool_destroy) attrs r tr.
Proof.
  intros Hw. unfold virtiofs_mpool_set_create. case_bool_decide; [by exists None, []|].
  destruct mem; cbn [negb]; [|by exists None, []].
  apply loop_set_ok; [intros; apply virtiofs_create_clean|by apply virtiofs_sizes].
Qed.

Lemma vblk_set_ok attrs mem envs :
  Forall (fun a => in_width 64 (a_buf_size a) /\ 0 < a_buf_size a) attrs ->
  exists r tr, vblk_mpool_set_create attrs mem envs = Done (r, tr) /\
    set_ok (fun attr _ => vblk_mpool_destroy attr) attrs r tr.
Proof.
  intros Hw. unfold vblk_mpool_set_create. case_bool_decide; [by exists None, []|].
  destruct mem; cbn [negb]; [|by exists None, []].
  apply loop_set_ok; [intros; apply vblk_create_clean|by apply vblk_sizes].
Qed.

Lemma set_ok_clean destroy attrs r tr :
  set_ok destroy attrs r tr -> set_clean (fun set => destroy_pools destroy (s_mpools set)) r tr.
Proof. destruct r as [set|]; [|done]. intros (Ht & _) k. by apply traced_clean. Qed.

(** C32: creating a set of pools always returns, and neither leaks nor over-releases in
    any of its pools: if a size is refused or a pool cannot be made, all pools made
    before are destroyed and nothing is held; otherwise all pools are running and
    destroying the set gives everything back. In vblk_pci_dev buffer sizes must not
    be 0. *)
Theorem set_no_leak attrs mem envs :
  Forall (fun a => in_width 64 (a_buf_size a)) attrs ->
  (exists r tr, virtiofs_mpool_set_create attrs mem envs = Done (r, tr) /\
    set_clean virtiofs_mpool_set_destroy r tr) /\
  (Forall (fun a => 0 < a_buf_size a) attrs ->
   exists r tr, vblk_mpool_set_create attrs mem envs = Done (r, tr) /\ set_clean vblk_mpool_set_destroy r tr).
Proof.
  intros Hw. split.
  - destruct (virtiofs_set_ok attrs mem envs Hw) as (r & tr & E & Hr). exists r, tr. split; [done|].
    exact (set_ok_clean _ _ _ _ Hr).
  - intros Hpos. destruct (vblk_set_ok attrs mem envs) as (r & tr & E & Hr);
      [rewrite !list.Forall_forall in *; naive_solver|].
    exists r, tr. split; [done|]. exact (set_ok_clean _ _ _ _ Hr).
Qed.

(** The answer to a request: a pool with buffers that are large enough and no larger
    than those of any other such pool; none only if no pool has such buffers. *)
Definition serves attrs (set : mpool_set) (size : Z) (r : option nat) : Prop :=
  match r with
  | Some i => exists a n, s_mpools set !! i = Some (a, n) /\ size <= a_buf_size a /\
      forall b, b ∈ attrs -> size <= a_buf_size b -> a_buf_size a <= a_buf_size b
  | None => forall b, b ∈ attrs -> a_buf_size b < size
  end.

(** A power of two is at least [size] if and only if it is at least the next power of
    two. *)
Lemma fits_log a size : pool_size a -> 2 <= size ->
  size <= a_buf_size a <-> 2 ^ Z.log2_up size <= a_buf_size a.
Proof.
  intros [Hp _] Hs. destruct (Z.log2_up_spec size) as [_ Hup]; [lia|]. split; [|lia].
  intros Hle. rewrite Hp. apply Z.pow_le_mono_r; [lia|]. rewrite Hp in Hle.
  apply Z.log2_up_le_mono in Hle. by rewrite Z.log2_up_pow2 in Hle by apply Z.log2_nonneg.
Qed.

Lemma set_get_ok destroy attrs set tr size :
  set_ok destroy attrs (Some set) tr -> 2 <= size < 2 ^ 64 ->
  exists r, virtiofs_mpool_set_buf_get set size = Done r /\ serves attrs set size r.
Proof.
  intros (_ & Hp & [_ Hmap] & Hsz) Hs. unfold virtiofs_mpool_set_buf_get. rewrite log2_ceil_ok by done.
  cbn [mbind res_bind]. pose proof (Z.log2_up_nonneg size) as Hn. rewrite list.Forall_forall in Hsz.
  assert (forall b, b ∈ attrs -> b ∈ qsort attrs) as Hin by (intros b Hb; by rewrite qsort_perm).
  destruct (Z.ltb_spec LOG_MAX_BUF_SIZE (Z.log2_up size)) as [Hbig|Hsmall].
  - exists None. split; [done|]. intros b Hb%Hin%Hsz. apply Z.nle_gt. rewrite fits_log by (done || lia).
    destruct Hb as [Hpw Hb]. rewrite Hpw. apply Z.nle_gt, Z.pow_lt_mono_r; lia.
  - unfold LOG_MAX_BUF_SIZE in Hsmall. rewrite Hmap by lia. eexists. split; [reflexivity|].
    pose proof (first_fit_spec (qsort attrs) (Z.to_nat (Z.log2_up size))) as Hf. rewrite Z2Nat.id in Hf by done.
    destruct (first_fit _ _) as [i|].
    + destruct Hf as (a & Ha & Hle & Hlt). rewrite <- Hp, list_lookup_fmap in Ha.
      destruct (s_mpools set !! i) as [[a' n]|] eqn:E; [|done]. injection Ha as <-. exists a', n.
      assert (qsort attrs !! i = Some a') as Ha by (by rewrite <- Hp, list_lookup_fmap, E).
      split; [done|]. split; [apply fits_log; [apply Hsz; by eapply list_elem_of_lookup_2|lia|done]|].
      intros b Hb Hbs. apply Hin in Hb. apply (fits_log b) in Hbs; [|by apply Hsz|lia].
      apply list_elem_of_lookup in Hb as [j Hj]. destruct (decide (j < i)%nat) as [Hj'|Hj'].
      { specialize (Hlt j b Hj Hj'). lia. }
      destruct (decide (i = j)) as [<-|]; [assert (a' = b) as -> by congruence; lia|].
      apply (sorted_lookup _ _ _ _ _ _ (qsort_strong attrs) Ha Hj). lia.
    + intros b Hb%Hin. apply Z.nle_gt. rewrite fits_log by (by apply Hsz || lia). apply Z.nle_gt. by apply Hf.
Qed.

Lemma set_buf_get_same set size : vblk_mpool_set_buf_get set size = virtiofs_mpool_set_buf_get set size.
Proof.
  unfold vblk_mpool_set_buf_get, virtiofs_mpool_set_buf_get. destruct (LOG2_CEIL size); cbn; [|done].
  destruct (_ <? _); [done|]. by destruct (_ !! _) as [[?|]|].
Qed.

(** From a set that was created, every request for at least 2 bytes is answered
    with the pool whose buffers are the smallest that are large enough, and refused
    only if no pool has such buffers. *)
Theorem set_get_smallest attrs mem envs set tr size :
  Forall (fun a => in_width 64 (a_buf_size a) /\ 0 < a_buf_size a) attrs -> 2 <= size < 2 ^ 64 ->
  (virtiofs_mpool_set_create attrs mem envs = Done (Some set, tr) ->
    exists r, virtiofs_mpool_set_buf_get set size = Done r /\ serves attrs set size r) /\
  (vblk_mpool_set_create attrs mem envs = Done (Some set, tr) ->
    exists r, vblk_mpool_set_buf_get set size = Done r /\ serves attrs set size r).
Proof.
  intros Hw Hs. split; intros Hc.
  - destruct (virtiofs_set_ok attrs mem envs) as (r & tr' & E & Hr);
      [by eapply list.Forall_impl; [exact Hw|intros a []]|].
    rewrite E in Hc. injection Hc as -> ->. by eapply set_get_ok.
  - destruct (vblk_set_ok attrs mem envs Hw) as (r & tr' & E & Hr).
    rewrite E in Hc. injection Hc as -> ->. rewrite set_buf_get_same. by eapply set_get_ok.
Qed.
End SetTheorems.

(** ** Examples *)

Definition by_size (a b : mpool_attr) : Prop := a_buf_size a <= a_buf_size b.
#[global] Instance by_size_dec : RelDecision by_size.
Proof. intros a b. unfold by_size. apply _. Defined.
#[global] Instance by_size_total : Total by_size.
Proof. intros a b. unfold by_size. lia. Qed.

#[global] Instance sim_qsort : Qsort := {| qsort := merge_sort by_size |}.
#[global] Instance sim_qsort_laws : QsortLaws.
Proof. split; intros l; [apply merge_sort_Permutation|apply (Sorted_merge_sort by_size l)]. Qed.

(** Everything succeeds, and there are 2 MB pages. *)
Definition sim_env : mp_env :=
  {| en_calloc := true; en_hugepages := Some [{| hp_size_kb := 2048; hp_free := 64 |}];
     en_mmap_memory := true; en_mmap_create := true; en_set_max_num_devices := true; en_set_memrange := true;
     en_set_permissions := true; en_add_dev := fun _ => true; en_mmap_start := true; en_bpool_create := true;
     en_bpool_start := true |}.
Definition sim_attr (size n : Z) : mpool_attr := {| a_buf_size := size; a_num_bufs := n; a_num_devs := 1 |}.
Definition sim_attrs : list mpool_attr := [sim_attr 4096 16; sim_attr 64 1024; sim_attr 1024 64].
Definition sim_set : mpool_set :=
  match virtiofs_mpool_set_create sim_attrs true (fun _ => sim_env) with
  | Done (Some set, _) => set
  | _ => {| s_pool_map := []; s_mpools := [] |}
  end.

Lemma memory_covers_witness :
  exists n ev, virtiofs_mpool_create (sim_attr 4096 1000) sim_env = (Some n, ev) /\ 4096000 <= n /\
    exists n ev, vblk_mpool_create (sim_attr 4096 1000) sim_env = (Some n, ev) /\ 4096000 <= n.
Proof.
  destruct (virtiofs_mpool_create (sim_attr 4096 1000) sim_env) as [r ev] eqn:E.
  destruct (vblk_mpool_create (sim_attr 4096 1000) sim_env) as [r' ev'] eqn:E'.
  pose proof E as V. vm_compute in V. destruct r as [n|]; [|done].
  pose proof E' as V'. vm_compute in V'. destruct r' as [n'|]; [|done].
  exists n, ev. split; [done|]. split; [|exists n', ev'; split; [done|]].
  - exact (proj1 (proj1 (proj1 (memory_covers (sim_attr 4096 1000) sim_env n ev) E))).
  - exact (proj1 (proj1 (proj2 (memory_covers (sim_attr 4096 1000) sim_env n' ev') E'))).
Defined.

Lemma set_no_leak_witness :
  exists r tr, virtiofs_mpool_set_create sim_attrs true (fun _ => sim_env) = Done (r, tr) /\
    r <> None /\ set_clean virtiofs_mpool_set_destroy r tr.
Proof.
  destruct (proj1 (set_no_leak sim_attrs true (fun _ => sim_env)
    ltac:(repeat constructor; unfold in_width; cbn; lia))) as (r & tr & E & Hr).
  exists r, tr. split; [done|]. split; [|done]. vm_compute in E. by intros ->.
Defined.

Lemma set_get_smallest_witness :
  exists r, virtiofs_mpool_set_buf_get sim_set 100 = Done r /\ r = Some 1%nat /\ serves sim_attrs sim_set 100 r.
Proof.
  destruct (virtiofs_mpool_set_create sim_attrs true (fun _ => sim_env)) as [[[set|] tr]|c] eqn:E;
    [|by vm_compute in E..].
  assert (set = sim_set) as -> by (unfold sim_set; by rewrite E).
  destruct (proj1 (set_get_smallest sim_attrs true (fun _ => sim_env) sim_set tr 100
    ltac:(repeat constructor; unfold in_width; cbn; lia) ltac:(lia)) E) as (r & Hr & Hs).
  exists r. split; [done|]. split; [|done]. vm_compute in Hr. congruence.
Defined.

(** A request for one byte is not defined: its logarithm counts the leading zeros
    of 0. So is, in vblk_pci_dev, a pool with buffers of 0 bytes, which its test
    accepts as a power of two; virtiofs refuses it. *)
Theorem log_of_zero set attr mem envs :
  a_buf_size attr = 0 ->
  virtiofs_mpool_set_buf_get set 1 = Crash Undefined /\ vblk_mpool_set_buf_get set 1 = Crash Undefined /\
  vblk_mpool_set_create [attr] true envs = Crash Undefined /\
  virtiofs_mpool_set_create [attr] mem envs = Done (None, []).
Proof.
  intros Ha. split_and!; try done.
  - unfold vblk_mpool_set_create. cbn. unfold vblk_is_power_of_two. by rewrite Ha.
  - unfold virtiofs_mpool_set_create. destruct mem; cbn; [|done]. unfold virtiofs_mpool_is_power_of_two. by rewrite Ha.
Qed.

Lemma log_of_zero_witness :
  vblk_mpool_set_create [sim_attr 0 1] true (fun _ => sim_env) = Crash Undefined.
Proof. apply (log_of_zero sim_set (sim_attr 0 1) true (fun _ => sim_env)). reflexivity. Defined.
