(* ===== verification/TlpCfg.v ===== *)
(** * TlpCfg: the PCI configuration space of the TLP handler sample,
      src/samples/doca_devemu/devemu_pci_device_tlp_handler/dpu/
      devemu_pci_device_tlp_handler_dpu_sample.c

    The sample emulates a PCI device in software: a physical function and up to
    seven virtual ones, each with a configuration space of 1024 double words. A
    union of a double word and its fields is held as the fields where the code
    writes single fields, else as the double word. The functions that work on
    [resources->cur_func] take and return that function.

    [config_write_spec] gives one formula for every register write, in terms of
    the bits of the register that are writable or cleared by writing 1, in place
    of the code's branches per bit, and says that no other register changes;
    [caps_walk] says that the capability lists a host walks are complete. *)

From S2P Require Import Prelude.

(** ** Constants *)

Definition TLP_PCI_TYPE_DEVICE_ID : Z := 0x10f0.
Definition TLP_PCI_TYPE_VENDOR_ID : Z := 0x1af4.
Definition TLP_PCI_TYPE_SUBSYSTEM_ID : Z := 0x10f0.
Definition TLP_PCI_TYPE_SUBSYSTEM_VENDOR_ID : Z := 0x1af4.
Definition TLP_PCI_TYPE_REVISION_ID : Z := 0.
Definition TLP_PCI_TYPE_CLASS_CODE : Z := 0x020000.
Definition VF_PCI_TYPE_DEVICE_ID : Z := 0x10f1.

Definition TLP_FMT_CPL_NODATA : Z := 0x00.
Definition TLP_FMT_CPL_W_DATA : Z := 0x02.
Definition TLP_CPL_LENGTH_SINGLE_DWORD : Z := 0x01.
Definition TLP_CPL_LENGTH_ZERO : Z := 0x00.
Definition TLP_CPL_STATUS_SC : Z := 0x00.
Definition TLP_CPL_STATUS_UR : Z := 0x01.
Definition TLP_TYPE_COMPLETION : Z := 0x0A.

Definition BAR_ENCODING_MEM_SPACE : Z := 0.
Definition BAR_MEM_TYPE_64_BIT : Z := 4.
Definition BAR_MEM_PREFETCHABLE : Z := 8.

Definition COMMAND_RW_MEM_SPACE_ENABLE : Z := 0x0002.
Definition COMMAND_RW_BUS_MASTER_ENABLE : Z := 0x0004.
Definition COMMAND_RW_PERR_ENABLE : Z := 0x0040.
Definition COMMAND_RW_SERR_ENABLE : Z := 0x0100.
Definition COMMAND_RW_INT_DISABLE : Z := 0x0400.
Definition STATUS_WR1C_MASTER_DATA_PERR : Z := 0x0100.
Definition STATUS_WR1C_SIGNALED_TA : Z := 0x0800.
Definition STATUS_WR1C_RECEIVE_TA : Z := 0x1000.
Definition STATUS_WR1C_RECEIVE_MA : Z := 0x2000.
Definition STATUS_WR1C_SIGNALED_SERR : Z := 0x4000.
Definition STATUS_WR1C_DETECTED_PERR : Z := 0x8000.

Definition TLP_PCI_CAP_ID_PM : Z := 0x01.
Definition TLP_PCI_CAP_ID_VPD : Z := 0x03.
Definition TLP_PCI_CAP_ID_EXPRESS : Z := 0x10.
Definition TLP_PCI_CAP_ID_MSIX : Z := 0x11.
Definition TLP_PCI_CAP_OFFSET_PM : Z := 0x40.
Definition TLP_PCI_CAP_OFFSET_VPD : Z := 0x48.
Definition TLP_PCI_CAP_OFFSET_EXPRESS : Z := 0x60.
Definition TLP_PCI_CAP_OFFSET_MSIX : Z := 0x9c.
Definition TLP_PCI_CAP_NEXT_OF_EXPRESS : Z := TLP_PCI_CAP_OFFSET_VPD.
Definition TLP_PCI_CAP_NEXT_OF_VPD : Z := TLP_PCI_CAP_OFFSET_MSIX.
Definition TLP_PCI_CAP_NEXT_OF_MSIX : Z := TLP_PCI_CAP_OFFSET_PM.
Definition TLP_PCI_CAP_NEXT_OF_PM : Z := 0x00.

Definition TLP_PCIE_CAP_ID_AER : Z := 0x01.
Definition TLP_PCIE_CAP_OFFSET_AER : Z := 0x100.
Definition TLP_PCIE_CAP_NEXT_CAP_AER : Z := 0x00.
Definition AER_CAP_VERSION : Z := 0x01.
Definition TLP_PCIE_CAP_ID_SRIOV : Z := 0x0010.
Definition TLP_PCIE_CAP_OFFSET_SRIOV : Z := 0x148.
Definition TLP_PCIE_CAP_NEXT_CAP_SRIOV : Z := 0x00.
Definition SRIOV_CAP_VERSION : Z := 0x01.
Definition SRIOV_CTRL_VF_ENABLE : Z := 0x0001.
Definition SRIOV_CTRL_VF_MSE : Z := 0x0008.
Definition SRIOV_FIRST_VF_OFFSET : Z := 1.
Definition SRIOV_VF_STRIDE : Z := 1.
Definition SRIOV_SUPPORTED_PAGE_SIZES : Z := 0x00000001.
Definition TLP_MAX_TOTAL_VFS : Z := 7.

Definition BYTES_IN_DWORD : Z := 4.
Definition TLP_CAP_PM_REG_NUM : Z := TLP_PCI_CAP_OFFSET_PM / BYTES_IN_DWORD.
Definition TLP_CAP_VPD_REG_NUM : Z := TLP_PCI_CAP_OFFSET_VPD / BYTES_IN_DWORD.
Definition TLP_CAP_EXPRESS_REG_NUM : Z := TLP_PCI_CAP_OFFSET_EXPRESS / BYTES_IN_DWORD.
Definition TLP_CAP_MSIX_REG_NUM : Z := TLP_PCI_CAP_OFFSET_MSIX / BYTES_IN_DWORD.
Definition TLP_CAP_AER_REG_NUM : Z := TLP_PCIE_CAP_OFFSET_AER / BYTES_IN_DWORD.
Definition TLP_CAP_SRIOV_REG_NUM : Z := TLP_PCIE_CAP_OFFSET_SRIOV / BYTES_IN_DWORD.
Definition TLP_CAP_PM_LEN_DW : Z := 2.
Definition TLP_CAP_VPD_LEN_DW : Z := 2.
Definition TLP_CAP_MSIX_LEN_DW : Z := 3.
Definition TLP_CAP_EXPRESS_LEN_DW : Z := 15.
Definition TLP_CAP_AER_LEN_DW : Z := 18.
Definition TLP_CAP_SRIOV_LEN_DW : Z := 16.
Definition TLP_CAP_PM_STATE : Z := 0x0003.
Definition TLP_CAP_PM_PME_EN : Z := 0x0100.
Definition TLP_CAP_PM_DATA_SEL : Z := 0x1e00.
Definition TLP_CAP_PM_PME_STATUS : Z := 0x8000.

Definition EXP_BAR_ADDR_MASK : Z := 0xFFFFF800.
Definition EXP_BAR_ENABLED_BIT_SET : Z := 0x00000001.
Definition DWORD_LOG_SIZE_BITS : Z := 3.

(** [layout_configs[0].log_size], [msix_table_configs[0]] and [msix_pba_configs[0]] *)
Definition layout_log_size : Z := 0xe.
Definition msix_table_bar_id : Z := 0.
Definition msix_table_start_address : Z := 0x1000.
Definition msix_pba_bar_id : Z := 0.
Definition msix_pba_start_address : Z := 0x2000.

(** ** Data *)

(** The fields of a double word: two of 16 bits, four of 8 bits. *)
Definition w16 (lo hi : Z) : Z := Z.lor lo (Z.shiftl hi 16).
Definition w8 (b0 b1 b2 b3 : Z) : Z := w16 (Z.lor b0 (Z.shiftl b1 8)) (Z.lor b2 (Z.shiftl b3 8)).
Definition lo16 (x : Z) : Z := Z.land x 0xFFFF.
Definition hi16 (x : Z) : Z := Z.land (Z.shiftr x 16) 0xFFFF.

Record pci_config_space_header := {
  h_reg0 : Z;
  h_command : Z; h_status : Z;
  h_reg2 : Z;
  h_cache_line_size : Z; h_latency_timer : Z; h_header_type : Z; h_bist : Z;
  h_bar : list Z;
  h_cardbus_cis_pointer : Z;
  h_regB : Z;
  h_expansion_rom_base_address : Z;
  h_regD : Z;
  h_reserved : Z;
  h_regF : Z;
}.

Record pci_config_space_cap_express := {
  x_reg0 : Z; x_cap_register : Z; x_reg2 : Z; x_link_cap : Z; x_reg4 : Z; x_slot_cap : Z;
  x_reg6 : Z; x_reg7 : Z; x_root_status : Z; x_dev_cap2 : Z; x_regA : Z; x_link_cap2 : Z;
  x_regC : Z; x_slot_cap2 : Z; x_regE : Z;
}.
Record pci_config_space_cap_msix := { mx_reg0 : Z; mx_reg1 : Z; mx_reg2 : Z }.
Record pci_config_space_cap_vpd := { vpd_reg0 : Z; vpd_msg_addr : Z }.
Record pci_config_space_cap_pm := { pm_reg0 : Z; pm_pmcsr : Z; pm_reserved : Z; pm_data : Z }.
Record pci_config_space_ext_cap_aer := { aer_reg0 : Z; aer_regs : list Z }.
Record pci_config_space_ext_cap_sriov := {
  sr_reg0 : Z;
  sr_cap_register : Z;
  sr_control : Z; sr_status : Z;
  sr_reg3 : Z;
  sr_num_vfs : Z; sr_fcn_dep_link : Z; sr_reserved : Z;
  sr_reg5 : Z;
  sr_reg6 : Z;
  sr_supported_page_sizes : Z;
  sr_system_page_size : Z;
  sr_vf_bar : list Z;
}.
Record pci_config_space_caps := {
  pm_cap : pci_config_space_cap_pm;
  vpd_cap : pci_config_space_cap_vpd;
  msix_cap : pci_config_space_cap_msix;
  express_cap : pci_config_space_cap_express;
}.
Record pci_config_space_ext_caps := {
  aer_ext_cap : pci_config_space_ext_cap_aer;
  sriov_ext_cap : pci_config_space_ext_cap_sriov;
}.
Record pci_config_space := {
  header : pci_config_space_header;
  caps : pci_config_space_caps;
  ext_caps : pci_config_space_ext_caps;
}.

(** Memory regions are the bytes they hold, [None] for a null pointer. *)
Record tlp_handler_cxt := {
  cx_bus : Z; cx_device : Z; cx_function : Z; cx_bdf : Z;
  cx_requester_id : Z; cx_completer_id : Z;
  cx_req_fmt : Z; cx_req_type : Z;
  cx_cmpl_fmt : Z; cx_cmpl_type : Z; cx_cmpl_length : Z; cx_cmpl_status : Z;
  cx_tag9 : Z; cx_tag8 : Z; cx_tag : Z;
  cx_cfg_space_section : Z; cx_capability_offset : Z; cx_capability_id : Z; cx_first_dw_be : Z;
  cx_bar_region_size : Z; cx_exp_bar_size : Z;
  cx_transaction_region_memory : option (list Z);
  cx_transaction_region_size : Z;
  cx_exp_bar_memory : option (list Z);
}.

Inductive doca_pci_func_type := DOCA_PCI_FUNC_TYPE_PF | DOCA_PCI_FUNC_TYPE_VF.
#[global] Instance func_type_eq_dec : EqDecision doca_pci_func_type.
Proof. solve_decision. Defined.

Record devemu_pci_func := {
  func_type : doca_pci_func_type;
  vf_index : Z;
  pci_config_space_of : pci_config_space;
  cxt : tlp_handler_cxt;
}.

(** *** Updates of parts of a function *)

Definition set_header (f : devemu_pci_func) (h : pci_config_space_header) : devemu_pci_func :=
  let s := pci_config_space_of f in {| f with pci_config_space_of := {| s with header := h |} |}.
Definition set_pm (f : devemu_pci_func) (p : pci_config_space_cap_pm) : devemu_pci_func :=
  let s := pci_config_space_of f in let c := caps s in
  {| f with pci_config_space_of := {| s with caps := {| c with pm_cap := p |} |} |}.
Definition set_sriov (f : devemu_pci_func) (v : pci_config_space_ext_cap_sriov) : devemu_pci_func :=
  let s := pci_config_space_of f in let c := ext_caps s in
  {| f with pci_config_space_of := {| s with ext_caps := {| c with sriov_ext_cap := v |} |} |}.
Definition hdr (f : devemu_pci_func) := header (pci_config_space_of f).
Definition sriov (f : devemu_pci_func) := sriov_ext_cap (ext_caps (pci_config_space_of f)).

(** The completion fields of the context. *)
Definition set_cmpl (f : devemu_pci_func) (fmt length status : Z) : devemu_pci_func :=
  let c := cxt f in
  {| f with cxt := {| c with cx_cmpl_fmt := fmt; cx_cmpl_length := length; cx_cmpl_status := status |} |}.

(** [case lo ... hi] *)
Definition in_case (lo hi x : Z) : bool := (lo <=? x) && (x <=? hi).

(** ** Reading *)

Section Reads.
Implicit Types (f : devemu_pci_func) (reg_num : Z).

Definition config_space_ext_cap_aer_read reg_num f : Z :=
  let cap_offset := u32 (reg_num - TLP_CAP_AER_REG_NUM) in
  if cap_offset =? 0 then aer_reg0 (aer_ext_cap (ext_caps (pci_config_space_of f))) else 0.

Definition config_space_ext_cap_sriov_read reg_num f : res Z :=
  let s := sriov f in
  let cap_offset := u32 (reg_num - TLP_CAP_SRIOV_REG_NUM) in
  if (9 <=? cap_offset) && (cap_offset <? 9 + 6) then
    match sr_vf_bar s !! Z.to_nat (cap_offset - 9) with Some x => Done x | None => Crash OutOfBounds end
  else Done
    (if cap_offset =? 0 then sr_reg0 s
     else if cap_offset =? 1 then sr_cap_register s
     else if cap_offset =? 2 then w16 (sr_control s) (sr_status s)
     else if cap_offset =? 3 then sr_reg3 s
     else if cap_offset =? 4 then w16 (sr_num_vfs s) (Z.lor (sr_fcn_dep_link s) (Z.shiftl (sr_reserved s) 8))
     else if cap_offset =? 5 then sr_reg5 s
     else if cap_offset =? 6 then sr_reg6 s
     else if cap_offset =? 7 then sr_supported_page_sizes s
     else if cap_offset =? 8 then sr_system_page_size s
     else 0).

Definition config_space_cap_pm_read reg_num f : Z :=
  let p := pm_cap (caps (pci_config_space_of f)) in
  let cap_offset := u32 (reg_num - TLP_CAP_PM_REG_NUM) in
  if cap_offset =? 0 then pm_reg0 p
  else if cap_offset =? 1 then w16 (pm_pmcsr p) (Z.lor (pm_reserved p) (Z.shiftl (pm_data p) 8))
  else 0.

Definition config_space_cap_msix_read reg_num f : Z :=
  let x := msix_cap (caps (pci_config_space_of f)) in
  let cap_offset := u32 (reg_num - TLP_CAP_MSIX_REG_NUM) in
  if cap_offset =? 0 then mx_reg0 x
  else if cap_offset =? 1 then mx_reg1 x
  else if cap_offset =? 2 then mx_reg2 x
  else 0.

Definition config_space_cap_vpd_read reg_num f : Z :=
  let v := vpd_cap (caps (pci_config_space_of f)) in
  let cap_offset := u32 (reg_num - TLP_CAP_VPD_REG_NUM) in
  if cap_offset =? 0 then vpd_reg0 v else if cap_offset =? 1 then vpd_msg_addr v else 0.

Definition config_space_cap_pcie_read reg_num f : Z :=
  let x := express_cap (caps (pci_config_space_of f)) in
  let cap_offset := u32 (reg_num - TLP_CAP_EXPRESS_REG_NUM) in
  if cap_offset =? 0 then x_reg0 x
  else if cap_offset =? 1 then x_cap_register x
  else if cap_offset =? 2 then x_reg2 x
  else if cap_offset =? 3 then x_link_cap x
  else if cap_offset =? 4 then x_reg4 x
  else if cap_offset =? 5 then x_slot_cap x
  else if cap_offset =? 6 then x_reg6 x
  else if cap_offset =? 7 then x_reg7 x
  else if cap_offset =? 8 then x_root_status x
  else if cap_offset =? 9 then x_dev_cap2 x
  else if cap_offset =? 10 then x_regA x
  else if cap_offset =? 11 then x_link_cap2 x
  else if cap_offset =? 12 then x_regC x
  else if cap_offset =? 13 then x_slot_cap2 x
  else if cap_offset =? 14 then x_regE x
  else 0.

Definition config_space_header_read_reg0 f : Z := h_reg0 (hdr f).
Definition config_space_header_read_reg1 f : Z := w16 (h_command (hdr f)) (h_status (hdr f)).
Definition config_space_header_read_reg2 f : Z := h_reg2 (hdr f).
Definition config_space_header_read_reg3 f : Z :=
  w8 (h_cache_line_size (hdr f)) (h_latency_timer (hdr f)) (h_header_type (hdr f)) (h_bist (hdr f)).
Definition config_space_header_read_bar reg_num f : res Z :=
  let bar_id := u32 (reg_num - 4) in
  match h_bar (hdr f) !! Z.to_nat bar_id with Some x => Done x | None => Crash OutOfBounds end.
Definition config_space_header_read_reg11 f : Z := h_regB (hdr f).
Definition config_space_header_read_reg12 f : Z := h_expansion_rom_base_address (hdr f).
Definition config_space_header_read_reg13 f : Z := h_regD (hdr f).
Definition config_space_header_read_reg15 : Z := 0.

Definition handle_config_space_header_read reg_num f : res (devemu_pci_func * Z) :=
  data ←
    (if reg_num =? 0x0 then Done (config_space_header_read_reg0 f)
     else if reg_num =? 0x1 then Done (config_space_header_read_reg1 f)
     else if reg_num =? 0x2 then Done (config_space_header_read_reg2 f)
     else if reg_num =? 0x3 then Done (config_space_header_read_reg3 f)
     else if in_case 0x4 0x9 reg_num then config_space_header_read_bar reg_num f
     else if reg_num =? 0xa then Done 0
     else if reg_num =? 0xb then Done (config_space_header_read_reg11 f)
     else if reg_num =? 0xc then Done (config_space_header_read_reg12 f)
     else if reg_num =? 0xd then Done (config_space_header_read_reg13 f)
     else if reg_num =? 0xe then Done 0
     else if reg_num =? 0xf then Done config_space_header_read_reg15
     else Done 0);
  Done (set_cmpl f TLP_FMT_CPL_W_DATA TLP_CPL_LENGTH_SINGLE_DWORD TLP_CPL_STATUS_SC, data).

(** The capability id the read reports is returned as well. *)
Definition handle_config_space_caps_read reg_num f (cap_id : Z) : devemu_pci_func * Z * Z :=
  let '(data, cap_id) :=
    if in_case TLP_CAP_EXPRESS_REG_NUM (TLP_CAP_EXPRESS_REG_NUM + TLP_CAP_EXPRESS_LEN_DW - 1) reg_num
    then (config_space_cap_pcie_read reg_num f, TLP_PCI_CAP_ID_EXPRESS)
    else if in_case TLP_CAP_VPD_REG_NUM (TLP_CAP_VPD_REG_NUM + TLP_CAP_VPD_LEN_DW - 1) reg_num
    then (config_space_cap_vpd_read reg_num f, TLP_PCI_CAP_ID_VPD)
    else if in_case TLP_CAP_MSIX_REG_NUM (TLP_CAP_MSIX_REG_NUM + TLP_CAP_MSIX_LEN_DW - 1) reg_num
    then (config_space_cap_msix_read reg_num f, TLP_PCI_CAP_ID_MSIX)
    else if in_case TLP_CAP_PM_REG_NUM (TLP_CAP_PM_REG_NUM + TLP_CAP_PM_LEN_DW - 1) reg_num
    then (config_space_cap_pm_read reg_num f, TLP_PCI_CAP_ID_PM)
    else (0, cap_id) in
  (set_cmpl f TLP_FMT_CPL_W_DATA TLP_CPL_LENGTH_SINGLE_DWORD TLP_CPL_STATUS_SC, data, cap_id).

Definition handle_config_space_ext_caps_read reg_num f (cap_id : Z) : res (devemu_pci_func * Z * Z) :=
  '(data, cap_id) ←
    (if in_case TLP_CAP_AER_REG_NUM (TLP_CAP_AER_REG_NUM + TLP_CAP_AER_LEN_DW - 1) reg_num
     then Done (config_space_ext_cap_aer_read reg_num f, TLP_PCIE_CAP_ID_AER)
     else if in_case TLP_CAP_SRIOV_REG_NUM (TLP_CAP_SRIOV_REG_NUM + TLP_CAP_SRIOV_LEN_DW - 1) reg_num
     then match func_type f with
          | DOCA_PCI_FUNC_TYPE_PF =>
            data ← config_space_ext_cap_sriov_read reg_num f; Done (data, TLP_PCIE_CAP_ID_SRIOV)
          | DOCA_PCI_FUNC_TYPE_VF => Done (0, cap_id)
          end
     else Done (0, cap_id));
  Done (set_cmpl f TLP_FMT_CPL_W_DATA TLP_CPL_LENGTH_SINGLE_DWORD TLP_CPL_STATUS_SC, data, cap_id).
End Reads.

(** ** Writing *)

(** The statement the code repeats for every bit (or field within one byte) that can
    be written: if the mask selects it, it is set or cleared as in the data. *)
Definition rw_bit (bit mask data x : Z) : Z :=
  if negb (Z.land mask bit =? 0) then
    if negb (Z.land data bit =? 0) then Z.lor x bit else Z.land x (Z.lnot bit)
  else x.
(** The same for bits that are cleared by writing 1. *)
Definition w1c_bit (bit mask data x : Z) : Z :=
  if negb (Z.land mask bit =? 0) then
    if negb (Z.land data bit =? 0) then Z.land x (Z.lnot bit) else x
  else x.
(** And for a field of more bits. *)
Definition rw_field (field mask data x : Z) : Z :=
  if negb (Z.land mask field =? 0) then
    if negb (Z.land data field =? 0) then Z.lor (Z.land x (Z.lnot field)) (Z.land data field)
    else Z.land x (Z.lnot field)
  else x.

(** The value of a base address register that is sized: a low or a high half. *)
Definition bar_sized (region_size : Z) (high : bool) : Z :=
  if high then Z.land (Z.shiftr (u64 (Z.lnot (region_size - 1))) 32) 0xFFFFFFFF
  else Z.land (u64 (Z.lnot (region_size - 1))) 0xFFFFFFFF.
Definition bar_flags (x : Z) : Z :=
  Z.lor (Z.land x 0xFFFFFFF0) (Z.lor BAR_ENCODING_MEM_SPACE (Z.lor BAR_MEM_TYPE_64_BIT BAR_MEM_PREFETCHABLE)).

Section Writes.
Implicit Types (f : devemu_pci_func) (reg_num data_in be_mask : Z).

Definition config_space_cap_pm_write reg_num data_in be_mask f : devemu_pci_func :=
  let p := pm_cap (caps (pci_config_space_of f)) in
  let cap_offset := u32 (reg_num - TLP_CAP_PM_REG_NUM) in
  if negb (cap_offset =? 1) then f
  else
    let data := lo16 data_in in
    let mask := lo16 be_mask in
    let pmcsr := pm_pmcsr p in
    let pmcsr := rw_field TLP_CAP_PM_STATE mask data pmcsr in
    let pmcsr := rw_bit TLP_CAP_PM_PME_EN mask data pmcsr in
    let pmcsr := rw_field TLP_CAP_PM_DATA_SEL mask data pmcsr in
    let pmcsr := rw_bit TLP_CAP_PM_PME_STATUS mask data pmcsr in
    let f := set_pm f {| p with pm_pmcsr := pmcsr |} in
    let c := cxt f in
    {| f with cxt := {| c with cx_capability_offset := cap_offset; cx_capability_id := TLP_PCI_CAP_ID_PM |} |}.

Definition config_space_header_write_reg1 data_in be_mask f : devemu_pci_func :=
  let h := hdr f in
  let data := lo16 data_in in
  let mask := lo16 be_mask in
  let command := h_command h in
  let command := rw_bit COMMAND_RW_MEM_SPACE_ENABLE mask data command in
  let command := rw_bit COMMAND_RW_BUS_MASTER_ENABLE mask data command in
  let command := rw_bit COMMAND_RW_PERR_ENABLE mask data command in
  let command := rw_bit COMMAND_RW_SERR_ENABLE mask data command in
  let command := rw_bit COMMAND_RW_INT_DISABLE mask data command in
  let data := hi16 data_in in
  let mask := hi16 be_mask in
  let status := h_status h in
  let status := w1c_bit STATUS_WR1C_MASTER_DATA_PERR mask data status in
  let status := w1c_bit STATUS_WR1C_SIGNALED_TA mask data status in
  let status := w1c_bit STATUS_WR1C_RECEIVE_TA mask data status in
  let status := w1c_bit STATUS_WR1C_RECEIVE_MA mask data status in
  let status := w1c_bit STATUS_WR1C_SIGNALED_SERR mask data status in
  let status := w1c_bit STATUS_WR1C_DETECTED_PERR mask data status in
  set_header f {| h with h_command := command; h_status := status |}.

Definition config_space_header_write_reg3 data_in be_mask f : devemu_pci_func :=
  let h := hdr f in
  if negb (u8 be_mask =? 0) then set_header f {| h with h_cache_line_size := Z.land (u8 data_in) (u8 be_mask) |}
  else f.

Definition config_space_header_write_bar reg_num data_in be_mask f : devemu_pci_func :=
  let h := hdr f in
  let region_size := cx_bar_region_size (cxt f) in
  let bar_id := u32 (reg_num - 4) in
  match func_type f with
  | DOCA_PCI_FUNC_TYPE_VF => f
  | DOCA_PCI_FUNC_TYPE_PF =>
    if 1 <? bar_id then f
    else
      let x := if Z.land data_in be_mask =? 0xFFFFFFFF then bar_sized region_size (Z.odd reg_num)
               else Z.land data_in be_mask in
      let x := if bar_id =? 0 then bar_flags x else x in
      set_header f {| h with h_bar := <[Z.to_nat bar_id := x]> (h_bar h) |}
  end.

Definition config_space_header_write_reg12 data_in be_mask f : devemu_pci_func :=
  let h := hdr f in
  let exp_bar_size := cx_exp_bar_size (cxt f) in
  let x := if Z.land (Z.land data_in be_mask) EXP_BAR_ADDR_MASK =? EXP_BAR_ADDR_MASK
           then u32 (Z.lnot (exp_bar_size - 1)) else Z.land data_in be_mask in
  set_header f {| h with h_expansion_rom_base_address := Z.lor (Z.land x EXP_BAR_ADDR_MASK) EXP_BAR_ENABLED_BIT_SET |}.

Definition config_space_header_write_reg15 f : devemu_pci_func := f.

Definition handle_config_space_header_write reg_num data_in be_mask f : devemu_pci_func :=
  let f :=
    if reg_num =? 0x1 then config_space_header_write_reg1 data_in be_mask f
    else if reg_num =? 0x3 then config_space_header_write_reg3 data_in be_mask f
    else if in_case 0x4 0x9 reg_num then config_space_header_write_bar reg_num data_in be_mask f
    else if reg_num =? 0xC then config_space_header_write_reg12 data_in be_mask f
    else if reg_num =? 0xF then config_space_header_write_reg15 f
    else f in
  set_cmpl f TLP_FMT_CPL_NODATA TLP_CPL_LENGTH_ZERO TLP_CPL_STATUS_SC.

Definition handle_config_space_caps_write reg_num data_in be_mask f (cap_id : Z) : devemu_pci_func * Z :=
  let '(f, cap_id) :=
    if in_case TLP_CAP_PM_REG_NUM (TLP_CAP_PM_REG_NUM + TLP_CAP_PM_LEN_DW - 1) reg_num
    then (config_space_cap_pm_write reg_num data_in be_mask f, TLP_PCI_CAP_ID_PM) else (f, cap_id) in
  (set_cmpl f TLP_FMT_CPL_NODATA TLP_CPL_LENGTH_ZERO TLP_CPL_STATUS_SC, cap_id).

Definition config_space_ext_cap_sriov_write reg_num data_in be_mask f : devemu_pci_func :=
  let s := sriov f in
  let cap_offset := u32 (reg_num - TLP_CAP_SRIOV_REG_NUM) in
  if cap_offset =? 2 then
    let ctrl_mask := u16 (Z.land be_mask (Z.lor SRIOV_CTRL_VF_ENABLE SRIOV_CTRL_VF_MSE)) in
    set_sriov f {| s with sr_control := u16 (Z.lor (Z.land (sr_control s) (Z.lnot ctrl_mask))
                                                   (Z.land (u16 data_in) ctrl_mask)) |}
  else if cap_offset =? 4 then
    if Z.land (sr_control s) SRIOV_CTRL_VF_ENABLE =? 0 then
      set_sriov f {| s with sr_num_vfs := u16 (Z.lor (Z.land (sr_num_vfs s) (u32 (Z.lnot be_mask)))
                                                     (Z.land (u16 data_in) be_mask)) |}
    else f
  else if cap_offset =? 8 then
    set_sriov f {| s with sr_system_page_size := Z.lor (Z.land (sr_system_page_size s) (u32 (Z.lnot be_mask)))
                                                       (Z.land data_in be_mask) |}
  else if in_case 9 14 cap_offset then
    let bar_id := cap_offset - 9 in
    let vf_bar_size := u64 (Z.shiftl 1 layout_log_size) in
    if 1 <? bar_id then f
    else
      let x := if Z.land data_in be_mask =? 0xFFFFFFFF then bar_sized vf_bar_size (bar_id =? 1)
               else Z.land data_in be_mask in
      let x := if bar_id =? 0 then bar_flags x else x in
      set_sriov f {| s with sr_vf_bar := <[Z.to_nat bar_id := x]> (sr_vf_bar s) |}
  else f.

Definition handle_config_space_ext_caps_write reg_num data_in be_mask f (cap_id : Z) : devemu_pci_func * Z :=
  let '(f, cap_id) :=
    if bool_decide (func_type f = DOCA_PCI_FUNC_TYPE_PF) && (TLP_CAP_SRIOV_REG_NUM <=? reg_num)
       && (reg_num <? TLP_CAP_SRIOV_REG_NUM + TLP_CAP_SRIOV_LEN_DW)
    then (config_space_ext_cap_sriov_write reg_num data_in be_mask f, TLP_PCIE_CAP_ID_SRIOV) else (f, cap_id) in
  (set_cmpl f TLP_FMT_CPL_NODATA TLP_CPL_LENGTH_ZERO TLP_CPL_STATUS_SC, cap_id).
End Writes.

Definition map_first_dw_be_to_mask (first_dw_be : Z) : res Z :=
  match [0x00000000; 0x000000FF; 0x0000FF00; 0x0000FFFF; 0x00FF0000; 0x00FF00FF; 0x00FFFF00; 0x00FFFFFF;
         0xFF000000; 0xFF0000FF; 0xFF00FF00; 0xFF00FFFF; 0xFFFF0000; 0xFFFF00FF; 0xFFFFFF00; 0xFFFFFFFF]
        !! Z.to_nat first_dw_be with
  | Some mask => Done mask
  | None => Crash OutOfBounds
  end.

(** ** Initial values *)

(** All structures are part of one that is zero at its declaration. *)
Definition sriov_zero : pci_config_space_ext_cap_sriov :=
  {| sr_reg0 := 0; sr_cap_register := 0; sr_control := 0; sr_status := 0; sr_reg3 := 0; sr_num_vfs := 0;
     sr_fcn_dep_link := 0; sr_reserved := 0; sr_reg5 := 0; sr_reg6 := 0; sr_supported_page_sizes := 0;
     sr_system_page_size := 0; sr_vf_bar := replicate 6 0 |}.

Definition init_pci_config_space_caps : pci_config_space_caps :=
  {| express_cap :=
       {| x_reg0 := w8 TLP_PCI_CAP_ID_EXPRESS TLP_PCI_CAP_NEXT_OF_EXPRESS 0x02 0x00;
          x_cap_register := 0x112c8fe2;
          x_reg2 := w16 0x2950 0x0000;
          x_link_cap := 0;
          x_reg4 := w16 0x0000 0x1104;
          x_slot_cap := 0;
          x_reg6 := w16 0 0; x_reg7 := w16 0 0; x_root_status := 0;
          x_dev_cap2 := 0x00030397;
          x_regA := w16 0 0;
          x_link_cap2 := 0x0180003e;
          x_regC := w16 0 0; x_slot_cap2 := 0; x_regE := w16 0 0 |};
     vpd_cap :=
       {| vpd_reg0 := w16 (Z.lor TLP_PCI_CAP_ID_VPD (Z.shiftl TLP_PCI_CAP_NEXT_OF_VPD 8)) 0x8000;
          vpd_msg_addr := 0x00000078 |};
     msix_cap :=
       {| mx_reg0 := w16 (Z.lor TLP_PCI_CAP_ID_MSIX (Z.shiftl TLP_PCI_CAP_NEXT_OF_MSIX 8)) 0x0000;
          mx_reg1 := Z.lor msix_table_bar_id (Z.shiftl (Z.shiftr msix_table_start_address DWORD_LOG_SIZE_BITS) 3);
          mx_reg2 := Z.lor msix_pba_bar_id (Z.shiftl (Z.shiftr msix_pba_start_address DWORD_LOG_SIZE_BITS) 3) |};
     pm_cap :=
       {| pm_reg0 := w16 (Z.lor TLP_PCI_CAP_ID_PM (Z.shiftl TLP_PCI_CAP_NEXT_OF_PM 8)) 0x81c3;
          pm_pmcsr := 0x0008; pm_reserved := 0; pm_data := 0 |} |}.

Definition ext_cap_header (id version next : Z) : Z := w16 id (Z.lor version (Z.shiftl next 4)).

Definition init_pci_config_space_ext_caps (total_vfs : Z) : pci_config_space_ext_caps :=
  if total_vfs =? 0 then
    {| aer_ext_cap :=
         {| aer_reg0 := ext_cap_header TLP_PCIE_CAP_ID_AER AER_CAP_VERSION TLP_PCIE_CAP_NEXT_CAP_AER;
            aer_regs := replicate 17 0 |};
       sriov_ext_cap := sriov_zero |}
  else
    {| aer_ext_cap :=
         {| aer_reg0 := ext_cap_header TLP_PCIE_CAP_ID_AER AER_CAP_VERSION TLP_PCIE_CAP_OFFSET_SRIOV;
            aer_regs := replicate 17 0 |};
       sriov_ext_cap :=
         {| sr_reg0 := ext_cap_header TLP_PCIE_CAP_ID_SRIOV SRIOV_CAP_VERSION TLP_PCIE_CAP_NEXT_CAP_SRIOV;
            sr_cap_register := 0; sr_control := 0; sr_status := 0;
            sr_reg3 := w16 total_vfs total_vfs;
            sr_num_vfs := 0; sr_fcn_dep_link := 0; sr_reserved := 0;
            sr_reg5 := w16 SRIOV_FIRST_VF_OFFSET SRIOV_VF_STRIDE;
            sr_reg6 := w16 0 VF_PCI_TYPE_DEVICE_ID;
            sr_supported_page_sizes := SRIOV_SUPPORTED_PAGE_SIZES;
            sr_system_page_size := 0;
            sr_vf_bar := [Z.lor BAR_ENCODING_MEM_SPACE (Z.lor BAR_MEM_TYPE_64_BIT BAR_MEM_PREFETCHABLE); 0; 0; 0; 0; 0] |} |}.

Definition init_pci_config_space_header : pci_config_space_header :=
  {| h_reg0 := w16 TLP_PCI_TYPE_VENDOR_ID TLP_PCI_TYPE_DEVICE_ID;
     h_command := 0x0000; h_status := 0x0010;
     h_reg2 := Z.lor TLP_PCI_TYPE_REVISION_ID (Z.shiftl TLP_PCI_TYPE_CLASS_CODE 8);
     h_cache_line_size := 0x10; h_latency_timer := 0; h_header_type := 0; h_bist := 0;
     h_bar := [Z.lor BAR_ENCODING_MEM_SPACE (Z.lor BAR_MEM_TYPE_64_BIT BAR_MEM_PREFETCHABLE); 0; 0; 0; 0; 0];
     h_cardbus_cis_pointer := 0;
     h_regB := w16 TLP_PCI_TYPE_SUBSYSTEM_VENDOR_ID TLP_PCI_TYPE_SUBSYSTEM_ID;
     h_expansion_rom_base_address := EXP_BAR_ENABLED_BIT_SET;
     h_regD := TLP_PCI_CAP_OFFSET_EXPRESS;
     h_reserved := 0;
     h_regF := w8 0 0 0 0 |}.

Definition init_pci_config_space (total_vfs : Z) : pci_config_space :=
  {| header := init_pci_config_space_header; caps := init_pci_config_space_caps;
     ext_caps := init_pci_config_space_ext_caps total_vfs |}.

(** The expansion ROM memory is not touched. *)
Definition init_tlp_handler_cxt (exp_bar_memory : option (list Z)) : tlp_handler_cxt :=
  {| cx_bus := 0; cx_device := 0; cx_function := 0; cx_bdf := 0; cx_requester_id := 0; cx_completer_id := 0;
     cx_req_fmt := 0; cx_req_type := 0; cx_cmpl_fmt := 0; cx_cmpl_type := TLP_TYPE_COMPLETION;
     cx_cmpl_length := 0; cx_cmpl_status := 0; cx_tag9 := 0; cx_tag8 := 0; cx_tag := 0;
     cx_cfg_space_section := 0; cx_capability_offset := 0; cx_capability_id := 0; cx_first_dw_be := 0;
     cx_bar_region_size := Z.shiftl 1 layout_log_size; cx_exp_bar_size := 0;
     cx_transaction_region_memory := None; cx_transaction_region_size := 0;
     cx_exp_bar_memory := exp_bar_memory |}.

(** ** The register switches of the read and write handlers

    Besides the function and the data they return the capability id and the two
    flags the completion reports. *)
Section Switches.
Implicit Types (f : devemu_pci_func) (reg data be_mask : Z).

Definition cfg_read_switch reg f : res (devemu_pci_func * Z * (Z * bool * bool)) :=
  if in_case 0 15 reg then
    '(f, data) ← handle_config_space_header_read reg f; Done (f, data, (0, false, false))
  else if in_case 16 63 reg then
    let '(f, data, cap_id) := handle_config_space_caps_read reg f 0 in Done (f, data, (cap_id, true, false))
  else if in_case 64 1023 reg then
    '(f, data, cap_id) ← handle_config_space_ext_caps_read reg f 0; Done (f, data, (cap_id, true, true))
  else Done (f, 0, (0, false, false)).

(** The test [cap_id != 0] is on the pointer, so it always holds. *)
Definition cfg_write_switch reg data be_mask f : devemu_pci_func * (Z * bool * bool) :=
  if in_case 0 15 reg then (handle_config_space_header_write reg data be_mask f, (0, false, false))
  else if in_case 16 63 reg then
    let '(f, cap_id) := handle_config_space_caps_write reg data be_mask f 0 in (f, (cap_id, true, false))
  else if in_case 64 1023 reg then
    let '(f, cap_id) := handle_config_space_ext_caps_write reg data be_mask f 0 in (f, (cap_id, true, true))
  else (f, (0, false, false)).

(** The value a host reads from a register. *)
Definition cfg_read reg f : res Z := '(_, data, _) ← cfg_read_switch reg f; Done data.
End Switches.

(** ** Bits of masks *)

(** [d] where the mask is set, [x] elsewhere. *)
Definition mix (mask d x : Z) : Z := Z.lor (Z.ldiff x mask) (Z.land d mask).

Ltac by_bits :=
  apply Z.bits_inj'; intros ?i ?Hi; unfold mix, lo16, hi16, w16;
  repeat first [rewrite Z.lor_spec | rewrite Z.ldiff_spec | rewrite Z.land_spec
               | rewrite Z.lnot_spec by done | rewrite Z.bits_0];
  repeat match goal with |- context [Z.testbit ?x ?i] => destruct (Z.testbit x i); cbn; try done end.

Lemma mix_mix a b d x : mix a d (mix b d x) = mix (Z.lor a b) d x.
Proof. by_bits. Qed.
Lemma mix_0 d x : mix 0 d x = x.
Proof. by_bits. Qed.
Lemma ldiff_ldiff x a b : Z.ldiff (Z.ldiff x a) b = Z.ldiff x (Z.lor a b).
Proof. by_bits. Qed.
Lemma land_dist m a b : Z.lor (Z.land m a) (Z.land m b) = Z.land m (Z.lor a b).
Proof. by_bits. Qed.

(** A field whose bits the mask selects all or none. *)
Definition granular (field mask : Z) : Prop := Z.land mask field = 0 \/ Z.land mask field = field.

Lemma rw_field_mix field mask d x : granular field mask -> rw_field field mask d x = mix (Z.land mask field) d x.
Proof.
  intros [E|E]; unfold rw_field; rewrite E.
  - by rewrite mix_0.
  - destruct (Z.eqb_spec field 0) as [->|Hne]; cbn [negb]; [by rewrite mix_0|].
    destruct (Z.eqb_spec (Z.land d field) 0) as [E'|_]; cbn [negb]; [|by_bits].
    unfold mix. rewrite E'. by_bits.
Qed.

Lemma land_pow2 x k : 0 <= k -> Z.land x (2 ^ k) = if Z.testbit x k then 2 ^ k else 0.
Proof.
  intros Hk. apply Z.bits_inj'. intros i Hi. rewrite Z.land_spec, Z.pow2_bits_eqb by done.
  destruct (Z.eqb_spec k i) as [->|Hne].
  - destruct (Z.testbit x i); [|by rewrite Z.bits_0]. by rewrite Z.pow2_bits_true.
  - rewrite andb_false_r. destruct (Z.testbit x k); [|by rewrite Z.bits_0]. by rewrite Z.pow2_bits_false.
Qed.

Lemma rw_bit_mix k mask d x : 0 <= k -> rw_bit (2 ^ k) mask d x = mix (Z.land mask (2 ^ k)) d x.
Proof.
  intros Hk. assert (2 ^ k <> 0) by (pose proof (Z.pow_pos_nonneg 2 k); lia).
  unfold rw_bit. rewrite (land_pow2 mask), (land_pow2 d) by done.
  destruct (Z.testbit mask k); cbn [negb]; [|by rewrite mix_0].
  destruct (Z.eqb_spec (2 ^ k) 0); [done|]. cbn [negb]. unfold mix. rewrite (land_pow2 d) by done.
  destruct (Z.testbit d k); [|change (0 =? 0) with true; cbn [negb]; by_bits]. destruct (Z.eqb_spec (2 ^ k) 0); [done|]. cbn [negb]. by_bits.
Qed.

Lemma w1c_bit_ldiff k mask d x : 0 <= k -> w1c_bit (2 ^ k) mask d x = Z.ldiff x (Z.land (Z.land mask d) (2 ^ k)).
Proof.
  intros Hk. assert (2 ^ k <> 0) by (pose proof (Z.pow_pos_nonneg 2 k); lia).
  unfold w1c_bit. rewrite (land_pow2 mask), (land_pow2 d), (land_pow2 (Z.land mask d)), Z.land_spec by done.
  destruct (Z.testbit mask k); cbn [negb andb]; [|by rewrite Z.ldiff_0_r].
  destruct (Z.eqb_spec (2 ^ k) 0); [done|]. cbn [negb].
  destruct (Z.testbit d k); cbn [negb]; [|by rewrite Z.ldiff_0_r].
  destruct (Z.eqb_spec (2 ^ k) 0); [done|]. cbn [negb]. by rewrite <- Z.ldiff_land.
Qed.

(** ** The registers as one array *)

(** The registers with index up to 97 as the host sees them; all others read 0. *)
Definition cfg_image (f : devemu_pci_func) : list Z :=
  let s := pci_config_space_of f in
  let h := header s in let c := caps s in let x := express_cap c in let v := sriov f in
  [h_reg0 h; w16 (h_command h) (h_status h); h_reg2 h;
   w8 (h_cache_line_size h) (h_latency_timer h) (h_header_type h) (h_bist h)] ++
  h_bar h ++ [0; h_regB h; h_expansion_rom_base_address h; h_regD h; 0; 0] ++
  [pm_reg0 (pm_cap c); w16 (pm_pmcsr (pm_cap c)) (Z.lor (pm_reserved (pm_cap c)) (Z.shiftl (pm_data (pm_cap c)) 8));
   vpd_reg0 (vpd_cap c); vpd_msg_addr (vpd_cap c); 0; 0; 0; 0] ++
  [x_reg0 x; x_cap_register x; x_reg2 x; x_link_cap x; x_reg4 x; x_slot_cap x; x_reg6 x; x_reg7 x;
   x_root_status x; x_dev_cap2 x; x_regA x; x_link_cap2 x; x_regC x; x_slot_cap2 x; x_regE x] ++
  [mx_reg0 (msix_cap c); mx_reg1 (msix_cap c); mx_reg2 (msix_cap c)] ++ replicate 22 0 ++
  [aer_reg0 (aer_ext_cap (ext_caps s))] ++ replicate 17 0 ++
  match func_type f with
  | DOCA_PCI_FUNC_TYPE_VF => replicate 16 0
  | DOCA_PCI_FUNC_TYPE_PF =>
    [sr_reg0 v; sr_cap_register v; w16 (sr_control v) (sr_status v); sr_reg3 v;
     w16 (sr_num_vfs v) (Z.lor (sr_fcn_dep_link v) (Z.shiftl (sr_reserved v) 8)); sr_reg5 v; sr_reg6 v;
     sr_supported_page_sizes v; sr_system_page_size v] ++ sr_vf_bar v ++ [0]
  end.

(** Field widths, and arrays of six base address registers. *)
Record func_wf (f : devemu_pci_func) : Prop := {
  wf_words : Forall (in_width 16) [h_command (hdr f); h_status (hdr f); pm_pmcsr (pm_cap (caps (pci_config_space_of f)));
    sr_control (sriov f); sr_status (sriov f); sr_num_vfs (sriov f)];
  wf_bytes : Forall (in_width 8) [h_cache_line_size (hdr f); h_latency_timer (hdr f); h_header_type (hdr f);
    h_bist (hdr f); pm_reserved (pm_cap (caps (pci_config_space_of f))); pm_data (pm_cap (caps (pci_config_space_of f)));
    sr_fcn_dep_link (sriov f); sr_reserved (sriov f)];
  wf_image : Forall (in_width 32) (cfg_image f);
  wf_bar : length (h_bar (hdr f)) = 6%nat;
  wf_vf_bar : length (sr_vf_bar (sriov f)) = 6%nat;
}.

Lemma list6 {A} (l : list A) : length l = 6%nat -> exists a b c d e g, l = [a; b; c; d; e; g].
Proof. destruct l as [|a [|b [|c [|d [|e [|g [|]]]]]]]; try done. intros _. by repeat eexists. Qed.

(** The cases of a number below a small constant. *)
Lemma upto_cases (n : nat) (P : Z -> Prop) :
  Forall P (Z.of_nat <$> seq 0 n) -> forall x, 0 <= x < Z.of_nat n -> P x.
Proof.
  intros Hall x Hx. rewrite list.Forall_forall in Hall. apply Hall. apply list_elem_of_fmap.
  exists (Z.to_nat x). split; [lia|]. apply elem_of_seq. lia.
Qed.

Lemma cfg_image_length f : func_wf f -> length (cfg_image f) = 98%nat.
Proof.
  intros Hwf. unfold cfg_image. rewrite !length_app, !length_replicate.
  fold (hdr f). rewrite (wf_bar f Hwf). destruct (func_type f); [|done].
  rewrite !length_app. by rewrite (wf_vf_bar f Hwf).
Qed.

Lemma cfg_read_high reg f : 98 <= reg < 1024 -> cfg_read reg f = Done 0.
Proof.
  intros Hr. unfold cfg_read, cfg_read_switch, in_case.
  destruct (Z.leb_spec 0 reg); [|lia]. destruct (Z.leb_spec reg 15); [lia|].
  destruct (Z.leb_spec 16 reg); [|lia]. destruct (Z.leb_spec reg 63); [lia|].
  destruct (Z.leb_spec 64 reg); [|lia]. destruct (Z.leb_spec reg 1023); [|lia]. cbn [andb].
  unfold handle_config_space_ext_caps_read, in_case.
  change (TLP_CAP_AER_REG_NUM + TLP_CAP_AER_LEN_DW - 1) with 81. change TLP_CAP_AER_REG_NUM with 64.
  change (TLP_CAP_SRIOV_REG_NUM + TLP_CAP_SRIOV_LEN_DW - 1) with 97. change TLP_CAP_SRIOV_REG_NUM with 82.
  destruct (Z.leb_spec 64 reg); [|lia]. destruct (Z.leb_spec reg 81); [lia|].
  destruct (Z.leb_spec 82 reg); [|lia]. destruct (Z.leb_spec reg 97); [lia|]. done.
Qed.

Lemma cfg_read_low reg f : func_wf f -> 0 <= reg < 98 ->
  cfg_read reg f = Done (cfg_image f !!! Z.to_nat reg).
Proof.
  intros Hwf. destruct (list6 _ (wf_bar f Hwf)) as (b0 & b1 & b2 & b3 & b4 & b5 & Hb).
  destruct (list6 _ (wf_vf_bar f Hwf)) as (v0 & v1 & v2 & v3 & v4 & v5 & Hv). clear Hwf.
  destruct f as [ft vi [h c x] cx]. unfold hdr, sriov in *. cbn in Hb, Hv. destruct h, c, x. cbn in *.
  destruct aer_ext_cap0, sriov_ext_cap0. cbn in *. subst.
  revert reg. change 98 with (Z.of_nat 98). apply upto_cases. cbn [seq fmap list_fmap].
  destruct ft; repeat apply List.Forall_cons; try apply List.Forall_nil; reflexivity.
Qed.

Lemma cfg_read_image f reg : func_wf f -> 0 <= reg < 1024 ->
  cfg_read reg f = Done (default 0 (cfg_image f !! Z.to_nat reg)).
Proof.
  intros Hwf Hr. destruct (Z.lt_ge_cases reg 98) as [Hlo|Hhi].
  - rewrite cfg_read_low by (done || lia). f_equal. pose proof (cfg_image_length f Hwf).
    destruct (lookup_lt_is_Some_2 (cfg_image f) (Z.to_nat reg)) as [x Hx]; [lia|].
    by rewrite (list_lookup_total_correct _ _ _ Hx), Hx.
  - rewrite cfg_read_high by lia. rewrite lookup_ge_None_2; [done|]. rewrite cfg_image_length by done. lia.
Qed.

(** Reading the configuration space is reading one array of registers: every
    register number of a configuration request is answered, registers up to 97 have
    the values of [cfg_image] and all others read 0; in particular the SR-IOV
    capability is invisible in virtual functions. *)
Theorem config_read_image f reg : func_wf f -> 0 <= reg < 1024 ->
  cfg_read reg f = Done (default 0 (cfg_image f !! Z.to_nat reg)).
Proof. apply cfg_read_image. Qed.

(** ** What a write does *)

(** Kinds of registers: read only; bits that are written, or cleared by writing 1; a
    half of a base address register for a region of [size] bytes; the expansion ROM
    register. *)
Inductive reg_kind :=
| ReadOnly
| Masked (rw w1c : Z)
| Bar (size : Z) (high : bool)
| RomBar (size : Z).

Definition kind_of (f : devemu_pci_func) (reg : Z) : reg_kind :=
  let pf := bool_decide (func_type f = DOCA_PCI_FUNC_TYPE_PF) in
  if reg =? 1 then Masked 0x0546 0xF9000000
  else if reg =? 3 then Masked 0xFF 0
  else if (reg =? 4) && pf then Bar (cx_bar_region_size (cxt f)) false
  else if (reg =? 5) && pf then Bar (cx_bar_region_size (cxt f)) true
  else if reg =? 12 then RomBar (cx_exp_bar_size (cxt f))
  else if reg =? 17 then Masked 0x9F03 0
  else if (reg =? 84) && pf then Masked 0x0009 0
  else if (reg =? 86) && pf && negb (Z.testbit (sr_control (sriov f)) 0) then Masked 0xFFFF 0
  else if (reg =? 90) && pf then Masked 0xFFFFFFFF 0
  else if (reg =? 91) && pf then Bar (2 ^ 14) false
  else if (reg =? 92) && pf then Bar (2 ^ 14) true
  else ReadOnly.

(** The new value of a register with value [x] when [d] is written with mask [m]. *)
Definition reg_write (k : reg_kind) (m d x : Z) : Z :=
  match k with
  | ReadOnly => x
  | Masked rw w1c => Z.ldiff (mix (Z.land m rw) d x) (Z.land (Z.land m d) w1c)
  | Bar size high =>
    let v := if Z.land d m =? 0xFFFFFFFF
             then if high then u64 (- size) / 2 ^ 32 else u64 (- size) mod 2 ^ 32
             else Z.land d m in
    if high then v else Z.lor (Z.land v 0xFFFFFFF0) 0xC
  | RomBar size =>
    let v := if Z.land (Z.land d m) 0xFFFFF800 =? 0xFFFFF800 then u32 (- size) else Z.land d m in
    Z.lor (Z.land v 0xFFFFF800) 1
  end.

Lemma lnot_pred n : Z.lnot (n - 1) = - n.
Proof. pose proof (Z.add_lnot_diag (n - 1)). lia. Qed.

Lemma bar_sized_spec size high :
  bar_sized size high = if high then u64 (- size) / 2 ^ 32 else u64 (- size) mod 2 ^ 32.
Proof.
  unfold bar_sized. rewrite lnot_pred. change 0xFFFFFFFF with (Z.ones 32). pose proof (u64_range (- size)).
  destruct high; rewrite Z.land_ones by lia; [|done]. rewrite Z.shiftr_div_pow2 by lia.
  apply Z.mod_small. split; [apply Z.div_pos; lia|apply Z.div_lt_upper_bound; lia].
Qed.

Lemma testbit_high w x i : in_width w x -> 0 <= w <= i -> Z.testbit x i = false.
Proof.
  intros Hx Hi. destruct (Z.eq_dec x 0) as [->|Hne]; [apply Z.bits_0|]. unfold in_width in Hx.
  apply Z.bits_above_log2; [lia|]. apply Z.log2_lt_pow2; [lia|].
  apply Z.lt_le_trans with (2 ^ w); [lia|]. apply Z.pow_le_mono_r; lia.
Qed.

Lemma bits_width w x : 0 <= w -> (forall i, w <= i -> Z.testbit x i = false) -> in_width w x.
Proof.
  intros Hw Hb. assert (x = x mod 2 ^ w) as ->; [|by apply Z.mod_pos_bound, Z.pow_pos_nonneg].
  apply Z.bits_inj'. intros i Hi. destruct (Z.lt_ge_cases i w).
  - by rewrite Z.mod_pow2_bits_low.
  - by rewrite Z.mod_pow2_bits_high, Hb by lia.
Qed.

Lemma testbit_w16 lo hi i : in_width 16 lo -> 0 <= i ->
  Z.testbit (w16 lo hi) i = if i <? 16 then Z.testbit lo i else Z.testbit hi (i - 16).
Proof.
  intros Hlo Hi. unfold w16. rewrite Z.lor_spec, Z.shiftl_spec by done. destruct (Z.ltb_spec i 16).
  - by rewrite (Z.testbit_neg_r hi), orb_false_r by lia.
  - by rewrite (testbit_high 16 lo) by (done || lia).
Qed.

Lemma testbit_lo16 x i : 0 <= i -> Z.testbit (lo16 x) i = (i <? 16) && Z.testbit x i.
Proof.
  intros Hi. unfold lo16. change 0xFFFF with (Z.ones 16). rewrite Z.land_spec, Z.testbit_ones_nonneg by lia.
  apply andb_comm.
Qed.
Lemma testbit_hi16 x i : 0 <= i -> Z.testbit (hi16 x) i = (i <? 16) && Z.testbit x (i + 16).
Proof.
  intros Hi. unfold hi16. change 0xFFFF with (Z.ones 16). rewrite Z.land_spec, Z.testbit_ones_nonneg by lia.
  rewrite Z.shiftr_spec by done. apply andb_comm.
Qed.

Lemma mix_width w m d x : 0 <= w -> in_width w x -> in_width w m -> in_width w (mix m d x).
Proof.
  intros Hw Hx Hm. apply bits_width; [done|]. intros i Hi. unfold mix.
  rewrite Z.lor_spec, Z.ldiff_spec, Z.land_spec, (testbit_high w x), (testbit_high w m) by (done || lia).
  by rewrite andb_false_r.
Qed.
Lemma ldiff_width w x y : 0 <= w -> in_width w x -> in_width w (Z.ldiff x y).
Proof.
  intros Hw Hx. apply bits_width; [done|]. intros i Hi. by rewrite Z.ldiff_spec, (testbit_high w x).
Qed.
Lemma land_width w x y : 0 <= w -> in_width w x -> in_width w (Z.land x y).
Proof. intros Hw Hx. apply bits_width; [done|]. intros i Hi. by rewrite Z.land_spec, (testbit_high w x). Qed.
Lemma lor_width w x y : 0 <= w -> in_width w x -> in_width w y -> in_width w (Z.lor x y).
Proof.
  intros Hw Hx Hy. apply bits_width; [done|]. intros i Hi. by rewrite Z.lor_spec, (testbit_high w x), (testbit_high w y).
Qed.
Lemma w16_width lo hi : in_width 16 lo -> in_width 16 hi -> in_width 32 (w16 lo hi).
Proof.
  intros Hlo Hhi. apply bits_width; [lia|]. intros i Hi. rewrite testbit_w16 by (done || lia).
  destruct (Z.ltb_spec i 16); [lia|]. apply (testbit_high 16); [done|lia].
Qed.
Lemma lo16_width x : in_width 16 (lo16 x).
Proof. apply bits_width; [lia|]. intros i Hi. rewrite testbit_lo16 by lia. by destruct (Z.ltb_spec i 16); [lia|]. Qed.

(** The 16-bit halves of the formula for a register. *)
Lemma reg_write_w16 rw w1c m d lo hi :
  in_width 16 lo -> in_width 32 rw -> in_width 32 w1c ->
  reg_write (Masked rw w1c) m d (w16 lo hi) =
    w16 (Z.ldiff (mix (Z.land (lo16 m) (lo16 rw)) (lo16 d) lo) (Z.land (Z.land (lo16 m) (lo16 d)) (lo16 w1c)))
        (Z.ldiff (mix (Z.land (hi16 m) (hi16 rw)) (hi16 d) hi) (Z.land (Z.land (hi16 m) (hi16 d)) (hi16 w1c))).
Proof.
  intros Hlo Hrw Hw1c. apply Z.bits_inj'. intros i Hi. cbn [reg_write].
  rewrite testbit_w16 by (done || (apply ldiff_width, mix_width; try lia; [done|apply land_width, lo16_width; lia])).
  unfold mix. rewrite !Z.ldiff_spec, !Z.lor_spec, !Z.ldiff_spec, !Z.land_spec, testbit_w16 by done.
  destruct (Z.ltb_spec i 16).
  - rewrite !testbit_lo16 by done. destruct (Z.ltb_spec i 16); [done|lia].
  - rewrite !testbit_hi16 by lia. replace (i - 16 + 16) with i by lia. destruct (Z.ltb_spec (i - 16) 16); [done|].
    rewrite (testbit_high 32 rw), (testbit_high 32 w1c) by (done || lia).
    by rewrite !andb_false_r, !orb_false_r.
Qed.

Lemma u16_lo16 x : u16 x = lo16 x.
Proof. unfold u16, uwrap, lo16. change 0xFFFF with (Z.ones 16). by rewrite Z.land_ones. Qed.
Lemma testbit_u8 x i : 0 <= i -> Z.testbit (u8 x) i = (i <? 8) && Z.testbit x i.
Proof.
  intros Hi. unfold u8, uwrap. destruct (Z.ltb_spec i 8).
  - by rewrite Z.mod_pow2_bits_low.
  - by rewrite Z.mod_pow2_bits_high by lia.
Qed.
Lemma testbit_u32 x i : 0 <= i -> Z.testbit (u32 x) i = (i <? 32) && Z.testbit x i.
Proof.
  intros Hi. unfold u32, uwrap. destruct (Z.ltb_spec i 32).
  - by rewrite Z.mod_pow2_bits_low.
  - by rewrite Z.mod_pow2_bits_high by lia.
Qed.

(** *** Masks from byte enables *)

Record be_mask_ok (m : Z) : Prop := {
  bm_width : in_width 32 m;
  bm_low : u8 m = 0 \/ u8 m = 255;
  bm_state : granular TLP_CAP_PM_STATE (lo16 m);
  bm_sel : granular TLP_CAP_PM_DATA_SEL (lo16 m);
}.

Lemma be_mask_spec be m : 0 <= be < 16 -> map_first_dw_be_to_mask be = Done m -> be_mask_ok m.
Proof.
  revert be. change 16 with (Z.of_nat 16). apply (upto_cases 16 (fun be => map_first_dw_be_to_mask be = Done m -> be_mask_ok m)).
  cbn [seq fmap list_fmap].
  repeat apply List.Forall_cons; try apply List.Forall_nil; intros [= <-].
  all: split; unfold granular; [unfold in_width; lia|vm_compute; tauto..].
Qed.

(** *** The registers that can be written *)

Lemma ldiff_0 x y : Z.ldiff x (Z.land y 0) = x.
Proof. by rewrite Z.land_0_r, Z.ldiff_0_r. Qed.
Lemma mix_land_0 x d y : mix (Z.land y 0) d x = x.
Proof. by rewrite Z.land_0_r, mix_0. Qed.

Definition command_write (m d x : Z) : Z :=
  let x := rw_bit COMMAND_RW_MEM_SPACE_ENABLE m d x in
  let x := rw_bit COMMAND_RW_BUS_MASTER_ENABLE m d x in
  let x := rw_bit COMMAND_RW_PERR_ENABLE m d x in
  let x := rw_bit COMMAND_RW_SERR_ENABLE m d x in
  rw_bit COMMAND_RW_INT_DISABLE m d x.
Definition status_write (m d x : Z) : Z :=
  let x := w1c_bit STATUS_WR1C_MASTER_DATA_PERR m d x in
  let x := w1c_bit STATUS_WR1C_SIGNALED_TA m d x in
  let x := w1c_bit STATUS_WR1C_RECEIVE_TA m d x in
  let x := w1c_bit STATUS_WR1C_RECEIVE_MA m d x in
  let x := w1c_bit STATUS_WR1C_SIGNALED_SERR m d x in
  w1c_bit STATUS_WR1C_DETECTED_PERR m d x.
Definition pmcsr_write (m d x : Z) : Z :=
  let x := rw_field TLP_CAP_PM_STATE m d x in
  let x := rw_bit TLP_CAP_PM_PME_EN m d x in
  let x := rw_field TLP_CAP_PM_DATA_SEL m d x in
  rw_bit TLP_CAP_PM_PME_STATUS m d x.

Lemma command_write_mix m d x : command_write m d x = mix (Z.land m 0x0546) d x.
Proof.
  unfold command_write.
  change COMMAND_RW_MEM_SPACE_ENABLE with (2 ^ 1). change COMMAND_RW_BUS_MASTER_ENABLE with (2 ^ 2).
  change COMMAND_RW_PERR_ENABLE with (2 ^ 6). change COMMAND_RW_SERR_ENABLE with (2 ^ 8).
  change COMMAND_RW_INT_DISABLE with (2 ^ 10). cbv zeta.
  rewrite !rw_bit_mix, !mix_mix, !land_dist by lia. done.
Qed.
Lemma status_write_ldiff m d x : status_write m d x = Z.ldiff x (Z.land (Z.land m d) 0xF900).
Proof.
  unfold status_write.
  change STATUS_WR1C_MASTER_DATA_PERR with (2 ^ 8). change STATUS_WR1C_SIGNALED_TA with (2 ^ 11).
  change STATUS_WR1C_RECEIVE_TA with (2 ^ 12). change STATUS_WR1C_RECEIVE_MA with (2 ^ 13).
  change STATUS_WR1C_SIGNALED_SERR with (2 ^ 14). change STATUS_WR1C_DETECTED_PERR with (2 ^ 15). cbv zeta.
  rewrite !w1c_bit_ldiff, !ldiff_ldiff, !land_dist by lia. done.
Qed.
Lemma pmcsr_write_mix m d x : granular TLP_CAP_PM_STATE m -> granular TLP_CAP_PM_DATA_SEL m ->
  pmcsr_write m d x = mix (Z.land m 0x9F03) d x.
Proof.
  intros H1 H2. unfold pmcsr_write. change TLP_CAP_PM_PME_EN with (2 ^ 8). change TLP_CAP_PM_PME_STATUS with (2 ^ 15).
  cbv zeta. rewrite !rw_field_mix, !rw_bit_mix, !mix_mix, !land_dist by (done || lia). done.
Qed.

Lemma reg1_write m d lo hi : in_width 16 lo ->
  w16 (command_write (lo16 m) (lo16 d) lo) (status_write (hi16 m) (hi16 d) hi) =
    reg_write (Masked 0x0546 0xF9000000) m d (w16 lo hi).
Proof.
  intros Hlo. rewrite reg_write_w16 by (done || (unfold in_width; lia)).
  change (lo16 0x0546) with 0x0546. change (hi16 0x0546) with 0. change (lo16 0xF9000000) with 0.
  change (hi16 0xF9000000) with 0xF900. by rewrite ldiff_0, mix_land_0, command_write_mix, status_write_ldiff.
Qed.
Lemma reg17_write m d lo hi : in_width 16 lo -> be_mask_ok m ->
  w16 (pmcsr_write (lo16 m) (lo16 d) lo) hi = reg_write (Masked 0x9F03 0) m d (w16 lo hi).
Proof.
  intros Hlo Hm. rewrite reg_write_w16 by (done || (unfold in_width; lia)).
  change (lo16 0x9F03) with 0x9F03. change (hi16 0x9F03) with 0. change (lo16 0) with 0. change (hi16 0) with 0.
  rewrite !ldiff_0, mix_land_0, pmcsr_write_mix by apply Hm. done.
Qed.
Lemma reg84_write m d lo hi : in_width 16 lo ->
  let cm := u16 (Z.land m (Z.lor SRIOV_CTRL_VF_ENABLE SRIOV_CTRL_VF_MSE)) in
  w16 (u16 (Z.lor (Z.land lo (Z.lnot cm)) (Z.land (u16 d) cm))) hi = reg_write (Masked 0x0009 0) m d (w16 lo hi).
Proof.
  intros Hlo. cbv zeta. rewrite reg_write_w16 by (done || (unfold in_width; lia)).
  change (lo16 0x9) with 0x9. change (hi16 0x9) with 0. change (lo16 0) with 0. change (hi16 0) with 0.
  rewrite !ldiff_0, mix_land_0, !u16_lo16. change (Z.lor SRIOV_CTRL_VF_ENABLE SRIOV_CTRL_VF_MSE) with 9.
  f_equal. apply Z.bits_inj'. intros i Hi. unfold mix.
  rewrite testbit_lo16, !Z.lor_spec, Z.ldiff_spec, !Z.land_spec, Z.lnot_spec, !testbit_lo16, Z.land_spec by done.
  destruct (Z.ltb_spec i 16); cbn; [|by rewrite (testbit_high 16 lo) by (done || lia)]. done.
Qed.
Lemma reg86_write m d lo hi : in_width 16 lo ->
  w16 (u16 (Z.lor (Z.land lo (u32 (Z.lnot m))) (Z.land (u16 d) m))) hi = reg_write (Masked 0xFFFF 0) m d (w16 lo hi).
Proof.
  intros Hlo. rewrite reg_write_w16 by (done || (unfold in_width; lia)).
  change (lo16 0xFFFF) with (Z.ones 16). change (hi16 0xFFFF) with 0. change (lo16 0) with 0. change (hi16 0) with 0.
  rewrite !ldiff_0, mix_land_0, !u16_lo16. f_equal. apply Z.bits_inj'. intros i Hi. unfold mix.
  rewrite testbit_lo16, !Z.lor_spec, Z.ldiff_spec, !Z.land_spec, testbit_u32, Z.lnot_spec, !testbit_lo16,
    Z.testbit_ones_nonneg by (done || lia).
  destruct (Z.ltb_spec i 16); cbn; [|by rewrite (testbit_high 16 lo) by (done || lia)].
  destruct (Z.ltb_spec i 32); [|lia]. by rewrite andb_true_r.
Qed.
Lemma reg90_write m d x : in_width 32 x -> in_width 32 m ->
  Z.lor (Z.land x (u32 (Z.lnot m))) (Z.land d m) = reg_write (Masked 0xFFFFFFFF 0) m d x.
Proof.
  intros Hx Hm. cbn [reg_write]. rewrite ldiff_0. change 0xFFFFFFFF with (Z.ones 32).
  apply Z.bits_inj'. intros i Hi. unfold mix.
  rewrite !Z.lor_spec, Z.ldiff_spec, !Z.land_spec, testbit_u32, Z.lnot_spec, Z.testbit_ones_nonneg by (done || lia).
  destruct (Z.ltb_spec i 32); cbn; [by rewrite andb_true_r|].
  by rewrite (testbit_high 32 x), (testbit_high 32 m) by (done || lia).
Qed.
Lemma reg3_write m d b0 b1 b2 b3 : in_width 8 b0 -> in_width 8 b1 -> be_mask_ok m ->
  w8 (if negb (u8 m =? 0) then Z.land (u8 d) (u8 m) else b0) b1 b2 b3 =
    reg_write (Masked 0xFF 0) m d (w8 b0 b1 b2 b3).
Proof.
  intros Hb0 Hb1 Hm. assert (forall b, in_width 8 b -> in_width 16 (Z.lor b (Z.shiftl b1 8))) as Hw.
  { intros b Hb. apply bits_width; [lia|]. intros i Hi.
    by rewrite Z.lor_spec, Z.shiftl_spec, (testbit_high 8 b), (testbit_high 8 b1) by (done || lia). }
  unfold w8. rewrite reg_write_w16 by (by apply Hw || (unfold in_width; lia)).
  change (lo16 0xFF) with (Z.ones 8). change (hi16 0xFF) with 0. change (lo16 0) with 0. change (hi16 0) with 0.
  rewrite !ldiff_0, mix_land_0. f_equal. apply Z.bits_inj'. intros i Hi. unfold mix.
  rewrite !Z.lor_spec, Z.ldiff_spec, !Z.land_spec, !testbit_lo16, Z.testbit_ones_nonneg, Z.lor_spec by (done || lia).
  assert (8 <= i -> Z.testbit (if negb (u8 m =? 0) then Z.land (u8 d) (u8 m) else b0) i = false /\ Z.testbit b0 i = false) as Hhi.
  { intros H8. rewrite (testbit_high 8 b0) by (done || lia). split; [|done].
    destruct (negb _); [|by apply (testbit_high 8); [|lia]].
    rewrite Z.land_spec, testbit_u8 by done. by destruct (Z.ltb_spec i 8); [lia|]. }
  destruct (Z.ltb_spec i 8) as [Hlt|Hge].
  - rewrite (Z.shiftl_spec_low b1) by lia. rewrite !orb_false_r, andb_true_r. destruct (Z.ltb_spec i 16); [|lia].
    cbn. destruct (bm_low m Hm) as [E|E]; rewrite E; cbn [Z.eqb negb].
    + assert (Z.testbit m i = false) as ->; [|by rewrite andb_true_r, andb_false_r, orb_false_r].
      pose proof (testbit_u8 m i Hi) as Ht. rewrite E, Z.bits_0 in Ht. by destruct (Z.ltb_spec i 8); [|lia].
    + assert (Z.testbit m i = true) as ->.
      { pose proof (testbit_u8 m i Hi) as Ht. rewrite E in Ht. change 255 with (Z.ones 8) in Ht.
        rewrite Z.testbit_ones_nonneg in Ht by lia. by destruct (Z.ltb_spec i 8); [|lia]. }
      rewrite Z.land_spec, testbit_u8 by done. change 255 with (Z.ones 8). rewrite Z.testbit_ones_nonneg by lia.
      destruct (Z.ltb_spec i 8); [|lia]. cbn. by rewrite !andb_true_r, andb_false_r.
  - destruct (Hhi Hge) as [-> ->]. by rewrite !andb_false_r, !orb_false_r, andb_true_r.
Qed.

(** *** The image after a write *)

Lemma cfg_image_ext f f' : func_type f' = func_type f -> pci_config_space_of f' = pci_config_space_of f ->
  cfg_image f' = cfg_image f.
Proof. intros Ht Hs. unfold cfg_image, sriov. by rewrite Ht, Hs. Qed.

Lemma write_high reg d m f : 98 <= reg < 1024 -> pci_config_space_of (cfg_write_switch reg d m f).1 = pci_config_space_of f.
Proof.
  intros Hr. unfold cfg_write_switch, in_case.
  destruct (Z.leb_spec 0 reg); [|lia]. destruct (Z.leb_spec reg 15); [lia|].
  destruct (Z.leb_spec 16 reg); [|lia]. destruct (Z.leb_spec reg 63); [lia|].
  destruct (Z.leb_spec 64 reg); [|lia]. destruct (Z.leb_spec reg 1023); [|lia]. cbn [andb].
  unfold handle_config_space_ext_caps_write. change (TLP_CAP_SRIOV_REG_NUM + TLP_CAP_SRIOV_LEN_DW) with 98.
  destruct (Z.ltb_spec reg 98); [lia|]. by rewrite andb_false_r.
Qed.

Lemma enable_bit x : (Z.land x SRIOV_CTRL_VF_ENABLE =? 0) = negb (Z.testbit x 0).
Proof. change SRIOV_CTRL_VF_ENABLE with (2 ^ 0). rewrite land_pow2 by lia. by destruct (Z.testbit x 0). Qed.

Lemma write_ro reg d m f : 0 <= reg < 1024 -> kind_of f reg = ReadOnly ->
  pci_config_space_of (cfg_write_switch reg d m f).1 = pci_config_space_of f.
Proof.
  intros Hr. destruct (Z.lt_ge_cases reg 98) as [Hlt|]; [|intros _; apply write_high; lia].
  destruct f as [ft vi s cx]. assert (0 <= reg < Z.of_nat 98) as Hr' by lia. clear Hr Hlt. revert reg Hr'.
  apply (upto_cases 98 (fun reg => kind_of (Build_devemu_pci_func ft vi s cx) reg = ReadOnly -> _)).
  cbn [seq fmap list_fmap]. repeat apply List.Forall_cons; try apply List.Forall_nil; intros E.
  all: destruct ft; try discriminate E; try reflexivity.
  revert E. unfold kind_of, cfg_write_switch, handle_config_space_ext_caps_write, config_space_ext_cap_sriov_write.
  cbn -[Z.testbit Z.land]. rewrite enable_bit. by destruct (Z.testbit _ 0).
Qed.

Lemma func_type_write reg d m f : func_type (cfg_write_switch reg d m f).1 = func_type f.
Proof.
  unfold cfg_write_switch, handle_config_space_caps_write, handle_config_space_ext_caps_write,
    handle_config_space_header_write.
  repeat case_match; simplify_eq/=; try done.
  - unfold config_space_header_write_reg3. by case_match.
  - unfold config_space_header_write_bar. by repeat case_match.
  - unfold config_space_cap_pm_write. by case_match.
  - unfold config_space_ext_cap_sriov_write. by repeat case_match.
Qed.

(** Replacing the value of register [n]. *)
Lemma image_at f f' n v V :
  func_wf f -> (n < 98)%nat ->
  cfg_image f' = take n (cfg_image f) ++ v :: drop (S n) (cfg_image f) -> v = V ->
  cfg_image f' = <[n := V]> (cfg_image f).
Proof. intros Hwf Hn -> ->. rewrite insert_take_drop; [done|]. by rewrite cfg_image_length. Qed.

(** Open a function whose registers are well formed, up to the elements of the
    arrays. *)
Ltac open_func f Hwf :=
  let Hw := fresh "Hw" in let Hy := fresh "Hy" in let Hi := fresh "Hi" in
  let Hb := fresh "Hb" in let Hv := fresh "Hv" in
  pose proof (wf_words f Hwf) as Hw; pose proof (wf_bytes f Hwf) as Hy; pose proof (wf_image f Hwf) as Hi;
  destruct (list6 _ (wf_bar f Hwf)) as (b0 & b1 & b2 & b3 & b4 & b5 & Hb);
  destruct (list6 _ (wf_vf_bar f Hwf)) as (v0 & v1 & v2 & v3 & v4 & v5 & Hv);
  destruct f as [ft vi [[] [] [? []]] cx]; cbn in Hb, Hv; subst;
  unfold hdr, sriov in Hw, Hy; cbn in Hw, Hy; repeat rewrite list.Forall_cons in Hw; repeat rewrite list.Forall_cons in Hy.

Section WriteImage.
Context (d m : Z) (Hm : be_mask_ok m).
Implicit Types (f : devemu_pci_func).
Let new reg f := (cfg_write_switch reg d m f).1.
Let set_reg (n : nat) (k : reg_kind) f := <[n := reg_write k m d (cfg_image f !!! n)]> (cfg_image f).

Lemma image_1 f : func_wf f -> cfg_image (new 1 f) = set_reg 1 (Masked 0x0546 0xF9000000) f.
Proof.
  intros Hwf. open_func f Hwf. eapply image_at; [done|lia|reflexivity|].
  apply reg1_write. tauto.
Qed.
Lemma image_3 f : func_wf f -> cfg_image (new 3 f) = set_reg 3 (Masked 0xFF 0) f.
Proof.
  intros Hwf. open_func f Hwf. eapply image_at; [done|lia| |apply reg3_write; tauto].
  subst new. unfold cfg_write_switch, handle_config_space_header_write, config_space_header_write_reg3. cbn -[u8].
  by destruct (negb (u8 m =? 0)).
Qed.
Lemma image_12 f : func_wf f -> cfg_image (new 12 f) = set_reg 12 (RomBar (cx_exp_bar_size (cxt f))) f.
Proof.
  intros Hwf. open_func f Hwf.
  apply (image_at _ _ 12 (Z.lor (Z.land (if Z.land (Z.land d m) EXP_BAR_ADDR_MASK =? EXP_BAR_ADDR_MASK
    then u32 (Z.lnot (cx_exp_bar_size cx - 1)) else Z.land d m) EXP_BAR_ADDR_MASK) EXP_BAR_ENABLED_BIT_SET));
    [done|lia|reflexivity|]. by rewrite lnot_pred.
Qed.
Lemma image_17 f : func_wf f -> cfg_image (new 17 f) = set_reg 17 (Masked 0x9F03 0) f.
Proof.
  intros Hwf. open_func f Hwf. eapply image_at; [done|lia|reflexivity|]. apply reg17_write; [tauto|done].
Qed.

(** The registers of the physical function. *)
Let bar_value (size : Z) (high : bool) : Z :=
  let x := if Z.land d m =? 0xFFFFFFFF then bar_sized size high else Z.land d m in
  if high then x else bar_flags x.
Lemma bar_value_spec size high x : bar_value size high = reg_write (Bar size high) m d x.
Proof. subst bar_value. cbn [reg_write]. rewrite bar_sized_spec. by destruct high. Qed.
Lemma image_bar (reg : Z) f : func_wf f -> func_type f = DOCA_PCI_FUNC_TYPE_PF -> reg = 4 \/ reg = 5 ->
  cfg_image (new reg f) = set_reg (Z.to_nat reg) (Bar (cx_bar_region_size (cxt f)) (reg =? 5)) f.
Proof.
  intros Hwf Ht Hr. open_func f Hwf. cbn in Ht. subst ft.
  destruct Hr as [->| ->].
  - apply (image_at _ _ 4 (bar_value (cx_bar_region_size cx) false)); [done|lia|reflexivity|]. apply bar_value_spec.
  - apply (image_at _ _ 5 (bar_value (cx_bar_region_size cx) true)); [done|lia|reflexivity|]. apply bar_value_spec.
Qed.
Lemma image_vf_bar (reg : Z) f : func_wf f -> func_type f = DOCA_PCI_FUNC_TYPE_PF -> reg = 91 \/ reg = 92 ->
  cfg_image (new reg f) = set_reg (Z.to_nat reg) (Bar (2 ^ 14) (reg =? 92)) f.
Proof.
  intros Hwf Ht Hr. open_func f Hwf. cbn in Ht. subst ft.
  destruct Hr as [->| ->].
  - apply (image_at _ _ 91 (bar_value (2 ^ 14) false)); [done|lia|reflexivity|]. apply bar_value_spec.
  - apply (image_at _ _ 92 (bar_value (2 ^ 14) true)); [done|lia|reflexivity|]. apply bar_value_spec.
Qed.
Lemma image_84 f : func_wf f -> func_type f = DOCA_PCI_FUNC_TYPE_PF ->
  cfg_image (new 84 f) = set_reg 84 (Masked 0x0009 0) f.
Proof.
  intros Hwf Ht. open_func f Hwf. cbn in Ht. subst ft.
  eapply image_at; [done|lia|reflexivity|]. apply reg84_write. tauto.
Qed.
Lemma image_86 f : func_wf f -> func_type f = DOCA_PCI_FUNC_TYPE_PF -> Z.testbit (sr_control (sriov f)) 0 = false ->
  cfg_image (new 86 f) = set_reg 86 (Masked 0xFFFF 0) f.
Proof.
  intros Hwf Ht He. open_func f Hwf. cbn in Ht, He. subst ft.
  eapply image_at; [done|lia| |apply reg86_write; tauto].
  subst new. unfold cfg_write_switch, handle_config_space_ext_caps_write, config_space_ext_cap_sriov_write.
  cbn -[Z.land Z.lor u16 u32]. by rewrite enable_bit, Z.bit0_odd, He.
Qed.
Lemma image_90 f : func_wf f -> func_type f = DOCA_PCI_FUNC_TYPE_PF ->
  cfg_image (new 90 f) = set_reg 90 (Masked 0xFFFFFFFF 0) f.
Proof.
  intros Hwf Ht. open_func f Hwf. cbn in Ht. subst ft.
  eapply image_at; [done|lia|reflexivity|]. apply reg90_write; [|apply Hm].
  rewrite list.Forall_forall in Hi. apply Hi. by apply (list_elem_of_lookup_2 _ 90).
Qed.
End WriteImage.

(** *** The theorems on writing *)

Lemma write_image f reg d m : func_wf f -> be_mask_ok m -> 0 <= reg < 1024 ->
  cfg_image (cfg_write_switch reg d m f).1 =
    <[Z.to_nat reg := reg_write (kind_of f reg) m d (cfg_image f !!! Z.to_nat reg)]> (cfg_image f).
Proof.
  intros Hwf Hm Hr. destruct (kind_of f reg) eqn:Ek.
  { rewrite (cfg_image_ext f) by (apply func_type_write || by apply write_ro). cbn [reg_write].
    destruct (Z.lt_ge_cases reg 98) as [Hlt|Hge].
    - rewrite list_insert_id; [done|]. apply list_lookup_lookup_total_lt. rewrite cfg_image_length by done. lia.
    - rewrite list_insert_ge; [done|]. rewrite cfg_image_length by done. lia. }
  all: unfold kind_of in Ek; repeat (case_match; simplify_eq); repeat match goal with
    | H : _ && _ = true |- _ => apply andb_prop in H as [? ?]
    | H : (_ =? _) = true |- _ => apply Z.eqb_eq in H; subst
    | H : negb _ = true |- _ => apply negb_true_iff in H
    | H : bool_decide _ = true |- _ => apply bool_decide_eq_true in H
    end.
  - by apply image_1.
  - by apply image_3.
  - by apply image_17.
  - by apply image_84.
  - by apply image_86.
  - by apply image_90.
  - apply (image_bar d m 4); auto.
  - apply (image_bar d m 5); auto.
  - apply (image_vf_bar d m 91); auto.
  - apply (image_vf_bar d m 92); auto.
  - by apply image_12.
Qed.

Lemma u16_width x : in_width 16 (u16 x).
Proof. apply (uwrap_range 16). lia. Qed.
Lemma u32_width x : in_width 32 (u32 x).
Proof. apply (uwrap_range 32). lia. Qed.

Lemma reg_write_width k m d x : in_width 32 x -> in_width 32 m -> in_width 32 (reg_write k m d x).
Proof.
  intros Hx Hm. destruct k as [|rw w1c|size high|size]; cbn [reg_write]; [done|..].
  - apply ldiff_width, mix_width; try done; try lia. by apply land_width.
  - assert (in_width 32 (Z.land d m)) as Hd by (rewrite Z.land_comm; by apply land_width).
    pose proof (u64_range (- size)).
    assert (forall b : bool, in_width 32 (if b then if high then u64 (- size) / 2 ^ 32 else u64 (- size) mod 2 ^ 32
      else Z.land d m)) as Hv.
    { intros [|]; [|done]. destruct high; [|apply Z.mod_pos_bound; lia].
      split; [apply Z.div_pos; lia|apply Z.div_lt_upper_bound; lia]. }
    destruct high; [apply Hv|]. apply lor_width; [lia| |unfold in_width; lia]. apply land_width; [lia|apply Hv].
  - apply lor_width; [lia| |unfold in_width; lia]. apply land_width; [lia|].
    destruct (_ =? _); [apply u32_width|]. rewrite Z.land_comm. by apply land_width.
Qed.

Lemma command_write_width m d x : in_width 16 x -> in_width 16 m -> in_width 16 (command_write m d x).
Proof. intros. rewrite command_write_mix. apply mix_width; [lia|done|by apply land_width]. Qed.
Lemma status_write_width m d x : in_width 16 x -> in_width 16 (status_write m d x).
Proof. intros. rewrite status_write_ldiff. by apply ldiff_width. Qed.
Lemma pmcsr_write_width m d x : in_width 16 x -> in_width 16 m -> granular TLP_CAP_PM_STATE m ->
  granular TLP_CAP_PM_DATA_SEL m -> in_width 16 (pmcsr_write m d x).
Proof. intros. rewrite pmcsr_write_mix by done. apply mix_width; [lia|done|by apply land_width]. Qed.

(** The fields of the registers that are not whole double words. *)
Definition words f := [h_command (hdr f); h_status (hdr f); pm_pmcsr (pm_cap (caps (pci_config_space_of f)));
  sr_control (sriov f); sr_status (sriov f); sr_num_vfs (sriov f)].
Definition bytes f := [h_cache_line_size (hdr f); h_latency_timer (hdr f); h_header_type (hdr f);
  h_bist (hdr f); pm_reserved (pm_cap (caps (pci_config_space_of f))); pm_data (pm_cap (caps (pci_config_space_of f)));
  sr_fcn_dep_link (sriov f); sr_reserved (sriov f)].
Definition parts_wf f : Prop :=
  Forall (in_width 16) (words f) /\ Forall (in_width 8) (bytes f) /\
  length (h_bar (hdr f)) = 6%nat /\ length (sr_vf_bar (sriov f)) = 6%nat.

Lemma parts_wf_ext f f' : pci_config_space_of f' = pci_config_space_of f -> parts_wf f -> parts_wf f'.
Proof. intros E. unfold parts_wf, words, bytes, hdr, sriov. by rewrite E. Qed.

Lemma header_write_parts reg d m f : be_mask_ok m -> parts_wf f -> parts_wf (handle_config_space_header_write reg d m f).
Proof.
  intros Hm (Hw & Hy & Hb & Hv). unfold words, bytes in Hw, Hy. repeat rewrite list.Forall_cons in Hw; repeat rewrite list.Forall_cons in Hy.
  destruct Hw as (? & ? & ? & ? & ? & ? & _). destruct Hy as (? & ? & ? & ? & ? & ? & ? & ? & _).
  unfold handle_config_space_header_write.
  match goal with |- parts_wf (set_cmpl ?g _ _ _) => assert (parts_wf g); [|done] end.
  destruct (reg =? 1).
  { repeat split; try done; repeat apply List.Forall_cons; try apply List.Forall_nil; try done.
    - by apply (command_write_width (lo16 m) (lo16 d)), lo16_width.
    - by apply (status_write_width (hi16 m) (hi16 d)). }
  destruct (reg =? 3).
  { unfold config_space_header_write_reg3. destruct (negb _); [|by repeat split; repeat apply List.Forall_cons].
    repeat split; try done; repeat apply List.Forall_cons; try apply List.Forall_nil; try done.
    apply land_width; [lia|]. apply (uwrap_range 8). lia. }
  destruct (in_case 4 9 reg).
  { unfold config_space_header_write_bar. destruct (func_type f); [destruct (1 <? _)|];
      repeat split; try done; repeat apply List.Forall_cons; try done. cbn. by rewrite length_insert. }
  destruct (reg =? 12); [|destruct (reg =? 15)]; repeat split; try done; by repeat apply List.Forall_cons.
Qed.

Lemma pm_write_parts reg d m f : be_mask_ok m -> parts_wf f -> parts_wf (config_space_cap_pm_write reg d m f).
Proof.
  intros Hm (Hw & Hy & Hb & Hv). unfold words, bytes in Hw, Hy. repeat rewrite list.Forall_cons in Hw; repeat rewrite list.Forall_cons in Hy.
  destruct Hw as (? & ? & ? & ? & ? & ? & _). destruct Hy as (? & ? & ? & ? & ? & ? & ? & ? & _).
  unfold config_space_cap_pm_write. destruct (negb _); [by repeat split; repeat apply List.Forall_cons|].
  repeat split; try done; repeat apply List.Forall_cons; try apply List.Forall_nil; try done.
  by apply (pmcsr_write_width (lo16 m) (lo16 d)); [|apply lo16_width|apply Hm|apply Hm].
Qed.

Lemma sriov_write_parts reg d m f : parts_wf f -> parts_wf (config_space_ext_cap_sriov_write reg d m f).
Proof.
  intros (Hw & Hy & Hb & Hv). unfold words, bytes in Hw, Hy. repeat rewrite list.Forall_cons in Hw; repeat rewrite list.Forall_cons in Hy.
  destruct Hw as (? & ? & ? & ? & ? & ? & _). destruct Hy as (? & ? & ? & ? & ? & ? & ? & ? & _).
  unfold config_space_ext_cap_sriov_write. repeat case_match.
  all: repeat split; try done; repeat apply List.Forall_cons; try apply List.Forall_nil; try done.
  all: try apply u16_width. all: cbn; by rewrite length_insert.
Qed.

Lemma write_parts reg d m f : be_mask_ok m -> parts_wf f -> parts_wf (cfg_write_switch reg d m f).1.
Proof.
  intros Hm Hp. unfold cfg_write_switch. destruct (in_case 0 15 reg); [by apply header_write_parts|].
  destruct (in_case 16 63 reg).
  { unfold handle_config_space_caps_write. destruct (in_case _ _ reg); cbn [fst]; [|done].
    apply (parts_wf_ext (config_space_cap_pm_write reg d m f)); [done|]. by apply pm_write_parts. }
  destruct (in_case 64 1023 reg); [|done].
  unfold handle_config_space_ext_caps_write. destruct (_ && _); cbn [fst]; [|done].
  apply (parts_wf_ext (config_space_ext_cap_sriov_write reg d m f)); [done|]. by apply sriov_write_parts.
Qed.

Lemma write_wf f reg d m : func_wf f -> be_mask_ok m -> 0 <= reg < 1024 -> func_wf (cfg_write_switch reg d m f).1.
Proof.
  intros Hwf Hm Hr. pose proof (write_image f reg d m Hwf Hm Hr) as Hi.
  destruct (write_parts reg d m f Hm) as (H1 & H2 & H3 & H4); [by destruct Hwf|]. split; [done|done| |done|done].
  rewrite Hi. apply list.Forall_insert; [apply Hwf|]. apply reg_write_width; [|apply Hm].
  destruct (cfg_image f !! Z.to_nat reg) as [x|] eqn:E.
  - rewrite (list_lookup_total_correct _ _ _ E). pose proof (wf_image f Hwf) as Hf.
    rewrite list.Forall_forall in Hf. apply Hf. by eapply list_elem_of_lookup_2.
  - rewrite list_lookup_total_alt, E. unfold in_width. cbn. lia.
Qed.

Lemma read_width f reg x : func_wf f -> 0 <= reg < 1024 -> cfg_read reg f = Done x -> in_width 32 x.
Proof.
  intros Hwf Hr. destruct (Z.lt_ge_cases reg 98) as [Hlt|Hge].
  - rewrite cfg_read_low by (done || lia). intros [= <-]. pose proof (wf_image f Hwf) as Hf.
    rewrite list.Forall_forall in Hf. apply Hf. apply list_elem_of_lookup_total_2.
    rewrite cfg_image_length by done. lia.
  - rewrite cfg_read_high by lia. by intros [= <-].
Qed.

(** The functions the sample sets up: the physical one and the virtual ones. *)
Definition pf_init (total_vfs : Z) : devemu_pci_func :=
  {| func_type := DOCA_PCI_FUNC_TYPE_PF; vf_index := 0; pci_config_space_of := init_pci_config_space total_vfs;
     cxt := init_tlp_handler_cxt None |}.
Definition vf_init (i : Z) : devemu_pci_func :=
  let s := init_pci_config_space 0 in
  let h := header s in
  {| func_type := DOCA_PCI_FUNC_TYPE_VF; vf_index := i;
     pci_config_space_of := {| s with header := {| h with h_reg0 := w16 TLP_PCI_TYPE_VENDOR_ID VF_PCI_TYPE_DEVICE_ID;
       h_bar := replicate 6 0; h_expansion_rom_base_address := 0 |} |};
     cxt := init_tlp_handler_cxt None |}.

Lemma pf_init_wf total : 0 <= total <= 7 -> func_wf (pf_init total).
Proof.
  intros Ht. assert (0 <= total < Z.of_nat 8) as Ht' by lia. clear Ht. revert total Ht'. apply upto_cases.
  cbn [seq fmap list_fmap]. repeat apply List.Forall_cons; try apply List.Forall_nil.
  all: split; try done; repeat apply List.Forall_cons; try apply List.Forall_nil; unfold in_width; vm_compute; split; done.
Qed.
Lemma vf_init_wf i : func_wf (vf_init i).
Proof.
  split; try done; repeat apply List.Forall_cons; try apply List.Forall_nil; unfold in_width; vm_compute; split; done.
Qed.

Lemma kind_high f reg : 98 <= reg -> kind_of f reg = ReadOnly.
Proof. intros Hr. unfold kind_of. repeat (case_match; try done). all: lia. Qed.

(** Reading register [j] after a write to register [reg]. *)
Lemma read_after_write f reg d m j : func_wf f -> be_mask_ok m -> 0 <= reg < 1024 -> 0 <= j < 1024 ->
  exists x, cfg_read j f = Done x /\ in_width 32 x /\
    cfg_read j (cfg_write_switch reg d m f).1 = Done (if j =? reg then reg_write (kind_of f reg) m d x else x).
Proof.
  intros Hwf Hm Hr Hj. pose proof (write_wf f reg d m Hwf Hm Hr) as Hwf'. pose proof (cfg_read_image f j Hwf Hj) as E.
  eexists. split; [exact E|]. split; [exact (read_width f j _ Hwf Hj E)|].
  rewrite (cfg_read_image _ j Hwf' Hj), write_image by done. f_equal.
  destruct (Z.eqb_spec j reg) as [->|Hne].
  - pose proof (cfg_image_length f Hwf) as Hl. destruct (Z.lt_ge_cases reg 98) as [Hlt|Hge].
    + destruct (lookup_lt_is_Some_2 (cfg_image f) (Z.to_nat reg)) as [x Ex]; [lia|].
      rewrite list_lookup_insert_eq, (list_lookup_total_correct _ _ _ Ex), Ex by lia. reflexivity.
    + rewrite list_insert_ge, lookup_ge_None_2, kind_high by lia. done.
  - rewrite list_lookup_insert_ne by lia. done.
Qed.

(** Writing a configuration register. For any register, data and byte enables,
    the register that is written afterwards reads as [reg_write] says for its kind,
    and every other register reads as before. In [kind_of]: command bits 1, 2, 6, 8
    and 10 are written, status bits 8 and 11 to 15 are cleared by writing 1, the cache line
    size and the power management state, enable, select and status bits are written;
    base address registers answer a write of ones with the size mask and keep their
    type bits; only the physical function has them and the SR-IOV registers, where the
    enable bits, the page size and, while virtual functions are disabled, their number
    can be written; all other registers are read only. *)
Theorem config_write_spec f reg be d m j :
  func_wf f -> 0 <= reg < 1024 -> 0 <= be < 16 -> map_first_dw_be_to_mask be = Done m -> 0 <= j < 1024 ->
  exists x, cfg_read j f = Done x /\
    cfg_read j (cfg_write_switch reg d m f).1 = Done (if j =? reg then reg_write (kind_of f reg) m d x else x).
Proof.
  intros Hwf Hr Hbe Hm Hj.
  destruct (read_after_write f reg d m j) as (x & H1 & _ & H2); [done|by eapply be_mask_spec|done|done|]. by exists x.
Qed.

Lemma config_read_image_witness :
  func_wf (pf_init 3) /\ 0 <= 85 < 1024 /\ cfg_read 85 (pf_init 3) = Done 0x30003.
Proof.
  split; [by apply pf_init_wf|]. split; [done|].
  rewrite (config_read_image (pf_init 3) 85); [by vm_compute|by apply pf_init_wf|done].
Defined.

Lemma config_write_spec_witness :
  exists x, cfg_read 1 (pf_init 3) = Done x /\ cfg_read 1 (cfg_write_switch 1 0xFFFFFFFF 0xFF (pf_init 3)).1 =
    Done (reg_write (kind_of (pf_init 3) 1) 0xFF 0xFFFFFFFF x).
Proof. apply (config_write_spec (pf_init 3) 1 1 0xFFFFFFFF 0xFF 1); [by apply pf_init_wf|done..]. Defined.

(** ** The capability lists *)

(** The configuration writes [(reg, be, data)] of a host, one after the other. *)
Fixpoint cfg_writes (ws : list (Z * Z * Z)) (f : devemu_pci_func) : res devemu_pci_func :=
  match ws with
  | [] => Done f
  | (reg, be, d) :: ws => m ← map_first_dw_be_to_mask be; cfg_writes ws (cfg_write_switch reg d m f).1
  end.

Definition write_ok (w : Z * Z * Z) : Prop := let '(reg, be, _) := w in 0 <= reg < 1024 /\ 0 <= be < 16.

(** How a host finds the capabilities: it follows the pointers from a first one, here
    with the ids and the offsets it meets. *)
Fixpoint cap_list (fuel : nat) (ptr : Z) (f : devemu_pci_func) : res (list (Z * Z)) :=
  match fuel with
  | O => Crash OutOfFuel
  | S fuel =>
    if ptr =? 0 then Done []
    else x ← cfg_read (ptr / 4) f; l ← cap_list fuel (Z.land (Z.shiftr x 8) 0xFF) f; Done ((Z.land x 0xFF, ptr) :: l)
  end.
Fixpoint ext_cap_list (fuel : nat) (ptr : Z) (f : devemu_pci_func) : res (list (Z * Z)) :=
  match fuel with
  | O => Crash OutOfFuel
  | S fuel =>
    if ptr =? 0 then Done []
    else x ← cfg_read (ptr / 4) f; l ← ext_cap_list fuel (Z.shiftr x 20) f; Done ((Z.land x 0xFFFF, ptr) :: l)
  end.
Definition host_caps (f : devemu_pci_func) : res (list (Z * Z)) := p ← cfg_read 13 f; cap_list 10 (Z.land p 0xFF) f.
Definition host_ext_caps (f : devemu_pci_func) : res (list (Z * Z)) := ext_cap_list 10 0x100 f.

(** [tlp_pci_cap_confs], [tlp_pcie_cap_confs]: id, offset and length in bytes. *)
Definition tlp_pci_cap_confs : list (Z * Z * Z) :=
  [(TLP_PCI_CAP_ID_EXPRESS, TLP_PCI_CAP_OFFSET_EXPRESS, TLP_CAP_EXPRESS_LEN_DW * 4);
   (TLP_PCI_CAP_ID_MSIX, TLP_PCI_CAP_OFFSET_MSIX, TLP_CAP_MSIX_LEN_DW * 4);
   (TLP_PCI_CAP_ID_VPD, TLP_PCI_CAP_OFFSET_VPD, TLP_CAP_VPD_LEN_DW * 4);
   (TLP_PCI_CAP_ID_PM, TLP_PCI_CAP_OFFSET_PM, TLP_CAP_PM_LEN_DW * 4)].
Definition tlp_pcie_cap_confs : list (Z * Z * Z) :=
  [(TLP_PCIE_CAP_ID_AER, TLP_PCIE_CAP_OFFSET_AER, TLP_CAP_AER_LEN_DW * 4);
   (TLP_PCIE_CAP_ID_SRIOV, TLP_PCIE_CAP_OFFSET_SRIOV, TLP_CAP_SRIOV_LEN_DW * 4)].

(** The registers on the lists. *)
Definition cap_regs : list Z := [13; 16; 18; 24; 39; 64; 82].

Lemma cap_regs_ro f j : j ∈ cap_regs -> kind_of f j = ReadOnly.
Proof. unfold cap_regs. rewrite !elem_of_cons, elem_of_nil. by intros [->|[->|[->|[->|[->|[->|[->|[]]]]]]]]. Qed.
Lemma cap_regs_range j : j ∈ cap_regs -> 0 <= j < 1024.
Proof. unfold cap_regs. rewrite !elem_of_cons, elem_of_nil. lia. Qed.

Lemma be_mask_total be : 0 <= be < 16 -> exists m, map_first_dw_be_to_mask be = Done m /\ be_mask_ok m.
Proof.
  intros Hbe. assert (exists m, map_first_dw_be_to_mask be = Done m) as [m Em].
  { revert be Hbe. change 16 with (Z.of_nat 16).
    apply (upto_cases 16 (fun be => exists m, map_first_dw_be_to_mask be = Done m)).
    cbn [seq fmap list_fmap]. repeat apply List.Forall_cons; try apply List.Forall_nil; by eexists. }
  exists m. split; [done|]. by apply (be_mask_spec be).
Qed.

Lemma cfg_writes_ro ws f : func_wf f -> Forall write_ok ws -> exists f', cfg_writes ws f = Done f' /\ func_wf f' /\
  forall j, j ∈ cap_regs -> cfg_read j f' = cfg_read j f.
Proof.
  intros Hwf Hws. revert f Hwf. induction Hws as [|[[reg be] d] ws [Hr Hbe] _ IH]; intros f Hwf; [by exists f|].
  destruct (be_mask_total be Hbe) as (m & Em & Hm). cbn [cfg_writes]. rewrite Em. cbn.
  destruct (IH (cfg_write_switch reg d m f).1) as (f' & E & Hwf' & Hj); [by apply write_wf|].
  exists f'. split; [done|]. split; [done|]. intros j Hin. rewrite Hj by done.
  destruct (read_after_write f reg d m j) as (x & -> & _ & ->); auto using cap_regs_range.
  destruct (Z.eqb_spec j reg) as [->|]; [|done]. by rewrite cap_regs_ro.
Qed.

(** A walk depends only on the registers it meets. *)
Lemma cap_list_ext f f' n ptr l : cap_list n ptr f = Done l ->
  Forall (fun c => cfg_read (c.2 / 4) f' = cfg_read (c.2 / 4) f) l -> cap_list n ptr f' = Done l.
Proof.
  revert ptr l. induction n as [|n IH]; intros ptr l; [done|]. cbn [cap_list]. destruct (ptr =? 0); [done|].
  intros E Hl. inv_bind E. inv_bind E. injection E as [= <-]. apply list.Forall_cons in Hl as [Hp Hl].
  cbn [snd] in Hp. rewrite Hp, E0. cbn [mbind res_bind]. by rewrite (IH _ _ E1 Hl).
Qed.
Lemma ext_cap_list_ext f f' n ptr l : ext_cap_list n ptr f = Done l ->
  Forall (fun c => cfg_read (c.2 / 4) f' = cfg_read (c.2 / 4) f) l -> ext_cap_list n ptr f' = Done l.
Proof.
  revert ptr l. induction n as [|n IH]; intros ptr l; [done|]. cbn [ext_cap_list]. destruct (ptr =? 0); [done|].
  intros E Hl. inv_bind E. inv_bind E. injection E as [= <-]. apply list.Forall_cons in Hl as [Hp Hl].
  cbn [snd] in Hp. rewrite Hp, E0. cbn [mbind res_bind]. by rewrite (IH _ _ E1 Hl).
Qed.

(** The offset and the end of the capability structures, in double words. *)
Definition conf_regs (c : Z * Z * Z) : list Z :=
  let '(_, offset, length) := c in (fun k => offset / 4 + Z.of_nat k) <$> seq 0 (Z.to_nat (length / 4)).

Lemma host_lists_stable f f' l el : (forall j, j ∈ cap_regs -> cfg_read j f' = cfg_read j f) ->
  host_caps f = Done l -> host_ext_caps f = Done el ->
  Forall (fun c => c.2 / 4 ∈ cap_regs) l -> Forall (fun c => c.2 / 4 ∈ cap_regs) el ->
  host_caps f' = Done l /\ host_ext_caps f' = Done el.
Proof.
  intros Hj E Ee Hl He. split.
  - unfold host_caps in *. rewrite Hj by (unfold cap_regs; set_solver). inv_bind E. rewrite E0. cbn [mbind res_bind].
    apply (cap_list_ext f); [done|]. eapply list.Forall_impl; [exact Hl|]. auto.
  - apply (ext_cap_list_ext f); [done|]. eapply list.Forall_impl; [exact He|]. auto.
Qed.

Lemma in_cap_regs (l : list (Z * Z)) : forallb (fun c => bool_decide (c.2 / 4 ∈ cap_regs)) l = true ->
  Forall (fun c => c.2 / 4 ∈ cap_regs) l.
Proof.
  intros H. apply list.Forall_forall. intros c Hc. rewrite forallb_forall in H.
  apply (bool_decide_eq_true _), H. by apply list_elem_of_In.
Qed.

(** C27: the capability lists. Whatever configuration writes a host has made, walking the
    capability pointers of the physical and of a virtual function terminates and
    finds exactly the capabilities declared in [tlp_pci_cap_confs], each at its
    declared offset; the extended list has AER and, only in a physical function with virtual
    functions, SR-IOV, as in [tlp_pcie_cap_confs]; and the declared structures do not overlap. *)
Theorem caps_walk total i ws : 0 <= total <= TLP_MAX_TOTAL_VFS -> Forall write_ok ws ->
  NoDup ((tlp_pci_cap_confs ++ tlp_pcie_cap_confs) ≫= conf_regs) /\
  (exists f l, cfg_writes ws (pf_init total) = Done f /\ host_caps f = Done l /\ l ≡ₚ tlp_pci_cap_confs.*1 /\
    host_ext_caps f = Done (if total =? 0 then take 1 tlp_pcie_cap_confs.*1 else tlp_pcie_cap_confs.*1)) /\
  (exists f l, cfg_writes ws (vf_init i) = Done f /\ host_caps f = Done l /\ l ≡ₚ tlp_pci_cap_confs.*1 /\
    host_ext_caps f = Done (take 1 tlp_pcie_cap_confs.*1)).
Proof.
  intros Ht Hws. split; [apply (bool_decide_unpack _); by vm_compute|].
  assert ([(0x10, 0x60); (3, 0x48); (0x11, 0x9c); (1, 0x40)] ≡ₚ tlp_pci_cap_confs.*1) as Hp
    by (apply (bool_decide_unpack _); by vm_compute).
  split.
  - destruct (cfg_writes_ro ws (pf_init total)) as (f & E & _ & Hj); [by apply pf_init_wf|done|].
    assert (host_caps (pf_init total) = Done [(0x10, 0x60); (3, 0x48); (0x11, 0x9c); (1, 0x40)] /\
      host_ext_caps (pf_init total) = Done (if total =? 0 then take 1 tlp_pcie_cap_confs.*1 else tlp_pcie_cap_confs.*1))
      as [E1 E2].
    { assert (0 <= total < Z.of_nat 8) as Ht' by (unfold TLP_MAX_TOTAL_VFS in Ht; lia). clear -Ht'.
      revert total Ht'. apply upto_cases. cbn [seq fmap list_fmap].
      repeat apply List.Forall_cons; try apply List.Forall_nil; by vm_compute. }
    destruct (host_lists_stable _ f _ _ Hj E1 E2) as [H1 H2];
      [by apply in_cap_regs|destruct (total =? 0); by apply in_cap_regs|]. by repeat eexists.
  - destruct (cfg_writes_ro ws (vf_init i)) as (f & E & _ & Hj); [by apply vf_init_wf|done|].
    destruct (host_lists_stable (vf_init i) f [(0x10, 0x60); (3, 0x48); (0x11, 0x9c); (1, 0x40)]
      (take 1 tlp_pcie_cap_confs.*1) Hj) as [H1 H2]; [by vm_compute..|by apply in_cap_regs|by apply in_cap_regs|].
    by repeat eexists.
Qed.

Lemma caps_walk_witness : exists f, cfg_writes [(24, 15, 0); (82, 15, 0xFFFFFFFF)] (pf_init 7) = Done f /\
  host_ext_caps f = Done [(1, 0x100); (0x10, 0x148)].
Proof.
  destruct (caps_walk 7 0 [(24, 15, 0); (82, 15, 0xFFFFFFFF)]) as (_ & (f & l & H1 & _ & _ & H2) & _);
    [done|by repeat constructor|]. by exists f.
Defined.

(** ** Behaviours that look unintended *)

(** A write of some bytes of a base address register clears the others. *)
Lemma bar_partial_write :
  (f ← cfg_writes [(5, 15, 0x12345678); (5, 1, 0xAA)] (pf_init 0); cfg_read 5 f) = Done 0xAA.
Proof. by vm_compute. Qed.

(** The expansion ROM register of a virtual function, initially 0, can be written. *)
Lemma vf_rom_writable :
  cfg_read 12 (vf_init 0) = Done 0 /\ (f ← cfg_writes [(12, 15, 0x1000)] (vf_init 0); cfg_read 12 f) = Done 0x1001.
Proof. by vm_compute. Qed.
