(* ===== verification/TlpReq.v ===== *)
(** * TlpReq: requests of the TLP handler sample,
      src/samples/doca_devemu/devemu_pci_device_tlp_handler/dpu/
      devemu_pci_device_tlp_handler_dpu_sample.c

    Decoding a request, routing it to the physical or a virtual function, the
    memory of the functions behind their base address registers, completions,
    and the callback [tlp_req_handler_cb] that the channel runs for every request.

    Header and data are lists of double words as the code loads them, on a
    little-endian machine. The bit-field macros of the DOCA library are a
    parameter: the class [Be32] holds them and [Be32Laws] what is documented
    of them; [be32_bits] is an instance.

    [device_invariant] says that every well-formed request is answered as its kind asks
    for, without access outside a buffer, and keeps the invariant of the device; [completion_header]
    that a completion names its request; [config_read_request], [config_write_request]
    and [mmio_routing] which function handles a request and what it does; [memory_write_read]
    that memory keeps what is written; [bar_program] that a host can size and place
    the memory; [setup_success_iff] when set-up succeeds. *)

From S2P Require Import Prelude TlpCfg.

(** ** The bit-field macros *)

(** [be32toh] on a little-endian machine. *)
Definition be32toh (raw : Z) : Z := be_combine (le_split 4 raw).

(** [DOCA_BE32_GET(DOCA_BE32_GENMASK(hi, lo), raw)] and the value of [*p] after
    [DOCA_BE32P_SET(DOCA_BE32_GENMASK(hi, lo), v, p)] when it was [raw]. The
    constant [DOCA_DEVEMU_PCI_TLP_CHANNEL_REQ_DSP_ID_IMPLICIT]. *)
Class Be32 := {
  BE32_GET : Z -> Z -> Z -> Z;
  BE32P_SET : Z -> Z -> Z -> Z -> Z;
  DSP_ID_IMPLICIT : Z;
}.

(** The macros read and write a field of the big-endian value; writing is used only on
    fields that are zero. *)
Class Be32Laws (B : Be32) : Prop := {
  be32_get : forall hi lo raw, 0 <= lo <= hi -> hi < 32 -> in_width 32 raw ->
    BE32_GET hi lo raw = Z.land (Z.shiftr (be32toh raw) lo) (Z.ones (hi - lo + 1));
  be32_set : forall hi lo v raw, 0 <= lo <= hi -> hi < 32 -> in_width 32 raw -> in_width (hi - lo + 1) v ->
    Z.land (Z.shiftr (be32toh raw) lo) (Z.ones (hi - lo + 1)) = 0 ->
    in_width 32 (BE32P_SET hi lo v raw) /\
    be32toh (BE32P_SET hi lo v raw) = Z.lor (be32toh raw) (Z.shiftl v lo);
}.

(** ** Data *)

Definition TLP_COMPLETION_HEADER_DW_SIZE : Z := 3.
Definition TLP_FMT_3DW_NODATA : Z := 0x0.
Definition TLP_FMT_4DW_NODATA : Z := 0x1.
Definition TLP_FMT_3DW_W_DATA : Z := 0x2.
Definition TLP_FMT_4DW_W_DATA : Z := 0x3.
Definition TLP_REQ_TYPE_MEMORY_READ_WRITE : Z := 0x0.
Definition TLP_REQ_TYPE_IO_READ_WRITE : Z := 0x2.
Definition TLP_REQ_TYPE_CONFIG_READ_WRITE_TYPE_0 : Z := 0x4.
Definition TLP_REQ_TYPE_CONFIG_READ_WRITE_TYPE_1 : Z := 0x5.
Definition TLP_TRANSACTION_CMPL_DATA_MAX_DW : Z := 5.
Definition EXP_BAR_SIZE : Z := Z.shiftl 1 16.
Definition EXP_BAR_INIT_PATTERN : Z := 0xBB.
Definition TLP_DATA_ARRAY_MAX_SIZE : Z := 16.
Definition TRANSACTION_REGION_INIT_PATTERN : Z := 0xAA.
Definition DUMMY_READ_DATA_BASE : Z := 0xDEADBEE0.
Definition BYTE_ENABLE_ALL_MASK : Z := 0xF.
Definition TLP_32BIT_ADDR_DATA_OFFSET_DW : Z := 3.
Definition TLP_64BIT_ADDR_DATA_OFFSET_DW : Z := 4.
Definition DWORD_ALIGN_MASK : Z := 0xFFFFFFFC.
Definition transaction_start_address : Z := 0x3000.
Definition transaction_size : Z := 4096.

Inductive tlp_req_type :=
| TLP_REQ_TYPE_INVALID
| TLP_REQ_TYPE_MEMORY_READ | TLP_REQ_TYPE_MEMORY_WRITE
| TLP_REQ_TYPE_IO_READ | TLP_REQ_TYPE_IO_WRITE
| TLP_REQ_TYPE_CONFIG_READ_TYPE_0 | TLP_REQ_TYPE_CONFIG_WRITE_TYPE_0
| TLP_REQ_TYPE_CONFIG_READ_TYPE_1 | TLP_REQ_TYPE_CONFIG_WRITE_TYPE_1.
#[global] Instance tlp_req_type_eq_dec : EqDecision tlp_req_type.
Proof. solve_decision. Defined.

(** What the channel's accessors return for a request. The header buffer also holds
    the data of memory writes. *)
Record tlp_channel_req := {
  rq_is_pci_event : bool;
  rq_header : list Z;
  rq_data : list Z;
  rq_dsp_id : Z;
  rq_dsp_bdf : Z;
}.

(** A pointer to one of the functions of the device. *)
Inductive func_ref := RefPF | RefVF (i : Z).
#[global] Instance func_ref_eq_dec : EqDecision func_ref.
Proof. solve_decision. Defined.

Record devemu_tlp_resources := {
  rs_pf : devemu_pci_func;
  rs_vf : list devemu_pci_func;
  rs_total_vfs : Z;
  rs_cur_func : func_ref;
  rs_is_dsp_bdf_supported : bool;
}.

(** What a request leaves in its completion buffers; [None] where nothing is written. *)
Record tlp_cpl := { cpl_header : option (list Z); cpl_data : option (list Z) }.
Definition no_cpl : tlp_cpl := {| cpl_header := None; cpl_data := None |}.

(** The call that completes a request, with the function whose device it names. *)
Inductive tlp_complete :=
| CompleteConfigRead (dev : func_ref) (is_cap_id_valid : bool) (cap_id : Z) (is_pcie_cap : bool)
| CompleteConfigWrite (dev : func_ref) (is_cap_id_valid : bool) (cap_id : Z) (is_pcie_cap : bool)
| CompleteTlp (non_posted : bool) (dev : func_ref)
| CompletePciEvent.

(** [a[i]] with a check of the bounds. *)
Definition at_ (l : list Z) (i : Z) : res Z :=
  match l !! Z.to_nat i with Some x => Done x | None => Crash OutOfBounds end.

(** [resources->cur_func] and writing to it. *)
Definition get_ref (r : devemu_tlp_resources) (p : func_ref) : res devemu_pci_func :=
  match p with
  | RefPF => Done (rs_pf r)
  | RefVF i => match rs_vf r !! Z.to_nat i with Some f => Done f | None => Crash OutOfBounds end
  end.
Definition put_ref (r : devemu_tlp_resources) (p : func_ref) (f : devemu_pci_func) : devemu_tlp_resources :=
  match p with
  | RefPF => {| r with rs_pf := f |}
  | RefVF i => {| r with rs_vf := <[Z.to_nat i := f]> (rs_vf r) |}
  end.
Definition get_cur r : res devemu_pci_func := get_ref r (rs_cur_func r).
Definition put_cur r f : devemu_tlp_resources := put_ref r (rs_cur_func r) f.

Section Handler.
Context `{B : Be32}.
Implicit Types (q : tlp_channel_req) (r : devemu_tlp_resources) (h : list Z) (f : devemu_pci_func).

(** ** Decoding *)

(** [DOCA_BE32_GET(DOCA_BE32_GENMASK(hi, lo), ((uint32_t * )(tlp_req))[i])] *)
Definition get_field hi lo i h : res Z := d ← at_ h i; Done (BE32_GET hi lo d).

Definition GET_TLP_REQ_FMT h := get_field 31 29 0 h.
Definition GET_TLP_REQ_TYPE h := get_field 28 24 0 h.
Definition GET_TLP_REQ_TAG9 h := get_field 23 23 0 h.
Definition GET_TLP_REQ_TAG8 h := get_field 19 19 0 h.
Definition GET_TLP_REQ_LENGTH h := get_field 9 0 0 h.
Definition GET_TLP_REQ_REQ_ID h := get_field 31 16 1 h.
Definition GET_TLP_REQ_TAG h := get_field 15 8 1 h.
Definition GET_TLP_REQ_LAST_DW_BE h := get_field 7 4 1 h.
Definition GET_TLP_REQ_FIRST_DW_BE h := get_field 3 0 1 h.
Definition GET_TLP_REQ_BUS h := get_field 31 24 2 h.
Definition GET_TLP_REQ_DEVICE h := get_field 23 19 2 h.
Definition GET_TLP_REQ_FUNCTION h := get_field 18 16 2 h.
Definition GET_TLP_REQ_EXT_REG_NUM h := get_field 11 2 2 h.

Definition parse_64bit_address h : res Z :=
  addr_high ← at_ h 2; addr_low ← at_ h 3;
  Done (Z.lor (Z.shiftl (be32toh addr_high) 32) (Z.land (be32toh addr_low) DWORD_ALIGN_MASK)).
Definition parse_32bit_address h : res Z :=
  addr_low ← at_ h 2; Done (Z.land (be32toh addr_low) DWORD_ALIGN_MASK).

Definition get_tlp_req_type q : res tlp_req_type :=
  fmt ← GET_TLP_REQ_FMT (rq_header q);
  type ← GET_TLP_REQ_TYPE (rq_header q);
  let write := negb (Z.land fmt TLP_FMT_3DW_W_DATA =? 0) in
  Done (if type =? TLP_REQ_TYPE_MEMORY_READ_WRITE then
          if write then TLP_REQ_TYPE_MEMORY_WRITE else TLP_REQ_TYPE_MEMORY_READ
        else if type =? TLP_REQ_TYPE_IO_READ_WRITE then
          if write then TLP_REQ_TYPE_IO_WRITE else TLP_REQ_TYPE_IO_READ
        else if type =? TLP_REQ_TYPE_CONFIG_READ_WRITE_TYPE_0 then
          if write then TLP_REQ_TYPE_CONFIG_WRITE_TYPE_0 else TLP_REQ_TYPE_CONFIG_READ_TYPE_0
        else if type =? TLP_REQ_TYPE_CONFIG_READ_WRITE_TYPE_1 then
          if write then TLP_REQ_TYPE_CONFIG_WRITE_TYPE_1 else TLP_REQ_TYPE_CONFIG_READ_TYPE_1
        else TLP_REQ_TYPE_INVALID).

Definition is_non_posted_tlp_req q : res bool :=
  req_type ← get_tlp_req_type q;
  Done (bool_decide (req_type <> TLP_REQ_TYPE_INVALID) && bool_decide (req_type <> TLP_REQ_TYPE_MEMORY_WRITE)).

(** ** Completions *)

Definition set_tlp_req_completion_header f (byte_count : Z) : list Z :=
  let c := cxt f in
  let dw0 := BE32P_SET 31 29 (cx_cmpl_fmt c) 0 in
  let dw0 := BE32P_SET 28 24 (cx_cmpl_type c) dw0 in
  let dw0 := BE32P_SET 23 23 (cx_tag9 c) dw0 in
  let dw0 := BE32P_SET 19 19 (cx_tag8 c) dw0 in
  let dw0 := BE32P_SET 9 0 (cx_cmpl_length c) dw0 in
  let dw1 := BE32P_SET 31 16 (cx_completer_id c) 0 in
  let dw1 := BE32P_SET 15 13 (cx_cmpl_status c) dw1 in
  let dw1 := BE32P_SET 11 0 byte_count dw1 in
  let dw2 := BE32P_SET 31 16 (cx_requester_id c) 0 in
  let dw2 := BE32P_SET 15 8 (cx_tag c) dw2 in
  [dw0; dw1; dw2].

(** The header of a completion for [resources->cur_func]. *)
Definition cur_header r : res (list Z) := f ← get_cur r; Done (set_tlp_req_completion_header f BYTES_IN_DWORD).

Definition handle_tlp_req_read_type_0 r (ext_reg_num : Z) : res (devemu_tlp_resources * tlp_cpl * (Z * bool * bool)) :=
  f ← get_cur r;
  '(f, cfg_read_data, cap) ← cfg_read_switch ext_reg_num f;
  let r := put_cur r f in
  hd ← cur_header r;
  Done (r, {| cpl_header := Some hd; cpl_data := Some [cfg_read_data] |}, cap).

Definition handle_tlp_req_write_type_0 q r (ext_reg_num : Z) :
    res (devemu_tlp_resources * tlp_cpl * (Z * bool * bool)) :=
  be ← GET_TLP_REQ_FIRST_DW_BE (rq_header q);
  be_mask ← map_first_dw_be_to_mask be;
  d ← at_ (rq_data q) 0;
  f ← get_cur r;
  let '(f, cap) := cfg_write_switch ext_reg_num d be_mask f in
  let r := put_cur r f in
  hd ← cur_header r;
  Done (r, {| cpl_header := Some hd; cpl_data := None |}, cap).

Definition handle_tlp_req_default r : res (devemu_tlp_resources * tlp_cpl) :=
  f ← get_cur r;
  let r := put_cur r (set_cmpl f TLP_FMT_CPL_NODATA TLP_CPL_LENGTH_ZERO TLP_CPL_STATUS_UR) in
  hd ← cur_header r;
  Done (r, {| cpl_header := Some hd; cpl_data := None |}).

(** ** Memory *)

(** The result of [malloc(size)] followed by [memset]: the outcome of the allocation is an
    argument. *)
Definition tlp_init_transaction_region (malloc_ok : bool) (func : option devemu_pci_func) (size : Z) :
    option devemu_pci_func * doca_error_t :=
  match func with
  | None => (None, DOCA_ERROR_INVALID_VALUE)
  | Some f =>
    let c := cxt f in
    if malloc_ok then
      (Some {| f with cxt := {| c with
         cx_transaction_region_memory := Some (replicate (Z.to_nat size) TRANSACTION_REGION_INIT_PATTERN);
         cx_transaction_region_size := size |} |}, DOCA_SUCCESS)
    else (Some {| f with cxt := {| c with cx_transaction_region_memory := None |} |}, DOCA_ERROR_NO_MEMORY)
  end.

Definition tlp_init_exp_bar (malloc_ok : bool) (resources : option devemu_tlp_resources) (size : Z) :
    option devemu_tlp_resources * doca_error_t :=
  match resources with
  | None => (None, DOCA_ERROR_INVALID_VALUE)
  | Some r =>
    let f := rs_pf r in let c := cxt f in
    if malloc_ok then
      (Some {| r with rs_pf := {| f with cxt := {| c with
         cx_exp_bar_memory := Some (replicate (Z.to_nat size) EXP_BAR_INIT_PATTERN); cx_exp_bar_size := u32 size |} |} |},
       DOCA_SUCCESS)
    else (Some {| r with rs_pf := {| f with cxt := {| c with cx_exp_bar_memory := None |} |} |}, DOCA_ERROR_NO_MEMORY)
  end.

Definition tlp_cleanup_transaction_region (func : option devemu_pci_func) : option devemu_pci_func :=
  match func with
  | Some f =>
    let c := cxt f in
    match cx_transaction_region_memory c with
    | Some _ => Some {| f with cxt := {| c with cx_transaction_region_memory := None; cx_transaction_region_size := 0 |} |}
    | None => Some f
    end
  | None => None
  end.
Definition tlp_cleanup_exp_bar (resources : option devemu_tlp_resources) : option devemu_tlp_resources :=
  match resources with
  | Some r =>
    let f := rs_pf r in let c := cxt f in
    match cx_exp_bar_memory c with
    | Some _ => Some {| r with rs_pf := {| f with cxt := {| c with cx_exp_bar_memory := None; cx_exp_bar_size := 0 |} |} |}
    | None => Some r
    end
  | None => None
  end.

Definition get_dword_byte_enable_mask (dw_idx num_dwords first_dw_be last_dw_be : Z) : Z :=
  if (num_dwords =? 1) || (dw_idx =? 0) then first_dw_be
  else if dw_idx =? u32 (num_dwords - 1) then last_dw_be
  else BYTE_ENABLE_ALL_MASK.

(** The base of a pair of base address registers. *)
Definition bar_base (bars : list Z) : res Z :=
  hi ← at_ bars 1; lo ← at_ bars 0; Done (Z.lor (Z.shiftl hi 32) (Z.land lo 0xFFFFFFF0)).

Definition get_func_bar0_base r : res Z :=
  f ← get_cur r;
  match func_type f with
  | DOCA_PCI_FUNC_TYPE_VF =>
    vf_bar_base ← bar_base (sr_vf_bar (sriov (rs_pf r)));
    let bar_size := Z.shiftl 1 layout_log_size in
    Done (u64 (vf_bar_base + vf_index f * bar_size))
  | DOCA_PCI_FUNC_TYPE_PF => bar_base (h_bar (hdr f))
  end.

(** The part of a region of [size] bytes at [base] that [length] bytes at
    [address] overlap: the offset and the number of double words. *)
Definition operation_params (base size address length : Z) : option (Z * Z) :=
  let bar_address_end := u64 (base + size) in
  if (address <? base) || (bar_address_end <=? address) then None
  else
    let offset := address - base in
    let max_size := u64 (size - offset) in
    let actual_size := if length <? max_size then length else max_size in
    Some (offset, u32 ((actual_size + (BYTES_IN_DWORD - 1)) / BYTES_IN_DWORD)).

(** Offset, number of double words and the memory; [None] is [DOCA_ERROR_NOT_FOUND]. *)
Definition evaluate_transaction_operation_params (address length : Z) r : res (option (Z * Z * list Z)) :=
  f ← get_cur r;
  match cx_transaction_region_memory (cxt f) with
  | None => Done None
  | Some mem =>
    if cx_transaction_region_size (cxt f) =? 0 then Done None
    else
      bar_base_address ← get_func_bar0_base r;
      let bar_base_address := u64 (bar_base_address + transaction_start_address) in
      Done (match operation_params bar_base_address (cx_transaction_region_size (cxt f)) address length with
            | Some (offset, n) => Some (offset, n, mem)
            | None => None
            end)
  end.

Definition evaluate_exp_bar_operation_params (address length : Z) r : res (option (Z * Z * list Z)) :=
  f ← get_cur r;
  match cx_exp_bar_memory (cxt f) with
  | None => Done None
  | Some mem =>
    if cx_exp_bar_size (cxt f) =? 0 then Done None
    else
      let bar_base_address := Z.land (h_expansion_rom_base_address (hdr f)) EXP_BAR_ADDR_MASK in
      Done (match operation_params bar_base_address (cx_exp_bar_size (cxt f)) address length with
            | Some (offset, n) => Some (offset, n, mem)
            | None => None
            end)
  end.

(** [be_mask & (1 << byte_idx)] *)
Definition byte_enabled (be_mask byte_idx : Z) : bool := negb (Z.land be_mask (Z.shiftl 1 byte_idx) =? 0).

Definition idx (n : Z) : list Z := Z.of_nat <$> seq 0 (Z.to_nat n).

(** One double word at [pos], with the bytes that are not enabled 0. *)
Definition read_dword (mem : list Z) (pos be_mask : Z) : res Z :=
  bs ← mapM (fun byte_idx => if byte_enabled be_mask byte_idx then at_ mem (pos + byte_idx) else Done 0) (idx BYTES_IN_DWORD);
  Done (le_combine bs).

Definition write_byte (mem : list Z) (pos x : Z) : res (list Z) :=
  if Z.of_nat (length mem) <=? pos then Crash OutOfBounds else Done (<[Z.to_nat pos := x]> mem).

(** Write the enabled ones of the bytes [(byte_idx, value)] at [pos]. *)
Fixpoint write_bytes (l : list (Z * Z)) (mem : list Z) (pos be_mask : Z) : res (list Z) :=
  match l with
  | [] => Done mem
  | (byte_idx, x) :: l =>
    mem ← if byte_enabled be_mask byte_idx then write_byte mem (pos + byte_idx) x else Done mem;
    write_bytes l mem pos be_mask
  end.
Definition write_dword (mem : list Z) (pos be_mask dword_data : Z) : res (list Z) :=
  write_bytes (zip (idx BYTES_IN_DWORD) (le_split 4 dword_data)) mem pos be_mask.

Definition get_memory_read_data (address length first_dw_be last_dw_be : Z) r : res (devemu_tlp_resources * list Z) :=
  let num_dwords := length / BYTES_IN_DWORD in
  let num_dwords := if TLP_TRANSACTION_CMPL_DATA_MAX_DW <? num_dwords then TLP_TRANSACTION_CMPL_DATA_MAX_DW else num_dwords in
  p ← evaluate_transaction_operation_params address length r;
  p ← match p with Some p => Done (Some p) | None => evaluate_exp_bar_operation_params address length r end;
  data ← match p with
         | None => Done ((fun i => u32 (DUMMY_READ_DATA_BASE + i)) <$> idx num_dwords)
         | Some (offset, actual_dwords, mem) =>
           let actual_dwords := if num_dwords <? actual_dwords then num_dwords else actual_dwords in
           mapM (fun dw_idx => read_dword mem (offset + dw_idx * BYTES_IN_DWORD)
                   (get_dword_byte_enable_mask dw_idx num_dwords first_dw_be last_dw_be)) (idx actual_dwords)
         end;
  let cmpl_data_array := data ++ replicate (Z.to_nat TLP_TRANSACTION_CMPL_DATA_MAX_DW - Datatypes.length data) 0 in
  f ← get_cur r;
  Done (put_cur r (set_cmpl f TLP_FMT_CPL_W_DATA num_dwords TLP_CPL_STATUS_SC), cmpl_data_array).

(** The loop over the double words [dws]. *)
Fixpoint write_dwords (dws : list Z) (data_array : list Z) (mem : list Z) (offset num_dwords first_dw_be last_dw_be : Z) :
    res (list Z) :=
  match dws with
  | [] => Done mem
  | dw_idx :: dws =>
    dword_data ← at_ data_array dw_idx;
    mem ← write_dword mem (offset + dw_idx * BYTES_IN_DWORD)
            (get_dword_byte_enable_mask dw_idx num_dwords first_dw_be last_dw_be) dword_data;
    write_dwords dws data_array mem offset num_dwords first_dw_be last_dw_be
  end.

Definition set_memory_write_data (address length : Z) (data_array : list Z) (first_dw_be last_dw_be : Z) r :
    res devemu_tlp_resources :=
  p ← evaluate_transaction_operation_params address length r;
  match p with
  | None => Done r
  | Some (offset, num_dwords, mem) =>
    mem ← write_dwords (idx num_dwords) data_array mem offset num_dwords first_dw_be last_dw_be;
    f ← get_cur r;
    let c := cxt f in
    Done (put_cur r (set_cmpl {| f with cxt := {| c with cx_transaction_region_memory := Some mem |} |}
      0 TLP_CPL_LENGTH_ZERO 0))
  end.

Definition handle_tlp_req_memory_read q r : res (devemu_tlp_resources * tlp_cpl) :=
  let h := rq_header q in
  length ← GET_TLP_REQ_LENGTH h;
  first_dw_be ← GET_TLP_REQ_FIRST_DW_BE h;
  last_dw_be ← GET_TLP_REQ_LAST_DW_BE h;
  fmt ← GET_TLP_REQ_FMT h;
  address ← if fmt =? TLP_FMT_4DW_NODATA then parse_64bit_address h else parse_32bit_address h;
  '(r, cmpl_data_array) ← get_memory_read_data address (length * BYTES_IN_DWORD) first_dw_be last_dw_be r;
  f ← get_cur r;
  hd ← cur_header r;
  Done (r, {| cpl_header := Some hd; cpl_data := Some (take (Z.to_nat (cx_cmpl_length (cxt f))) cmpl_data_array) |}).

Definition handle_tlp_req_memory_write q r : res devemu_tlp_resources :=
  let h := rq_header q in
  length ← GET_TLP_REQ_LENGTH h;
  first_dw_be ← GET_TLP_REQ_FIRST_DW_BE h;
  last_dw_be ← GET_TLP_REQ_LAST_DW_BE h;
  fmt ← GET_TLP_REQ_FMT h;
  let n := Z.min length TLP_DATA_ARRAY_MAX_SIZE in
  let is64 := fmt =? TLP_FMT_4DW_W_DATA in
  address ← if is64 then parse_64bit_address h else parse_32bit_address h;
  data ← mapM (fun i => at_ h ((if is64 then TLP_64BIT_ADDR_DATA_OFFSET_DW else TLP_32BIT_ADDR_DATA_OFFSET_DW) + i)) (idx n);
  let data_array := data ++ replicate (Z.to_nat (TLP_DATA_ARRAY_MAX_SIZE - n)) 0 in
  set_memory_write_data address (length * BYTES_IN_DWORD) data_array first_dw_be last_dw_be r.

(** ** Requests *)

(** The switch of [handle_tlp_req]. *)
Definition tlp_req_switch q r (ext_reg_num : Z) (tlp_type : tlp_req_type) : res (devemu_tlp_resources * tlp_cpl * tlp_complete) :=
  match tlp_type with
  | TLP_REQ_TYPE_CONFIG_READ_TYPE_0 =>
    '(r, cpl, (cap_id, is_cap_id_valid, is_pcie_cap)) ← handle_tlp_req_read_type_0 r ext_reg_num;
    Done (r, cpl, CompleteConfigRead (rs_cur_func r) is_cap_id_valid cap_id is_pcie_cap)
  | TLP_REQ_TYPE_CONFIG_WRITE_TYPE_0 =>
    '(r, cpl, (cap_id, is_cap_id_valid, is_pcie_cap)) ← handle_tlp_req_write_type_0 q r ext_reg_num;
    Done (r, cpl, CompleteConfigWrite (rs_cur_func r) is_cap_id_valid cap_id is_pcie_cap)
  | TLP_REQ_TYPE_MEMORY_READ =>
    '(r, cpl) ← handle_tlp_req_memory_read q r;
    np ← is_non_posted_tlp_req q;
    Done (r, cpl, CompleteTlp np (rs_cur_func r))
  | TLP_REQ_TYPE_MEMORY_WRITE =>
    r ← handle_tlp_req_memory_write q r;
    np ← is_non_posted_tlp_req q;
    Done (r, no_cpl, CompleteTlp np (rs_cur_func r))
  | _ =>
    '(r, cpl) ← handle_tlp_req_default r;
    np ← is_non_posted_tlp_req q;
    Done (r, cpl, CompleteTlp np (rs_cur_func r))
  end.

(** Who asks, as a completion must say. *)
Definition set_requester f (requester_id tag9 tag8 tag : Z) : devemu_pci_func :=
  let c := cxt f in
  {| f with cxt := {| c with cx_requester_id := requester_id; cx_tag9 := tag9; cx_tag8 := tag8; cx_tag := tag |} |}.

Definition handle_tlp_req q r : res (devemu_tlp_resources * tlp_cpl * tlp_complete) :=
  let h := rq_header q in
  ext_reg_num ← GET_TLP_REQ_EXT_REG_NUM h;
  requester_id ← GET_TLP_REQ_REQ_ID h;
  tag9 ← GET_TLP_REQ_TAG9 h;
  tag8 ← GET_TLP_REQ_TAG8 h;
  tag ← GET_TLP_REQ_TAG h;
  f ← get_cur r;
  let r := put_cur r (set_requester f requester_id tag9 tag8 tag) in
  tlp_type ← get_tlp_req_type q;
  tlp_req_switch q r ext_reg_num tlp_type.

Definition is_vf_enabled r (vf_index : Z) : bool :=
  let v := sriov (rs_pf r) in
  negb (Z.land (sr_control v) SRIOV_CTRL_VF_ENABLE =? 0) && (vf_index <? sr_num_vfs v).

(** The captured address of a function, and its completer id. *)
Definition set_bdf f (bus device function : Z) : devemu_pci_func :=
  let c := cxt f in
  let bdf := u16 (Z.lor (Z.lor (Z.shiftl bus 8) (Z.shiftl device DWORD_LOG_SIZE_BITS)) function) in
  {| f with cxt := {| c with cx_bus := bus; cx_device := device; cx_function := function; cx_bdf := bdf;
                             cx_completer_id := bdf |} |}.
Definition set_bus f (bus : Z) : devemu_pci_func :=
  let c := cxt f in {| f with cxt := {| c with cx_bus := bus |} |}.

(** [None] for [false]. *)
Definition route_config_tlp q r : res (option devemu_tlp_resources) :=
  let h := rq_header q in
  bus ← GET_TLP_REQ_BUS h;
  device ← GET_TLP_REQ_DEVICE h;
  function ← GET_TLP_REQ_FUNCTION h;
  let vf_index := u32 (function - SRIOV_FIRST_VF_OFFSET) in
  if negb (device =? 0) then Done None
  else if negb (function =? 0) &&
          ((rs_total_vfs r =? 0) || (function <? SRIOV_FIRST_VF_OFFSET) || (rs_total_vfs r <=? vf_index) ||
           negb (is_vf_enabled r vf_index)) then Done None
  else
    let p := if function =? 0 then RefPF else RefVF vf_index in
    let r := {| r with rs_cur_func := p |} in
    f ← get_cur r;
    let r := put_cur r (set_bdf f bus device function) in
    Done (Some {| r with rs_pf := set_bus (rs_pf r) bus |}).

Definition get_mmio_address h : res Z :=
  fmt ← GET_TLP_REQ_FMT h;
  if (fmt =? TLP_FMT_4DW_NODATA) || (fmt =? TLP_FMT_4DW_W_DATA) then parse_64bit_address h else parse_32bit_address h.

Definition set_completer_id f (id : Z) : devemu_pci_func :=
  let c := cxt f in {| f with cxt := {| c with cx_completer_id := id |} |}.

(** The target, or [None] for [NULL]. *)
Definition route_mmio_tlp r (address : Z) : res (devemu_tlp_resources * option func_ref) :=
  if rs_total_vfs r =? 0 then Done (r, Some RefPF)
  else
    let v := sriov (rs_pf r) in
    let bar_size := Z.shiftl 1 layout_log_size in
    vf_bar_base ← bar_base (sr_vf_bar v);
    if negb (vf_bar_base =? 0) && (vf_bar_base <=? address) &&
       (address <? u64 (vf_bar_base + rs_total_vfs r * bar_size)) then
      let vf_index := u32 ((address - vf_bar_base) / bar_size) in
      let function := u8 (SRIOV_FIRST_VF_OFFSET + vf_index * SRIOV_VF_STRIDE) in
      if (Z.land (sr_control v) SRIOV_CTRL_VF_MSE =? 0) || negb (is_vf_enabled r vf_index) then Done (r, None)
      else
        vf ← get_ref r (RefVF vf_index);
        let id := u16 (Z.lor (Z.shiftl (cx_bus (cxt (rs_pf r))) 8) function) in
        Done (put_ref r (RefVF vf_index) (set_completer_id vf id), Some (RefVF vf_index))
    else Done (r, Some RefPF).

Definition handle_tlp_req_pci_event : tlp_complete := CompletePciEvent.

(** Unsupported request, answered by the physical function. *)
Definition unsupported r : res (devemu_tlp_resources * tlp_cpl) :=
  let r := {| r with rs_cur_func := RefPF |} in
  f ← get_cur r;
  let r := put_cur r (set_cmpl f TLP_FMT_CPL_NODATA TLP_CPL_LENGTH_ZERO TLP_CPL_STATUS_UR) in
  hd ← cur_header r;
  Done (r, {| cpl_header := Some hd; cpl_data := None |}).

(** The last part of the callback: reset the completion fields and handle the request. *)
Definition reset_and_handle q r : res (devemu_tlp_resources * tlp_cpl * tlp_complete) :=
  f ← get_cur r; handle_tlp_req q (put_cur r (set_cmpl f 0 0 0)).

(** [user_data] is the result of looking up the user data of the channel. *)
Definition tlp_req_handler_cb (user_data : doca_error_t) q r :
    res (devemu_tlp_resources * tlp_cpl * option tlp_complete) :=
  if negb (is_success user_data) then Done (r, no_cpl, None)
  else if rq_is_pci_event q then Done (r, no_cpl, Some handle_tlp_req_pci_event)
  else
    req_type ← get_tlp_req_type q;
    let r := {| r with rs_cur_func := RefPF |} in
    if bool_decide (req_type = TLP_REQ_TYPE_CONFIG_READ_TYPE_0) || bool_decide (req_type = TLP_REQ_TYPE_CONFIG_WRITE_TYPE_0)
    then
      if rs_is_dsp_bdf_supported r && negb (rq_dsp_id q =? 0) && (rq_dsp_id q <? DSP_ID_IMPLICIT) then
        f ← get_cur r;
        '(r, cpl) ← handle_tlp_req_default (put_cur r (set_completer_id f (rq_dsp_bdf q)));
        Done (r, cpl, Some (CompleteTlp true (rs_cur_func r)))
      else
        routed ← route_config_tlp q r;
        match routed with
        | None => '(r, cpl) ← unsupported r; Done (r, cpl, Some (CompleteTlp true (rs_cur_func r)))
        | Some r => '(r, cpl, c) ← reset_and_handle q r; Done (r, cpl, Some c)
        end
    else if bool_decide (req_type = TLP_REQ_TYPE_MEMORY_READ) || bool_decide (req_type = TLP_REQ_TYPE_MEMORY_WRITE) then
      address ← get_mmio_address (rq_header q);
      '(r, target) ← route_mmio_tlp r address;
      match target with
      | None =>
        '(r, cpl) ← unsupported r;
        np ← is_non_posted_tlp_req q;
        Done (r, cpl, Some (CompleteTlp np (rs_cur_func r)))
      | Some p => '(r, cpl, c) ← reset_and_handle q {| r with rs_cur_func := p |}; Done (r, cpl, Some c)
      end
    else '(r, cpl, c) ← reset_and_handle q r; Done (r, cpl, Some c).
End Handler.

(** ** Set-up *)

(** A representor as [init_vfs] meets it: the answers of the library when it asks for
    the function type, opens the representor and creates the device, and whether
    [malloc] succeeds for its region. *)
Record vf_rep := {
  rep_func_type : doca_error_t * doca_pci_func_type;
  rep_open : doca_error_t;
  rep_init_tlp_dev : doca_error_t;
  rep_malloc : bool;
}.

(** The loop of [init_vfs]; it returns the number of functions found. *)
Fixpoint init_vfs_loop (reps : list vf_rep) (vf_count : Z) (r : devemu_tlp_resources) :
    res (devemu_tlp_resources * Z * doca_error_t) :=
  match reps with
  | [] => Done (r, vf_count, DOCA_SUCCESS)
  | rep :: reps =>
    if negb (vf_count <? rs_total_vfs r) then Done (r, vf_count, DOCA_SUCCESS)
    else if negb (is_success (rep_func_type rep).1) || negb (bool_decide ((rep_func_type rep).2 = DOCA_PCI_FUNC_TYPE_VF))
    then init_vfs_loop reps vf_count r
    else
      vf ← get_ref r (RefVF vf_count);
      let vf := {| vf with func_type := DOCA_PCI_FUNC_TYPE_VF; vf_index := vf_count |} in
      if negb (is_success (rep_open rep)) then Done (put_ref r (RefVF vf_count) vf, vf_count, rep_open rep)
      else if negb (is_success (rep_init_tlp_dev rep)) then
        Done (put_ref r (RefVF vf_count) vf, vf_count, rep_init_tlp_dev rep)
      else
        let s := init_pci_config_space 0 in
        let h := header s in
        let h := {| h with h_reg0 := w16 TLP_PCI_TYPE_VENDOR_ID VF_PCI_TYPE_DEVICE_ID; h_bar := replicate 6 0;
                           h_expansion_rom_base_address := 0 |} in
        let vf := {| vf with pci_config_space_of := {| s with header := h |};
                             cxt := init_tlp_handler_cxt (cx_exp_bar_memory (cxt vf)) |} in
        match tlp_init_transaction_region (rep_malloc rep) (Some vf) transaction_size with
        | (Some vf, DOCA_SUCCESS) => init_vfs_loop reps (vf_count + 1) (put_ref r (RefVF vf_count) vf)
        | (Some vf, e) => Done (put_ref r (RefVF vf_count) vf, vf_count, e)
        | (None, e) => Done (r, vf_count, e)
        end
  end.

(** [rep_list] is the result of the call that asks for the representors, and the list. *)
Definition init_vfs (rep_list : doca_error_t * list vf_rep) (r : devemu_tlp_resources) :
    res (devemu_tlp_resources * doca_error_t) :=
  if negb (is_success rep_list.1) then Done (r, rep_list.1)
  else
    '(r, vf_count, e) ← init_vfs_loop rep_list.2 0 r;
    Done (r, if negb (is_success e) then e
             else if negb (vf_count =? rs_total_vfs r) then DOCA_ERROR_NOT_FOUND else DOCA_SUCCESS).

(** The outcomes of creating the device of the physical function and of the two
    allocations are arguments. *)
Definition tlp_devices_setup (pf_dev : doca_error_t) (malloc_region malloc_exp : bool)
    (rep_list : doca_error_t * list vf_rep) (r : devemu_tlp_resources) : res (devemu_tlp_resources * doca_error_t) :=
  if negb (is_success pf_dev) then Done (r, pf_dev)
  else
    let f := rs_pf r in
    let f := {| f with pci_config_space_of := init_pci_config_space (rs_total_vfs r);
                       cxt := init_tlp_handler_cxt (cx_exp_bar_memory (cxt f)) |} in
    let '(f', e) := tlp_init_transaction_region malloc_region (Some f) transaction_size in
    let r := {| r with rs_pf := default f f' |} in
    if negb (is_success e) then Done (r, e)
    else
      let '(r', e) := tlp_init_exp_bar malloc_exp (Some r) EXP_BAR_SIZE in
      let r := default r r' in
      if negb (is_success e) then Done (r, e)
      else if 0 <? rs_total_vfs r then init_vfs rep_list r
      else Done (r, DOCA_SUCCESS).

(** ** An instance of the macros *)

Definition htobe32 (x : Z) : Z := be_combine (le_split 4 x).
#[global] Instance be32_bits : Be32 := {|
  BE32_GET hi lo raw := Z.land (Z.shiftr (be32toh raw) lo) (Z.ones (hi - lo + 1));
  BE32P_SET hi lo v raw := htobe32 (Z.lor (Z.ldiff (be32toh raw) (Z.shiftl (Z.ones (hi - lo + 1)) lo))
                                          (Z.shiftl (Z.land v (Z.ones (hi - lo + 1))) lo));
  DSP_ID_IMPLICIT := 255;
|}.

Lemma be32toh_range raw : in_width 32 (be32toh raw).
Proof.
  unfold be32toh, be_combine, in_width. pose proof (le_split_bytes 4 raw) as Hb. apply List.Forall_rev in Hb.
  pose proof (le_combine_range _ Hb) as Hr. by rewrite length_rev, length_le_split in Hr.
Qed.

Lemma be32toh_invol x : in_width 32 x -> be32toh (be32toh x) = x.
Proof.
  intros Hx. unfold be32toh, be_combine. pose proof (le_split_bytes 4 x) as Hb. apply List.Forall_rev in Hb.
  pose proof (le_split_combine _ Hb) as E. rewrite length_rev, length_le_split in E. rewrite E, rev_involutive.
  rewrite le_combine_split. by apply Z.mod_small.
Qed.

#[global] Instance be32_bits_laws : Be32Laws be32_bits.
Proof.
  split; [done|]. intros hi lo v raw Hlo Hhi Hraw Hv Hz.
  pose proof (be32toh_range raw) as Hb. set (b := be32toh raw) in *. cbn [BE32P_SET be32_bits].
  rewrite Z.land_ones, (Z.mod_small v) by (lia || done). fold b.
  assert (Z.ldiff b (Z.shiftl (Z.ones (hi - lo + 1)) lo) = b) as ->.
  { apply Z.bits_inj'. intros k Hk. rewrite Z.ldiff_spec, Z.shiftl_spec by done.
    destruct (Z.testbit b k) eqn:E; [|done]. cbn. apply negb_true_iff.
    destruct (Z.lt_ge_cases k lo); [apply Z.testbit_neg_r; lia|]. destruct (Z.lt_ge_cases hi k); [apply Z.ones_spec_high; lia|].
    apply (f_equal (fun x => Z.testbit x (k - lo))) in Hz. rewrite Z.land_spec, Z.shiftr_spec, Z.bits_0 in Hz by lia.
    replace (k - lo + lo) with k in Hz by lia. by rewrite E in Hz. }
  assert (in_width 32 (Z.shiftl v lo)) as Hs.
  { unfold in_width in *. rewrite Z.shiftl_mul_pow2 by lia. split; [apply Z.mul_nonneg_nonneg; lia|].
    apply Z.lt_le_trans with (2 ^ (hi - lo + 1) * 2 ^ lo); [apply Z.mul_lt_mono_pos_r; lia|].
    rewrite <- Z.pow_add_r by lia. apply Z.pow_le_mono_r; lia. }
  split; [apply be32toh_range|]. apply be32toh_invol, lor_width; [lia|done|done].
Qed.

(** ** Fields of headers *)

Lemma at_done l i : 0 <= i < Z.of_nat (length l) -> exists x, at_ l i = Done x /\ x ∈ l.
Proof.
  intros Hi. destruct (lookup_lt_is_Some_2 l (Z.to_nat i)) as [x E]; [lia|].
  exists x. unfold at_. rewrite E. split; [done|]. by eapply list_elem_of_lookup_2.
Qed.

Lemma at_width w l i : Forall (in_width w) l -> 0 <= i < Z.of_nat (length l) -> exists x, at_ l i = Done x /\ in_width w x.
Proof.
  intros Hl Hi. destruct (at_done l i Hi) as (x & E & Hin). rewrite list.Forall_forall in Hl. eauto.
Qed.

Lemma land_ones_width n x : 0 <= n -> in_width n (Z.land x (Z.ones n)).
Proof. intros. rewrite Z.land_ones by done. by apply uwrap_range. Qed.

(** Writing a field below all bits that are set is adding it. *)
Lemma lor_add x v lo k : 0 <= lo <= k -> 0 <= v -> v * 2 ^ lo < 2 ^ k -> (2 ^ k | x) ->
  Z.lor x (Z.shiftl v lo) = x + v * 2 ^ lo.
Proof.
  intros Hlo Hv Hlt [y ->]. rewrite Z.shiftl_mul_pow2 by lia.
  assert (Z.land (y * 2 ^ k) (v * 2 ^ lo) = 0) as Hz.
  { apply Z.bits_inj'. intros n Hn. rewrite Z.land_spec, Z.bits_0.
    destruct (Z.lt_ge_cases n k); [by rewrite Z.mul_pow2_bits_low|].
    rewrite <- (Z.mod_small (v * 2 ^ lo) (2 ^ k)), Z.mod_pow2_bits_high; [apply andb_false_r|lia|].
    split; [apply Z.mul_nonneg_nonneg; lia|done]. }
  by rewrite Z.add_nocarry_lxor, <- Z.lxor_lor.
Qed.

Section Laws.
Context `{B : Be32} `{!Be32Laws B}.
Implicit Types (q : tlp_channel_req) (r : devemu_tlp_resources) (h : list Z) (f : devemu_pci_func).

Lemma get_field_done hi lo i h : 0 <= lo <= hi -> hi < 32 -> Forall (in_width 32) h -> 0 <= i < Z.of_nat (length h) ->
  exists v, get_field hi lo i h = Done v /\ in_width (hi - lo + 1) v.
Proof.
  intros Hlo Hhi Hh Hi. destruct (at_width 32 h i Hh Hi) as (d & E & Hd). exists (BE32_GET hi lo d).
  unfold get_field. rewrite E. split; [done|]. rewrite be32_get by done. apply land_ones_width. lia.
Qed.

(** A step of filling in a header double word from the top. *)
Lemma set_step hi lo k v raw x : 0 <= lo <= hi -> hi < k <= 32 -> in_width (hi - lo + 1) v ->
  in_width 32 raw -> be32toh raw = x -> (2 ^ k | x) ->
  in_width 32 (BE32P_SET hi lo v raw) /\ be32toh (BE32P_SET hi lo v raw) = x + v * 2 ^ lo.
Proof.
  intros Hlo Hhi Hv Hraw E Hk. assert (v * 2 ^ lo < 2 ^ k) as Hlt.
  { apply Z.lt_le_trans with (2 ^ (hi - lo + 1) * 2 ^ lo); [apply Z.mul_lt_mono_pos_r; unfold in_width in Hv; lia|].
    rewrite <- Z.pow_add_r by lia. apply Z.pow_le_mono_r; lia. }
  destruct (be32_set hi lo v raw) as [H1 H2]; [done|lia|done|done| |].
  - rewrite E. destruct Hk as [y ->]. apply Z.bits_inj'. intros n Hn. rewrite Z.land_spec, Z.shiftr_spec, Z.bits_0 by done.
    destruct (Z.lt_ge_cases n (hi - lo + 1)); [|rewrite Z.ones_spec_high by lia; apply andb_false_r].
    by rewrite Z.mul_pow2_bits_low by lia.
  - split; [done|]. rewrite H2, E. apply (lor_add x v lo k); unfold in_width in *; try lia; done.
Qed.

Lemma get_from hi lo raw : 0 <= lo <= hi -> hi < 32 -> in_width 32 raw ->
  BE32_GET hi lo raw = be32toh raw / 2 ^ lo mod 2 ^ (hi - lo + 1).
Proof. intros. by rewrite be32_get, Z.land_ones, Z.shiftr_div_pow2 by (done || lia). Qed.

(** ** The invariant of the device *)

(** The fields of a completion header. *)
Record cpl_fields := {
  cf_fmt : Z; cf_type : Z; cf_tag9 : Z; cf_tag8 : Z; cf_length : Z;
  cf_completer_id : Z; cf_status : Z; cf_byte_count : Z; cf_requester_id : Z; cf_tag : Z;
}.
Definition cpl_decode (hd : list Z) : option cpl_fields :=
  match hd with
  | [d0; d1; d2] => Some {|
      cf_fmt := BE32_GET 31 29 d0; cf_type := BE32_GET 28 24 d0; cf_tag9 := BE32_GET 23 23 d0;
      cf_tag8 := BE32_GET 19 19 d0; cf_length := BE32_GET 9 0 d0; cf_completer_id := BE32_GET 31 16 d1;
      cf_status := BE32_GET 15 13 d1; cf_byte_count := BE32_GET 11 0 d1; cf_requester_id := BE32_GET 31 16 d2;
      cf_tag := BE32_GET 15 8 d2 |}
  | _ => None
  end.

(** The context of a function: field widths and the memory regions. *)
Record cxt_inv (c : tlp_handler_cxt) : Prop := {
  ci_bus : in_width 8 (cx_bus c);
  ci_completer : in_width 16 (cx_completer_id c);
  ci_requester : in_width 16 (cx_requester_id c);
  ci_tag9 : in_width 1 (cx_tag9 c);
  ci_tag8 : in_width 1 (cx_tag8 c);
  ci_tag : in_width 8 (cx_tag c);
  ci_type : cx_cmpl_type c = TLP_TYPE_COMPLETION;
  ci_fmt : in_width 3 (cx_cmpl_fmt c);
  ci_length : in_width 8 (cx_cmpl_length c);
  ci_status : in_width 3 (cx_cmpl_status c);
  ci_region : exists mem, cx_transaction_region_memory c = Some mem /\ Z.of_nat (length mem) = transaction_size /\
    Forall is_byte mem;
  ci_region_size : cx_transaction_region_size c = transaction_size;
  ci_bar : cx_bar_region_size c = 2 ^ layout_log_size;
  ci_exp : match cx_exp_bar_memory c with
           | Some mem => Z.of_nat (length mem) = EXP_BAR_SIZE /\ Forall is_byte mem /\ cx_exp_bar_size c = EXP_BAR_SIZE
           | None => True
           end;
}.

Definition cxt_fields (c : tlp_handler_cxt) : cpl_fields :=
  {| cf_fmt := cx_cmpl_fmt c; cf_type := cx_cmpl_type c; cf_tag9 := cx_tag9 c; cf_tag8 := cx_tag8 c;
     cf_length := cx_cmpl_length c; cf_completer_id := cx_completer_id c; cf_status := cx_cmpl_status c;
     cf_byte_count := BYTES_IN_DWORD; cf_requester_id := cx_requester_id c; cf_tag := cx_tag c |}.

Lemma dw0_value fmt ty t9 t8 len :
  in_width 3 fmt -> in_width 5 ty -> in_width 1 t9 -> in_width 1 t8 -> in_width 10 len ->
  let d := BE32P_SET 9 0 len (BE32P_SET 19 19 t8 (BE32P_SET 23 23 t9 (BE32P_SET 28 24 ty (BE32P_SET 31 29 fmt 0)))) in
  in_width 32 d /\ be32toh d = fmt * 2 ^ 29 + ty * 2 ^ 24 + t9 * 2 ^ 23 + t8 * 2 ^ 19 + len.
Proof.
  intros Hf Hy H9 H8 Hl d.
  destruct (set_step 31 29 32 fmt 0 0) as [W1 E1]; [lia|lia|done|done|done|by exists 0|].
  destruct (set_step 28 24 29 ty _ _ ltac:(lia) ltac:(lia) Hy W1 E1) as [W2 E2]; [by exists fmt; lia|].
  destruct (set_step 23 23 24 t9 _ _ ltac:(lia) ltac:(lia) H9 W2 E2) as [W3 E3]; [by exists (fmt * 2 ^ 5 + ty); lia|].
  destruct (set_step 19 19 23 t8 _ _ ltac:(lia) ltac:(lia) H8 W3 E3) as [W4 E4];
    [by exists (fmt * 2 ^ 6 + ty * 2 + t9); lia|].
  destruct (set_step 9 0 19 len _ _ ltac:(lia) ltac:(lia) Hl W4 E4) as [W5 E5];
    [by exists (fmt * 2 ^ 10 + ty * 2 ^ 5 + t9 * 2 ^ 4 + t8); lia|].
  split; [done|]. unfold d. rewrite E5. lia.
Qed.

Lemma dw1_value id st n : in_width 16 id -> in_width 3 st -> in_width 12 n ->
  let d := BE32P_SET 11 0 n (BE32P_SET 15 13 st (BE32P_SET 31 16 id 0)) in
  in_width 32 d /\ be32toh d = id * 2 ^ 16 + st * 2 ^ 13 + n.
Proof.
  intros Hi Hs Hn d. destruct (set_step 31 16 32 id 0 0) as [W1 E1]; [lia|lia|done|done|done|by exists 0|].
  destruct (set_step 15 13 16 st _ _ ltac:(lia) ltac:(lia) Hs W1 E1) as [W2 E2]; [by exists id; lia|].
  destruct (set_step 11 0 13 n _ _ ltac:(lia) ltac:(lia) Hn W2 E2) as [W3 E3]; [by exists (id * 2 ^ 3 + st); lia|].
  split; [done|]. unfold d. rewrite E3. lia.
Qed.

Lemma dw2_value id t : in_width 16 id -> in_width 8 t ->
  let d := BE32P_SET 15 8 t (BE32P_SET 31 16 id 0) in in_width 32 d /\ be32toh d = id * 2 ^ 16 + t * 2 ^ 8.
Proof.
  intros Hi Ht d. destruct (set_step 31 16 32 id 0 0) as [W1 E1]; [lia|lia|done|done|done|by exists 0|].
  destruct (set_step 15 8 16 t _ _ ltac:(lia) ltac:(lia) Ht W1 E1) as [W2 E2]; [by exists id; lia|].
  split; [done|]. unfold d. rewrite E2. lia.
Qed.

(** What a header reads as, from the values of its fields. *)
Lemma completion_decode fmt ty t9 t8 len id st n rid tag :
  in_width 3 fmt -> in_width 5 ty -> in_width 1 t9 -> in_width 1 t8 -> in_width 10 len -> in_width 16 id -> in_width 3 st -> in_width 12 n ->
  in_width 16 rid -> in_width 8 tag ->
  cpl_decode [BE32P_SET 9 0 len (BE32P_SET 19 19 t8 (BE32P_SET 23 23 t9 (BE32P_SET 28 24 ty (BE32P_SET 31 29 fmt 0))));
              BE32P_SET 11 0 n (BE32P_SET 15 13 st (BE32P_SET 31 16 id 0)); BE32P_SET 15 8 tag (BE32P_SET 31 16 rid 0)] =
  Some {| cf_fmt := fmt; cf_type := ty; cf_tag9 := t9; cf_tag8 := t8; cf_length := len; cf_completer_id := id; cf_status := st;
          cf_byte_count := n; cf_requester_id := rid; cf_tag := tag |}.
Proof.
  intros Hf Hy H9 H8 Hl Hc Hs Hn Hr Ht. unfold cpl_decode.
  destruct (dw0_value _ _ _ _ _ Hf Hy H9 H8 Hl) as [W0 E0]. destruct (dw1_value _ _ _ Hc Hs Hn) as [W1 E1]. destruct (dw2_value _ _ Hr Ht) as [W2 E2].
  rewrite !get_from by (done || lia). rewrite E0, E1, E2. clear - Hc Hr H9 H8 Ht Hf Hl Hs Hy Hn. unfold in_width in *.
  do 2 f_equal; Z.to_euclidean_division_equations; lia.
Qed.

Lemma header_decode f : cxt_inv (cxt f) ->
  cpl_decode (set_tlp_req_completion_header f BYTES_IN_DWORD) = Some (cxt_fields (cxt f)).
Proof.
  intros [_ Hc Hr H9 H8 Ht Hty Hf Hl Hs _ _ _ _]. unfold set_tlp_req_completion_header, cxt_fields. cbv zeta. rewrite Hty.
  apply completion_decode; try done. unfold in_width in *. lia.
Qed.
End Laws.

(** ** Memory regions *)

Lemma mapM_done {A A'} (g : A -> res A') (P : A -> A' -> Prop) l :
  Forall (fun x => exists y, g x = Done y /\ P x y) l -> exists ys, mapM g l = Done ys /\ Forall2 P l ys.
Proof.
  induction 1 as [|x l (y & E & Hy) _ (ys & Es & Hys)]; [by exists []|]. exists (y :: ys).
  cbn. rewrite E. cbn. rewrite Es. cbn. auto.
Qed.

Lemma at_total l i : 0 <= i < Z.of_nat (length l) -> at_ l i = Done (l !!! Z.to_nat i).
Proof.
  intros Hi. unfold at_. destruct (lookup_lt_is_Some_2 l (Z.to_nat i)) as [x E]; [lia|].
  by rewrite E, (list_lookup_total_correct _ _ _ E).
Qed.

(** The byte [i] of a double word. *)
Definition dword_byte (d i : Z) : Z := d / 256 ^ i mod 256.

Lemma le_split4 d : le_split 4 d = dword_byte d <$> idx 4.
Proof.
  cbn [le_split]. unfold dword_byte. change (idx 4) with [0; 1; 2; 3]. cbn [fmap list_fmap].
  rewrite Z.pow_0_r, Z.div_1_r, !Z.div_div by lia. done.
Qed.

Lemma read_dword_spec mem pos be : 0 <= pos -> pos + 4 <= Z.of_nat (length mem) ->
  read_dword mem pos be = Done (le_combine ((fun i => if byte_enabled be i then mem !!! Z.to_nat (pos + i) else 0) <$> idx 4)).
Proof.
  intros Hp Hl. unfold read_dword. change (idx BYTES_IN_DWORD) with [0; 1; 2; 3]. change (idx 4) with [0; 1; 2; 3].
  cbn [mapM fmap list_fmap]. rewrite !at_total by lia.
  destruct (byte_enabled be 0), (byte_enabled be 1), (byte_enabled be 2), (byte_enabled be 3); done.
Qed.

Lemma write_byte_spec (mem : list Z) pos x : 0 <= pos < Z.of_nat (length mem) ->
  write_byte mem pos x = Done (<[Z.to_nat pos := x]> mem).
Proof. intros Hp. unfold write_byte. by destruct (Z.leb_spec (Z.of_nat (length mem)) pos); [lia|]. Qed.

Lemma lookup_total_insert_Z (mem : list Z) p k x : 0 <= p < Z.of_nat (length mem) -> 0 <= k ->
  (<[Z.to_nat p := x]> mem) !!! Z.to_nat k = if k =? p then x else mem !!! Z.to_nat k.
Proof.
  intros Hp Hk. destruct (Z.eqb_spec k p) as [->|].
  - apply list_lookup_total_insert_eq. lia.
  - apply list_lookup_total_insert_ne. lia.
Qed.

(** What a write of a double word does to the byte at [k]. *)
Lemma write_dword_spec mem pos be d : 0 <= pos -> pos + 4 <= Z.of_nat (length mem) ->
  exists mem', write_dword mem pos be d = Done mem' /\ length mem' = length mem /\
    forall k, 0 <= k -> mem' !!! Z.to_nat k =
      if in_case pos (pos + 3) k && byte_enabled be (k - pos) then dword_byte d (k - pos) else mem !!! Z.to_nat k.
Proof.
  intros Hp Hl. unfold write_dword. rewrite le_split4. change (idx BYTES_IN_DWORD) with [0; 1; 2; 3].
  change (idx 4) with [0; 1; 2; 3]. cbn [fmap list_fmap zip_with].
  assert (forall l mem, Forall (fun b : Z * Z => 0 <= b.1 < 4) l -> pos + 4 <= Z.of_nat (length mem) ->
    exists mem', write_bytes l mem pos be = Done mem' /\ length mem' = length mem /\
    forall k, 0 <= k -> mem' !!! Z.to_nat k =
      foldl (fun v b => if (k =? pos + b.1) && byte_enabled be b.1 then b.2 else v) (mem !!! Z.to_nat k) l) as Hgen.
  { induction l as [|[i x] l IH]; intros m Hb Hm; [by exists m|]. apply list.Forall_cons in Hb as [Hi Hb]. cbn in Hi.
    cbn [write_bytes foldl fst snd]. destruct (byte_enabled be i).
    - rewrite write_byte_spec by lia. cbn. destruct (IH (<[Z.to_nat (pos + i):=x]> m)) as (m' & E & Hlen & Hk);
        [done|by rewrite length_insert|]. exists m'. split; [done|]. rewrite length_insert in Hlen. split; [done|].
      intros k Hk0. rewrite Hk, lookup_total_insert_Z, andb_true_r by lia. done.
    - cbn. destruct (IH m Hb Hm) as (m' & E & Hlen & Hk). exists m'. split; [done|]. split; [done|].
      intros k Hk0. by rewrite Hk, andb_false_r. }
  destruct (Hgen [(0, dword_byte d 0); (1, dword_byte d 1); (2, dword_byte d 2); (3, dword_byte d 3)] mem)
    as (m' & E & Hlen & Hk); [by repeat constructor|done|]. exists m'. split; [done|]. split; [done|].
  intros k Hk0. rewrite Hk by done. cbn [foldl fst snd]. unfold in_case.
  destruct (Z.leb_spec pos k), (Z.leb_spec k (pos + 3)); cbn [andb].
  2-4: repeat match goal with |- context [?a =? ?b] => destruct (Z.eqb_spec a b); [lia|] end; done.
  assert (exists j, k = pos + j /\ (j = 0 \/ j = 1 \/ j = 2 \/ j = 3)) as (j & -> & Hc) by (exists (k - pos); lia).
  rewrite (Z.add_simpl_l pos j). clear - Hc.
  destruct Hc as [->|[->|[->| ->]]].
  all: repeat match goal with |- context [?a =? ?b] =>
         destruct (Z.eqb_spec a b); [try lia|try lia] end; done.
Qed.

(** The byte at [k] after [n] double words [data] were written from [off]. *)
Definition written (data mem : list Z) (off n fbe lbe : Z) (k : Z) : Z :=
  let dw := (k - off) / 4 in let i := (k - off) mod 4 in
  if in_case off (off + 4 * n - 1) k && byte_enabled (get_dword_byte_enable_mask dw n fbe lbe) i
  then dword_byte (data !!! Z.to_nat dw) i else mem !!! Z.to_nat k.

Lemma write_dwords_from data n fbe lbe off m : 0 <= off -> forall s mem,
  (s + m)%nat = Z.to_nat n -> n <= Z.of_nat (length data) -> 0 <= n -> off + 4 * n <= Z.of_nat (length mem) ->
  exists mem', write_dwords (Z.of_nat <$> seq s m) data mem off n fbe lbe = Done mem' /\ length mem' = length mem /\
    forall k, 0 <= k -> mem' !!! Z.to_nat k =
      if in_case (off + 4 * Z.of_nat s) (off + 4 * n - 1) k then written data mem off n fbe lbe k else mem !!! Z.to_nat k.
Proof.
  intros Ho. induction m as [|m IH]; intros s mem Hs Hd Hn Hl; cbn [seq fmap list_fmap write_dwords].
  - exists mem. split; [done|]. split; [done|]. intros k Hk. unfold in_case.
    destruct (Z.leb_spec (off + 4 * Z.of_nat s) k), (Z.leb_spec k (off + 4 * n - 1)); done || lia.
  - rewrite at_total, Nat2Z.id by lia. cbn [mbind res_bind].
    destruct (write_dword_spec mem (off + Z.of_nat s * BYTES_IN_DWORD)
      (get_dword_byte_enable_mask (Z.of_nat s) n fbe lbe) (data !!! s)) as (m1 & E1 & Hl1 & Hk1);
      [unfold BYTES_IN_DWORD; lia..|]. rewrite E1. cbn [mbind res_bind].
    destruct (IH (S s) m1) as (m2 & E2 & Hl2 & Hk2); [lia|done|done|lia|].
    exists m2. split; [exact E2|]. split; [lia|]. intros k Hk. rewrite Hk2 by done. unfold written.
    rewrite !Hk1 by done. unfold in_case, BYTES_IN_DWORD.
    destruct (Z.leb_spec (off + 4 * Z.of_nat s) k), (Z.leb_spec k (off + 4 * n - 1)), (Z.leb_spec (off + 4 * Z.of_nat (S s)) k),
      (Z.leb_spec (off + Z.of_nat s * 4) k), (Z.leb_spec k (off + Z.of_nat s * 4 + 3)), (Z.leb_spec off k);
      cbn [andb]; try done; try lia.
    replace ((k - off) / 4) with (Z.of_nat s) by (Z.to_euclidean_division_equations; lia).
    replace ((k - off) mod 4) with (k - (off + Z.of_nat s * 4)) by (Z.to_euclidean_division_equations; lia).
    by rewrite Nat2Z.id.
Qed.

Lemma write_dwords_spec data mem off n fbe lbe : 0 <= off -> 0 <= n -> n <= Z.of_nat (length data) ->
  off + 4 * n <= Z.of_nat (length mem) ->
  exists mem', write_dwords (idx n) data mem off n fbe lbe = Done mem' /\ length mem' = length mem /\
    forall k, 0 <= k -> mem' !!! Z.to_nat k = written data mem off n fbe lbe k.
Proof.
  intros Ho Hn Hd Hl. destruct (write_dwords_from data n fbe lbe off (Z.to_nat n) Ho 0 mem) as (m & E & Hlen & Hk);
    [lia..|]. exists m. split; [done|]. split; [done|]. intros k Hk0. rewrite Hk by done. unfold written.
  replace (off + 4 * Z.of_nat 0) with off by lia. by destruct (in_case off _ k).
Qed.

Lemma dword_byte_range d i : is_byte (dword_byte d i).
Proof. apply Z.mod_pos_bound. lia. Qed.

Lemma bytes_of (mem mem' : list Z) : length mem' = length mem ->
  (forall k, 0 <= k -> is_byte (mem !!! Z.to_nat k) -> is_byte (mem' !!! Z.to_nat k)) -> Forall is_byte mem -> Forall is_byte mem'.
Proof.
  intros Hl Hk Hm. rewrite list.Forall_lookup in *. intros i x E. specialize (Hk (Z.of_nat i) ltac:(lia)).
  rewrite Nat2Z.id, (list_lookup_total_correct _ _ _ E) in Hk. apply Hk.
  destruct (lookup_lt_is_Some_2 mem i) as [y Ey]; [rewrite <- Hl; by eapply lookup_lt_Some|].
  rewrite (list_lookup_total_correct _ _ _ Ey). eauto.
Qed.

(** An operation stays inside its region. *)
Lemma operation_params_bounds base size address len off n : in_width 64 base -> 0 <= size < 2 ^ 32 ->
  (4 | base) -> (4 | size) -> (4 | address) -> 0 <= len < 2 ^ 32 ->
  operation_params base size address len = Some (off, n) ->
  off = address - base /\ 0 <= off /\ 0 <= n /\ off + 4 * n <= size /\ 4 * n <= len + 3 /\
  (off + len <= size -> n = (len + 3) / 4).
Proof.
  unfold operation_params, in_width. intros Hb Hs [b ->] [s ->] [a ->] Hlen.
  pose proof (u64_range (b * 4 + s * 4)). destruct (Z.ltb_spec (a * 4) (b * 4)); [done|].
  destruct (Z.leb_spec (u64 (b * 4 + s * 4)) (a * 4)); [done|]. cbn [orb]. intros [= <- <-].
  assert (a * 4 < b * 4 + s * 4) as Hend.
  { unfold u64, uwrap in *. Z.to_euclidean_division_equations. nia. }
  rewrite (u64_small (s * 4 - _)) by lia. unfold BYTES_IN_DWORD.
  destruct (Z.ltb_spec len (s * 4 - (a * 4 - b * 4))); rewrite u32_small by (Z.to_euclidean_division_equations; lia);
    repeat split; try (Z.to_euclidean_division_equations; lia); intros; f_equal; lia.
Qed.

Definition func_inv (f : devemu_pci_func) : Prop := func_wf f /\ cxt_inv (cxt f).

(** The invariant of the device: all functions in use are well formed and know their
    position, and the current function is one of them. *)
Record dev_wf (r : devemu_tlp_resources) : Prop := {
  dw_pf : func_inv (rs_pf r);
  dw_pf_type : func_type (rs_pf r) = DOCA_PCI_FUNC_TYPE_PF;
  dw_total : 0 <= rs_total_vfs r <= TLP_MAX_TOTAL_VFS;
  dw_vfs : length (rs_vf r) = Z.to_nat TLP_MAX_TOTAL_VFS;
  dw_vf : forall i, 0 <= i < rs_total_vfs r -> exists f, rs_vf r !! Z.to_nat i = Some f /\ func_inv f /\
    func_type f = DOCA_PCI_FUNC_TYPE_VF /\ vf_index f = i;
  dw_cur : match rs_cur_func r with RefPF => True | RefVF i => 0 <= i < rs_total_vfs r end;
}.

(** A reference to a function in use. *)
Definition ref_ok r (p : func_ref) : Prop :=
  match p with RefPF => True | RefVF i => 0 <= i < rs_total_vfs r end.
Definition ref_type (p : func_ref) : doca_pci_func_type :=
  match p with RefPF => DOCA_PCI_FUNC_TYPE_PF | RefVF _ => DOCA_PCI_FUNC_TYPE_VF end.
Definition ref_index (p : func_ref) (f : devemu_pci_func) : Prop :=
  match p with RefPF => True | RefVF i => vf_index f = i end.

Lemma get_ref_wf r p : dev_wf r -> ref_ok r p ->
  exists f, get_ref r p = Done f /\ func_inv f /\ func_type f = ref_type p /\ ref_index p f.
Proof.
  intros Hw Hp. destruct p as [|i]; cbn in *.
  - exists (rs_pf r). split; [done|]. split; [apply Hw|]. split; [apply Hw|done].
  - destruct (dw_vf r Hw i Hp) as (f & E & Hf & Ht & Hi). rewrite E. eauto.
Qed.

Lemma put_ref_wf r p f : dev_wf r -> ref_ok r p -> func_inv f -> func_type f = ref_type p -> ref_index p f ->
  dev_wf (put_ref r p f).
Proof.
  intros Hw Hp Hf Ht Hi. destruct Hw as [H1 H2 H3 H4 H5 H6]. destruct p as [|i]; cbn in *; split; cbn; try done.
  - by rewrite length_insert.
  - intros j Hj. destruct (Z.eq_dec j i) as [->|Hne].
    + exists f. rewrite list_lookup_insert_eq by (unfold TLP_MAX_TOTAL_VFS in *; lia). auto.
    + rewrite list_lookup_insert_ne by lia. auto.
Qed.

Lemma get_cur_wf r : dev_wf r ->
  exists f, get_cur r = Done f /\ func_inv f /\ func_type f = ref_type (rs_cur_func r) /\ ref_index (rs_cur_func r) f.
Proof. intros Hw. apply get_ref_wf; [done|]. apply (dw_cur r Hw). Qed.
Lemma put_cur_wf r f : dev_wf r -> func_inv f -> func_type f = ref_type (rs_cur_func r) -> ref_index (rs_cur_func r) f ->
  dev_wf (put_cur r f).
Proof. intros Hw. apply put_ref_wf; [done|]. apply (dw_cur r Hw). Qed.

Lemma get_put_cur r f : dev_wf r -> get_cur (put_cur r f) = Done f.
Proof.
  intros Hw. unfold get_cur, put_cur. pose proof (dw_cur r Hw) as Hc. destruct (rs_cur_func r) as [|i] eqn:E; cbn; rewrite E; cbn.
  - done.
  - rewrite list_lookup_insert_eq; [done|]. rewrite (dw_vfs r Hw). pose proof (dw_total r Hw). unfold TLP_MAX_TOTAL_VFS in *. lia.
Qed.
Lemma put_cur_ref r f : rs_cur_func (put_cur r f) = rs_cur_func r.
Proof. unfold put_cur. by destruct (rs_cur_func r) eqn:E. Qed.
Lemma put_put_cur r f g : put_cur (put_cur r f) g = put_cur r g.
Proof. unfold put_cur. destruct r as [pf vf t [|i] d]; cbn; [done|]. by rewrite list_insert_insert_eq. Qed.

(** ** Addresses *)

Lemma bars_width f : func_wf f -> Forall (in_width 32) (h_bar (hdr f)) /\
  in_width 32 (h_expansion_rom_base_address (hdr f)) /\
  (func_type f = DOCA_PCI_FUNC_TYPE_PF -> Forall (in_width 32) (sr_vf_bar (sriov f))).
Proof.
  intros Hf. pose proof (wf_image f Hf) as Hi. unfold cfg_image in Hi. rewrite !List.Forall_app in Hi.
  destruct Hi as (_ & Hb & He & _ & _ & _ & _ & _ & _ & Hv). split; [done|]. split.
  - repeat rewrite list.Forall_cons in He. by destruct He as (_ & _ & ? & _).
  - intros Ht. rewrite Ht in Hv. rewrite !List.Forall_app in Hv. apply Hv.
Qed.

Lemma base_range hi lo : in_width 32 hi -> in_width 32 lo ->
  in_width 64 (Z.lor (Z.shiftl hi 32) (Z.land lo 0xFFFFFFF0)) /\ (16 | Z.lor (Z.shiftl hi 32) (Z.land lo 0xFFFFFFF0)).
Proof.
  unfold in_width. intros Hh Hl. assert (Z.land lo 0xFFFFFFF0 = lo / 16 mod 2 ^ 28 * 16) as E.
  { change 0xFFFFFFF0 with (Z.shiftl (Z.ones 28) 4). apply Z.bits_inj'. intros n Hn.
    change 16 with (2 ^ 4) at 1 2. rewrite <- Z.shiftl_mul_pow2, Z.land_spec, !Z.shiftl_spec by lia.
    destruct (Z.lt_ge_cases n 4); [rewrite !(Z.testbit_neg_r _ (n - 4)) by lia; apply andb_false_r|].
    rewrite <- Z.shiftr_div_pow2, <- Z.land_ones, Z.land_spec, Z.shiftr_spec by lia. by rewrite Z.sub_add. }
  rewrite E. set (m := lo / 16 mod 2 ^ 28). assert (0 <= m < 2 ^ 28) by (apply Z.mod_pos_bound; lia).
  rewrite Z.lor_comm. rewrite <- (Z.shiftl_0_r (m * 16)), Z.lor_comm.
  rewrite (lor_add (Z.shiftl hi 32) (m * 16) 0 32), Z.shiftl_mul_pow2 by
    (try lia; rewrite Z.shiftl_mul_pow2 by lia; by exists hi).
  split; [lia|]. exists (hi * 2 ^ 28 + m). lia.
Qed.

Lemma bar_base_ok bars : length bars = 6%nat -> Forall (in_width 32) bars ->
  exists b, bar_base bars = Done b /\ in_width 64 b /\ (16 | b) /\
    b = Z.lor (Z.shiftl (bars !!! 1%nat) 32) (Z.land (bars !!! 0%nat) 0xFFFFFFF0).
Proof.
  intros Hl Hb. destruct (list6 bars Hl) as (b0 & b1 & b2 & b3 & b4 & b5 & ->).
  repeat rewrite list.Forall_cons in Hb. destruct Hb as (H0 & H1 & _). eexists. split; [done|].
  destruct (base_range b1 b0 H1 H0). auto.
Qed.

Lemma func_wf_ext f f' : func_type f' = func_type f -> pci_config_space_of f' = pci_config_space_of f -> func_wf f -> func_wf f'.
Proof.
  destruct f as [t v s c], f' as [t' v' s' c']. cbn. intros -> -> [H1 H2 H3 H4 H5]. by split.
Qed.

Lemma set_cmpl_inv f a b c : func_inv f -> in_width 3 a -> in_width 8 b -> in_width 3 c -> func_inv (set_cmpl f a b c).
Proof.
  intros [Hw Hc] Ha Hb Hs. split; [by apply (func_wf_ext f)|]. destruct Hc. by split.
Qed.

Lemma u64_divide d x : (d | 2 ^ 64) -> (d | x) -> (d | u64 x).
Proof.
  intros Hd Hx. unfold u64, uwrap. rewrite Z.mod_eq by done. apply Z.divide_sub_r; [done|]. by apply Z.divide_mul_l.
Qed.

Lemma func_base_ok r : dev_wf r -> exists b, get_func_bar0_base r = Done b /\ in_width 64 b /\ (16 | b).
Proof.
  intros Hw. destruct (get_cur_wf r Hw) as (f & E & [Hf _] & Ht & _). unfold get_func_bar0_base. rewrite E. cbn [mbind res_bind].
  destruct (func_type f) eqn:Ety.
  - destruct (bar_base_ok (h_bar (hdr f))) as (b & Eb & Hb & Hd & _); [apply Hf|by apply bars_width|]. by exists b.
  - destruct (dw_pf r Hw) as [Hpf _]. destruct (bar_base_ok (sr_vf_bar (sriov (rs_pf r)))) as (b & Eb & Hb & Hd & _);
      [apply Hpf|apply bars_width; [done|apply Hw]|].
    rewrite Eb. cbn [mbind res_bind]. eexists. split; [done|]. split; [apply u64_range|].
    apply u64_divide; [by exists (2 ^ 60)|]. apply Z.divide_add_r; [done|].
    change (Z.shiftl 1 layout_log_size) with 16384. exists (vf_index f * 1024). lia.
Qed.

(** Where an operation on the transaction region of the current function goes. *)
Lemma eval_transaction r address len : dev_wf r ->
  exists f mem b, get_cur r = Done f /\ get_func_bar0_base r = Done b /\ in_width 64 b /\ (16 | b) /\
    cx_transaction_region_memory (cxt f) = Some mem /\ Z.of_nat (length mem) = transaction_size /\ Forall is_byte mem /\
    evaluate_transaction_operation_params address len r =
      Done (option_map (fun p => (p.1, p.2, mem)) (operation_params (u64 (b + transaction_start_address)) transaction_size address len)).
Proof.
  intros Hw. destruct (get_cur_wf r Hw) as (f & E & [Hf Hc] & _). destruct (func_base_ok r Hw) as (b & Eb & Hb & Hd).
  destruct (ci_region _ Hc) as (mem & Em & Hl & Hbytes). exists f, mem, b. do 7 (split; [done|]).
  unfold evaluate_transaction_operation_params. rewrite E. cbn [mbind res_bind]. rewrite Em, (ci_region_size _ Hc), Eb.
  cbn [Z.eqb transaction_size mbind res_bind]. by destruct (operation_params _ _ _ _) as [[]|].
Qed.

Lemma region_base_ok b : (16 | b) -> in_width 64 (u64 (b + transaction_start_address)) /\
  (4 | u64 (b + transaction_start_address)).
Proof.
  intros [k ->]. split; [apply u64_range|]. apply u64_divide; [by exists (2 ^ 62)|]. unfold transaction_start_address.
  exists (k * 4 + 0xC00). lia.
Qed.

Lemma eval_exp r address len : dev_wf r ->
  exists o, evaluate_exp_bar_operation_params address len r = Done o /\
    forall off n mem, o = Some (off, n, mem) -> Z.of_nat (length mem) = EXP_BAR_SIZE /\ Forall is_byte mem /\
      exists base, in_width 64 base /\ (4 | base) /\ operation_params base EXP_BAR_SIZE address len = Some (off, n).
Proof.
  intros Hw. destruct (get_cur_wf r Hw) as (f & E & [Hf Hc] & _). unfold evaluate_exp_bar_operation_params. rewrite E.
  cbn [mbind res_bind]. pose proof (ci_exp _ Hc) as He. destruct (cx_exp_bar_memory (cxt f)) as [mem|]; [|by eexists].
  destruct He as (Hl & Hb & Hs). rewrite Hs. change (EXP_BAR_SIZE =? 0) with false. cbv iota. eexists. split; [done|].
  intros off n m. destruct (operation_params _ _ _ _) as [[o' n']|] eqn:Eo; [|done]. intros [= -> -> ->]. split; [done|]. split; [done|].
  eexists. split; [|split; [|exact Eo]].
  - destruct (bars_width f Hf) as (_ & Hr & _). apply land_width; [done|]. unfold in_width in *. lia.
  - apply Z.mod_divide; [done|]. change 4 with (2 ^ 2) at 1. rewrite <- Z.land_ones, <- Z.land_assoc by lia.
    change (Z.land EXP_BAR_ADDR_MASK (Z.ones 2)) with 0. apply Z.land_0_r.
Qed.

(** ** Memory operations *)

Definition read_count (len : Z) : Z := Z.min (len / 4) TLP_TRANSACTION_CMPL_DATA_MAX_DW.

Lemma le_combine4_width (g : Z -> Z) : (forall i, is_byte (g i)) -> in_width 32 (le_combine (g <$> idx 4)).
Proof.
  intros Hg. change (idx 4) with [0; 1; 2; 3]. cbn [fmap list_fmap].
  pose proof (le_combine_range [g 0; g 1; g 2; g 3]) as H. apply H.
  repeat (apply List.Forall_cons; [apply Hg|]). apply List.Forall_nil.
Qed.

Lemma lookup_total_byte (mem : list Z) k : Forall is_byte mem -> is_byte (mem !!! k).
Proof.
  intros Hm. rewrite list_lookup_total_alt. destruct (mem !! k) as [x|] eqn:E; cbn; [|done].
  rewrite list.Forall_lookup in Hm. eauto.
Qed.

Lemma in_idx n i : i ∈ idx n -> 0 <= i < n.
Proof. unfold idx. intros (k & -> & Hk)%list_elem_of_fmap. apply elem_of_seq in Hk. lia. Qed.
Lemma length_idx n : length (idx n) = Z.to_nat n.
Proof. unfold idx. by rewrite length_fmap, length_seq. Qed.

(** The double words read from [off]. *)
Definition read_words (mem : list Z) (off count n fbe lbe : Z) : list Z :=
  (fun dw => le_combine ((fun i => if byte_enabled (get_dword_byte_enable_mask dw n fbe lbe) i
                                   then mem !!! Z.to_nat (off + dw * BYTES_IN_DWORD + i) else 0) <$> idx 4)) <$> idx count.

Lemma mapM_Done {A A'} (g : A -> res A') (k : A -> A') l : (forall x, x ∈ l -> g x = Done (k x)) -> mapM g l = Done (k <$> l).
Proof.
  induction l as [|x l IH]; intros H; [done|]. cbn. rewrite H by set_solver. cbn. rewrite IH by set_solver. done.
Qed.

Lemma read_words_done mem off count n fbe lbe : 0 <= off -> off + 4 * count <= Z.of_nat (length mem) ->
  mapM (fun dw => read_dword mem (off + dw * BYTES_IN_DWORD) (get_dword_byte_enable_mask dw n fbe lbe)) (idx count) =
  Done (read_words mem off count n fbe lbe).
Proof.
  intros Ho Hl. unfold read_words. apply mapM_Done. intros dw Hdw%in_idx. apply read_dword_spec; unfold BYTES_IN_DWORD; lia.
Qed.

Lemma read_words_width mem off count n fbe lbe : Forall is_byte mem -> Forall (in_width 32) (read_words mem off count n fbe lbe).
Proof.
  intros Hm. unfold read_words. apply list.Forall_forall. intros x (dw & -> & _)%list_elem_of_fmap.
  apply le_combine4_width. intros i. case_match; [by apply lookup_total_byte|done].
Qed.

Lemma min_if a b : (if b <? a then b else a) = Z.min a b.
Proof. destruct (Z.ltb_spec b a); lia. Qed.

(** Reading always succeeds, inside the memory, with at most five double words. *)
Lemma read_total r address len fbe lbe : dev_wf r -> (4 | address) -> 0 <= len < 2 ^ 32 ->
  exists f data, get_cur r = Done f /\ length data = Z.to_nat TLP_TRANSACTION_CMPL_DATA_MAX_DW /\ Forall (in_width 32) data /\
    get_memory_read_data address len fbe lbe r =
      Done (put_cur r (set_cmpl f TLP_FMT_CPL_W_DATA (read_count len) TLP_CPL_STATUS_SC), data).
Proof.
  intros Hw Ha Hlen. destruct (eval_transaction r address len Hw) as (f & mem & b & E & _ & _ & Hd & _ & Hl & Hm & Ee).
  destruct (eval_exp r address len Hw) as (o & Eo & Ho). destruct (region_base_ok b Hd) as [Hb1 Hb2].
  assert (0 <= read_count len <= 5) as Hc by (unfold read_count, TLP_TRANSACTION_CMPL_DATA_MAX_DW; Z.to_euclidean_division_equations; lia).
  unfold get_memory_read_data. rewrite Ee. cbn [mbind res_bind]. rewrite !min_if. fold (read_count len).
  assert (forall data, Forall (in_width 32) data -> (length data <= 5)%nat -> exists d', length d' = 5%nat /\
    Forall (in_width 32) d' /\ d' = data ++ replicate (5 - length data) 0) as Hpad.
  { intros data Hda Hle. eexists. split; [|split; [|done]]; [rewrite length_app, length_replicate; lia|].
    apply List.Forall_app. split; [done|]. by apply Forall_replicate. }
  destruct (operation_params _ _ _ _) as [[off n]|] eqn:Ep; [|destruct o as [[[off n] m]|]]; cbn [option_map fst snd].
  - apply operation_params_bounds in Ep as (-> & H0 & Hn & Hs & _); [|done|done|done|by exists 1024|done|done].
    cbn [mbind res_bind]. rewrite min_if, read_words_done by lia. cbn [mbind res_bind]. rewrite E. cbn [mbind res_bind].
    destruct (Hpad (read_words mem (address - u64 (b + transaction_start_address)) (n `min` read_count len) (read_count len) fbe lbe))
      as (d' & H1 & H2 & ->); [by apply read_words_width|unfold read_words; rewrite length_fmap, length_idx; lia|].
    eexists f, _. repeat split; done.
  - destruct (Ho _ _ _ eq_refl) as (Hl' & Hm' & base & Hb & Hd' & Ep').
    apply operation_params_bounds in Ep' as (-> & H0 & Hn & Hs & _); [|done|done|done|by exists (2 ^ 14)|done|done].
    rewrite Eo. cbn [mbind res_bind]. rewrite min_if, read_words_done by lia. cbn [mbind res_bind]. rewrite E. cbn [mbind res_bind].
    destruct (Hpad (read_words m (address - base) (n `min` read_count len) (read_count len) fbe lbe))
      as (d' & H1 & H2 & ->); [by apply read_words_width|unfold read_words; rewrite length_fmap, length_idx; lia|].
    eexists f, _. repeat split; done.
  - rewrite Eo. cbn [mbind res_bind]. rewrite E. cbn [mbind res_bind].
    destruct (Hpad ((fun i => u32 (DUMMY_READ_DATA_BASE + i)) <$> idx (read_count len))) as (d' & H1 & H2 & ->);
      [|rewrite length_fmap, length_idx; lia|eexists f, _; repeat split; done].
    apply list.Forall_forall. intros x (i & -> & _)%list_elem_of_fmap. apply u32_range.
Qed.

(** The function with other contents of its transaction region. *)
Definition with_region (f : devemu_pci_func) (mem : list Z) : devemu_pci_func :=
  let c := cxt f in {| f with cxt := {| c with cx_transaction_region_memory := Some mem |} |}.

Lemma with_region_inv f mem : func_inv f -> Z.of_nat (length mem) = transaction_size -> Forall is_byte mem ->
  func_inv (with_region f mem).
Proof.
  intros [Hw Hc] Hl Hm. split; [by apply (func_wf_ext f)|]. destruct Hc. split; try done. by exists mem.
Qed.

(** Writing at most sixteen double words succeeds and changes exactly the enabled bytes. *)
Lemma write_total r address len data fbe lbe : dev_wf r -> (4 | address) -> 0 <= len <= 64 -> length data = 16%nat ->
  exists f mem b r', get_cur r = Done f /\ func_inv f /\ get_func_bar0_base r = Done b /\
    cx_transaction_region_memory (cxt f) = Some mem /\ Z.of_nat (length mem) = transaction_size /\
    set_memory_write_data address len data fbe lbe r = Done r' /\ dev_wf r' /\ rs_cur_func r' = rs_cur_func r /\
    match operation_params (u64 (b + transaction_start_address)) transaction_size address len with
    | None => r' = r
    | Some (off, n) => exists mem', r' = put_cur r (set_cmpl (with_region f mem') 0 TLP_CPL_LENGTH_ZERO 0) /\
        length mem' = length mem /\ forall k, 0 <= k -> mem' !!! Z.to_nat k = written data mem off n fbe lbe k
    end.
Proof.
  intros Hw Ha Hlen Hdata. destruct (eval_transaction r address len Hw) as (f & mem & b & E & Eb & _ & Hd & Em & Hl & Hm & Ee).
  destruct (get_cur_wf r Hw) as (f' & E' & Hf & Ht & Hi). rewrite E in E'. injection E' as <-.
  destruct (region_base_ok b Hd) as [Hb1 Hb2]. unfold set_memory_write_data. rewrite Ee. cbn [mbind res_bind].
  destruct (operation_params _ _ _ _) as [[off n]|] eqn:Ep; cbn [option_map fst snd];
    [|exists f, mem, b, r; by rewrite Ep].
  pose proof Ep as Ep'. apply operation_params_bounds in Ep as (-> & H0 & Hn & Hs & Hle & _); [|done|done|done|by exists 1024|done|lia].
  destruct (write_dwords_spec data mem (address - u64 (b + transaction_start_address)) n fbe lbe) as (mem' & Ew & Hlen' & Hk); [lia..|].
  rewrite Ew. cbn [mbind res_bind]. rewrite E. cbn [mbind res_bind].
  assert (Forall is_byte mem') as Hm'.
  { apply (bytes_of mem); [done| |done]. intros k Hk0 Hb. rewrite Hk by done. unfold written. case_match; [apply dword_byte_range|done]. }
  eexists f, mem, b, _. do 5 (split; [done|]). split; [reflexivity|]. split; [|split; [apply put_cur_ref|rewrite Ep'; by exists mem']].
  apply put_cur_wf; [done| |done|done]. apply set_cmpl_inv; [|done..]. apply with_region_inv; [done|lia|done].
Qed.

(** ** Effects of configuration requests on the context *)

(** What the handlers of configuration requests leave alone. *)
Definition core (c : tlp_handler_cxt) :=
  (cx_bus c, cx_completer_id c, cx_requester_id c, cx_tag9 c, cx_tag8 c, cx_tag c, cx_cmpl_type c,
   (cx_transaction_region_memory c, cx_transaction_region_size c, cx_bar_region_size c, cx_exp_bar_memory c, cx_exp_bar_size c)).

Lemma core_inv c c' : core c' = core c -> in_width 3 (cx_cmpl_fmt c') -> in_width 8 (cx_cmpl_length c') ->
  in_width 3 (cx_cmpl_status c') -> cxt_inv c -> cxt_inv c'.
Proof. destruct c, c'. unfold core. cbn. intros Hcore Hf1 Hf2 Hf3 []. simplify_eq. by split. Qed.

Lemma write_switch_cxt reg d m f : 0 <= reg < 1024 ->
  let f' := (cfg_write_switch reg d m f).1 in
  core (cxt f') = core (cxt f) /\ vf_index f' = vf_index f /\
  (cx_cmpl_fmt (cxt f'), cx_cmpl_length (cxt f'), cx_cmpl_status (cxt f')) = (TLP_FMT_CPL_NODATA, TLP_CPL_LENGTH_ZERO, TLP_CPL_STATUS_SC).
Proof.
  intros Hr. unfold cfg_write_switch, handle_config_space_caps_write, handle_config_space_ext_caps_write,
    handle_config_space_header_write, config_space_header_write_reg3, config_space_header_write_bar, config_space_cap_pm_write,
    config_space_ext_cap_sriov_write, config_space_header_write_reg15.
  assert (in_case 0 15 reg || in_case 16 63 reg || in_case 64 1023 reg = true) as Hc by (unfold in_case; lia).
  destruct (in_case 0 15 reg); [|destruct (in_case 16 63 reg); [|destruct (in_case 64 1023 reg); [|done]]];
    repeat case_match; simplify_eq/=; done.
Qed.

Lemma read_switch_cxt reg f : func_wf f -> 0 <= reg < 1024 ->
  exists x cap, cfg_read reg f = Done x /\ cfg_read_switch reg f =
    Done (set_cmpl f TLP_FMT_CPL_W_DATA TLP_CPL_LENGTH_SINGLE_DWORD TLP_CPL_STATUS_SC, x, cap).
Proof.
  intros Hf Hr. pose proof (cfg_read_image f reg Hf Hr) as E. unfold cfg_read in *. inv_bind E.
  destruct x as [[f' x] cap]. exists x, cap. rewrite E0. split; [done|]. revert E0. unfold cfg_read_switch.
  assert (in_case 0 15 reg || in_case 16 63 reg || in_case 64 1023 reg = true) as Hc by (unfold in_case; lia).
  destruct (in_case 0 15 reg); [|destruct (in_case 16 63 reg); [|destruct (in_case 64 1023 reg); [|done]]].
  - intros H. inv_bind H. destruct x0. simplify_eq. unfold handle_config_space_header_read in E0. inv_bind E0. by simplify_eq.
  - unfold handle_config_space_caps_read. intros H. case_match. repeat case_match; by simplify_eq.
  - intros H. inv_bind H. destruct x0 as [[]]. simplify_eq. unfold handle_config_space_ext_caps_read in E0.
    inv_bind E0. case_match. by simplify_eq.
Qed.

(** ** Well-formed requests *)

Lemma land_div4 x m : Z.land m 3 = 0 -> (4 | Z.land x m).
Proof.
  intros Hm. apply Z.mod_divide; [done|]. change 4 with (2 ^ 2). rewrite <- Z.land_ones, <- Z.land_assoc by lia.
  change (Z.ones 2) with 3. rewrite Hm. apply Z.land_0_r.
Qed.

Section Requests.
Context `{B : Be32} `{!Be32Laws B}.
Implicit Types (q : tlp_channel_req) (r : devemu_tlp_resources) (h : list Z) (f : devemu_pci_func).

(** The buffers hold what the header announces; a memory write carries at most sixteen
    double words. *)
Record req_wf q : Prop := {
  rw_words : Forall (in_width 32) (rq_header q);
  rw_short : 3 <= Z.of_nat (length (rq_header q));
  rw_long : forall fmt, GET_TLP_REQ_FMT (rq_header q) = Done fmt -> fmt = TLP_FMT_4DW_NODATA \/ fmt = TLP_FMT_4DW_W_DATA ->
    4 <= Z.of_nat (length (rq_header q));
  rw_write : get_tlp_req_type q = Done TLP_REQ_TYPE_MEMORY_WRITE ->
    forall fmt len, GET_TLP_REQ_FMT (rq_header q) = Done fmt -> GET_TLP_REQ_LENGTH (rq_header q) = Done len ->
      len <= TLP_DATA_ARRAY_MAX_SIZE /\
      (if fmt =? TLP_FMT_4DW_W_DATA then 4 else 3) + len <= Z.of_nat (length (rq_header q));
  rw_data : get_tlp_req_type q = Done TLP_REQ_TYPE_CONFIG_WRITE_TYPE_0 -> rq_data q <> [];
  rw_bdf : in_width 16 (rq_dsp_bdf q);
}.

Lemma field q hi lo i : req_wf q -> 0 <= lo <= hi -> hi < 32 -> 0 <= i < 3 ->
  exists v, get_field hi lo i (rq_header q) = Done v /\ in_width (hi - lo + 1) v.
Proof. intros [Hw Hs _ _ _ _] ? ? ?. apply get_field_done; try done; lia. Qed.

Lemma parse_32 h : Forall (in_width 32) h -> 3 <= Z.of_nat (length h) ->
  exists a, parse_32bit_address h = Done a /\ in_width 64 a /\ (4 | a).
Proof.
  intros Hh Hl. destruct (at_done h 2) as (x & E & _); [lia|]. unfold parse_32bit_address. rewrite E.
  eexists. split; [done|]. split; [|by apply land_div4].
  pose proof (be32toh_range x). apply land_width; [done|]. unfold in_width in *. lia.
Qed.

Lemma parse_64 h : Forall (in_width 32) h -> 4 <= Z.of_nat (length h) ->
  exists a, parse_64bit_address h = Done a /\ in_width 64 a /\ (4 | a).
Proof.
  intros Hh Hl. destruct (at_done h 2) as (x & E & _); [lia|]. destruct (at_done h 3) as (y & E' & _); [lia|].
  unfold parse_64bit_address. rewrite E. cbn [mbind res_bind]. rewrite E'. eexists. split; [done|].
  pose proof (be32toh_range x) as Hx. assert (in_width 32 (Z.land (be32toh y) DWORD_ALIGN_MASK)) as Hy
    by (apply land_width; [done|apply be32toh_range]).
  destruct (land_div4 (be32toh y) DWORD_ALIGN_MASK ltac:(done)) as [k Ek].
  set (m := Z.land _ _) in *. rewrite <- (Z.shiftl_0_r m). unfold in_width in *.
  rewrite (lor_add _ m 0 32), Z.shiftl_mul_pow2 by (try lia; rewrite Z.shiftl_mul_pow2 by lia; by exists (be32toh x)).
  split; [lia|]. exists (be32toh x * 2 ^ 30 + k). lia.
Qed.

Lemma type_done q : req_wf q -> exists t, get_tlp_req_type q = Done t.
Proof.
  intros Hq. destruct (field q 31 29 0 Hq) as (fmt & E & _); [lia..|]. destruct (field q 28 24 0 Hq) as (ty & E' & _); [lia..|].
  unfold get_tlp_req_type, GET_TLP_REQ_FMT, GET_TLP_REQ_TYPE. rewrite E. cbn [mbind res_bind]. rewrite E'. by eexists.
Qed.

Lemma mmio_address_done q : req_wf q -> exists a, get_mmio_address (rq_header q) = Done a /\ in_width 64 a /\ (4 | a).
Proof.
  intros Hq. destruct (field q 31 29 0 Hq) as (fmt & E & _); [lia..|]. unfold get_mmio_address, GET_TLP_REQ_FMT. rewrite E.
  cbn [mbind res_bind]. destruct (Z.eqb_spec fmt TLP_FMT_4DW_NODATA); [|destruct (Z.eqb_spec fmt TLP_FMT_4DW_W_DATA)]; cbn [orb];
    [apply parse_64; [apply Hq|eapply rw_long; eauto]..|apply parse_32; apply Hq].
Qed.

(** The part of the context that a completion identifies. *)
Definition ids (c : tlp_handler_cxt) := (cx_completer_id c, cx_requester_id c, cx_tag9 c, cx_tag8 c, cx_tag c).

(** What every handler does: the invariant and the current function stay, and a
    completion header describes the context. *)
Definition post r f r' (cpl : tlp_cpl) : Prop :=
  dev_wf r' /\ rs_cur_func r' = rs_cur_func r /\
  forall hd, cpl_header cpl = Some hd -> exists g, get_cur r' = Done g /\ ids (cxt g) = ids (cxt f) /\
    cpl_decode hd = Some (cxt_fields (cxt g)).

Lemma post_put r f g data : dev_wf r -> func_inv g -> func_type g = ref_type (rs_cur_func r) -> ref_index (rs_cur_func r) g ->
  ids (cxt g) = ids (cxt f) ->
  cur_header (put_cur r g) = Done (set_tlp_req_completion_header g BYTES_IN_DWORD) /\
  post r f (put_cur r g) {| cpl_header := Some (set_tlp_req_completion_header g BYTES_IN_DWORD); cpl_data := data |}.
Proof.
  intros Hw Hg Ht Hi Hids. unfold cur_header. rewrite get_put_cur by done. split; [done|]. split; [by apply put_cur_wf|].
  split; [apply put_cur_ref|]. intros hd [= <-]. exists g. rewrite get_put_cur by done. split; [done|]. split; [done|].
  apply header_decode, Hg.
Qed.

Lemma read0_post r reg : dev_wf r -> 0 <= reg < 1024 -> exists f x cap hd, get_cur r = Done f /\ cfg_read reg f = Done x /\
  let r' := put_cur r (set_cmpl f TLP_FMT_CPL_W_DATA TLP_CPL_LENGTH_SINGLE_DWORD TLP_CPL_STATUS_SC) in
  let cpl := {| cpl_header := Some hd; cpl_data := Some [x] |} in
  handle_tlp_req_read_type_0 r reg = Done (r', cpl, cap) /\ post r f r' cpl.
Proof.
  intros Hw Hr. destruct (get_cur_wf r Hw) as (f & E & Hf & Ht & Hi). destruct (read_switch_cxt reg f) as (x & cap & Ex & Es); [apply Hf|done|].
  exists f, x, cap. eexists. split; [done|]. split; [done|]. unfold handle_tlp_req_read_type_0. rewrite E. cbn [mbind res_bind]. rewrite Es.
  cbn [mbind res_bind].
  destruct (post_put r f (set_cmpl f TLP_FMT_CPL_W_DATA TLP_CPL_LENGTH_SINGLE_DWORD TLP_CPL_STATUS_SC) (Some [x])) as [H1 H2];
    [done|by apply set_cmpl_inv|done..|]. rewrite H1. split; [done|]. exact H2.
Qed.

Lemma default_post r : dev_wf r -> exists f hd, get_cur r = Done f /\
  let r' := put_cur r (set_cmpl f TLP_FMT_CPL_NODATA TLP_CPL_LENGTH_ZERO TLP_CPL_STATUS_UR) in
  let cpl := {| cpl_header := Some hd; cpl_data := None |} in
  handle_tlp_req_default r = Done (r', cpl) /\ post r f r' cpl.
Proof.
  intros Hw. destruct (get_cur_wf r Hw) as (f & E & Hf & Ht & Hi). exists f. eexists. split; [done|].
  unfold handle_tlp_req_default. rewrite E. cbn [mbind res_bind].
  destruct (post_put r f (set_cmpl f TLP_FMT_CPL_NODATA TLP_CPL_LENGTH_ZERO TLP_CPL_STATUS_UR) None) as [H1 H2];
    [done|by apply set_cmpl_inv|done..|]. rewrite H1. split; [done|]. exact H2.
Qed.

Lemma write0_post q r reg : dev_wf r -> req_wf q -> rq_data q <> [] -> 0 <= reg < 1024 ->
  exists f d be m cap hd, get_cur r = Done f /\ GET_TLP_REQ_FIRST_DW_BE (rq_header q) = Done be /\ 0 <= be < 16 /\
    map_first_dw_be_to_mask be = Done m /\ at_ (rq_data q) 0 = Done d /\
    let r' := put_cur r (cfg_write_switch reg d m f).1 in
    let cpl := {| cpl_header := Some hd; cpl_data := None |} in
    handle_tlp_req_write_type_0 q r reg = Done (r', cpl, cap) /\ post r f r' cpl.
Proof.
  intros Hw Hq Hd Hr. destruct (get_cur_wf r Hw) as (f & E & [Hf Hc] & Ht & Hi).
  destruct (field q 3 0 1 Hq) as (be & Ebe & Hbe); [lia..|]. destruct (be_mask_total be Hbe) as (m & Em & Hm).
  destruct (rq_data q) as [|d l] eqn:Ed; [done|]. exists f, d, be, m, (cfg_write_switch reg d m f).2,
    (set_tlp_req_completion_header (cfg_write_switch reg d m f).1 BYTES_IN_DWORD).
  do 5 (split; [done|]). unfold handle_tlp_req_write_type_0, GET_TLP_REQ_FIRST_DW_BE. rewrite Ebe. cbn [mbind res_bind].
  rewrite Em, Ed. change (at_ (d :: l) 0) with (Done d). cbn [mbind res_bind]. rewrite E. cbn [mbind res_bind].
  destruct (write_switch_cxt reg d m f Hr) as (Hcore & Hvi & Hcm).
  pose proof (func_type_write reg d m f) as Hty. pose proof (write_wf f reg d m Hf Hm Hr) as Hwf.
  destruct (cfg_write_switch reg d m f) as [f' cap]. cbn [fst snd] in *.
  destruct (post_put r f f' None) as [H1 H2]; [done| |by rewrite Hty| | |].
  - split; [done|]. injection Hcm as Ha Hb Hs. apply (core_inv (cxt f)); [done|rewrite Ha|rewrite Hb|rewrite Hs|]; done.
  - destruct (rs_cur_func r); [done|]. cbn in *. by rewrite Hvi.
  - unfold core in Hcore. unfold ids. by simplify_eq/=; congruence.
  - cbv beta iota zeta. rewrite H1. split; [done|]. exact H2.
Qed.

Lemma mem_read_post q r : dev_wf r -> req_wf q -> exists f r' cpl, get_cur r = Done f /\
  handle_tlp_req_memory_read q r = Done (r', cpl) /\ post r f r' cpl /\
  (cpl_header cpl = None <-> TLP_REQ_TYPE_MEMORY_READ = TLP_REQ_TYPE_MEMORY_WRITE).
Proof.
  intros Hw Hq. destruct (field q 9 0 0 Hq) as (len & El & Hl); [lia..|]. destruct (field q 3 0 1 Hq) as (fbe & Ef & _); [lia..|].
  destruct (field q 7 4 1 Hq) as (lbe & Elb & _); [lia..|]. destruct (field q 31 29 0 Hq) as (fmt & Efm & _); [lia..|].
  assert (exists a, (if fmt =? TLP_FMT_4DW_NODATA then parse_64bit_address (rq_header q) else parse_32bit_address (rq_header q)) = Done a
    /\ in_width 64 a /\ (4 | a)) as (a & Ea & _ & Ha).
  { destruct (Z.eqb_spec fmt TLP_FMT_4DW_NODATA); [apply parse_64; [apply Hq|eapply rw_long; eauto]|apply parse_32; apply Hq]. }
  destruct (read_total r a (len * BYTES_IN_DWORD) fbe lbe Hw Ha) as (f & data & E & _ & _ & Er);
    [unfold BYTES_IN_DWORD, in_width in *; lia|].
  destruct (get_cur_wf r Hw) as (f' & E' & Hf & Ht & Hi). rewrite E in E'. injection E' as <-.
  unfold handle_tlp_req_memory_read, GET_TLP_REQ_LENGTH, GET_TLP_REQ_FIRST_DW_BE, GET_TLP_REQ_LAST_DW_BE, GET_TLP_REQ_FMT.
  rewrite El. cbn [mbind res_bind]. rewrite Ef. cbn [mbind res_bind]. rewrite Elb. cbn [mbind res_bind]. rewrite Efm. cbn [mbind res_bind].
  rewrite Ea. cbn [mbind res_bind]. rewrite Er. cbn [mbind res_bind]. rewrite get_put_cur by done. cbn [mbind res_bind].
  set (g := set_cmpl f _ _ _). exists f. eexists _, _. split; [done|].
  assert (func_inv g) as Hg.
  { apply set_cmpl_inv; [done|done| |done]. unfold read_count, TLP_TRANSACTION_CMPL_DATA_MAX_DW, BYTES_IN_DWORD, in_width in *.
    Z.to_euclidean_division_equations; lia. }
  destruct (post_put r f g (Some (take (Z.to_nat (cx_cmpl_length (cxt g))) data))) as [H1 H2]; [done..|].
  rewrite H1. split; [done|]. split; [exact H2|done].
Qed.

Lemma mem_write_post q r : dev_wf r -> req_wf q -> get_tlp_req_type q = Done TLP_REQ_TYPE_MEMORY_WRITE ->
  exists r', handle_tlp_req_memory_write q r = Done r' /\ dev_wf r' /\ rs_cur_func r' = rs_cur_func r.
Proof.
  intros Hw Hq Hty. destruct (field q 9 0 0 Hq) as (len & El & Hl); [lia..|]. destruct (field q 3 0 1 Hq) as (fbe & Ef & _); [lia..|].
  destruct (field q 7 4 1 Hq) as (lbe & Elb & _); [lia..|]. destruct (field q 31 29 0 Hq) as (fmt & Efm & _); [lia..|].
  destruct (rw_write q Hq Hty fmt len Efm El) as [Hlen Hfit].
  assert (exists a, (if fmt =? TLP_FMT_4DW_W_DATA then parse_64bit_address (rq_header q) else parse_32bit_address (rq_header q)) = Done a
    /\ in_width 64 a /\ (4 | a)) as (a & Ea & _ & Ha).
  { destruct (Z.eqb_spec fmt TLP_FMT_4DW_W_DATA); [apply parse_64; [apply Hq|eapply rw_long; eauto]|apply parse_32; apply Hq]. }
  unfold handle_tlp_req_memory_write, GET_TLP_REQ_LENGTH, GET_TLP_REQ_FIRST_DW_BE, GET_TLP_REQ_LAST_DW_BE, GET_TLP_REQ_FMT.
  rewrite El. cbn [mbind res_bind]. rewrite Ef. cbn [mbind res_bind]. rewrite Elb. cbn [mbind res_bind]. rewrite Efm. cbn [mbind res_bind].
  rewrite Ea. cbn [mbind res_bind]. unfold TLP_DATA_ARRAY_MAX_SIZE in *. rewrite Z.min_l by lia.
  set (o := if fmt =? TLP_FMT_4DW_W_DATA then TLP_64BIT_ADDR_DATA_OFFSET_DW else TLP_32BIT_ADDR_DATA_OFFSET_DW).
  rewrite (mapM_Done _ (fun i => rq_header q !!! Z.to_nat (o + i))).
  2: { intros i Hi%in_idx. apply at_total. unfold o, TLP_64BIT_ADDR_DATA_OFFSET_DW, TLP_32BIT_ADDR_DATA_OFFSET_DW. case_match; lia. }
  cbn [mbind res_bind].
  destruct (write_total r a (len * BYTES_IN_DWORD) (((fun i => rq_header q !!! Z.to_nat (o + i)) <$> idx len) ++ replicate (Z.to_nat (16 - len)) 0)
    fbe lbe Hw Ha) as (f & mem & b & r' & _ & _ & _ & _ & _ & Es & Hw' & Hcur & _).
  - unfold BYTES_IN_DWORD, in_width in *. lia.
  - rewrite length_app, length_fmap, length_idx, length_replicate. unfold in_width in Hl. lia.
  - by exists r'.
Qed.

(** The completion names the request [q]. *)
Definition names_request q (fs : cpl_fields) : Prop :=
  GET_TLP_REQ_REQ_ID (rq_header q) = Done (cf_requester_id fs) /\ GET_TLP_REQ_TAG (rq_header q) = Done (cf_tag fs) /\
  GET_TLP_REQ_TAG9 (rq_header q) = Done (cf_tag9 fs) /\ GET_TLP_REQ_TAG8 (rq_header q) = Done (cf_tag8 fs) /\
  cf_type fs = TLP_TYPE_COMPLETION.

(** The call [c] completes a request of type [t] and fits it, with what is left in
    the buffers: a configuration access has its own calls, a memory write is posted and
    needs no header, data comes only with reads. *)
Definition answer_ok (t : tlp_req_type) (cpl : tlp_cpl) (c : tlp_complete) : Prop :=
  match c with
  | CompleteConfigRead _ _ _ _ =>
    t = TLP_REQ_TYPE_CONFIG_READ_TYPE_0 /\ is_Some (cpl_header cpl) /\ exists x, cpl_data cpl = Some [x]
  | CompleteConfigWrite _ _ _ _ =>
    t = TLP_REQ_TYPE_CONFIG_WRITE_TYPE_0 /\ is_Some (cpl_header cpl) /\ cpl_data cpl = None
  | CompleteTlp non_posted _ =>
    non_posted = negb (bool_decide (t = TLP_REQ_TYPE_INVALID \/ t = TLP_REQ_TYPE_MEMORY_WRITE)) /\
    (t <> TLP_REQ_TYPE_MEMORY_WRITE -> is_Some (cpl_header cpl)) /\
    (is_Some (cpl_data cpl) -> t = TLP_REQ_TYPE_MEMORY_READ)
  | CompletePciEvent => False
  end.

Lemma non_posted_done q t : get_tlp_req_type q = Done t ->
  is_non_posted_tlp_req q = Done (negb (bool_decide (t = TLP_REQ_TYPE_INVALID \/ t = TLP_REQ_TYPE_MEMORY_WRITE))).
Proof. intros Ht. unfold is_non_posted_tlp_req. rewrite Ht. by destruct t. Qed.

Lemma answer_tlp t hd data np dev :
  np = negb (bool_decide (t = TLP_REQ_TYPE_INVALID \/ t = TLP_REQ_TYPE_MEMORY_WRITE)) ->
  (data = None \/ t = TLP_REQ_TYPE_MEMORY_READ) ->
  answer_ok t {| cpl_header := Some hd; cpl_data := data |} (CompleteTlp np dev).
Proof. intros -> Hd. split; [done|]. split; [by eexists|]. destruct Hd as [-> | ->]; [by intros [? [=]]|done]. Qed.

Lemma switch_post q r reg t : dev_wf r -> req_wf q -> get_tlp_req_type q = Done t -> 0 <= reg < 1024 ->
  exists f r' cpl c, get_cur r = Done f /\ tlp_req_switch q r reg t = Done (r', cpl, c) /\ post r f r' cpl /\
    (cpl_header cpl = None <-> t = TLP_REQ_TYPE_MEMORY_WRITE) /\ answer_ok t cpl c.
Proof.
  intros Hw Hq Ht Hr. pose proof (non_posted_done q t Ht) as Enp.
  destruct t; cbn [tlp_req_switch].
  all: try (destruct (default_post r Hw) as (f & hd & E & E' & Hp); rewrite E'; cbn [mbind res_bind]; rewrite Enp; exists f;
    eexists _, _, _; do 4 (split; [done|]); apply answer_tlp; [done|by left]).
  - destruct (mem_read_post q r Hw Hq) as (f & r' & cpl & E & E' & Hp & Hh). rewrite E'. cbn [mbind res_bind]. rewrite Enp. exists f.
    eexists _, _, _. do 3 (split; [done|]). split; [by rewrite Hh|]. split; [done|]. split; [|done]. intros _.
    destruct (cpl_header cpl); [by eexists|]. exfalso. by destruct Hh as [Hh _]; specialize (Hh eq_refl).
  - destruct (mem_write_post q r Hw Hq Ht) as (r' & E' & Hw' & Hc). rewrite E'. cbn [mbind res_bind]. rewrite Enp.
    destruct (get_cur_wf r Hw) as (f & E & _). exists f. eexists _, _, _. do 4 (split; [done|]). split; [done|]. split; [done|].
    by intros [? [=]].
  - destruct (read0_post r reg Hw Hr) as (f & x & [[cap v] pc] & hd & E & _ & E' & Hp). rewrite E'. cbn [mbind res_bind]. exists f.
    eexists _, _, _. do 4 (split; [done|]). split; [done|]. split; by eexists.
  - destruct (write0_post q r reg Hw Hq (rw_data q Hq Ht) Hr) as (f & d & be & m & [[cap v] pc] & hd & E & _ & _ & _ & _ & E' & Hp).
    rewrite E'. cbn [mbind res_bind]. exists f. eexists _, _, _. do 4 (split; [done|]). split; [done|]. split; [by eexists|done].
Qed.

Lemma set_requester_inv f rid t9 t8 tag : func_inv f -> in_width 16 rid -> in_width 1 t9 -> in_width 1 t8 -> in_width 8 tag ->
  func_inv (set_requester f rid t9 t8 tag).
Proof. intros [Hw Hc] ? ? ? ?. split; [by apply (func_wf_ext f)|]. destruct Hc. by split. Qed.

(** The first part of [handle_tlp_req]. *)
Lemma handle_start q r f : dev_wf r -> req_wf q -> get_cur r = Done f ->
  exists reg rid t9 t8 tag t, GET_TLP_REQ_EXT_REG_NUM (rq_header q) = Done reg /\ 0 <= reg < 1024 /\
    GET_TLP_REQ_REQ_ID (rq_header q) = Done rid /\ GET_TLP_REQ_TAG (rq_header q) = Done tag /\
    GET_TLP_REQ_TAG9 (rq_header q) = Done t9 /\ GET_TLP_REQ_TAG8 (rq_header q) = Done t8 /\
    get_tlp_req_type q = Done t /\ dev_wf (put_cur r (set_requester f rid t9 t8 tag)) /\
    handle_tlp_req q r = tlp_req_switch q (put_cur r (set_requester f rid t9 t8 tag)) reg t.
Proof.
  intros Hw Hq Ef. destruct (field q 11 2 2 Hq) as (reg & E1 & H1); [lia..|]. destruct (field q 31 16 1 Hq) as (rid & E2 & H2); [lia..|].
  destruct (field q 23 23 0 Hq) as (t9 & E3 & H3); [lia..|]. destruct (field q 19 19 0 Hq) as (t8 & E4 & H4); [lia..|].
  destruct (field q 15 8 1 Hq) as (tag & E5 & H5); [lia..|]. destruct (type_done q Hq) as [t E6].
  destruct (get_cur_wf r Hw) as (f' & Ef' & Hf & Hty & Hi). rewrite Ef in Ef'. injection Ef' as <-.
  exists reg, rid, t9, t8, tag, t. do 7 (split; [done|]). split.
  - apply put_cur_wf; [done|by apply set_requester_inv|done..].
  - unfold handle_tlp_req, GET_TLP_REQ_EXT_REG_NUM, GET_TLP_REQ_REQ_ID, GET_TLP_REQ_TAG9, GET_TLP_REQ_TAG8, GET_TLP_REQ_TAG.
    rewrite E1. cbn [mbind res_bind]. rewrite E2. cbn [mbind res_bind]. rewrite E3. cbn [mbind res_bind]. rewrite E4. cbn [mbind res_bind].
    rewrite E5. cbn [mbind res_bind]. rewrite Ef. cbn [mbind res_bind]. by rewrite E6.
Qed.

Lemma handle_post q r : dev_wf r -> req_wf q ->
  exists f r' cpl c, get_cur r = Done f /\ handle_tlp_req q r = Done (r', cpl, c) /\ dev_wf r' /\ rs_cur_func r' = rs_cur_func r /\
    (cpl_header cpl = None <-> get_tlp_req_type q = Done TLP_REQ_TYPE_MEMORY_WRITE) /\
    (exists t, get_tlp_req_type q = Done t /\ answer_ok t cpl c) /\
    forall hd, cpl_header cpl = Some hd -> exists fs, cpl_decode hd = Some fs /\ names_request q fs /\
      cf_completer_id fs = cx_completer_id (cxt f).
Proof.
  intros Hw Hq. destruct (get_cur_wf r Hw) as (f & E & _).
  destruct (handle_start q r f Hw Hq E) as (reg & rid & t9 & t8 & tag & t & _ & Hreg & E2 & E5 & E3 & E4 & E6 & Hw1 & Eh).
  destruct (switch_post q (put_cur r (set_requester f rid t9 t8 tag)) reg t Hw1 Hq E6 Hreg)
    as (f1 & r' & cpl & c & E1 & Es & (Hw' & Hc & Hp) & Hn & Ha). rewrite get_put_cur in E1 by done. injection E1 as <-.
  exists f, r', cpl, c. split; [done|]. rewrite Eh. split; [done|]. split; [done|]. split; [by rewrite Hc, put_cur_ref|].
  split; [rewrite Hn, E6; split; [by intros ->|by intros [=]]|]. split; [by exists t|]. clear Ha. intros hd Hhd. destruct (Hp hd Hhd) as (g & Eg & Hids & Hdec). eexists. split; [done|]. unfold ids in Hids. cbn in Hids.
  injection Hids as Ha Hb Hc' Hd He.
  destruct (get_cur_wf r' Hw') as (g' & Eg' & [_ Hg] & _). rewrite Eg in Eg'. injection Eg' as <-.
  split; [|done]. unfold names_request. cbn. rewrite Hb, Hc', Hd, He. repeat split; try done. apply Hg.
Qed.

(** ** Routing *)

Definition fn_ref (function : Z) : func_ref := if function =? 0 then RefPF else RefVF (function - 1).
(** The functions that answer configuration requests. *)
Definition responds r (device function : Z) : bool :=
  (device =? 0) && ((function =? 0) || ((function <=? rs_total_vfs r) && is_vf_enabled r (function - 1))).

Lemma set_cur_wf r p : dev_wf r -> ref_ok r p -> dev_wf {| r with rs_cur_func := p |}.
Proof. intros [] Hp. by split. Qed.

Lemma set_bdf_inv f bus dev fn : func_inv f -> in_width 8 bus -> func_inv (set_bdf f bus dev fn).
Proof.
  intros [Hw Hc] Hb. split; [by apply (func_wf_ext f)|]. destruct Hc. split; try done. apply u16_range.
Qed.
Lemma set_bus_inv f bus : func_inv f -> in_width 8 bus -> func_inv (set_bus f bus).
Proof. intros [Hw Hc] Hb. split; [by apply (func_wf_ext f)|]. destruct Hc. by split. Qed.
Lemma set_completer_inv f id : func_inv f -> in_width 16 id -> func_inv (set_completer_id f id).
Proof. intros [Hw Hc] Hb. split; [by apply (func_wf_ext f)|]. destruct Hc. by split. Qed.

Lemma responds_ref r dev fn : 0 <= fn < 8 -> responds r dev fn = true -> ref_ok r (fn_ref fn) /\ dev = 0.
Proof.
  intros Hf. unfold responds, fn_ref, ref_ok. rewrite andb_true_iff, Z.eqb_eq. intros [-> H]. split; [|done].
  destruct (Z.eqb_spec fn 0); [done|]. cbn [orb] in H. rewrite andb_true_iff, Z.leb_le in H. lia.
Qed.

Lemma route_config_spec q r : dev_wf r -> req_wf q ->
  exists bus dev fn, GET_TLP_REQ_BUS (rq_header q) = Done bus /\ GET_TLP_REQ_DEVICE (rq_header q) = Done dev /\
    GET_TLP_REQ_FUNCTION (rq_header q) = Done fn /\ in_width 8 bus /\ in_width 5 dev /\ 0 <= fn < 8 /\
    if responds r dev fn then
      exists f, get_ref r (fn_ref fn) = Done f /\
        let r' := put_cur {| r with rs_cur_func := fn_ref fn |} (set_bdf f bus dev fn) in
        let r'' := {| r' with rs_pf := set_bus (rs_pf r') bus |} in
        route_config_tlp q r = Done (Some r'') /\ dev_wf r'' /\ rs_cur_func r'' = fn_ref fn /\ get_cur r'' = Done (set_bdf f bus dev fn)
    else route_config_tlp q r = Done None.
Proof.
  intros Hw Hq. destruct (field q 31 24 2 Hq) as (bus & E1 & H1); [lia..|]. destruct (field q 23 19 2 Hq) as (dev & E2 & H2); [lia..|].
  destruct (field q 18 16 2 Hq) as (fn & E3 & H3); [lia..|]. exists bus, dev, fn. do 6 (split; [done|]).
  unfold route_config_tlp, GET_TLP_REQ_BUS, GET_TLP_REQ_DEVICE, GET_TLP_REQ_FUNCTION.
  rewrite E1. cbn [mbind res_bind]. rewrite E2. cbn [mbind res_bind]. rewrite E3. cbn [mbind res_bind]. unfold in_width in H3. cbn in H3.
  pose proof (dw_total r Hw) as Htot. unfold TLP_MAX_TOTAL_VFS in Htot.
  assert ((negb (dev =? 0) || (negb (fn =? 0) && ((rs_total_vfs r =? 0) || (fn <? SRIOV_FIRST_VF_OFFSET) ||
    (rs_total_vfs r <=? u32 (fn - SRIOV_FIRST_VF_OFFSET)) || negb (is_vf_enabled r (u32 (fn - SRIOV_FIRST_VF_OFFSET)))))) =
    negb (responds r dev fn)) as Hresp.
  { unfold responds, SRIOV_FIRST_VF_OFFSET. destruct (Z.eqb_spec dev 0); [|done]. destruct (Z.eqb_spec fn 0); [done|]. cbn [negb orb andb].
    rewrite u32_small by lia. destruct (is_vf_enabled r (fn - 1)); cbn [negb]; rewrite ?orb_true_r, ?andb_false_r; [|done].
    rewrite orb_false_r, andb_true_r. lia. }
  destruct (responds r dev fn) eqn:Er.
  - apply responds_ref in Er as [Hok ->]; [|lia]. destruct (get_ref_wf r (fn_ref fn) Hw Hok) as (f & Ef & Hf & Ht & Hi).
    exists f. split; [done|]. cbn [negb orb Z.eqb] in Hresp |- *. rewrite Hresp.
    replace (if fn =? 0 then RefPF else RefVF (u32 (fn - SRIOV_FIRST_VF_OFFSET))) with (fn_ref fn)
      by (unfold fn_ref, SRIOV_FIRST_VF_OFFSET; destruct (Z.eqb_spec fn 0); [done|by rewrite u32_small by lia]).
    set (r0 := {| r with rs_cur_func := fn_ref fn |}). assert (dev_wf r0) as Hw0 by (by apply set_cur_wf).
    assert (get_cur r0 = Done f) as Ef0 by (unfold get_cur, r0; cbn; by destruct (fn_ref fn)).
    rewrite Ef0. cbn [mbind res_bind].
    assert (dev_wf (put_cur r0 (set_bdf f bus 0 fn))) as Hw1 by (apply put_cur_wf; [done|by apply set_bdf_inv|done|done]).
    set (r1 := put_cur r0 (set_bdf f bus 0 fn)) in *.
    assert (rs_cur_func r1 = fn_ref fn) as Hc1 by apply put_cur_ref.
    pose proof (get_put_cur r0 (set_bdf f bus 0 fn) Hw0) as Eg1. fold r1 in Eg1.
    split; [done|]. split; [|split; [done|]].
    + destruct Hw1 as [G1 G2 G3 G4 G5 G6]. split; try done. by apply set_bus_inv.
    + unfold get_cur, get_ref in *. cbn. rewrite Hc1 in *. by destruct (fn_ref fn).
  - cbn [negb] in Hresp. destruct (negb (dev =? 0)); [done|]. cbn [orb] in Hresp. by rewrite Hresp.
Qed.

Definition vf_size : Z := 2 ^ layout_log_size.
(** The completer id of virtual function [i]. *)
Definition vf_completer r (i : Z) : Z := u16 (Z.lor (Z.shiftl (cx_bus (cxt (rs_pf r))) 8) (i + 1)).
(** Memory of virtual function [i] can be accessed. *)
Definition vf_memory_on r (i : Z) : bool :=
  negb (Z.land (sr_control (sriov (rs_pf r))) SRIOV_CTRL_VF_MSE =? 0) && is_vf_enabled r i.

Lemma route_mmio_spec r a : dev_wf r -> in_width 64 a ->
  exists base, bar_base (sr_vf_bar (sriov (rs_pf r))) = Done base /\ in_width 64 base /\
    let i := (a - base) / vf_size in
    if negb (rs_total_vfs r =? 0) && negb (base =? 0) && (base <=? a) && (a <? u64 (base + rs_total_vfs r * vf_size))
    then 0 <= i < rs_total_vfs r /\ exists f, get_ref r (RefVF i) = Done f /\ route_mmio_tlp r a =
      Done (if vf_memory_on r i then (put_ref r (RefVF i) (set_completer_id f (vf_completer r i)), Some (RefVF i)) else (r, None))
    else route_mmio_tlp r a = Done (r, Some RefPF).
Proof.
  intros Hw Ha. destruct (dw_pf r Hw) as [Hpf _].
  destruct (bar_base_ok (sr_vf_bar (sriov (rs_pf r)))) as (base & Eb & Hb & _ & _); [apply Hpf|apply bars_width; [done|apply Hw]|].
  exists base. split; [done|]. split; [done|]. unfold route_mmio_tlp. rewrite Eb.
  destruct (rs_total_vfs r =? 0); [done|]. cbn [mbind res_bind negb andb]. change (Z.shiftl 1 layout_log_size) with vf_size.
  destruct (negb (base =? 0) && (base <=? a) && (a <? u64 (base + rs_total_vfs r * vf_size))) eqn:Ew; [|done].
  rewrite !andb_true_iff, Z.leb_le, Z.ltb_lt in Ew. destruct Ew as [[_ Hlo] Hhi].
  pose proof (dw_total r Hw) as Htot. unfold TLP_MAX_TOTAL_VFS in Htot.
  assert (a - base < rs_total_vfs r * vf_size) as Hin.
  { pose proof (u64_range (base + rs_total_vfs r * vf_size)). unfold in_width in *. unfold u64, uwrap, vf_size, layout_log_size in *.
    Z.to_euclidean_division_equations. nia. }
  assert (0 <= (a - base) / vf_size < rs_total_vfs r) as Hi
    by (split; [apply Z.div_pos; [lia|done]|apply Z.div_lt_upper_bound; [done|lia]]).
  split; [done|]. destruct (get_ref_wf r (RefVF ((a - base) / vf_size)) Hw Hi) as (f & Ef & _). exists f. split; [done|].
  rewrite (u32_small ((a - base) / vf_size)) by lia. set (i := (a - base) / vf_size) in *. unfold vf_memory_on.
  destruct (Z.land (sr_control (sriov (rs_pf r))) SRIOV_CTRL_VF_MSE =? 0); [done|]. cbn [orb negb andb].
  destruct (is_vf_enabled r i); [|done]. cbn [negb]. rewrite Ef. cbn [mbind res_bind]. unfold vf_completer.
  unfold SRIOV_FIRST_VF_OFFSET, SRIOV_VF_STRIDE. rewrite Z.mul_1_r, (Z.add_comm 1 i), u8_small by lia. done.
Qed.

Lemma route_mmio_post r a : dev_wf r -> in_width 64 a -> exists r' o, route_mmio_tlp r a = Done (r', o) /\ dev_wf r' /\
  match o with Some p => ref_ok r' p | None => True end.
Proof.
  intros Hw Ha. destruct (route_mmio_spec r a Hw Ha) as (base & _ & _ & Hr). cbv zeta in Hr.
  destruct (_ && _ && _ && _); [|by eexists _, _]. destruct Hr as (Hi & f & Ef & ->).
  destruct (vf_memory_on r _); [|by eexists _, _]. eexists _, _. split; [done|].
  destruct (get_ref_wf r (RefVF ((a - base) / vf_size)) Hw Hi) as (f' & Ef' & Hf & Ht & Hx). rewrite Ef in Ef'. injection Ef' as <-.
  split; [|done]. apply put_ref_wf; [done|done| |done|done]. apply set_completer_inv; [done|apply u16_range].
Qed.

(** ** The callback *)

Lemma reset_post q r : dev_wf r -> req_wf q ->
  exists f r' cpl c, get_cur r = Done f /\ reset_and_handle q r = Done (r', cpl, c) /\ dev_wf r' /\ rs_cur_func r' = rs_cur_func r /\
    (exists t, get_tlp_req_type q = Done t /\ answer_ok t cpl c) /\
    forall hd, cpl_header cpl = Some hd -> exists fs, cpl_decode hd = Some fs /\ names_request q fs /\
      cf_completer_id fs = cx_completer_id (cxt f).
Proof.
  intros Hw Hq. destruct (get_cur_wf r Hw) as (f & E & Hf & Ht & Hi). unfold reset_and_handle. rewrite E. cbn [mbind res_bind].
  destruct (handle_post q (put_cur r (set_cmpl f 0 0 0))) as (g & r' & cpl & c & Eg & Eh & Hw' & Hc & _ & Ha & Hp);
    [apply put_cur_wf; [done|by apply set_cmpl_inv|done..]|done|].
  rewrite get_put_cur in Eg by done. injection Eg as <-. exists f, r', cpl, c. split; [done|]. split; [done|]. split; [done|].
  rewrite put_cur_ref in Hc. auto.
Qed.

(** One call [c] completes the request [q], and the header, where there is one, names it. *)
Definition tlp_answered q (cpl : tlp_cpl) (c : option tlp_complete) : Prop :=
  exists t c', c = Some c' /\ get_tlp_req_type q = Done t /\ answer_ok t cpl c' /\
    forall hd, cpl_header cpl = Some hd -> exists fs, cpl_decode hd = Some fs /\
      (names_request q fs \/ cf_status fs = TLP_CPL_STATUS_UR /\ cpl_data cpl = None).

(** What the callback does to answer [q]: nothing when the user data of the channel cannot
    be read, the call for events for an event, and otherwise one call that fits the
    type of the request. The header, where there is one, is that of a completion and names
    the request, except that of an Unsupported Request, which has no data. *)
Definition answered (ud : doca_error_t) q (a : tlp_cpl * option tlp_complete) : Prop :=
  if negb (is_success ud) then a = (no_cpl, None)
  else if rq_is_pci_event q then a = (no_cpl, Some CompletePciEvent)
  else tlp_answered q a.1 a.2.

(** Every branch that answers with an Unsupported Request. *)
Lemma default_answers q r t : dev_wf r -> get_tlp_req_type q = Done t ->
  exists r' cpl, handle_tlp_req_default r = Done (r', cpl) /\ dev_wf r' /\
    forall dev, tlp_answered q cpl
      (Some (CompleteTlp (negb (bool_decide (t = TLP_REQ_TYPE_INVALID \/ t = TLP_REQ_TYPE_MEMORY_WRITE))) dev)).
Proof.
  intros Hw Ht. destruct (default_post r Hw) as (f & hd & _ & E & Hw' & _ & Hp). eexists _, _. split; [exact E|].
  split; [done|]. intros dev. eexists t, _. do 2 (split; [done|]). split; [apply answer_tlp; [done|by left]|].
  intros hd' [= <-]. destruct (Hp hd eq_refl) as (g & Eg & _ & Hdec). rewrite get_put_cur in Eg by done.
  injection Eg as <-. eexists. split; [exact Hdec|]. right. done.
Qed.

Lemma cb_answers ud q r : dev_wf r -> req_wf q ->
  exists r' cpl c, tlp_req_handler_cb ud q r = Done (r', cpl, c) /\ dev_wf r' /\ answered ud q (cpl, c).
Proof.
  intros Hw Hq. unfold tlp_req_handler_cb, answered. destruct (is_success ud); [|by eexists _, _, _]. cbn [negb].
  destruct (rq_is_pci_event q); [by eexists _, _, _|]. destruct (type_done q Hq) as [t Et]. rewrite Et. cbn [mbind res_bind].
  set (r0 := {| r with rs_cur_func := RefPF |}). assert (dev_wf r0) as Hw0 by (by apply set_cur_wf).
  assert (forall r1, dev_wf r1 -> exists r' cpl c, ('(r, cpl, c) ← reset_and_handle q r1; Done (r, cpl, Some c)) = Done (r', cpl, c) /\
    dev_wf r' /\ tlp_answered q cpl c) as Hreset.
  { intros r1 Hw1. destruct (reset_post q r1 Hw1 Hq) as (f & r' & cpl & c & _ & -> & Hw' & _ & (t' & Et' & Ha) & Hh).
    eexists _, _, _. split; [done|]. split; [done|]. exists t', c. do 3 (split; [done|]).
    intros hd Hhd. destruct (Hh hd Hhd) as (fs & Hd & Hn & _). eauto. }
  destruct (bool_decide _ || bool_decide _) eqn:Etc.
  - assert (forall r1, dev_wf r1 -> exists r' cpl c,
      ('(r, cpl) ← handle_tlp_req_default r1; Done (r, cpl, Some (CompleteTlp true (rs_cur_func r)))) = Done (r', cpl, c) /\
      dev_wf r' /\ tlp_answered q cpl c) as Hur.
    { intros r1 Hw1. destruct (default_answers q r1 t Hw1 Et) as (r' & cpl & -> & Hw' & Ha). eexists _, _, _.
      split; [done|]. split; [done|]. specialize (Ha (rs_cur_func r')). by apply orb_true_iff in Etc as [->%bool_decide_eq_true | ->%bool_decide_eq_true]. }
    destruct (_ && _ && _).
    + destruct (get_cur_wf r0 Hw0) as (f & E & Hf & Ht & Hi). rewrite E. cbn [mbind res_bind].
      apply Hur. apply put_cur_wf; [done|apply set_completer_inv; [done|apply Hq]|done..].
    + destruct (route_config_spec q r0 Hw0 Hq) as (bus & dev & fn & _ & _ & _ & _ & _ & _ & Hr).
      destruct (responds r0 dev fn); [destruct Hr as (f & _ & -> & Hw1 & _); by apply Hreset|].
      rewrite Hr. cbn [mbind res_bind]. change (unsupported r0) with (handle_tlp_req_default r0). by apply Hur.
  - clear Etc. destruct (_ || _); [|by apply Hreset]. destruct (mmio_address_done q Hq) as (a & Ea & Ha & _). rewrite Ea. cbn [mbind res_bind].
    destruct (route_mmio_post r0 a Hw0 Ha) as (r1 & o & -> & Hw1 & Ho). cbn [mbind res_bind]. destruct o as [p|].
    + apply Hreset. by apply set_cur_wf.
    + change (unsupported r1) with (handle_tlp_req_default {| r1 with rs_cur_func := RefPF |}).
      destruct (default_answers q {| r1 with rs_cur_func := RefPF |} t) as (r2 & c2 & -> & Hw2 & Hans); [by apply set_cur_wf|done|].
      cbn [mbind res_bind]. rewrite (non_posted_done q t Et). cbn [mbind res_bind].
      eexists _, _, _. split; [done|]. split; [done|]. apply Hans.
Qed.
End Requests.

(** ** Set-up establishes the invariant *)

(** The device while [n] virtual functions are set up. *)
Record partial (n : Z) (r : devemu_tlp_resources) : Prop := {
  pa_pf : func_inv (rs_pf r) /\ func_type (rs_pf r) = DOCA_PCI_FUNC_TYPE_PF;
  pa_total : 0 <= n <= rs_total_vfs r /\ rs_total_vfs r <= TLP_MAX_TOTAL_VFS;
  pa_vfs : length (rs_vf r) = Z.to_nat TLP_MAX_TOTAL_VFS;
  pa_vf : forall i, 0 <= i < n -> exists f, rs_vf r !! Z.to_nat i = Some f /\ func_inv f /\
    func_type f = DOCA_PCI_FUNC_TYPE_VF /\ vf_index f = i;
  pa_rest : forall i f, n <= i -> rs_vf r !! Z.to_nat i = Some f -> cx_exp_bar_memory (cxt f) = None;
  pa_cur : rs_cur_func r = RefPF;
}.

(** The state after [resources = {0}] and the options are stored. *)
Record fresh_dev (r : devemu_tlp_resources) : Prop := {
  fr_type : func_type (rs_pf r) = DOCA_PCI_FUNC_TYPE_PF;
  fr_total : 0 <= rs_total_vfs r <= TLP_MAX_TOTAL_VFS;
  fr_vfs : length (rs_vf r) = Z.to_nat TLP_MAX_TOTAL_VFS;
  fr_exp : Forall (fun f => cx_exp_bar_memory (cxt f) = None) (rs_vf r);
  fr_cur : rs_cur_func r = RefPF;
}.

Lemma init_cxt_inv : let c := init_tlp_handler_cxt None in
  let mem := replicate (Z.to_nat transaction_size) TRANSACTION_REGION_INIT_PATTERN in
  cxt_inv {| c with cx_transaction_region_memory := Some mem; cx_transaction_region_size := transaction_size |}.
Proof.
  intros c mem. split; try done. exists mem. split; [done|]. unfold mem. rewrite length_replicate. split; [done|].
  by apply Forall_replicate.
Qed.

Lemma partial_put n r f : partial n r -> n < rs_total_vfs r -> cx_exp_bar_memory (cxt f) = None -> partial n (put_ref r (RefVF n) f).
Proof.
  intros [H1 H2 H3 H4 H5 H6] Hn Hf. split; try done; unfold TLP_MAX_TOTAL_VFS in *; cbn.
  - by rewrite length_insert.
  - intros i Hi. rewrite list_lookup_insert_ne by lia. auto.
  - intros i g Hi. destruct (Z.eq_dec i n) as [->|]; [rewrite list_lookup_insert_eq by lia; by intros [= <-]|].
    rewrite list_lookup_insert_ne by lia. by apply H5.
Qed.

Lemma partial_put_next n r f : partial n r -> n < rs_total_vfs r -> func_inv f -> func_type f = DOCA_PCI_FUNC_TYPE_VF ->
  vf_index f = n -> partial (n + 1) (put_ref r (RefVF n) f).
Proof.
  intros [H1 H2 H3 H4 H5 H6] Hn Hf Ht Hi. split; try done; unfold TLP_MAX_TOTAL_VFS in *; cbn.
  - lia.
  - by rewrite length_insert.
  - intros i Hin. destruct (Z.eq_dec i n) as [->|]; [exists f; by rewrite list_lookup_insert_eq by lia|].
    rewrite list_lookup_insert_ne by lia. apply H4. lia.
  - intros i g Hin. rewrite list_lookup_insert_ne by lia. apply H5. lia.
Qed.

Lemma vf_config_wf t i c : func_wf {| func_type := DOCA_PCI_FUNC_TYPE_VF; vf_index := i; pci_config_space_of :=
    let s := init_pci_config_space 0 in let h := header s in
    {| s with header := {| h with h_reg0 := w16 TLP_PCI_TYPE_VENDOR_ID VF_PCI_TYPE_DEVICE_ID; h_bar := replicate 6 0;
                                   h_expansion_rom_base_address := 0 |} |}; cxt := c |} /\
  (0 <= t <= TLP_MAX_TOTAL_VFS -> func_wf {| func_type := DOCA_PCI_FUNC_TYPE_PF; vf_index := i;
    pci_config_space_of := init_pci_config_space t; cxt := c |}).
Proof.
  split; [by apply (func_wf_ext (vf_init i)); [..|apply vf_init_wf]|].
  intros Ht. by apply (func_wf_ext (pf_init t)); [..|apply pf_init_wf].
Qed.

Lemma init_vfs_loop_partial reps : forall n r, partial n r ->
  exists r' n' e, init_vfs_loop reps n r = Done (r', n', e) /\ partial n' r' /\ rs_total_vfs r' = rs_total_vfs r.
Proof.
  induction reps as [|rep reps IH]; intros n r Hp; cbn [init_vfs_loop]; [by eexists _, _, _|].
  destruct (Z.ltb_spec n (rs_total_vfs r)) as [Hn|]; [|by eexists _, _, _]. cbn [negb].
  destruct (_ || _); [by apply IH|].
  destruct (lookup_lt_is_Some_2 (rs_vf r) (Z.to_nat n)) as [vf Ev];
    [rewrite (pa_vfs _ _ Hp); pose proof (pa_total _ _ Hp); unfold TLP_MAX_TOTAL_VFS in *; lia|].
  unfold get_ref. rewrite Ev. cbn [mbind res_bind]. pose proof (pa_rest _ _ Hp n vf ltac:(lia) Ev) as Hex.
  destruct (is_success (rep_open rep)); cbn [negb]; [|by eexists _, _, _; split; [|split; [apply partial_put|]]].
  destruct (is_success (rep_init_tlp_dev rep)); cbn [negb]; [|by eexists _, _, _; split; [|split; [apply partial_put|]]].
  cbn [cxt]. rewrite Hex. destruct (rep_malloc rep); cbn [tlp_init_transaction_region];
    [|by eexists _, _, _; split; [|split; [apply partial_put|]]].
  match goal with |- context [put_ref r (RefVF n) ?f] => destruct (IH (n + 1) (put_ref r (RefVF n) f)) as (r' & n' & e & E & Hp' & Ht') end.
  - apply partial_put_next; [done|done| |done|done]. split; [apply (vf_config_wf 0)|].
    exact init_cxt_inv.
  - exists r', n', e. split; [exact E|]. split; [done|]. by rewrite Ht'.
Qed.

Lemma partial_wf r : partial (rs_total_vfs r) r -> dev_wf r.
Proof. intros [[H1 H1'] H2 H3 H4 H5 H6]. split; try done. - lia. - by rewrite H6. Qed.

Lemma fresh_region size x : 0 <= size -> is_byte x ->
  Z.of_nat (length (replicate (Z.to_nat size) x)) = size /\ Forall is_byte (replicate (Z.to_nat size) x).
Proof. intros Hs Hx. rewrite length_replicate. split; [lia|]. by apply Forall_replicate. Qed.

(** The state before the virtual functions are set up. *)
Lemma setup_pf r0 : fresh_dev r0 -> exists r1, partial 0 r1 /\ rs_total_vfs r1 = rs_total_vfs r0 /\
  forall reps, tlp_devices_setup DOCA_SUCCESS true true reps r0 =
    if 0 <? rs_total_vfs r1 then init_vfs reps r1 else Done (r1, DOCA_SUCCESS).
Proof.
  intros [Ht Htot Hl Hex Hc]. unfold tlp_devices_setup.
  cbn [is_success negb tlp_init_transaction_region tlp_init_exp_bar default].
  destruct (fresh_region transaction_size TRANSACTION_REGION_INIT_PATTERN) as [Hl1 Hb1]; [done..|].
  destruct (fresh_region EXP_BAR_SIZE EXP_BAR_INIT_PATTERN) as [Hl2 Hb2]; [done..|].
  set (tm := replicate (Z.to_nat transaction_size) _) in *. clearbody tm.
  set (em := replicate (Z.to_nat EXP_BAR_SIZE) _) in *. clearbody em.
  eexists. split; [|split; [|intros reps; reflexivity]]; [|done].
  split; try done; [|cbn; lia|lia|].
  - split; [|exact Ht]. split.
    + apply (func_wf_ext (pf_init (rs_total_vfs r0))); [done|done|]. by apply pf_init_wf.
    + split; try done. by exists tm.
  - intros i f _ E. rewrite list.Forall_lookup in Hex. by eapply Hex.
Qed.

(** Set-up stops at the first failure. *)
Lemma setup_early pf_dev m1 m2 reps r0 : is_success pf_dev && m1 && m2 = false ->
  exists r e, tlp_devices_setup pf_dev m1 m2 reps r0 = Done (r, e) /\ is_success e = false.
Proof.
  intros H. unfold tlp_devices_setup. destruct (is_success pf_dev) eqn:E; [|by eexists _, _]. cbn [negb].
  destruct m1; [|by eexists _, _]. cbn [tlp_init_transaction_region default is_success negb].
  destruct m2; [done|]. by eexists _, _.
Qed.

Lemma setup_wf pf_dev m1 m2 reps r0 : fresh_dev r0 ->
  exists r e, tlp_devices_setup pf_dev m1 m2 reps r0 = Done (r, e) /\ (e = DOCA_SUCCESS -> dev_wf r).
Proof.
  intros H. destruct (is_success pf_dev && m1 && m2) eqn:Eok.
  2: { destruct (setup_early pf_dev m1 m2 reps r0 Eok) as (r & e & E & He). exists r, e. split; [done|]. by intros ->. }
  rewrite !andb_true_iff, is_success_true in Eok. destruct Eok as [[-> ->] ->].
  destruct (setup_pf r0 H) as (r1 & Hp & Htt & ->). destruct (Z.ltb_spec 0 (rs_total_vfs r1)).
  - unfold init_vfs. destruct reps as [[] l]; try by eexists _, _. cbn [fst snd is_success negb].
    destruct (init_vfs_loop_partial l 0 r1 Hp) as (r' & n' & e & -> & Hp' & _). cbn [mbind res_bind].
    eexists _, _. split; [done|]. destruct e; try done. cbn [is_success negb].
    destruct (Z.eqb_spec n' (rs_total_vfs r')) as [->|]; [|done]. intros _. by apply partial_wf.
  - exists r1, DOCA_SUCCESS. split; [done|]. intros _. apply partial_wf. pose proof (pa_total _ _ Hp).
    by replace (rs_total_vfs r1) with 0 by lia.
Qed.

(** *** When set-up succeeds *)

Definition is_vf_rep (rep : vf_rep) : bool :=
  is_success (rep_func_type rep).1 && bool_decide ((rep_func_type rep).2 = DOCA_PCI_FUNC_TYPE_VF).
Definition rep_ok (rep : vf_rep) : bool := is_success (rep_open rep) && is_success (rep_init_tlp_dev rep) && rep_malloc rep.
(** The representors that [init_vfs] uses when it still looks for [n] functions. *)
Definition used_reps (n : Z) (reps : list vf_rep) : list vf_rep := take (Z.to_nat n) (List.filter is_vf_rep reps).

Lemma init_vfs_loop_success reps : forall n r r' n' e, partial n r -> init_vfs_loop reps n r = Done (r', n', e) ->
  (e = DOCA_SUCCESS /\ n' = rs_total_vfs r) <->
  Z.of_nat (length (used_reps (rs_total_vfs r - n) reps)) = rs_total_vfs r - n /\
  forallb rep_ok (used_reps (rs_total_vfs r - n) reps) = true.
Proof.
  induction reps as [|rep reps IH]; intros n r r' n' e Hp; cbn [init_vfs_loop];
    pose proof (pa_total _ _ Hp) as Ht; unfold TLP_MAX_TOTAL_VFS in Ht.
  { intros [= <- <- <-]. unfold used_reps. cbn [List.filter]. rewrite take_nil. split; intros [Ha Hb]; split; try done; cbn [length] in *; lia. }
  destruct (Z.ltb_spec n (rs_total_vfs r)) as [Hn|]; cbn [negb].
  2: { intros [= <- <- <-]. unfold used_reps. replace (Z.to_nat (rs_total_vfs r - n)) with 0%nat by lia. rewrite take_0. split; intros [Ha Hb]; split; try done; cbn [length] in *; lia. }
  replace (negb _ || negb _) with (negb (is_vf_rep rep)) by (unfold is_vf_rep; by rewrite negb_andb).
  unfold used_reps. cbn [List.filter]. destruct (is_vf_rep rep); cbn [negb]; [|by apply IH].
  replace (Z.to_nat (rs_total_vfs r - n)) with (S (Z.to_nat (rs_total_vfs r - (n + 1)))) by lia. rewrite firstn_cons. cbn [length forallb].
  destruct (lookup_lt_is_Some_2 (rs_vf r) (Z.to_nat n)) as [vf Ev];
    [rewrite (pa_vfs _ _ Hp); unfold TLP_MAX_TOTAL_VFS; lia|].
  unfold get_ref. rewrite Ev. cbn [mbind res_bind]. pose proof (pa_rest _ _ Hp n vf ltac:(lia) Ev) as Hex. unfold rep_ok at 1.
  destruct (rep_open rep); cbn [is_success negb andb]; try by intros [= <- <- <-]; split; [intros [? _]|intros [_ ?]].
  destruct (rep_init_tlp_dev rep); cbn [is_success negb andb]; try by intros [= <- <- <-]; split; [intros [? _]|intros [_ ?]].
  cbn [cxt]. rewrite Hex. destruct (rep_malloc rep); cbn [tlp_init_transaction_region];
    [|by intros [= <- <- <-]; split; [intros [? _]|intros [_ ?]]].
  intros E. apply IH in E.
  - cbn [put_ref rs_total_vfs] in E. rewrite E. fold (used_reps (rs_total_vfs r - (n + 1)) reps). cbn [andb]. rewrite Nat2Z.inj_succ.
    split; intros [? ?]; (split; [lia|done]).
  - apply partial_put_next; [done|done| |done|done]. split; [apply (vf_config_wf 0)|]. exact init_cxt_inv.
Qed.

(** Set-up reports every failure. Setting up the devices succeeds exactly when the device of the
    physical function is created, both of its allocations succeed and, if virtual functions are asked for,
    the representors can be listed, at least as many of them are of virtual functions as
    asked for, and each of those first ones can be opened, gets its device and its memory; otherwise an error is returned. *)
Theorem setup_success_iff pf_dev m1 m2 res_list reps r0 r e : fresh_dev r0 ->
  tlp_devices_setup pf_dev m1 m2 (res_list, reps) r0 = Done (r, e) ->
  e = DOCA_SUCCESS <->
  pf_dev = DOCA_SUCCESS /\ m1 = true /\ m2 = true /\
  (rs_total_vfs r0 = 0 \/ res_list = DOCA_SUCCESS /\
     Z.of_nat (length (used_reps (rs_total_vfs r0) reps)) = rs_total_vfs r0 /\ forallb rep_ok (used_reps (rs_total_vfs r0) reps) = true).
Proof.
  intros H E. destruct (is_success pf_dev && m1 && m2) eqn:Eok.
  2: { destruct (setup_early pf_dev m1 m2 (res_list, reps) r0 Eok) as (r' & e' & E' & He). rewrite E in E'. injection E' as <- <-.
       split; [by intros ->|]. intros (-> & -> & -> & _). done. }
  rewrite !andb_true_iff, is_success_true in Eok. destruct Eok as [[-> ->] ->].
  destruct (setup_pf r0 H) as (r1 & Hp & Htt & Es). rewrite Es in E. pose proof (pa_total _ _ Hp) as Ht. rewrite <- Htt in *.
  destruct (Z.ltb_spec 0 (rs_total_vfs r1)).
  2: { injection E as <- <-. split; [intros _|done]. do 3 (split; [done|]). left. lia. }
  transitivity (res_list = DOCA_SUCCESS /\ Z.of_nat (length (used_reps (rs_total_vfs r1) reps)) = rs_total_vfs r1 /\
    forallb rep_ok (used_reps (rs_total_vfs r1) reps) = true); [|split; [auto 6|intros (_ & _ & _ & [?|?]); [lia|done]]].
  unfold init_vfs in E. cbn [fst snd] in E. destruct (is_success res_list) eqn:Er; cbn [negb] in E.
  2: { injection E as <- <-. split; [by intros ->|]. intros (-> & _). done. }
  apply is_success_true in Er as ->.
  destruct (init_vfs_loop_partial reps 0 r1 Hp) as (r' & n' & e' & El & Hp' & Ht'). rewrite El in E. cbn [mbind res_bind] in E.
  pose proof (init_vfs_loop_success reps 0 r1 r' n' e' Hp El) as Hiff. rewrite Z.sub_0_r in Hiff.
  transitivity (e' = DOCA_SUCCESS /\ n' = rs_total_vfs r1); [|rewrite Hiff; tauto]. injection E as _ <-. rewrite Ht'.
  destruct e'; cbn [is_success negb]; try (split; [done|by intros [? _]]).
  destruct (Z.eqb_spec n' (rs_total_vfs r1)); cbn [negb]; split; try done. by intros [_ ?].
Qed.

(** ** Properties of the device *)

(** A sequence of requests, each with the result of looking up the user data; the answers
    are returned with the device. *)
Fixpoint serve `{Be32} (qs : list (doca_error_t * tlp_channel_req)) (r : devemu_tlp_resources) :
    res (devemu_tlp_resources * list (tlp_cpl * option tlp_complete)) :=
  match qs with
  | [] => Done (r, [])
  | (ud, q) :: qs =>
    '(r, cpl, c) ← tlp_req_handler_cb ud q r;
    '(r, answers) ← serve qs r;
    Done (r, (cpl, c) :: answers)
  end.

Section Device.
Context `{B : Be32} `{!Be32Laws B}.
Implicit Types (q : tlp_channel_req) (r : devemu_tlp_resources) (f : devemu_pci_func).

Lemma serve_wf qs : forall r, dev_wf r -> Forall (fun x => req_wf x.2) qs ->
  exists r' answers, serve qs r = Done (r', answers) /\ dev_wf r' /\ Forall2 (fun x => answered x.1 x.2) qs answers.
Proof.
  induction qs as [|[ud q] qs IH]; intros r Hw Hq; [by exists r, []|]. apply list.Forall_cons in Hq as [Hq Hqs].
  destruct (cb_answers ud q r Hw Hq) as (r' & cpl & c & E & Hw' & Ha). cbn [serve]. rewrite E. cbn [mbind res_bind].
  destruct (IH r' Hw' Hqs) as (r'' & l & -> & Hw'' & Hl). eexists _, _. split; [done|]. split; [done|]. by constructor.
Qed.

(** C3: the invariant of the emulated device. Setting the device up never fails other
    than with an error code, whatever the library and the allocations answer. After a
    successful set-up every sequence of well-formed requests is served, without access
    outside a table, register array or memory region. Every request is answered as
    [answered] says: with one call that fits its type (posted for memory writes), with a
    header, data only for reads, and the requester and tag of the request in the header
    unless it is an Unsupported Request; only when the library cannot give the user data
    of the channel the callback returns without an answer. At the end every
    function still has registers and context fields of the right
    widths and memory regions of the right size holding bytes, and every virtual function still knows its index. *)
Theorem device_invariant pf_dev m1 m2 reps r0 : fresh_dev r0 ->
  exists r e, tlp_devices_setup pf_dev m1 m2 reps r0 = Done (r, e) /\
    (e = DOCA_SUCCESS -> forall qs, Forall (fun x => req_wf x.2) qs ->
       exists r' answers, serve qs r = Done (r', answers) /\ dev_wf r' /\
         Forall2 (fun x => answered x.1 x.2) qs answers).
Proof.
  intros H. destruct (setup_wf pf_dev m1 m2 reps r0 H) as (r & e & E & He). exists r, e. split; [done|].
  intros Hs qs Hqs. apply serve_wf; auto.
Qed.

(** A completion names its request. Every well-formed request handled by a function gets
    a completion header, except a memory write, which gets none; the header
    is one of a completion, has the requester id and the 10-bit tag of the request,
    and the completer id of the function. *)
Theorem completion_header q r : dev_wf r -> req_wf q ->
  exists f r' cpl c, get_cur r = Done f /\ handle_tlp_req q r = Done (r', cpl, c) /\
    (cpl_header cpl = None <-> get_tlp_req_type q = Done TLP_REQ_TYPE_MEMORY_WRITE) /\
    forall hd, cpl_header cpl = Some hd -> exists fs, cpl_decode hd = Some fs /\ names_request q fs /\
      cf_completer_id fs = cx_completer_id (cxt f).
Proof.
  intros Hw Hq. destruct (handle_post q r Hw Hq) as (f & r' & cpl & c & E & Eh & _ & _ & H1 & _ & H2).
  by exists f, r', cpl, c.
Qed.

(** *** Configuration requests *)

(** The type and the configuration space of a function. *)
Definition cfg_of r (p : func_ref) : option (doca_pci_func_type * pci_config_space) :=
  match get_ref r p with Done g => Some (func_type g, pci_config_space_of g) | Crash _ => None end.
(** All functions in use have the same configuration space in both states. *)
Definition same_config r r' : Prop := forall p, ref_ok r p -> cfg_of r' p = cfg_of r p.

Lemma put_ref_other r p p' g : dev_wf r -> ref_ok r p -> ref_ok r p' -> p' <> p -> get_ref (put_ref r p g) p' = get_ref r p'.
Proof.
  intros Hw Hp Hp' Hne. destruct p as [|i], p' as [|j]; try done. cbn in *. by rewrite list_lookup_insert_ne by (intros ?; apply Hne; f_equal; lia).
Qed.
Lemma put_ref_same r p g : dev_wf r -> ref_ok r p -> get_ref (put_ref r p g) p = Done g.
Proof.
  intros Hw Hp. destruct p as [|i]; [done|]. cbn in *. rewrite list_lookup_insert_eq; [done|]. rewrite (dw_vfs r Hw).
  pose proof (dw_total r Hw). unfold TLP_MAX_TOTAL_VFS in *. lia.
Qed.

Lemma put_same_config r p f g : dev_wf r -> ref_ok r p -> get_ref r p = Done f -> func_type g = func_type f ->
  pci_config_space_of g = pci_config_space_of f -> same_config r (put_ref r p g).
Proof.
  intros Hw Hp Ef Ht Hs p' Hp'. unfold cfg_of. destruct (decide (p' = p)) as [->|].
  - rewrite put_ref_same, Ef by done. by rewrite Ht, Hs.
  - by rewrite put_ref_other.
Qed.

Lemma same_config_trans r1 r2 r3 : rs_total_vfs r2 = rs_total_vfs r1 -> same_config r1 r2 -> same_config r2 r3 -> same_config r1 r3.
Proof. intros Ht H1 H2 p Hp. rewrite H2, H1; [done..|]. destruct p; [done|]. cbn in *. by rewrite Ht. Qed.

Lemma put_total r p f : rs_total_vfs (put_ref r p f) = rs_total_vfs r.
Proof. by destruct p. Qed.

Definition bdf_of (bus dev fn : Z) : Z := u16 (Z.lor (Z.lor (Z.shiftl bus 8) (Z.shiftl dev DWORD_LOG_SIZE_BITS)) fn).

(** The function as the register handlers see it. *)
Definition prepared f (bus dev fn rid t9 t8 tag : Z) : devemu_pci_func :=
  set_requester (set_cmpl (set_bdf f bus dev fn) 0 0 0) rid t9 t8 tag.

(** The request does not come through a downstream port with an address of its own. *)
Definition dsp_off q r : bool := negb (rs_is_dsp_bdf_supported r && negb (rq_dsp_id q =? 0) && (rq_dsp_id q <? DSP_ID_IMPLICIT)).

Lemma route_same_config r f p bus dev fn : dev_wf r -> ref_ok r p -> get_ref r p = Done f ->
  let r' := put_cur {| r with rs_cur_func := p |} (set_bdf f bus dev fn) in
  same_config r {| r' with rs_pf := set_bus (rs_pf r') bus |}.
Proof.
  intros Hw Hp Ef r'. assert (same_config r r') as H1.
  { unfold r', put_cur. cbn [rs_cur_func]. intros p' Hp'.
    by apply (put_same_config {| r with rs_cur_func := p |} p f (set_bdf f bus dev fn)); [apply set_cur_wf|..]. }
  intros p' Hp'. rewrite <- H1 by done. unfold cfg_of. by destruct p'.
Qed.

Lemma cb_config q r t : dev_wf r -> req_wf q -> rq_is_pci_event q = false -> get_tlp_req_type q = Done t ->
  t = TLP_REQ_TYPE_CONFIG_READ_TYPE_0 \/ t = TLP_REQ_TYPE_CONFIG_WRITE_TYPE_0 ->
  exists bus dev fn reg, GET_TLP_REQ_BUS (rq_header q) = Done bus /\ GET_TLP_REQ_DEVICE (rq_header q) = Done dev /\
    GET_TLP_REQ_FUNCTION (rq_header q) = Done fn /\ GET_TLP_REQ_EXT_REG_NUM (rq_header q) = Done reg /\ 0 <= fn < 8 /\ 0 <= reg < 1024 /\
    if dsp_off q r && responds r dev fn then
      exists f r3 rid t9 t8 tag, get_ref r (fn_ref fn) = Done f /\ ref_ok r (fn_ref fn) /\
        GET_TLP_REQ_REQ_ID (rq_header q) = Done rid /\ GET_TLP_REQ_TAG (rq_header q) = Done tag /\
        GET_TLP_REQ_TAG9 (rq_header q) = Done t9 /\ GET_TLP_REQ_TAG8 (rq_header q) = Done t8 /\
        tlp_req_handler_cb DOCA_SUCCESS q r = ('(r', cpl, c) ← tlp_req_switch q r3 reg t; Done (r', cpl, Some c)) /\
        dev_wf r3 /\ rs_cur_func r3 = fn_ref fn /\ rs_total_vfs r3 = rs_total_vfs r /\
        get_cur r3 = Done (prepared f bus dev fn rid t9 t8 tag) /\ same_config r r3
    else exists r' hd f, tlp_req_handler_cb DOCA_SUCCESS q r =
        Done (r', {| cpl_header := Some hd; cpl_data := None |}, Some (CompleteTlp true RefPF)) /\ same_config r r' /\
        get_cur r' = Done f /\ cpl_decode hd = Some (cxt_fields (cxt f)) /\ cx_cmpl_status (cxt f) = TLP_CPL_STATUS_UR /\
        cx_cmpl_length (cxt f) = TLP_CPL_LENGTH_ZERO /\ cx_cmpl_fmt (cxt f) = TLP_FMT_CPL_NODATA /\
        (dsp_off q r = false -> cx_completer_id (cxt f) = rq_dsp_bdf q).
Proof.
  intros Hw Hq He Ht Htt. unfold tlp_req_handler_cb. cbn [is_success negb]. rewrite He, Ht. cbn [mbind res_bind].
  set (r0 := {| r with rs_cur_func := RefPF |}). assert (dev_wf r0) as Hw0 by (by apply set_cur_wf).
  assert (bool_decide (t = TLP_REQ_TYPE_CONFIG_READ_TYPE_0) || bool_decide (t = TLP_REQ_TYPE_CONFIG_WRITE_TYPE_0) = true) as ->
    by (by destruct Htt as [->| ->]).
  replace (rs_is_dsp_bdf_supported r0 && negb (rq_dsp_id q =? 0) && (rq_dsp_id q <? DSP_ID_IMPLICIT)) with (negb (dsp_off q r))
    by (unfold dsp_off; by rewrite negb_involutive).
  destruct (route_config_spec q r0 Hw0 Hq) as (bus & dev & fn & E1 & E2 & E3 & _ & _ & Hfn & Hr).
  assert (get_cur r0 = Done (rs_pf r)) as Epf by done.
  destruct (handle_start q r0 (rs_pf r) Hw0 Hq Epf) as (reg & rid & t9 & t8 & tag & _ & E4 & Hreg & _).
  exists bus, dev, fn, reg. do 6 (split; [done|]). change (responds r0 dev fn) with (responds r dev fn) in Hr.
  destruct (dsp_off q r); cbn [negb andb].
  2: { rewrite Epf. cbn [mbind res_bind]. set (r1 := put_cur r0 (set_completer_id (rs_pf r) (rq_dsp_bdf q))).
       destruct (get_cur_wf r0 Hw0) as (f & Ef & Hf & Hft & Hfi). rewrite Epf in Ef. injection Ef as <-.
       assert (dev_wf r1) as Hw1 by (apply put_cur_wf; [done|apply set_completer_inv; [done|apply Hq]|done..]).
       destruct (default_post r1 Hw1) as (f & hd & Ef & Eu & Hw' & _ & Hp). rewrite Eu. cbn [mbind res_bind].
       unfold r1 in Ef. rewrite get_put_cur in Ef by done. injection Ef as <-.
       destruct (Hp hd eq_refl) as (g & Eg & _ & Hdec). rewrite get_put_cur in Eg by done. injection Eg as <-.
       eexists _, hd, _. split; [reflexivity|]. split; [|split; [by apply get_put_cur|by split_and!]].
       intros p Hp'. by apply (put_same_config r0 RefPF (rs_pf r)). }
  destruct (responds r dev fn) eqn:Er.
  - cbv zeta in Hr. destruct Hr as (f & Ef & Ec & Hw1 & Hc1 & Eg1). destruct (responds_ref r dev fn Hfn Er) as [Hok _].
    assert (get_ref r (fn_ref fn) = Done f) as Ef' by (by destruct (fn_ref fn)).
    match type of Ec with _ = Done (Some ?x) => set (r1 := x) in Ec, Hw1, Hc1, Eg1 end.
    destruct (get_cur_wf r1 Hw1) as (g & Eg & Hg & Hgt & Hgi). rewrite Eg1 in Eg. injection Eg as <-.
    assert (dev_wf (put_cur r1 (set_cmpl (set_bdf f bus dev fn) 0 0 0))) as Hw2
      by (apply put_cur_wf; [done|by apply set_cmpl_inv|done..]).
    destruct (handle_start q (put_cur r1 (set_cmpl (set_bdf f bus dev fn) 0 0 0)) _ Hw2 Hq (get_put_cur _ _ Hw1))
      as (reg' & rid' & t9' & t8' & tag' & t' & E4' & _ & F1 & F2 & F3 & F4 & F5 & Hw3 & Eh).
    rewrite E4 in E4'. injection E4' as <-. rewrite Ht in F5. injection F5 as <-.
    rewrite put_put_cur in Hw3, Eh. fold (prepared f bus dev fn rid' t9' t8' tag') in Hw3, Eh.
    exists f, (put_cur r1 (prepared f bus dev fn rid' t9' t8' tag')), rid', t9', t8', tag'. do 6 (split; [done|]). split.
    { rewrite Ec. cbn [mbind res_bind]. unfold reset_and_handle. rewrite Eg1. cbn [mbind res_bind]. by rewrite Eh. }
    split; [done|]. split; [by rewrite put_cur_ref|]. assert (rs_total_vfs r1 = rs_total_vfs r) as Ht1
      by (unfold r1, put_cur; cbn; by rewrite put_total).
    split; [unfold put_cur; by rewrite put_total|]. split; [by apply get_put_cur|].
    apply (same_config_trans r r1); [done|exact (route_same_config r f (fn_ref fn) bus dev fn Hw Hok Ef')|]. unfold put_cur.
    apply (put_same_config r1 (rs_cur_func r1) (set_bdf f bus dev fn)); [done|apply (dw_cur r1 Hw1)|exact Eg1|done|done].
  - rewrite Hr. cbn [mbind res_bind]. destruct (default_post r0 Hw0) as (f & hd & Ef & Eu & Hp).
    change (unsupported r0) with (handle_tlp_req_default r0). rewrite Eu. cbn [mbind res_bind].
    destruct Hp as (Hw' & _ & Hp). destruct (Hp hd eq_refl) as (g & Eg & _ & Hdec). rewrite get_put_cur in Eg by done. injection Eg as <-.
    eexists _, hd, _. split; [reflexivity|]. split; [|split; [by apply get_put_cur|by split_and!]].
    intros p Hp'. by apply (put_same_config r0 RefPF f).
Qed.

Lemma prepared_read f bus dev fn rid t9 t8 tag j : func_wf f -> 0 <= j < 1024 ->
  cfg_read j (prepared f bus dev fn rid t9 t8 tag) = cfg_read j f.
Proof.
  intros Hf Hj. rewrite !cfg_read_image; [|done|done|by apply (func_wf_ext f)|done]. by rewrite (cfg_image_ext f).
Qed.

(** C24: configuration reads, when the user data of the channel can be read. A read
    addressed to device 0 and a function that exists (the physical function, or an enabled
    virtual one) is answered with the value of the
    addressed register of that function, in a successful completion of one double word that names the request and
    the address of the function; a read addressed to anything else is answered as
    unsupported, without data. So is every read that comes through another downstream port:
    when addresses of downstream ports are supported and the id of the port is neither 0 nor
    implicit, the answer is unsupported and its completer is the port. No configuration space changes. *)
Theorem config_read_request q r : dev_wf r -> req_wf q -> rq_is_pci_event q = false ->
  get_tlp_req_type q = Done TLP_REQ_TYPE_CONFIG_READ_TYPE_0 ->
  exists bus dev fn reg, GET_TLP_REQ_BUS (rq_header q) = Done bus /\ GET_TLP_REQ_DEVICE (rq_header q) = Done dev /\
    GET_TLP_REQ_FUNCTION (rq_header q) = Done fn /\ GET_TLP_REQ_EXT_REG_NUM (rq_header q) = Done reg /\
    exists r' hd data c fs, tlp_req_handler_cb DOCA_SUCCESS q r = Done (r', {| cpl_header := Some hd; cpl_data := data |}, Some c) /\
      cpl_decode hd = Some fs /\ same_config r r' /\
      if dsp_off q r && responds r dev fn then
        exists f x, get_ref r (fn_ref fn) = Done f /\ cfg_read reg f = Done x /\ data = Some [x] /\ names_request q fs /\
          cf_completer_id fs = bdf_of bus dev fn /\ cf_status fs = TLP_CPL_STATUS_SC /\ cf_length fs = 1
      else data = None /\ cf_status fs = TLP_CPL_STATUS_UR /\ cf_length fs = 0 /\
        (dsp_off q r = false -> cf_completer_id fs = rq_dsp_bdf q).
Proof.
  intros Hw Hq He Ht. destruct (cb_config q r _ Hw Hq He Ht (or_introl eq_refl))
    as (bus & dev & fn & reg & E1 & E2 & E3 & E4 & Hfn & Hreg & H). exists bus, dev, fn, reg. do 4 (split; [done|]).
  destruct (dsp_off q r && responds r dev fn).
  - destruct H as (f & r3 & rid & t9 & t8 & tag & Ef & Hok & F1 & F2 & F3 & F4 & Ecb & Hw3 & Hc3 & Ht3 & Eg3 & Hs3).
    destruct (read0_post r3 reg Hw3 Hreg) as (g & x & [[cap v] pc] & hd & Eg & Ex & Es & Hw' & _ & Hp). rewrite Eg3 in Eg. injection Eg as <-.
    destruct (Hp hd eq_refl) as (g & Eg & _ & Hdec). rewrite get_put_cur in Eg by done. injection Eg as <-.
    rewrite Ecb. cbn [tlp_req_switch]. rewrite Es. cbn [mbind res_bind]. eexists _, hd, _, _, _. split; [reflexivity|].
    split; [exact Hdec|]. split.
    + apply (same_config_trans r r3); [done|done|]. unfold put_cur. eapply put_same_config; [done|apply (dw_cur r3 Hw3)|exact Eg3|done|done].
    + destruct (get_ref_wf r (fn_ref fn) Hw Hok) as (f' & Ef' & [Hf Hcf] & _). rewrite Ef in Ef'. injection Ef' as <-.
      exists f, x. split; [done|]. rewrite prepared_read in Ex by done. split; [done|]. split; [done|].
      split; [|done]. unfold names_request. cbn. repeat split; try done. apply (ci_type _ Hcf).
  - destruct H as (r' & hd & f & Ecb & Hs & Ef & Hdec & Hst & Hl & Hfm & Hc). rewrite Ecb. by eexists _, hd, _, _, _.
Qed.


(** *** Memory *)

Lemma func_base_ext r f g : dev_wf r -> get_cur r = Done f -> func_type g = func_type f -> vf_index g = vf_index f ->
  pci_config_space_of g = pci_config_space_of f -> get_func_bar0_base (put_cur r g) = get_func_bar0_base r.
Proof.
  intros Hw Ef Ht Hi Hs. unfold get_func_bar0_base. rewrite get_put_cur, Ef by done. cbn [mbind res_bind]. rewrite Ht.
  destruct (get_cur_wf r Hw) as (f' & Ef' & _ & Hty & _). rewrite Ef in Ef'. injection Ef' as <-.
  destruct (func_type f) eqn:E; [unfold hdr; by rewrite Hs|]. rewrite Hi. unfold put_cur, put_ref.
  destruct (rs_cur_func r); [|done]. done.
Qed.

Lemma operation_params_some base size a n : in_width 64 base -> 0 <= size -> base + size < 2 ^ 64 -> 1 <= n < 2 ^ 29 ->
  base <= a -> a + 4 * n <= base + size -> operation_params base size a (4 * n) = Some (a - base, n).
Proof.
  unfold in_width. intros Hb Hs He Hn Ha Hfit. unfold operation_params. rewrite (u64_small (base + size)) by lia.
  destruct (Z.ltb_spec a base); [lia|]. destruct (Z.leb_spec (base + size) a); [lia|]. cbn [orb].
  rewrite (u64_small (size - _)) by lia. unfold BYTES_IN_DWORD.
  assert ((if 4 * n <? size - (a - base) then 4 * n else size - (a - base)) = 4 * n) as ->
    by (destruct (Z.ltb_spec (4 * n) (size - (a - base))); lia).
  replace (4 * n + (4 - 1)) with (n * 4 + 3) by lia. rewrite Z.div_add_l, Z.add_0_r, u32_small by lia. done.
Qed.

(** The bytes of [d] that [be] enables. *)
Definition mask_dword (be d : Z) : Z := le_combine ((fun i => if byte_enabled be i then dword_byte d i else 0) <$> idx 4).

Lemma mask_all d : in_width 32 d -> mask_dword BYTE_ENABLE_ALL_MASK d = d.
Proof.
  intros Hd. unfold mask_dword. change (fun i => _) with (fun i => if byte_enabled BYTE_ENABLE_ALL_MASK i then dword_byte d i else 0).
  transitivity (le_combine (dword_byte d <$> idx 4)); [done|]. rewrite <- le_split4, le_combine_split. by apply Z.mod_small.
Qed.

(** The first [n] double words of [data] with the bytes that are not enabled 0. *)
Definition masked (data : list Z) (n fbe lbe : Z) : list Z :=
  (fun dw => mask_dword (get_dword_byte_enable_mask dw n fbe lbe) (data !!! Z.to_nat dw)) <$> idx n.

Lemma masked_all data n : 0 <= n <= Z.of_nat (length data) -> Forall (in_width 32) data ->
  masked data n BYTE_ENABLE_ALL_MASK BYTE_ENABLE_ALL_MASK = take (Z.to_nat n) data.
Proof.
  intros Hn Hdw. apply list_eq. intros i. unfold masked. rewrite list_lookup_fmap.
  destruct (decide (i < Z.to_nat n)%nat) as [Hi|Hi].
  - rewrite lookup_take_lt by done. unfold idx. rewrite list_lookup_fmap, lookup_seq_lt by done. cbn [fmap option_fmap option_map].
    destruct (lookup_lt_is_Some_2 data i) as [d Ed]; [lia|]. rewrite Ed, Nat2Z.id, (list_lookup_total_correct _ _ _ Ed). f_equal.
    replace (get_dword_byte_enable_mask _ _ _ _) with BYTE_ENABLE_ALL_MASK by (unfold get_dword_byte_enable_mask; repeat case_match; done).
    apply mask_all. rewrite list.Forall_lookup in Hdw. eauto.
  - rewrite lookup_take_ge by lia. rewrite lookup_ge_None_2; [done|]. rewrite length_idx. lia.
Qed.

(** Reading back what was written. *)
Lemma read_words_written data mem mem' off n fbe lbe : 0 <= off ->
  (forall k, 0 <= k -> mem' !!! Z.to_nat k = written data mem off n fbe lbe k) -> read_words mem' off n n fbe lbe = masked data n fbe lbe.
Proof.
  intros Ho Hk. unfold read_words, masked. apply list_fmap_ext. intros i0 dw Hin. apply list_elem_of_lookup_2, in_idx in Hin.
  unfold mask_dword. f_equal. apply list_fmap_ext. intros i1 i Hi. apply list_elem_of_lookup_2, in_idx in Hi. unfold BYTES_IN_DWORD.
  destruct (byte_enabled (get_dword_byte_enable_mask dw n fbe lbe) i) eqn:Een; [|done]. rewrite Hk by lia. unfold written.
  replace ((off + dw * 4 + i - off) / 4) with dw by (Z.to_euclidean_division_equations; lia).
  replace ((off + dw * 4 + i - off) mod 4) with i by (Z.to_euclidean_division_equations; lia).
  rewrite Een. unfold in_case. destruct (Z.leb_spec off (off + dw * 4 + i)), (Z.leb_spec (off + dw * 4 + i) (off + 4 * n - 1)); (done || lia).
Qed.

(** C17: memory keeps what is written. A write of up to five double words inside
    the transaction region of a function changes exactly the bytes of the region that the byte enables
    of the request select, and no configuration space; reading them back with the same byte
    enables returns the data with the bytes that are not enabled 0, and the data itself
    when all bytes are enabled. *)
Theorem memory_write_read r f mem b a n data fbe lbe : dev_wf r -> get_cur r = Done f -> get_func_bar0_base r = Done b ->
  cx_transaction_region_memory (cxt f) = Some mem -> b + transaction_start_address + transaction_size < 2 ^ 64 -> (4 | a) ->
  1 <= n <= TLP_TRANSACTION_CMPL_DATA_MAX_DW -> b + transaction_start_address <= a ->
  a + 4 * n <= b + transaction_start_address + transaction_size -> length data = 16%nat -> Forall (in_width 32) data ->
  exists r' f' mem' r'' out, set_memory_write_data a (4 * n) data fbe lbe r = Done r' /\ get_cur r' = Done f' /\
    same_config r r' /\ cx_transaction_region_memory (cxt f') = Some mem' /\ length mem' = length mem /\
    (forall k, 0 <= k -> mem' !!! Z.to_nat k = written data mem (a - b - transaction_start_address) n fbe lbe k) /\
    get_memory_read_data a (4 * n) fbe lbe r' = Done (r'', out) /\
    take (Z.to_nat n) out = masked data n fbe lbe /\
    (fbe = BYTE_ENABLE_ALL_MASK -> lbe = BYTE_ENABLE_ALL_MASK -> take (Z.to_nat n) out = take (Z.to_nat n) data).
Proof.
  intros Hw Ef Eb Em Hend Ha Hn Hlo Hhi Hdata Hdw. unfold TLP_TRANSACTION_CMPL_DATA_MAX_DW in Hn.
  assert (in_width 64 b /\ (16 | b)) as [Hb Hb16] by (destruct (func_base_ok r Hw) as (b' & Eb' & ?); rewrite Eb in Eb'; by injection Eb' as <-).
  unfold in_width in Hb. assert (u64 (b + transaction_start_address) = b + transaction_start_address) as Hbase
    by (unfold transaction_start_address, transaction_size in *; apply u64_small; lia).
  assert (operation_params (u64 (b + transaction_start_address)) transaction_size a (4 * n) =
    Some (a - (b + transaction_start_address), n)) as Eop.
  { rewrite Hbase. apply operation_params_some; unfold in_width, transaction_start_address, transaction_size in *; lia. }
  destruct (write_total r a (4 * n) data fbe lbe Hw Ha ltac:(lia) Hdata)
    as (f0 & mem0 & b0 & r' & Ef0 & Hf & Eb0 & Em0 & Hl & Es & Hw' & Hc & Hop).
  rewrite Ef in Ef0. injection Ef0 as <-. rewrite Eb in Eb0. injection Eb0 as <-. rewrite Em in Em0. injection Em0 as <-.
  rewrite Eop in Hop. destruct Hop as (mem' & -> & Hlen & Hk). set (g := set_cmpl (with_region f mem') 0 TLP_CPL_LENGTH_ZERO 0) in *.
  replace (a - (b + transaction_start_address)) with (a - b - transaction_start_address) in Hk, Eop by lia.
  set (off := a - b - transaction_start_address) in *.
  destruct (eval_transaction (put_cur r g) a (4 * n) Hw') as (g' & m' & b' & Eg' & Eb' & _ & _ & Em' & _ & _ & Eev).
  rewrite get_put_cur in Eg' by done. injection Eg' as <-. rewrite (func_base_ext r f g), Eb in Eb' by done. injection Eb' as <-.
  cbn in Em'. injection Em' as <-. rewrite Eop in Eev. cbn [option_map fst snd] in Eev.
  assert (Z.min (4 * n / BYTES_IN_DWORD) TLP_TRANSACTION_CMPL_DATA_MAX_DW = n) as Hrc
    by (unfold BYTES_IN_DWORD, TLP_TRANSACTION_CMPL_DATA_MAX_DW; rewrite Z.mul_comm, Z.div_mul; lia).
  set (words := masked data n fbe lbe). pose proof (read_words_written data mem mem' off n fbe lbe ltac:(lia) Hk) as Hrw.
  exists (put_cur r g), g, mem'. eexists _, (words ++ replicate (5 - length words) 0).
  assert (length words = Z.to_nat n) as Hlw by (unfold words, masked; by rewrite length_fmap, length_idx).
  split; [done|]. split; [by apply get_put_cur|]. split.
  { unfold put_cur. by apply (put_same_config r (rs_cur_func r) f); [|apply (dw_cur r Hw)|..]. }
  split; [done|]. split; [done|]. split; [done|]. split.
  { unfold get_memory_read_data. rewrite Eev. cbn [mbind res_bind]. rewrite min_if, Hrc, min_if, Z.min_id, read_words_done, Hrw by (unfold off, transaction_start_address, transaction_size in *; lia).
    cbn [mbind res_bind]. by rewrite get_put_cur by done. }
  rewrite take_app_length' by done. split; [done|]. intros -> ->. by apply masked_all; [lia..|].
Qed.

(** C25: routing by address. With the virtual functions' base programmed, the
    windows of [vf_size] bytes that follow it belong to the virtual functions in order: an
    address in the window of function [i] goes to this function, whose completer id becomes
    the captured bus with function number [i + 1], if its memory is
    enabled and the function is enabled, and to nobody otherwise; every other address
    goes to the physical function. *)
Theorem mmio_routing r base a : dev_wf r -> bar_base (sr_vf_bar (sriov (rs_pf r))) = Done base -> base <> 0 ->
  base + rs_total_vfs r * vf_size < 2 ^ 64 -> in_width 64 a ->
  (forall i, 0 <= i < rs_total_vfs r -> base + i * vf_size <= a < base + (i + 1) * vf_size ->
     if vf_memory_on r i then exists r' f, route_mmio_tlp r a = Done (r', Some (RefVF i)) /\ get_ref r' (RefVF i) = Done f /\
       cx_completer_id (cxt f) = vf_completer r i /\ same_config r r'
     else route_mmio_tlp r a = Done (r, None)) /\
  (~ base <= a < base + rs_total_vfs r * vf_size -> route_mmio_tlp r a = Done (r, Some RefPF)).
Proof.
  intros Hw Eb Hb0 Hend Ha. destruct (route_mmio_spec r a Hw Ha) as (base' & Eb' & Hb & Hr). rewrite Eb in Eb'. injection Eb' as <-.
  cbv zeta in Hr. unfold in_width in Hb. pose proof (dw_total r Hw) as Htot.
  assert (0 < vf_size) as Hs by done. rewrite u64_small in Hr by (pose proof (Z.mul_nonneg_nonneg (rs_total_vfs r) vf_size); lia).
  destruct (Z.eqb_spec base 0) as [|_]; [done|]. cbn [negb] in Hr. rewrite andb_true_r in Hr. split.
  - intros i Hi Hwin. assert ((a - base) / vf_size = i) as Ei.
    { symmetry. apply (Z.div_unique_pos _ _ _ (a - base - i * vf_size)); lia. }
    assert (a < base + rs_total_vfs r * vf_size) as Hlt by (assert ((i + 1) * vf_size <= rs_total_vfs r * vf_size) by
      (apply Z.mul_le_mono_nonneg_r; lia); lia).
    assert (base <= a) as Hge by (pose proof (Z.mul_nonneg_nonneg i vf_size); lia).
    destruct (Z.eqb_spec (rs_total_vfs r) 0); [lia|]. destruct (Z.leb_spec base a); [|lia].
    destruct (Z.ltb_spec a (base + rs_total_vfs r * vf_size)); [|lia]. cbn [negb andb] in Hr. rewrite Ei in Hr.
    destruct Hr as (_ & f & Ef & Er). rewrite Er. destruct (vf_memory_on r i); [|done]. eexists _, _. split; [done|].
    split; [by apply put_ref_same|]. split; [done|]. by apply (put_same_config r (RefVF i) f).
  - intros Hout. destruct (Z.eqb_spec (rs_total_vfs r) 0); [done|].
    destruct (Z.leb_spec base a), (Z.ltb_spec a (base + rs_total_vfs r * vf_size)); try done. lia.
Qed.
End Device.

(** ** Sizing and programming base address registers *)

Lemma cfg_bars f : func_wf f -> func_type f = DOCA_PCI_FUNC_TYPE_PF ->
  cfg_read 4 f = Done (h_bar (hdr f) !!! 0%nat) /\ cfg_read 5 f = Done (h_bar (hdr f) !!! 1%nat) /\
  cfg_read 91 f = Done (sr_vf_bar (sriov f) !!! 0%nat) /\ cfg_read 92 f = Done (sr_vf_bar (sriov f) !!! 1%nat).
Proof.
  intros Hf Ht. rewrite !cfg_read_image by done. destruct (list6 _ (wf_bar f Hf)) as (b0 & b1 & b2 & b3 & b4 & b5 & Eb).
  destruct (list6 _ (wf_vf_bar f Hf)) as (c0 & c1 & c2 & c3 & c4 & c5 & Ec).
  unfold cfg_image. rewrite Ht. unfold hdr in *. rewrite Eb, Ec. done.
Qed.

Definition bar_regs (lo : Z) : Prop := lo = 4 \/ lo = 91.

(** Writing both halves with all bytes enabled. *)
Lemma write_pair f lo d1 d2 : func_wf f -> func_type f = DOCA_PCI_FUNC_TYPE_PF -> cx_bar_region_size (cxt f) = vf_size -> bar_regs lo ->
  exists f', cfg_writes [(lo, 15, d1); (lo + 1, 15, d2)] f = Done f' /\ func_wf f' /\ func_type f' = DOCA_PCI_FUNC_TYPE_PF /\
    cx_bar_region_size (cxt f') = vf_size /\
    cfg_read lo f' = Done (reg_write (Bar vf_size false) 0xFFFFFFFF d1 0) /\
    cfg_read (lo + 1) f' = Done (reg_write (Bar vf_size true) 0xFFFFFFFF d2 0).
Proof.
  intros Hf Ht Hs Hlo. assert (be_mask_ok 0xFFFFFFFF) as Hm by (by apply (be_mask_spec 15)).
  assert (0 <= lo < 1024 /\ 0 <= lo + 1 < 1024) as [Hr Hr'] by (destruct Hlo; lia).
  assert (forall g reg d, 0 <= reg < 1024 -> cx_bar_region_size (cxt g) = vf_size ->
    cx_bar_region_size (cxt (cfg_write_switch reg d 0xFFFFFFFF g).1) = vf_size) as Hkeep.
  { intros g reg d Hreg Hg. destruct (write_switch_cxt reg d 0xFFFFFFFF g Hreg) as (Hc & _). unfold core in Hc. congruence. }
  assert (forall g, func_type g = DOCA_PCI_FUNC_TYPE_PF -> cx_bar_region_size (cxt g) = vf_size ->
    kind_of g lo = Bar vf_size false /\ kind_of g (lo + 1) = Bar vf_size true) as Hkind.
  { intros g Hg Hgs. destruct Hlo as [-> | ->]; unfold kind_of; rewrite Hg, ?Hgs; done. }
  set (f1 := (cfg_write_switch lo d1 0xFFFFFFFF f).1). set (f2 := (cfg_write_switch (lo + 1) d2 0xFFFFFFFF f1).1).
  assert (func_wf f1) as Hf1 by (by apply write_wf). assert (func_wf f2) as Hf2 by (by apply write_wf).
  assert (func_type f1 = DOCA_PCI_FUNC_TYPE_PF) as Ht1 by (unfold f1; by rewrite func_type_write).
  assert (func_type f2 = DOCA_PCI_FUNC_TYPE_PF) as Ht2 by (unfold f2; by rewrite func_type_write).
  exists f2. split; [done|]. split; [done|]. split; [done|]. split; [by apply Hkeep, Hkeep|].
  destruct (read_after_write f lo d1 0xFFFFFFFF lo Hf Hm Hr Hr) as (x & _ & _ & Ex). fold f1 in Ex. rewrite Z.eqb_refl in Ex.
  destruct (read_after_write f1 (lo + 1) d2 0xFFFFFFFF lo Hf1 Hm Hr' Hr) as (y & Ey & _ & Ey'). fold f2 in Ey'.
  destruct (read_after_write f1 (lo + 1) d2 0xFFFFFFFF (lo + 1) Hf1 Hm Hr' Hr') as (z & _ & _ & Ez). fold f2 in Ez.
  rewrite Z.eqb_refl in Ez. destruct (Z.eqb_spec lo (lo + 1)); [lia|].
  rewrite Ey', <- Ey, Ex, Ez. rewrite (proj1 (Hkind f Ht Hs)), (proj2 (Hkind f1 Ht1 (Hkeep _ _ _ Hr Hs))). done.
Qed.

Lemma programmed base : in_width 64 base -> (vf_size | base) ->
  Z.lor (Z.shiftl (reg_write (Bar vf_size true) 0xFFFFFFFF (base / 2 ^ 32) 0) 32)
    (Z.land (reg_write (Bar vf_size false) 0xFFFFFFFF (base mod 2 ^ 32) 0) 0xFFFFFFF0) = base.
Proof.
  intros Hb [k Hk]. unfold in_width in Hb. assert (forall x, in_width 32 x -> Z.land x 0xFFFFFFFF = x) as Hand.
  { intros x Hx. change 0xFFFFFFFF with (Z.ones 32). rewrite Z.land_ones by lia. by apply Z.mod_small. }
  assert (in_width 32 (base / 2 ^ 32)) as Hhi by (unfold in_width; Z.to_euclidean_division_equations; lia).
  assert (in_width 32 (base mod 2 ^ 32)) as Hlo by (apply Z.mod_pos_bound; lia).
  cbn [reg_write]. rewrite !Hand by done. destruct (Z.eqb_spec (base mod 2 ^ 32) 0xFFFFFFFF) as [E|_].
  { exfalso. rewrite Hk in E. unfold vf_size, layout_log_size in E. Z.to_euclidean_division_equations; lia. }
  assert ((if base / 2 ^ 32 =? 0xFFFFFFFF then u64 (- vf_size) / 2 ^ 32 else base / 2 ^ 32) = base / 2 ^ 32) as ->
    by (by destruct (Z.eqb_spec (base / 2 ^ 32) 0xFFFFFFFF) as [->|]).
  assert (Z.land (Z.lor (Z.land (base mod 2 ^ 32) 0xFFFFFFF0) 0xC) 0xFFFFFFF0 = base mod 2 ^ 32) as ->.
  { assert (exists y, base mod 2 ^ 32 = Z.shiftl y 4 /\ 0 <= y < 2 ^ 28) as (y & -> & Hy).
    { exists (base mod 2 ^ 32 / 16). rewrite Z.shiftl_mul_pow2 by lia. rewrite Hk. unfold vf_size, layout_log_size.
      Z.to_euclidean_division_equations; lia. }
    change 0xFFFFFFF0 with (Z.shiftl (Z.ones 28) 4). change 0xC with (Z.land 0xC 0xF) at 1.
    rewrite <- Z.shiftl_land, Z.land_ones, Z.mod_small by lia. rewrite Z.land_lor_distr_l, <- Z.shiftl_land, Z.land_ones, Z.mod_small by lia.
    change (Z.land (Z.land 12 15) (Z.shiftl (Z.ones 28) 4)) with 0. apply Z.lor_0_r. }
  rewrite <- (Z.shiftl_0_r (base mod 2 ^ 32)). rewrite (lor_add _ _ 0 32), Z.shiftl_mul_pow2;
    try (unfold in_width in *; lia); [|rewrite Z.shiftl_mul_pow2 by lia; by exists (base / 2 ^ 32)].
  pose proof (Z.div_mod base (2 ^ 32)). lia.
Qed.

(** Sizing and programming a base address register works as a host does it, for the memory of the
    physical function and for the window of its virtual functions: after writing ones
    to both halves the registers tell the size of the region, [2^14] bytes; after writing a 64-bit address
    aligned to the size, the base that the router and the memory operations use is this address. *)
Theorem bar_program f base lo : func_wf f -> func_type f = DOCA_PCI_FUNC_TYPE_PF -> cx_bar_region_size (cxt f) = vf_size ->
  in_width 64 base -> (vf_size | base) -> bar_regs lo ->
  exists f1 l h f2, cfg_writes [(lo, 15, 0xFFFFFFFF); (lo + 1, 15, 0xFFFFFFFF)] f = Done f1 /\
    cfg_read lo f1 = Done l /\ cfg_read (lo + 1) f1 = Done h /\ 2 ^ 64 - (h * 2 ^ 32 + Z.land l 0xFFFFFFF0) = vf_size /\
    cfg_writes [(lo, 15, base mod 2 ^ 32); (lo + 1, 15, base / 2 ^ 32)] f1 = Done f2 /\
    bar_base (if lo =? 4 then h_bar (hdr f2) else sr_vf_bar (sriov f2)) = Done base.
Proof.
  intros Hf Ht Hs Hb Hd Hlo. destruct (write_pair f lo 0xFFFFFFFF 0xFFFFFFFF Hf Ht Hs Hlo) as (f1 & E1 & Hf1 & Ht1 & Hs1 & R1 & R2).
  destruct (write_pair f1 lo (base mod 2 ^ 32) (base / 2 ^ 32) Hf1 Ht1 Hs1 Hlo) as (f2 & E2 & Hf2 & Ht2 & _ & R3 & R4).
  eexists f1, _, _, f2. split; [done|]. split; [exact R1|]. split; [exact R2|]. split; [done|]. split; [done|].
  destruct (cfg_bars f2 Hf2 Ht2) as (B4 & B5 & B91 & B92). destruct (bars_width f2 Hf2) as (W1 & _ & W2).
  destruct Hlo as [-> | ->]; cbn [Z.eqb Pos.eqb].
  - destruct (bar_base_ok (h_bar (hdr f2))) as (b & -> & _ & _ & ->); [apply Hf2|done|]. rewrite B4 in R3. change (4 + 1) with 5 in R4.
    rewrite B5 in R4. injection R3 as ->. injection R4 as ->. f_equal. by apply programmed.
  - destruct (bar_base_ok (sr_vf_bar (sriov f2))) as (b & -> & _ & _ & ->); [apply Hf2|by apply W2|]. rewrite B91 in R3.
    change (91 + 1) with 92 in R4. rewrite B92 in R4. injection R3 as ->. injection R4 as ->. f_equal. by apply programmed.
Qed.

(** ** Witnesses *)

(** A device with two virtual functions, and requests from requester [0x0100] with tag 5. *)
Definition blank_dev : devemu_tlp_resources :=
  {| rs_pf := pf_init 0; rs_vf := replicate 7 (vf_init 0); rs_total_vfs := 2; rs_cur_func := RefPF; rs_is_dsp_bdf_supported := false |}.
Definition good_rep : vf_rep :=
  {| rep_func_type := (DOCA_SUCCESS, DOCA_PCI_FUNC_TYPE_VF); rep_open := DOCA_SUCCESS; rep_init_tlp_dev := DOCA_SUCCESS; rep_malloc := true |}.
Definition setup_dev : res (devemu_tlp_resources * doca_error_t) :=
  tlp_devices_setup DOCA_SUCCESS true true (DOCA_SUCCESS, [good_rep; good_rep]) blank_dev.
Definition dev0 : devemu_tlp_resources := match setup_dev with Done (r, _) => r | Crash _ => blank_dev end.
Definition example_req (dw0 dw2 : Z) (rest data : list Z) : tlp_channel_req :=
  {| rq_is_pci_event := false; rq_header := (htobe32 <$> [dw0; 0x0100050F; dw2]) ++ rest; rq_data := data; rq_dsp_id := 0; rq_dsp_bdf := 0 |}.
(** Configuration reads and writes of a register of function [fn] on bus 3, a memory write. *)
Definition cfg_rd (fn reg : Z) : tlp_channel_req := example_req 0x04000001 (0x03000000 + fn * 65536 + reg * 4) [] [].
Definition cfg_wr (fn reg d : Z) : tlp_channel_req := example_req 0x44000001 (0x03000000 + fn * 65536 + reg * 4) [] [d].
Definition mem_wr (a d : Z) : tlp_channel_req := example_req 0x40000001 a [d] [].

Lemma blank_fresh : fresh_dev blank_dev.
Proof. split; try done. by apply Forall_replicate. Qed.

Lemma Done_inj {A} (a b : A) : Done a = Done b -> b = a.
Proof. by intros [= ->]. Qed.

Lemma setup_dev_ok : setup_dev = Done (dev0, DOCA_SUCCESS).
Proof.
  unfold dev0. destruct setup_dev as [[r e]|] eqn:E.
  - assert (match setup_dev with Done (_, e) => e | Crash _ => DOCA_ERROR_UNKNOWN end = DOCA_SUCCESS) as Hs by reflexivity.
    rewrite E in Hs. by rewrite Hs.
  - assert (is_done setup_dev = true) as Hs by reflexivity. by rewrite E in Hs.
Qed.

Lemma setup_success_iff_witness : DOCA_SUCCESS = DOCA_SUCCESS <-> DOCA_SUCCESS = DOCA_SUCCESS /\ true = true /\ true = true /\
  (2 = 0 \/ DOCA_SUCCESS = DOCA_SUCCESS /\ Z.of_nat (length (used_reps 2 [good_rep; good_rep])) = 2 /\
     forallb rep_ok (used_reps 2 [good_rep; good_rep]) = true).
Proof.
  apply (setup_success_iff DOCA_SUCCESS true true DOCA_SUCCESS [good_rep; good_rep] blank_dev dev0 DOCA_SUCCESS blank_fresh).
  apply setup_dev_ok.
Defined.

Lemma dev0_wf : dev_wf dev0.
Proof.
  destruct (setup_wf DOCA_SUCCESS true true (DOCA_SUCCESS, [good_rep; good_rep]) blank_dev blank_fresh) as (r & e & E & He).
  pose proof setup_dev_ok as E'. unfold setup_dev in E'. rewrite E in E'. injection E' as -> ->. auto.
Qed.

Ltac concrete_req :=
  split; [repeat apply List.Forall_cons; try apply List.Forall_nil; unfold in_width; vm_compute; split; done
         |done
         |intros fmt E; vm_compute in E; injection E as <-; by intros [|]
         |intros E; vm_compute in E; first [discriminate E|intros fmt len E1 E2; vm_compute in E1, E2; injection E1 as <-; injection E2 as <-; done]
         |intros E; first [done|vm_compute in E; discriminate E]
         |done].

Lemma cfg_rd_wf : req_wf (cfg_rd 0 0).
Proof. concrete_req. Qed.
Lemma cfg_wr_wf : Forall req_wf [cfg_wr 0 91 0x10000; cfg_wr 0 86 2; cfg_wr 0 84 9].
Proof. repeat apply List.Forall_cons; try apply List.Forall_nil; concrete_req. Qed.
Lemma mem_wr_wf : req_wf (mem_wr 0x13000 0x12345678).
Proof. concrete_req. Qed.

(** The device after the base of the virtual functions is set to [0x10000], both are
    counted, and enabled with their memory. *)
Definition dev1 : devemu_tlp_resources :=
  match serve (pair DOCA_SUCCESS <$> [cfg_wr 0 91 0x10000; cfg_wr 0 86 2; cfg_wr 0 84 9]) dev0 with Done (r, _) => r | Crash _ => dev0 end.
Lemma dev1_wf : dev_wf dev1.
Proof.
  destruct (serve_wf (pair DOCA_SUCCESS <$> [cfg_wr 0 91 0x10000; cfg_wr 0 86 2; cfg_wr 0 84 9]) dev0 dev0_wf) as (r & a & E & Hr & _);
    [apply Forall_fmap, cfg_wr_wf|]. unfold dev1. by rewrite E.
Qed.

Lemma device_invariant_witness : exists r' answers,
  serve (pair DOCA_SUCCESS <$> [cfg_wr 0 91 0x10000; cfg_wr 0 86 2; cfg_wr 0 84 9]) dev0 = Done (r', answers) /\ dev_wf r' /\
  Forall2 (fun x => answered x.1 x.2) (pair DOCA_SUCCESS <$> [cfg_wr 0 91 0x10000; cfg_wr 0 86 2; cfg_wr 0 84 9]) answers.
Proof.
  destruct (device_invariant DOCA_SUCCESS true true (DOCA_SUCCESS, [good_rep; good_rep]) blank_dev blank_fresh)
    as (r & e & E & H).
  pose proof setup_dev_ok as E'. unfold setup_dev in E'. rewrite E in E'. injection E' as -> ->. apply H; [done|].
  apply Forall_fmap, cfg_wr_wf.
Defined.

Lemma completion_header_witness :
  exists f r' cpl c, get_cur dev0 = Done f /\ handle_tlp_req (cfg_rd 0 0) dev0 = Done (r', cpl, c) /\
    forall hd, cpl_header cpl = Some hd -> exists fs, cpl_decode hd = Some fs /\ names_request (cfg_rd 0 0) fs.
Proof.
  destruct (completion_header (cfg_rd 0 0) dev0 dev0_wf cfg_rd_wf) as (f & r' & cpl & c & E1 & E2 & _ & H).
  exists f, r', cpl, c. split; [done|]. split; [done|]. intros hd Hhd. destruct (H hd Hhd) as (fs & ? & ? & _). by exists fs.
Defined.

Lemma config_read_request_witness : exists r' hd c fs,
  tlp_req_handler_cb DOCA_SUCCESS (cfg_rd 0 0) dev0 = Done (r', {| cpl_header := Some hd; cpl_data := Some [0x10f01af4] |}, Some c) /\
  cpl_decode hd = Some fs /\ cf_completer_id fs = 0x300.
Proof.
  destruct (config_read_request (cfg_rd 0 0) dev0 dev0_wf cfg_rd_wf eq_refl eq_refl)
    as (bus & dev & fn & reg & E1 & E2 & E3 & E4 & r' & hd & data & c & fs & Ecb & Hdec & _ & H).
  vm_compute in E1, E2, E3, E4. injection E1 as <-. injection E2 as <-. injection E3 as <-. injection E4 as <-.
  destruct H as (f & x & Ef & Ex & -> & _ & Hid & _). change (get_ref dev0 (fn_ref 0)) with (Done (rs_pf dev0)) in Ef. apply Done_inj in Ef. subst f.
  assert (cfg_read 0 (rs_pf dev0) = Done 0x10f01af4) as Ex' by reflexivity. rewrite Ex' in Ex. injection Ex as <-.
  exists r', hd, c, fs. split; [done|]. split; [done|]. exact Hid.
Defined.

Lemma cfg_wr1_wf : req_wf (cfg_wr 0 91 0x10000).
Proof. concrete_req. Qed.

Lemma memory_write_read_witness : exists r' r'' out,
  set_memory_write_data 0x3010 8 (0x11223344 :: 0x55667788 :: replicate 14 0) 15 15 dev0 = Done r' /\
  get_memory_read_data 0x3010 8 15 15 r' = Done (r'', out) /\ take 2 out = [0x11223344; 0x55667788].
Proof.
  destruct (memory_write_read dev0 (rs_pf dev0) (replicate (Z.to_nat transaction_size) TRANSACTION_REGION_INIT_PATTERN) 0 0x3010 2
    (0x11223344 :: 0x55667788 :: replicate 14 0) 15 15 dev0_wf) as (r' & f' & mem' & r'' & out & H1 & _ & _ & _ & _ & _ & H2 & _ & H3);
    try done.
  - by exists 0xC04.
  - repeat apply List.Forall_cons; try apply List.Forall_nil; done.
  - exists r', r'', out. split; [done|]. split; [done|]. by apply H3.
Defined.

Lemma mmio_routing_witness : exists r', route_mmio_tlp dev1 0x15000 = Done (r', Some (RefVF 1)).
Proof.
  destruct (mmio_routing dev1 0x10000 0x15000 dev1_wf) as [H _]; [reflexivity|done|done|done|].
  assert (rs_total_vfs dev1 = 2) as Ht by reflexivity. assert (vf_memory_on dev1 1 = true) as Hon by reflexivity.
  specialize (H 1). rewrite Ht, Hon in H. specialize (H ltac:(lia) ltac:(unfold vf_size, layout_log_size; lia)). destruct H as (r' & f & H & _). by exists r'.
Defined.

Lemma bar_program_witness : exists f1 f2, cfg_writes [(4, 15, 0xFFFFFFFF); (5, 15, 0xFFFFFFFF)] (pf_init 2) = Done f1 /\
  cfg_writes [(4, 15, 0x8000); (5, 15, 7)] f1 = Done f2 /\ bar_base (h_bar (hdr f2)) = Done 0x700008000.
Proof.
  destruct (bar_program (pf_init 2) 0x700008000 4) as (f1 & l & h & f2 & H1 & _ & _ & _ & H2 & H3);
    [by apply pf_init_wf|done|done|done|by exists 0x1C0002|by left|]. by exists f1, f2.
Defined.

(** ** Behaviours that look unintended *)

(** A memory write of 17 double words inside the region reads past the array of 16. *)
Lemma long_write_overruns :
  tlp_req_handler_cb DOCA_SUCCESS (example_req 0x40000011 0x3000 (replicate 17 7) []) dev0 = Crash OutOfBounds.
Proof. by vm_compute. Qed.

(** The completion of a request to a function that does not exist names the requester of an
    earlier request of the physical function (here none), not the one that asks. *)
Lemma unsupported_names_old_requester :
  GET_TLP_REQ_REQ_ID (rq_header (cfg_rd 5 0)) = Done 0x0100 /\
  ('(_, cpl, _) ← tlp_req_handler_cb DOCA_SUCCESS (cfg_rd 5 0) dev0; Done (cf_requester_id <$> (cpl_header cpl ≫= cpl_decode))) = Done (Some 0).
Proof. by vm_compute. Qed.
