(* ===== verification/Bits.v ===== *)
(** * Bits: equality of register values, by reflection

    A register value is put together from fields with shifts and masks. [bits_eq]
    proves that two such expressions are equal: it reifies them ([bexp]), computes for
    every bit which bits of the variables it depends on ([bit_of]), and compares.
    The widths of the variables are taken from [in_width] hypotheses. *)

From S2P Require Import Prelude TlpCfg.

Inductive bexp :=
| BVar (n : nat) | BConst (c : Z)
| BLand (a b : bexp) | BLor (a b : bexp) | BLdiff (a b : bexp)
| BShl (a : bexp) (k : Z) | BShr (a : bexp) (k : Z) | BMod (a : bexp) (w : Z).

Fixpoint beval (vs : list Z) (e : bexp) : Z :=
  match e with
  | BVar n => default 0 (vs !! n)
  | BConst c => c
  | BLand a b => Z.land (beval vs a) (beval vs b)
  | BLor a b => Z.lor (beval vs a) (beval vs b)
  | BLdiff a b => Z.ldiff (beval vs a) (beval vs b)
  | BShl a k => Z.shiftl (beval vs a) k
  | BShr a k => Z.shiftr (beval vs a) k
  | BMod a w => beval vs a mod 2 ^ w
  end.

(** One bit, as a formula over bits of variables. *)
Inductive bform := FFalse | FTrue | FAtom (n : nat) (i : Z) | FAnd (a b : bform) | FOr (a b : bform) | FNot (a : bform).

Fixpoint feval (vs : list Z) (f : bform) : bool :=
  match f with
  | FFalse => false
  | FTrue => true
  | FAtom n i => Z.testbit (default 0 (vs !! n)) i
  | FAnd a b => feval vs a && feval vs b
  | FOr a b => feval vs a || feval vs b
  | FNot a => negb (feval vs a)
  end.

Definition fand (a b : bform) : bform :=
  match a, b with FFalse, _ => FFalse | _, FFalse => FFalse | FTrue, b => b | a, FTrue => a | _, _ => FAnd a b end.
Definition for_ (a b : bform) : bform :=
  match a, b with FTrue, _ => FTrue | _, FTrue => FTrue | FFalse, b => b | a, FFalse => a | _, _ => FOr a b end.
Definition fnot (a : bform) : bform := match a with FFalse => FTrue | FTrue => FFalse | _ => FNot a end.

Fixpoint bform_eqb (a b : bform) : bool :=
  match a, b with
  | FFalse, FFalse | FTrue, FTrue => true
  | FAtom n i, FAtom m j => (n =? m)%nat && (i =? j)
  | FAnd a b, FAnd c d | FOr a b, FOr c d => bform_eqb a c && bform_eqb b d
  | FNot a, FNot b => bform_eqb a b
  | _, _ => false
  end.

Fixpoint bit_of (ws : list Z) (e : bexp) (i : Z) : bform :=
  match e with
  | BVar n => if (i <? 0) || (default 0 (ws !! n) <=? i) then FFalse else FAtom n i
  | BConst c => if Z.testbit c i then FTrue else FFalse
  | BLand a b => fand (bit_of ws a i) (bit_of ws b i)
  | BLor a b => for_ (bit_of ws a i) (bit_of ws b i)
  | BLdiff a b => fand (bit_of ws a i) (fnot (bit_of ws b i))
  | BShl a k => if i <? 0 then FFalse else bit_of ws a (i - k)
  | BShr a k => if i <? 0 then FFalse else bit_of ws a (i + k)
  | BMod a w => if (w <? 0) || (i <? w) then bit_of ws a i else FFalse
  end.

(** A bound on the width; [None] where there is none. *)
Fixpoint width_of (ws : list Z) (e : bexp) : option Z :=
  match e with
  | BVar n => Some (default 0 (ws !! n))
  | BConst c => if 0 <=? c then Some (Z.log2 c + 1) else None
  | BLand a b =>
    match width_of ws a, width_of ws b with
    | Some x, Some y => Some (Z.min x y) | Some x, None => Some x | None, y => y
    end
  | BLor a b => match width_of ws a, width_of ws b with Some x, Some y => Some (Z.max x y) | _, _ => None end
  | BLdiff a _ => width_of ws a
  | BShl a k => (fun x => x + k) <$> width_of ws a
  | BShr a k => (fun x => x - k) <$> width_of ws a
  | BMod a w => if 0 <=? w then Some w else None
  end.

(** Whether the two agree on the bits below [n] and have no others. *)
Definition bits_agree (ws : list Z) (n : nat) (a b : bexp) : bool :=
  match width_of ws a, width_of ws b with
  | Some x, Some y => (x <=? Z.of_nat n) && (y <=? Z.of_nat n) &&
      forallb (fun k => bform_eqb (bit_of ws a (Z.of_nat k)) (bit_of ws b (Z.of_nat k))) (seq 0 n)
  | _, _ => false
  end.

Lemma fand_eval vs a b : feval vs (fand a b) = feval vs a && feval vs b.
Proof. destruct a, b; cbn; rewrite ?andb_true_r, ?andb_false_r; done. Qed.
Lemma for_eval vs a b : feval vs (for_ a b) = feval vs a || feval vs b.
Proof. destruct a, b; cbn; rewrite ?orb_true_r, ?orb_false_r; done. Qed.
Lemma fnot_eval vs a : feval vs (fnot a) = negb (feval vs a).
Proof. by destruct a. Qed.
Lemma bform_eqb_eq a b : bform_eqb a b = true -> a = b.
Proof.
  revert b. induction a as [| |n i|a1 IH1 a2 IH2|a1 IH1 a2 IH2|a IH]; intros []; cbn; try done; rewrite ?andb_true_iff.
  - intros [H1%Nat.eqb_eq H2%Z.eqb_eq]. by subst.
  - intros [H1%IH1 H2%IH2]. by subst.
  - intros [H1%IH1 H2%IH2]. by subst.
  - intros H%IH. by subst.
Qed.

Section Sound.
Context (ws vs : list Z) (Hw : Forall2 in_width ws vs).

Lemma var_width n : in_width (default 0 (ws !! n)) (default 0 (vs !! n)).
Proof.
  destruct (ws !! n) as [w|] eqn:E; cbn.
  - destruct (Forall2_lookup_l _ _ _ _ _ Hw E) as (v & -> & H). done.
  - pose proof (Forall2_length Hw). apply lookup_ge_None in E. rewrite lookup_ge_None_2 by lia. done.
Qed.
Lemma in_width_nonneg w x : in_width w x -> 0 <= w.
Proof. intros [H1 H2]. destruct (Z.lt_ge_cases w 0); [|done]. rewrite Z.pow_neg_r in H2 by done. lia. Qed.

Lemma bit_sound e i : feval vs (bit_of ws e i) = Z.testbit (beval vs e) i.
Proof.
  revert i. induction e as [n|c|a IHa b IHb|a IHa b IHb|a IHa b IHb|a IHa k|a IHa k|a IHa w]; intros i; cbn [bit_of beval].
  - destruct (Z.ltb_spec i 0); cbn [orb]; [by rewrite Z.testbit_neg_r|].
    destruct (Z.leb_spec (default 0 (ws !! n)) i); cbn [feval]; [|done].
    symmetry. pose proof (var_width n) as Hv. apply (testbit_high _ _ _ Hv). split; [|done]. by eapply in_width_nonneg.
  - by destruct (Z.testbit c i).
  - by rewrite fand_eval, IHa, IHb, Z.land_spec.
  - by rewrite for_eval, IHa, IHb, Z.lor_spec.
  - by rewrite fand_eval, fnot_eval, IHa, IHb, Z.ldiff_spec.
  - destruct (Z.ltb_spec i 0); [by rewrite Z.testbit_neg_r|]. by rewrite Z.shiftl_spec, IHa.
  - destruct (Z.ltb_spec i 0); [by rewrite Z.testbit_neg_r|]. by rewrite Z.shiftr_spec, IHa.
  - destruct (Z.ltb_spec w 0); cbn [orb]; [by rewrite Z.pow_neg_r, Z.mod_0_r, IHa by done|].
    destruct (Z.lt_ge_cases i 0); [rewrite Z.testbit_neg_r by done; destruct (Z.ltb_spec i w); [rewrite IHa; by apply Z.testbit_neg_r|lia]|].
    destruct (Z.ltb_spec i w); [by rewrite IHa, Z.mod_pow2_bits_low|]. by rewrite Z.mod_pow2_bits_high.
Qed.

Lemma width_sound e w i : width_of ws e = Some w -> 0 <= i -> w <= i -> Z.testbit (beval vs e) i = false.
Proof.
  revert w i. induction e as [n|c|a IHa b IHb|a IHa b IHb|a IHa b IHb|a IHa k|a IHa k|a IHa w']; intros w i; cbn [width_of beval].
  - intros [= <-] Hi Hwi. pose proof (var_width n) as Hv. apply (testbit_high _ _ _ Hv). split; [|done]. by eapply in_width_nonneg.
  - destruct (Z.leb_spec 0 c); [|done]. intros [= <-] Hi Hwi. destruct (decide (c = 0)) as [->|]; [apply Z.bits_0|]. apply Z.bits_above_log2; lia.
  - intros E Hi Hwi. rewrite Z.land_spec. destruct (width_of ws a) as [x|], (width_of ws b) as [y|]; simplify_eq.
    + destruct (Z.le_gt_cases x i); [by rewrite (IHa x)|]. rewrite (IHb y) by (done || lia). apply andb_false_r.
    + by rewrite (IHa w).
    + rewrite (IHb w) by done. apply andb_false_r.
  - intros E Hi Hwi. rewrite Z.lor_spec. destruct (width_of ws a) as [x|], (width_of ws b) as [y|]; simplify_eq.
    rewrite (IHa x), (IHb y) by (done || lia). done.
  - intros E Hi Hwi. by rewrite Z.ldiff_spec, (IHa w).
  - destruct (width_of ws a) as [x|]; [|done]. intros [= <-] Hi Hwi. rewrite Z.shiftl_spec by done.
    destruct (Z.lt_ge_cases (i - k) 0); [by apply Z.testbit_neg_r|]. apply (IHa x); done || lia.
  - destruct (width_of ws a) as [x|]; [|done]. intros [= <-] Hi Hwi. rewrite Z.shiftr_spec by done.
    destruct (Z.lt_ge_cases (i + k) 0); [by apply Z.testbit_neg_r|]. apply (IHa x); done || lia.
  - destruct (Z.leb_spec 0 w'); [|done]. intros [= <-] Hi Hwi. by apply Z.mod_pow2_bits_high.
Qed.

Lemma bits_agree_sound n a b : bits_agree ws n a b = true -> beval vs a = beval vs b.
Proof.
  unfold bits_agree. destruct (width_of ws a) as [x|] eqn:Ea; [|done]. destruct (width_of ws b) as [y|] eqn:Eb; [|done].
  rewrite !andb_true_iff, !Z.leb_le, forallb_forall. intros [[Hx Hy] Hall]. apply Z.bits_inj'. intros i Hi.
  destruct (Z.lt_ge_cases i (Z.of_nat n)).
  - rewrite <- !bit_sound. f_equal. apply bform_eqb_eq. specialize (Hall (Z.to_nat i)). rewrite Z2Nat.id in Hall by done.
    apply Hall, in_seq. lia.
  - by rewrite (width_sound a x), (width_sound b y) by (done || lia).
Qed.
End Sound.

(** ** The tactic *)

Ltac b_in x l := lazymatch l with nil => constr:(false) | x :: _ => constr:(true) | _ :: ?l => b_in x l end.
Ltac b_idx x l := lazymatch l with x :: _ => constr:(O) | _ :: ?l => let n := b_idx x l in constr:(S n) end.
Ltac b_vars e l :=
  lazymatch e with
  | Z.land ?a ?b => let l := b_vars a l in b_vars b l
  | Z.lor ?a ?b => let l := b_vars a l in b_vars b l
  | Z.ldiff ?a ?b => let l := b_vars a l in b_vars b l
  | Z.shiftl ?a _ => b_vars a l
  | Z.shiftr ?a _ => b_vars a l
  | ?a mod 2 ^ _ => b_vars a l
  | Z0 => l | Zpos _ => l | Zneg _ => l
  | ?x => lazymatch b_in x l with true => l | false => constr:(x :: l) end
  end.
Ltac b_reify e l :=
  lazymatch e with
  | Z.land ?a ?b => let a := b_reify a l in let b := b_reify b l in constr:(BLand a b)
  | Z.lor ?a ?b => let a := b_reify a l in let b := b_reify b l in constr:(BLor a b)
  | Z.ldiff ?a ?b => let a := b_reify a l in let b := b_reify b l in constr:(BLdiff a b)
  | Z.shiftl ?a ?k => let a := b_reify a l in constr:(BShl a k)
  | Z.shiftr ?a ?k => let a := b_reify a l in constr:(BShr a k)
  | ?a mod 2 ^ ?w => let a := b_reify a l in constr:(BMod a w)
  | Z0 => constr:(BConst e) | Zpos _ => constr:(BConst e) | Zneg _ => constr:(BConst e)
  | ?x => let n := b_idx x l in constr:(BVar n)
  end.
Ltac b_widths l :=
  lazymatch l with
  | nil => constr:(@nil Z)
  | ?x :: ?l => let ws := b_widths l in
    match goal with H : in_width ?w x |- _ => constr:(w :: ws) end
  end.
(** Proves [a = b], both of at most 64 bits. *)
Ltac bits_eq :=
  lazymatch goal with |- ?a = ?b =>
    let l := b_vars a (@nil Z) in let l := b_vars b l in
    let ra := b_reify a l in let rb := b_reify b l in let ws := b_widths l in
    apply (bits_agree_sound ws l ltac:(repeat first [assumption | constructor]) 64 ra rb); vm_compute; reflexivity
  end.

Example bits_eq_halves (x y : Z) (Hx : in_width 16 x) (Hy : in_width 16 y) :
  Z.lor (Z.shiftl (Z.lor (Z.shiftl x 16) y mod 2 ^ 16) 16) (Z.land (Z.shiftr (Z.lor (Z.shiftl x 16) y) 16) 0xFFFF) = Z.lor (Z.shiftl y 16) x.
Proof. bits_eq. Qed.
