(* ===== verification/BridgeData.v ===== *)
(** * BridgeData: data of the TLP bridge handler sample,
      src/samples/doca_devemu/devemu_pci_device_tlp_bridge_handler/
      devemu_pci_device_tlp_bridge_handler_config.h and the set-up of one device in
      devemu_pci_device_tlp_bridge_handler_sample.c

    Registers, devices and the context. The two members of the header's union are two
    fields here: bridges use [dc_type1] only and the other devices [dc_type0] only. A
    pointer into [devs_config] or [bdf_entries] is an index, a handle of the library a
    number, memory a list of bytes. *)

From S2P Require Import Prelude TlpCfg TlpReq.

(** ** Constants *)

Definition MIN_TLP_PCI_TYPE_NUM : Z := 1.
Definition MAX_NUM_EP : Z := 32.
Definition DUMMY_DEV_NUM : Z := 1.
Definition BDF_MAP_SIZE : Z := 256.
Definition SLOT_CTRL_CMD_COMPLETED_INT_EN : Z := 0x0010.
Definition SLOT_CTRL_HP_INT_EN : Z := 0x0020.
Definition SLOT_CTRL_POWER_CONTROLLER : Z := 0x0400.
Definition SLOT_STS_ATTN_BTN_PRESSED : Z := 0x0001.
Definition SLOT_STS_PRESENCE_DETECT_CHANGED : Z := 0x0008.
Definition SLOT_STS_CMD_COMPLETED : Z := 0x0010.
Definition SLOT_STS_PRESENCE_DETECT_STATE : Z := 0x0040.
Definition LINK_STS_DL_ACTIVE : Z := 0x2000.
Definition TLP_PCI_TYPE_ENDPOINT_DEVICE_ID : Z := 0x10f0.
Definition TLP_PCI_TYPE_BRIDGE_DEVICE_ID : Z := 0x10f1.
Definition TLP_PCI_CLASS_CODE_ENDPOINT : Z := 0x020000.
Definition TLP_PCI_CLASS_CODE_BRIDGE : Z := 0x060400.
Definition HEADER_TYPE_ENDPOINT : Z := 0x00.
Definition HEADER_TYPE_BRIDGE : Z := 0x01.
Definition BAR_SIZE_16K : Z := Z.shiftl 1 14.
Definition TRANSACTION_REGION_SIZE : Z := 0x1000.
Definition BRIDGE_DUMMY_READ_DATA_BASE : Z := 0xDEADBEEF.
Definition TLP_PCI_CAP_OFFSET_MSI : Z := 0x50.
Definition TLP_PCI_CAP_ID_MSI : Z := 0x05.
Definition TLP_CAP_MSI_REG_NUM : Z := TLP_PCI_CAP_OFFSET_MSI / 4.
Definition TLP_CAP_MSI_LEN_DW : Z := 6.
Definition SLOT_CAP_PWR_CTRL_PRESENT : Z := 0x00000002.
Definition SLOT_CAP_HP_SURPRISE : Z := 0x00000020.
Definition SLOT_CAP_HP_CAPABLE : Z := 0x00000040.
Definition TLP_BRIDGE_SLOT_CAPABILITIES : Z :=
  Z.lor (Z.lor (Z.lor (Z.lor SLOT_CAP_PWR_CTRL_PRESENT SLOT_CAP_HP_SURPRISE) SLOT_CAP_HP_CAPABLE) (Z.shiftl 32 7)) (Z.shiftl 56 19).
Definition BDF (bus device function : Z) : Z :=
  Z.lor (Z.lor (Z.shiftl (Z.land bus 0xff) 8) (Z.shiftl (Z.land device 0x1f) 3)) (Z.land function 0x7).
Definition BDF_MAP_KEY (tlp_type bdf : Z) : Z := u32 (Z.lor (Z.shiftl tlp_type 16) bdf).

(** ** Registers *)

Record pci_cfg_type0_header := {
  t0_vendor_id : Z; t0_device_id : Z;
  t0_command : Z; t0_status : Z;
  t0_revision_id : Z; t0_class_code : Z;
  t0_cache_line_size : Z; t0_latency_timer : Z; t0_header_type : Z; t0_bist : Z;
  t0_bar : list Z;
  t0_subsystem_vendor_id : Z; t0_subsystem_id : Z;
  t0_exp_rom_base_addr : Z;
  t0_cap_ptr : Z;
  t0_interrupt_line : Z; t0_interrupt_pin : Z; t0_min_grant : Z; t0_max_latency : Z;
}.
Record pci_cfg_type1_header := {
  t1_vendor_id : Z; t1_device_id : Z;
  t1_command : Z; t1_status : Z;
  t1_revision_id : Z; t1_class_code : Z;
  t1_cache_line_size : Z; t1_latency_timer : Z; t1_header_type : Z; t1_bist : Z;
  t1_primary_bus : Z; t1_secondary_bus : Z; t1_subordinate_bus : Z; t1_secondary_latency : Z;
  t1_io_base : Z; t1_io_limit : Z; t1_secondary_status : Z;
  t1_memory_base : Z; t1_memory_limit : Z;
  t1_pre_memory_base : Z; t1_pre_memory_limit : Z;
  t1_pre_memory_base_upper_32bit : Z; t1_pre_memory_limit_upper_32bit : Z;
  t1_io_base_upper_16bit : Z; t1_io_limit_upper_16bit : Z;
  t1_cap_ptr : Z;
  t1_exp_rom_base_addr : Z;
  t1_interrupt_line : Z; t1_interrupt_pin : Z; t1_bridge_control : Z;
}.
Record pci_express_capability := {
  xp_cap_id : Z; xp_next_cap_ptr : Z; xp_pcie_cap_register : Z;
  xp_dev_capabilities : Z;
  xp_dev_control : Z; xp_dev_status : Z;
  xp_link_capabilities : Z;
  xp_link_control : Z; xp_link_status : Z;
  xp_slot_capabilities : Z;
  xp_slot_control : Z; xp_slot_status : Z;
  xp_root_control : Z; xp_root_capabilities : Z;
  xp_root_status : Z;
  xp_dev_capabilities2 : Z;
  xp_dev_control2 : Z; xp_dev_status2 : Z;
  xp_link_capabilities2 : Z;
  xp_link_control2 : Z; xp_link_status2 : Z;
  xp_slot_capabilities2 : Z;
  xp_slot_control2 : Z; xp_slot_status2 : Z;
}.
Record pci_msi_capability := {
  msi_cap_id : Z; msi_next_cap_ptr : Z;
  msi_message_control : Z;
  msi_address_low : Z;
  msi_address_high : Z;
  msi_message_data : Z; msi_reserved : Z;
  msi_mask_bits : Z;
  msi_pending_bits : Z;
}.
Record pci_msix_capability := {
  msix_cap_id : Z; msix_next_cap_ptr : Z; msix_message_control : Z;
  msix_table_offset : Z;
  msix_pba_offset : Z;
}.
Record pci_vpd_capability := { vpdc_cap_id : Z; vpdc_next_cap_ptr : Z; vpdc_addr_register : Z; vpdc_data_register : Z }.
Record pci_pm_capability := {
  pmc_cap_id : Z; pmc_next_cap_ptr : Z; pmc_pmc : Z;
  pmc_pmcsr : Z; pmc_reserved : Z; pmc_data : Z;
}.

(** ** Devices and the context *)

Record pci_device_config := {
  dc_type0 : pci_cfg_type0_header;
  dc_type1 : pci_cfg_type1_header;
  dc_express : pci_express_capability;
  dc_msi : pci_msi_capability;
  dc_msix : pci_msix_capability;
  dc_vpd : pci_vpd_capability;
  dc_pm : pci_pm_capability;
  dc_bus : Z;
  dc_device : Z;
  dc_function : Z;
  dc_bdf : Z;
  dc_is_bridge : bool;
  dc_is_endpoint : bool;
  dc_is_dummy : bool;
  dc_is_bdf_set : bool;
  dc_log_bar_size : Z;
  dc_transaction_region_start : Z;
  dc_msix_region_start : Z;
  dc_msix_pba_region_start : Z;
  dc_vhca_id : Z;
  dc_device_present : bool;
  dc_rep : option Z;
  dc_tlp_dev : option Z;
  dc_requester_id : Z;
  dc_completer_id : Z;
  dc_tag9 : Z;
  dc_tag8 : Z;
  dc_tag : Z;
  dc_cmpl_fmt : Z;
  dc_cmpl_type : Z;
  dc_cmpl_length : Z;
  dc_cmpl_status : Z;
}.

Record bdf_map_entry := { be_key : Z; be_dev_cfg : option nat; be_next : option nat }.

Record tlp_context := {
  devs_config : list pci_device_config;
  num_dev_types : Z;
  num_devices : Z;
  num_ep : Z;
  num_dsp : Z;
  num_bridges : Z;
  dev_type_idx : Z;
  num_nv_switch_tlp_dsp : Z;
  num_ep_per_nv_switch_tlp_dsp : Z;
  num_ep_extra_per_nv_switch_tlp_dsp : Z;
  transaction_region_memories : option (list (option (list Z)));
  transaction_region_size : Z;
  bdf_map : list (option nat);
  bdf_entries : list bdf_map_entry;
  acg_queue : option (list Z);
  acg_queue_head : Z;
  acg_queue_tail : Z;
  acg_queue_count : Z;
  acg_queue_size : Z;
}.

Definition USP_IDX (d : Z) : nat := Z.to_nat d.
Definition FIRST_DSP_IDX (c : tlp_context) : Z := num_nv_switch_tlp_dsp c.
Definition FIRST_PF_IDX (c : tlp_context) : Z := num_bridges c.
Definition DUMMY_DEV_IDX (c : tlp_context) : Z := u32 (num_bridges c + num_ep c).

(** [&devs_config[i]] read and written. *)
Definition dev_at (l : list pci_device_config) (i : nat) : res pci_device_config :=
  match l !! i with Some d => Done d | None => Crash OutOfBounds end.
Definition upd_dev (f : pci_device_config -> pci_device_config) (i : nat) (l : list pci_device_config) :
    res (list pci_device_config) := d ← dev_at l i; Done (<[i := f d]> l).

(** ** Set-up of a device *)

(** A structure filled with zeros. *)
Definition zero_type0 : pci_cfg_type0_header :=
  {| t0_vendor_id := 0; t0_device_id := 0; t0_command := 0; t0_status := 0; t0_revision_id := 0; t0_class_code := 0;
     t0_cache_line_size := 0; t0_latency_timer := 0; t0_header_type := 0; t0_bist := 0; t0_bar := replicate 6 0;
     t0_subsystem_vendor_id := 0; t0_subsystem_id := 0; t0_exp_rom_base_addr := 0; t0_cap_ptr := 0;
     t0_interrupt_line := 0; t0_interrupt_pin := 0; t0_min_grant := 0; t0_max_latency := 0 |}.
Definition zero_type1 : pci_cfg_type1_header :=
  {| t1_vendor_id := 0; t1_device_id := 0; t1_command := 0; t1_status := 0; t1_revision_id := 0; t1_class_code := 0;
     t1_cache_line_size := 0; t1_latency_timer := 0; t1_header_type := 0; t1_bist := 0;
     t1_primary_bus := 0; t1_secondary_bus := 0; t1_subordinate_bus := 0; t1_secondary_latency := 0;
     t1_io_base := 0; t1_io_limit := 0; t1_secondary_status := 0; t1_memory_base := 0; t1_memory_limit := 0;
     t1_pre_memory_base := 0; t1_pre_memory_limit := 0; t1_pre_memory_base_upper_32bit := 0;
     t1_pre_memory_limit_upper_32bit := 0; t1_io_base_upper_16bit := 0; t1_io_limit_upper_16bit := 0;
     t1_cap_ptr := 0; t1_exp_rom_base_addr := 0; t1_interrupt_line := 0; t1_interrupt_pin := 0; t1_bridge_control := 0 |}.
Definition zero_express : pci_express_capability :=
  {| xp_cap_id := 0; xp_next_cap_ptr := 0; xp_pcie_cap_register := 0; xp_dev_capabilities := 0; xp_dev_control := 0;
     xp_dev_status := 0; xp_link_capabilities := 0; xp_link_control := 0; xp_link_status := 0; xp_slot_capabilities := 0;
     xp_slot_control := 0; xp_slot_status := 0; xp_root_control := 0; xp_root_capabilities := 0; xp_root_status := 0;
     xp_dev_capabilities2 := 0; xp_dev_control2 := 0; xp_dev_status2 := 0; xp_link_capabilities2 := 0;
     xp_link_control2 := 0; xp_link_status2 := 0; xp_slot_capabilities2 := 0; xp_slot_control2 := 0; xp_slot_status2 := 0 |}.
Definition zero_msi : pci_msi_capability :=
  {| msi_cap_id := 0; msi_next_cap_ptr := 0; msi_message_control := 0; msi_address_low := 0; msi_address_high := 0;
     msi_message_data := 0; msi_reserved := 0; msi_mask_bits := 0; msi_pending_bits := 0 |}.
Definition zero_vpd : pci_vpd_capability :=
  {| vpdc_cap_id := 0; vpdc_next_cap_ptr := 0; vpdc_addr_register := 0; vpdc_data_register := 0 |}.
Definition zero_dev : pci_device_config :=
  {| dc_type0 := zero_type0; dc_type1 := zero_type1; dc_express := zero_express; dc_msi := zero_msi;
     dc_msix := {| msix_cap_id := 0; msix_next_cap_ptr := 0; msix_message_control := 0; msix_table_offset := 0; msix_pba_offset := 0 |};
     dc_vpd := zero_vpd;
     dc_pm := {| pmc_cap_id := 0; pmc_next_cap_ptr := 0; pmc_pmc := 0; pmc_pmcsr := 0; pmc_reserved := 0; pmc_data := 0 |};
     dc_bus := 0; dc_device := 0; dc_function := 0; dc_bdf := 0;
     dc_is_bridge := false; dc_is_endpoint := false; dc_is_dummy := false; dc_is_bdf_set := false;
     dc_log_bar_size := 0; dc_transaction_region_start := 0; dc_msix_region_start := 0; dc_msix_pba_region_start := 0;
     dc_vhca_id := 0; dc_device_present := false; dc_rep := None; dc_tlp_dev := None;
     dc_requester_id := 0; dc_completer_id := 0; dc_tag9 := 0; dc_tag8 := 0; dc_tag := 0;
     dc_cmpl_fmt := 0; dc_cmpl_type := 0; dc_cmpl_length := 0; dc_cmpl_status := 0 |}.

(** The power management capability, the same for all devices. *)
Definition init_pm : pci_pm_capability :=
  {| pmc_cap_id := TLP_PCI_CAP_ID_PM; pmc_next_cap_ptr := 0x00; pmc_pmc := 0xC803; pmc_pmcsr := 0x0008; pmc_reserved := 0x00; pmc_data := 0x00 |}.

Definition init_endpoint_capabilities (d : pci_device_config) : pci_device_config :=
  let mx := dc_msix d in
  {| d with
     dc_express := {| xp_cap_id := TLP_PCI_CAP_ID_EXPRESS; xp_next_cap_ptr := TLP_PCI_CAP_OFFSET_VPD; xp_pcie_cap_register := 0x0002;
       xp_dev_capabilities := 0x112c8fe2; xp_dev_control := 0x2950; xp_dev_status := 0x0000; xp_link_capabilities := 0x00500104;
       xp_link_control := 0x0000; xp_link_status := 0x3104; xp_slot_capabilities := 0; xp_slot_control := 0; xp_slot_status := 0;
       xp_root_control := 0; xp_root_capabilities := 0; xp_root_status := 0; xp_dev_capabilities2 := 0x00030397;
       xp_dev_control2 := 0; xp_dev_status2 := 0; xp_link_capabilities2 := 0x0180003e; xp_link_control2 := 0;
       xp_link_status2 := 0; xp_slot_capabilities2 := 0; xp_slot_control2 := 0; xp_slot_status2 := 0 |};
     dc_vpd := {| vpdc_cap_id := TLP_PCI_CAP_ID_VPD; vpdc_next_cap_ptr := TLP_PCI_CAP_OFFSET_MSIX;
       vpdc_addr_register := 0x8000; vpdc_data_register := 0x00000078 |};
     dc_msix := {| mx with msix_cap_id := TLP_PCI_CAP_ID_MSIX; msix_next_cap_ptr := TLP_PCI_CAP_OFFSET_PM; msix_message_control := 0x0000 |};
     dc_pm := init_pm |}.
Definition init_usp_capabilities (d : pci_device_config) : pci_device_config :=
  {| d with
     dc_express := {| xp_cap_id := TLP_PCI_CAP_ID_EXPRESS; xp_next_cap_ptr := TLP_PCI_CAP_OFFSET_PM; xp_pcie_cap_register := 0x0052;
       xp_dev_capabilities := 0x00008001; xp_dev_control := 0x0000; xp_dev_status := 0x0000; xp_link_capabilities := 0x00500104;
       xp_link_control := 0x0000; xp_link_status := 0x1104; xp_slot_capabilities := 0; xp_slot_control := 0; xp_slot_status := 0;
       xp_root_control := 0; xp_root_capabilities := 0; xp_root_status := 0; xp_dev_capabilities2 := 0;
       xp_dev_control2 := 0; xp_dev_status2 := 0; xp_link_capabilities2 := 0; xp_link_control2 := 0;
       xp_link_status2 := 0; xp_slot_capabilities2 := 0; xp_slot_control2 := 0; xp_slot_status2 := 0 |};
     dc_pm := init_pm;
     dc_vpd := zero_vpd;
     dc_msi := zero_msi |}.
Definition init_dsp_capabilities (d : pci_device_config) : pci_device_config :=
  {| d with
     dc_express := {| xp_cap_id := TLP_PCI_CAP_ID_EXPRESS; xp_next_cap_ptr := TLP_PCI_CAP_OFFSET_MSI; xp_pcie_cap_register := 0x0162;
       xp_dev_capabilities := 0x00008001; xp_dev_control := 0x0000; xp_dev_status := 0x0000; xp_link_capabilities := 0x01500104;
       xp_link_control := 0x0000; xp_link_status := 0x1104; xp_slot_capabilities := TLP_BRIDGE_SLOT_CAPABILITIES;
       xp_slot_control := SLOT_CTRL_POWER_CONTROLLER; xp_slot_status := 0x0000;
       xp_root_control := 0; xp_root_capabilities := 0; xp_root_status := 0; xp_dev_capabilities2 := 0;
       xp_dev_control2 := 0; xp_dev_status2 := 0; xp_link_capabilities2 := 0; xp_link_control2 := 0;
       xp_link_status2 := 0; xp_slot_capabilities2 := 0; xp_slot_control2 := 0; xp_slot_status2 := 0 |};
     dc_msi := {| msi_cap_id := TLP_PCI_CAP_ID_MSI; msi_next_cap_ptr := TLP_PCI_CAP_OFFSET_PM; msi_message_control := 0x0080;
       msi_address_low := 0; msi_address_high := 0; msi_message_data := 0x0000; msi_reserved := 0x0000; msi_mask_bits := 0; msi_pending_bits := 0 |};
     dc_pm := init_pm;
     dc_vpd := zero_vpd |}.
Definition init_type0_header (d : pci_device_config) : pci_device_config :=
  {| d with dc_type0 :=
     {| t0_vendor_id := TLP_PCI_TYPE_VENDOR_ID; t0_device_id := TLP_PCI_TYPE_ENDPOINT_DEVICE_ID; t0_command := 0x0000; t0_status := 0x0010;
        t0_class_code := TLP_PCI_CLASS_CODE_ENDPOINT; t0_revision_id := TLP_PCI_TYPE_REVISION_ID; t0_bist := 0x00;
        t0_header_type := HEADER_TYPE_ENDPOINT; t0_latency_timer := 0x00; t0_cache_line_size := 0x10;
        t0_bar := [Z.lor (Z.lor (Z.lor 0 BAR_ENCODING_MEM_SPACE) BAR_MEM_TYPE_64_BIT) BAR_MEM_PREFETCHABLE; 0; 0; 0; 0; 0];
        t0_subsystem_vendor_id := TLP_PCI_TYPE_SUBSYSTEM_VENDOR_ID; t0_subsystem_id := TLP_PCI_TYPE_SUBSYSTEM_ID;
        t0_exp_rom_base_addr := 0; t0_cap_ptr := 0x60;
        t0_interrupt_line := 0x00; t0_interrupt_pin := 0x00; t0_min_grant := 0x00; t0_max_latency := 0x00 |} |}.
Definition init_type1_header (d : pci_device_config) : pci_device_config :=
  {| d with dc_type1 :=
     {| t1_vendor_id := TLP_PCI_TYPE_VENDOR_ID; t1_device_id := TLP_PCI_TYPE_BRIDGE_DEVICE_ID; t1_command := 0x0400; t1_status := 0x0010;
        t1_class_code := TLP_PCI_CLASS_CODE_BRIDGE; t1_revision_id := TLP_PCI_TYPE_REVISION_ID; t1_bist := 0x00;
        t1_header_type := HEADER_TYPE_BRIDGE; t1_latency_timer := 0x00; t1_cache_line_size := 0x00;
        t1_primary_bus := 0x00; t1_secondary_bus := 0x00; t1_subordinate_bus := 0x00; t1_secondary_latency := 0x00;
        t1_io_base := 0x00; t1_io_limit := 0x00; t1_secondary_status := 0x0000; t1_memory_base := 0x0000; t1_memory_limit := 0x0000;
        t1_pre_memory_base := 0x0001; t1_pre_memory_limit := 0x0001; t1_pre_memory_base_upper_32bit := 0;
        t1_pre_memory_limit_upper_32bit := 0; t1_io_base_upper_16bit := 0x0000; t1_io_limit_upper_16bit := 0x0000;
        t1_cap_ptr := 0x60; t1_exp_rom_base_addr := 0; t1_interrupt_line := 0x00; t1_interrupt_pin := 0x00; t1_bridge_control := 0x0000 |} |}.

Definition init_usp (d : pci_device_config) : pci_device_config :=
  let d := init_usp_capabilities (init_type1_header d) in
  {| d with dc_is_bridge := true |}.
Definition init_dsp (j : Z) (d : pci_device_config) : pci_device_config :=
  let d := init_dsp_capabilities (init_type1_header d) in
  {| d with dc_is_bridge := true; dc_device := u8 j |}.
Definition init_ep (d : pci_device_config) : pci_device_config :=
  let d := init_endpoint_capabilities (init_type0_header d) in
  {| d with dc_is_endpoint := true |}.
Definition init_dummy (d : pci_device_config) : pci_device_config :=
  let d := init_type0_header d in
  {| d with dc_is_dummy := true |}.
