(* ===== verification/BridgeCfg.v ===== *)
(** * BridgeCfg: configuration registers of the TLP bridge handler sample,
      src/samples/doca_devemu/devemu_pci_device_tlp_bridge_handler/
      devemu_pci_device_tlp_bridge_handler_sample.c

    Reading and writing the header of an endpoint (type 0) or a bridge (type 1) and the
    capabilities behind it. [bridge_image] is what the host sees: 42 registers,
    with zeros behind them. [bridge_register_write] says what a configuration write does to
    all of them: those it does not address keep their values, and the addressed one
    becomes what [reg_spec] says, for the writes in [write_whole]. Names that TlpCfg has for
    the other sample have the prefix [bridge_] here. *)

From S2P Require Import Prelude TlpCfg TlpReq Bits BridgeData.

(** ** Reading *)

Section Reads.
Implicit Types (d : pci_device_config).

(** [(hi << 16) | lo] and [(b3 << 24) | (b2 << 16) | (b1 << 8) | b0]: the operands are promoted to [int]; the bits are those of [uint32_t]. *)
Definition dw16 (hi lo : Z) : Z := u32 (Z.lor (Z.shiftl hi 16) lo).
Definition dw8 (b3 b2 b1 b0 : Z) : Z :=
  u32 (Z.lor (Z.lor (Z.lor (Z.shiftl b3 24) (Z.shiftl b2 16)) (Z.shiftl b1 8)) b0).

Definition config_space_type0_read_reg0 d : Z := dw16 (t0_device_id (dc_type0 d)) (t0_vendor_id (dc_type0 d)).
Definition config_space_type0_read_reg1 d : Z := dw16 (t0_status (dc_type0 d)) (t0_command (dc_type0 d)).
Definition config_space_type0_read_reg2 d : Z := u32 (Z.lor (Z.shiftl (t0_class_code (dc_type0 d)) 8) (t0_revision_id (dc_type0 d))).
Definition config_space_type0_read_reg3 d : Z :=
  dw8 (t0_bist (dc_type0 d)) (t0_header_type (dc_type0 d)) (t0_latency_timer (dc_type0 d)) (t0_cache_line_size (dc_type0 d)).
Definition config_space_type0_read_bar d (reg_num : Z) : res Z := at_ (t0_bar (dc_type0 d)) (u32 (reg_num - 0x4)).
Definition config_space_type0_read_reg11 d : Z := dw16 (t0_subsystem_id (dc_type0 d)) (t0_subsystem_vendor_id (dc_type0 d)).
Definition config_space_type0_read_reg12 d : Z := t0_exp_rom_base_addr (dc_type0 d).
Definition config_space_type0_read_reg13 d : Z := t0_cap_ptr (dc_type0 d).
Definition config_space_type0_read_reg15 d : Z :=
  dw8 (t0_max_latency (dc_type0 d)) (t0_min_grant (dc_type0 d)) (t0_interrupt_pin (dc_type0 d)) (t0_interrupt_line (dc_type0 d)).

Definition bridge_cap_pcie_read d (cap_offset : Z) : Z :=
  let x := dc_express d in
  match cap_offset with
  | 0 => u32 (Z.lor (Z.lor (Z.shiftl (xp_pcie_cap_register x) 16) (Z.shiftl (xp_next_cap_ptr x) 8)) (xp_cap_id x))
  | 1 => xp_dev_capabilities x
  | 2 => dw16 (xp_dev_status x) (xp_dev_control x)
  | 3 => xp_link_capabilities x
  | 4 => dw16 (xp_link_status x) (xp_link_control x)
  | 5 => xp_slot_capabilities x
  | 6 => dw16 (xp_slot_status x) (xp_slot_control x)
  | 7 => dw16 (xp_root_capabilities x) (xp_root_control x)
  | 8 => xp_root_status x
  | 9 => xp_dev_capabilities2 x
  | 10 => dw16 (xp_dev_status2 x) (xp_dev_control2 x)
  | 11 => xp_link_capabilities2 x
  | 12 => dw16 (xp_link_status2 x) (xp_link_control2 x)
  | 13 => xp_slot_capabilities2 x
  | 14 => dw16 (xp_slot_status2 x) (xp_slot_control2 x)
  | _ => 0
  end.
Definition bridge_cap_vpd_read d (cap_offset : Z) : Z :=
  let v := dc_vpd d in
  match cap_offset with
  | 0 => u32 (Z.lor (Z.lor (Z.shiftl (vpdc_addr_register v) 16) (Z.shiftl (vpdc_next_cap_ptr v) 8)) (vpdc_cap_id v))
  | 1 => vpdc_data_register v
  | _ => 0
  end.
Definition config_space_cap_msi_read d (cap_offset : Z) : Z :=
  let m := dc_msi d in
  match cap_offset with
  | 0 => u32 (Z.lor (Z.lor (Z.shiftl (msi_message_control m) 16) (Z.shiftl (msi_next_cap_ptr m) 8)) (msi_cap_id m))
  | 1 => msi_address_low m
  | 2 => msi_address_high m
  | 3 => dw16 (msi_reserved m) (msi_message_data m)
  | 4 => msi_mask_bits m
  | 5 => msi_pending_bits m
  | _ => 0
  end.
Definition bridge_cap_msix_read d (cap_offset : Z) : Z :=
  let m := dc_msix d in
  match cap_offset with
  | 0 => u32 (Z.lor (Z.lor (Z.shiftl (msix_message_control m) 16) (Z.shiftl (msix_next_cap_ptr m) 8)) (msix_cap_id m))
  | 1 => msix_table_offset m
  | 2 => msix_pba_offset m
  | _ => 0
  end.
Definition bridge_cap_pm_read d (cap_offset : Z) : Z :=
  let p := dc_pm d in
  match cap_offset with
  | 0 => u32 (Z.lor (Z.lor (Z.shiftl (pmc_pmc p) 16) (Z.shiftl (pmc_next_cap_ptr p) 8)) (pmc_cap_id p))
  | 1 => u32 (Z.lor (Z.lor (Z.shiftl (pmc_data p) 24) (Z.shiftl (pmc_reserved p) 16)) (pmc_pmcsr p))
  | _ => 0
  end.

Definition config_space_type1_read_reg0 d : Z := dw16 (t1_device_id (dc_type1 d)) (t1_vendor_id (dc_type1 d)).
Definition config_space_type1_read_reg1 d : Z := dw16 (t1_status (dc_type1 d)) (t1_command (dc_type1 d)).
Definition config_space_type1_read_reg2 d : Z := u32 (Z.lor (Z.shiftl (t1_class_code (dc_type1 d)) 8) (t1_revision_id (dc_type1 d))).
Definition config_space_type1_read_reg3 d : Z :=
  dw8 (t1_bist (dc_type1 d)) (t1_header_type (dc_type1 d)) (t1_latency_timer (dc_type1 d)) (t1_cache_line_size (dc_type1 d)).
Definition config_space_type1_read_reg6 d : Z :=
  dw8 (t1_secondary_latency (dc_type1 d)) (t1_subordinate_bus (dc_type1 d)) (t1_secondary_bus (dc_type1 d)) (t1_primary_bus (dc_type1 d)).
Definition config_space_type1_read_reg7 d : Z :=
  u32 (Z.lor (Z.lor (Z.shiftl (t1_secondary_status (dc_type1 d)) 16) (Z.shiftl (t1_io_limit (dc_type1 d)) 8)) (t1_io_base (dc_type1 d))).
Definition config_space_type1_read_reg8 d : Z := dw16 (t1_memory_limit (dc_type1 d)) (t1_memory_base (dc_type1 d)).
Definition config_space_type1_read_reg9 d : Z :=
  u32 (Z.lor (Z.lor (Z.shiftl (Z.land (t1_pre_memory_limit (dc_type1 d)) 0xFFF0) 16) (Z.land (t1_pre_memory_base (dc_type1 d)) 0xFFF0)) 0x00010001).
Definition config_space_type1_read_reg10 d : Z := t1_pre_memory_base_upper_32bit (dc_type1 d).
Definition config_space_type1_read_reg11 d : Z := t1_pre_memory_limit_upper_32bit (dc_type1 d).
Definition config_space_type1_read_reg12 d : Z := dw16 (t1_io_limit_upper_16bit (dc_type1 d)) (t1_io_base_upper_16bit (dc_type1 d)).
Definition config_space_type1_read_reg13 d : Z := t1_cap_ptr (dc_type1 d).
Definition config_space_type1_read_reg14 d : Z := t1_exp_rom_base_addr (dc_type1 d).
Definition config_space_type1_read_reg15 d : Z :=
  u32 (Z.lor (Z.lor (Z.shiftl (t1_bridge_control (dc_type1 d)) 16) (Z.shiftl (t1_interrupt_pin (dc_type1 d)) 8)) (t1_interrupt_line (dc_type1 d))).

Definition handle_config_space_header_read_type0 (reg_num : Z) d : res Z :=
  if in_case 4 9 reg_num then config_space_type0_read_bar d reg_num
  else Done match reg_num with
  | 0 => config_space_type0_read_reg0 d
  | 1 => config_space_type0_read_reg1 d
  | 2 => config_space_type0_read_reg2 d
  | 3 => config_space_type0_read_reg3 d
  | 10 => 0
  | 11 => config_space_type0_read_reg11 d
  | 12 => config_space_type0_read_reg12 d
  | 13 => config_space_type0_read_reg13 d
  | 14 => 0
  | 15 => config_space_type0_read_reg15 d
  | _ => 0
  end.
Definition handle_config_space_header_read_type1 (reg_num : Z) d : Z :=
  match reg_num with
  | 0 => config_space_type1_read_reg0 d
  | 1 => config_space_type1_read_reg1 d
  | 2 => config_space_type1_read_reg2 d
  | 3 => config_space_type1_read_reg3 d
  | 4 | 5 => 0
  | 6 => config_space_type1_read_reg6 d
  | 7 => config_space_type1_read_reg7 d
  | 8 => config_space_type1_read_reg8 d
  | 9 => config_space_type1_read_reg9 d
  | 10 => config_space_type1_read_reg10 d
  | 11 => config_space_type1_read_reg11 d
  | 12 => config_space_type1_read_reg12 d
  | 13 => config_space_type1_read_reg13 d
  | 14 => config_space_type1_read_reg14 d
  | 15 => config_space_type1_read_reg15 d
  | _ => 0
  end.

(** Whether a register is in a capability. *)
Definition in_cap (first len reg_num : Z) : bool := (first <=? reg_num) && (reg_num <? first + len).

(** The data and the identifier of the capability. *)
Definition bridge_caps_read (reg_num : Z) d (cap_id : Z) : Z * Z :=
  if in_cap TLP_CAP_EXPRESS_REG_NUM TLP_CAP_EXPRESS_LEN_DW reg_num then
    (bridge_cap_pcie_read d (u32 (reg_num - TLP_CAP_EXPRESS_REG_NUM)), TLP_PCI_CAP_ID_EXPRESS)
  else if in_cap TLP_CAP_VPD_REG_NUM TLP_CAP_VPD_LEN_DW reg_num then
    (bridge_cap_vpd_read d (u32 (reg_num - TLP_CAP_VPD_REG_NUM)), TLP_PCI_CAP_ID_VPD)
  else if in_cap TLP_CAP_MSIX_REG_NUM TLP_CAP_MSIX_LEN_DW reg_num then
    (bridge_cap_msix_read d (u32 (reg_num - TLP_CAP_MSIX_REG_NUM)), TLP_PCI_CAP_ID_MSIX)
  else if in_cap TLP_CAP_MSI_REG_NUM TLP_CAP_MSI_LEN_DW reg_num then
    (config_space_cap_msi_read d (u32 (reg_num - TLP_CAP_MSI_REG_NUM)), TLP_PCI_CAP_ID_MSI)
  else if in_cap TLP_CAP_PM_REG_NUM TLP_CAP_PM_LEN_DW reg_num then
    (bridge_cap_pm_read d (u32 (reg_num - TLP_CAP_PM_REG_NUM)), TLP_PCI_CAP_ID_PM)
  else (0, cap_id).
End Reads.

(** ** Writing *)

Section Writes.
Implicit Types (d : pci_device_config).

(** Byte [k] of a register. *)
Definition reg_byte (k x : Z) : Z := Z.land (Z.shiftr x (8 * k)) 0xff.

Definition config_space_type0_write_reg1 d (data be_mask : Z) : pci_device_config :=
  let t := dc_type0 d in
  {| d with dc_type0 := {| t with t0_command := command_write (lo16 be_mask) (lo16 data) (t0_command t);
                                  t0_status := status_write (hi16 be_mask) (hi16 data) (t0_status t) |} |}.

(** [uint32_t bar_size = 1 << dev_cfg->log_bar_size]: a shift of an [int] by 31 or more is undefined. *)
Definition config_space_type0_write_bar d (reg_num data be_mask : Z) : res pci_device_config :=
  let bar_idx := u32 (reg_num - 4) in
  if 1 <? bar_idx then Done d
  else
    let t := dc_type0 d in
    let bar := t0_bar t in
    let put bar := {| d with dc_type0 := {| t with t0_bar := bar |} |} in
    if (data =? 0xFFFFFFFF) && (be_mask =? 0xFFFFFFFF) then
      if 31 <=? dc_log_bar_size d then Crash Undefined
      else
        let bar_size := Z.shiftl 1 (dc_log_bar_size d) in
        let mask := u32 (Z.lnot (u32 (bar_size - 1))) in
        if bar_idx =? 0 then
          Done (put (<[0%nat := Z.lor (Z.lor (Z.lor (Z.land mask 0xFFFFFFFF) BAR_ENCODING_MEM_SPACE) BAR_MEM_TYPE_64_BIT) BAR_MEM_PREFETCHABLE]> bar))
        else Done (put (<[1%nat := Z.land (Z.shiftr mask 32) 0xFFFFFFFF]> bar))
    else if be_mask =? 0 then Done d
    else
      let v := Z.land data be_mask in
      if bar_idx =? 0 then
        Done (put (<[0%nat := Z.lor (Z.land v 0xFFFFFFF0) (Z.lor (Z.lor BAR_ENCODING_MEM_SPACE BAR_MEM_TYPE_64_BIT) BAR_MEM_PREFETCHABLE)]> bar))
      else Done (put (<[1%nat := v]> bar)).

Definition handle_type0_config_write d (reg_num data be_mask : Z) : res pci_device_config :=
  if reg_num =? 1 then Done (config_space_type0_write_reg1 d data be_mask)
  else if in_case 4 9 reg_num then config_space_type0_write_bar d reg_num data be_mask
  else Done d.

Definition config_space_type1_write_reg1 d (data be_mask : Z) : pci_device_config :=
  let t := dc_type1 d in
  {| d with dc_type1 := {| t with t1_command := command_write (lo16 be_mask) (lo16 data) (t1_command t);
                                  t1_status := status_write (hi16 be_mask) (hi16 data) (t1_status t) |} |}.
Definition config_space_type1_write_reg3 d (data be_mask : Z) : pci_device_config :=
  let t := dc_type1 d in
  {| d with dc_type1 := {| t with
     t1_cache_line_size := if reg_byte 0 be_mask =? 0 then t1_cache_line_size t else reg_byte 0 data;
     t1_latency_timer := if reg_byte 1 be_mask =? 0 then t1_latency_timer t else reg_byte 1 data |} |}.
Definition config_space_type1_write_reg6 d (data be_mask : Z) : pci_device_config :=
  let t := dc_type1 d in
  {| d with dc_type1 := {| t with
     t1_primary_bus := if reg_byte 0 be_mask =? 0 then t1_primary_bus t else reg_byte 0 data;
     t1_secondary_bus := if reg_byte 1 be_mask =? 0 then t1_secondary_bus t else reg_byte 1 data;
     t1_subordinate_bus := if reg_byte 2 be_mask =? 0 then t1_subordinate_bus t else reg_byte 2 data;
     t1_secondary_latency := if reg_byte 3 be_mask =? 0 then t1_secondary_latency t else reg_byte 3 data |} |}.
Definition config_space_type1_write_reg8 d (data be_mask : Z) : pci_device_config :=
  let t := dc_type1 d in
  {| d with dc_type1 := {| t with
     t1_memory_base := if lo16 be_mask =? 0 then t1_memory_base t else Z.land (lo16 data) 0xFFF0;
     t1_memory_limit := if hi16 be_mask =? 0 then t1_memory_limit t else Z.land (hi16 data) 0xFFF0 |} |}.
Definition config_space_type1_write_reg9 d (data be_mask : Z) : pci_device_config :=
  let t := dc_type1 d in
  {| d with dc_type1 := {| t with
     t1_pre_memory_base := if lo16 be_mask =? 0 then t1_pre_memory_base t else Z.land (lo16 data) 0xFFF0;
     t1_pre_memory_limit := if hi16 be_mask =? 0 then t1_pre_memory_limit t else Z.land (hi16 data) 0xFFF0 |} |}.
Definition config_space_type1_write_reg15 d (data be_mask : Z) : pci_device_config :=
  let t := dc_type1 d in
  {| d with dc_type1 := {| t with
     t1_interrupt_line := if reg_byte 0 be_mask =? 0 then t1_interrupt_line t else reg_byte 0 data;
     t1_interrupt_pin := if reg_byte 1 be_mask =? 0 then t1_interrupt_pin t else reg_byte 1 data;
     t1_bridge_control := if hi16 be_mask =? 0 then t1_bridge_control t
                          else Z.lor (Z.ldiff (t1_bridge_control t) 0x0041) (Z.land (hi16 data) 0x0041) |} |}.

Definition handle_type1_config_write d (reg_num data be_mask : Z) : pci_device_config :=
  let t := dc_type1 d in
  match reg_num with
  | 1 => config_space_type1_write_reg1 d data be_mask
  | 3 => config_space_type1_write_reg3 d data be_mask
  | 6 => config_space_type1_write_reg6 d data be_mask
  | 8 => config_space_type1_write_reg8 d data be_mask
  | 9 => config_space_type1_write_reg9 d data be_mask
  | 10 => if be_mask =? 0 then d else {| d with dc_type1 := {| t with t1_pre_memory_base_upper_32bit := data |} |}
  | 11 => if be_mask =? 0 then d else {| d with dc_type1 := {| t with t1_pre_memory_limit_upper_32bit := data |} |}
  | 15 => config_space_type1_write_reg15 d data be_mask
  | _ => d
  end.

Definition config_space_cap_msi_write (cap_offset write_data be_mask : Z) d : pci_device_config :=
  let m := dc_msi d in
  match cap_offset with
  | 0 => {| d with dc_msi := {| m with msi_message_control :=
            if Z.land be_mask 0xFFFF0000 =? 0 then msi_message_control m else Z.land (Z.shiftr write_data 16) 0xFFFF |} |}
  | 1 => {| d with dc_msi := {| m with msi_address_low := write_data |} |}
  | 2 => {| d with dc_msi := {| m with msi_address_high := write_data |} |}
  | 3 => {| d with dc_msi := {| m with msi_message_data :=
            if Z.land be_mask 0x03 =? 0 then msi_message_data m else Z.land write_data 0xFFFF |} |}
  | 4 => {| d with dc_msi := {| m with msi_mask_bits := write_data |} |}
  | _ => d
  end.

(** The link status after a write to slot control: the link of a bridge follows the power. *)
Definition slot_link (is_bridge : bool) (old_control new_control slot_status link_status : Z) : Z :=
  if is_bridge then
    let device_present := negb (Z.land slot_status SLOT_STS_PRESENCE_DETECT_STATE =? 0) in
    let old_power_off := negb (Z.land old_control SLOT_CTRL_POWER_CONTROLLER =? 0) in
    let new_power_off := negb (Z.land new_control SLOT_CTRL_POWER_CONTROLLER =? 0) in
    if old_power_off && negb new_power_off && device_present then Z.lor link_status LINK_STS_DL_ACTIVE
    else if negb old_power_off && new_power_off then Z.ldiff link_status LINK_STS_DL_ACTIVE
    else link_status
  else link_status.

(** Slot control and status, and the link; whether Command Completed is to be triggered. *)
Definition slot_write (write_data be_mask : Z) d : bool * pci_device_config :=
  let x := dc_express d in
  let control := negb (Z.land be_mask 0x0000FFFF =? 0) in
  let new_control := Z.land write_data 0xFFFF in
  (control && dc_is_bridge d,
   {| d with dc_express := {| x with
      xp_slot_control := if control then new_control else xp_slot_control x;
      xp_link_status := if control then slot_link (dc_is_bridge d) (xp_slot_control x) new_control (xp_slot_status x) (xp_link_status x)
                        else xp_link_status x;
      xp_slot_status := if Z.land be_mask 0xFFFF0000 =? 0 then xp_slot_status x
                        else Z.ldiff (xp_slot_status x) (Z.land (Z.shiftr write_data 16) 0xFFFF) |} |}).

Definition config_space_cap_pcie_write (cap_offset write_data be_mask : Z) d : bool * pci_device_config :=
  let x := dc_express d in
  match cap_offset with
  | 6 => slot_write write_data be_mask d
  | 2 => (false, {| d with dc_express := {| x with xp_dev_control :=
                    if Z.land be_mask 0x0000FFFF =? 0 then xp_dev_control x else Z.land write_data 0xFFFF |} |})
  | 4 => (false, {| d with dc_express := {| x with xp_link_control :=
                    if Z.land be_mask 0x0000FFFF =? 0 then xp_link_control x else Z.land write_data 0xFFFF |} |})
  | _ => (false, d)
  end.

(** Whether Command Completed is to be triggered, the device and the identifier of the capability. *)
Definition bridge_caps_write (reg_num cfg_write_data be_mask : Z) (d : pci_device_config) (cap_id : Z) : bool * pci_device_config * Z :=
  if in_cap TLP_CAP_EXPRESS_REG_NUM TLP_CAP_EXPRESS_LEN_DW reg_num then
    let '(trigger, d) := config_space_cap_pcie_write (u32 (reg_num - TLP_CAP_EXPRESS_REG_NUM)) cfg_write_data be_mask d in
    (trigger, d, TLP_PCI_CAP_ID_EXPRESS)
  else if in_cap TLP_CAP_VPD_REG_NUM TLP_CAP_VPD_LEN_DW reg_num then (false, d, TLP_PCI_CAP_ID_VPD)
  else if in_cap TLP_CAP_MSIX_REG_NUM TLP_CAP_MSIX_LEN_DW reg_num then (false, d, TLP_PCI_CAP_ID_MSIX)
  else if in_cap TLP_CAP_MSI_REG_NUM TLP_CAP_MSI_LEN_DW reg_num then
    (false, config_space_cap_msi_write (u32 (reg_num - TLP_CAP_MSI_REG_NUM)) cfg_write_data be_mask d, TLP_PCI_CAP_ID_MSI)
  else if in_cap TLP_CAP_PM_REG_NUM TLP_CAP_PM_LEN_DW reg_num then (false, d, TLP_PCI_CAP_ID_PM)
  else (false, d, cap_id).

End Writes.

(** ** The switches of the request handlers *)

(** Identifier of the capability, whether it is valid, whether it is a PCIe capability. *)
Definition bridge_read_switch (ext_reg_num : Z) (d : pci_device_config) : res (Z * (Z * bool * bool)) :=
  if in_case 0 15 ext_reg_num then
    data ← (if dc_is_bridge d then Done (handle_config_space_header_read_type1 ext_reg_num d)
            else handle_config_space_header_read_type0 ext_reg_num d);
    Done (data, (0, false, false))
  else if in_case 16 63 ext_reg_num then
    let '(data, cap_id) := bridge_caps_read ext_reg_num d 0 in Done (data, (cap_id, true, false))
  else Done (0, (0, false, false)).

(** The device, the same three, and whether Command Completed is to be triggered. *)
Definition bridge_write_switch (ext_reg_num write_data be_mask : Z) (d : pci_device_config) :
    res (pci_device_config * (Z * bool * bool) * bool) :=
  if in_case 0 15 ext_reg_num then
    d ← (if dc_is_bridge d then Done (handle_type1_config_write d ext_reg_num write_data be_mask)
         else handle_type0_config_write d ext_reg_num write_data be_mask);
    Done (d, (0, false, false), false)
  else if in_case 16 63 ext_reg_num then
    let '(trigger, d, cap_id) := bridge_caps_write ext_reg_num write_data be_mask d 0 in Done (d, (cap_id, true, false), trigger)
  else Done (d, (0, false, false), false).

(** ** The registers as the host sees them *)

Definition header0_image (d : pci_device_config) : list Z :=
  [config_space_type0_read_reg0 d; config_space_type0_read_reg1 d; config_space_type0_read_reg2 d; config_space_type0_read_reg3 d]
  ++ t0_bar (dc_type0 d) ++
  [0; config_space_type0_read_reg11 d; config_space_type0_read_reg12 d; config_space_type0_read_reg13 d; 0; config_space_type0_read_reg15 d].
Definition header1_image (d : pci_device_config) : list Z :=
  [config_space_type1_read_reg0 d; config_space_type1_read_reg1 d; config_space_type1_read_reg2 d; config_space_type1_read_reg3 d; 0; 0;
   config_space_type1_read_reg6 d; config_space_type1_read_reg7 d; config_space_type1_read_reg8 d; config_space_type1_read_reg9 d;
   config_space_type1_read_reg10 d; config_space_type1_read_reg11 d; config_space_type1_read_reg12 d; config_space_type1_read_reg13 d;
   config_space_type1_read_reg14 d; config_space_type1_read_reg15 d].
(** The last two registers of the MSI capability are behind the PCI Express capability. *)
Definition caps_image (d : pci_device_config) : list Z :=
  (bridge_cap_pm_read d <$> idx 2) ++ (bridge_cap_vpd_read d <$> idx 2) ++ (config_space_cap_msi_read d <$> idx 4) ++
  (bridge_cap_pcie_read d <$> idx 15) ++ (bridge_cap_msix_read d <$> idx 3).
Definition bridge_image (d : pci_device_config) : list Z :=
  (if dc_is_bridge d then header1_image d else header0_image d) ++ caps_image d.

Lemma bridge_read_image d reg : length (t0_bar (dc_type0 d)) = 6%nat -> 0 <= reg < 1024 ->
  exists cap, bridge_read_switch reg d = Done (default 0 (bridge_image d !! Z.to_nat reg), cap).
Proof.
  intros Hl Hr. unfold bridge_read_switch, bridge_image.
  assert (length (if dc_is_bridge d then header1_image d else header0_image d) = 16%nat) as Hh.
  { destruct (dc_is_bridge d); [done|]. unfold header0_image. rewrite !length_app, Hl. done. }
  destruct (in_case 0 15 reg) eqn:E0.
  - assert (0 <= reg < Z.of_nat 16) as Hc by (unfold in_case in E0; lia). exists (0, false, false).
    rewrite lookup_app_l by lia. destruct (dc_is_bridge d).
    + clear E0 Hr. revert reg Hc. apply (upto_cases 16). cbn [seq fmap list_fmap]. repeat apply List.Forall_cons; try apply List.Forall_nil; reflexivity.
    + destruct (t0_bar (dc_type0 d)) as [|b0 [|b1 [|b2 [|b3 [|b4 [|b5 [|]]]]]]] eqn:Eb; try done.
      unfold handle_config_space_header_read_type0, header0_image, config_space_type0_read_bar. rewrite Eb.
      clear E0 Hr. revert reg Hc. apply (upto_cases 16). cbn [seq fmap list_fmap].
      repeat apply List.Forall_cons; try apply List.Forall_nil; reflexivity.
  - destruct (in_case 16 63 reg) eqn:E1.
    + rewrite lookup_app_r by (unfold in_case in E0; lia). rewrite Hh.
      assert (exists k, reg = 16 + k /\ 0 <= k < Z.of_nat 48) as (k & -> & Hk) by (exists (reg - 16); unfold in_case in E1; lia).
      replace (Z.to_nat (16 + k) - 16)%nat with (Z.to_nat k) by lia. clear - Hk.
      revert k Hk. apply (upto_cases 48). cbn [seq fmap list_fmap].
      repeat apply List.Forall_cons; try apply List.Forall_nil; eexists; reflexivity.
    + exists (0, false, false). rewrite lookup_ge_None_2; [done|]. rewrite length_app, Hh. change (length (caps_image d)) with 26%nat.
      unfold in_case in *. lia.
Qed.

(** ** Types of the registers *)

(** The registers with their widths. *)
Definition dev_regs (d : pci_device_config) : list (Z * Z) :=
  let t0 := dc_type0 d in let t1 := dc_type1 d in let x := dc_express d in
  let m := dc_msi d in let mx := dc_msix d in let v := dc_vpd d in let p := dc_pm d in
  [(16, t0_vendor_id t0); (16, t0_device_id t0); (16, t0_command t0); (16, t0_status t0); (8, t0_revision_id t0); (24, t0_class_code t0);
   (8, t0_cache_line_size t0); (8, t0_latency_timer t0); (8, t0_header_type t0); (8, t0_bist t0);
   (16, t0_subsystem_vendor_id t0); (16, t0_subsystem_id t0); (32, t0_exp_rom_base_addr t0); (8, t0_cap_ptr t0);
   (8, t0_interrupt_line t0); (8, t0_interrupt_pin t0); (8, t0_min_grant t0); (8, t0_max_latency t0);
   (16, t1_vendor_id t1); (16, t1_device_id t1); (16, t1_command t1); (16, t1_status t1); (8, t1_revision_id t1); (24, t1_class_code t1);
   (8, t1_cache_line_size t1); (8, t1_latency_timer t1); (8, t1_header_type t1); (8, t1_bist t1);
   (8, t1_primary_bus t1); (8, t1_secondary_bus t1); (8, t1_subordinate_bus t1); (8, t1_secondary_latency t1);
   (8, t1_io_base t1); (8, t1_io_limit t1); (16, t1_secondary_status t1); (16, t1_memory_base t1); (16, t1_memory_limit t1);
   (16, t1_pre_memory_base t1); (16, t1_pre_memory_limit t1); (32, t1_pre_memory_base_upper_32bit t1);
   (32, t1_pre_memory_limit_upper_32bit t1); (16, t1_io_base_upper_16bit t1); (16, t1_io_limit_upper_16bit t1); (8, t1_cap_ptr t1);
   (32, t1_exp_rom_base_addr t1); (8, t1_interrupt_line t1); (8, t1_interrupt_pin t1); (16, t1_bridge_control t1);
   (8, xp_cap_id x); (8, xp_next_cap_ptr x); (16, xp_pcie_cap_register x); (32, xp_dev_capabilities x); (16, xp_dev_control x);
   (16, xp_dev_status x); (32, xp_link_capabilities x); (16, xp_link_control x); (16, xp_link_status x); (32, xp_slot_capabilities x);
   (16, xp_slot_control x); (16, xp_slot_status x); (16, xp_root_control x); (16, xp_root_capabilities x); (32, xp_root_status x);
   (32, xp_dev_capabilities2 x); (16, xp_dev_control2 x); (16, xp_dev_status2 x); (32, xp_link_capabilities2 x);
   (16, xp_link_control2 x); (16, xp_link_status2 x); (32, xp_slot_capabilities2 x); (16, xp_slot_control2 x); (16, xp_slot_status2 x);
   (8, msi_cap_id m); (8, msi_next_cap_ptr m); (16, msi_message_control m); (32, msi_address_low m); (32, msi_address_high m);
   (16, msi_message_data m); (16, msi_reserved m); (32, msi_mask_bits m); (32, msi_pending_bits m);
   (8, msix_cap_id mx); (8, msix_next_cap_ptr mx); (16, msix_message_control mx); (32, msix_table_offset mx); (32, msix_pba_offset mx);
   (8, vpdc_cap_id v); (8, vpdc_next_cap_ptr v); (16, vpdc_addr_register v); (32, vpdc_data_register v);
   (8, pmc_cap_id p); (8, pmc_next_cap_ptr p); (16, pmc_pmc p); (16, pmc_pmcsr p); (8, pmc_reserved p); (8, pmc_data p)].

Record regs_ok (d : pci_device_config) : Prop := {
  rk_regs : Forall (fun r => in_width r.1 r.2) (dev_regs d);
  rk_bars : length (t0_bar (dc_type0 d)) = 6%nat;
  rk_bar : Forall (in_width 32) (t0_bar (dc_type0 d));
  rk_window : Z.land (t1_memory_base (dc_type1 d)) 0xFFF0 = t1_memory_base (dc_type1 d) /\
              Z.land (t1_memory_limit (dc_type1 d)) 0xFFF0 = t1_memory_limit (dc_type1 d);
}.

(** The width of one register. *)
Lemma reg_width d n w x : regs_ok d -> dev_regs d !! n = Some (w, x) -> in_width w x.
Proof. intros H E. pose proof (rk_regs d H) as Hall. rewrite list.Forall_lookup in Hall. by apply (Hall n (w, x)). Qed.

(** *** What a write does to a register *)

(** Some byte of a half is enabled. *)
Definition low_on (m : Z) : bool := negb (lo16 m =? 0).
Definition high_on (m : Z) : bool := negb (hi16 m =? 0).
Definition when (b : bool) (x : Z) : Z := if b then x else 0.

(** The bits that take the data and the bits that ones clear, for a write with the byte mask [m]: the
    bytes that are enabled where the code looks at them one by one, otherwise whole fields. *)
Definition bridge_access (is_bridge : bool) (reg m : Z) : Z * Z :=
  if in_case 0 15 reg then
    if reg =? 1 then (Z.land m 0x0546, Z.land m 0xF9000000)
    else if negb is_bridge then (0, 0)
    else match reg with
    | 3 => (Z.land m 0x0000FFFF, 0)
    | 6 => (m, 0)
    | 8 | 9 => (Z.lor (when (low_on m) 0xFFF0) (when (high_on m) 0xFFF00000), 0)
    | 10 | 11 => (when (negb (m =? 0)) 0xFFFFFFFF, 0)
    | 15 => (Z.lor (Z.land m 0xFFFF) (when (high_on m) 0x00410000), 0)
    | _ => (0, 0)
    end
  else match reg with
  | 20 => (when (high_on m) 0xFFFF0000, 0)
  | 21 | 22 => (0xFFFFFFFF, 0)
  | 23 => (when (negb (Z.land m 3 =? 0)) 0xFFFF, 0)
  | 26 | 28 => (when (low_on m) 0xFFFF, 0)
  | 30 => (when (low_on m) 0xFFFF, when (high_on m) 0xFFFF0000)
  | _ => (0, 0)
  end.

#[global] Arguments bridge_access : simpl never.

(** A base address register after a write: the size when all ones are written, else the enabled bytes of
    the data, with zeros in the others. *)
Definition bar_after (log_size reg m data old : Z) : Z :=
  let flags x := if reg =? 4 then Z.lor (Z.land x 0xFFFFFFF0) 0xC else x in
  if (data =? 0xFFFFFFFF) && (m =? 0xFFFFFFFF) then if reg =? 4 then Z.lor (2 ^ 32 - 2 ^ log_size) 0xC else 0
  else if m =? 0 then old else flags (Z.land data m).

Definition reg_after (d : pci_device_config) (reg m data old : Z) : Z :=
  if negb (dc_is_bridge d) && in_case 4 5 reg then bar_after (dc_log_bar_size d) reg m data old
  else let '(set, clear) := bridge_access (dc_is_bridge d) reg m in mix set data (Z.ldiff old (Z.land data clear)).

(** The link of a bridge follows the power of its slot, if an endpoint is there. *)
Definition link_after (d : pci_device_config) (reg m data : Z) : Z :=
  let x := dc_express d in
  let off c := Z.testbit c 10 in
  if (reg =? 30) && low_on m && dc_is_bridge d then
    if off (xp_slot_control x) && negb (off data) && Z.testbit (xp_slot_status x) 6 then Z.lor (xp_link_status x) LINK_STS_DL_ACTIVE
    else if negb (off (xp_slot_control x)) && off data then Z.ldiff (xp_link_status x) LINK_STS_DL_ACTIVE
    else xp_link_status x
  else xp_link_status x.

(** The registers of [d'] are those of [d], with [reg] and the link status written. *)
Definition written_image (d : pci_device_config) (reg m data : Z) : list Z :=
  let im := bridge_image d in
  let im := <[28%nat := dw16 (link_after d reg m data) (xp_link_control (dc_express d))]> im in
  <[Z.to_nat reg := reg_after d reg m data (default 0 (im !! Z.to_nat reg))]> im.


(** ** The image after a write *)

Lemma header_length d : regs_ok d -> length (if dc_is_bridge d then header1_image d else header0_image d) = 16%nat.
Proof. intros H. destruct (dc_is_bridge d); [done|]. unfold header0_image. by rewrite !length_app, (rk_bars d H). Qed.
Lemma image_28 d : regs_ok d -> bridge_image d !! 28%nat = Some (dw16 (xp_link_status (dc_express d)) (xp_link_control (dc_express d))).
Proof. intros H. pose proof (header_length d H) as Hl. unfold bridge_image. rewrite lookup_app_r by lia. by rewrite Hl. Qed.

Lemma written_plain d reg m data : regs_ok d -> link_after d reg m data = xp_link_status (dc_express d) ->
  written_image d reg m data = <[Z.to_nat reg := reg_after d reg m data (default 0 (bridge_image d !! Z.to_nat reg))]> (bridge_image d).
Proof.
  intros H E. unfold written_image. cbv zeta. rewrite E.
  by rewrite (list_insert_id (bridge_image d) 28 _ (image_28 d H)).
Qed.
Lemma link_other d reg m data : reg <> 30 -> link_after d reg m data = xp_link_status (dc_express d).
Proof. intros H. unfold link_after. by destruct (Z.eqb_spec reg 30). Qed.

Lemma mix_none data x : mix 0 data (Z.ldiff x (Z.land data 0)) = x.
Proof. by rewrite mix_0, Z.land_0_r, Z.ldiff_0_r. Qed.

(** A register that no write changes. *)
Lemma written_ro d reg m data : regs_ok d -> reg <> 30 -> bridge_access (dc_is_bridge d) reg m = (0, 0) ->
  negb (dc_is_bridge d) && in_case 4 5 reg = false -> written_image d reg m data = bridge_image d.
Proof.
  intros H Hr Ha Hb. rewrite written_plain by first [exact H | exact (link_other d reg m data Hr)]. unfold reg_after. rewrite Hb, Ha, mix_none.
  destruct (bridge_image d !! Z.to_nat reg) as [x|] eqn:E; cbn [default]; [by rewrite list_insert_id|].
  apply list_insert_ge. by apply lookup_ge_None.
Qed.

(** The image after a write that changes register [k] to [v]. *)
Lemma image_step d d' (k : Z) m data old v : regs_ok d -> k <> 30 -> bridge_image d !! Z.to_nat k = Some old ->
  bridge_image d' = <[Z.to_nat k := v]> (bridge_image d) -> v = reg_after d k m data old -> bridge_image d' = written_image d k m data.
Proof. intros H Hk Eo E Ev. rewrite written_plain, E, Ev, Eo by first [exact H | by apply link_other]. done. Qed.

(** The masks of byte enables one by one. *)
Lemma be_masks (P : Z -> Prop) : Forall P [0x00000000; 0x000000FF; 0x0000FF00; 0x0000FFFF; 0x00FF0000; 0x00FF00FF; 0x00FFFF00; 0x00FFFFFF;
    0xFF000000; 0xFF0000FF; 0xFF00FF00; 0xFF00FFFF; 0xFFFF0000; 0xFFFF00FF; 0xFFFFFF00; 0xFFFFFFFF] ->
  forall be m, 0 <= be < 16 -> map_first_dw_be_to_mask be = Done m -> P m.
Proof.
  intros H be m Hbe Hm. rewrite list.Forall_lookup in H. apply (H (Z.to_nat be)). clear H. change 16 with (Z.of_nat 16) in Hbe. revert be Hbe Hm.
  refine (upto_cases 16 (fun be => map_first_dw_be_to_mask be = Done m -> _ !! Z.to_nat be = Some m) _).
  cbn [seq fmap list_fmap]. repeat apply List.Forall_cons; try apply List.Forall_nil; by intros [= <-].
Qed.
Ltac be_cases be m Hbe Hm := revert be m Hbe Hm; apply be_masks; repeat apply List.Forall_cons; try apply List.Forall_nil.
Ltac conds := repeat match goal with |- context [if ?b then _ else _] =>
  let v := eval vm_compute in b in
  lazymatch v with true => change b with true | false => change b with false end; cbv iota end.
(** Equality of register values, for a mask that is a number. *)
Ltac reg_eq :=
  try match goal with |- context [bridge_access ?b ?k ?m] =>
    let v := eval vm_compute in (bridge_access b k m) in change (bridge_access b k m) with v end;
  cbv [dw16 dw8 u32 uwrap mix lo16 hi16 reg_byte]; conds; cbn [Z.mul Pos.mul]; bits_eq.

Section Header1.
Context (d : pci_device_config) (Hd : regs_ok d) (Hb : dc_is_bridge d = true).

Lemma t1_image_step d' (k : Z) m data old v : k <> 30 -> dc_is_bridge d' = true ->
  (header1_image d ++ caps_image d) !! Z.to_nat k = Some old ->
  header1_image d' ++ caps_image d' = <[Z.to_nat k := v]> (header1_image d ++ caps_image d) ->
  v = (let '(set, clear) := bridge_access true k m in mix set data (Z.ldiff old (Z.land data clear))) ->
  bridge_image d' = written_image d k m data.
Proof.
  intros Hk Hb' Eo E Ev. apply (image_step d d' k m data old v Hd Hk); unfold bridge_image, reg_after; rewrite Hb, ?Hb'; done.
Qed.

Context (be m data : Z) (Hdata : in_width 32 data) (Hbe : 0 <= be < 16) (Hm : map_first_dw_be_to_mask be = Done m).

Lemma t1_reg1 : bridge_image (config_space_type1_write_reg1 d data m) = written_image d 1 m data.
Proof.
  pose proof (reg_width d 20 16 _ Hd eq_refl). pose proof (reg_width d 21 16 _ Hd eq_refl).
  eapply t1_image_step; [done|done|reflexivity..|].
  unfold config_space_type1_read_reg1. cbn [t1_status t1_command config_space_type1_write_reg1 dc_type1].
  rewrite command_write_mix, status_write_ldiff. be_cases be m Hbe Hm; reg_eq.
Qed.

Ltac t1_reg read := cbv zeta; (eapply t1_image_step; [done|done|reflexivity..|]); unfold read; cbn; be_cases be m Hbe Hm; reg_eq.

Lemma t1_reg3 : bridge_image (config_space_type1_write_reg3 d data m) = written_image d 3 m data.
Proof.
  pose proof (reg_width d 24 8 _ Hd eq_refl). pose proof (reg_width d 25 8 _ Hd eq_refl).
  pose proof (reg_width d 26 8 _ Hd eq_refl). pose proof (reg_width d 27 8 _ Hd eq_refl).
  unfold config_space_type1_write_reg3. t1_reg config_space_type1_read_reg3.
Qed.
Lemma t1_reg6 : bridge_image (config_space_type1_write_reg6 d data m) = written_image d 6 m data.
Proof.
  pose proof (reg_width d 28 8 _ Hd eq_refl). pose proof (reg_width d 29 8 _ Hd eq_refl).
  pose proof (reg_width d 30 8 _ Hd eq_refl). pose proof (reg_width d 31 8 _ Hd eq_refl).
  unfold config_space_type1_write_reg6. t1_reg config_space_type1_read_reg6.
Qed.
Lemma t1_reg8 : bridge_image (config_space_type1_write_reg8 d data m) = written_image d 8 m data.
Proof.
  pose proof (reg_width d 35 16 _ Hd eq_refl). pose proof (reg_width d 36 16 _ Hd eq_refl). destruct (rk_window d Hd) as [W1 W2].
  unfold config_space_type1_write_reg8. cbv zeta. (eapply t1_image_step; [done|done|reflexivity..|]). unfold config_space_type1_read_reg8. cbn.
  rewrite <- W1, <- W2. be_cases be m Hbe Hm; reg_eq.
Qed.
Lemma t1_reg9 : bridge_image (config_space_type1_write_reg9 d data m) = written_image d 9 m data.
Proof.
  pose proof (reg_width d 37 16 _ Hd eq_refl). pose proof (reg_width d 38 16 _ Hd eq_refl).
  unfold config_space_type1_write_reg9. t1_reg config_space_type1_read_reg9.
Qed.
Lemma t1_reg15 : bridge_image (config_space_type1_write_reg15 d data m) = written_image d 15 m data.
Proof.
  pose proof (reg_width d 45 8 _ Hd eq_refl). pose proof (reg_width d 46 8 _ Hd eq_refl). pose proof (reg_width d 47 16 _ Hd eq_refl).
  unfold config_space_type1_write_reg15. t1_reg config_space_type1_read_reg15.
Qed.

Lemma t1_write_image reg : 0 <= reg < 16 -> bridge_image (handle_type1_config_write d reg data m) = written_image d reg m data.
Proof.
  intros Hr. assert (reg ∈ [1; 3; 6; 8; 9; 10; 11; 15] \/ reg ∈ [0; 2; 4; 5; 7; 12; 13; 14]) as [Hin|Hro].
  { rewrite !elem_of_cons. lia. }
  - rewrite !elem_of_cons, elem_of_nil in Hin.
    destruct Hin as [->|[->|[->|[->|[->|[->|[->|[->|[]]]]]]]]]; cbn [handle_type1_config_write];
      [apply t1_reg1|apply t1_reg3|apply t1_reg6|apply t1_reg8|apply t1_reg9| | |apply t1_reg15].
    + pose proof (reg_width d 39 32 _ Hd eq_refl). destruct (Z.eqb_spec m 0) as [->|Hm0].
      { symmetry. apply written_ro; rewrite ?Hb; done. }
      eapply t1_image_step; [done|done|reflexivity..|]. unfold config_space_type1_read_reg10. cbn.
      assert (bridge_access true 10 m = (0xFFFFFFFF, 0)) as -> by (cbv [bridge_access]; cbn; by destruct (Z.eqb_spec m 0)). reg_eq.
    + pose proof (reg_width d 40 32 _ Hd eq_refl). destruct (Z.eqb_spec m 0) as [->|Hm0].
      { symmetry. apply written_ro; rewrite ?Hb; done. }
      eapply t1_image_step; [done|done|reflexivity..|]. unfold config_space_type1_read_reg11. cbn.
      assert (bridge_access true 11 m = (0xFFFFFFFF, 0)) as -> by (cbv [bridge_access]; cbn; by destruct (Z.eqb_spec m 0)). reg_eq.
  - assert (bridge_access true reg m = (0, 0) /\ handle_type1_config_write d reg data m = d /\ reg <> 30) as (Ea & -> & Hne).
    { rewrite !elem_of_cons, elem_of_nil in Hro. by destruct Hro as [->|[->|[->|[->|[->|[->|[->|[->|[]]]]]]]]]. }
    symmetry. apply written_ro; rewrite ?Hb; done.
Qed.
End Header1.

Section Header0.
Context (d : pci_device_config) (Hd : regs_ok d) (Hb : dc_is_bridge d = false) (Hsize : 0 <= dc_log_bar_size d < 31).
Context (be m data : Z) (Hdata : in_width 32 data) (Hbe : 0 <= be < 16) (Hm : map_first_dw_be_to_mask be = Done m).

Lemma t0_reg1 : bridge_image (config_space_type0_write_reg1 d data m) = written_image d 1 m data.
Proof.
  pose proof (reg_width d 2 16 _ Hd eq_refl). pose proof (reg_width d 3 16 _ Hd eq_refl).
  eapply (image_step d _ 1); [exact Hd|done|unfold bridge_image; by rewrite Hb| |].
  - unfold bridge_image. rewrite Hb. cbn [config_space_type0_write_reg1 dc_is_bridge]. rewrite Hb. reflexivity.
  - unfold reg_after, config_space_type0_read_reg1. rewrite Hb. cbn [t0_status t0_command config_space_type0_write_reg1 dc_type0 negb andb].
    change (in_case 4 5 1) with false. cbv iota. rewrite command_write_mix, status_write_ldiff. be_cases be m Hbe Hm; reg_eq.
Qed.

(** The image with other base address registers. *)
Lemma bar_image bar : length bar = 6%nat ->
  let t := dc_type0 d in forall k v, t0_bar t !! k = Some v -> forall v', bar = <[k := v']> (t0_bar t) ->
  bridge_image {| d with dc_type0 := {| t with t0_bar := bar |} |} = <[(4 + k)%nat := v']> (bridge_image d) /\ bridge_image d !! (4 + k)%nat = Some v.
Proof.
  intros Hl t k v Ek v' ->. unfold bridge_image. cbn [dc_is_bridge]. rewrite Hb. unfold header0_image. cbn [dc_type0 t0_bar].
  assert (k < length (t0_bar t))%nat as Hk by (by eapply lookup_lt_Some).
  rewrite <- !app_assoc. split; [|exact (eq_trans (lookup_app_l _ _ _ Hk) Ek)].
  exact (f_equal (fun l => _ :: _ :: _ :: _ :: l) (eq_sym (insert_app_l _ _ _ _ Hk))).
Qed.

(** The size that a base address register shows. *)
Lemma bar_size_mask : u32 (Z.lnot (u32 (Z.shiftl 1 (dc_log_bar_size d) - 1))) = 2 ^ 32 - 2 ^ dc_log_bar_size d.
Proof.
  rewrite Z.shiftl_1_l. set (s := dc_log_bar_size d) in *. assert (1 <= 2 ^ s <= 2 ^ 31) as Hs.
  { split; [apply (Z.pow_le_mono_r 2 0); lia|apply Z.pow_le_mono_r; lia]. }
  rewrite (u32_small (2 ^ s - 1)) by lia. unfold Z.lnot. unfold u32, uwrap.
  replace (Z.pred (- (2 ^ s - 1))) with ((2 ^ 32 - 2 ^ s) + (-1) * 2 ^ 32) by lia. rewrite Z.mod_add by lia. apply Z.mod_small. lia.
Qed.

Lemma t0_bar_write reg : reg = 4 \/ reg = 5 ->
  exists d', config_space_type0_write_bar d reg data m = Done d' /\ bridge_image d' = written_image d reg m data.
Proof.
  intros Hr. destruct (list6 _ (rk_bars d Hd)) as (b0 & b1 & b2 & b3 & b4 & b5 & Eb).
  assert (forall k v', (k < 2)%nat -> reg = 4 + Z.of_nat k -> v' = bar_after (dc_log_bar_size d) reg m data (default 0 (bridge_image d !! Z.to_nat reg)) ->
    bridge_image (let t := dc_type0 d in {| d with dc_type0 := {| t with t0_bar := <[k := v']> (t0_bar t) |} |}) = written_image d reg m data) as Hput.
  { intros k v' Hk Er Ev. destruct (lookup_lt_is_Some_2 (t0_bar (dc_type0 d)) k) as [v Ek]; [rewrite Eb; cbn; lia|].
    destruct (bar_image (<[k := v']> (t0_bar (dc_type0 d))) ltac:(by rewrite length_insert, Eb) k v Ek v' eq_refl) as [Ei Eo].
    assert (Z.to_nat reg = (4 + k)%nat) as En by lia.
    eapply (image_step d _ reg m data v v' Hd); [lia|by rewrite En|by rewrite En|]. unfold reg_after. rewrite Hb.
    assert (in_case 4 5 reg = true) as -> by (unfold in_case; lia). cbn [negb andb]. rewrite Ev, En, Eo. done. }
  assert (m = 0 -> bridge_image d = written_image d reg m data) as Hid.
  { intros ->. rewrite written_plain by first [exact Hd | apply link_other; lia]. unfold reg_after, bar_after. rewrite Hb.
    assert (in_case 4 5 reg = true) as -> by (unfold in_case; lia). rewrite andb_false_r. cbn [negb andb Z.eqb].
    destruct (bridge_image d !! Z.to_nat reg) as [x|] eqn:E; cbn; [by rewrite list_insert_id|]. rewrite list_insert_ge; [done|]. by apply lookup_ge_None. }
  unfold config_space_type0_write_bar. assert (u32 (reg - 4) = reg - 4) as -> by (apply u32_small; lia).
  destruct (Z.ltb_spec 1 (reg - 4)); [lia|].
  destruct ((data =? 0xFFFFFFFF) && (m =? 0xFFFFFFFF)) eqn:Esz.
  - destruct (Z.leb_spec 31 (dc_log_bar_size d)); [lia|]. rewrite bar_size_mask.
    assert (0 <= 2 ^ 32 - 2 ^ dc_log_bar_size d < 2 ^ 32) as Hsz.
    { split; [|pose proof (Z.pow_pos_nonneg 2 (dc_log_bar_size d)); lia]. pose proof (Z.pow_le_mono_r 2 (dc_log_bar_size d) 32). lia. }
    destruct Hr as [->| ->]; cbn [Z.sub Z.add Z.opp Z.pos_sub Pos.pred_double Z.eqb Pos.eqb].
    + eexists. split; [reflexivity|]. apply (Hput 0%nat); [lia|done|]. unfold bar_after. rewrite Esz. cbn [Z.eqb Pos.eqb].
      set (x := 2 ^ 32 - 2 ^ dc_log_bar_size d) in *. assert (in_width 32 x) by done. cbv [BAR_ENCODING_MEM_SPACE BAR_MEM_TYPE_64_BIT BAR_MEM_PREFETCHABLE]. bits_eq.
    + eexists. split; [reflexivity|]. apply (Hput 1%nat); [lia|done|]. unfold bar_after. rewrite Esz. cbn [Z.eqb Pos.eqb].
      set (x := 2 ^ 32 - 2 ^ dc_log_bar_size d) in *. assert (in_width 32 x) by done. bits_eq.
  - destruct (Z.eqb_spec m 0) as [Em|Em]; [by eauto|]. assert (in_width 32 m) by (by destruct (be_mask_spec be m Hbe Hm)).
    destruct Hr as [->| ->]; cbn [Z.sub Z.add Z.opp Z.pos_sub Pos.pred_double Z.eqb Pos.eqb].
    + eexists. split; [reflexivity|]. apply (Hput 0%nat); [lia|done|]. unfold bar_after. rewrite Esz. destruct (Z.eqb_spec m 0); [done|].
      cbn [Z.eqb Pos.eqb]. cbv [BAR_ENCODING_MEM_SPACE BAR_MEM_TYPE_64_BIT BAR_MEM_PREFETCHABLE]. bits_eq.
    + eexists. split; [reflexivity|]. apply (Hput 1%nat); [lia|done|]. unfold bar_after. rewrite Esz. by destruct (Z.eqb_spec m 0).
Qed.

Lemma t0_write_image reg : 0 <= reg < 16 ->
  exists d', handle_type0_config_write d reg data m = Done d' /\ bridge_image d' = written_image d reg m data.
Proof.
  intros Hr. unfold handle_type0_config_write. destruct (Z.eqb_spec reg 1) as [->|H1]; [eexists; split; [done|apply t0_reg1]|].
  assert (reg = 4 \/ reg = 5 \/ in_case 4 5 reg = false) as Hc by (unfold in_case; lia).
  destruct Hc as [->|[->|Hc]]; [change (in_case 4 9 4) with true; apply t0_bar_write; auto|change (in_case 4 9 5) with true; apply t0_bar_write; auto|].
  exists d. split.
  - destruct (in_case 4 9 reg) eqn:E; [|done]. unfold config_space_type0_write_bar, in_case in *. rewrite u32_small by lia.
    by destruct (Z.ltb_spec 1 (reg - 4)); [|lia].
  - symmetry. apply written_ro; [exact Hd|lia| |by rewrite Hc, andb_false_r]. rewrite Hb. unfold bridge_access.
    assert (in_case 0 15 reg = true) as -> by (unfold in_case; lia). by destruct (Z.eqb_spec reg 1).
Qed.
End Header0.

Section Caps.
Context (d : pci_device_config) (Hd : regs_ok d).
Context (be m data : Z) (Hdata : in_width 32 data) (Hbe : 0 <= be < 16) (Hm : map_first_dw_be_to_mask be = Done m).

(** A write to the capabilities leaves the header alone. *)
Definition same_header (d' : pci_device_config) : Prop :=
  dc_type0 d' = dc_type0 d /\ dc_type1 d' = dc_type1 d /\ dc_is_bridge d' = dc_is_bridge d.

Lemma caps_split d' : same_header d' ->
  bridge_image d' = (if dc_is_bridge d then header1_image d else header0_image d) ++ caps_image d'.
Proof.
  intros (E0 & E1 & Eb). unfold bridge_image. rewrite Eb. f_equal. unfold header1_image, header0_image,
    config_space_type0_read_reg0, config_space_type0_read_reg1, config_space_type0_read_reg2, config_space_type0_read_reg3,
    config_space_type0_read_reg11, config_space_type0_read_reg12, config_space_type0_read_reg13, config_space_type0_read_reg15,
    config_space_type1_read_reg0, config_space_type1_read_reg1, config_space_type1_read_reg2, config_space_type1_read_reg3,
    config_space_type1_read_reg6, config_space_type1_read_reg7, config_space_type1_read_reg8, config_space_type1_read_reg9,
    config_space_type1_read_reg10, config_space_type1_read_reg11, config_space_type1_read_reg12, config_space_type1_read_reg13,
    config_space_type1_read_reg14, config_space_type1_read_reg15. by rewrite E0, E1.
Qed.
Lemma caps_lookup k : bridge_image d !! (16 + k)%nat = caps_image d !! k.
Proof.
  unfold bridge_image. pose proof (header_length d Hd) as Hl. rewrite lookup_app_r by lia. rewrite Hl.
  by replace (16 + k - 16)%nat with k by lia.
Qed.
Lemma caps_insert k v : <[(16 + k)%nat := v]> (bridge_image d) =
  (if dc_is_bridge d then header1_image d else header0_image d) ++ <[k := v]> (caps_image d).
Proof.
  unfold bridge_image. pose proof (header_length d Hd) as Hl. rewrite insert_app_r_alt by lia. rewrite Hl.
  by replace (16 + k - 16)%nat with k by lia.
Qed.

Lemma caps_step d' (k : nat) old v : same_header d' -> (16 + k <> 30)%nat -> caps_image d !! k = Some old ->
  caps_image d' = <[k := v]> (caps_image d) ->
  v = (let '(set, clear) := bridge_access (dc_is_bridge d) (Z.of_nat (16 + k)) m in mix set data (Z.ldiff old (Z.land data clear))) ->
  bridge_image d' = written_image d (Z.of_nat (16 + k)) m data.
Proof.
  intros Hs Hk Eo E Ev. apply (image_step d d' _ m data old v Hd); [lia|by rewrite Nat2Z.id, caps_lookup| |].
  - by rewrite Nat2Z.id, caps_insert, (caps_split d' Hs), E.
  - unfold reg_after. assert (in_case 4 5 (Z.of_nat (16 + k)) = false) as -> by (unfold in_case; destruct (Z.leb_spec (Z.of_nat (16 + k)) 5); [lia|apply andb_false_r]).
    by rewrite andb_false_r.
Qed.

Ltac caps_reg k := (eapply (caps_step _ k); [done|lia|reflexivity..|]);
  cbv [config_space_cap_msi_read bridge_cap_pcie_read Z.of_nat Pos.of_succ_nat Pos.succ Nat.add]; cbn; be_cases be m Hbe Hm; reg_eq.

Lemma msi_0 : bridge_image (config_space_cap_msi_write 0 data m d) = written_image d 20 m data.
Proof.
  pose proof (reg_width d 72 8 _ Hd eq_refl). pose proof (reg_width d 73 8 _ Hd eq_refl). pose proof (reg_width d 74 16 _ Hd eq_refl).
  caps_reg 4%nat.
Qed.
Lemma msi_1 : bridge_image (config_space_cap_msi_write 1 data m d) = written_image d 21 m data.
Proof. pose proof (reg_width d 75 32 _ Hd eq_refl). caps_reg 5%nat. Qed.
Lemma msi_2 : bridge_image (config_space_cap_msi_write 2 data m d) = written_image d 22 m data.
Proof. pose proof (reg_width d 76 32 _ Hd eq_refl). caps_reg 6%nat. Qed.
Lemma msi_3 : bridge_image (config_space_cap_msi_write 3 data m d) = written_image d 23 m data.
Proof. pose proof (reg_width d 77 16 _ Hd eq_refl). pose proof (reg_width d 78 16 _ Hd eq_refl). caps_reg 7%nat. Qed.
Lemma pcie_2 : bridge_image (config_space_cap_pcie_write 2 data m d).2 = written_image d 26 m data.
Proof. pose proof (reg_width d 52 16 _ Hd eq_refl). pose proof (reg_width d 53 16 _ Hd eq_refl). caps_reg 10%nat. Qed.
Lemma pcie_4 : bridge_image (config_space_cap_pcie_write 4 data m d).2 = written_image d 28 m data.
Proof. pose proof (reg_width d 55 16 _ Hd eq_refl). pose proof (reg_width d 56 16 _ Hd eq_refl). caps_reg 12%nat. Qed.

Lemma slot_link_after : (if negb (Z.land m 0x0000FFFF =? 0)
    then slot_link (dc_is_bridge d) (xp_slot_control (dc_express d)) (Z.land data 0xFFFF) (xp_slot_status (dc_express d)) (xp_link_status (dc_express d))
    else xp_link_status (dc_express d)) = link_after d 30 m data.
Proof.
  unfold link_after, slot_link, low_on, lo16. cbn [Z.eqb Pos.eqb]. destruct (negb (Z.land m 0xFFFF =? 0)); [|done]. cbn [andb].
  destruct (dc_is_bridge d); [|done]. change SLOT_STS_PRESENCE_DETECT_STATE with (2 ^ 6). change SLOT_CTRL_POWER_CONTROLLER with (2 ^ 10).
  rewrite !land_pow2, Z.land_spec by lia. change (Z.testbit 65535 10) with true. rewrite andb_true_r.
  by destruct (Z.testbit (xp_slot_control (dc_express d)) 10), (Z.testbit data 10), (Z.testbit (xp_slot_status (dc_express d)) 6).
Qed.

Lemma pcie_6 : bridge_image (config_space_cap_pcie_write 6 data m d).2 = written_image d 30 m data.
Proof.
  pose proof (reg_width d 58 16 _ Hd eq_refl). pose proof (reg_width d 59 16 _ Hd eq_refl).
  unfold written_image. cbv zeta. change (Z.to_nat 30) with 30%nat. rewrite (list_lookup_insert_ne (bridge_image d) 28 30 _) by done.
  pose proof (caps_lookup 14) as E30. cbn [Nat.add] in E30. rewrite E30.
  match goal with |- context [<[28%nat := ?v]> (bridge_image d)] => pose proof (caps_insert 12 v) as E28 end. cbn [Nat.add] in E28. rewrite E28. clear E28.
  rewrite (caps_split (config_space_cap_pcie_write 6 data m d).2) by done.
  pose proof (header_length d Hd) as Hl. rewrite insert_app_r_alt by lia. rewrite Hl. f_equal. rewrite <- slot_link_after.
  change (30 - 16)%nat with 14%nat. cbn [config_space_cap_pcie_write].
  transitivity (<[14%nat := bridge_cap_pcie_read (slot_write data m d).2 6]> (<[12%nat := bridge_cap_pcie_read (slot_write data m d).2 4]> (caps_image d))); [reflexivity|].
  f_equal. unfold reg_after. change (in_case 4 5 30) with false. rewrite andb_false_r.
  change (default 0 (caps_image d !! 14%nat)) with (dw16 (xp_slot_status (dc_express d)) (xp_slot_control (dc_express d))).
  cbv [bridge_cap_pcie_read slot_write fst snd]. cbn. be_cases be m Hbe Hm; reg_eq.
Qed.

Lemma caps_write_image reg : 16 <= reg < 64 -> bridge_image (bridge_caps_write reg data m d 0).1.2 = written_image d reg m data.
Proof.
  intros Hr. destruct (bool_decide (reg ∈ [20; 21; 22; 23; 26; 28; 30])) eqn:Hro; [apply bool_decide_eq_true in Hro as Hin|].
  - rewrite !elem_of_cons, elem_of_nil in Hin. destruct Hin as [->|[->|[->|[->|[->|[->|[->|[]]]]]]]].
    all: first [exact msi_0|exact msi_1|exact msi_2|exact msi_3|exact pcie_2|exact pcie_4|exact pcie_6].
  - assert (bridge_access (dc_is_bridge d) reg m = (0, 0) /\ (bridge_caps_write reg data m d 0).1.2 = d /\ reg <> 30 /\ in_case 4 5 reg = false)
      as (Ea & -> & Hne & Hc).
    { assert (exists k, reg = 16 + k /\ 0 <= k < Z.of_nat 48) as (k & -> & Hk) by (exists (reg - 16); lia). clear Hr. revert k Hk Hro.
      refine (upto_cases 48 (fun k => bool_decide (16 + k ∈ _) = false -> _) _). cbn [seq fmap list_fmap].
      repeat apply List.Forall_cons; try apply List.Forall_nil; intros Hro; vm_compute in Hro;
        first [discriminate Hro|split; [reflexivity|split; [reflexivity|split; [discriminate|reflexivity]]]]. }
    symmetry. apply written_ro; [exact Hd|done|done|by rewrite Hc, andb_false_r].
Qed.
End Caps.

(** ** Writes keep the types *)

Section Types.
Context (d : pci_device_config) (Hd : regs_ok d).
Context (m data : Z) (Hdata : in_width 32 data).

Lemma regs_insert l n w x : Forall (fun r => in_width r.1 r.2) l -> in_width w x -> Forall (fun r => in_width r.1 r.2) (<[n := (w, x)]> l).
Proof. intros Hl Hx. by apply Forall_insert. Qed.
Lemma reg_byte_width k x : in_width 8 (reg_byte k x).
Proof. apply (land_ones_width 8). lia. Qed.
Lemma hi16_width x : in_width 16 (hi16 x).
Proof. apply (land_ones_width 16). lia. Qed.
Lemma window_land x : Z.land (Z.land x 0xFFF0) 0xFFF0 = Z.land x 0xFFF0.
Proof. by rewrite <- Z.land_assoc. Qed.

(** Types after changes of some registers: those in the list of updates [us]. *)
Lemma regs_updates d' us : dev_regs d' = foldr (fun u l => <[u.1.1 := (u.1.2, u.2)]> l) (dev_regs d) us ->
  Forall (fun u : nat * Z * Z => in_width u.1.2 u.2) us -> t0_bar (dc_type0 d') = t0_bar (dc_type0 d) ->
  t1_memory_base (dc_type1 d') = t1_memory_base (dc_type1 d) -> t1_memory_limit (dc_type1 d') = t1_memory_limit (dc_type1 d) -> regs_ok d'.
Proof.
  intros E Hu Eb E1 E2. destruct Hd as [R1 R2 R3 R4]. split; rewrite ?Eb, ?E1, ?E2; try done. rewrite E. clear E.
  induction Hu as [|[[n w] x] us Hx _ IH]; [done|]. by apply regs_insert.
Qed.

Lemma if_width w (b : bool) x y : in_width w x -> in_width w y -> in_width w (if b then x else y).
Proof. by destruct b. Qed.
Ltac width := repeat lazymatch goal with
  | |- in_width _ (if _ then _ else _) => apply if_width
  | |- in_width _ (reg_byte _ _) => apply reg_byte_width
  | |- in_width _ (lo16 _) => apply lo16_width
  | |- in_width _ (hi16 _) => apply hi16_width
  | |- in_width _ (command_write _ _ _) => apply command_write_width
  | |- in_width _ (status_write _ _ _) => apply status_write_width
  | |- in_width _ (Z.land _ _) => apply land_width; [done|]
  | |- in_width _ (Z.lor _ _) => apply lor_width; [done| |]
  | |- in_width _ (Z.ldiff _ _) => apply ldiff_width; [done|]
  | |- in_width _ _ => first [assumption | done]
  end.
(** The registers of the new device are those of [d] except the updates [us], which have their width. *)
Ltac regs us := apply (regs_updates _ us); [reflexivity| |reflexivity..]; repeat apply List.Forall_cons; try apply List.Forall_nil; cbn [fst snd].
Ltac known n w := pose proof (reg_width d n w _ Hd eq_refl).

Lemma t1_regs_ok reg : 0 <= reg < 16 -> regs_ok (handle_type1_config_write d reg data m).
Proof.
  intros Hr. assert (reg ∈ [1; 3; 6; 8; 9; 10; 11; 15] \/ reg ∈ [0; 2; 4; 5; 7; 12; 13; 14]) as [Hin|Hin] by (rewrite !elem_of_cons; lia).
  2: { rewrite !elem_of_cons, elem_of_nil in Hin. by destruct Hin as [->|[->|[->|[->|[->|[->|[->|[->|[]]]]]]]]]. }
  rewrite !elem_of_cons, elem_of_nil in Hin.
  destruct Hin as [->|[->|[->|[->|[->|[->|[->|[->|[]]]]]]]]]; cbn [handle_type1_config_write].
  - known 20%nat 16. known 21%nat 16. set (t := dc_type1 (config_space_type1_write_reg1 d data m)).
    regs [(20%nat, 16, t1_command t); (21%nat, 16, t1_status t)]; unfold t; cbn [config_space_type1_write_reg1 dc_type1 t1_command t1_status]; width.
  - known 24%nat 8. known 25%nat 8. set (t := dc_type1 (config_space_type1_write_reg3 d data m)).
    regs [(24%nat, 8, t1_cache_line_size t); (25%nat, 8, t1_latency_timer t)]; unfold t; cbn [config_space_type1_write_reg3 dc_type1 t1_cache_line_size t1_latency_timer]; width.
  - known 28%nat 8. known 29%nat 8. known 30%nat 8. known 31%nat 8. set (t := dc_type1 (config_space_type1_write_reg6 d data m)).
    regs [(28%nat, 8, t1_primary_bus t); (29%nat, 8, t1_secondary_bus t); (30%nat, 8, t1_subordinate_bus t); (31%nat, 8, t1_secondary_latency t)];
      unfold t; cbn [config_space_type1_write_reg6 dc_type1 t1_primary_bus t1_secondary_bus t1_subordinate_bus t1_secondary_latency]; width.
  - known 35%nat 16. known 36%nat 16. destruct Hd as [R1 R2 R3 [R4 R5]]. split; cbn [config_space_type1_write_reg8 dc_type1 t1_memory_base t1_memory_limit]; try done.
    + set (t := dc_type1 (config_space_type1_write_reg8 d data m)).
      change (dev_regs _) with (<[35%nat := (16, t1_memory_base t)]> (<[36%nat := (16, t1_memory_limit t)]> (dev_regs d))).
      apply regs_insert; [apply regs_insert; [exact R1|]|]; unfold t; cbn [config_space_type1_write_reg8 dc_type1 t1_memory_base t1_memory_limit]; width.
    + destruct (lo16 m =? 0), (hi16 m =? 0); rewrite ?window_land; done.
  - known 37%nat 16. known 38%nat 16. set (t := dc_type1 (config_space_type1_write_reg9 d data m)).
    regs [(37%nat, 16, t1_pre_memory_base t); (38%nat, 16, t1_pre_memory_limit t)]; unfold t; cbn [config_space_type1_write_reg9 dc_type1 t1_pre_memory_base t1_pre_memory_limit]; width.
  - destruct (m =? 0); [done|]. by regs [(39%nat, 32, data)].
  - destruct (m =? 0); [done|]. by regs [(40%nat, 32, data)].
  - known 45%nat 8. known 46%nat 8. known 47%nat 16. set (t := dc_type1 (config_space_type1_write_reg15 d data m)).
    regs [(45%nat, 8, t1_interrupt_line t); (46%nat, 8, t1_interrupt_pin t); (47%nat, 16, t1_bridge_control t)];
      unfold t; cbn [config_space_type1_write_reg15 dc_type1 t1_interrupt_line t1_interrupt_pin t1_bridge_control]; width.
Qed.

Lemma t0_regs_ok reg d' : handle_type0_config_write d reg data m = Done d' -> 0 <= dc_log_bar_size d < 31 -> regs_ok d'.
Proof.
  intros E Hs. unfold handle_type0_config_write in E. destruct (reg =? 1).
  { injection E as <-. known 2%nat 16. known 3%nat 16. set (t := dc_type0 (config_space_type0_write_reg1 d data m)).
    regs [(2%nat, 16, t0_command t); (3%nat, 16, t0_status t)]; unfold t; cbn [config_space_type0_write_reg1 dc_type0 t0_command t0_status]; width. }
  destruct (in_case 4 9 reg); [|by injection E as <-].
  assert (forall k v t, t = dc_type0 d -> in_width 32 v -> regs_ok {| d with dc_type0 := {| t with t0_bar := <[k := v]> (t0_bar t) |} |}) as Hput.
  { intros k v t -> Hv. destruct Hd as [R1 R2 R3 R4]. split; cbn [dc_type0 t0_bar]; [exact R1|by rewrite length_insert|by apply Forall_insert|exact R4]. }
  unfold config_space_type0_write_bar in E. destruct (_ <? _); [by injection E as <-|].
  destruct (_ && _).
  - destruct (Z.leb_spec 31 (dc_log_bar_size d)); [done|]. destruct (_ =? 0); injection E as <-; apply Hput; try done.
    + repeat apply lor_width; try done. apply land_width; [done|]. apply u32_range.
    + apply land_width; [done|]. change (in_width 32 (Z.shiftr (u32 (Z.lnot (u32 (Z.shiftl 1 (dc_log_bar_size d) - 1)))) 32)).
      pose proof (u32_range (Z.lnot (u32 (Z.shiftl 1 (dc_log_bar_size d) - 1)))). rewrite Z.shiftr_div_pow2 by lia. unfold in_width.
      rewrite Z.div_small by lia. lia.
  - destruct (m =? 0); [by injection E as <-|]. destruct (_ =? 0); injection E as <-; apply Hput; try done.
    + apply lor_width; [done| |done]. apply land_width; [done|]. by apply land_width.
    + by apply land_width.
Qed.

Lemma pcie_regs_ok o : regs_ok (config_space_cap_pcie_write o data m d).2.
Proof.
  assert (o = 2 \/ o = 4 \/ o = 6 \/ (config_space_cap_pcie_write o data m d).2 = d) as Hc.
  { destruct o as [|p|p]; try (right; right; right; reflexivity). do 3 (try destruct p as [p|p|]; try (right; right; right; reflexivity)); auto. }
  known 52%nat 16. known 55%nat 16. known 56%nat 16. known 58%nat 16. known 59%nat 16.
  assert (in_width 16 (Z.land data 0xFFFF)) by apply (land_ones_width 16 data ltac:(done)).
  destruct Hc as [->|[->|[->| ->]]]; [| | |done]; cbn [config_space_cap_pcie_write snd].
  - regs [(52%nat, 16, if Z.land m 0x0000FFFF =? 0 then xp_dev_control (dc_express d) else Z.land data 0xFFFF)]. by apply if_width.
  - regs [(55%nat, 16, if Z.land m 0x0000FFFF =? 0 then xp_link_control (dc_express d) else Z.land data 0xFFFF)]. by apply if_width.
  - set (x := dc_express (slot_write data m d).2).
    regs [(58%nat, 16, xp_slot_control x); (56%nat, 16, xp_link_status x); (59%nat, 16, xp_slot_status x)]; unfold x;
      cbn [slot_write snd dc_express xp_slot_control xp_link_status xp_slot_status].
    + by apply if_width.
    + apply if_width; [|done]. unfold slot_link. cbv zeta. repeat apply if_width; width.
    + width.
Qed.
Lemma msi_regs_ok o : regs_ok (config_space_cap_msi_write o data m d).
Proof.
  assert (o = 0 \/ o = 1 \/ o = 2 \/ o = 3 \/ o = 4 \/ config_space_cap_msi_write o data m d = d) as Hc.
  { destruct o as [|p|p]; [by left| |by do 5 right]. do 3 (try destruct p as [p|p|]; try (do 5 right; reflexivity)); auto 10. }
  known 74%nat 16. known 77%nat 16.
  destruct Hc as [->|[->|[->|[->|[->| ->]]]]]; [| | | | |done]; cbn [config_space_cap_msi_write].
  - regs [(74%nat, 16, if Z.land m 0xFFFF0000 =? 0 then msi_message_control (dc_msi d) else Z.land (Z.shiftr data 16) 0xFFFF)].
    apply if_width; [done|]. apply hi16_width.
  - by regs [(75%nat, 32, data)].
  - by regs [(76%nat, 32, data)].
  - regs [(77%nat, 16, if Z.land m 0x03 =? 0 then msi_message_data (dc_msi d) else Z.land data 0xFFFF)].
    apply if_width; [done|]. apply lo16_width.
  - by regs [(79%nat, 32, data)].
Qed.
Lemma caps_regs_ok reg : regs_ok (bridge_caps_write reg data m d 0).1.2.
Proof.
  unfold bridge_caps_write. destruct (in_cap TLP_CAP_EXPRESS_REG_NUM _ reg).
  { pose proof (pcie_regs_ok (u32 (reg - TLP_CAP_EXPRESS_REG_NUM))) as H. by destruct (config_space_cap_pcie_write _ data m d). }
  destruct (in_cap TLP_CAP_VPD_REG_NUM _ reg); [done|]. destruct (in_cap TLP_CAP_MSIX_REG_NUM _ reg); [done|].
  destruct (in_cap TLP_CAP_MSI_REG_NUM _ reg); [apply msi_regs_ok|]. by destruct (in_cap TLP_CAP_PM_REG_NUM _ reg).
Qed.
End Types.

(** ** Configuration writes *)

Definition bridge_cfg_read (reg : Z) (d : pci_device_config) : res Z := '(x, _) ← bridge_read_switch reg d; Done x.

Lemma cfg_read_lookup reg d : regs_ok d -> 0 <= reg < 1024 -> bridge_cfg_read reg d = Done (default 0 (bridge_image d !! Z.to_nat reg)).
Proof. intros H Hr. unfold bridge_cfg_read. destruct (bridge_read_image d reg (rk_bars d H) Hr) as (cap & ->). done. Qed.

Lemma image_length d : regs_ok d -> length (bridge_image d) = 42%nat.
Proof. intros H. unfold bridge_image. rewrite length_app, header_length by done. done. Qed.

(** A write changes registers only: [d'] is [d] with others. *)
Definition regs_only (d d' : pci_device_config) : Prop :=
  d' = {| d with dc_type0 := dc_type0 d'; dc_type1 := dc_type1 d'; dc_express := dc_express d'; dc_msi := dc_msi d' |} /\
  (if dc_is_bridge d then dc_type0 d' = dc_type0 d else dc_type1 d' = dc_type1 d).

Lemma regs_only_refl d : regs_only d d.
Proof. split; [by destruct d|by destruct (dc_is_bridge d)]. Qed.

Lemma t1_regs_only d reg data m : dc_is_bridge d = true -> 0 <= reg < 16 -> regs_only d (handle_type1_config_write d reg data m).
Proof.
  intros Hb Hr. assert (reg ∈ [1; 3; 6; 8; 9; 10; 11; 15] \/ reg ∈ [0; 2; 4; 5; 7; 12; 13; 14]) as [Hin|Hin] by (rewrite !elem_of_cons; lia);
    rewrite !elem_of_cons, elem_of_nil in Hin.
  - destruct Hin as [->|[->|[->|[->|[->|[->|[->|[->|[]]]]]]]]]; cbn [handle_type1_config_write];
      try destruct (m =? 0); first [apply regs_only_refl | split; [reflexivity|by rewrite Hb]].
  - destruct Hin as [->|[->|[->|[->|[->|[->|[->|[->|[]]]]]]]]]; apply regs_only_refl.
Qed.
Lemma t0_regs_only d reg data m d' : dc_is_bridge d = false -> handle_type0_config_write d reg data m = Done d' -> regs_only d d'.
Proof.
  intros Hb E. assert (forall t, regs_only d {| d with dc_type0 := t |}) as Hput by (intros t; split; [reflexivity|by rewrite Hb]).
  unfold handle_type0_config_write in E. destruct (reg =? 1); [injection E as <-; apply Hput|].
  destruct (in_case 4 9 reg); [|injection E as <-; apply regs_only_refl].
  unfold config_space_type0_write_bar in E. destruct (1 <? _); [injection E as <-; apply regs_only_refl|].
  destruct (_ && _); [destruct (31 <=? _); [done|]|destruct (m =? 0); [injection E as <-; apply regs_only_refl|]];
    destruct (_ =? 0); injection E as <-; apply Hput.
Qed.
Lemma pcie_regs_only d o data m : regs_only d (config_space_cap_pcie_write o data m d).2.
Proof.
  assert (forall x, regs_only d {| d with dc_express := x |}) as Hput by (intros x; split; [reflexivity|by destruct (dc_is_bridge d)]).
  assert (o = 2 \/ o = 4 \/ o = 6 \/ (config_space_cap_pcie_write o data m d).2 = d) as [->|[->|[->| ->]]]; [|apply Hput|apply Hput|apply Hput|apply regs_only_refl].
  destruct o as [|p|p]; try (right; right; right; reflexivity). do 3 (try destruct p as [p|p|]; try (right; right; right; reflexivity)); auto.
Qed.
Lemma msi_regs_only d o data m : regs_only d (config_space_cap_msi_write o data m d).
Proof.
  assert (forall x, regs_only d {| d with dc_msi := x |}) as Hput by (intros x; split; [reflexivity|by destruct (dc_is_bridge d)]).
  destruct o as [|p|p]; [apply Hput| |apply regs_only_refl].
  do 3 (try destruct p as [p|p|]; try apply regs_only_refl); apply Hput.
Qed.
Lemma caps_regs_only d reg data m : regs_only d (bridge_caps_write reg data m d 0).1.2.
Proof.
  unfold bridge_caps_write. destruct (in_cap TLP_CAP_EXPRESS_REG_NUM _ reg).
  { pose proof (pcie_regs_only d (u32 (reg - TLP_CAP_EXPRESS_REG_NUM)) data m). by destruct (config_space_cap_pcie_write _ data m d). }
  destruct (in_cap TLP_CAP_VPD_REG_NUM _ reg); [apply regs_only_refl|]. destruct (in_cap TLP_CAP_MSIX_REG_NUM _ reg); [apply regs_only_refl|].
  destruct (in_cap TLP_CAP_MSI_REG_NUM _ reg); [apply msi_regs_only|destruct (in_cap TLP_CAP_PM_REG_NUM _ reg); apply regs_only_refl].
Qed.

(** Command Completed is due after a write to slot control of a bridge. *)
Lemma caps_trigger d reg data m : 16 <= reg < 64 -> (bridge_caps_write reg data m d 0).1.1 = (reg =? 30) && low_on m && dc_is_bridge d.
Proof.
  intros Hr. assert (exists k, reg = 16 + k /\ 0 <= k < Z.of_nat 48) as (k & -> & Hk) by (exists (reg - 16); lia). clear Hr. revert k Hk.
  refine (upto_cases 48 (fun k => _) _). cbn [seq fmap list_fmap]. repeat apply List.Forall_cons; try apply List.Forall_nil; reflexivity.
Qed.

(** What the write switch does, on every register. *)
Lemma write_switch_spec d be m data reg : regs_ok d -> 0 <= dc_log_bar_size d < 31 -> in_width 32 data -> 0 <= be < 16 ->
  map_first_dw_be_to_mask be = Done m -> 0 <= reg < 1024 ->
  exists d' cap, bridge_write_switch reg data m d = Done (d', cap, (reg =? 30) && low_on m && dc_is_bridge d) /\
    regs_ok d' /\ regs_only d d' /\ bridge_image d' = written_image d reg m data.
Proof.
  intros Hd Hs Hdata Hbe Hm Hr. unfold bridge_write_switch. destruct (in_case 0 15 reg) eqn:E0.
  - assert (0 <= reg < 16) as Hc by (unfold in_case in E0; lia).
    assert ((reg =? 30) && low_on m && dc_is_bridge d = false) as -> by (by destruct (Z.eqb_spec reg 30); [lia|]).
    destruct (dc_is_bridge d) eqn:Eb; cbn [mbind res_bind].
    + eexists _, _. split; [reflexivity|]. split; [by apply t1_regs_ok|]. split; [by apply t1_regs_only|]. by apply (t1_write_image d Hd Eb be).
    + destruct (t0_write_image d Hd Eb Hs be m data Hdata Hbe Hm reg Hc) as (d' & E & Hi). rewrite E. eexists d', _. split; [reflexivity|].
      split; [by apply (t0_regs_ok d Hd m data Hdata reg)|]. split; [by eapply t0_regs_only|done].
  - destruct (in_case 16 63 reg) eqn:E1.
    + assert (16 <= reg < 64) as Hc by (unfold in_case in E1; lia). pose proof (caps_trigger d reg data m Hc) as Ht.
      pose proof (caps_regs_ok d Hd m data Hdata reg) as Hok. pose proof (caps_regs_only d reg data m) as Hon.
      pose proof (caps_write_image d Hd be m data Hdata Hbe Hm reg Hc) as Hi.
      destruct (bridge_caps_write reg data m d 0) as [[trig d'] cap]. cbn [fst snd] in *. subst trig. eexists d', _. split; [reflexivity|]. done.
    + assert (64 <= reg) by (unfold in_case in *; lia). eexists d, _.
      assert ((reg =? 30) && low_on m && dc_is_bridge d = false) as -> by (by destruct (Z.eqb_spec reg 30); [lia|]).
      split; [reflexivity|]. split; [done|]. split; [apply regs_only_refl|]. symmetry. unfold written_image. cbv zeta.
      rewrite link_other by lia. rewrite (list_insert_id (bridge_image d) 28) by (by apply image_28).
      apply list_insert_ge. rewrite image_length by done. lia.
Qed.

(** Every register reads as 32 bits. *)
Lemma image_width d : regs_ok d -> Forall (in_width 32) (bridge_image d).
Proof.
  intros H. assert (forall n w x, dev_regs d !! n = Some (w, x) -> (w <=? 32) = true -> in_width 32 x) as Hreg.
  { intros n w x E Hw. pose proof (reg_width d n w x H E) as Hx. pose proof (Z.pow_le_mono_r 2 w 32). unfold in_width in *. lia. }
  assert (forall x, in_width 32 (u32 x)) as Hu by (intros; apply u32_range). unfold bridge_image. apply Forall_app. split.
  - destruct (dc_is_bridge d).
    + repeat apply List.Forall_cons; try apply List.Forall_nil; try apply Hu; try done.
      * apply (Hreg 39%nat 32); done.
      * apply (Hreg 40%nat 32); done.
      * apply (Hreg 43%nat 8); done.
      * apply (Hreg 44%nat 32); done.
    + unfold header0_image. rewrite !Forall_app. split; [|split; [apply (rk_bar d H)|]];
        repeat apply List.Forall_cons; try apply List.Forall_nil; try apply Hu; try done.
      * apply (Hreg 12%nat 32); done.
      * apply (Hreg 13%nat 8); done.
  - unfold caps_image. repeat apply List.Forall_cons; try apply List.Forall_nil; try apply Hu;
      first [apply (Hreg 51%nat 32); done | apply (Hreg 54%nat 32); done | apply (Hreg 57%nat 32); done | apply (Hreg 62%nat 32); done
            | apply (Hreg 63%nat 32); done | apply (Hreg 66%nat 32); done | apply (Hreg 69%nat 32); done | apply (Hreg 75%nat 32); done
            | apply (Hreg 76%nat 32); done | apply (Hreg 84%nat 32); done | apply (Hreg 85%nat 32); done | apply (Hreg 89%nat 32); done].
Qed.

(** The registers of [written_image] one by one. *)
Lemma written_lookup d reg m data j : regs_ok d -> 0 <= reg < 1024 -> 0 <= j < 1024 ->
  default 0 (written_image d reg m data !! Z.to_nat j) =
  (if j <? 42 then if j =? reg then reg_after d reg m data (default 0 (bridge_image d !! Z.to_nat j))
   else if j =? 28 then dw16 (link_after d reg m data) (xp_link_control (dc_express d)) else default 0 (bridge_image d !! Z.to_nat j) else 0).
Proof.
  intros Hd Hr Hj. pose proof (image_length d Hd) as Hl.
  destruct (Z.ltb_spec j 42) as [Hlt|Hge]; [|by rewrite lookup_ge_None_2 by (unfold written_image; rewrite !length_insert; lia)].
  unfold written_image. cbv zeta. destruct (Z.eqb_spec j reg) as [->|Hne].
  - rewrite list_lookup_insert_eq by (rewrite length_insert; lia). cbn [default]. f_equal.
    destruct (Z.eqb_spec reg 28) as [->|H28]; [|by rewrite list_lookup_insert_ne by lia].
    change (Z.to_nat 28) with 28%nat. rewrite (link_other d 28) by done. by rewrite (list_insert_id (bridge_image d) 28) by (by apply image_28).
  - rewrite list_lookup_insert_ne by lia. destruct (Z.eqb_spec j 28) as [->|H28].
    + change (Z.to_nat 28) with 28%nat. by rewrite list_lookup_insert_eq by lia.
    + by rewrite list_lookup_insert_ne by lia.
Qed.

(** *** Writes of whole fields *)

(** The bits of a register that take data, and the bits that ones clear. *)
Definition reg_masks (is_bridge : bool) (reg : Z) : Z * Z :=
  if in_case 0 15 reg then
    if reg =? 1 then (0x0546, 0xF9000000)
    else if negb is_bridge then (0, 0)
    else match reg with
    | 3 => (0x0000FFFF, 0)
    | 6 | 10 | 11 => (0xFFFFFFFF, 0)
    | 8 | 9 => (0xFFF0FFF0, 0)
    | 15 => (0x0041FFFF, 0)
    | _ => (0, 0)
    end
  else match reg with
  | 20 => (0xFFFF0000, 0)
  | 21 | 22 => (0xFFFFFFFF, 0)
  | 23 | 26 | 28 => (0x0000FFFF, 0)
  | 30 => (0x0000FFFF, 0x011F0000)
  | _ => (0, 0)
  end.

(** The enabled bytes cover the field [f] or none of it. *)
Definition whole (f m : Z) : bool := (Z.land m f =? 0) || (Z.land m f =? f).

(** The byte enables [m] cover the fields of the register that the code writes as one. *)
Definition fields_whole (is_bridge : bool) (reg m : Z) : bool :=
  match reg with
  | 4 | 5 => is_bridge || whole 0xFFFFFFFF m
  | 8 | 9 => negb is_bridge || (whole 0xFFFF m && whole 0xFFFF0000 m)
  | 10 | 11 => negb is_bridge || whole 0xFFFFFFFF m
  | 15 => negb is_bridge || whole 0xFFFF0000 m
  | 20 => whole 0xFFFF0000 m
  | 21 | 22 => m =? 0xFFFFFFFF
  | 23 | 26 | 28 => whole 0xFFFF m
  | 30 => whole 0xFFFF m && whole 0xFFFF0000 m
  | _ => true
  end.

(** A write of whole fields that neither sizes the upper half of a base address register nor writes ones to
    bits of the slot status that are not cleared by ones. *)
Definition write_whole (is_bridge : bool) (reg m data : Z) : bool :=
  fields_whole is_bridge reg m &&
  match reg with
  | 5 => is_bridge || negb (data =? 0xFFFFFFFF)
  | 30 => negb (high_on m) || (Z.land data 0xFEE00000 =? 0)
  | _ => true
  end.

(** A register after a write of whole fields. The lower half of the base address register of an endpoint shows the
    size after all ones were written and otherwise takes the address, with its type bits; the upper half takes
    the data; every other register takes the data in the enabled bits that can be written, and ones clear the
    enabled bits that are cleared by ones. *)
Definition reg_spec (d : pci_device_config) (reg m data old : Z) : Z :=
  if negb (dc_is_bridge d) && in_case 4 5 reg then
    if m =? 0 then old
    else if reg =? 5 then data
    else if data =? 0xFFFFFFFF then Z.lor (2 ^ 32 - 2 ^ dc_log_bar_size d) 0xC
    else Z.lor (Z.land data 0xFFFFFFF0) 0xC
  else let '(rw, w1c) := reg_masks (dc_is_bridge d) reg in
    mix (Z.land m rw) data (Z.ldiff old (Z.land data (Z.land m w1c))).

Definition be_mask_list : list Z :=
  [0x00000000; 0x000000FF; 0x0000FF00; 0x0000FFFF; 0x00FF0000; 0x00FF00FF; 0x00FFFF00; 0x00FFFFFF;
   0xFF000000; 0xFF0000FF; 0xFF00FF00; 0xFF00FFFF; 0xFFFF0000; 0xFFFF00FF; 0xFFFFFF00; 0xFFFFFFFF].

(** The bits that a write of whole fields reaches, by evaluation: all registers, all byte enables. *)
Lemma access_masks b reg m : 0 <= reg < 1024 -> m ∈ be_mask_list -> fields_whole b reg m = true ->
  (bridge_access b reg m).1 = Z.land m (reg_masks b reg).1 /\
  (bridge_access b reg m).2 = if reg =? 30 then when (high_on m) 0xFFFF0000 else Z.land m (reg_masks b reg).2.
Proof.
  intros Hr Hm.
  assert (forallb (fun b => forallb (fun reg => forallb (fun m => negb (fields_whole b reg m) ||
    ((bridge_access b reg m).1 =? Z.land m (reg_masks b reg).1) &&
    ((bridge_access b reg m).2 =? if reg =? 30 then when (high_on m) 0xFFFF0000 else Z.land m (reg_masks b reg).2)) be_mask_list)
    (Z.of_nat <$> seq 0 1024)) [true; false] = true) as H by (vm_compute; reflexivity).
  rewrite forallb_forall in H. specialize (H b ltac:(destruct b; cbn; auto)). rewrite forallb_forall in H.
  specialize (H reg). rewrite forallb_forall in H.
  assert (In reg (Z.of_nat <$> seq 0 1024)) as Hin.
  { apply list_elem_of_In, list_elem_of_fmap. exists (Z.to_nat reg). split; [lia|]. apply elem_of_seq. lia. }
  specialize (H Hin m (proj1 (list_elem_of_In _ _) Hm)). destruct (fields_whole b reg m); [|done].
  rewrite orb_false_l, andb_true_iff, !Z.eqb_eq in H. intros _. exact H.
Qed.

Lemma be_masks_elem be m : 0 <= be < 16 -> map_first_dw_be_to_mask be = Done m -> m ∈ be_mask_list.
Proof. apply (be_masks (fun m => m ∈ be_mask_list)). apply list.Forall_forall. done. Qed.

Lemma bar_spec d reg m data old : in_case 4 5 reg = true -> m = 0 \/ m = 0xFFFFFFFF -> in_width 32 data ->
  (reg = 5 -> data <> 0xFFFFFFFF) -> bar_after (dc_log_bar_size d) reg m data old =
    if m =? 0 then old else if reg =? 5 then data
    else if data =? 0xFFFFFFFF then Z.lor (2 ^ 32 - 2 ^ dc_log_bar_size d) 0xC else Z.lor (Z.land data 0xFFFFFFF0) 0xC.
Proof.
  unfold in_case. intros Hr Hm Hd H5. assert (reg = 4 \/ reg = 5) as Hrr by lia. unfold bar_after.
  assert (Z.land data 0xFFFFFFFF = data) as Hl by (change 0xFFFFFFFF with (Z.ones 32); rewrite Z.land_ones by lia; apply Z.mod_small; apply Hd).
  destruct Hm as [->| ->]; cbn [Z.eqb Pos.eqb]; [rewrite andb_false_r; done|]. rewrite andb_true_r, Hl.
  destruct Hrr as [->| ->]; cbn [Z.eqb Pos.eqb].
  - by destruct (data =? 4294967295).
  - destruct (Z.eqb_spec data 0xFFFFFFFF); [|done]. by destruct (H5 eq_refl).
Qed.

Ltac by_masks := repeat apply List.Forall_cons; try apply List.Forall_nil; vm_compute; auto; discriminate.
Lemma whole_high m : m ∈ be_mask_list -> whole 0xFFFF0000 m = true ->
  high_on m = false /\ Z.land m 0x011F0000 = 0 \/ high_on m = true /\ Z.land m 0x011F0000 = 0x011F0000.
Proof. intros Hm. revert m Hm. rewrite <- list.Forall_forall. by_masks. Qed.
Lemma whole_all m : m ∈ be_mask_list -> whole 0xFFFFFFFF m = true -> m = 0 \/ m = 0xFFFFFFFF.
Proof. intros Hm. revert m Hm. rewrite <- list.Forall_forall. by_masks. Qed.

Lemma after_spec d reg m data old : 0 <= reg < 1024 -> m ∈ be_mask_list -> in_width 32 data ->
  write_whole (dc_is_bridge d) reg m data = true -> reg_after d reg m data old = reg_spec d reg m data old.
Proof.
  intros Hr Hm Hd Hw. apply andb_true_iff in Hw as [Hf Hw]. unfold reg_after, reg_spec.
  destruct (negb (dc_is_bridge d) && in_case 4 5 reg) eqn:Hb.
  - apply andb_true_iff in Hb as [Hb Hc]. apply negb_true_iff in Hb. rewrite Hb in *. apply bar_spec; [done| |done|].
    + apply whole_all; [done|]. unfold in_case in Hc. assert (reg = 4 \/ reg = 5) as [->| ->] by lia; exact Hf.
    + intros ->. cbn [orb] in Hw. by destruct (Z.eqb_spec data 0xFFFFFFFF).
  - destruct (access_masks (dc_is_bridge d) reg m Hr Hm Hf) as [H1 H2].
    destruct (bridge_access (dc_is_bridge d) reg m) as [set clear], (reg_masks (dc_is_bridge d) reg) as [rw w1c] eqn:Em. cbn [fst snd] in H1, H2. subst set clear.
    destruct (Z.eqb_spec reg 30) as [->|]; [|done]. injection Em as <- <-. f_equal. f_equal.
    cbn [fields_whole] in Hf. apply andb_true_iff in Hf as [_ Hf].
    destruct (whole_high m Hm Hf) as [[-> ->]|[Hh ->]]; [done|]. rewrite Hh in *. cbn [negb orb] in Hw. apply Z.eqb_eq in Hw.
    change (when true 0xFFFF0000) with (Z.lor 0x011F0000 0xFEE00000). by rewrite Z.land_lor_distr_r, Hw, Z.lor_0_r.
Qed.

(** C23: what a configuration write does to the registers of a device with a base address register of less than 2 GB, as
    the host reads them afterwards. After a write of whole fields ([write_whole]) the register is as [reg_spec] says: it takes
    the data in the enabled bits that it can be written in and clears those that ones clear ([reg_masks]); the lower half of the base address
    register of an endpoint takes the address or shows the size; and when the power of a bridge's slot is switched
    its link status follows. After every write, of whole fields or not, all registers other than the one that is written and the link
    status read as before, the types of all registers are kept, and the handler is told to signal Command Completed exactly
    after a write to the slot control of a bridge. *)
Theorem bridge_register_write d be m data reg : regs_ok d -> 0 <= dc_log_bar_size d < 31 -> in_width 32 data -> 0 <= be < 16 ->
  map_first_dw_be_to_mask be = Done m -> 0 <= reg < 1024 ->
  exists d' cap, bridge_write_switch reg data m d = Done (d', cap, (reg =? 30) && low_on m && dc_is_bridge d) /\ regs_ok d' /\ regs_only d d' /\
    forall j, 0 <= j < 1024 -> exists x y, bridge_cfg_read j d = Done x /\ bridge_cfg_read j d' = Done y /\ in_width 32 x /\
      (j <> reg -> j <> 28 -> y = x) /\
      (write_whole (dc_is_bridge d) reg m data = true -> y =
         if j <? 42 then if j =? reg then reg_spec d reg m data x
                         else if j =? 28 then dw16 (link_after d reg m data) (xp_link_control (dc_express d)) else x
         else 0).
Proof.
  intros Hd Hs Hdata Hbe Hm Hr. destruct (write_switch_spec d be m data reg Hd Hs Hdata Hbe Hm Hr) as (d' & cap & E & Hok & Hon & Hi).
  exists d', cap. do 3 (split; [done|]). intros j Hj.
  exists (default 0 (bridge_image d !! Z.to_nat j)). eexists. rewrite !cfg_read_lookup, Hi by done. split; [done|]. split; [done|].
  rewrite written_lookup by done. split; [|split].
  - destruct (bridge_image d !! Z.to_nat j) as [x|] eqn:Ex; [|done]. pose proof (image_width d Hd) as Hw. rewrite list.Forall_lookup in Hw. by apply (Hw (Z.to_nat j)).
  - intros H1 H2. destruct (Z.ltb_spec j 42) as [|Hge].
    + destruct (Z.eqb_spec j reg); [done|]. by destruct (Z.eqb_spec j 28).
    + rewrite lookup_ge_None_2; [done|]. rewrite (image_length d Hd). lia.
  - intros Hw. rewrite (after_spec d reg m data) by first [done | by eapply be_masks_elem]. done.
Qed.

(** Deciding the types of a device. *)
Definition regs_check (d : pci_device_config) : bool :=
  forallb (fun r => (0 <=? r.2) && (r.2 <? 2 ^ r.1)) (dev_regs d) && (length (t0_bar (dc_type0 d)) =? 6)%nat &&
  forallb (fun x => (0 <=? x) && (x <? 2 ^ 32)) (t0_bar (dc_type0 d)) &&
  (Z.land (t1_memory_base (dc_type1 d)) 0xFFF0 =? t1_memory_base (dc_type1 d)) &&
  (Z.land (t1_memory_limit (dc_type1 d)) 0xFFF0 =? t1_memory_limit (dc_type1 d)).

Lemma regs_check_ok d : regs_check d = true -> regs_ok d.
Proof.
  unfold regs_check. rewrite !andb_true_iff, !forallb_forall, Nat.eqb_eq, !Z.eqb_eq. intros ((((H1 & H2) & H3) & H4) & H5).
  split; [| |  |done]; [|done|]; apply List.Forall_forall; intros x Hx; [specialize (H1 x Hx)|specialize (H3 x Hx)]; unfold in_width; lia.
Qed.

(** Power is switched on in a slot with an endpoint: Data Link Layer Active is set. *)
Definition powered_dsp : pci_device_config :=
  let d := init_dsp 0 zero_dev in
  let x := dc_express d in
  {| d with dc_express := {| x with xp_slot_status := SLOT_STS_PRESENCE_DETECT_STATE; xp_link_status := 0x1104 |} |}.

Lemma bridge_register_write_witness :
  exists d', bridge_write_switch 30 0x00000000 0x0000FFFF powered_dsp = Done (d', (TLP_PCI_CAP_ID_EXPRESS, true, false), true) /\
    bridge_cfg_read 28 powered_dsp = Done 0x11040000 /\ bridge_cfg_read 28 d' = Done 0x31040000.
Proof.
  destruct (bridge_register_write powered_dsp 3 0x0000FFFF 0 30) as (d' & cap & E & _ & _ & Hr).
  - apply regs_check_ok. vm_compute. reflexivity.
  - split; [by vm_compute|by vm_compute].
  - done.
  - done.
  - reflexivity.
  - done.
  - exists d'. destruct (Hr 28) as (x & y & Ex & Ey & _ & _ & Ej); [done|]. split; [|split; [reflexivity|]].
    + rewrite E. vm_compute in E. by injection E as <- <-.
    + rewrite Ey, Ej; reflexivity.
Defined.
