(* ===== verification/BridgeMap.v ===== *)
(** * BridgeMap: devices of the TLP bridge handler sample and how a request finds them,
      src/samples/doca_devemu/devemu_pci_device_tlp_bridge_handler/
      devemu_pci_device_tlp_bridge_handler_sample.c

    The emulated PCIe switches: one upstream port per port of the channel, behind it
    downstream bridges, behind each of them one endpoint, and a dummy that answers the
    rest. This file has the set-up of the topology, the queue
    of credits ([acg_queue_push], [acg_queue_pop]) and the table from bus, device and
    function numbers to devices: a hash table whose entries, one per device, are linked
    through the entries themselves.

    [acg_refines] says that the credits are a bounded queue,
    [topology_groups] that set-up gives every downstream bridge and its endpoint to one
    switch, [update_refines] and [lookup_refines] that the table is a list with the
    latest entry first. BridgeSlot has what happens between requests. *)

From S2P Require Import Prelude TlpCfg TlpReq BridgeData.

(** ** The queue of credits *)

Definition acg_queue_push (c : tlp_context) (acg_req : Z) : res (doca_error_t * tlp_context) :=
  match acg_queue c with
  | None => Done (DOCA_ERROR_NO_MEMORY, c)
  | Some q =>
    if acg_queue_size c <=? acg_queue_count c then Done (DOCA_ERROR_NO_MEMORY, c)
    else if acg_queue_tail c <? Z.of_nat (length q) then
      Done (DOCA_SUCCESS, {| c with
        acg_queue := Some (<[Z.to_nat (acg_queue_tail c) := acg_req]> q);
        acg_queue_tail := u16 ((acg_queue_tail c + 1) mod acg_queue_size c);
        acg_queue_count := u16 (acg_queue_count c + 1) |})
    else Crash OutOfBounds
  end.

(** A request pointer is never null: [None] is [NULL]. *)
Definition acg_queue_pop (c : tlp_context) : res (option Z * tlp_context) :=
  match acg_queue c with
  | None => Done (None, c)
  | Some q =>
    if acg_queue_count c =? 0 then Done (None, c)
    else
      acg_req ← at_ q (acg_queue_head c);
      Done (Some acg_req, {| c with
        acg_queue_head := u16 ((acg_queue_head c + 1) mod acg_queue_size c);
        acg_queue_count := u16 (acg_queue_count c - 1) |})
  end.

(** The capability query and the allocation are arguments. *)
Definition init_acg_queue (cap : doca_error_t * Z) (calloc_ok : bool) (c : tlp_context) : doca_error_t * tlp_context :=
  let '(result, size) := cap in
  if negb (is_success result) then (result, c)
  else
    let c := {| c with acg_queue_size := size |} in
    if calloc_ok then
      (DOCA_SUCCESS, {| c with acg_queue := Some (replicate (Z.to_nat size) 0);
         acg_queue_head := 0; acg_queue_tail := 0; acg_queue_count := 0 |})
    else (DOCA_ERROR_NO_MEMORY, {| c with acg_queue := None |}).

(** The loop of the clean-up that takes every credit from the queue; the credits taken. *)
Fixpoint flush_acg (fuel : nat) (c : tlp_context) : res (list Z * tlp_context) :=
  match fuel with
  | O => Crash OutOfFuel
  | S fuel =>
    '(acg_req, c) ← acg_queue_pop c;
    match acg_req with
    | None => Done ([], c)
    | Some r => '(l, c) ← flush_acg fuel c; Done (r :: l, c)
    end
  end.

(** ** Topology *)

Definition get_dsp_group (c : tlp_context) (dsp_id : Z) : Z * Z :=
  let base := num_ep_per_nv_switch_tlp_dsp c in
  let extra := num_ep_extra_per_nv_switch_tlp_dsp c in
  let count := u32 (base + (if dsp_id <? extra then 1 else 0)) in
  let start := u32 (FIRST_DSP_IDX c + dsp_id * base + (if dsp_id <? extra then dsp_id else extra)) in
  (start, count).

(** The inner loop, for [n] more bridges of a switch from [j] on. *)
Fixpoint init_group (n : nat) (c : tlp_context) (group_start j : Z) (l : list pci_device_config) :
    res (list pci_device_config) :=
  match n with
  | O => Done l
  | S n =>
    let ep_base := u32 (group_start - FIRST_DSP_IDX c) in
    l ← upd_dev (init_dsp j) (Z.to_nat (u32 (group_start + j))) l;
    l ← upd_dev init_ep (Z.to_nat (u32 (FIRST_PF_IDX c + ep_base + j))) l;
    init_group n c group_start (j + 1) l
  end.

(** The outer loop, for [n] more switches from [i] on. *)
Fixpoint init_switches (n : nat) (c : tlp_context) (i : Z) (l : list pci_device_config) : res (list pci_device_config) :=
  match n with
  | O => Done l
  | S n =>
    l ← upd_dev init_usp (USP_IDX i) l;
    let '(group_start, group_count) := get_dsp_group c (u8 i) in
    l ← init_group (Z.to_nat group_count) c group_start 0 l;
    init_switches n c (i + 1) l
  end.

Definition init_device_topology (c : tlp_context) : res tlp_context :=
  let l := replicate (Z.to_nat (num_devices c)) zero_dev in
  l ← init_switches (Z.to_nat (num_nv_switch_tlp_dsp c)) c 0 l;
  l ← upd_dev init_dummy (Z.to_nat (DUMMY_DEV_IDX c)) l;
  Done {| c with devs_config := l |}.

(** The context before set-up: [struct tlp_context tlp_ctx = {0}]. *)
Definition zero_ctx : tlp_context :=
  {| devs_config := []; num_dev_types := 0; num_devices := 0; num_ep := 0; num_dsp := 0; num_bridges := 0;
     dev_type_idx := 0; num_nv_switch_tlp_dsp := 0; num_ep_per_nv_switch_tlp_dsp := 0;
     num_ep_extra_per_nv_switch_tlp_dsp := 0; transaction_region_memories := None; transaction_region_size := 0;
     bdf_map := replicate (Z.to_nat BDF_MAP_SIZE) None; bdf_entries := [];
     acg_queue := None; acg_queue_head := 0; acg_queue_tail := 0; acg_queue_count := 0; acg_queue_size := 0 |}.

(** The outcomes of the two allocations are arguments. *)
Definition init_tlp_context (devs_ok entries_ok : bool) (ctx : tlp_context) (dev_types eps nv_dsp : Z) :
    doca_error_t * tlp_context :=
  if nv_dsp =? 0 then (DOCA_ERROR_INVALID_VALUE, ctx)
  else
    let ctx := {| ctx with
      num_ep := eps; num_dsp := eps; num_nv_switch_tlp_dsp := nv_dsp; num_bridges := u32 (nv_dsp + eps);
      num_ep_per_nv_switch_tlp_dsp := eps / nv_dsp; num_ep_extra_per_nv_switch_tlp_dsp := eps mod nv_dsp;
      num_devices := u32 (u32 (nv_dsp + eps) + eps + DUMMY_DEV_NUM); num_dev_types := dev_types |} in
    if devs_ok then
      if entries_ok then
        (DOCA_SUCCESS, {| ctx with
           devs_config := replicate (Z.to_nat (num_devices ctx)) zero_dev;
           bdf_entries := replicate (Z.to_nat (num_devices ctx)) {| be_key := 0; be_dev_cfg := None; be_next := None |} |})
      else (DOCA_ERROR_NO_MEMORY, {| ctx with devs_config := [] |})
    else (DOCA_ERROR_NO_MEMORY, ctx).

(** ** The table of devices *)

Definition entry_at (c : tlp_context) (i : nat) : res bdf_map_entry :=
  match bdf_entries c !! i with Some e => Done e | None => Crash OutOfBounds end.
Definition put_entry (c : tlp_context) (i : nat) (e : bdf_map_entry) : tlp_context :=
  {| c with bdf_entries := <[i := e]> (bdf_entries c) |}.
Definition head_at (c : tlp_context) (h : Z) : res (option nat) :=
  match bdf_map c !! Z.to_nat h with Some p => Done p | None => Crash OutOfBounds end.
Definition put_head (c : tlp_context) (h : Z) (p : option nat) : tlp_context :=
  {| c with bdf_map := <[Z.to_nat h := p]> (bdf_map c) |}.

(** The pointer [pp] of [remove_from_bdf_map]: at the head of a chain, or at the [next] of an entry. *)
Inductive bdf_slot := SlotHead (h : Z) | SlotNext (i : nat).
Definition slot_get (c : tlp_context) (pp : bdf_slot) : res (option nat) :=
  match pp with SlotHead h => head_at c h | SlotNext i => e ← entry_at c i; Done (be_next e) end.
Definition slot_set (c : tlp_context) (pp : bdf_slot) (p : option nat) : res tlp_context :=
  match pp with
  | SlotHead h => Done (put_head c h p)
  | SlotNext i => e ← entry_at c i; Done (put_entry c i {| e with be_next := p |})
  end.

Fixpoint remove_loop (fuel : nat) (c : tlp_context) (pp : bdf_slot) (entry : nat) : res tlp_context :=
  match fuel with
  | O => Crash OutOfFuel
  | S fuel =>
    p ← slot_get c pp;
    match p with
    | None => Done c
    | Some i =>
      if (i =? entry)%nat then
        e ← entry_at c entry;
        c ← slot_set c pp (be_next e);
        e ← entry_at c entry;
        Done (put_entry c entry {| e with be_next := None |})
      else remove_loop fuel c (SlotNext i) entry
    end
  end.

(** A chain has at most one link per entry, which bounds the loops over it. *)
Definition chain_fuel (c : tlp_context) : nat := S (length (bdf_entries c)).

Definition remove_from_bdf_map (c : tlp_context) (entry : nat) (old_key : Z) : res tlp_context :=
  remove_loop (chain_fuel c) c (SlotHead (old_key mod BDF_MAP_SIZE)) entry.

Definition update_bdf_map (c : tlp_context) (key : Z) (dev_cfg : nat) : res tlp_context :=
  let hash := key mod BDF_MAP_SIZE in
  e ← entry_at c dev_cfg;
  if bool_decide (be_dev_cfg e = Some dev_cfg) && (be_key e =? key) then Done c
  else
    c ← (if bool_decide (be_dev_cfg e = None) then Done c else remove_from_bdf_map c dev_cfg (be_key e));
    p ← head_at c hash;
    _ ← entry_at c dev_cfg;
    Done (put_head (put_entry c dev_cfg {| be_key := key; be_dev_cfg := Some dev_cfg; be_next := p |}) hash (Some dev_cfg)).

Fixpoint lookup_loop (fuel : nat) (c : tlp_context) (p : option nat) (key : Z) : res (option nat) :=
  match fuel with
  | O => Crash OutOfFuel
  | S fuel =>
    match p with
    | None => Done None
    | Some i =>
      e ← entry_at c i;
      if be_key e =? key then
        match be_dev_cfg e with
        | None => Crash NullDeref
        | Some d =>
          dev ← dev_at (devs_config c) d;
          Done (if dc_is_endpoint dev && negb (dc_device_present dev) then None else Some d)
        end
      else lookup_loop fuel c (be_next e) key
    end
  end.

Definition lookup_device_by_key (c : tlp_context) (key : Z) : res (option nat) :=
  p ← head_at c (key mod BDF_MAP_SIZE); lookup_loop (chain_fuel c) c p key.

(** The loop over the bridges of a switch: the position of the first one that [f] accepts. *)
Fixpoint first_in_group (n : nat) (i : Z) (f : Z -> res bool) : res (option Z) :=
  match n with
  | O => Done None
  | S n => b ← f i; if b : bool then Done (Some i) else first_in_group n (i + 1) f
  end.

(** The device that the topology gives a request, by the rules of the slow path; [None] is the dummy. *)
Definition search_topology (c : tlp_context) (dsp_id bus device function tlp_type : Z) : res (option nat) :=
  let '(group_start, group_count) := get_dsp_group c dsp_id in
  if tlp_type =? TLP_REQ_TYPE_CONFIG_READ_WRITE_TYPE_0 then
    Done (if (device =? 0) && (function =? 0) then Some (USP_IDX dsp_id) else None)
  else if tlp_type =? TLP_REQ_TYPE_CONFIG_READ_WRITE_TYPE_1 then
    usp ← dev_at (devs_config c) (USP_IDX dsp_id);
    let usp_sec_bus := t1_secondary_bus (dc_type1 usp) in
    let ep_base := u32 (group_start - FIRST_DSP_IDX c) in
    dsp ← (if negb (usp_sec_bus =? 0) && (bus =? usp_sec_bus) && (function =? 0)
           then first_in_group (Z.to_nat group_count) 0 (fun i => Done (device =? i)) else Done None);
    match dsp with
    | Some i => Done (Some (Z.to_nat (u32 (group_start + i))))
    | None =>
      ep ← first_in_group (Z.to_nat group_count) 0 (fun i =>
        ep_cfg ← dev_at (devs_config c) (Z.to_nat (u32 (FIRST_PF_IDX c + ep_base + i)));
        dsp_cfg ← dev_at (devs_config c) (Z.to_nat (u32 (group_start + i)));
        let dsp_sec_bus := t1_secondary_bus (dc_type1 dsp_cfg) in
        Done (negb (dsp_sec_bus =? 0) && (bus =? dsp_sec_bus) && (device =? 0) && (function =? 0) && dc_device_present ep_cfg));
      Done (match ep with Some i => Some (Z.to_nat (u32 (FIRST_PF_IDX c + ep_base + i))) | None => None end)
    end
  else Done None.

Definition find_device_by_bdf (c : tlp_context) (dsp_id bus device function tlp_type : Z) : res (tlp_context * nat) :=
  let key := BDF_MAP_KEY tlp_type (BDF bus device function) in
  hit ← lookup_device_by_key c key;
  match hit with
  | Some d => Done (c, d)
  | None =>
    if num_nv_switch_tlp_dsp c <=? dsp_id then Done (c, Z.to_nat (DUMMY_DEV_IDX c))
    else
      found ← search_topology c dsp_id bus device function tlp_type;
      match found with
      | Some d => c ← update_bdf_map c key d; Done (c, d)
      | None => Done (c, Z.to_nat (DUMMY_DEV_IDX c))
      end
  end.

(** ** The queue of credits is a bounded queue *)

(** The credits in the queue, the oldest first. *)
Definition acg_list (c : tlp_context) : list Z :=
  match acg_queue c with
  | None => []
  | Some q => (fun k => q !!! Z.to_nat ((acg_queue_head c + Z.of_nat k) mod acg_queue_size c)) <$> seq 0 (Z.to_nat (acg_queue_count c))
  end.

Definition acg_wf (c : tlp_context) : Prop :=
  match acg_queue c with
  | None => acg_queue_count c = 0
  | Some q =>
    Z.of_nat (length q) = acg_queue_size c /\ acg_queue_size c < 65536 /\ 0 <= acg_queue_count c <= acg_queue_size c /\
    (acg_queue_size c = 0 \/ 0 <= acg_queue_head c < acg_queue_size c /\
       acg_queue_tail c = (acg_queue_head c + acg_queue_count c) mod acg_queue_size c)
  end.

(** Everything but the queue. *)
Definition ctx_rest (c : tlp_context) :=
  (devs_config c, num_dev_types c, num_devices c, num_ep c, num_dsp c, num_bridges c, dev_type_idx c,
   (num_nv_switch_tlp_dsp c, num_ep_per_nv_switch_tlp_dsp c, num_ep_extra_per_nv_switch_tlp_dsp c, bdf_map c, bdf_entries c),
   (transaction_region_memories c, transaction_region_size c)).

Lemma length_acg_list c : acg_wf c -> Z.of_nat (length (acg_list c)) = acg_queue_count c.
Proof.
  unfold acg_wf, acg_list. destruct (acg_queue c); cbn.
  - intros (_ & _ & ? & _). rewrite length_fmap, length_seq. lia.
  - by intros ->.
Qed.

(** Positions of a ring less than its size apart are different. *)
Lemma ring_neq n h j k : 0 < n -> 0 <= j < k -> k < j + n -> (h + j) mod n <> (h + k) mod n.
Proof.
  intros Hn Hj Hk E. pose proof (Z.div_mod (h + j) n) as E1. pose proof (Z.div_mod (h + k) n) as E2.
  assert (k - j = n * ((h + k) / n - (h + j) / n)) as E3 by lia.
  assert (0 < (h + k) / n - (h + j) / n < 1); [|lia].
  split; apply (Z.mul_lt_mono_pos_l n); lia.
Qed.

Lemma acg_push_spec c r : acg_wf c -> exists e c', acg_queue_push c r = Done (e, c') /\ acg_wf c' /\ ctx_rest c' = ctx_rest c /\
  acg_queue_size c' = acg_queue_size c /\
  (e = DOCA_SUCCESS /\ Z.of_nat (length (acg_list c)) < acg_queue_size c /\ acg_list c' = acg_list c ++ [r] \/
   e = DOCA_ERROR_NO_MEMORY /\ c' = c /\ (acg_queue c = None \/ Z.of_nat (length (acg_list c)) = acg_queue_size c)).
Proof.
  intros Hwf. pose proof (length_acg_list c Hwf) as Hlen. unfold acg_queue_push.
  destruct (acg_queue c) as [q|] eqn:Eq; [|eauto 12].
  pose proof Hwf as Hw. unfold acg_wf in Hw. rewrite Eq in Hw. destruct Hw as (Hq & Hs & Hc & Hr).
  destruct (Z.leb_spec (acg_queue_size c) (acg_queue_count c)); [eexists _, _; do 4 (split; [done|]); right; split; [done|]; split; [done|]; right; lia|].
  destruct Hr as [?|[Hh Ht]]; [lia|].
  pose proof (Z.mod_pos_bound (acg_queue_head c + acg_queue_count c) (acg_queue_size c) ltac:(lia)) as Hb.
  destruct (Z.ltb_spec (acg_queue_tail c) (Z.of_nat (length q))); [|lia].
  pose proof (Z.mod_pos_bound (acg_queue_tail c + 1) (acg_queue_size c) ltac:(lia)) as Hb2.
  eexists _, _. split; [done|]. split; [|split; [done|split; [done|left; split; [done|split; [lia|]]]]].
  - unfold acg_wf. cbn. rewrite length_insert, !u16_small by lia. repeat split; try lia. right. split; [done|].
    rewrite Ht, Zplus_mod_idemp_l. f_equal. lia.
  - unfold acg_list. cbn. rewrite Eq, u16_small by lia. rewrite Z2Nat.inj_add, Nat.add_1_r, seq_S, fmap_app by lia. cbn. f_equal.
    + apply list_fmap_ext. intros i k Hk. apply lookup_seq in Hk as [-> Hk]. cbn.
      rewrite list_lookup_total_insert_ne; [done|]. rewrite Ht.
      intros E. apply Z2Nat.inj in E; [|apply Z.mod_pos_bound; lia..].
      symmetry in E. revert E. apply ring_neq; lia.
    + rewrite Z2Nat.id, <- Ht by lia. f_equal. apply list_lookup_total_insert_eq. lia.
Qed.

Lemma acg_pop_spec c : acg_wf c -> exists c', acg_queue_pop c = Done (head (acg_list c), c') /\ acg_wf c' /\
  ctx_rest c' = ctx_rest c /\ acg_queue_size c' = acg_queue_size c /\ acg_list c' = tail (acg_list c).
Proof.
  intros Hwf. unfold acg_queue_pop, acg_list.
  destruct (acg_queue c) as [q|] eqn:Eq; [|exists c; rewrite Eq; eauto].
  pose proof Hwf as Hw. unfold acg_wf in Hw. rewrite Eq in Hw. destruct Hw as (Hq & Hs & Hc & Hr).
  destruct (Z.eqb_spec (acg_queue_count c) 0) as [E|E]; [exists c; rewrite Eq, E; eauto|].
  destruct Hr as [?|[Hh Ht]]; [lia|].
  pose proof (Z.mod_pos_bound (acg_queue_head c + 1) (acg_queue_size c) ltac:(lia)) as Hb2.
  replace (Z.to_nat (acg_queue_count c)) with (S (Z.to_nat (acg_queue_count c - 1))) by lia.
  cbn [seq]. rewrite <- fmap_S_seq. cbn. rewrite Z.add_0_r, (Z.mod_small (acg_queue_head c)) by lia.
  unfold at_. rewrite list_lookup_lookup_total_lt by lia. cbn.
  eexists. split; [done|]. split; [|split; [done|split; [done|]]].
  - unfold acg_wf. cbn. rewrite ?Eq, !u16_small by lia. repeat split; try lia. right. split; [lia|].
    rewrite Ht, Zplus_mod_idemp_l. f_equal. lia.
  - cbn. rewrite ?Eq, !u16_small, <- list_fmap_compose by lia. apply list_fmap_ext. intros i k _. cbn.
    rewrite Zplus_mod_idemp_l. do 3 f_equal. lia.
Qed.

Lemma flush_spec c fuel : acg_wf c -> (length (acg_list c) < fuel)%nat -> exists c', flush_acg fuel c = Done (acg_list c, c') /\
  acg_wf c' /\ ctx_rest c' = ctx_rest c /\ acg_queue_size c' = acg_queue_size c /\ acg_list c' = [].
Proof.
  revert c. induction fuel as [|fuel IH]; intros c Hwf Hf; [lia|]. cbn [flush_acg].
  destruct (acg_pop_spec c Hwf) as (c1 & -> & Hwf1 & Hr & Hs & Hl). cbn.
  destruct (acg_list c) as [|r l] eqn:E; cbn in *; [by eauto 10|].
  destruct (IH c1 Hwf1) as (c2 & -> & ? & ? & ? & ?); [rewrite Hl; lia|]. cbn. rewrite Hl. eexists. repeat split; eauto; congruence.
Qed.

(** *** Whole runs *)

Inductive acg_op := AcgPush (r : Z) | AcgPop.
(** What a caller sees: whether a credit was accepted, or the credit it gets. *)
Inductive acg_out := AcgAccepted (ok : bool) | AcgGot (r : option Z).

Fixpoint acg_run (ops : list acg_op) (c : tlp_context) : res (list acg_out * tlp_context) :=
  match ops with
  | [] => Done ([], c)
  | AcgPush r :: ops => '(e, c) ← acg_queue_push c r; '(o, c) ← acg_run ops c; Done (AcgAccepted (is_success e) :: o, c)
  | AcgPop :: ops => '(r, c) ← acg_queue_pop c; '(o, c) ← acg_run ops c; Done (AcgGot r :: o, c)
  end.

(** The bounded queue: what the operations return and leave. *)
Fixpoint fifo_run (n : Z) (ops : list acg_op) (l : list Z) : list acg_out * list Z :=
  match ops with
  | [] => ([], l)
  | AcgPush r :: ops =>
    let ok := Z.of_nat (length l) <? n in
    let '(o, l) := fifo_run n ops (if ok then l ++ [r] else l) in (AcgAccepted ok :: o, l)
  | AcgPop :: ops => let '(o, l') := fifo_run n ops (tail l) in (AcgGot (head l) :: o, l')
  end.

Lemma acg_run_spec ops c : acg_wf c -> is_Some (acg_queue c) ->
  exists c', acg_run ops c = Done ((fifo_run (acg_queue_size c) ops (acg_list c)).1, c') /\ acg_wf c' /\
    acg_list c' = (fifo_run (acg_queue_size c) ops (acg_list c)).2 /\ ctx_rest c' = ctx_rest c.
Proof.
  revert c. induction ops as [|[r|] ops IH]; intros c Hwf Hq; cbn; [eauto| |].
  - destruct (acg_push_spec c r Hwf) as (e & c1 & Ep & Hwf1 & Hr1 & Hs1 & Hcase). rewrite Ep. cbn.
    destruct (IH c1 Hwf1) as (c2 & -> & ? & Hl & Hr2).
    { unfold acg_queue_push in Ep. destruct Hq as [q Hq]. rewrite Hq in Ep. repeat case_match; simplify_eq/=; rewrite ?Hq; eauto. }
    cbn. destruct Hcase as [(-> & Hlt & El)|(-> & -> & Hfull)]; exists c2.
    + rewrite (proj2 (Z.ltb_lt _ _) Hlt), Hs1, El in *. cbn. destruct (fifo_run _ ops _). cbn in *. split_and!; [done..|congruence].
    + destruct Hfull as [Hn|Hfull]; [rewrite Hn in Hq; by destruct Hq|].
      rewrite (proj2 (Z.ltb_ge _ _)) by lia. cbn. destruct (fifo_run _ ops _). cbn in *. done.
  - destruct (acg_pop_spec c Hwf) as (c1 & Ep & Hwf1 & Hr1 & Hs1 & El). rewrite Ep. cbn.
    destruct (IH c1 Hwf1) as (c2 & -> & ? & Hl & Hr2).
    { unfold acg_queue_pop in Ep. destruct Hq as [q Hq]. rewrite Hq in Ep. repeat case_match; simplify_eq/=; rewrite ?Hq; eauto.
      destruct (at_ q _); simplify_eq/=; rewrite ?Hq; eauto. }
    cbn. exists c2. rewrite Hs1, El in *. destruct (fifo_run _ ops _). cbn in *. split_and!; [done..|congruence].
Qed.

(** C20: the credits are a bounded queue. After [init_acg_queue] has set the queue up with the
    capacity that the device reports, every sequence of pushes and pops returns, without access
    outside the array, what a first-in first-out queue of this capacity returns: a credit is refused
    exactly when the queue is full and otherwise comes out once, in its turn. The loop that empties
    the queue terminates and gets exactly the credits that are left, in order. *)
Theorem acg_refines c0 size ops c : 0 <= size < 65536 -> init_acg_queue (DOCA_SUCCESS, size) true c0 = (DOCA_SUCCESS, c) ->
  exists c', acg_run ops c = Done ((fifo_run size ops []).1, c') /\ ctx_rest c' = ctx_rest c0 /\
    exists c'', flush_acg (S (Z.to_nat size)) c' = Done ((fifo_run size ops []).2, c'') /\ acg_queue_pop c'' = Done (None, c'').
Proof.
  intros Hs [= <-].
  match goal with |- context [acg_run ops ?x] => set (c := x) end.
  assert (acg_wf c) as Hwf. { unfold acg_wf. cbn. rewrite length_replicate. repeat split; try lia. destruct (decide (size = 0)); [by left|right].
    split; [lia|]. by rewrite Z.mod_0_l. }
  destruct (acg_run_spec ops c Hwf) as (c1 & E & Hwf1 & Hl & Hr); [by eexists|].
  change (acg_queue_size c) with size in *. change (acg_list c) with ([] : list Z) in *.
  exists c1. split; [done|]. split; [done|].
  destruct (flush_spec c1 (S (Z.to_nat size)) Hwf1) as (c2 & E2 & Hwf2 & Hr2 & Hs2 & Hl2).
  { rewrite Hl. assert (forall ops l, Z.of_nat (length l) <= size -> Z.of_nat (length (fifo_run size ops l).2) <= size) as Hb.
    { clear. induction ops as [|[r|] ops IH]; intros l Hl; cbn; [done| |].
      - destruct (Z.ltb_spec (Z.of_nat (length l)) size);
          [specialize (IH (l ++ [r])); rewrite length_app in IH; cbn in IH|specialize (IH l)];
          destruct (fifo_run _ ops _); cbn in *; apply IH; lia.
      - specialize (IH (tail l)). destruct l; cbn in *; destruct (fifo_run _ ops _); cbn in *; apply IH; lia. }
    specialize (Hb ops []). cbn in Hb. lia. }
  exists c2. rewrite E2, Hl. split; [done|].
  pose proof (length_acg_list c2 Hwf2) as Hc. rewrite Hl2 in Hc. cbn in Hc.
  unfold acg_queue_pop. destruct (acg_queue c2); [|done]. by rewrite <- Hc.
Qed.

Lemma acg_refines_witness : exists c',
  acg_run [AcgPush 7; AcgPush 8; AcgPush 9; AcgPop; AcgPush 10] (init_acg_queue (DOCA_SUCCESS, 2) true zero_ctx).2 =
  Done ([AcgAccepted true; AcgAccepted true; AcgAccepted false; AcgGot (Some 7); AcgAccepted true], c') /\
  exists c'', flush_acg 3 c' = Done ([8; 10], c'').
Proof.
  destruct (acg_refines zero_ctx 2 [AcgPush 7; AcgPush 8; AcgPush 9; AcgPop; AcgPush 10]
              (init_acg_queue (DOCA_SUCCESS, 2) true zero_ctx).2) as (c' & E & _ & c'' & E' & _); [lia|reflexivity|].
  exists c'. split; [exact E|]. exists c''. exact E'.
Defined.

(** ** The topology *)

(** The numbers that [init_tlp_context] computes; the command line accepts up to [MAX_NUM_EP] endpoints. *)
Record topo_wf (c : tlp_context) : Prop := {
  tw_nv : 0 < num_nv_switch_tlp_dsp c < 256;
  tw_ep : 0 <= num_ep c <= MAX_NUM_EP;
  tw_dsp : num_dsp c = num_ep c;
  tw_bridges : num_bridges c = num_nv_switch_tlp_dsp c + num_ep c;
  tw_devices : num_devices c = num_nv_switch_tlp_dsp c + 2 * num_ep c + 1;
  tw_base : num_ep_per_nv_switch_tlp_dsp c = num_ep c / num_nv_switch_tlp_dsp c;
  tw_extra : num_ep_extra_per_nv_switch_tlp_dsp c = num_ep c mod num_nv_switch_tlp_dsp c;
}.

(** The number of bridges of the switches before [d]. *)
Definition group_off (c : tlp_context) (d : Z) : Z :=
  d * num_ep_per_nv_switch_tlp_dsp c + Z.min d (num_ep_extra_per_nv_switch_tlp_dsp c).

Lemma init_tlp_context_wf types eps nv c : 0 <= eps <= MAX_NUM_EP -> 0 <= nv < 256 ->
  init_tlp_context true true zero_ctx types eps nv = (DOCA_SUCCESS, c) ->
  topo_wf c /\ num_nv_switch_tlp_dsp c = nv /\ num_ep c = eps /\ num_dev_types c = types /\ dev_type_idx c = 0 /\
  bdf_map c = replicate 256 None /\
  bdf_entries c = replicate (Z.to_nat (num_devices c)) {| be_key := 0; be_dev_cfg := None; be_next := None |} /\
  acg_queue c = None /\ acg_queue_count c = 0.
Proof.
  unfold MAX_NUM_EP. intros He Hn E. unfold init_tlp_context in E. destruct (Z.eqb_spec nv 0) as [|Hz]; [done|].
  injection E as <-. split; [|done]. assert (0 < 4294967296) by lia.
  split; cbn -[u32]; unfold MAX_NUM_EP, DUMMY_DEV_NUM; rewrite ?u32_small by (rewrite ?u32_small by lia; lia); rewrite ?u32_small by lia; lia || done.
Qed.

Section Topology.
Context (c : tlp_context) (Hc : topo_wf c).
Local Abbreviation nv := (num_nv_switch_tlp_dsp c).
Local Abbreviation off := (group_off c).

Lemma base_bounds : 0 <= num_ep_per_nv_switch_tlp_dsp c /\ 0 <= num_ep_extra_per_nv_switch_tlp_dsp c < nv /\
  nv * num_ep_per_nv_switch_tlp_dsp c + num_ep_extra_per_nv_switch_tlp_dsp c = num_ep c.
Proof.
  destruct Hc as [Hnv Hep _ _ _ -> ->]. split; [apply Z.div_pos; lia|]. split; [apply Z.mod_pos_bound; lia|].
  rewrite <- Z.div_mod; lia.
Qed.

Lemma group_off_0 : off 0 = 0.
Proof. unfold group_off. pose proof base_bounds. lia. Qed.
Lemma group_off_last : off nv = num_ep c.
Proof. unfold group_off. pose proof base_bounds. lia. Qed.
Lemma group_off_mono d e : 0 <= d <= e -> off d <= off e.
Proof. unfold group_off. pose proof base_bounds. intros. assert (d * num_ep_per_nv_switch_tlp_dsp c <= e * num_ep_per_nv_switch_tlp_dsp c) by (apply Z.mul_le_mono_nonneg_r; lia). lia. Qed.
Lemma group_off_range d : 0 <= d <= nv -> 0 <= off d <= num_ep c.
Proof. intros. rewrite <- group_off_0 at 1. rewrite <- group_off_last. split; apply group_off_mono; lia. Qed.

Lemma get_dsp_group_spec d : 0 <= d < nv -> get_dsp_group c d = (nv + off d, off (d + 1) - off d).
Proof.
  intros Hd. pose proof base_bounds. pose proof (group_off_range d ltac:(lia)). pose proof (group_off_range (d + 1) ltac:(lia)).
  pose proof (group_off_mono d (d + 1) ltac:(lia)). pose proof (tw_nv c Hc). pose proof (tw_ep c Hc). unfold MAX_NUM_EP in *.
  unfold get_dsp_group, FIRST_DSP_IDX.
  assert ((if d <? num_ep_extra_per_nv_switch_tlp_dsp c then d else num_ep_extra_per_nv_switch_tlp_dsp c) =
          Z.min d (num_ep_extra_per_nv_switch_tlp_dsp c)) as -> by (destruct (Z.ltb_spec d (num_ep_extra_per_nv_switch_tlp_dsp c)); lia).
  rewrite <- Z.add_assoc. fold (off d).
  assert (num_ep_per_nv_switch_tlp_dsp c + (if d <? num_ep_extra_per_nv_switch_tlp_dsp c then 1 else 0) = off (d + 1) - off d) as ->.
  { unfold group_off in *. destruct (Z.ltb_spec d (num_ep_extra_per_nv_switch_tlp_dsp c)); lia. }
  by rewrite !u32_small by lia.
Qed.

(** Every bridge is in exactly one group. *)
Lemma group_of k : 0 <= k < num_ep c -> exists d, 0 <= d < nv /\ off d <= k < off (d + 1).
Proof.
  intros Hk. assert (forall n, (Z.of_nat n <= nv) -> k < off (Z.of_nat n) -> exists d, 0 <= d < Z.of_nat n /\ off d <= k < off (d + 1)) as H.
  { induction n as [|n IH]; intros Hn Hlt; [change (Z.of_nat 0) with 0 in Hlt; rewrite group_off_0 in Hlt; lia|].
    rewrite Nat2Z.inj_succ in *. destruct (Z.lt_ge_cases k (off (Z.of_nat n))).
    - destruct IH as (d & ? & ?); [lia|done|]. exists d. lia.
    - exists (Z.of_nat n). rewrite Z.add_1_r. lia. }
  pose proof (tw_nv c Hc). destruct (H (Z.to_nat nv)) as (d & ? & ?).
  - lia.
  - rewrite Z2Nat.id, group_off_last; lia.
  - exists d. lia.
Qed.
Lemma group_unique k d e : 0 <= d -> 0 <= e -> off d <= k < off (d + 1) -> off e <= k < off (e + 1) -> d = e.
Proof.
  intros. destruct (Z.lt_trichotomy d e) as [?|[?|?]]; [|done|].
  - pose proof (group_off_mono (d + 1) e). lia.
  - pose proof (group_off_mono (e + 1) d). lia.
Qed.

Lemma upd_dev_spec f i l : (i < length l)%nat -> exists l', upd_dev f i l = Done l' /\ length l' = length l /\
  l' !! i = f <$> (l !! i) /\ forall j, j <> i -> l' !! j = l !! j.
Proof.
  intros Hi. unfold upd_dev, dev_at. destruct (lookup_lt_is_Some_2 l i Hi) as [x E]. rewrite E. cbn.
  eexists. split; [done|]. split; [apply length_insert|]. split; [by apply list_lookup_insert_eq|].
  intros j Hj. by apply list_lookup_insert_ne.
Qed.

(** Indices of the upstream port of a switch, of the bridges and of the endpoints. *)
Definition dsp_idx (k : Z) : nat := Z.to_nat (nv + k).
Definition ep_idx (k : Z) : nat := Z.to_nat (nv + num_ep c + k).

Lemma init_group_spec n j o l : Z.of_nat (length l) = num_devices c -> 0 <= o -> 0 <= j -> o + j + Z.of_nat n <= num_ep c ->
  exists l', init_group n c (nv + o) j l = Done l' /\ length l' = length l /\
  (forall k, o + j <= k < o + j + Z.of_nat n -> l' !! dsp_idx k = init_dsp (k - o) <$> (l !! dsp_idx k) /\
     l' !! ep_idx k = init_ep <$> (l !! ep_idx k)) /\
  (forall i, (forall k, o + j <= k < o + j + Z.of_nat n -> i <> dsp_idx k /\ i <> ep_idx k) -> l' !! i = l !! i).
Proof.
  pose proof (tw_nv c Hc). pose proof (tw_ep c Hc) as Hep. pose proof (tw_devices c Hc) as Hdv. pose proof (tw_bridges c Hc) as Hbr.
  unfold MAX_NUM_EP in Hep.
  revert j l. induction n as [|n IH]; intros j l Hl Ho Hj Hn; cbn [init_group].
  { exists l. repeat split; lia || done. }
  unfold FIRST_DSP_IDX, FIRST_PF_IDX. rewrite Hbr, !u32_small by (rewrite ?u32_small by lia; lia).
  replace (nv + o + j) with (nv + (o + j)) by lia. replace (nv + num_ep c + (nv + o - nv) + j) with (nv + num_ep c + (o + j)) by lia.
  fold (dsp_idx (o + j)) (ep_idx (o + j)).
  destruct (upd_dev_spec (init_dsp j) (dsp_idx (o + j)) l) as (l1 & -> & Hl1 & E1 & F1); [unfold dsp_idx; lia|]. cbn.
  destruct (upd_dev_spec init_ep (ep_idx (o + j)) l1) as (l2 & -> & Hl2 & E2 & F2); [unfold ep_idx; lia|]. cbn.
  destruct (IH (j + 1) l2) as (l' & -> & Hl' & E' & F'); [lia..|]. exists l'. split; [done|]. split; [lia|]. split.
  - intros k Hk. destruct (decide (k = o + j)) as [->|Hne].
    + rewrite !F' by (intros; unfold dsp_idx, ep_idx; lia).
      rewrite E2, F2, E1, F1 by (unfold dsp_idx, ep_idx; lia). by replace (o + j - o) with j by lia.
    + destruct (E' k) as [-> ->]; [lia|]. by rewrite !F2, !F1 by (unfold dsp_idx, ep_idx; lia).
  - intros i Hi. rewrite F', F2, F1; [done|apply Hi; lia..|]. intros k Hk. apply Hi. lia.
Qed.

Lemma init_switches_spec n i l : Z.of_nat (length l) = num_devices c -> 0 <= i -> i + Z.of_nat n <= nv ->
  exists l', init_switches n c i l = Done l' /\ length l' = length l /\
  (forall d, i <= d < i + Z.of_nat n -> l' !! USP_IDX d = init_usp <$> (l !! USP_IDX d)) /\
  (forall d k, i <= d < i + Z.of_nat n -> off d <= k < off (d + 1) ->
     l' !! dsp_idx k = init_dsp (k - off d) <$> (l !! dsp_idx k) /\ l' !! ep_idx k = init_ep <$> (l !! ep_idx k)) /\
  (forall x, (forall d, i <= d < i + Z.of_nat n -> x <> USP_IDX d) ->
     (forall k, off i <= k < off (i + Z.of_nat n) -> x <> dsp_idx k /\ x <> ep_idx k) -> l' !! x = l !! x).
Proof.
  pose proof (tw_nv c Hc). pose proof (tw_ep c Hc) as Hep. pose proof (tw_devices c Hc) as Hdv. unfold MAX_NUM_EP in Hep.
  revert i l. induction n as [|n IH]; intros i l Hl Hi Hn; cbn [init_switches].
  { exists l. repeat split; lia || done. }
  rewrite u8_small by lia. rewrite get_dsp_group_spec by lia.
  pose proof (group_off_range i ltac:(lia)) as R1. pose proof (group_off_range (i + 1) ltac:(lia)) as R2.
  pose proof (group_off_mono i (i + 1) ltac:(lia)) as M1.
  pose proof (group_off_mono (i + 1) (i + 1 + Z.of_nat n) ltac:(lia)) as M2.
  pose proof (group_off_range (i + 1 + Z.of_nat n) ltac:(lia)) as R3.
  destruct (upd_dev_spec init_usp (USP_IDX i) l) as (l1 & -> & Hl1 & E1 & F1); [unfold USP_IDX; lia|]. cbn.
  destruct (init_group_spec (Z.to_nat (off (i + 1) - off i)) 0 (off i) l1) as (l2 & -> & Hl2 & E2 & F2); [lia..|]. cbn.
  rewrite Z2Nat.id, Z.add_0_r in E2, F2 by lia. replace (off i + (off (i + 1) - off i)) with (off (i + 1)) in E2, F2 by lia.
  destruct (IH (i + 1) l2) as (l' & -> & Hl' & U' & E' & F'); [lia..|]. exists l'. split; [done|]. split; [lia|]. split; [|split].
  - intros d Hd. destruct (decide (d = i)) as [->|Hne].
    + rewrite F', F2; [done|unfold USP_IDX, dsp_idx, ep_idx; lia..].
    + rewrite U' by lia. rewrite F2, F1; [done|unfold USP_IDX, dsp_idx, ep_idx; lia..].
  - intros d k Hd Hk. destruct (decide (d = i)) as [->|Hne].
    + rewrite !F' by (intros; unfold USP_IDX, dsp_idx, ep_idx; lia).
      destruct (E2 k Hk) as [-> ->]. by rewrite !F1 by (unfold USP_IDX, dsp_idx, ep_idx; lia).
    + pose proof (group_off_mono (i + 1) d ltac:(lia)). pose proof (group_off_range (d + 1) ltac:(lia)). destruct (E' d k) as [-> ->]; [lia|done|].
      by rewrite !F2, !F1 by (intros; unfold USP_IDX, dsp_idx, ep_idx; lia).
  - intros x Hu Hx. replace (i + Z.of_nat (S n)) with (i + 1 + Z.of_nat n) in Hx by lia.
    rewrite F', F2, F1; [done|apply Hu; lia|intros; apply Hx; lia|intros; apply Hu; lia|intros; apply Hx; lia].
Qed.

Lemma init_device_topology_spec : exists l, init_device_topology c = Done {| c with devs_config := l |} /\
  Z.of_nat (length l) = num_devices c /\
  (forall d, 0 <= d < nv -> l !! USP_IDX d = Some (init_usp zero_dev)) /\
  (forall d k, 0 <= d < nv -> off d <= k < off (d + 1) ->
     l !! dsp_idx k = Some (init_dsp (k - off d) zero_dev) /\ l !! ep_idx k = Some (init_ep zero_dev)) /\
  l !! Z.to_nat (DUMMY_DEV_IDX c) = Some (init_dummy zero_dev).
Proof.
  pose proof (tw_nv c Hc). pose proof (tw_ep c Hc) as Hep. pose proof (tw_devices c Hc) as Hdv. pose proof (tw_bridges c Hc) as Hbr.
  unfold MAX_NUM_EP in Hep. unfold init_device_topology. set (l0 := replicate (Z.to_nat (num_devices c)) zero_dev).
  assert (length l0 = Z.to_nat (num_devices c)) as Hl0 by apply length_replicate.
  assert (forall i, Z.of_nat i < num_devices c -> l0 !! i = Some zero_dev) as L0 by (intros; apply lookup_replicate_2; lia).
  destruct (init_switches_spec (Z.to_nat nv) 0 l0) as (l1 & -> & Hl1 & U1 & E1 & F1); [lia..|]. cbn [mbind res_bind].
  assert (DUMMY_DEV_IDX c = nv + 2 * num_ep c) as Hdum by (unfold DUMMY_DEV_IDX; rewrite u32_small; lia).
  destruct (upd_dev_spec init_dummy (Z.to_nat (DUMMY_DEV_IDX c)) l1) as (l2 & -> & Hl2 & E2 & F2); [lia|]. cbn [mbind res_bind].
  exists l2. split; [done|]. split; [lia|]. rewrite Hdum in *. split; [|split].
  - intros d Hd. rewrite F2, U1, L0; [done|unfold USP_IDX; lia..].
  - intros d k Hd Hk. pose proof (group_off_range d ltac:(lia)). pose proof (group_off_range (d + 1) ltac:(lia)).
    rewrite !F2 by (unfold dsp_idx, ep_idx; lia). destruct (E1 d k) as [-> ->]; [lia|done|].
    by rewrite !L0 by (unfold dsp_idx, ep_idx; lia).
  - rewrite E2, F1, L0; [done|lia| |].
    + unfold USP_IDX. lia.
    + rewrite Z.add_0_l, Z2Nat.id, group_off_0, group_off_last by lia. unfold dsp_idx, ep_idx. lia.
Qed.
End Topology.

(** Set-up gives every bridge to one switch. Set-up is refused with no port. Otherwise, with up
    to [MAX_NUM_EP] endpoints, the topology is made without access outside the array of devices: each
    port has its upstream port, every downstream bridge is in the group of exactly one port, at the
    device number that is its place in the group, and has its own endpoint; the groups' sizes differ
    by at most one, and the device after them is the dummy. *)
Theorem topology_groups types eps nv : 0 <= eps <= MAX_NUM_EP -> 0 <= nv < 256 ->
  let '(e, c) := init_tlp_context true true zero_ctx types eps nv in
  (nv = 0 /\ e = DOCA_ERROR_INVALID_VALUE /\ c = zero_ctx) \/
  (e = DOCA_SUCCESS /\ exists l, init_device_topology c = Done {| c with devs_config := l |} /\
   Z.of_nat (length l) = nv + 2 * eps + 1 /\
   (forall d, 0 <= d < nv -> l !! Z.to_nat d = Some (init_usp zero_dev)) /\
   (forall k, 0 <= k < eps -> exists d, (0 <= d < nv /\ (get_dsp_group c d).1 <= nv + k < (get_dsp_group c d).1 + (get_dsp_group c d).2) /\
      (forall d', 0 <= d' < nv /\ (get_dsp_group c d').1 <= nv + k < (get_dsp_group c d').1 + (get_dsp_group c d').2 -> d' = d) /\
      l !! Z.to_nat (nv + k) = Some (init_dsp (nv + k - (get_dsp_group c d).1) zero_dev) /\
      l !! Z.to_nat (nv + eps + k) = Some (init_ep zero_dev)) /\
   (forall d d', 0 <= d < nv -> 0 <= d' < nv -> (get_dsp_group c d).2 <= (get_dsp_group c d').2 + 1) /\
   l !! Z.to_nat (nv + 2 * eps) = Some (init_dummy zero_dev)).
Proof.
  intros He Hn. destruct (decide (nv = 0)) as [->|Hz]; [by left|].
  destruct (init_tlp_context true true zero_ctx types eps nv) as [e c] eqn:E. right.
  assert (e = DOCA_SUCCESS) as -> by (unfold init_tlp_context in E; destruct (Z.eqb_spec nv 0); congruence). split; [done|].
  destruct (init_tlp_context_wf types eps nv c He Hn E) as (Hc & <- & <- & _).
  destruct (init_device_topology_spec c Hc) as (l & El & Hl & Hu & Hd & Hdum).
  pose proof (tw_ep c Hc) as Hep. pose proof (tw_bridges c Hc) as Hbr. unfold MAX_NUM_EP in *.
  exists l. split; [done|]. split; [rewrite Hl; apply (tw_devices c Hc)|]. split; [done|]. split; [|split].
  - intros k Hk. destruct (group_of c Hc k Hk) as (d & Hdr & Hkd). exists d.
    rewrite get_dsp_group_spec by done. cbn [fst snd]. split; [lia|]. split.
    + intros d' [Hd' Hk']. rewrite get_dsp_group_spec in Hk' by done. cbn in Hk'. apply (group_unique c Hc k); lia.
    + replace (_ + k - _) with (k - group_off c d) by lia. by apply Hd.
  - intros d d' Hd1 Hd2. rewrite !get_dsp_group_spec by done. cbn. pose proof (base_bounds c Hc). unfold group_off. lia.
  - unfold DUMMY_DEV_IDX in Hdum. rewrite u32_small in Hdum by lia. rewrite <- Hdum. f_equal. lia.
Qed.

Lemma topology_groups_witness : exists c l, init_tlp_context true true zero_ctx 1 5 2 = (DOCA_SUCCESS, c) /\
  init_device_topology c = Done {| c with devs_config := l |} /\
  get_dsp_group c 0 = (2, 3) /\ get_dsp_group c 1 = (5, 2) /\ l !! 12%nat = Some (init_dummy zero_dev).
Proof.
  destruct (topology_groups 1 5 2) as [[? _]|(_ & l & E & _ & _ & _ & _ & Hd)]; [unfold MAX_NUM_EP; lia|lia|lia|].
  eexists _, l. repeat split; [exact E|exact Hd].
Defined.

(** ** The table of devices is a list with the latest entry first *)

(** The key and the chain of a device's entry. *)
Definition ent_key (es : list bdf_map_entry) (i : nat) : Z := match es !! i with Some e => be_key e | None => 0 end.
Definition ent_hash (es : list bdf_map_entry) (i : nat) : Z := ent_key es i mod BDF_MAP_SIZE.

(** [l] is the chain that starts at [p]. *)
Fixpoint chain (es : list bdf_map_entry) (p : option nat) (l : list nat) : Prop :=
  match l with
  | [] => p = None
  | i :: l => p = Some i /\ exists e, es !! i = Some e /\ chain es (be_next e) l
  end.

Definition chains_ok (c : tlp_context) (log : list nat) : Prop :=
  forall h, 0 <= h < BDF_MAP_SIZE -> exists p, bdf_map c !! Z.to_nat h = Some p /\
    chain (bdf_entries c) p (filter (fun i => ent_hash (bdf_entries c) i = h) log).

(** The devices in the table, the latest first. *)
Record map_wf (c : tlp_context) (log : list nat) : Prop := {
  mw_size : length (bdf_map c) = 256%nat;
  mw_nodup : NoDup log;
  mw_dev : forall i e, bdf_entries c !! i = Some e -> be_dev_cfg e = if decide (i ∈ log) then Some i else None;
  mw_in : forall i, i ∈ log -> (i < length (bdf_entries c))%nat;
  mw_chains : chains_ok c log;
}.

(** Only links change. *)
Definition same_keys (es es' : list bdf_map_entry) : Prop :=
  length es' = length es /\ forall i, (fun e => (be_key e, be_dev_cfg e)) <$> (es' !! i) = (fun e => (be_key e, be_dev_cfg e)) <$> (es !! i).

Lemma same_keys_refl es : same_keys es es.
Proof. done. Qed.
Lemma same_keys_trans a b c : same_keys a b -> same_keys b c -> same_keys a c.
Proof. intros [H1 H2] [H3 H4]. split; [congruence|]. intros i. by rewrite H4. Qed.
Lemma same_keys_next es i e p : es !! i = Some e -> same_keys es (<[i := {| e with be_next := p |}]> es).
Proof.
  intros E. split; [apply length_insert|]. intros j. destruct (decide (j = i)) as [->|Hj].
  - rewrite list_lookup_insert_eq by (by eapply lookup_lt_Some). by rewrite E.
  - by rewrite list_lookup_insert_ne.
Qed.
Lemma same_keys_ent es es' i : same_keys es es' -> ent_key es' i = ent_key es i.
Proof. intros [_ H]. specialize (H i). unfold ent_key. destruct (es' !! i), (es !! i); simplify_eq/=; congruence. Qed.

Lemma chain_frame es es' p l : (forall i, i ∈ l -> es' !! i = es !! i) -> chain es p l -> chain es' p l.
Proof.
  revert p. induction l as [|i l IH]; intros p Hf; cbn; [done|]. intros (-> & e & E & Hl). split; [done|].
  exists e. rewrite Hf by constructor. split; [done|]. apply IH; [|done]. intros j Hj. apply Hf. by constructor.
Qed.

Lemma filter_ext_in {A} (P Q : A -> Prop) `{forall x, Decision (P x), forall x, Decision (Q x)} (l : list A) :
  (forall x, x ∈ l -> P x <-> Q x) -> filter P l = filter Q l.
Proof.
  induction l as [|x l IH]; intros Hpq; [done|]. rewrite !filter_cons.
  assert (P x <-> Q x) as Hx by (apply Hpq; constructor).
  rewrite IH by (intros; apply Hpq; by constructor). destruct (decide (P x)), (decide (Q x)); tauto.
Qed.

Lemma filter_neq_notin (l : list nat) x : x ∉ l -> filter (fun i => i <> x) l = l.
Proof.
  induction l as [|y l IH]; intros Hx; [done|]. rewrite not_elem_of_cons in Hx. destruct Hx as [Hy Hx].
  rewrite filter_cons_True by congruence. by rewrite IH.
Qed.

(** Taking a device out of a chain from an entry on that is not it. *)
Lemma remove_next c j ej entry l fuel : bdf_entries c !! j = Some ej -> chain (bdf_entries c) (be_next ej) l ->
  j <> entry -> NoDup (j :: l) -> (length l < fuel)%nat ->
  exists es' ej', remove_loop fuel c (SlotNext j) entry = Done {| c with bdf_entries := es' |} /\
    same_keys (bdf_entries c) es' /\ (forall i, i ∉ j :: l -> es' !! i = bdf_entries c !! i) /\
    es' !! j = Some ej' /\ chain es' (be_next ej') (filter (fun i => i <> entry) l).
Proof.
  revert j ej fuel. induction l as [|x l IH]; intros j ej fuel Ej Hch Hj Hnd Hf; destruct fuel as [|fuel]; try lia;
    cbn [remove_loop slot_get]; unfold entry_at; rewrite Ej; cbn [mbind res_bind].
  { cbn in Hch. rewrite Hch. exists (bdf_entries c), ej. split; [by destruct c|]. done. }
  destruct Hch as (Hx & ex & Ex & Hch). rewrite Hx. apply list.NoDup_cons in Hnd as [Hjx Hnd]. pose proof Hnd as Hndx.
  apply list.NoDup_cons in Hnd as [Hxl Hnd]. rewrite not_elem_of_cons in Hjx. destruct Hjx as [Hjx Hjl].
  destruct (Nat.eqb_spec x entry) as [->|Hne].
  - rewrite Ex. cbn [mbind res_bind]. unfold slot_set, entry_at, put_entry. rewrite Ej. cbn [mbind res_bind bdf_entries].
    rewrite list_lookup_insert_ne, Ex by done. cbn [mbind res_bind].
    eexists _, {| ej with be_next := be_next ex |}. split; [done|]. split; [|split; [|split]].
    + apply (same_keys_trans _ (<[j := {| ej with be_next := be_next ex |}]> (bdf_entries c))); [by apply same_keys_next|].
      apply (same_keys_next _ entry ex). by rewrite list_lookup_insert_ne.
    + intros i Hi. rewrite !not_elem_of_cons in Hi. rewrite !list_lookup_insert_ne; [done|naive_solver..].
    + rewrite list_lookup_insert_ne by done. apply list_lookup_insert_eq. by eapply lookup_lt_Some.
    + rewrite filter_cons_False by tauto. rewrite filter_neq_notin by done. cbn. eapply chain_frame; [|done].
      intros i Hi. rewrite !list_lookup_insert_ne; [done| |]; intros ->; done.
  - destruct (IH x ex fuel Ex Hch Hne Hndx) as (es' & ex' & -> & Hsk & Hfr & Ex' & Hch'); [cbn in Hf; lia|].
    exists es', ej. split; [done|]. split; [done|]. split; [|split].
    + intros i Hi. apply Hfr. rewrite not_elem_of_cons in Hi. tauto.
    + rewrite Hfr; [done|]. by rewrite not_elem_of_cons.
    + rewrite filter_cons_True by done. cbn. split; [done|]. eauto.
Qed.

Lemma remove_head c h p entry l fuel : bdf_map c !! Z.to_nat h = Some p -> chain (bdf_entries c) p l -> NoDup l -> (length l < fuel)%nat ->
  exists es' p', remove_loop fuel c (SlotHead h) entry = Done {| c with bdf_map := <[Z.to_nat h := p']> (bdf_map c); bdf_entries := es' |} /\
    same_keys (bdf_entries c) es' /\ (forall i, i ∉ l -> es' !! i = bdf_entries c !! i) /\
    chain es' p' (filter (fun i => i <> entry) l).
Proof.
  intros Eh Hch Hnd Hf. destruct fuel as [|fuel]; [lia|]. cbn [remove_loop slot_get]. unfold head_at. rewrite Eh. cbn [mbind res_bind].
  destruct l as [|x l].
  { cbn in Hch. subst p. exists (bdf_entries c), None. rewrite list_insert_id by done. split; [by destruct c|]. done. }
  destruct Hch as (-> & ex & Ex & Hch). pose proof Hnd as Hndx. apply list.NoDup_cons in Hnd as [Hxl Hnd].
  destruct (Nat.eqb_spec x entry) as [->|Hne].
  - unfold entry_at, slot_set, put_head, put_entry. rewrite Ex. cbn [mbind res_bind bdf_entries]. rewrite Ex. cbn [mbind res_bind].
    eexists _, (be_next ex). split; [done|]. split; [by apply same_keys_next|]. split.
    + intros i Hi. rewrite not_elem_of_cons in Hi. rewrite list_lookup_insert_ne; naive_solver.
    + rewrite filter_cons_False by tauto. rewrite filter_neq_notin by done. eapply chain_frame; [|done].
      intros i Hi. rewrite list_lookup_insert_ne; [done|]. by intros ->.
  - destruct (remove_next c x ex entry l fuel) as (es' & ex' & -> & Hsk & Hfr & Ex' & Hch'); [done..|cbn in Hf; lia|].
    exists es', (Some x). rewrite list_insert_id by done. split; [by destruct c|]. split; [done|]. split; [done|].
    rewrite filter_cons_True by done. cbn. eauto.
Qed.

(** *** Lookups *)

Lemma length_log c log : map_wf c log -> (length log <= length (bdf_entries c))%nat.
Proof.
  intros [_ Hnd _ Hin _]. rewrite <- (length_seq (length (bdf_entries c)) 0). apply submseteq_length, NoDup_submseteq; [done|].
  intros i Hi. apply elem_of_seq. specialize (Hin i Hi). lia.
Qed.

(** What a lookup answers for the entry of device [d]: nothing for an endpoint that is absent. *)
Definition visible (c : tlp_context) (d : nat) : option nat :=
  match devs_config c !! d with
  | Some dev => if dc_is_endpoint dev && negb (dc_device_present dev) then None else Some d
  | None => None
  end.

Definition latest (c : tlp_context) (log : list nat) (key : Z) : option nat :=
  head (filter (fun i => ent_key (bdf_entries c) i = key) log).

Lemma lookup_loop_spec c p l key fuel : chain (bdf_entries c) p l ->
  (forall i e, i ∈ l -> bdf_entries c !! i = Some e -> be_dev_cfg e = Some i) ->
  (forall i, i ∈ l -> (i < length (devs_config c))%nat) -> (length l < fuel)%nat ->
  lookup_loop fuel c p key = Done (latest c l key ≫= visible c).
Proof.
  revert p fuel. unfold latest. induction l as [|i l IH]; intros p fuel Hch Hd Hlt Hf; destruct fuel as [|fuel]; try (cbn in Hf; lia); cbn [lookup_loop].
  { cbn in Hch. by subst p. }
  destruct Hch as (-> & e & E & Hch). unfold entry_at. rewrite E. cbn [mbind res_bind].
  assert (ent_key (bdf_entries c) i = be_key e) as Ek by (unfold ent_key; by rewrite E).
  destruct (Z.eqb_spec (be_key e) key) as [<-|Hne].
  - rewrite filter_cons_True by done. cbn [head mbind option_bind]. rewrite (Hd i e); [|constructor|done].
    unfold visible, dev_at. destruct (lookup_lt_is_Some_2 (devs_config c) i) as [dv ->]; [apply Hlt; constructor|]. done.
  - rewrite filter_cons_False by congruence. apply IH; [done| | |cbn in Hf; lia]; intros; [eapply Hd|apply Hlt]; try done; by constructor.
Qed.

(** A lookup finds the latest entry with the key, unless its device is absent. *)
Lemma lookup_refines c log key : map_wf c log -> length (bdf_entries c) = length (devs_config c) ->
  lookup_device_by_key c key = Done (latest c log key ≫= visible c).
Proof.
  intros Hwf Hlen. pose proof (length_log c log Hwf) as Hll. pose proof Hwf as [_ _ Hdev Hin Hch]. unfold lookup_device_by_key, head_at.
  destruct (Hch (key mod BDF_MAP_SIZE)) as (p & -> & Hp); [apply Z.mod_pos_bound; done|]. cbn [mbind res_bind].
  rewrite (lookup_loop_spec c p _ key _ Hp).
  - unfold latest. rewrite list_filter_filter_l; [done|]. intros i <-. done.
  - intros i e Hi E. apply list_elem_of_filter in Hi as [_ Hi]. rewrite (Hdev i e E). by rewrite decide_True.
  - intros i Hi. apply list_elem_of_filter in Hi as [_ Hi]. rewrite <- Hlen. by apply Hin.
  - unfold chain_fuel. pose proof (length_filter (fun i => ent_hash (bdf_entries c) i = key mod BDF_MAP_SIZE) log). lia.
Qed.

(** *** Updates *)

Lemma remove_refines c log d : map_wf c log -> d ∈ log ->
  exists m' es', remove_from_bdf_map c d (ent_key (bdf_entries c) d) = Done {| c with bdf_map := m'; bdf_entries := es' |} /\
    length m' = 256%nat /\ same_keys (bdf_entries c) es' /\
    chains_ok {| c with bdf_map := m'; bdf_entries := es' |} (filter (fun i => i <> d) log).
Proof.
  intros Hwf Hd. pose proof (length_log c log Hwf) as Hll. pose proof Hwf as [Hsz Hnd Hdev Hin Hch].
  unfold remove_from_bdf_map. set (h0 := ent_key (bdf_entries c) d mod BDF_MAP_SIZE).
  assert (0 <= h0 < BDF_MAP_SIZE) as Hh0 by (apply Z.mod_pos_bound; done).
  destruct (Hch h0 Hh0) as (p & Ep & Hp).
  destruct (remove_head c h0 p d _ (chain_fuel c) Ep Hp) as (es' & p' & -> & Hsk & Hfr & Hp').
  { by apply list.NoDup_filter. }
  { unfold chain_fuel. pose proof (length_filter (fun i => ent_hash (bdf_entries c) i = h0) log). lia. }
  eexists _, es'. split; [done|]. split; [by rewrite length_insert|]. split; [done|].
  intros h Hh. cbn. assert (forall i, ent_hash es' i = ent_hash (bdf_entries c) i) as Hhash.
  { intros i. unfold ent_hash. by rewrite (same_keys_ent _ _ _ Hsk). }
  rewrite (list_filter_iff (fun i => ent_hash es' i = h) (fun i => ent_hash (bdf_entries c) i = h)) by (intros i; by rewrite Hhash).
  destruct (decide (h = h0)) as [->|Hne].
  - exists p'. split; [apply list_lookup_insert_eq; rewrite Hsz; unfold BDF_MAP_SIZE in *; lia|].
    rewrite !list_filter_filter in *. erewrite list_filter_iff; [exact Hp'|]. intros i; cbn. tauto.
  - destruct (Hch h Hh) as (q & Eq & Hq). exists q. rewrite list_lookup_insert_ne by lia. split; [done|].
    rewrite list_filter_filter.
    rewrite (filter_ext_in (fun i => ent_hash (bdf_entries c) i = h /\ i <> d) (fun i => ent_hash (bdf_entries c) i = h)).
    2: { intros i _. split; [tauto|]. intros Hi. split; [done|]. intros ->. apply Hne. by rewrite <- Hi. }
    eapply chain_frame; [|exact Hq]. intros i Hi. apply list_elem_of_filter in Hi as [Hi _]. apply Hfr.
    rewrite list_elem_of_filter. intros [Hi' _]. congruence.
Qed.

(** The table after an update for device [d]: a device keeps its place if its key is the same, and comes
    first with its new key otherwise. *)
Definition log_update (es : list bdf_map_entry) (log : list nat) (key : Z) (d : nat) : list nat :=
  if bool_decide (d ∈ log) && (ent_key es d =? key) then log else d :: filter (fun i => i <> d) log.

(** Putting a device at the front of the chain of its new key. *)
Lemma insert_chains c l key d p : length (bdf_map c) = 256%nat -> (d < length (bdf_entries c))%nat -> chains_ok c l ->
  bdf_map c !! Z.to_nat (key mod BDF_MAP_SIZE) = Some p -> d ∉ l ->
  chains_ok {| c with bdf_map := <[Z.to_nat (key mod BDF_MAP_SIZE) := Some d]> (bdf_map c);
                      bdf_entries := <[d := {| be_key := key; be_dev_cfg := Some d; be_next := p |}]> (bdf_entries c) |} (d :: l).
Proof.
  intros Hsz Hd Hch Ep Hdl h Hh. cbn [bdf_map bdf_entries]. set (en := {| be_key := key; be_dev_cfg := Some d; be_next := p |}).
  set (es := bdf_entries c) in *. assert (0 <= key mod BDF_MAP_SIZE < BDF_MAP_SIZE) as Hk by (apply Z.mod_pos_bound; done).
  assert (<[d := en]> es !! d = Some en) as Ed by (by apply list_lookup_insert_eq).
  assert (forall i, i ∈ l -> <[d := en]> es !! i = es !! i) as Hl by (intros i Hi; rewrite list_lookup_insert_ne; [done|congruence]).
  assert (forall q, filter (fun i => ent_hash (<[d := en]> es) i = q) l = filter (fun i => ent_hash es i = q) l) as Hext.
  { intros q. apply filter_ext_in. intros i Hi. unfold ent_hash, ent_key. by rewrite Hl. }
  assert (forall q r, chain es r (filter (fun i => ent_hash es i = q) l) ->
            chain (<[d := en]> es) r (filter (fun i => ent_hash es i = q) l)) as Hfr.
  { intros q r. apply chain_frame. intros i Hi. apply list_elem_of_filter in Hi as [_ Hi]. by apply Hl. }
  assert (ent_hash (<[d := en]> es) d = key mod BDF_MAP_SIZE) as Ehd by (unfold ent_hash, ent_key; by rewrite Ed).
  destruct (Hch h Hh) as (r & Er & Hr). fold es in Hr. destruct (decide (h = key mod BDF_MAP_SIZE)) as [->|Hne].
  - exists (Some d). split; [apply list_lookup_insert_eq; rewrite Hsz; unfold BDF_MAP_SIZE in *; lia|].
    rewrite filter_cons_True, Hext by done. cbn. split; [done|]. exists en. split; [done|]. cbn.
    apply Hfr. congruence.
  - exists r. rewrite list_lookup_insert_ne by lia. split; [done|]. rewrite filter_cons_False, Hext by congruence. by apply Hfr.
Qed.

Lemma update_refines c log key d : map_wf c log -> (d < length (bdf_entries c))%nat ->
  exists m' es', update_bdf_map c key d = Done {| c with bdf_map := m'; bdf_entries := es' |} /\
    map_wf {| c with bdf_map := m'; bdf_entries := es' |} (log_update (bdf_entries c) log key d) /\
    length es' = length (bdf_entries c) /\ ent_key es' d = key /\ forall i, i <> d -> ent_key es' i = ent_key (bdf_entries c) i.
Proof.
  intros Hwf Hd. pose proof Hwf as [Hsz Hnd Hdev Hin Hch]. unfold update_bdf_map, entry_at, log_update.
  destruct (lookup_lt_is_Some_2 (bdf_entries c) d Hd) as [e E]. rewrite E. cbn [mbind res_bind].
  assert (ent_key (bdf_entries c) d = be_key e) as Ek by (unfold ent_key; by rewrite E). rewrite Ek.
  rewrite (Hdev d e E).
  assert (bool_decide ((if decide (d ∈ log) then Some d else None) = Some d) = bool_decide (d ∈ log)) as ->.
  { destruct (decide (d ∈ log)); [by rewrite !bool_decide_true|by rewrite !bool_decide_false]. }
  destruct (bool_decide (d ∈ log) && (be_key e =? key)) eqn:Ehit.
  { apply andb_true_iff in Ehit as [_ Ehit]. exists (bdf_map c), (bdf_entries c). split; [by destruct c|]. split; [by destruct c|].
    split; [done|]. split; [lia|done]. }
  assert (exists m1 es1, (if bool_decide ((if decide (d ∈ log) then Some d else None) = None) then Done c
      else remove_from_bdf_map c d (be_key e)) = Done {| c with bdf_map := m1; bdf_entries := es1 |} /\
    length m1 = 256%nat /\ same_keys (bdf_entries c) es1 /\
    chains_ok {| c with bdf_map := m1; bdf_entries := es1 |} (filter (fun i => i <> d) log)) as (m1 & es1 & -> & Hsz1 & Hsk1 & Hch1).
  { destruct (decide (d ∈ log)) as [Hl|Hl].
    - rewrite bool_decide_false by done. rewrite <- Ek. by apply remove_refines.
    - rewrite bool_decide_true by done. exists (bdf_map c), (bdf_entries c). split; [by destruct c|]. split; [done|]. split; [done|].
      rewrite filter_neq_notin by done. by destruct c. }
  cbn [mbind res_bind]. assert (d < length es1)%nat as Hd1 by (by rewrite (proj1 Hsk1)).
  assert (0 <= key mod BDF_MAP_SIZE < BDF_MAP_SIZE) as Hh by (apply Z.mod_pos_bound; done).
  destruct (Hch1 _ Hh) as (p & Ep & Hp). cbn in Ep, Hp. unfold head_at. cbn [bdf_map bdf_entries]. rewrite Ep. cbn [mbind res_bind].
  destruct (lookup_lt_is_Some_2 es1 d Hd1) as [e1 ->]. cbn [mbind res_bind]. unfold put_head, put_entry. cbn [bdf_map bdf_entries].
  set (en := {| be_key := key; be_dev_cfg := Some d; be_next := p |}).
  assert (<[d := en]> es1 !! d = Some en) as Ed by (by apply list_lookup_insert_eq).
  assert (forall i, i <> d -> ent_key (<[d := en]> es1) i = ent_key (bdf_entries c) i) as Hoth.
  { intros i Hi. rewrite <- (same_keys_ent _ _ i Hsk1). unfold ent_key. by rewrite list_lookup_insert_ne. }
  assert (ent_key (<[d := en]> es1) d = key) as Hkd by (unfold ent_key; by rewrite Ed).
  eexists _, _. split; [done|]. split; [|split; [rewrite length_insert; apply Hsk1|done]].
  split; cbn [bdf_map bdf_entries].
  - by rewrite length_insert.
  - apply list.NoDup_cons. split; [rewrite list_elem_of_filter; naive_solver|by apply list.NoDup_filter].
  - intros i e' Ei. destruct (decide (i = d)) as [->|Hi].
    + rewrite Ed in Ei. injection Ei as <-. rewrite decide_True by constructor. done.
    + rewrite list_lookup_insert_ne in Ei by done. destruct Hsk1 as [_ Hsk1]. specialize (Hsk1 i). rewrite Ei in Hsk1. cbn in Hsk1.
      destruct (bdf_entries c !! i) as [e0|] eqn:E0; [|done]. cbn in Hsk1. injection Hsk1 as Hk0 Hd0. rewrite Hd0, (Hdev i e0 E0).
      apply decide_ext. rewrite elem_of_cons, list_elem_of_filter. naive_solver.
  - intros i Hi. rewrite length_insert, (proj1 Hsk1). apply elem_of_cons in Hi as [->|Hi]; [done|].
    apply list_elem_of_filter in Hi as [_ Hi]. by apply Hin.
  - apply (insert_chains {| c with bdf_map := m1; bdf_entries := es1 |}); [done..|rewrite list_elem_of_filter; naive_solver].
Qed.
