(* ===== verification/BridgeSlot.v ===== *)
(** * BridgeSlot: slots of the TLP bridge handler sample,
      src/samples/doca_devemu/devemu_pci_device_tlp_bridge_handler/
      devemu_pci_device_tlp_bridge_handler_sample.c

    Plugging and unplugging endpoints, the interrupts that tell the host, set-up and
    clean-up. [bridge_ok] is the invariant of the sample: no handle of the library or
    credit is lost, no link is up without power, and registers and memories have their
    types; BridgeRun.v proves it of every run. [msi_roundtrip] says that an interrupt
    carries what the host programmed.

    Handles of the library and credits are numbers. What the library answers is an
    argument of the functions that call it ([create_answers], [destroy_answers]); the
    handles that exist, the credits granted and completed and the replies to requests
    are the state [world]. *)

From S2P Require Import Prelude TlpCfg TlpReq BridgeData BridgeCfg BridgeMap.

(** ** The library *)

Inductive acg_opmode := ACG_COMP_OPMODE_FLUSH | ACG_COMP_OPMODE_MMIO_WRITE.
Record acg_comp := { ac_req : Z; ac_size : Z; ac_opmode : acg_opmode; ac_buf : list Z }.

(** The calls that complete a request; a device is named by its handle. *)
Inductive bridge_complete :=
| BcConfigRead (dev : option Z) (is_cap_id_valid : bool) (cap_id : Z) (is_pcie_cap : bool)
| BcConfigWrite (dev : option Z) (is_cap_id_valid : bool) (cap_id : Z) (is_pcie_cap : bool)
| BcTlp (non_posted : bool) (dev : option Z)
| BcPciEvent.
(** A reply: what is in the completion buffers, and the call. *)
Record bridge_reply := { br_cpl : tlp_cpl; br_call : bridge_complete }.

(** The latest come first. *)
Record world := {
  w_reps : list Z;
  w_devs : list Z;
  w_granted : list Z;
  w_completed : list acg_comp;
  w_replies : list bridge_reply;
}.
Definition empty_world : world := {| w_reps := []; w_devs := []; w_granted := []; w_completed := []; w_replies := [] |}.

(** The calls of [create_device]: results with the values they return; a region query returns the number
    of regions and the value of the first. The last two are the clean-up's. *)
Record create_answers := {
  an_name : doca_error_t;
  an_bar : doca_error_t * Z * Z;
  an_transaction : doca_error_t * Z * Z;
  an_msix : doca_error_t * Z * Z;
  an_pba : doca_error_t * Z * Z;
  an_create_rep : doca_error_t * Z;
  an_vhca : doca_error_t * Z;
  an_tlp_create : doca_error_t * Z;
  an_tlp_start : doca_error_t;
  an_undo_dev : doca_error_t;
  an_undo_rep : doca_error_t;
}.
Record destroy_answers := { an_stop : doca_error_t; an_destroy_dev : doca_error_t; an_destroy_rep : doca_error_t }.

(** Destroying a handle that does not exist is undefined; a refused call leaves it. *)
Definition lib_destroy (result : doca_error_t) (live : list Z) (h : Z) : res (list Z) :=
  if bool_decide (h ∈ live) then Done (if is_success result then filter (fun x => x <> h) live else live)
  else Crash UseAfterFree.
Definition destroy_rep (result : doca_error_t) (w : world) (h : Z) : res world :=
  l ← lib_destroy result (w_reps w) h; Done {| w with w_reps := l |}.
Definition tlp_dev_destroy (result : doca_error_t) (w : world) (h : Z) : res world :=
  l ← lib_destroy result (w_devs w) h; Done {| w with w_devs := l |}.
Definition complete_acg (w : world) (req size : Z) (m : acg_opmode) (buf : list Z) : world :=
  {| w with w_completed := {| ac_req := req; ac_size := size; ac_opmode := m; ac_buf := buf |} :: w_completed w |}.

Definition reply (w : world) (cpl : tlp_cpl) (call : bridge_complete) : world :=
  {| w with w_replies := {| br_cpl := cpl; br_call := call |} :: w_replies w |}.

Definition put_dev (c : tlp_context) (i : nat) (d : pci_device_config) : tlp_context :=
  {| c with devs_config := <[i := d]> (devs_config c) |}.

(** ** Devices *)

Definition get_dev_type (c : tlp_context) : option Z * tlp_context :=
  if num_dev_types c =? 0 then (None, c)
  else (Some (dev_type_idx c mod num_dev_types c), {| c with dev_type_idx := u32 (dev_type_idx c + 1) |}).

Definition populate_bar_layout_info_into_device (a : create_answers) (d : pci_device_config) : doca_error_t * pci_device_config :=
  let '(result, n, log_sz) := an_bar a in
  if negb (is_success result) || negb (n =? 2) then (result, d) else
  let '(result, n, region) := an_transaction a in
  if negb (is_success result) || negb (n =? 1) then (result, {| d with dc_log_bar_size := log_sz |}) else
  let '(result, n, msix) := an_msix a in
  if negb (is_success result) || negb (n =? 1) then (result, {| d with dc_log_bar_size := log_sz; dc_transaction_region_start := region |}) else
  let '(result, n, pba) := an_pba a in
  if negb (is_success result) || negb (n =? 1) then
    (result, {| d with dc_log_bar_size := log_sz; dc_transaction_region_start := region; dc_msix_region_start := msix |})
  else
    let m := dc_msix d in
    (DOCA_SUCCESS, {| d with
       dc_log_bar_size := log_sz; dc_transaction_region_start := region; dc_msix_region_start := msix; dc_msix_pba_region_start := pba;
       dc_msix := {| m with msix_table_offset := u32 msix; msix_pba_offset := u32 pba |} |}).

Definition create_device (a : create_answers) (c : tlp_context) (w : world) (i : nat) : res (doca_error_t * tlp_context * world) :=
  let '(dev_type, c) := get_dev_type c in
  match dev_type with
  | None => Done (DOCA_ERROR_NOT_FOUND, c, w)
  | Some _ =>
    if negb (is_success (an_name a)) then Done (an_name a, c, w) else
    endpoint ← dev_at (devs_config c) i;
    let '(result, endpoint) := populate_bar_layout_info_into_device a endpoint in
    let c := put_dev c i endpoint in
    if negb (is_success result) then Done (result, c, w) else
    let '(result, rep) := an_create_rep a in
    if negb (is_success result) then Done (result, c, w) else
    let w := {| w with w_reps := rep :: w_reps w |} in
    let '(result, vhca_id) := an_vhca a in
    if negb (is_success result) then
      w ← destroy_rep (an_undo_rep a) w rep;
      Done (result, put_dev c i {| endpoint with dc_rep := None |}, w)
    else
    let '(result, tlp_dev) := an_tlp_create a in
    if negb (is_success result) then
      w ← destroy_rep (an_undo_rep a) w rep;
      Done (result, put_dev c i {| endpoint with dc_rep := None; dc_vhca_id := vhca_id |}, w)
    else
    let w := {| w with w_devs := tlp_dev :: w_devs w |} in
    let result := an_tlp_start a in
    if negb (is_success result) then
      w ← tlp_dev_destroy (an_undo_dev a) w tlp_dev;
      w ← destroy_rep (an_undo_rep a) w rep;
      Done (result, put_dev c i {| endpoint with dc_rep := None; dc_vhca_id := vhca_id; dc_tlp_dev := None |}, w)
    else Done (DOCA_SUCCESS, put_dev c i {| endpoint with
           dc_rep := Some rep; dc_vhca_id := vhca_id; dc_tlp_dev := Some tlp_dev; dc_device_present := true |}, w)
  end.

(** The first part of [destroy_device]: [doca_devemu_pci_tlp_dev_stop] and [..._destroy]. *)
Definition destroy_tlp_dev (a : destroy_answers) (w : world) (endpoint : pci_device_config) :
    res (doca_error_t * pci_device_config * world) :=
  match dc_tlp_dev endpoint with
  | None => Done (DOCA_SUCCESS, endpoint, w)
  | Some tlp_dev =>
    if negb (bool_decide (tlp_dev ∈ w_devs w)) then Crash UseAfterFree
    else if negb (is_success (an_stop a)) then Done (an_stop a, endpoint, w)
    else
      w ← tlp_dev_destroy (an_destroy_dev a) w tlp_dev;
      if negb (is_success (an_destroy_dev a)) then Done (an_destroy_dev a, endpoint, w)
      else Done (DOCA_SUCCESS, {| endpoint with dc_tlp_dev := None |}, w)
  end.

Definition destroy_device (a : destroy_answers) (c : tlp_context) (w : world) (i : nat) : res (doca_error_t * tlp_context * world) :=
  endpoint ← dev_at (devs_config c) i;
  '(result, endpoint, w) ← destroy_tlp_dev a w endpoint;
  if negb (is_success result) then Done (result, c, w) else
  '(result, endpoint, w) ← match dc_rep endpoint with
    | None => Done (DOCA_SUCCESS, endpoint, w)
    | Some rep => w ← destroy_rep (an_destroy_rep a) w rep;
                  Done (an_destroy_rep a, if is_success (an_destroy_rep a) then {| endpoint with dc_rep := None |} else endpoint, w)
    end;
  if negb (is_success result) then Done (result, put_dev c i endpoint, w)
  else Done (DOCA_SUCCESS, put_dev c i {| endpoint with dc_device_present := false; dc_vhca_id := 0 |}, w).

(** ** Slot status and interrupts *)

Definition update_dsp_slot_status (dsp : pci_device_config) (device_present : bool) : pci_device_config :=
  let x := dc_express dsp in
  let pressed := Z.lor (xp_slot_status x) SLOT_STS_ATTN_BTN_PRESSED in
  {| dsp with dc_express := {| x with
     xp_slot_status := if device_present then Z.lor (Z.lor pressed SLOT_STS_PRESENCE_DETECT_CHANGED) SLOT_STS_PRESENCE_DETECT_STATE else pressed;
     xp_link_status := if device_present then xp_link_status x else Z.ldiff (xp_link_status x) LINK_STS_DL_ACTIVE |} |}.

Section Msi.
Context `{B : Be32}.

(** The buffer is a list of double words; the new buffer and the size in bytes. *)
Definition set_memory_write_tlp_header (buf : list Z) (msi_addr msi_data requester_bdf : Z) : res (list Z * Z) :=
  let use_64bit := negb (Z.shiftr msi_addr 32 =? 0) in
  dw0 ← at_ buf 0;
  let dw0 := BE32P_SET 31 29 (if use_64bit then TLP_FMT_4DW_W_DATA else TLP_FMT_3DW_W_DATA) dw0 in
  let dw0 := BE32P_SET 28 24 0 dw0 in
  let dw0 := BE32P_SET 9 0 1 dw0 in
  dw1 ← at_ buf 1;
  let dw1 := BE32P_SET 31 16 requester_bdf dw1 in
  let dw1 := BE32P_SET 15 8 0 dw1 in
  let dw1 := BE32P_SET 7 4 0 dw1 in
  let dw1 := BE32P_SET 3 0 0xF dw1 in
  let buf := <[1%nat := dw1]> (<[0%nat := dw0]> buf) in
  if use_64bit then
    dw2 ← at_ buf 2; dw3 ← at_ buf 3; _ ← at_ buf 4;
    let dw2 := BE32P_SET 31 0 (u32 (Z.shiftr msi_addr 32)) dw2 in
    let dw3 := BE32P_SET 31 2 (u32 (Z.shiftr msi_addr 2)) dw3 in
    Done (<[4%nat := msi_data]> (<[3%nat := dw3]> (<[2%nat := dw2]> buf)), 5 * 4)
  else
    dw2 ← at_ buf 2; _ ← at_ buf 3;
    let dw2 := BE32P_SET 31 2 (u32 (Z.shiftr msi_addr 2)) dw2 in
    Done (<[3%nat := msi_data]> (<[2%nat := dw2]> buf), 4 * 4).

(** The address of a memory request with four or three double words of header; [addr_low << 2] has 32 bits. *)
Definition mem_addr_64bit (h : list Z) : res Z :=
  addr_high ← get_field 31 0 2 h;
  addr_low ← get_field 31 2 3 h;
  Done (Z.lor (Z.shiftl addr_high 32) (u32 (Z.shiftl addr_low 2))).
Definition GET_MEM_ADDR_32BIT (h : list Z) : res Z := addr ← get_field 31 2 2 h; Done (u32 (Z.shiftl addr 2)).
(** The address as [find_target_device] reads it. *)
Definition mem_request_address (h : list Z) : res Z :=
  req_fmt ← GET_TLP_REQ_FMT h;
  if (req_fmt =? TLP_FMT_4DW_NODATA) || (req_fmt =? TLP_FMT_4DW_W_DATA) then mem_addr_64bit h else GET_MEM_ADDR_32BIT h.

Definition msi_addr_of (d : pci_device_config) : Z :=
  Z.lor (Z.shiftl (msi_address_high (dc_msi d)) 32) (msi_address_low (dc_msi d)).
Definition dsp_bdf_of (d : pci_device_config) : Z := BDF (t1_primary_bus (dc_type1 d)) (dc_device d) (dc_function d).

(** [acg_buf] is what the channel returns as the buffer of the credit. *)
Definition send_msi_via_memory_write_tlp (acg_buf : option (list Z)) (c : tlp_context) (w : world) (dsp : pci_device_config) :
    res (doca_error_t * tlp_context * world) :=
  if Z.land (msi_message_control (dc_msi dsp)) 0x0001 =? 0 then Done (DOCA_ERROR_BAD_STATE, c, w)
  else if msi_addr_of dsp =? 0 then Done (DOCA_ERROR_BAD_STATE, c, w)
  else
    '(acg_req, c) ← acg_queue_pop c;
    match acg_req with
    | None => Done (DOCA_ERROR_AGAIN, c, w)
    | Some req =>
      match acg_buf with
      | None => Done (DOCA_ERROR_DRIVER, c, complete_acg w req 0 ACG_COMP_OPMODE_FLUSH [])
      | Some buf =>
        '(buf, tlp_size) ← set_memory_write_tlp_header buf (msi_addr_of dsp) (msi_message_data (dc_msi dsp)) (dsp_bdf_of dsp);
        Done (DOCA_SUCCESS, c, complete_acg w req tlp_size ACG_COMP_OPMODE_MMIO_WRITE buf)
      end
    end.

Definition trigger_command_completed (acg_buf : option (list Z)) (c : tlp_context) (w : world) (i : nat) :
    res (doca_error_t * tlp_context * world) :=
  dsp ← dev_at (devs_config c) i;
  let x := dc_express dsp in
  let dsp := {| dsp with dc_express := {| x with xp_slot_status := Z.lor (xp_slot_status x) SLOT_STS_CMD_COMPLETED |} |} in
  let c := put_dev c i dsp in
  if Z.land (xp_slot_control (dc_express dsp)) SLOT_CTRL_CMD_COMPLETED_INT_EN =? 0 then Done (DOCA_SUCCESS, c, w)
  else send_msi_via_memory_write_tlp acg_buf c w dsp.

Record hotplug_answers := { ha_create : create_answers; ha_destroy : destroy_answers; ha_buf : option (list Z) }.

Definition trigger_hotplug_event (a : hotplug_answers) (c : tlp_context) (w : world) (dsp_index : Z) (plug : bool) :
    res (doca_error_t * tlp_context * world) :=
  if num_dsp c <=? dsp_index then Done (DOCA_ERROR_INVALID_VALUE, c, w) else
  let di := Z.to_nat (u32 (FIRST_DSP_IDX c + dsp_index)) in
  let ei := Z.to_nat (u32 (FIRST_PF_IDX c + dsp_index)) in
  dsp ← dev_at (devs_config c) di;
  endpoint ← dev_at (devs_config c) ei;
  if Z.land (xp_slot_control (dc_express dsp)) SLOT_CTRL_HP_INT_EN =? 0 then Done (DOCA_ERROR_NOT_SUPPORTED, c, w) else
  if acg_queue_count c =? 0 then Done (DOCA_ERROR_AGAIN, c, w) else
  '(result, c, w) ← (if plug then
      if dc_device_present endpoint then Done (DOCA_ERROR_ALREADY_EXIST, c, w) else create_device (ha_create a) c w ei
    else
      if negb (dc_device_present endpoint) then Done (DOCA_ERROR_NOT_FOUND, c, w) else destroy_device (ha_destroy a) c w ei);
  if negb (is_success result) then Done (result, c, w) else
  dsp ← dev_at (devs_config c) di;
  let dsp := update_dsp_slot_status dsp plug in
  send_msi_via_memory_write_tlp (ha_buf a) (put_dev c di dsp) w dsp.

(** A credit from the channel: the branch of [tlp_req_handler_cb]. *)
Definition acg_granted (c : tlp_context) (w : world) (req : Z) : res (tlp_context * world) :=
  let w := {| w with w_granted := req :: w_granted w |} in
  '(ret, c) ← acg_queue_push c req;
  match ret with
  | DOCA_ERROR_NO_MEMORY => Done (c, complete_acg w req 0 ACG_COMP_OPMODE_FLUSH [])
  | _ => Done (c, w)
  end.

(** ** Set-up and clean-up *)

(** The loop of [create_all_devices] for [n] more endpoints from [i] on. *)
Fixpoint create_devices (n : nat) (a : Z -> create_answers) (c : tlp_context) (w : world) (i : Z) :
    res (doca_error_t * tlp_context * world) :=
  match n with
  | O => Done (DOCA_SUCCESS, c, w)
  | S n =>
    let ei := Z.to_nat (u32 (FIRST_PF_IDX c + i)) in
    let di := Z.to_nat (u32 (FIRST_DSP_IDX c + i)) in
    '(result, c, w) ← create_device (a i) c w ei;
    if negb (is_success result) then Done (result, c, w) else
    dsp ← dev_at (devs_config c) di;
    let x := dc_express dsp in
    let x := {| x with xp_slot_control := Z.ldiff (xp_slot_control x) SLOT_CTRL_POWER_CONTROLLER;
                       xp_slot_status := Z.lor (xp_slot_status x) SLOT_STS_PRESENCE_DETECT_STATE;
                       xp_link_status := Z.lor (xp_link_status x) LINK_STS_DL_ACTIVE |} in
    create_devices n a (put_dev c di {| dsp with dc_express := x |}) w (i + 1)
  end.
Definition create_all_devices (a : Z -> create_answers) (c : tlp_context) (w : world) : res (doca_error_t * tlp_context * world) :=
  create_devices (Z.to_nat (num_ep c)) a c w 0.

(** The clean-up's loop over the endpoints; results are ignored. *)
Fixpoint cleanup_devices (n : nat) (a : Z -> destroy_answers) (c : tlp_context) (w : world) (i : Z) : res (tlp_context * world) :=
  match n with
  | O => Done (c, w)
  | S n =>
    let ei := Z.to_nat (u32 (FIRST_PF_IDX c + i)) in
    ep ← dev_at (devs_config c) ei;
    '(c, w) ← (if dc_device_present ep || bool_decide (dc_rep ep <> None) || bool_decide (dc_tlp_dev ep <> None)
               then '(_, c, w) ← destroy_device (a i) c w ei; Done (c, w) else Done (c, w));
    cleanup_devices n a c w (i + 1)
  end.

(** The clean-up's flush of the queue. *)
Definition cleanup_acg (c : tlp_context) (w : world) : res (tlp_context * world) :=
  match acg_queue c with
  | None => Done (c, w)
  | Some _ =>
    '(l, c) ← flush_acg (S (Z.to_nat (acg_queue_count c))) c;
    Done ({| c with acg_queue := None |},
          foldl (fun w r => complete_acg w r 0 ACG_COMP_OPMODE_FLUSH []) w l)
  end.

(** The outcomes of the allocations are arguments, [malloc_ok i] for the memory of endpoint [i]; after a failure
    those that were allocated are freed. *)
Definition init_transaction_region (calloc_ok : bool) (malloc_ok : Z -> bool) (c : tlp_context) (size : Z) : doca_error_t * tlp_context :=
  if num_ep c =? 0 then (DOCA_SUCCESS, c)
  else if negb calloc_ok then (DOCA_ERROR_NO_MEMORY, {| c with transaction_region_memories := None |})
  else if forallb malloc_ok (idx (num_ep c)) then
    (DOCA_SUCCESS, {| c with
       transaction_region_memories := Some (replicate (Z.to_nat (num_ep c)) (Some (replicate (Z.to_nat size) 0xAA)));
       transaction_region_size := size |})
  else (DOCA_ERROR_NO_MEMORY, {| c with transaction_region_memories := None |}).
(** Giving the memories back. *)
Definition cleanup_regions (c : tlp_context) : tlp_context :=
  match transaction_region_memories c with
  | None => c
  | Some _ => {| c with transaction_region_memories := None; transaction_region_size := 0 |}
  end.
(** What is freed at the end. *)
Definition cleanup_free (c : tlp_context) : tlp_context :=
  cleanup_regions {| c with devs_config := []; bdf_entries := []; bdf_map := replicate (Z.to_nat BDF_MAP_SIZE) None |}.

(** The number of types is reduced to what the device can have. *)
Definition limit_types (max_types : Z) (c : tlp_context) : tlp_context :=
  {| c with num_dev_types := if max_types <? num_dev_types c then max_types else num_dev_types c |}.

(** Set-up as [devemu_pci_tlp_bridge_handler_dpu] composes it, once its device and channel exist; [sa_types] is the result of
    [create_dev_types], which only calls the library. *)
Record setup_answers := {
  sa_devs_ok : bool;
  sa_entries_ok : bool;
  sa_max_types : Z;
  sa_types : doca_error_t;
  sa_max_acg : doca_error_t * Z;
  sa_queue_ok : bool;
  sa_create : Z -> create_answers;
  sa_regions_ok : bool;
  sa_region_ok : Z -> bool;
}.
Definition bridge_setup (a : setup_answers) (types eps nv : Z) (hotplug_mode : bool) : res (doca_error_t * tlp_context * world) :=
  let '(result, c) := init_tlp_context (sa_devs_ok a) (sa_entries_ok a) zero_ctx types eps nv in
  if negb (is_success result) then Done (result, c, empty_world) else
  let c := limit_types (sa_max_types a) c in
  if num_dev_types c <? MIN_TLP_PCI_TYPE_NUM then Done (DOCA_ERROR_INVALID_VALUE, c, empty_world) else
  if negb (is_success (sa_types a)) then Done (sa_types a, c, empty_world) else
  let '(result, c) := init_acg_queue (sa_max_acg a) (sa_queue_ok a) c in
  if negb (is_success result) then Done (result, c, empty_world) else
  c ← init_device_topology c;
  '(result, c, w) ← (if hotplug_mode then Done (DOCA_SUCCESS, c, empty_world) else create_all_devices (sa_create a) c empty_world);
  if negb (is_success result) then Done (result, c, w) else
  let '(result, c) := init_transaction_region (sa_regions_ok a) (sa_region_ok a) c TRANSACTION_REGION_SIZE in
  Done (result, c, w).

End Msi.

(** ** Handles *)

(** What [create_device] and [destroy_device] leave alone. *)
Definition dev_kind (d : pci_device_config) := (dc_device d, dc_function d, dc_is_bridge d, dc_is_endpoint d, dc_is_dummy d).
Definition dev_ids (d : pci_device_config) :=
  (dc_bus d, dc_bdf d, dc_is_bdf_set d, dc_completer_id d, (dc_requester_id d, dc_tag9 d, dc_tag8 d, dc_tag d)).
Definition dev_core (d : pci_device_config) :=
  (dc_type0 d, dc_type1 d, dc_express d, dc_msi d, dc_vpd d, dc_pm d, dev_kind d, dev_ids d).

(** The MSI-X capability with the offsets [o] of its table and its pending bits, or as it was. *)
Definition msix_from (o : option (Z * Z)) (d d' : pci_device_config) : Prop :=
  dc_msix d' = dc_msix d \/ exists table pba, o = Some (table, pba) /\
    dc_msix d' = (let m := dc_msix d in {| m with msix_table_offset := u32 table; msix_pba_offset := u32 pba |}).

(** The size of the base address register can be shifted to, and the transaction region starts at a 64-bit offset. *)
Definition layout_ok (d : pci_device_config) : Prop := 0 <= dc_log_bar_size d < 31 /\ in_width 64 (dc_transaction_region_start d).

(** What creating or destroying a device does to its data; creating it may set the offsets [o]. *)
Definition plugged (o : option (Z * Z)) (d d' : pci_device_config) : Prop :=
  dev_core d' = dev_core d /\ (regs_ok d -> regs_ok d') /\ (layout_ok d -> layout_ok d') /\ msix_from o d d'.

Lemma regs_ok_ext d d' : dev_regs d' = dev_regs d -> t0_bar (dc_type0 d') = t0_bar (dc_type0 d) -> dc_type1 d' = dc_type1 d -> regs_ok d -> regs_ok d'.
Proof. intros E1 E2 E3 [R1 R2 R3 R4]. split; rewrite ?E1, ?E2, ?E3; done. Qed.

Lemma plugged_same o d d' : dev_core d' = dev_core d -> dc_msix d' = dc_msix d -> dc_log_bar_size d' = dc_log_bar_size d ->
  dc_transaction_region_start d' = dc_transaction_region_start d -> plugged o d d'.
Proof.
  intros Ec Em El Et. split; [exact Ec|]. unfold dev_core in Ec. injection Ec as E1 E2 E3 E4 E5 E6 _ _. split.
  - apply regs_ok_ext; [unfold dev_regs; by rewrite E1, E2, E3, E4, E5, E6, Em|by rewrite E1|done].
  - split; [unfold layout_ok; by rewrite El, Et|by left].
Qed.
Lemma plugged_trans o d d1 d2 : plugged o d d1 -> plugged o d1 d2 -> plugged o d d2.
Proof.
  intros (E1 & R1 & L1 & M1) (E2 & R2 & L2 & M2). split; [congruence|]. split; [auto|]. split; [auto|].
  destruct M1 as [M1|(x & y & Eo & M1)], M2 as [M2|(x' & y' & Eo' & M2)]; unfold msix_from; rewrite M2.
  - left. congruence.
  - right. exists x', y'. by rewrite M1.
  - right. by exists x, y.
  - right. exists x', y'. by rewrite M1.
Qed.

(** An endpoint that is present has a representor, one that is absent has no handle. *)
Definition ep_ok (d : pci_device_config) : Prop :=
  if dc_device_present d then dc_rep d <> None else dc_rep d = None /\ dc_tlp_dev d = None.

(** The handles that exist are those of [d] and the others in [R] and [D]. *)
Record handles_ok (w : world) (d : pci_device_config) (R D : list Z) : Prop := {
  ho_reps : w_reps w ≡ₚ option_list (dc_rep d) ++ R;
  ho_reps_nodup : NoDup (w_reps w);
  ho_devs : w_devs w ≡ₚ option_list (dc_tlp_dev d) ++ D;
  ho_devs_nodup : NoDup (w_devs w);
}.

(** The handles that exist are the same. *)
Definition same_live (w w' : world) : Prop := w_reps w' = w_reps w /\ w_devs w' = w_devs w.

(** The credits and replies of two worlds are the same. *)
Definition same_credits (w w' : world) : Prop := w_granted w' = w_granted w /\ w_completed w' = w_completed w /\ w_replies w' = w_replies w.

Lemma filter_neq_cons (h : Z) (l : list Z) : h ∉ l -> filter (fun x => x <> h) (h :: l) = l.
Proof.
  intros Hl. rewrite filter_cons_False by tauto. induction l as [|y l IH]; [done|].
  rewrite not_elem_of_cons in Hl. destruct Hl as [Hy Hl]. rewrite filter_cons_True by congruence. by rewrite IH.
Qed.

Lemma lib_destroy_spec result live h R : live ≡ₚ h :: R -> NoDup live -> exists l, lib_destroy result live h = Done l /\ NoDup l /\
  l ≡ₚ (if is_success result then R else h :: R).
Proof.
  intros Hp Hnd. unfold lib_destroy. rewrite bool_decide_true by (rewrite Hp; constructor).
  destruct (is_success result); eexists; (split; [done|]).
  - split; [by apply list.NoDup_filter|]. rewrite Hp, filter_neq_cons; [done|]. rewrite Hp in Hnd. by apply list.NoDup_cons in Hnd as [? _].
  - done.
Qed.

(** Destroying a handle that has just been created. *)
Lemma lib_destroy_new h live : h ∉ live -> lib_destroy DOCA_SUCCESS (h :: live) h = Done live.
Proof. intros Hh. unfold lib_destroy. rewrite bool_decide_true by constructor. cbn [is_success]. by rewrite filter_neq_cons. Qed.

(** The library returns new handles and destroys those that [create_device] has just made. *)
Record create_ok (w : world) (a : create_answers) : Prop := {
  co_rep : (an_create_rep a).2 ∉ w_reps w;
  co_dev : (an_tlp_create a).2 ∉ w_devs w;
  co_undo_dev : an_undo_dev a = DOCA_SUCCESS;
  co_undo_rep : an_undo_rep a = DOCA_SUCCESS;
  co_bar : 0 <= (an_bar a).2 < 31;
  co_region : in_width 64 (an_transaction a).2;
}.

(** The offsets that the library gives. *)
Definition msix_offsets (a : create_answers) : option (Z * Z) := Some ((an_msix a).2, (an_pba a).2).

Lemma populate_plugged a d e d' : 0 <= (an_bar a).2 < 31 -> in_width 64 (an_transaction a).2 -> populate_bar_layout_info_into_device a d = (e, d') ->
  plugged (msix_offsets a) d d' /\ dc_device_present d' = dc_device_present d /\ dc_rep d' = dc_rep d /\ dc_tlp_dev d' = dc_tlp_dev d.
Proof.
  unfold populate_bar_layout_info_into_device. destruct (an_bar a) as [[r1 n1] v1], (an_transaction a) as [[r2 n2] v2]. cbn [snd]. intros Hv1 Hv2 E.
  destruct (negb (is_success r1) || _); [injection E as <- <-; split; [by apply plugged_same|done]|].
  assert (forall x, dev_core x = dev_core d -> dc_msix x = dc_msix d -> layout_ok x -> plugged (msix_offsets a) d x) as Hsame.
  { intros x Ec Em Hl. split; [done|]. split; [|by split; [|left]]. unfold dev_core in Ec. injection Ec as E1 E2 E3 E4 E5 E6 _ _.
    apply regs_ok_ext; [unfold dev_regs; by rewrite E1, E2, E3, E4, E5, E6, Em|by rewrite E1|done]. }
  destruct (negb (is_success r2) || _).
  { injection E as <- <-. split; [|done]. split; [done|]. split; [by apply regs_ok_ext|]. split; [|by left]. intros [_ Hl]. by split. }
  unfold msix_offsets in *. destruct (an_msix a) as [[r3 n3] v3]. destruct (negb (is_success r3) || _); [injection E as <- <-; split; [by apply Hsame|done]|].
  destruct (an_pba a) as [[r4 n4] v4]. destruct (negb (is_success r4) || _); injection E as <- <-; (split; [|done]); [by apply Hsame|].
  split; [done|]. split; [|split; [done|right; by exists v3, v4]]. intros Hr.
  apply (regs_updates d Hr _ [(84%nat, 32, u32 v3); (85%nat, 32, u32 v4)]); [reflexivity| |reflexivity..].
  repeat apply List.Forall_cons; try apply List.Forall_nil; apply u32_range.
Qed.

Lemma put_dev_put_dev c i x y : put_dev (put_dev c i x) i y = put_dev c i y.
Proof. unfold put_dev. cbn. by rewrite list_insert_insert_eq. Qed.

(** Creating a device returns; on success the endpoint is present with its handles, on failure
    nothing is left of it. *)
Lemma create_device_spec a c w i d R D : devs_config c !! i = Some d -> ep_ok d -> dc_device_present d = false ->
  handles_ok w d R D -> create_ok w a ->
  exists e t d' w', create_device a c w i = Done (e, {| c with devs_config := <[i := d']> (devs_config c); dev_type_idx := t |}, w') /\
    plugged (msix_offsets a) d d' /\ ep_ok d' /\ handles_ok w' d' R D /\ same_credits w w' /\
    dc_device_present d' = is_success e /\ (is_success e = true -> dc_tlp_dev d' <> None) /\
    (forall h, h ∈ w_reps w' -> h = (an_create_rep a).2 \/ h ∈ w_reps w) /\ (forall h, h ∈ w_devs w' -> h = (an_tlp_create a).2 \/ h ∈ w_devs w).
Proof.
  intros E Hep Hpr Hh Hco. unfold ep_ok in Hep. rewrite Hpr in Hep. destruct Hep as [Hr Ht].
  destruct Hh as [H1 H2 H3 H4]. rewrite Hr, Ht in *. cbn in H1, H3. destruct Hco as [Cr Cd Ud Ur Cb Cg].
  unfold create_device, get_dev_type. destruct (Z.eqb_spec (num_dev_types c) 0).
  { exists DOCA_ERROR_NOT_FOUND, (dev_type_idx c), d, w. split; [rewrite list_insert_id by done; by destruct c|].
    split; [by apply plugged_same|]. split; [unfold ep_ok; by rewrite Hpr|]. split; [split; by rewrite ?Hr, ?Ht|]. split; [done|]. split; [done|]. split; [done|]. auto. }
  set (t := u32 (dev_type_idx c + 1)).
  destruct (is_success (an_name a)) eqn:En; cbn [negb]; cycle 1.
  { exists (an_name a), t, d, w. split; [by rewrite list_insert_id|].
    split; [by apply plugged_same|]. split; [unfold ep_ok; by rewrite Hpr|]. split; [split; by rewrite ?Hr, ?Ht|]. split; [done|]. rewrite En, Hpr. auto. }
  unfold dev_at. cbn [devs_config]. rewrite E. cbn [mbind res_bind].
  destruct (populate_bar_layout_info_into_device a d) as [e1 d1] eqn:Epop. destruct (populate_plugged _ _ _ _ Cb Cg Epop) as (C1 & P1 & R1 & T1).
  assert (forall e x, plugged (msix_offsets a) d1 x -> dc_device_present x = false -> dc_rep x = None -> dc_tlp_dev x = None -> is_success e = false ->
    exists e' t' d' w', Done (e, put_dev {| c with dev_type_idx := t |} i x, w) =
      Done (e', {| c with devs_config := <[i := d']> (devs_config c); dev_type_idx := t' |}, w') /\
      plugged (msix_offsets a) d d' /\ ep_ok d' /\ handles_ok w' d' R D /\ same_credits w w' /\
      dc_device_present d' = is_success e' /\ (is_success e' = true -> dc_tlp_dev d' <> None) /\
      (forall h, h ∈ w_reps w' -> h = (an_create_rep a).2 \/ h ∈ w_reps w) /\ (forall h, h ∈ w_devs w' -> h = (an_tlp_create a).2 \/ h ∈ w_devs w)) as Hfail.
  { intros e x Cx Px Rx Tx Ee. exists e, t, x, w. split; [done|]. split; [by eapply plugged_trans|]. split; [unfold ep_ok; by rewrite Px|].
    split; [split; by rewrite ?Rx, ?Tx|]. split; [done|]. rewrite Ee. auto. }
  destruct (is_success e1) eqn:Ee1; cbn [negb]; [|apply Hfail; (by apply plugged_same) || done || congruence].
  destruct (an_create_rep a) as [e2 rep]. destruct (is_success e2) eqn:Ee2; cbn [negb]; [|apply Hfail; (by apply plugged_same) || done || congruence].
  destruct (an_vhca a) as [e3 vhca]. cbn in Cr.
  assert (forall w0, w_reps w0 = rep :: w_reps w -> destroy_rep DOCA_SUCCESS w0 rep = Done {| w0 with w_reps := w_reps w |}) as Hundo.
  { intros w0 Hw0. unfold destroy_rep. rewrite Hw0, lib_destroy_new by done. done. }
  assert ({| w with w_reps := w_reps w |} = w /\ {| w with w_reps := w_reps w; w_devs := w_devs w |} = w) as [Hw Hw'] by (by destruct w).
  destruct (is_success e3) eqn:Ee3; cbn [negb]; cycle 1.
  { rewrite Ur, Hundo by done. cbn [mbind res_bind w_devs w_granted w_completed w_replies]. rewrite Hw, put_dev_put_dev. apply Hfail; (by apply plugged_same) || done || cbn; congruence. }
  destruct (an_tlp_create a) as [e4 tdev]. cbn in Cd. destruct (is_success e4) eqn:Ee4; cbn [negb]; cycle 1.
  { rewrite Ur, Hundo by done. cbn [mbind res_bind w_devs w_granted w_completed w_replies]. rewrite Hw, put_dev_put_dev. apply Hfail; (by apply plugged_same) || done || cbn; congruence. }
  destruct (is_success (an_tlp_start a)) eqn:Ee5; cbn [negb]; cycle 1.
  { rewrite Ud. unfold tlp_dev_destroy. cbn [w_devs]. rewrite lib_destroy_new by done. cbn [mbind res_bind].
    rewrite Ur, Hundo by done. cbn [mbind res_bind w_devs w_granted w_completed w_replies]. rewrite Hw', put_dev_put_dev. apply Hfail; (by apply plugged_same) || done || cbn; congruence. }
  rewrite put_dev_put_dev. eexists DOCA_SUCCESS, t, _, _. split; [done|]. split; [eapply plugged_trans; [exact C1|by apply plugged_same]|]. split; [done|].
  split; [split; cbn; [by rewrite H1| |by rewrite H3|]; apply list.NoDup_cons; done|].
  do 3 (split; [done|]). split; cbn; intros h; by rewrite elem_of_cons.
Qed.

(** Destroying a device returns; on success it is absent and its handles are gone, on failure it is
    still present. *)
Lemma destroy_device_spec a c w i d R D : devs_config c !! i = Some d -> ep_ok d -> dc_device_present d = true -> handles_ok w d R D ->
  exists e d' w', destroy_device a c w i = Done (e, {| c with devs_config := <[i := d']> (devs_config c) |}, w') /\
    plugged None d d' /\ ep_ok d' /\ handles_ok w' d' R D /\ same_credits w w' /\
    dc_device_present d' = negb (is_success e) /\
    (an_stop a = DOCA_SUCCESS -> an_destroy_dev a = DOCA_SUCCESS -> an_destroy_rep a = DOCA_SUCCESS -> e = DOCA_SUCCESS).
Proof.
  intros E Hep Hpr Hh. pose proof Hep as Hep0. unfold ep_ok in Hep. rewrite Hpr in Hep. destruct Hh as [H1 H2 H3 H4].
  unfold destroy_device, dev_at. rewrite E. cbn [mbind res_bind].
  assert (exists e d1 w1, destroy_tlp_dev a w d = Done (e, d1, w1) /\ plugged None d d1 /\ dc_device_present d1 = true /\ dc_rep d1 = dc_rep d /\
    handles_ok w1 d1 R D /\ same_credits w w1 /\ (is_success e = false -> d1 = d) /\ (is_success e = true -> dc_tlp_dev d1 = None) /\
    (an_stop a = DOCA_SUCCESS -> an_destroy_dev a = DOCA_SUCCESS -> is_success e = true)) as (e & d1 & w1 & -> & C1 & P1 & R1 & Hh1 & Cr1 & Hf & Hs & Hok).
  { unfold destroy_tlp_dev. destruct (dc_tlp_dev d) as [tdev|] eqn:Et; cycle 1.
    { eexists _, d, w. split; [done|]. split; [by apply plugged_same|]. do 2 (split; [done|]). split; [split; by rewrite ?Et|]. done. }
    cbn in H3. rewrite bool_decide_true by (rewrite H3; constructor). cbn [negb].
    destruct (is_success (an_stop a)) eqn:Es; cbn [negb]; cycle 1.
    { eexists _, d, w. split; [done|]. split; [by apply plugged_same|]. do 2 (split; [done|]). split; [split; by rewrite ?Et|]. split; [done|]. split; [done|]. rewrite Es. split; [done|].
      intros E1. by rewrite E1 in Es. }
    unfold tlp_dev_destroy. destruct (lib_destroy_spec (an_destroy_dev a) _ _ _ H3 H4) as (l & -> & Hl & Hp). cbn [mbind res_bind].
    destruct (is_success (an_destroy_dev a)) eqn:Ed; cbn [negb].
    - eexists _, _, _. split; [done|]. split; [by apply plugged_same|]. split; [done|]. split; [done|]. split; [by split|]. done.
    - eexists _, d, _. split; [done|]. split; [by apply plugged_same|]. do 2 (split; [done|]). split; [split; cbn; by rewrite ?Et|]. split; [done|]. split; [done|]. rewrite Ed. split; [done|].
      intros _ E1. by rewrite E1 in Ed. }
  destruct Hh1 as [H1' H2' H3' H4']. cbn [mbind res_bind]. destruct (is_success e) eqn:Ee; cbn [negb]; cycle 1.
  { rewrite Hf in * by done. exists e, d, w1. split; [rewrite list_insert_id by done; by destruct c|]. split; [by apply plugged_same|]. split; [done|].
    split; [done|]. split; [done|]. split; [by rewrite Ee|]. intros Es1 Es2 _. exfalso. specialize (Hok Es1 Es2). congruence. }
  destruct (dc_rep d1) as [rep|] eqn:Er; [|congruence]. cbn in H1'. unfold destroy_rep.
  destruct (lib_destroy_spec (an_destroy_rep a) _ _ _ H1' H2') as (l & -> & Hl & Hp). cbn [mbind res_bind].
  specialize (Hs eq_refl).
  destruct (is_success (an_destroy_rep a)) eqn:Ed; cbn [negb].
  - eexists DOCA_SUCCESS, _, _. split; [done|]. split; [eapply plugged_trans; [exact C1|by apply plugged_same]|]. split; [done|]. split; [|done].
    split; cbn; by rewrite ?Hs in *.
  - exists (an_destroy_rep a), d1, {| w1 with w_reps := l |}. split; [done|]. split; [done|].
    split; [unfold ep_ok; by rewrite P1, Er|]. split; [split; cbn; by rewrite ?Er|]. split; [done|]. split; [by rewrite P1, Ed|].
    intros _ _ E1. by rewrite E1 in Ed.
Qed.

(** ** The invariant of the machine *)

(** A link is up only while the slot has power. *)
Definition link_ok (d : pci_device_config) : Prop :=
  dc_is_bridge d = true -> Z.land (xp_link_status (dc_express d)) LINK_STS_DL_ACTIVE <> 0 ->
  Z.land (xp_slot_control (dc_express d)) SLOT_CTRL_POWER_CONTROLLER = 0.

(** The identifiers for completions have the widths of their fields. *)
Record ids_ok (d : pci_device_config) : Prop := {
  io_completer : in_width 16 (dc_completer_id d);
  io_requester : in_width 16 (dc_requester_id d);
  io_tag9 : in_width 1 (dc_tag9 d);
  io_tag8 : in_width 1 (dc_tag8 d);
  io_tag : in_width 8 (dc_tag d);
}.

(** The kind of a device is its place in the array. *)
Definition kind_ok (c : tlp_context) (i : nat) (d : pci_device_config) : Prop :=
  dc_is_bridge d = (Z.of_nat i <? num_bridges c) /\
  dc_is_endpoint d = (num_bridges c <=? Z.of_nat i) && (Z.of_nat i <? num_bridges c + num_ep c) /\
  dc_is_dummy d = (Z.of_nat i =? num_bridges c + num_ep c).

Record dev_ok (c : tlp_context) (i : nat) (d : pci_device_config) : Prop := {
  do_kind : kind_ok c i d;
  do_ep : ep_ok d;
  do_absent : dc_is_endpoint d = false -> dc_device_present d = false;
  do_link : link_ok d;
  do_regs : regs_ok d;
  do_layout : layout_ok d;
  do_ids : ids_ok d;
}.

(** Every endpoint has a memory of its own once the memories exist. *)
Definition regions_ok (c : tlp_context) : Prop :=
  match transaction_region_memories c with
  | None => True
  | Some l => Z.of_nat (length l) = num_ep c /\ transaction_region_size c = TRANSACTION_REGION_SIZE /\
      forall k m, l !! k = Some m -> exists mem, m = Some mem /\ Z.of_nat (length mem) = TRANSACTION_REGION_SIZE /\ Forall is_byte mem
  end.

(** The part that does not concern credits. *)
Record devs_ok (c : tlp_context) (w : world) : Prop := {
  dk_topo : topo_wf c;
  dk_len : Z.of_nat (length (devs_config c)) = num_devices c;
  dk_entries : length (bdf_entries c) = length (devs_config c);
  dk_map : exists log, map_wf c log;
  dk_dev : forall i d, devs_config c !! i = Some d -> dev_ok c i d;
  dk_reps : w_reps w ≡ₚ omap dc_rep (devs_config c);
  dk_reps_nodup : NoDup (w_reps w);
  dk_devs : w_devs w ≡ₚ omap dc_tlp_dev (devs_config c);
  dk_devs_nodup : NoDup (w_devs w);
  dk_regions : regions_ok c;
}.

(** Every credit granted is in the queue or completed, once. *)
Definition credits_ok (c : tlp_context) (w : world) : Prop :=
  acg_wf c /\ w_granted w ≡ₚ acg_list c ++ (ac_req <$> w_completed w).

Definition bridge_ok (c : tlp_context) (w : world) : Prop := devs_ok c w /\ credits_ok c w.

(** What a step of a request or command leaves alone, apart from bus numbers and the table. *)
Definition dev_static (d : pci_device_config) :=
  (dc_type1 d, dev_kind d).
Definition ctx_static (c : tlp_context) :=
  (dev_static <$> devs_config c, num_devices c, num_ep c, num_dsp c, num_bridges c,
   (num_nv_switch_tlp_dsp c, num_ep_per_nv_switch_tlp_dsp c, num_ep_extra_per_nv_switch_tlp_dsp c, bdf_map c, bdf_entries c)).

Lemma omap_delete {A B} (f : A -> option B) l i x : l !! i = Some x -> omap f l ≡ₚ option_list (f x) ++ omap f (delete i l).
Proof.
  intros E. rewrite <- (take_drop_middle l i x E) at 1. rewrite delete_take_drop, !omap_app. cbn.
  destruct (f x); cbn; [|done]. by rewrite Permutation_middle.
Qed.
Lemma delete_insert {A} (l : list A) i y : delete i (<[i := y]> l) = delete i l.
Proof.
  destruct (decide (i < length l)%nat) as [Hi|Hi].
  - rewrite insert_take_drop, !delete_take_drop by done.
    rewrite take_app_le, take_take, Nat.min_id by (rewrite length_take; lia). f_equal.
    rewrite drop_app_ge by (rewrite length_take; lia). rewrite length_take. replace (S i - i `min` length l)%nat with 1%nat by lia. done.
  - by rewrite list_insert_ge by lia.
Qed.

Lemma devs_ok_handles c w i d : devs_ok c w -> devs_config c !! i = Some d ->
  handles_ok w d (omap dc_rep (delete i (devs_config c))) (omap dc_tlp_dev (delete i (devs_config c))).
Proof. intros H E. destruct H. split; [|done| |done]; by rewrite <- omap_delete. Qed.

Lemma dev_ok_num c c' i d : num_bridges c' = num_bridges c -> num_ep c' = num_ep c -> dev_ok c i d -> dev_ok c' i d.
Proof. intros E1 E2 [Hk He Ha Hl Hr Hy Hi]. split; [|done..]. unfold kind_ok in *. by rewrite E1, E2. Qed.

(** Changing a device and the handles with it. *)
Lemma put_dev_ok c w w' i d d' : devs_ok c w -> devs_config c !! i = Some d -> dev_ok c i d' ->
  handles_ok w' d' (omap dc_rep (delete i (devs_config c))) (omap dc_tlp_dev (delete i (devs_config c))) ->
  devs_ok (put_dev c i d') w'.
Proof.
  intros [H1 H2 H3 [log H4] H5 _ _ _ _ H10] E Hd' [P1 P2 P3 P4]. assert (i < length (devs_config c))%nat as Hi by (by eapply lookup_lt_Some).
  assert (<[i := d']> (devs_config c) !! i = Some d') as E' by (by apply list_lookup_insert_eq).
  split; cbn [put_dev devs_config num_devices bdf_entries].
  - by destruct H1.
  - by rewrite length_insert.
  - by rewrite length_insert.
  - exists log. destruct H4 as [M1 M2 M3 M4 M5]. split; [exact M1|exact M2|exact M3|exact M4|exact M5].
  - intros j x Ej. destruct (decide (j = i)) as [->|Hj].
    + rewrite E' in Ej. injection Ej as <-. by apply (dev_ok_num c).
    + rewrite list_lookup_insert_ne in Ej by done. apply (dev_ok_num c); eauto.
  - by rewrite (omap_delete _ _ _ _ E'), delete_insert.
  - done.
  - by rewrite (omap_delete _ _ _ _ E'), delete_insert.
  - done.
  - exact H10.
Qed.

(** Changing registers only. *)
Lemma put_regs_ok c w i d d' : devs_ok c w -> devs_config c !! i = Some d -> dev_ok c i d' ->
  dc_rep d' = dc_rep d -> dc_tlp_dev d' = dc_tlp_dev d -> devs_ok (put_dev c i d') w.
Proof.
  intros H E Hd' Er Et. eapply put_dev_ok; [done..|]. destruct (devs_ok_handles c w i d H E). split; by rewrite ?Er, ?Et.
Qed.

Lemma devs_ok_rest c c' w : ctx_rest c' = ctx_rest c -> devs_ok c w -> devs_ok c' w.
Proof.
  intros E [H1 H2 H3 [log H4] H5 H6 H7 H8 H9 H10]. destruct c, c'. unfold ctx_rest in E. cbn in *. simplify_eq.
  split; cbn in *; try done; [by destruct H1|exists log; destruct H4 as [M1 M2 M3 M4 M5]; split; [exact M1|exact M2|exact M3|exact M4|exact M5]|]. intros i d Ei. eapply dev_ok_num; [| |by apply H5]; done.
Qed.
Lemma devs_ok_same_handles c w w' : w_reps w' = w_reps w -> w_devs w' = w_devs w -> devs_ok c w -> devs_ok c w'.
Proof. intros E1 E2 []. split; rewrite ?E1, ?E2; done. Qed.
Lemma ctx_rest_static c c' : ctx_rest c' = ctx_rest c -> ctx_static c' = ctx_static c.
Proof. intros E. destruct c, c'. unfold ctx_rest in E. cbn in *. simplify_eq. done. Qed.
Lemma credits_put_dev c w i d : credits_ok c w -> credits_ok (put_dev c i d) w.
Proof. done. Qed.

Lemma put_dev_static c i d d' : devs_config c !! i = Some d -> dev_static d' = dev_static d -> ctx_static (put_dev c i d') = ctx_static c.
Proof.
  intros E Es. unfold ctx_static, put_dev. cbn. rewrite list_fmap_insert, Es, list_insert_id; [done|]. by rewrite list_lookup_fmap, E.
Qed.

Lemma plugged_ok o c i d d' : dev_ok c i d -> plugged o d d' -> dc_is_endpoint d = true -> ep_ok d' -> dev_ok c i d'.
Proof.
  intros [Hk He Ha Hl Hr Hy Hi] (Ec & Hr' & Hy' & _) Hend Hep. unfold dev_core, dev_kind, dev_ids in Ec.
  injection Ec as E1 E2 E3 E4 E5 E6 E7 E8 E9 E10 E11 E12 E13 E14 E15 E16 E17 E18 E19. split; auto.
  - unfold kind_ok in *. by rewrite E9, E10, E11.
  - intros Hf. congruence.
  - unfold link_ok in *. by rewrite E9, E3.
  - destruct Hi. split; by rewrite ?E15, ?E16, ?E17, ?E18, ?E19.
Qed.

(** ** Steps keep the invariant *)

Section Steps.
Context `{B : Be32}.

(** A credit's buffer has room for the header and the data. *)
Definition buf_ok (acg_buf : option (list Z)) : Prop :=
  match acg_buf with Some buf => (5 <= length buf)%nat | None => True end.

Lemma set_header_done buf addr data bdf : (5 <= length buf)%nat ->
  exists buf' size, set_memory_write_tlp_header buf addr data bdf = Done (buf', size) /\ length buf' = length buf.
Proof.
  intros Hl. unfold set_memory_write_tlp_header.
  assert (forall b i, (5 <= length b)%nat -> 0 <= i < 5 -> exists x, at_ b i = Done x) as Hat.
  { intros b i Hb Hi. destruct (at_done b i) as (x & E & _); [lia|eauto]. }
  destruct (Hat buf 0 Hl) as [x0 ->]; [lia|]. destruct (Hat buf 1 Hl) as [x1 ->]; [lia|]. cbn [mbind res_bind].
  match goal with |- context [at_ ?b 2] => assert (length b = length buf) as Hb by (by rewrite !length_insert);
    destruct (Hat b 2) as [x2 E2]; [lia..|]; destruct (Hat b 3) as [x3 E3]; [lia..|]; destruct (Hat b 4) as [x4 E4]; [lia..|] end.
  rewrite E2, E3, E4. cbn [mbind res_bind]. destruct (negb _); do 2 eexists; (split; [done|]); by rewrite !length_insert.
Qed.

Lemma devs_ok_complete c w r sz m b : devs_ok c w -> devs_ok c (complete_acg w r sz m b).
Proof. by apply devs_ok_same_handles. Qed.

(** The outcomes of sending an interrupt for [dsp]. *)
Inductive msi_outcome (acg_buf : option (list Z)) (c : tlp_context) (w : world) (dsp : pci_device_config) :
    doca_error_t -> tlp_context -> world -> Prop :=
| MsiOff : Z.land (msi_message_control (dc_msi dsp)) 0x0001 = 0 \/ msi_addr_of dsp = 0 ->
    msi_outcome acg_buf c w dsp DOCA_ERROR_BAD_STATE c w
| MsiNoCredit c' : acg_list c = [] -> ctx_rest c' = ctx_rest c -> acg_list c' = [] -> msi_outcome acg_buf c w dsp DOCA_ERROR_AGAIN c' w
| MsiNoBuffer c' r : acg_buf = None -> acg_list c = r :: acg_list c' -> ctx_rest c' = ctx_rest c ->
    msi_outcome acg_buf c w dsp DOCA_ERROR_DRIVER c' (complete_acg w r 0 ACG_COMP_OPMODE_FLUSH [])
| MsiSent c' r buf b size : acg_buf = Some buf -> acg_list c = r :: acg_list c' -> ctx_rest c' = ctx_rest c ->
    Z.land (msi_message_control (dc_msi dsp)) 0x0001 <> 0 -> msi_addr_of dsp <> 0 ->
    set_memory_write_tlp_header buf (msi_addr_of dsp) (msi_message_data (dc_msi dsp)) (dsp_bdf_of dsp) = Done (b, size) ->
    msi_outcome acg_buf c w dsp DOCA_SUCCESS c' (complete_acg w r size ACG_COMP_OPMODE_MMIO_WRITE b).

Lemma send_msi_spec acg_buf c w dsp : bridge_ok c w -> buf_ok acg_buf ->
  exists e c' w', send_msi_via_memory_write_tlp acg_buf c w dsp = Done (e, c', w') /\ bridge_ok c' w' /\ ctx_static c' = ctx_static c /\
    msi_outcome acg_buf c w dsp e c' w'.
Proof.
  intros [Hd [Hwf Hcr]] Hb. unfold send_msi_via_memory_write_tlp.
  destruct (Z.eqb_spec (Z.land (msi_message_control (dc_msi dsp)) 0x0001) 0); [eexists _, c, w; split; [done|]; split; [by split|]; split; [done|]; apply MsiOff; auto|].
  destruct (Z.eqb_spec (msi_addr_of dsp) 0); [eexists _, c, w; split; [done|]; split; [by split|]; split; [done|]; apply MsiOff; auto|].
  destruct (acg_pop_spec c Hwf) as (c' & -> & Hwf' & Hr & _ & Hl). cbn [mbind res_bind].
  pose proof (devs_ok_rest c c' w Hr Hd) as Hd'. pose proof (ctx_rest_static c c' Hr) as Hst.
  destruct (acg_list c) as [|r l] eqn:El; cbn [head tail] in *.
  { eexists _, c', w. split; [done|]. split; [|split; [done|by apply MsiNoCredit]]. split; [done|]. split; [done|]. by rewrite Hl. }
  assert (forall sz m b, bridge_ok c' (complete_acg w r sz m b)) as Hok.
  { intros sz m b. split; [by apply devs_ok_complete|]. split; [done|]. cbn. rewrite Hcr, Hl. cbn. by rewrite Permutation_middle. }
  destruct acg_buf as [buf|].
  - destruct (set_header_done buf (msi_addr_of dsp) (msi_message_data (dc_msi dsp)) (dsp_bdf_of dsp) Hb) as (b & sz & E & _). rewrite E. cbn.
    eexists _, c', _. split; [done|]. split; [apply Hok|]. split; [done|]. eapply MsiSent; try done. by rewrite Hl.
  - eexists _, c', _. split; [done|]. split; [apply Hok|]. split; [done|]. apply MsiNoBuffer; try done. by rewrite Hl.
Qed.

(** Sending takes a credit from the queue, and leaves the queue in its place. *)
Lemma send_msi_queue acg_buf c w dsp e c' w' : send_msi_via_memory_write_tlp acg_buf c w dsp = Done (e, c', w') -> acg_queue c' = acg_queue c.
Proof.
  unfold send_msi_via_memory_write_tlp. destruct (_ =? 0); [by intros [= _ <- _]|]. destruct (_ =? 0); [by intros [= _ <- _]|].
  destruct (acg_queue_pop c) as [[r c1]|] eqn:Ep; [|done]. cbn [mbind res_bind]. assert (acg_queue c1 = acg_queue c) as Hq.
  { unfold acg_queue_pop in Ep. destruct (acg_queue c) as [q|] eqn:Eq; [|by injection Ep as _ <-]. destruct (_ =? 0); [by injection Ep as _ <-|].
    destruct (at_ q _); [|done]. cbn [mbind res_bind] in Ep. injection Ep as _ <-. done. }
  destruct r as [r|]; [|by intros [= _ <- _]]. destruct acg_buf as [buf|]; [|by intros [= _ <- _]].
  destruct (set_memory_write_tlp_header buf _ _ _) as [[b size]|]; [|done]. by intros [= _ <- _].
Qed.

(** *** Registers *)

Lemma land_pow2_0 x n : 0 <= n -> Z.land x (2 ^ n) = 0 <-> Z.testbit x n = false.
Proof.
  intros Hn. split.
  - intros E. apply (f_equal (fun y => Z.testbit y n)) in E. rewrite Z.land_spec, Z.pow2_bits_true, Z.bits_0, andb_true_r in E by done. done.
  - intros E. apply Z.bits_inj'. intros k Hk. rewrite Z.land_spec, Z.bits_0. destruct (decide (k = n)) as [->|Hne].
    + by rewrite E.
    + rewrite Z.pow2_bits_false by lia. apply andb_false_r.
Qed.
Lemma ldiff_pow2_0 x n : 0 <= n -> Z.land (Z.ldiff x (2 ^ n)) (2 ^ n) = 0.
Proof. intros Hn. apply land_pow2_0; [done|]. rewrite Z.ldiff_spec, Z.pow2_bits_true by done. apply andb_false_r. Qed.

(** The link after unplugging or after power off is down. *)
Lemma link_down x : Z.land (Z.ldiff x LINK_STS_DL_ACTIVE) LINK_STS_DL_ACTIVE = 0.
Proof. change LINK_STS_DL_ACTIVE with (2 ^ 13). by apply ldiff_pow2_0. Qed.

(** What a write to registers leaves alone. *)
Definition dev_frame (d : pci_device_config) :=
  (dev_kind d, dc_device_present d, dc_rep d, dc_tlp_dev d, dc_log_bar_size d, dc_transaction_region_start d).

Lemma frame_ok c i d d' : dev_ok c i d -> dev_frame d' = dev_frame d -> (link_ok d -> link_ok d') -> regs_ok d' -> ids_ok d' -> dev_ok c i d'.
Proof.
  unfold dev_frame, dev_kind. intros [Hk He Ha Hl Hr Hy Hi] [= E1 E2 E3 E4 E5 E6 E7 E8 E9 E10] Hlk Hr' Hi'. split; auto.
  - unfold kind_ok in *. by rewrite E3, E4, E5.
  - unfold ep_ok in *. by rewrite E6, E7, E8.
  - by rewrite E4, E6.
  - unfold layout_ok in *. by rewrite E9, E10.
Qed.
Lemma put_frame_ok c w i d d' : bridge_ok c w -> devs_config c !! i = Some d -> dev_frame d' = dev_frame d -> (link_ok d -> link_ok d') ->
  regs_ok d' -> ids_ok d' -> bridge_ok (put_dev c i d') w.
Proof.
  intros [Hd Hcr] E Hs Hl Hr Hi. split; [|done]. assert (dc_rep d' = dc_rep d /\ dc_tlp_dev d' = dc_tlp_dev d) as [Er Et] by (unfold dev_frame in Hs; split; congruence).
  eapply put_regs_ok; [done|done| |done|done]. eapply frame_ok; [by apply (dk_dev c w Hd)|done..].
Qed.

(** A change of the slot's and link's registers of a device. *)
Definition slot_regs (d : pci_device_config) (control status link : Z) : pci_device_config :=
  let x := dc_express d in {| d with dc_express := {| x with xp_slot_control := control; xp_slot_status := status; xp_link_status := link |} |}.

Lemma slot_put_ok c w i d control status link : bridge_ok c w -> devs_config c !! i = Some d ->
  in_width 16 control -> in_width 16 status -> in_width 16 link -> (link_ok d -> link_ok (slot_regs d control status link)) ->
  let c' := put_dev c i (slot_regs d control status link) in bridge_ok c' w /\ ctx_static c' = ctx_static c.
Proof.
  intros Hok E H1 H2 H3 Hl. pose proof (dk_dev c w (proj1 Hok) i d E) as Hd. split; [|by eapply put_dev_static].
  eapply put_frame_ok; [done|done|done|done| |by destruct (do_ids _ _ _ Hd)].
  apply (regs_updates d (do_regs _ _ _ Hd) _ [(58%nat, 16, control); (59%nat, 16, status); (56%nat, 16, link)]); [reflexivity| |reflexivity..].
  repeat apply List.Forall_cons; try apply List.Forall_nil; done.
Qed.

(** The widths of these registers. *)
Lemma slot_widths c w i d : bridge_ok c w -> devs_config c !! i = Some d ->
  in_width 16 (xp_slot_control (dc_express d)) /\ in_width 16 (xp_slot_status (dc_express d)) /\ in_width 16 (xp_link_status (dc_express d)).
Proof.
  intros Hok E. pose proof (do_regs _ _ _ (dk_dev c w (proj1 Hok) i d E)) as Hr.
  split; [by apply (reg_width d 58 16)|]. split; [by apply (reg_width d 59 16)|by apply (reg_width d 56 16)].
Qed.

(** The device after [trigger_command_completed]. *)
Definition cmd_completed (d : pci_device_config) : pci_device_config :=
  let x := dc_express d in slot_regs d (xp_slot_control x) (Z.lor (xp_slot_status x) SLOT_STS_CMD_COMPLETED) (xp_link_status x).

Lemma command_completed_spec acg_buf c w i d : bridge_ok c w -> buf_ok acg_buf -> devs_config c !! i = Some d ->
  exists e c' w', trigger_command_completed acg_buf c w i = Done (e, c', w') /\ bridge_ok c' w' /\
    ctx_rest c' = ctx_rest (put_dev c i (cmd_completed d)) /\ w_replies w' = w_replies w /\ acg_queue c' = acg_queue c /\ same_live w w'.
Proof.
  intros Hok Hb E. unfold trigger_command_completed, dev_at. rewrite E. cbn [mbind res_bind].
  destruct (slot_widths c w i d Hok E) as (W1 & W2 & W3).
  destruct (slot_put_ok c w i d (xp_slot_control (dc_express d)) (Z.lor (xp_slot_status (dc_express d)) SLOT_STS_CMD_COMPLETED)
    (xp_link_status (dc_express d)) Hok E) as [Hok1 _]; [done|by apply lor_width|done|done|].
  destruct (_ =? 0); [eexists _, _, _; split; [done|]; done|].
  match goal with |- context [send_msi_via_memory_write_tlp acg_buf ?c1 w ?d1] => destruct (send_msi_spec acg_buf c1 w d1 Hok1 Hb) as (e & c' & w' & E' & Hok' & _ & Hm) end.
  rewrite E'. eexists _, _, _. split; [done|]. split; [done|]. apply send_msi_queue in E'. by inversion Hm.
Qed.

Lemma granted_spec c w req : bridge_ok c w -> exists c' w', acg_granted c w req = Done (c', w') /\ bridge_ok c' w' /\ ctx_static c' = ctx_static c.
Proof.
  intros [Hd [Hwf Hcr]]. unfold acg_granted. destruct (acg_push_spec c req Hwf) as (e & c' & -> & Hwf' & Hr & _ & Hcase). cbn [mbind res_bind].
  pose proof (devs_ok_rest c c' w Hr Hd) as Hd'. pose proof (ctx_rest_static c c' Hr) as Hst.
  destruct Hcase as [(-> & _ & Hl)|(-> & -> & _)]; eexists _, _; (split; [done|]); (split; [|done]); split.
  - by apply (devs_ok_same_handles c' w).
  - split; [done|]. cbn. rewrite Hl, Hcr, <- app_assoc. cbn. by rewrite Permutation_middle.
  - by apply (devs_ok_same_handles c w).
  - split; [done|]. cbn. by rewrite Hcr, Permutation_middle.
Qed.

(** *** Hotplug *)

Definition dsp_of (c : tlp_context) (k : Z) : nat := Z.to_nat (FIRST_DSP_IDX c + k).
Definition ep_of (c : tlp_context) (k : Z) : nat := Z.to_nat (FIRST_PF_IDX c + k).

(** Why a command is refused, for the bridge [dsp], its endpoint [ep] and the credits in the queue. *)
Definition hotplug_refusal (dsp ep : pci_device_config) (credits : list Z) (plug : bool) : option doca_error_t :=
  if Z.land (xp_slot_control (dc_express dsp)) SLOT_CTRL_HP_INT_EN =? 0 then Some DOCA_ERROR_NOT_SUPPORTED
  else match credits with
       | [] => Some DOCA_ERROR_AGAIN
       | _ => if plug && dc_device_present ep then Some DOCA_ERROR_ALREADY_EXIST
              else if negb plug && negb (dc_device_present ep) then Some DOCA_ERROR_NOT_FOUND
              else None
       end.

(** The context with a new endpoint. *)
Definition with_ep (c : tlp_context) (k : Z) (ep : pci_device_config) (t : Z) : tlp_context :=
  {| c with devs_config := <[ep_of c k := ep]> (devs_config c); dev_type_idx := t |}.

(** The outcomes of a command: refused, without effect; the library failed, and the endpoint is as present as before;
    or the endpoint has changed, the slot shows it, and the rest is the interrupt's. *)
Inductive hotplug_outcome (a : hotplug_answers) (c : tlp_context) (w : world) (k : Z) (plug : bool) :
    doca_error_t -> tlp_context -> world -> Prop :=
| HpRange : num_dsp c <= k -> hotplug_outcome a c w k plug DOCA_ERROR_INVALID_VALUE c w
| HpRefused dsp ep e : k < num_dsp c -> devs_config c !! dsp_of c k = Some dsp -> devs_config c !! ep_of c k = Some ep ->
    hotplug_refusal dsp ep (acg_list c) plug = Some e -> hotplug_outcome a c w k plug e c w
| HpLibrary dsp ep ep' t e w' : k < num_dsp c -> devs_config c !! dsp_of c k = Some dsp -> devs_config c !! ep_of c k = Some ep ->
    hotplug_refusal dsp ep (acg_list c) plug = None -> is_success e = false ->
    dev_core ep' = dev_core ep -> msix_from (if plug then msix_offsets (ha_create a) else None) ep ep' ->
    dc_device_present ep' = negb plug -> same_credits w w' ->
    hotplug_outcome a c w k plug e (with_ep c k ep' t) w'
| HpChanged dsp ep ep' t w1 e c' w' : k < num_dsp c -> devs_config c !! dsp_of c k = Some dsp -> devs_config c !! ep_of c k = Some ep ->
    hotplug_refusal dsp ep (acg_list c) plug = None ->
    dev_core ep' = dev_core ep -> msix_from (if plug then msix_offsets (ha_create a) else None) ep ep' ->
    dc_device_present ep' = plug -> same_credits w w1 ->
    msi_outcome (ha_buf a) (put_dev (with_ep c k ep' t) (dsp_of c k) (update_dsp_slot_status dsp plug)) w1 (update_dsp_slot_status dsp plug) e c' w' ->
    hotplug_outcome a c w k plug e c' w'.

Lemma slot_indices c w k : devs_ok c w -> 0 <= k < num_ep c ->
  Z.to_nat (u32 (FIRST_DSP_IDX c + k)) = dsp_of c k /\ Z.to_nat (u32 (FIRST_PF_IDX c + k)) = ep_of c k /\ dsp_of c k <> ep_of c k /\
  exists dsp ep, devs_config c !! dsp_of c k = Some dsp /\ devs_config c !! ep_of c k = Some ep /\ dc_is_endpoint ep = true.
Proof.
  intros H Hk. pose proof (dk_topo c w H) as Hc. pose proof (tw_nv c Hc). pose proof (tw_ep c Hc) as Hep. pose proof (tw_devices c Hc).
  pose proof (tw_bridges c Hc). pose proof (dk_len c w H). unfold MAX_NUM_EP in Hep. unfold dsp_of, ep_of, FIRST_DSP_IDX, FIRST_PF_IDX in *.
  rewrite !u32_small by lia. split; [done|]. split; [done|]. split; [lia|].
  destruct (lookup_lt_is_Some_2 (devs_config c) (Z.to_nat (num_nv_switch_tlp_dsp c + k))) as [dsp Ed]; [lia|].
  destruct (lookup_lt_is_Some_2 (devs_config c) (Z.to_nat (num_bridges c + k))) as [ep Ee]; [lia|].
  exists dsp, ep. split; [done|]. split; [done|]. destruct (dk_dev c w H _ _ Ee) as [(_ & -> & _) _ _ _]. apply andb_true_iff. split; [apply Z.leb_le|apply Z.ltb_lt]; lia.
Qed.

Lemma slot_status_ok c w i dsp plug : bridge_ok c w -> devs_config c !! i = Some dsp ->
  let c' := put_dev c i (update_dsp_slot_status dsp plug) in bridge_ok c' w /\ ctx_static c' = ctx_static c.
Proof.
  intros Hok E. destruct (slot_widths c w i dsp Hok E) as (W1 & W2 & W3). apply (slot_put_ok c w i dsp); [done..| | |].
  - destruct plug; repeat apply lor_width; done.
  - destruct plug; [done|by apply ldiff_width].
  - unfold link_ok. cbn. destruct plug; [done|]. by rewrite link_down.
Qed.

(** Changing the endpoint of a slot with its handles. *)
Lemma with_ep_ok o c w w' k ep ep' t : bridge_ok c w -> 0 <= k < num_ep c -> devs_config c !! ep_of c k = Some ep -> dc_is_endpoint ep = true ->
  plugged o ep ep' -> ep_ok ep' -> same_credits w w' ->
  handles_ok w' ep' (omap dc_rep (delete (ep_of c k) (devs_config c))) (omap dc_tlp_dev (delete (ep_of c k) (devs_config c))) ->
  bridge_ok (with_ep c k ep' t) w' /\ ctx_static (with_ep c k ep' t) = ctx_static c.
Proof.
  intros [Hd [Hwf Hcr]] Hk E He Hc Hep (C1 & C2 & _) Hh.
  assert (devs_ok (put_dev c (ep_of c k) ep') w') as Hd'.
  { eapply put_dev_ok; [done..| |done]. eapply plugged_ok; [by apply (dk_dev c w Hd)|done..]. }
  split; [split|].
  - destruct Hd' as [H1 H2 H3 [log H4] H5 H6 H7 H8 H9 H10]. split; try done; [by destruct H1| |].
    + exists log. destruct H4 as [M1 M2 M3 M4 M5]. split; [exact M1|exact M2|exact M3|exact M4|exact M5].
    + intros i d Ei. by eapply dev_ok_num, H5.
  - split; [done|]. by rewrite C1, C2.
  - rewrite <- (put_dev_static c (ep_of c k) ep ep'); [done..|]. destruct Hc as [Hc _]. unfold dev_core, dev_static in *. congruence.
Qed.

(** What the library does, for both commands. *)
Lemma hotplug_library a c w k plug ep : bridge_ok c w -> 0 <= k < num_ep c -> devs_config c !! ep_of c k = Some ep -> dc_is_endpoint ep = true ->
  dc_device_present ep = negb plug -> create_ok w (ha_create a) ->
  exists e t ep' w1, (if plug then if dc_device_present ep then Done (DOCA_ERROR_ALREADY_EXIST, c, w) else create_device (ha_create a) c w (ep_of c k)
      else if negb (dc_device_present ep) then Done (DOCA_ERROR_NOT_FOUND, c, w) else destroy_device (ha_destroy a) c w (ep_of c k)) =
      Done (e, with_ep c k ep' t, w1) /\ dev_core ep' = dev_core ep /\
      msix_from (if plug then msix_offsets (ha_create a) else None) ep ep' /\ same_credits w w1 /\ dc_device_present ep' = xorb (negb plug) (is_success e) /\
      bridge_ok (with_ep c k ep' t) w1 /\ ctx_static (with_ep c k ep' t) = ctx_static c.
Proof.
  intros Hok Hk Ee Hend Hpr Hco. pose proof Hok as [Hd _].
  pose proof (devs_ok_handles c w _ ep Hd Ee) as Hh. pose proof (do_ep _ _ _ (dk_dev c w Hd _ _ Ee)) as Hep.
  destruct plug; cbn in Hpr; rewrite Hpr; cbn [negb].
  - destruct (create_device_spec (ha_create a) c w _ ep _ _ Ee Hep Hpr Hh Hco) as (e & t & ep' & w1 & -> & Hc & Hep' & Hh' & Hcr' & Hp & _).
    exists e, t, ep', w1. split; [done|]. split; [by destruct Hc|]. split; [apply Hc|]. split; [done|]. split; [by destruct (is_success e)|]. by eapply with_ep_ok.
  - destruct (destroy_device_spec (ha_destroy a) c w _ ep _ _ Ee Hep Hpr Hh) as (e & ep' & w1 & -> & Hc & Hep' & Hh' & Hcr' & Hp & _).
    exists e, (dev_type_idx c), ep', w1. split; [done|]. split; [by destruct Hc|]. split; [apply Hc|]. split; [done|]. split; [done|]. by eapply with_ep_ok.
Qed.

Lemma hotplug_spec a c w k plug : bridge_ok c w -> 0 <= k -> create_ok w (ha_create a) -> buf_ok (ha_buf a) ->
  exists e c' w', trigger_hotplug_event a c w k plug = Done (e, c', w') /\ bridge_ok c' w' /\ ctx_static c' = ctx_static c /\
    hotplug_outcome a c w k plug e c' w'.
Proof.
  intros Hok Hk Hco Hb. pose proof Hok as [Hd [Hwf Hcr]]. unfold trigger_hotplug_event.
  destruct (Z.leb_spec (num_dsp c) k) as [Hr|Hr]; [eexists _, c, w; split; [done|]; split; [done|]; split; [done|]; by apply HpRange|].
  pose proof (tw_dsp c (dk_topo c w Hd)) as Hdsp. cbv zeta.
  destruct (slot_indices c w k Hd) as (-> & -> & Hne & dsp & ep & Ed & Ee & Hend); [lia|].
  assert (dev_at (devs_config c) (dsp_of c k) = Done dsp) as -> by (unfold dev_at; by rewrite Ed). cbn [mbind res_bind].
  assert (dev_at (devs_config c) (ep_of c k) = Done ep) as -> by (unfold dev_at; by rewrite Ee). cbn [mbind res_bind].
  assert (forall e, hotplug_refusal dsp ep (acg_list c) plug = Some e -> exists e' c' w', Done (e, c, w) = Done (e', c', w') /\ bridge_ok c' w' /\
    ctx_static c' = ctx_static c /\ hotplug_outcome a c w k plug e' c' w') as Href.
  { intros e He. eexists e, c, w. split; [done|]. split; [done|]. split; [done|]. by eapply HpRefused. }
  pose proof (length_acg_list c Hwf) as Hlen.
  destruct (Z.eqb_spec (Z.land (xp_slot_control (dc_express dsp)) SLOT_CTRL_HP_INT_EN) 0) as [Ehp|Ehp].
  { apply Href. unfold hotplug_refusal. by rewrite Ehp. }
  destruct (Z.eqb_spec (acg_queue_count c) 0) as [Ec|Ec].
  { apply Href. unfold hotplug_refusal. rewrite (proj2 (Z.eqb_neq _ _) Ehp). destruct (acg_list c); [done|cbn in Hlen; lia]. }
  assert (forall o, (if plug && dc_device_present ep then Some DOCA_ERROR_ALREADY_EXIST
      else if negb plug && negb (dc_device_present ep) then Some DOCA_ERROR_NOT_FOUND else None) = o ->
      hotplug_refusal dsp ep (acg_list c) plug = o) as Hrest.
  { intros o <-. unfold hotplug_refusal. rewrite (proj2 (Z.eqb_neq _ _) Ehp). destruct (acg_list c); [cbn in Hlen; lia|done]. }
  destruct (plug && dc_device_present ep) eqn:E1.
  { apply andb_true_iff in E1 as [-> ->]. cbn. by apply Href, Hrest. }
  destruct (negb plug && negb (dc_device_present ep)) eqn:E2.
  { apply andb_true_iff in E2 as [Ep E2]. apply negb_true_iff in Ep as ->. rewrite E2. cbn. by apply Href, Hrest. }
  specialize (Hrest None eq_refl).
  destruct (hotplug_library a c w k plug ep Hok ltac:(lia) Ee Hend) as (e & t & ep' & w1 & -> & Hcore & Hmx & Hcr1 & Hpr & Hok1 & Hst1);
    [by destruct plug, (dc_device_present ep)|done|].
  cbn [mbind res_bind]. destruct (is_success e) eqn:Es; cbn [negb]; cycle 1.
  { eexists e, _, w1. split; [done|]. split; [done|]. split; [done|]. eapply HpLibrary; [done..| |done]. by rewrite Hpr, xorb_false_r. }
  unfold dev_at. cbn [with_ep devs_config]. rewrite list_lookup_insert_ne, Ed by done. cbn [mbind res_bind].
  destruct (slot_status_ok (with_ep c k ep' t) w1 (dsp_of c k) dsp plug Hok1) as [Hok2 Hst2].
  { cbn. by rewrite list_lookup_insert_ne. }
  destruct (send_msi_spec (ha_buf a) _ w1 (update_dsp_slot_status dsp plug) Hok2 Hb) as (e' & c' & w' & -> & Hok' & Hst' & Hout).
  eexists e', c', w'. split; [done|]. split; [done|]. split; [congruence|]. eapply HpChanged; [done..| |done|done]. rewrite Hpr. by destruct plug.
Qed.
End Steps.

(** ** Interrupts *)

Section MsiLaws.
Context `{B : Be32} `{!Be32Laws B}.

Lemma msi_dw0 fmt : in_width 3 fmt -> let d := BE32P_SET 9 0 1 (BE32P_SET 28 24 0 (BE32P_SET 31 29 fmt 0)) in
  in_width 32 d /\ be32toh d = fmt * 2 ^ 29 + 1.
Proof.
  intros Hf d.
  destruct (set_step 31 29 32 fmt 0 0) as [W1 E1]; [lia|lia|done|done|done|by exists 0|].
  destruct (set_step 28 24 29 0 _ _ ltac:(lia) ltac:(lia) ltac:(unfold in_width; lia) W1 E1) as [W2 E2]; [by exists fmt; lia|].
  destruct (set_step 9 0 24 1 _ _ ltac:(lia) ltac:(lia) ltac:(unfold in_width; lia) W2 E2) as [W3 E3]; [by exists (fmt * 2 ^ 5); lia|].
  split; [done|]. unfold d. rewrite E3. lia.
Qed.
Lemma msi_dw1 bdf : in_width 16 bdf -> let d := BE32P_SET 3 0 0xF (BE32P_SET 7 4 0 (BE32P_SET 15 8 0 (BE32P_SET 31 16 bdf 0))) in
  in_width 32 d /\ be32toh d = bdf * 2 ^ 16 + 0xF.
Proof.
  intros Hb d.
  destruct (set_step 31 16 32 bdf 0 0) as [W1 E1]; [lia|lia|done|done|done|by exists 0|].
  destruct (set_step 15 8 16 0 _ _ ltac:(lia) ltac:(lia) ltac:(unfold in_width; lia) W1 E1) as [W2 E2]; [by exists bdf; lia|].
  destruct (set_step 7 4 8 0 _ _ ltac:(lia) ltac:(lia) ltac:(unfold in_width; lia) W2 E2) as [W3 E3]; [by exists (bdf * 2 ^ 8); lia|].
  destruct (set_step 3 0 4 0xF _ _ ltac:(lia) ltac:(lia) ltac:(unfold in_width; lia) W3 E3) as [W4 E4]; [by exists (bdf * 2 ^ 12); lia|].
  split; [done|]. unfold d. rewrite E4. lia.
Qed.
Lemma msi_addr_dw lo v : 0 <= lo < 32 -> in_width (32 - lo) v ->
  in_width 32 (BE32P_SET 31 lo v 0) /\ be32toh (BE32P_SET 31 lo v 0) = v * 2 ^ lo.
Proof.
  intros Hlo Hv. destruct (set_step 31 lo 32 v 0 0) as [W E]; [lia|lia|by replace (31 - lo + 1) with (32 - lo) by lia|done|done|by exists 0|].
  split; [done|]. by rewrite E.
Qed.

Lemma get_field_at hi lo i h d : at_ h i = Done d -> 0 <= lo <= hi -> hi < 32 -> in_width 32 d ->
  get_field hi lo i h = Done (be32toh d / 2 ^ lo mod 2 ^ (hi - lo + 1)).
Proof. intros E Hlo Hhi Hd. unfold get_field. rewrite E. cbn. by rewrite get_from. Qed.

Lemma get_addr_field lo i h d v : at_ h i = Done d -> 0 <= lo < 32 -> in_width 32 d -> be32toh d = v * 2 ^ lo -> in_width (32 - lo) v ->
  get_field 31 lo i h = Done v.
Proof.
  intros A Hlo Hd E Hv. rewrite (get_field_at 31 lo i h d) by (done || lia). rewrite E, Z.div_mul by lia.
  f_equal. replace (31 - lo + 1) with (32 - lo) by lia. by apply Z.mod_small.
Qed.

(** Fields of the first two double words. *)
Lemma msi_fields h fmt bdf d0 d1 : at_ h 0 = Done d0 -> at_ h 1 = Done d1 -> in_width 32 d0 -> in_width 32 d1 -> fmt = 2 \/ fmt = 3 -> in_width 16 bdf ->
  be32toh d0 = fmt * 2 ^ 29 + 1 -> be32toh d1 = bdf * 2 ^ 16 + 0xF ->
  GET_TLP_REQ_FMT h = Done fmt /\ GET_TLP_REQ_TYPE h = Done TLP_REQ_TYPE_MEMORY_READ_WRITE /\ GET_TLP_REQ_LENGTH h = Done 1 /\
  GET_TLP_REQ_REQ_ID h = Done bdf /\ GET_TLP_REQ_TAG h = Done 0 /\ GET_TLP_REQ_LAST_DW_BE h = Done 0 /\ GET_TLP_REQ_FIRST_DW_BE h = Done 0xF.
Proof.
  intros A0 A1 W0 W1 Hf Hb E0 E1. unfold GET_TLP_REQ_FMT, GET_TLP_REQ_TYPE, GET_TLP_REQ_LENGTH, GET_TLP_REQ_REQ_ID, GET_TLP_REQ_TAG,
    GET_TLP_REQ_LAST_DW_BE, GET_TLP_REQ_FIRST_DW_BE.
  rewrite !(get_field_at _ _ 0 _ _ A0), !(get_field_at _ _ 1 _ _ A1) by (done || lia). rewrite E0, E1. unfold in_width in Hb.
  split; [destruct Hf as [->| ->]; done|]. split; [destruct Hf as [->| ->]; done|]. split; [destruct Hf as [->| ->]; done|].
  assert ((bdf * 2 ^ 16 + 15) / 2 ^ 16 = bdf) as -> by (symmetry; apply (Z.div_unique _ _ _ 15); lia).
  assert ((bdf * 2 ^ 16 + 15) / 2 ^ 8 = bdf * 2 ^ 8) as -> by (symmetry; apply (Z.div_unique _ _ _ 15); lia).
  assert ((bdf * 2 ^ 16 + 15) / 2 ^ 4 = bdf * 2 ^ 12) as -> by (symmetry; apply (Z.div_unique _ _ _ 15); lia).
  repeat split; f_equal.
  - change (31 - 16 + 1) with 16. apply Z.mod_small; lia.
  - change (15 - 8 + 1) with 8. apply Z.mod_mul; done.
  - change (7 - 4 + 1) with 4. replace (bdf * 2 ^ 12) with (bdf * 2 ^ 8 * 2 ^ 4) by lia. apply Z.mod_mul; done.
  - change (3 - 0 + 1) with 4. rewrite Z.div_1_r. replace (bdf * 2 ^ 16 + 15) with (15 + bdf * 2 ^ 12 * 2 ^ 4) by lia. by rewrite Z_mod_plus_full.
Qed.

(** An interrupt says what the host programmed. In a buffer that is zero, the message for an address that is
    a multiple of four (and for which the bits 32 and 33 are zero, as the code passes them with the low part) reads as a
    memory write of one double word with all bytes enabled, from the bridge's bus, device and function, to this address,
    with the message data after the header; it takes the four-word header exactly for an address over 32 bits, and
    its size is the header's and the data's. *)
Theorem msi_roundtrip n addr data bdf : (5 <= n)%nat -> in_width 64 addr -> (4 | addr) -> (4 | addr / 2 ^ 32) -> in_width 16 bdf ->
  exists h size, set_memory_write_tlp_header (replicate n 0) addr data bdf = Done (h, size) /\
  (forall q, rq_header q = h -> get_tlp_req_type q = Done TLP_REQ_TYPE_MEMORY_WRITE) /\
  GET_TLP_REQ_LENGTH h = Done 1 /\ GET_TLP_REQ_FIRST_DW_BE h = Done 0xF /\ GET_TLP_REQ_LAST_DW_BE h = Done 0 /\
  GET_TLP_REQ_REQ_ID h = Done bdf /\ mem_request_address h = Done addr /\
  h !! Z.to_nat (size / 4 - 1) = Some data /\ size = (if addr <? 2 ^ 32 then 16 else 20).
Proof.
  intros Hn Ha [b Hb] [g Hg] Hbdf. destruct n as [|[|[|[|[|n]]]]]; try lia. cbn [replicate]. unfold set_memory_write_tlp_header.
  rewrite Z.shiftr_div_pow2 by lia. pose proof (Z.div_mod addr (2 ^ 32) ltac:(done)) as Hdm. pose proof (Z.mod_pos_bound addr (2 ^ 32) ltac:(done)) as Hm.
  unfold in_width in Ha. assert (0 <= addr / 2 ^ 32 < 2 ^ 32) as Hhi by (split; [apply Z.div_pos; lia|apply Z.div_lt_upper_bound; lia]).
  set (low := b - 2 ^ 30 * (addr / 2 ^ 32)). assert (low * 4 = addr mod 2 ^ 32) as Hlow4 by (unfold low; lia).
  assert (u32 (Z.shiftr addr 2) = low) as Hlow.
  { unfold u32, uwrap. rewrite Z.shiftr_div_pow2 by lia. rewrite Hb at 1. change (2 ^ 2) with 4. rewrite Z.div_mul by done.
    symmetry. apply (Z.mod_unique _ _ g); unfold low in *; lia. }
  clearbody low.
  assert (in_width (32 - 2) low) as Hlw by (unfold in_width; change (32 - 2) with 30; lia).
  destruct (msi_addr_dw 2 low ltac:(lia) Hlw) as [Wl El].
  destruct (msi_dw1 bdf Hbdf) as [W1 E1].
  destruct (Z.eqb_spec (addr / 2 ^ 32) 0) as [Ez|Ez]; cbn [negb].
  - destruct (msi_dw0 2) as [W0 E0]; [by unfold in_width|]. cbn -[BE32P_SET Z.shiftr]. rewrite Hlow. eexists _, 16. split; [done|].
    match goal with |- context [GET_TLP_REQ_LENGTH ?x] => set (h := x) end.
    destruct (msi_fields h 2 bdf _ _ eq_refl eq_refl W0 W1 ltac:(by left) Hbdf E0 E1) as (F1 & F2 & F3 & F4 & F5 & F6 & F7).
    split; [intros q Eq; unfold get_tlp_req_type; rewrite Eq, F1; cbn [mbind res_bind]; by rewrite F2|]. do 4 (split; [done|]). split; [|split; [done|]].
    + unfold mem_request_address, mem_addr_64bit, GET_MEM_ADDR_32BIT. rewrite F1. cbn [mbind res_bind]. rewrite (get_addr_field 2 2 h _ low eq_refl ltac:(lia) Wl El Hlw).
      cbn [mbind res_bind orb Z.eqb]. change (Done (u32 (Z.shiftl low 2)) = Done addr).
      rewrite Z.shiftl_mul_pow2 by lia. rewrite u32_small by lia. f_equal. lia.
    + destruct (Z.ltb_spec addr (2 ^ 32)); [done|]. assert (0 < addr / 2 ^ 32); [|lia]. apply Z.div_str_pos; lia.
  - destruct (msi_dw0 3) as [W0 E0]; [by unfold in_width|].
    assert (u32 (addr / 2 ^ 32) = addr / 2 ^ 32) as Hu by (apply u32_small; lia).
    destruct (msi_addr_dw 0 (addr / 2 ^ 32) ltac:(lia)) as [Wh Eh]; [done|].
    cbn -[BE32P_SET Z.shiftr Z.div]. rewrite Hlow, Hu. eexists _, 20. split; [done|].
    match goal with |- context [GET_TLP_REQ_LENGTH ?x] => set (h := x) end.
    destruct (msi_fields h 3 bdf _ _ eq_refl eq_refl W0 W1 ltac:(by right) Hbdf E0 E1) as (F1 & F2 & F3 & F4 & F5 & F6 & F7).
    split; [intros q Eq; unfold get_tlp_req_type; rewrite Eq, F1; cbn [mbind res_bind]; by rewrite F2|]. do 4 (split; [done|]). split; [|split; [done|]].
    + unfold mem_request_address, mem_addr_64bit, GET_MEM_ADDR_32BIT. rewrite F1. cbn [mbind res_bind]. rewrite (get_addr_field 0 2 h _ (addr / 2 ^ 32) eq_refl ltac:(lia) Wh Eh Hhi).
      rewrite (get_addr_field 2 3 h _ low eq_refl ltac:(lia) Wl El Hlw).
      change (Done (Z.lor (Z.shiftl (addr / 2 ^ 32) 32) (u32 (Z.shiftl low 2))) = Done addr).
      rewrite (u32_small (Z.shiftl low 2)) by (rewrite Z.shiftl_mul_pow2; lia). rewrite (Z.shiftl_mul_pow2 (addr / 2 ^ 32)) by lia.
      rewrite (lor_add _ low 2 32); [f_equal; lia|lia|lia|lia|by exists (addr / 2 ^ 32)].
    + destruct (Z.ltb_spec addr (2 ^ 32)); [|done]. by rewrite Z.div_small in Ez by lia.
Qed.
End MsiLaws.

Lemma msi_roundtrip_witness : exists h size, set_memory_write_tlp_header (replicate 5 0) 0xFEE00018 0x4041 (BDF 2 3 0) = Done (h, size) /\
  GET_TLP_REQ_REQ_ID h = Done 0x218 /\ mem_request_address h = Done 0xFEE00018 /\ size = 16.
Proof.
  destruct (msi_roundtrip (B := be32_bits) 5 0xFEE00018 0x4041 (BDF 2 3 0)) as (h & size & E & _ & _ & _ & _ & Hid & Ha & _ & Hs).
  - lia.
  - unfold in_width. lia.
  - by exists 0x3FB80006.
  - by exists 0.
  - unfold in_width. vm_compute. split; [discriminate|reflexivity].
  - exists h, size. split; [exact E|]. split; [exact Hid|]. split; [exact Ha|exact Hs].
Defined.
