(* ===== verification/BridgeReq.v ===== *)
(** * BridgeReq: requests of the TLP bridge handler sample,
      src/samples/doca_devemu/devemu_pci_device_tlp_bridge_handler/
      devemu_pci_device_tlp_bridge_handler_sample.c

    The path of a request through the sample: which device it is for, the
    configuration and memory accesses, the completion, and the callback
    [bridge_req_handler_cb] that takes requests, credits and PCI events from the channel.
    [bridge_step] is one of these or a command. [bridge_request_reply] says how every
    request is answered, [bridge_config_read], [bridge_config_write] and
    [bridge_memory_roundtrip] what an access does. Names that TlpReq has for the other
    sample have the prefix [bridge_] here.

    A request's buffers are lists of double words; [bq_data] is [None] for a [NULL]
    pointer. Completion data is what the handler writes. *)

From S2P Require Import Prelude TlpCfg TlpReq Bits BridgeData BridgeCfg BridgeMap BridgeSlot.

(** ** Requests *)

Record bridge_req := { bq_header : list Z; bq_data : option (list Z); bq_dsp_id : Z }.

Section Handler.
Context `{B : Be32}.
Implicit Types (q : bridge_req) (h : list Z) (c : tlp_context) (w : world).

Definition bridge_req_type h : res tlp_req_type :=
  fmt ← GET_TLP_REQ_FMT h;
  type ← GET_TLP_REQ_TYPE h;
  let write := negb (Z.land fmt TLP_FMT_3DW_W_DATA =? 0) in
  Done (if type =? TLP_REQ_TYPE_MEMORY_READ_WRITE then
          if write then TLP_REQ_TYPE_MEMORY_WRITE else TLP_REQ_TYPE_MEMORY_READ
        else if type =? TLP_REQ_TYPE_CONFIG_READ_WRITE_TYPE_0 then
          if write then TLP_REQ_TYPE_CONFIG_WRITE_TYPE_0 else TLP_REQ_TYPE_CONFIG_READ_TYPE_0
        else if type =? TLP_REQ_TYPE_CONFIG_READ_WRITE_TYPE_1 then
          if write then TLP_REQ_TYPE_CONFIG_WRITE_TYPE_1 else TLP_REQ_TYPE_CONFIG_READ_TYPE_1
        else TLP_REQ_TYPE_INVALID).

(** The index of an endpoint among the endpoints; [None] for an error. *)
Definition get_pf_index_for_device c (i : nat) : res (option Z) :=
  dev_cfg ← dev_at (devs_config c) i;
  if negb (dc_is_endpoint dev_cfg) then Done None
  else first_in_group (Z.to_nat (num_ep c)) 0 (fun k => Done (i =? Z.to_nat (u32 (FIRST_PF_IDX c + k)))%nat).

(** ** Completions *)

Definition bridge_completion_header (d : pci_device_config) (byte_count : Z) : list Z :=
  let dw0 := BE32P_SET 31 29 (dc_cmpl_fmt d) 0 in
  let dw0 := BE32P_SET 28 24 (dc_cmpl_type d) dw0 in
  let dw0 := BE32P_SET 23 23 (dc_tag9 d) dw0 in
  let dw0 := BE32P_SET 19 19 (dc_tag8 d) dw0 in
  let dw0 := BE32P_SET 9 0 (dc_cmpl_length d) dw0 in
  let dw1 := BE32P_SET 31 16 (dc_completer_id d) 0 in
  let dw1 := BE32P_SET 15 13 (dc_cmpl_status d) dw1 in
  let dw1 := BE32P_SET 11 0 byte_count dw1 in
  let dw2 := BE32P_SET 31 16 (dc_requester_id d) 0 in
  let dw2 := BE32P_SET 15 8 (dc_tag d) dw2 in
  [dw0; dw1; dw2].

(** The assignments to the completion fields of a device. *)
Definition bridge_set_cmpl (d : pci_device_config) (fmt type length status : Z) : pci_device_config :=
  {| d with dc_cmpl_fmt := fmt; dc_cmpl_type := type; dc_cmpl_length := length; dc_cmpl_status := status |}.
Definition bridge_set_requester (d : pci_device_config) (req_id tag9 tag8 tag : Z) : pci_device_config :=
  {| d with dc_requester_id := req_id; dc_tag9 := tag9; dc_tag8 := tag8; dc_tag := tag |}.

Definition return_unsupported_request c w h : res (tlp_context * world) :=
  let di := Z.to_nat (DUMMY_DEV_IDX c) in
  dummy_dev ← dev_at (devs_config c) di;
  req_id ← GET_TLP_REQ_REQ_ID h;
  tag9 ← GET_TLP_REQ_TAG9 h;
  tag8 ← GET_TLP_REQ_TAG8 h;
  tag ← GET_TLP_REQ_TAG h;
  let dummy_dev := bridge_set_cmpl (bridge_set_requester dummy_dev req_id tag9 tag8 tag)
                     TLP_FMT_CPL_NODATA TLP_TYPE_COMPLETION 0 TLP_CPL_STATUS_UR in
  Done (put_dev c di dummy_dev,
        reply w {| cpl_header := Some (bridge_completion_header dummy_dev BYTES_IN_DWORD); cpl_data := None |} (BcTlp true None)).

(** ** Configuration requests *)

Definition bridge_read_type_0 c w (i : nat) (ext_reg_num : Z) : res (tlp_context * world) :=
  d ← dev_at (devs_config c) i;
  '(cfg_read_data, (cap_id, is_cap_id_valid, is_pcie_cap)) ← bridge_read_switch ext_reg_num d;
  let d := bridge_set_cmpl d TLP_FMT_CPL_W_DATA TLP_TYPE_COMPLETION 1 TLP_CPL_STATUS_SC in
  Done (put_dev c i d,
        reply w {| cpl_header := Some (bridge_completion_header d BYTES_IN_DWORD); cpl_data := Some [cfg_read_data] |}
              (BcConfigRead (dc_tlp_dev d) is_cap_id_valid cap_id is_pcie_cap)).
(** The function for type 1 has the same body but for a message. *)
Definition bridge_read_type_1 := bridge_read_type_0.

Definition bridge_write_type_0 (acg_buf : option (list Z)) c w (i : nat) q (ext_reg_num : Z) : res (tlp_context * world) :=
  first_dw_be ← GET_TLP_REQ_FIRST_DW_BE (bq_header q);
  be_mask ← map_first_dw_be_to_mask first_dw_be;
  write_data ← match bq_data q with Some l => at_ l 0 | None => Done 0 end;
  d ← dev_at (devs_config c) i;
  '(d, (cap_id, is_cap_id_valid, is_pcie_cap), trigger_cmd_completed) ← bridge_write_switch ext_reg_num write_data be_mask d;
  let d := bridge_set_cmpl d TLP_FMT_CPL_NODATA TLP_TYPE_COMPLETION 0 TLP_CPL_STATUS_SC in
  let c := put_dev c i d in
  let w := reply w {| cpl_header := Some (bridge_completion_header d BYTES_IN_DWORD); cpl_data := None |}
                 (BcConfigWrite (dc_tlp_dev d) is_cap_id_valid cap_id is_pcie_cap) in
  if trigger_cmd_completed : bool then '(_, c, w) ← trigger_command_completed acg_buf c w i; Done (c, w)
  else Done (c, w).
Definition bridge_write_type_1 := bridge_write_type_0.

(** ** Memory requests *)

Definition mem_num_dwords (length : Z) : Z := if length =? 0 then 1024 else length.

(** The memory of an endpoint's transaction region and the offset in it, if the address is there. *)
Definition mem_region c (i : nat) (d : pci_device_config) (address : Z) : res (option (Z * list Z * Z)) :=
  bar0_base ← bar_base (t0_bar (dc_type0 d));
  let offset_in_bar := u64 (address - bar0_base) in
  let transaction_region_start := dc_transaction_region_start d in
  let transaction_region_end := u64 (transaction_region_start + transaction_region_size c) in
  pf ← get_pf_index_for_device c i;
  match pf, transaction_region_memories c with
  | Some pf_index, Some memories =>
    match memories !! Z.to_nat pf_index with
    | None => Crash OutOfBounds
    | Some None => Done None
    | Some (Some mem) =>
      Done (if (transaction_region_start <=? offset_in_bar) && (offset_in_bar <? transaction_region_end)
            then Some (pf_index, mem, offset_in_bar - transaction_region_start) else None)
    end
  | _, _ => Done None
  end.

(** At most 256 double words are written, whatever the header announces. *)
Definition bridge_memory_read c (i : nat) q : res (tlp_context * tlp_cpl) :=
  let h := bq_header q in
  length ← GET_TLP_REQ_LENGTH h;
  fmt ← GET_TLP_REQ_FMT h;
  let num_dwords := mem_num_dwords length in
  address ← (if fmt =? TLP_FMT_4DW_NODATA then mem_addr_64bit h else GET_MEM_ADDR_32BIT h);
  first_dw_be ← GET_TLP_REQ_FIRST_DW_BE h;
  last_dw_be ← GET_TLP_REQ_LAST_DW_BE h;
  d ← dev_at (devs_config c) i;
  region ← mem_region c i d address;
  data_array ← match region with
    | Some (_, mem, offset) =>
      mapM (fun dw_idx => read_dword mem (offset + dw_idx * BYTES_IN_DWORD)
              (get_dword_byte_enable_mask dw_idx num_dwords first_dw_be last_dw_be)) (idx (Z.min num_dwords 256))
    | None => Done ((fun i => u32 (BRIDGE_DUMMY_READ_DATA_BASE + i)) <$> idx (Z.min num_dwords 256))
    end;
  let d := bridge_set_cmpl d TLP_FMT_CPL_W_DATA TLP_TYPE_COMPLETION (u16 num_dwords) TLP_CPL_STATUS_SC in
  Done (put_dev c i d,
        {| cpl_header := Some (bridge_completion_header d (u16 (num_dwords * BYTES_IN_DWORD))); cpl_data := Some data_array |}).

Definition put_region c (k : Z) (mem : list Z) : tlp_context :=
  match transaction_region_memories c with
  | None => c
  | Some l => {| c with transaction_region_memories := Some (<[Z.to_nat k := Some mem]> l) |}
  end.

Definition bridge_memory_write c (i : nat) q : res (tlp_context * tlp_cpl) :=
  let h := bq_header q in
  length ← GET_TLP_REQ_LENGTH h;
  first_dw_be ← GET_TLP_REQ_FIRST_DW_BE h;
  last_dw_be ← GET_TLP_REQ_LAST_DW_BE h;
  fmt ← GET_TLP_REQ_FMT h;
  let num_dwords := mem_num_dwords length in
  address ← (if fmt =? TLP_FMT_4DW_W_DATA then mem_addr_64bit h else GET_MEM_ADDR_32BIT h);
  d ← dev_at (devs_config c) i;
  region ← mem_region c i d address;
  c ← match region, bq_data q with
    | Some (k, mem, offset), Some data_array =>
      mem ← write_dwords (idx num_dwords) data_array mem offset num_dwords first_dw_be last_dw_be; Done (put_region c k mem)
    | _, _ => Done c
    end;
  Done (put_dev c i (bridge_set_cmpl d 0 (dc_cmpl_type d) 0 0), no_cpl).

(** ** The device of a request *)

Definition find_device_by_address c (address : Z) : res nat :=
  found ← first_in_group (Z.to_nat (num_ep c)) 0 (fun k =>
    dev_cfg ← dev_at (devs_config c) (Z.to_nat (u32 (FIRST_PF_IDX c + k)));
    if negb (dc_is_endpoint dev_cfg) then Done false
    else
      bar0_base ← bar_base (t0_bar (dc_type0 dev_cfg));
      Done (negb (bar0_base =? 0) && (bar0_base <=? address) && (address <? u64 (bar0_base + BAR_SIZE_16K))));
  Done (match found with Some k => Z.to_nat (u32 (FIRST_PF_IDX c + k)) | None => Z.to_nat (DUMMY_DEV_IDX c) end).

(** The first access gives a device its identifier. *)
Definition set_device_bdf (d : pci_device_config) (bus tlp_bdf : Z) : pci_device_config :=
  if dc_is_bdf_set d then d
  else {| d with dc_bdf := tlp_bdf; dc_bus := bus; dc_completer_id := tlp_bdf; dc_is_bdf_set := true |}.

Definition find_target_device q c (tlp_type : tlp_req_type) : res (tlp_context * nat) :=
  let h := bq_header q in
  if bool_decide (tlp_type = TLP_REQ_TYPE_MEMORY_READ) || bool_decide (tlp_type = TLP_REQ_TYPE_MEMORY_WRITE) then
    address ← mem_request_address h;
    i ← find_device_by_address c address;
    Done (c, i)
  else
    bus ← GET_TLP_REQ_BUS h;
    device ← GET_TLP_REQ_DEVICE h;
    function ← GET_TLP_REQ_FUNCTION h;
    req_type ← GET_TLP_REQ_TYPE h;
    '(c, i) ← find_device_by_bdf c (bq_dsp_id q) bus device function req_type;
    dev_cfg ← dev_at (devs_config c) i;
    Done (put_dev c i (set_device_bdf dev_cfg bus (BDF bus device function)), i).

(** ** The request *)

(** The switch of [handle_tlp_req] for a device with the handle [tlp_dev]; [acg_buf] is the buffer of the credit, should an interrupt be sent. *)
Definition bridge_req_switch (acg_buf : option (list Z)) q c w (i : nat) (tlp_dev : option Z) (ext_reg_num : Z) (tlp_type : tlp_req_type) :
    res (tlp_context * world) :=
  match tlp_type with
  | TLP_REQ_TYPE_CONFIG_READ_TYPE_0 => bridge_read_type_0 c w i ext_reg_num
  | TLP_REQ_TYPE_CONFIG_READ_TYPE_1 => bridge_read_type_1 c w i ext_reg_num
  | TLP_REQ_TYPE_CONFIG_WRITE_TYPE_0 => bridge_write_type_0 acg_buf c w i q ext_reg_num
  | TLP_REQ_TYPE_CONFIG_WRITE_TYPE_1 => bridge_write_type_1 acg_buf c w i q ext_reg_num
  | TLP_REQ_TYPE_MEMORY_READ => '(c, cpl) ← bridge_memory_read c i q; Done (c, reply w cpl (BcTlp true tlp_dev))
  | TLP_REQ_TYPE_MEMORY_WRITE => '(c, cpl) ← bridge_memory_write c i q; Done (c, reply w cpl (BcTlp false tlp_dev))
  | _ => return_unsupported_request c w (bq_header q)
  end.

Definition bridge_handle_tlp_req (acg_buf : option (list Z)) q c w (i : nat) (tlp_type : tlp_req_type) : res (tlp_context * world) :=
  let h := bq_header q in
  ext_reg_num ← GET_TLP_REQ_EXT_REG_NUM h;
  req_id ← GET_TLP_REQ_REQ_ID h;
  tag9 ← GET_TLP_REQ_TAG9 h;
  tag8 ← GET_TLP_REQ_TAG8 h;
  tag ← GET_TLP_REQ_TAG h;
  dev_cfg ← dev_at (devs_config c) i;
  let c := put_dev c i (bridge_set_requester dev_cfg req_id tag9 tag8 tag) in
  if dc_is_dummy dev_cfg then return_unsupported_request c w h
  else bridge_req_switch acg_buf q c w i (dc_tlp_dev dev_cfg) ext_reg_num tlp_type.

Definition bridge_req_pci_event w : world := reply w no_cpl BcPciEvent.

(** What the channel passes to the callback, by its operation code. *)
Inductive bridge_request := RqAcg (req : Z) | RqPciEvent | RqTlp (q : bridge_req).

(** [user_data] is the result of [doca_ctx_get_user_data]. *)
Definition bridge_req_handler_cb (user_data : doca_error_t) (acg_buf : option (list Z)) (rq : bridge_request) c w : res (tlp_context * world) :=
  if negb (is_success user_data) then Done (c, w)
  else match rq with
  | RqAcg req => acg_granted c w req
  | RqPciEvent => Done (c, bridge_req_pci_event w)
  | RqTlp q =>
    tlp_type ← bridge_req_type (bq_header q);
    '(c, i) ← find_target_device q c tlp_type;
    dev_cfg ← dev_at (devs_config c) i;
    bridge_handle_tlp_req acg_buf q (put_dev c i (bridge_set_cmpl dev_cfg 0 0 0 0)) w i tlp_type
  end.

(** ** The machine *)

Inductive bridge_event :=
| EvRequest (user_data : doca_error_t) (acg_buf : option (list Z)) (rq : bridge_request)
| EvHotplug (a : hotplug_answers) (dsp_index : Z) (plug : bool).

(** A turn of the main loop: a callback of the channel, or a command of the user. *)
Definition bridge_step (ev : bridge_event) c w : res (tlp_context * world) :=
  match ev with
  | EvRequest user_data acg_buf rq => bridge_req_handler_cb user_data acg_buf rq c w
  | EvHotplug a dsp_index plug => '(_, c, w) ← trigger_hotplug_event a c w dsp_index plug; Done (c, w)
  end.
End Handler.

(** ** Finding a device *)

Lemma first_in_group_spec n i f (g : Z -> bool) : (forall j, i <= j < i + Z.of_nat n -> f j = Done (g j)) ->
  exists r, first_in_group n i f = Done r /\
    match r with
    | Some k => i <= k < i + Z.of_nat n /\ g k = true /\ (forall j, i <= j < k -> g j = false)
    | None => forall j, i <= j < i + Z.of_nat n -> g j = false
    end.
Proof.
  revert i. induction n as [|n IH]; intros i Hf; cbn [first_in_group]; [exists None; split; [done|lia]|].
  rewrite Hf by lia. cbn [mbind res_bind]. destruct (g i) eqn:Eg.
  - exists (Some i). split; [done|]. split; [lia|]. split; [done|]. lia.
  - destruct (IH (i + 1)) as (r & -> & Hr); [intros; apply Hf; lia|]. exists r. split; [done|]. destruct r as [k|].
    + destruct Hr as (Hk & Hg & Hlt). split; [lia|]. split; [done|]. intros j Hj. destruct (decide (j = i)) as [->|]; [done|]. apply Hlt. lia.
    + intros j Hj. destruct (decide (j = i)) as [->|]; [done|]. apply Hr. lia.
Qed.

Section Find.
Context (c : tlp_context) (Hc : topo_wf c) (Hlen : Z.of_nat (length (devs_config c)) = num_devices c).
Local Abbreviation nv := (num_nv_switch_tlp_dsp c).
Local Abbreviation off := (group_off c).

(** The secondary bus of a bridge, and whether an endpoint is present. *)
Definition sec_bus (i : nat) : Z := match devs_config c !! i with Some d => t1_secondary_bus (dc_type1 d) | None => 0 end.
Definition present (i : nat) : bool := match devs_config c !! i with Some d => dc_device_present d | None => false end.

Lemma dev_at_done i : Z.of_nat i < num_devices c -> exists d, dev_at (devs_config c) i = Done d /\ devs_config c !! i = Some d.
Proof. intros Hi. destruct (lookup_lt_is_Some_2 (devs_config c) i) as [d E]; [lia|]. exists d. unfold dev_at. by rewrite E. Qed.

(** The rules that give a request on port [d] to device [i], but for the endpoint's presence. *)
Inductive home (d bus device function : Z) : Z -> nat -> Prop :=
| HomeUsp : device = 0 -> function = 0 -> home d bus device function TLP_REQ_TYPE_CONFIG_READ_WRITE_TYPE_0 (USP_IDX d)
| HomeDsp : sec_bus (USP_IDX d) <> 0 -> bus = sec_bus (USP_IDX d) -> function = 0 -> 0 <= device < off (d + 1) - off d ->
    home d bus device function TLP_REQ_TYPE_CONFIG_READ_WRITE_TYPE_1 (dsp_idx c (off d + device))
| HomeEp k : off d <= k < off (d + 1) -> sec_bus (dsp_idx c k) <> 0 -> bus = sec_bus (dsp_idx c k) -> device = 0 -> function = 0 ->
    bus <> sec_bus (USP_IDX d) -> home d bus device function TLP_REQ_TYPE_CONFIG_READ_WRITE_TYPE_1 (ep_idx c k).

(** Non-zero secondary buses of the bridges of a switch are different. *)
Definition buses_distinct : Prop := forall d k k', 0 <= d < nv -> off d <= k < off (d + 1) -> sec_bus (dsp_idx c k) <> 0 ->
  sec_bus (dsp_idx c k) <> sec_bus (USP_IDX d) /\
  (off d <= k' < off (d + 1) -> sec_bus (dsp_idx c k') = sec_bus (dsp_idx c k) -> k' = k).

(** The condition of the code for the bridges on the upstream port's secondary bus. *)
Definition on_usp_bus (d bus function : Z) : bool :=
  negb (sec_bus (USP_IDX d) =? 0) && (bus =? sec_bus (USP_IDX d)) && (function =? 0).
Lemma on_usp_bus_true d bus function : on_usp_bus d bus function = true <-> sec_bus (USP_IDX d) <> 0 /\ bus = sec_bus (USP_IDX d) /\ function = 0.
Proof. unfold on_usp_bus. rewrite !andb_true_iff, negb_true_iff, Z.eqb_neq, !Z.eqb_eq. tauto. Qed.

Lemma search_dsps (cond : bool) n device : 0 <= device -> 0 <= n ->
  exists r, (if cond then first_in_group (Z.to_nat n) 0 (fun i => Done (device =? i)) else Done None) = Done r /\
    match r with Some i => cond = true /\ i = device /\ 0 <= device < n | None => cond = true -> n <= device end.
Proof.
  intros Hdev Hn. destruct cond; [|by exists None].
  destruct (first_in_group_spec (Z.to_nat n) 0 (fun i => Done (device =? i)) (fun i => device =? i) ltac:(done)) as (r & -> & Hr).
  rewrite Z.add_0_l, Z2Nat.id in Hr by lia. exists r. split; [done|]. destruct r as [i|].
  - destruct Hr as (Hi & He & _). apply Z.eqb_eq in He. by subst i.
  - intros _. destruct (Z.lt_ge_cases device n) as [Hlt|]; [|done]. specialize (Hr device ltac:(lia)). by rewrite Z.eqb_refl in Hr.
Qed.

(** The condition of the code for the endpoint of bridge [k]. *)
Definition on_dsp_bus (k bus device function : Z) : bool :=
  negb (sec_bus (dsp_idx c k) =? 0) && (bus =? sec_bus (dsp_idx c k)) && (device =? 0) && (function =? 0) && present (ep_idx c k).
Lemma on_dsp_bus_true k bus device function : on_dsp_bus k bus device function = true <->
  sec_bus (dsp_idx c k) <> 0 /\ bus = sec_bus (dsp_idx c k) /\ device = 0 /\ function = 0 /\ present (ep_idx c k) = true.
Proof. unfold on_dsp_bus. rewrite !andb_true_iff, negb_true_iff, Z.eqb_neq, !Z.eqb_eq. tauto. Qed.

Lemma slot_idx o i : 0 <= o -> 0 <= i -> o + i < num_ep c ->
  Z.to_nat (u32 (num_bridges c + o + i)) = ep_idx c (o + i) /\ Z.to_nat (u32 (nv + o + i)) = dsp_idx c (o + i).
Proof.
  intros Ho Hi Hlt. pose proof (tw_nv c Hc). pose proof (tw_ep c Hc) as Hep. pose proof (tw_bridges c Hc) as Hbr. unfold MAX_NUM_EP in Hep.
  rewrite !u32_small by lia. unfold ep_idx, dsp_idx. split; f_equal; lia.
Qed.

Lemma search_eps d bus device function : 0 <= d < nv ->
  exists r, first_in_group (Z.to_nat (off (d + 1) - off d)) 0 (fun i =>
      ep_cfg ← dev_at (devs_config c) (Z.to_nat (u32 (num_bridges c + off d + i)));
      dsp_cfg ← dev_at (devs_config c) (Z.to_nat (u32 (nv + off d + i)));
      Done (negb (t1_secondary_bus (dc_type1 dsp_cfg) =? 0) && (bus =? t1_secondary_bus (dc_type1 dsp_cfg)) && (device =? 0) &&
            (function =? 0) && dc_device_present ep_cfg)) = Done r /\
    match r with
    | Some i => 0 <= i < off (d + 1) - off d /\ on_dsp_bus (off d + i) bus device function = true
    | None => forall k, off d <= k < off (d + 1) -> on_dsp_bus k bus device function = false
    end.
Proof.
  intros Hd. pose proof (tw_nv c Hc). pose proof (tw_devices c Hc) as Hdv. pose proof (tw_bridges c Hc) as Hbr.
  pose proof (group_off_range c Hc d ltac:(lia)) as R1. pose proof (group_off_range c Hc (d + 1) ltac:(lia)) as R2.
  pose proof (group_off_mono c Hc d (d + 1) ltac:(lia)) as M1.
  match goal with |- context [first_in_group ?n 0 ?f] =>
    destruct (first_in_group_spec n 0 f (fun i => on_dsp_bus (off d + i) bus device function)) as (r & -> & Hr) end.
  { rewrite Z.add_0_l, Z2Nat.id by lia. intros i Hi. destruct (slot_idx (off d) i) as [-> ->]; [lia..|].
    destruct (dev_at_done (ep_idx c (off d + i))) as (ep & -> & Ee); [unfold ep_idx; lia|]. cbn [mbind res_bind].
    destruct (dev_at_done (dsp_idx c (off d + i))) as (dsp & -> & Ed); [unfold dsp_idx; lia|]. cbn [mbind res_bind].
    unfold on_dsp_bus, sec_bus, present. by rewrite Ee, Ed. }
  rewrite Z.add_0_l, Z2Nat.id in Hr by lia. exists r. split; [done|]. destruct r as [i|].
  - destruct Hr as (Hi & Hg & _). done.
  - intros k Hk. specialize (Hr (k - off d) ltac:(lia)). by replace (off d + (k - off d)) with k in Hr by lia.
Qed.

(** The search returns; it finds a device that the rules give the request, an endpoint only if it is present, and
    misses none. *)
Lemma search_spec d bus device function ty : 0 <= d < nv -> 0 <= device ->
  exists r, search_topology c d bus device function ty = Done r /\
    match r with
    | Some i => home d bus device function ty i /\ Z.of_nat i < num_devices c /\ (num_bridges c <= Z.of_nat i -> present i = true)
    | None => True
    end /\
    (buses_distinct -> forall i, home d bus device function ty i -> (num_bridges c <= Z.of_nat i -> present i = true) -> r = Some i).
Proof.
  intros Hd Hdev. pose proof (tw_nv c Hc). pose proof (tw_ep c Hc) as Hep. pose proof (tw_devices c Hc) as Hdv. pose proof (tw_bridges c Hc) as Hbr.
  unfold MAX_NUM_EP in Hep. pose proof (group_off_range c Hc d ltac:(lia)) as R1. pose proof (group_off_range c Hc (d + 1) ltac:(lia)) as R2.
  pose proof (group_off_mono c Hc d (d + 1) ltac:(lia)) as M1.
  unfold search_topology. rewrite get_dsp_group_spec by done. destruct (Z.eqb_spec ty TLP_REQ_TYPE_CONFIG_READ_WRITE_TYPE_0) as [->|H0].
  { eexists. split; [done|]. destruct (Z.eqb_spec device 0) as [->|]; cbn; [destruct (Z.eqb_spec function 0) as [->|]; cbn|];
      (split; [|intros _ i Hi; by inversion Hi]); [|done..]. split; [by constructor|]. unfold USP_IDX. split; lia. }
  destruct (Z.eqb_spec ty TLP_REQ_TYPE_CONFIG_READ_WRITE_TYPE_1) as [->|H1]; cycle 1.
  { eexists. split; [done|]. split; [done|]. intros _ i Hi. inversion Hi; congruence. }
  destruct (dev_at_done (USP_IDX d)) as (usp & -> & Eu); [unfold USP_IDX; lia|]. cbn [mbind res_bind].
  assert (t1_secondary_bus (dc_type1 usp) = sec_bus (USP_IDX d)) as -> by (unfold sec_bus; by rewrite Eu).
  fold (on_usp_bus d bus function). pose proof (on_usp_bus_true d bus function) as Hcond.
  destruct (search_dsps (on_usp_bus d bus function) (off (d + 1) - off d) device Hdev ltac:(lia)) as (r1 & -> & Hr1).
  cbn [mbind res_bind]. destruct r1 as [i|].
  { destruct Hr1 as (Hct & -> & Hi). destruct (proj1 Hcond Hct) as (Hs & -> & ->). destruct (slot_idx (off d) device) as [_ ->]; [lia..|].
    eexists. split; [done|]. split; [split; [by constructor|unfold dsp_idx; split; lia]|].
    intros _ i Hh _. inversion Hh; subst; [done|congruence]. }
  unfold FIRST_DSP_IDX, FIRST_PF_IDX. rewrite (u32_small (nv + off d - nv)) by lia. replace (nv + off d - nv) with (off d) by lia.
  destruct (search_eps d bus device function Hd) as (r2 & -> & Hr2). cbn [mbind res_bind]. eexists. split; [done|]. destruct r2 as [i|].
  - destruct Hr2 as (Hi & Hg). apply on_dsp_bus_true in Hg as (G1 & G2 & G3 & G4 & G5). destruct (slot_idx (off d) i) as [-> _]; [lia..|]. split.
    + split; [|split; [unfold ep_idx; lia|done]]. apply HomeEp; try done; [lia|]. intros Hs.
      specialize (Hr1 (proj2 Hcond ltac:(split; [congruence|done]))). lia.
    + intros Hdist x Hx Hp. inversion Hx as [|Hs Hb Hf Hdv'|k Hk Hs Hb Hd0 Hf0 Hne]; subst.
      * specialize (Hr1 (proj2 Hcond ltac:(done))). lia.
      * assert (off d + i = k) as <-; [|done]. destruct (Hdist d k (off d + i) Hd Hk Hs) as [_ Hu]. apply Hu; [lia|congruence].
  - split; [done|]. intros Hdist x Hx Hp. exfalso. inversion Hx as [|Hs Hb Hf Hdv'|k Hk Hs Hb Hd0 Hf0 Hne]; subst x.
    + specialize (Hr1 (proj2 Hcond ltac:(done))). lia.
    + specialize (Hr2 k Hk). assert (on_dsp_bus k bus device function = true); [|congruence]. apply on_dsp_bus_true.
      repeat split; try done. apply Hp. unfold ep_idx. lia.
Qed.
End Find.

(** *** Keys *)

Record bdf_range (bus device function ty : Z) : Prop := {
  br_bus : 0 <= bus < 256; br_device : 0 <= device < 32; br_function : 0 <= function < 8; br_type : 0 <= ty < 32;
}.

Lemma key_value bus device function ty : bdf_range bus device function ty ->
  BDF_MAP_KEY ty (BDF bus device function) = ty * 2 ^ 16 + bus * 2 ^ 8 + device * 2 ^ 3 + function.
Proof.
  intros [Hb Hd Hf Ht]. unfold BDF_MAP_KEY, BDF.
  change 0xff with (Z.ones 8). change 0x1f with (Z.ones 5). change 0x7 with (Z.ones 3).
  rewrite !Z.land_ones, !Z.mod_small by lia.
  assert (Z.lor (Z.shiftl bus 8) (Z.shiftl device 3) = bus * 2 ^ 8 + device * 2 ^ 3) as ->.
  { rewrite (lor_add _ device 3 8); [rewrite Z.shiftl_mul_pow2; lia|lia..|]. exists bus. rewrite Z.shiftl_mul_pow2; lia. }
  rewrite <- (Z.shiftl_0_r function) at 1. rewrite (lor_add _ function 0 3); [|lia..|by exists (bus * 2 ^ 5 + device); lia].
  assert (0 <= bus * 2 ^ 8 + device * 2 ^ 3 + function * 2 ^ 0 < 2 ^ 16) as Hr by lia.
  rewrite <- (Z.shiftl_0_r (_ + function * _)). rewrite (lor_add _ _ 0 16); [|lia..|exists ty; rewrite Z.shiftl_mul_pow2; lia].
  rewrite Z.shiftl_mul_pow2, u32_small by lia. lia.
Qed.
Lemma key_inj bus device function ty bus' device' function' ty' : bdf_range bus device function ty -> bdf_range bus' device' function' ty' ->
  BDF_MAP_KEY ty (BDF bus device function) = BDF_MAP_KEY ty' (BDF bus' device' function') ->
  bus = bus' /\ device = device' /\ function = function' /\ ty = ty'.
Proof. intros H H'. rewrite !key_value by done. destruct H, H'. lia. Qed.

(** *** One lookup *)

Definition topo_nums (c : tlp_context) := (num_devices c, num_ep c, num_dsp c, num_bridges c,
  (num_nv_switch_tlp_dsp c, num_ep_per_nv_switch_tlp_dsp c, num_ep_extra_per_nv_switch_tlp_dsp c)).

Definition with_map (c : tlp_context) (m : list (option nat)) (es : list bdf_map_entry) : tlp_context :=
  {| c with bdf_map := m; bdf_entries := es |}.

(** The outcomes of [find_device_by_bdf]: the latest entry for the key, the dummy, or what the search finds, entered. *)
Inductive find_outcome (c : tlp_context) (log : list nat) (dsp bus device function ty : Z) : tlp_context -> nat -> Prop :=
| FindHit i : latest c log (BDF_MAP_KEY ty (BDF bus device function)) ≫= visible c = Some i ->
    find_outcome c log dsp bus device function ty c i
| FindPort : latest c log (BDF_MAP_KEY ty (BDF bus device function)) ≫= visible c = None -> num_nv_switch_tlp_dsp c <= dsp ->
    find_outcome c log dsp bus device function ty c (Z.to_nat (DUMMY_DEV_IDX c))
| FindNone : latest c log (BDF_MAP_KEY ty (BDF bus device function)) ≫= visible c = None -> dsp < num_nv_switch_tlp_dsp c ->
    search_topology c dsp bus device function ty = Done None ->
    find_outcome c log dsp bus device function ty c (Z.to_nat (DUMMY_DEV_IDX c))
| FindSearch i m es : latest c log (BDF_MAP_KEY ty (BDF bus device function)) ≫= visible c = None -> dsp < num_nv_switch_tlp_dsp c ->
    search_topology c dsp bus device function ty = Done (Some i) -> home c dsp bus device function ty i ->
    map_wf (with_map c m es) (log_update (bdf_entries c) log (BDF_MAP_KEY ty (BDF bus device function)) i) ->
    length es = length (bdf_entries c) -> ent_key es i = BDF_MAP_KEY ty (BDF bus device function) ->
    (forall j, j <> i -> ent_key es j = ent_key (bdf_entries c) j) ->
    find_outcome c log dsp bus device function ty (with_map c m es) i.

(** The place of the dummy. *)
Lemma dummy_idx c w : devs_ok c w -> DUMMY_DEV_IDX c = num_bridges c + num_ep c /\ 0 <= DUMMY_DEV_IDX c /\
  (Z.to_nat (DUMMY_DEV_IDX c) < length (devs_config c))%nat.
Proof.
  intros Hd. pose proof (dk_topo c w Hd) as Hc. pose proof (dk_len c w Hd). pose proof (tw_nv c Hc). pose proof (tw_ep c Hc) as Hep.
  pose proof (tw_devices c Hc). pose proof (tw_bridges c Hc). unfold MAX_NUM_EP in Hep.
  unfold DUMMY_DEV_IDX. rewrite u32_small by lia. lia.
Qed.

Lemma find_spec c w log dsp bus device function ty : devs_ok c w -> map_wf c log -> 0 <= dsp -> 0 <= device ->
  exists c' i, find_device_by_bdf c dsp bus device function ty = Done (c', i) /\ find_outcome c log dsp bus device function ty c' i /\
    (i < length (devs_config c))%nat.
Proof.
  intros Hd Hm Hdsp Hdev. pose proof (dk_topo c w Hd) as Hc. unfold find_device_by_bdf. set (key := BDF_MAP_KEY ty (BDF bus device function)).
  pose proof (dk_len c w Hd) as Hlen. pose proof (dummy_idx c w Hd) as (_ & _ & Hdum).
  rewrite (lookup_refines c log key Hm (dk_entries c w Hd)). cbn [mbind res_bind].
  destruct (latest c log key ≫= visible c) as [i|] eqn:El.
  { eexists c, i. split; [done|]. split; [by apply FindHit|]. destruct (latest c log key) as [j|]; [|done]. cbn in El. unfold visible in El.
    destruct (devs_config c !! j) eqn:Ej; [|done]. destruct (_ && _); [done|]. injection El as <-. by eapply lookup_lt_Some. }
  destruct (Z.leb_spec (num_nv_switch_tlp_dsp c) dsp); [eexists c, _; split; [done|]; split; [by apply FindPort|done]|].
  destruct (search_spec c Hc (dk_len c w Hd) dsp bus device function ty ltac:(lia) Hdev) as (r & Es & Hr & _). rewrite Es. cbn [mbind res_bind].
  destruct r as [i|]; [|eexists c, _; split; [done|]; split; [by apply FindNone|done]]. destruct Hr as (Hh & Hi & _).
  destruct (update_refines c log key i Hm) as (m & es & -> & Hm' & Hl & Hk & Ho); [rewrite (dk_entries c w Hd); lia|].
  cbn [mbind res_bind]. eexists (with_map c m es), i. split; [done|]. split; [by apply FindSearch|lia].
Qed.

Lemma find_outcome_ok c w log dsp bus device function ty c' i : bridge_ok c w -> map_wf c log -> find_outcome c log dsp bus device function ty c' i ->
  bridge_ok c' w /\ topo_nums c' = topo_nums c /\ devs_config c' = devs_config c.
Proof.
  intros [Hd Hcr] Hm [| | |j m es _ _ _ _ Hm' Hl _ _]; [by split; [split|]..|]. split; [|done]. split; [|done].
  destruct Hd as [H1 H2 H3 _ H5 H6 H7 H8 H9]. split; try done; [by destruct H1|by cbn; rewrite Hl|by eexists|].
  intros k d Ek. by eapply dev_ok_num, H5.
Qed.


(** ** Devices across a request *)

(** All of a device but identifiers and completion fields. *)
Definition dev_rest (d : pci_device_config) :=
  (dc_type0 d, dc_type1 d, dc_express d, dc_msi d, dc_msix d, dc_vpd d, dc_pm d, dev_kind d,
   (dc_log_bar_size d, dc_transaction_region_start d, dc_msix_region_start d, dc_msix_pba_region_start d,
    dc_vhca_id d, dc_device_present d, dc_rep d, dc_tlp_dev d)).

Section Rest.
Context (d d' : pci_device_config) (E : dev_rest d' = dev_rest d).

Lemma rest_eqs : dc_type0 d' = dc_type0 d /\ dc_type1 d' = dc_type1 d /\ dc_express d' = dc_express d /\ dc_msi d' = dc_msi d /\
  dc_is_bridge d' = dc_is_bridge d /\ dc_is_dummy d' = dc_is_dummy d /\ dc_log_bar_size d' = dc_log_bar_size d /\
  dc_transaction_region_start d' = dc_transaction_region_start d /\ dc_tlp_dev d' = dc_tlp_dev d /\ dc_is_endpoint d' = dc_is_endpoint d.
Proof. unfold dev_rest, dev_kind in E. split_and!; congruence. Qed.
Lemma rest_frame : dev_frame d' = dev_frame d.
Proof. unfold dev_rest, dev_frame in *. congruence. Qed.
Lemma rest_regs : regs_ok d -> regs_ok d'.
Proof. unfold dev_rest in E. apply regs_ok_ext; [unfold dev_regs|..]; congruence. Qed.
Lemma rest_link : link_ok d -> link_ok d'.
Proof. destruct rest_eqs as (_ & _ & E3 & _ & E5 & _). unfold link_ok. by rewrite E3, E5. Qed.
Lemma rest_image : bridge_image d' = bridge_image d.
Proof. destruct d, d'. unfold dev_rest, dev_kind in E. cbn in E. simplify_eq. reflexivity. Qed.
Lemma rest_put_ok c w i : bridge_ok c w -> devs_config c !! i = Some d -> ids_ok d' -> bridge_ok (put_dev c i d') w.
Proof.
  intros Hok Ei Hi. pose proof (dk_dev c w (proj1 Hok) i d Ei) as Hd.
  eapply put_frame_ok; [done|done|apply rest_frame|apply rest_link|apply rest_regs; by destruct Hd|done].
Qed.
End Rest.

(** Two contexts with the same devices but for identifiers and completions. *)
Definition same_rest (c c' : tlp_context) : Prop := dev_rest <$> devs_config c' = dev_rest <$> devs_config c.
#[global] Instance same_rest_equiv : Equivalence same_rest.
Proof. split; unfold same_rest; [intros c|intros c c'|intros c1 c2 c3]; congruence. Qed.

Lemma same_rest_put c i d d' : devs_config c !! i = Some d -> dev_rest d' = dev_rest d -> same_rest c (put_dev c i d').
Proof. intros Ei E. unfold same_rest, put_dev. cbn. rewrite list_fmap_insert, E, list_insert_id; [done|]. by rewrite list_lookup_fmap, Ei. Qed.
Lemma same_rest_lookup c c' i d : same_rest c c' -> devs_config c !! i = Some d -> exists d', devs_config c' !! i = Some d' /\ dev_rest d' = dev_rest d.
Proof.
  intros E Ei. apply (f_equal (fun l => l !! i)) in E. rewrite !list_lookup_fmap, Ei in E. cbn in E.
  destruct (devs_config c' !! i) as [d'|]; [|done]. exists d'. split; [done|]. cbn in E. congruence.
Qed.
Lemma same_rest_sec c c' j : same_rest c c' -> sec_bus c' j = sec_bus c j.
Proof.
  intros E. apply (f_equal (fun l => l !! j)) in E. rewrite !list_lookup_fmap in E. unfold sec_bus.
  destruct (devs_config c' !! j), (devs_config c !! j); cbn in E; try done. unfold dev_rest in E. congruence.
Qed.

(** The table and the numbers of devices, which a request changes only while it looks for its device. *)
Definition ctx_maps (c : tlp_context) := (topo_nums c, bdf_map c, bdf_entries c).

Lemma reply_ok c w cpl call : bridge_ok c w -> bridge_ok c (reply w cpl call).
Proof. intros [Hd Hcr]. split; [by apply (devs_ok_same_handles c w)|done]. Qed.

(** ** Completions *)

Section Requests.
Context `{B : Be32} `{!Be32Laws B}.

(** The header of a completion reads as the fields of its device. *)
Lemma bridge_header_decode d n : ids_ok d -> in_width 3 (dc_cmpl_fmt d) -> in_width 5 (dc_cmpl_type d) -> in_width 10 (dc_cmpl_length d) ->
  in_width 3 (dc_cmpl_status d) -> in_width 12 n ->
  cpl_decode (bridge_completion_header d n) = Some {| cf_fmt := dc_cmpl_fmt d; cf_type := dc_cmpl_type d; cf_tag9 := dc_tag9 d; cf_tag8 := dc_tag8 d;
    cf_length := dc_cmpl_length d; cf_completer_id := dc_completer_id d; cf_status := dc_cmpl_status d; cf_byte_count := n;
    cf_requester_id := dc_requester_id d; cf_tag := dc_tag d |}.
Proof. intros [] ? ? ? ? ?. unfold bridge_completion_header. cbv zeta. by apply completion_decode. Qed.

(** The buffers of a request hold what its header announces. *)
Record breq_wf (q : bridge_req) : Prop := {
  bw_words : Forall (in_width 32) (bq_header q);
  bw_short : 3 <= Z.of_nat (length (bq_header q));
  bw_long : forall fmt, GET_TLP_REQ_FMT (bq_header q) = Done fmt -> fmt = TLP_FMT_4DW_NODATA \/ fmt = TLP_FMT_4DW_W_DATA ->
    4 <= Z.of_nat (length (bq_header q));
  bw_data : forall l, bq_data q = Some l -> Forall (in_width 32) l /\
    forall len, GET_TLP_REQ_LENGTH (bq_header q) = Done len -> 1 <= Z.of_nat (length l) /\
      (bridge_req_type (bq_header q) = Done TLP_REQ_TYPE_MEMORY_WRITE -> mem_num_dwords len <= Z.of_nat (length l));
  bw_dsp : 0 <= bq_dsp_id q < 256;
}.

Lemma bfield q hi lo i : breq_wf q -> 0 <= lo <= hi -> hi < 32 -> 0 <= i < 3 ->
  exists v, get_field hi lo i (bq_header q) = Done v /\ in_width (hi - lo + 1) v.
Proof. intros [Hw Hs _ _ _] ? ? ?. apply get_field_done; try done; lia. Qed.

(** The requester and the tag of a completion are the request's. *)
Definition bridge_names_request (q : bridge_req) (fs : cpl_fields) : Prop :=
  GET_TLP_REQ_REQ_ID (bq_header q) = Done (cf_requester_id fs) /\ GET_TLP_REQ_TAG (bq_header q) = Done (cf_tag fs) /\
  GET_TLP_REQ_TAG9 (bq_header q) = Done (cf_tag9 fs) /\ GET_TLP_REQ_TAG8 (bq_header q) = Done (cf_tag8 fs) /\
  cf_type fs = TLP_TYPE_COMPLETION.

(** A device that holds the identifiers of the request. *)
Definition holds_request (q : bridge_req) (d : pci_device_config) : Prop :=
  GET_TLP_REQ_REQ_ID (bq_header q) = Done (dc_requester_id d) /\ GET_TLP_REQ_TAG (bq_header q) = Done (dc_tag d) /\
  GET_TLP_REQ_TAG9 (bq_header q) = Done (dc_tag9 d) /\ GET_TLP_REQ_TAG8 (bq_header q) = Done (dc_tag8 d).

Lemma ids_ok_cmpl d fmt ty len st : ids_ok d -> ids_ok (bridge_set_cmpl d fmt ty len st).
Proof. by intros []. Qed.

(** A completion from such a device. *)
Lemma reply_header q d fmt len st n : holds_request q d -> ids_ok d -> in_width 3 fmt -> in_width 10 len -> in_width 3 st -> in_width 12 n ->
  exists fs, cpl_decode (bridge_completion_header (bridge_set_cmpl d fmt TLP_TYPE_COMPLETION len st) n) = Some fs /\ bridge_names_request q fs /\
    cf_fmt fs = fmt /\ cf_length fs = len /\ cf_status fs = st /\ cf_byte_count fs = n /\ cf_completer_id fs = dc_completer_id d.
Proof.
  intros Hh Hi H1 H2 H3 H4. eexists. split; [by apply (bridge_header_decode (bridge_set_cmpl d fmt TLP_TYPE_COMPLETION len st)); [apply ids_ok_cmpl|..]|].
  destruct Hh as (A1 & A2 & A3 & A4). by repeat split.
Qed.
(** *** Unsupported requests *)

Lemma requester_done q d : breq_wf q -> ids_ok d -> exists rid t9 t8 tag,
  GET_TLP_REQ_REQ_ID (bq_header q) = Done rid /\ GET_TLP_REQ_TAG9 (bq_header q) = Done t9 /\ GET_TLP_REQ_TAG8 (bq_header q) = Done t8 /\
  GET_TLP_REQ_TAG (bq_header q) = Done tag /\ let d' := bridge_set_requester d rid t9 t8 tag in holds_request q d' /\ ids_ok d' /\ dev_rest d' = dev_rest d.
Proof.
  intros Hq [Hc _ _ _ _]. destruct (bfield q 31 16 1 Hq) as (rid & E1 & W1); [lia..|]. destruct (bfield q 23 23 0 Hq) as (t9 & E2 & W2); [lia..|].
  destruct (bfield q 19 19 0 Hq) as (t8 & E3 & W3); [lia..|]. destruct (bfield q 15 8 1 Hq) as (tag & E4 & W4); [lia..|].
  exists rid, t9, t8, tag. do 4 (split; [done|]). split; [done|]. split; [|done]. split; [exact Hc|exact W1|exact W2|exact W3|exact W4].
Qed.

Lemma ur_spec q c w : bridge_ok c w -> breq_wf q -> let di := Z.to_nat (DUMMY_DEV_IDX c) in
  exists d d' hd fs, devs_config c !! di = Some d /\ dev_rest d' = dev_rest d /\ ids_ok d' /\
    return_unsupported_request c w (bq_header q) = Done (put_dev c di d', reply w {| cpl_header := Some hd; cpl_data := None |} (BcTlp true None)) /\
    cpl_decode hd = Some fs /\ bridge_names_request q fs /\ cf_fmt fs = TLP_FMT_CPL_NODATA /\ cf_status fs = TLP_CPL_STATUS_UR /\ cf_completer_id fs = dc_completer_id d.
Proof.
  intros Hok Hq di. destruct (dummy_idx c w (proj1 Hok)) as (_ & _ & Hlt). destruct (lookup_lt_is_Some_2 _ _ Hlt) as [d Ed].
  pose proof (do_ids _ _ _ (dk_dev c w (proj1 Hok) _ _ Ed)) as Hi. destruct (requester_done q d Hq Hi) as (rid & t9 & t8 & tag & E1 & E2 & E3 & E4 & Hh & Hi' & Hr).
  unfold return_unsupported_request, dev_at. rewrite Ed. cbn [mbind res_bind]. rewrite E1. cbn [mbind res_bind]. rewrite E2. cbn [mbind res_bind].
  rewrite E3. cbn [mbind res_bind]. rewrite E4. cbn [mbind res_bind].
  destruct (reply_header q _ TLP_FMT_CPL_NODATA 0 TLP_CPL_STATUS_UR BYTES_IN_DWORD Hh Hi') as (fs & Ef & Hn & F1 & _ & F3 & _ & F5); [done..|].
  eexists d, _, _, fs. split; [done|]. split; [|split; [|split; [reflexivity|]]]; [done|by apply ids_ok_cmpl|]. done.
Qed.

(** *** Configuration requests *)

Lemma read_type_spec c w i d reg : bridge_ok c w -> devs_config c !! i = Some d -> 0 <= reg < 1024 ->
  exists x v cap p, bridge_cfg_read reg d = Done x /\ let d' := bridge_set_cmpl d TLP_FMT_CPL_W_DATA TLP_TYPE_COMPLETION 1 TLP_CPL_STATUS_SC in
    bridge_read_type_0 c w i reg = Done (put_dev c i d',
      reply w {| cpl_header := Some (bridge_completion_header d' BYTES_IN_DWORD); cpl_data := Some [x] |} (BcConfigRead (dc_tlp_dev d) v cap p)).
Proof.
  intros Hok Ei Hr. pose proof (do_regs _ _ _ (dk_dev c w (proj1 Hok) _ _ Ei)) as Hd.
  destruct (bridge_read_image d reg (rk_bars d Hd) Hr) as ([[cap v] p] & E). unfold bridge_read_type_0, bridge_cfg_read, dev_at. rewrite Ei. cbn [mbind res_bind].
  rewrite E. cbn [mbind res_bind]. by eexists _, v, cap, p.
Qed.

(** The data of a configuration write. *)
Definition cfg_write_data (q : bridge_req) : Z := match bq_data q with Some (x :: _) => x | _ => 0 end.

Lemma write_data_spec q : breq_wf q -> in_width 32 (cfg_write_data q) /\
  match bq_data q with Some l => at_ l 0 | None => Done 0 end = Done (cfg_write_data q).
Proof.
  intros Hq. unfold cfg_write_data. destruct (bq_data q) as [l|] eqn:El; [|done]. destruct (bw_data q Hq l El) as [Hw Hl].
  destruct (bfield q 9 0 0 Hq) as (len & Elen & _); [lia..|]. destruct (Hl len Elen) as [H1 _].
  destruct l as [|x l]; [cbn in H1; lia|]. by apply list.Forall_cons in Hw as [Hx _].
Qed.

(** The link keeps following the power. *)
Lemma slot_write_link data m d : link_ok d -> link_ok (slot_write data m d).2.
Proof.
  unfold link_ok, slot_write. cbn [snd dc_is_bridge dc_express xp_link_status xp_slot_control]. intros Hl Hb. specialize (Hl Hb). rewrite Hb.
  destruct (negb (Z.land m 0x0000FFFF =? 0)); [|done]. unfold slot_link. cbv zeta.
  destruct (Z.eqb_spec (Z.land (xp_slot_control (dc_express d)) SLOT_CTRL_POWER_CONTROLLER) 0) as [E|E]; cbn [negb andb];
  destruct (Z.eqb_spec (Z.land (Z.land data 0xFFFF) SLOT_CTRL_POWER_CONTROLLER) 0) as [E'|E']; cbn [negb andb]; try done.
  - by rewrite link_down.
  - intros H. by destruct (E (Hl H)).
Qed.
Lemma write_switch_link reg data m d d' cap trig : bridge_write_switch reg data m d = Done (d', cap, trig) -> link_ok d -> link_ok d'.
Proof.
  assert (forall d', dc_is_bridge d' = dc_is_bridge d -> dc_express d' = dc_express d -> link_ok d -> link_ok d') as Hsame.
  { intros x E1 E2. unfold link_ok. by rewrite E1, E2. }
  unfold bridge_write_switch. destruct (in_case 0 15 reg) eqn:E0.
  - destruct (dc_is_bridge d) eqn:Eb; cbn [mbind res_bind].
    + intros [= <- _ _]. apply Hsame; (destruct reg as [|p|p]; [done| |done]; do 4 (try destruct p as [p|p|]; try done); cbn; by destruct (m =? 0)).
    + destruct (handle_type0_config_write d reg data m) as [x|] eqn:E; [|done]. cbn [mbind res_bind]. intros [= <- _ _].
      unfold handle_type0_config_write, config_space_type0_write_bar in E.
      destruct (reg =? 1); [injection E as <-; by apply Hsame|]. destruct (in_case 4 9 reg); [|by injection E as <-].
      destruct (1 <? _); [by injection E as <-|]. destruct (_ && _); [destruct (31 <=? _); [done|]|destruct (m =? 0); [by injection E as <-|]];
        destruct (_ =? 0); injection E as <-; by apply Hsame.
  - destruct (in_case 16 63 reg); [|by intros [= <- _ _]]. unfold bridge_caps_write.
    destruct (in_cap TLP_CAP_EXPRESS_REG_NUM _ reg).
    { assert (link_ok d -> link_ok (config_space_cap_pcie_write (u32 (reg - TLP_CAP_EXPRESS_REG_NUM)) data m d).2) as H.
      { generalize (u32 (reg - TLP_CAP_EXPRESS_REG_NUM)). intros o. destruct o as [|p|p]; [done| |done].
        do 3 (try destruct p as [p|p|]; try done). apply slot_write_link. }
      destruct (config_space_cap_pcie_write _ data m d). by intros [= <- _ _]. }
    destruct (in_cap TLP_CAP_VPD_REG_NUM _ reg); [by intros [= <- _ _]|]. destruct (in_cap TLP_CAP_MSIX_REG_NUM _ reg); [by intros [= <- _ _]|].
    destruct (in_cap TLP_CAP_MSI_REG_NUM _ reg); [|destruct (in_cap TLP_CAP_PM_REG_NUM _ reg); by intros [= <- _ _]].
    intros [= <- _ _]. generalize (u32 (reg - TLP_CAP_MSI_REG_NUM)). intros o. destruct o as [|p|p]; [done| |done]. do 3 (try destruct p as [p|p|]; try done).
Qed.
(** Whether a write sets off Command Completed. *)
Definition triggers (d : pci_device_config) (reg m : Z) : bool := (reg =? 30) && low_on m && dc_is_bridge d.

(** The device after a write: [d1] is what the switch leaves. *)
Definition after_write (d1 : pci_device_config) (trigger : bool) : pci_device_config :=
  let d2 := bridge_set_cmpl d1 TLP_FMT_CPL_NODATA TLP_TYPE_COMPLETION 0 TLP_CPL_STATUS_SC in if trigger then cmd_completed d2 else d2.

Lemma regs_only_eqs d d1 : regs_only d d1 -> dev_frame d1 = dev_frame d /\ dev_ids d1 = dev_ids d.
Proof. intros [-> _]. done. Qed.
Lemma ids_ok_ext d d' : dev_ids d' = dev_ids d -> ids_ok d -> ids_ok d'.
Proof. unfold dev_ids. intros E []. split; [replace (dc_completer_id d') with (dc_completer_id d)|replace (dc_requester_id d') with (dc_requester_id d)
  |replace (dc_tag9 d') with (dc_tag9 d)|replace (dc_tag8 d') with (dc_tag8 d)|replace (dc_tag d') with (dc_tag d)]; done || congruence. Qed.

Lemma write_type_spec acg_buf q c w i d reg : bridge_ok c w -> devs_config c !! i = Some d -> breq_wf q -> buf_ok acg_buf -> 0 <= reg < 1024 ->
  exists be m d1 cap v p c' w', GET_TLP_REQ_FIRST_DW_BE (bq_header q) = Done be /\ 0 <= be < 16 /\ map_first_dw_be_to_mask be = Done m /\
    bridge_write_switch reg (cfg_write_data q) m d = Done (d1, (cap, v, p), triggers d reg m) /\
    bridge_write_type_0 acg_buf c w i q reg = Done (c', w') /\ bridge_ok c' w' /\
    ctx_rest c' = ctx_rest (put_dev c i (after_write d1 (triggers d reg m))) /\
    w_replies w' = {| br_cpl := {| cpl_header := Some (bridge_completion_header (after_write d1 false) BYTES_IN_DWORD); cpl_data := None |};
                      br_call := BcConfigWrite (dc_tlp_dev d) v cap p |} :: w_replies w /\
    regs_ok d1 /\ regs_only d d1 /\ bridge_image d1 = written_image d reg m (cfg_write_data q) /\ acg_queue c' = acg_queue c /\ same_live w w'.
Proof.
  intros Hok Ei Hq Hb Hr. pose proof (dk_dev c w (proj1 Hok) _ _ Ei) as Hd. destruct (write_data_spec q Hq) as [Wx Ex].
  destruct (bfield q 3 0 1 Hq) as (be & Ebe & Wbe); [lia..|]. change (in_width 4 be) in Wbe. unfold in_width in Wbe.
  destruct (be_mask_total be ltac:(lia)) as (m & Em & _). destruct (do_layout _ _ _ Hd) as [Hlog _].
  destruct (write_switch_spec d be m (cfg_write_data q) reg (do_regs _ _ _ Hd) Hlog Wx ltac:(lia) Em Hr) as (d1 & [[cap v] p] & Es & Hr1 & Ho & Hi).
  destruct (regs_only_eqs d d1 Ho) as [Hf Hids]. unfold bridge_write_type_0, GET_TLP_REQ_FIRST_DW_BE. rewrite Ebe. cbn [mbind res_bind]. rewrite Em. cbn [mbind res_bind].
  rewrite Ex. cbn [mbind res_bind]. unfold dev_at. rewrite Ei. cbn [mbind res_bind]. rewrite Es. cbn [mbind res_bind].
  fold (triggers d reg m) in Es |- *. set (d2 := bridge_set_cmpl d1 _ _ _ _). assert (dev_rest d2 = dev_rest d1) as Hrest by done.
  assert (bridge_ok (put_dev c i d2) w) as Hok1.
  { eapply put_frame_ok; [done|done|by rewrite (rest_frame d1 d2 Hrest)| |by apply (rest_regs d1)|].
    - intros Hl. apply (rest_link d1 d2 Hrest). by eapply write_switch_link.
    - apply (ids_ok_ext d); [done|]. by destruct Hd. }
  apply (reply_ok _ _ {| cpl_header := Some (bridge_completion_header d2 BYTES_IN_DWORD); cpl_data := None |} (BcConfigWrite (dc_tlp_dev d2) v cap p)) in Hok1.
  assert (dc_tlp_dev d2 = dc_tlp_dev d) as Edev by (change (dc_tlp_dev d1 = dc_tlp_dev d); unfold dev_frame in Hf; congruence).
  exists be, m, d1, cap, v, p. destruct (triggers d reg m).
  - destruct (command_completed_spec acg_buf _ _ i d2 Hok1 Hb) as (e & c' & w' & E & Hok' & Hc & Hw & Hqu & Hlv); [apply list_lookup_insert_eq; by eapply lookup_lt_Some|].
    rewrite E. cbn [mbind res_bind]. exists c', w'. do 6 (split; [done || lia|]). split; [|split; [by rewrite Hw, <- Edev|done]].
    rewrite Hc. unfold ctx_rest, put_dev. cbn. by rewrite list_insert_insert_eq.
  - eexists _, _. do 7 (split; [done || lia|]). split; [by rewrite <- Edev|done].
Qed.

(** *** Memory requests *)

Lemma mem_addr_done q : breq_wf q -> exists a, mem_request_address (bq_header q) = Done a /\ in_width 64 a /\ (4 | a).
Proof.
  intros Hq. destruct (bfield q 31 29 0 Hq) as (fmt & E & _); [lia..|]. unfold mem_request_address, GET_TLP_REQ_FMT. rewrite E. cbn [mbind res_bind].
  destruct (bfield q 31 2 2 Hq) as (a & Ea & Wa); [lia..|]. change (in_width 30 a) in Wa. unfold in_width in Wa.
  assert (forall v, 0 <= v < 2 ^ 30 -> u32 (Z.shiftl v 2) = v * 4) as Hs by (intros v Hv; rewrite Z.shiftl_mul_pow2, u32_small by lia; lia).
  destruct ((fmt =? TLP_FMT_4DW_NODATA) || (fmt =? TLP_FMT_4DW_W_DATA)) eqn:Ef.
  - assert (4 <= Z.of_nat (length (bq_header q))) as Hl by (apply (bw_long q Hq fmt E); apply orb_true_iff in Ef; rewrite !Z.eqb_eq in Ef; done).
    destruct (get_field_done 31 0 2 (bq_header q)) as (hi & Eh & Wh); [lia|lia|apply Hq|lia|]. change (in_width 32 hi) in Wh. unfold in_width in Wh.
    destruct (get_field_done 31 2 3 (bq_header q)) as (lo & El & Wl); [lia|lia|apply Hq|lia|]. change (in_width 30 lo) in Wl. unfold in_width in Wl.
    unfold mem_addr_64bit. rewrite Eh. cbn [mbind res_bind]. rewrite El. cbn [mbind res_bind]. eexists. split; [done|]. rewrite Hs by lia.
    rewrite <- (Z.shiftl_0_r (lo * 4)). rewrite (lor_add _ (lo * 4) 0 32); [|lia|lia|lia|exists hi; by rewrite Z.shiftl_mul_pow2].
    rewrite Z.shiftl_mul_pow2 by lia. unfold in_width. split; [lia|]. exists (hi * 2 ^ 30 + lo). lia.
  - unfold GET_MEM_ADDR_32BIT. rewrite Ea. cbn [mbind res_bind]. eexists. split; [done|]. rewrite Hs by lia. unfold in_width. split; [lia|]. by exists a.
Qed.

(** The handlers read the same address as the search for the device. *)
Lemma mem_addr_handler q t fmt : bridge_req_type (bq_header q) = Done t -> GET_TLP_REQ_FMT (bq_header q) = Done fmt -> in_width 3 fmt ->
  (t = TLP_REQ_TYPE_MEMORY_READ -> (if fmt =? TLP_FMT_4DW_NODATA then mem_addr_64bit (bq_header q) else GET_MEM_ADDR_32BIT (bq_header q)) = mem_request_address (bq_header q)) /\
  (t = TLP_REQ_TYPE_MEMORY_WRITE -> (if fmt =? TLP_FMT_4DW_W_DATA then mem_addr_64bit (bq_header q) else GET_MEM_ADDR_32BIT (bq_header q)) = mem_request_address (bq_header q)).
Proof.
  intros Et Ef Wf. unfold bridge_req_type, mem_request_address in *. rewrite Ef in *. cbn [mbind res_bind] in *.
  destruct (GET_TLP_REQ_TYPE (bq_header q)) as [ty|]; [|done]. cbn [mbind res_bind] in Et. injection Et as <-.
  unfold in_width in Wf. assert (fmt ∈ [0; 1; 2; 3; 4; 5; 6; 7]) as Hf by (rewrite !elem_of_cons; lia). rewrite !elem_of_cons, elem_of_nil in Hf.
  split; intros Hty; (destruct (ty =? TLP_REQ_TYPE_MEMORY_READ_WRITE); [|by repeat case_match]);
    destruct Hf as [->|[->|[->|[->|[->|[->|[->|[->|[]]]]]]]]]; done.
Qed.

(** The memory of endpoint [k]. *)
Definition region_at (c : tlp_context) (k : Z) : option (list Z) := mjoin (transaction_region_memories c ≫= fun l => l !! Z.to_nat k).

Lemma pf_index_spec c w i d : devs_ok c w -> devs_config c !! i = Some d ->
  exists r, get_pf_index_for_device c i = Done r /\
    match r with Some k => 0 <= k < num_ep c /\ i = ep_of c k | None => dc_is_endpoint d = false end.
Proof.
  intros Hd Ei. pose proof (dk_topo c w Hd) as Hc. pose proof (tw_ep c Hc) as Hep. pose proof (tw_bridges c Hc). pose proof (tw_nv c Hc). unfold MAX_NUM_EP in Hep.
  destruct (do_kind _ _ _ (dk_dev c w Hd i d Ei)) as (_ & Hk & _). unfold get_pf_index_for_device, dev_at. rewrite Ei. cbn [mbind res_bind].
  destruct (dc_is_endpoint d); cbn [negb]; [|by exists None].
  match goal with |- context [first_in_group ?n 0 ?f] => destruct (first_in_group_spec n 0 f (fun k => (i =? Z.to_nat (u32 (FIRST_PF_IDX c + k)))%nat) ltac:(done)) as (r & E & Hr) end.
  rewrite E. exists r. split; [done|]. rewrite Z.add_0_l, Z2Nat.id in Hr by lia. destruct r as [k|].
  - destruct Hr as (Hkr & He & _). apply Nat.eqb_eq in He. split; [done|]. unfold ep_of, FIRST_PF_IDX in *. by rewrite u32_small in He by lia.
  - exfalso. symmetry in Hk. apply andb_true_iff in Hk as [K1 K2]. apply Z.leb_le in K1. apply Z.ltb_lt in K2.
    specialize (Hr (Z.of_nat i - num_bridges c) ltac:(lia)). unfold FIRST_PF_IDX in Hr. rewrite u32_small in Hr by lia. apply Nat.eqb_neq in Hr. lia.
Qed.

Lemma mem_region_spec c w i d a : devs_ok c w -> devs_config c !! i = Some d -> in_width 64 a ->
  exists base r, bar_base (t0_bar (dc_type0 d)) = Done base /\ in_width 64 base /\ (16 | base) /\ mem_region c i d a = Done r /\
    match r with
    | Some (k, mem, off) => 0 <= k < num_ep c /\ i = ep_of c k /\ region_at c k = Some mem /\ Z.of_nat (length mem) = TRANSACTION_REGION_SIZE /\
        Forall is_byte mem /\ 0 <= off < TRANSACTION_REGION_SIZE /\ u64 (a - base) = dc_transaction_region_start d + off
    | None => True
    end.
Proof.
  intros Hd Ei Ha. pose proof (dk_dev c w Hd i d Ei) as Hdev. pose proof (do_regs _ _ _ Hdev) as Hr. destruct (do_layout _ _ _ Hdev) as [_ Hst].
  destruct (bar_base_ok (t0_bar (dc_type0 d)) (rk_bars d Hr) (rk_bar d Hr)) as (base & Eb & Wb & Db & _). exists base.
  unfold mem_region. rewrite Eb. cbn [mbind res_bind]. destruct (pf_index_spec c w i d Hd Ei) as (pf & Ep & Hpf). rewrite Ep. cbn [mbind res_bind].
  destruct pf as [k|]; cycle 1. { exists None. split; [done|]. split; [done|]. split; [exact Db|]. by split. }
  pose proof (dk_regions c w Hd) as Hreg. unfold regions_ok in Hreg. unfold region_at.
  destruct (transaction_region_memories c) as [l|]; [|exists None; split; [done|]; split; [done|]; split; [done|]; split; done]. destruct Hreg as (Hl & Hsz & Hm). destruct Hpf as [Hk ->].
  destruct (lookup_lt_is_Some_2 l (Z.to_nat k)) as [m Em]; [lia|]. rewrite Em. destruct (Hm _ _ Em) as (mem & -> & Hlen & Hb). rewrite Hsz.
  eexists. split; [done|]. split; [done|]. split; [done|]. split; [done|]. unfold in_width in *.
  destruct (Z.leb_spec (dc_transaction_region_start d) (u64 (a - base))) as [H1|H1]; cbn [andb]; [|done].
  destruct (Z.ltb_spec (u64 (a - base)) (u64 (dc_transaction_region_start d + TRANSACTION_REGION_SIZE))) as [H2|H2]; [|done].
  split; [done|]. split; [done|]. split; [cbn; by rewrite Em|]. split; [done|]. split; [done|].
  assert (u64 (dc_transaction_region_start d + TRANSACTION_REGION_SIZE) <= dc_transaction_region_start d + TRANSACTION_REGION_SIZE) as H3
    by (apply Z.mod_le; unfold TRANSACTION_REGION_SIZE; lia).
  split; lia.
Qed.

(** The access of a memory request ends inside the region in which it starts. *)
Definition mem_access_fits (c : tlp_context) (q : bridge_req) (i : nat) (d : pci_device_config) : Prop :=
  forall a len k mem off, mem_request_address (bq_header q) = Done a -> GET_TLP_REQ_LENGTH (bq_header q) = Done len ->
    mem_region c i d a = Done (Some (k, mem, off)) -> off + 4 * mem_num_dwords len <= TRANSACTION_REGION_SIZE.

(** The data of a memory read. *)
Definition mem_read_data (r : option (Z * list Z * Z)) (n fbe lbe : Z) : list Z :=
  match r with
  | Some (_, mem, off) => read_words mem off (Z.min n 256) n fbe lbe
  | None => (fun i => u32 (BRIDGE_DUMMY_READ_DATA_BASE + i)) <$> idx (Z.min n 256)
  end.

Lemma num_dwords_range len : in_width 10 len -> 1 <= mem_num_dwords len <= 1024.
Proof. unfold in_width, mem_num_dwords. destruct (Z.eqb_spec len 0); lia. Qed.

Lemma memory_read_spec q c w i d : bridge_ok c w -> devs_config c !! i = Some d -> breq_wf q ->
  bridge_req_type (bq_header q) = Done TLP_REQ_TYPE_MEMORY_READ -> mem_access_fits c q i d ->
  exists len a fbe lbe r, GET_TLP_REQ_LENGTH (bq_header q) = Done len /\ in_width 10 len /\ mem_request_address (bq_header q) = Done a /\
    GET_TLP_REQ_FIRST_DW_BE (bq_header q) = Done fbe /\ GET_TLP_REQ_LAST_DW_BE (bq_header q) = Done lbe /\ mem_region c i d a = Done r /\
    let d' := bridge_set_cmpl d TLP_FMT_CPL_W_DATA TLP_TYPE_COMPLETION (mem_num_dwords len) TLP_CPL_STATUS_SC in
    bridge_memory_read c i q = Done (put_dev c i d', {| cpl_header := Some (bridge_completion_header d' (mem_num_dwords len * 4));
      cpl_data := Some (mem_read_data r (mem_num_dwords len) fbe lbe) |}).
Proof.
  intros Hok Ei Hq Et Hfit. destruct (bfield q 9 0 0 Hq) as (len & El & Wl); [lia..|]. destruct (bfield q 31 29 0 Hq) as (fmt & Ef & Wf); [lia..|].
  destruct (bfield q 3 0 1 Hq) as (fbe & E1 & _); [lia..|]. destruct (bfield q 7 4 1 Hq) as (lbe & E2 & _); [lia..|].
  destruct (mem_addr_done q Hq) as (a & Ea & Wa & _). destruct (mem_addr_handler q _ fmt Et Ef Wf) as [Hh _]. specialize (Hh eq_refl).
  destruct (mem_region_spec c w i d a (proj1 Hok) Ei Wa) as (base & r & _ & _ & _ & Er & Hr).
  exists len, a, fbe, lbe, r. do 6 (split; [done|]). cbv zeta. unfold bridge_memory_read.
  unfold GET_TLP_REQ_LENGTH, GET_TLP_REQ_FMT, GET_TLP_REQ_FIRST_DW_BE, GET_TLP_REQ_LAST_DW_BE.
  rewrite El. cbn [mbind res_bind]. rewrite Ef. cbn [mbind res_bind]. rewrite Hh, Ea. cbn [mbind res_bind]. rewrite E1. cbn [mbind res_bind]. rewrite E2. cbn [mbind res_bind].
  unfold dev_at. rewrite Ei. cbn [mbind res_bind]. rewrite Er. cbn [mbind res_bind].
  pose proof (num_dwords_range len Wl) as Hn. rewrite (u16_small (mem_num_dwords len)) by lia. rewrite (u16_small (mem_num_dwords len * BYTES_IN_DWORD)) by (unfold BYTES_IN_DWORD; lia).
  destruct r as [[[k mem] off]|]; [|done]. destruct Hr as (_ & _ & _ & Hlen & _ & Hoff & _).
  pose proof (Hfit a len k mem off Ea El Er) as Hin. rewrite read_words_done by lia. done.
Qed.

(** The context after a memory write in region [r]. *)
Definition mem_written (c : tlp_context) (r : option (Z * list Z * Z)) (data : option (list Z)) (n fbe lbe : Z) (c1 : tlp_context) : Prop :=
  match r, data with
  | Some (k, mem, off), Some l => exists mem', c1 = put_region c k mem' /\ length mem' = length mem /\
      forall j, 0 <= j -> mem' !!! Z.to_nat j = written l mem off n fbe lbe j
  | _, _ => c1 = c
  end.

Lemma memory_write_spec q c w i d : bridge_ok c w -> devs_config c !! i = Some d -> breq_wf q ->
  bridge_req_type (bq_header q) = Done TLP_REQ_TYPE_MEMORY_WRITE -> mem_access_fits c q i d ->
  exists len a fbe lbe r c1, GET_TLP_REQ_LENGTH (bq_header q) = Done len /\ in_width 10 len /\ mem_request_address (bq_header q) = Done a /\
    GET_TLP_REQ_FIRST_DW_BE (bq_header q) = Done fbe /\ GET_TLP_REQ_LAST_DW_BE (bq_header q) = Done lbe /\ mem_region c i d a = Done r /\
    mem_written c r (bq_data q) (mem_num_dwords len) fbe lbe c1 /\
    bridge_memory_write c i q = Done (put_dev c1 i (bridge_set_cmpl d 0 (dc_cmpl_type d) 0 0), no_cpl).
Proof.
  intros Hok Ei Hq Et Hfit. destruct (bfield q 9 0 0 Hq) as (len & El & Wl); [lia..|]. destruct (bfield q 31 29 0 Hq) as (fmt & Ef & Wf); [lia..|].
  destruct (bfield q 3 0 1 Hq) as (fbe & E1 & _); [lia..|]. destruct (bfield q 7 4 1 Hq) as (lbe & E2 & _); [lia..|].
  destruct (mem_addr_done q Hq) as (a & Ea & Wa & _). destruct (mem_addr_handler q _ fmt Et Ef Wf) as [_ Hh]. specialize (Hh eq_refl).
  destruct (mem_region_spec c w i d a (proj1 Hok) Ei Wa) as (base & r & _ & _ & _ & Er & Hr).
  exists len, a, fbe, lbe, r. unfold bridge_memory_write.
  unfold GET_TLP_REQ_LENGTH, GET_TLP_REQ_FMT, GET_TLP_REQ_FIRST_DW_BE, GET_TLP_REQ_LAST_DW_BE.
  rewrite El. cbn [mbind res_bind]. rewrite E1. cbn [mbind res_bind]. rewrite E2. cbn [mbind res_bind]. rewrite Ef. cbn [mbind res_bind]. rewrite Hh, Ea. cbn [mbind res_bind].
  unfold dev_at. rewrite Ei. cbn [mbind res_bind]. rewrite Er. cbn [mbind res_bind]. pose proof (num_dwords_range len Wl) as Hn.
  destruct r as [[[k mem] off]|]; [|exists c; done]. destruct Hr as (_ & _ & _ & Hlen & _ & Hoff & _).
  pose proof (Hfit a len k mem off Ea El Er) as Hin. destruct (bq_data q) as [l|] eqn:Edata; [|exists c; done].
  destruct (bw_data q Hq l Edata) as [_ Hl]. destruct (Hl len El) as [_ Hl']. specialize (Hl' Et).
  destruct (write_dwords_spec l mem off (mem_num_dwords len) fbe lbe) as (mem' & E & Hlm & Hk); [lia..|].
  exists (put_region c k mem'). do 6 (split; [done|]). split; [by exists mem'|]. rewrite E. done.
Qed.

(** *** The device of a request *)

(** The address is in the window of endpoint [k]. *)
Definition in_window (c : tlp_context) (k a : Z) : bool :=
  match devs_config c !! ep_of c k with
  | Some d => match bar_base (t0_bar (dc_type0 d)) with
              | Done base => negb (base =? 0) && (base <=? a) && (a <? u64 (base + BAR_SIZE_16K))
              | Crash _ => false
              end
  | None => false
  end.

Lemma find_address_spec c w a : devs_ok c w -> exists i, find_device_by_address c a = Done i /\ (i < length (devs_config c))%nat /\
  ((exists k, 0 <= k < num_ep c /\ i = ep_of c k /\ in_window c k a = true /\ forall j, 0 <= j < k -> in_window c j a = false) \/
   i = Z.to_nat (DUMMY_DEV_IDX c) /\ forall k, 0 <= k < num_ep c -> in_window c k a = false).
Proof.
  intros Hd. pose proof (tw_ep c (dk_topo c w Hd)) as Hep. destruct (dummy_idx c w Hd) as (_ & _ & Hdum). unfold find_device_by_address.
  match goal with |- context [first_in_group ?n 0 ?f] => destruct (first_in_group_spec n 0 f (fun k => in_window c k a)) as (r & -> & Hr) end.
  { rewrite Z.add_0_l, Z2Nat.id by lia. intros k Hk. destruct (slot_indices c w k Hd Hk) as (_ & -> & _ & _ & d & _ & Ee & Hend).
    unfold dev_at, in_window. rewrite Ee. cbn [mbind res_bind]. rewrite Hend. cbn [negb]. pose proof (do_regs _ _ _ (dk_dev c w Hd _ _ Ee)) as Hr.
    by destruct (bar_base_ok (t0_bar (dc_type0 d)) (rk_bars d Hr) (rk_bar d Hr)) as (base & -> & _). }
  rewrite Z.add_0_l, Z2Nat.id in Hr by lia. cbn [mbind res_bind]. eexists. split; [done|]. destruct r as [k|].
  - destruct Hr as (Hk & Hw & Hlt). destruct (slot_indices c w k Hd Hk) as (_ & -> & _ & _ & d & _ & Ee & _).
    split; [by eapply lookup_lt_Some|]. left. by exists k.
  - split; [done|]. right. done.
Qed.

Definition is_mem (t : tlp_req_type) : bool := bool_decide (t = TLP_REQ_TYPE_MEMORY_READ) || bool_decide (t = TLP_REQ_TYPE_MEMORY_WRITE).

(** How a request finds its device: by its address or by its numbers; [m] and [es] are the table afterwards. *)
Definition finds (c : tlp_context) (q : bridge_req) (t : tlp_req_type) (m : list (option nat)) (es : list bdf_map_entry) (i : nat)
    (d d1 : pci_device_config) : Prop :=
  if is_mem t then m = bdf_map c /\ es = bdf_entries c /\ d1 = d /\
    exists a, mem_request_address (bq_header q) = Done a /\ find_device_by_address c a = Done i
  else exists bus device function ty, bdf_range bus device function ty /\ GET_TLP_REQ_BUS (bq_header q) = Done bus /\
    GET_TLP_REQ_DEVICE (bq_header q) = Done device /\ GET_TLP_REQ_FUNCTION (bq_header q) = Done function /\ GET_TLP_REQ_TYPE (bq_header q) = Done ty /\
    find_device_by_bdf c (bq_dsp_id q) bus device function ty = Done (with_map c m es, i) /\ d1 = set_device_bdf d bus (BDF bus device function).

Lemma set_bdf_props d bus bdf : in_width 16 bdf -> ids_ok d -> dev_rest (set_device_bdf d bus bdf) = dev_rest d /\ ids_ok (set_device_bdf d bus bdf).
Proof. intros Hb Hi. unfold set_device_bdf. destruct (dc_is_bdf_set d); [done|]. split; [done|]. destruct Hi. by split. Qed.
Lemma BDF_width bus device function : in_width 16 (BDF bus device function).
Proof.
  assert (in_width 8 (Z.land bus 0xff)) by exact (land_ones_width 8 bus ltac:(done)).
  assert (in_width 5 (Z.land device 0x1f)) by exact (land_ones_width 5 device ltac:(done)).
  assert (in_width 3 (Z.land function 0x7)) by exact (land_ones_width 3 function ltac:(done)).
  unfold BDF. apply lor_width; [done|apply lor_width; [done|..]; rewrite Z.shiftl_mul_pow2 by lia|]; unfold in_width in *; lia.
Qed.

Lemma find_target_spec q c w t : bridge_ok c w -> breq_wf q ->
  exists m es i d d1, find_target_device q c t = Done (put_dev (with_map c m es) i d1, i) /\ devs_config c !! i = Some d /\
    dev_rest d1 = dev_rest d /\ ids_ok d1 /\ bridge_ok (put_dev (with_map c m es) i d1) w /\ finds c q t m es i d d1.
Proof.
  intros Hok Hq. pose proof (proj1 Hok) as Hd. unfold find_target_device, finds. fold (is_mem t). destruct (is_mem t).
  - destruct (mem_addr_done q Hq) as (a & Ea & _). rewrite Ea. cbn [mbind res_bind].
    destruct (find_address_spec c w a Hd) as (i & Ef & Hi & _). rewrite Ef. cbn [mbind res_bind]. destruct (lookup_lt_is_Some_2 _ _ Hi) as [d Ei].
    assert (put_dev (with_map c (bdf_map c) (bdf_entries c)) i d = c) as Hc by (unfold put_dev, with_map; cbn; rewrite list_insert_id by done; by destruct c).
    exists (bdf_map c), (bdf_entries c), i, d, d. rewrite Hc. split; [done|]. split; [done|]. split; [done|].
    split; [apply (do_ids _ _ _ (dk_dev c w Hd i d Ei))|]. split; [done|]. do 3 (split; [done|]). by exists a.
  - destruct (bfield q 31 24 2 Hq) as (bus & Eb & Wb); [lia..|]. destruct (bfield q 23 19 2 Hq) as (dv & Edv & Wd); [lia..|].
    destruct (bfield q 18 16 2 Hq) as (fn & Efn & Wf); [lia..|]. destruct (bfield q 28 24 0 Hq) as (ty & Et & Wt); [lia..|].
    assert (bdf_range bus dv fn ty) as Hr by (unfold in_width in *; split; lia).
    unfold GET_TLP_REQ_BUS, GET_TLP_REQ_DEVICE, GET_TLP_REQ_FUNCTION, GET_TLP_REQ_TYPE. rewrite Eb. cbn [mbind res_bind]. rewrite Edv. cbn [mbind res_bind].
    rewrite Efn. cbn [mbind res_bind]. rewrite Et. cbn [mbind res_bind].
    destruct (dk_map c w Hd) as [log Hm]. destruct (find_spec c w log (bq_dsp_id q) bus dv fn ty Hd Hm) as (c1 & i & Ef & Ho & Hi);
      [apply (bw_dsp q Hq)|destruct Hr; lia|]. destruct (find_outcome_ok _ _ _ _ _ _ _ _ _ _ Hok Hm Ho) as (Hok1 & _ & _).
    assert (exists m es, c1 = with_map c m es) as (m & es & ->).
    { inversion Ho; subst; [exists (bdf_map c1), (bdf_entries c1); by destruct c1..|by eexists _, _]. }
    rewrite Ef. cbn [mbind res_bind]. destruct (lookup_lt_is_Some_2 _ _ Hi) as [d Ei]. unfold dev_at. cbn [with_map devs_config]. rewrite Ei. cbn [mbind res_bind].
    destruct (set_bdf_props d bus (BDF bus dv fn) (BDF_width _ _ _) (do_ids _ _ _ (dk_dev c w Hd i d Ei))) as [Hrest Hids].
    exists m, es, i, d, (set_device_bdf d bus (BDF bus dv fn)). split; [done|]. split; [done|]. split; [done|]. split; [done|].
    split; [by apply (rest_put_ok d _ Hrest)|]. exists bus, dv, fn, ty. done.
Qed.

Lemma mem_region_rest c m es i d d' a : devs_config c !! i = Some d -> dev_rest d' = dev_rest d ->
  mem_region (put_dev (with_map c m es) i d') i d' a = mem_region c i d a.
Proof.
  intros Ei E. destruct (rest_eqs d d' E) as (E0 & _ & _ & _ & _ & _ & _ & Est & _ & Eend).
  unfold mem_region, get_pf_index_for_device, dev_at. cbn [put_dev with_map devs_config]. rewrite list_lookup_insert_eq by (by eapply lookup_lt_Some).
  rewrite Ei, E0, Est. cbn [mbind res_bind]. by rewrite Eend.
Qed.

(** *** Replies *)

Definition supported (t : tlp_req_type) (d : pci_device_config) : bool :=
  negb (dc_is_dummy d) && match t with
  | TLP_REQ_TYPE_INVALID | TLP_REQ_TYPE_IO_READ | TLP_REQ_TYPE_IO_WRITE => false
  | _ => true
  end.

(** The call that completes a request that device [d] supports. *)
Definition reply_call (t : tlp_req_type) (d : pci_device_config) (call : bridge_complete) : Prop :=
  match t with
  | TLP_REQ_TYPE_CONFIG_READ_TYPE_0 | TLP_REQ_TYPE_CONFIG_READ_TYPE_1 => exists v cap p, call = BcConfigRead (dc_tlp_dev d) v cap p
  | TLP_REQ_TYPE_CONFIG_WRITE_TYPE_0 | TLP_REQ_TYPE_CONFIG_WRITE_TYPE_1 => exists v cap p, call = BcConfigWrite (dc_tlp_dev d) v cap p
  | TLP_REQ_TYPE_MEMORY_READ => call = BcTlp true (dc_tlp_dev d)
  | TLP_REQ_TYPE_MEMORY_WRITE => call = BcTlp false (dc_tlp_dev d)
  | _ => False
  end.
Definition is_read (t : tlp_req_type) : bool :=
  match t with TLP_REQ_TYPE_CONFIG_READ_TYPE_0 | TLP_REQ_TYPE_CONFIG_READ_TYPE_1 | TLP_REQ_TYPE_MEMORY_READ => true | _ => false end.

(** A completion header with this status and completer for the request. *)
Definition cpl_header_for (q : bridge_req) (cpl : tlp_cpl) (fmt status completer : Z) : Prop :=
  exists hd fs, cpl_header cpl = Some hd /\ cpl_decode hd = Some fs /\ bridge_names_request q fs /\
    cf_fmt fs = fmt /\ cf_status fs = status /\ cf_completer_id fs = completer.

(** The data of the reply to a request of type [t] for device [d], which is at [i]: the register that a configuration read names, the double words
    that a memory read finds ([mem_read_data]), and none for other requests. *)
Definition reply_data (c : tlp_context) (i : nat) (d : pci_device_config) (q : bridge_req) (t : tlp_req_type) (data : option (list Z)) : Prop :=
  match t with
  | TLP_REQ_TYPE_CONFIG_READ_TYPE_0 | TLP_REQ_TYPE_CONFIG_READ_TYPE_1 =>
    exists reg x, GET_TLP_REQ_EXT_REG_NUM (bq_header q) = Done reg /\ bridge_cfg_read reg d = Done x /\ data = Some [x]
  | TLP_REQ_TYPE_MEMORY_READ =>
    exists len a fbe lbe r, GET_TLP_REQ_LENGTH (bq_header q) = Done len /\ mem_request_address (bq_header q) = Done a /\
      GET_TLP_REQ_FIRST_DW_BE (bq_header q) = Done fbe /\ GET_TLP_REQ_LAST_DW_BE (bq_header q) = Done lbe /\
      mem_region c i d a = Done r /\ data = Some (mem_read_data r (mem_num_dwords len) fbe lbe)
  | _ => data = None
  end.

(** The length and the byte count of the completion fit their fields: all but a memory read of 1024 double words, whose length field is 0. *)
Definition length_fits (q : bridge_req) (t : tlp_req_type) : Prop :=
  t = TLP_REQ_TYPE_MEMORY_READ -> GET_TLP_REQ_LENGTH (bq_header q) <> Done 0.

(** The reply to a request for device [d]; [completer] is the dummy's identifier, [data] what the data has to meet. The header of a memory read
    of 1024 double words is left open: its length and its byte count are too large for their fields. *)
Definition good_reply (data : option (list Z) -> Prop) (q : bridge_req) (t : tlp_req_type) (d : pci_device_config) (completer : Z) (rp : bridge_reply) : Prop :=
  if supported t d then
    reply_call t d (br_call rp) /\ data (cpl_data (br_cpl rp)) /\
    (t = TLP_REQ_TYPE_MEMORY_WRITE -> br_cpl rp = no_cpl) /\
    (t <> TLP_REQ_TYPE_MEMORY_WRITE -> length_fits q t ->
     cpl_header_for q (br_cpl rp) (if is_read t then TLP_FMT_CPL_W_DATA else TLP_FMT_CPL_NODATA) TLP_CPL_STATUS_SC (dc_completer_id d))
  else br_call rp = BcTlp true None /\ cpl_data (br_cpl rp) = None /\
    cpl_header_for q (br_cpl rp) TLP_FMT_CPL_NODATA TLP_CPL_STATUS_UR completer.

Lemma region_put_ok c w k mem : bridge_ok c w -> 0 <= k < num_ep c -> Z.of_nat (length mem) = TRANSACTION_REGION_SIZE -> Forall is_byte mem ->
  bridge_ok (put_region c k mem) w.
Proof.
  intros [Hd Hcr] Hk Hl Hb. unfold put_region. pose proof (dk_regions c w Hd) as Hreg. unfold regions_ok in Hreg.
  destruct (transaction_region_memories c) as [l|] eqn:El; [|done]. destruct Hreg as (Hn & Hs & Hm). split; [|done].
  destruct Hd as [H1 H2 H3 [log H4] H5 H6 H7 H8 H9 _]. split; try done.
  - by destruct H1.
  - exists log. destruct H4 as [M1 M2 M3 M4 M5]. split; [exact M1|exact M2|exact M3|exact M4|exact M5].
  - intros i d Ei. by eapply dev_ok_num, H5.
  - unfold regions_ok. cbn. split; [by rewrite length_insert|]. split; [done|]. intros j m Ej.
    apply list_lookup_insert_Some in Ej as [(<- & <- & _)|[_ Ej]]; eauto.
Qed.

Lemma written_bytes l mem mem' off n fbe lbe : length mem' = length mem -> Forall is_byte mem ->
  (forall j, 0 <= j -> mem' !!! Z.to_nat j = written l mem off n fbe lbe j) -> Forall is_byte mem'.
Proof.
  intros Hl Hb Hk. eapply bytes_of; [done| |done]. intros j Hj Hm. rewrite Hk by done. unfold written. destruct (_ && _); [apply dword_byte_range|done].
Qed.

(** What a memory write keeps. *)
Lemma mem_written_ok c w i d a r data n fbe lbe c1 : bridge_ok c w -> devs_config c !! i = Some d -> in_width 64 a -> mem_region c i d a = Done r ->
  mem_written c r data n fbe lbe c1 -> bridge_ok c1 w /\ devs_config c1 = devs_config c /\ ctx_maps c1 = ctx_maps c /\ acg_queue c1 = acg_queue c.
Proof.
  intros Hok Ei Ha Er Hw. destruct (mem_region_spec c w i d a (proj1 Hok) Ei Ha) as (base & r' & _ & _ & _ & Er' & Hr). rewrite Er in Er'. injection Er' as <-.
  destruct r as [[[k mem] off]|], data as [l|]; cbn in Hw; try by subst c1.
  destruct Hw as (mem' & -> & Hl & Hk). destruct Hr as (Hkr & _ & _ & Hlen & Hb & _). split.
  - apply region_put_ok; [done|done|lia|]. by eapply written_bytes.
  - unfold put_region. by destruct (transaction_region_memories c).
Qed.

(** The start of the callback: the device [d] of the request becomes [d0], which holds the request's identifiers. *)
Lemma cb_start acg_buf q c w t : bridge_ok c w -> breq_wf q -> bridge_req_type (bq_header q) = Done t ->
  exists m es i d d1 d0 reg, devs_config c !! i = Some d /\ finds c q t m es i d d1 /\ dev_rest d0 = dev_rest d /\ ids_ok d0 /\ holds_request q d0 /\
    dc_completer_id d0 = dc_completer_id d1 /\ GET_TLP_REQ_EXT_REG_NUM (bq_header q) = Done reg /\ 0 <= reg < 1024 /\
    let c0 := put_dev (with_map c m es) i d0 in bridge_ok c0 w /\ devs_config c0 !! i = Some d0 /\
    bridge_req_handler_cb DOCA_SUCCESS acg_buf (RqTlp q) c w =
      if dc_is_dummy d then return_unsupported_request c0 w (bq_header q) else bridge_req_switch acg_buf q c0 w i (dc_tlp_dev d) reg t.
Proof.
  intros Hok Hq Et. destruct (find_target_spec q c w t Hok Hq) as (m & es & i & d & d1 & Ef & Ei & Hr1 & Hi1 & Hok1 & Hf).
  set (d2 := bridge_set_cmpl d1 0 0 0 0). assert (ids_ok d2) as Hi2 by (by apply ids_ok_cmpl).
  destruct (requester_done q d2 Hq Hi2) as (rid & t9 & t8 & tag & E1 & E2 & E3 & E4 & Hh & Hi0 & Hr0).
  set (d0 := bridge_set_requester d2 rid t9 t8 tag) in *. destruct (bfield q 11 2 2 Hq) as (reg & Er & Wr); [lia..|].
  assert (dev_rest d0 = dev_rest d) as Hrest by (rewrite Hr0; exact Hr1).
  destruct (rest_eqs d d0 Hrest) as (_ & _ & _ & _ & _ & Edum & _ & _ & Etlp & _).
  assert (forall x, devs_config (put_dev (with_map c m es) i x) !! i = Some x) as Hl by (intros x; apply list_lookup_insert_eq; cbn; by eapply lookup_lt_Some).
  exists m, es, i, d, d1, d0, reg. split; [done|]. split; [done|]. split; [done|]. split; [done|]. split; [done|]. split; [done|]. split; [done|].
  split; [unfold in_width in Wr; lia|]. cbv zeta. split; [|split; [apply Hl|]].
  - rewrite <- (put_dev_put_dev (with_map c m es) i d1 d0). apply (rest_put_ok d1); [by rewrite Hrest|done|apply Hl|done].
  - unfold bridge_req_handler_cb. cbn [is_success negb]. rewrite Et. cbn [mbind res_bind]. rewrite Ef. cbn [mbind res_bind].
    unfold dev_at at 1. rewrite Hl. cbn [mbind res_bind]. rewrite put_dev_put_dev. fold d2. unfold bridge_handle_tlp_req, GET_TLP_REQ_EXT_REG_NUM.
    rewrite Er. cbn [mbind res_bind]. rewrite E1. cbn [mbind res_bind]. rewrite E2. cbn [mbind res_bind]. rewrite E3. cbn [mbind res_bind]. rewrite E4. cbn [mbind res_bind].
    unfold dev_at at 1. rewrite Hl. cbn [mbind res_bind]. rewrite put_dev_put_dev. fold d0.
    change (dc_is_dummy d2) with (dc_is_dummy d0). change (dc_tlp_dev d2) with (dc_tlp_dev d0). by rewrite Edum, Etlp.
Qed.

(** The request got one reply, and the invariant and the table are as before. *)
Definition replied (data : option (list Z) -> Prop) (q : bridge_req) (t : tlp_req_type) (d : pci_device_config) (completer : Z) (c c' : tlp_context) (w w' : world) : Prop :=
  bridge_ok c' w' /\ ctx_maps c' = ctx_maps c /\ acg_queue c' = acg_queue c /\ same_live w w' /\ exists rp, w_replies w' = rp :: w_replies w /\ good_reply data q t d completer rp.

Section Replies.
Context (acg_buf : option (list Z)) (q : bridge_req) (c : tlp_context) (w : world) (i : nat) (d : pci_device_config) (reg completer : Z) (t : tlp_req_type).
Context (Hok : bridge_ok c w) (Hq : breq_wf q) (Ei : devs_config c !! i = Some d) (Hi : ids_ok d) (Hh : holds_request q d).
Context (Hnd : dc_is_dummy d = false) (Et : bridge_req_type (bq_header q) = Done t) (Hr : 0 <= reg < 1024).
Context (Ereg : GET_TLP_REQ_EXT_REG_NUM (bq_header q) = Done reg).

Lemma cmpl_put_ok fmt ty len st : bridge_ok (put_dev c i (bridge_set_cmpl d fmt ty len st)) w.
Proof. apply (rest_put_ok d); [done|done|done|by apply ids_ok_cmpl]. Qed.
Lemma cmpl_header_for fmt len st n data : in_width 3 fmt -> in_width 10 len -> in_width 3 st -> in_width 12 n ->
  cpl_header_for q {| cpl_header := Some (bridge_completion_header (bridge_set_cmpl d fmt TLP_TYPE_COMPLETION len st) n); cpl_data := data |} fmt st (dc_completer_id d).
Proof. intros H1 H2 H3 H4. destruct (reply_header q d fmt len st n Hh Hi H1 H2 H3 H4) as (f & Ef & Hf & G1 & _ & G3 & _ & G5). by eexists _, f. Qed.

Lemma read_replied : t = TLP_REQ_TYPE_CONFIG_READ_TYPE_0 \/ t = TLP_REQ_TYPE_CONFIG_READ_TYPE_1 ->
  exists c' w', bridge_read_type_0 c w i reg = Done (c', w') /\ replied (reply_data c i d q t) q t d completer c c' w w'.
Proof.
  intros Ht. destruct (read_type_spec c w i d reg Hok Ei Hr) as (x & v & cap & p & Ex & E). eexists _, _. split; [exact E|].
  split; [apply reply_ok, cmpl_put_ok|]. split; [done|]. split; [done|]. split; [done|]. eexists. split; [done|]. unfold good_reply, supported. rewrite Hnd.
  destruct Ht as [->| ->]; cbn [negb andb]; (split; [by eexists _, _, _|]); (split; [by exists reg, x|]); (split; [done|]); intros _ _; by apply cmpl_header_for.
Qed.
Lemma write_replied : buf_ok acg_buf -> t = TLP_REQ_TYPE_CONFIG_WRITE_TYPE_0 \/ t = TLP_REQ_TYPE_CONFIG_WRITE_TYPE_1 ->
  exists c' w', bridge_write_type_0 acg_buf c w i q reg = Done (c', w') /\ replied (reply_data c i d q t) q t d completer c c' w w'.
Proof.
  intros Hb Ht. destruct (write_type_spec acg_buf q c w i d reg Hok Ei Hq Hb Hr) as (be & m & d1 & cap & v & p & c' & w' & _ & _ & _ & _ & E & Hok' & Hc & Hw & _ & Ho & _ & Hqu & Hlv).
  exists c', w'. split; [exact E|]. split; [done|]. split; [unfold ctx_maps, topo_nums; unfold ctx_rest in Hc; cbn in Hc; congruence|]. split; [done|]. split; [done|].
  eexists. split; [exact Hw|]. destruct (regs_only_eqs d d1 Ho) as [_ Hids].
  assert (holds_request q d1 /\ dc_completer_id d1 = dc_completer_id d) as [Hh1 Ec].
  { unfold holds_request, dev_ids in *. destruct Hh as (A1 & A2 & A3 & A4). split; [|congruence]. rewrite A1, A2, A3, A4. split_and!; f_equal; congruence. }
  destruct (reply_header q d1 TLP_FMT_CPL_NODATA 0 TLP_CPL_STATUS_SC BYTES_IN_DWORD Hh1) as (fs & Ef & Hf & G1 & _ & G3 & _ & G5); [by apply (ids_ok_ext d)|done..|].
  rewrite Ec in G5. unfold good_reply, supported. rewrite Hnd.
  destruct Ht as [->| ->]; cbn [negb andb]; (split; [by eexists _, _, _|]); (split; [done|]); (split; [done|]); intros _ _; by eexists _, fs.
Qed.
Lemma mem_read_replied : t = TLP_REQ_TYPE_MEMORY_READ -> mem_access_fits c q i d ->
  exists c' cpl, bridge_memory_read c i q = Done (c', cpl) /\ replied (reply_data c i d q t) q t d completer c c' w (reply w cpl (BcTlp true (dc_tlp_dev d))).
Proof.
  intros -> Hfit. destruct (memory_read_spec q c w i d Hok Ei Hq Et Hfit) as (len & a & fbe & lbe & r & El & Wl & Ea & Ef & Ebl & Er & E). eexists _, _. split; [exact E|].
  split; [apply reply_ok, cmpl_put_ok|]. split; [done|]. split; [done|]. split; [done|]. eexists. split; [done|]. unfold good_reply, supported. rewrite Hnd. cbn [negb andb].
  split; [done|]. split; [by exists len, a, fbe, lbe, r|]. split; [done|]. intros _ Hz. specialize (Hz eq_refl). pose proof (num_dwords_range len Wl) as Hn. unfold in_width in Wl.
  assert (mem_num_dwords len <= 1023) by (unfold mem_num_dwords; destruct (Z.eqb_spec len 0); [congruence|lia]).
  apply cmpl_header_for; unfold in_width; done || lia.
Qed.
Lemma mem_write_replied : t = TLP_REQ_TYPE_MEMORY_WRITE -> mem_access_fits c q i d ->
  exists c' cpl, bridge_memory_write c i q = Done (c', cpl) /\ replied (reply_data c i d q t) q t d completer c c' w (reply w cpl (BcTlp false (dc_tlp_dev d))).
Proof.
  intros -> Hfit. destruct (memory_write_spec q c w i d Hok Ei Hq Et Hfit) as (len & a & fbe & lbe & r & c1 & _ & _ & Ea & _ & _ & Er & Hw & E). eexists _, _. split; [exact E|].
  destruct (mem_addr_done q Hq) as (a' & Ea' & Wa & _). rewrite Ea in Ea'. injection Ea' as <-.
  destruct (mem_written_ok c w i d a r _ _ _ _ c1 Hok Ei Wa Er Hw) as (Hok1 & Hdev & Hmaps & Hqu).
  split; [apply reply_ok, (rest_put_ok d); [done|done|by rewrite Hdev|by apply ids_ok_cmpl]|]. split; [exact Hmaps|]. split; [exact Hqu|]. split; [done|].
  eexists. split; [done|]. unfold good_reply, supported. by rewrite Hnd.
Qed.
End Replies.

Lemma ur_replied data q c w d t : bridge_ok c w -> breq_wf q -> supported t d = false ->
  exists dm c' w', devs_config c !! Z.to_nat (DUMMY_DEV_IDX c) = Some dm /\ return_unsupported_request c w (bq_header q) = Done (c', w') /\
    replied data q t d (dc_completer_id dm) c c' w w'.
Proof.
  intros Hok Hq Hs. destruct (ur_spec q c w Hok Hq) as (dm & dm' & hd & fs & Em & Hrm & Him & E & Hfs & Hn & F1 & F2 & F3).
  exists dm. eexists _, _. split; [done|]. split; [exact E|]. split; [by apply reply_ok, (rest_put_ok dm)|]. split; [done|]. split; [done|]. split; [done|].
  eexists. split; [done|]. unfold good_reply. rewrite Hs. split; [done|]. split; [done|]. by exists hd, fs.
Qed.

(** The switch replies once, for a device [d] that holds the request. *)
Lemma switch_replied acg_buf q c w i d reg t : bridge_ok c w -> breq_wf q -> buf_ok acg_buf -> devs_config c !! i = Some d -> ids_ok d -> holds_request q d ->
  dc_is_dummy d = false -> bridge_req_type (bq_header q) = Done t -> 0 <= reg < 1024 -> GET_TLP_REQ_EXT_REG_NUM (bq_header q) = Done reg ->
  (is_mem t = true -> mem_access_fits c q i d) ->
  exists dm c' w', devs_config c !! Z.to_nat (DUMMY_DEV_IDX c) = Some dm /\ bridge_req_switch acg_buf q c w i (dc_tlp_dev d) reg t = Done (c', w') /\
    replied (reply_data c i d q t) q t d (dc_completer_id dm) c c' w w'.
Proof.
  intros Hok Hq Hb Ei Hi Hh Hnd Et Hr Ereg Hfit. destruct (supported t d) eqn:Hs; cycle 1.
  { destruct (ur_replied (reply_data c i d q t) q c w d t Hok Hq Hs) as (dm & c' & w' & Em & E & Hrep). exists dm, c', w'. split; [done|]. split; [|done].
    unfold supported in Hs. rewrite Hnd in Hs. by destruct t. }
  destruct (ur_spec q c w Hok Hq) as (dm & _ & _ & _ & Em & _). exists dm.
  unfold supported in Hs. rewrite Hnd in Hs. destruct t; try done; cbn [bridge_req_switch].
  - edestruct (mem_read_replied q c w i d (dc_completer_id dm)) as (c' & cpl & -> & Hrep); [done..|by apply Hfit|]. by eexists _, _.
  - edestruct (mem_write_replied q c w i d (dc_completer_id dm)) as (c' & cpl & -> & Hrep); [done..|by apply Hfit|]. by eexists _, _.
  - edestruct (read_replied q c w i d reg (dc_completer_id dm)) as (c' & w' & E & Hrep); [done..|by left|]. by exists c', w'.
  - edestruct (write_replied acg_buf q c w i d reg (dc_completer_id dm)) as (c' & w' & E & Hrep); [done..|by left|]. by exists c', w'.
  - edestruct (read_replied q c w i d reg (dc_completer_id dm)) as (c' & w' & E & Hrep); [done..|by right|]. by exists c', w'.
  - edestruct (write_replied acg_buf q c w i d reg (dc_completer_id dm)) as (c' & w' & E & Hrep); [done..|by right|]. by exists c', w'.
Qed.

(** A memory request ends inside the region in which it starts. *)
Definition mem_fits (c : tlp_context) (q : bridge_req) : Prop :=
  forall t a i d, bridge_req_type (bq_header q) = Done t -> is_mem t = true -> mem_request_address (bq_header q) = Done a -> find_device_by_address c a = Done i -> devs_config c !! i = Some d -> mem_access_fits c q i d.

Lemma rest_read d d' j : dev_rest d' = dev_rest d -> regs_ok d -> 0 <= j < 1024 -> bridge_cfg_read j d' = bridge_cfg_read j d.
Proof.
  intros E Hd Hj. rewrite !cfg_read_lookup by first [done | by eapply rest_regs]. by rewrite (rest_image d d' E).
Qed.

(** The data as seen before the device took the address and the requester of the request. *)
Lemma reply_data_rest c m es i d d0 q t o : devs_config c !! i = Some d -> dev_rest d0 = dev_rest d -> regs_ok d -> breq_wf q ->
  reply_data (put_dev (with_map c m es) i d0) i d0 q t o -> reply_data c i d q t o.
Proof.
  intros Ei Hr Hregs Hq. destruct t; try done; cbn [reply_data].
  - intros (len & a & fbe & lbe & r & H1 & H2 & H3 & H4 & H5 & H6). rewrite (mem_region_rest c m es i d d0 a Ei Hr) in H5. by exists len, a, fbe, lbe, r.
  - intros (reg & x & H1 & H2 & H3). destruct (bfield q 11 2 2 Hq) as (reg' & E & W); [lia..|]. unfold GET_TLP_REQ_EXT_REG_NUM in H1. rewrite H1 in E. injection E as <-.
    unfold in_width in W. rewrite (rest_read d d0 reg Hr Hregs) in H2 by lia. by exists reg, x.
  - intros (reg & x & H1 & H2 & H3). destruct (bfield q 11 2 2 Hq) as (reg' & E & W); [lia..|]. unfold GET_TLP_REQ_EXT_REG_NUM in H1. rewrite H1 in E. injection E as <-.
    unfold in_width in W. rewrite (rest_read d d0 reg Hr Hregs) in H2 by lia. by exists reg, x.
Qed.

Lemma good_reply_ext (data data' : option (list Z) -> Prop) q t d d' x rp : (forall o, data o -> data' o) ->
  dc_is_dummy d' = dc_is_dummy d -> dc_tlp_dev d' = dc_tlp_dev d -> dc_completer_id d' = dc_completer_id d ->
  good_reply data q t d x rp -> good_reply data' q t d' x rp.
Proof.
  intros Hd E1 E2 E3. unfold good_reply, supported, reply_call. rewrite E1, E2, E3. destruct (_ && _); [|done]. naive_solver.
Qed.

Lemma cb_replied acg_buf q c w : bridge_ok c w -> breq_wf q -> buf_ok acg_buf -> mem_fits c q ->
  exists t m es i d d1 dm c' w', bridge_req_type (bq_header q) = Done t /\ devs_config c !! i = Some d /\ finds c q t m es i d d1 /\
    <[i := d1]> (devs_config c) !! Z.to_nat (DUMMY_DEV_IDX c) = Some dm /\
    bridge_req_handler_cb DOCA_SUCCESS acg_buf (RqTlp q) c w = Done (c', w') /\
    replied (reply_data c i d q t) q t d1 (dc_completer_id dm) (with_map c m es) c' w w'.
Proof.
  intros Hok Hq Hb Hfit. destruct (bfield q 31 29 0 Hq) as (fmt & Ef & _); [lia..|]. destruct (bfield q 28 24 0 Hq) as (ty & Ety & _); [lia..|].
  assert (exists t, bridge_req_type (bq_header q) = Done t) as [t Et].
  { unfold bridge_req_type, GET_TLP_REQ_FMT, GET_TLP_REQ_TYPE. rewrite Ef. cbn [mbind res_bind]. rewrite Ety. by eexists. }
  destruct (cb_start acg_buf q c w t Hok Hq Et) as (m & es & i & d & d1 & d0 & reg & Ei & Hf & Hr0 & Hi0 & Hh0 & Hc0 & Ereg & Hreg & Hok0 & Ei0 & E).
  assert (dev_rest d1 = dev_rest d) as Hr1.
  { unfold finds in Hf. destruct (is_mem t); [by destruct Hf as (_ & _ & -> & _)|]. destruct Hf as (bus & dv & fn & ty' & _ & _ & _ & _ & _ & _ & ->).
    by apply set_bdf_props; [apply BDF_width|apply (do_ids _ _ _ (dk_dev c w (proj1 Hok) i d Ei))]. }
  destruct (rest_eqs d d0 Hr0) as (_ & _ & _ & _ & _ & Ed0 & _ & _ & Et0 & _). destruct (rest_eqs d d1 Hr1) as (_ & _ & _ & _ & _ & Ed1 & _ & _ & Et1 & _).
  assert (forall x, devs_config (put_dev (with_map c m es) i d0) !! Z.to_nat (DUMMY_DEV_IDX c) = Some x ->
    exists dm, <[i := d1]> (devs_config c) !! Z.to_nat (DUMMY_DEV_IDX c) = Some dm /\ dc_completer_id x = dc_completer_id dm) as Hdm.
  { intros x. cbn [put_dev with_map devs_config]. destruct (decide (Z.to_nat (DUMMY_DEV_IDX c) = i)) as [->|Hne].
    - rewrite !list_lookup_insert_eq by (by eapply lookup_lt_Some). intros [= <-]. by exists d1.
    - rewrite !list_lookup_insert_ne by done. intros Hx. by exists x. }
  exists t, m, es, i, d, d1. assert (exists dx c' w', devs_config (put_dev (with_map c m es) i d0) !! Z.to_nat (DUMMY_DEV_IDX c) = Some dx /\
    bridge_req_handler_cb DOCA_SUCCESS acg_buf (RqTlp q) c w = Done (c', w') /\
    replied (reply_data (put_dev (with_map c m es) i d0) i d0 q t) q t d0 (dc_completer_id dx) (put_dev (with_map c m es) i d0) c' w w')
    as (dx & c' & w' & Ex & E' & Hrep).
  { rewrite E. destruct (dc_is_dummy d) eqn:Edum.
    - apply (ur_replied _ q (put_dev (with_map c m es) i d0) w d0 t Hok0 Hq). unfold supported. by rewrite Ed0.
    - rewrite <- Et0. apply (switch_replied acg_buf q (put_dev (with_map c m es) i d0) w i d0 reg t Hok0 Hq Hb Ei0 Hi0 Hh0); [congruence|done|done|done|].
      intros Hm a len k mem off Ea El. rewrite (mem_region_rest c m es i d d0 a Ei Hr0). unfold finds in Hf. rewrite Hm in Hf.
      destruct Hf as (_ & _ & _ & a' & Ea' & Efa). rewrite Ea in Ea'. injection Ea' as <-. by apply (Hfit t a i d Et Hm Ea Efa Ei). }
  destruct (Hdm dx Ex) as (dm & Em & Ec). exists dm, c', w'. do 4 (split; [done|]). split; [done|]. rewrite <- Ec.
  destruct Hrep as (H1 & H2 & H2' & H2'' & rp & H3 & H4). do 4 (split; [done|]). exists rp. split; [done|].
  eapply (good_reply_ext _ _ q t d0); [|congruence..|exact H4]. intros o. eapply reply_data_rest; [done|done|apply (dk_dev c w (proj1 Hok) i d Ei)|done].
Qed.

(** C5: every request gets one answer, when the user data of the channel can be read. In every state of the invariant and for every request whose
    memory access ends inside the region in which it starts, the callback returns, keeps the invariant and completes the request exactly once. If
    the request is for a device that exists and of a type the sample knows, it is completed by the call that fits the type: a memory write as
    posted, without a header, and everything else with a successful completion from the device that names the requester and the tag of
    the request. The data of a configuration read is the register that it names, that of a memory read what the memory holds at its address
    ([mem_read_data]), and there is none for writes. Otherwise the answer is an Unsupported Request without data that names the requester and the
    tag. Only the header of a memory read with a length field of 0 (1024 double words) is left open: length and byte count are too large
    for their fields. *)
Theorem bridge_request_reply acg_buf q c w : bridge_ok c w -> breq_wf q -> buf_ok acg_buf -> mem_fits c q ->
  exists t m es i d d1 dm c' w' rp, bridge_req_type (bq_header q) = Done t /\ devs_config c !! i = Some d /\ finds c q t m es i d d1 /\
    <[i := d1]> (devs_config c) !! Z.to_nat (DUMMY_DEV_IDX c) = Some dm /\
    bridge_req_handler_cb DOCA_SUCCESS acg_buf (RqTlp q) c w = Done (c', w') /\ bridge_ok c' w' /\
    w_replies w' = rp :: w_replies w /\ good_reply (reply_data c i d q t) q t d1 (dc_completer_id dm) rp.
Proof.
  intros Hok Hq Hb Hfit. destruct (cb_replied acg_buf q c w Hok Hq Hb Hfit) as (t & m & es & i & d & d1 & dm & c' & w' & H1 & H2 & H3 & H4 & H5 & H6 & _ & _ & _ & rp & H7 & H8).
  by exists t, m, es, i, d, d1, dm, c', w', rp.
Qed.

(** *** What an access does *)

Lemma same_rest_start c m es i d d0 : devs_config c !! i = Some d -> dev_rest d0 = dev_rest d -> same_rest c (put_dev (with_map c m es) i d0).
Proof. intros Ei E. exact (same_rest_put c i d d0 Ei E). Qed.

(** C22: a configuration read returns a register and changes none. The request is answered with the value of the register that it names, of the
    device that it is for, as one double word; no register, handle or memory of any device changes. *)
Theorem bridge_config_read acg_buf q c w t : bridge_ok c w -> breq_wf q -> bridge_req_type (bq_header q) = Done t ->
  t = TLP_REQ_TYPE_CONFIG_READ_TYPE_0 \/ t = TLP_REQ_TYPE_CONFIG_READ_TYPE_1 ->
  exists m es i d d1 reg x c' w' rp, devs_config c !! i = Some d /\ finds c q t m es i d d1 /\ GET_TLP_REQ_EXT_REG_NUM (bq_header q) = Done reg /\
    bridge_cfg_read reg d = Done x /\ in_width 32 x /\
    bridge_req_handler_cb DOCA_SUCCESS acg_buf (RqTlp q) c w = Done (c', w') /\ w_replies w' = rp :: w_replies w /\
    (dc_is_dummy d = false -> cpl_data (br_cpl rp) = Some [x]) /\
    same_rest c c' /\ transaction_region_memories c' = transaction_region_memories c /\ acg_list c' = acg_list c.
Proof.
  intros Hok Hq Et Ht. destruct (cb_start acg_buf q c w t Hok Hq Et) as (m & es & i & d & d1 & d0 & reg & Ei & Hf & Hr0 & Hi0 & Hh0 & _ & Ereg & Hreg & Hok0 & Ei0 & E).
  pose proof (do_regs _ _ _ (dk_dev c w (proj1 Hok) i d Ei)) as Hregs. pose proof (same_rest_start c m es i d d0 Ei Hr0) as Hsr.
  assert (exists x, bridge_cfg_read reg d = Done x /\ in_width 32 x) as (x & Ex & Wx).
  { rewrite cfg_read_lookup by done. eexists. split; [done|]. destruct (bridge_image d !! Z.to_nat reg) as [x|] eqn:Ej; [|done].
    pose proof (image_width d Hregs) as Hw. rewrite list.Forall_lookup in Hw. by apply (Hw (Z.to_nat reg)). }
  exists m, es, i, d, d1, reg, x. rewrite E. destruct (dc_is_dummy d).
  - destruct (ur_spec q _ w Hok0 Hq) as (dm & dm' & hd & fs & Em & Hrm & _ & Eur & _). rewrite Eur. eexists _, _, _.
    do 5 (split; [done|]). split; [done|]. split; [done|]. split; [done|]. split; [|done]. etransitivity; [exact Hsr|]. by apply (same_rest_put _ _ dm).
  - destruct (read_type_spec _ w i d0 reg Hok0 Ei0 Hreg) as (y & v & cap & p & Ey & Er). rewrite (rest_read d d0 reg Hr0 Hregs Hreg), Ex in Ey. injection Ey as <-.
    assert (bridge_req_switch acg_buf q (put_dev (with_map c m es) i d0) w i (dc_tlp_dev d) reg t = bridge_read_type_0 (put_dev (with_map c m es) i d0) w i reg) as ->
      by (by destruct Ht as [->| ->]).
    rewrite Er. eexists _, _, _. do 5 (split; [done|]). split; [done|]. split; [done|]. split; [done|]. split; [|done].
    etransitivity; [exact Hsr|]. by apply (same_rest_put _ _ d0).
Qed.

(** Command Completed, as a bit of the register that holds slot control and slot status. *)
Definition SLOT_STATUS_CMD_COMPLETED : Z := 0x00100000.

(** The registers after Command Completed. *)
Lemma cmd_completed_image d : regs_ok d -> bridge_image (cmd_completed d) = <[30%nat := Z.lor (default 0 (bridge_image d !! 30%nat)) 0x00100000]> (bridge_image d).
Proof.
  intros Hd. pose proof (header_length d Hd) as Hl. pose proof (reg_width d 58 16 _ Hd eq_refl) as W1. pose proof (reg_width d 59 16 _ Hd eq_refl) as W2.
  unfold bridge_image. change (dc_is_bridge (cmd_completed d)) with (dc_is_bridge d).
  change (header1_image (cmd_completed d)) with (header1_image d). change (header0_image (cmd_completed d)) with (header0_image d).
  rewrite lookup_app_r, insert_app_r_alt by lia. rewrite Hl. f_equal. change (30 - 16)%nat with 14%nat.
  change (caps_image (cmd_completed d)) with (<[14%nat := bridge_cap_pcie_read (cmd_completed d) 6]> (caps_image d)). f_equal.
  change (default 0 (caps_image d !! 14%nat)) with (dw16 (xp_slot_status (dc_express d)) (xp_slot_control (dc_express d))).
  cbn [bridge_cap_pcie_read cmd_completed slot_regs dc_express xp_slot_status xp_slot_control]. cbv [dw16 u32 uwrap SLOT_STS_CMD_COMPLETED]. bits_eq.
Qed.

(** Register [j] after a write of [data] with the byte mask [m] to register [reg] of device [d], when it was [x]. *)
Definition reg_written (d : pci_device_config) (reg m data j x : Z) : Z :=
  if negb (j <? 42) then 0
  else if j =? reg then Z.lor (reg_after d reg m data x) (when (triggers d reg m) 0x00100000)
  else if j =? 28 then dw16 (link_after d reg m data) (xp_link_control (dc_express d))
  else x.

(** The same for a write of whole fields, in terms of [reg_spec]. *)
Definition reg_result (d : pci_device_config) (reg m data j x : Z) : Z :=
  if negb (j <? 42) then 0
  else if j =? reg then Z.lor (reg_spec d reg m data x) (when (triggers d reg m) SLOT_STATUS_CMD_COMPLETED)
  else if j =? 28 then dw16 (link_after d reg m data) (xp_link_control (dc_express d))
  else x.

Lemma reg_written_other d reg m data j x : j <> reg -> j <> 28 -> (42 <= j -> x = 0) -> reg_written d reg m data j x = x.
Proof.
  intros H1 H2 H3. unfold reg_written. destruct (Z.ltb_spec j 42); cbn [negb]; [|by rewrite H3]. destruct (Z.eqb_spec j reg); [done|].
  by destruct (Z.eqb_spec j 28).
Qed.
Lemma reg_written_result d reg be m data j x : 0 <= reg < 1024 -> 0 <= be < 16 -> map_first_dw_be_to_mask be = Done m -> in_width 32 data ->
  write_whole (dc_is_bridge d) reg m data = true -> reg_written d reg m data j x = reg_result d reg m data j x.
Proof. intros Hr Hbe Hm Hd Hw. unfold reg_written, reg_result. by rewrite (after_spec d reg m data x Hr (be_masks_elem be m Hbe Hm) Hd Hw). Qed.

Lemma after_write_read d d1 reg m data j : regs_ok d -> regs_ok d1 -> bridge_image d1 = written_image d reg m data -> 0 <= reg < 1024 -> 0 <= j < 1024 ->
  exists x, bridge_cfg_read j d = Done x /\ bridge_cfg_read j (after_write d1 (triggers d reg m)) = Done (reg_written d reg m data j x).
Proof.
  intros Hd Hd1 Hi Hr Hj. exists (default 0 (bridge_image d !! Z.to_nat j)). rewrite (cfg_read_lookup j d) by done. split; [done|].
  pose proof (image_length d Hd) as Hl. set (d2 := bridge_set_cmpl d1 TLP_FMT_CPL_NODATA TLP_TYPE_COMPLETION 0 TLP_CPL_STATUS_SC).
  assert (regs_ok d2) as Hd2 by (by apply (rest_regs d1)). assert (bridge_image d2 = written_image d reg m data) as Hi2 by (by rewrite (rest_image d1 d2)).
  assert (forall k, 0 <= k < 1024 -> default 0 (written_image d reg m data !! Z.to_nat k) =
    (if k <? 42 then if k =? reg then reg_after d reg m data (default 0 (bridge_image d !! Z.to_nat k))
     else if k =? 28 then dw16 (link_after d reg m data) (xp_link_control (dc_express d)) else default 0 (bridge_image d !! Z.to_nat k) else 0)) as Hw
    by (intros k Hk; by apply written_lookup).
  unfold after_write, reg_written. fold d2. destruct (triggers d reg m) eqn:Etr.
  - unfold triggers in Etr. apply andb_true_iff in Etr as [Etr _]. apply andb_true_iff in Etr as [Etr _]. apply Z.eqb_eq in Etr as ->.
    assert (regs_ok (cmd_completed d2)) as Hd3.
    { unfold cmd_completed, slot_regs. apply (regs_updates d2 Hd2 _ [(59%nat, 16, Z.lor (xp_slot_status (dc_express d2)) SLOT_STS_CMD_COMPLETED)]); [reflexivity| |reflexivity..].
      apply List.Forall_cons; [|apply List.Forall_nil]. apply lor_width; [done|by apply (reg_width d2 59 16)|done]. }
    rewrite cfg_read_lookup by done. f_equal. rewrite cmd_completed_image, Hi2 by done. unfold when.
    destruct (Z.eqb_spec j 30) as [->|Hne].
    + change (Z.to_nat 30) with 30%nat. rewrite list_lookup_insert_eq by (unfold written_image; rewrite !length_insert; lia). cbn [default]. f_equal.
      pose proof (Hw 30 ltac:(lia)) as H30. change (Z.to_nat 30) with 30%nat in H30. rewrite H30. done.
    + rewrite list_lookup_insert_ne by lia. rewrite (Hw j) by done. destruct (Z.ltb_spec j 42); [|done]. by destruct (Z.eqb_spec j 30).
  - rewrite cfg_read_lookup by done. f_equal. rewrite Hi2, (Hw j) by done. unfold when. rewrite Z.lor_0_r. by destruct (j <? 42).
Qed.

Lemma reg_written_rest d d' reg m data j x : dev_rest d' = dev_rest d -> reg_written d' reg m data j x = reg_written d reg m data j x.
Proof.
  intros E. destruct (rest_eqs d d' E) as (_ & _ & E3 & _ & E5 & _ & E7 & _). unfold reg_written, reg_after, link_after, triggers. by rewrite E3, E5, E7.
Qed.

(** C6: a configuration write changes the registers it should, of the device it is for, when the user data of the channel can be read. The
    callback returns and keeps the invariant. After a write of whole fields ([write_whole]: the byte enables cover the fields that the register is made of,
    it is not the sizing of the upper half of a base address register, and ones go only to bits of the slot status that they clear) the registers of
    the device read as [reg_result] says: the register that the request names takes its data in the enabled bits that it can be written in and clears
    those that ones clear, the lower half of a base address register shows its size or the address,
    and in a bridge a write to slot control moves the link status and sets Command Completed. After every write the registers other than the one
    named and the link status, and those of all other devices, read as before; no handle, presence, kind or memory changes. A request without a
    data buffer writes zero, and one for no device changes nothing. *)
Theorem bridge_config_write acg_buf q c w t : bridge_ok c w -> breq_wf q -> buf_ok acg_buf -> bridge_req_type (bq_header q) = Done t ->
  t = TLP_REQ_TYPE_CONFIG_WRITE_TYPE_0 \/ t = TLP_REQ_TYPE_CONFIG_WRITE_TYPE_1 ->
  exists m es i d d1 reg be bm d' c' w', devs_config c !! i = Some d /\ finds c q t m es i d d1 /\ GET_TLP_REQ_EXT_REG_NUM (bq_header q) = Done reg /\
    GET_TLP_REQ_FIRST_DW_BE (bq_header q) = Done be /\ map_first_dw_be_to_mask be = Done bm /\
    bridge_req_handler_cb DOCA_SUCCESS acg_buf (RqTlp q) c w = Done (c', w') /\ bridge_ok c' w' /\ devs_config c' !! i = Some d' /\
    dev_frame d' = dev_frame d /\
    (forall j, 0 <= j < 1024 -> exists x y, bridge_cfg_read j d = Done x /\ bridge_cfg_read j d' = Done y /\
       (dc_is_dummy d = true \/ j <> reg /\ j <> 28 -> y = x) /\
       (dc_is_dummy d = false -> write_whole (dc_is_bridge d) reg bm (cfg_write_data q) = true ->
          y = reg_result d reg bm (cfg_write_data q) j x)) /\
    (forall k dk, k <> i -> devs_config c !! k = Some dk -> exists dk', devs_config c' !! k = Some dk' /\ dev_rest dk' = dev_rest dk) /\
    transaction_region_memories c' = transaction_region_memories c.
Proof.
  intros Hok Hq Hb Et Ht. destruct (cb_start acg_buf q c w t Hok Hq Et) as (m & es & i & d & d1 & d0 & reg & Ei & Hf & Hr0 & Hi0 & Hh0 & _ & Ereg & Hreg & Hok0 & Ei0 & E).
  pose proof (do_regs _ _ _ (dk_dev c w (proj1 Hok) i d Ei)) as Hregs. pose proof (same_rest_start c m es i d d0 Ei Hr0) as Hsr.
  destruct (bfield q 3 0 1 Hq) as (be & Ebe & Wbe); [lia..|]. change (in_width 4 be) in Wbe. unfold in_width in Wbe. destruct (be_mask_total be ltac:(lia)) as (bm & Em & _).
  exists m, es, i, d, d1, reg, be, bm. rewrite E. destruct (dc_is_dummy d).
  - destruct (ur_spec q _ w Hok0 Hq) as (dm & dm' & hd & fs & Edm & Hrm & Him & Eur & _). cbv zeta in Edm. rewrite Eur.
    assert (same_rest c (put_dev (put_dev (with_map c m es) i d0) (Z.to_nat (DUMMY_DEV_IDX c)) dm')) as Hsr'
      by (etransitivity; [exact Hsr|]; by apply (same_rest_put _ _ dm)).
    destruct (same_rest_lookup _ _ i d Hsr' Ei) as (d' & Ei' & Hrd). exists d'. eexists _, _. do 5 (split; [done|]). split; [done|].
    split; [by apply reply_ok, (rest_put_ok dm)|]. split; [exact Ei'|]. split; [by apply rest_frame|]. split; [|split; [|done]].
    + intros j Hj. rewrite (rest_read d d' j Hrd Hregs Hj), cfg_read_lookup by done. by eexists _, _.
    + intros k dk _ Ek. by apply (same_rest_lookup _ _ k dk Hsr').
  - destruct (write_type_spec acg_buf q _ w i d0 reg Hok0 Ei0 Hq Hb Hreg) as (be' & bm' & dw & cap & v & p & c' & w' & Ebe' & _ & Em' & _ & Ew & Hok' & Hc & _ & Hrw & Ho & Hi & _).
    unfold GET_TLP_REQ_FIRST_DW_BE in Ebe'. rewrite Ebe in Ebe'. injection Ebe' as <-. rewrite Em in Em'. injection Em' as <-.
    assert (bridge_req_switch acg_buf q (put_dev (with_map c m es) i d0) w i (dc_tlp_dev d) reg t = bridge_write_type_0 acg_buf (put_dev (with_map c m es) i d0) w i q reg) as ->
      by (by destruct Ht as [->| ->]).
    assert (devs_config c' = <[i := after_write dw (triggers d0 reg bm)]> (devs_config c) /\ transaction_region_memories c' = transaction_region_memories c) as [Hdev Hmem].
    { unfold ctx_rest in Hc. cbn in Hc. rewrite list_insert_insert_eq in Hc. split; congruence. }
    exists (after_write dw (triggers d0 reg bm)), c', w'. do 5 (split; [done|]). split; [done|]. split; [done|].
    split; [rewrite Hdev; apply list_lookup_insert_eq; by eapply lookup_lt_Some|]. split.
    { destruct (regs_only_eqs d0 dw Ho) as [Hfr _]. rewrite <- (rest_frame d d0 Hr0), <- Hfr. unfold after_write. by destruct (triggers d0 reg bm). }
    split; [|split; [|done]].
    + intros j Hj. destruct (after_write_read d0 dw reg bm (cfg_write_data q) j (rest_regs d d0 Hr0 Hregs) Hrw Hi Hreg Hj) as (x & Ex & Ex').
      rewrite (rest_read d d0 j Hr0 Hregs Hj) in Ex. rewrite (reg_written_rest d d0) in Ex' by done. exists x. eexists. split; [done|]. split; [exact Ex'|].
      split; [intros [[=]|[H1 H2]]; apply reg_written_other; [done..|]|intros _ Hww; apply (reg_written_result d reg be); [done|lia|done|apply (write_data_spec q Hq)|done]].
      intros Hge. rewrite cfg_read_lookup in Ex by done. rewrite lookup_ge_None_2 in Ex by (rewrite (image_length d Hregs); lia). by injection Ex.
    + intros k dk Hne Ek. exists dk. split; [|done]. by rewrite Hdev, list_lookup_insert_ne by done.
Qed.

(** *** Memory *)

Lemma first_in_group_ext n j f g : (forall k, f k = g k) -> first_in_group n j f = first_in_group n j g.
Proof. intros H. revert j. induction n as [|n IH]; intros j; [done|]. cbn. rewrite H. destruct (g j) as [b|]; [|done]. cbn. destruct b; [done|apply IH]. Qed.

(** Addresses find the same endpoints. *)
Lemma find_address_rest c c' a : same_rest c c' -> topo_nums c' = topo_nums c -> find_device_by_address c' a = find_device_by_address c a.
Proof.
  intros Hs Hn. unfold find_device_by_address, FIRST_PF_IDX, DUMMY_DEV_IDX.
  assert (num_ep c' = num_ep c /\ num_bridges c' = num_bridges c) as [-> ->] by (unfold topo_nums in Hn; split; congruence).
  erewrite first_in_group_ext; [reflexivity|]. intros k. cbn beta. unfold dev_at.
  apply (f_equal (fun l => l !! Z.to_nat (u32 (num_bridges c + k)))) in Hs. rewrite !list_lookup_fmap in Hs.
  destruct (devs_config c' !! _) as [d'|], (devs_config c !! _) as [d|]; cbn in Hs; try done. cbn [mbind res_bind].
  assert (dev_rest d' = dev_rest d) as E by congruence. destruct (rest_eqs d d' E) as (-> & _ & _ & _ & _ & _ & _ & _ & _ & ->). done.
Qed.

Lemma region_at_put c k mem mem' : region_at c k = Some mem -> region_at (put_region c k mem') k = Some mem' /\
  forall k', 0 <= k' -> 0 <= k -> k' <> k -> region_at (put_region c k mem') k' = region_at c k'.
Proof.
  unfold region_at, put_region. destruct (transaction_region_memories c) as [l|] eqn:El; [|done]. cbn. intros E. split.
  - rewrite list_lookup_insert_eq; [done|]. destruct (l !! Z.to_nat k) eqn:Ek; [by eapply lookup_lt_Some|done].
  - intros k' H1 H2 Hne. by rewrite list_lookup_insert_ne by lia.
Qed.

(** After a write the region is found with the new memory. *)
Lemma mem_region_put c w i d a k mem off mem' : devs_ok c w -> devs_config c !! i = Some d -> mem_region c i d a = Done (Some (k, mem, off)) ->
  mem_region (put_region c k mem') i d a = Done (Some (k, mem', off)).
Proof.
  intros Hd Ei. destruct (pf_index_spec c w i d Hd Ei) as (pf & Ep & Hpf). unfold mem_region, put_region.
  destruct (bar_base (t0_bar (dc_type0 d))) as [base|]; [|done]. cbn [mbind res_bind]. rewrite Ep. cbn [mbind res_bind]. destruct pf as [k'|]; [|done].
  destruct (transaction_region_memories c) as [l|] eqn:El; [|done]. destruct (l !! Z.to_nat k') as [[mm|]|] eqn:Ek; [|done|done].
  destruct (_ && _) eqn:Ec; [|done]. intros [= -> -> <-].
  change (get_pf_index_for_device {| c with transaction_region_memories := Some (<[Z.to_nat k := Some mem']> l) |} i) with (get_pf_index_for_device c i).
  rewrite Ep. cbn [mbind res_bind transaction_region_memories transaction_region_size]. rewrite list_lookup_insert_eq by (by eapply lookup_lt_Some).
  done.
Qed.

(** A memory write to endpoint [i] in region [k]. *)
Lemma memory_write_request acg_buf q c w a i d k mem off l len fbe lbe : bridge_ok c w -> breq_wf q ->
  bridge_req_type (bq_header q) = Done TLP_REQ_TYPE_MEMORY_WRITE -> mem_request_address (bq_header q) = Done a ->
  find_device_by_address c a = Done i -> devs_config c !! i = Some d -> dc_is_dummy d = false ->
  mem_region c i d a = Done (Some (k, mem, off)) -> bq_data q = Some l -> GET_TLP_REQ_LENGTH (bq_header q) = Done len ->
  GET_TLP_REQ_FIRST_DW_BE (bq_header q) = Done fbe -> GET_TLP_REQ_LAST_DW_BE (bq_header q) = Done lbe ->
  off + 4 * mem_num_dwords len <= TRANSACTION_REGION_SIZE ->
  exists c' w' d' mem', bridge_req_handler_cb DOCA_SUCCESS acg_buf (RqTlp q) c w = Done (c', w') /\ bridge_ok c' w' /\ same_rest c c' /\ topo_nums c' = topo_nums c /\
    devs_config c' !! i = Some d' /\ mem_region c' i d' a = Done (Some (k, mem', off)) /\ region_at c' k = Some mem' /\ length mem' = length mem /\
    (forall j, 0 <= j -> mem' !!! Z.to_nat j = written l mem off (mem_num_dwords len) fbe lbe j) /\
    (forall k', 0 <= k' < num_ep c -> k' <> k -> region_at c' k' = region_at c k').
Proof.
  intros Hok Hq Et Ea Ef Ei Hnd Er Ed El Ebf Ebl Hfit. destruct (cb_start acg_buf q c w _ Hok Hq Et) as (m & es & i' & d' & d1 & d0 & reg & Ei' & Hf & Hr0 & Hi0 & _ & _ & _ & _ & Hok0 & Ei0 & E).
  cbn [finds is_mem] in Hf. destruct Hf as (_ & _ & _ & a' & Ea' & Ef'). rewrite Ea in Ea'. injection Ea' as <-. rewrite Ef in Ef'. injection Ef' as <-.
  rewrite Ei in Ei'. injection Ei' as <-. rewrite Hnd in E. cbn [bridge_req_switch] in E.
  pose proof (mem_region_rest c m es i d d0 a Ei Hr0) as Er0. rewrite Er in Er0. set (c0 := put_dev (with_map c m es) i d0) in *.
  destruct (memory_write_spec q c0 w i d0 Hok0 Ei0 Hq Et) as (len' & a' & fbe' & lbe' & r & c1 & El' & _ & Ea' & Ebf' & Ebl' & Er' & Hw & Em).
  { intros a' len' k' mem' off' Ea' El'. rewrite Ea in Ea'. injection Ea' as <-. rewrite El in El'. injection El' as <-. rewrite Er0. by intros [= -> -> ->]. }
  rewrite El in El'. injection El' as <-. rewrite Ea in Ea'. injection Ea' as <-. rewrite Ebf in Ebf'. injection Ebf' as <-. rewrite Ebl in Ebl'. injection Ebl' as <-.
  rewrite Er0 in Er'. injection Er' as <-. rewrite Ed in Hw. pose proof Hw as Hw0. cbn [mem_written] in Hw. destruct Hw as (mem' & -> & Hl & Hk).
  destruct (mem_addr_done q Hq) as (a' & Ea' & Wa & _). rewrite Ea in Ea'. injection Ea' as <-.
  destruct (mem_written_ok c0 w i d0 a _ _ _ _ _ _ Hok0 Ei0 Wa Er0 Hw0) as (Hok1 & Hdev & _). rewrite Em in E. cbn [mbind res_bind] in E.
  set (d2 := bridge_set_cmpl d0 0 (dc_cmpl_type d0) 0 0) in *. assert (dev_rest d2 = dev_rest d0) as Hr2 by done.
  destruct (mem_region_spec c0 w i d0 a (proj1 Hok0) Ei0 Wa) as (bb & r & _ & _ & _ & Er1 & Hr). rewrite Er0 in Er1. injection Er1 as <-.
  destruct Hr as (Hkr & _ & Hreg & _). destruct (region_at_put c0 k mem mem' Hreg) as [Hreg1 Hreg2].
  assert (topo_nums (put_region c0 k mem') = topo_nums c) as Htn by (unfold put_region; by destruct (transaction_region_memories c0)).
  eexists _, _, d2, mem'. split; [exact E|]. split; [apply reply_ok, (rest_put_ok d0); [done|done|by rewrite Hdev|by apply ids_ok_cmpl]|]. split.
  { etransitivity; [exact (same_rest_start c m es i d d0 Ei Hr0)|]. fold c0. transitivity (put_region c0 k mem'); [unfold same_rest; by rewrite Hdev|].
    apply (same_rest_put _ _ d0); [by rewrite Hdev|done]. }
  split; [done|]. split; [apply list_lookup_insert_eq; rewrite Hdev; by eapply lookup_lt_Some|]. split.
  { transitivity (mem_region (put_region c0 k mem') i d0 a); [|by eapply mem_region_put; [apply Hok0|..]].
    apply (mem_region_rest (put_region c0 k mem') (bdf_map (put_region c0 k mem')) (bdf_entries (put_region c0 k mem')) i d0 d2 a); [by rewrite Hdev|done]. }
  split; [exact Hreg1|]. split; [done|]. split; [done|]. intros k' Hk' Hne. apply (Hreg2 k'); lia.
Qed.

(** C7: the memory of an endpoint keeps what the host writes. A memory write of 1 to 256 double words, with its data, that starts in the
    transaction region of an endpoint and ends inside it changes exactly the bytes of its memory that the byte enables select, the memory of no
    other endpoint and no register; a memory read of the same address, length and byte enables that follows is answered with the data written, with
    zero in the bytes that are not enabled, and with the data itself if all are. *)
Theorem bridge_memory_roundtrip acg_buf qw qr c w a i d k mem off l len fbe lbe : bridge_ok c w -> breq_wf qw -> breq_wf qr ->
  bridge_req_type (bq_header qw) = Done TLP_REQ_TYPE_MEMORY_WRITE -> bridge_req_type (bq_header qr) = Done TLP_REQ_TYPE_MEMORY_READ ->
  find_device_by_address c a = Done i -> devs_config c !! i = Some d -> mem_region c i d a = Done (Some (k, mem, off)) -> bq_data qw = Some l ->
  (forall q, q = qw \/ q = qr -> mem_request_address (bq_header q) = Done a /\ GET_TLP_REQ_LENGTH (bq_header q) = Done len /\
     GET_TLP_REQ_FIRST_DW_BE (bq_header q) = Done fbe /\ GET_TLP_REQ_LAST_DW_BE (bq_header q) = Done lbe) ->
  1 <= len <= 256 -> off + 4 * len <= TRANSACTION_REGION_SIZE ->
  exists c1 w1 mem' c2 w2 rp, bridge_req_handler_cb DOCA_SUCCESS acg_buf (RqTlp qw) c w = Done (c1, w1) /\
    bridge_req_handler_cb DOCA_SUCCESS acg_buf (RqTlp qr) c1 w1 = Done (c2, w2) /\ same_rest c c1 /\
    region_at c1 k = Some mem' /\ (forall j, 0 <= j -> mem' !!! Z.to_nat j = written l mem off len fbe lbe j) /\
    (forall k', 0 <= k' < num_ep c -> k' <> k -> region_at c1 k' = region_at c k') /\
    w_replies w2 = rp :: w_replies w1 /\ cpl_data (br_cpl rp) = Some (masked l len fbe lbe) /\
    (fbe = BYTE_ENABLE_ALL_MASK -> lbe = BYTE_ENABLE_ALL_MASK -> cpl_data (br_cpl rp) = Some (take (Z.to_nat len) l)).
Proof.
  intros Hok Hqw Hqr Etw Etr Ef Ei Er Ed Hq Hlen Hfit. destruct (Hq qw ltac:(by left)) as (Ea & El & Ebf & Ebl). destruct (Hq qr ltac:(by right)) as (Ea' & El' & Ebf' & Ebl').
  assert (mem_num_dwords len = len) as Hn by (unfold mem_num_dwords; destruct (Z.eqb_spec len 0); lia).
  assert (dc_is_dummy d = false) as Hnd.
  { destruct (mem_addr_done qw Hqw) as (a0 & Ea0 & Wa & _). rewrite Ea in Ea0. injection Ea0 as <-.
    destruct (mem_region_spec c w i d a (proj1 Hok) Ei Wa) as (bb & r & _ & _ & _ & Er' & Hr). rewrite Er in Er'. injection Er' as <-. destruct Hr as (Hk & -> & _).
    destruct (do_kind _ _ _ (dk_dev c w (proj1 Hok) _ d Ei)) as (_ & _ & ->). apply Z.eqb_neq. pose proof (tw_bridges c (dk_topo c w (proj1 Hok))).
    pose proof (tw_nv c (dk_topo c w (proj1 Hok))). unfold ep_of, FIRST_PF_IDX. lia. }
  destruct (memory_write_request acg_buf qw c w a i d k mem off l len fbe lbe Hok Hqw Etw Ea Ef Ei Hnd Er Ed El Ebf Ebl ltac:(lia))
    as (c1 & w1 & d1 & mem' & E1 & Hok1 & Hs1 & Hn1 & Ei1 & Er1 & Hreg1 & Hl1 & Hk1 & Ho1). rewrite Hn in Hk1.
  destruct (cb_start acg_buf qr c1 w1 _ Hok1 Hqr Etr) as (m & es & i' & d' & dx & d0 & reg & Ei' & Hf & Hr0 & _ & _ & _ & _ & _ & Hok0 & Ei0 & E).
  cbn [finds is_mem] in Hf. destruct Hf as (_ & _ & _ & a' & Ea'' & Ef'). rewrite Ea' in Ea''. injection Ea'' as <-.
  rewrite (find_address_rest c c1 a Hs1 Hn1), Ef in Ef'. injection Ef' as <-. rewrite Ei1 in Ei'. injection Ei' as <-.
  assert (dc_is_dummy d1 = false) as Hnd1.
  { destruct (same_rest_lookup c c1 i d Hs1 Ei) as (d1' & Ed1 & Hrd). rewrite Ei1 in Ed1. injection Ed1 as <-. by destruct (rest_eqs d d1 Hrd) as (_ & _ & _ & _ & _ & -> & _). }
  rewrite Hnd1 in E. cbn [bridge_req_switch] in E. pose proof (mem_region_rest c1 m es i d1 d0 a Ei1 Hr0) as Er0. rewrite Er1 in Er0.
  destruct (memory_read_spec qr _ w1 i d0 Hok0 Ei0 Hqr Etr) as (len' & a' & fbe' & lbe' & r & El2 & _ & Ea2 & Ebf2 & Ebl2 & Er2 & Em).
  { intros a' len' k' mm off' Ea2 El2. rewrite Ea' in Ea2. injection Ea2 as <-. rewrite El' in El2. injection El2 as <-. rewrite Er0. intros [= <- <- <-]. lia. }
  rewrite El' in El2. injection El2 as <-. rewrite Ea' in Ea2. injection Ea2 as <-. rewrite Ebf' in Ebf2. injection Ebf2 as <-. rewrite Ebl' in Ebl2. injection Ebl2 as <-.
  rewrite Er0 in Er2. injection Er2 as <-. rewrite Em in E. cbn [mbind res_bind] in E.
  destruct (mem_addr_done qw Hqw) as (a0 & Ea0 & Wa & _). rewrite Ea in Ea0. injection Ea0 as <-.
  destruct (mem_region_spec c w i d a (proj1 Hok) Ei Wa) as (bb & r & _ & _ & _ & Er' & Hr). rewrite Er in Er'. injection Er' as <-. destruct Hr as (_ & _ & _ & _ & _ & Hoff & _).
  assert (mem_read_data (Some (k, mem', off)) (mem_num_dwords len) fbe lbe = masked l len fbe lbe) as Hdata.
  { unfold mem_read_data. rewrite Hn, Z.min_l by lia. apply (read_words_written l mem mem' off len fbe lbe); [lia|done]. }
  rewrite Hdata in E. eexists c1, w1, mem', _, _, _. split; [exact E1|]. split; [exact E|]. split; [done|]. split; [done|]. split; [done|]. split; [done|].
  split; [done|]. split; [done|]. intros -> ->. cbn. f_equal. destruct (bw_data qw Hqw l Ed) as [Hw Hlw]. destruct (Hlw len El) as [_ Hlw']. specialize (Hlw' Etw).
  apply masked_all; [lia|done].
Qed.

(** Requests that do not cross a 4 KB boundary, as PCI Express demands, end inside their region if the regions are aligned to 4 KB. *)
Lemma no_crossing_fits c w q a len : bridge_ok c w -> breq_wf q ->
  (forall k d base, 0 <= k < num_ep c -> devs_config c !! ep_of c k = Some d -> bar_base (t0_bar (dc_type0 d)) = Done base ->
     (TRANSACTION_REGION_SIZE | base + dc_transaction_region_start d)) ->
  mem_request_address (bq_header q) = Done a -> GET_TLP_REQ_LENGTH (bq_header q) = Done len ->
  a / TRANSACTION_REGION_SIZE = (a + 4 * mem_num_dwords len - 1) / TRANSACTION_REGION_SIZE -> mem_fits c q.
Proof.
  intros Hok Hq Hal Ea El Hx t a' i d _ _ Ea' Ef Ei a2 len' k mem off Ea2 El' Er. rewrite Ea in Ea2. injection Ea2 as <-. rewrite El in El'. injection El' as <-.
  destruct (mem_addr_done q Hq) as (a0 & Ea0 & Wa & _). rewrite Ea in Ea0. injection Ea0 as <-.
  destruct (mem_region_spec c w i d a (proj1 Hok) Ei Wa) as (base & r & Eb & Wb & _ & Er' & Hr). rewrite Er in Er'. injection Er' as <-.
  destruct Hr as (Hk & -> & _ & _ & _ & Hoff & Hu). destruct (Hal k d base Hk Ei Eb) as [g Hg]. unfold u64, uwrap in Hu.
  pose proof (Z.div_mod (a - base) (2 ^ 64) ltac:(done)) as Hdm. rewrite Hu in Hdm. unfold TRANSACTION_REGION_SIZE in *.
  assert (a = (g + (a - base) / 2 ^ 64 * 2 ^ 52) * 4096 + off) as Ha by lia.
  assert (a / 4096 = g + (a - base) / 2 ^ 64 * 2 ^ 52) as Hq1 by (symmetry; apply (Z.div_unique _ _ _ off); lia).
  pose proof (Z.div_mod (a + 4 * mem_num_dwords len - 1) 4096 ltac:(done)) as Hd2. pose proof (Z.mod_pos_bound (a + 4 * mem_num_dwords len - 1) 4096 ltac:(done)).
  rewrite <- Hx, Hq1 in Hd2. lia.
Qed.
End Requests.
