(* ===== verification/BridgeRun.v ===== *)
(** * BridgeRun: runs of the TLP bridge handler sample,
      src/samples/doca_devemu/devemu_pci_device_tlp_bridge_handler/
      devemu_pci_device_tlp_bridge_handler_sample.c

    Properties of whole runs of the machine of BridgeReq: set-up, then any
    sequence of requests, credits, PCI events and commands, then clean-up.
    [bridge_invariant] says that no run crashes and that handles, credits, links,
    registers and memories stay consistent; [cleanup_releases] that clean-up gives
    everything back; [find_device_coherent] that the table of devices never changes which
    device a request reaches, as long as every bus is reached through one port and bus
    numbers are given once; [hotplug_result] what a command does and when it fails. The
    last section has runs in which the code does not do what it means to. *)

From S2P Require Import Prelude TlpCfg TlpReq BridgeData BridgeCfg BridgeMap BridgeSlot BridgeReq.

(** ** Runs *)

Section Runs.
Context `{B : Be32} `{!Be32Laws B}.

(** What the host, the channel and the library may do: requests whose buffers hold what they announce and whose memory accesses end
    inside the region in which they start, buffers with room for a message, and for commands what [create_ok] says of the library. *)
Definition ev_ok (c : tlp_context) (w : world) (ev : bridge_event) : Prop :=
  match ev with
  | EvRequest _ acg_buf rq => buf_ok acg_buf /\
      match rq with RqTlp q => breq_wf q /\ mem_fits c q | _ => True end
  | EvHotplug a k _ => 0 <= k /\ create_ok w (ha_create a) /\ buf_ok (ha_buf a)
  end.

Inductive reach (P : tlp_context -> world -> bridge_event -> Prop) (c0 : tlp_context) (w0 : world) : tlp_context -> world -> Prop :=
| ReachStart : reach P c0 w0 c0 w0
| ReachStep c w ev c' w' : reach P c0 w0 c w -> P c w ev -> bridge_step ev c w = Done (c', w') -> reach P c0 w0 c' w'.

Lemma topo_nums_static c c' : ctx_static c' = ctx_static c -> topo_nums c' = topo_nums c.
Proof. unfold ctx_static, topo_nums. congruence. Qed.

Lemma maps_nums c c' : ctx_maps c' = ctx_maps c -> topo_nums c' = topo_nums c /\ bdf_map c' = bdf_map c /\ bdf_entries c' = bdf_entries c.
Proof. unfold ctx_maps. intros E. split_and!; congruence. Qed.

Lemma step_ok ev c w : bridge_ok c w -> ev_ok c w ev ->
  exists c' w', bridge_step ev c w = Done (c', w') /\ bridge_ok c' w' /\ topo_nums c' = topo_nums c.
Proof.
  intros Hok Hev. destruct ev as [ud acg_buf rq|a k plug]; cbn [bridge_step ev_ok] in *.
  - destruct Hev as [Hb Hrq]. destruct (is_success ud) eqn:Eud; [apply is_success_true in Eud as ->|unfold bridge_req_handler_cb; rewrite Eud; by exists c, w].
    destruct rq as [req| |q]; cbn [bridge_req_handler_cb is_success negb].
    + destruct (granted_spec c w req Hok) as (c' & w' & -> & Hok' & Hst). eexists _, _. split; [done|]. auto using topo_nums_static.
    + eexists _, _. split; [done|]. split; [by apply reply_ok|done].
    + destruct Hrq as [Hq Hfit]. destruct (cb_replied acg_buf q c w Hok Hq Hb Hfit) as (t & m & es & i & d & d1 & dm & c' & w' & _ & _ & _ & _ & E & Hok' & Hm & _).
      exists c', w'. split; [exact E|]. split; [done|]. by apply maps_nums in Hm as [-> _].
  - destruct Hev as (Hk & Hco & Hb). destruct (hotplug_spec a c w k plug Hok Hk Hco Hb) as (e & c' & w' & -> & Hok' & Hst & _). cbn.
    eexists _, _. split; [done|]. auto using topo_nums_static.
Qed.

Lemma reach_ok P c0 w0 c w : (forall c w ev, P c w ev -> ev_ok c w ev) -> bridge_ok c0 w0 -> reach P c0 w0 c w -> bridge_ok c w /\ topo_nums c = topo_nums c0.
Proof.
  intros HP H0. induction 1 as [|c w ev c' w' _ [IH1 IH2] Hev Hst]; [done|].
  destruct (step_ok ev c w IH1 (HP _ _ _ Hev)) as (c1 & w1 & E & Hok & Hn). rewrite Hst in E. injection E as -> ->. split; [done|congruence].
Qed.

(** *** The table agrees with the topology *)

Section Coherent.
Context (port : Z -> Z -> Z).

(** Every entry is for a request that the rules give its device, on the port of its bus. *)
Definition coherent (c : tlp_context) (log : list nat) : Prop := forall i, i ∈ log -> exists bus device function ty,
  bdf_range bus device function ty /\ ent_key (bdf_entries c) i = BDF_MAP_KEY ty (BDF bus device function) /\
  0 <= port ty bus < num_nv_switch_tlp_dsp c /\ home c (port ty bus) bus device function ty i.

Record routed_ok (c : tlp_context) : Prop := {
  ro_distinct : buses_distinct c;
  ro_map : exists log, map_wf c log /\ coherent c log;
}.

(** Configuration requests for a bus arrive at its port; no request changes a secondary bus that is set or gives one that another bridge of its switch has. *)
Definition routed (c : tlp_context) (w : world) (ev : bridge_event) : Prop :=
  ev_ok c w ev /\
  match ev with
  | EvRequest _ _ (RqTlp q) =>
      (forall t bus ty, bridge_req_type (bq_header q) = Done t -> is_mem t = false -> GET_TLP_REQ_BUS (bq_header q) = Done bus ->
         GET_TLP_REQ_TYPE (bq_header q) = Done ty -> bq_dsp_id q = port ty bus) /\
      forall c' w', bridge_step ev c w = Done (c', w') -> (forall j, sec_bus c j <> 0 -> sec_bus c' j = sec_bus c j) /\ buses_distinct c'
  | _ => True
  end.

Lemma group_off_nums c c' d : topo_nums c' = topo_nums c -> group_off c' d = group_off c d.
Proof. unfold topo_nums, group_off. intros [= _ _ _ _ _ -> ->]. done. Qed.
Lemma idx_nums c c' k : topo_nums c' = topo_nums c -> dsp_idx c' k = dsp_idx c k /\ ep_idx c' k = ep_idx c k.
Proof. unfold topo_nums, dsp_idx, ep_idx. intros [= _ -> _ _ -> _ _]. done. Qed.
Lemma nv_nums c c' : topo_nums c' = topo_nums c -> num_nv_switch_tlp_dsp c' = num_nv_switch_tlp_dsp c.
Proof. unfold topo_nums. congruence. Qed.

(** The rules for a request do not change when buses that are in use stay. *)
Lemma home_mono c c' d bus device function ty i : topo_nums c' = topo_nums c -> (forall j, sec_bus c j <> 0 -> sec_bus c' j = sec_bus c j) ->
  buses_distinct c' -> 0 <= d < num_nv_switch_tlp_dsp c -> home c d bus device function ty i -> home c' d bus device function ty i.
Proof.
  intros Hn Hs Hdist Hd [Hd0 Hf|Hu Hb Hf Hdv|k Hk Hne Hb Hd0 Hf Hu].
  - by constructor.
  - destruct (idx_nums c c' (group_off c d + device) Hn) as [<- _]. rewrite <- (group_off_nums c c' d Hn).
    apply HomeDsp; rewrite ?Hs, ?(group_off_nums c c' _ Hn) by done; done.
  - destruct (idx_nums c c' k Hn) as [E1 E2]. rewrite <- E2. rewrite <- E1 in Hne, Hb. rewrite <- !(group_off_nums c c' _ Hn) in Hk.
    assert (sec_bus c' (dsp_idx c' k) = sec_bus c (dsp_idx c' k)) as Es by (by apply Hs).
    apply HomeEp; rewrite ?Es; try done. rewrite <- (nv_nums c c' Hn) in Hd. destruct (Hdist d k k Hd Hk) as [Hx _]; congruence.
Qed.

Lemma coherent_mono c c' log : topo_nums c' = topo_nums c -> (forall j, sec_bus c j <> 0 -> sec_bus c' j = sec_bus c j) -> buses_distinct c' ->
  bdf_entries c' = bdf_entries c -> coherent c log -> coherent c' log.
Proof.
  intros Hn Hs Hdist He Hcoh i Hi. destruct (Hcoh i Hi) as (bus & device & function & ty & Hr & Hk & Hp & Hh).
  exists bus, device, function, ty. rewrite He, (nv_nums c c' Hn). split; [done|]. split; [done|]. split; [done|]. by eapply home_mono.
Qed.

Lemma sec_bus_static c c' j : ctx_static c' = ctx_static c -> sec_bus c' j = sec_bus c j.
Proof.
  intros E. assert (dev_static <$> devs_config c' = dev_static <$> devs_config c) as Ed by (unfold ctx_static in E; congruence).
  apply (f_equal (fun l => l !! j)) in Ed. rewrite !list_lookup_fmap in Ed. unfold sec_bus.
  destruct (devs_config c' !! j), (devs_config c !! j); cbn in Ed; try done. unfold dev_static in Ed. congruence.
Qed.
Lemma distinct_same c c' : topo_nums c' = topo_nums c -> (forall j, sec_bus c' j = sec_bus c j) -> buses_distinct c -> buses_distinct c'.
Proof.
  intros Hn Hs Hd d k k'. rewrite (nv_nums c c' Hn), !(group_off_nums c c' _ Hn). destruct (idx_nums c c' k Hn) as [-> _].
  destruct (idx_nums c c' k' Hn) as [-> _]. rewrite !Hs. apply Hd.
Qed.
Lemma map_wf_same c c' log : bdf_map c' = bdf_map c -> bdf_entries c' = bdf_entries c -> map_wf c log -> map_wf c' log.
Proof. intros E1 E2 [H1 H2 H3 H4 H5]. split; unfold chains_ok in *; rewrite ?E1, ?E2; done. Qed.

Lemma routed_static c c' : ctx_static c' = ctx_static c -> routed_ok c -> routed_ok c'.
Proof.
  intros E [Hd (log & Hm & Hco)]. pose proof (topo_nums_static c c' E) as Hn.
  assert (bdf_map c' = bdf_map c /\ bdf_entries c' = bdf_entries c) as [E1 E2] by (unfold ctx_static in E; split; congruence).
  assert (buses_distinct c') as Hd' by (apply (distinct_same c); [done|intros; by apply sec_bus_static|done]).
  split; [done|]. exists log. split; [by apply (map_wf_same c)|]. apply (coherent_mono c); [done| |done|done|done]. intros j _. by apply sec_bus_static.
Qed.

(** A lookup gives what the search gives. *)
Lemma find_coherent c w log bus device function ty c' i : devs_ok c w -> buses_distinct c -> coherent c log -> map_wf c log ->
  bdf_range bus device function ty -> 0 <= port ty bus < num_nv_switch_tlp_dsp c ->
  find_outcome c log (port ty bus) bus device function ty c' i ->
  exists r, search_topology c (port ty bus) bus device function ty = Done r /\ i = default (Z.to_nat (DUMMY_DEV_IDX c)) r.
Proof.
  intros Hd Hdist Hco Hm Hr Hp Hf. pose proof (dk_topo c w Hd) as Hc.
  destruct Hf as [i El|El Hge|El Hlt Es|i m es El Hlt Es Hh _ _ _ _]; [|lia|by exists None|by exists (Some i)].
  destruct (latest c log (BDF_MAP_KEY ty (BDF bus device function))) as [j|] eqn:Ela; [|done]. cbn in El.
  unfold latest in Ela. apply head_Some_elem_of, list_elem_of_filter in Ela as [Hkey Hj].
  unfold visible in El. destruct (devs_config c !! j) as [dv|] eqn:Ej; [|done].
  destruct (dc_is_endpoint dv && negb (dc_device_present dv)) eqn:Ev; [done|]. injection El as ->.
  destruct (Hco i Hj) as (bus' & device' & function' & ty' & Hr' & Hk' & Hp' & Hh').
  destruct (key_inj _ _ _ _ _ _ _ _ Hr Hr') as (-> & -> & -> & ->); [congruence|].
  destruct (search_spec c Hc (dk_len c w Hd) (port ty' bus') bus' device' function' ty' Hp' ltac:(destruct Hr; lia)) as (r & Es & _ & Hall).
  exists r. split; [done|]. rewrite (Hall Hdist i Hh'); [done|]. intros Hge. unfold present. rewrite Ej.
  destruct (do_kind _ _ _ (dk_dev c w Hd i dv Ej)) as (Hb & He & Hdum). apply andb_false_iff in Ev as [Ev|Ev]; [|by apply negb_false_iff in Ev].
  exfalso. rewrite Ev in He. pose proof (tw_devices c Hc). pose proof (tw_bridges c Hc).
  assert (Z.of_nat i < num_bridges c + num_ep c); [|lia].
  pose proof (tw_nv c Hc). pose proof (group_off_range c Hc (port ty' bus' + 1) ltac:(lia)). pose proof (tw_ep c Hc) as Hep.
  unfold MAX_NUM_EP in Hep. inversion Hh'; subst; unfold USP_IDX, dsp_idx, ep_idx in *; lia.
Qed.

(** The table stays coherent while a request looks for its device. *)
Lemma find_routed c w bus device function ty m es i : bridge_ok c w -> routed_ok c -> bdf_range bus device function ty -> 0 <= port ty bus ->
  find_device_by_bdf c (port ty bus) bus device function ty = Done (with_map c m es, i) -> routed_ok (with_map c m es).
Proof.
  intros Hok [Hdist (log & Hm & Hco)] Hr Hp E.
  destruct (find_spec c w log (port ty bus) bus device function ty (proj1 Hok) Hm Hp ltac:(destruct Hr; lia)) as (c1 & i' & E' & Hf & _).
  rewrite E in E'. injection E' as <- <-. split; [by apply (distinct_same c)|].
  remember (with_map c m es) as c1 eqn:Ec. destruct Hf as [i El|El Hge|El Hlt Es|j m' es' El Hlt Es Hh Hm' Hl Hk Ho]; [by exists log..|].
  exists (log_update (bdf_entries c) log (BDF_MAP_KEY ty (BDF bus device function)) j). split; [done|].
  intros x Hx. destruct (decide (x = j)) as [->|Hne].
  - exists bus, device, function, ty. split; [done|]. split; [done|]. split; [cbn; lia|]. eapply home_mono; [| |by apply (distinct_same c)| |exact Hh]; done || lia.
  - assert (x ∈ log) as Hxl. { unfold log_update in Hx. destruct (_ && _); [done|]. apply elem_of_cons in Hx as [->|Hx]; [done|]. by apply list_elem_of_filter in Hx as [_ ?]. }
    destruct (Hco x Hxl) as (b & d & f & t & Hr1 & Hk1 & Hp1 & Hh1). exists b, d, f, t. split; [done|]. cbn [bdf_entries with_map]. rewrite Ho by done.
    split; [done|]. split; [done|]. eapply home_mono; [| |by apply (distinct_same c)| |exact Hh1]; done.
Qed.

Lemma routed_step ev c w c' w' : bridge_ok c w -> routed_ok c -> routed c w ev -> bridge_step ev c w = Done (c', w') -> routed_ok c'.
Proof.
  intros Hok Hro [Hev Hrt] Hst. destruct ev as [ud acg_buf rq|a k plug]; cbn [ev_ok] in Hev.
  - destruct Hev as [Hb Hrq]. destruct (is_success ud) eqn:Eud; [apply is_success_true in Eud as ->|cbn [bridge_step] in Hst; unfold bridge_req_handler_cb in Hst; rewrite Eud in Hst; by injection Hst as <- _].
    destruct rq as [req| |q].
    + cbn in Hst. destruct (granted_spec c w req Hok) as (c1 & w1 & E & _ & Hs). rewrite Hst in E. injection E as -> ->. by apply (routed_static c).
    + by injection Hst as <- _.
    + destruct Hrq as [Hq Hfit]. destruct Hrt as [Hport Hbus]. destruct (Hbus c' w' Hst) as [Hkeep Hdist'].
      destruct (cb_replied acg_buf q c w Hok Hq Hb Hfit) as (t & m & es & i & d & d1 & dm & c2 & w2 & Et & _ & Hf & _ & E & _ & Hmaps & _).
      change (bridge_req_handler_cb DOCA_SUCCESS acg_buf (RqTlp q) c w = Done (c', w')) in Hst. rewrite Hst in E. injection E as <- <-.
      apply maps_nums in Hmaps as (Hn & E1 & E2).
      assert (routed_ok (with_map c m es)) as [_ (log & Hm & Hco)].
      { unfold finds in Hf. destruct (is_mem t) eqn:Emem.
        - destruct Hf as (-> & -> & _). replace (with_map c (bdf_map c) (bdf_entries c)) with c by (by destruct c). done.
        - destruct Hf as (bus & dv & fn & ty & Hr & Eb & _ & _ & Ety & Ef & _). rewrite (Hport t bus ty Et Emem Eb Ety) in Ef.
          eapply (find_routed c w bus dv fn ty m es i); [done|done|done| |done]. rewrite <- (Hport t bus ty Et Emem Eb Ety). apply (bw_dsp q Hq). }
      split; [done|]. exists log. split; [by apply (map_wf_same (with_map c m es))|]. by apply (coherent_mono (with_map c m es)).
  - cbn in Hst. destruct Hev as (Hk & Hcr & Hb). destruct (hotplug_spec a c w k plug Hok Hk Hcr Hb) as (e & c1 & w1 & E & _ & Hs & _).
    rewrite E in Hst. cbn in Hst. injection Hst as -> ->. by apply (routed_static c).
Qed.
End Coherent.

(** ** Set-up *)

Lemma omap_none {A C} (f : A -> option C) l : (forall i x, l !! i = Some x -> f x = None) -> omap f l = [].
Proof.
  induction l as [|x l IH]; intros H; [done|]. cbn. rewrite (H 0%nat x eq_refl). apply IH. intros i y E. by apply (H (S i)).
Qed.

Lemma init_map_wf (c : tlp_context) n : bdf_map c = replicate 256 None ->
  bdf_entries c = replicate n {| be_key := 0; be_dev_cfg := None; be_next := None |} -> map_wf c [].
Proof.
  intros E1 E2. split; rewrite ?E1, ?E2.
  - done.
  - constructor.
  - intros i e Ei. apply lookup_replicate in Ei as [-> _]. by rewrite decide_False by apply not_elem_of_nil.
  - intros i Hi. by apply not_elem_of_nil in Hi.
  - intros h Hh. exists None. rewrite E1. split; [|done]. apply lookup_replicate_2. unfold BDF_MAP_SIZE in Hh. lia.
Qed.

(** The devices of a new topology, by their index. *)
Lemma topology_devs c l : topo_wf c -> Z.of_nat (length l) = num_devices c ->
  (forall d, 0 <= d < num_nv_switch_tlp_dsp c -> l !! USP_IDX d = Some (init_usp zero_dev)) ->
  (forall d k, 0 <= d < num_nv_switch_tlp_dsp c -> group_off c d <= k < group_off c (d + 1) ->
     l !! dsp_idx c k = Some (init_dsp (k - group_off c d) zero_dev) /\ l !! ep_idx c k = Some (init_ep zero_dev)) ->
  l !! Z.to_nat (DUMMY_DEV_IDX c) = Some (init_dummy zero_dev) ->
  forall i d, l !! i = Some d -> dev_ok c i d /\ dc_rep d = None /\ dc_tlp_dev d = None /\ t1_secondary_bus (dc_type1 d) = 0.
Proof.
  intros Hc Hl Hu Hs Hdum i d E. pose proof (tw_nv c Hc). pose proof (tw_ep c Hc) as Hep. pose proof (tw_devices c Hc). pose proof (tw_bridges c Hc).
  unfold MAX_NUM_EP in Hep. assert (Z.of_nat i < num_devices c) as Hi by (apply lookup_lt_Some in E; lia).
  unfold DUMMY_DEV_IDX in Hdum. rewrite u32_small in Hdum by lia.
  assert (forall b e m, (Z.of_nat i <? num_bridges c) = b -> (num_bridges c <=? Z.of_nat i) && (Z.of_nat i <? num_bridges c + num_ep c) = e ->
    (Z.of_nat i =? num_bridges c + num_ep c) = m -> dc_is_bridge d = b -> dc_is_endpoint d = e -> dc_is_dummy d = m -> dc_device_present d = false ->
    dc_rep d = None -> dc_tlp_dev d = None -> Z.land (xp_link_status (dc_express d)) LINK_STS_DL_ACTIVE = 0 \/ b = false ->
    t1_secondary_bus (dc_type1 d) = 0 -> regs_check d = true -> layout_ok d -> ids_ok d ->
    dev_ok c i d /\ dc_rep d = None /\ dc_tlp_dev d = None /\ t1_secondary_bus (dc_type1 d) = 0) as Hdev.
  { intros b e m Eb Ee Em Db De Dm Dp Dr Dt Dl Ds Dg Dy Di. split; [|done]. split; [| | | |by apply regs_check_ok|done|done].
    - unfold kind_ok. by rewrite Eb, Ee, Em.
    - unfold ep_ok. by rewrite Dp.
    - done.
    - unfold link_ok. rewrite Db. intros ->. by destruct Dl as [->|]. }
  destruct (Z.lt_ge_cases (Z.of_nat i) (num_nv_switch_tlp_dsp c)).
  { specialize (Hu (Z.of_nat i) ltac:(lia)). unfold USP_IDX in Hu. rewrite Nat2Z.id, E in Hu. injection Hu as ->.
    apply (Hdev true false false); try done; [apply Z.ltb_lt|apply andb_false_iff; left; apply Z.leb_gt|apply Z.eqb_neq|by left]; lia. }
  destruct (Z.lt_ge_cases (Z.of_nat i) (num_bridges c)).
  { destruct (group_of c Hc (Z.of_nat i - num_nv_switch_tlp_dsp c) ltac:(lia)) as (g & Hg & Hk). destruct (Hs g _ Hg Hk) as [Hx _].
    unfold dsp_idx in Hx. replace (Z.to_nat _) with i in Hx by lia. rewrite E in Hx. injection Hx as ->.
    apply (Hdev true false false); try done; [apply Z.ltb_lt|apply andb_false_iff; left; apply Z.leb_gt|apply Z.eqb_neq|by left]; lia. }
  destruct (Z.lt_ge_cases (Z.of_nat i) (num_bridges c + num_ep c)).
  { destruct (group_of c Hc (Z.of_nat i - num_bridges c) ltac:(lia)) as (g & Hg & Hk). destruct (Hs g _ Hg Hk) as [_ Hx].
    unfold ep_idx in Hx. replace (Z.to_nat _) with i in Hx by lia. rewrite E in Hx. injection Hx as ->.
    apply (Hdev false true false); try done; [apply Z.ltb_ge|apply andb_true_iff; split; [apply Z.leb_le|apply Z.ltb_lt]|apply Z.eqb_neq|by right]; lia. }
  assert (i = Z.to_nat (num_bridges c + num_ep c)) as -> by lia. rewrite E in Hdum. injection Hdum as ->.
  apply (Hdev false false true); try done; [apply Z.ltb_ge|apply andb_false_iff; right; apply Z.ltb_ge|apply Z.eqb_eq|by right]; lia.
Qed.

(** The machine after [init_device_topology], with the queue set up. *)
Lemma setup_base a types eps nv c0 c1 : 0 <= eps <= MAX_NUM_EP -> 0 <= nv < 256 ->
  init_tlp_context (sa_devs_ok a) (sa_entries_ok a) zero_ctx types eps nv = (DOCA_SUCCESS, c0) ->
  init_acg_queue (sa_max_acg a) (sa_queue_ok a) (limit_types (sa_max_types a) c0) = (DOCA_SUCCESS, c1) -> 0 <= (sa_max_acg a).2 < 65536 ->
  exists c, init_device_topology c1 = Done c /\ bridge_ok c empty_world /\ (forall port, routed_ok port c) /\
    num_nv_switch_tlp_dsp c = nv /\ num_ep c = eps.
Proof.
  intros He Hn E0 E1 Hs. assert (init_tlp_context true true zero_ctx types eps nv = (DOCA_SUCCESS, c0)) as E0'.
  { unfold init_tlp_context in *. destruct (nv =? 0), (sa_devs_ok a), (sa_entries_ok a); done. }
  destruct (init_tlp_context_wf _ _ _ _ He Hn E0') as (Hc0 & N1 & N2 & N3 & _ & M1 & M2 & _).
  unfold init_acg_queue in E1. destruct (sa_max_acg a) as [r size]. cbn in Hs. destruct (is_success r) eqn:Er; cbn [negb] in E1; [|injection E1 as -> _; done].
  destruct (sa_queue_ok a); [|done]. injection E1 as <-.
  match goal with |- context [init_device_topology ?x] => set (c1 := x) end.
  assert (topo_wf c1) as Hc1 by (by destruct Hc0). destruct (init_device_topology_spec c1 Hc1) as (l & -> & Hl & Hu & Hd & Hdum).
  eexists. split; [done|]. set (c := {| c1 with devs_config := l |}). assert (topo_wf c) as Hc by (by destruct Hc1).
  pose proof (topology_devs c l Hc Hl Hu Hd Hdum) as Hdev.
  assert (map_wf c []) as Hm by (eapply init_map_wf; [done|exact M2]).
  split; [|split; [|done]].
  - split.
    + split; try done.
      * change (length (bdf_entries c0) = length l). rewrite M2, length_replicate. change (num_devices c0) with (num_devices c1). rewrite <- Hl. lia.
      * by exists [].
      * intros i d E. by destruct (Hdev i d E).
      * cbn. rewrite omap_none; [done|]. intros i d E. by destruct (Hdev i d E) as (_ & ? & _).
      * constructor.
      * cbn. rewrite omap_none; [done|]. intros i d E. by destruct (Hdev i d E) as (_ & _ & ? & _).
      * constructor.
      * unfold regions_ok. change (transaction_region_memories c) with (transaction_region_memories c0).
        unfold init_tlp_context in E0'. destruct (nv =? 0); [done|]. injection E0' as <-. done.
    + split; [|done]. unfold acg_wf. cbn. rewrite length_replicate. repeat split; try lia. destruct (decide (size = 0)); [by left|right].
      split; [lia|]. by rewrite Z.mod_0_l.
  - intros port. split.
    + intros d k k' _ _ Hne. exfalso. apply Hne. unfold sec_bus. cbn [c devs_config]. destruct (l !! dsp_idx c k) as [x|] eqn:E; [|done].
      by destruct (Hdev _ _ E) as (_ & _ & _ & ?).
    + exists []. split; [done|]. intros i Hi. by apply not_elem_of_nil in Hi.
Qed.

(** What set-up relies on: a capacity of 16 bits, a handle of its own for every endpoint, clean-up calls that succeed,
    and a base address register of less than 2 GB. *)
Record setup_ok (a : setup_answers) : Prop := {
  so_size : 0 <= (sa_max_acg a).2 < 65536;
  so_reps : forall i j, (an_create_rep (sa_create a i)).2 = (an_create_rep (sa_create a j)).2 -> i = j;
  so_devs : forall i j, (an_tlp_create (sa_create a i)).2 = (an_tlp_create (sa_create a j)).2 -> i = j;
  so_undo : forall i, an_undo_dev (sa_create a i) = DOCA_SUCCESS /\ an_undo_rep (sa_create a i) = DOCA_SUCCESS;
  so_layout : forall i, 0 <= (an_bar (sa_create a i)).2 < 31 /\ in_width 64 (an_transaction (sa_create a i)).2;
}.

(** Set-up takes the link of a bridge up and its power on. *)
Lemma static_slot_ok c w i d : bridge_ok c w -> devs_config c !! i = Some d -> let x := dc_express d in
  let c' := put_dev c i {| d with dc_express := {| x with xp_slot_control := Z.ldiff (xp_slot_control x) SLOT_CTRL_POWER_CONTROLLER;
                       xp_slot_status := Z.lor (xp_slot_status x) SLOT_STS_PRESENCE_DETECT_STATE;
                       xp_link_status := Z.lor (xp_link_status x) LINK_STS_DL_ACTIVE |} |} in
  bridge_ok c' w /\ ctx_static c' = ctx_static c.
Proof.
  intros Hok E. destruct (slot_widths c w i d Hok E) as (W1 & W2 & W3). apply (slot_put_ok c w i d); [done|done|by apply ldiff_width|by apply lor_width|by apply lor_width|].
  intros _ _ _. cbn. change SLOT_CTRL_POWER_CONTROLLER with (2 ^ 10). by apply ldiff_pow2_0.
Qed.

(** The endpoints [i] and on are absent. *)
Definition absent_from (c : tlp_context) (i : Z) : Prop :=
  forall k d, i <= k < num_ep c -> devs_config c !! ep_of c k = Some d -> dc_device_present d = false.

Lemma create_devices_spec a n c w i : setup_ok a -> bridge_ok c w -> 0 <= i -> i + Z.of_nat n = num_ep c -> absent_from c i ->
  (forall h, h ∈ w_reps w -> exists j, j < i /\ h = (an_create_rep (sa_create a j)).2) ->
  (forall h, h ∈ w_devs w -> exists j, j < i /\ h = (an_tlp_create (sa_create a j)).2) ->
  exists e c' w', create_devices n (sa_create a) c w i = Done (e, c', w') /\ bridge_ok c' w' /\ ctx_static c' = ctx_static c /\
    num_dev_types c' = num_dev_types c.
Proof.
  intros Hso. revert c w i. induction n as [|n IH]; intros c w i Hok Hi Hn Habs Hreps Hdevs; cbn [create_devices]; [by eexists _, c, w|].
  destruct (slot_indices c w i (proj1 Hok) ltac:(lia)) as (-> & -> & Hne & dsp & ep & Ed & Ee & Hend).
  assert (create_ok w (sa_create a i)) as Hco.
  { destruct (so_undo a Hso i), (so_layout a Hso i). split; try done; intros Hin.
    - destruct (Hreps _ Hin) as (j & Hj & E). apply (so_reps a Hso) in E. lia.
    - destruct (Hdevs _ Hin) as (j & Hj & E). apply (so_devs a Hso) in E. lia. }
  pose proof (Habs i ep ltac:(lia) Ee) as Hpr.
  pose proof (devs_ok_handles c w _ ep (proj1 Hok) Ee) as Hh. pose proof (do_ep _ _ _ (dk_dev c w (proj1 Hok) _ _ Ee)) as Hep.
  destruct (create_device_spec _ c w _ ep _ _ Ee Hep Hpr Hh Hco) as (e & t & ep' & w1 & -> & Hcore & Hep' & Hh' & Hcr & Hp & _ & Hr1 & Hd1).
  destruct (with_ep_ok _ c w w1 i ep ep' t Hok ltac:(lia) Ee Hend Hcore Hep' Hcr Hh') as [Hok1 Hst1]. cbn [mbind res_bind].
  destruct (is_success e); cbn [negb]; [|eexists e, _, w1; done].
  unfold dev_at. cbn [devs_config]. rewrite list_lookup_insert_ne, Ed by done. cbn [mbind res_bind].
  match goal with |- context [put_dev ?c1 (dsp_of c i) ?d1] => destruct (static_slot_ok c1 w1 (dsp_of c i) dsp) as [Hok2 Hst2];
    [done|cbn; by rewrite list_lookup_insert_ne|]; set (d2 := d1) in * end.
  match goal with |- context [put_dev ?c1 (dsp_of c i) _] => destruct (IH (put_dev c1 (dsp_of c i) d2) w1 (i + 1)) as (e' & c' & w' & E' & Hok' & Hst' & Ht') end;
    [done|lia|cbn; lia| | | |].
  - intros k d Hk. cbn in Hk. pose proof (tw_bridges c (dk_topo c w (proj1 Hok))) as Hbr. pose proof (tw_nv c (dk_topo c w (proj1 Hok))).
    unfold ep_of, dsp_of, FIRST_PF_IDX, FIRST_DSP_IDX. cbn. rewrite !list_lookup_insert_ne by (unfold ep_of, FIRST_PF_IDX in *; lia).
    intros Ek. apply (Habs k d); [lia|done].
  - intros h Hin. destruct (Hr1 h Hin) as [->|Hin']; [exists i; split; [lia|done]|]. destruct (Hreps h Hin') as (j & ? & ?). exists j. split; [lia|done].
  - intros h Hin. destruct (Hd1 h Hin) as [->|Hin']; [exists i; split; [lia|done]|]. destruct (Hdevs h Hin') as (j & ? & ?). exists j. split; [lia|done].
  - eexists e', c', w'. split; [exact E'|]. split; [done|]. split; [|exact Ht']. rewrite Hst'. exact (eq_trans Hst2 Hst1).
Qed.

(** The memories of the endpoints. *)
Lemma regions_put_ok c w m sz : bridge_ok c w -> regions_ok {| c with transaction_region_memories := m; transaction_region_size := sz |} ->
  bridge_ok {| c with transaction_region_memories := m; transaction_region_size := sz |} w.
Proof.
  intros [Hd Hcr] Hr. split; [|done]. destruct Hd as [H1 H2 H3 [log H4] H5 H6 H7 H8 H9 _]. split; try done.
  - by destruct H1.
  - exists log. destruct H4 as [M1 M2 M3 M4 M5]. split; [exact M1|exact M2|exact M3|exact M4|exact M5].
  - intros i d Ei. by eapply dev_ok_num, H5.
Qed.
Lemma regions_init calloc_ok malloc_ok c w size e c' : bridge_ok c w -> size = TRANSACTION_REGION_SIZE ->
  init_transaction_region calloc_ok malloc_ok c size = (e, c') ->
  bridge_ok c' w /\ ctx_static c' = ctx_static c /\ num_dev_types c' = num_dev_types c.
Proof.
  intros Hok Hsz. pose proof (tw_ep c (dk_topo c w (proj1 Hok))) as Hep. unfold init_transaction_region. destruct (num_ep c =? 0); [by intros [= _ <-]|].
  destruct calloc_ok; cbn [negb]; [|intros [= _ <-]; split; [by apply regions_put_ok|done]].
  destruct (forallb malloc_ok (idx (num_ep c))); intros [= _ <-]; (split; [|done]); apply regions_put_ok; try done.
  unfold regions_ok. cbn [transaction_region_memories transaction_region_size num_ep]. rewrite length_replicate. split; [lia|]. split; [done|]. intros k m Em. apply lookup_replicate in Em as [-> _].
  eexists. split; [done|]. split; [rewrite length_replicate, Hsz; done|]. by apply Forall_replicate.
Qed.

(** Set-up returns; with an error before the topology exists nothing is held, and otherwise the invariants hold. *)
Lemma setup_spec a types eps nv hotplug_mode : 0 <= eps <= MAX_NUM_EP -> 0 <= nv < 256 -> setup_ok a ->
  exists e c w, bridge_setup a types eps nv hotplug_mode = Done (e, c, w) /\
    (is_success e = false /\ w = empty_world \/
     bridge_ok c w /\ (forall port, routed_ok port c) /\ num_nv_switch_tlp_dsp c = nv /\ num_ep c = eps).
Proof.
  intros He Hn Hso. unfold bridge_setup.
  destruct (init_tlp_context _ _ _ types eps nv) as [r0 c0] eqn:E0. destruct (is_success r0) eqn:Er0; cbn [negb]; [|eexists _, _, _; split; [done|by left]].
  apply is_success_true in Er0 as ->.
  destruct (_ <? MIN_TLP_PCI_TYPE_NUM); [eexists _, _, _; split; [done|by left]|].
  destruct (is_success (sa_types a)) eqn:Et; cbn [negb]; [|eexists _, _, _; split; [done|by left]].
  destruct (init_acg_queue _ _ _) as [r1 c1] eqn:E1. destruct (is_success r1) eqn:Er1; cbn [negb]; [|eexists _, _, _; split; [done|by left]].
  apply is_success_true in Er1 as ->.
  destruct (setup_base a types eps nv c0 c1 He Hn E0 E1 (so_size a Hso)) as (c & -> & Hok & Hro & N1 & N2). cbn [mbind res_bind].
  assert (exists e c' w', (if hotplug_mode then Done (DOCA_SUCCESS, c, empty_world) else create_all_devices (sa_create a) c empty_world) = Done (e, c', w') /\
    bridge_ok c' w' /\ (forall port, routed_ok port c') /\ num_nv_switch_tlp_dsp c' = nv /\ num_ep c' = eps)
    as (e & c' & w' & -> & Hok' & Hro' & N1' & N2').
  { destruct hotplug_mode; [by eexists _, c, _|]. unfold create_all_devices.
    destruct (create_devices_spec a (Z.to_nat (num_ep c)) c empty_world 0 Hso Hok) as (e & c' & w' & -> & Hok' & Hst & Ht).
    - done.
    - lia.
    - intros k d Hk Ek. pose proof (dk_reps _ _ (proj1 Hok)) as Hr. cbn in Hr. symmetry in Hr. apply Permutation_nil_r in Hr.
      pose proof (do_ep _ _ _ (dk_dev _ _ (proj1 Hok) _ _ Ek)) as Hep. unfold ep_ok in Hep.
      destruct (dc_device_present d); [|done]. exfalso. destruct (dc_rep d) as [h|] eqn:Erep; [|done].
      assert (h ∈ omap dc_rep (devs_config c)) as Hin by (apply list_elem_of_omap; exists d; split; [by eapply list_elem_of_lookup_2|done]).
      rewrite Hr in Hin. by apply not_elem_of_nil in Hin.
    - intros h Hin. by apply not_elem_of_nil in Hin.
    - intros h Hin. by apply not_elem_of_nil in Hin.
    - eexists e, c', w'. split; [done|]. split; [done|]. split; [intros port; by apply (routed_static port c)|].
      pose proof (topo_nums_static c c' Hst) as Hnum. unfold topo_nums in Hnum. split_and!; congruence. }
  cbn [mbind res_bind]. destruct (is_success e); cbn [negb]; [|eexists e, c', w'; split; [done|by right]].
  destruct (init_transaction_region _ _ c' _) as [r2 c2] eqn:E2. eexists _, c2, w'. split; [done|]. right.
  destruct (regions_init _ _ c' w' _ r2 c2 Hok' eq_refl E2) as (Hok2 & Hst2 & Ht2). split; [done|]. split; [intros port; by apply (routed_static port c')|].
  pose proof (topo_nums_static c' c2 Hst2) as Hnum. unfold topo_nums in Hnum. split_and!; congruence.
Qed.

(** ** Clean-up *)

Definition destroys_ok (a : Z -> destroy_answers) : Prop := forall i,
  an_stop (a i) = DOCA_SUCCESS /\ an_destroy_dev (a i) = DOCA_SUCCESS /\ an_destroy_rep (a i) = DOCA_SUCCESS.
(** The endpoints before [i] are absent. *)
Definition absent_below (c : tlp_context) (i : Z) : Prop :=
  forall k d, 0 <= k < i -> devs_config c !! ep_of c k = Some d -> dc_device_present d = false.

Lemma cleanup_devices_spec a n c w i : bridge_ok c w -> 0 <= i -> i + Z.of_nat n = num_ep c ->
  exists c' w', cleanup_devices n a c w i = Done (c', w') /\ bridge_ok c' w' /\ ctx_static c' = ctx_static c /\
    (destroys_ok a -> absent_below c i -> absent_below c' (num_ep c)).
Proof.
  revert c w i. induction n as [|n IH]; intros c w i Hok Hi Hn; cbn [cleanup_devices].
  { exists c, w. split; [done|]. split; [done|]. split; [done|]. intros _ H. by replace (num_ep c) with i by lia. }
  destruct (slot_indices c w i (proj1 Hok) ltac:(lia)) as (_ & -> & _ & dsp & ep & _ & Ee & Hend).
  unfold dev_at at 1. rewrite Ee. cbn [mbind res_bind].
  pose proof (do_ep _ _ _ (dk_dev c w (proj1 Hok) _ _ Ee)) as Hep. pose proof Hep as Hep0. unfold ep_ok in Hep0.
  destruct (dc_device_present ep) eqn:Hpr; cbn [orb].
  - pose proof (devs_ok_handles c w _ ep (proj1 Hok) Ee) as Hh.
    destruct (destroy_device_spec (a i) c w _ ep _ _ Ee Hep Hpr Hh) as (e & ep' & w1 & -> & Hcore & Hep' & Hh' & Hcr & Hp & Hsucc). cbn [mbind res_bind].
    destruct (with_ep_ok _ c w w1 i ep ep' (dev_type_idx c) Hok ltac:(lia) Ee Hend Hcore Hep' Hcr Hh') as [Hok1 Hst1].
    destruct (IH (with_ep c i ep' (dev_type_idx c)) w1 (i + 1) Hok1 ltac:(lia)) as (c' & w' & E & Hok' & Hst' & Hab); [cbn; lia|].
    exists c', w'. split; [exact E|]. split; [done|]. split; [congruence|]. intros Hans Hbelow. apply Hab; [done|].
    intros k d Hk. unfold ep_of, FIRST_PF_IDX. cbn. destruct (decide (k = i)) as [->|Hne].
    + change (Z.to_nat (num_bridges c + i)) with (ep_of c i). rewrite list_lookup_insert_eq by (by eapply lookup_lt_Some). intros [= <-].
      destruct (Hans i) as (A1 & A2 & A3). rewrite Hp, Hsucc by done. done.
    + pose proof (tw_bridges c (dk_topo c w (proj1 Hok))). pose proof (tw_nv c (dk_topo c w (proj1 Hok))). pose proof (tw_ep c (dk_topo c w (proj1 Hok))).
      rewrite list_lookup_insert_ne by (unfold ep_of, FIRST_PF_IDX; lia). intros Ek. apply (Hbelow k d); [lia|done].
  - destruct Hep0 as [-> ->]. rewrite !bool_decide_false by (intros H; by apply H). cbn [orb mbind res_bind].
    destruct (IH c w (i + 1) Hok ltac:(lia) ltac:(lia)) as (c' & w' & E & Hok' & Hst' & Hab). exists c', w'. split; [exact E|]. split; [done|]. split; [done|].
    intros Hans Hbelow. apply Hab; [done|]. intros k d Hk Ek. destruct (decide (k = i)) as [->|Hne]; [congruence|]. apply (Hbelow k d); [lia|done].
Qed.

(** With every endpoint absent no handle is left. *)
Lemma absent_released c w : devs_ok c w -> absent_below c (num_ep c) -> w_reps w = [] /\ w_devs w = [].
Proof.
  intros Hd Hab. assert (forall i d, devs_config c !! i = Some d -> dc_rep d = None /\ dc_tlp_dev d = None) as Hnone.
  { intros i d E. destruct (dk_dev c w Hd i d E) as [(_ & He & _) Hep Habs _]. unfold ep_ok in Hep.
    assert (dc_device_present d = false) as Hpr; [|by rewrite Hpr in Hep].
    destruct (dc_is_endpoint d) eqn:Eend; [|by apply Habs]. symmetry in He. apply andb_true_iff in He as [H1 H2].
    apply Z.leb_le in H1. apply Z.ltb_lt in H2. apply (Hab (Z.of_nat i - num_bridges c) d); [lia|].
    unfold ep_of, FIRST_PF_IDX. by replace (Z.to_nat _) with i by lia. }
  pose proof (dk_reps c w Hd) as Hr. pose proof (dk_devs c w Hd) as Hv.
  rewrite omap_none in Hr by (intros i d E; apply (Hnone i d E)). rewrite omap_none in Hv by (intros i d E; apply (Hnone i d E)).
  by apply Permutation_nil_r in Hr, Hv.
Qed.

Lemma complete_all l w : let w' := foldl (fun w r => complete_acg w r 0 ACG_COMP_OPMODE_FLUSH []) w l in
  w_reps w' = w_reps w /\ w_devs w' = w_devs w /\ w_granted w' = w_granted w /\ ac_req <$> w_completed w' ≡ₚ l ++ (ac_req <$> w_completed w).
Proof.
  revert w. induction l as [|r l IH]; intros w; [done|]. cbn [foldl]. destruct (IH (complete_acg w r 0 ACG_COMP_OPMODE_FLUSH [])) as (-> & -> & -> & Hc).
  split; [done|]. split; [done|]. split; [done|]. rewrite Hc. cbn. by rewrite Permutation_middle.
Qed.

Lemma cleanup_acg_spec c w : bridge_ok c w -> exists c' w', cleanup_acg c w = Done (c', w') /\ bridge_ok c' w' /\ acg_queue c' = None /\
  w_reps w' = w_reps w /\ w_devs w' = w_devs w.
Proof.
  intros [Hd [Hwf Hcr]]. unfold cleanup_acg. destruct (acg_queue c) as [q|] eqn:Eq; [|by exists c, w].
  pose proof (length_acg_list c Hwf) as Hl.
  destruct (flush_spec c (S (Z.to_nat (acg_queue_count c))) Hwf) as (c' & -> & Hwf' & Hr & _ & Hl'); [lia|]. cbn [mbind res_bind].
  destruct (complete_all (acg_list c) w) as (E1 & E2 & E3 & E4). eexists _, _. split; [done|]. split; [|done].
  pose proof (length_acg_list c' Hwf') as Hc'. rewrite Hl' in Hc'. split.
  - apply (devs_ok_same_handles _ w); [done|done|]. apply (devs_ok_rest c); [exact Hr|done].
  - split; [done|]. rewrite E3, E4. exact Hcr.
Qed.

(** What comes while the channel stops: requests, but no commands. *)
Definition drain_ok (c : tlp_context) (w : world) (ev : bridge_event) : Prop :=
  ev_ok c w ev /\ match ev with EvRequest _ _ _ => True | EvHotplug _ _ _ => False end.

(** How a request is answered while the channel stops: a credit is completed at once, unused, and everything else gets a reply; without the user data
    of the channel the callback does nothing. *)
Definition drain_answer (ev : bridge_event) (w w' : world) : Prop :=
  match ev with
  | EvRequest ud _ rq =>
    if is_success ud then
      match rq with
      | RqAcg req => exists cp, w_completed w' = cp :: w_completed w /\ ac_req cp = req /\ ac_opmode cp = ACG_COMP_OPMODE_FLUSH
      | _ => exists rp, w_replies w' = rp :: w_replies w
      end
    else w' = w
  | EvHotplug _ _ _ => False
  end.

(** A request is answered and changes no handle, and without a queue there is none afterwards. *)
Lemma drain_step ev c w c' w' : bridge_ok c w -> acg_queue c = None -> drain_ok c w ev -> bridge_step ev c w = Done (c', w') ->
  acg_queue c' = None /\ w_reps w' = w_reps w /\ w_devs w' = w_devs w /\ drain_answer ev w w'.
Proof.
  intros Hok Hq [Hev Hrq] Hst. destruct ev as [ud acg_buf rq|]; [|done]. cbn [drain_answer bridge_step] in *. destruct Hev as [Hb Hwf].
  destruct (is_success ud) eqn:Eud; [apply is_success_true in Eud as ->|unfold bridge_req_handler_cb in Hst; rewrite Eud in Hst; by injection Hst as <- <-].
  destruct rq as [req| |q].
  - cbn in Hst. unfold acg_granted, acg_queue_push in Hst. rewrite Hq in Hst. cbn in Hst. injection Hst as <- <-. do 3 (split; [done|]). by eexists.
  - injection Hst as <- <-. do 3 (split; [done|]). by eexists.
  - destruct Hwf as [Hwf Hfit].
    destruct (cb_replied acg_buf q c w Hok Hwf Hb Hfit) as (t & m & es & i & d & d1 & dm & c2 & w2 & _ & _ & _ & _ & E & Hok2 & _ & Hqu & Hlv & rp & Hrp & _).
    rewrite Hst in E. injection E as <- <-. split; [by rewrite Hqu|]. destruct Hlv as [-> ->]. do 2 (split; [done|]). by exists rp.
Qed.
Lemma drain_spec c w c' w' : bridge_ok c w -> acg_queue c = None -> reach drain_ok c w c' w' ->
  bridge_ok c' w' /\ acg_queue c' = None /\ w_reps w' = w_reps w /\ w_devs w' = w_devs w.
Proof.
  intros Hok Hq. induction 1 as [|c1 w1 ev c2 w2 _ (IH1 & IH2 & IH3 & IH4) Hev Hst]; [done|].
  destruct (step_ok ev c1 w1 IH1 (proj1 Hev)) as (c3 & w3 & E & Hok3 & _). rewrite Hst in E. injection E as <- <-.
  destruct (drain_step ev c1 w1 c2 w2 IH1 IH2 Hev Hst) as (Q & R & D & _). split; [done|]. split; [done|]. split; congruence.
Qed.

(** The bits of the slot after a command. *)
Lemma slot_status_bits dsp plug : let x := dc_express (update_dsp_slot_status dsp plug) in
  Z.testbit (xp_slot_status x) 0 = true /\
  (if plug then Z.testbit (xp_slot_status x) 3 = true /\ Z.testbit (xp_slot_status x) 6 = true else Z.testbit (xp_link_status x) 13 = false).
Proof.
  destruct plug; cbn -[Z.testbit]; rewrite ?Z.lor_spec, ?Z.ldiff_spec.
  - change (Z.testbit SLOT_STS_ATTN_BTN_PRESSED 0) with true. change (Z.testbit SLOT_STS_PRESENCE_DETECT_CHANGED 3) with true.
    change (Z.testbit SLOT_STS_PRESENCE_DETECT_STATE 6) with true. by rewrite !orb_true_r.
  - change (Z.testbit SLOT_STS_ATTN_BTN_PRESSED 0) with true. change (Z.testbit LINK_STS_DL_ACTIVE 13) with true.
    by rewrite orb_true_r, andb_false_r.
Qed.

(** ** Theorems *)

(** C4: the invariant of the bridge sample, for a library that keeps to [setup_ok] and [create_ok]: it gives new handles, the calls that undo a
    failed creation succeed, and the base address register is of less than 2 GB. Set-up then always returns, whichever other calls and allocations
    fail. After a set-up that succeeds, in hotplug or in static mode, every sequence of credits, commands and requests ([ev_ok]) runs without access
    outside an array, use of a destroyed handle or endless loop, if the buffers of the requests hold what their headers announce and memory
    requests end inside the region in which they start. In every state reached:
    each device is of the kind of its place, its registers and identifiers fit their widths, an absent endpoint has no handle and a
    present one has a representor; the handles that exist are exactly those the devices hold; every credit granted is in the queue or
    was completed, once; every endpoint has its memory of 4 KB, or none has; and a bridge's link is up only while its slot has power. *)
Theorem bridge_invariant a types eps nv hotplug_mode : 0 <= eps <= MAX_NUM_EP -> 0 <= nv < 256 -> setup_ok a ->
  exists e c0 w0, bridge_setup a types eps nv hotplug_mode = Done (e, c0, w0) /\
  (e = DOCA_SUCCESS -> forall c w, reach ev_ok c0 w0 c w -> bridge_ok c w /\
     forall ev, ev_ok c w ev -> exists c' w', bridge_step ev c w = Done (c', w') /\ bridge_ok c' w').
Proof.
  intros He Hn Hso. destruct (setup_spec a types eps nv hotplug_mode He Hn Hso) as (e & c0 & w0 & E & Hcase).
  exists e, c0, w0. split; [done|]. intros ->. destruct Hcase as [[? _]|(Hok & _)]; [done|]. intros c w Hr.
  destruct (reach_ok ev_ok c0 w0 c w ltac:(done) Hok Hr) as [Hok' _]. split; [done|].
  intros ev Hev. destruct (step_ok ev c w Hok' Hev) as (c' & w' & Es & Hs & _). eauto.
Qed.

(** C8: the table of devices is only a cache. After set-up, as long as the requests for a bus arrive at one port and the host gives
    every bridge its secondary bus once, with a number of its own in the switch, whatever endpoints are plugged or unplugged
    meanwhile, a configuration request gets the device that a search of the topology with the current bus numbers
    finds, or the dummy if it finds none; the lookup always returns. *)
Theorem find_device_coherent a types eps nv hotplug_mode port c0 w0 c w : 0 <= eps <= MAX_NUM_EP -> 0 <= nv < 256 -> setup_ok a ->
  bridge_setup a types eps nv hotplug_mode = Done (DOCA_SUCCESS, c0, w0) -> reach (routed port) c0 w0 c w ->
  forall bus device function ty, bdf_range bus device function ty -> 0 <= port ty bus < nv ->
  exists c' i r, find_device_by_bdf c (port ty bus) bus device function ty = Done (c', i) /\
    search_topology c (port ty bus) bus device function ty = Done r /\ i = default (Z.to_nat (DUMMY_DEV_IDX c)) r.
Proof.
  intros He Hn Hso E Hr. destruct (setup_spec a types eps nv hotplug_mode He Hn Hso) as (e & c1 & w1 & E' & Hcase). rewrite E in E'. injection E' as <- <- <-.
  destruct Hcase as [[? _]|(Hok & Hro & <- & _)]; [done|].
  assert (bridge_ok c w /\ routed_ok port c /\ topo_nums c = topo_nums c0) as (Hok' & [Hdist (log & Hm & Hco)] & Hnum).
  { clear E. induction Hr as [|c w ev c' w' Hr (IH1 & IH2 & IH3) Hev Hst]; [done|].
    destruct (step_ok ev c w IH1 (proj1 Hev)) as (c2 & w2 & E2 & Hok2 & Hn2). rewrite Hst in E2. injection E2 as <- <-.
    split; [done|]. split; [exact (routed_step port ev c w c' w' IH1 IH2 Hev Hst)|congruence]. }
  intros bus device function ty Hrg Hp. rewrite <- (nv_nums c0 c Hnum) in Hp.
  destruct (find_spec c w log (port ty bus) bus device function ty (proj1 Hok') Hm ltac:(lia) ltac:(destruct Hrg; lia)) as (c' & i & Ef & Hf & _).
  destruct (find_coherent port c w log bus device function ty c' i (proj1 Hok') Hdist Hco Hm Hrg Hp Hf) as (r & Es & Hi). eauto 10.
Qed.

(** C9: what a hotplug command does, in every state that meets the invariant, when the library gives new handles and can undo a failed creation
    ([create_ok]). It is refused, without any effect, if the slot does
    not exist, the host has not enabled hotplug interrupts, no credit is there for the interrupt, or the endpoint is already as
    asked; if the library fails the endpoint is as present as before, no credit is used and no register changes, except that a plug may have left the offsets
    of the MSI-X table and of the pending bits that the library gave; otherwise the endpoint
    changes, the slot shows it, and the result is that of the interrupt. On success the endpoint is present exactly after a plug, the
    attention button is pressed, a plug shows presence and a presence change and an unplug takes the link down, and the oldest
    credit has been completed with a memory write. *)
Theorem hotplug_result a c w k plug : bridge_ok c w -> 0 <= k -> create_ok w (ha_create a) -> buf_ok (ha_buf a) ->
  exists e c' w', trigger_hotplug_event a c w k plug = Done (e, c', w') /\ hotplug_outcome a c w k plug e c' w' /\
  (e = DOCA_SUCCESS -> exists ep dsp cp, devs_config c' !! ep_of c k = Some ep /\ dc_device_present ep = plug /\
     devs_config c' !! dsp_of c k = Some dsp /\ Z.testbit (xp_slot_status (dc_express dsp)) 0 = true /\
     (if plug then Z.testbit (xp_slot_status (dc_express dsp)) 3 = true /\ Z.testbit (xp_slot_status (dc_express dsp)) 6 = true
      else Z.testbit (xp_link_status (dc_express dsp)) 13 = false) /\
     acg_list c = ac_req cp :: acg_list c' /\ ac_opmode cp = ACG_COMP_OPMODE_MMIO_WRITE /\ w_completed w' = cp :: w_completed w).
Proof.
  intros Hok Hk Hco Hb. destruct (hotplug_spec a c w k plug Hok Hk Hco Hb) as (e & c' & w' & E & _ & _ & Ho). exists e, c', w'. split; [done|]. split; [done|].
  intros ->. inversion Ho as [|dsp ep e Hlt Ed Ee Href|dsp ep ep' t e w1 Hlt Ed Ee Href Hf|dsp ep ep' t w1 e c1 w2 Hlt Ed Ee Href Hcore Hmx Hpr (Hg & Hc & _) Hmsi]; subst.
  - exfalso. unfold hotplug_refusal in Href. repeat case_match; congruence.
  - done.
  - pose proof (tw_dsp c (dk_topo c w (proj1 Hok))). destruct (slot_indices c w k (proj1 Hok) ltac:(lia)) as (_ & _ & Hne & _).
    inversion Hmsi as [| | |c2 r buf b size Hbuf Hl Hrest Hen Haddr Hset]; subst.
    assert (devs_config c' = <[dsp_of c k := update_dsp_slot_status dsp (dc_device_present ep')]> (<[ep_of c k := ep']> (devs_config c))) as Hdv
      by (unfold ctx_rest in Hrest; cbn in Hrest; congruence).
    exists ep', (update_dsp_slot_status dsp (dc_device_present ep')), {| ac_req := r; ac_size := size; ac_opmode := ACG_COMP_OPMODE_MMIO_WRITE; ac_buf := b |}.
    split; [rewrite Hdv, list_lookup_insert_ne by done; apply list_lookup_insert_eq; by eapply lookup_lt_Some|]. split; [done|].
    split; [rewrite Hdv; apply list_lookup_insert_eq; rewrite length_insert; by eapply lookup_lt_Some|].
    split; [|split; [|split; [exact Hl|split; [done|cbn; by rewrite Hc]]]].
    + apply slot_status_bits.
    + apply slot_status_bits.
Qed.

(** C21: clean-up gives everything back. In every state that meets the invariant, clean-up of the endpoints and of the queue returns, without using a
    destroyed handle. The requests that still come while the channel stops, credits among them, keep the invariant, if their buffers
    hold what they announce and memory requests end inside their region, and are answered: a credit is completed at once, unused, and every other
    request gets a reply (nothing happens when the user data of the channel cannot be read). At the end
    every credit that was ever granted has been completed exactly once, and if the library destroys what it is asked to no handle is left. *)
Theorem cleanup_releases a c w : bridge_ok c w ->
  exists c1 w1 c2 w2, cleanup_devices (Z.to_nat (num_ep c)) a c w 0 = Done (c1, w1) /\ cleanup_acg c1 w1 = Done (c2, w2) /\
    forall c3 w3, reach drain_ok c2 w2 c3 w3 -> bridge_ok c3 w3 /\
      (forall ev, drain_ok c3 w3 ev -> exists c' w', bridge_step ev c3 w3 = Done (c', w') /\ bridge_ok c' w' /\ drain_answer ev w3 w') /\
      w_granted w3 ≡ₚ ac_req <$> w_completed w3 /\ (destroys_ok a -> w_reps w3 = [] /\ w_devs w3 = []).
Proof.
  intros Hok. pose proof (tw_ep c (dk_topo c w (proj1 Hok))).
  destruct (cleanup_devices_spec a (Z.to_nat (num_ep c)) c w 0 Hok ltac:(lia) ltac:(lia)) as (c1 & w1 & E1 & Hok1 & Hst & Hab).
  destruct (cleanup_acg_spec c1 w1 Hok1) as (c2 & w2 & E2 & Hok2 & Hq & Hr & Hd). exists c1, w1, c2, w2.
  split; [done|]. split; [done|]. intros c3 w3 Hreach. destruct (drain_spec c2 w2 c3 w3 Hok2 Hq Hreach) as (Hok3 & Hq3 & Hr3 & Hd3). split; [done|]. split; [|split].
  - intros ev Hev. destruct (step_ok ev c3 w3 Hok3 (proj1 Hev)) as (c' & w' & E & Hok' & _). exists c', w'. split; [done|]. split; [done|].
    by apply (drain_step ev c3 w3 c' w').
  - destruct Hok3 as [_ [_ Hcr]]. rewrite Hcr. unfold acg_list. by rewrite Hq3.
  - intros Hans. rewrite Hr3, Hd3, Hr, Hd. apply (absent_released c1 w1 (proj1 Hok1)).
    assert (num_ep c1 = num_ep c) as -> by (unfold ctx_static in Hst; congruence). apply Hab; [done|]. intros k d Hk. lia.
Qed.
End Runs.

(** ** Runs on concrete answers *)

Definition demo_create (i : Z) : create_answers :=
  {| an_name := DOCA_SUCCESS; an_bar := (DOCA_SUCCESS, 2, 14); an_transaction := (DOCA_SUCCESS, 1, 0x3000);
     an_msix := (DOCA_SUCCESS, 1, 0x1000); an_pba := (DOCA_SUCCESS, 1, 0x2000); an_create_rep := (DOCA_SUCCESS, 100 + i);
     an_vhca := (DOCA_SUCCESS, i); an_tlp_create := (DOCA_SUCCESS, 200 + i); an_tlp_start := DOCA_SUCCESS;
     an_undo_dev := DOCA_SUCCESS; an_undo_rep := DOCA_SUCCESS |}.
Definition demo_destroy : destroy_answers := {| an_stop := DOCA_SUCCESS; an_destroy_dev := DOCA_SUCCESS; an_destroy_rep := DOCA_SUCCESS |}.
Definition demo_buf : option (list Z) := Some (replicate 5 0).
Definition demo_hotplug : hotplug_answers := {| ha_create := demo_create 0; ha_destroy := demo_destroy; ha_buf := demo_buf |}.
Definition demo_setup : setup_answers :=
  {| sa_devs_ok := true; sa_entries_ok := true; sa_max_types := 8; sa_types := DOCA_SUCCESS; sa_max_acg := (DOCA_SUCCESS, 4); sa_queue_ok := true; sa_create := demo_create;
     sa_regions_ok := true; sa_region_ok := fun _ => true |}.

Lemma demo_setup_ok : setup_ok demo_setup.
Proof. split; [cbn; lia|cbn; lia|cbn; lia|done|intros i; split; [cbn; lia|by vm_compute]]. Qed.

(** Requests from requester 0x0100 with tag 7: a configuration request of type 0 or 1, and a memory request with a 32-bit address. *)
Definition cfg_request (fmt type bus device reg be : Z) (data : option (list Z)) : bridge_req :=
  {| bq_header := htobe32 <$> [fmt * 2 ^ 29 + type * 2 ^ 24 + 1; 0x01000700 + be; bus * 2 ^ 24 + device * 2 ^ 19 + reg * 4];
     bq_data := data; bq_dsp_id := 0 |}.
Definition cfg_read_req (type bus device reg : Z) : bridge_req := cfg_request TLP_FMT_3DW_NODATA type bus device reg 0xF None.
Definition cfg_write_req (type bus device reg be data : Z) : bridge_req := cfg_request TLP_FMT_3DW_W_DATA type bus device reg be (Some [data]).
Definition mem_request (fmt address len : Z) (data : option (list Z)) : bridge_req :=
  {| bq_header := htobe32 <$> [fmt * 2 ^ 29 + len; 0x010007FF; address]; bq_data := data; bq_dsp_id := 0 |}.

(** Deciding that a request is well formed. *)
Definition breq_check (q : bridge_req) : bool :=
  let in32 x := (0 <=? x) && (x <? 2 ^ 32) in
  forallb in32 (bq_header q) && (3 <=? Z.of_nat (length (bq_header q))) && (0 <=? bq_dsp_id q) && (bq_dsp_id q <? 256) &&
  match GET_TLP_REQ_FMT (bq_header q), GET_TLP_REQ_LENGTH (bq_header q) with
  | Done fmt, Done len =>
    (negb ((fmt =? TLP_FMT_4DW_NODATA) || (fmt =? TLP_FMT_4DW_W_DATA)) || (4 <=? Z.of_nat (length (bq_header q)))) &&
    match bq_data q with Some l => forallb in32 l && (1 <=? Z.of_nat (length l)) && (mem_num_dwords len <=? Z.of_nat (length l)) | None => true end
  | _, _ => false
  end.
Lemma breq_check_ok q : breq_check q = true -> breq_wf q.
Proof.
  unfold breq_check. rewrite !andb_true_iff, forallb_forall. intros ((((H1 & H2) & H3) & H4) & H5).
  destruct (GET_TLP_REQ_FMT (bq_header q)) as [fmt|] eqn:Ef; [|done]. destruct (GET_TLP_REQ_LENGTH (bq_header q)) as [len|] eqn:El; [|done].
  apply andb_true_iff in H5 as [H5 H6]. split; [|lia| | |lia].
  - apply List.Forall_forall. intros x Hx. specialize (H1 x Hx). unfold in_width. lia.
  - rewrite Ef. intros f [= <-] Hf. apply orb_true_iff in H5 as [H5|H5]; [|lia]. exfalso. apply negb_true_iff, orb_false_iff in H5 as [E1 E2].
    apply Z.eqb_neq in E1, E2. tauto.
  - intros l E. rewrite E in H6. rewrite !andb_true_iff, forallb_forall in H6. destruct H6 as [[H6 H7] H8]. split.
    + apply List.Forall_forall. intros x Hx. specialize (H6 x Hx). unfold in_width. lia.
    + rewrite El. intros n [= <-]. split; [lia|]. intros _. lia.
Qed.

(** A sequence of events. *)
Fixpoint bridge_run (evs : list bridge_event) (c : tlp_context) (w : world) : res (tlp_context * world) :=
  match evs with
  | [] => Done (c, w)
  | ev :: evs => '(c, w) ← bridge_step ev c w; bridge_run evs c w
  end.

(** The state after set-up with [eps] endpoints and [nv] ports, and after the events that follow. *)
Definition demo_state (eps nv : Z) (hotplug_mode : bool) (evs : list bridge_event) : res (tlp_context * world) :=
  '(_, c, w) ← bridge_setup demo_setup 1 eps nv hotplug_mode; bridge_run evs c w.
Definition state_of (r : res (tlp_context * world)) : tlp_context * world := match r with Done s => s | Crash _ => (zero_ctx, empty_world) end.

Definition Credit (req : Z) : bridge_event := EvRequest DOCA_SUCCESS demo_buf (RqAcg req).
Definition Request (q : bridge_req) : bridge_event := EvRequest DOCA_SUCCESS demo_buf (RqTlp q).
Lemma demo_buf_ok : buf_ok demo_buf.
Proof. cbn. lia. Qed.

Lemma bridge_invariant_witness : exists c0 w0, bridge_setup demo_setup 1 2 1 false = Done (DOCA_SUCCESS, c0, w0) /\
  exists c w, bridge_step (Credit 7) c0 w0 = Done (c, w) /\ bridge_ok c w.
Proof.
  destruct (bridge_invariant demo_setup 1 2 1 false) as (e & c0 & w0 & E & H); [unfold MAX_NUM_EP; lia|lia|exact demo_setup_ok|].
  assert (e = DOCA_SUCCESS) as ->.
  { assert (match bridge_setup demo_setup 1 2 1 false with Done (e, _, _) => is_success e | Crash _ => false end = true) as Hs by (vm_compute; reflexivity).
    rewrite E in Hs. by apply is_success_true. }
  exists c0, w0. split; [exact E|]. exact (proj2 (H eq_refl c0 w0 (ReachStart ev_ok c0 w0)) (Credit 7) (conj demo_buf_ok I)).
Defined.

(** The host programs the secondary bus of the upstream port of port 0, and writes to a register of the first bridge behind it. *)
Definition program_usp (bus : Z) : bridge_event := Request (cfg_write_req 4 0 0 6 0x2 (bus * 256)).
Definition slot_event (reg be data : Z) : bridge_event := Request (cfg_write_req 5 2 0 reg be data).

(** A host that has enabled hotplug and its interrupt for the only slot, with a credit in the queue. *)
Definition enable_hotplug : list bridge_event :=
  [Credit 7; program_usp 2; slot_event 30 0x3 0x20; slot_event 20 0xC 0x00010000; slot_event 21 0xF 0xFEE00000].

(** The states of this run. *)
Definition demo_at (eps nv : Z) (hotplug_mode : bool) (evs : list bridge_event) : tlp_context * world :=
  state_of (demo_state eps nv hotplug_mode evs).

Lemma bridge_run_snoc evs ev c w : bridge_run (evs ++ [ev]) c w = ('(c, w) ← bridge_run evs c w; bridge_step ev c w).
Proof.
  revert c w. induction evs as [|x evs IH]; intros c w; cbn.
  - destruct (bridge_step ev c w) as [[c' w']|]; done.
  - destruct (bridge_step x c w) as [[c' w']|]; cbn; [apply IH|done].
Qed.

Lemma demo_snoc eps nv hotplug_mode evs ev : let s := demo_at eps nv hotplug_mode evs in let s' := demo_at eps nv hotplug_mode (evs ++ [ev]) in
  bridge_ok s.1 s.2 -> is_done (demo_state eps nv hotplug_mode evs) = true -> ev_ok s.1 s.2 ev ->
  bridge_ok s'.1 s'.2 /\ is_done (demo_state eps nv hotplug_mode (evs ++ [ev])) = true.
Proof.
  cbv zeta. unfold demo_at, demo_state. destruct (bridge_setup demo_setup 1 eps nv hotplug_mode) as [[[e c0] w0]|]; cbn; [|done].
  rewrite bridge_run_snoc. destruct (bridge_run evs c0 w0) as [[c w]|]; cbn; [|done]. intros Hok _ Hev.
  by destruct (step_ok ev c w Hok Hev) as (c' & w' & -> & Hok' & _).
Qed.

Lemma demo_start_ok eps nv hotplug_mode : 0 <= eps <= MAX_NUM_EP -> 0 <= nv < 256 ->
  (match bridge_setup demo_setup 1 eps nv hotplug_mode with Done (e, _, _) => is_success e | Crash _ => false end = true) ->
  bridge_ok (demo_at eps nv hotplug_mode []).1 (demo_at eps nv hotplug_mode []).2.
Proof.
  intros He Hn Hs. destruct (setup_spec demo_setup 1 eps nv hotplug_mode He Hn demo_setup_ok) as (e & c0 & w0 & E & Hcase).
  unfold demo_at, demo_state. rewrite E in *. cbn. by destruct Hcase as [[? _]|(Hok & _)]; [congruence|].
Qed.

(** Configuration requests of the demonstration are well formed. *)
Lemma request_ok c w q : breq_check q = true -> (match bridge_req_type (bq_header q) with Done t => is_mem t | Crash _ => false end = false) -> ev_ok c w (Request q).
Proof.
  intros Hq Hm. split; [apply demo_buf_ok|]. split; [by apply breq_check_ok|]. intros t a i d Et Ht. rewrite Et in Hm. congruence.
Qed.

Lemma demo_hotplug_ok : bridge_ok (demo_at 1 1 true enable_hotplug).1 (demo_at 1 1 true enable_hotplug).2.
Proof.
  pose proof (demo_start_ok 1 1 true ltac:(unfold MAX_NUM_EP; lia) ltac:(lia) ltac:(vm_compute; reflexivity)) as H0.
  destruct (demo_snoc 1 1 true [] (Credit 7) H0 ltac:(vm_compute; reflexivity) (conj demo_buf_ok I)) as [H1 D1].
  destruct (demo_snoc 1 1 true _ (program_usp 2) H1 D1) as [H2 D2]; [by apply request_ok|].
  destruct (demo_snoc 1 1 true _ (slot_event 30 0x3 0x20) H2 D2) as [H3 D3]; [by apply request_ok|].
  destruct (demo_snoc 1 1 true _ (slot_event 20 0xC 0x00010000) H3 D3) as [H4 D4]; [by apply request_ok|].
  destruct (demo_snoc 1 1 true _ (slot_event 21 0xF 0xFEE00000) H4 D4) as [H5 D5]; [by apply request_ok|].
  exact H5.
Qed.

Lemma hotplug_result_witness : exists c' w' ep, trigger_hotplug_event demo_hotplug (demo_at 1 1 true enable_hotplug).1 (demo_at 1 1 true enable_hotplug).2 0 true
    = Done (DOCA_SUCCESS, c', w') /\ devs_config c' !! 2%nat = Some ep /\ dc_device_present ep = true.
Proof.
  destruct (hotplug_result demo_hotplug (demo_at 1 1 true enable_hotplug).1 (demo_at 1 1 true enable_hotplug).2 0 true demo_hotplug_ok) as (e & c' & w' & E & _ & H).
  - lia.
  - split; [vm_compute; intros H; inversion H|vm_compute; intros H; inversion H|reflexivity|reflexivity|cbn; lia|by vm_compute].
  - cbn. lia.
  - assert (e = DOCA_SUCCESS) as ->.
    { assert (match trigger_hotplug_event demo_hotplug (demo_at 1 1 true enable_hotplug).1 (demo_at 1 1 true enable_hotplug).2 0 true with
              Done (e, _, _) => is_success e | Crash _ => false end = true) as Hs by (vm_compute; reflexivity). rewrite E in Hs. by apply is_success_true. }
    destruct (H eq_refl) as (ep & _ & _ & Hep & Hpr & _). exists c', w', ep. split; [exact E|]. split; [exact Hep|exact Hpr].
Defined.

Lemma cleanup_releases_witness : exists c1 w1 c2 w2,
  cleanup_devices 2 (fun _ => demo_destroy) (demo_at 2 1 false []).1 (demo_at 2 1 false []).2 0 = Done (c1, w1) /\ cleanup_acg c1 w1 = Done (c2, w2) /\
  w_reps w2 = [] /\ w_devs w2 = [].
Proof.
  destruct (cleanup_releases (fun _ => demo_destroy) (demo_at 2 1 false []).1 (demo_at 2 1 false []).2) as (c1 & w1 & c2 & w2 & E1 & E2 & H).
  - apply (demo_start_ok 2 1 false); [unfold MAX_NUM_EP; lia|lia|vm_compute; reflexivity].
  - exists c1, w1, c2, w2. split; [exact E1|]. split; [exact E2|]. apply (H c2 w2 (ReachStart drain_ok c2 w2)). intros i. repeat split.
Defined.

Lemma distinct_single c : num_nv_switch_tlp_dsp c = 1 -> group_off c 0 = 0 -> group_off c 1 = 1 -> sec_bus c (dsp_idx c 0) = 0 -> buses_distinct c.
Proof.
  intros E1 E2 E3 E4 d k k' Hd Hk Hne. assert (d = 0) as -> by lia. change (0 + 1) with 1 in Hk. rewrite E2, E3 in Hk. assert (k = 0) as -> by lia. congruence.
Qed.

Lemma find_device_coherent_witness : exists c' i r,
  find_device_by_bdf (demo_at 1 1 false [program_usp 2]).1 0 2 0 0 TLP_REQ_TYPE_CONFIG_READ_WRITE_TYPE_1 = Done (c', i) /\
  search_topology (demo_at 1 1 false [program_usp 2]).1 0 2 0 0 TLP_REQ_TYPE_CONFIG_READ_WRITE_TYPE_1 = Done r /\ i = 1%nat.
Proof.
  destruct (find_device_coherent demo_setup 1 1 1 false (fun _ _ => 0) (demo_at 1 1 false []).1 (demo_at 1 1 false []).2
    (demo_at 1 1 false [program_usp 2]).1 (demo_at 1 1 false [program_usp 2]).2) with (bus := 2) (device := 0) (function := 0) (ty := 5)
    as (c' & i & r & E & Es & Hi).
  - unfold MAX_NUM_EP. lia.
  - lia.
  - exact demo_setup_ok.
  - vm_compute. reflexivity.
  - apply (ReachStep (routed (fun _ _ => 0)) _ _ (demo_at 1 1 false []).1 (demo_at 1 1 false []).2 (program_usp 2)); [constructor| |vm_compute; reflexivity].
    split; [apply request_ok; vm_compute; reflexivity|]. split; [intros; reflexivity|]. intros c' w' Hst.
    assert (c' = (demo_at 1 1 false [program_usp 2]).1) as -> by (vm_compute in Hst; injection Hst as <- _; vm_compute; reflexivity).
    split; [|apply distinct_single; vm_compute; reflexivity].
    intros j Hj. exfalso. apply Hj. destruct j as [|[|[|[|j]]]]; vm_compute; reflexivity.
  - split; lia.
  - lia.
  - exists c', i, r. split; [exact E|]. split; [exact Es|]. vm_compute in Es. injection Es as <-. exact Hi.
Defined.

(** The host programs the buses on the way to the only endpoint and its base address; the transaction region then starts at 0x13000. *)
Definition program_endpoint : list bridge_event :=
  [program_usp 2; slot_event 6 0x2 0x300; Request (cfg_write_req 5 3 0 4 0xF 0x10000)].
Definition demo_ep : tlp_context * world := demo_at 1 1 false program_endpoint.

Lemma demo_ep_ok : bridge_ok demo_ep.1 demo_ep.2.
Proof.
  pose proof (demo_start_ok 1 1 false ltac:(unfold MAX_NUM_EP; lia) ltac:(lia) ltac:(vm_compute; reflexivity)) as H0.
  destruct (demo_snoc 1 1 false [] (program_usp 2) H0 ltac:(vm_compute; reflexivity)) as [H1 D1]; [by apply request_ok|].
  destruct (demo_snoc 1 1 false _ (slot_event 6 0x2 0x300) H1 D1) as [H2 D2]; [by apply request_ok|].
  destruct (demo_snoc 1 1 false _ (Request (cfg_write_req 5 3 0 4 0xF 0x10000)) H2 D2) as [H3 _]; [by apply request_ok|].
  exact H3.
Qed.

Lemma cfg_no_mem c q : (match bridge_req_type (bq_header q) with Done t => is_mem t | Crash _ => false end = false) -> mem_fits c q.
Proof. intros Hm t a i d Et Ht. rewrite Et in Hm. congruence. Qed.

Lemma bridge_request_reply_witness : exists c' w' rp,
  bridge_req_handler_cb DOCA_SUCCESS demo_buf (RqTlp (cfg_read_req 5 3 0 0)) demo_ep.1 demo_ep.2 = Done (c', w') /\
  bridge_ok c' w' /\ w_replies w' = rp :: w_replies demo_ep.2.
Proof.
  destruct (bridge_request_reply demo_buf (cfg_read_req 5 3 0 0) demo_ep.1 demo_ep.2 demo_ep_ok) as (t & m & es & i & d & d1 & dm & c' & w' & rp & _ & _ & _ & _ & E & Hok & Hr & _).
  - apply breq_check_ok. vm_compute. reflexivity.
  - exact demo_buf_ok.
  - apply cfg_no_mem. vm_compute. reflexivity.
  - exists c', w', rp. split; [exact E|]. split; [exact Hok|exact Hr].
Defined.

(** The host reads the base address register of the endpoint. *)
Lemma bridge_config_read_witness : exists c' w',
  bridge_req_handler_cb DOCA_SUCCESS demo_buf (RqTlp (cfg_read_req 5 3 0 4)) demo_ep.1 demo_ep.2 = Done (c', w') /\ same_rest demo_ep.1 c' /\
  cpl_data ∘ br_cpl <$> head (w_replies w') = Some (Some [0x1000C]).
Proof.
  destruct (bridge_config_read demo_buf (cfg_read_req 5 3 0 4) demo_ep.1 demo_ep.2 TLP_REQ_TYPE_CONFIG_READ_TYPE_1 demo_ep_ok)
    as (m & es & i & d & d1 & reg & x & c' & w' & rp & _ & _ & _ & _ & _ & E & _ & _ & Hs & _).
  - apply breq_check_ok. vm_compute. reflexivity.
  - vm_compute. reflexivity.
  - right. reflexivity.
  - exists c', w'. split; [exact E|]. split; [exact Hs|].
    assert (match bridge_req_handler_cb DOCA_SUCCESS demo_buf (RqTlp (cfg_read_req 5 3 0 4)) demo_ep.1 demo_ep.2 with
            Done (_, w) => cpl_data ∘ br_cpl <$> head (w_replies w) | Crash _ => None end = Some (Some [0x1000C])) as Hd by (vm_compute; reflexivity).
    rewrite E in Hd. exact Hd.
Defined.

(** The host enables memory accesses and the bus master. *)
Lemma bridge_config_write_witness : exists c' w' d',
  bridge_req_handler_cb DOCA_SUCCESS demo_buf (RqTlp (cfg_write_req 5 3 0 1 0x3 0x6)) demo_ep.1 demo_ep.2 = Done (c', w') /\
  devs_config c' !! 2%nat = Some d' /\ bridge_cfg_read 1 d' = Done 0x100006.
Proof.
  destruct (bridge_config_write demo_buf (cfg_write_req 5 3 0 1 0x3 0x6) demo_ep.1 demo_ep.2 TLP_REQ_TYPE_CONFIG_WRITE_TYPE_1 demo_ep_ok)
    as (m & es & i & d & d1 & reg & be & bm & d' & c' & w' & _ & _ & _ & _ & _ & E & _).
  - apply breq_check_ok. vm_compute. reflexivity.
  - exact demo_buf_ok.
  - vm_compute. reflexivity.
  - right. reflexivity.
  - assert (match bridge_req_handler_cb DOCA_SUCCESS demo_buf (RqTlp (cfg_write_req 5 3 0 1 0x3 0x6)) demo_ep.1 demo_ep.2 with
            Done (c, _) => (bridge_cfg_read 1 <$> devs_config c !! 2%nat) | Crash _ => None end = Some (Done 0x100006)) as Hd by (vm_compute; reflexivity).
    rewrite E in Hd. destruct (devs_config c' !! 2%nat) as [d2|] eqn:Ed; [|discriminate]. exists c', w', d2. split; [exact E|]. split; [exact Ed|].
    injection Hd as Hd. exact Hd.
Defined.

(** Two double words, written to the second double word of the region and read back. *)
Lemma bridge_memory_roundtrip_witness : exists c1 w1 c2 w2 rp,
  bridge_req_handler_cb DOCA_SUCCESS demo_buf (RqTlp (mem_request TLP_FMT_3DW_W_DATA 0x13004 2 (Some [0xCAFE; 0xBEEF]))) demo_ep.1 demo_ep.2 = Done (c1, w1) /\
  bridge_req_handler_cb DOCA_SUCCESS demo_buf (RqTlp (mem_request TLP_FMT_3DW_NODATA 0x13004 2 None)) c1 w1 = Done (c2, w2) /\
  w_replies w2 = rp :: w_replies w1 /\ cpl_data (br_cpl rp) = Some [0xCAFE; 0xBEEF].
Proof.
  destruct (devs_config demo_ep.1 !! 2%nat) as [d|] eqn:Ed; [|vm_compute in Ed; discriminate].
  destruct (bridge_memory_roundtrip demo_buf (mem_request TLP_FMT_3DW_W_DATA 0x13004 2 (Some [0xCAFE; 0xBEEF])) (mem_request TLP_FMT_3DW_NODATA 0x13004 2 None)
    demo_ep.1 demo_ep.2 0x13004 2 d 0 (default [] (region_at demo_ep.1 0)) 4 [0xCAFE; 0xBEEF] 2 15 15 demo_ep_ok)
    as (c1 & w1 & mem & c2 & w2 & rp & E1 & E2 & _ & _ & _ & _ & Hr & _ & Hd).
  - apply breq_check_ok. vm_compute. reflexivity.
  - apply breq_check_ok. vm_compute. reflexivity.
  - vm_compute. reflexivity.
  - vm_compute. reflexivity.
  - vm_compute. reflexivity.
  - exact Ed.
  - assert (match devs_config demo_ep.1 !! 2%nat with Some d => mem_region demo_ep.1 2 d 0x13004 | None => Done None end =
            Done (Some (0, default [] (region_at demo_ep.1 0), 4))) as Hm by (vm_compute; reflexivity). rewrite Ed in Hm. exact Hm.
  - reflexivity.
  - intros q [->| ->]; repeat split; vm_compute; reflexivity.
  - lia.
  - vm_compute. discriminate.
  - exists c1, w1, c2, w2, rp. split; [exact E1|]. split; [exact E2|]. split; [exact Hr|]. exact (Hd eq_refl eq_refl).
Defined.

(** ** Runs in which the code does not do what it means to *)

Definition find_index (r : res (tlp_context * nat)) : option nat := match r with Done (_, i) => Some i | Crash _ => None end.

(** The table keeps devices under buses that the host has since moved: after the secondary bus of the upstream port goes from 2 to
    4, a request for bus 2 still reaches its bridge. *)
Lemma stale_after_bus_change :
  let c := (demo_at 1 1 false [program_usp 2; Request (cfg_read_req 5 2 0 0); program_usp 4]).1 in
  find_index (find_device_by_bdf c 0 2 0 0 5) = Some 1%nat /\ search_topology c 0 2 0 0 5 = Done None.
Proof. vm_compute. split; reflexivity. Qed.

(** The table does not know ports: with two of them, the first request of the second port for its upstream port reaches the first one's. *)
Lemma wrong_switch :
  let c := (demo_at 2 2 false [Request (cfg_read_req 4 0 0 0)]).1 in
  find_index (find_device_by_bdf c 1 0 0 0 4) = Some 0%nat /\ search_topology c 1 0 0 0 4 = Done (Some 1%nat).
Proof. vm_compute. split; reflexivity. Qed.

Definition plug_unplug : list bridge_event := enable_hotplug ++ [EvHotplug demo_hotplug 0 true; Credit 8; EvHotplug demo_hotplug 0 false].
Definition link_active (c : tlp_context) (i : nat) : option bool := (fun d => Z.testbit (xp_link_status (dc_express d)) 13) <$> (devs_config c !! i).
Definition slot_present (c : tlp_context) (i : nat) : option bool := (fun d => Z.testbit (xp_slot_status (dc_express d)) 6) <$> (devs_config c !! i).

(** An unplug leaves the presence bit set, so that switching the slot's power off and on takes the link up with no device behind it. *)
Lemma link_up_without_device :
  let c := (demo_at 1 1 true (plug_unplug ++ [slot_event 30 0x3 0x420; slot_event 30 0x3 0x20])).1 in
  dc_device_present <$> (devs_config c !! 2%nat) = Some false /\ link_active c 1 = Some true.
Proof. vm_compute. split; reflexivity. Qed.

(** A host that writes ones to slot status clears the read-only presence bit with the others, while the device is present. *)
Lemma presence_bit_cleared :
  let c := (demo_at 1 1 true (enable_hotplug ++ [EvHotplug demo_hotplug 0 true; slot_event 30 0xC 0x00400000])).1 in
  dc_device_present <$> (devs_config c !! 2%nat) = Some true /\ slot_present c 1 = Some false.
Proof. vm_compute. split; reflexivity. Qed.

(** A command that fails because the host has not enabled the interrupt has plugged the device nevertheless: the command cannot be tried again. *)
Lemma failed_plug_keeps_device :
  let s := demo_at 1 1 true [Credit 7; program_usp 2; slot_event 30 0x3 0x20] in
  match trigger_hotplug_event demo_hotplug s.1 s.2 0 true with
  | Done (e, c, w) => e = DOCA_ERROR_BAD_STATE /\ dc_device_present <$> (devs_config c !! 2%nat) = Some true /\
      match trigger_hotplug_event demo_hotplug c w 0 true with Done (e', _, _) => e' = DOCA_ERROR_ALREADY_EXIST | Crash _ => False end
  | Crash _ => False
  end.
Proof. vm_compute. repeat split; reflexivity. Qed.

(** A write to one byte of slot control replaces the other byte too: enabling an interrupt in the low byte switches the power on. *)
Lemma byte_write_powers_slot :
  let c := (demo_at 1 1 true [program_usp 2; slot_event 30 0x1 0x20]).1 in
  (fun d => xp_slot_control (dc_express d)) <$> (devs_config (demo_at 1 1 true []).1 !! 1%nat) = Some 0x400 /\
  (fun d => xp_slot_control (dc_express d)) <$> (devs_config c !! 1%nat) = Some 0x20.
Proof. vm_compute. split; reflexivity. Qed.

(** A type that reports another number of base address registers than expected counts as success, and the device keeps its old layout. *)
Lemma layout_mismatch_succeeds a d : an_bar a = (DOCA_SUCCESS, 1, 14) -> populate_bar_layout_info_into_device a d = (DOCA_SUCCESS, d).
Proof. intros E. unfold populate_bar_layout_info_into_device. by rewrite E. Qed.

(** The last reply of a run: its completion, its header as numbers, and the call that made it. *)
Definition last_reply (r : res (tlp_context * world)) : option bridge_reply := match r with Done (_, w) => head (w_replies w) | Crash _ => None end.
Definition reply_header (rp : bridge_reply) : list Z := from_option (fmap be32toh) [] (cpl_header (br_cpl rp)).

(** A read of 512 double words is completed with 256, and the header announces all 512. *)
Lemma long_read_is_short : let r := last_reply (bridge_step (Request (mem_request TLP_FMT_3DW_NODATA 0x13000 512 None)) demo_ep.1 demo_ep.2) in
  (fun rp => length <$> cpl_data (br_cpl rp)) <$> r = Some (Some 256%nat) /\
  (fun rp => (fun x => x mod 2 ^ 10) <$> head (reply_header rp)) <$> r = Some (Some 512).
Proof. vm_compute. split; reflexivity. Qed.

(** Only the start of a memory access is compared with the region: one that starts in its last double word and is longer leaves its memory. *)
Lemma region_end_overrun :
  bridge_step (Request (mem_request TLP_FMT_3DW_W_DATA 0x13FFC 2 (Some [1; 2]))) demo_ep.1 demo_ep.2 = Crash OutOfBounds /\
  bridge_step (Request (mem_request TLP_FMT_3DW_NODATA 0x13FFC 2 None)) demo_ep.1 demo_ep.2 = Crash OutOfBounds.
Proof. vm_compute. split; reflexivity. Qed.

(** A posted write to an address of no device is answered by a completion. *)
Lemma posted_write_completed :
  last_reply (bridge_step (Request (mem_request TLP_FMT_3DW_W_DATA 0x90000 1 (Some [1]))) demo_ep.1 demo_ep.2) ≫=
    (fun rp => Some (br_call rp, bool_decide (cpl_header (br_cpl rp) = None))) = Some (BcTlp true None, false).
Proof. vm_compute. reflexivity. Qed.

(** An endpoint that has been unplugged keeps its base address and its memory: it goes on answering memory requests, with no handle to name. *)
Lemma unplugged_answers :
  let s := demo_at 1 1 true (enable_hotplug ++ [EvHotplug demo_hotplug 0 true; slot_event 6 0x2 0x300; Request (cfg_write_req 5 3 0 4 0xF 0x10000);
             Request (mem_request TLP_FMT_3DW_W_DATA 0x13000 1 (Some [0xCAFE])); Credit 8; EvHotplug demo_hotplug 0 false]) in
  dc_device_present <$> (devs_config s.1 !! 2%nat) = Some false /\
  (fun rp => (br_call rp, cpl_data (br_cpl rp))) <$> last_reply (bridge_step (Request (mem_request TLP_FMT_3DW_NODATA 0x13000 1 None)) s.1 s.2)
    = Some (BcTlp true None, Some [0xCAFE]).
Proof. vm_compute. split; reflexivity. Qed.

(** The dummy keeps the identifier of the first request that no device answered: later ones are completed in its name. *)
Lemma dummy_completer_sticks :
  let s := demo_at 1 1 false [Request (cfg_read_req 5 9 0 0)] in
  (fun rp => (fun x => x / 2 ^ 16) <$> reply_header rp !! 1%nat) <$> last_reply (bridge_step (Request (cfg_read_req 5 7 3 0)) s.1 s.2) = Some (Some (BDF 9 0 0)) /\
  BDF 9 0 0 <> BDF 7 3 0.
Proof. vm_compute. split; [reflexivity|discriminate]. Qed.

(** Sizing the upper half of the base address register gives zero instead of ones, so that its upper 32 bits look as if they could not be set. *)
Lemma upper_bar_sizing :
  (fun rp => cpl_data (br_cpl rp)) <$> last_reply (bridge_run [Request (cfg_write_req 5 3 0 5 0xF 0xFFFFFFFF); Request (cfg_read_req 5 3 0 5)] demo_ep.1 demo_ep.2) = Some (Some [0]).
Proof. vm_compute. reflexivity. Qed.

(** A write to the lowest byte of the base address register clears the address in the others. *)
Lemma bar_byte_write_clears :
  (fun rp => cpl_data (br_cpl rp)) <$> last_reply (bridge_run [Request (cfg_write_req 5 3 0 4 0x1 0); Request (cfg_read_req 5 3 0 4)] demo_ep.1 demo_ep.2) = Some (Some [0xC]).
Proof. vm_compute. reflexivity. Qed.

(** The MSI capability has six double words from 0x50 on, the Express capability starts at 0x60: its mask and pending bits cannot be reached, and a write to
    the register where the mask should be leaves it. *)
Lemma msi_mask_hidden :
  (fun rp => (fun x => x mod 256) <$> default [] (cpl_data (br_cpl rp))) <$> last_reply (bridge_step (Request (cfg_read_req 5 2 0 24)) demo_ep.1 demo_ep.2)
    = Some [TLP_PCI_CAP_ID_EXPRESS] /\
  (fun d => msi_mask_bits (dc_msi d)) <$> (devs_config (demo_at 1 1 false (program_endpoint ++ [slot_event 24 0xF 1])).1 !! 1%nat) = Some 0.
Proof. vm_compute. split; reflexivity. Qed.

(** A write that enables no byte of the message address sets it. *)
Lemma msi_address_ignores_enables :
  msi_addr_of <$> (devs_config (demo_at 1 1 false (program_endpoint ++ [slot_event 21 0 0xFEE00000])).1 !! 1%nat) = Some 0xFEE00000.
Proof. vm_compute. reflexivity. Qed.

(** The message data is written when the lower byte is enabled, and then both bytes are; a write of the upper byte alone is ignored. *)
Lemma msi_data_upper_byte_ignored :
  (fun d => msi_message_data (dc_msi d)) <$> (devs_config (demo_at 1 1 false (program_endpoint ++ [slot_event 23 0x2 0x4100])).1 !! 1%nat) = Some 0 /\
  (fun d => msi_message_data (dc_msi d)) <$> (devs_config (demo_at 1 1 false (program_endpoint ++ [slot_event 23 0x1 0x4100])).1 !! 1%nat) = Some 0x4100.
Proof. vm_compute. split; reflexivity. Qed.

(** The channel has been started before the context is set up. When there is no port, set-up fails with no devices, and a request that the channel
    still delivers while it is stopped reads the array of devices that does not exist. *)
Lemma request_after_failed_setup :
  match bridge_setup demo_setup 1 1 0 false with
  | Done (e, c, w) => e = DOCA_ERROR_INVALID_VALUE /\ bridge_step (Request (cfg_read_req 4 0 0 0)) c w = Crash OutOfBounds
  | Crash _ => False
  end.
Proof. vm_compute. split; reflexivity. Qed.
