(* ===== verification/VnetWork.v ===== *)
(** * VnetWork: the work queue of the virtio-net device application,
      src/applications/vnet_pci_dev/vnet_pci_device.c

    Requests of the host are answered on one thread and leave what takes long to a
    worker: items from a pool of fixed size, linked into a queue through the items
    themselves. The worker takes the oldest item, except that a bring-up of virtual
    functions may overtake items of other physical functions, and drops items of a
    device that has been reset since.

    [worker_queue_order] says that nothing is lost or taken out of order, [shutdown_drains]
    that a shutdown ends. A pointer to an item is its index in the pool, a device, a
    controller or an endpoint is a number. Each function here runs under a lock and is
    one step; a submission, which takes an item from the pool and queues it under two
    locks, is one step as well, so an item that is taken and not yet queued is not a
    state of the model. *)

From S2P Require Import Prelude.

Definition PCI_CFG_WORK_POOL_SIZE : Z := 1024.

(** The type of an item with its member of the union. *)
Inductive pci_cfg_work :=
| PCI_CFG_WORK_VQ_CONFIG (vq_index : Z)
| PCI_CFG_WORK_CONTROLLER_CLEANUP (controller : Z) (destroy_engine : bool)
| PCI_CFG_WORK_ENGINE_START (controller : Z)
| PCI_CFG_WORK_INITIALIZE_VQS (controller : Z)
| PCI_CFG_WORK_INITIALIZE_IO_CTX (controller : Z)
| PCI_CFG_WORK_START_AND_ENABLE (controller : Z)
| PCI_CFG_WORK_CREATE_STATS_LIST (controller : Z)
| PCI_CFG_WORK_DEVICE_RESET
| PCI_CFG_WORK_DELAYED_DESTROY (endpoint : Z)
| PCI_CFG_WORK_HOTPLUG_EVENT (dsp_index : Z) (plug : bool)
| PCI_CFG_WORK_SPEED_CHANGE (controller new_speed : Z)
| PCI_CFG_WORK_VFE_FAN_OUT_START (pf_endpoint : Z)
| PCI_CFG_WORK_VFE_FAN_OUT_STOP (pf_endpoint : Z)
| PCI_CFG_WORK_VF_ENGINE_SETUP (pf_endpoint slot_idx : Z)
| PCI_CFG_WORK_VF_VQ_CONFIG (pf_endpoint slot_idx vq_index : Z)
| PCI_CFG_WORK_VF_ENGINE_ENABLE (pf_endpoint slot_idx : Z)
| PCI_CFG_WORK_VF_DATAPATH_RESET (pf_endpoint slot_idx : Z)
| PCI_CFG_WORK_VF_FLR_RESET (pf_endpoint slot_idx : Z)
| PCI_CFG_WORK_DUMP_SF_INFO (ep_index : Z).

#[global] Instance pci_cfg_work_eq_dec : EqDecision pci_cfg_work.
Proof. solve_decision. Defined.

Record pci_cfg_work_item := {
  wi_work : pci_cfg_work;
  wi_dev : option Z;
  wi_next : option nat;
  wi_reset_generation : Z;
  wi_in_use : bool;
}.

(** The pool and the queue. *)
Record pci_cfg_workqueue := {
  wq_items : list pci_cfg_work_item;
  wq_free_count : Z;
  wq_head : option nat;
  wq_tail : option nat;
  wq_shutdown : bool;
  wq_reset_in_progress : bool;
  wq_worker_busy : bool;
  wq_worker_current_dev : option Z;
  wq_pending_work_count : Z;
  wq_total_processed : Z;
  wq_dropped_count : Z;
}.

(** An item filled with zeros. *)
Definition zero_item : pci_cfg_work_item :=
  {| wi_work := PCI_CFG_WORK_VQ_CONFIG 0; wi_dev := None; wi_next := None; wi_reset_generation := 0; wi_in_use := false |}.

Definition pci_cfg_workqueue_init : pci_cfg_workqueue :=
  {| wq_items := replicate (Z.to_nat PCI_CFG_WORK_POOL_SIZE) zero_item; wq_free_count := PCI_CFG_WORK_POOL_SIZE;
     wq_head := None; wq_tail := None; wq_shutdown := false; wq_reset_in_progress := false;
     wq_worker_busy := false; wq_worker_current_dev := None;
     wq_pending_work_count := 0; wq_total_processed := 0; wq_dropped_count := 0 |}.

(** ** The pool *)

Definition item_at (wq : pci_cfg_workqueue) (i : nat) : res pci_cfg_work_item :=
  match wq_items wq !! i with Some it => Done it | None => Crash OutOfBounds end.
Definition put_item (wq : pci_cfg_workqueue) (i : nat) (it : pci_cfg_work_item) : pci_cfg_workqueue :=
  {| wq with wq_items := <[i := it]> (wq_items wq) |}.
Definition set_next (wq : pci_cfg_workqueue) (i : nat) (p : option nat) : res pci_cfg_workqueue :=
  it ← item_at wq i; Done (put_item wq i {| it with wi_next := p |}).

Fixpoint free_slot (l : list pci_cfg_work_item) : option nat :=
  match l with
  | [] => None
  | it :: l => if negb (wi_in_use it) then Some 0%nat else S <$> free_slot l
  end.
Definition work_pool_alloc (wq : pci_cfg_workqueue) : option nat * pci_cfg_workqueue :=
  if wq_free_count wq =? 0 then (None, wq)
  else match free_slot (wq_items wq) with
  | Some i => (Some i, put_item {| wq with wq_free_count := u32 (wq_free_count wq - 1) |} i {| zero_item with wi_in_use := true |})
  | None => (None, wq)
  end.
Definition work_pool_free (wq : pci_cfg_workqueue) (i : nat) : pci_cfg_workqueue :=
  match wq_items wq !! i with
  | None => wq
  | Some it => put_item {| wq with wq_free_count := u32 (wq_free_count wq + 1) |} i {| it with wi_in_use := false |}
  end.

(** ** The queue *)

Definition pci_cfg_workqueue_enqueue (wq : pci_cfg_workqueue) (work : nat) : res pci_cfg_workqueue :=
  if wq_shutdown wq then Done (work_pool_free {| wq with wq_dropped_count := u64 (wq_dropped_count wq + 1) |} work)
  else
    wq ← set_next wq work None;
    wq ← match wq_tail wq with
      | Some tail => wq ← set_next wq tail (Some work); Done {| wq with wq_tail := Some work |}
      | None => Done {| wq with wq_head := Some work; wq_tail := Some work |}
      end;
    Done {| wq with wq_pending_work_count := u32 (wq_pending_work_count wq + 1) |}.

(** What all submissions do: an item from the pool, filled and put into the queue. Whether there was one. *)
Definition pci_cfg_workqueue_submit (wq : pci_cfg_workqueue) (w : pci_cfg_work) (dev : option Z) (generation : Z) : res (bool * pci_cfg_workqueue) :=
  match work_pool_alloc wq with
  | (None, wq) => Done (false, wq)
  | (Some work, wq) =>
    it ← item_at wq work;
    wq ← pci_cfg_workqueue_enqueue (put_item wq work {| it with wi_work := w; wi_dev := dev; wi_reset_generation := generation |}) work;
    Done (true, wq)
  end.

Definition pci_cfg_work_owner_pf (w : pci_cfg_work) : option Z :=
  match w with
  | PCI_CFG_WORK_VFE_FAN_OUT_START pf | PCI_CFG_WORK_VFE_FAN_OUT_STOP pf | PCI_CFG_WORK_VF_ENGINE_SETUP pf _
  | PCI_CFG_WORK_VF_VQ_CONFIG pf _ _ | PCI_CFG_WORK_VF_ENGINE_ENABLE pf _ | PCI_CFG_WORK_VF_DATAPATH_RESET pf _
  | PCI_CFG_WORK_VF_FLR_RESET pf _ => Some pf
  | _ => None
  end.
Definition is_bring_up (w : pci_cfg_work) : bool := match w with PCI_CFG_WORK_VFE_FAN_OUT_START _ => true | _ => false end.

(** The loop over the items from [scan] up to [end_]. *)
Fixpoint pci_cfg_work_promotable_over (fuel : nat) (wq : pci_cfg_workqueue) (scan : option nat) (end_ : nat) (pf : option Z) : res bool :=
  match fuel with
  | O => Crash OutOfFuel
  | S fuel =>
    if bool_decide (scan = Some end_) then Done true
    else match scan with
    | None => Crash NullDeref
    | Some i =>
      it ← item_at wq i;
      let other := pci_cfg_work_owner_pf (wi_work it) in
      if bool_decide (other = None) || bool_decide (other = pf) then Done false
      else pci_cfg_work_promotable_over fuel wq (wi_next it) end_ pf
    end
  end.

(** The search for a bring-up: the item and the one before it. *)
Fixpoint bring_up_scan (fuel : nat) (wq : pci_cfg_workqueue) (scan prev : option nat) : res (option nat * option nat) :=
  match fuel with
  | O => Crash OutOfFuel
  | S fuel =>
    match scan with
    | None => Done (None, prev)
    | Some i =>
      it ← item_at wq i;
      if is_bring_up (wi_work it) then Done (Some i, prev) else bring_up_scan fuel wq (wi_next it) (Some i)
    end
  end.

Definition queue_fuel (wq : pci_cfg_workqueue) : nat := S (length (wq_items wq)).

(** The label [dequeued]. *)
Definition dequeued (wq : pci_cfg_workqueue) (work : nat) : res (option nat * pci_cfg_workqueue) :=
  wq ← set_next wq work None;
  Done (Some work, {| wq with wq_pending_work_count := u32 (wq_pending_work_count wq - 1) |}).
(** Taking the first item. *)
Definition dequeue_head (wq : pci_cfg_workqueue) (work : nat) : res (option nat * pci_cfg_workqueue) :=
  it ← item_at wq work;
  dequeued {| wq with wq_head := wi_next it; wq_tail := if bool_decide (wi_next it = None) then None else wq_tail wq |} work.

Definition pci_cfg_workqueue_dequeue_locked (wq : pci_cfg_workqueue) : res (option nat * pci_cfg_workqueue) :=
  match wq_head wq with
  | None => Done (None, wq)
  | Some work =>
    it ← item_at wq work;
    if is_bring_up (wi_work it) then dequeue_head wq work
    else
      '(scan, prev) ← bring_up_scan (queue_fuel wq) wq (Some work) None;
      match scan, prev with
      | Some scan, Some prev =>
        sit ← item_at wq scan;
        promotable ← pci_cfg_work_promotable_over (queue_fuel wq) wq (Some work) scan (pci_cfg_work_owner_pf (wi_work sit));
        if promotable : bool then
          wq ← set_next wq prev (wi_next sit);
          dequeued {| wq with wq_tail := if bool_decide (wq_tail wq = Some scan) then Some prev else wq_tail wq |} scan
        else dequeue_head wq work
      | _, _ => dequeue_head wq work
      end
  end.

(** ** Devices and controllers *)

(** What the queue reads of them: the generation of each device, which goes up with each reset, and the device of each
    controller. *)
Record generations := { g_dev : Z -> Z; g_virtio_device : Z -> option Z }.

Definition vnet_pci_device_get_reset_generation (g : generations) (dev : option Z) : Z :=
  match dev with None => 0 | Some d => g_dev g d end.
Definition vnet_controller_get_reset_generation (g : generations) (controller : option Z) : Z :=
  match controller with None => 0 | Some c => vnet_pci_device_get_reset_generation g (g_virtio_device g c) end.
Definition vnet_controller_get_valid_reset_generation (g : generations) (controller : option Z) : option Z :=
  match controller with
  | None => None
  | Some _ =>
    let generation := vnet_controller_get_reset_generation g controller in
    if generation =? 0 then None else Some generation
  end.

(** Whether the device of an item was reset after its submission. *)
Definition pci_cfg_work_item_is_stale (g : generations) (it : pci_cfg_work_item) : bool :=
  if wi_reset_generation it =? 0 then false
  else match wi_dev it with
  | Some dev => negb (vnet_pci_device_get_reset_generation g (Some dev) =? wi_reset_generation it)
  | None =>
    match wi_work it with
    | PCI_CFG_WORK_CONTROLLER_CLEANUP controller _ | PCI_CFG_WORK_ENGINE_START controller
    | PCI_CFG_WORK_INITIALIZE_VQS controller | PCI_CFG_WORK_INITIALIZE_IO_CTX controller
    | PCI_CFG_WORK_CREATE_STATS_LIST controller | PCI_CFG_WORK_SPEED_CHANGE controller _ =>
      negb (vnet_controller_get_reset_generation g (Some controller) =? wi_reset_generation it)
    | _ => true
    end
  end.

(** ** The submissions

    A pointer is [None] when it is null; there is one TLP context, of which an argument says whether it is there. *)

(** An item that belongs to the device of a controller. *)
Definition submit_controller_work (g : generations) (wq : pci_cfg_workqueue) (controller : option Z) (w : Z -> pci_cfg_work)
  : res (bool * pci_cfg_workqueue) :=
  match vnet_controller_get_valid_reset_generation g controller, controller with
  | Some generation, Some c => pci_cfg_workqueue_submit wq (w c) None generation
  | _, _ => Done (false, wq)
  end.
Definition pci_cfg_workqueue_submit_controller_cleanup g wq controller destroy_engine :=
  submit_controller_work g wq controller (fun c => PCI_CFG_WORK_CONTROLLER_CLEANUP c destroy_engine).
Definition pci_cfg_workqueue_submit_engine_start g wq controller := submit_controller_work g wq controller PCI_CFG_WORK_ENGINE_START.
Definition pci_cfg_workqueue_submit_initialize_vqs g wq controller := submit_controller_work g wq controller PCI_CFG_WORK_INITIALIZE_VQS.
Definition pci_cfg_workqueue_submit_initialize_io_context g wq controller :=
  submit_controller_work g wq controller PCI_CFG_WORK_INITIALIZE_IO_CTX.
Definition pci_cfg_workqueue_submit_create_stats_list g wq controller :=
  submit_controller_work g wq controller PCI_CFG_WORK_CREATE_STATS_LIST.
Definition pci_cfg_workqueue_submit_speed_change g wq controller new_speed :=
  submit_controller_work g wq controller (fun c => PCI_CFG_WORK_SPEED_CHANGE c new_speed).
Definition pci_cfg_workqueue_submit_start_and_enable (g : generations) (wq : pci_cfg_workqueue) (controller dev : option Z)
  : res (bool * pci_cfg_workqueue) :=
  match vnet_controller_get_valid_reset_generation g controller, controller with
  | Some generation, Some c =>
    if bool_decide (g_virtio_device g c = dev) then pci_cfg_workqueue_submit wq (PCI_CFG_WORK_START_AND_ENABLE c) dev generation
    else Done (false, wq)
  | _, _ => Done (false, wq)
  end.

(** Items without a generation. *)
Definition pci_cfg_workqueue_submit_hotplug (wq : pci_cfg_workqueue) (tlp_ctx : bool) (dsp_index : Z) (plug : bool)
  : res (bool * pci_cfg_workqueue) :=
  if negb tlp_ctx then Done (false, wq) else pci_cfg_workqueue_submit wq (PCI_CFG_WORK_HOTPLUG_EVENT dsp_index plug) None 0.
Definition pci_cfg_workqueue_submit_dump_sf_info (wq : pci_cfg_workqueue) (ep_index : Z) : res (bool * pci_cfg_workqueue) :=
  pci_cfg_workqueue_submit wq (PCI_CFG_WORK_DUMP_SF_INFO ep_index) None 0.
Definition submit_pf_work (wq : pci_cfg_workqueue) (tlp_ctx : bool) (pf_endpoint : option Z) (w : Z -> pci_cfg_work)
  : res (bool * pci_cfg_workqueue) :=
  match tlp_ctx, pf_endpoint with
  | true, Some pf => pci_cfg_workqueue_submit wq (w pf) None 0
  | _, _ => Done (false, wq)
  end.
Definition pci_cfg_workqueue_submit_vfe_fan_out wq tlp_ctx pf_endpoint (start : bool) :=
  submit_pf_work wq tlp_ctx pf_endpoint (if start then PCI_CFG_WORK_VFE_FAN_OUT_START else PCI_CFG_WORK_VFE_FAN_OUT_STOP).
Definition pci_cfg_workqueue_submit_vf_engine_setup wq tlp_ctx pf_endpoint slot_idx :=
  submit_pf_work wq tlp_ctx pf_endpoint (fun pf => PCI_CFG_WORK_VF_ENGINE_SETUP pf slot_idx).
Definition pci_cfg_workqueue_submit_vf_vq_config wq tlp_ctx pf_endpoint slot_idx vq_index :=
  submit_pf_work wq tlp_ctx pf_endpoint (fun pf => PCI_CFG_WORK_VF_VQ_CONFIG pf slot_idx vq_index).
Definition pci_cfg_workqueue_submit_vf_engine_enable wq pf_endpoint slot_idx :=
  submit_pf_work wq true pf_endpoint (fun pf => PCI_CFG_WORK_VF_ENGINE_ENABLE pf slot_idx).
Definition pci_cfg_workqueue_submit_vf_datapath_reset wq pf_endpoint slot_idx :=
  submit_pf_work wq true pf_endpoint (fun pf => PCI_CFG_WORK_VF_DATAPATH_RESET pf slot_idx).
Definition pci_cfg_workqueue_submit_vf_flr_reset wq pf_endpoint slot_idx :=
  submit_pf_work wq true pf_endpoint (fun pf => PCI_CFG_WORK_VF_FLR_RESET pf slot_idx).

(** The flags of endpoints: those with [pending_unplug] and those with [pending_destroy]. *)
Definition pci_cfg_workqueue_submit_delayed_destroy (wq : pci_cfg_workqueue) (pending_unplug pending_destroy : gset Z)
    (tlp_ctx : bool) (endpoint : option Z) : res (gset Z * (bool * pci_cfg_workqueue)) :=
  match tlp_ctx, endpoint with
  | true, Some ep =>
    if negb (bool_decide (ep ∈ pending_unplug)) then Done (pending_destroy, (false, wq))
    else if bool_decide (ep ∈ pending_destroy) then Done (pending_destroy, (false, wq))
    else
      '(queued, wq) ← pci_cfg_workqueue_submit wq (PCI_CFG_WORK_DELAYED_DESTROY ep) None 0;
      Done (if queued : bool then {[ep]} ∪ pending_destroy else pending_destroy ∖ {[ep]}, (queued, wq))
  | _, _ => Done (pending_destroy, (false, wq))
  end.

(** Queues of a device whose configuration waits: what is read of its controller, when there is one. *)
Record deferral := { d_max_queue_pairs : Z; d_initial_data_qps_deferred : bool; d_num_active_qps : Z }.

Definition VNET_CVQ_INDEX (max_qp : Z) : Z := max_qp * 2.
Definition vnet_pci_device_data_vq_is_deferred (controller : option deferral) (vq_index : Z) : bool :=
  match controller with
  | None => false
  | Some c =>
    if u16 (VNET_CVQ_INDEX (d_max_queue_pairs c)) <=? vq_index then false
    else d_initial_data_qps_deferred c || (d_num_active_qps c <=? vq_index / 2)
  end.
Definition pci_cfg_workqueue_submit_vq_config (g : generations) (wq : pci_cfg_workqueue) (controller : option deferral)
    (dev : option Z) (vq_index : Z) : res (bool * pci_cfg_workqueue) :=
  match dev with
  | None => Done (false, wq)
  | Some d =>
    if wq_reset_in_progress wq then Done (false, wq)
    else if vnet_pci_device_data_vq_is_deferred controller vq_index then Done (false, wq)
    else pci_cfg_workqueue_submit wq (PCI_CFG_WORK_VQ_CONFIG vq_index) dev (g_dev g d)
  end.

(** ** The worker

    One thread runs [pci_cfg_worker_thread]; the others submit, reset devices and shut the queue down. A step is what
    is done between two points where the threads can interleave: taking an item, deciding whether to run it, and giving it
    back. What running it does to devices and engines is not part of the queue. *)

Inductive worker_pc :=
| AtTop                       (* at the top of the loop *)
| Holding (work : nat)        (* with an item, before the reset barrier *)
| Finishing (work : nat)      (* at the label work_done *)
| Exited.

Inductive event :=
| Accepted (w : pci_cfg_work)   (* put into the queue *)
| Taken (w : pci_cfg_work)      (* taken from the queue *)
| Executed (w : pci_cfg_work)
| Skipped (w : pci_cfg_work)    (* stale *)
| Discarded (w : pci_cfg_work). (* after the shutdown *)

Record worker_state := { ws_wq : pci_cfg_workqueue; ws_pc : worker_pc; ws_g : generations }.

(** The worker dequeues. *)
Definition worker_take (s : worker_state) : res (worker_state * list event) :=
  let wq := ws_wq s in
  match wq_head wq with
  | None => if wq_shutdown wq then Done ({| s with ws_pc := Exited |}, []) else Done (s, [])
  | Some _ =>
    '(work, wq) ← pci_cfg_workqueue_dequeue_locked wq;
    match work with
    | None => Done ({| s with ws_wq := wq |}, [])
    | Some i => it ← item_at wq i; Done ({| s with ws_wq := wq; ws_pc := Holding i |}, [Taken (wi_work it)])
    end
  end.
(** The reset barrier, the shutdown, the check of the generation and the execution. *)
Definition worker_execute (s : worker_state) (i : nat) : res (worker_state * list event) :=
  let wq := ws_wq s in
  it ← item_at wq i;
  if wq_reset_in_progress wq && negb (wq_shutdown wq) then Done (s, [])
  else if wq_shutdown wq then Done ({| s with ws_wq := work_pool_free wq i; ws_pc := AtTop |}, [Discarded (wi_work it)])
  else
    let s := {| s with ws_wq := {| wq with wq_worker_busy := true; wq_worker_current_dev := wi_dev it |}; ws_pc := Finishing i |} in
    Done (s, [if pci_cfg_work_item_is_stale (ws_g s) it then Skipped (wi_work it) else Executed (wi_work it)]).
(** From the label [work_done]. *)
Definition worker_finish (s : worker_state) (i : nat) : res (worker_state * list event) :=
  let wq := {| (ws_wq s) with wq_total_processed := u64 (wq_total_processed (ws_wq s) + 1) |} in
  let wq := {| wq with wq_worker_busy := false; wq_worker_current_dev := None |} in
  Done ({| s with ws_wq := work_pool_free wq i; ws_pc := AtTop |}, []).
Definition pci_cfg_worker_step (s : worker_state) : res (worker_state * list event) :=
  match ws_pc s with
  | AtTop => worker_take s
  | Holding i => worker_execute s i
  | Finishing i => worker_finish s i
  | Exited => Done (s, [])
  end.

(** The flag that [pci_cfg_workqueue_shutdown] sets. *)
Definition pci_cfg_workqueue_shutdown (wq : pci_cfg_workqueue) : pci_cfg_workqueue :=
  if wq_shutdown wq then wq else {| wq with wq_shutdown := true |}.

(** A call of one of the submissions. *)
Inductive submission :=
| SubmitControllerCleanup (controller : option Z) (destroy_engine : bool)
| SubmitEngineStart (controller : option Z)
| SubmitInitializeVqs (controller : option Z)
| SubmitInitializeIoContext (controller : option Z)
| SubmitStartAndEnable (controller dev : option Z)
| SubmitCreateStatsList (controller : option Z)
| SubmitSpeedChange (controller : option Z) (new_speed : Z)
| SubmitHotplug (tlp_ctx : bool) (dsp_index : Z) (plug : bool)
| SubmitDumpSfInfo (ep_index : Z)
| SubmitVfeFanOut (tlp_ctx : bool) (pf_endpoint : option Z) (start : bool)
| SubmitVfEngineSetup (tlp_ctx : bool) (pf_endpoint : option Z) (slot_idx : Z)
| SubmitVfVqConfig (tlp_ctx : bool) (pf_endpoint : option Z) (slot_idx vq_index : Z)
| SubmitVfEngineEnable (pf_endpoint : option Z) (slot_idx : Z)
| SubmitVfDatapathReset (pf_endpoint : option Z) (slot_idx : Z)
| SubmitVfFlrReset (pf_endpoint : option Z) (slot_idx : Z)
| SubmitVqConfig (controller : option deferral) (dev : option Z) (vq_index : Z)
| SubmitDelayedDestroy (pending_unplug pending_destroy : gset Z) (tlp_ctx : bool) (endpoint : option Z).

Definition submit_call (g : generations) (wq : pci_cfg_workqueue) (s : submission) : res (bool * pci_cfg_workqueue) :=
  match s with
  | SubmitControllerCleanup c d => pci_cfg_workqueue_submit_controller_cleanup g wq c d
  | SubmitEngineStart c => pci_cfg_workqueue_submit_engine_start g wq c
  | SubmitInitializeVqs c => pci_cfg_workqueue_submit_initialize_vqs g wq c
  | SubmitInitializeIoContext c => pci_cfg_workqueue_submit_initialize_io_context g wq c
  | SubmitStartAndEnable c d => pci_cfg_workqueue_submit_start_and_enable g wq c d
  | SubmitCreateStatsList c => pci_cfg_workqueue_submit_create_stats_list g wq c
  | SubmitSpeedChange c v => pci_cfg_workqueue_submit_speed_change g wq c v
  | SubmitHotplug t i p => pci_cfg_workqueue_submit_hotplug wq t i p
  | SubmitDumpSfInfo i => pci_cfg_workqueue_submit_dump_sf_info wq i
  | SubmitVfeFanOut t pf b => pci_cfg_workqueue_submit_vfe_fan_out wq t pf b
  | SubmitVfEngineSetup t pf i => pci_cfg_workqueue_submit_vf_engine_setup wq t pf i
  | SubmitVfVqConfig t pf i v => pci_cfg_workqueue_submit_vf_vq_config wq t pf i v
  | SubmitVfEngineEnable pf i => pci_cfg_workqueue_submit_vf_engine_enable wq pf i
  | SubmitVfDatapathReset pf i => pci_cfg_workqueue_submit_vf_datapath_reset wq pf i
  | SubmitVfFlrReset pf i => pci_cfg_workqueue_submit_vf_flr_reset wq pf i
  | SubmitVqConfig c d v => pci_cfg_workqueue_submit_vq_config g wq c d v
  | SubmitDelayedDestroy u p t ep => snd <$> pci_cfg_workqueue_submit_delayed_destroy wq u p t ep
  end.

(** What can happen to the queue, in any order. *)
Inductive action :=
| Submit (s : submission)
| Work
| ResetBarrier (in_progress : bool)   (* the device handler sets or clears reset_in_progress *)
| Generations (g : generations)       (* devices are reset, made and destroyed *)
| Shutdown.

(** The item a submission put at the end of the queue. *)
Definition accepted (wq wq' : pci_cfg_workqueue) : res (list event) :=
  if bool_decide (wq_pending_work_count wq' = wq_pending_work_count wq) then Done []
  else match wq_tail wq' with
  | None => Done []
  | Some i => it ← item_at wq' i; Done [Accepted (wi_work it)]
  end.
Definition act (s : worker_state) (a : action) : res (worker_state * list event) :=
  match a with
  | Submit c => '(_, wq) ← submit_call (ws_g s) (ws_wq s) c; evs ← accepted (ws_wq s) wq; Done ({| s with ws_wq := wq |}, evs)
  | Work => pci_cfg_worker_step s
  | ResetBarrier b => Done ({| s with ws_wq := {| (ws_wq s) with wq_reset_in_progress := b |} |}, [])
  | Generations g => Done ({| s with ws_g := g |}, [])
  | Shutdown => Done ({| s with ws_wq := pci_cfg_workqueue_shutdown (ws_wq s) |}, [])
  end.
Fixpoint acts (s : worker_state) (l : list action) : res (worker_state * list event) :=
  match l with
  | [] => Done (s, [])
  | a :: l => '(s, e) ← act s a; '(s, es) ← acts s l; Done (s, e ++ es)
  end.
Definition worker_start (g : generations) : worker_state := {| ws_wq := pci_cfg_workqueue_init; ws_pc := AtTop; ws_g := g |}.

Definition accepts (evs : list event) : list pci_cfg_work := omap (fun e => match e with Accepted w => Some w | _ => None end) evs.
Definition takes (evs : list event) : list pci_cfg_work := omap (fun e => match e with Taken w => Some w | _ => None end) evs.
Definition disposals (evs : list event) : list pci_cfg_work :=
  omap (fun e => match e with Executed w | Skipped w | Discarded w => Some w | _ => None end) evs.

(** ** The queue as a list

    [chain items p q e]: following the links from [p] visits the items [q] and ends at [e]. *)

Definition next_of (items : list pci_cfg_work_item) (i : nat) : option (option nat) := wi_next <$> items !! i.
Fixpoint chain (items : list pci_cfg_work_item) (p : option nat) (q : list nat) (e : option nat) : Prop :=
  match q with
  | [] => p = e
  | i :: q => p = Some i ∧ exists n, next_of items i = Some n ∧ chain items n q e
  end.

Definition work_at (wq : pci_cfg_workqueue) (i : nat) : pci_cfg_work := wi_work (default zero_item (wq_items wq !! i)).
Definition used (wq : pci_cfg_workqueue) (i : nat) : Prop := wi_in_use <$> wq_items wq !! i = Some true.

(** The queue holds the items [q], in this order, and the items [busy] are in use outside of it. *)
Record wq_wf (wq : pci_cfg_workqueue) (q busy : list nat) : Prop := {
  wf_chain : chain (wq_items wq) (wq_head wq) q None;
  wf_tail : wq_tail wq = list.last q;
  wf_nodup : NoDup (q ++ busy);
  wf_used : forall i, used wq i <-> i ∈ q ++ busy;
  wf_free : wq_free_count wq = Z.of_nat (length (wq_items wq)) - Z.of_nat (length (q ++ busy));
  wf_pending : wq_pending_work_count wq = Z.of_nat (length q);
  wf_size : Z.of_nat (length (wq_items wq)) = 1024;
}.

Lemma chain_ext items items' p q e :
  (forall i, i ∈ q -> next_of items' i = next_of items i) -> chain items p q e -> chain items' p q e.
Proof.
  revert p. induction q as [|i q IH]; intros p He H; [done|].
  destruct H as (-> & n & Hn & H). split; [done|]. exists n. rewrite He by set_solver.
  split; [done|]. apply IH; [set_solver|done].
Qed.

Lemma chain_app items p q1 q2 e : chain items p (q1 ++ q2) e <-> exists m, chain items p q1 m ∧ chain items m q2 e.
Proof.
  revert p. induction q1 as [|i q1 IH]; intros p; simpl.
  - split; [by eauto | by intros (m & -> & ?)].
  - split.
    + intros (-> & n & Hn & (m & Hm & H2)%IH). exists m. split; [|done]. eauto.
    + intros (m & (-> & n & Hn & H1) & H2). split; [done|]. exists n. split; [done|]. apply IH. eauto.
Qed.

Lemma chain_lookup items p q e i : chain items p q e -> i ∈ q -> exists it, items !! i = Some it.
Proof.
  revert p. induction q as [|j q IH]; intros p H Hi; [set_solver|].
  destruct H as (-> & n & Hn & H). apply elem_of_cons in Hi as [->|Hi]; [|by eapply IH].
  unfold next_of in Hn. destruct (items !! j); [by eauto|done].
Qed.

Lemma next_of_insert items i it j : i <> j -> next_of (<[i:=it]> items) j = next_of items j.
Proof. intros. unfold next_of. by rewrite list_lookup_insert_ne. Qed.
Lemma next_of_insert_eq items i it it' : items !! i = Some it -> next_of (<[i:=it']> items) i = Some (wi_next it').
Proof. intros H%lookup_lt_Some. unfold next_of. by rewrite list_lookup_insert_eq. Qed.
Lemma next_of_insert_same items i it it' j : items !! i = Some it -> wi_next it' = wi_next it ->
  next_of (<[i:=it']> items) j = next_of items j.
Proof.
  intros Hi Hn. destruct (decide (i = j)) as [<-|Hij]; [|by apply next_of_insert].
  rewrite (next_of_insert_eq _ _ _ _ Hi). unfold next_of. by rewrite Hi, Hn.
Qed.

Lemma chain_length items p q e : chain items p q e -> NoDup q -> (length q <= length items)%nat.
Proof.
  intros H Hq. rewrite <- (length_seq (length items) 0). apply submseteq_length, NoDup_submseteq; [done|].
  intros i Hi. destruct (chain_lookup _ _ _ _ _ H Hi) as [it Hit%lookup_lt_Some]. apply elem_of_seq. lia.
Qed.
Lemma used_insert wq i it j : (i < length (wq_items wq))%nat ->
  used (put_item wq i it) j <-> (if decide (i = j) then wi_in_use it = true else used wq j).
Proof.
  intros Hi. unfold used, put_item. simpl. case_decide as Hij.
  - subst j. rewrite list_lookup_insert_eq by done. simpl. split; [by intros [= ->]|by intros ->].
  - by rewrite list_lookup_insert_ne.
Qed.
Lemma used_lookup wq i : used wq i -> exists it, wq_items wq !! i = Some it ∧ wi_in_use it = true.
Proof. unfold used. destruct (wq_items wq !! i) as [it|]; simpl; [|done]. intros [= H]. eauto. Qed.
Lemma work_at_insert wq i it j : i <> j -> work_at (put_item wq i it) j = work_at wq j.
Proof. intros. unfold work_at, put_item. simpl. by rewrite list_lookup_insert_ne. Qed.
Lemma works_ext wq wq' q : (forall i, i ∈ q -> work_at wq' i = work_at wq i) -> map (work_at wq') q = map (work_at wq) q.
Proof. intros H. apply map_ext_in. intros i Hi. apply H. by apply list_elem_of_In. Qed.

(** ** The pool and the queue keep the invariant *)

Ltac wf_same H := destruct H; constructor; done.

Lemma elem_app_cons {A} (x i : A) (q l : list A) : x ∈ q ++ i :: l <-> x = i ∨ x ∈ q ++ l.
Proof. set_solver. Qed.
Lemma length_app_cons {A} (i : A) (q l : list A) : length (q ++ i :: l) = S (length (q ++ l)).
Proof. rewrite !length_app. simpl. lia. Qed.

Lemma wf_length wq q busy : wq_wf wq q busy -> (length (q ++ busy) <= length (wq_items wq))%nat.
Proof.
  intros [_ _ Hd Hu _ _ _]. rewrite <- (length_seq (length (wq_items wq)) 0). apply submseteq_length, NoDup_submseteq; [done|].
  intros i (it & Hit%lookup_lt_Some & _)%Hu%used_lookup. apply elem_of_seq. lia.
Qed.
Lemma wf_item wq q busy i : wq_wf wq q busy -> i ∈ q ++ busy -> exists it, wq_items wq !! i = Some it.
Proof. intros [_ _ _ Hu _ _ _] (it & Hit & _)%Hu%used_lookup. eauto. Qed.

Lemma free_slot_Some l i : free_slot l = Some i -> exists it, l !! i = Some it ∧ wi_in_use it = false.
Proof.
  revert i. induction l as [|it l IH]; intros i; simpl; [done|]. destruct (wi_in_use it) eqn:E; simpl.
  - destruct (free_slot l) as [j|] eqn:Ej; simpl; [|done]. intros [= <-]. by apply IH.
  - intros [= <-]. eauto.
Qed.
Lemma free_slot_None l i it : free_slot l = None -> l !! i = Some it -> wi_in_use it = true.
Proof.
  revert i. induction l as [|jt l IH]; intros i; [done|]. simpl. destruct (wi_in_use jt) eqn:E; simpl; [|done].
  destruct (free_slot l) eqn:Ej; [done|]. intros _. destruct i; simpl; [by intros [= <-]|by apply IH].
Qed.

(** Writing an item without its link. *)
Lemma wf_put wq q busy i it it' : wq_wf wq q busy -> wq_items wq !! i = Some it ->
  wi_next it' = wi_next it -> wi_in_use it' = wi_in_use it -> wq_wf (put_item wq i it') q busy.
Proof.
  intros [Hc Ht Hd Hu Hf Hp Hs] Hi Hn Huse. constructor; simpl; try rewrite length_insert; try done.
  - eapply chain_ext; [|done]. intros j _. by eapply next_of_insert_same.
  - intros j. rewrite used_insert by (by eapply lookup_lt_Some). case_decide; [|by apply Hu].
    subst j. rewrite Huse, <- Hu. unfold used. rewrite Hi. simpl. split; [by intros ->|by intros [= ->]].
Qed.

Lemma alloc_spec wq q busy : wq_wf wq q busy ->
  (wq_free_count wq = 0 ∧ work_pool_alloc wq = (None, wq)) ∨
  exists i, wq_free_count wq > 0 ∧ (i ∉ q ++ busy) ∧
    (i < length (wq_items wq))%nat ∧
    work_pool_alloc wq = (Some i, put_item {| wq with wq_free_count := (wq_free_count wq - 1) |} i {| zero_item with wi_in_use := true |}).
Proof.
  intros Hwf. pose proof (wf_length _ _ _ Hwf) as Hl. destruct Hwf as [Hc Ht Hd Hu Hf Hp Hs].
  unfold work_pool_alloc. destruct (wq_free_count wq =? 0) eqn:E; [left; split; [lia|done]|]. right.
  destruct (free_slot (wq_items wq)) as [i|] eqn:Ei.
  - destruct (free_slot_Some _ _ Ei) as (it & Hit & Huse). exists i. rewrite <- Hu. unfold used. rewrite Hit. simpl.
    split; [lia|]. split; [intros [= ?]; congruence|]. split; [by eapply lookup_lt_Some|].
    rewrite u32_small by lia. done.
  - exfalso. assert (length (wq_items wq) <= length (q ++ busy))%nat; [|lia].
    rewrite <- (length_seq (length (wq_items wq)) 0). apply submseteq_length, NoDup_submseteq; [apply NoDup_seq|].
    intros i [_ Hi]%elem_of_seq. destruct (lookup_lt_is_Some_2 _ _ Hi) as [it Hit].
    apply Hu. unfold used. rewrite Hit. simpl. f_equal. by eapply free_slot_None.
Qed.

(** An item the pool gave out, filled in by its caller. *)
Lemma wf_alloc wq q busy i it : wq_wf wq q busy -> i ∉ q ++ busy -> (i < length (wq_items wq))%nat -> wi_in_use it = true ->
  wq_wf (put_item {| wq with wq_free_count := (wq_free_count wq - 1) |} i it) q (i :: busy).
Proof.
  intros [Hc Ht Hd Hu Hf Hp Hs] Hn Hi Huse. constructor; simpl; rewrite ?length_insert; try done.
  - eapply chain_ext; [|done]. intros j Hj. apply next_of_insert. intros ->. set_solver.
  - rewrite list.NoDup_app in Hd. rewrite list.NoDup_app, list.NoDup_cons. set_solver.
  - intros j. rewrite elem_app_cons. rewrite used_insert by done. case_decide; [naive_solver|].
    rewrite <- Hu. unfold used. simpl. naive_solver.
  - rewrite length_app_cons. lia.
Qed.

Lemma free_spec wq q busy i : wq_wf wq q (i :: busy) -> wq_wf (work_pool_free wq i) q busy.
Proof.
  intros Hwf. pose proof (wf_length _ _ _ Hwf) as Hl. destruct (wf_item _ _ _ i Hwf ltac:(set_solver)) as [it Hit].
  destruct Hwf as [Hc Ht Hd Hu Hf Hp Hs]. rewrite length_app_cons in Hf, Hl.
  unfold work_pool_free. rewrite Hit. constructor; simpl; rewrite ?length_insert; try done.
  - eapply chain_ext; [|done]. intros j _. by eapply next_of_insert_same.
  - rewrite list.NoDup_app, list.NoDup_cons in Hd. rewrite list.NoDup_app. set_solver.
  - intros j. rewrite used_insert by (simpl; by eapply lookup_lt_Some). case_decide as Hj.
    + subst j. simpl. split; [done|]. rewrite list.NoDup_app, list.NoDup_cons in Hd. set_solver.
    + change (used wq j <-> j ∈ q ++ busy). rewrite Hu. set_solver.
  - rewrite u32_small by lia. lia.
Qed.

(** Writing the link of an item. *)
Record relinked (wq wq' : pci_cfg_workqueue) (i : nat) (p : option nat) : Prop := {
  rl_work : forall j, work_at wq' j = work_at wq j;
  rl_used : forall j, used wq' j <-> used wq j;
  rl_here : next_of (wq_items wq') i = Some p;
  rl_else : forall j, j <> i -> next_of (wq_items wq') j = next_of (wq_items wq) j;
  rl_length : length (wq_items wq') = length (wq_items wq);
  rl_fields : wq' = {| wq with wq_items := wq_items wq' |};
}.
Lemma set_next_ok wq i it p : wq_items wq !! i = Some it -> exists wq', set_next wq i p = Done wq' ∧ relinked wq wq' i p.
Proof.
  intros Hi. pose proof (lookup_lt_Some _ _ _ Hi) as Hlt. eexists. split.
  - unfold set_next, item_at. rewrite Hi. done.
  - constructor; simpl.
    + intros j. unfold work_at. simpl. destruct (decide (i = j)) as [<-|Hj].
      * by rewrite list_lookup_insert_eq, Hi.
      * by rewrite list_lookup_insert_ne.
    + intros j. rewrite used_insert by done. case_decide; [|done]. subst j. unfold used. rewrite Hi. simpl.
      split; [by intros ->|by intros [= ->]].
    + by eapply next_of_insert_eq.
    + intros j Hj. by apply next_of_insert.
    + apply length_insert.
    + done.
Qed.

Ltac relink H Hr wq' :=
  let E := fresh "E" in
  match goal with |- context [set_next ?wq ?i ?p] =>
    destruct (set_next_ok wq i _ p H) as (wq' & E & Hr); rewrite E; clear E; cbn [mbind res_bind]
  end.

Lemma relinked_item wq wq' i p j it : relinked wq wq' i p -> wq_items wq !! j = Some it -> exists it', wq_items wq' !! j = Some it'.
Proof. intros H Hj%lookup_lt_Some. apply lookup_lt_is_Some_2. by rewrite (rl_length _ _ _ _ H). Qed.
Lemma relinked_field {A} (f : pci_cfg_workqueue -> A) wq wq' i p : relinked wq wq' i p ->
  (forall l, f {| wq with wq_items := l |} = f wq) -> f wq' = f wq.
Proof. intros H Hf. rewrite (rl_fields _ _ _ _ H). apply Hf. Qed.

Lemma chain_relinked wq wq' i x p q e : relinked wq wq' i x -> i ∉ q ->
  chain (wq_items wq) p q e -> chain (wq_items wq') p q e.
Proof. intros H Hq. apply chain_ext. intros j Hj. apply (rl_else _ _ _ _ H). intros ->. done. Qed.
(** Changing the link of the last item of a part of the queue. *)
Lemma chain_relinked_last wq wq' q t x p e : relinked wq wq' t x -> t ∉ q ->
  chain (wq_items wq) p (q ++ [t]) e -> chain (wq_items wq') p (q ++ [t]) x.
Proof.
  intros H Hq (m & H1 & -> & n & _ & _)%chain_app. apply chain_app. exists (Some t).
  split; [by eapply chain_relinked|]. split; [done|]. exists x. split; [apply (rl_here _ _ _ _ H)|done].
Qed.

(** The items in use are the same and are queued differently. *)
Lemma wf_requeue wq wq' q busy q' busy' : wq_wf wq q busy ->
  (forall j, used wq' j <-> used wq j) -> length (wq_items wq') = length (wq_items wq) -> wq_free_count wq' = wq_free_count wq ->
  q' ++ busy' ≡ₚ q ++ busy -> chain (wq_items wq') (wq_head wq') q' None -> wq_tail wq' = list.last q' ->
  wq_pending_work_count wq' = Z.of_nat (length q') -> wq_wf wq' q' busy'.
Proof.
  intros [Hc Ht Hd Hu Hf Hp Hz] Hu' Hl Hf' HP Hc' Ht' Hp'. constructor; try done.
  - by rewrite HP.
  - intros j. by rewrite Hu', Hu, HP.
  - by rewrite Hf', Hf, Hl, HP.
  - by rewrite Hl.
Qed.

Lemma enqueue_spec wq q busy i : wq_wf wq q (i :: busy) -> wq_shutdown wq = false ->
  exists wq', pci_cfg_workqueue_enqueue wq i = Done wq' ∧ wq_wf wq' (q ++ [i]) busy ∧
    (forall j, work_at wq' j = work_at wq j) ∧ wq_shutdown wq' = false.
Proof.
  intros Hwf Hs. destruct (wf_item _ _ _ i Hwf ltac:(set_solver)) as [it Hit].
  pose proof (wf_length _ _ _ Hwf) as Hl. rewrite length_app_cons, length_app in Hl. pose proof Hwf as [Hc Ht Hd _ _ Hp Hz].
  unfold pci_cfg_workqueue_enqueue. rewrite Hs. relink Hit R1 wq1. pose proof (rl_fields _ _ _ _ R1) as F1.
  rewrite (relinked_field wq_tail _ _ _ _ R1), Ht by done.
  assert (Hi : i ∉ q). { rewrite list.NoDup_app in Hd. set_solver. }
  assert (HP : (q ++ [i]) ++ busy ≡ₚ q ++ i :: busy) by by rewrite <- app_assoc.
  destruct (list.last q) as [t|] eqn:Et.
  - apply last_Some in Et as [q' ->].
    assert (Htt : t ∉ q') by (rewrite !list.NoDup_app in Hd; set_solver). assert (t <> i) by set_solver.
    destruct (chain_lookup _ _ _ _ t Hc ltac:(set_solver)) as [jt Hjt].
    destruct (relinked_item _ _ _ _ _ _ R1 Hjt) as [jt' Hjt'].
    relink Hjt' R2 wq2. pose proof (rl_fields _ _ _ _ R2) as F2. eexists. split; [done|].
    split; [apply (wf_requeue _ _ _ _ _ _ Hwf); simpl; try done|split].
    + intros j. trans (used wq1 j); [apply (rl_used _ _ _ _ R2)|apply (rl_used _ _ _ _ R1)].
    + by rewrite (rl_length _ _ _ _ R2), (rl_length _ _ _ _ R1).
    + by rewrite F2, F1.
    + rewrite F2. simpl. rewrite F1. simpl. rewrite chain_app. exists (Some i). split.
      * eapply chain_relinked_last; [done|done|]. eapply chain_relinked; done.
      * split; [done|]. exists None. split; [|done]. rewrite (rl_else _ _ _ _ R2) by done. apply (rl_here _ _ _ _ R1).
    + by rewrite last_snoc.
    + rewrite F2, F1. simpl. rewrite Hp, u32_small, (length_app (q' ++ [t])) by lia. simpl. lia.
    + intros j. trans (work_at wq1 j); [apply (rl_work _ _ _ _ R2)|apply (rl_work _ _ _ _ R1)].
    + simpl. by rewrite F2, F1.
  - apply last_None in Et as ->. eexists. split; [done|].
    split; [apply (wf_requeue _ _ _ _ _ _ Hwf); simpl; try done|split].
    + apply (rl_used _ _ _ _ R1).
    + by rewrite (rl_length _ _ _ _ R1).
    + by rewrite F1.
    + split; [done|]. exists None. split; [apply (rl_here _ _ _ _ R1)|done].
    + rewrite F1. simpl. rewrite Hp. by rewrite u32_small.
    + apply (rl_work _ _ _ _ R1).
    + simpl. by rewrite F1.
Qed.

Lemma enqueue_shutdown wq q busy i : wq_wf wq q (i :: busy) -> wq_shutdown wq = true ->
  exists wq', pci_cfg_workqueue_enqueue wq i = Done wq' ∧ wq_wf wq' q busy ∧
    (forall j, work_at wq' j = work_at wq j) ∧ wq_shutdown wq' = true.
Proof.
  intros Hwf Hs. unfold pci_cfg_workqueue_enqueue. rewrite Hs. eexists. split; [done|].
  destruct (wf_item _ _ _ i Hwf ltac:(set_solver)) as [it Hit]. split; [|split].
  - apply free_spec. wf_same Hwf.
  - intros j. unfold work_pool_free, work_at. simpl. rewrite Hit. simpl. destruct (decide (i = j)) as [<-|].
    + rewrite list_lookup_insert_eq by by eapply lookup_lt_Some. by rewrite Hit.
    + by rewrite list_lookup_insert_ne.
  - unfold work_pool_free. simpl. by rewrite Hit.
Qed.

(** A submission finds the pool empty, is dropped after the shutdown, or is the last in the queue. *)
Lemma submit_spec wq q busy w dev generation : wq_wf wq q busy ->
  exists b wq', pci_cfg_workqueue_submit wq w dev generation = Done (b, wq') ∧
    (forall j, j ∈ q ++ busy -> work_at wq' j = work_at wq j) ∧ wq_shutdown wq' = wq_shutdown wq ∧
    (wq_free_count wq = 0 ∧ b = false ∧ wq' = wq ∨
     wq_free_count wq > 0 ∧ b = true ∧ wq_shutdown wq = true ∧ wq_wf wq' q busy ∨
     wq_free_count wq > 0 ∧ b = true ∧ wq_shutdown wq = false ∧ exists i, work_at wq' i = w ∧ wq_wf wq' (q ++ [i]) busy).
Proof.
  intros Hwf. unfold pci_cfg_workqueue_submit.
  destruct (alloc_spec _ _ _ Hwf) as [[H0 ->]|(i & Hp & Hi & Hlt & ->)]; [naive_solver|].
  unfold item_at. simpl. rewrite list_lookup_insert_eq by done. cbn [mbind res_bind].
  set (wq1 := put_item (put_item _ _ _) _ _).
  assert (H1 : wq_wf wq1 q (i :: busy)).
  { eapply wf_put; [by apply wf_alloc|simpl; by rewrite list_lookup_insert_eq|done|done]. }
  assert (Hsame : forall j, j ∈ q ++ busy -> work_at wq1 j = work_at wq j).
  { intros j Hj. assert (i <> j) by set_solver. unfold wq1. by rewrite !work_at_insert. }
  assert (Hw : work_at wq1 i = w).
  { unfold work_at, wq1. simpl. rewrite list_lookup_insert_eq by by rewrite length_insert. done. }
  change (wq_shutdown wq) with (wq_shutdown wq1). destruct (wq_shutdown wq1) eqn:Es.
  - destruct (enqueue_shutdown _ _ _ _ H1 Es) as (wq' & -> & Hwf' & Hsame' & Hs'). cbn [mbind res_bind].
    exists true, wq'. split; [done|]. split; [intros j Hj; rewrite Hsame'; auto|]. naive_solver.
  - destruct (enqueue_spec _ _ _ _ H1 Es) as (wq' & -> & Hwf' & Hsame' & Hs'). cbn [mbind res_bind].
    exists true, wq'. split; [done|]. split; [intros j Hj; rewrite Hsame'; auto|]. split; [done|].
    right. right. split; [done|]. do 2 (split; [done|]). exists i. by rewrite Hsame'.
Qed.

(** ** What the worker takes *)

Fixpoint split_first {A} (P : A -> bool) (l : list A) : option (list A * A * list A) :=
  match l with
  | [] => None
  | x :: l => if P x then Some ([], x, l) else '(pre, y, post) ← split_first P l; Some (x :: pre, y, post)
  end.
(** A bring-up of [pf] may overtake [w]. *)
Definition overtaken (pf : option Z) (w : pci_cfg_work) : bool :=
  negb (bool_decide (pci_cfg_work_owner_pf w = None) || bool_decide (pci_cfg_work_owner_pf w = pf)).
(** The queue before the item that is next, the item, and the queue after it: the first bring-up if it may overtake all before
    it, or else the first item. *)
Definition next_item {A} (work : A -> pci_cfg_work) (q : list A) : option (list A * A * list A) :=
  match split_first (is_bring_up ∘ work) q with
  | Some (pre, i, post) =>
    if forallb (overtaken (pci_cfg_work_owner_pf (work i)) ∘ work) pre then Some (pre, i, post) else split_first (const true) q
  | None => split_first (const true) q
  end.

Lemma split_first_app {A} (P : A -> bool) l pre x post : split_first P l = Some (pre, x, post) ->
  l = pre ++ x :: post ∧ P x = true ∧ forallb (negb ∘ P) pre = true.
Proof.
  revert pre. induction l as [|y l IH]; intros pre; simpl; [done|]. destruct (P y) eqn:E.
  - intros [= <- <- <-]. done.
  - destruct (split_first P l) as [[[pre' y'] post']|]; simpl; [|done]. intros [= <- <- <-].
    destruct (IH pre' eq_refl) as (-> & ? & ?). simpl. by rewrite E.
Qed.
Lemma item_at_chain wq p q e i : chain (wq_items wq) p q e -> i ∈ q ->
  exists it, item_at wq i = Done it ∧ wi_work it = work_at wq i ∧ next_of (wq_items wq) i = Some (wi_next it).
Proof.
  intros H Hi. destruct (chain_lookup _ _ _ _ _ H Hi) as [it Hit]. exists it. unfold item_at, work_at, next_of. by rewrite Hit.
Qed.

Definition or_else {A} (x y : option A) : option A := match x with Some _ => x | None => y end.

Lemma bring_up_scan_spec fuel wq p q prev : chain (wq_items wq) p q None -> (length q < fuel)%nat ->
  bring_up_scan fuel wq p prev =
  Done (match split_first (is_bring_up ∘ work_at wq) q with
        | Some (pre, i, _) => (Some i, or_else (list.last pre) prev)
        | None => (None, or_else (list.last q) prev)
        end).
Proof.
  revert fuel p prev. induction q as [|i q IH]; intros fuel p prev H Hf; (destruct fuel as [|fuel]; [simpl in *; lia|]).
  - simpl in H. by subst p.
  - destruct (item_at_chain _ _ _ _ i H ltac:(set_solver)) as (it & Eit & Hw & Hn'). destruct H as (-> & n & Hn & H). simplify_eq.
    simpl in *. rewrite Eit. cbn [mbind res_bind]. rewrite Hw. destruct (is_bring_up (work_at wq i)); [done|].
    rewrite (IH fuel (wi_next it) (Some i)) by (done || lia). destruct (split_first _ q) as [[[pre j] post]|]; simpl.
    + rewrite last_cons. by destruct (list.last pre).
    + rewrite last_cons. by destruct (list.last q).
Qed.
Lemma promotable_spec fuel wq p pre e pf : chain (wq_items wq) p pre (Some e) -> e ∉ pre -> (length pre < fuel)%nat ->
  pci_cfg_work_promotable_over fuel wq p e pf = Done (forallb (overtaken pf ∘ work_at wq) pre).
Proof.
  revert fuel p. induction pre as [|i pre IH]; intros fuel p H He Hf; (destruct fuel as [|fuel]; [simpl in *; lia|]).
  - simpl in *. subst p. by rewrite bool_decide_eq_true_2.
  - destruct (item_at_chain _ _ _ _ i H ltac:(set_solver)) as (it & Eit & Hw & Hn'). destruct H as (-> & n & Hn & H). simplify_eq.
    simpl in *. rewrite bool_decide_eq_false_2 by (intros [= ->]; set_solver). rewrite Eit. cbn [mbind res_bind]. rewrite Hw.
    unfold overtaken at 1. destruct (_ || _); simpl; [done|]. apply IH; [done|set_solver|lia].
Qed.

(** The item [i], whose neighbours are linked to each other. *)
Lemma dequeued_spec wq wq1 pre i post busy : wq_wf wq (pre ++ i :: post) busy ->
  (forall j, used wq1 j <-> used wq j) -> (forall j, work_at wq1 j = work_at wq j) ->
  length (wq_items wq1) = length (wq_items wq) -> wq_free_count wq1 = wq_free_count wq ->
  wq_pending_work_count wq1 = wq_pending_work_count wq -> wq_shutdown wq1 = wq_shutdown wq ->
  chain (wq_items wq1) (wq_head wq1) (pre ++ post) None -> wq_tail wq1 = list.last (pre ++ post) ->
  exists wq', dequeued wq1 i = Done (Some i, wq') ∧ wq_wf wq' (pre ++ post) (i :: busy) ∧
    (forall j, work_at wq' j = work_at wq j) ∧ wq_shutdown wq' = wq_shutdown wq.
Proof.
  intros Hwf Hu Hw Hl Hf Hp Hs Hc Ht. destruct (wf_item _ _ _ i Hwf ltac:(set_solver)) as [it Hit].
  destruct (lookup_lt_is_Some_2 (wq_items wq1) i) as [it1 Hit1]. { rewrite Hl. by eapply lookup_lt_Some. }
  assert (Hi : i ∉ pre ++ post). { pose proof (wf_nodup _ _ _ Hwf) as Hd. rewrite !list.NoDup_app, list.NoDup_cons in Hd. set_solver. }
  pose proof (wf_length _ _ _ Hwf) as Hlen. pose proof (wf_size _ _ _ Hwf). pose proof (wf_pending _ _ _ Hwf) as Hpend.
  rewrite length_app, length_app_cons in Hlen. rewrite length_app_cons in Hpend.
  unfold dequeued. relink Hit1 R wq2. pose proof (rl_fields _ _ _ _ R) as F. eexists. split; [done|].
  split; [apply (wf_requeue _ _ _ _ _ _ Hwf); simpl|split; simpl].
  - intros j. trans (used wq1 j); [apply (rl_used _ _ _ _ R)|apply Hu].
  - by rewrite (rl_length _ _ _ _ R).
  - by rewrite F.
  - rewrite <- !app_assoc. simpl. solve_Permutation.
  - rewrite F. simpl. by eapply chain_relinked.
  - by rewrite F.
  - rewrite F. simpl. rewrite Hp, Hpend, u32_small by lia. lia.
  - intros j. trans (work_at wq1 j); [apply (rl_work _ _ _ _ R)|apply Hw].
  - by rewrite F.
Qed.

Lemma dequeue_head_spec wq i q busy : wq_wf wq (i :: q) busy ->
  exists wq', dequeue_head wq i = Done (Some i, wq') ∧ wq_wf wq' q (i :: busy) ∧
    (forall j, work_at wq' j = work_at wq j) ∧ wq_shutdown wq' = wq_shutdown wq.
Proof.
  intros Hwf. pose proof Hwf as [Hc Ht _ _ _ _ _]. destruct (item_at_chain _ _ _ _ i Hc ltac:(set_solver)) as (it & Eit & _ & Hn').
  unfold dequeue_head. rewrite Eit. cbn [mbind res_bind]. destruct Hc as (_ & n & Hn & Hc). simplify_eq.
  eapply (dequeued_spec wq _ [] i q busy); simpl; try done.
  destruct q as [|j q]; simpl in Hc.
  - by rewrite Hc, bool_decide_eq_true_2.
  - destruct Hc as (-> & _). rewrite bool_decide_eq_false_2, Ht by done. done.
Qed.

(** A bring-up after [pre' ++ [prev]] is taken out of the middle. *)
Lemma dequeue_promoted_spec wq pre' prev i post busy sit : wq_wf wq ((pre' ++ [prev]) ++ i :: post) busy -> item_at wq i = Done sit ->
  exists wq',
    (wq1 ← set_next wq prev (wi_next sit);
     dequeued {| wq1 with wq_tail := if bool_decide (wq_tail wq1 = Some i) then Some prev else wq_tail wq1 |} i) = Done (Some i, wq') ∧
    wq_wf wq' ((pre' ++ [prev]) ++ post) (i :: busy) ∧ (forall j, work_at wq' j = work_at wq j) ∧ wq_shutdown wq' = wq_shutdown wq.
Proof.
  intros Hwf Esit. pose proof Hwf as [Hc Ht Hd _ _ _ _].
  destruct (item_at_chain _ _ _ _ i Hc ltac:(set_solver)) as (sit' & Esit' & _ & Hsn).
  rewrite Esit in Esit'. simplify_eq.
  pose proof Hc as (m & Hc1 & -> & n & Hn & Hc2)%chain_app. simplify_eq.
  assert ((i ∉ post) ∧ (prev ∉ pre') ∧ (prev ∉ post)) as (Hi1 & Hi2 & Hi3).
  { rewrite list.NoDup_app, list.NoDup_app, list.NoDup_cons, list.NoDup_app in Hd. set_solver. }
  destruct (chain_lookup _ _ _ _ prev Hc1 ltac:(set_solver)) as [pit Hpit]. relink Hpit R wq1.
  pose proof (rl_fields _ _ _ _ R) as F.
  eapply (dequeued_spec wq _ (pre' ++ [prev]) i post busy Hwf); simpl.
  - apply (rl_used _ _ _ _ R).
  - apply (rl_work _ _ _ _ R).
  - apply (rl_length _ _ _ _ R).
  - by rewrite F.
  - by rewrite F.
  - by rewrite F.
  - rewrite F. simpl. apply chain_app. exists (wi_next sit'). split; [by eapply chain_relinked_last|by eapply chain_relinked].
  - rewrite F. simpl. rewrite Ht. destruct post as [|j post _] using rev_ind.
    + rewrite last_snoc, app_nil_r, last_snoc. by rewrite bool_decide_eq_true_2.
    + rewrite (app_comm_cons post [j] i), !app_assoc, !last_snoc. rewrite bool_decide_eq_false_2; [done|].
      intros [= ->]. set_solver.
Qed.

(** The worker takes what [next_item] says. *)
Lemma dequeue_spec wq q busy : wq_wf wq q busy ->
  match next_item (work_at wq) q with
  | None => q = [] ∧ pci_cfg_workqueue_dequeue_locked wq = Done (None, wq)
  | Some (pre, i, post) => exists wq', pci_cfg_workqueue_dequeue_locked wq = Done (Some i, wq') ∧
      wq_wf wq' (pre ++ post) (i :: busy) ∧ (forall j, work_at wq' j = work_at wq j) ∧ wq_shutdown wq' = wq_shutdown wq
  end.
Proof.
  intros Hwf. pose proof Hwf as [Hc Ht Hd _ _ _ _]. unfold next_item, pci_cfg_workqueue_dequeue_locked.
  destruct q as [|h q]. { simpl in *. by rewrite Hc. }
  pose proof (chain_length _ _ _ _ Hc ltac:(rewrite list.NoDup_app in Hd; naive_solver)) as Hlen.
  destruct (item_at_chain _ _ _ _ h Hc ltac:(set_solver)) as (it & Eit & Hw & _).
  destruct (dequeue_head_spec _ _ _ _ Hwf) as (wqh & Eh & Hh).
  assert (Hhead : wq_head wq = Some h) by by destruct Hc. rewrite Hhead, Eit. cbn [mbind res_bind]. rewrite Hw.
  destruct (is_bring_up (work_at wq h)) eqn:Eb. { simpl. rewrite Eb. simpl. eauto. }
  rewrite (bring_up_scan_spec _ _ _ (h :: q)) by (rewrite <- ?Hhead; done || (unfold queue_fuel; lia)). cbn [mbind res_bind].
  destruct (split_first (is_bring_up ∘ work_at wq) (h :: q)) as [[[pre i] post]|] eqn:Es.
  2:{ destruct (list.last (h :: q)); simpl; eauto. }
  apply split_first_app in Es as (Eq & Hi & _).
  destruct (list.last pre) as [prev|] eqn:El.
  2:{ apply last_None in El as ->. simplify_eq/=. congruence. }
  apply last_Some in El as [pre' ->]. cbn [or_else].
  rewrite Eq in Hc. destruct (item_at_chain _ _ _ _ i Hc ltac:(set_solver)) as (sit & Esit & Hsw & Hsn).
  rewrite Esit. cbn [mbind res_bind]. rewrite Hsw.
  pose proof Hc as (m & Hc1 & -> & _)%chain_app.
  assert (Hi1 : i ∉ pre' ++ [prev]).
  { rewrite Eq, list.NoDup_app, list.NoDup_app, list.NoDup_cons, list.NoDup_app in Hd. set_solver. }
  assert (Hlp : (length (pre' ++ [prev]) < queue_fuel wq)%nat).
  { unfold queue_fuel. rewrite Eq, length_app in Hlen. lia. }
  rewrite Hhead in Hc1. rewrite (promotable_spec _ _ _ _ _ _ Hc1 Hi1 Hlp). cbn [mbind res_bind].
  destruct (forallb _ (pre' ++ [prev])); [|simpl; eauto]. rewrite Eq in Hwf.
  exact (dequeue_promoted_spec _ _ _ _ _ _ _ Hwf Esit).
Qed.

(** ** The order of the items *)

(** [w] is kept in order with the items of [pf]: it is one of them, or it belongs to no physical function. *)
Definition in_order_of (pf : Z) (w : pci_cfg_work) : Prop := pci_cfg_work_owner_pf w = None ∨ pci_cfg_work_owner_pf w = Some pf.
#[global] Instance in_order_of_dec pf w : Decision (in_order_of pf w).
Proof. unfold in_order_of. apply _. Defined.

Lemma is_bring_up_owner w : is_bring_up w = true -> exists pf, pci_cfg_work_owner_pf w = Some pf.
Proof. destruct w; simpl; try done. eauto. Qed.
Lemma filter_overtaken pf ws : forallb (overtaken (Some pf)) ws = true -> filter (in_order_of pf) ws = [].
Proof.
  induction ws as [|w ws IH]; simpl; [done|]. intros [Hw Hws]%andb_true_iff. rewrite filter_cons_False; [by apply IH|].
  unfold overtaken in Hw. apply negb_true_iff, orb_false_iff in Hw as [H1%bool_decide_eq_false H2%bool_decide_eq_false].
  intros [?|?]; done.
Qed.
Lemma forallb_map {A B} (f : A -> B) (P : B -> bool) l : forallb P (map f l) = forallb (P ∘ f) l.
Proof. induction l as [|x l IH]; simpl; [done|]. by rewrite IH. Qed.
Lemma next_item_app {A} (work : A -> pci_cfg_work) q pre i post : next_item work q = Some (pre, i, post) ->
  q = pre ++ i :: post ∧ (pre = [] ∨ is_bring_up (work i) = true ∧ forallb (overtaken (pci_cfg_work_owner_pf (work i))) (map work pre) = true).
Proof.
  unfold next_item. assert (Hh : forall q pre i post, split_first (const true) q = Some (pre, i, post) -> q = pre ++ i :: post ∧ @nil A = pre).
  { intros [|h t] ???; simpl; [done|]. by intros [= <- <- <-]. }
  destruct (split_first (is_bring_up ∘ work) q) as [[[p j] s]|] eqn:E; [|naive_solver].
  destruct (forallb _ p) eqn:Ef; [|naive_solver]. intros [= <- <- <-]. apply split_first_app in E as (-> & Hb & _).
  split; [done|]. right. split; [done|]. by rewrite forallb_map.
Qed.
Lemma next_item_order {A} (work : A -> pci_cfg_work) q pre i post pf : next_item work q = Some (pre, i, post) ->
  filter (in_order_of pf) (map work q) = filter (in_order_of pf) (work i :: map work (pre ++ post)).
Proof.
  intros (-> & [->|[Hb Ho]])%next_item_app; [done|]. rewrite !map_app, list.filter_app. simpl map.
  rewrite filter_cons, filter_cons, list.filter_app. destruct (is_bring_up_owner _ Hb) as [pf' Hpf]. rewrite Hpf in Ho.
  case_decide as Hi; [|done]. destruct Hi as [Hi|Hi]; [congruence|]. assert (pf' = pf) as -> by congruence.
  by rewrite (filter_overtaken pf (map work pre)).
Qed.

Definition held (pc : worker_pc) : list nat := match pc with Holding i | Finishing i => [i] | _ => [] end.
(** Items taken whose fate is not decided. *)
Definition undecided (s : worker_state) : list pci_cfg_work := match ws_pc s with Holding i => [work_at (ws_wq s) i] | _ => [] end.

Record worker_inv (s : worker_state) (q : list nat) (evs : list event) : Prop := {
  wi_wf : wq_wf (ws_wq s) q (held (ws_pc s));
  wi_order : forall pf, filter (in_order_of pf) (takes evs ++ map (work_at (ws_wq s)) q) = filter (in_order_of pf) (accepts evs);
  wi_all : takes evs ++ map (work_at (ws_wq s)) q ≡ₚ accepts evs;
  wi_fate : disposals evs ++ undecided s = takes evs;
  wi_exit : ws_pc s = Exited -> q = [] ∧ wq_shutdown (ws_wq s) = true;
}.

(** The steps of the worker until it exits, once the queue is shut down. *)
Definition rank (s : worker_state) (q : list nat) : nat :=
  match ws_pc s with AtTop => 2 * length q + 1 | Exited => 0 | _ => 2 * length q + 2 end.
Definition progress (s : worker_state) (q : list nat) (s' : worker_state) (q' : list nat) (e : list event) : Prop :=
  wq_shutdown (ws_wq s') = wq_shutdown (ws_wq s) ∧ accepts e = [] ∧
  (wq_shutdown (ws_wq s) = true -> (rank s' q' <= rank s q - 1)%nat).

(** What a submission may do to the queue. *)
Definition submitted (wq : pci_cfg_workqueue) (q busy : list nat) (wq' : pci_cfg_workqueue) : Prop :=
  (forall j, j ∈ q ++ busy -> work_at wq' j = work_at wq j) ∧ wq_shutdown wq' = wq_shutdown wq ∧
  (wq_wf wq' q busy ∨ wq_shutdown wq = false ∧ exists i, wq_wf wq' (q ++ [i]) busy).

Lemma submit_submitted wq q busy w dev generation : wq_wf wq q busy ->
  exists b wq', pci_cfg_workqueue_submit wq w dev generation = Done (b, wq') ∧ submitted wq q busy wq'.
Proof.
  intros H. destruct (submit_spec _ _ _ w dev generation H) as (b & wq' & E & Hs & Hsh & Hc). exists b, wq'. split; [done|].
  split; [done|]. split; [done|]. destruct Hc as [(_ & _ & ->)|[(_ & _ & _ & Hwf)|(_ & _ & Hns & i & _ & Hwf)]]; eauto.
Qed.
Lemma submitted_same wq q busy : wq_wf wq q busy -> submitted wq q busy wq.
Proof. intros H. split; [done|]. split; [done|]. by left. Qed.

Lemma submit_call_spec g wq q busy c : wq_wf wq q busy ->
  exists b wq', submit_call g wq c = Done (b, wq') ∧ submitted wq q busy wq'.
Proof.
  intros H. pose proof (submitted_same _ _ _ H) as Hsame.
  assert (Hsub := fun w dev gen => submit_submitted wq q busy w dev gen H).
  destruct c; cbn [submit_call];
    unfold pci_cfg_workqueue_submit_controller_cleanup, pci_cfg_workqueue_submit_engine_start, pci_cfg_workqueue_submit_initialize_vqs,
      pci_cfg_workqueue_submit_initialize_io_context, pci_cfg_workqueue_submit_create_stats_list, pci_cfg_workqueue_submit_speed_change,
      pci_cfg_workqueue_submit_start_and_enable, pci_cfg_workqueue_submit_hotplug, pci_cfg_workqueue_submit_dump_sf_info,
      pci_cfg_workqueue_submit_vfe_fan_out, pci_cfg_workqueue_submit_vf_engine_setup, pci_cfg_workqueue_submit_vf_vq_config,
      pci_cfg_workqueue_submit_vf_engine_enable, pci_cfg_workqueue_submit_vf_datapath_reset, pci_cfg_workqueue_submit_vf_flr_reset,
      pci_cfg_workqueue_submit_vq_config, submit_controller_work, submit_pf_work;
    repeat (case_match; eauto); try by eauto.
  unfold pci_cfg_workqueue_submit_delayed_destroy. destruct tlp_ctx; [|simpl; eauto]. destruct endpoint as [ep|]; [|simpl; eauto].
  destruct (negb _); [simpl; eauto|]. destruct (bool_decide _); [simpl; eauto|].
  destruct (Hsub (PCI_CFG_WORK_DELAYED_DESTROY ep) None 0) as (b & wq' & -> & Hs). simpl. eauto.
Qed.

Lemma accepted_same wq wq' q busy : wq_wf wq q busy -> wq_wf wq' q busy -> accepted wq wq' = Done [].
Proof.
  intros H H'. unfold accepted. by rewrite bool_decide_eq_true_2 by by rewrite (wf_pending _ _ _ H), (wf_pending _ _ _ H').
Qed.
Lemma accepted_last wq wq' q busy i : wq_wf wq q busy -> wq_wf wq' (q ++ [i]) busy -> accepted wq wq' = Done [Accepted (work_at wq' i)].
Proof.
  intros H H'. unfold accepted. rewrite bool_decide_eq_false_2.
  - rewrite (wf_tail _ _ _ H'), last_snoc. destruct (item_at_chain _ _ _ _ i (wf_chain _ _ _ H') ltac:(set_solver)) as (it & -> & Hw & _).
    simpl. by rewrite Hw.
  - rewrite (wf_pending _ _ _ H), (wf_pending _ _ _ H'), length_app. simpl. lia.
Qed.

Lemma takes_app l k : takes (l ++ k) = takes l ++ takes k.
Proof. apply omap_app. Qed.
Lemma accepts_app l k : accepts (l ++ k) = accepts l ++ accepts k.
Proof. apply omap_app. Qed.
Lemma disposals_app l k : disposals (l ++ k) = disposals l ++ disposals k.
Proof. apply omap_app. Qed.

Lemma undecided_same s s' : ws_pc s' = ws_pc s -> (forall j, j ∈ held (ws_pc s) -> work_at (ws_wq s') j = work_at (ws_wq s) j) ->
  undecided s' = undecided s.
Proof. unfold undecided. intros -> H. destruct (ws_pc s); try done. rewrite H by set_solver. done. Qed.

Lemma inv_submit s q evs wq' : worker_inv s q evs -> submitted (ws_wq s) q (held (ws_pc s)) wq' ->
  exists e q', accepted (ws_wq s) wq' = Done e ∧ worker_inv {| s with ws_wq := wq' |} q' (evs ++ e).
Proof.
  intros [Hwf Ho Ha Hf Hx] (Hw & Hsh & Hc).
  assert (Hmap : map (work_at wq') q = map (work_at (ws_wq s)) q) by (apply works_ext; set_solver).
  assert (Hund : undecided {| s with ws_wq := wq' |} = undecided s) by (apply undecided_same; [done|set_solver]).
  destruct Hc as [Hwf'|[Hns [i Hwf']]].
  - exists [], q. split; [by eapply accepted_same|]. rewrite app_nil_r. constructor; simpl; rewrite ?Hmap, ?Hund, ?Hsh; done.
  - exists [Accepted (work_at wq' i)], (q ++ [i]). split; [by eapply accepted_last|].
    constructor; simpl; rewrite ?takes_app, ?accepts_app, ?disposals_app, ?map_app, ?Hund, ?app_nil_r; simpl; rewrite ?Hmap; try done.
    + intros pf. by rewrite app_assoc, list.filter_app, Ho, <- list.filter_app.
    + by rewrite app_assoc, Ha.
    + intros [_ ?]%Hx. congruence.
Qed.

(** Steps that leave the queue as it is and decide nothing. *)
Lemma inv_same s s' q evs : worker_inv s q evs -> undecided s' = undecided s ->
  wq_wf (ws_wq s') q (held (ws_pc s')) -> (forall j, work_at (ws_wq s') j = work_at (ws_wq s) j) ->
  (ws_pc s' = Exited -> q = [] ∧ wq_shutdown (ws_wq s') = true) -> worker_inv s' q evs.
Proof.
  intros [Hwf Ho Ha Hf _] Hu Hwf' Hw. rewrite <- (works_ext (ws_wq s) (ws_wq s')) in * by auto.
  intros Hx. constructor; [done|done|done|by rewrite Hu|done].
Qed.

Lemma inv_take s q evs : worker_inv s q evs -> ws_pc s = AtTop ->
  exists s' q' e, worker_take s = Done (s', e) ∧ worker_inv s' q' (evs ++ e) ∧ progress s q s' q' e.
Proof.
  intros HI Hpc. pose proof HI as [Hwf Ho Ha Hf Hx]. unfold worker_take. pose proof (dequeue_spec _ _ _ Hwf) as Hd.
  unfold undecided in Hf. unfold progress, rank. rewrite Hpc in *. simpl held in *.
  destruct (next_item (work_at (ws_wq s)) q) as [[[pre i] post]|] eqn:En.
  - destruct Hd as (wq' & Ed & Hwf' & Hw & Hsh). pose proof (next_item_app _ _ _ _ _ En) as [Hq _].
    destruct (wf_item _ _ _ i Hwf' ltac:(set_solver)) as [it Hit].
    assert (Hi : wi_work it = work_at (ws_wq s) i). { rewrite <- Hw. unfold work_at. by rewrite Hit. }
    destruct (wq_head (ws_wq s)) eqn:Eh.
    2:{ pose proof (wf_chain _ _ _ Hwf) as Hc. rewrite Eh, Hq in Hc. by destruct pre, Hc. }
    rewrite Ed. cbn [mbind res_bind]. unfold item_at. rewrite Hit. cbn [mbind res_bind]. rewrite Hi.
    eexists _, (pre ++ post), _. split; [done|]. split; [|split; [done|split; [done|intros _; simpl; rewrite Hq, length_app_cons; lia]]].
    constructor; simpl; rewrite ?takes_app, ?accepts_app, ?disposals_app; simpl; rewrite ?app_nil_r, <- ?app_assoc;
      rewrite ?(works_ext (ws_wq s) wq') by auto; try done.
    + intros pf. rewrite <- Ho. rewrite !list.filter_app. f_equal. rewrite (next_item_order _ _ _ _ _ pf En). by rewrite <- list.filter_app.
    + rewrite <- Ha, Hq, !map_app. simpl. solve_Permutation.
    + rewrite app_nil_r in Hf. rewrite Hf. unfold undecided. simpl. by rewrite Hw.
  - destruct Hd as [-> Ed]. pose proof (wf_chain _ _ _ Hwf) as Hc. simpl in Hc. rewrite Hc.
    destruct (wq_shutdown (ws_wq s)) eqn:Es; eexists _, [], []; (split; [done|]); rewrite app_nil_r.
    + split; [|simpl; split; [done|]; split; [done|]; intros _; lia].
      eapply inv_same; try done; unfold undecided; rewrite Hpc; done.
    + done.
Qed.

Lemma work_at_free wq i j : work_at (work_pool_free wq i) j = work_at wq j.
Proof.
  unfold work_pool_free. destruct (wq_items wq !! i) as [it|] eqn:Hit; [|done]. unfold work_at. simpl. destruct (decide (i = j)) as [<-|].
  - rewrite list_lookup_insert_eq by by eapply lookup_lt_Some. by rewrite Hit.
  - by rewrite list_lookup_insert_ne.
Qed.
Lemma shutdown_free wq i : wq_shutdown (work_pool_free wq i) = wq_shutdown wq.
Proof. unfold work_pool_free. by destruct (wq_items wq !! i). Qed.

(** The item in the worker's hands is decided. *)
Lemma inv_decide s s' q evs i e : worker_inv s q evs -> ws_pc s = Holding i ->
  wq_wf (ws_wq s') q (held (ws_pc s')) -> (forall j, work_at (ws_wq s') j = work_at (ws_wq s) j) -> undecided s' = [] ->
  ws_pc s' <> Exited ->
  takes [e] = [] -> accepts [e] = [] -> disposals [e] = [work_at (ws_wq s) i] -> worker_inv s' q (evs ++ [e]).
Proof.
  intros [Hwf Ho Ha Hf _] Hpc Hwf' Hw Hu Hx Ht Hac Hdi. rewrite <- (works_ext (ws_wq s) (ws_wq s')) in * by auto.
  constructor; rewrite ?takes_app, ?accepts_app, ?disposals_app, ?Ht, ?Hac, ?Hdi, ?app_nil_r; try done.
  rewrite Hu, app_nil_r, <- Hf. unfold undecided. by rewrite Hpc.
Qed.

Lemma inv_execute s q evs i : worker_inv s q evs -> ws_pc s = Holding i ->
  exists s' e, worker_execute s i = Done (s', e) ∧ worker_inv s' q (evs ++ e) ∧ progress s q s' q e.
Proof.
  intros HI Hpc. pose proof (wi_wf _ _ _ HI) as Hwf. rewrite Hpc in Hwf. simpl in Hwf.
  destruct (wf_item _ _ _ i Hwf ltac:(set_solver)) as [it Hit].
  assert (Hi : wi_work it = work_at (ws_wq s) i) by (unfold work_at; by rewrite Hit).
  unfold worker_execute, item_at, progress, rank. rewrite Hit, Hpc. cbn [mbind res_bind]. rewrite Hi.
  destruct (wq_shutdown (ws_wq s)) eqn:Es.
  - rewrite andb_false_r. eexists _, _. split; [done|]. split.
    + eapply inv_decide; try done; simpl; [by apply free_spec|apply work_at_free].
    + simpl. rewrite shutdown_free. split; [done|]. split; [done|]. intros _. lia.
  - destruct (wq_reset_in_progress (ws_wq s)); [by eexists _, []; rewrite app_nil_r; eauto|].
    cbn [ws_g]. destruct (pci_cfg_work_item_is_stale (ws_g s) it); eexists _, _;
      (split; [done|]); (split; [eapply inv_decide; try done; simpl; wf_same Hwf|done]).
Qed.
Lemma inv_finish s q evs i : worker_inv s q evs -> ws_pc s = Finishing i ->
  exists s' e, worker_finish s i = Done (s', e) ∧ worker_inv s' q (evs ++ e) ∧ progress s q s' q e.
Proof.
  intros [Hwf Ho Ha Hf Hx] Hpc. unfold undecided in Hf. unfold progress, rank. rewrite Hpc in *. eexists _, []. split; [done|].
  rewrite app_nil_r. split; [|simpl; rewrite shutdown_free; split; [done|]; split; [done|]; intros _; lia].
  match goal with |- worker_inv ?s' _ _ => assert (Hw : map (work_at (ws_wq s')) q = map (work_at (ws_wq s)) q) end.
  { apply works_ext. intros. etrans; [apply work_at_free|done]. }
  constructor; rewrite ?Hw; try done. apply free_spec. wf_same Hwf.
Qed.

Lemma work_inv s q evs : worker_inv s q evs ->
  exists s' q' e, pci_cfg_worker_step s = Done (s', e) ∧ worker_inv s' q' (evs ++ e) ∧ progress s q s' q' e.
Proof.
  intros HI. unfold pci_cfg_worker_step. destruct (ws_pc s) as [|i|i|] eqn:Hpc.
  - exact (inv_take _ _ _ HI Hpc).
  - destruct (inv_execute _ _ _ _ HI Hpc) as (s' & e & -> & HI'). eauto.
  - destruct (inv_finish _ _ _ _ HI Hpc) as (s' & e & -> & HI'). eauto.
  - exists s, q, []. rewrite app_nil_r. split; [done|]. split; [done|]. unfold progress, rank. rewrite Hpc. split; [done|]. split; [done|]. lia.
Qed.
Lemma act_inv s q evs a : worker_inv s q evs -> exists s' q' e, act s a = Done (s', e) ∧ worker_inv s' q' (evs ++ e).
Proof.
  intros HI. pose proof HI as [Hwf _ _ _ Hx]. destruct a as [c| |b|g|]; cbn [act].
  - destruct (submit_call_spec (ws_g s) _ _ _ c Hwf) as (b & wq' & -> & Hs). cbn [mbind res_bind].
    destruct (inv_submit _ _ _ _ HI Hs) as (e & q' & -> & HI'). simpl. eauto.
  - destruct (work_inv _ _ _ HI) as (s' & q' & e & E & HI' & _). eauto.
  - eexists _, q, []. rewrite app_nil_r. split; [done|]. eapply inv_same; try done. simpl. wf_same Hwf.
  - eexists _, q, []. rewrite app_nil_r. split; [done|]. by eapply inv_same.
  - eexists _, q, []. rewrite app_nil_r. split; [done|]. unfold pci_cfg_workqueue_shutdown.
    eapply inv_same; try done; simpl; unfold undecided; simpl; destruct (wq_shutdown (ws_wq s)) eqn:Es; try done;
      try (by intros [? _]%Hx). wf_same Hwf.
Qed.

Lemma acts_inv l : forall s q evs, worker_inv s q evs -> exists s' q' e, acts s l = Done (s', e) ∧ worker_inv s' q' (evs ++ e).
Proof.
  induction l as [|a l IH]; intros s q evs HI; simpl.
  - exists s, q, []. by rewrite app_nil_r.
  - destruct (act_inv _ _ _ a HI) as (s1 & q1 & e1 & -> & H1). simpl. destruct (IH _ _ _ H1) as (s2 & q2 & e2 & -> & H2).
    simpl. exists s2, q2, (e1 ++ e2). by rewrite app_assoc.
Qed.

Lemma replicate_unused n i : wi_in_use <$> replicate n zero_item !! i <> Some true.
Proof. destruct (replicate n zero_item !! i) as [it|] eqn:E; [|done]. apply lookup_replicate in E as [-> _]. done. Qed.
Lemma start_inv g : worker_inv (worker_start g) [] [].
Proof.
  constructor; try done. constructor; try done.
  - constructor.
  - intros i. unfold used. split; [intros H; by destruct (replicate_unused _ _ H)|by intros ?%elem_of_nil].
Qed.

(** After the shutdown nothing is accepted, and a step of the worker brings it nearer to its exit. *)
Definition is_work (a : action) : bool := match a with Work => true | _ => false end.
Definition worker_steps (l : list action) : nat := length (List.filter is_work l).

Lemma act_down s q evs a : worker_inv s q evs -> wq_shutdown (ws_wq s) = true ->
  exists s' q' e, act s a = Done (s', e) ∧ worker_inv s' q' (evs ++ e) ∧ wq_shutdown (ws_wq s') = true ∧ accepts e = [] ∧
    (rank s' q' <= rank s q - (if is_work a then 1 else 0))%nat.
Proof.
  intros HI Hs. pose proof HI as [Hwf _ _ _ Hx]. destruct a as [c| |b|g|]; cbn [act is_work].
  - destruct (submit_call_spec (ws_g s) _ _ _ c Hwf) as (b & wq' & -> & Hw & Hsh & [Hwf'|[Hns _]]); [|congruence]. cbn [mbind res_bind].
    rewrite (accepted_same _ _ _ _ Hwf Hwf'). eexists _, q, []. split; [done|]. rewrite app_nil_r.
    split; [|simpl; split; [congruence|]; split; [done|unfold rank; simpl; lia]].
    pose proof HI as [_ Ho Ha Hf _].
    assert (Hmap : map (work_at wq') q = map (work_at (ws_wq s)) q) by (apply works_ext; set_solver).
    constructor; simpl; rewrite ?Hmap; try done; [|intros [? _]%Hx; by rewrite Hsh].
    rewrite <- Hf. f_equal. apply undecided_same; [done|set_solver].
  - destruct (work_inv _ _ _ HI) as (s' & q' & e & -> & HI' & Hsh & Hac & Hp). exists s', q', e. rewrite Hsh. do 4 (split; [done|]). by apply Hp.
  - eexists _, q, []. rewrite app_nil_r. split; [done|]. split; [eapply inv_same; try done; simpl; wf_same Hwf|].
    split; [done|]. split; [done|]. unfold rank. simpl. lia.
  - eexists _, q, []. rewrite app_nil_r. split; [done|]. split; [by eapply inv_same|].
    split; [done|]. split; [done|]. unfold rank. simpl. lia.
  - eexists _, q, []. rewrite app_nil_r. unfold pci_cfg_workqueue_shutdown. rewrite Hs. split; [done|].
    split; [by eapply inv_same|]. split; [done|]. split; [done|]. unfold rank. simpl. lia.
Qed.

Lemma drain l : forall s q evs, worker_inv s q evs -> wq_shutdown (ws_wq s) = true -> (rank s q <= worker_steps l)%nat ->
  exists s' e, acts s l = Done (s', e) ∧ worker_inv s' [] (evs ++ e) ∧ ws_pc s' = Exited ∧ accepts e = [].
Proof.
  induction l as [|a l IH]; intros s q evs HI Hs Hr; simpl.
  - assert (Hpc : ws_pc s = Exited) by (unfold rank, worker_steps in Hr; simpl in Hr; destruct (ws_pc s); done || lia).
    destruct (wi_exit _ _ _ HI Hpc) as [-> _]. exists s, []. by rewrite app_nil_r.
  - destruct (act_down _ _ _ a HI Hs) as (s1 & q1 & e1 & -> & H1 & Hs1 & He1 & Hr1). simpl.
    destruct (IH s1 q1 (evs ++ e1) H1 Hs1) as (s2 & e2 & -> & H2 & Hpc & He2).
    { unfold worker_steps in *. simpl in Hr. destruct (is_work a); simpl in *; lia. }
    simpl. exists s2, (e1 ++ e2). rewrite app_assoc, accepts_app, He1, He2. done.
Qed.

(** C10: the pool, the links and the counters of the work queue stay consistent, and the worker keeps the order of the submissions,
    whatever the threads do. For any sequence of submissions, steps of the worker, resets of devices and a shutdown, every step
    returns (no link leads outside of the pool, the scans of the queue end); the items in use are those queued and the one the worker
    holds, each once, and the free count is the rest of the 1024. The items taken and those still queued are the items accepted,
    none lost and none twice. For each physical function, the items of this function and those of no function are taken in the
    order of their submission: a bring-up of virtual functions overtakes other functions' items only. Each item taken is run,
    skipped as stale or discarded after a shutdown, once and in the order in which the items were taken. *)
Theorem worker_queue_order g l :
  exists s q evs, acts (worker_start g) l = Done (s, evs) ∧ wq_wf (ws_wq s) q (held (ws_pc s)) ∧
    wq_free_count (ws_wq s) = PCI_CFG_WORK_POOL_SIZE - Z.of_nat (length q) - Z.of_nat (length (held (ws_pc s))) ∧
    takes evs ++ map (work_at (ws_wq s)) q ≡ₚ accepts evs ∧
    (forall pf, filter (in_order_of pf) (takes evs ++ map (work_at (ws_wq s)) q) = filter (in_order_of pf) (accepts evs)) ∧
    disposals evs ++ undecided s = takes evs.
Proof.
  destruct (acts_inv l _ _ _ (start_inv g)) as (s & q & evs & E & [Hwf Ho Ha Hf _]). exists s, q, evs.
  do 2 (split; [done|]). split; [|done].
  rewrite (wf_free _ _ _ Hwf), (wf_size _ _ _ Hwf), length_app. unfold PCI_CFG_WORK_POOL_SIZE. lia.
Qed.

(** C14: a shutdown ends, and stops the queue. After any history [l], whatever follows the shutdown (submissions, resets of devices,
    another shutdown, steps of the worker in between): no submission is accepted any more, and when the worker has made 2050 steps
    it has exited, with the queue empty and all 1024 items of the pool free; every item that was ever accepted was taken by the
    worker, once. *)
Theorem shutdown_drains g l k : (2 * Z.to_nat PCI_CFG_WORK_POOL_SIZE + 2 <= worker_steps k)%nat ->
  exists s0 e0 s e, acts (worker_start g) l = Done (s0, e0) ∧ acts s0 (Shutdown :: k) = Done (s, e) ∧
    ws_pc s = Exited ∧ wq_head (ws_wq s) = None ∧ wq_pending_work_count (ws_wq s) = 0 ∧
    wq_free_count (ws_wq s) = PCI_CFG_WORK_POOL_SIZE ∧ (forall i, ~ used (ws_wq s) i) ∧
    accepts e = [] ∧ accepts e0 ≡ₚ takes (e0 ++ e).
Proof.
  intros Hk. destruct (acts_inv l _ _ _ (start_inv g)) as (s0 & q0 & e0 & E0 & HI0). simpl app in HI0.
  destruct (act_inv _ _ _ Shutdown HI0) as (s1 & q1 & e1 & E1 & HI1).
  assert (Hs : wq_shutdown (ws_wq s1) = true ∧ e1 = []).
  { simpl in E1. injection E1 as <- <-. simpl. unfold pci_cfg_workqueue_shutdown. by destruct (wq_shutdown (ws_wq s0)) eqn:?. }
  destruct Hs as [Hs ->].
  pose proof (wf_length _ _ _ (wi_wf _ _ _ HI1)) as Hl. pose proof (wf_size _ _ _ (wi_wf _ _ _ HI1)) as Hz. rewrite length_app in Hl.
  destruct (drain k _ _ _ HI1 Hs) as (s2 & e2 & E2 & HI2 & Hpc & Hac).
  { change (Z.to_nat PCI_CFG_WORK_POOL_SIZE) with 1024%nat in Hk. unfold rank. destruct (ws_pc s1); simpl in Hl; lia. }
  exists s0, e0, s2, e2. split; [done|]. split; [cbn [acts]; rewrite E1; cbn [mbind res_bind]; by rewrite E2|].
  rewrite app_nil_r in HI2. destruct HI2 as [Hwf _ Ha _ _]. rewrite Hpc in Hwf. simpl in *. rewrite app_nil_r, accepts_app, Hac, app_nil_r in Ha.
  split; [done|]. split; [apply (wf_chain _ _ _ Hwf)|]. split; [apply (wf_pending _ _ _ Hwf)|].
  split; [rewrite (wf_free _ _ _ Hwf), (wf_size _ _ _ Hwf); done|]. split; [|done].
  intros i Hi%(wf_used _ _ _ Hwf). by apply elem_of_nil in Hi.
Qed.
Lemma shutdown_drains_witness :
  exists s0 e0 s e, acts (worker_start {| g_dev := fun _ => 1; g_virtio_device := fun _ => Some 0 |})
      [Submit (SubmitControllerCleanup (Some 0) true); Submit (SubmitEngineStart (Some 0)); Work] = Done (s0, e0) ∧
    acts s0 (Shutdown :: Submit (SubmitEngineStart (Some 0)) :: replicate 2050 Work) = Done (s, e) ∧
    ws_pc s = Exited ∧ wq_free_count (ws_wq s) = PCI_CFG_WORK_POOL_SIZE ∧ length (takes (e0 ++ e)) = 2%nat.
Proof.
  destruct (shutdown_drains {| g_dev := fun _ => 1; g_virtio_device := fun _ => Some 0 |}
    [Submit (SubmitControllerCleanup (Some 0) true); Submit (SubmitEngineStart (Some 0)); Work]
    (Submit (SubmitEngineStart (Some 0)) :: replicate 2050 Work)) as (s0 & e0 & s & e & E0 & E & Hx & _ & _ & Hf & _ & _ & Ht).
  { vm_compute. lia. }
  exists s0, e0, s, e. split; [exact E0|]. split; [exact E|]. split; [exact Hx|]. split; [exact Hf|].
  rewrite <- Ht. revert E0. vm_compute acts. intros [= _ <-]. reflexivity.
Defined.

(** ** What the queue does, on examples *)

(** One device, of one controller, in its first generation. *)
Definition one_device : generations := {| g_dev := fun _ => 1; g_virtio_device := fun c => if c =? 0 then Some 0 else None |}.

(** A bring-up on function 2 is run before the reset of a virtual function of function 1, but after one on function 2. *)
Lemma bring_up_overtakes :
  snd <$> acts (worker_start one_device)
    [Submit (SubmitVfDatapathReset (Some 1) 0); Submit (SubmitVfeFanOut true (Some 2) true); Work; Work] =
  Done [Accepted (PCI_CFG_WORK_VF_DATAPATH_RESET 1 0); Accepted (PCI_CFG_WORK_VFE_FAN_OUT_START 2);
        Taken (PCI_CFG_WORK_VFE_FAN_OUT_START 2); Executed (PCI_CFG_WORK_VFE_FAN_OUT_START 2)].
Proof. vm_compute. reflexivity. Qed.
Lemma bring_up_waits_for_its_function :
  snd <$> acts (worker_start one_device)
    [Submit (SubmitVfDatapathReset (Some 2) 0); Submit (SubmitVfeFanOut true (Some 2) true); Work; Work] =
  Done [Accepted (PCI_CFG_WORK_VF_DATAPATH_RESET 2 0); Accepted (PCI_CFG_WORK_VFE_FAN_OUT_START 2);
        Taken (PCI_CFG_WORK_VF_DATAPATH_RESET 2 0); Executed (PCI_CFG_WORK_VF_DATAPATH_RESET 2 0)].
Proof. vm_compute. reflexivity. Qed.

(** The comment above [pci_cfg_workqueue_shutdown] says that pending work is completed; an item that waits when the queue is shut
    down is given back without being run. *)
Lemma shutdown_discards :
  snd <$> acts (worker_start one_device) [Submit (SubmitControllerCleanup (Some 0) true); Shutdown; Work; Work; Work] =
  Done [Accepted (PCI_CFG_WORK_CONTROLLER_CLEANUP 0 true); Taken (PCI_CFG_WORK_CONTROLLER_CLEANUP 0 true);
        Discarded (PCI_CFG_WORK_CONTROLLER_CLEANUP 0 true)].
Proof. vm_compute. reflexivity. Qed.

(** Only the first bring-up of the queue is looked at: one that may not overtake keeps a later one on another function back. *)
Lemma second_bring_up_waits :
  snd <$> acts (worker_start one_device)
    [Submit (SubmitVfDatapathReset (Some 1) 0); Submit (SubmitVfeFanOut true (Some 1) true); Submit (SubmitVfeFanOut true (Some 2) true); Work] =
  Done [Accepted (PCI_CFG_WORK_VF_DATAPATH_RESET 1 0); Accepted (PCI_CFG_WORK_VFE_FAN_OUT_START 1);
        Accepted (PCI_CFG_WORK_VFE_FAN_OUT_START 2); Taken (PCI_CFG_WORK_VF_DATAPATH_RESET 1 0)].
Proof. vm_compute. reflexivity. Qed.
