(* ===== verification/VnetDev.v ===== *)
(** * VnetDev: the registers of the virtio-net device and its reset,
      src/applications/vnet_pci_dev/vnet_pci_device.c and vnet_pci_dev_core.c

    The host sees a device through the common configuration structure: it selects and
    writes the features it wants, sets up queues through one window, and moves the
    status forward. A write of zero to the status resets the device: what needs long is
    left to the work queue ([VnetWork]) and the status shows that the device needs a
    reset until it is done.

    The model has one device with its controller and the queue; the controller's engine
    and virtqueues are flags that the worker's operations change. [vnet_pci_device_reset]
    and the callback run on the thread that answers the host, the clean-up on the
    worker; an [action] is what one thread does without the other. [reset_hold] says
    when a reset is held, what it takes for the host to see it as done, and that the end
    of the clean-up is enough.

    The structure is packed and little-endian and is accessed in words of 32 bits at
    offsets that are multiples of 4: addresses come with their lowest two bits cleared
    and the BAR is aligned. *)

From S2P Require Import Prelude VnetWork.

Definition VNET_VIRTIO_DEVICE_STATUS_FEATURES_OK : Z := 8.
Definition VNET_VIRTIO_DEVICE_STATUS_DRIVER_OK : Z := 4.
Definition VNET_VIRTIO_DEVICE_STATUS_NEEDS_RESET : Z := 64.
Definition VIRTIO_MSI_NO_VECTOR : Z := 0xFFFF.
Definition VIRTIO_NET_F_CSUM : Z := 0.
Definition VIRTIO_NET_F_GUEST_CSUM : Z := 1.
Definition VIRTIO_NET_F_GUEST_TSO4 : Z := 7.
Definition VIRTIO_NET_F_GUEST_TSO6 : Z := 8.
Definition VIRTIO_NET_F_GUEST_ECN : Z := 9.
Definition VIRTIO_NET_F_GUEST_UFO : Z := 10.
Definition VIRTIO_NET_F_HOST_TSO4 : Z := 11.
Definition VIRTIO_NET_F_HOST_TSO6 : Z := 12.
Definition VIRTIO_NET_F_HOST_ECN : Z := 13.
Definition VIRTIO_NET_F_HOST_UFO : Z := 14.
Definition VIRTIO_NET_F_CTRL_VQ : Z := 17.
Definition VIRTIO_NET_F_CTRL_RX : Z := 18.
Definition VIRTIO_NET_F_CTRL_VLAN : Z := 19.
Definition VIRTIO_NET_F_MQ : Z := 22.
Definition VNET_VIRTIO_F_ADMIN_VQ : Z := 41.
Definition VNET_DEFAULT_QUEUE_PAIRS : Z := 1.
Definition VNET_DEFAULT_QUEUE_SIZE : Z := 1024.
Definition VNET_VIRTIO_DEV_CFG_OFFSET : Z := 0x200.

(** ** Data *)

Record vnet_virtio_queue_config := {
  queue_size : Z;
  queue_msix_vector : Z;
  queue_enable : Z;
  queue_notify_off : Z;
  queue_desc : Z;
  queue_driver : Z;
  queue_device : Z;
  queue_notif_config_data : Z;
  queue_reset : Z;
}.

Record vnet_virtio_common_config := {
  device_feature_select : Z;
  device_feature : Z;
  driver_feature_select : Z;
  driver_feature : Z;
  config_msix_vector : Z;
  num_queues : Z;
  device_status : Z;
  config_generation : Z;
  queue_select : Z;
  vq : vnet_virtio_queue_config;
  admin_queue_index : Z;
  admin_queue_num : Z;
}.

Record vnet_pci_device := {
  pci_cfg : vnet_virtio_common_config;
  vnet_cfg : list Z;               (* the network configuration, in words *)
  device_features : Z;
  driver_features : Z;
  vqs : list vnet_virtio_queue_config;
  dev_queue_size : Z;
  prev_status : Z;
  reset_generation : Z;
  cancel_in_progress : bool;
  flr_in_progress : bool;
  bar0 : Z * Z;                    (* the words of BAR 0 *)
}.

Inductive vnet_reset_status_state := VNET_RESET_STATUS_IDLE | VNET_RESET_STATUS_HELD | VNET_RESET_STATUS_RELEASE_PENDING.
#[global] Instance vnet_reset_status_state_eq_dec : EqDecision vnet_reset_status_state.
Proof. solve_decision. Defined.

Record vnet_pci_dev_controller := {
  virtio_device : bool;            (* it has its device *)
  reset_status_state : vnet_reset_status_state;
  fatal_pending : bool;
  fatal_latched : bool;
  fatal_generation : Z;
  shutting_down : bool;
  offload_engine_started : bool;
  vqs_initialized : bool;
  engine_enabled : bool;
  stats_ref : bool;
  cleanup_running : bool;
  deferred_init_pending : bool;
  initialization_in_progress : bool;
  mq_feature_negotiated : bool;
  admin_vq_negotiated : bool;
  ctrl_admin_queue_num : Z;
  num_active_qps : Z;
  desired_qps : Z;
  max_queue_pairs : Z;
  initial_data_qps_deferred : bool;
  tlp_max_queue_pairs : Z;         (* of the TLP context *)
  tlp_hotplug_mode : bool;
  tlp_num_ep : Z;
}.

(** The device, its controller if there is one, and the queue with its worker. *)
Record vnet_state := { st_dev : vnet_pci_device; st_ctrl : option vnet_pci_dev_controller; st_ws : worker_state }.

Definition set_cfg (d : vnet_pci_device) (c : vnet_virtio_common_config) : vnet_pci_device := {| d with pci_cfg := c |}.
Definition set_status (d : vnet_pci_device) (x : Z) : vnet_pci_device := set_cfg d {| (pci_cfg d) with device_status := x |}.
Definition with_dev (s : vnet_state) (d : vnet_pci_device) : vnet_state := {| s with st_dev := d |}.
Definition with_ctrl (s : vnet_state) (c : vnet_pci_dev_controller) : vnet_state := {| s with st_ctrl := Some c |}.

(** ** The structure as words *)

Definition word16 (lo hi : Z) : Z := Z.lor lo (Z.shiftl hi 16).
Definition low (x : Z) : Z := Z.land x 0xFFFF.
Definition high (x : Z) : Z := Z.shiftr x 16.
Definition low32 (x : Z) : Z := Z.land x 0xFFFFFFFF.
Definition high32 (x : Z) : Z := Z.shiftr x 32.
Definition set_low32 (x w : Z) : Z := Z.lor (Z.shiftl (high32 x) 32) w.
Definition set_high32 (x w : Z) : Z := Z.lor (Z.shiftl w 32) (low32 x).

Definition vq_word (v : vnet_virtio_queue_config) (k : Z) : Z :=
  match k with
  | 0 => word16 (queue_size v) (queue_msix_vector v)
  | 1 => word16 (queue_enable v) (queue_notify_off v)
  | 2 => low32 (queue_desc v) | 3 => high32 (queue_desc v)
  | 4 => low32 (queue_driver v) | 5 => high32 (queue_driver v)
  | 6 => low32 (queue_device v) | 7 => high32 (queue_device v)
  | _ => word16 (queue_notif_config_data v) (queue_reset v)
  end.
Definition vq_set_word (v : vnet_virtio_queue_config) (k x : Z) : vnet_virtio_queue_config :=
  match k with
  | 0 => {| v with queue_size := low x; queue_msix_vector := high x |}
  | 1 => {| v with queue_enable := low x; queue_notify_off := high x |}
  | 2 => {| v with queue_desc := set_low32 (queue_desc v) x |} | 3 => {| v with queue_desc := set_high32 (queue_desc v) x |}
  | 4 => {| v with queue_driver := set_low32 (queue_driver v) x |} | 5 => {| v with queue_driver := set_high32 (queue_driver v) x |}
  | 6 => {| v with queue_device := set_low32 (queue_device v) x |} | 7 => {| v with queue_device := set_high32 (queue_device v) x |}
  | _ => {| v with queue_notif_config_data := low x; queue_reset := high x |}
  end.
Definition cfg_word (c : vnet_virtio_common_config) (k : Z) : Z :=
  match k with
  | 0 => device_feature_select c
  | 1 => device_feature c
  | 2 => driver_feature_select c
  | 3 => driver_feature c
  | 4 => word16 (config_msix_vector c) (num_queues c)
  | 5 => word16 (Z.lor (device_status c) (Z.shiftl (config_generation c) 8)) (queue_select c)
  | 15 => word16 (admin_queue_index c) (admin_queue_num c)
  | _ => vq_word (vq c) (k - 6)
  end.
Definition cfg_set_word (c : vnet_virtio_common_config) (k x : Z) : vnet_virtio_common_config :=
  match k with
  | 0 => {| c with device_feature_select := x |}
  | 1 => {| c with device_feature := x |}
  | 2 => {| c with driver_feature_select := x |}
  | 3 => {| c with driver_feature := x |}
  | 4 => {| c with config_msix_vector := low x; num_queues := high x |}
  | 5 => {| c with device_status := Z.land x 0xFF; config_generation := Z.land (Z.shiftr x 8) 0xFF; queue_select := high x |}
  | 15 => {| c with admin_queue_index := low x; admin_queue_num := high x |}
  | _ => {| c with vq := vq_set_word (vq c) (k - 6) x |}
  end.

(** ** The reset *)

Definition zero_vq : vnet_virtio_queue_config :=
  {| queue_size := 0; queue_msix_vector := 0; queue_enable := 0; queue_notify_off := 0; queue_desc := 0; queue_driver := 0;
     queue_device := 0; queue_notif_config_data := 0; queue_reset := 0 |}.
Definition init_vq (size : Z) (i : nat) : vnet_virtio_queue_config :=
  {| zero_vq with queue_size := size; queue_msix_vector := VIRTIO_MSI_NO_VECTOR; queue_enable := 0; queue_notify_off := u16 (Z.of_nat i) |}.
Definition vqs_count (d : vnet_pci_device) : Z := Z.of_nat (length (vqs d)).

Definition vnet_pci_device_queue_init (d : vnet_pci_device) : vnet_pci_device :=
  let vqs' := imap (fun i _ => init_vq (dev_queue_size d) i) (vqs d) in
  let cfg := {| (pci_cfg d) with queue_select := 0 |} in
  {| d with vqs := vqs'; pci_cfg := match vqs' with [] => cfg | v :: _ => {| cfg with vq := v |} end |}.

Definition vnet_pci_device_reset (d : vnet_pci_device) : vnet_pci_device :=
  let d := {| d with driver_features := 0;
                     pci_cfg := {| (pci_cfg d) with driver_feature := 0; driver_feature_select := 0; device_status := 0 |} |} in
  vnet_pci_device_queue_init d.

(** The words that are shown of 64 features; [n] is an int. *)
Definition vnet_pci_dev_feature_select (n ftr : Z) : Z :=
  if 1 <? n then 0 else if negb (n =? 0) then high32 ftr else low32 ftr.
Definition vnet_pci_dev_driver_feature_word_set (d : vnet_pci_device) (select feature_word : Z) : vnet_pci_device :=
  if 1 <? select then d
  else if select =? 0 then {| d with driver_features := Z.lor (Z.land (driver_features d) 0xFFFFFFFF00000000) feature_word |}
  else {| d with driver_features := Z.lor (Z.shiftl feature_word 32) (Z.land (driver_features d) 0xFFFFFFFF) |}.

Definition vnet_pci_device_reset_status_is_pending (s : vnet_state) : bool :=
  match st_ctrl s with None => false | Some c => negb (bool_decide (reset_status_state c = VNET_RESET_STATUS_IDLE)) end.
Definition vnet_pci_device_apply_reset_status_release (s : vnet_state) : vnet_state :=
  match st_ctrl s with
  | None => s
  | Some c =>
    if bool_decide (reset_status_state c = VNET_RESET_STATUS_RELEASE_PENDING) then
      let d := st_dev s in
      let d := if device_status (pci_cfg d) =? VNET_VIRTIO_DEVICE_STATUS_NEEDS_RESET
               then {| (set_status d 0) with prev_status := 0 |} else d in
      {| (with_ctrl s {| c with reset_status_state := VNET_RESET_STATUS_IDLE |}) with st_dev := {| d with cancel_in_progress := false |} |}
    else s
  end.

(** ** Features *)

Definition has_feature (features f : Z) : bool := negb (Z.land features (Z.shiftl 1 f) =? 0).

Definition vnet_pci_dev_check_feature_deps (features : Z) : bool :=
  let has := has_feature features in
  if has VIRTIO_NET_F_MQ && negb (has VIRTIO_NET_F_CTRL_VQ) then false
  else if has VIRTIO_NET_F_CTRL_RX && negb (has VIRTIO_NET_F_CTRL_VQ) then false
  else if has VIRTIO_NET_F_CTRL_VLAN && negb (has VIRTIO_NET_F_CTRL_VQ) then false
  else if has VIRTIO_NET_F_GUEST_TSO4 && negb (has VIRTIO_NET_F_GUEST_CSUM) then false
  else if has VIRTIO_NET_F_GUEST_TSO6 && negb (has VIRTIO_NET_F_GUEST_CSUM) then false
  else if has VIRTIO_NET_F_GUEST_UFO && negb (has VIRTIO_NET_F_GUEST_CSUM) then false
  else if has VIRTIO_NET_F_HOST_TSO4 && negb (has VIRTIO_NET_F_CSUM) then false
  else if has VIRTIO_NET_F_HOST_TSO6 && negb (has VIRTIO_NET_F_CSUM) then false
  else if has VIRTIO_NET_F_HOST_UFO && negb (has VIRTIO_NET_F_CSUM) then false
  else if has VIRTIO_NET_F_GUEST_ECN && negb (has VIRTIO_NET_F_GUEST_TSO4 || has VIRTIO_NET_F_GUEST_TSO6) then false
  else if has VIRTIO_NET_F_HOST_ECN && negb (has VIRTIO_NET_F_HOST_TSO4 || has VIRTIO_NET_F_HOST_TSO6) then false
  else true.
Definition vnet_pci_dev_validate_features (d : vnet_pci_device) : bool :=
  let invalid_features := Z.ldiff (driver_features d) (device_features d) in
  if negb (invalid_features =? 0) then false else vnet_pci_dev_check_feature_deps (driver_features d).

(** ** Submissions

    The device and its controller have the number 0. *)

Definition generations_of (s : vnet_state) : generations :=
  {| g_dev := fun _ => reset_generation (st_dev s);
     g_virtio_device := fun _ => match st_ctrl s with Some c => if virtio_device c then Some 0 else None | None => None end |}.
Definition submit (s : vnet_state) (c : submission) : res vnet_state :=
  '(_, wq) ← submit_call (generations_of s) (ws_wq (st_ws s)) c;
  Done {| s with st_ws := {| (st_ws s) with ws_wq := wq |} |}.
(** What a deferred queue is decided by. *)
Definition deferral_of (s : vnet_state) : option deferral :=
  c ← st_ctrl s;
  Some {| d_max_queue_pairs := max_queue_pairs c; d_initial_data_qps_deferred := initial_data_qps_deferred c;
          d_num_active_qps := num_active_qps c |}.
Definition submit_vq_config (s : vnet_state) (vq_index : Z) : res vnet_state :=
  submit s (SubmitVqConfig (deferral_of s) (Some 0) vq_index).

(** ** The callback *)

Definition vnet_controller_has_reset_teardown_work (c : vnet_pci_dev_controller) : bool :=
  offload_engine_started c || vqs_initialized c || engine_enabled c || stats_ref c.
Definition vnet_controller_clear_fatal_error (c : vnet_pci_dev_controller) : vnet_pci_dev_controller :=
  {| c with fatal_pending := false; fatal_latched := false; fatal_generation := 0 |}.
Definition vnet_tlp_ctx_should_defer_mq_start (c : vnet_pci_dev_controller) : bool :=
  negb (tlp_hotplug_mode c) && (1 <? tlp_num_ep c).

(** What the negotiated features mean for the queues. *)
Definition negotiated (d : vnet_pci_device) (c : vnet_pci_dev_controller) : vnet_pci_dev_controller :=
  let has := has_feature (driver_features d) in
  let mq := has VIRTIO_NET_F_CTRL_VQ && has VIRTIO_NET_F_MQ in
  let c := {| c with mq_feature_negotiated := mq;
                     admin_vq_negotiated := has VNET_VIRTIO_F_ADMIN_VQ && (0 <? ctrl_admin_queue_num c) |} in
  if mq then
    {| c with num_active_qps := VNET_DEFAULT_QUEUE_PAIRS; desired_qps := VNET_DEFAULT_QUEUE_PAIRS;
              max_queue_pairs := tlp_max_queue_pairs c; initial_data_qps_deferred := vnet_tlp_ctx_should_defer_mq_start c |}
  else {| c with num_active_qps := 1; desired_qps := 1; max_queue_pairs := 1; initial_data_qps_deferred := false |}.

(** The status got the bit FEATURES_OK. *)
Definition features_ok (s : vnet_state) : res vnet_state :=
  match st_ctrl s with
  | None => Done s
  | Some c =>
    let d := st_dev s in
    if negb (vnet_pci_dev_validate_features d) then
      Done (with_dev s (set_status d (Z.ldiff (device_status (pci_cfg d)) VNET_VIRTIO_DEVICE_STATUS_FEATURES_OK)))
    else if cleanup_running c then Done (with_ctrl s {| c with deferred_init_pending := true |})
    else
      let c := negotiated d {| c with initialization_in_progress := true |} in
      let s := with_ctrl s c in
      s ← (if negb (offload_engine_started c) then submit s (SubmitEngineStart (Some 0)) else Done s);
      s ← submit s (SubmitInitializeVqs (Some 0));
      submit s (SubmitInitializeIoContext (Some 0))
  end.

(** The status is zero and the device was in use. *)
Definition reset_detected (s : vnet_state) : res vnet_state :=
  let d := st_dev s in
  match st_ctrl s with
  | None => Done (with_dev s {| d with prev_status := 0 |})
  | Some c =>
    if shutting_down c then Done (with_dev s {| d with prev_status := 0 |})
    else if negb (vnet_controller_has_reset_teardown_work c) && negb (flr_in_progress d) then
      Done (with_dev s {| d with prev_status := 0; cancel_in_progress := false |})
    else
      let s := with_ctrl s {| c with reset_status_state := VNET_RESET_STATUS_HELD |} in
      let s := with_dev s (set_status d VNET_VIRTIO_DEVICE_STATUS_NEEDS_RESET) in
      s ← submit s (SubmitControllerCleanup (Some 0) false);
      Done (with_dev s {| (st_dev s) with prev_status := 0 |})
  end.

(** [x & bit] where [bit] was not set in [prev]. *)
Definition newly (x prev bit : Z) : bool := negb (Z.land x bit =? 0) && (Z.land prev bit =? 0).

Definition status_of (s : vnet_state) : Z := device_status (pci_cfg (st_dev s)).

(** The status is not zero or the device was not in use. *)
Definition status_changed (s : vnet_state) (prev : Z) : res vnet_state :=
  s ← (if negb (status_of s =? prev) && negb (status_of s =? 0) && newly (status_of s) prev VNET_VIRTIO_DEVICE_STATUS_FEATURES_OK
       then features_ok s else Done s);
  if newly (status_of s) prev VNET_VIRTIO_DEVICE_STATUS_DRIVER_OK then
    s ← match st_ctrl s with
        | None => Done s
        | Some c => if negb (engine_enabled c) then submit s (SubmitStartAndEnable (Some 0) (Some 0)) else Done s
        end;
    Done (with_dev s {| (st_dev s) with prev_status := status_of s |})
  else if negb (status_of s =? prev) && negb (status_of s =? 0) then Done (with_dev s {| (st_dev s) with prev_status := status_of s |})
  else Done s.

Definition virtio_net_ctrl_change_cb (s : vnet_state) : res vnet_state :=
  let prev := prev_status (st_dev s) in
  let rest s := if (status_of s =? 0) && negb (prev =? 0) && negb (prev =? 0xFF) then reset_detected s else status_changed s prev in
  match st_ctrl s with
  | Some c =>
    if status_of s =? 0 then
      if bool_decide (reset_status_state c = VNET_RESET_STATUS_HELD)
      then Done (with_dev s (set_status (st_dev s) VNET_VIRTIO_DEVICE_STATUS_NEEDS_RESET))
      else rest (with_ctrl s (vnet_controller_clear_fatal_error c))
    else rest s
  | None => rest s
  end.

(** A function level reset. *)
Definition vnet_pci_device_handle_flr (s : vnet_state) : res vnet_state :=
  let d := st_dev s in
  if flr_in_progress d then Done s
  else
    let d := {| d with flr_in_progress := true; cancel_in_progress := true; reset_generation := u32 (reset_generation d + 1) |} in
    let d := if (prev_status d =? 0) || (prev_status d =? 0xFF) then {| d with prev_status := VNET_VIRTIO_DEVICE_STATUS_DRIVER_OK |} else d in
    virtio_net_ctrl_change_cb (with_dev s (vnet_pci_device_reset (set_status d 0))).

(** ** Writes of the host *)

(** A write changed a field that is read-only. *)
Definition read_only_changed (prev c : vnet_virtio_common_config) : bool :=
  negb (device_feature prev =? device_feature c) || negb (num_queues prev =? num_queues c) ||
  negb (config_generation prev =? config_generation c) || negb (admin_queue_index prev =? admin_queue_index c) ||
  negb (admin_queue_num prev =? admin_queue_num c).

Definition device_feature_selected (prev : vnet_virtio_common_config) (d : vnet_pci_device) : vnet_pci_device :=
  let c := pci_cfg d in
  if negb (device_feature_select prev =? device_feature_select c) then
    set_cfg d {| c with device_feature := vnet_pci_dev_feature_select (s32 (device_feature_select c)) (device_features d) |}
  else d.
Definition driver_feature_selected (prev : vnet_virtio_common_config) (d : vnet_pci_device) : vnet_pci_device :=
  let c := pci_cfg d in
  if negb (driver_feature_select prev =? driver_feature_select c) then
    let d := vnet_pci_dev_driver_feature_word_set d (driver_feature_select prev) (driver_feature c) in
    set_cfg d {| c with driver_feature := vnet_pci_dev_feature_select (s32 (driver_feature_select c)) (driver_features d) |}
  else d.
Definition driver_feature_written (prev : vnet_virtio_common_config) (d : vnet_pci_device) : vnet_pci_device :=
  let c := pci_cfg d in
  if negb (driver_feature prev =? driver_feature c)
  then vnet_pci_dev_driver_feature_word_set d (driver_feature_select c) (driver_feature c) else d.

(** [memcpy(&dev->vqs[i], ...)] *)
Definition save_vq (d : vnet_pci_device) (i : Z) : vnet_pci_device :=
  if i <? vqs_count d then {| d with vqs := <[Z.to_nat i := vq (pci_cfg d)]> (vqs d) |} else d.
Definition load_vq (d : vnet_pci_device) (i : Z) : vnet_pci_device :=
  set_cfg d {| (pci_cfg d) with vq := default zero_vq (vqs d !! Z.to_nat i) |}.
Definition queue_selected (prev : vnet_virtio_common_config) (d : vnet_pci_device) : vnet_pci_device :=
  if negb (queue_select prev =? queue_select (pci_cfg d))
  then let d := save_vq d (queue_select prev) in load_vq d (queue_select (pci_cfg d)) else d.

Definition incomplete (v : vnet_virtio_queue_config) : bool := (queue_desc v =? 0) || (queue_driver v =? 0) || (queue_device v =? 0).
(** A queue is enabled, or the addresses of an enabled one are complete. *)
Definition queue_enabled (s : vnet_state) : res vnet_state :=
  let d := st_dev s in let c := pci_cfg d in
  match vqs d !! Z.to_nat (queue_select c) with
  | None => Done s
  | Some shadow_vq =>
    let prev_enabled := negb (queue_enable shadow_vq =? 0) in
    let curr_enabled := negb (queue_enable (vq c) =? 0) in
    if negb prev_enabled && curr_enabled then submit_vq_config (with_dev s (save_vq d (queue_select c))) (queue_select c)
    else if curr_enabled then
      let s := with_dev s (save_vq d (queue_select c)) in
      if incomplete shadow_vq && negb (incomplete (vq c)) then submit_vq_config s (queue_select c) else Done s
    else Done s
  end.

(** The status was written: a reset, or the last selected queue is saved when the driver is ready. The wait for the worker does not
    change the state; [reset_in_progress] is set and cleared again. *)
Definition status_written (prev : vnet_virtio_common_config) (d : vnet_pci_device) : vnet_pci_device :=
  let p := device_status prev in let status := device_status (pci_cfg d) in
  if negb (p =? status) then
    if status =? 0 then
      vnet_pci_device_reset {| d with cancel_in_progress := true; reset_generation := u32 (reset_generation d + 1) |}
    else if Z.ldiff status p =? VNET_VIRTIO_DEVICE_STATUS_DRIVER_OK then save_vq d (queue_select (pci_cfg d)) else d
  else d.

Definition merged (old val mask : Z) : Z := Z.lor (Z.ldiff old mask) (Z.land val mask).

Definition vnet_pci_device_pci_cfg_write32 (s : vnet_state) (offset val wr_mask : Z) : res vnet_state :=
  let s := vnet_pci_device_apply_reset_status_release s in
  let prev := pci_cfg (st_dev s) in
  let k := offset / 4 in
  let c := cfg_set_word prev k (merged (cfg_word prev k) val wr_mask) in
  if read_only_changed prev c then Done s
  else
    let d := set_cfg (st_dev s) c in
    let d := device_feature_selected prev d in
    let d := driver_feature_selected prev d in
    let d := driver_feature_written prev d in
    let d := queue_selected prev d in
    s ← queue_enabled (with_dev s d);
    s ← virtio_net_ctrl_change_cb (with_dev s (status_written prev (st_dev s)));
    let d := st_dev s in
    Done (if cancel_in_progress d && negb (device_status (pci_cfg d) =? VNET_VIRTIO_DEVICE_STATUS_NEEDS_RESET)
             && negb (vnet_pci_device_reset_status_is_pending s)
          then with_dev s {| d with cancel_in_progress := false |} else s).

Definition vnet_pci_dev_bar_offset (d : vnet_pci_device) (addr : Z) : Z :=
  u64 (addr - Z.lor (Z.ldiff (fst (bar0 d)) 0xF) (Z.shiftl (snd (bar0 d)) 32)).

Definition PCI_CFG_SIZE : Z := 64.
Definition VNET_CFG_SIZE : Z := 24.

Definition vnet_pci_device_mmio_write32 (s : vnet_state) (addr val wr_mask : Z) : res vnet_state :=
  let offset := vnet_pci_dev_bar_offset (st_dev s) addr in
  if offset <? PCI_CFG_SIZE then vnet_pci_device_pci_cfg_write32 s offset val wr_mask else Done s.
Definition vnet_pci_device_mmio_read32 (s : vnet_state) (addr : Z) : vnet_state * Z :=
  let offset := vnet_pci_dev_bar_offset (st_dev s) addr in
  if offset <? PCI_CFG_SIZE then
    let s := vnet_pci_device_apply_reset_status_release s in (s, cfg_word (pci_cfg (st_dev s)) (offset / 4))
  else if (VNET_VIRTIO_DEV_CFG_OFFSET <=? offset) && (offset <? VNET_VIRTIO_DEV_CFG_OFFSET + VNET_CFG_SIZE) then
    (s, default 0xFAFAFAFA (vnet_cfg (st_dev s) !! Z.to_nat ((offset - VNET_VIRTIO_DEV_CFG_OFFSET) / 4)))
  else (s, 0xFAFAFAFA).

(** ** The clean-up on the worker

    What the clean-up of the controller does to the reset: its beginning, and its end, when [incomplete] says whether a part
    could not be torn down and [failed] whether its management queues could not be stopped. *)

Definition cleanup_begin (s : vnet_state) : vnet_state :=
  match st_ctrl s with
  | Some c => if cleanup_running c then s else with_ctrl s {| c with cleanup_running := true |}
  | None => s
  end.
Definition release_hold (s : vnet_state) (c : vnet_pci_dev_controller) : vnet_state :=
  if bool_decide (reset_status_state c = VNET_RESET_STATUS_HELD) then
    if virtio_device c then
      {| (with_ctrl s {| c with reset_status_state := VNET_RESET_STATUS_RELEASE_PENDING |}) with
         st_dev := {| (st_dev s) with cancel_in_progress := false; flr_in_progress := false |} |}
    else with_ctrl s {| c with reset_status_state := VNET_RESET_STATUS_IDLE |}
  else with_ctrl s c.
(** Features that were accepted during the clean-up. *)
Definition deferred_init (s : vnet_state) : res vnet_state :=
  match st_ctrl s with
  | Some c =>
    if deferred_init_pending c then
      if negb (virtio_device c) then Done (with_ctrl s {| c with deferred_init_pending := false |})
      else
        let c := negotiated (st_dev s) {| c with deferred_init_pending := false; initialization_in_progress := true |} in
        let s := with_ctrl s c in
        s ← (if negb (offload_engine_started c) then submit s (SubmitEngineStart (Some 0)) else Done s);
        s ← submit s (SubmitInitializeVqs (Some 0));
        s ← submit s (SubmitInitializeIoContext (Some 0));
        submit s (SubmitStartAndEnable (Some 0) (Some 0))
    else Done s
  | None => Done s
  end.
Definition cleanup_end (s : vnet_state) (failed incomplete : bool) : res vnet_state :=
  match st_ctrl s with
  | None => Done s
  | Some c =>
    if failed then Done (with_ctrl s {| c with cleanup_running := false |})
    else
      let c := {| c with shutting_down := false; cleanup_running := false; initialization_in_progress := false;
                         initial_data_qps_deferred := false |} in
      if incomplete then Done (with_ctrl s c) else deferred_init (release_hold s c)
  end.

(** ** Errors of the device *)

Definition vnet_controller_report_fatal_error (c : vnet_pci_dev_controller) (generation : Z) : vnet_pci_dev_controller :=
  {| c with fatal_generation := generation; fatal_latched := true; fatal_pending := true |}.
(** One round of the loop over the controllers. *)
Definition vnet_process_pending_fatal_errors (s : vnet_state) : vnet_state :=
  match st_ctrl s with
  | None => s
  | Some c =>
    let d := st_dev s in
    if negb (fatal_pending c) then s
    else if negb (virtio_device c) then with_ctrl s (vnet_controller_clear_fatal_error c)
    else if cleanup_running c || cancel_in_progress d then s
    else if negb (fatal_generation c =? reset_generation d) then with_ctrl s (vnet_controller_clear_fatal_error c)
    else
      let s := with_ctrl s {| c with fatal_pending := false |} in
      if negb (Z.land (status_of s) VNET_VIRTIO_DEVICE_STATUS_NEEDS_RESET =? 0) then s
      else with_dev s (set_cfg d {| (pci_cfg d) with
                                    device_status := Z.lor (status_of s) VNET_VIRTIO_DEVICE_STATUS_NEEDS_RESET;
                                    config_generation := u8 (config_generation (pci_cfg d) + 1) |})
  end.

(** ** All together *)

(** The engine and the virtqueues, which the items on the worker start and stop. *)
Record engine_flags := { ef_started : bool; ef_vqs : bool; ef_enabled : bool; ef_stats : bool; ef_active_qps : Z }.
Definition set_engine (c : vnet_pci_dev_controller) (f : engine_flags) : vnet_pci_dev_controller :=
  {| c with offload_engine_started := ef_started f; vqs_initialized := ef_vqs f; engine_enabled := ef_enabled f; stats_ref := ef_stats f;
            num_active_qps := ef_active_qps f |}.

Inductive vnet_action :=
| HostWrite (addr val wr_mask : Z)
| HostRead (addr : Z)
| HostFlr
| WorkerStep
| CleanupEnd (failed incomplete : bool)
| EngineChange (f : engine_flags)
| ShutdownBegin                             (* vnet_pci_dev_shutdown_device sets its flag *)
| FatalError (generation : Z)
| FatalPublish
| OtherSubmission (c : submission).        (* of other devices *)

(** The worker is inside the clean-up. *)
Definition in_cleanup (s : vnet_state) : bool :=
  match ws_pc (st_ws s), st_ctrl s with
  | Finishing i, Some c => bool_decide (work_at (ws_wq (st_ws s)) i = PCI_CFG_WORK_CONTROLLER_CLEANUP 0 false) && cleanup_running c
  | _, _ => false
  end.
Definition starts_cleanup (evs : list event) : bool :=
  match evs with [Executed (PCI_CFG_WORK_CONTROLLER_CLEANUP 0 false)] => true | _ => false end.
Definition worker_step (s : vnet_state) : res vnet_state :=
  if in_cleanup s then Done s
  else
    '(ws, evs) ← pci_cfg_worker_step {| (st_ws s) with ws_g := generations_of s |};
    let s := {| s with st_ws := ws |} in
    Done (if starts_cleanup evs then cleanup_begin s else s).

Definition vnet_act (s : vnet_state) (a : vnet_action) : res vnet_state :=
  match a with
  | HostWrite addr val wr_mask => vnet_pci_device_mmio_write32 s addr (u32 val) (u32 wr_mask)
  | HostRead addr => Done (fst (vnet_pci_device_mmio_read32 s addr))
  | HostFlr => vnet_pci_device_handle_flr s
  | WorkerStep => worker_step s
  | CleanupEnd failed incomplete => if in_cleanup s then cleanup_end s failed incomplete else Done s
  | EngineChange f => Done (match st_ctrl s with Some c => with_ctrl s (set_engine c f) | None => s end)
  | ShutdownBegin => Done (match st_ctrl s with Some c => with_ctrl s {| c with shutting_down := true |} | None => s end)
  | FatalError g => Done (match st_ctrl s with Some c => with_ctrl s (vnet_controller_report_fatal_error c g) | None => s end)
  | FatalPublish => Done (vnet_process_pending_fatal_errors s)
  | OtherSubmission c => submit s c
  end.
Fixpoint vnet_acts (s : vnet_state) (l : list vnet_action) : res vnet_state :=
  match l with [] => Done s | a :: l => s ← vnet_act s a; vnet_acts s l end.

(** A device with [n] queues as it is created, and its controller. *)
Definition vnet_pci_device_init_internal (features : Z) (n admin : nat) (size : Z) (net_cfg : list Z) (bar : Z * Z) : vnet_pci_device :=
  let features := Z.lor features (Z.lor (Z.lor (Z.shiftl 1 32) (Z.shiftl 1 33)) (Z.lor (Z.shiftl 1 VIRTIO_NET_F_CTRL_VQ) (Z.shiftl 1 VIRTIO_NET_F_MQ))) in
  let features := if (0 <? Z.of_nat admin) then Z.lor features (Z.shiftl 1 VNET_VIRTIO_F_ADMIN_VQ) else features in
  vnet_pci_device_queue_init
    {| pci_cfg := {| device_feature_select := 0; device_feature := low32 features; driver_feature_select := 0; driver_feature := 0;
                     config_msix_vector := VIRTIO_MSI_NO_VECTOR; num_queues := u16 (Z.of_nat (n + admin));
                     device_status := VNET_VIRTIO_DEVICE_STATUS_NEEDS_RESET; config_generation := 1; queue_select := 0; vq := zero_vq;
                     admin_queue_index := if (admin =? 0)%nat then 0 else u16 (Z.of_nat n); admin_queue_num := u16 (Z.of_nat admin) |};
       vnet_cfg := net_cfg; device_features := features; driver_features := 0; vqs := replicate (Z.to_nat (u16 (Z.of_nat (n + admin)))) zero_vq;
       dev_queue_size := (if size =? 0 then VNET_DEFAULT_QUEUE_SIZE else size); prev_status := 0xFF; reset_generation := 1; cancel_in_progress := false; flr_in_progress := false;
       bar0 := bar |}.
Definition controller_init (admin max_qps num_ep : Z) (hotplug : bool) : vnet_pci_dev_controller :=
  {| virtio_device := true; reset_status_state := VNET_RESET_STATUS_IDLE; fatal_pending := false; fatal_latched := false; fatal_generation := 0;
     shutting_down := false; offload_engine_started := false; vqs_initialized := false; engine_enabled := false; stats_ref := false;
     cleanup_running := false; deferred_init_pending := false; initialization_in_progress := false; mq_feature_negotiated := false;
     admin_vq_negotiated := false; ctrl_admin_queue_num := admin; num_active_qps := 0; desired_qps := 0; max_queue_pairs := max_qps;
     initial_data_qps_deferred := false; tlp_max_queue_pairs := max_qps; tlp_hotplug_mode := hotplug; tlp_num_ep := num_ep |}.
Definition vnet_start (d : vnet_pci_device) (c : option vnet_pci_dev_controller) : vnet_state :=
  {| st_dev := d; st_ctrl := c; st_ws := worker_start {| g_dev := fun _ => reset_generation d; g_virtio_device := fun _ => None |} |}.

(** ** The queue behind the device *)

Definition ws_ok (ws : worker_state) : Prop := exists q evs, worker_inv ws q evs.

Lemma ws_ok_g ws g : ws_ok ws -> ws_ok {| ws with ws_g := g |}.
Proof. intros (q & evs & H). exists q, evs. pose proof H as [Hwf _ _ _ Hx]. by eapply inv_same. Qed.

Lemma submit_ok s c : ws_ok (st_ws s) ->
  exists ws, submit s c = Done {| s with st_ws := ws |} ∧ ws_ok ws.
Proof.
  intros (q & evs & H). unfold submit.
  destruct (submit_call_spec (generations_of s) _ _ _ c (wi_wf _ _ _ H)) as (b & wq' & -> & Hs). cbn [mbind res_bind].
  destruct (inv_submit _ _ _ _ H Hs) as (e & q' & _ & H'). eexists. split; [done|]. by exists q', (evs ++ e).
Qed.
Lemma ws_step_ok ws : ws_ok ws -> exists ws' e, pci_cfg_worker_step ws = Done (ws', e) ∧ ws_ok ws'.
Proof. intros (q & evs & H). destruct (work_inv _ _ _ H) as (ws' & q' & e & -> & H' & _). exists ws', e. split; [done|]. by exists q', (evs ++ e). Qed.

(** The next submission. *)
Ltac submit_next H :=
  match goal with |- context [submit ?s ?c] =>
    let ws := fresh "ws" in let E := fresh "E" in let Hok := fresh "Hok" in
    destruct (submit_ok s c H) as (ws & E & Hok); rewrite E; clear E; cbn [mbind res_bind]
  end.
Ltac submits := cbn [mbind res_bind]; repeat match goal with H : ws_ok _ |- _ => submit_next H end.

(** ** What the callback leaves alone *)

(** The device without what the callback changes. *)
Definition registers (d : vnet_pci_device) : vnet_pci_device := {| (set_status d 0) with prev_status := 0; cancel_in_progress := false |}.

(** Whether a reset is held. *)
Definition reset_state (s : vnet_state) : option vnet_reset_status_state := reset_status_state <$> st_ctrl s.
Definition reset_held (s : vnet_state) : Prop := reset_state s = Some VNET_RESET_STATUS_HELD.

(** FEATURES_OK is taken back. *)
Definition refusing (s s' : vnet_state) : Prop :=
  vnet_pci_dev_validate_features (st_dev s) = false ∧ status_of s' = Z.ldiff (status_of s) VNET_VIRTIO_DEVICE_STATUS_FEATURES_OK.

Lemma negotiated_state d c : reset_status_state (negotiated d c) = reset_status_state c.
Proof. unfold negotiated. by case_match. Qed.

Lemma features_ok_spec s : ws_ok (st_ws s) ->
  exists s', features_ok s = Done s' ∧ ws_ok (st_ws s') ∧ registers (st_dev s') = registers (st_dev s) ∧ reset_state s' = reset_state s ∧
    (status_of s' = status_of s ∨ refusing s s').
Proof.
  intros H. unfold features_ok, reset_state. destruct (st_ctrl s) as [c|] eqn:Ec; [|exists s; rewrite Ec; by eauto 10].
  destruct (vnet_pci_dev_validate_features (st_dev s)) eqn:Ev; simpl;
    [|eexists; split; [done|]; split; [done|]; split; [done|]; split; [simpl; by rewrite Ec|by right]].
  destruct (cleanup_running c); [by eauto 10|].
  set (c' := negotiated _ _). assert (Hs : reset_status_state c' = reset_status_state c) by (etrans; [apply negotiated_state|done]).
  rewrite <- Hs. clearbody c'. destruct (negb (offload_engine_started c')); submits; eauto 10.
Qed.

Lemma validate_registers d d' : registers d' = registers d -> vnet_pci_dev_validate_features d' = vnet_pci_dev_validate_features d.
Proof.
  intros E. unfold vnet_pci_dev_validate_features.
  assert (E1 : driver_features d' = driver_features d) by exact (f_equal driver_features E).
  assert (E2 : device_features d' = device_features d) by exact (f_equal device_features E). by rewrite E1, E2.
Qed.

Lemma status_changed_spec s prev : ws_ok (st_ws s) ->
  exists s', status_changed s prev = Done s' ∧ ws_ok (st_ws s') ∧ registers (st_dev s') = registers (st_dev s) ∧ reset_state s' = reset_state s ∧
    (status_of s' = status_of s ∨ refusing s s').
Proof.
  intros H. unfold status_changed.
  assert (exists s1, (if negb (status_of s =? prev) && negb (status_of s =? 0) && newly (status_of s) prev VNET_VIRTIO_DEVICE_STATUS_FEATURES_OK
                      then features_ok s else Done s) = Done s1 ∧ ws_ok (st_ws s1) ∧ registers (st_dev s1) = registers (st_dev s) ∧
    reset_state s1 = reset_state s ∧ (status_of s1 = status_of s ∨ refusing s s1)) as (s1 & E & H1 & Hr & Hh & Hs).
  { case_match; [apply features_ok_spec, H|by eauto 10]. }
  rewrite E. clear E. cbn [mbind res_bind]. destruct (newly (status_of s1) prev _).
  - destruct (st_ctrl s1) as [c|] eqn:Ec; [destruct (negb (engine_enabled c)); submits; eauto 10|cbn [mbind res_bind]; eauto 10].
  - destruct (_ && _); eauto 10.
Qed.
Lemma newly_zero prev bit : newly 0 prev bit = false.
Proof. done. Qed.
Lemma status_changed_zero s prev : status_of s = 0 -> status_changed s prev = Done s.
Proof.
  intros E. unfold status_changed. rewrite E, newly_zero, andb_false_r. cbn [mbind res_bind].
  rewrite E, newly_zero. cbn [Z.eqb negb]. by rewrite andb_false_r.
Qed.

Lemma reset_detected_spec s : ws_ok (st_ws s) ->
  exists s', reset_detected s = Done s' ∧ ws_ok (st_ws s') ∧ registers (st_dev s') = registers (st_dev s).
Proof.
  intros H. unfold reset_detected. destruct (st_ctrl s) as [c|] eqn:Ec; [|by eauto 10].
  destruct (shutting_down c); [by eauto 10|]. destruct (_ && _); [by eauto 10|]. submits. eauto 10.
Qed.

(** The callback returns, keeps the queue consistent and changes no register but the status. *)
Lemma change_cb_spec s : ws_ok (st_ws s) ->
  exists s', virtio_net_ctrl_change_cb s = Done s' ∧ ws_ok (st_ws s') ∧ registers (st_dev s') = registers (st_dev s).
Proof.
  intros H. unfold virtio_net_ctrl_change_cb. cbv zeta. set (prev := prev_status (st_dev s)).
  assert (Hrest : forall s1, ws_ok (st_ws s1) -> st_dev s1 = st_dev s ->
    exists s', (if (status_of s1 =? 0) && negb (prev =? 0) && negb (prev =? 0xFF) then reset_detected s1 else status_changed s1 prev) = Done s' ∧
      ws_ok (st_ws s') ∧ registers (st_dev s') = registers (st_dev s)).
  { intros s1 H1 Hd. rewrite <- Hd. destruct (_ && _); [by apply reset_detected_spec|].
    destruct (status_changed_spec s1 prev H1) as (s' & E & H' & Hr & _). eauto. }
  destruct (st_ctrl s) as [c|] eqn:Ec; [|by apply Hrest].
  destruct (status_of s =? 0) eqn:E0; [|specialize (Hrest s H eq_refl); rewrite E0 in Hrest; by apply Hrest].
  case_bool_decide; [by eauto|by apply Hrest].
Qed.

(** While the reset is held the callback does not end it, and leaves a status of zero only where it takes FEATURES_OK back. *)
Lemma ldiff_features_ok x : Z.ldiff x VNET_VIRTIO_DEVICE_STATUS_FEATURES_OK = 0 -> x <> 0 -> x = VNET_VIRTIO_DEVICE_STATUS_FEATURES_OK.
Proof.
  intros E Hx. assert (Hb : forall i, 0 <= i -> i <> 3 -> Z.testbit x i = false).
  { intros i Hi Hn. apply (f_equal (fun z => Z.testbit z i)) in E. change VNET_VIRTIO_DEVICE_STATUS_FEATURES_OK with (2 ^ 3) in E.
    rewrite Z.ldiff_spec, Z.pow2_bits_false, Z.bits_0, andb_true_r in E by done. done. }
  change VNET_VIRTIO_DEVICE_STATUS_FEATURES_OK with (2 ^ 3). destruct (Z.testbit x 3) eqn:E3; [|destruct Hx];
    apply Z.bits_inj'; intros i Hi; destruct (decide (i = 3)) as [->|Hn];
    rewrite ?Z.bits_0, ?Z.pow2_bits_true, ?Z.pow2_bits_false by done; auto.
Qed.
Lemma change_cb_held s s' : ws_ok (st_ws s) -> reset_held s -> virtio_net_ctrl_change_cb s = Done s' ->
  reset_held s' ∧ (status_of s' <> 0 ∨
    status_of s' = 0 ∧ status_of s = VNET_VIRTIO_DEVICE_STATUS_FEATURES_OK ∧ vnet_pci_dev_validate_features (st_dev s) = false).
Proof.
  intros H Hh. unfold virtio_net_ctrl_change_cb. cbv zeta. pose proof Hh as Hh'. unfold reset_held, reset_state in Hh'.
  destruct (st_ctrl s) as [c|] eqn:Ec; [|done]. simpl in Hh'. injection Hh' as Hc.
  destruct (status_of s =? 0) eqn:E0.
  - rewrite bool_decide_eq_true_2 by done. intros [= <-]. split; [unfold reset_held, reset_state; simpl; by rewrite Ec; simpl; rewrite Hc|by left].
  - cbn [andb]. apply Z.eqb_neq in E0. destruct (status_changed_spec s (prev_status (st_dev s)) H) as (s1 & E & _ & _ & Hr & Hs).
    rewrite E. intros [= <-]. split; [unfold reset_held; by rewrite Hr|]. destruct Hs as [->|[Hv Hs]]; [by left|].
    destruct (decide (status_of s1 = 0)) as [Hz|]; [right|by left]. split; [done|]. split; [|done].
    apply ldiff_features_ok; [by rewrite <- Hs|done].
Qed.

(** A reset is held, shown to the host, and its clean-up is submitted, if the queue still takes items and there is one left. *)
Definition cleanup_submitted (s : vnet_state) : Prop :=
  let wq := ws_wq (st_ws s) in
  reset_generation (st_dev s) <> 0 -> wq_shutdown wq = false -> wq_free_count wq <> 0 ->
  exists i, wq_tail wq = Some i ∧ work_at wq i = PCI_CFG_WORK_CONTROLLER_CLEANUP 0 false.
Definition reset_shown (s : vnet_state) : Prop := reset_held s ∧ status_of s = VNET_VIRTIO_DEVICE_STATUS_NEEDS_RESET.

Lemma submit_cleanup_spec s c : ws_ok (st_ws s) -> st_ctrl s = Some c -> virtio_device c = true ->
  exists ws, submit s (SubmitControllerCleanup (Some 0) false) = Done {| s with st_ws := ws |} ∧ cleanup_submitted {| s with st_ws := ws |}.
Proof.
  intros (q & evs & H) Hc Hv. unfold submit. cbn [submit_call]. unfold pci_cfg_workqueue_submit_controller_cleanup, submit_controller_work.
  unfold vnet_controller_get_valid_reset_generation. cbv zeta.
  assert (Hg : vnet_controller_get_reset_generation (generations_of s) (Some 0) = reset_generation (st_dev s)) by (simpl; by rewrite Hc, Hv).
  rewrite Hg. destruct (Z.eqb_spec (reset_generation (st_dev s)) 0) as [E|E].
  - cbn [mbind res_bind]. eexists. split; [done|]. by intros Hn.
  - destruct (submit_spec _ _ _ (PCI_CFG_WORK_CONTROLLER_CLEANUP 0 false) None (reset_generation (st_dev s)) (wi_wf _ _ _ H))
      as (b & wq' & -> & _ & Hsh & Hx). cbn [mbind res_bind]. eexists. split; [done|]. intros _ Hs Hf. simpl in Hs, Hf |- *.
    destruct Hx as [(H0 & _ & ->)|[(_ & _ & ? & _)|(_ & _ & _ & i & Hw & Hwf)]]; [done|congruence|].
    exists i. split; [by rewrite (wf_tail _ _ _ Hwf), last_snoc|done].
Qed.

(** The status is zero, the device was in use and there is something to tear down. *)
Definition reset_due (d : vnet_pci_device) (c : vnet_pci_dev_controller) : Prop :=
  prev_status d <> 0 ∧ prev_status d <> 0xFF ∧ (vnet_controller_has_reset_teardown_work c = true ∨ flr_in_progress d = true).
Lemma change_cb_resets s c : ws_ok (st_ws s) -> st_ctrl s = Some c -> reset_status_state c = VNET_RESET_STATUS_IDLE -> virtio_device c = true ->
  shutting_down c = false -> status_of s = 0 -> reset_due (st_dev s) c ->
  exists s', virtio_net_ctrl_change_cb s = Done s' ∧ reset_shown s' ∧ cleanup_submitted s'.
Proof.
  intros H Hc Hi Hv Hsd Hz (Hp0 & Hpf & Hw). unfold virtio_net_ctrl_change_cb. cbv zeta. rewrite Hc, Hz. cbn [Z.eqb].
  rewrite bool_decide_eq_false_2 by by rewrite Hi. change (status_of (with_ctrl s (vnet_controller_clear_fatal_error c))) with (status_of s).
  rewrite Hz. apply Z.eqb_neq in Hp0, Hpf. rewrite Hp0, Hpf. cbn [Z.eqb andb negb]. unfold reset_detected. cbv zeta. cbn [with_ctrl st_ctrl st_dev].
  change (shutting_down (vnet_controller_clear_fatal_error c)) with (shutting_down c). rewrite Hsd.
  change (vnet_controller_has_reset_teardown_work (vnet_controller_clear_fatal_error c)) with (vnet_controller_has_reset_teardown_work c).
  assert (negb (vnet_controller_has_reset_teardown_work c) && negb (flr_in_progress (st_dev s)) = false) as ->
    by (destruct Hw as [->| ->]; [done|apply andb_false_r]).
  match goal with |- context [submit ?s1 _] => destruct (submit_cleanup_spec s1 _ H eq_refl Hv) as (ws & -> & Hsub) end.
  cbn [mbind res_bind]. eexists. split; [done|]. split; [done|exact Hsub].
Qed.

(** ** What a write does to the registers *)

(** The device after [queue_enabled]. *)
Definition queue_saved (d : vnet_pci_device) : vnet_pci_device :=
  if negb (queue_enable (vq (pci_cfg d)) =? 0) then save_vq d (queue_select (pci_cfg d)) else d.
(** A written word [k] with what follows from it, before the callback. *)
Definition written (d : vnet_pci_device) (k val wr_mask : Z) : vnet_pci_device :=
  let prev := pci_cfg d in
  let d := set_cfg d (cfg_set_word prev k (merged (cfg_word prev k) val wr_mask)) in
  status_written prev (queue_saved (queue_selected prev (driver_feature_written prev (driver_feature_selected prev
    (device_feature_selected prev d))))).
Definition rejected (d : vnet_pci_device) (k val wr_mask : Z) : bool :=
  read_only_changed (pci_cfg d) (cfg_set_word (pci_cfg d) k (merged (cfg_word (pci_cfg d) k) val wr_mask)).

Lemma save_vq_out d i : vqs d !! Z.to_nat i = None -> save_vq d i = d.
Proof. intros H%lookup_ge_None. unfold save_vq, vqs_count. case_match; [|done]. rewrite list_insert_ge by done. by destruct d. Qed.

Lemma queue_enabled_spec s : ws_ok (st_ws s) ->
  exists ws, queue_enabled s = Done {| s with st_dev := queue_saved (st_dev s); st_ws := ws |} ∧ ws_ok ws.
Proof.
  intros H. unfold queue_enabled, queue_saved. destruct s as [d c ws]; cbn [st_dev st_ctrl st_ws] in *.
  destruct (vqs d !! Z.to_nat (queue_select (pci_cfg d))) as [sh|] eqn:E.
  - destruct (negb (queue_enable (vq (pci_cfg d)) =? 0)); [|rewrite !andb_false_r; by eauto].
    rewrite andb_true_r. destruct (negb (negb _)); [|destruct (_ && _); [|by eauto]];
      (unfold submit_vq_config; submit_next H; by eauto).
  - rewrite (save_vq_out _ _ E). destruct (negb _); by eauto.
Qed.

Lemma release_spec s :
  st_ws (vnet_pci_device_apply_reset_status_release s) = st_ws s ∧
  registers (st_dev (vnet_pci_device_apply_reset_status_release s)) = registers (st_dev s).
Proof.
  unfold vnet_pci_device_apply_reset_status_release. destruct (st_ctrl s) as [c|] eqn:Ec; [|done].
  case_bool_decide; [|done]. split; [done|]. simpl. by case_match.
Qed.
(** There is nothing to release. *)
Lemma release_none s : reset_state s <> Some VNET_RESET_STATUS_RELEASE_PENDING -> vnet_pci_device_apply_reset_status_release s = s.
Proof.
  unfold vnet_pci_device_apply_reset_status_release, reset_state. destruct (st_ctrl s) as [c|]; [|done]. simpl. intros H.
  rewrite bool_decide_eq_false_2 by congruence. done.
Qed.

Lemma write32_spec s offset val wr_mask : ws_ok (st_ws s) ->
  let s0 := vnet_pci_device_apply_reset_status_release s in
  exists s', vnet_pci_device_pci_cfg_write32 s offset val wr_mask = Done s' ∧ ws_ok (st_ws s') ∧
    if rejected (st_dev s0) (offset / 4) val wr_mask then s' = s0
    else registers (st_dev s') = registers (written (st_dev s0) (offset / 4) val wr_mask) ∧
      exists s1 s2, virtio_net_ctrl_change_cb s1 = Done s2 ∧ ws_ok (st_ws s1) ∧ st_dev s1 = written (st_dev s0) (offset / 4) val wr_mask ∧
        st_ctrl s1 = st_ctrl s0 ∧ st_ctrl s' = st_ctrl s2 ∧ st_ws s' = st_ws s2 ∧ status_of s' = status_of s2 ∧
        reset_generation (st_dev s') = reset_generation (st_dev s2).
Proof.
  intros H s0. destruct (release_spec s) as (Hws & _). fold s0 in Hws. rewrite <- Hws in H.
  unfold vnet_pci_device_pci_cfg_write32. cbv zeta. fold s0. fold (rejected (st_dev s0) (offset / 4) val wr_mask).
  destruct (rejected _ _ _ _); [by eauto|].
  set (d := queue_selected _ _). destruct (queue_enabled_spec (with_dev s0 d) H) as (ws & -> & H1). cbn [mbind res_bind].
  set (s1 := with_dev _ (status_written _ _)). destruct (change_cb_spec s1 H1) as (s2 & E & H2 & Hr). rewrite E. cbn [mbind res_bind].
  destruct (_ && _); eexists; (split; [done|]); (split; [done|]); (split; [done|]); exists s1, s2; done.
Qed.

(** ** Every action returns *)

Lemma flr_ok s : ws_ok (st_ws s) -> exists s', vnet_pci_device_handle_flr s = Done s' ∧ ws_ok (st_ws s').
Proof.
  intros H. unfold vnet_pci_device_handle_flr. destruct (flr_in_progress (st_dev s)); [by exists s|]. cbv zeta.
  match goal with |- context [virtio_net_ctrl_change_cb ?s1] => destruct (change_cb_spec s1 H) as (s' & -> & H' & _) end.
  by exists s'.
Qed.
(** What the initialization after a clean-up leaves alone. *)
Lemma deferred_init_ok s : ws_ok (st_ws s) ->
  exists s', deferred_init s = Done s' ∧ ws_ok (st_ws s') ∧ st_dev s' = st_dev s ∧ reset_state s' = reset_state s.
Proof.
  intros H. unfold deferred_init, reset_state. destruct (st_ctrl s) as [c|] eqn:Ec; [|exists s; by rewrite Ec].
  destruct (deferred_init_pending c); [|exists s; by rewrite Ec].
  destruct (negb (virtio_device c)); [by eauto|].
  set (c' := negotiated _ _). assert (E : reset_status_state c' = reset_status_state c) by (etrans; [apply negotiated_state|done]).
  cbn [fmap option_fmap option_map]. rewrite <- E. clearbody c'. destruct (negb (offload_engine_started c')); submits; eauto.
Qed.
Lemma release_hold_ws s c : st_ws (release_hold s c) = st_ws s.
Proof. unfold release_hold. by repeat case_match. Qed.
Lemma cleanup_end_ok s f i : ws_ok (st_ws s) ->
  exists s', cleanup_end s f i = Done s' ∧ ws_ok (st_ws s') ∧
    (f || i = true -> reset_state s' = reset_state s ∧ status_of s' = status_of s).
Proof.
  intros H. unfold cleanup_end, reset_state. destruct (st_ctrl s) as [c|] eqn:Ec; [|exists s; by rewrite Ec].
  destruct f; [by eauto|]. destruct i; [by eauto|].
  match goal with |- context [release_hold s ?c'] => destruct (deferred_init_ok (release_hold s c')) as (s' & E & H' & _) end;
    [by rewrite release_hold_ws|]. exists s'. done.
Qed.
Lemma lor_needs_reset x : Z.lor x VNET_VIRTIO_DEVICE_STATUS_NEEDS_RESET <> 0.
Proof. intros [_ ?]%Z.lor_eq_0_iff. done. Qed.
Lemma fatal_spec s (s' := vnet_process_pending_fatal_errors s) :
  st_ws s' = st_ws s ∧ reset_state s' = reset_state s ∧ (status_of s' = status_of s ∨ status_of s' <> 0).
Proof.
  subst s'. unfold vnet_process_pending_fatal_errors, reset_state. destruct (st_ctrl s) as [c|] eqn:Ec; [|rewrite Ec; auto].
  repeat case_match; rewrite ?Ec; auto. do 2 (split; [done|]). right. apply lor_needs_reset.
Qed.
Lemma worker_step_ok s : ws_ok (st_ws s) ->
  exists s', worker_step s = Done s' ∧ ws_ok (st_ws s') ∧ st_dev s' = st_dev s ∧ reset_state s' = reset_state s.
Proof.
  intros H. unfold worker_step, reset_state. destruct (in_cleanup s); [by exists s|].
  destruct (ws_step_ok _ (ws_ok_g _ (generations_of s) H)) as (ws & e & -> & H'). cbn [mbind res_bind].
  destruct (starts_cleanup e); eexists; (split; [done|]); [|done].
  unfold cleanup_begin. cbn [st_ctrl]. destruct (st_ctrl s) as [c|] eqn:Ec; [case_match|]; rewrite ?Ec; done.
Qed.

Lemma vnet_act_ok s a : ws_ok (st_ws s) -> exists s', vnet_act s a = Done s' ∧ ws_ok (st_ws s').
Proof.
  intros H. destruct a as [addr val m|addr| | |f i|f| |g| |c]; cbn [vnet_act].
  - unfold vnet_pci_device_mmio_write32. cbv zeta. destruct (_ <? _); [|by exists s].
    destruct (write32_spec s (vnet_pci_dev_bar_offset (st_dev s) addr) (u32 val) (u32 m) H) as (s' & E & H' & _). by exists s'.
  - eexists. split; [done|]. unfold vnet_pci_device_mmio_read32. cbv zeta. destruct (release_spec s) as (Hws & _).
    destruct (_ <? PCI_CFG_SIZE); [cbn [fst]; by rewrite Hws|]. by case_match.
  - by apply flr_ok.
  - destruct (worker_step_ok s H) as (s' & E & H' & _). eauto.
  - destruct (in_cleanup s); [|by exists s]. destruct (cleanup_end_ok s f i H) as (s' & E & H' & _). eauto.
  - eexists. split; [done|]. by destruct (st_ctrl s).
  - eexists. split; [done|]. by destruct (st_ctrl s).
  - eexists. split; [done|]. by destruct (st_ctrl s).
  - eexists. split; [done|]. by rewrite (proj1 (fatal_spec s)).
  - destruct (submit_ok s c H) as (ws & -> & H'). by eexists.
Qed.
Lemma vnet_acts_ok l : forall s, ws_ok (st_ws s) -> exists s', vnet_acts s l = Done s' ∧ ws_ok (st_ws s').
Proof.
  induction l as [|a l IH]; intros s Hs; simpl; [by exists s|].
  destruct (vnet_act_ok s a Hs) as (s1 & -> & H1). cbn [mbind res_bind]. by apply IH.
Qed.
Lemma vnet_start_ok d c : ws_ok (st_ws (vnet_start d c)).
Proof. exists [], []. apply start_inv. Qed.

(** ** Resets *)

(** The fields a reset is decided by, before the callback. *)
Definition reset_fields (d : vnet_pci_device) : Z * Z * bool := (device_status (pci_cfg d), prev_status d, flr_in_progress d).
Lemma save_vq_fields d i : reset_fields (save_vq d i) = reset_fields d.
Proof. unfold save_vq. by case_match. Qed.
Lemma word_set_fields d i w : reset_fields (vnet_pci_dev_driver_feature_word_set d i w) = reset_fields d.
Proof. unfold vnet_pci_dev_driver_feature_word_set. by repeat case_match. Qed.
Lemma stages_fields prev d : reset_fields (queue_saved (queue_selected prev (driver_feature_written prev (driver_feature_selected prev
    (device_feature_selected prev d))))) = reset_fields d.
Proof.
  assert (H1 : forall d, reset_fields (queue_saved d) = reset_fields d) by (intros; unfold queue_saved; case_match; [apply save_vq_fields|done]).
  assert (H2 : forall d, reset_fields (queue_selected prev d) = reset_fields d).
  { intros. unfold queue_selected, save_vq. by repeat case_match. }
  assert (H3 : forall d, reset_fields (driver_feature_written prev d) = reset_fields d).
  { intros. unfold driver_feature_written. case_match; [|done]. apply word_set_fields. }
  assert (H4 : forall d, reset_fields (driver_feature_selected prev d) = reset_fields d).
  { intros. unfold driver_feature_selected, vnet_pci_dev_driver_feature_word_set. by repeat case_match. }
  rewrite H1, H2, H3, H4. unfold device_feature_selected. by case_match.
Qed.
Lemma status_written_zero prev d : device_status (pci_cfg d) = 0 -> reset_fields (status_written prev d) = reset_fields d.
Proof.
  intros E. unfold status_written. rewrite E. cbv zeta. case_match; [|done]. cbn [Z.eqb].
  unfold reset_fields, vnet_pci_device_reset, vnet_pci_device_queue_init. cbn [pci_cfg]. rewrite E. by destruct (imap _ _).
Qed.

(** What the host does resets the device: a function level reset, or a zero written to the status of a device that was in use
    and has something to tear down. *)
Definition resets (s : vnet_state) (c : vnet_pci_dev_controller) (a : vnet_action) : Prop :=
  match a with
  | HostFlr => flr_in_progress (st_dev s) = false
  | HostWrite addr val wr_mask =>
    let cfg := pci_cfg (st_dev s) in
    let cfg' := cfg_set_word cfg 5 (merged (cfg_word cfg 5) (u32 val) (u32 wr_mask)) in
    vnet_pci_dev_bar_offset (st_dev s) addr = 20 ∧ read_only_changed cfg cfg' = false ∧ device_status cfg' = 0 ∧ reset_due (st_dev s) c
  | _ => False
  end.

Lemma reset_acts s c a : ws_ok (st_ws s) -> st_ctrl s = Some c -> reset_status_state c = VNET_RESET_STATUS_IDLE -> virtio_device c = true ->
  shutting_down c = false -> resets s c a -> exists s', vnet_act s a = Done s' ∧ reset_shown s' ∧ cleanup_submitted s'.
Proof.
  intros H Hc Hi Hv Hsd Ha. destruct a as [addr val m| | | | | | | | |]; try done; cbn [vnet_act].
  - destruct Ha as (Ho & Hr & Hz & Hd). unfold vnet_pci_device_mmio_write32. cbv zeta. rewrite Ho. cbn [Z.ltb Z.compare].
    change (20 <? PCI_CFG_SIZE) with true. cbv iota.
    destruct (write32_spec s 20 (u32 val) (u32 m) H) as (s' & -> & _ & Hx). exists s'. split; [done|].
    rewrite release_none in Hx by (unfold reset_state; rewrite Hc; simpl; congruence). change (20 / 4) with 5 in Hx.
    unfold rejected in Hx. rewrite Hr in Hx. destruct Hx as (_ & s1 & s2 & E & H1 & Hd1 & Hc1 & Hc2 & Hw2 & Hs2 & Hg2).
    assert (Hf : reset_fields (st_dev s1) = (0, prev_status (st_dev s), flr_in_progress (st_dev s))).
    { rewrite Hd1. unfold written. cbv zeta. set (d := set_cfg (st_dev s) _). pose proof (stages_fields (pci_cfg (st_dev s)) d) as Hf.
      assert (Hd0 : reset_fields d = (0, prev_status (st_dev s), flr_in_progress (st_dev s))).
      { unfold d, reset_fields. cbn [set_cfg pci_cfg prev_status flr_in_progress]. by rewrite Hz. }
      rewrite Hd0 in Hf. rewrite status_written_zero by exact (f_equal (fun x => x.1.1) Hf). exact Hf. }
    injection Hf as Hf1 Hf2 Hf3.
    destruct (change_cb_resets s1 c H1 ltac:(congruence) Hi Hv Hsd Hf1) as (s3 & E3 & [Hh3 Hs3] & Hsub).
    { unfold reset_due. by rewrite Hf2, Hf3. }
    rewrite E in E3. injection E3 as <-. unfold reset_shown, reset_held, reset_state, cleanup_submitted in *. rewrite Hc2, Hw2, Hs2, Hg2. done.
  - simpl in Ha. unfold vnet_pci_device_handle_flr. rewrite Ha. cbv zeta. eapply change_cb_resets; try done; simpl.
    + unfold status_of, vnet_pci_device_reset, vnet_pci_device_queue_init. cbn [st_dev with_dev pci_cfg]. by destruct (imap _ _).
    + unfold reset_due. destruct (Z.eqb_spec (prev_status (st_dev s)) 0); [by split; [|split; [|right]]|].
      destruct (Z.eqb_spec (prev_status (st_dev s)) 0xFF); [by split; [|split; [|right]]|]. simpl. auto.
Qed.

(** ** The end of a reset *)

Definition cleaned (s : vnet_state) (l : list vnet_action) : Prop :=
  exists m m' s1, l = m ++ CleanupEnd false false :: m' ∧ vnet_acts s m = Done s1 ∧ in_cleanup s1 = true.
(** FEATURES_OK is the whole status after a write, and the features are not accepted. *)
Definition refused_by (s : vnet_state) (a : vnet_action) : Prop :=
  match a with
  | HostWrite addr val wr_mask =>
    let d := written (st_dev s) (vnet_pci_dev_bar_offset (st_dev s) addr / 4) (u32 val) (u32 wr_mask) in
    device_status (pci_cfg d) = VNET_VIRTIO_DEVICE_STATUS_FEATURES_OK ∧ vnet_pci_dev_validate_features d = false
  | _ => False
  end.
(** ... by one of the writes, since which the status is zero. *)
Definition features_refused (s : vnet_state) (l : list vnet_action) : Prop :=
  exists m a m' s1, l = m ++ a :: m' ∧ vnet_acts s m = Done s1 ∧ refused_by s1 a ∧
    forall k s2, vnet_acts s1 (a :: take k m') = Done s2 -> status_of s2 = 0.

Lemma vnet_acts_app l k : forall s, vnet_acts s (l ++ k) = s' ← vnet_acts s l; vnet_acts s' k.
Proof. induction l as [|a l IH]; intros s; simpl; [done|]. destruct (vnet_act s a); [|done]. cbn [mbind res_bind]. apply IH. Qed.

(** An action keeps the reset held, and the status as it is or other than zero, but for the end of the clean-up and refused features. *)
Lemma vnet_act_held s a s' : ws_ok (st_ws s) -> reset_held s -> vnet_act s a = Done s' ->
  (a = CleanupEnd false false ∧ in_cleanup s = true) ∨
  reset_held s' ∧ (status_of s' <> 0 ∨ status_of s' = 0 ∧ refused_by s a ∨ status_of s' = 0 ∧ status_of s = 0).
Proof.
  intros H Hh E. assert (Hsame : reset_state s' = reset_state s -> status_of s' = status_of s ∨ status_of s' <> 0 ->
    reset_held s' ∧ (status_of s' <> 0 ∨ status_of s' = 0 ∧ refused_by s a ∨ status_of s' = 0 ∧ status_of s = 0)).
  { unfold reset_held. intros E1 E2. rewrite E1. split; [done|]. destruct (decide (status_of s' = 0)) as [Hz|]; [|by left].
    right; right. destruct E2; [|done]. split; [done|congruence]. }
  assert (Hrel : vnet_pci_device_apply_reset_status_release s = s) by (apply release_none; by rewrite Hh).
  destruct a as [addr val m|addr| | |f i|f| |g| |c]; cbn [vnet_act] in E.
  - right. unfold vnet_pci_device_mmio_write32 in E. cbv zeta in E. destruct (_ <? _); [|injection E as <-; auto].
    destruct (write32_spec s (vnet_pci_dev_bar_offset (st_dev s) addr) (u32 val) (u32 m) H) as (s3 & E3 & _ & Hx).
    rewrite E in E3. injection E3 as <-. rewrite Hrel in Hx. destruct (rejected _ _ _ _); [subst s'; auto|].
    destruct Hx as (_ & s1 & s2 & Ecb & H1 & Hd1 & Hc1 & Hc2 & _ & Hs2 & _).
    assert (Hh1 : reset_held s1) by (unfold reset_held, reset_state; by rewrite Hc1).
    destruct (change_cb_held s1 s2 H1 Hh1 Ecb) as [Hh2 Hz]. unfold reset_held, reset_state in *. rewrite Hc2, Hs2. split; [done|].
    destruct Hz as [Hz|(Hz & Hf & Hv)]; [by left|]. right; left. split; [done|]. simpl. rewrite <- Hd1. done.
  - right. injection E as <-. unfold vnet_pci_device_mmio_read32 in Hsame |- *. cbv zeta in Hsame |- *. rewrite Hrel in Hsame |- *.
    destruct (_ <? PCI_CFG_SIZE); [auto|]. destruct (_ && _); auto.
  - right. unfold vnet_pci_device_handle_flr in E. destruct (flr_in_progress (st_dev s)); [injection E as <-; auto|]. cbv zeta in E.
    match type of E with virtio_net_ctrl_change_cb ?s1 = _ => destruct (change_cb_held s1 s' H Hh E) as [Hh' [Hz|(_ & Hf & _)]] end; [auto|].
    exfalso. revert Hf. unfold status_of, vnet_pci_device_reset, vnet_pci_device_queue_init. cbn [st_dev with_dev pci_cfg]. by destruct (imap _ _).
  - right. destruct (worker_step_ok s H) as (s1 & E1 & _ & Hd & Hr). rewrite E in E1. injection E1 as <-. apply Hsame; [done|].
    left. unfold status_of. by rewrite Hd.
  - destruct (in_cleanup s); [|right; injection E as <-; auto]. destruct (cleanup_end_ok s f i H) as (s1 & E1 & _ & Hx).
    rewrite E in E1. injection E1 as <-. destruct (f || i) eqn:Ef; [right; destruct (Hx eq_refl); auto|]. apply orb_false_iff in Ef as [-> ->]. by left.
  - right. injection E as <-. destruct (st_ctrl s) as [c|] eqn:Ec; apply Hsame; auto. unfold reset_state. by rewrite Ec.
  - right. injection E as <-. destruct (st_ctrl s) as [c|] eqn:Ec; apply Hsame; auto. unfold reset_state. by rewrite Ec.
  - right. injection E as <-. destruct (st_ctrl s) as [c|] eqn:Ec; apply Hsame; auto. unfold reset_state. by rewrite Ec.
  - right. injection E as <-. destruct (fatal_spec s) as (_ & Hr & Hs). by apply Hsame.
  - right. destruct (submit_ok s c H) as (ws & E1 & _). rewrite E in E1. injection E1 as ->. apply Hsame; [done|by left].
Qed.

Lemma refused_snoc s l a s1 s2 : features_refused s l -> vnet_acts s l = Done s1 -> vnet_act s1 a = Done s2 -> status_of s2 = 0 ->
  features_refused s (l ++ [a]).
Proof.
  intros (m & b & m' & s0 & -> & E0 & Hb & Hz) E Ea H0. exists m, b, (m' ++ [a]), s0. split; [by rewrite <- app_assoc|]. do 2 (split; [done|]).
  intros k s3 E3. destruct (decide (k <= length m')%nat) as [Hk|Hk].
  - apply (Hz k). by rewrite take_app_le in E3.
  - rewrite take_ge in E3 by (rewrite length_app; simpl; lia). rewrite vnet_acts_app, E0 in E. cbn [mbind res_bind] in E.
    rewrite app_comm_cons, vnet_acts_app, E in E3. cbn [mbind res_bind vnet_acts] in E3. rewrite Ea in E3. cbn [mbind res_bind] in E3. congruence.
Qed.
(** From a held reset on. *)
Lemma held_until s l : ws_ok (st_ws s) -> reset_held s -> status_of s <> 0 ->
  exists s', vnet_acts s l = Done s' ∧ ws_ok (st_ws s') ∧
    (cleaned s l ∨ reset_held s' ∧ (status_of s' <> 0 ∨ features_refused s l)).
Proof.
  intros H Hh Hn. induction l as [|a l IH] using rev_ind; [exists s; do 2 (split; [done|]); right; auto|].
  destruct IH as (s1 & E1 & H1 & Hx). destruct (vnet_act_ok s1 a H1) as (s2 & E2 & H2). exists s2.
  split; [rewrite vnet_acts_app, E1; cbn [mbind res_bind vnet_acts]; by rewrite E2|]. split; [done|].
  destruct Hx as [(m & m' & s0 & -> & Hm)|[Hh1 Hs1]]; [left; exists m, (m' ++ [a]), s0; by rewrite <- app_assoc|].
  destruct (vnet_act_held s1 a s2 H1 Hh1 E2) as [[-> Hic]|[Hh2 Hs2]]; [left; by exists l, [], s1|]. right. split; [done|].
  destruct Hs2 as [Hs2|[[Hs2 Hr]|[Hs2 Hz]]]; [by left|right; exists l, a, [], s1|right; destruct Hs1; [done|by eapply refused_snoc]].
  do 3 (split; [done|]). intros k s3. rewrite take_nil. cbn [vnet_acts]. rewrite E2. cbn [mbind res_bind]. congruence.
Qed.
(** A clean-up that ends lets the host see the reset as done. *)
Lemma cleanup_ends s c : ws_ok (st_ws s) -> reset_shown s -> st_ctrl s = Some c -> virtio_device c = true -> in_cleanup s = true ->
  exists s', vnet_act s (CleanupEnd false false) = Done s' ∧
    let r := vnet_pci_device_apply_reset_status_release s' in status_of r = 0 ∧ reset_state r = Some VNET_RESET_STATUS_IDLE.
Proof.
  intros H [Hh Hs] Hc Hv Hi. cbn [vnet_act]. rewrite Hi. unfold cleanup_end. rewrite Hc.
  unfold reset_held, reset_state in Hh. rewrite Hc in Hh. simpl in Hh. injection Hh as Hh.
  match goal with |- context [release_hold s ?c'] => destruct (deferred_init_ok (release_hold s c')) as (s' & E & _ & Hd & Hr) end;
    [by rewrite release_hold_ws|]. exists s'. split; [done|]. revert Hd Hr. unfold release_hold. cbn [reset_status_state virtio_device].
  rewrite bool_decide_eq_true_2, Hv by done. unfold reset_state, vnet_pci_device_apply_reset_status_release. simpl. intros Hd Hr.
  destruct (st_ctrl s') as [c'|]; [|done]. simpl in Hr. injection Hr as Hr. rewrite bool_decide_eq_true_2 by done. rewrite Hd. simpl.
  unfold status_of in Hs. rewrite Hs. done.
Qed.


(** ** Examples *)

Definition example_dev : vnet_pci_device := vnet_pci_device_init_internal 3 2 0 256 [0; 0; 0; 0; 0; 0] (4096, 0).
Definition example_start : vnet_state := vnet_start example_dev (Some (controller_init 0 4 1 false)).
Definition set_word (k x : Z) : vnet_action := HostWrite (4096 + 4 * k) x 0xFFFFFFFF.
Definition set_status_byte (x : Z) : vnet_action := HostWrite (4096 + 20) x 0xFF.
(** A driver starts the device, its items are run, and the engine runs. *)
Definition bring_up : list vnet_action :=
  [set_status_byte 0; set_status_byte 1; set_status_byte 3; set_word 2 0; set_word 3 3; set_word 2 1; set_word 3 1;
   set_status_byte 11; set_status_byte 15] ++ replicate 12 WorkerStep ++
  [EngineChange {| ef_started := true; ef_vqs := true; ef_enabled := true; ef_stats := true; ef_active_qps := 1 |}].
(** The worker takes the clean-up, runs it and gives it back; then the host reads the status. *)
Definition run_cleanup : list vnet_action := [WorkerStep; WorkerStep; CleanupEnd false false; WorkerStep; HostRead (4096 + 20)].

Record summary := { sm_status : Z; sm_hold : option vnet_reset_status_state; sm_flr : bool; sm_pending : Z }.
Definition summary_of (r : res vnet_state) : res summary :=
  s ← r; Done {| sm_status := status_of s; sm_hold := reset_status_state <$> st_ctrl s; sm_flr := flr_in_progress (st_dev s);
                 sm_pending := wq_pending_work_count (ws_wq (st_ws s)) |}.

Definition after (l : list vnet_action) : vnet_state := default example_start (match vnet_acts example_start l with Done s => Some s | _ => None end).
Lemma example_running : exists c, st_ctrl (after bring_up) = Some c ∧ virtio_device c = true ∧ reset_status_state c = VNET_RESET_STATUS_IDLE ∧
  shutting_down c = false ∧ resets (after bring_up) c (set_status_byte 0).
Proof.
  eexists. split; [vm_compute; reflexivity|]. do 3 (split; [vm_compute; reflexivity|]).
  do 3 (split; [vm_compute; reflexivity|]). do 2 (split; [vm_compute; discriminate|]). left. vm_compute. reflexivity.
Qed.
Lemma example_reset : (s ← vnet_act (after bring_up) (set_status_byte 0);
  Done (reset_generation (st_dev s), wq_shutdown (ws_wq (st_ws s)), wq_free_count (ws_wq (st_ws s)))) = Done (3, false, 1023).
Proof. vm_compute. reflexivity. Qed.
Lemma example_cleanup : (s ← vnet_acts (after (bring_up ++ [set_status_byte 0])) run_cleanup;
  Done (vnet_pci_dev_bar_offset (st_dev s) (4096 + 20), status_of (fst (vnet_pci_device_mmio_read32 s (4096 + 20))))) = Done (20, 0).
Proof. vm_compute. reflexivity. Qed.
Lemma after_eq l s : vnet_acts example_start l = Done s -> s = after l.
Proof. intros E. unfold after. by rewrite E. Qed.

(** A second reset while the clean-up of the first waits in the queue makes that item stale, and the callback does not submit
    another because the reset is held already: the status stays at NEEDS_RESET, and no later reset gets the device out of it. *)
Lemma second_reset_wedges :
  summary_of (vnet_acts example_start (bring_up ++ [set_status_byte 0; set_status_byte 0] ++ run_cleanup)) =
    Done {| sm_status := 64; sm_hold := Some VNET_RESET_STATUS_HELD; sm_flr := false; sm_pending := 0 |} ∧
  summary_of (vnet_acts example_start (bring_up ++ [set_status_byte 0; set_status_byte 0] ++ run_cleanup ++ [set_status_byte 0] ++ run_cleanup)) =
    Done {| sm_status := 64; sm_hold := Some VNET_RESET_STATUS_HELD; sm_flr := false; sm_pending := 0 |}.
Proof. split; vm_compute; reflexivity. Qed.
(** So does a function level reset, after which further ones are ignored. *)
Lemma flr_while_held_wedges :
  summary_of (vnet_acts example_start (bring_up ++ [set_status_byte 0; HostFlr] ++ run_cleanup ++ [HostFlr] ++ run_cleanup)) =
    Done {| sm_status := 64; sm_hold := Some VNET_RESET_STATUS_HELD; sm_flr := true; sm_pending := 0 |}.
Proof. vm_compute. reflexivity. Qed.
(** Without the second reset the device comes back. *)
Lemma reset_completes :
  summary_of (vnet_acts example_start (bring_up ++ [set_status_byte 0] ++ run_cleanup)) =
    Done {| sm_status := 0; sm_hold := Some VNET_RESET_STATUS_IDLE; sm_flr := false; sm_pending := 0 |}.
Proof. vm_compute. reflexivity. Qed.
(** With features the device did not offer, FEATURES_OK alone shows the status zero while the reset is held. *)
Lemma refused_features_show_reset :
  summary_of (vnet_acts example_start (bring_up ++ [set_status_byte 0; set_word 3 4; set_status_byte 8; HostRead (4096 + 20)])) =
    Done {| sm_status := 0; sm_hold := Some VNET_RESET_STATUS_HELD; sm_flr := false; sm_pending := 1 |}.
Proof. vm_compute. reflexivity. Qed.
