(* ===== verification/VnetReg.v ===== *)
(** * VnetReg: what the host reads and writes through the registers of the
      virtio-net device, src/applications/vnet_pci_dev/vnet_pci_device.c

    The common configuration structure of [VnetDev] is a view of a larger state: 64
    offered and 64 accepted features behind two words each, and an array of queues
    behind one window. [queue_window] and [features_negotiated] say that the views are
    what they should be, in every state the device reaches; [features_ok_checked] says
    what the status FEATURES_OK does, and [negotiation] what the features then mean for the
    queues. *)

From S2P Require Import Prelude TlpCfg Bits.
From S2P Require Import VnetWork VnetDev.

(** ** The queues behind the window *)

(** All queues, with the selected one as the window shows it. *)
Definition queues (d : vnet_pci_device) : list vnet_virtio_queue_config := vqs (save_vq d (queue_select (pci_cfg d))).
Definition initial_queues (d : vnet_pci_device) : list vnet_virtio_queue_config := imap (fun i _ => init_vq (dev_queue_size d) i) (vqs d).

Lemma imap_const {A B} (f : nat -> B) (l l' : list A) : length l' = length l -> imap (fun i _ => f i) l' = imap (fun i _ => f i) l.
Proof.
  intros H. apply list_eq. intros i. rewrite !list_lookup_imap.
  destruct (lookup_lt_is_Some l i) as [_ H1], (lookup_lt_is_Some l' i) as [_ H2]. rewrite H in H2.
  destruct (decide (i < length l)%nat) as [Hi|Hi].
  - destruct (H1 Hi) as [x ->], (H2 Hi) as [y ->]. done.
  - by rewrite !lookup_ge_None_2 by lia.
Qed.
Lemma save_vq_vqs d i : vqs (save_vq d i) = <[Z.to_nat i := vq (pci_cfg d)]> (vqs d).
Proof. unfold save_vq, vqs_count. destruct (Z.ltb_spec i (Z.of_nat (length (vqs d)))); [done|]. by rewrite list_insert_ge by lia. Qed.
Lemma save_vq_cfg d i : pci_cfg (save_vq d i) = pci_cfg d.
Proof. unfold save_vq. by case_match. Qed.
Lemma queues_vqs d : queues d = <[Z.to_nat (queue_select (pci_cfg d)) := vq (pci_cfg d)]> (vqs d).
Proof. apply save_vq_vqs. Qed.
Lemma queues_registers d d' : registers d' = registers d -> queues d' = queues d.
Proof.
  intros E. rewrite !queues_vqs. pose proof (f_equal vqs E) as E1. pose proof (f_equal (queue_select ∘ pci_cfg) E) as E2.
  pose proof (f_equal (vq ∘ pci_cfg) E) as E3. simpl in *. by rewrite E1, E2, E3.
Qed.
Lemma queues_save d : queues (save_vq d (queue_select (pci_cfg d))) = queues d.
Proof. unfold queues at 1. rewrite save_vq_cfg, !save_vq_vqs, save_vq_cfg, list_insert_insert_eq. by rewrite queues_vqs. Qed.
Lemma queues_saved d : queues (queue_saved d) = queues d.
Proof. unfold queue_saved. case_match; [|done]. apply queues_save. Qed.

Lemma cfg_vq_word c k x : 6 <= k < 15 -> cfg_word c k = vq_word (vq c) (k - 6) ∧
  cfg_set_word c k x = {| c with vq := vq_set_word (vq c) (k - 6) x |}.
Proof.
  intros H. assert (k = 6 ∨ k = 7 ∨ k = 8 ∨ k = 9 ∨ k = 10 ∨ k = 11 ∨ k = 12 ∨ k = 13 ∨ k = 14) as Hk by lia.
  destruct_or! Hk; subst k; done.
Qed.

(** The stages of a write that find their field unchanged. *)
Lemma device_feature_same prev d : device_feature_select (pci_cfg d) = device_feature_select prev -> device_feature_selected prev d = d.
Proof. intros E. unfold device_feature_selected. by rewrite E, Z.eqb_refl. Qed.
Lemma driver_select_same prev d : driver_feature_select (pci_cfg d) = driver_feature_select prev -> driver_feature_selected prev d = d.
Proof. intros E. unfold driver_feature_selected. by rewrite E, Z.eqb_refl. Qed.
Lemma driver_feature_same prev d : driver_feature (pci_cfg d) = driver_feature prev -> driver_feature_written prev d = d.
Proof. intros E. unfold driver_feature_written. by rewrite E, Z.eqb_refl. Qed.
Lemma queue_select_same prev d : queue_select (pci_cfg d) = queue_select prev -> queue_selected prev d = d.
Proof. intros E. unfold queue_selected. by rewrite E, Z.eqb_refl. Qed.
Lemma status_same prev d : device_status (pci_cfg d) = device_status prev -> status_written prev d = d.
Proof. intros E. unfold status_written. by rewrite E, Z.eqb_refl. Qed.
Lemma queue_saved_cfg d : pci_cfg (queue_saved d) = pci_cfg d.
Proof. unfold queue_saved. case_match; [|done]. apply save_vq_cfg. Qed.

Lemma written_vq d k val m : 6 <= k < 15 ->
  written d k val m =
    queue_saved (set_cfg d {| (pci_cfg d) with vq := vq_set_word (vq (pci_cfg d)) (k - 6) (merged (vq_word (vq (pci_cfg d)) (k - 6)) val m) |}).
Proof.
  intros Hk. unfold written. cbv zeta. destruct (cfg_vq_word (pci_cfg d) k (merged (cfg_word (pci_cfg d) k) val m) Hk) as [Ew ->]. rewrite Ew.
  rewrite device_feature_same, driver_select_same, driver_feature_same, queue_select_same by done.
  apply status_same. by rewrite queue_saved_cfg.
Qed.

Lemma queues_window d k val m : 6 <= k < 15 ->
  queues (written d k val m) =
    alter (fun v => vq_set_word v (k - 6) (merged (vq_word v (k - 6)) val m)) (Z.to_nat (queue_select (pci_cfg d))) (queues d).
Proof.
  intros Hk. rewrite written_vq, queues_saved, !queues_vqs by done. simpl.
  set (i := Z.to_nat _). apply list_eq. intros j. destruct (decide (i = j)) as [<-|Hj].
  - rewrite list_lookup_alter_eq. destruct (decide (i < length (vqs d))%nat).
    + by rewrite !list_lookup_insert_eq.
    + by rewrite !list_insert_ge, lookup_ge_None_2 by lia.
  - by rewrite list_lookup_alter_ne, !list_lookup_insert_ne.
Qed.

(** The fields of the queues and of the status. *)
Definition queue_part (d : vnet_pci_device) := (vqs d, queue_select (pci_cfg d), vq (pci_cfg d), device_status (pci_cfg d), dev_queue_size d).
Lemma queue_part_queues d d' : queue_part d' = queue_part d ->
  queues d' = queues d ∧ queue_select (pci_cfg d') = queue_select (pci_cfg d) ∧ vq (pci_cfg d') = vq (pci_cfg d) ∧
  device_status (pci_cfg d') = device_status (pci_cfg d) ∧ initial_queues d' = initial_queues d.
Proof. intros [= E1 E2 E3 E4 E5]. rewrite !queues_vqs. unfold initial_queues. by rewrite E1, E2, E3, E4, E5. Qed.
Lemma feature_stages_queue_part prev d :
  queue_part (driver_feature_written prev (driver_feature_selected prev (device_feature_selected prev d))) = queue_part d.
Proof.
  assert (Hw : forall d x y, queue_part (vnet_pci_dev_driver_feature_word_set d x y) = queue_part d).
  { intros. unfold vnet_pci_dev_driver_feature_word_set. by repeat case_match. }
  assert (H1 : forall d, queue_part (device_feature_selected prev d) = queue_part d).
  { intros. unfold device_feature_selected. by case_match. }
  assert (H2 : forall d, queue_part (driver_feature_selected prev d) = queue_part d).
  { intros d0. unfold driver_feature_selected. case_match; [|done]. rewrite <- (Hw d0 (driver_feature_select prev) (driver_feature (pci_cfg d0))).
    unfold queue_part. simpl. unfold vnet_pci_dev_driver_feature_word_set. by repeat case_match. }
  unfold driver_feature_written. case_match; [rewrite Hw|]; by rewrite H2, H1.
Qed.

(** Selecting a queue. *)
Lemma queue_selected_spec prev d : vq (pci_cfg d) = vq prev ->
  queues (queue_selected prev d) = <[Z.to_nat (queue_select prev) := vq prev]> (vqs d) ∧
  queue_select (pci_cfg (queue_selected prev d)) = queue_select (pci_cfg d) ∧
  device_status (pci_cfg (queue_selected prev d)) = device_status (pci_cfg d) ∧
  vq (pci_cfg (queue_selected prev d)) =
    (if queue_select (pci_cfg d) =? queue_select prev then vq prev
     else default zero_vq (<[Z.to_nat (queue_select prev) := vq prev]> (vqs d) !! Z.to_nat (queue_select (pci_cfg d)))) ∧
  initial_queues (queue_selected prev d) = initial_queues d.
Proof.
  intros Hv. unfold queue_selected. rewrite (Z.eqb_sym (queue_select prev)).
  destruct (Z.eqb_spec (queue_select (pci_cfg d)) (queue_select prev)) as [E|E]; simpl.
  - rewrite queues_vqs, E, Hv. done.
  - rewrite queues_vqs. simpl. rewrite save_vq_cfg, save_vq_vqs, Hv. set (Q := <[_:=_]> (vqs d)). split; [|split; [done|]; split; [done|]; split; [done|]].
    + set (j := Z.to_nat (queue_select (pci_cfg d))). destruct (Q !! j) as [v|] eqn:EQ; simpl; [by rewrite list_insert_id|].
      apply lookup_ge_None in EQ. by rewrite list_insert_ge.
    + unfold initial_queues. simpl. rewrite (imap_const _ (vqs d)) by (rewrite save_vq_vqs; apply length_insert).
      unfold save_vq. by case_match.
Qed.

Lemma queues_init d : queues (vnet_pci_device_queue_init d) = initial_queues d.
Proof.
  rewrite queues_vqs. unfold vnet_pci_device_queue_init, initial_queues. simpl. by destruct (imap _ (vqs d)).
Qed.
Lemma queues_reset d : queues (vnet_pci_device_reset d) = initial_queues d.
Proof. unfold vnet_pci_device_reset. by rewrite queues_init. Qed.
Lemma initial_queues_saved d : initial_queues (queue_saved d) = initial_queues d.
Proof.
  unfold queue_saved. case_match; [|done]. unfold initial_queues. rewrite (imap_const _ (vqs d)) by (rewrite save_vq_vqs; apply length_insert).
  unfold save_vq. by case_match.
Qed.

(** What the word with the status and the selected queue becomes. *)
Definition new_word5 (d : vnet_pci_device) (val m : Z) : Z := merged (cfg_word (pci_cfg d) 5) val m.
Definition new_status (d : vnet_pci_device) (val m : Z) : Z := Z.land (new_word5 d val m) 0xFF.
Definition new_select (d : vnet_pci_device) (val m : Z) : Z := high (new_word5 d val m).

Lemma written_select d val m :
  let d' := written d 5 val m in
  if negb (device_status (pci_cfg d) =? new_status d val m) && (new_status d val m =? 0)
  then queues d' = initial_queues d ∧ queue_select (pci_cfg d') = 0
  else queues d' = queues d ∧ queue_select (pci_cfg d') = new_select d val m ∧
    vq (pci_cfg d') = if new_select d val m =? queue_select (pci_cfg d) then vq (pci_cfg d)
                      else default zero_vq (queues d !! Z.to_nat (new_select d val m)).
Proof.
  cbv zeta. unfold written. cbv zeta. set (prev := pci_cfg d). set (d1 := set_cfg d _).
  rewrite device_feature_same, driver_select_same, driver_feature_same by done.
  destruct (queue_selected_spec prev d1 eq_refl) as (HQ & HS & HT & HV & HI).
  assert (EQ : <[Z.to_nat (queue_select prev):=vq prev]> (vqs d1) = queues d) by (by rewrite queues_vqs). rewrite EQ in *.
  set (d2 := queue_saved _). assert (Hc : pci_cfg d2 = pci_cfg (queue_selected prev d1)) by apply queue_saved_cfg.
  assert (HI2 : initial_queues d2 = initial_queues d) by (unfold d2; rewrite initial_queues_saved; exact HI).
  assert (HQ2 : queues d2 = queues d) by (unfold d2; rewrite queues_saved; exact HQ). clearbody d2.
  rewrite <- Hc in HS, HT, HV. change (queue_select (pci_cfg d1)) with (new_select d val m) in *.
  change (device_status (pci_cfg d1)) with (new_status d val m) in HT. unfold status_written. rewrite HT.
  destruct (negb (device_status prev =? new_status d val m)); cbn [andb]; [|done].
  destruct (new_status d val m =? 0).
  - rewrite queues_reset. split; [exact HI2|]. unfold vnet_pci_device_reset, vnet_pci_device_queue_init. cbn [pci_cfg]. by destruct (imap _ _).
  - destruct (Z.ldiff _ _ =? _); [|done]. rewrite queues_save, save_vq_cfg. done.
Qed.

Lemma other_word c k x : k = 0 ∨ k = 1 ∨ k = 2 ∨ k = 3 ∨ k = 4 ∨ k = 15 ->
  queue_select (cfg_set_word c k x) = queue_select c ∧ vq (cfg_set_word c k x) = vq c ∧ device_status (cfg_set_word c k x) = device_status c.
Proof. intros Hk. destruct_or! Hk; by subst k. Qed.
Lemma written_other d k val m : k = 0 ∨ k = 1 ∨ k = 2 ∨ k = 3 ∨ k = 4 ∨ k = 15 ->
  queues (written d k val m) = queues d ∧ queue_select (pci_cfg (written d k val m)) = queue_select (pci_cfg d).
Proof.
  intros Hk. unfold written. cbv zeta. set (c := cfg_set_word _ _ _).
  destruct (other_word (pci_cfg d) k (merged (cfg_word (pci_cfg d) k) val m) Hk) as (E1 & E2 & E3). fold c in E1, E2, E3.
  set (d1 := driver_feature_written _ _).
  destruct (queue_part_queues (set_cfg d c) d1 (feature_stages_queue_part _ _)) as (F1 & F2 & F3 & F4 & _).
  rewrite queue_select_same by (rewrite F2; exact E1).
  rewrite status_same by (rewrite queue_saved_cfg, F4; exact E3).
  rewrite queues_saved, queue_saved_cfg, F1, F2, !queues_vqs. simpl. by rewrite E1, E2.
Qed.

Lemma registers_queue d d' : registers d' = registers d ->
  queues d' = queues d ∧ queue_select (pci_cfg d') = queue_select (pci_cfg d) ∧ vq (pci_cfg d') = vq (pci_cfg d) ∧
  initial_queues d' = initial_queues d.
Proof.
  intros E. split; [by apply queues_registers|]. split; [exact (f_equal (queue_select ∘ pci_cfg) E)|].
  split; [exact (f_equal (vq ∘ pci_cfg) E)|]. exact (f_equal initial_queues E).
Qed.

Lemma queue_write s k val m : ws_ok (st_ws s) -> 0 <= k < 16 ->
  let r := st_dev (vnet_pci_device_apply_reset_status_release s) in
  exists s', vnet_pci_device_pci_cfg_write32 s (4 * k) val m = Done s' ∧
    let d := st_dev s in let d' := st_dev s' in let sel := queue_select (pci_cfg d) in
    if rejected r k val m then queues d' = queues d ∧ queue_select (pci_cfg d') = sel
    else if bool_decide (6 <= k < 15) then
      queues d' = alter (fun v => vq_set_word v (k - 6) (merged (vq_word v (k - 6)) val m)) (Z.to_nat sel) (queues d) ∧ queue_select (pci_cfg d') = sel
    else if k =? 5 then
      if negb (device_status (pci_cfg r) =? new_status r val m) && (new_status r val m =? 0)
      then queues d' = initial_queues d ∧ queue_select (pci_cfg d') = 0
      else queues d' = queues d ∧ queue_select (pci_cfg d') = new_select r val m ∧
        vq (pci_cfg d') = if new_select r val m =? sel then vq (pci_cfg d) else default zero_vq (queues d !! Z.to_nat (new_select r val m))
    else queues d' = queues d ∧ queue_select (pci_cfg d') = sel.
Proof.
  intros H Hk r. destruct (write32_spec s (4 * k) val m H) as (s' & E & _ & Hr). exists s'. split; [done|]. cbv zeta.
  rewrite (Z.mul_comm 4 k), Z.div_mul in Hr by done. fold r in Hr. destruct (release_spec s) as (_ & Hd). fold r in Hd.
  destruct (registers_queue _ _ Hd) as (R1 & R2 & R3 & R4). rewrite <- R1, <- R2, <- R3, <- R4.
  destruct (rejected r k val m); [subst s'; done|]. destruct Hr as [Hr _]. destruct (registers_queue _ _ Hr) as (W1 & W2 & W3 & _). rewrite W1, W2, W3.
  case_bool_decide as Hv.
  - rewrite queues_window by done. split; [done|]. rewrite written_vq, queue_saved_cfg by done. done.
  - destruct (Z.eqb_spec k 5) as [->|H5]; [apply written_select|]. apply written_other. lia.
Qed.

(** The bits of the window that are read-only for the driver: [queue_notify_off] and [queue_notif_config_data]; and a queue without
    them. *)
Definition read_only_bits (k : Z) : Z := match k with 1 => 0xFFFF0000 | 8 => 0x0000FFFF | _ => 0 end.
Definition driver_fields (v : vnet_virtio_queue_config) : vnet_virtio_queue_config :=
  {| v with queue_notify_off := 0; queue_notif_config_data := 0 |}.
(** The word [k] of the window is written, for the queue [sel]. *)
Definition window_written (Q : list vnet_virtio_queue_config) (sel : nat) (k val m : Z) (Q' : list vnet_virtio_queue_config) : Prop :=
  let W := alter (fun v => vq_set_word v k (merged (vq_word v k) val m)) sel Q in
  driver_fields <$> Q' = driver_fields <$> W ∧ (Z.land m (read_only_bits k) = 0 -> Q' = W) ∧
  forall j, j <> sel -> Q' !! j = Q !! j.

(** C12: the window shows one queue and changes one queue. In every state the device reaches, the queues as the host means them are the
    saved ones with the selected one as it stands in the window; it is what the window shows. A write to a word of the window
    changes that word of the selected queue, under the mask of the write, and nothing else: no other queue and no other field; what
    becomes of the two fields of the window that are read-only for the driver is stated for the writes whose mask leaves them out.
    Selecting a queue loses nothing of the queue that was selected and shows the new one as it was left (or zeros when there
    is none), a reset makes all queues initial, and no other write, and no write that is rejected for a read-only field,
    changes a queue or the selection. *)
Theorem queue_window d0 admin qps eps hp l k val m : 0 <= k < 16 ->
  exists s s', vnet_acts (vnet_start d0 (Some (controller_init admin qps eps hp))) l = Done s ∧
    vnet_pci_device_pci_cfg_write32 s (4 * k) val m = Done s' ∧
    let d := st_dev s in let d' := st_dev s' in let sel := queue_select (pci_cfg d) in
    let r := st_dev (vnet_pci_device_apply_reset_status_release s) in
    ((Z.to_nat sel < length (vqs d))%nat -> queues d !! Z.to_nat sel = Some (vq (pci_cfg d))) ∧
    if rejected r k val m then queues d' = queues d ∧ queue_select (pci_cfg d') = sel
    else if bool_decide (6 <= k < 15) then
      window_written (queues d) (Z.to_nat sel) (k - 6) val m (queues d') ∧ queue_select (pci_cfg d') = sel
    else if k =? 5 then
      if negb (device_status (pci_cfg r) =? new_status r val m) && (new_status r val m =? 0)
      then queues d' = initial_queues d ∧ queue_select (pci_cfg d') = 0
      else queues d' = queues d ∧ queue_select (pci_cfg d') = new_select r val m ∧
        vq (pci_cfg d') = if new_select r val m =? sel then vq (pci_cfg d) else default zero_vq (queues d !! Z.to_nat (new_select r val m))
    else queues d' = queues d ∧ queue_select (pci_cfg d') = sel.
Proof.
  intros Hk. destruct (vnet_acts_ok l _ (vnet_start_ok d0 (Some (controller_init admin qps eps hp)))) as (s & E & Hs).
  destruct (queue_write s k val m Hs Hk) as (s' & E' & H). exists s, s'. split; [done|]. split; [done|].
  split; [intros Hi; rewrite queues_vqs; by rewrite list_lookup_insert_eq|]. cbv zeta in H |- *.
  destruct (rejected _ _ _ _); [exact H|]. destruct (bool_decide _); [|exact H]. destruct H as [H Hsel]. split; [|exact Hsel].
  rewrite H. split; [done|]. split; [done|]. intros j Hj. by rewrite list_lookup_alter_ne.
Qed.

Lemma rejected_vq d k val m : 6 <= k < 15 -> rejected d k val m = false.
Proof.
  intros Hk. unfold rejected. destruct (cfg_vq_word (pci_cfg d) k (merged (cfg_word (pci_cfg d) k) val m) Hk) as [_ ->].
  unfold read_only_changed. simpl. by rewrite !Z.eqb_refl.
Qed.
(** The host selects queue 1 and writes the low word of the address of its descriptors. *)
Definition select_queue_1 : list vnet_action := bring_up ++ [HostWrite (4096 + 20) (Z.shiftl 1 16) 0xFFFF0000].
Lemma queue_window_witness : exists s s', vnet_acts example_start select_queue_1 = Done s ∧
  vnet_pci_device_pci_cfg_write32 s (4 * 8) 0x12345678 0xFFFFFFFF = Done s' ∧
  queues (st_dev s') = alter (fun v => vq_set_word v 2 (merged (vq_word v 2) 0x12345678 0xFFFFFFFF)) (Z.to_nat (queue_select (pci_cfg (st_dev s))))
    (queues (st_dev s)).
Proof.
  destruct (queue_window example_dev 0 4 1 false select_queue_1 8 0x12345678 0xFFFFFFFF ltac:(lia)) as (s & s' & E & E' & _ & H).
  exists s, s'. split; [exact E|]. split; [exact E'|]. rewrite rejected_vq, bool_decide_eq_true_2 in H by lia.
  exact (proj1 (proj2 (proj1 H)) eq_refl).
Defined.
Lemma queue_window_example :
  (s ← vnet_acts example_start (select_queue_1 ++ [set_word 8 0x12345678]); Done (queue_desc <$> queues (st_dev s))) = Done [0; 0x12345678].
Proof. vm_compute. reflexivity. Qed.

(** ** The features behind their words *)

Definition feature_word (select features : Z) : Z := if select =? 0 then low32 features else high32 features.

Record features_shown (d : vnet_pci_device) : Prop := {
  fs_select : in_width 32 (driver_feature_select (pci_cfg d));
  fs_word : in_width 32 (driver_feature (pci_cfg d));
  fs_driver : in_width 64 (driver_features d);
  fs_driver_word : driver_feature_select (pci_cfg d) <= 1 ->
    driver_feature (pci_cfg d) = feature_word (driver_feature_select (pci_cfg d)) (driver_features d);
  fs_device_select : in_width 32 (device_feature_select (pci_cfg d));
  fs_device : in_width 64 (device_features d);
  fs_device_word : device_feature (pci_cfg d) = vnet_pci_dev_feature_select (s32 (device_feature_select (pci_cfg d))) (device_features d);
}.
Definition feature_part (d : vnet_pci_device) :=
  let c := pci_cfg d in
  (device_feature_select c, device_feature c, driver_feature_select c, driver_feature c, device_features d, driver_features d).
Lemma features_shown_part d d' : feature_part d' = feature_part d -> features_shown d -> features_shown d'.
Proof. intros [= E1 E2 E3 E4 E5 E6] []. constructor; by rewrite ?E1, ?E2, ?E3, ?E4, ?E5, ?E6. Qed.
Lemma registers_feature_part d d' : registers d' = registers d -> feature_part d' = feature_part d.
Proof. exact (fun E => f_equal feature_part E). Qed.

Lemma merged_width old val m : in_width 32 old -> in_width 32 val -> in_width 32 m -> in_width 32 (merged old val m).
Proof.
  intros H1 H2 H3. unfold merged. assert (E : Z.lor (Z.ldiff old m) (Z.land val m) = Z.lor (Z.ldiff old m) (Z.land val m) mod 2 ^ 32) by bits_eq.
  rewrite E. by apply (uwrap_range 32).
Qed.
Lemma merged_full old val : in_width 32 old -> in_width 32 val -> merged old val 0xFFFFFFFF = val.
Proof. intros. unfold merged. bits_eq. Qed.
Lemma feature_word_width sel f : in_width 64 f -> in_width 32 (feature_word sel f).
Proof.
  intros H. unfold feature_word, low32, high32. case_match.
  - assert (E : Z.land f 0xFFFFFFFF = f mod 2 ^ 32) by bits_eq. rewrite E. by apply (uwrap_range 32).
  - assert (E : Z.shiftr f 32 = Z.shiftr f 32 mod 2 ^ 32) by bits_eq. rewrite E. by apply (uwrap_range 32).
Qed.
Lemma s32_small x : 0 <= x < 2147483648 -> s32 x = x.
Proof. intros. unfold s32, swrap. simpl. rewrite Z.mod_small by lia. lia. Qed.
Lemma feature_select_word sel f : 0 <= sel <= 1 -> vnet_pci_dev_feature_select (s32 sel) f = feature_word sel f.
Proof. intros. rewrite s32_small by lia. assert (sel = 0 ∨ sel = 1) as [->| ->] by lia; done. Qed.
Lemma feature_select_width n f : in_width 64 f -> in_width 32 (vnet_pci_dev_feature_select n f).
Proof.
  intros H. unfold vnet_pci_dev_feature_select. case_match; [done|]. case_match; [exact (feature_word_width 1 f H)|exact (feature_word_width 0 f H)].
Qed.

(** Setting one word of the accepted features. *)
Definition word_set (sel w f : Z) : Z := if 1 <? sel then f else if sel =? 0 then Z.lor (Z.land f 0xFFFFFFFF00000000) w
  else Z.lor (Z.shiftl w 32) (Z.land f 0xFFFFFFFF).
Lemma driver_feature_word_set_spec d sel w :
  vnet_pci_dev_driver_feature_word_set d sel w = {| d with driver_features := word_set sel w (driver_features d) |}.
Proof. unfold vnet_pci_dev_driver_feature_word_set, word_set. repeat case_match; try done. by destruct d. Qed.
Lemma word_set_width sel w f : in_width 32 w -> in_width 64 f -> in_width 64 (word_set sel w f).
Proof.
  intros H1 H2. unfold word_set. case_match; [done|]. case_match.
  - assert (E : Z.lor (Z.land f 18446744069414584320) w = Z.lor (Z.land f 18446744069414584320) w mod 2 ^ 64) by bits_eq.
    rewrite E. by apply (uwrap_range 64).
  - assert (E : Z.lor (Z.shiftl w 32) (Z.land f 4294967295) = Z.lor (Z.shiftl w 32) (Z.land f 4294967295) mod 2 ^ 64) by bits_eq.
    rewrite E. by apply (uwrap_range 64).
Qed.
Lemma word_set_word sel w f : 0 <= sel <= 1 -> in_width 32 w -> in_width 64 f -> feature_word sel (word_set sel w f) = w.
Proof.
  intros Hs H1 H2. unfold word_set, feature_word, low32, high32. assert (sel = 0 ∨ sel = 1) as [->| ->] by lia; simpl; bits_eq.
Qed.
Lemma word_set_same sel f : in_width 64 f -> (0 <= sel <= 1 -> word_set sel (feature_word sel f) f = f).
Proof.
  intros H Hs. unfold word_set, feature_word, low32, high32. assert (sel = 0 ∨ sel = 1) as [->| ->] by lia; simpl; bits_eq.
Qed.
Lemma word_set_both lo hi f : in_width 32 lo -> in_width 32 hi -> in_width 64 f ->
  word_set 1 hi (word_set 0 lo f) = Z.lor (Z.shiftl hi 32) lo.
Proof. intros. unfold word_set. simpl. bits_eq. Qed.

Lemma select_device_shown d x : features_shown d -> in_width 32 x ->
  features_shown (device_feature_selected (pci_cfg d) (set_cfg d {| (pci_cfg d) with device_feature_select := x |})).
Proof.
  intros [] Hx. unfold device_feature_selected. simpl. destruct (Z.eqb_spec (device_feature_select (pci_cfg d)) x) as [<-|]; simpl.
  - by constructor.
  - constructor; simpl; done.
Qed.
(** Selecting the other word of the accepted features keeps the features and shows the word. *)
Lemma select_driver_shown d x : features_shown d -> in_width 32 x ->
  let d' := driver_feature_written (pci_cfg d) (driver_feature_selected (pci_cfg d) (set_cfg d {| (pci_cfg d) with driver_feature_select := x |})) in
  features_shown d' ∧ driver_features d' = driver_features d ∧ driver_feature_select (pci_cfg d') = x.
Proof.
  intros Hs Hx. pose proof Hs as [H1 H2 H3 H4 H5 H6 H7]. cbv zeta. unfold driver_feature_selected. cbn [pci_cfg set_cfg].
  cbn [driver_feature_select driver_feature]. destruct (Z.eqb_spec (driver_feature_select (pci_cfg d)) x) as [<-|Hne]; cbn [negb].
  - rewrite driver_feature_same by done. split; [|done]. by apply (features_shown_part d).
  - set (F := driver_features d). assert (E : word_set (driver_feature_select (pci_cfg d)) (driver_feature (pci_cfg d)) F = F).
    { destruct (decide (driver_feature_select (pci_cfg d) <= 1)) as [Hle|Hgt].
      - rewrite H4 by done. apply word_set_same; [done|]. destruct H1. lia.
      - unfold word_set. destruct (Z.ltb_spec 1 (driver_feature_select (pci_cfg d))); [done|lia]. }
    rewrite driver_feature_word_set_spec. unfold set_cfg. cbn [driver_features pci_cfg]. fold F. rewrite E.
    set (w := vnet_pci_dev_feature_select (s32 x) F).
    assert (Hw : in_width 32 w) by by apply feature_select_width.
    assert (Hw1 : x <= 1 -> w = feature_word x F) by (intros; apply feature_select_word; destruct Hx; lia).
    assert (E2 : word_set x w F = F).
    { destruct (decide (x <= 1)) as [Hle|Hgt].
      - rewrite Hw1 by done. apply word_set_same; [done|]. destruct Hx. lia.
      - unfold word_set. destruct (Z.ltb_spec 1 x); [done|lia]. }
    unfold driver_feature_written. cbn [pci_cfg driver_feature driver_feature_select]. fold w.
    destruct (negb _); [rewrite driver_feature_word_set_spec; cbn [driver_features]; rewrite E2|];
      (split; [constructor; simpl; done|done]).
Qed.
(** Writing the word sets the selected half. *)
Lemma write_driver_shown d x : features_shown d -> in_width 32 x ->
  let d' := driver_feature_written (pci_cfg d) (set_cfg d {| (pci_cfg d) with driver_feature := x |}) in
  features_shown d' ∧ driver_features d' = word_set (driver_feature_select (pci_cfg d)) x (driver_features d) ∧
  driver_feature_select (pci_cfg d') = driver_feature_select (pci_cfg d).
Proof.
  intros Hs Hx. pose proof Hs as [H1 H2 H3 H4 H5 H6 H7]. cbv zeta. unfold driver_feature_written. cbn [pci_cfg set_cfg driver_feature driver_feature_select].
  set (sel := driver_feature_select (pci_cfg d)) in *. destruct (Z.eqb_spec (driver_feature (pci_cfg d)) x) as [<-|Hne]; cbn [negb].
  - assert (E : word_set sel (driver_feature (pci_cfg d)) (driver_features d) = driver_features d).
    { destruct (decide (sel <= 1)) as [Hle|Hgt].
      - rewrite H4 by done. apply word_set_same; [done|]. destruct H1. lia.
      - unfold word_set. destruct (Z.ltb_spec 1 sel); [done|lia]. }
    rewrite E. split; [by apply (features_shown_part d)|done].
  - rewrite driver_feature_word_set_spec. cbn [driver_features]. split; [|done]. constructor; simpl; try done.
    + by apply word_set_width.
    + intros Hle. symmetry. apply word_set_word; [destruct H1; lia|done|done].
Qed.

Lemma save_vq_part d i : feature_part (save_vq d i) = feature_part d.
Proof. unfold save_vq. by case_match. Qed.
Lemma queue_stages_part prev d : feature_part (queue_saved (queue_selected prev d)) = feature_part d.
Proof.
  assert (H : forall d, feature_part (queue_saved d) = feature_part d).
  { intros. unfold queue_saved. case_match; [|done]. apply save_vq_part. }
  rewrite H. unfold queue_selected. case_match; [|done]. rewrite <- (save_vq_part d (queue_select prev)). done.
Qed.
Lemma reset_shown d : features_shown d -> features_shown (vnet_pci_device_reset d).
Proof.
  intros [H1 H2 H3 H4 H5 H6 H7].
  apply (features_shown_part {| d with driver_features := 0; pci_cfg := {| (pci_cfg d) with driver_feature := 0; driver_feature_select := 0 |} |}).
  - unfold vnet_pci_device_reset, vnet_pci_device_queue_init, feature_part. cbn [pci_cfg]. by destruct (imap _ _).
  - by constructor.
Qed.
Lemma status_written_shown prev d : features_shown d -> features_shown (status_written prev d).
Proof.
  intros H. unfold status_written. case_match; [|done]. case_match.
  - apply reset_shown. by apply (features_shown_part d).
  - case_match; [|done]. by apply (features_shown_part d); [apply save_vq_part|].
Qed.

(** The features after the word [k] was written. *)
Lemma written_features d k val m : features_shown d -> in_width 32 val -> in_width 32 m -> 0 <= k < 16 -> rejected d k val m = false ->
  features_shown (written d k val m).
Proof.
  intros Hs Hv Hm Hk Hr. unfold written. cbv zeta. apply status_written_shown. set (prev := pci_cfg d).
  eapply features_shown_part; [apply queue_stages_part|]. set (x := merged (cfg_word prev k) val m).
  pose proof Hs as [H1 H2 H3 H4 H5 H6 H7].
  assert (Hsame : forall c, device_feature_select c = device_feature_select prev -> device_feature c = device_feature prev ->
    driver_feature_select c = driver_feature_select prev -> driver_feature c = driver_feature prev ->
    features_shown (driver_feature_written prev (driver_feature_selected prev (device_feature_selected prev (set_cfg d c))))).
  { intros c E1 E2 E3 E4. rewrite device_feature_same, driver_select_same, driver_feature_same by done.
    apply (features_shown_part d); [|done]. unfold feature_part. simpl. by rewrite E1, E2, E3, E4. }
  assert (k = 0 ∨ k = 1 ∨ k = 2 ∨ k = 3 ∨ k = 4 ∨ k = 5 ∨ 6 <= k < 15 ∨ k = 15) as Hc by lia.
  destruct_or! Hc; try subst k.
  - assert (Hx : in_width 32 x) by by apply merged_width.
    rewrite (driver_select_same prev), (driver_feature_same prev) by (unfold device_feature_selected; by case_match).
    by apply select_device_shown.
  - unfold rejected, read_only_changed in Hr. rewrite !orb_false_iff in Hr. destruct Hr as [[[[Hr _] _] _] _].
    apply negb_false_iff, Z.eqb_eq in Hr. by apply Hsame.
  - assert (Hx : in_width 32 x) by by apply merged_width. rewrite (device_feature_same prev) by done. by apply select_driver_shown.
  - assert (Hx : in_width 32 x) by by apply merged_width.
    rewrite (device_feature_same prev), (driver_select_same prev) by done. by apply write_driver_shown.
  - by apply Hsame.
  - by apply Hsame.
  - destruct (cfg_vq_word prev k x Hc) as [_ ->]. by apply Hsame.
  - by apply Hsame.
Qed.

Lemma written_bar0 d k val m : bar0 (written d k val m) = bar0 d.
Proof.
  assert (Hs : forall d i, bar0 (save_vq d i) = bar0 d) by (intros; unfold save_vq; by case_match).
  assert (H1 : forall prev d, bar0 (status_written prev d) = bar0 d).
  { intros. unfold status_written. case_match; [|done]. case_match; [done|]. case_match; [apply Hs|done]. }
  assert (H2 : forall d, bar0 (queue_saved d) = bar0 d) by (intros; unfold queue_saved; case_match; [apply Hs|done]).
  assert (H3 : forall prev d, bar0 (queue_selected prev d) = bar0 d) by (intros; unfold queue_selected; case_match; [apply Hs|done]).
  assert (H4 : forall prev d, bar0 (driver_feature_written prev d) = bar0 d).
  { intros. unfold driver_feature_written. rewrite driver_feature_word_set_spec. by case_match. }
  assert (H5 : forall prev d, bar0 (driver_feature_selected prev d) = bar0 d).
  { intros. unfold driver_feature_selected. rewrite driver_feature_word_set_spec. by case_match. }
  assert (H6 : forall prev d, bar0 (device_feature_selected prev d) = bar0 d) by (intros; unfold device_feature_selected; by case_match).
  unfold written. by rewrite H1, H2, H3, H4, H5, H6.
Qed.

(** In every state the device reaches. *)
Definition shown_ok (s : vnet_state) : Prop := ws_ok (st_ws s) ∧ features_shown (st_dev s).

Lemma write32_shown s k val m : shown_ok s -> in_width 32 val -> in_width 32 m -> 0 <= k < 16 ->
  exists s', vnet_pci_device_pci_cfg_write32 s (4 * k) val m = Done s' ∧ shown_ok s' ∧
    (rejected (st_dev (vnet_pci_device_apply_reset_status_release s)) k val m = false ->
     feature_part (st_dev s') = feature_part (written (st_dev (vnet_pci_device_apply_reset_status_release s)) k val m)) ∧ bar0 (st_dev s') = bar0 (st_dev s).
Proof.
  intros [H Hs] Hv Hm Hk. destruct (write32_spec s (4 * k) val m H) as (s' & E & H' & Hr). exists s'. split; [done|].
  rewrite (Z.mul_comm 4 k), Z.div_mul in Hr by done. set (r := st_dev (vnet_pci_device_apply_reset_status_release s)) in *.
  destruct (release_spec s) as (_ & Hd). fold r in Hd.
  assert (Hr0 : features_shown r) by (eapply features_shown_part; [by apply registers_feature_part|done]).
  destruct (rejected r k val m) eqn:Er.
  - subst s'. split; [done|]. split; [done|]. exact (f_equal bar0 Hd).
  - destruct Hr as [Hr _]. split; [split; [done|]|split; [intros _; by apply registers_feature_part|]].
    + eapply features_shown_part; [by apply registers_feature_part|]. by apply written_features.
    + trans (bar0 r); [|exact (f_equal bar0 Hd)]. trans (bar0 (written r k val m)); [exact (f_equal bar0 Hr)|].
      apply written_bar0.
Qed.

Lemma submit_dev s c s' : submit s c = Done s' -> st_dev s' = st_dev s.
Proof. unfold submit. intros H. inv_bind H. destruct x as [b wq]. by simplify_eq/=. Qed.
Lemma deferred_init_dev s s' : deferred_init s = Done s' -> st_dev s' = st_dev s.
Proof.
  unfold deferred_init. destruct (st_ctrl s) as [c|]; [|by intros [= <-]]. destruct (deferred_init_pending c); [|by intros [= <-]].
  destruct (negb (virtio_device c)); [by intros [= <-]|]. set (c' := negotiated _ _). intros H. inv_bind H. inv_bind H. inv_bind H.
  apply submit_dev in H, E0, E1. rewrite H, E1, E0. destruct (negb _); [by apply submit_dev in E|by injection E as <-].
Qed.
Lemma cleanup_end_part s f i s' : cleanup_end s f i = Done s' -> feature_part (st_dev s') = feature_part (st_dev s).
Proof.
  unfold cleanup_end. destruct (st_ctrl s) as [c|]; [|by intros [= <-]]. destruct f; [by intros [= <-]|]. destruct i; [by intros [= <-]|].
  intros H%deferred_init_dev. rewrite H. unfold release_hold. by repeat case_match.
Qed.
Lemma worker_step_dev s s' : worker_step s = Done s' -> st_dev s' = st_dev s.
Proof.
  unfold worker_step. destruct (in_cleanup s); [by intros [= <-]|]. intros H. inv_bind H. destruct x as [ws e]. injection H as <-.
  case_match; [|done]. unfold cleanup_begin. simpl. by repeat case_match.
Qed.
Lemma fatal_part s : feature_part (st_dev (vnet_process_pending_fatal_errors s)) = feature_part (st_dev s).
Proof. unfold vnet_process_pending_fatal_errors. destruct (st_ctrl s); [|done]. by repeat case_match. Qed.
Lemma write32_word s offset val m : vnet_pci_device_pci_cfg_write32 s offset val m = vnet_pci_device_pci_cfg_write32 s (4 * (offset / 4)) val m.
Proof. unfold vnet_pci_device_pci_cfg_write32. by rewrite (Z.mul_comm 4 (offset / 4)), Z.div_mul by done. Qed.
Lemma flr_shown s s' : shown_ok s -> vnet_pci_device_handle_flr s = Done s' -> features_shown (st_dev s').
Proof.
  intros [H Hs]. unfold vnet_pci_device_handle_flr. destruct (flr_in_progress (st_dev s)); [by intros [= <-]|]. cbv zeta.
  set (d := if (_ || _) then _ else _). match goal with |- context [virtio_net_ctrl_change_cb ?s1] =>
    destruct (change_cb_spec s1 H) as (s2 & -> & _ & Hr) end. intros [= <-].
  eapply features_shown_part; [by apply registers_feature_part|]. apply reset_shown. apply (features_shown_part (st_dev s)); [|done].
  unfold d. by case_match.
Qed.

Lemma vnet_act_shown s a : shown_ok s -> exists s', vnet_act s a = Done s' ∧ shown_ok s'.
Proof.
  intros Hok. pose proof Hok as [Hv Hs]. destruct (vnet_act_ok s a Hv) as (s' & E & Hv'). exists s'. split; [done|]. split; [done|].
  destruct a as [addr val m|addr| | |f i|f| |g| |c]; cbn [vnet_act] in E.
  - unfold vnet_pci_device_mmio_write32 in E. cbv zeta in E. destruct (Z.ltb_spec (vnet_pci_dev_bar_offset (st_dev s) addr) PCI_CFG_SIZE) as [Hl|]; [|by simplify_eq].
    rewrite write32_word in E. pose proof (u64_range (addr - Z.lor (Z.ldiff (fst (bar0 (st_dev s))) 0xF) (Z.shiftl (snd (bar0 (st_dev s))) 32))) as Hu.
    fold (vnet_pci_dev_bar_offset (st_dev s) addr) in Hu. unfold PCI_CFG_SIZE in Hl.
    destruct (write32_shown s (vnet_pci_dev_bar_offset (st_dev s) addr / 4) (u32 val) (u32 m) Hok) as (s2 & E2 & [_ H2] & _);
      [apply (uwrap_range 32); lia|apply (uwrap_range 32); lia|split; [apply Z.div_pos; lia|apply Z.div_lt_upper_bound; lia]|].
    rewrite E in E2. by simplify_eq.
  - injection E as <-. unfold vnet_pci_device_mmio_read32. cbv zeta. destruct (release_spec s) as (_ & Hr).
    destruct (_ <? PCI_CFG_SIZE); [eapply features_shown_part; [by apply registers_feature_part|done]|]. by case_match.
  - by apply (flr_shown s).
  - by rewrite (worker_step_dev _ _ E).
  - destruct (in_cleanup s); [|by simplify_eq]. eapply features_shown_part; [by eapply cleanup_end_part|done].
  - injection E as <-. by destruct (st_ctrl s).
  - injection E as <-. by destruct (st_ctrl s).
  - injection E as <-. by destruct (st_ctrl s).
  - injection E as <-. eapply features_shown_part; [apply fatal_part|done].
  - by rewrite (submit_dev _ _ _ E).
Qed.
Lemma vnet_acts_shown l : forall s, shown_ok s -> exists s', vnet_acts s l = Done s' ∧ shown_ok s'.
Proof.
  induction l as [|a l IH]; intros s Hs; simpl; [by exists s|].
  destruct (vnet_act_shown s a Hs) as (s1 & -> & H1). cbn [mbind res_bind]. by apply IH.
Qed.
Lemma init_shown features n admin size cfg bar : in_width 64 features -> features_shown (vnet_pci_device_init_internal features n admin size cfg bar).
Proof.
  intros Hf. unfold vnet_pci_device_init_internal. cbv zeta. set (f := if 0 <? Z.of_nat admin then _ else _).
  assert (Hw : in_width 64 f).
  { unfold f, VIRTIO_NET_F_CTRL_VQ, VIRTIO_NET_F_MQ, VNET_VIRTIO_F_ADMIN_VQ.
    match goal with |- in_width 64 ?e => assert (E : e = e mod 2 ^ 64) by (case_match; bits_eq); rewrite E; by apply (uwrap_range 64) end. }
  clearbody f. match goal with |- features_shown (vnet_pci_device_queue_init ?d) => apply (features_shown_part d); [|by constructor] end.
  unfold vnet_pci_device_queue_init, feature_part. cbn [pci_cfg]. by destruct (imap _ _).
Qed.

(** ** The host negotiates features *)

Definition word_addr (d : vnet_pci_device) (k : Z) : Z := u64 (Z.lor (Z.ldiff (fst (bar0 d)) 0xF) (Z.shiftl (snd (bar0 d)) 32) + 4 * k).
Definition write_word (d : vnet_pci_device) (k x : Z) : vnet_action := HostWrite (word_addr d k) x 0xFFFFFFFF.
Definition read_word (s : vnet_state) (k : Z) : Z := snd (vnet_pci_device_mmio_read32 s (word_addr (st_dev s) k)).

Lemma word_addr_offset d d' k : bar0 d' = bar0 d -> 0 <= k < 16 -> vnet_pci_dev_bar_offset d' (word_addr d k) = 4 * k.
Proof.
  intros E Hk. unfold vnet_pci_dev_bar_offset, word_addr, u64. rewrite E, uwrap_sub_l, Z.add_simpl_l. apply (u64_small (4 * k)). lia.
Qed.

(** The words of the features are never rejected, and a write to one of them sets no status. *)
Lemma feature_word_written d k x : k = 0 ∨ k = 2 ∨ k = 3 -> features_shown d -> in_width 32 x ->
  rejected d k x 0xFFFFFFFF = false ∧
  feature_part (written d k x 0xFFFFFFFF) = feature_part (driver_feature_written (pci_cfg d) (driver_feature_selected (pci_cfg d)
    (device_feature_selected (pci_cfg d) (set_cfg d (cfg_set_word (pci_cfg d) k x))))).
Proof.
  intros Hk [H1 H2 H3 H4 H5 H6 H7] Hx.
  assert (E : merged (cfg_word (pci_cfg d) k) x 0xFFFFFFFF = x) by (apply merged_full; [|done]; destruct_or! Hk; by subst k).
  split.
  - unfold rejected. rewrite E. unfold read_only_changed. destruct_or! Hk; subst k; simpl; by rewrite !Z.eqb_refl.
  - unfold written. cbv zeta. rewrite E. set (d1 := driver_feature_written _ _).
    destruct (queue_part_queues _ d1 (feature_stages_queue_part _ _)) as (_ & F2 & _ & F4 & _).
    assert (Hs : queue_select (pci_cfg d1) = queue_select (pci_cfg d)) by (rewrite F2; destruct_or! Hk; by subst k).
    rewrite status_same; [apply queue_stages_part|]. rewrite queue_saved_cfg, queue_select_same, F4 by done. destruct_or! Hk; by subst k.
Qed.

Lemma write_word_spec s d k x : shown_ok s -> bar0 (st_dev s) = bar0 d -> k = 0 ∨ k = 2 ∨ k = 3 ->
  exists s', vnet_act s (write_word d k x) = Done s' ∧ shown_ok s' ∧ bar0 (st_dev s') = bar0 d ∧
    let r := st_dev (vnet_pci_device_apply_reset_status_release s) in
    features_shown r ∧ feature_part r = feature_part (st_dev s) ∧
    feature_part (st_dev s') = feature_part (driver_feature_written (pci_cfg r) (driver_feature_selected (pci_cfg r)
      (device_feature_selected (pci_cfg r) (set_cfg r (cfg_set_word (pci_cfg r) k (u32 x)))))).
Proof.
  intros Hok Hb Hk. pose proof Hok as [_ Hs]. assert (Hk' : 0 <= k < 16) by lia. cbn [vnet_act write_word].
  unfold vnet_pci_device_mmio_write32. cbv zeta. rewrite (word_addr_offset d) by done. unfold PCI_CFG_SIZE.
  destruct (Z.ltb_spec (4 * k) 64) as [_|]; [|lia].
  assert (Hx : in_width 32 (u32 x)) by (apply (uwrap_range 32); lia).
  destruct (write32_shown s k (u32 x) (u32 0xFFFFFFFF) Hok Hx ltac:(done) Hk') as (s' & E & Hok' & Hw & Hb').
  destruct (release_spec s) as (_ & Hr). set (r := st_dev (vnet_pci_device_apply_reset_status_release s)) in *.
  assert (Hr0 : features_shown r) by (eapply features_shown_part; [by apply registers_feature_part|done]).
  destruct (feature_word_written r k (u32 x) Hk Hr0 Hx) as [Hrej Hfp].
  exists s'. split; [done|]. split; [done|]. split; [congruence|]. split; [done|]. split; [by apply registers_feature_part|].
  rewrite (Hw Hrej). exact Hfp.
Qed.

Lemma select_driver_word s d x : shown_ok s -> bar0 (st_dev s) = bar0 d -> exists s', vnet_act s (write_word d 2 x) = Done s' ∧ shown_ok s' ∧
  bar0 (st_dev s') = bar0 d ∧ driver_features (st_dev s') = driver_features (st_dev s) ∧ device_features (st_dev s') = device_features (st_dev s) ∧
  driver_feature_select (pci_cfg (st_dev s')) = u32 x.
Proof.
  intros Hok Hb. destruct (write_word_spec s d 2 x Hok Hb ltac:(lia)) as (s' & E & Hok' & Hb' & Hr & Er & Hp). exists s'. do 3 (split; [done|]).
  set (r := st_dev (vnet_pci_device_apply_reset_status_release s)) in *. rewrite device_feature_same in Hp by done.
  destruct (select_driver_shown r (u32 x) Hr ltac:(apply (uwrap_range 32); lia)) as (_ & E1 & E2).
  change (cfg_set_word (pci_cfg r) 2 (u32 x)) with {| (pci_cfg r) with driver_feature_select := u32 x |} in Hp.
  set (d' := driver_feature_written _ _) in *.
  assert (E3 : device_features d' = device_features r).
  { unfold d', driver_feature_written, driver_feature_selected. rewrite !driver_feature_word_set_spec. by repeat case_match. }
  injection Hp as _ _ P3 _ P5 P6. injection Er as _ _ _ _ R5 R6. rewrite P3, P5, P6, E1, E2, E3. done.
Qed.
Lemma set_driver_word s d x : shown_ok s -> bar0 (st_dev s) = bar0 d -> exists s', vnet_act s (write_word d 3 x) = Done s' ∧ shown_ok s' ∧
  bar0 (st_dev s') = bar0 d ∧ device_features (st_dev s') = device_features (st_dev s) ∧
  driver_features (st_dev s') = word_set (driver_feature_select (pci_cfg (st_dev s))) (u32 x) (driver_features (st_dev s)).
Proof.
  intros Hok Hb. destruct (write_word_spec s d 3 x Hok Hb ltac:(lia)) as (s' & E & Hok' & Hb' & Hr & Er & Hp). exists s'. do 3 (split; [done|]).
  set (r := st_dev (vnet_pci_device_apply_reset_status_release s)) in *. rewrite device_feature_same, driver_select_same in Hp by done.
  destruct (write_driver_shown r (u32 x) Hr ltac:(apply (uwrap_range 32); lia)) as (_ & E1 & E2).
  change (cfg_set_word (pci_cfg r) 3 (u32 x)) with {| (pci_cfg r) with driver_feature := u32 x |} in Hp.
  set (d' := driver_feature_written _ _) in *.
  assert (E3 : device_features d' = device_features r).
  { unfold d', driver_feature_written. rewrite !driver_feature_word_set_spec. by repeat case_match. }
  injection Hp as _ _ _ _ P5 P6. injection Er as _ _ R3 _ R5 R6. rewrite P5, P6, E1, E3, R3, R5, R6. done.
Qed.
Lemma select_device_word s d x : shown_ok s -> bar0 (st_dev s) = bar0 d -> exists s', vnet_act s (write_word d 0 x) = Done s' ∧ shown_ok s' ∧
  bar0 (st_dev s') = bar0 d ∧ device_features (st_dev s') = device_features (st_dev s) ∧ device_feature_select (pci_cfg (st_dev s')) = u32 x.
Proof.
  intros Hok Hb. destruct (write_word_spec s d 0 x Hok Hb ltac:(lia)) as (s' & E & Hok' & Hb' & Hr & Er & Hp). exists s'. do 3 (split; [done|]).
  set (r := st_dev (vnet_pci_device_apply_reset_status_release s)) in *.
  rewrite (driver_select_same (pci_cfg r)), (driver_feature_same (pci_cfg r)) in Hp by (unfold device_feature_selected; by case_match).
  injection Hp as P1 _ _ _ P5 _. injection Er as _ _ _ _ R5 _. rewrite P1, P5. unfold device_feature_selected. by case_match.
Qed.

Lemma read_word_spec s k : k = 1 ∨ k = 3 -> exists r, feature_part r = feature_part (st_dev s) ∧ read_word s k = cfg_word (pci_cfg r) k.
Proof.
  intros Hk. exists (st_dev (vnet_pci_device_apply_reset_status_release s)). destruct (release_spec s) as (_ & Hr).
  split; [by apply registers_feature_part|]. unfold read_word, vnet_pci_device_mmio_read32. cbv zeta.
  rewrite (word_addr_offset (st_dev s)) by (done || lia). unfold PCI_CFG_SIZE. destruct (Z.ltb_spec (4 * k) 64) as [_|]; [|lia].
  rewrite (Z.mul_comm 4 k), Z.div_mul by done. done.
Qed.
Lemma read_driver_word s : shown_ok s -> driver_feature_select (pci_cfg (st_dev s)) <= 1 ->
  read_word s 3 = feature_word (driver_feature_select (pci_cfg (st_dev s))) (driver_features (st_dev s)).
Proof.
  intros [Hv Hs] Hl. destruct (read_word_spec s 3 ltac:(lia)) as (r & Er & ->). injection Er as _ _ _ R4 _ _. simpl. rewrite R4.
  by apply (fs_driver_word _ Hs).
Qed.
Lemma read_device_word s : shown_ok s -> 0 <= device_feature_select (pci_cfg (st_dev s)) <= 1 ->
  read_word s 1 = feature_word (device_feature_select (pci_cfg (st_dev s))) (device_features (st_dev s)).
Proof.
  intros [Hv Hs] Hl. destruct (read_word_spec s 1 ltac:(lia)) as (r & Er & ->). injection Er as _ R2 _ _ _ _. simpl. rewrite R2.
  rewrite (fs_device_word _ Hs). by apply feature_select_word.
Qed.

(** The driver writes the features it accepts, the low word and then the high word. *)
Definition accept_features (d : vnet_pci_device) (lo hi : Z) : list vnet_action :=
  [write_word d 2 0; write_word d 3 lo; write_word d 2 1; write_word d 3 hi].

Lemma accept_features_spec s lo hi : shown_ok s -> exists s', vnet_acts s (accept_features (st_dev s) lo hi) = Done s' ∧ shown_ok s' ∧
  bar0 (st_dev s') = bar0 (st_dev s) ∧ driver_features (st_dev s') = Z.lor (Z.shiftl (u32 hi) 32) (u32 lo) ∧
  device_features (st_dev s') = device_features (st_dev s).
Proof.
  intros H. unfold accept_features. cbn [vnet_acts].
  destruct (select_driver_word s (st_dev s) 0 H eq_refl) as (s1 & -> & H1 & B1 & D1 & V1 & S1). cbn [mbind res_bind].
  destruct (set_driver_word s1 (st_dev s) lo H1 B1) as (s2 & -> & H2 & B2 & V2 & D2). cbn [mbind res_bind].
  destruct (select_driver_word s2 (st_dev s) 1 H2 B2) as (s3 & -> & H3 & B3 & D3 & V3 & S3). cbn [mbind res_bind].
  destruct (set_driver_word s3 (st_dev s) hi H3 B3) as (s4 & -> & H4 & B4 & V4 & D4). cbn [mbind res_bind].
  exists s4. do 3 (split; [done|]). split; [|congruence]. rewrite D4, S3, D3, D2, S1, D1.
  apply (word_set_both (u32 lo) (u32 hi) (driver_features (st_dev s))); [apply (uwrap_range 32); lia|apply (uwrap_range 32); lia|].
  by destruct H as [_ []].
Qed.

(** C13: the features the driver accepts are the features the device takes, and what is shown of them is true. In every state the device
    reaches, a driver that writes the two words of its features through the selector leaves exactly these 64 bits as the accepted
    features, whatever was selected or accepted before and although the words share one register; either word can be selected
    again and is read back as written, and the words of the offered features are read as they are offered. *)
Theorem features_negotiated features n admin size cfg bar ctrl_admin qps eps hp l lo hi :
  exists s s', vnet_acts (vnet_start (vnet_pci_device_init_internal (u64 features) n admin size cfg bar) (Some (controller_init ctrl_admin qps eps hp))) l = Done s ∧
    vnet_acts s (accept_features (st_dev s) lo hi) = Done s' ∧
    driver_features (st_dev s') = Z.lor (Z.shiftl (u32 hi) 32) (u32 lo) ∧ device_features (st_dev s') = device_features (st_dev s) ∧
    (forall j, 0 <= j <= 1 -> exists s'', vnet_act s' (write_word (st_dev s') 2 j) = Done s'' ∧ driver_features (st_dev s'') = driver_features (st_dev s') ∧
       read_word s'' 3 = feature_word j (driver_features (st_dev s'))) ∧
    (forall j, 0 <= j <= 1 -> exists s'', vnet_act s' (write_word (st_dev s') 0 j) = Done s'' ∧
       read_word s'' 1 = feature_word j (device_features (st_dev s))).
Proof.
  assert (Hi : shown_ok (vnet_start (vnet_pci_device_init_internal (u64 features) n admin size cfg bar) (Some (controller_init ctrl_admin qps eps hp)))).
  { split; [apply vnet_start_ok|]. apply init_shown. apply (uwrap_range 64). lia. }
  destruct (vnet_acts_shown l _ Hi) as (s & E & Hs). destruct (accept_features_spec s lo hi Hs) as (s' & E' & Hs' & _ & HD & HV).
  exists s, s'. do 4 (split; [done|]). split; intros j Hj.
  - destruct (select_driver_word s' (st_dev s') j Hs' eq_refl) as (s2 & E2 & H2 & _ & D2 & _ & S2). exists s2. do 2 (split; [done|]).
    rewrite u32_small in S2 by lia. rewrite read_driver_word, S2, D2 by (done || lia). done.
  - destruct (select_device_word s' (st_dev s') j Hs' eq_refl) as (s2 & E2 & H2 & _ & V2 & S2). exists s2. split; [done|].
    rewrite u32_small in S2 by lia. rewrite read_device_word, S2, V2, HV by (done || lia). done.
Qed.

Lemma features_negotiated_witness : exists s s', vnet_acts example_start bring_up = Done s ∧
  vnet_acts s (accept_features (st_dev s) 0x00420003 0x3) = Done s' ∧ driver_features (st_dev s') = 0x300420003 ∧
  exists s'', vnet_act s' (write_word (st_dev s') 2 1) = Done s'' ∧ read_word s'' 3 = 3.
Proof.
  destruct (features_negotiated 3 2 0 256 [0; 0; 0; 0; 0; 0] (4096, 0) 0 4 1 false bring_up 0x00420003 0x3) as (s & s' & E & E' & HD & _ & Hd & _).
  exists s, s'. split; [exact E|]. split; [exact E'|]. split; [rewrite HD; reflexivity|].
  destruct (Hd 1 ltac:(lia)) as (s'' & E2 & _ & Hr). exists s''. split; [exact E2|]. rewrite Hr, HD. reflexivity.
Defined.

(** ** FEATURES_OK *)

Fixpoint submit_all (s : vnet_state) (l : list submission) : res vnet_state :=
  match l with [] => Done s | c :: l => s ← submit s c; submit_all s l end.
(** What is left to the worker when the features are accepted. *)
Definition initialization (c : vnet_pci_dev_controller) : list submission :=
  (if offload_engine_started c then [] else [SubmitEngineStart (Some 0)]) ++ [SubmitInitializeVqs (Some 0); SubmitInitializeIoContext (Some 0)].

Definition initializing (d : vnet_pci_device) (c : vnet_pci_dev_controller) : vnet_pci_dev_controller :=
  negotiated d {| c with initialization_in_progress := true |}.

Lemma negotiated_started d c : offload_engine_started (negotiated d c) = offload_engine_started c.
Proof. unfold negotiated. by case_match. Qed.
Lemma features_ok_accepted s c : st_ctrl s = Some c -> vnet_pci_dev_validate_features (st_dev s) = true -> cleanup_running c = false ->
  features_ok s = submit_all (with_ctrl s (initializing (st_dev s) c)) (initialization c).
Proof.
  intros Hc Hv Hr. unfold features_ok, initialization. rewrite Hc, Hv. cbn [negb]. rewrite Hr at 1. cbv zeta.
  fold (initializing (st_dev s) c). assert (E : offload_engine_started (initializing (st_dev s) c) = offload_engine_started c) by (etrans; [apply negotiated_started|done]).
  rewrite E. destruct (offload_engine_started c); cbn [negb app submit_all].
  - cbn [mbind res_bind]. destruct (submit _ _) as [s1|]; [|done]. cbn [mbind res_bind]. by destruct (submit s1 _).
  - destruct (submit _ _) as [s1|]; [|done]. cbn [mbind res_bind]. destruct (submit s1 _) as [s2|]; [|done]. cbn [mbind res_bind]. by destruct (submit s2 _).
Qed.
Lemma submit_all_ok l : forall s, ws_ok (st_ws s) -> exists s', submit_all s l = Done s' ∧ ws_ok (st_ws s') ∧ st_dev s' = st_dev s ∧ st_ctrl s' = st_ctrl s.
Proof.
  induction l as [|c l IH]; intros s H; simpl; [by exists s|]. destruct (submit_ok s c H) as (ws & -> & H'). cbn [mbind res_bind].
  destruct (IH {| s with st_ws := ws |} H') as (s' & -> & H'' & E1 & E2). by exists s'.
Qed.

(** The dependencies that the device checks, eleven of those the virtio specification lists (5.1.3.1): a feature, and the features of
    which one is needed with it. *)
Definition feature_deps : list (Z * list Z) :=
  [(VIRTIO_NET_F_MQ, [VIRTIO_NET_F_CTRL_VQ]); (VIRTIO_NET_F_CTRL_RX, [VIRTIO_NET_F_CTRL_VQ]); (VIRTIO_NET_F_CTRL_VLAN, [VIRTIO_NET_F_CTRL_VQ]);
   (VIRTIO_NET_F_GUEST_TSO4, [VIRTIO_NET_F_GUEST_CSUM]); (VIRTIO_NET_F_GUEST_TSO6, [VIRTIO_NET_F_GUEST_CSUM]);
   (VIRTIO_NET_F_GUEST_UFO, [VIRTIO_NET_F_GUEST_CSUM]); (VIRTIO_NET_F_HOST_TSO4, [VIRTIO_NET_F_CSUM]); (VIRTIO_NET_F_HOST_TSO6, [VIRTIO_NET_F_CSUM]);
   (VIRTIO_NET_F_HOST_UFO, [VIRTIO_NET_F_CSUM]); (VIRTIO_NET_F_GUEST_ECN, [VIRTIO_NET_F_GUEST_TSO4; VIRTIO_NET_F_GUEST_TSO6]);
   (VIRTIO_NET_F_HOST_ECN, [VIRTIO_NET_F_HOST_TSO4; VIRTIO_NET_F_HOST_TSO6])].
(** Offered by the device, and complete. *)
Definition features_valid (d : vnet_pci_device) : Prop :=
  (forall i, Z.testbit (driver_features d) i = true -> Z.testbit (device_features d) i = true) ∧
  (forall f needed, (f, needed) ∈ feature_deps -> Z.testbit (driver_features d) f = true ->
     exists n, n ∈ needed ∧ Z.testbit (driver_features d) n = true).

Lemma has_feature_testbit x f : 0 <= f -> has_feature x f = Z.testbit x f.
Proof.
  intros Hf. unfold has_feature. destruct (Z.testbit x f) eqn:E.
  - destruct (Z.eqb_spec (Z.land x (Z.shiftl 1 f)) 0) as [E0|]; [|done]. apply (f_equal (fun z => Z.testbit z f)) in E0.
    rewrite Z.land_spec, E, Z.shiftl_1_l, Z.pow2_bits_true, Z.bits_0 in E0 by done. done.
  - assert (Z.land x (Z.shiftl 1 f) = 0) as ->; [|done]. apply Z.bits_inj'. intros i Hi. rewrite Z.land_spec, Z.shiftl_1_l, Z.bits_0.
    destruct (decide (i = f)) as [->|]; [by rewrite E|]. rewrite Z.pow2_bits_false by done. apply andb_false_r.
Qed.
Lemma offered_spec x y : (Z.ldiff x y =? 0) = true <-> forall i, Z.testbit x i = true -> Z.testbit y i = true.
Proof.
  rewrite Z.eqb_eq. split.
  - intros E i Hx. apply (f_equal (fun z => Z.testbit z i)) in E. rewrite Z.ldiff_spec, Hx, Z.bits_0 in E. by destruct (Z.testbit y i).
  - intros H. apply Z.bits_inj'. intros i Hi. rewrite Z.ldiff_spec, Z.bits_0. destruct (Z.testbit x i) eqn:E; [|done]. by rewrite H.
Qed.
(** One dependency, as the code tests it. *)
Definition dep_ok (x : Z) (dep : Z * list Z) : bool := negb (Z.testbit x dep.1 && negb (existsb (Z.testbit x) dep.2)).
Lemma dep_ok_spec x f needed : dep_ok x (f, needed) = true <-> (Z.testbit x f = true -> exists n, n ∈ needed ∧ Z.testbit x n = true).
Proof.
  unfold dep_ok. simpl. rewrite negb_true_iff. destruct (Z.testbit x f); simpl; [|by split].
  rewrite negb_false_iff, existsb_exists. split; [intros (n & Hn%list_elem_of_In & Ht) _; eauto|].
  intros H. destruct (H eq_refl) as (n & Hn & Ht). exists n. split; [by apply list_elem_of_In|done].
Qed.
Lemma check_deps_spec x : vnet_pci_dev_check_feature_deps x = forallb (dep_ok x) feature_deps.
Proof.
  unfold vnet_pci_dev_check_feature_deps, feature_deps, dep_ok. cbn [forallb existsb fst snd].
  rewrite !has_feature_testbit by done. rewrite !orb_false_r.
  repeat (destruct (_ && negb _); [done|]; cbn [negb andb]). done.
Qed.
Lemma validate_spec d : vnet_pci_dev_validate_features d = true <-> features_valid d.
Proof.
  unfold vnet_pci_dev_validate_features, features_valid. cbv zeta. rewrite <- offered_spec, check_deps_spec.
  destruct (Z.ldiff (driver_features d) (device_features d) =? 0); cbn [negb]; [|naive_solver].
  rewrite forallb_forall. split.
  - intros H. split; [done|]. intros f needed Hin. apply dep_ok_spec. apply H. by apply list_elem_of_In.
  - intros [_ H] [f needed] Hin%list_elem_of_In. apply dep_ok_spec. by apply H.
Qed.

(** What accepted features mean for the queues: more than one pair only with MQ and its control queue, and then as many as the TLP
    context has, of which one is used at first; the data queues wait when there is more than one endpoint without hot plug. Nothing
    else of the controller changes. *)
Record negotiation (d : vnet_pci_device) (c c' : vnet_pci_dev_controller) : Prop := {
  ng_mq : mq_feature_negotiated c' = true <->
    Z.testbit (driver_features d) VIRTIO_NET_F_MQ = true ∧ Z.testbit (driver_features d) VIRTIO_NET_F_CTRL_VQ = true;
  ng_admin : admin_vq_negotiated c' = true <->
    Z.testbit (driver_features d) VNET_VIRTIO_F_ADMIN_VQ = true ∧ 0 < ctrl_admin_queue_num c;
  ng_active : num_active_qps c' = 1;
  ng_desired : desired_qps c' = 1;
  ng_max : max_queue_pairs c' = if mq_feature_negotiated c' then tlp_max_queue_pairs c else 1;
  ng_deferred : initial_data_qps_deferred c' = true <->
    mq_feature_negotiated c' = true ∧ tlp_hotplug_mode c = false ∧ 1 < tlp_num_ep c;
  ng_progress : initialization_in_progress c' = true;
  ng_frame : {| c' with mq_feature_negotiated := mq_feature_negotiated c; admin_vq_negotiated := admin_vq_negotiated c;
                        num_active_qps := num_active_qps c; desired_qps := desired_qps c; max_queue_pairs := max_queue_pairs c;
                        initial_data_qps_deferred := initial_data_qps_deferred c;
                        initialization_in_progress := initialization_in_progress c |} = c;
}.
#[local] Arguments Z.testbit : simpl never.
Lemma initializing_spec d c : negotiation d c (initializing d c).
Proof.
  unfold initializing, negotiated. rewrite !has_feature_testbit by done. cbv zeta.
  assert (Ha : forall b, b && (0 <? ctrl_admin_queue_num c) = true <-> b = true ∧ 0 < ctrl_admin_queue_num c)
    by (intros; rewrite andb_true_iff, Z.ltb_lt; done).
  assert (Hd : negb (tlp_hotplug_mode c) && (1 <? tlp_num_ep c) = true <-> tlp_hotplug_mode c = false ∧ 1 < tlp_num_ep c)
    by (rewrite andb_true_iff, Z.ltb_lt, negb_true_iff; done).
  destruct (Z.testbit (driver_features d) VIRTIO_NET_F_CTRL_VQ) eqn:E1, (Z.testbit (driver_features d) VIRTIO_NET_F_MQ) eqn:E2, c;
    constructor; simpl in *; rewrite ?E1, ?E2; try exact (Ha _); try done; try (by split; [|intros [? ?]]).
  unfold vnet_tlp_ctx_should_defer_mq_start. simpl. rewrite Hd. by split; [|intros [_ ?]].
Qed.


Definition asking (features : Z) : vnet_state :=
  with_dev example_start {| (set_status example_dev 11) with driver_features := features; prev_status := 3 |}.

(** ** What the registers let the host do *)

Definition device_of (r : res vnet_state) : res vnet_pci_device := s ← r; Done (st_dev s).

(** The fields of a queue that are read-only for the driver are not among those a write is rejected for. *)
Lemma notify_off_writable :
  (d ← device_of (vnet_acts example_start [set_word 7 (Z.shiftl 5 16)]); Done (queue_notify_off (vq (pci_cfg d)))) = Done 5.
Proof. vm_compute. reflexivity. Qed.
(** The features can be changed after they were accepted with FEATURES_OK, to features the device did not offer. *)
Lemma features_change_after_ok :
  (d ← device_of (vnet_acts example_start (bring_up ++ [set_word 2 0; set_word 3 0xFFFFFFFF]));
   Done (negb (Z.land (device_status (pci_cfg d)) VNET_VIRTIO_DEVICE_STATUS_FEATURES_OK =? 0), vnet_pci_dev_validate_features d)) = Done (true, false).
Proof. vm_compute. reflexivity. Qed.
(** Words that do not exist are shown as zero, but not those whose number is negative as an int. *)
Lemma negative_feature_select :
  (d ← device_of (vnet_acts example_start [set_word 0 2]); Done (device_feature (pci_cfg d))) = Done 0 ∧
  (d ← device_of (vnet_acts example_start [set_word 0 0x80000000]); Done (device_feature (pci_cfg d))) = Done 3.
Proof. split; vm_compute; reflexivity. Qed.
(** An initialization deferred during a clean-up survives a reset: the items for the engine and the queues are submitted when the
    clean-up ends, although the host has reset the device again and accepted no features. *)
Lemma deferred_init_survives_reset :
  (s ← vnet_acts example_start (bring_up ++ [set_status_byte 0; WorkerStep; WorkerStep; set_status_byte 11; set_status_byte 0; CleanupEnd false false]);
   Done (status_of s, driver_features (st_dev s), wq_pending_work_count (ws_wq (st_ws s)))) = Done (64, 0, 3).
Proof. vm_compute. reflexivity. Qed.
(** DRIVER_OK starts the device even if FEATURES_OK is refused in the same write. *)
Lemma driver_ok_without_features :
  (s ← vnet_acts example_start [set_status_byte 0; set_status_byte 3; set_word 2 0; set_word 3 4; set_status_byte 15];
   Done (status_of s, wq_pending_work_count (ws_wq (st_ws s)))) = Done (7, 1).
Proof. vm_compute. reflexivity. Qed.
